(* ===== verification/_CoqProject ===== *)
-Q . S2P
Prelude.v
Crc24.v
Llc.v
LlcProps.v
Sndcp.v
SndcpProps.v
SndcpReasm.v
SndcpInv.v
SndcpRuns.v
Ns.v
NsProps.v
NsPeer.v
NsData.v
NsRuns.v
Sgsn.v
SgsnInv.v
Bssgp.v
BssgpInv.v
SgsnDemo.v
BssgpProps.v
BssgpCells.v
BssgpLlc.v
Gmm.v
Gtp.v
GmmInv.v
SgsnRuns.v
GmmProps.v
Meas.v
MeasProps.v
Chreq.v
Radio.v
ChanAlloc.v
AllocProps.v
RadioProps.v
Rsl.v
RslProps.v
RslRelease.v
RslRuns.v
RslHist.v
Handover.v
Paging.v
PagingProps.v
Bsc.v
BscProps.v
BscParts.v
BscOps.v
BscGraph.v
BscInv.v
BscRuns.v
BscOutcome.v
Msc.v
Cc.v
Subscr.v
CcApi.v
Mm.v
Mncc.v
MscDemo.v
CcSpec.v
CcRuns.v
CcRefine.v
CcLeave.v
CcProps.v
Trau.v
TrauProps.v
Rtp.v
RtpProps.v
Sysinfo.v
SysinfoProps.v
Mgcp.v
MgcpInv.v
MgcpProps.v
GbProxy.v
GbProxyProps.v
Gsm0340.v
Gsm0340Props.v
Sms.v
SmsInv.v
SmsSafe.v
SmsRefs.v
SmsProps.v
