(* ===== verification/Prelude.v ===== *)
(** * OpenBSC

    A model of the core of OpenBSC, the open-source GSM network in this repository, with the theorems
    that make it correct. File names below are relative to openbsc/src.

    ** The program

    OpenBSC is several programs over shared libraries. The base station controller (libbsc,
    libcommon) talks to base stations (BTS) over the A-bis interface: it hands out radio channels,
    pages mobiles, collects measurement reports, hands calls over, and offers the connections of
    mobiles to a switching centre above it (libmsc in the same program, or an MSC behind SCCP). The
    packet side (gprs, libgb) is a stack of protocols on the Gb interface: the Network Service (NS)
    carries BSSGP over UDP, BSSGP carries LLC frames, and LLC carries signalling and, through SNDCP,
    the user's packets. This development models the packet stack with the SGSN on top of it, the radio
    resource management of the base station controller with the system information it broadcasts, the
    switching centre (MSC) of the network in a box (mobility management, call control and the switch of
    calls), and the media: TRAU frames and RTP (libtrau) and the media gateway (libmgcp).

    ** The model

    Definitions carry the names of the C functions they translate. A [struct] is a Record, assigned in
    place with [r <| f := v |>]; an enumeration is an Inductive type; an integer that can wrap is a [Z]
    with its width written out ([u8], [u16], [u32]); a buffer is a list of octets. Pointers are kept
    as what they name: an index of a list or a store, or a path (BTS, TRX, time slot, channel).
    Code that changes a state runs in the monad [M]: a state, events in their order (messages,
    signals, callbacks), and [None] where the code follows a null pointer or leaves a buffer, which
    is undefined behaviour. Memory that may run out and answers of other parts are arguments.

    ** The files

    Prelude.v: C integers, records assigned in place, the monad [M], its equations ([run_steps],
    [run_with]), its total-correctness predicate [wp] and the preservation of invariants ([keeps]).

    The packet stack:
    - Crc24.v: gprs/crc24.c. The table-driven CRC-24 is the bit-serial division; it detects every
      corruption within three octets.
    - Llc.v, LlcProps.v: gprs/gprs_llc.c. LLMEs and LLEs, frame headers, sending and receiving of
      unacknowledged frames, XID, ciphering, assignment of TLLIs. Invariant of all entry points,
      delivery in order, rejection of corrupt and foreign frames.
    - Sndcp.v, SndcpProps.v, SndcpReasm.v, SndcpInv.v, SndcpRuns.v: gprs/gprs_sndcp.c. Segmentation
      and reassembly of packets, proved over the class [LlcService], which Llc.v implements; a packet
      sent on one side comes out on the other, whatever the order of the fragments.
    - Ns.v, NsProps.v, NsPeer.v, NsData.v, NsRuns.v: libgb/gprs_ns.c, gprs_ns_frgre.c. NS-VCs, the
      RESET, BLOCK and ALIVE procedures and unit data. Reception refines an abstract machine of one
      peer ([peer_step]); two peers complete the RESET procedure; a silent peer is given up.

    - GbProxy.v, GbProxyProps.v: gprs/gb_proxy.c over Ns.v. Where point-to-point traffic goes is a
      function of the history of messages; nothing makes the proxy follow a null pointer.

    The SGSN, one state with the contexts of cells, mobiles, PDP contexts and GGSNs:
    - Sgsn.v, SgsnInv.v: gprs/gprs_sgsn.c, the objects, their lists and timers, and their invariant.
    - Bssgp.v, BssgpInv.v, BssgpProps.v, BssgpCells.v: libgb/gprs_bssgp.c. Reception implements a table
      of cells ([spec_rcvmsg]); downlink unit data and its leaky buckets.
    - BssgpLlc.v: the way of a message through BSSGP and then LLC, and of the answers of LLC back down; which
      messages end the program on that way.
    - Gmm.v, Gtp.v, GmmInv.v, GmmProps.v: gprs/gprs_gmm.c and gprs/sgsn_libgtp.c. Attach, detach, routing
      area update, PDP contexts, their timers, the callbacks of libgtp, the restart of a GGSN.
    - SgsnRuns.v: all operations in any order. SgsnDemo.v: a concrete surrounding for witnesses.

    The radio resources:
    - Radio.v, RadioProps.v: libcommon/gsm_data_shared.c, gsm_data.c. Networks, BTSs, TRXs, time
      slots and logical channels, look-ups, channel numbers (a round trip) and load.
    - Chreq.v: the decoding of channel requests in libbsc/gsm_04_08_utils.c, against a decoder by the
      leading bits.
    - ChanAlloc.v, AllocProps.v: libbsc/chan_alloc.c. Allocation is sound and complete: what is handed
      out was free, and a request fails only when nothing could serve it.
    - Rsl.v, RslProps.v, RslRelease.v, RslRuns.v: the dedicated channels of libbsc/abis_rsl.c. From the
      channel request to the immediate assignment, and the release procedure against a BTS that
      answers; which messages follow a null pointer. RslHist.v: histories of all the operations of a BTS on
      its channels; no channel has two users.
    - Meas.v, MeasProps.v: libbsc/meas_rep.c. The ring of reports refines the history of reports.
    - Handover.v: libbsc/handover_decision.c. When a handover is decided and to which cell.
    - Paging.v, PagingProps.v: libbsc/paging.c. A queue that is not empty is waited for by a timer, the
      requests take turns, the cells of a location area are paged and stopped together.
    - Bsc.v: connections (libbsc/bsc_api.c), handover (libbsc/handover_logic.c) and radio links
      (libbsc/bsc_rll.c), over Rsl.v and ChanAlloc.v, with the signals between them dispatched where
      the code dispatches them. BscProps.v has the invariant and one lemma per primitive step ([shape]),
      BscParts.v and BscOps.v one per operation, BscGraph.v the moves of the pointers, BscInv.v and
      BscRuns.v the invariant of every operation in any order, BscOutcome.v where a connection ends up. The
      table of the MSC side ([BscApi]) may lack assign_fail, as that of libmsc/osmo_msc.c does, and a connection may
      lack a subscriber, as those of osmo-bsc do; the code follows both pointers. The environment
      ([may]) leaves out what the code does not check: an assignment request while an assignment or a handover is
      pending, a handover during an assignment or from another than the primary channel, and CHANNEL ACTIVATION NACK for a
      handover channel after its ACK. [second_assignment] and [nack_after_ack] show that the first and the last
      break the invariant.

    The MSC, one state with transactions, connections, subscribers and calls:
    - Msc.v: the data, libmsc/transaction.c and libbsc/gsm_subscriber_base.c. Objects live in stores; an
      object that was freed is not found, so that use after free is undefined here as it is there.
    - Cc.v, CcApi.v: call control in libmsc/gsm_04_08.c (handlers, timers, the two tables of states, the
      entries from the mobile and from the MNCC application, the switching of speech).
    - Subscr.v: libmsc/gsm_subscriber.c, the queue of channel requests of a subscriber.
    - Mm.v: the rest of gsm_04_08.c, libmsc/auth.c, silent_call.c, osmo_msc.c: location updating,
      authentication and ciphering, service requests, paging responses, the release of connections.
    - Mncc.v: the MNCC application, libmsc/mncc_builtin.c or mncc_sock.c; [upcalls] ties the calls that
      come back (from the application, and from the next channel request) to a given depth.
    - CcSpec.v: an abstract call. CcRuns.v, CcRefine.v: the handlers, the timers and the tables behave
      like it; CcLeave.v: the release of a transaction, with the next request of its subscriber, comes to its end;
      CcProps.v: the entries do, and what follows. MscDemo.v: a concrete surrounding. That a release comes to
      its end is shown where the subscriber is referenced by transaction and connection and the next request, if
      there is one, can page it ([can_leave]).
    - Gsm0340.v, Gsm0340Props.v: the transfer layer of short messages in libmsc/gsm_04_11.c: time stamps,
      validity periods, alphabets and the two TPDUs; what is submitted is delivered.
    - Sms.v: the CP and RP procedures of gsm_04_11.c and the queue of libmsc/sms_queue.c, in a state of their
      own with the parts of transactions, connections and subscribers that they use. SmsInv.v: the invariant
      of the stores and of the queue; SmsSafe.v: every operation keeps it and follows no freed pointer;
      SmsRefs.v: the references to subscribers; SmsProps.v: all operations in any order.

    The media and the broadcast:
    - Trau.v, TrauProps.v: libtrau/trau_mux.c. The joining of sub-slots and the frames of speech.
    - Rtp.v, RtpProps.v: libtrau/rtp_proxy.c. Sockets, their links and queues, RTP packets of speech.
    - Sysinfo.v, SysinfoProps.v: libbsc/system_information.c, libbsc/rest_octets.c and
      [generate_ma_for_ts] of libbsc/bsc_init.c. Frequency lists, rest octets and hopping, over the bit
      vectors of libosmocore (classes [Bitvec], [BitWriter]).
    - Mgcp.v, MgcpInv.v, MgcpProps.v: libmgcp/mgcp_protocol.c, mgcp_network.c and two commands of
      mgcp_vty.c. Endpoints, requests as texts, ports, the forwarding of RTP. Invariant of all
      operations, the outcome of CRCX and DLCX, the continuity of a patched stream.

    ** What the theorems show

    Invariants over every reachable state: [llc_reachable_wf], [sndcp_reachable_wf],
    [ns_reachable_wf], [sgsn_reachable_wf], [paging_never_stalls], [bsc_pointers_consistent], and over every
    history of a BTS [no_double_allocation]. Safety:
    which inputs follow a null pointer, exactly ([rcvmsg_null_pointer_iff], [rsl_null_pointer_iff],
    [bsc_null_pointer_iff], [bssgp_llc_fails_iff], [ggsn_restart]). Refinement:
    [rcvmsg_refines_peer_step], [meas_window], [handover_settles], [bssgp_implements_cells],
    [call_implements_spec], and from it [call_end_told_once] and [silent_call_ends]. Round trips
    and delivery: [npdu_end_to_end], [reassembly_any_order], [ui_stream_in_order], [unitdata_transfer], [chan_nr_roundtrip]. Progress: [reset_procedure],
    [release_completes], [silent_peer_blocked], [chan_rqd_answered], [assignment_settles],
    [silent_mobile]; and where there is none: [deactivation_never_ends]. Bounds: [flow_control_rate].
    Short messages: [sms_safe], [references_accounted], [submitted_is_delivered]. Gb proxy: [ptp_follows_history], [proxy_safe]. Media: [trau_switch], [speech_frame_roundtrip], [rtp_send_frame_stream], [rtp_links_safe],
    [relay_stream_continuous], [mgcp_endpoints_consistent], [crcx_creates_connection], [dlcx_checked];
    broadcast: [freq_list_roundtrip], [si13_roundtrip], [mobile_allocation_exact].

    ** Bounds

    Loops of the code that are not structural take fuel: the segmentation loop of SNDCP twice the
    length of the packet plus two ([frag_fuel]; every turn but the last consumes an octet), the
    scans of a location area one turn more than there are BTSs, the flow controls three levels (that of
    the mobile, that of its cell, and the null pointer the latter is given), the drawing of a P-TMSI
    as often as the surrounding says ([rand_draws]; the code draws until one is free). Theorems that say a loop ends say so
    for this fuel. The exchanges between two NS peers and the release procedure are bounded by 20 and
    12 messages; the theorems give the bound as part of the result. In the MSC, [upcalls] takes the
    depth to which calls of the application and of channel requests nest; theorems hold at any depth,
    and the walk over the list of transactions has a turn for each. The loop that fills the queue of short
    messages has the 1000 rounds the code gives it.

    ** Parameters

    Code outside the repository is an argument: the TLV parser and the constants of libosmocore
    (classes [LibosmoConst], [SgsnEnv], [MscEnv], [CalEnv], [SmsEnv]), libgtp, the answers of the subscriber database, the clock and the random numbers, the ciphering functions, the codec of channel descriptions, the socket.
    Hypotheses about them state what their documentation promises.

    ** Not modelled

    Supplementary services (libmsc), the BSC towards an MSC (osmo-bsc), the BSC NAT and the control
    interface. Left out for good: the VTY, the main programs, the
    database, the opening of sockets, the O&M protocols and the start-up sequences of the BTS models, and the
    stand-alone tools, which are input and output or glue. In the files that are modelled, logging and
    statistics are left out where nothing depends on them. Talloc's contexts are left out; freeing
    an object removes it from its store. *)

From stdpp Require Export base numbers list option gmap strings.
From Stdlib Require Export ZArith Lia.
From coqutil Require Import Z.bitblast.

#[global] Open Scope Z_scope.

(** * C integers and bit operations *)

Declare Scope c_scope.
Delimit Scope c_scope with c.
Notation "x .<< n" := (Z.shiftl x n) (at level 52, left associativity) : c_scope.
Notation "x .>> n" := (Z.shiftr x n) (at level 52, left associativity) : c_scope.
Notation "x .& y" := (Z.land x y) (at level 54, left associativity) : c_scope.
Notation "x .^ y" := (Z.lxor x y) (at level 56, left associativity) : c_scope.
Notation "x .| y" := (Z.lor x y) (at level 58, left associativity) : c_scope.
#[global] Open Scope c_scope.

(** The value kept by an unsigned object of [w] bits. *)
Definition wrap (w x : Z) : Z := x mod 2 ^ w.
Abbreviation u8 := (wrap 8).
Abbreviation u16 := (wrap 16).
Abbreviation u32 := (wrap 32).

(** [x] is a value of an unsigned object of [w] bits. *)
Definition in_width (w x : Z) : Prop := 0 <= x < 2 ^ w.

(** Every element is an octet. *)
Abbreviation octets := (Forall (in_width 8)).

(** [*(p + i)]: octet [i] of the memory at [p]; what lies beyond the end of the modelled
    buffer reads as 0. *)
Definition rd (buf : list Z) (i : nat) : Z := default 0 (buf !! i).

(** Return codes of the C library the sources use (Linux values). *)
Definition ENOENT : Z := 2.
Definition EIO : Z := 5.
Definition ENOMEM : Z := 12.
Definition EBUSY : Z := 16.
Definition EEXIST : Z := 17.
Definition ENODEV : Z := 19.
Definition EINVAL : Z := 22.
Definition EFBIG : Z := 27.
Definition ENOSPC : Z := 28.

(** ** Widths *)

Lemma wrap_in_width w x : 0 <= w -> in_width w (wrap w x).
Proof. intros Hw. apply Z.mod_pos_bound, Z.pow_pos_nonneg; lia. Qed.

Lemma wrap_small w x : in_width w x -> wrap w x = x.
Proof. intros H. by apply Z.mod_small. Qed.

Lemma wrap_land w x : 0 <= w -> wrap w x = x .& Z.ones w.
Proof. intros Hw. unfold wrap. by rewrite Z.land_ones. Qed.

Lemma in_width_testbit w x :
  0 <= w -> (in_width w x <-> 0 <= x /\ forall i, w <= i -> Z.testbit x i = false).
Proof.
  intros Hw. split.
  - intros [H0 H1]. split; [done|]. intros i Hi.
    rewrite <- (Z.mod_small x (2 ^ w)) by done. by apply Z.mod_pow2_bits_high.
  - intros [H0 H1]. assert (x mod 2 ^ w = x) as Hm.
    { apply Z.bits_inj'. intros n Hn. destruct (decide (n < w)).
      - by rewrite Z.mod_pow2_bits_low.
      - rewrite Z.mod_pow2_bits_high by lia. by rewrite H1 by lia. }
    unfold in_width. rewrite <- Hm. apply Z.mod_pos_bound, Z.pow_pos_nonneg; lia.
Qed.

Lemma in_width_mono w w' x : 0 <= w <= w' -> in_width w x -> in_width w' x.
Proof.
  intros Hw [H0 H1]. split; [done|].
  apply Z.lt_le_trans with (2 ^ w); [done|]. apply Z.pow_le_mono_r; lia.
Qed.

Lemma in_width_lxor w x y : 0 <= w -> in_width w x -> in_width w y -> in_width w (x .^ y).
Proof.
  intros Hw [Hx Hx']%in_width_testbit [Hy Hy']%in_width_testbit; try done.
  apply in_width_testbit; [done|]. split; [by apply Z.lxor_nonneg|].
  intros i Hi. rewrite Z.lxor_spec. by rewrite Hx', Hy' by done.
Qed.

Lemma in_width_lor w x y : 0 <= w -> in_width w x -> in_width w y -> in_width w (x .| y).
Proof.
  intros Hw [Hx Hx']%in_width_testbit [Hy Hy']%in_width_testbit; try done.
  apply in_width_testbit; [done|]. split; [by apply Z.lor_nonneg|].
  intros i Hi. rewrite Z.lor_spec. by rewrite Hx', Hy' by done.
Qed.


Lemma in_width_shiftl w n x : 0 <= n -> 0 <= w -> in_width w x -> in_width (w + n) (x .<< n).
Proof. intros Hn Hw [H0 H1]. rewrite Z.shiftl_mul_pow2 by done. split; [|rewrite Z.pow_add_r by lia]; nia. Qed.

Lemma in_width_shiftr w n x : 0 <= n <= w -> in_width w x -> in_width (w - n) (x .>> n).
Proof.
  intros Hn [H0 H1]. rewrite Z.shiftr_div_pow2 by lia. split.
  - apply Z.div_pos; [done|]. apply Z.pow_pos_nonneg; lia.
  - apply Z.div_lt_upper_bound; [apply Z.pow_pos_nonneg; lia|].
    rewrite <- Z.pow_add_r by lia. by replace (n + (w - n)) with w by lia.
Qed.

Lemma in_width_land_ones w x : 0 <= w -> in_width w (x .& Z.ones w).
Proof. intros Hw. rewrite <- wrap_land by done. by apply wrap_in_width. Qed.

Lemma in_width_land255 x : in_width 8 (x .& 255).
Proof. by apply (in_width_land_ones 8). Qed.

Lemma lxor_eq_0 a b : a .^ b = 0 -> a = b.
Proof. apply Z.lxor_eq. Qed.

(** ** Facts decided by running through a finite range *)

Lemma range_forall (P : Z -> bool) (n : nat) :
  forallb (fun i => P (Z.of_nat i)) (seq 0 n) = true ->
  forall x, 0 <= x < Z.of_nat n -> P x = true.
Proof.
  intros H x Hx. rewrite forallb_forall in H.
  specialize (H (Z.to_nat x)). rewrite Z2Nat.id in H by lia.
  apply H. apply in_seq. lia.
Qed.

Create HintDb c_width.
#[export] Hint Resolve in_width_lxor in_width_land255 : c_width.

(** * Record fields assigned in place

    [r <| f := v |>] is the record [r] after the assignment [r->f = v]. *)

Class Upd {R T : Type} (proj : R -> T) : Type := upd : (T -> T) -> R -> R.
Arguments upd {R T} proj {_} f r : assert.

Notation "r <| f := v |>" := (upd f (fun _ => v) r)
  (at level 1, f at level 1, v at level 99, left associativity,
   format "r  <| f  :=  v |>") : c_scope.
Notation "r <| f ::= g |>" := (upd f g r)
  (at level 1, f at level 1, g at level 99, left associativity,
   format "r  <| f  ::=  g |>") : c_scope.

(** * Results: a value or a negative return code *)

Inductive res (A : Type) : Type :=
| Ok (a : A)
| Err (rc : Z).
Arguments Ok {A} a.
Arguments Err {A} rc.

(** C truth of [x & m]. *)
Definition tst (x m : Z) : bool := negb (x .& m =? 0).

(** [p[i]] for an [int] index. *)
Definition rdz (buf : list Z) (i : Z) : Z := rd buf (Z.to_nat i).

(** [x[i] ^= y[i]] for [i < n], from octet [off] of the buffer on. *)
Fixpoint xor_prefix (n : nat) (buf key : list Z) : list Z :=
  match n, buf with
  | S n, x :: buf => (x .^ rd key 0) :: xor_prefix n buf (tail key)
  | _, _ => buf
  end.
Definition xor_at (off n : nat) (buf key : list Z) : list Z :=
  take off buf ++ xor_prefix n (drop off buf) key.

Lemma rd_app_l a b i : (i < length a)%nat -> rd (a ++ b) i = rd a i.
Proof. intros Hi. unfold rd. by rewrite lookup_app_l. Qed.

Lemma rd_app_r a b i : (length a <= i)%nat -> rd (a ++ b) i = rd b (i - length a).
Proof. intros Hi. unfold rd. by rewrite lookup_app_r. Qed.

Lemma rd_octet buf i : octets buf -> in_width 8 (rd buf i).
Proof.
  intros Hb. unfold rd. destruct (buf !! i) as [x|] eqn:E; [|done].
  cbn. by eapply Forall_lookup_1.
Qed.

Lemma length_xor_prefix n buf key : length (xor_prefix n buf key) = length buf.
Proof. revert buf key. induction n; intros [|x buf] key; cbn; by rewrite ?IHn. Qed.

Lemma length_xor_at off n buf key : length (xor_at off n buf key) = length buf.
Proof.
  unfold xor_at. rewrite length_app, length_xor_prefix, <- length_app. by rewrite take_drop.
Qed.

(** The key stream applied twice is no change. *)
Lemma xor_prefix_involutive n buf key : xor_prefix n (xor_prefix n buf key) key = buf.
Proof.
  revert buf key. induction n as [|n IH]; intros [|x buf] key; cbn; [done..|].
  by rewrite Z.lxor_assoc, Z.lxor_nilpotent, Z.lxor_0_r, IH.
Qed.

(** ** Lists updated in place *)

Lemma list_insert_alter {A} (f : A -> A) (i : nat) (xs : list A) x :
  xs !! i = Some x -> <[i := f x]> xs = alter f i xs.
Proof.
  revert i. induction xs as [|y xs IH]; intros [|i] Hi; cbn in *; [done|done|by injection Hi as ->|].
  f_equal. by apply IH.
Qed.
Lemma list_delete_alter {A} (f : A -> A) (xs : list A) i : delete i (alter f i xs) = delete i xs.
Proof. revert i. induction xs as [|x xs IH]; intros [|i]; cbn; [done..|]. f_equal. apply IH. Qed.
Lemma list_filter_id {A} (P : A -> Prop) `{!forall x, Decision (P x)} (xs : list A) :
  Forall P xs -> filter P xs = xs.
Proof. induction 1 as [|x xs Hx _ IH]; [done|]. rewrite filter_cons, decide_True by done. by rewrite IH. Qed.

(** Prove a conjunction from the conjunction of checks [H] that was run on it. *)
Ltac split_checked H :=
  repeat match type of H with
         | (_ && _) = true => apply andb_true_iff in H as [H ?]
         end;
  repeat match goal with |- _ /\ _ => split end;
  first [ assumption | by apply negb_true_iff | by apply Z.eqb_eq | by apply Bool.eqb_prop ].

(** Write every record assignment of the goal out as the record it builds, innermost first. *)
Ltac upd_norm :=
  repeat match goal with
         | |- context [@upd ?R ?T ?p ?i ?f ?r] =>
             lazymatch r with
             | context [@upd] => fail
             | _ =>
                 let i' := eval red in i in
                 let t := eval cbn in (i' f r) in
                 change (@upd R T p i f r) with t
             end
         end.

(** Complementing within a width loses nothing. *)
Lemma lnot_ones_inj x y :
  Z.lnot x .& 0xffffff = Z.lnot y .& 0xffffff -> in_width 24 x -> in_width 24 y -> x = y.
Proof.
  intros H Hx Hy. change 0xffffff with (Z.ones 24) in H. rewrite !Z.land_ones in H by lia.
  unfold Z.lnot, in_width in *. change (2 ^ 24) with 16777216 in *.
  Z.to_euclidean_division_equations. lia.
Qed.

(** Bounds on closed terms, by evaluation. *)
Ltac vm_bounds := vm_compute; repeat split; (reflexivity || discriminate || lia).

(** * Code that changes a state and emits events

    [M S E A]: from a state of type [S], undefined behaviour ([None]: a null pointer is followed),
    or a result, the new state and the events emitted, in their order. *)

Definition M (S E A : Type) : Type := S -> option (A * S * list E).

#[export] Instance M_ret {S E} : MRet (M S E) := fun A a st => Some (a, st, []).
#[export] Instance M_bind {S E} : MBind (M S E) := fun A B k m st =>
  match m st with
  | None => None
  | Some (a, st, ev) =>
      match k a st with
      | None => None
      | Some (b, st, ev') => Some (b, st, ev ++ ev')
      end
  end.

Definition fault {S E A} : M S E A := fun _ => None.
Definition gets {S E A} (f : S -> A) : M S E A := fun st => Some (f st, st, []).
Definition modify {S E} (f : S -> S) : M S E unit := fun st => Some (tt, f st, []).
Definition emit {S E} (e : E) : M S E unit := fun st => Some (tt, st, [e]).
(** [if (b) m;] *)
Definition when {S E} (b : bool) (m : M S E unit) : M S E unit := if b then m else mret tt.

(** [ev] was emitted before the rest of a run. *)
Definition emits {S E A} (ev : list E) (r : option (A * S * list E)) : option (A * S * list E) :=
  match r with
  | Some (a, st, ev') => Some (a, st, ev ++ ev')
  | None => None
  end.

Section runs.
Context {S E A B : Type}.
Implicit Types (k : A -> M S E B) (st : S).

Lemma run_bind (m : M S E A) k st a st' ev :
  m st = Some (a, st', ev) -> (m ≫= k) st = emits ev (k a st').
Proof. intros Hm. unfold mbind, M_bind. by rewrite Hm. Qed.
Lemma run_gets (f : S -> A) k st : (gets f ≫= k) st = k (f st) st.
Proof. unfold mbind, M_bind, gets. by destruct (k (f st) st) as [[[b s] e]|]. Qed.
Lemma run_ret (a : A) k st : (mret a ≫= k) st = k a st.
Proof. unfold mbind, M_bind, mret, M_ret. by destruct (k a st) as [[[b s] e]|]. Qed.
Lemma run_modify (f : S -> S) (k : unit -> M S E B) st : (modify f ≫= k) st = k tt (f st).
Proof. unfold mbind, M_bind, modify. by destruct (k tt (f st)) as [[[b s] e]|]. Qed.
Lemma run_emit (e : E) (k : unit -> M S E B) st : (emit e ≫= k) st = emits [e] (k tt st).
Proof. done. Qed.
Lemma run_when (b : bool) (f : S -> S) (k : unit -> M S E B) st :
  (when b (modify f) ≫= k) st = k tt (if b then f st else st).
Proof.
  destruct b; cbn [when]; [by rewrite run_modify|].
  unfold mbind, M_bind, mret, M_ret. by destruct (k tt st) as [[[b s] e]|].
Qed.
Lemma run_when_emit (b : bool) (e : E) (k : unit -> M S E B) st :
  (when b (emit e) ≫= k) st = emits (if b then [e] else []) (k tt st).
Proof. by destruct b. Qed.
Lemma emits_nil (r : option (A * S * list E)) : emits [] r = r.
Proof. by destruct r as [[[a s] e]|]. Qed.
Lemma emits_emits e1 e2 (r : option (A * S * list E)) : emits e1 (emits e2 r) = emits (e1 ++ e2) r.
Proof. destruct r as [[[a s] e]|]; cbn; [|done]. by rewrite app_assoc. Qed.
Lemma run_assoc {C} (m : M S E C) (f : C -> M S E A) k st :
  ((m ≫= f) ≫= k) st = (m ≫= (fun x => f x ≫= k)) st.
Proof.
  unfold mbind, M_bind. destruct (m st) as [[[c s] e]|]; [|done]. destruct (f c s) as [[[a s'] e']|]; [|done].
  destruct (k a s') as [[[b s''] e'']|]; [|done]. by rewrite app_assoc.
Qed.
(** A program that ends in another one. *)
Lemma run_tail (m m' : M S E A) k st st' ev :
  m st = emits ev (m' st') -> (m ≫= k) st = emits ev ((m' ≫= k) st').
Proof.
  intros H. unfold mbind, M_bind. rewrite H. destruct (m' st') as [[[a s] e]|]; [|done]. cbn.
  destruct (k a s) as [[[b s'] e']|]; [|done]. cbn. by rewrite app_assoc.
Qed.
End runs.

(** Run the simple steps at the front of a program. *)
Ltac run_steps :=
  repeat first [ rewrite run_gets | rewrite run_ret | rewrite run_modify | rewrite run_when
               | rewrite run_when_emit | rewrite run_emit | rewrite emits_nil | rewrite emits_emits ].

(** Run the first step of a program, whose outcome is the equation [H]. *)
Tactic Notation "run_with" uconstr(H) := rewrite (run_bind _ _ _ _ _ _ H), ?emits_nil.

(** The program [m] runs from [st] without undefined behaviour and ends in [Q]. *)
Definition wp {S E A} (m : M S E A) (Q : A -> S -> Prop) (st : S) : Prop :=
  match m st with
  | Some (a, st, _) => Q a st
  | None => False
  end.

Section wp.
Context {S E A B : Type}.
Implicit Types (Q : A -> S -> Prop) (st : S).

Lemma wp_ret a Q st : wp (mret a : M S E A) Q st <-> Q a st.
Proof. done. Qed.
Lemma wp_bind (m : M S E B) (k : B -> M S E A) Q st :
  wp (m ≫= k) Q st <-> wp m (fun b => wp (k b) Q) st.
Proof.
  unfold wp, mbind, M_bind. destruct (m st) as [[[b st'] ev]|]; [|done].
  by destruct (k b st') as [[[a st''] ev']|].
Qed.
Lemma wp_mono (m : M S E A) Q (Q' : A -> S -> Prop) st :
  wp m Q st -> (forall a st', Q a st' -> Q' a st') -> wp m Q' st.
Proof. unfold wp. destruct (m st) as [[[a st'] ev]|]; [|done]. auto. Qed.
Lemma wp_run (m : M S E A) Q st a st' ev : m st = Some (a, st', ev) -> wp m Q st <-> Q a st'.
Proof. unfold wp. by intros ->. Qed.
Lemma wp_elim (m : M S E A) Q st :
  wp m Q st -> exists a st' ev, m st = Some (a, st', ev) /\ Q a st'.
Proof. unfold wp. destruct (m st) as [[[a st'] ev]|]; [|done]. by exists a, st', ev. Qed.
Lemma wp_self (m : M S E A) Q st : wp m Q st -> wp m (fun a st' => (exists ev, m st = Some (a, st', ev)) /\ Q a st') st.
Proof. unfold wp. destruct (m st) as [[[a st'] ev]|]; [|done]. intros HQ. split; [by exists ev|done]. Qed.
(** A program whose rest runs into undefined behaviour. *)
Lemma bind_none (m : M S E B) (k : B -> M S E A) st :
  wp m (fun b st' => k b st' = None) st -> (m ≫= k) st = None.
Proof. unfold wp, mbind, M_bind. destruct (m st) as [[[b st'] ev]|]; [|done]. by intros ->. Qed.
Lemma bind_none_absorb (m : M S E B) (k : B -> M S E A) st : m st = None -> (m ≫= k) st = None.
Proof. unfold mbind, M_bind. by intros ->. Qed.
Lemma bind_none_always (m : M S E B) (k : B -> M S E A) st :
  (forall b st', k b st' = None) -> (m ≫= k) st = None.
Proof. intros Hk. unfold mbind, M_bind. destruct (m st) as [[[b st'] ev]|]; [|done]. by rewrite Hk. Qed.
Lemma wp_gets (f : S -> A) Q st : wp (gets f : M S E A) Q st <-> Q (f st) st.
Proof. done. Qed.
Lemma wp_modify (f : S -> S) (Q : unit -> S -> Prop) st :
  wp (modify f : M S E unit) Q st <-> Q tt (f st).
Proof. done. Qed.
Lemma wp_emit (e : E) (Q : unit -> S -> Prop) st : wp (emit e) Q st <-> Q tt st.
Proof. done. Qed.
Lemma wp_when (b : bool) (m : M S E unit) (Q : unit -> S -> Prop) st :
  wp (when b m) Q st <-> if b then wp m Q st else Q tt st.
Proof. by destruct b. Qed.
End wp.

(** Run the simple steps at the front of a program under [wp]. *)
Ltac wp_steps :=
  repeat first [ rewrite wp_bind | rewrite wp_gets | rewrite wp_modify | rewrite wp_emit
               | rewrite wp_ret ].

(** ** Runs that may be undefined

    [hoare P m Q]: when [m] runs from a state in [P] and its behaviour is defined, it ends in [Q]. *)
Definition wlp {S E A} (m : M S E A) (Q : A -> S -> Prop) (st : S) : Prop :=
  match m st with
  | Some (a, st, _) => Q a st
  | None => True
  end.
Definition hoare {S E A} (P : S -> Prop) (m : M S E A) (Q : A -> S -> Prop) : Prop :=
  forall st, P st -> wlp m Q st.
(** [m] preserves [I]. *)
Definition keeps {S E A} (I : S -> Prop) (m : M S E A) : Prop := hoare I m (fun _ => I).

Section wlp.
Context {S E A B : Type}.
Implicit Types (P I : S -> Prop) (Q : A -> S -> Prop) (st : S).

Lemma wlp_bind (m : M S E B) (k : B -> M S E A) Q st :
  wlp (m ≫= k) Q st <-> wlp m (fun b => wlp (k b) Q) st.
Proof.
  unfold wlp, mbind, M_bind. destruct (m st) as [[[b st'] ev]|]; [|done].
  by destruct (k b st') as [[[a st''] ev']|].
Qed.
Lemma wlp_mono (m : M S E A) Q (Q' : A -> S -> Prop) st :
  wlp m Q st -> (forall a st', Q a st' -> Q' a st') -> wlp m Q' st.
Proof. unfold wlp. destruct (m st) as [[[a st'] ev]|]; [|done]. auto. Qed.
Lemma wlp_run (m : M S E A) Q st a st' ev : wlp m Q st -> m st = Some (a, st', ev) -> Q a st'.
Proof. unfold wlp. intros H Hm. by rewrite Hm in H. Qed.

End wlp.

Section hoare.
Context {S E A B : Type}.
Implicit Types (P I : S -> Prop) (Q : A -> S -> Prop) (st : S).

Lemma hoare_bind P (m : M S E B) (k : B -> M S E A) (R : B -> S -> Prop) Q :
  hoare P m R -> (forall b, hoare (R b) (k b) Q) -> hoare P (m ≫= k) Q.
Proof.
  intros Hm Hk st HP. rewrite wlp_bind. apply (wlp_mono _ _ _ _ (Hm _ HP)). intros b st'. apply Hk.
Qed.
Lemma hoare_ret P (a : A) Q : (forall st, P st -> Q a st) -> hoare P (mret a : M S E A) Q.
Proof. intros H st HP. by apply H. Qed.
Lemma hoare_gets P (f : S -> A) Q : (forall st, P st -> Q (f st) st) -> hoare P (gets f : M S E A) Q.
Proof. intros H st HP. by apply H. Qed.
Lemma hoare_modify P (f : S -> S) (Q : unit -> S -> Prop) :
  (forall st, P st -> Q tt (f st)) -> hoare P (modify f : M S E unit) Q.
Proof. intros H st HP. by apply H. Qed.
Lemma hoare_mono P (P' : S -> Prop) (m : M S E A) Q (Q' : A -> S -> Prop) :
  hoare P' m Q' -> (forall st, P st -> P' st) -> (forall a st, Q' a st -> Q a st) -> hoare P m Q.
Proof. intros H HP HQ st Hst. apply (wlp_mono _ Q'); [by apply H, HP|apply HQ]. Qed.

Lemma keeps_bind I (m : M S E B) (k : B -> M S E A) :
  keeps I m -> (forall b, keeps I (k b)) -> keeps I (m ≫= k).
Proof. intros Hm Hk. by apply (hoare_bind _ _ _ (fun _ => I)). Qed.
Lemma keeps_ret I (a : A) : keeps I (mret a : M S E A).
Proof. by apply hoare_ret. Qed.
Lemma keeps_gets I (f : S -> A) : keeps I (gets f : M S E A).
Proof. by apply hoare_gets. Qed.
Lemma keeps_fault I : keeps I (fault : M S E A).
Proof. done. Qed.
Lemma keeps_emit I (e : E) : keeps I (emit e : M S E unit).
Proof. by intros st HI. Qed.
Lemma keeps_modify I (f : S -> S) : (forall st, I st -> I (f st)) -> keeps I (modify f : M S E unit).
Proof. intros H. by apply (hoare_modify I f (fun _ => I)). Qed.
End hoare.

Create HintDb keeps.
#[export] Hint Resolve keeps_ret keeps_gets keeps_fault keeps_emit : keeps.

(** Preservation by a program, from that of its steps (hints of [keeps]). *)
Ltac keeps_step :=
  lazymatch goal with
  | |- forall _, _ => intro
  | |- keeps _ (let '_ := ?e in _) => destruct e eqn:?
  | |- keeps _ (match ?e with _ => _ end) => destruct e eqn:?
  | |- keeps _ (_ ≫= _) => apply keeps_bind; [|intros ?]
  end.
Ltac keeps_tac := repeat first [ solve [auto 2 with keeps] | keeps_step ].

(** Two octets in network order, and back. *)
Definition be16 (x : Z) : list Z := [(x .>> 8) .& 0xff; x .& 0xff].
Definition rd_be16 (p : list Z) : Z := (rd p 0 .<< 8) .| rd p 1.

Lemma rd_be16_width p : octets p -> in_width 16 (rd_be16 p).
Proof.
  intros Hp. apply in_width_lor; [done|apply (in_width_shiftl 8 8)|apply (in_width_mono 8)]; try lia; by apply rd_octet.
Qed.

Lemma be16_round x rest : in_width 16 x -> rd_be16 (be16 x ++ rest) = x.
Proof.
  intros Hx. unfold rd_be16, be16. cbn [rd app lookup list_lookup default from_option id].
  unfold rd. cbn [lookup list_lookup default from_option]. unfold id.
  change 0xff with (Z.ones 8). apply in_width_testbit in Hx as [H0 Hx]; [|lia].
  Z.bitblast; rewrite ?Hx by lia; by rewrite ?andb_false_r, ?orb_false_r.
Qed.
