(* ===== verification/Crc24.v ===== *)
(** The LLC frame check sequence: gprs/crc24.c.

    [crc24_calc] is the table-driven loop of the source. It is proved equal to the bit-serial
    division by the generator polynomial ([crc24_bitwise], reflected polynomial 0xad85dd), and
    from the linearity of the latter follows what the FCS is there for: no corruption that is
    confined to three consecutive octets leaves the check value unchanged. *)

From S2P Require Import Prelude.

Module Crc24.

(** Table [tbl_crc24] of the source, octet for octet. *)
Definition tbl_crc24 : list Z := [
    0x000000; 0xd6a776; 0xf64557; 0x20e221; 0xb78115; 0x612663; 0x41c442; 0x976334;
    0x340991; 0xe2aee7; 0xc24cc6; 0x14ebb0; 0x838884; 0x552ff2; 0x75cdd3; 0xa36aa5;
    0x681322; 0xbeb454; 0x9e5675; 0x48f103; 0xdf9237; 0x093541; 0x29d760; 0xff7016;
    0x5c1ab3; 0x8abdc5; 0xaa5fe4; 0x7cf892; 0xeb9ba6; 0x3d3cd0; 0x1ddef1; 0xcb7987;
    0xd02644; 0x068132; 0x266313; 0xf0c465; 0x67a751; 0xb10027; 0x91e206; 0x474570;
    0xe42fd5; 0x3288a3; 0x126a82; 0xc4cdf4; 0x53aec0; 0x8509b6; 0xa5eb97; 0x734ce1;
    0xb83566; 0x6e9210; 0x4e7031; 0x98d747; 0x0fb473; 0xd91305; 0xf9f124; 0x2f5652;
    0x8c3cf7; 0x5a9b81; 0x7a79a0; 0xacded6; 0x3bbde2; 0xed1a94; 0xcdf8b5; 0x1b5fc3;
    0xfb4733; 0x2de045; 0x0d0264; 0xdba512; 0x4cc626; 0x9a6150; 0xba8371; 0x6c2407;
    0xcf4ea2; 0x19e9d4; 0x390bf5; 0xefac83; 0x78cfb7; 0xae68c1; 0x8e8ae0; 0x582d96;
    0x935411; 0x45f367; 0x651146; 0xb3b630; 0x24d504; 0xf27272; 0xd29053; 0x043725;
    0xa75d80; 0x71faf6; 0x5118d7; 0x87bfa1; 0x10dc95; 0xc67be3; 0xe699c2; 0x303eb4;
    0x2b6177; 0xfdc601; 0xdd2420; 0x0b8356; 0x9ce062; 0x4a4714; 0x6aa535; 0xbc0243;
    0x1f68e6; 0xc9cf90; 0xe92db1; 0x3f8ac7; 0xa8e9f3; 0x7e4e85; 0x5eaca4; 0x880bd2;
    0x437255; 0x95d523; 0xb53702; 0x639074; 0xf4f340; 0x225436; 0x02b617; 0xd41161;
    0x777bc4; 0xa1dcb2; 0x813e93; 0x5799e5; 0xc0fad1; 0x165da7; 0x36bf86; 0xe018f0;
    0xad85dd; 0x7b22ab; 0x5bc08a; 0x8d67fc; 0x1a04c8; 0xcca3be; 0xec419f; 0x3ae6e9;
    0x998c4c; 0x4f2b3a; 0x6fc91b; 0xb96e6d; 0x2e0d59; 0xf8aa2f; 0xd8480e; 0x0eef78;
    0xc596ff; 0x133189; 0x33d3a8; 0xe574de; 0x7217ea; 0xa4b09c; 0x8452bd; 0x52f5cb;
    0xf19f6e; 0x273818; 0x07da39; 0xd17d4f; 0x461e7b; 0x90b90d; 0xb05b2c; 0x66fc5a;
    0x7da399; 0xab04ef; 0x8be6ce; 0x5d41b8; 0xca228c; 0x1c85fa; 0x3c67db; 0xeac0ad;
    0x49aa08; 0x9f0d7e; 0xbfef5f; 0x694829; 0xfe2b1d; 0x288c6b; 0x086e4a; 0xdec93c;
    0x15b0bb; 0xc317cd; 0xe3f5ec; 0x35529a; 0xa231ae; 0x7496d8; 0x5474f9; 0x82d38f;
    0x21b92a; 0xf71e5c; 0xd7fc7d; 0x015b0b; 0x96383f; 0x409f49; 0x607d68; 0xb6da1e;
    0x56c2ee; 0x806598; 0xa087b9; 0x7620cf; 0xe143fb; 0x37e48d; 0x1706ac; 0xc1a1da;
    0x62cb7f; 0xb46c09; 0x948e28; 0x42295e; 0xd54a6a; 0x03ed1c; 0x230f3d; 0xf5a84b;
    0x3ed1cc; 0xe876ba; 0xc8949b; 0x1e33ed; 0x8950d9; 0x5ff7af; 0x7f158e; 0xa9b2f8;
    0x0ad85d; 0xdc7f2b; 0xfc9d0a; 0x2a3a7c; 0xbd5948; 0x6bfe3e; 0x4b1c1f; 0x9dbb69;
    0x86e4aa; 0x5043dc; 0x70a1fd; 0xa6068b; 0x3165bf; 0xe7c2c9; 0xc720e8; 0x11879e;
    0xb2ed3b; 0x644a4d; 0x44a86c; 0x920f1a; 0x056c2e; 0xd3cb58; 0xf32979; 0x258e0f;
    0xeef788; 0x3850fe; 0x18b2df; 0xce15a9; 0x59769d; 0x8fd1eb; 0xaf33ca; 0x7994bc;
    0xdafe19; 0x0c596f; 0x2cbb4e; 0xfa1c38; 0x6d7f0c; 0xbbd87a; 0x9b3a5b; 0x4d9d2d ].

Definition INIT_CRC24 : Z := 0xffffff.

(** One turn of the loop: [fcs = (fcs >> 8) ^ tbl_crc24[(fcs ^ *cp++) & 0xff]]. *)
Definition crc24_octet (fcs c : Z) : Z :=
  (fcs .>> 8) .^ rd tbl_crc24 (Z.to_nat ((fcs .^ c) .& 0xff)).

Fixpoint crc24_calc (fcs : Z) (cp : list Z) (len : nat) : Z :=
  match len with
  | O => fcs
  | S len => crc24_calc (crc24_octet fcs (rd cp 0)) (tail cp) len
  end.

(** ** The reference: division by the generator, one bit at a time *)

Definition POLY_CRC24 : Z := 0xad85dd.

Definition bit_step (s : Z) : Z :=
  if Z.testbit s 0 then (s .>> 1) .^ POLY_CRC24 else s .>> 1.

Fixpoint bit_steps (n : nat) (s : Z) : Z :=
  match n with O => s | S n => bit_steps n (bit_step s) end.

Fixpoint crc24_bitwise (s : Z) (msg : list Z) : Z :=
  match msg with [] => s | c :: msg => crc24_bitwise (bit_steps 8 (s .^ c)) msg end.

Lemma bit_step_lxor a b : bit_step (a .^ b) = bit_step a .^ bit_step b.
Proof.
  unfold bit_step. rewrite Z.lxor_spec, Z.shiftr_lxor.
  destruct (Z.testbit a 0), (Z.testbit b 0); simpl; try done.
  - rewrite (Z.lxor_comm (b .>> 1)), Z.lxor_assoc, <- (Z.lxor_assoc POLY_CRC24).
    by rewrite Z.lxor_nilpotent, Z.lxor_0_l.
  - by rewrite !Z.lxor_assoc, (Z.lxor_comm POLY_CRC24).
  - by rewrite Z.lxor_assoc.
Qed.

Lemma bit_steps_lxor n a b : bit_steps n (a .^ b) = bit_steps n a .^ bit_steps n b.
Proof.
  revert a b. induction n as [|n IH]; intros a b; simpl; [done|].
  by rewrite bit_step_lxor.
Qed.

Lemma bit_steps_shiftl n s : bit_steps n (s .<< Z.of_nat n) = s.
Proof.
  revert s. induction n as [|n IH]; intros s.
  - simpl. by rewrite Z.shiftl_0_r.
  - cbn [bit_steps]. unfold bit_step at 1.
    rewrite Z.shiftl_spec_low by lia.
    rewrite Z.shiftr_shiftl_l by lia.
    replace (Z.of_nat (S n) - 1) with (Z.of_nat n) by lia. apply IH.
Qed.

Lemma bit_steps_add n m s : bit_steps (n + m) s = bit_steps m (bit_steps n s).
Proof. revert s. induction n; intros s; simpl; [done|]. by rewrite IHn. Qed.

(** The table holds the effect of eight bit steps on every octet. *)
Lemma tbl_crc24_spec x :
  in_width 8 x -> rd tbl_crc24 (Z.to_nat x) = bit_steps 8 x.
Proof.
  intros Hx. apply Z.eqb_eq.
  apply (range_forall (fun x => rd tbl_crc24 (Z.to_nat x) =? bit_steps 8 x) 256).
  - vm_compute. reflexivity.
  - exact Hx.
Qed.

Lemma split_low_octet x : x = (x .& 0xff) .^ ((x .>> 8) .<< 8).
Proof.
  apply Z.bits_inj'. intros i Hi.
  rewrite Z.lxor_spec, Z.land_spec. change 0xff with (Z.ones 8).
  destruct (decide (i < 8)).
  - rewrite Z.ones_spec_low, Z.shiftl_spec_low by lia. by rewrite andb_true_r, xorb_false_r.
  - rewrite Z.ones_spec_high, Z.shiftl_spec, Z.shiftr_spec by lia.
    rewrite andb_false_r, xorb_false_l. f_equal. lia.
Qed.

Lemma crc24_octet_bitwise s c : in_width 8 c -> crc24_octet s c = bit_steps 8 (s .^ c).
Proof.
  intros Hc. rewrite (split_low_octet (s .^ c)), bit_steps_lxor.
  rewrite (bit_steps_shiftl 8). unfold crc24_octet.
  rewrite tbl_crc24_spec by apply in_width_land255.
  rewrite Z.lxor_comm. f_equal. rewrite Z.shiftr_lxor.
  replace (c .>> 8) with 0; [by rewrite Z.lxor_0_r|].
  rewrite Z.shiftr_div_pow2 by lia. symmetry. by apply Z.div_small.
Qed.

Lemma crc24_calc_cons s c msg len :
  crc24_calc s (c :: msg) (S len) = crc24_calc (crc24_octet s c) msg len.
Proof. done. Qed.

Lemma crc24_calc_bitwise_aux fcs cp len :
  octets cp -> (len <= length cp)%nat ->
  crc24_calc fcs cp len = crc24_bitwise fcs (take len cp).
Proof.
  revert fcs cp. induction len as [|len IH]; intros fcs cp Hcp Hlen; [done|].
  destruct cp as [|c cp]; [simpl in Hlen; lia|].
  apply Forall_cons in Hcp as [Hc Hcp].
  rewrite crc24_calc_cons, crc24_octet_bitwise by done.
  simpl take. cbn [crc24_bitwise]. apply IH; [done|]. simpl in Hlen. lia.
Qed.

(** Only the first [len] octets are looked at. *)
Lemma crc24_calc_prefix fcs m extra :
  crc24_calc fcs (m ++ extra) (length m) = crc24_calc fcs m (length m).
Proof. revert fcs. induction m as [|c m IH]; intros fcs; [done|]. apply IH. Qed.

(** the table-driven [crc24_calc] computes the bit-serial CRC of the octets it is given,
    for every start value and every buffer at least [len] octets long. *)
Theorem crc24_calc_bitwise fcs cp len :
  octets cp -> (len <= length cp)%nat ->
  crc24_calc fcs cp len = crc24_bitwise fcs (take len cp).
Proof. apply crc24_calc_bitwise_aux. Qed.

Lemma crc24_calc_bitwise_witness :
  crc24_calc INIT_CRC24 [0x01; 0xc0; 0x01; 0x2b] 3 =
  crc24_bitwise INIT_CRC24 (take 3 [0x01; 0xc0; 0x01; 0x2b]).
Proof.
  apply (crc24_calc_bitwise INIT_CRC24 [0x01; 0xc0; 0x01; 0x2b] 3).
  - repeat constructor; vm_compute; congruence.
  - simpl; lia.
Defined.

(** ** Error detection *)

Lemma bit_step_24 s : in_width 24 s -> in_width 24 (bit_step s).
Proof.
  intros Hs. assert (in_width 24 (s .>> 1)) as Hs1.
  { apply (in_width_mono 23); [lia|]. by apply (in_width_shiftr 24 1); [lia|]. }
  unfold bit_step. case_match; [|done]. apply in_width_lxor; [lia|done|].
  unfold in_width, POLY_CRC24. lia.
Qed.

Lemma bit_steps_24 n s : in_width 24 s -> in_width 24 (bit_steps n s).
Proof. revert s. induction n; intros s Hs; simpl; [done|]. by apply IHn, bit_step_24. Qed.

Lemma bit_step_zero s : in_width 24 s -> bit_step s = 0 -> s = 0.
Proof.
  unfold bit_step, in_width. intros Hs. rewrite <- Z.div2_spec.
  pose proof (Z.div2_odd s) as Hodd. rewrite <- Z.bit0_odd in Hodd.
  destruct (Z.testbit s 0); simpl in Hodd; intros H0; [|lia].
  apply Z.lxor_eq in H0. unfold POLY_CRC24 in H0. lia.
Qed.

Lemma bit_steps_zero n s : in_width 24 s -> bit_steps n s = 0 -> s = 0.
Proof.
  revert s. induction n; intros s Hs H0; simpl in *; [done|].
  apply bit_step_zero; [done|]. apply IHn; [by apply bit_step_24|done].
Qed.

Lemma bit_steps_inj n s s' :
  in_width 24 s -> in_width 24 s' -> bit_steps n s = bit_steps n s' -> s = s'.
Proof.
  intros Hs Hs' H. apply Z.lxor_eq, (bit_steps_zero n).
  - apply in_width_lxor; [lia|done..].
  - rewrite bit_steps_lxor, H. apply Z.lxor_nilpotent.
Qed.

Lemma crc24_bitwise_app s m1 m2 :
  crc24_bitwise s (m1 ++ m2) = crc24_bitwise (crc24_bitwise s m1) m2.
Proof. revert s. induction m1 as [|c m1 IH]; intros s; [done|]. apply IH. Qed.

Lemma crc24_bitwise_24 s m :
  in_width 24 s -> octets m -> in_width 24 (crc24_bitwise s m).
Proof.
  revert s. induction m as [|c m IH]; intros s Hs Hm; cbn [crc24_bitwise]; [done|].
  apply Forall_cons in Hm as [Hc Hm]. apply IH; [|done].
  apply bit_steps_24, in_width_lxor; [lia|done|]. apply (in_width_mono 8); [lia|done].
Qed.

(** A difference between two states survives any common continuation. *)
Lemma crc24_bitwise_tail_inj s s' m :
  in_width 24 s -> in_width 24 s' -> octets m ->
  crc24_bitwise s m = crc24_bitwise s' m -> s = s'.
Proof.
  revert s s'. induction m as [|c m IH]; intros s s' Hs Hs' Hm H;
    cbn [crc24_bitwise] in *; [done|].
  apply Forall_cons in Hm as [Hc Hm].
  assert (in_width 24 c) by (apply (in_width_mono 8); [lia|done]).
  assert (forall x, in_width 24 x -> in_width 24 (x .^ c)) as Hx
    by (intros; by apply in_width_lxor; [lia|..]).
  apply IH in H; [|by apply bit_steps_24, Hx..|done].
  apply bit_steps_inj in H; [|by apply Hx..].
  apply (f_equal (fun z => z .^ c)) in H.
  by rewrite !Z.lxor_assoc, Z.lxor_nilpotent, !Z.lxor_0_r in H.
Qed.

(** Three octets enter the register as one 24-bit word. *)
Definition word24 (a b c : Z) : Z := a .^ (b .<< 8) .^ (c .<< 16).

Lemma crc24_bitwise_word24 s a b c :
  crc24_bitwise s [a; b; c] = bit_steps 24 (s .^ word24 a b c).
Proof.
  cbn [crc24_bitwise]. unfold word24.
  assert (forall n x y, bit_steps n x .^ y = bit_steps n (x .^ (y .<< Z.of_nat n))) as Hin
    by (intros; by rewrite bit_steps_lxor, bit_steps_shiftl).
  rewrite (Hin 8%nat (s .^ a) b), <- (bit_steps_add 8 8).
  rewrite (Hin 16%nat), <- (bit_steps_add 16 8). by rewrite !Z.lxor_assoc.
Qed.

Lemma word24_octets a b c :
  in_width 8 a -> in_width 8 b -> in_width 8 c ->
  in_width 24 (word24 a b c) /\ word24 a b c = a + b * 2 ^ 8 + c * 2 ^ 16.
Proof.
  unfold word24. intros Ha Hb Hc.
  assert (forall n x y, 0 <= n -> in_width n x -> x .^ (y .<< n) = x + y * 2 ^ n) as Hadd.
  { intros n x y Hn Hx. rewrite <- Z.add_nocarry_lxor.
    - by rewrite Z.shiftl_mul_pow2.
    - apply Z.bits_inj'. intros i Hi. rewrite Z.land_spec, Z.bits_0.
      destruct (decide (i < n)).
      + by rewrite Z.shiftl_spec_low, andb_false_r.
      + apply in_width_testbit in Hx as [_ Hx]; [|done]. by rewrite Hx by lia. }
  unfold in_width in *.
  rewrite (Hadd 8), (Hadd 16); unfold in_width; lia.
Qed.

Lemma word24_inj a b c a' b' c' :
  octets [a; b; c] -> octets [a'; b'; c'] ->
  word24 a b c = word24 a' b' c' -> [a; b; c] = [a'; b'; c'].
Proof.
  intros H H'.
  repeat match goal with
         | H : octets (_ :: _) |- _ => apply Forall_cons in H as [? H]
         end.
  destruct (word24_octets a b c) as [_ E], (word24_octets a' b' c') as [_ E']; try done.
  rewrite E, E'. unfold in_width in *. intros Heq.
  assert (c = c' /\ b = b' /\ a = a') as (-> & -> & ->) by lia. done.
Qed.

Lemma word24_in_width a b c : octets [a; b; c] -> in_width 24 (word24 a b c).
Proof.
  intros (Ha & (Hb & (Hc & _)%Forall_cons)%Forall_cons)%Forall_cons.
  by apply word24_octets.
Qed.

(** The state after a whole buffer, as the loop of the source leaves it. *)
Lemma crc24_calc_all fcs m : octets m -> crc24_calc fcs m (length m) = crc24_bitwise fcs m.
Proof. intros Hm. rewrite crc24_calc_bitwise_aux by done. by rewrite take_ge. Qed.

Lemma crc24_calc_24 fcs m n :
  in_width 24 fcs -> octets m -> n = length m -> in_width 24 (crc24_calc fcs m n).
Proof. intros Hf Hm ->. rewrite crc24_calc_all by done. by apply crc24_bitwise_24. Qed.

Lemma crc24_detects_burst_aux fcs pre post a b c a' b' c' :
  in_width 24 fcs -> octets (pre ++ [a; b; c] ++ post) -> octets [a'; b'; c'] ->
  [a; b; c] <> [a'; b'; c'] ->
  let len := length (pre ++ [a; b; c] ++ post) in
  crc24_calc fcs (pre ++ [a; b; c] ++ post) len <>
  crc24_calc fcs (pre ++ [a'; b'; c'] ++ post) len.
Proof.
  intros Hfcs [Hpre [Habc Hpost]%Forall_app]%Forall_app Habc' Hne len Heq.
  assert (len = length (pre ++ [a'; b'; c'] ++ post)) as Hlen
    by (unfold len; by rewrite !length_app).
  rewrite Hlen in Heq at 2. unfold len in Heq.
  rewrite !crc24_calc_all in Heq by (repeat (apply Forall_app; split); done).
  rewrite !crc24_bitwise_app in Heq.
  assert (in_width 24 (crc24_bitwise fcs pre)) as Hs by (by apply crc24_bitwise_24).
  apply crc24_bitwise_tail_inj in Heq; [|by apply crc24_bitwise_24..|done].
  rewrite !crc24_bitwise_word24 in Heq. apply Hne, word24_inj; [done..|].
  set (s := crc24_bitwise fcs pre) in *.
  apply bit_steps_inj in Heq.
  - apply (f_equal (Z.lxor s)) in Heq.
    by rewrite <- !Z.lxor_assoc, Z.lxor_nilpotent, !Z.lxor_0_l in Heq.
  - apply in_width_lxor; [lia|done|by apply word24_in_width].
  - apply in_width_lxor; [lia|done|by apply word24_in_width].
Qed.

(** a corruption confined to three consecutive octets always changes the check value:
    two buffers of one length that agree outside such a window have different CRCs. *)
Theorem crc24_detects_burst fcs pre post a b c a' b' c' :
  in_width 24 fcs -> octets (pre ++ [a; b; c] ++ post) -> octets [a'; b'; c'] ->
  [a; b; c] <> [a'; b'; c'] ->
  let len := length (pre ++ [a; b; c] ++ post) in
  crc24_calc fcs (pre ++ [a; b; c] ++ post) len <>
  crc24_calc fcs (pre ++ [a'; b'; c'] ++ post) len.
Proof. apply crc24_detects_burst_aux. Qed.

Lemma crc24_detects_burst_witness :
  crc24_calc INIT_CRC24 ([0x01; 0xc0] ++ [0x01; 0x02; 0x03] ++ [0x2b]) 6 <>
  crc24_calc INIT_CRC24 ([0x01; 0xc0] ++ [0x81; 0x02; 0x04] ++ [0x2b]) 6.
Proof.
  apply (crc24_detects_burst INIT_CRC24 [0x01; 0xc0] [0x2b] 1 2 3 0x81 2 4).
  - unfold in_width, INIT_CRC24; lia.
  - repeat constructor; vm_compute; congruence.
  - repeat constructor; vm_compute; congruence.
  - congruence.
Defined.

End Crc24.
