(* ===== verification/Llc.v ===== *)
(** GPRS Logical Link Control: gprs/gprs_llc.c and openbsc/gprs_llc.h.

    An LLME (one per mobile, found by its TLLI) owns sixteen LLEs (one per SAPI). The objects
    the source allocates live in the store [llmes]; [gprs_llc_llmes] is the linked list, in its
    order. A pointer to an LLE is the pair (LLME, SAPI). Transmission hands octets to BSSGP,
    reception hands a primitive to GMM or SNDCP: both are values of the model. *)

From S2P Require Import Prelude Crc24.
Import Crc24.

Module Llc.

(** ** What the code takes from outside its file *)

Inductive tlli_type : Type :=
| TLLI_LOCAL | TLLI_FOREIGN | TLLI_RANDOM | TLLI_AUXILIARY | TLLI_OTHER.

Inductive gprs_ciph_algo : Type := GPRS_ALGO_GEA0 | GPRS_ALGO_GEA1 | GPRS_ALGO_GEA2 | GPRS_ALGO_GEA3.
#[export] Instance gprs_ciph_algo_eq_dec : EqDecision gprs_ciph_algo.
Proof. solve_decision. Defined.

Inductive gprs_cipher_direction : Type := GPRS_CIPH_MS2SGSN | GPRS_CIPH_SGSN2MS.

Record gprs_llc_params : Type := mk_gprs_llc_params {
  iov_i_exp : Z;
  t200_201 : Z;
  n200 : Z;
  n201_u : Z;
  n201_i : Z;
  mD : Z;
  mU : Z;
  kD : Z;
  kU : Z
}.

#[export] Instance upd_iov_i_exp : Upd iov_i_exp := fun f r => mk_gprs_llc_params (f (iov_i_exp
  r)) (t200_201 r) (n200 r) (n201_u r) (n201_i r) (mD r) (mU r) (kD r) (kU r).
#[export] Instance upd_t200_201 : Upd t200_201 := fun f r => mk_gprs_llc_params (iov_i_exp r) (f
  (t200_201 r)) (n200 r) (n201_u r) (n201_i r) (mD r) (mU r) (kD r) (kU r).
#[export] Instance upd_n200 : Upd n200 := fun f r => mk_gprs_llc_params (iov_i_exp r) (t200_201
  r) (f (n200 r)) (n201_u r) (n201_i r) (mD r) (mU r) (kD r) (kU r).
#[export] Instance upd_n201_u : Upd n201_u := fun f r => mk_gprs_llc_params (iov_i_exp r)
  (t200_201 r) (n200 r) (f (n201_u r)) (n201_i r) (mD r) (mU r) (kD r) (kU r).
#[export] Instance upd_n201_i : Upd n201_i := fun f r => mk_gprs_llc_params (iov_i_exp r)
  (t200_201 r) (n200 r) (n201_u r) (f (n201_i r)) (mD r) (mU r) (kD r) (kU r).
#[export] Instance upd_mD : Upd mD := fun f r => mk_gprs_llc_params (iov_i_exp r) (t200_201 r)
  (n200 r) (n201_u r) (n201_i r) (f (mD r)) (mU r) (kD r) (kU r).
#[export] Instance upd_mU : Upd mU := fun f r => mk_gprs_llc_params (iov_i_exp r) (t200_201 r)
  (n200 r) (n201_u r) (n201_i r) (mD r) (f (mU r)) (kD r) (kU r).
#[export] Instance upd_kD : Upd kD := fun f r => mk_gprs_llc_params (iov_i_exp r) (t200_201 r)
  (n200 r) (n201_u r) (n201_i r) (mD r) (mU r) (f (kD r)) (kU r).
#[export] Instance upd_kU : Upd kU := fun f r => mk_gprs_llc_params (iov_i_exp r) (t200_201 r)
  (n200 r) (n201_u r) (n201_i r) (mD r) (mU r) (kD r) (f (kU r)).

(** A message buffer with the identifiers of its control block. *)
Record msgb : Type := mk_msgb {
  msgb_tlli : Z;
  msgb_bvci : Z;
  msgb_nsei : Z;
  msgb_data : list Z  (* the octets between data and tail *)
}.

#[export] Instance upd_msgb_tlli : Upd msgb_tlli := fun f r => mk_msgb (f (msgb_tlli r))
  (msgb_bvci r) (msgb_nsei r) (msgb_data r).
#[export] Instance upd_msgb_bvci : Upd msgb_bvci := fun f r => mk_msgb (msgb_tlli r) (f
  (msgb_bvci r)) (msgb_nsei r) (msgb_data r).
#[export] Instance upd_msgb_nsei : Upd msgb_nsei := fun f r => mk_msgb (msgb_tlli r) (msgb_bvci
  r) (f (msgb_nsei r)) (msgb_data r).
#[export] Instance upd_msgb_data : Upd msgb_data := fun f r => mk_msgb (msgb_tlli r) (msgb_bvci
  r) (msgb_nsei r) (f (msgb_data r)).

(** What is handed to [gprs_bssgp_tx_dl_ud]: the message and the MM context pointer. *)
Definition dl_unitdata : Type := msgb * Z.

Class LlcEnv : Type := {
  gprs_tlli_type : Z -> tlli_type;
  gprs_cipher_gen_input_ui : Z -> Z -> Z -> Z -> Z;
  (* length, algorithm, Kc, IV, direction: return code and key stream *)
  gprs_cipher_run : Z -> gprs_ciph_algo -> list Z -> Z -> gprs_cipher_direction -> Z * list Z;
  (* return code of BSSGP for a message it is given *)
  gprs_bssgp_tx_dl_ud : dl_unitdata -> Z;
  (* what lies in memory behind the end of [llc_default_params] *)
  llc_params_oob : nat -> gprs_llc_params
}.

(** ** Data *)

Inductive gprs_llc_lle_state : Type :=
| GPRS_LLES_UNASSIGNED | GPRS_LLES_ASSIGNED_ADM | GPRS_LLES_LOCAL_EST | GPRS_LLES_REMOTE_EST
| GPRS_LLES_ABM | GPRS_LLES_LOCAL_REL | GPRS_LLES_TIMER_REC.
#[export] Instance gprs_llc_lle_state_eq_dec : EqDecision gprs_llc_lle_state.
Proof. solve_decision. Defined.

Inductive gprs_llc_llme_state : Type := GPRS_LLMS_UNASSIGNED | GPRS_LLMS_ASSIGNED.

Record gprs_llc_lle : Type := mk_gprs_llc_lle {
  sapi : Z;
  lle_state : gprs_llc_lle_state;
  v_sent : Z;
  v_ack : Z;
  v_recv : Z;
  vu_send : Z;
  vu_recv : Z;
  oc_i_send : Z;
  oc_i_recv : Z;
  oc_ui_send : Z;
  oc_ui_recv : Z;
  retrans_ctr : Z;
  params : gprs_llc_params
}.

#[export] Instance upd_sapi : Upd sapi := fun f r => mk_gprs_llc_lle (f (sapi r)) (lle_state r)
  (v_sent r) (v_ack r) (v_recv r) (vu_send r) (vu_recv r) (oc_i_send r) (oc_i_recv r) (oc_ui_send
  r) (oc_ui_recv r) (retrans_ctr r) (params r).
#[export] Instance upd_lle_state : Upd lle_state := fun f r => mk_gprs_llc_lle (sapi r) (f
  (lle_state r)) (v_sent r) (v_ack r) (v_recv r) (vu_send r) (vu_recv r) (oc_i_send r) (oc_i_recv
  r) (oc_ui_send r) (oc_ui_recv r) (retrans_ctr r) (params r).
#[export] Instance upd_v_sent : Upd v_sent := fun f r => mk_gprs_llc_lle (sapi r) (lle_state r)
  (f (v_sent r)) (v_ack r) (v_recv r) (vu_send r) (vu_recv r) (oc_i_send r) (oc_i_recv r)
  (oc_ui_send r) (oc_ui_recv r) (retrans_ctr r) (params r).
#[export] Instance upd_v_ack : Upd v_ack := fun f r => mk_gprs_llc_lle (sapi r) (lle_state r)
  (v_sent r) (f (v_ack r)) (v_recv r) (vu_send r) (vu_recv r) (oc_i_send r) (oc_i_recv r)
  (oc_ui_send r) (oc_ui_recv r) (retrans_ctr r) (params r).
#[export] Instance upd_v_recv : Upd v_recv := fun f r => mk_gprs_llc_lle (sapi r) (lle_state r)
  (v_sent r) (v_ack r) (f (v_recv r)) (vu_send r) (vu_recv r) (oc_i_send r) (oc_i_recv r)
  (oc_ui_send r) (oc_ui_recv r) (retrans_ctr r) (params r).
#[export] Instance upd_vu_send : Upd vu_send := fun f r => mk_gprs_llc_lle (sapi r) (lle_state
  r) (v_sent r) (v_ack r) (v_recv r) (f (vu_send r)) (vu_recv r) (oc_i_send r) (oc_i_recv r)
  (oc_ui_send r) (oc_ui_recv r) (retrans_ctr r) (params r).
#[export] Instance upd_vu_recv : Upd vu_recv := fun f r => mk_gprs_llc_lle (sapi r) (lle_state
  r) (v_sent r) (v_ack r) (v_recv r) (vu_send r) (f (vu_recv r)) (oc_i_send r) (oc_i_recv r)
  (oc_ui_send r) (oc_ui_recv r) (retrans_ctr r) (params r).
#[export] Instance upd_oc_i_send : Upd oc_i_send := fun f r => mk_gprs_llc_lle (sapi r)
  (lle_state r) (v_sent r) (v_ack r) (v_recv r) (vu_send r) (vu_recv r) (f (oc_i_send r))
  (oc_i_recv r) (oc_ui_send r) (oc_ui_recv r) (retrans_ctr r) (params r).
#[export] Instance upd_oc_i_recv : Upd oc_i_recv := fun f r => mk_gprs_llc_lle (sapi r)
  (lle_state r) (v_sent r) (v_ack r) (v_recv r) (vu_send r) (vu_recv r) (oc_i_send r) (f
  (oc_i_recv r)) (oc_ui_send r) (oc_ui_recv r) (retrans_ctr r) (params r).
#[export] Instance upd_oc_ui_send : Upd oc_ui_send := fun f r => mk_gprs_llc_lle (sapi r)
  (lle_state r) (v_sent r) (v_ack r) (v_recv r) (vu_send r) (vu_recv r) (oc_i_send r) (oc_i_recv
  r) (f (oc_ui_send r)) (oc_ui_recv r) (retrans_ctr r) (params r).
#[export] Instance upd_oc_ui_recv : Upd oc_ui_recv := fun f r => mk_gprs_llc_lle (sapi r)
  (lle_state r) (v_sent r) (v_ack r) (v_recv r) (vu_send r) (vu_recv r) (oc_i_send r) (oc_i_recv
  r) (oc_ui_send r) (f (oc_ui_recv r)) (retrans_ctr r) (params r).
#[export] Instance upd_retrans_ctr : Upd retrans_ctr := fun f r => mk_gprs_llc_lle (sapi r)
  (lle_state r) (v_sent r) (v_ack r) (v_recv r) (vu_send r) (vu_recv r) (oc_i_send r) (oc_i_recv
  r) (oc_ui_send r) (oc_ui_recv r) (f (retrans_ctr r)) (params r).
#[export] Instance upd_params : Upd params := fun f r => mk_gprs_llc_lle (sapi r) (lle_state r)
  (v_sent r) (v_ack r) (v_recv r) (vu_send r) (vu_recv r) (oc_i_send r) (oc_i_recv r) (oc_ui_send
  r) (oc_ui_recv r) (retrans_ctr r) (f (params r)).

Definition NUM_SAPIS : nat := 16.

Record gprs_llc_llme : Type := mk_gprs_llc_llme {
  llme_state : gprs_llc_llme_state;
  tlli : Z;
  old_tlli : Z;
  algo : gprs_ciph_algo;
  kc : list Z;  (* 8 octets *)
  bvci : Z;
  nsei : Z;
  lle : list gprs_llc_lle  (* NUM_SAPIS of them *)
}.

#[export] Instance upd_llme_state : Upd llme_state := fun f r => mk_gprs_llc_llme (f (llme_state
  r)) (tlli r) (old_tlli r) (algo r) (kc r) (bvci r) (nsei r) (lle r).
#[export] Instance upd_tlli : Upd tlli := fun f r => mk_gprs_llc_llme (llme_state r) (f (tlli
  r)) (old_tlli r) (algo r) (kc r) (bvci r) (nsei r) (lle r).
#[export] Instance upd_old_tlli : Upd old_tlli := fun f r => mk_gprs_llc_llme (llme_state r)
  (tlli r) (f (old_tlli r)) (algo r) (kc r) (bvci r) (nsei r) (lle r).
#[export] Instance upd_algo : Upd algo := fun f r => mk_gprs_llc_llme (llme_state r) (tlli r)
  (old_tlli r) (f (algo r)) (kc r) (bvci r) (nsei r) (lle r).
#[export] Instance upd_kc : Upd kc := fun f r => mk_gprs_llc_llme (llme_state r) (tlli r)
  (old_tlli r) (algo r) (f (kc r)) (bvci r) (nsei r) (lle r).
#[export] Instance upd_bvci : Upd bvci := fun f r => mk_gprs_llc_llme (llme_state r) (tlli r)
  (old_tlli r) (algo r) (kc r) (f (bvci r)) (nsei r) (lle r).
#[export] Instance upd_nsei : Upd nsei := fun f r => mk_gprs_llc_llme (llme_state r) (tlli r)
  (old_tlli r) (algo r) (kc r) (bvci r) (f (nsei r)) (lle r).
#[export] Instance upd_lle : Upd lle := fun f r => mk_gprs_llc_llme (llme_state r) (tlli r)
  (old_tlli r) (algo r) (kc r) (bvci r) (nsei r) (f (lle r)).

(** The state of the LLC layer. *)
Record llc_state : Type := mk_llc_state {
  llmes : gmap nat gprs_llc_llme;  (* the allocated LLMEs *)
  gprs_llc_llmes : list nat;  (* the linked list *)
  next_llme : nat  (* the address of the next allocation *)
}.

#[export] Instance upd_llmes : Upd llmes := fun f r => mk_llc_state (f (llmes r))
  (gprs_llc_llmes r) (next_llme r).
#[export] Instance upd_gprs_llc_llmes : Upd gprs_llc_llmes := fun f r => mk_llc_state (llmes r)
  (f (gprs_llc_llmes r)) (next_llme r).
#[export] Instance upd_next_llme : Upd next_llme := fun f r => mk_llc_state (llmes r)
  (gprs_llc_llmes r) (f (next_llme r)).

Inductive gprs_llc_cmd : Type :=
| GPRS_LLC_NULL | GPRS_LLC_RR | GPRS_LLC_ACK | GPRS_LLC_RNR | GPRS_LLC_SACK | GPRS_LLC_DM
| GPRS_LLC_DISC | GPRS_LLC_UA | GPRS_LLC_SABM | GPRS_LLC_FRMR | GPRS_LLC_XID | GPRS_LLC_UI.
#[export] Instance gprs_llc_cmd_eq_dec : EqDecision gprs_llc_cmd.
Proof. solve_decision. Defined.

Record gprs_llc_hdr_parsed : Type := mk_gprs_llc_hdr_parsed {
  h_sapi : Z;
  is_cmd : bool;
  ack_req : bool;
  is_encrypted : bool;
  seq_rx : Z;
  seq_tx : Z;
  fcs : Z;
  fcs_calc : Z;
  data : option Z;  (* offset into the PDU; None is NULL *)
  data_len : Z;  (* uint16_t *)
  crc_length : Z;  (* uint16_t *)
  cmd : gprs_llc_cmd
}.

#[export] Instance upd_h_sapi : Upd h_sapi := fun f r => mk_gprs_llc_hdr_parsed (f (h_sapi r))
  (is_cmd r) (ack_req r) (is_encrypted r) (seq_rx r) (seq_tx r) (fcs r) (fcs_calc r) (data r)
  (data_len r) (crc_length r) (cmd r).
#[export] Instance upd_is_cmd : Upd is_cmd := fun f r => mk_gprs_llc_hdr_parsed (h_sapi r) (f
  (is_cmd r)) (ack_req r) (is_encrypted r) (seq_rx r) (seq_tx r) (fcs r) (fcs_calc r) (data r)
  (data_len r) (crc_length r) (cmd r).
#[export] Instance upd_ack_req : Upd ack_req := fun f r => mk_gprs_llc_hdr_parsed (h_sapi r)
  (is_cmd r) (f (ack_req r)) (is_encrypted r) (seq_rx r) (seq_tx r) (fcs r) (fcs_calc r) (data r)
  (data_len r) (crc_length r) (cmd r).
#[export] Instance upd_is_encrypted : Upd is_encrypted := fun f r => mk_gprs_llc_hdr_parsed
  (h_sapi r) (is_cmd r) (ack_req r) (f (is_encrypted r)) (seq_rx r) (seq_tx r) (fcs r) (fcs_calc
  r) (data r) (data_len r) (crc_length r) (cmd r).
#[export] Instance upd_seq_rx : Upd seq_rx := fun f r => mk_gprs_llc_hdr_parsed (h_sapi r)
  (is_cmd r) (ack_req r) (is_encrypted r) (f (seq_rx r)) (seq_tx r) (fcs r) (fcs_calc r) (data r)
  (data_len r) (crc_length r) (cmd r).
#[export] Instance upd_seq_tx : Upd seq_tx := fun f r => mk_gprs_llc_hdr_parsed (h_sapi r)
  (is_cmd r) (ack_req r) (is_encrypted r) (seq_rx r) (f (seq_tx r)) (fcs r) (fcs_calc r) (data r)
  (data_len r) (crc_length r) (cmd r).
#[export] Instance upd_fcs : Upd fcs := fun f r => mk_gprs_llc_hdr_parsed (h_sapi r) (is_cmd r)
  (ack_req r) (is_encrypted r) (seq_rx r) (seq_tx r) (f (fcs r)) (fcs_calc r) (data r) (data_len
  r) (crc_length r) (cmd r).
#[export] Instance upd_fcs_calc : Upd fcs_calc := fun f r => mk_gprs_llc_hdr_parsed (h_sapi r)
  (is_cmd r) (ack_req r) (is_encrypted r) (seq_rx r) (seq_tx r) (fcs r) (f (fcs_calc r)) (data r)
  (data_len r) (crc_length r) (cmd r).
#[export] Instance upd_data : Upd data := fun f r => mk_gprs_llc_hdr_parsed (h_sapi r) (is_cmd
  r) (ack_req r) (is_encrypted r) (seq_rx r) (seq_tx r) (fcs r) (fcs_calc r) (f (data r))
  (data_len r) (crc_length r) (cmd r).
#[export] Instance upd_data_len : Upd data_len := fun f r => mk_gprs_llc_hdr_parsed (h_sapi r)
  (is_cmd r) (ack_req r) (is_encrypted r) (seq_rx r) (seq_tx r) (fcs r) (fcs_calc r) (data r) (f
  (data_len r)) (crc_length r) (cmd r).
#[export] Instance upd_crc_length : Upd crc_length := fun f r => mk_gprs_llc_hdr_parsed (h_sapi
  r) (is_cmd r) (ack_req r) (is_encrypted r) (seq_rx r) (seq_tx r) (fcs r) (fcs_calc r) (data r)
  (data_len r) (f (crc_length r)) (cmd r).
#[export] Instance upd_cmd : Upd cmd := fun f r => mk_gprs_llc_hdr_parsed (h_sapi r) (is_cmd r)
  (ack_req r) (is_encrypted r) (seq_rx r) (seq_tx r) (fcs r) (fcs_calc r) (data r) (data_len r)
  (crc_length r) (f (cmd r)).
(** Values of [enum gprs_llc_sapi] and [enum gprs_llc_u_cmd]. *)
Definition GPRS_SAPI_GMM : Z := 1.
Definition GPRS_SAPI_TOM2 : Z := 2.
Definition GPRS_SAPI_SNDCP3 : Z := 3.
Definition GPRS_SAPI_SNDCP5 : Z := 5.
Definition GPRS_SAPI_SMS : Z := 7.
Definition GPRS_SAPI_TOM8 : Z := 8.
Definition GPRS_SAPI_SNDCP9 : Z := 9.
Definition GPRS_SAPI_SNDCP11 : Z := 11.

Definition GPRS_LLC_U_NULL_CMD : Z := 0x00.
Definition GPRS_LLC_U_DM_RESP : Z := 0x01.
Definition GPRS_LLC_U_DISC_CMD : Z := 0x04.
Definition GPRS_LLC_U_UA_RESP : Z := 0x06.
Definition GPRS_LLC_U_SABM_CMD : Z := 0x07.
Definition GPRS_LLC_U_FRMR_RESP : Z := 0x08.
Definition GPRS_LLC_U_XID : Z := 0x0b.

Definition UI_HDR_LEN : Z := 3.
Definition N202 : Z := 4.
Definition CRC24_LENGTH : Z := 3.

Definition params_zero : gprs_llc_params := mk_gprs_llc_params 0 0 0 0 0 0 0 0 0.

(** Section 8.9.9: the default parameters, indexed by SAPI. *)
Definition llc_default_params : list gprs_llc_params := [
  params_zero;
  mk_gprs_llc_params 0 5 3 400 0 0 0 0 0;
  mk_gprs_llc_params 0 5 3 270 0 0 0 0 0;
  mk_gprs_llc_params 27 5 3 500 1503 1520 1520 16 16;
  params_zero;
  mk_gprs_llc_params 27 10 3 500 1503 760 760 8 8;
  params_zero;
  mk_gprs_llc_params 0 20 3 270 0 0 0 0 0;
  mk_gprs_llc_params 0 20 3 270 0 0 0 0 0;
  mk_gprs_llc_params 27 20 3 500 1503 380 380 4 4;
  params_zero;
  mk_gprs_llc_params 27 40 3 500 1503 190 190 2 2 ].

Definition lle_zero : gprs_llc_lle :=
  mk_gprs_llc_lle 0 GPRS_LLES_UNASSIGNED 0 0 0 0 0 0 0 0 0 0 params_zero.

Definition lle_ref : Type := nat * nat.

(** [&llme->lle[sapi]] and its contents; the SAPIs that reach it are below [NUM_SAPIS]. *)
Definition get_lle (st : llc_state) (r : lle_ref) : gprs_llc_lle :=
  default lle_zero ((llmes st !! r.1) ≫= fun m => lle m !! r.2).
Definition alter_llme (st : llc_state) (id : nat) (f : gprs_llc_llme -> gprs_llc_llme) : llc_state :=
  st <| llmes ::= alter f id |>.
Definition set_lle (st : llc_state) (r : lle_ref) (l : gprs_llc_lle) : llc_state :=
  alter_llme st r.1 (fun m => m <| lle ::= <[r.2 := l]> |>).

Section Operations.
Context {env : LlcEnv}.

(** ** Entities *)

Definition tlli_foreign2local (tlli : Z) : Z :=
  match gprs_tlli_type tlli with
  | TLLI_FOREIGN => tlli .| 0x40000000
  | _ => tlli
  end.

Definition llme_has_tlli (st : llc_state) (t : Z) (id : nat) : bool :=
  match llmes st !! id with
  | Some m => (tlli m =? t) || (old_tlli m =? t)
  | None => false
  end.

Definition lle_by_tlli_sapi (st : llc_state) (t : Z) (sapi : Z) : option lle_ref :=
  let t := tlli_foreign2local t in
  (fun id => (id, Z.to_nat sapi)) <$> find (llme_has_tlli st t) (gprs_llc_llmes st).

(** The source copies [llc_default_params[sapi]] for every SAPI up to 15; the table ends at 11. *)
Definition llc_default_param (i : nat) : gprs_llc_params :=
  default (llc_params_oob i) (llc_default_params !! i).

Definition lle_init (i : nat) : gprs_llc_lle :=
  lle_zero <| sapi := Z.of_nat i |> <| lle_state := GPRS_LLES_UNASSIGNED |>
           <| params := llc_default_param i |>.

(** The zeroed allocation with the fields [llme_alloc] sets. *)
Definition llme_new (t : Z) : gprs_llc_llme :=
  {| llme_state := GPRS_LLMS_UNASSIGNED; tlli := t; old_tlli := 0xffffffff;
     algo := GPRS_ALGO_GEA0; kc := replicate 8 0; bvci := 0; nsei := 0;
     lle := lle_init <$> seq 0 NUM_SAPIS |}.

Definition llme_alloc (st : llc_state) (t : Z) : llc_state * nat :=
  let id := next_llme st in
  (st <| llmes ::= <[id := llme_new t]> |> <| gprs_llc_llmes ::= cons id |>
      <| next_llme := S id |>, id).

Definition llme_free (st : llc_state) (id : nat) : llc_state :=
  st <| gprs_llc_llmes ::= filter (fun i => i <> id) |> <| llmes ::= delete id |>.

(** ** Timers *)

Definition t200_expired (l : gprs_llc_lle) : gprs_llc_lle :=
  let l := if n200 (params l) <=? retrans_ctr l
           then l <| lle_state := GPRS_LLES_ASSIGNED_ADM |> else l in
  match lle_state l with
  | GPRS_LLES_LOCAL_EST => l <| retrans_ctr ::= fun c => u32 (c + 1) |>
  | GPRS_LLES_LOCAL_REL => l <| retrans_ctr ::= fun c => u32 (c + 1) |>
  | _ => l
  end.

Definition t201_expired (l : gprs_llc_lle) : gprs_llc_lle :=
  if retrans_ctr l <? n200 (params l) then l <| retrans_ctr ::= fun c => u32 (c + 1) |> else l.

(** ** Transmission *)

Definition gprs_llc_fcs (data : list Z) (len : nat) : Z :=
  Z.lnot (crc24_calc INIT_CRC24 data len) .& 0xffffff.

Definition fcs_octets (f : Z) : list Z := [f .& 0xff; (f .>> 8) .& 0xff; (f .>> 16) .& 0xff].

Definition addr_field (sapi : Z) (command : bool) : Z :=
  let addr := sapi .& 0xf in if command then addr .| 0x40 else addr.

(** A frame: the header, the octets of the message and the FCS over both. *)
Definition with_fcs (llch : list Z) : list Z :=
  llch ++ fcs_octets (gprs_llc_fcs llch (length llch)).

Definition gprs_llc_tx_u (msg : msgb) (sapi : Z) (command : bool) (u_cmd : Z) (pf_bit : bool)
  : Z * list dl_unitdata :=
  let addr := addr_field sapi command in
  let ctrl := 0xe0 .| u_cmd in
  let ctrl := if pf_bit then ctrl .| 0x10 else ctrl in
  let msg := msg <| msgb_data := with_fcs ([addr; u8 ctrl] ++ msgb_data msg) |> in
  (gprs_bssgp_tx_dl_ud (msg, 0), [(msg, 0)]).

Definition gprs_llc_tx_xid (llme : gprs_llc_llme) (l : gprs_llc_lle) (msg : msgb)
  : Z * list dl_unitdata :=
  let msg := msg <| msgb_tlli := tlli llme |> <| msgb_bvci := bvci llme |>
                 <| msgb_nsei := nsei llme |> in
  gprs_llc_tx_u msg (sapi l) false GPRS_LLC_U_XID true.

(** The two control octets of a UI frame in protected mode. *)
Definition ui_ctrl (nu : Z) : Z * Z :=
  (u8 (0xc0 .| (nu .>> 6)), u8 (((nu .<< 2) .& 0xfc) .| 0x01)).

(** N(U) is taken and V(U) and the overflow counter are advanced. *)
Definition ui_advance (l : gprs_llc_lle) : gprs_llc_lle :=
  let l := l <| vu_send ::= fun v => (v + 1) mod 512 |> in
  if negb ((vu_send l + 1) / 512 =? 0) then l <| oc_ui_send ::= fun c => u32 (c + 512) |> else l.

(** Obtain the LLE of the tuple, creating the LLME on the fly. *)
Definition tx_ui_lle (st : llc_state) (t sapi : Z) : llc_state * lle_ref :=
  match lle_by_tlli_sapi st t sapi with
  | Some r => (st, r)
  | None => let '(st, id) := llme_alloc st t in (st, (id, Z.to_nat sapi))
  end.

Definition llme_algo (st : llc_state) (id : nat) : gprs_ciph_algo :=
  default GPRS_ALGO_GEA0 (algo <$> llmes st !! id).
Definition llme_kc (st : llc_state) (id : nat) : list Z := default [] (kc <$> llmes st !! id).

Definition gprs_llc_tx_ui (st : llc_state) (msg : msgb) (sapi : Z) (command : bool) (mmctx : Z)
  : Z * llc_state * list dl_unitdata :=
  let '(st, r) := tx_ui_lle st (msgb_tlli msg) sapi in
  let l := get_lle st r in
  if n201_u (params l) <? Z.of_nat (length (msgb_data msg)) then (- EFBIG, st, [])
  else
    let st := alter_llme st r.1 (fun m => m <| bvci := msgb_bvci msg |> <| nsei := msgb_nsei msg |>) in
    let nu := vu_send l in
    let oc := oc_ui_send l in
    let st := set_lle st r (ui_advance l) in
    let addr := addr_field sapi command in
    let '(ctrl0, ctrl1) := ui_ctrl nu in
    let frame := with_fcs ([addr; ctrl0; ctrl1] ++ msgb_data msg) in
    let send frame :=
      let msg := msg <| msgb_data := frame |> in
      (gprs_bssgp_tx_dl_ud (msg, mmctx), st, [(msg, mmctx)]) in
    if decide (llme_algo st r.1 = GPRS_ALGO_GEA0) then send frame
    else
      let iov_ui := 0 in
      let crypt_len := u16 (Z.of_nat (length frame) - 3) in
      let iv := gprs_cipher_gen_input_ui iov_ui sapi nu oc in
      let '(rc, cipher_out) :=
        gprs_cipher_run crypt_len (llme_algo st r.1) (llme_kc st r.1) iv GPRS_CIPH_SGSN2MS in
      if rc <? 0 then (rc, st, [])
      else
        (* ctrl[1] |= 0x02 follows in the source: ctrl was copied into the frame above *)
        send (xor_at 3 (Z.to_nat crypt_len) frame cipher_out).

(** ** Reception *)

Definition reserved_sapi (s : Z) : bool := bool_decide (s ∈ [0; 4; 6; 0xa; 0xc; 0xd; 0xf]).

Definition hdr_zero : gprs_llc_hdr_parsed :=
  mk_gprs_llc_hdr_parsed 0 false false false 0 0 0 0 None 0 0 GPRS_LLC_NULL.

Definition supervisory_cmd (s : Z) : gprs_llc_cmd :=
  if s =? 0 then GPRS_LLC_RR else if s =? 1 then GPRS_LLC_ACK
  else if s =? 2 then GPRS_LLC_RNR else GPRS_LLC_SACK.

(** [(llc_hdr + len - 3) - data], stored in a [uint16_t]. *)
Definition info_len (len data : Z) : Z := u16 (len - 3 - data).

(** I (information transfer + supervisory) format; [ctrl] starts at offset 1. *)
Definition parse_i (h : list Z) (len : Z) (g : gprs_llc_hdr_parsed) : gprs_llc_hdr_parsed :=
  let ctrl i := rdz h (1 + i) in
  let g := if tst (ctrl 0) 0x40 then g <| ack_req := true |> else g in
  let g := g <| seq_tx := ((ctrl 0 .& 0x1f) .<< 4) .| (ctrl 1 .>> 4) |> in
  let g := g <| seq_rx := ((ctrl 1 .& 0x7) .<< 6) .| (ctrl 2 .>> 2) |> in
  let c := supervisory_cmd (ctrl 2 .& 0x03) in
  let off := match c with GPRS_LLC_SACK => 4 + 1 + (ctrl 3 .& 0x1f) | _ => 4 end in
  g <| cmd := c |> <| data := Some off |> <| data_len := info_len len off |>.

(** S (supervisory) format. *)
Definition parse_s (h : list Z) (g : gprs_llc_hdr_parsed) : gprs_llc_hdr_parsed :=
  let ctrl i := rdz h (1 + i) in
  let g := g <| data := None |> <| data_len := 0 |> in
  let g := if tst (ctrl 0) 0x20 then g <| ack_req := true |> else g in
  let g := g <| seq_rx := ((ctrl 0 .& 0x7) .<< 6) .| (ctrl 1 .>> 2) |> in
  g <| cmd := supervisory_cmd (ctrl 1 .& 0x03) |>.

(** UI (unconfirmed information) format. *)
Definition parse_ui (h : list Z) (len : Z) (g : gprs_llc_hdr_parsed) : gprs_llc_hdr_parsed :=
  let ctrl i := rdz h (1 + i) in
  let g := g <| cmd := GPRS_LLC_UI |> <| data := Some 3 |> <| data_len := info_len len 3 |> in
  let g := g <| seq_tx := ((ctrl 0 .& 0x7) .<< 6) .| (ctrl 1 .>> 2) |> in
  let g := if tst (ctrl 1) 0x02 then g <| is_encrypted := true |> else g in
  if tst (ctrl 1) 0x01 then g
  else if UI_HDR_LEN + N202 <? crc_length g then g <| crc_length := UI_HDR_LEN + N202 |> else g.

(** U (unnumbered) format. *)
Definition parse_u (h : list Z) (len : Z) (g : gprs_llc_hdr_parsed) : res gprs_llc_hdr_parsed :=
  let g := g <| data := None |> <| data_len := 0 |> in
  let m := rdz h 1 .& 0xf in
  if m =? GPRS_LLC_U_NULL_CMD then Ok (g <| cmd := GPRS_LLC_NULL |>)
  else if m =? GPRS_LLC_U_DM_RESP then Ok (g <| cmd := GPRS_LLC_DM |>)
  else if m =? GPRS_LLC_U_DISC_CMD then Ok (g <| cmd := GPRS_LLC_DISC |>)
  else if m =? GPRS_LLC_U_UA_RESP then Ok (g <| cmd := GPRS_LLC_UA |>)
  else if m =? GPRS_LLC_U_SABM_CMD then Ok (g <| cmd := GPRS_LLC_SABM |>)
  else if m =? GPRS_LLC_U_FRMR_RESP then Ok (g <| cmd := GPRS_LLC_FRMR |>)
  else if m =? GPRS_LLC_U_XID then
    Ok (g <| cmd := GPRS_LLC_XID |> <| data := Some 2 |> <| data_len := info_len len 2 |>)
  else Err (- EIO).

(** The frame format is told by the leading bits of the control field. *)
Definition parse_format (h : list Z) (len : Z) (g : gprs_llc_hdr_parsed) : res gprs_llc_hdr_parsed :=
  let ctrl0 := rdz h 1 in
  if ctrl0 .& 0x80 =? 0 then Ok (parse_i h len g)
  else if ctrl0 .& 0xc0 =? 0x80 then Ok (parse_s h g)
  else if ctrl0 .& 0xe0 =? 0xc0 then Ok (parse_ui h len g)
  else parse_u h len g.

Definition gprs_llc_hdr_parse (llc_hdr : list Z) (len : Z) : res gprs_llc_hdr_parsed :=
  if len <=? CRC24_LENGTH then Err (- EIO) else
  let g := hdr_zero <| crc_length := u16 (len - CRC24_LENGTH) |> <| ack_req := false |> in
  let g := g <| fcs := (rdz llc_hdr (len - 3) .| (rdz llc_hdr (len - 2) .<< 8))
                       .| (rdz llc_hdr (len - 1) .<< 16) |> in
  let addr := rdz llc_hdr 0 in
  if tst addr 0x80 then Err (- EIO) else
  let g := g <| is_cmd := negb (tst addr 0x40) |> <| h_sapi := addr .& 0xf |> in
  if reserved_sapi (h_sapi g) then Err (- EINVAL) else
  match parse_format llc_hdr len g with
  | Err rc => Err rc
  | Ok g => if decide (cmd g = GPRS_LLC_SACK) then Err (- EIO) else Ok g
  end.

(** [gph->data] as the octets from the pointer on. *)
Definition data_octets (llc_hdr : list Z) (g : gprs_llc_hdr_parsed) : list Z :=
  match data g with Some off => drop (Z.to_nat off) llc_hdr | None => [] end.

(** A UI frame with N(U) = [nu] was accepted: the next one expected and the overflow counter. *)
Definition ui_accept (l : gprs_llc_lle) (nu : Z) : gprs_llc_lle :=
  let l := l <| vu_recv := (nu + 1) mod 512 |> in
  if negb ((nu + 1) / 512 =? 0) then l <| oc_ui_recv ::= fun c => u32 (c + 512) |> else l.

(** The answer to XID is put into a buffer of 4096 octets of which 1024 are headroom. [msgb_put] ends the
    program when the octets (and then the frame check sequence) do not fit; that is so for a frame of 4 octets, whose
    length less header and FCS wraps to 65535. *)
Definition XID_ROOM : Z := 4096 - 1024.

(** [None]: the program ended. *)
Definition gprs_llc_hdr_rx (llme : gprs_llc_llme) (l : gprs_llc_lle) (llc_hdr : list Z)
    (g : gprs_llc_hdr_parsed) : option (Z * gprs_llc_lle * list dl_unitdata) :=
  match cmd g with
  | GPRS_LLC_SABM =>
      let l := l <| v_sent := 0 |> <| v_ack := 0 |> <| v_recv := 0 |> in
      let l := l <| lle_state := GPRS_LLES_REMOTE_EST |> in
      Some (0, l <| lle_state := GPRS_LLES_ABM |>, [])
  | GPRS_LLC_DISC => Some (0, l <| lle_state := GPRS_LLES_ASSIGNED_ADM |>, [])
  | GPRS_LLC_UA =>
      Some (0, if decide (lle_state l = GPRS_LLES_LOCAL_EST)
               then l <| lle_state := GPRS_LLES_ABM |> else l, [])
  | GPRS_LLC_DM =>
      Some (0, if decide (lle_state l = GPRS_LLES_LOCAL_EST)
               then l <| lle_state := GPRS_LLES_ASSIGNED_ADM |> else l, [])
  | GPRS_LLC_XID =>
      if XID_ROOM <? data_len g + CRC24_LENGTH then None
      else
        let xid := take (Z.to_nat (data_len g)) (data_octets llc_hdr g) in
        let '(_, out) := gprs_llc_tx_xid llme l (mk_msgb 0 0 0 xid) in Some (0, l, out)
  | GPRS_LLC_UI =>
      if seq_tx g <? vu_recv l then Some (- EIO, l, [])
      else Some (0, ui_accept l (seq_tx g), [])
  | _ => Some (0, l, [])
  end.

(** The upper layer a received frame is handed to, in tail position. *)
Inductive llc_ind : Type :=
| GMM_IND (llme : nat) (gmmh : list Z)                (* gsm0408_gprs_rcvmsg(msg, lle->llme) *)
| SNDCP_IND (lle : lle_ref) (hdr : list Z) (len : Z). (* sndcp_llunitdata_ind(msg, lle, hdr, len) *)

(** [ABORT]: the program ended. *)
Inductive llc_rc : Type := RC (rc : Z) | IND (i : llc_ind) | ABORT.

Definition is_sndcp_sapi (s : Z) : bool :=
  bool_decide (s ∈ [GPRS_SAPI_SNDCP3; GPRS_SAPI_SNDCP5; GPRS_SAPI_SNDCP9; GPRS_SAPI_SNDCP11]).

Definition llc_deliver (r : lle_ref) (llc_hdr : list Z) (g : gprs_llc_hdr_parsed) : llc_rc :=
  match data g with
  | None => RC 0
  | Some _ =>
      if h_sapi g =? GPRS_SAPI_GMM then IND (GMM_IND r.1 (data_octets llc_hdr g))
      else if is_sndcp_sapi (h_sapi g) then IND (SNDCP_IND r (data_octets llc_hdr g) (data_len g))
      else RC (- EINVAL)
  end.

(** The LLE a received frame belongs to: only GMM frames (UI and XID) create one. *)
Definition rx_lle (st : llc_state) (t : Z) (g : gprs_llc_hdr_parsed) : option (llc_state * lle_ref) :=
  match lle_by_tlli_sapi st t (h_sapi g) with
  | Some r => Some (st, r)
  | None =>
      if (h_sapi g =? GPRS_SAPI_GMM) && bool_decide (cmd g = GPRS_LLC_XID \/ cmd g = GPRS_LLC_UI)
      then let '(st, id) := llme_alloc st t in Some (st, (id, Z.to_nat (h_sapi g)))
      else None
  end.

(** Decryption in place: the PDU to go on with, or the return code to stop with. *)
Definition rx_decrypt (st : llc_state) (r : lle_ref) (llc_hdr : list Z) (g : gprs_llc_hdr_parsed)
  : list Z + Z :=
  let l := get_lle st r in
  if is_encrypted g then
    let iov_ui := 0 in
    let crypt_len := u16 (data_len g + 3) in
    if decide (llme_algo st r.1 = GPRS_ALGO_GEA0) then inr 0
    else
      let iv := gprs_cipher_gen_input_ui iov_ui (sapi l) (seq_tx g) (oc_ui_recv l) in
      let '(rc, cipher_out) :=
        gprs_cipher_run crypt_len (llme_algo st r.1) (llme_kc st r.1) iv GPRS_CIPH_MS2SGSN in
      if rc <? 0 then inr rc
      else inl (xor_at (Z.to_nat (default 0 (data g))) (Z.to_nat crypt_len) llc_hdr cipher_out)
  else if decide (llme_algo st r.1 = GPRS_ALGO_GEA0) then inl llc_hdr else inr 0.

(** [msg] carries the identifiers of the lower layers and, as its octets, the LLC PDU (with
    whatever follows it in the buffer); [len] is the length BSSGP found for the PDU. *)
Definition gprs_llc_rcvmsg (st : llc_state) (msg : msgb) (len : Z)
  : llc_rc * llc_state * list dl_unitdata :=
  match gprs_llc_hdr_parse (msgb_data msg) len with
  | Err rc => (RC rc, st, [])
  | Ok g =>
    match rx_lle st (msgb_tlli msg) g with
    | None => (RC 0, st, [])
    | Some (st, r) =>
      match rx_decrypt st r (msgb_data msg) g with
      | inr rc => (RC rc, st, [])
      | inl llc_hdr =>
        let g := g <| fcs_calc := gprs_llc_fcs llc_hdr (Z.to_nat (crc_length g)) |> in
        if negb (fcs g =? fcs_calc g) then (RC (- EIO), st, [])
        else
          let st := alter_llme st r.1
                      (fun m => m <| bvci := msgb_bvci msg |> <| nsei := msgb_nsei msg |>) in
          match llmes st !! r.1 with
          | None => (RC 0, st, []) (* not reached: [r] was just looked up or allocated *)
          | Some m =>
            match gprs_llc_hdr_rx m (get_lle st r) llc_hdr g with
            | None => (ABORT, st, [])
            | Some (rc, l, out) =>
                let st := set_lle st r l in
                if rc <? 0 then (RC rc, st, out) else (llc_deliver r llc_hdr g, st, out)
            end
          end
      end
    end
  end.

(** ** LLGMM-ASSIGN and the reset of the receive state *)

Definition gprs_llgmm_assign (st : llc_state) (id : nat) (old_t new_t : Z)
    (alg : gprs_ciph_algo) (key : list Z) : Z * llc_state :=
  let st := alter_llme st id (fun m =>
    let m := m <| algo := alg |> in
    if decide (alg = GPRS_ALGO_GEA0) then m else m <| kc := take 8 key |>) in
  let unassigned := 0xffffffff in
  if (old_t =? unassigned) && negb (new_t =? unassigned) then
    (0, alter_llme st id (fun m =>
      if negb (old_tlli m =? unassigned) then m <| old_tlli := unassigned |> <| tlli := new_t |>
      else m <| old_tlli := unassigned |> <| tlli := new_t |> <| llme_state := GPRS_LLMS_ASSIGNED |>
             <| lle ::= fmap (fun l => l <| vu_recv := 0 |> <| vu_send := 0 |> <| retrans_ctr := 0 |>
                                         <| lle_state := GPRS_LLES_ASSIGNED_ADM |>) |>))
  else if negb (old_t =? unassigned) && negb (new_t =? unassigned) then
    (0, alter_llme st id (fun m =>
      m <| old_tlli := tlli m |> <| tlli := new_t |> <| llme_state := GPRS_LLMS_ASSIGNED |>))
  else if negb (old_t =? unassigned) && (new_t =? unassigned) then
    let st := alter_llme st id (fun m =>
      m <| old_tlli := 0 |> <| tlli := 0 |> <| llme_state := GPRS_LLMS_UNASSIGNED |>
        <| lle ::= fmap (fun l => l <| lle_state := GPRS_LLES_UNASSIGNED |>) |>) in
    (0, llme_free st id)
  else (- EINVAL, st).

Definition gprs_llgmm_reset_state (st : llc_state) (id : nat) : llc_state :=
  alter_llme st id (fun m =>
    m <| lle ::= fmap (fun l => l <| vu_recv := 0 |> <| retrans_ctr := 0 |>
                                <| lle_state := GPRS_LLES_ASSIGNED_ADM |>) |>).

End Operations.

End Llc.
