(* ===== verification/LlcProps.v ===== *)
(** Properties of the LLC layer ([Llc]).

    - the store and the list of LLMEs stay consistent and every counter stays in range, in every
      state the entry points can reach ([llc_reachable_wf]);
    - what [gprs_llc_tx_ui] puts on the wire is what [gprs_llc_rcvmsg] of a peer takes off it:
      one frame, any number of frames in order, and no frame hit by an error burst;
    - the N(U) window: replays are refused, and what happens where N(U) wraps;
    - the LLGMM-ASSIGN transitions. *)

From S2P Require Import Prelude Crc24 Llc.
From coqutil Require Import Z.bitblast.
Import Crc24 Llc.

Module LlcProps.

(** ** The store *)

Lemma lookup_alter_llme st id f i :
  llmes (alter_llme st id f) !! i = if decide (id = i) then f <$> llmes st !! i else llmes st !! i.
Proof. unfold alter_llme. cbn. rewrite lookup_alter. by repeat case_decide; subst. Qed.

Lemma list_alter_llme st id f : gprs_llc_llmes (alter_llme st id f) = gprs_llc_llmes st.
Proof. done. Qed.

Lemma next_alter_llme st id f : next_llme (alter_llme st id f) = next_llme st.
Proof. done. Qed.

(** A valid reference: the LLME exists and holds the SAPI. *)
Definition valid_ref (st : llc_state) (r : lle_ref) : Prop :=
  exists m l, llmes st !! r.1 = Some m /\ lle m !! r.2 = Some l.

Lemma get_set_lle st r l : valid_ref st r -> get_lle (set_lle st r l) r = l.
Proof.
  intros (m & l0 & Hm & Hl). unfold get_lle, set_lle. rewrite lookup_alter_llme, decide_True by done.
  rewrite Hm. cbn. rewrite list_lookup_insert_eq; [done|]. by apply lookup_lt_Some in Hl.
Qed.

Lemma get_lle_alter_ids st r id b n :
  get_lle (alter_llme st id (fun m => m <| bvci := b |> <| nsei := n |>)) r = get_lle st r.
Proof.
  unfold get_lle. rewrite lookup_alter_llme. case_decide; [|done].
  by destruct (llmes st !! r.1).
Qed.

Lemma valid_ref_alter st r id f :
  (forall m, lle (f m) = lle m) -> valid_ref st r -> valid_ref (alter_llme st id f) r.
Proof.
  intros Hf (m & l & Hm & Hl). unfold valid_ref. rewrite lookup_alter_llme.
  case_decide; [|by eauto]. rewrite Hm. cbn. exists (f m), l. by rewrite Hf.
Qed.

(** ** Well-formed states *)

Record wf_lle (i : nat) (l : gprs_llc_lle) : Prop := {
  wf_sapi : sapi l = Z.of_nat i;
  wf_vu_send : 0 <= vu_send l < 512;
  wf_vu_recv : 0 <= vu_recv l < 512;
  wf_oc_send : in_width 32 (oc_ui_send l);
  wf_oc_recv : in_width 32 (oc_ui_recv l);
  wf_retrans : in_width 32 (retrans_ctr l)
}.

Definition wf_llme (m : gprs_llc_llme) : Prop :=
  length (lle m) = NUM_SAPIS /\ forall i l, lle m !! i = Some l -> wf_lle i l.

Record wf (st : llc_state) : Prop := {
  wf_nodup : NoDup (gprs_llc_llmes st);
  wf_dom : forall id, id ∈ gprs_llc_llmes st <-> is_Some (llmes st !! id);
  wf_fresh : forall id, is_Some (llmes st !! id) -> (id < next_llme st)%nat;
  wf_each : forall id m, llmes st !! id = Some m -> wf_llme m
}.

Section Invariant.
Context {env : LlcEnv}.

Lemma wf_init : wf (mk_llc_state ∅ [] 0).
Proof.
  split; cbn.
  - constructor.
  - intros id. rewrite lookup_empty. split; [by intros ?%not_elem_of_nil|by intros [? ?]].
  - intros id [? H]. by rewrite lookup_empty in H.
  - intros id m H. by rewrite lookup_empty in H.
Qed.

Lemma wf_alter st id f :
  (forall m, wf_llme m -> wf_llme (f m)) -> wf st -> wf (alter_llme st id f).
Proof.
  intros Hf [Hnd Hdom Hfr Hw].
  assert (forall i, is_Some (llmes (alter_llme st id f) !! i) <-> is_Some (llmes st !! i)) as His.
  { intros i. rewrite lookup_alter_llme. case_decide; [|done]. by rewrite fmap_is_Some. }
  split; rewrite ?list_alter_llme, ?next_alter_llme; [done|..].
  - intros i. by rewrite His.
  - intros i. rewrite His. apply Hfr.
  - intros i m. rewrite lookup_alter_llme. case_decide; [|by apply Hw].
    intros (m0 & Hm0 & ->)%fmap_Some. by eapply Hf, Hw.
Qed.

Lemma wf_set_lle st r l : wf_lle r.2 l -> wf st -> wf (set_lle st r l).
Proof.
  intros Hl. apply wf_alter. intros m [Hlen Hm]. split; cbn.
  - by rewrite length_insert.
  - intros i l' [(<- & <- & _)|[_ H]]%list_lookup_insert_Some; [done|by apply Hm].
Qed.

Lemma wf_lle_fmap (f : gprs_llc_lle -> gprs_llc_lle) m :
  (forall i l, wf_lle i l -> wf_lle i (f l)) -> wf_llme m ->
  length (f <$> lle m) = NUM_SAPIS /\ forall i l, (f <$> lle m) !! i = Some l -> wf_lle i l.
Proof.
  intros Hf [Hlen Hm]. split; [by rewrite length_fmap|].
  intros i l. rewrite list_lookup_fmap. intros (l0 & Hl0 & ->)%fmap_Some. by apply Hf, Hm.
Qed.

Lemma wf_lle_init i : wf_lle i (lle_init i).
Proof. split; cbn; unfold in_width; lia. Qed.

Lemma lle_llme_new t i : (i < NUM_SAPIS)%nat -> lle (llme_new t) !! i = Some (lle_init i).
Proof.
  intros Hi. unfold llme_new. cbn [lle]. rewrite list_lookup_fmap, lookup_seq_lt by done. done.
Qed.

Lemma wf_llme_new t : wf_llme (llme_new t).
Proof.
  split; [done|]. intros i l Hl. assert (i < NUM_SAPIS)%nat as Hi by (by apply lookup_lt_Some in Hl).
  rewrite lle_llme_new in Hl by done. injection Hl as <-. apply wf_lle_init.
Qed.

Lemma wf_llme_alloc st t : wf st -> wf (llme_alloc st t).1.
Proof.
  intros [Hnd Hdom Hfr Hw]. unfold llme_alloc. cbn.
  assert (next_llme st ∉ gprs_llc_llmes st) as Hnew.
  { intros Hin. apply Hdom, Hfr in Hin. lia. }
  split; cbn.
  - by constructor.
  - intros id. rewrite elem_of_cons, Hdom, lookup_insert.
    case_decide as Hd; [subst; by split; [eauto|left]|].
    split; [intros [->|?]; done|by right].
  - intros id. rewrite lookup_insert. case_decide; [lia|]. intros Hi%Hfr. lia.
  - intros id m. rewrite lookup_insert. case_decide; [|by apply Hw].
    intros [= <-]. apply wf_llme_new.
Qed.

Lemma wf_llme_free st id : wf st -> wf (llme_free st id).
Proof.
  intros [Hnd Hdom Hfr Hw]. split; cbn.
  - by apply NoDup_filter.
  - intros i. rewrite list_elem_of_filter, Hdom, lookup_delete.
    case_decide; [subst; split; [by intros [? _]|by intros [? ?]]|].
    split; [by intros [_ ?]|done].
  - intros i. rewrite lookup_delete. case_decide; [by intros [? ?]|apply Hfr].
  - intros i m. rewrite lookup_delete. case_decide; [done|apply Hw].
Qed.

(** The LLE behind a reference is in range, the dangling ones included. *)
Lemma wf_get_lle st r : wf st -> valid_ref st r -> wf_lle r.2 (get_lle st r).
Proof.
  intros Hwf (m & l & Hm & Hl). unfold get_lle. rewrite Hm. cbn. rewrite Hl. cbn.
  destruct (wf_each _ Hwf _ _ Hm) as [_ H]. by apply H.
Qed.

Lemma lle_by_tlli_sapi_valid st t s r :
  wf st -> 0 <= s < 16 -> lle_by_tlli_sapi st t s = Some r ->
  valid_ref st r /\ r.2 = Z.to_nat s.
Proof.
  intros Hwf Hs. unfold lle_by_tlli_sapi. intros (id & Hf & ->)%fmap_Some.
  apply find_some in Hf as [Hin%list_elem_of_In _]. apply Hwf in Hin as [m Hm].
  split; [|done]. destruct (wf_each _ Hwf _ _ Hm) as [Hlen _].
  destruct (lookup_lt_is_Some_2 (lle m) (Z.to_nat s)) as [l Hl]; [unfold NUM_SAPIS in Hlen; lia|].
  by exists m, l.
Qed.

Lemma llme_alloc_valid st t s :
  0 <= s < 16 -> valid_ref (llme_alloc st t).1 ((llme_alloc st t).2, Z.to_nat s).
Proof.
  intros Hs. unfold llme_alloc, valid_ref. cbn. rewrite lookup_insert_eq.
  eexists _, _. split; [done|]. apply lle_llme_new. unfold NUM_SAPIS. lia.
Qed.

Lemma tx_ui_lle_spec st t s :
  wf st -> 0 <= s < 16 ->
  let '(st', r) := tx_ui_lle st t s in
  wf st' /\ valid_ref st' r /\ r.2 = Z.to_nat s.
Proof.
  intros Hwf Hs. unfold tx_ui_lle. destruct (lle_by_tlli_sapi st t s) as [r|] eqn:E.
  - by apply lle_by_tlli_sapi_valid in E as [? ?].
  - pose proof (wf_llme_alloc st t Hwf) as H1. pose proof (llme_alloc_valid st t s Hs) as H2.
    destruct (llme_alloc st t) as [st' id]. done.
Qed.

Lemma wf_ui_advance i l : wf_lle i l -> wf_lle i (ui_advance l).
Proof.
  intros [Hs Hvs Hvr Hos Hor Hre]. unfold ui_advance.
  assert (0 <= (vu_send l + 1) mod 512 < 512) by (apply Z.mod_pos_bound; lia).
  case_match; split; cbn; try done. apply wrap_in_width; lia.
Qed.

(** A timer or state change that keeps the counters keeps the LLE well formed. *)
Ltac solve_wf_lle :=
  lazymatch goal with
  | H : wf_lle ?i ?l |- wf_lle ?i _ =>
      destruct H; split; cbn; first [done | apply wrap_in_width; lia | unfold in_width; lia]
  end.

Lemma wf_t200_expired i l : wf_lle i l -> wf_lle i (t200_expired l).
Proof. intros Hl. unfold t200_expired. repeat case_match; solve_wf_lle. Qed.

Lemma wf_t201_expired i l : wf_lle i l -> wf_lle i (t201_expired l).
Proof. intros Hl. unfold t201_expired. case_match; [solve_wf_lle|done]. Qed.

Lemma wf_ui_accept i l nu : wf_lle i l -> wf_lle i (ui_accept l nu).
Proof.
  intros Hl. unfold ui_accept.
  assert (0 <= (nu + 1) mod 512 < 512) by (apply Z.mod_pos_bound; lia).
  case_match; solve_wf_lle.
Qed.

Lemma wf_hdr_rx i m l h g rc l' out :
  wf_lle i l -> gprs_llc_hdr_rx m l h g = Some (rc, l', out) -> wf_lle i l'.
Proof.
  intros Hl. unfold gprs_llc_hdr_rx.
  destruct (cmd g); repeat first [done | case_decide | case_match]; intros [= <- <- <-];
    first [done | by apply wf_ui_accept | cbn; solve_wf_lle].
Qed.

Lemma wf_alter_ids st id b n :
  wf st -> wf (alter_llme st id (fun m => m <| bvci := b |> <| nsei := n |>)).
Proof. apply wf_alter. by intros m [? ?]. Qed.

Lemma wf_tx_ui st msg s command mmctx :
  wf st -> 0 <= s < 16 -> wf (gprs_llc_tx_ui st msg s command mmctx).1.2.
Proof.
  intros Hwf Hs. unfold gprs_llc_tx_ui.
  pose proof (tx_ui_lle_spec st (msgb_tlli msg) s Hwf Hs) as Hr.
  destruct (tx_ui_lle st (msgb_tlli msg) s) as [st' r]. destruct Hr as (Hwf' & Hv & Hr2).
  case_match; [done|].
  assert (wf (set_lle (alter_llme st' r.1 (fun m => m <| bvci := msgb_bvci msg |>
                <| nsei := msgb_nsei msg |>)) r (ui_advance (get_lle st' r)))) as Hfin.
  { apply wf_set_lle; [by apply wf_ui_advance, wf_get_lle|by apply wf_alter_ids]. }
  destruct (ui_ctrl _) as [c0 c1]. case_decide; [done|].
  destruct (gprs_cipher_run _ _ _ _ _) as [rc out]. by case_match.
Qed.

Lemma rx_lle_spec st t g st' r :
  wf st -> 0 <= h_sapi g < 16 -> rx_lle st t g = Some (st', r) ->
  wf st' /\ valid_ref st' r /\ r.2 = Z.to_nat (h_sapi g).
Proof.
  intros Hwf Hs. unfold rx_lle.
  destruct (lle_by_tlli_sapi st t (h_sapi g)) as [r0|] eqn:E.
  - intros [= <- <-]. by apply lle_by_tlli_sapi_valid in E as [? ?].
  - case_match; [|done].
    pose proof (wf_llme_alloc st t Hwf) as H1. pose proof (llme_alloc_valid st t (h_sapi g) Hs).
    destruct (llme_alloc st t) as [st1 id]. by intros [= <- <-].
Qed.

Lemma land_15_range x : 0 <= x .& 0xf < 16.
Proof. exact (in_width_land_ones 4 x ltac:(lia)). Qed.

Lemma parse_i_sapi h len g : h_sapi (parse_i h len g) = h_sapi g.
Proof. unfold parse_i. cbv zeta. by destruct (tst _ _). Qed.

Lemma parse_s_sapi h g : h_sapi (parse_s h g) = h_sapi g.
Proof. unfold parse_s. cbv zeta. by destruct (tst _ _). Qed.

Lemma parse_ui_sapi h len g : h_sapi (parse_ui h len g) = h_sapi g.
Proof. unfold parse_ui. cbv zeta. repeat case_match; done. Qed.

Lemma parse_format_sapi h len g g' : parse_format h len g = Ok g' -> h_sapi g' = h_sapi g.
Proof.
  unfold parse_format. case_match; [intros [= <-]; apply parse_i_sapi|].
  case_match; [intros [= <-]; apply parse_s_sapi|].
  case_match; [intros [= <-]; apply parse_ui_sapi|].
  unfold parse_u. repeat case_match; try done; by intros [= <-].
Qed.

(** The SAPI of a parsed header is the low nibble of the address field. *)
Lemma hdr_parse_sapi h len g : gprs_llc_hdr_parse h len = Ok g -> h_sapi g = rdz h 0 .& 0xf.
Proof.
  unfold gprs_llc_hdr_parse. case_match; [done|]. cbv zeta. case_match; [done|]. case_match; [done|].
  destruct (parse_format _ _ _) as [g'|] eqn:Hf; [|done]. apply parse_format_sapi in Hf.
  case_decide; [done|]. by intros [= <-].
Qed.

Lemma wf_rcvmsg st msg len : wf st -> wf (gprs_llc_rcvmsg st msg len).1.2.
Proof.
  intros Hwf. unfold gprs_llc_rcvmsg.
  destruct (gprs_llc_hdr_parse _ len) as [g|rc] eqn:Hp; [|done].
  apply hdr_parse_sapi in Hp.
  destruct (rx_lle st (msgb_tlli msg) g) as [[st' r]|] eqn:Hr; [|done].
  apply rx_lle_spec in Hr as (Hwf' & Hv & Hr2); [|done|rewrite Hp; apply land_15_range].
  destruct (rx_decrypt st' r (msgb_data msg) g) as [h|rc]; [|done].
  case_match; [done|].
  set (st2 := alter_llme st' r.1 _).
  assert (wf st2) as Hwf2 by (by apply wf_alter_ids).
  assert (valid_ref st2 r) as Hv2 by (by apply valid_ref_alter).
  destruct (llmes st2 !! r.1) as [m|]; [|done].
  destruct (gprs_llc_hdr_rx m _ h _) as [[[rc l] out]|] eqn:Hrx; [|done].
  apply (wf_hdr_rx r.2) in Hrx; [|by apply wf_get_lle].
  case_match; by apply wf_set_lle.
Qed.

Lemma wf_assign st id o n alg key : wf st -> wf (gprs_llgmm_assign st id o n alg key).2.
Proof.
  intros Hwf. unfold gprs_llgmm_assign.
  set (st1 := alter_llme st id _).
  assert (wf st1) as Hwf1 by (apply wf_alter; [|done]; intros m [? ?]; by case_decide).
  case_match; [|case_match; [|case_match; [|done]]]; cbn [snd].
  - apply wf_alter; [|done]. intros m [Hlen Hm]. case_match; [done|].
    unfold wf_llme. cbn. apply wf_lle_fmap; [|done]. intros i l Hl. solve_wf_lle.
  - apply wf_alter; [|done]. by intros m [Hlen Hm].
  - apply wf_llme_free, wf_alter; [|done]. intros m [Hlen Hm].
    unfold wf_llme. cbn. apply wf_lle_fmap; [|done]. intros i l Hl. solve_wf_lle.
Qed.

Lemma wf_reset_state st id : wf st -> wf (gprs_llgmm_reset_state st id).
Proof.
  apply wf_alter. intros m [Hlen Hm]. unfold wf_llme. cbn. apply wf_lle_fmap; [|done].
  intros i l Hl. solve_wf_lle.
Qed.

(** One entry point of the layer is called. *)
Inductive llc_step : llc_state -> llc_state -> Prop :=
| step_tx_ui st msg s command mmctx :
    0 <= s < 16 -> llc_step st (gprs_llc_tx_ui st msg s command mmctx).1.2
| step_rcvmsg st msg len : llc_step st (gprs_llc_rcvmsg st msg len).1.2
| step_assign st id o n alg key : llc_step st (gprs_llgmm_assign st id o n alg key).2
| step_reset_state st id : llc_step st (gprs_llgmm_reset_state st id)
| step_t200 st r : valid_ref st r -> llc_step st (set_lle st r (t200_expired (get_lle st r)))
| step_t201 st r : valid_ref st r -> llc_step st (set_lle st r (t201_expired (get_lle st r))).

(** The states reached from the empty layer. *)
Inductive llc_reachable : llc_state -> Prop :=
| reach_init : llc_reachable (mk_llc_state ∅ [] 0)
| reach_step st st' : llc_reachable st -> llc_step st st' -> llc_reachable st'.

Lemma llc_step_wf st st' : llc_step st st' -> wf st -> wf st'.
Proof.
  destruct 1; intros Hwf.
  - by apply wf_tx_ui.
  - by apply wf_rcvmsg.
  - by apply wf_assign.
  - by apply wf_reset_state.
  - by apply wf_set_lle; [apply wf_t200_expired, wf_get_lle|].
  - by apply wf_set_lle; [apply wf_t201_expired, wf_get_lle|].
Qed.

(** C14: in every state reachable through the entry points of the layer the list of LLMEs has no
    duplicates and names exactly the allocated LLMEs, each with sixteen LLEs in SAPI order whose
    V(U), V(UR) and overflow counters are in range. *)
Theorem llc_reachable_wf st : llc_reachable st -> wf st.
Proof. induction 1; [apply wf_init|]. by eapply llc_step_wf. Qed.

End Invariant.

(** ** The wire format *)

Lemma fcs_octets_join f :
  in_width 24 f ->
  ((f .& 0xff) .| (((f .>> 8) .& 0xff) .<< 8)) .| (((f .>> 16) .& 0xff) .<< 16) = f.
Proof.
  intros Hf. apply in_width_testbit in Hf as [Hf0 Hf]; [|lia]. change 0xff with (Z.ones 8).
  Z.bitblast; rewrite ?Hf by lia; by rewrite ?andb_false_r, ?orb_false_r.
Qed.

Lemma fcs_octets_octets f : octets (fcs_octets f).
Proof. repeat constructor; apply in_width_land255. Qed.

Lemma gprs_llc_fcs_width m n : in_width 24 (gprs_llc_fcs m n).
Proof. by apply (in_width_land_ones 24). Qed.

Lemma length_with_fcs m : length (with_fcs m) = (length m + 3)%nat.
Proof. unfold with_fcs. by rewrite length_app. Qed.

Lemma octets_with_fcs m : octets m -> octets (with_fcs m).
Proof. intros Hm. apply Forall_app. split; [done|apply fcs_octets_octets]. Qed.

(** The FCS field of a frame, wherever the frame ends in the buffer. *)
Lemma fcs_field m f extra len :
  len = Z.of_nat (length m) + 3 -> in_width 24 f ->
  let h := (m ++ fcs_octets f) ++ extra in
  (rdz h (len - 3) .| (rdz h (len - 2) .<< 8)) .| (rdz h (len - 1) .<< 16) = f.
Proof.
  intros Hlen Hf h. unfold h, rdz. rewrite <- app_assoc.
  rewrite !(rd_app_r m) by lia.
  replace (Z.to_nat (len - 3) - length m)%nat with 0%nat by lia.
  replace (Z.to_nat (len - 2) - length m)%nat with 1%nat by lia.
  replace (Z.to_nat (len - 1) - length m)%nat with 2%nat by lia.
  by apply fcs_octets_join.
Qed.

Definition usable_sapi (s : Z) : Prop := 0 <= s < 16 /\ reserved_sapi s = false.

Lemma addr_field_facts s command :
  0 <= s < 16 ->
  tst (addr_field s command) 0x80 = false /\ tst (addr_field s command) 0x40 = command /\
  addr_field s command .& 0xf = s.
Proof.
  intros Hs.
  pose (P x := negb (tst (addr_field x command) 0x80) &&
               Bool.eqb (tst (addr_field x command) 0x40) command &&
               (addr_field x command .& 0xf =? x)).
  assert (P s = true) as HP.
  { apply (range_forall P 16); [|done]. unfold P. by destruct command; vm_compute. }
  unfold P in HP. by split_checked HP.
Qed.

Lemma ui_ctrl_facts nu :
  0 <= nu < 512 ->
  let '(c0, c1) := ui_ctrl nu in
  (c0 .& 0x80 =? 0) = false /\ (c0 .& 0xc0 =? 0x80) = false /\ (c0 .& 0xe0 =? 0xc0) = true /\
  ((c0 .& 0x7) .<< 6) .| (c1 .>> 2) = nu /\ tst c1 0x02 = false /\ tst c1 0x01 = true.
Proof.
  intros Hnu.
  pose (P x := let '(c0, c1) := ui_ctrl x in
    negb (c0 .& 0x80 =? 0) && negb (c0 .& 0xc0 =? 0x80) && (c0 .& 0xe0 =? 0xc0) &&
    (((c0 .& 0x7) .<< 6) .| (c1 .>> 2) =? x) && negb (tst c1 0x02) && tst c1 0x01).
  assert (P nu = true) as HP by (apply (range_forall P 512); [by vm_compute|done]).
  unfold P in HP. destruct (ui_ctrl nu) as [c0 c1].
  by split_checked HP.
Qed.

Lemma ui_header_octets s command nu :
  let '(c0, c1) := ui_ctrl nu in
  0 <= s < 16 -> octets [addr_field s command; c0; c1].
Proof.
  destruct (ui_ctrl nu) as [c0 c1] eqn:Hc. intros Hs.
  repeat apply Forall_cons_2; [|injection Hc as <- <-; apply wrap_in_width; lia..|done].
  apply (in_width_mono 7 8); [lia|].
  pose (P x := (0 <=? addr_field x command) && (addr_field x command <? 2 ^ 7)).
  assert (P s = true) as HP.
  { apply (range_forall P 16); [|done]. unfold P. by destruct command; vm_compute. }
  unfold P in HP. unfold in_width. lia.
Qed.

(** The header a receiver parses out of a UI frame with [n] octets of information field. *)
Definition ui_parsed (s : Z) (command : bool) (nu : Z) (n : nat) (f : Z) (crc_len : Z)
  : gprs_llc_hdr_parsed :=
  {| h_sapi := s; is_cmd := negb command; ack_req := false; is_encrypted := false;
     seq_rx := 0; seq_tx := nu; fcs := f; fcs_calc := 0; data := Some 3;
     data_len := Z.of_nat n; crc_length := crc_len; cmd := GPRS_LLC_UI |}.

Definition ui_frame (s : Z) (command : bool) (nu : Z) (payload : list Z) : list Z :=
  let '(c0, c1) := ui_ctrl nu in with_fcs ([addr_field s command; c0; c1] ++ payload).

Lemma length_ui_frame s command nu payload :
  length (ui_frame s command nu payload) = (length payload + 6)%nat.
Proof. unfold ui_frame. destruct (ui_ctrl nu). rewrite length_with_fcs, length_app. cbn. lia. Qed.

(** Parsing a UI header in front of any payload and FCS field. *)
Lemma hdr_parse_ui_frame s command nu payload f extra :
  usable_sapi s -> 0 <= nu < 512 -> in_width 24 f -> Z.of_nat (length payload) < 65530 ->
  let '(c0, c1) := ui_ctrl nu in
  let covered := [addr_field s command; c0; c1] ++ payload in
  gprs_llc_hdr_parse ((covered ++ fcs_octets f) ++ extra) (Z.of_nat (length payload + 6)) =
    Ok (ui_parsed s command nu (length payload) f (Z.of_nat (length covered))).
Proof.
  intros [Hs Hres] Hnu Hf Hlen. pose proof (ui_ctrl_facts nu Hnu) as Hc.
  destruct (ui_ctrl nu) as [c0 c1]. destruct Hc as (H1 & H2 & H3 & H4 & H5 & H6).
  destruct (addr_field_facts s command Hs) as (A1 & A2 & A3).
  cbv zeta. set (covered := [_; c0; c1] ++ payload).
  assert (length covered = (length payload + 3)%nat) as Hcov
    by (unfold covered; rewrite length_app; cbn; lia).
  unfold gprs_llc_hdr_parse, CRC24_LENGTH.
  destruct (Z.leb_spec (Z.of_nat (length payload + 6)) 3); [lia|].
  rewrite (fcs_field covered f extra (Z.of_nat (length payload + 6))) by (done || lia).
  change (rdz ((covered ++ fcs_octets f) ++ extra) 0) with (addr_field s command).
  cbv zeta. rewrite A1, A2, A3. cbn [h_sapi upd upd_h_sapi]. rewrite Hres.
  unfold parse_format.
  change (rdz ((covered ++ fcs_octets f) ++ extra) 1) with c0.
  rewrite H1, H2, H3. unfold parse_ui.
  change (rdz ((covered ++ fcs_octets f) ++ extra) (1 + 0)) with c0.
  change (rdz ((covered ++ fcs_octets f) ++ extra) (1 + 1)) with c1.
  cbv zeta. rewrite H4, H5, H6. unfold ui_parsed, info_len. cbn.
  upd_norm. do 2 f_equal; rewrite wrap_small; unfold in_width; lia.
Qed.

Lemma gprs_llc_fcs_prefix m extra : gprs_llc_fcs (m ++ extra) (length m) = gprs_llc_fcs m (length m).
Proof. unfold gprs_llc_fcs. by rewrite crc24_calc_prefix. Qed.

Section Transfer.
Context {env : LlcEnv}.

(** The tuple (TLLI [t], SAPI [s]) resolves to the LLE [l] behind [r], and its LLME does not
    cipher. *)
Record clear_lle (st : llc_state) (t s : Z) (r : lle_ref) (l : gprs_llc_lle) : Prop := {
  cl_find : lle_by_tlli_sapi st t s = Some r;
  cl_valid : valid_ref st r;
  cl_algo : llme_algo st r.1 = GPRS_ALGO_GEA0;
  cl_lle : get_lle st r = l
}.

Lemma lle_by_tlli_sapi_alter st id f t s :
  (forall m, tlli (f m) = tlli m /\ old_tlli (f m) = old_tlli m) ->
  lle_by_tlli_sapi (alter_llme st id f) t s = lle_by_tlli_sapi st t s.
Proof.
  intros Hf. unfold lle_by_tlli_sapi. rewrite list_alter_llme. f_equal.
  induction (gprs_llc_llmes st) as [|i ids IH]; [done|]. cbn. rewrite IH.
  assert (llme_has_tlli (alter_llme st id f) (tlli_foreign2local t) i
          = llme_has_tlli st (tlli_foreign2local t) i) as ->; [|done].
  unfold llme_has_tlli. rewrite lookup_alter_llme. case_decide; [|done].
  destruct (llmes st !! i) as [m|]; [|done]. cbn. by destruct (Hf m) as [Ht Ho]; rewrite Ht, Ho.
Qed.

Lemma llme_algo_alter st id f i :
  (forall m, algo (f m) = algo m) -> llme_algo (alter_llme st id f) i = llme_algo st i.
Proof.
  intros Hf. unfold llme_algo. rewrite lookup_alter_llme. case_decide; [|done].
  destruct (llmes st !! i); [|done]. cbn. by rewrite Hf.
Qed.

(** Sending and receiving leave the path in place, with the LLE they store. *)
Lemma clear_lle_update st t s r l b n l' :
  clear_lle st t s r l ->
  clear_lle (set_lle (alter_llme st r.1 (fun m => m <| bvci := b |> <| nsei := n |>)) r l') t s r l'.
Proof.
  intros [Hf Hv Ha Hl].
  assert (valid_ref (alter_llme st r.1 (fun m => m <| bvci := b |> <| nsei := n |>)) r)
    by (by apply valid_ref_alter).
  split.
  - unfold set_lle. by rewrite !lle_by_tlli_sapi_alter.
  - destruct Hv as (m & l0 & Hm & Hl0). unfold valid_ref, set_lle.
    rewrite !lookup_alter_llme, !decide_True, Hm by done. cbn.
    eexists _, l'. split; [done|]. apply list_lookup_insert_eq. by eapply lookup_lt_Some.
  - unfold set_lle. by rewrite !llme_algo_alter.
  - by apply get_set_lle.
Qed.

Lemma tx_ui_clear st msg s command mmctx r l :
  clear_lle st (msgb_tlli msg) s r l ->
  Z.of_nat (length (msgb_data msg)) <= n201_u (params l) ->
  let sent := msg <| msgb_data := ui_frame s command (vu_send l) (msgb_data msg) |> in
  gprs_llc_tx_ui st msg s command mmctx =
    (gprs_bssgp_tx_dl_ud (sent, mmctx),
     set_lle (alter_llme st r.1 (fun m => m <| bvci := msgb_bvci msg |> <| nsei := msgb_nsei msg |>))
             r (ui_advance l), [(sent, mmctx)]).
Proof.
  intros [Hf Hv Ha Hl] Hlen. unfold gprs_llc_tx_ui, tx_ui_lle. rewrite Hf, Hl.
  destruct (Z.ltb_spec (n201_u (params l)) (Z.of_nat (length (msgb_data msg)))); [lia|].
  unfold ui_frame. destruct (ui_ctrl (vu_send l)) as [c0 c1].
  rewrite decide_True; [done|]. unfold set_lle. by rewrite !llme_algo_alter.
Qed.

(** Reception of an unciphered UI frame whose FCS field holds [f]. *)
Lemma rcvmsg_ui st t b n s command nu payload f extra r l :
  usable_sapi s -> 0 <= nu < 512 -> in_width 24 f -> Z.of_nat (length payload) < 65530 ->
  clear_lle st t s r l ->
  let '(c0, c1) := ui_ctrl nu in
  let covered := [addr_field s command; c0; c1] ++ payload in
  let st' := alter_llme st r.1 (fun m => m <| bvci := b |> <| nsei := n |>) in
  gprs_llc_rcvmsg st (mk_msgb t b n ((covered ++ fcs_octets f) ++ extra))
    (Z.of_nat (length payload + 6)) =
  if negb (f =? gprs_llc_fcs covered (length covered)) then (RC (- EIO), st, [])
  else if nu <? vu_recv l then (RC (- EIO), set_lle st' r l, [])
  else (llc_deliver r ((covered ++ fcs_octets f) ++ extra)
          (ui_parsed s command nu (length payload) f (Z.of_nat (length covered))),
        set_lle st' r (ui_accept l nu), []).
Proof.
  intros Hs Hnu Hf Hlen [Hfind Hv Ha Hl].
  pose proof (hdr_parse_ui_frame s command nu payload f extra Hs Hnu Hf Hlen) as Hp.
  destruct (ui_ctrl nu) as [c0 c1]. cbv zeta in *.
  set (covered := [_; c0; c1] ++ payload) in *.
  set (st' := alter_llme st r.1 _).
  assert (exists m, llmes st' !! r.1 = Some m) as [m Hm].
  { destruct Hv as (m & l0 & Hm & _). unfold st'. rewrite lookup_alter_llme, decide_True, Hm by done.
    by eexists. }
  assert (get_lle st' r = l) as Hl' by (unfold st'; by rewrite get_lle_alter_ids).
  unfold gprs_llc_rcvmsg. cbn [msgb_data msgb_tlli msgb_bvci msgb_nsei]. rewrite Hp.
  unfold rx_lle. cbn [h_sapi ui_parsed]. rewrite Hfind.
  unfold rx_decrypt. cbn [is_encrypted ui_parsed]. rewrite decide_True by done.
  cbn [fcs crc_length ui_parsed upd upd_fcs_calc fcs_calc]. rewrite Nat2Z.id, <- app_assoc.
  rewrite gprs_llc_fcs_prefix. case_match; [done|].
  rewrite app_assoc. fold st'. rewrite Hm, Hl'.
  unfold gprs_llc_hdr_rx. cbn [cmd ui_parsed upd upd_fcs_calc seq_tx].
  destruct (nu <? vu_recv l); done.
Qed.

Lemma ui_advance_vu_send l : vu_send (ui_advance l) = (vu_send l + 1) mod 512.
Proof. unfold ui_advance. by case_match. Qed.
Lemma ui_advance_params l : params (ui_advance l) = params l.
Proof. unfold ui_advance. by case_match. Qed.
Lemma ui_accept_vu_recv l nu : vu_recv (ui_accept l nu) = (nu + 1) mod 512.
Proof. unfold ui_accept. by case_match. Qed.

(** [gprs_llc_rcvmsg] on a frame that [gprs_llc_tx_ui] built. *)
Lemma rcvmsg_ui_frame st t b n s command nu payload r l :
  usable_sapi s -> 0 <= nu < 512 -> Z.of_nat (length payload) < 65530 ->
  clear_lle st t s r l ->
  let frame := ui_frame s command nu payload in
  let st' := alter_llme st r.1 (fun m => m <| bvci := b |> <| nsei := n |>) in
  gprs_llc_rcvmsg st (mk_msgb t b n frame) (Z.of_nat (length frame)) =
  if nu <? vu_recv l then (RC (- EIO), set_lle st' r l, [])
  else (llc_deliver r frame
          (ui_parsed s command nu (length payload) 
             (gprs_llc_fcs (take (length payload + 3) frame) (length payload + 3))
             (Z.of_nat (length payload + 3))),
        set_lle st' r (ui_accept l nu), []).
Proof.
  intros Hs Hnu Hlen Hcl frame st'. unfold frame. rewrite length_ui_frame.
  pose proof (rcvmsg_ui st t b n s command nu payload
    (gprs_llc_fcs (take (length payload + 3) frame) (length payload + 3)) [] r l
    Hs Hnu (gprs_llc_fcs_width _ _) Hlen Hcl) as H.
  unfold frame, ui_frame in *. destruct (ui_ctrl nu) as [c0 c1]. cbv zeta in *.
  set (covered := [_; c0; c1] ++ payload) in *.
  assert (length covered = (length payload + 3)%nat) as Hcov
    by (unfold covered; rewrite length_app; cbn; lia).
  assert (take (length payload + 3) (with_fcs covered) = covered) as Htake
    by (unfold with_fcs; by rewrite <- Hcov, take_app_length).
  rewrite Htake, <- Hcov in *. rewrite app_nil_r, Z.eqb_refl in H. exact H.
Qed.

(** One payload sent on one side and received on the other: the result there and both states. *)
Definition ui_transfer1 (s t1 t2 : Z) (command : bool) (st1 st2 : llc_state) (payload : list Z)
  : list llc_rc * llc_state * llc_state :=
  let '(_, st1, out) := gprs_llc_tx_ui st1 (mk_msgb t1 0 0 payload) s command 0 in
  let '(rs, st2) := foldl (fun '(rs, st2) '(m, _) =>
      let '(rc, st2, _) := gprs_llc_rcvmsg st2 (mk_msgb t2 0 0 (msgb_data m))
                             (Z.of_nat (length (msgb_data m))) in
      (rs ++ [rc], st2)) ([], st2) out in
  (rs, st1, st2).

Fixpoint ui_transfer (s t1 t2 : Z) (command : bool) (st1 st2 : llc_state) (ps : list (list Z))
  : list llc_rc :=
  match ps with
  | [] => []
  | p :: ps =>
      let '(rs, st1, st2) := ui_transfer1 s t1 t2 command st1 st2 p in
      rs ++ ui_transfer s t1 t2 command st1 st2 ps
  end.

Lemma ui_transfer1_spec s t1 t2 command st1 st2 r1 r2 l1 l2 p :
  usable_sapi s -> clear_lle st1 t1 s r1 l1 -> clear_lle st2 t2 s r2 l2 ->
  0 <= vu_send l1 < 512 -> Z.of_nat (length p) <= n201_u (params l1) < 65530 ->
  let frame := ui_frame s command (vu_send l1) p in
  exists st1' st2' rc l2',
    ui_transfer1 s t1 t2 command st1 st2 p = ([rc], st1', st2') /\
    clear_lle st1' t1 s r1 (ui_advance l1) /\ clear_lle st2' t2 s r2 l2' /\
    if vu_send l1 <? vu_recv l2 then rc = RC (- EIO) /\ l2' = l2
    else l2' = ui_accept l2 (vu_send l1) /\
         exists g, rc = llc_deliver r2 frame g /\ h_sapi g = s /\ data g = Some 3 /\
                   data_len g = Z.of_nat (length p).
Proof.
  intros Hs H1 H2 Hv Hp frame. unfold ui_transfer1.
  rewrite (tx_ui_clear st1 (mk_msgb t1 0 0 p) s command 0 r1 l1 H1) by (cbn; lia).
  cbn [foldl msgb_data upd upd_msgb_data msgb_bvci msgb_nsei].
  rewrite (rcvmsg_ui_frame st2 t2 0 0 s command (vu_send l1) p r2 l2) by (done || lia).
  destruct (vu_send l1 <? vu_recv l2).
  - do 4 eexists. split; [done|]. split; [by apply clear_lle_update with (l := l1)|].
    split; [by apply clear_lle_update with (l := l2)|]. done.
  - do 4 eexists. split; [done|]. split; [by apply clear_lle_update with (l := l1)|].
    split; [by apply clear_lle_update with (l := l2)|]. split; [done|]. by eexists.
Qed.

(** The indication for a payload: SNDCP is given the payload and its length. *)
Definition delivers (r : lle_ref) (p : list Z) (rc : llc_rc) : Prop :=
  exists hdr, rc = IND (SNDCP_IND r hdr (Z.of_nat (length p))) /\ take (length p) hdr = p.

Lemma drop_3_ui_frame s command nu p : take (length p) (drop 3 (ui_frame s command nu p)) = p.
Proof.
  unfold ui_frame. destruct (ui_ctrl nu) as [c0 c1]. unfold with_fcs. cbn.
  apply take_app_length.
Qed.

Lemma llc_deliver_ui r s command nu p g :
  is_sndcp_sapi s = true -> h_sapi g = s -> data g = Some 3 -> data_len g = Z.of_nat (length p) ->
  delivers r p (llc_deliver r (ui_frame s command nu p) g).
Proof.
  intros Hs Hg Hd Hl. unfold llc_deliver, data_octets. rewrite Hg, Hd, Hl, Hs.
  assert ((s =? GPRS_SAPI_GMM) = false) as ->.
  { unfold is_sndcp_sapi in Hs. apply bool_decide_eq_true in Hs. apply Z.eqb_neq.
    intros ->. by repeat (apply elem_of_cons in Hs as [?|Hs]; [done|]); apply elem_of_nil in Hs. }
  eexists. split; [done|]. apply drop_3_ui_frame.
Qed.

Lemma sndcp_sapi_usable s : is_sndcp_sapi s = true -> usable_sapi s.
Proof.
  unfold is_sndcp_sapi. rewrite bool_decide_eq_true. intros Hs.
  repeat (apply elem_of_cons in Hs as [->|Hs]; [by split|]). by apply elem_of_nil in Hs.
Qed.

(** C3: any number of N-PDUs sent over an unciphered SNDCP entity arrive at a peer that is in
    step with the sender: each is delivered once, in order, octet for octet, also across the
    wrap of N(U) at 512. *)
Theorem ui_stream_in_order s t1 t2 command st1 st2 r1 r2 l1 l2 ps :
  is_sndcp_sapi s = true -> clear_lle st1 t1 s r1 l1 -> clear_lle st2 t2 s r2 l2 ->
  0 <= vu_send l1 < 512 -> vu_recv l2 = vu_send l1 -> n201_u (params l1) < 65530 ->
  Forall (fun p => Z.of_nat (length p) <= n201_u (params l1)) ps ->
  Forall2 (delivers r2) ps (ui_transfer s t1 t2 command st1 st2 ps).
Proof.
  intros Hs H1 H2 Hv Heq Hn Hps. revert st1 st2 l1 l2 H1 H2 Hv Heq Hn Hps.
  induction ps as [|p ps IH]; intros st1 st2 l1 l2 H1 H2 Hv Heq Hn Hps; [constructor|].
  apply Forall_cons in Hps as [Hp Hps].
  destruct (ui_transfer1_spec s t1 t2 command st1 st2 r1 r2 l1 l2 p) as
    (st1' & st2' & rc & l2' & Ht & H1' & H2' & Hrc); try done.
  { by apply sndcp_sapi_usable. }
  cbn [ui_transfer]. rewrite Ht. rewrite Heq, Z.ltb_irrefl in Hrc.
  destruct Hrc as (-> & g & -> & Hg & Hd & Hl).
  constructor; [by apply llc_deliver_ui|].
  eapply IH; [done|done|..].
  - rewrite ui_advance_vu_send. apply Z.mod_pos_bound. lia.
  - by rewrite ui_advance_vu_send, ui_accept_vu_recv.
  - by rewrite ui_advance_params.
  - by rewrite ui_advance_params.
Qed.

(** After the frame with N(U) = 511 is lost, every one of the next 511 frames is refused
    with -EIO: the receive window compares N(U) with V(UR) without regard to the wrap. *)
Theorem ui_loss_at_wrap s t1 t2 command st1 st2 r1 r2 l1 l2 ps :
  usable_sapi s -> clear_lle st1 t1 s r1 l1 -> clear_lle st2 t2 s r2 l2 ->
  vu_send l1 = 0 -> vu_recv l2 = 511 -> (length ps <= 511)%nat -> n201_u (params l1) < 65530 ->
  Forall (fun p => Z.of_nat (length p) <= n201_u (params l1)) ps ->
  ui_transfer s t1 t2 command st1 st2 ps = replicate (length ps) (RC (- EIO)).
Proof.
  intros Hs H1 H2 Hv Hr Hlen Hn Hps.
  assert (0 <= vu_send l1 /\ vu_send l1 + Z.of_nat (length ps) <= 511) as Hv' by lia. clear Hv Hlen.
  revert st1 st2 l1 H1 H2 Hv' Hn Hps.
  induction ps as [|p ps IH]; intros st1 st2 l1 H1 H2 Hv Hn Hps; [done|].
  apply Forall_cons in Hps as [Hp Hps]. cbn [length] in Hv.
  destruct (ui_transfer1_spec s t1 t2 command st1 st2 r1 r2 l1 l2 p) as
    (st1' & st2' & rc & l2' & Ht & H1' & H2' & Hrc); try done; [lia|].
  cbn [ui_transfer]. rewrite Ht.
  destruct (Z.ltb_spec (vu_send l1) (vu_recv l2)); [|lia]. destruct Hrc as [-> ->].
  cbn. f_equal. eapply IH; [done|done|rewrite ui_advance_vu_send, Z.mod_small; lia|..];
    by rewrite ui_advance_params.
Qed.

(** ** Corrupted frames *)

(** A UI frame whose information field was corrupted anywhere within three consecutive
    octets is dropped with -EIO, and neither an upper layer nor the LLC state sees it. *)
Theorem ui_burst_dropped st t b n s command nu pre post x y z x' y' z' r l :
  usable_sapi s -> 0 <= nu < 512 -> clear_lle st t s r l ->
  octets (pre ++ [x; y; z] ++ post) -> octets [x'; y'; z'] -> [x; y; z] <> [x'; y'; z'] ->
  Z.of_nat (length (pre ++ [x; y; z] ++ post)) < 65530 ->
  let sent := ui_frame s command nu (pre ++ [x; y; z] ++ post) in
  let received := take 3 sent ++ (pre ++ [x'; y'; z'] ++ post)
                  ++ drop (length (pre ++ [x; y; z] ++ post) + 3) sent in
  gprs_llc_rcvmsg st (mk_msgb t b n received) (Z.of_nat (length received)) = (RC (- EIO), st, []).
Proof.
  intros Hs Hnu Hcl Ho Ho' Hne Hlen sent received.
  set (p := pre ++ [x; y; z] ++ post) in *. set (p' := pre ++ [x'; y'; z'] ++ post) in *.
  assert (length p' = length p) as Hpp by (unfold p, p'; by rewrite !length_app).
  pose proof (ui_header_octets s command nu) as Hh.
  pose proof (fun f Hf => rcvmsg_ui st t b n s command nu p' f [] r l Hs Hnu Hf) as Hr.
  unfold received, sent, ui_frame in *. destruct (ui_ctrl nu) as [c0 c1]. cbv zeta in *.
  assert (Hh' := Hh (proj1 Hs)). clear Hh. set (hdr := [_; c0; c1]) in *.
  set (f := gprs_llc_fcs (hdr ++ p) (length (hdr ++ p))).
  assert (take 3 (with_fcs (hdr ++ p)) ++ p' ++ drop (length p + 3) (with_fcs (hdr ++ p))
          = ((hdr ++ p') ++ fcs_octets f) ++ []) as ->.
  { assert (with_fcs (hdr ++ p) = hdr ++ (p ++ fcs_octets f)) as ->
      by (unfold with_fcs; fold f; by rewrite app_assoc).
    rewrite (Nat.add_comm (length p)).
    change (drop (3 + length p) (hdr ++ (p ++ fcs_octets f)))
      with (drop (length p) (p ++ fcs_octets f)).
    rewrite drop_app_length, app_nil_r. by rewrite <- app_assoc. }
  assert (Z.of_nat (length (((hdr ++ p') ++ fcs_octets f) ++ [])) = Z.of_nat (length p' + 6)) as ->
    by (rewrite !length_app; cbn; lia).
  rewrite Hr by (apply gprs_llc_fcs_width || lia || done).
  assert (f <> gprs_llc_fcs (hdr ++ p') (length (hdr ++ p'))) as Hf.
  { assert (length (hdr ++ p') = length (hdr ++ p)) as -> by (rewrite !length_app; lia).
    unfold f, gprs_llc_fcs. intros Hcrc. apply lnot_ones_inj in Hcrc.
    - unfold p, p' in Hcrc. rewrite !(app_assoc hdr pre) in Hcrc.
      revert Hcrc. apply crc24_detects_burst_aux; [by vm_compute| |done|done].
      rewrite <- app_assoc. by apply Forall_app.
    - apply crc24_calc_24; [by vm_compute|by apply Forall_app|done].
    - apply crc24_calc_24; [by vm_compute| |rewrite !length_app; lia].
      apply Forall_app. split; [done|]. unfold p, p' in *.
      rewrite !Forall_app in *. tauto. }
  apply Z.eqb_neq in Hf. by rewrite Hf.
Qed.

(** ** Ciphered frames *)

Lemma xor_prefix_octets n buf key :
  octets buf -> octets key -> octets (xor_prefix n buf key).
Proof.
  revert buf key. induction n as [|n IH]; intros [|x buf] key Hb Hk; cbn; try done.
  apply Forall_cons in Hb as [Hx Hb]. apply Forall_cons. split.
  - apply in_width_lxor; [lia|done|by apply rd_octet].
  - apply IH; [done|]. destruct key; [done|]. by apply Forall_cons in Hk as [_ Hk].
Qed.

Lemma fcs_octets_split e n :
  octets e -> length e = (n + 3)%nat ->
  exists p f, e = p ++ fcs_octets f /\ length p = n /\ in_width 24 f.
Proof.
  intros He Hlen. exists (take n e).
  assert (length (drop n e) = 3%nat) as Hd by (rewrite length_drop; lia).
  assert (octets (drop n e)) as Ho by (by apply Forall_drop).
  destruct (drop n e) as [|a [|b [|c [|]]]] eqn:E; try done.
  apply Forall_cons in Ho as [Ha Ho]. apply Forall_cons in Ho as [Hb Ho].
  apply Forall_cons in Ho as [Hc _].
  exists (a + b * 2 ^ 8 + c * 2 ^ 16). split; [|split].
  - rewrite <- (take_drop n e) at 1. f_equal. rewrite E. unfold fcs_octets, in_width in *.
    change 0xff with (Z.ones 8). rewrite !Z.land_ones, !Z.shiftr_div_pow2 by lia.
    change (2 ^ 8) with 256 in *. change (2 ^ 16) with 65536 in *.
    repeat f_equal; Z.to_euclidean_division_equations; lia.
  - rewrite length_take. lia.
  - unfold in_width in *. lia.
Qed.

(** The E bit of a ciphered UI frame never reaches the wire (it is set in the local copy of
    the control field after that was copied into the frame): a peer that has ciphering enabled
    for the entity takes every such frame for a clear one and drops it silently. *)
Theorem ciphered_ui_dropped st1 msg s command mmctx rc st1' m mmctx' st2 t b n r2 :
  (forall len a k iv d, octets (gprs_cipher_run len a k iv d).2) ->
  wf st1 -> usable_sapi s -> octets (msgb_data msg) -> Z.of_nat (length (msgb_data msg)) < 65530 ->
  llme_algo (tx_ui_lle st1 (msgb_tlli msg) s).1 (tx_ui_lle st1 (msgb_tlli msg) s).2.1
    <> GPRS_ALGO_GEA0 ->
  gprs_llc_tx_ui st1 msg s command mmctx = (rc, st1', [(m, mmctx')]) ->
  lle_by_tlli_sapi st2 t s = Some r2 -> llme_algo st2 r2.1 <> GPRS_ALGO_GEA0 ->
  gprs_llc_rcvmsg st2 (mk_msgb t b n (msgb_data m)) (Z.of_nat (length (msgb_data m)))
    = (RC 0, st2, []).
Proof.
  intros Hcip Hwf Hs Ho Hlen Ha Htx Hr2 Ha2. destruct (Hs) as [Hs16 _].
  unfold gprs_llc_tx_ui in Htx.
  pose proof (tx_ui_lle_spec st1 (msgb_tlli msg) s Hwf Hs16) as Hr.
  destruct (tx_ui_lle st1 (msgb_tlli msg) s) as [st r]. destruct Hr as (Hwf' & Hv & _).
  cbn [fst snd] in Ha. case_match; [done|].
  pose proof (wf_get_lle st r Hwf' Hv) as [_ Hnu _ _ _ _].
  pose proof (ui_header_octets s command (vu_send (get_lle st r))) as Hh.
  pose proof (fun p f => hdr_parse_ui_frame s command (vu_send (get_lle st r)) p f [] Hs Hnu) as Hp.
  destruct (ui_ctrl (vu_send (get_lle st r))) as [c0 c1]. specialize (Hh Hs16).
  unfold set_lle in Htx. rewrite !llme_algo_alter in Htx by done.
  rewrite decide_False in Htx by done.
  set (hdr := [_; c0; c1]) in *. cbv zeta in Htx.
  remember (with_fcs (hdr ++ msgb_data msg)) as frame eqn:Hframe in Htx.
  assert (wrap 16 (Z.of_nat (length frame) - 3) = Z.of_nat (length (msgb_data msg) + 3)) as Hlf.
  { rewrite Hframe, length_with_fcs, length_app, wrap_small; unfold in_width; cbn; lia. }
  rewrite Hlf, Nat2Z.id in Htx.
  match type of Htx with context [gprs_cipher_run ?a1 ?a2 ?a3 ?a4 ?a5] =>
    pose proof (Hcip a1 a2 a3 a4 a5) as Hk; destruct (gprs_cipher_run a1 a2 a3 a4 a5) as [rc0 key] end.
  cbn in Hk. case_match; [done|]. injection Htx as _ _ <- _. cbn [msgb_data upd upd_msgb_data].
  rewrite Hframe. unfold xor_at, with_fcs. rewrite <- app_assoc.
  change (drop 3 (hdr ++ ?x)) with x.
  set (e := xor_prefix _ _ _).
  destruct (fcs_octets_split e (length (msgb_data msg))) as (p & f & He & Hpl & Hf).
  { apply xor_prefix_octets; [|done]. apply Forall_app. split; [done|apply fcs_octets_octets]. }
  { unfold e. rewrite length_xor_prefix, length_app. cbn. lia. }
  change (take 3 (hdr ++ ?x)) with hdr. rewrite He. rewrite app_assoc.
  rewrite <- (app_nil_r ((hdr ++ p) ++ fcs_octets f)).
  assert (Z.of_nat (length (((hdr ++ p) ++ fcs_octets f) ++ [])) = Z.of_nat (length p + 6)) as ->
    by (rewrite !length_app; cbn; lia).
  unfold gprs_llc_rcvmsg. cbn [msgb_data msgb_tlli].
  rewrite Hp by (done || lia).
  unfold rx_lle. cbn [h_sapi ui_parsed]. rewrite Hr2.
  unfold rx_decrypt. cbn [is_encrypted ui_parsed]. by rewrite decide_False.
Qed.

(** ** Counters *)

(** The LLE after [k] frames were sent, and after the frames 0..k-1 were received in order. *)
Fixpoint sent_ui (k : nat) (l : gprs_llc_lle) : gprs_llc_lle :=
  match k with O => l | S k => ui_advance (sent_ui k l) end.
Fixpoint received_ui (k : nat) (l : gprs_llc_lle) : gprs_llc_lle :=
  match k with O => l | S k => ui_accept (received_ui k l) (Z.of_nat k mod 512) end.

Lemma sent_ui_spec l k :
  vu_send l = 0 -> oc_ui_send l = 0 ->
  vu_send (sent_ui k l) = Z.of_nat k mod 512 /\
  oc_ui_send (sent_ui k l) = u32 (512 * ((Z.of_nat k + 1) / 512)).
Proof.
  intros Hv Ho. induction k as [|k [IHv IHo]]; [cbn [sent_ui]; by rewrite Hv, Ho|].
  cbn [sent_ui] in *. unfold ui_advance.
  cbv zeta. cbn [vu_send upd upd_vu_send]. rewrite IHv.
  case_match eqn:E; cbn; rewrite ?IHv, ?IHo; unfold wrap;
    change (2 ^ 32) with 4294967296 in *; split; Z.to_euclidean_division_equations; lia.
Qed.

Lemma received_ui_spec l k :
  vu_recv l = 0 -> oc_ui_recv l = 0 ->
  vu_recv (received_ui k l) = Z.of_nat k mod 512 /\
  oc_ui_recv (received_ui k l) = u32 (512 * (Z.of_nat k / 512)).
Proof.
  intros Hv Ho. induction k as [|k [IHv IHo]]; [cbn [received_ui]; by rewrite Hv, Ho|].
  cbn [received_ui] in *. unfold ui_accept. cbv zeta.
  case_match eqn:E; cbn; rewrite ?IHo; unfold wrap;
    change (2 ^ 32) with 4294967296 in *; split; Z.to_euclidean_division_equations; lia.
Qed.

(** Of two fresh LLEs one sends and the other receives in order; when frame [k] is sent and
    when it is received, both sides hold the same N(U), but the overflow counters that go into
    the cipher input agree exactly when N(U) is not 511: the sender steps its counter one frame
    early. *)
Theorem ui_overflow_counters l1 l2 k :
  vu_send l1 = 0 -> oc_ui_send l1 = 0 -> vu_recv l2 = 0 -> oc_ui_recv l2 = 0 ->
  vu_send (sent_ui k l1) = vu_recv (received_ui k l2) /\
  (oc_ui_send (sent_ui k l1) = oc_ui_recv (received_ui k l2) <-> vu_send (sent_ui k l1) <> 511).
Proof.
  intros H1 H2 H3 H4. destruct (sent_ui_spec l1 k H1 H2) as [-> ->].
  destruct (received_ui_spec l2 k H3 H4) as [-> ->]. split; [done|].
  unfold wrap. change (2 ^ 32) with 4294967296.
  split; intros; Z.to_euclidean_division_equations; lia.
Qed.

(** ** Header parsing *)

Lemma parse_format_ui h len g g' :
  parse_format h len g = Ok g' -> cmd g' = GPRS_LLC_UI -> data_len g' = info_len len 3.
Proof.
  unfold parse_format. case_match.
  { intros [= <-]. unfold parse_i, supervisory_cmd. cbv zeta. cbn [cmd upd upd_data_len upd_data upd_cmd].
    repeat case_match; done. }
  case_match.
  { intros [= <-]. unfold parse_s, supervisory_cmd. cbv zeta. cbn [cmd upd upd_cmd].
    repeat case_match; done. }
  case_match.
  { intros [= <-] _. unfold parse_ui. cbv zeta. by repeat case_match. }
  unfold parse_u. repeat case_match; try done; by intros [= <-].
Qed.

(** The length of the information field of a UI frame is that of the PDU less header and
    FCS, except that the 16-bit subtraction wraps for the PDUs of four and five octets that
    pass the length check: they are announced with 65534 and 65535 octets. *)
Theorem ui_data_len h len g :
  len < 65542 -> gprs_llc_hdr_parse h len = Ok g -> cmd g = GPRS_LLC_UI ->
  4 <= len /\ data_len g = if len <? 6 then 65530 + len else len - 6.
Proof.
  intros Hlen. unfold gprs_llc_hdr_parse, CRC24_LENGTH.
  destruct (Z.leb_spec len 3); [done|]. cbv zeta. case_match; [done|]. case_match; [done|].
  destruct (parse_format _ _ _) as [g'|] eqn:Hf; [|done]. case_decide; [done|].
  intros [= <-] Hc. apply parse_format_ui in Hf; [|done]. rewrite Hf. split; [lia|].
  unfold info_len, wrap. change (2 ^ 16) with 65536.
  destruct (Z.ltb_spec len 6); Z.to_euclidean_division_equations; lia.
Qed.

(** An XID frame on the GMM SAPI is answered with an XID response that echoes its
    parameters, and those parameters are then handed to GMM as if they were a layer 3 message. *)
Theorem xid_answered_and_delivered st msg len r l m g :
  gprs_llc_hdr_parse (msgb_data msg) len = Ok g -> cmd g = GPRS_LLC_XID ->
  h_sapi g = GPRS_SAPI_GMM -> is_encrypted g = false -> data g = Some 2 ->
  fcs g = gprs_llc_fcs (msgb_data msg) (Z.to_nat (crc_length g)) -> data_len g + CRC24_LENGTH <= XID_ROOM ->
  clear_lle st (msgb_tlli msg) GPRS_SAPI_GMM r l -> llmes st !! r.1 = Some m ->
  exists st' resp,
    gprs_llc_rcvmsg st msg len = (IND (GMM_IND r.1 (drop 2 (msgb_data msg))), st', [(resp, 0)]) /\
    msgb_tlli resp = tlli m /\
    msgb_data resp = with_fcs ([addr_field (sapi l) false; 0xfb] ++
                       take (Z.to_nat (data_len g)) (drop 2 (msgb_data msg))).
Proof.
  intros Hp Hc Hs He Hd Hf Hroom [Hfind Hv Ha Hl] Hm. unfold gprs_llc_rcvmsg. rewrite Hp.
  unfold rx_lle. rewrite Hs, Hfind. unfold rx_decrypt. rewrite He, decide_True by done.
  cbv zeta. cbn [fcs crc_length upd upd_fcs_calc fcs_calc]. rewrite <- Hf, Z.eqb_refl. cbn [negb].
  rewrite lookup_alter_llme, decide_True, Hm by done. cbn [fmap option_fmap option_map].
  rewrite get_lle_alter_ids, Hl. unfold gprs_llc_hdr_rx.
  cbn [cmd data_len upd upd_fcs_calc]. rewrite Hc, (proj2 (Z.ltb_ge _ _) Hroom). unfold gprs_llc_tx_xid, gprs_llc_tx_u. cbn [fst snd].
  change (0 <? 0) with false. cbv iota.
  unfold llc_deliver, data_octets. cbn [data h_sapi data_len upd upd_fcs_calc]. rewrite Hd, Hs.
  eexists _, _. split; [done|]. split; [done|]. done.
Qed.

(** ** TLLIs *)

(** What the GPRS utility library documents of TLLIs: foreign ones start with the bits 10. *)
Definition foreign_tlli_coding : Prop :=
  forall t, in_width 32 t -> (gprs_tlli_type t = TLLI_FOREIGN <-> t .>> 30 = 2).

Lemma foreign_local_bits t : t .>> 30 = 2 -> (t .| 0x40000000) <> t.
Proof.
  intros H Heq. apply (f_equal (fun x => Z.testbit x 30)) in Heq.
  rewrite Z.lor_spec in Heq. change (Z.testbit 0x40000000 30) with true in Heq.
  rewrite orb_true_r in Heq.
  assert (Z.testbit (t .>> 30) 0 = Z.testbit t 30) as Hb by (by rewrite Z.shiftr_spec by lia).
  rewrite H, <- Heq in Hb. done.
Qed.

(** Frames from a mobile with a foreign TLLI that is not known yet pile up LLMEs: the LLME
    created for the frame carries the foreign TLLI while lookups use its local form, so after
    every such GMM frame the list is one longer and the TLLI is still unknown. *)
Theorem foreign_tlli_leak st t b n command nu payload :
  foreign_tlli_coding -> in_width 32 t -> gprs_tlli_type t = TLLI_FOREIGN ->
  t .| 0x40000000 <> 0xffffffff -> 0 <= nu < 512 -> Z.of_nat (length payload) < 65530 ->
  wf st -> lle_by_tlli_sapi st t GPRS_SAPI_GMM = None ->
  let frame := ui_frame GPRS_SAPI_GMM command nu payload in
  let '(rc, st', _) := gprs_llc_rcvmsg st (mk_msgb t b n frame) (Z.of_nat (length frame)) in
  (exists gmmh, rc = IND (GMM_IND (next_llme st) gmmh)) /\
  length (gprs_llc_llmes st') = S (length (gprs_llc_llmes st)) /\
  lle_by_tlli_sapi st' t GPRS_SAPI_GMM = None.
Proof.
  intros Hcod Ht Hfor Hff Hnu Hlen Hwf Hnone frame.
  pose proof (hdr_parse_ui_frame GPRS_SAPI_GMM command nu payload
    (gprs_llc_fcs (take (length payload + 3) frame) (length payload + 3)) []) as Hp.
  assert (usable_sapi GPRS_SAPI_GMM) as Hs by done.
  specialize (Hp Hs Hnu (gprs_llc_fcs_width _ _) Hlen).
  unfold frame. rewrite length_ui_frame. fold frame.
  set (f := gprs_llc_fcs (take (length payload + 3) frame) (length payload + 3)) in *.
  assert (lle_by_tlli_sapi (llme_alloc st t).1 t GPRS_SAPI_GMM = None) as Hnone'.
  { apply Hcod in Hfor as Hbits; [|done]. apply foreign_local_bits in Hbits.
    unfold lle_by_tlli_sapi, tlli_foreign2local in *. rewrite Hfor in *. cbn.
    unfold llme_has_tlli at 1. cbn. rewrite lookup_insert_eq. unfold llme_new. cbn [tlli old_tlli].
    destruct (Z.eqb_spec t (t .| 0x40000000)); [congruence|].
    destruct (Z.eqb_spec 4294967295 (t .| 0x40000000)); [congruence|]. cbn [orb].
    apply fmap_None in Hnone. apply fmap_None.
    assert (forall ids, next_llme st ∉ ids ->
      find (llme_has_tlli (llme_alloc st t).1 (t .| 0x40000000)) ids =
      find (llme_has_tlli st (t .| 0x40000000)) ids) as Hfind.
    { induction ids as [|i ids IH]; intros Hni; [done|].
      apply not_elem_of_cons in Hni as [Hi Hni]. cbn [find]. rewrite IH by done.
      unfold llme_has_tlli at 1. cbn. rewrite lookup_insert_ne by done. done. }
    etrans; [apply Hfind|done].
    intros Hin. apply Hwf, (wf_fresh _ Hwf) in Hin. lia. }
  unfold frame, ui_frame in *. destruct (ui_ctrl nu) as [c0 c1]. cbv zeta in *.
  set (covered := [_; c0; c1] ++ payload) in *.
  assert (length covered = (length payload + 3)%nat) as Hcov
    by (unfold covered; rewrite length_app; cbn; lia).
  assert (take (length payload + 3) (with_fcs covered) = covered) as Htake
    by (unfold with_fcs; by rewrite <- Hcov, take_app_length).
  unfold f in *. rewrite Htake, app_nil_r in *. rewrite <- Hcov in *.
  fold (with_fcs covered) in Hp. clear f.
  unfold gprs_llc_rcvmsg. cbn [msgb_data msgb_tlli msgb_bvci msgb_nsei]. rewrite Hp.
  unfold rx_lle. cbn [h_sapi cmd ui_parsed]. rewrite Hnone.
  rewrite bool_decide_eq_true_2 by (by right). cbn [andb Z.eqb GPRS_SAPI_GMM Pos.eqb].
  destruct (llme_alloc st t) as [st1 id] eqn:Hal.
  assert (llmes st1 !! id = Some (llme_new t) /\ id = next_llme st /\
          gprs_llc_llmes st1 = id :: gprs_llc_llmes st) as (Hm & -> & Hls).
  { unfold llme_alloc in Hal. injection Hal as <- <-. cbn. by rewrite lookup_insert_eq. }
  cbn [fst] in Hnone'. unfold rx_decrypt. cbn [is_encrypted ui_parsed fst].
  rewrite decide_True by (unfold llme_algo; by rewrite Hm).
  cbn [fcs crc_length ui_parsed upd upd_fcs_calc fcs_calc]. rewrite Nat2Z.id.
  assert (gprs_llc_fcs (with_fcs covered) (length covered) = gprs_llc_fcs covered (length covered))
    as -> by (unfold with_fcs; apply gprs_llc_fcs_prefix).
  rewrite Z.eqb_refl. cbn [negb].
  rewrite lookup_alter_llme, decide_True, Hm by done. cbn [fmap option_fmap option_map].
  rewrite get_lle_alter_ids. unfold get_lle. cbn [fst snd]. rewrite Hm. cbn [mbind option_bind].
  rewrite lle_llme_new by (unfold NUM_SAPIS, GPRS_SAPI_GMM; lia).
  cbn [from_option Datatypes.id].
  unfold gprs_llc_hdr_rx. cbn [cmd ui_parsed upd upd_fcs_calc seq_tx].
  change (vu_recv (lle_init (Z.to_nat GPRS_SAPI_GMM))) with 0.
  destruct (Z.ltb_spec nu 0); [lia|]. change (0 <? 0) with false. cbv iota beta zeta.
  split; [by eexists|]. unfold set_lle. rewrite !list_alter_llme, Hls. split; [done|].
  by rewrite !lle_by_tlli_sapi_alter.
Qed.

(** LLGMM-ASSIGN. A TLLI change makes the LLME known by the new and by the current TLLI; an
    assignment leaves only the new one; an unassignment frees the LLME; a call that names
    neither TLLI is refused with -EINVAL and changes no TLLI. *)
Theorem llgmm_assign_spec st id m o n alg key :
  llmes st !! id = Some m ->
  let unassigned := 0xffffffff in
  let '(rc, st') := gprs_llgmm_assign st id o n alg key in
  let known t := llme_has_tlli st' t id in
  (o <> unassigned -> n <> unassigned ->
     rc = 0 /\ forall t, known t = (n =? t) || (tlli m =? t)) /\
  (o = unassigned -> n <> unassigned ->
     rc = 0 /\ forall t, t <> unassigned -> known t = (n =? t)) /\
  (o <> unassigned -> n = unassigned ->
     rc = 0 /\ llmes st' !! id = None /\ id ∉ gprs_llc_llmes st') /\
  (o = unassigned -> n = unassigned ->
     rc = - EINVAL /\ forall t, known t = llme_has_tlli st t id).
Proof.
  intros Hm unassigned. unfold gprs_llgmm_assign, llme_has_tlli.
  set (st1 := alter_llme st id _).
  assert (exists m1, llmes st1 !! id = Some m1 /\ tlli m1 = tlli m /\ old_tlli m1 = old_tlli m)
    as (m1 & Hm1 & Ht & Hot).
  { unfold st1. rewrite lookup_alter_llme, decide_True, Hm by done. cbn.
    eexists. split; [done|]. by case_decide. }
  assert (gprs_llc_llmes st1 = gprs_llc_llmes st) as Hls by done.
  cbv zeta. subst unassigned.
  destruct (Z.eqb_spec o 0xffffffff), (Z.eqb_spec n 0xffffffff); cbn [negb andb].
  all: repeat split; try done; intros.
  all: rewrite ?lookup_alter_llme, ?decide_True, ?Hm, ?Hm1 by done; cbn.
  - by rewrite Ht, Hot.
  - destruct (negb (old_tlli m1 =? _)); change ((n =? t) || (4294967295 =? t) = (n =? t));
      rewrite (proj2 (Z.eqb_neq 4294967295 t)) by congruence; apply orb_false_r.
  - rewrite lookup_delete_eq. done.
  - rewrite list_elem_of_filter. tauto.
  - by rewrite Ht.
Qed.

End Transfer.

(** ** Concrete runs *)

(** TLLI coding by the leading bits; the key stream is the octet 0x5a. *)
Definition test_env : LlcEnv := {|
  gprs_tlli_type t := if t .>> 30 =? 3 then TLLI_LOCAL else if t .>> 30 =? 2 then TLLI_FOREIGN
                      else if t .>> 27 =? 15 then TLLI_RANDOM else TLLI_OTHER;
  gprs_cipher_gen_input_ui iov s nu oc := oc + nu;
  gprs_cipher_run len _ _ _ _ := (0, replicate (Z.to_nat len) 0x5a);
  gprs_bssgp_tx_dl_ud _ := 0;
  llc_params_oob _ := mk_gprs_llc_params 0 0 0 0 0 0 0 0 0
|}.

Definition test_tlli : Z := 0xc0000001.
Definition st_empty : llc_state := mk_llc_state ∅ [] 0.
(** One mobile, in the clear, and the same with ciphering switched on. *)
Definition st_clear : llc_state := (llme_alloc (env := test_env) st_empty test_tlli).1.
Definition st_cipher : llc_state :=
  (gprs_llgmm_assign st_clear 0 0xffffffff test_tlli GPRS_ALGO_GEA1 (replicate 8 1)).2.
Definition st_recv (v : Z) (s : nat) : llc_state :=
  set_lle st_clear (0%nat, s) ((get_lle st_clear (0%nat, s)) <| vu_recv := v |>).

Lemma valid_ref_check st r :
  match llmes st !! r.1 with Some m => bool_decide (is_Some (lle m !! r.2)) | None => false end
    = true -> valid_ref st r.
Proof.
  unfold valid_ref. destruct (llmes st !! r.1) as [m|]; [|done].
  intros [l Hl]%bool_decide_eq_true. by exists m, l.
Qed.

Lemma st_clear_ok s :
  (s < 16)%nat -> 
  clear_lle (env := test_env) st_clear test_tlli (Z.of_nat s) (0%nat, s) (lle_init (env := test_env) s).
Proof.
  intros Hs. do 16 (destruct s as [|s]; [split; [done|by apply valid_ref_check|done|done]|]). lia.
Qed.

Lemma st_empty_wf : wf st_empty.
Proof. apply wf_init. Qed.

Lemma st_clear_wf : wf st_clear.
Proof. apply wf_llme_alloc, wf_init. Qed.

Lemma st_cipher_wf : wf st_cipher.
Proof. apply wf_assign, st_clear_wf. Qed.

Lemma llc_reachable_wf_witness : wf (gprs_llc_rcvmsg (env := test_env) st_empty
    (mk_msgb 0xc0000002 7 8 (ui_frame 1 false 0 [8; 1])) 8).1.2.
Proof.
  apply (llc_reachable_wf (env := test_env)). eapply reach_step; [apply reach_init|].
  apply step_rcvmsg.
Defined.

Lemma ui_stream_in_order_witness :
  Forall2 (delivers (0%nat, 3%nat)) [[1; 2; 3]; [4]]
    (ui_transfer (env := test_env) 3 test_tlli test_tlli false st_clear st_clear [[1; 2; 3]; [4]]).
Proof.
  apply (ui_stream_in_order (env := test_env) 3 test_tlli test_tlli false st_clear st_clear
           (0%nat, 3%nat) (0%nat, 3%nat) (lle_init (env := test_env) 3) (lle_init (env := test_env) 3)).
  - reflexivity.
  - apply (st_clear_ok 3). lia.
  - apply (st_clear_ok 3). lia.
  - cbn. lia.
  - reflexivity.
  - cbn. lia.
  - repeat constructor; cbn; lia.
Defined.

Lemma ui_loss_at_wrap_witness :
  ui_transfer (env := test_env) 3 test_tlli test_tlli false st_clear (st_recv 511 3) [[1; 2; 3]; [4]]
  = [RC (- EIO); RC (- EIO)].
Proof.
  apply (ui_loss_at_wrap (env := test_env) 3 test_tlli test_tlli false st_clear (st_recv 511 3)
           (0%nat, 3%nat) (0%nat, 3%nat) (lle_init (env := test_env) 3)
           ((lle_init (env := test_env) 3) <| vu_recv := 511 |>)).
  - by split.
  - apply (st_clear_ok 3). lia.
  - split; [done|by apply valid_ref_check|done|done].
  - reflexivity.
  - reflexivity.
  - cbn. lia.
  - cbn. lia.
  - repeat constructor; cbn; lia.
Defined.

Lemma ui_burst_dropped_witness :
  gprs_llc_rcvmsg (env := test_env) st_clear
    (mk_msgb test_tlli 7 8 (take 3 (ui_frame 3 false 0 [1; 2; 3; 4; 5]) ++ [1; 0; 0; 9; 5]
                            ++ drop 8 (ui_frame 3 false 0 [1; 2; 3; 4; 5]))) 11
  = (RC (- EIO), st_clear, []).
Proof.
  apply (ui_burst_dropped (env := test_env) st_clear test_tlli 7 8 3 false 0 [1] [5] 2 3 4 0 0 9
           (0%nat, 3%nat) (lle_init (env := test_env) 3)).
  - by split.
  - lia.
  - apply (st_clear_ok 3). lia.
  - repeat constructor; vm_compute; congruence.
  - repeat constructor; vm_compute; congruence.
  - congruence.
  - cbn. lia.
Defined.

Lemma ciphered_ui_dropped_witness :
  let '(_, _, out) := gprs_llc_tx_ui (env := test_env) st_cipher
                        (mk_msgb test_tlli 7 8 [1; 2; 3]) 3 false 0 in
  Forall (fun '(m, _) =>
    gprs_llc_rcvmsg (env := test_env) st_cipher (mk_msgb test_tlli 7 8 (msgb_data m)) 9
      = (RC 0, st_cipher, [])) out.
Proof.
  destruct (gprs_llc_tx_ui (env := test_env) st_cipher (mk_msgb test_tlli 7 8 [1; 2; 3]) 3 false 0)
    as [[rc st] out] eqn:E.
  assert (exists m, out = [(m, 0)] /\ length (msgb_data m) = 9%nat) as (m & -> & Hm).
  { vm_compute in E. injection E as _ _ <-. eexists. split; reflexivity. }
  constructor; [|constructor]. change 9 with (Z.of_nat 9). rewrite <- Hm.
  eapply (ciphered_ui_dropped (env := test_env) st_cipher (mk_msgb test_tlli 7 8 [1; 2; 3]) 3 false 0
            _ _ m 0 st_cipher test_tlli 7 8 (0%nat, 3%nat)).
  - intros. apply Forall_replicate. unfold in_width. lia.
  - exact st_cipher_wf.
  - by split.
  - repeat constructor; vm_compute; congruence.
  - cbn. lia.
  - vm_compute. congruence.
  - exact E.
  - reflexivity.
  - vm_compute. congruence.
Defined.

Lemma ui_overflow_counters_witness :
  vu_send (sent_ui 511 (lle_init (env := test_env) 3)) = 511 /\
  oc_ui_send (sent_ui 511 (lle_init (env := test_env) 3)) <>
  oc_ui_recv (received_ui 511 (lle_init (env := test_env) 3)).
Proof.
  destruct (ui_overflow_counters (lle_init (env := test_env) 3) (lle_init (env := test_env) 3) 511)
    as [Hn Hoc]; try reflexivity.
  assert (vu_send (sent_ui 511 (lle_init (env := test_env) 3)) = 511) as Hv by (vm_compute; reflexivity).
  split; [exact Hv|]. intros Heq. by apply Hoc.
Defined.

Lemma ui_data_len_witness :
  exists g, gprs_llc_hdr_parse [0x03; 0xc0; 0x01; 0x2b] 4 = Ok g /\ data_len g = 65534.
Proof.
  destruct (gprs_llc_hdr_parse [0x03; 0xc0; 0x01; 0x2b] 4) as [g|] eqn:E;
    [|vm_compute in E; discriminate].
  exists g. split; [reflexivity|]. assert (cmd g = GPRS_LLC_UI) as Hc
    by (vm_compute in E; injection E as <-; reflexivity).
  assert (4 < 65542) as Hlen by lia.
  destruct (ui_data_len [0x03; 0xc0; 0x01; 0x2b] 4 g Hlen E Hc) as [_ Hd]. exact Hd.
Defined.

Definition test_xid : list Z := with_fcs [0x01; 0xfb; 0x16; 0x05].

Lemma xid_answered_and_delivered_witness :
  exists st' resp,
    gprs_llc_rcvmsg (env := test_env) st_clear (mk_msgb test_tlli 7 8 test_xid) 7 =
      (IND (GMM_IND 0 (drop 2 test_xid)), st', [(resp, 0)]) /\
    msgb_tlli resp = test_tlli /\ msgb_data resp = with_fcs ([0x01; 0xfb] ++ [0x16; 0x05]).
Proof.
  destruct (gprs_llc_hdr_parse test_xid 7) as [g|] eqn:E; [|vm_compute in E; discriminate].
  pose proof (xid_answered_and_delivered (env := test_env) st_clear (mk_msgb test_tlli 7 8 test_xid) 7
    (0%nat, 1%nat) (lle_init (env := test_env) 1) (llme_new (env := test_env) test_tlli) g E) as W.
  vm_compute in E. injection E as <-.
  apply W; try (vm_compute; reflexivity); [by vm_compute|]. apply (st_clear_ok 1). lia.
Defined.

(** An XID frame of four octets of a mobile that is known ends the program: its three octets of FCS begin with the
    control field, and 65535 octets of parameters are to be echoed. *)
Example short_xid_aborts :
  gprs_llc_rcvmsg (env := test_env) st_clear (mk_msgb test_tlli 7 8 [0x3b; 0xfb; 0x43; 0x1e]) 4
  = (ABORT, alter_llme st_clear 0 (fun m => m <| bvci := 7 |> <| nsei := 8 |>), []).
Proof. by vm_compute. Qed.

Lemma test_env_coding : foreign_tlli_coding (env := test_env).
Proof.
  intros t Ht. cbn. destruct (Z.eqb_spec (t .>> 30) 3) as [E|E]; [rewrite E; done|].
  destruct (Z.eqb_spec (t .>> 30) 2); [done|]. by destruct (_ =? 15).
Qed.

Lemma foreign_tlli_leak_witness :
  let frame := ui_frame GPRS_SAPI_GMM false 0 [8; 1] in
  let '(rc, st', _) := gprs_llc_rcvmsg (env := test_env) st_clear (mk_msgb 0x80000005 7 8 frame) 8 in
  (exists gmmh, rc = IND (GMM_IND 1 gmmh)) /\
  length (gprs_llc_llmes st') = 2%nat /\
  lle_by_tlli_sapi (env := test_env) st' 0x80000005 GPRS_SAPI_GMM = None.
Proof.
  apply (foreign_tlli_leak (env := test_env) st_clear 0x80000005 7 8 false 0 [8; 1]).
  - exact test_env_coding.
  - unfold in_width. lia.
  - reflexivity.
  - vm_compute. congruence.
  - lia.
  - cbn. lia.
  - exact st_clear_wf.
  - reflexivity.
Defined.

Lemma llgmm_assign_spec_witness :
  llmes st_clear !! 0%nat = Some (llme_new (env := test_env) test_tlli) /\
  (gprs_llgmm_assign st_clear 0 test_tlli 0xffffffff GPRS_ALGO_GEA0 []).1 = 0 /\
  llmes (gprs_llgmm_assign st_clear 0 test_tlli 0xffffffff GPRS_ALGO_GEA0 []).2 !! 0%nat = None.
Proof.
  assert (llmes st_clear !! 0%nat = Some (llme_new (env := test_env) test_tlli)) as Hm by reflexivity.
  split; [exact Hm|].
  pose proof (llgmm_assign_spec st_clear 0 _ test_tlli 0xffffffff GPRS_ALGO_GEA0 [] Hm) as W.
  destruct (gprs_llgmm_assign st_clear 0 test_tlli 0xffffffff GPRS_ALGO_GEA0 []) as [rc st'].
  destruct W as (_ & _ & W & _). destruct W as (Hrc & Hn & _); [vm_compute; congruence|reflexivity|].
  split; [exact Hrc|exact Hn].
Defined.

End LlcProps.
