(* ===== verification/Sndcp.v ===== *)
(** GPRS SNDCP: gprs/gprs_sndcp.c and gprs/gprs_sndcp.h.

    An entity joins an LLE and an NSAPI. Downlink, an N-PDU is sent as one SN-PDU or cut into
    fragments that fit N201-U; uplink, fragments are queued until the N-PDU is complete, and the
    N-PDU is handed to the SGSN core. The layer reaches LLC through the interface [LlcService];
    [Llc] implements it. A read behind the end of the message is [None]: undefined behaviour. *)

From S2P Require Import Prelude Crc24 Llc.
Import Llc.

Module Sndcp.

(** ** The LLC layer as SNDCP sees it *)

Class LlcService (S : Type) : Type := {
  svc_lle : S -> lle_ref -> gprs_llc_lle;  (* *lle *)
  svc_tlli : S -> lle_ref -> Z;            (* lle->llme->tlli *)
  svc_tx_ui : S -> msgb -> Z -> bool -> Z -> Z * S * list dl_unitdata
}.

#[export] Instance llc_service {env : LlcEnv} : LlcService llc_state := {
  svc_lle := get_lle;
  svc_tlli st r := default 0 (tlli <$> llmes st !! r.1);
  svc_tx_ui := gprs_llc_tx_ui
}.

(** ** Headers of SN-PDUs

    The bit fields are laid out from the least significant bit on. *)

Record sndcp_common_hdr : Type := mk_sndcp_common_hdr {
  sch_nsapi : Z;
  more : bool;
  sch_type : bool;
  first : bool;
  spare : bool
}.

#[export] Instance upd_sch_nsapi : Upd sch_nsapi := fun f r => mk_sndcp_common_hdr (f (sch_nsapi
  r)) (more r) (sch_type r) (first r) (spare r).
#[export] Instance upd_more : Upd more := fun f r => mk_sndcp_common_hdr (sch_nsapi r) (f (more
  r)) (sch_type r) (first r) (spare r).
#[export] Instance upd_sch_type : Upd sch_type := fun f r => mk_sndcp_common_hdr (sch_nsapi r)
  (more r) (f (sch_type r)) (first r) (spare r).
#[export] Instance upd_first : Upd first := fun f r => mk_sndcp_common_hdr (sch_nsapi r) (more
  r) (sch_type r) (f (first r)) (spare r).
#[export] Instance upd_spare : Upd spare := fun f r => mk_sndcp_common_hdr (sch_nsapi r) (more
  r) (sch_type r) (first r) (f (spare r)).

Definition sch_of_octet (o : Z) : sndcp_common_hdr :=
  mk_sndcp_common_hdr (o .& 0xf) (Z.testbit o 4) (Z.testbit o 5) (Z.testbit o 6) (Z.testbit o 7).

(** Storing the fields; [nsapi] keeps its low four bits. *)
Definition octet_of_sch (h : sndcp_common_hdr) : Z :=
  (sch_nsapi h .& 0xf) .| (Z.b2z (more h) .<< 4) .| (Z.b2z (sch_type h) .<< 5)
  .| (Z.b2z (first h) .<< 6) .| (Z.b2z (spare h) .<< 7).

Record sndcp_comp_hdr : Type := mk_sndcp_comp_hdr {
  pcomp : Z;
  dcomp : Z
}.

#[export] Instance upd_pcomp : Upd pcomp := fun f r => mk_sndcp_comp_hdr (f (pcomp r)) (dcomp
  r).
#[export] Instance upd_dcomp : Upd dcomp := fun f r => mk_sndcp_comp_hdr (pcomp r) (f (dcomp
  r)).

Definition scomph_of_octet (o : Z) : sndcp_comp_hdr := mk_sndcp_comp_hdr (o .& 0xf) ((o .>> 4) .& 0xf).
Definition octet_of_scomph (h : sndcp_comp_hdr) : Z := (pcomp h .& 0xf) .| ((dcomp h .& 0xf) .<< 4).

Record sndcp_udata_hdr : Type := mk_sndcp_udata_hdr {
  npdu_high : Z;
  seg_nr : Z;
  npdu_low : Z
}.

#[export] Instance upd_npdu_high : Upd npdu_high := fun f r => mk_sndcp_udata_hdr (f (npdu_high
  r)) (seg_nr r) (npdu_low r).
#[export] Instance upd_seg_nr : Upd seg_nr := fun f r => mk_sndcp_udata_hdr (npdu_high r) (f
  (seg_nr r)) (npdu_low r).
#[export] Instance upd_npdu_low : Upd npdu_low := fun f r => mk_sndcp_udata_hdr (npdu_high r)
  (seg_nr r) (f (npdu_low r)).

Definition suh_of_octets (o3 o4 : Z) : sndcp_udata_hdr :=
  mk_sndcp_udata_hdr (o3 .& 0xf) ((o3 .>> 4) .& 0xf) o4.
Definition octets_of_suh (h : sndcp_udata_hdr) : list Z :=
  [(npdu_high h .& 0xf) .| ((seg_nr h .& 0xf) .<< 4); u8 (npdu_low h)].

Definition sizeof_sch : Z := 1.
Definition sizeof_scomph : Z := 1.
Definition sizeof_suh : Z := 2.

(** ** State *)

Record defrag_queue_entry : Type := mk_defrag_queue_entry {
  dqe_seg_nr : Z;
  dqe_data : list Z  (* data_len octets *)
}.

#[export] Instance upd_dqe_seg_nr : Upd dqe_seg_nr := fun f r => mk_defrag_queue_entry (f
  (dqe_seg_nr r)) (dqe_data r).
#[export] Instance upd_dqe_data : Upd dqe_data := fun f r => mk_defrag_queue_entry (dqe_seg_nr
  r) (f (dqe_data r)).

Record defrag_state : Type := mk_defrag_state {
  npdu : Z;  (* uint16_t *)
  highest_seg : Z;  (* uint8_t *)
  seg_have : Z;  (* uint32_t *)
  no_more : bool;
  tot_len : Z;  (* unsigned int *)
  frag_list : list defrag_queue_entry  (* newest first *)
}.

#[export] Instance upd_npdu : Upd npdu := fun f r => mk_defrag_state (f (npdu r)) (highest_seg
  r) (seg_have r) (no_more r) (tot_len r) (frag_list r).
#[export] Instance upd_highest_seg : Upd highest_seg := fun f r => mk_defrag_state (npdu r) (f
  (highest_seg r)) (seg_have r) (no_more r) (tot_len r) (frag_list r).
#[export] Instance upd_seg_have : Upd seg_have := fun f r => mk_defrag_state (npdu r)
  (highest_seg r) (f (seg_have r)) (no_more r) (tot_len r) (frag_list r).
#[export] Instance upd_no_more : Upd no_more := fun f r => mk_defrag_state (npdu r) (highest_seg
  r) (seg_have r) (f (no_more r)) (tot_len r) (frag_list r).
#[export] Instance upd_tot_len : Upd tot_len := fun f r => mk_defrag_state (npdu r) (highest_seg
  r) (seg_have r) (no_more r) (f (tot_len r)) (frag_list r).
#[export] Instance upd_frag_list : Upd frag_list := fun f r => mk_defrag_state (npdu r)
  (highest_seg r) (seg_have r) (no_more r) (tot_len r) (f (frag_list r)).

Inductive sndcp_rx_state : Type := SNDCP_RX_S_FIRST | SNDCP_RX_S_SUBSEQ | SNDCP_RX_S_DISCARD.

Section Types.
Context {ra_id_t : Type}.

Record gprs_sndcp_entity : Type := mk_gprs_sndcp_entity {
  ra_id : ra_id_t;
  sne_lle : lle_ref;
  nsapi : Z;       (* uint8_t *)
  tx_npdu_nr : Z;  (* uint16_t *)
  rx_state : sndcp_rx_state;
  defrag : defrag_state
}.

#[export] Instance upd_ra_id : Upd ra_id := fun f r => mk_gprs_sndcp_entity (f (ra_id r)) (sne_lle r) (nsapi r) (tx_npdu_nr r) (rx_state r) (defrag r).
#[export] Instance upd_tx_npdu_nr : Upd tx_npdu_nr := fun f r => mk_gprs_sndcp_entity (ra_id r) (sne_lle r) (nsapi r) (f (tx_npdu_nr r)) (rx_state r) (defrag r).
#[export] Instance upd_defrag : Upd defrag := fun f r => mk_gprs_sndcp_entity (ra_id r) (sne_lle r) (nsapi r) (tx_npdu_nr r) (rx_state r) (f (defrag r)).

(** SN-UNITDATA.ind to the SGSN core: the octets at [npdu], and the length announced for them. *)
Record ud_ind : Type := mk_ud_ind {
  ud_ra_id : ra_id_t;
  ud_tlli : Z;
  ud_nsapi : Z;
  ud_npdu_len : Z;
  ud_npdu : list Z
}.

End Types.
Arguments gprs_sndcp_entity : clear implicits.
Arguments ud_ind : clear implicits.

(** The routing area identifier and its parser, the memory allocators, and the SGSN core. *)
Class SndcpEnv : Type := {
  ra_id_t : Type;
  ra_id_zero : ra_id_t;
  gsm48_parse_ra : list Z -> ra_id_t;
  (* an octet of a message buffer that was not written yet *)
  msgb_fresh : Z;
  (* does an allocation of so many octets succeed? *)
  talloc_ok : Z -> bool;
  entity_alloc_ok : bool;
  msgb_alloc_ok : Z -> bool;
  (* return code of the SGSN core *)
  sgsn_rx_sndcp_ud_ind : ud_ind ra_id_t -> Z
}.

(** [sizeof(struct defrag_queue_entry)]: two list pointers, two words, a pointer. *)
Definition SIZEOF_DQE : Z := 32.

Section Operations.
Context {env : SndcpEnv} {S : Type} {svc : LlcService S}.

Abbreviation entity := (gprs_sndcp_entity ra_id_t).
Abbreviation ind := (ud_ind ra_id_t).

(** ** Reassembly *)

(** Enqueue a fragment; [src] is the memory from [data] on. *)
Definition defrag_enqueue (d : defrag_state) (nr : Z) (src : list Z) (data_len : Z)
  : option (Z * defrag_state) :=
  if negb (talloc_ok SIZEOF_DQE) then Some (- ENOMEM, d)
  else if negb (talloc_ok data_len) then Some (- ENOMEM, d)
  else if Z.of_nat (length src) <? data_len then None (* memcpy reads behind the message *)
  else
    let d := d <| frag_list ::= cons (mk_defrag_queue_entry nr (take (Z.to_nat data_len) src)) |> in
    let d := if highest_seg d <? nr then d <| highest_seg := nr |> else d in
    let d := d <| seg_have ::= fun m => m .| (1 .<< nr) |> in
    Some (0, d <| tot_len ::= fun n => u32 (n + data_len) |>).

(** Do we have all segments of this N-PDU? *)
Definition seg_needed (highest : Z) : Z :=
  foldl (fun m i => u32 (m .| (1 .<< Z.of_nat i))) 0 (seq 0 (Z.to_nat highest + 1)).
Definition defrag_have_all_segments (d : defrag_state) : bool :=
  seg_needed (highest_seg d) =? seg_have d.

(** Unlink the first entry of the queue with this number. *)
Fixpoint defrag_get_seg (l : list defrag_queue_entry) (nr : Z)
  : option (defrag_queue_entry * list defrag_queue_entry) :=
  match l with
  | [] => None
  | dqe :: l =>
      if dqe_seg_nr dqe =? nr then Some (dqe, l)
      else match defrag_get_seg l nr with
           | Some (x, l') => Some (x, dqe :: l')
           | None => None
           end
  end.

(** The loop of [defrag_segments]: what is left of the queue, and the N-PDU unless a segment was
    missing. *)
Fixpoint collect_segments (l : list defrag_queue_entry) (nrs : list nat) (acc : list Z)
  : list defrag_queue_entry * option (list Z) :=
  match nrs with
  | [] => (l, Some acc)
  | nr :: nrs =>
      match defrag_get_seg l (Z.of_nat nr) with
      | None => (l, None)
      | Some (dqe, l) => collect_segments l nrs (acc ++ dqe_data dqe)
      end
  end.

(** Perform the actual defragmentation; [t] is the TLLI of the LLME. *)
Definition defrag_segments (sne : entity) (t : Z) : Z * entity * list ind :=
  let d := defrag sne in
  if negb (msgb_alloc_ok (u32 (tot_len d + 256))) then (- ENOMEM, sne, [])
  else
    let '(l, npdu) := collect_segments (frag_list d) (seq 0 (Z.to_nat (highest_seg d) + 1)) [] in
    let sne := sne <| defrag := d <| frag_list := l |> |> in
    match npdu with
    | None => (- EIO, sne, [])
    | Some npdu =>
        let i := mk_ud_ind (ra_id sne) t (nsapi sne) (tot_len d) npdu in
        (sgsn_rx_sndcp_ud_ind i, sne, [i])
    end.

(** Offset of the user-data header. *)
Definition suh_off (sch : sndcp_common_hdr) : nat := if first sch then 2 else 1.

Definition hdr_suh (hdr : list Z) (sch : sndcp_common_hdr) : sndcp_udata_hdr :=
  suh_of_octets (rd hdr (suh_off sch)) (rd hdr (suh_off sch + 1)).

Definition defrag_input (sne : entity) (t : Z) (hdr : list Z) (len : Z)
  : option (Z * entity * list ind) :=
  let sch := sch_of_octet (rd hdr 0) in
  let suh := hdr_suh hdr sch in
  let data := (suh_off sch + 2)%nat in
  let npdu_num := (npdu_high suh .<< 8) .| npdu_low suh in
  let d := defrag sne in
  let d := if first sch
           then d <| frag_list := [] |> <| npdu := npdu_num |> <| no_more := false |>
                  <| highest_seg := 0 |> <| seg_have := 0 |> <| tot_len := 0 |>
           else d in
  (* a different N-PDU number is only logged *)
  '(rc, d) ← defrag_enqueue d (seg_nr suh) (drop data hdr) (u32 (len - Z.of_nat data));
  if rc <? 0 then Some (rc, sne <| defrag := d |>, [])
  else
    let d := if more sch then d else d <| no_more := true |> in
    let sne := sne <| defrag := d |> in
    if no_more d && defrag_have_all_segments d then Some (defrag_segments sne t)
    else Some (0, sne, []).

(** ** Entities *)

Definition entity_is (r : lle_ref) (ns : Z) (sne : entity) : bool :=
  bool_decide (sne_lle sne = r) && (nsapi sne =? ns).

(** The index in the list stands for the pointer. *)
Definition gprs_sndcp_entity_by_lle (l : list entity) (r : lle_ref) (ns : Z) : option (nat * entity) :=
  list_find (fun sne => Is_true (entity_is r ns sne)) l.

Definition defrag_zero : defrag_state := mk_defrag_state 0 0 0 false 0 [].

Definition gprs_sndcp_entity_alloc (l : list entity) (r : lle_ref) (ns : Z) : option (list entity) :=
  if negb (entity_alloc_ok) then None
  else Some (mk_gprs_sndcp_entity ra_id_zero r ns 0 SNDCP_RX_S_FIRST defrag_zero :: l).

Definition sndcp_sm_activate_ind (l : list entity) (r : lle_ref) (ns : Z) : Z * list entity :=
  match gprs_sndcp_entity_by_lle l r ns with
  | Some _ => (- EEXIST, l)
  | None => match gprs_sndcp_entity_alloc l r ns with
            | None => (- ENOMEM, l)
            | Some l => (0, l)
            end
  end.

Definition sndcp_sm_deactivate_ind (l : list entity) (r : lle_ref) (ns : Z) : Z * list entity :=
  match gprs_sndcp_entity_by_lle l r ns with
  | None => (- ENOENT, l)
  | Some (i, _) => (0, delete i l)
  end.

(** ** Transmission *)

Record sndcp_frag_state : Type := mk_sndcp_frag_state {
  frag_nr : Z;  (* uint8_t *)
  next_byte : Z  (* offset into the message *)
}.

#[export] Instance upd_frag_nr : Upd frag_nr := fun f r => mk_sndcp_frag_state (f (frag_nr r))
  (next_byte r).
#[export] Instance upd_next_byte : Upd next_byte := fun f r => mk_sndcp_frag_state (frag_nr r)
  (f (next_byte r)).

Definition suh_of_entity (sne : entity) (nr : Z) : sndcp_udata_hdr :=
  mk_sndcp_udata_hdr ((tx_npdu_nr sne .>> 8) .& 0xf) nr (tx_npdu_nr sne .& 0xff).

(** Send one fragment; 1 if there are more fragments to send, 0 if none. *)
Definition sndcp_send_ud_frag (s : S) (sne : entity) (msg : msgb) (mmctx : Z) (fs : sndcp_frag_state)
  : Z * S * entity * sndcp_frag_state * list dl_unitdata :=
  let l := svc_lle s (sne_lle sne) in
  let n201_u := n201_u (params l) in
  if negb (msgb_alloc_ok (n201_u + 256)) then (- ENOMEM, s, sne, fs, [])
  else
    let sch := (sch_of_octet msgb_fresh) <| sch_nsapi := nsapi sne .& 0xf |> in
    let sch := if frag_nr fs =? 0 then sch <| first := true |> else sch in
    let sch := sch <| sch_type := true |> in
    let scomph := if first sch then [octet_of_scomph (mk_sndcp_comp_hdr 0 0)] else [] in
    let suh := octets_of_suh (suh_of_entity sne (frag_nr fs mod 0xf)) in
    let msg_len := Z.of_nat (length (msgb_data msg)) in
    let len := u32 (msg_len - next_byte fs) in
    let max_payload_len := u32 (n201_u - (sizeof_sch + sizeof_suh)) in
    let max_payload_len := if first sch then u32 (max_payload_len - sizeof_scomph)
                           else max_payload_len in
    let len := if max_payload_len <? len then max_payload_len else len in
    let data := take (Z.to_nat len) (drop (Z.to_nat (next_byte fs)) (msgb_data msg)) in
    let fs := fs <| frag_nr ::= fun n => u8 (n + 1) |> <| next_byte ::= Z.add len |> in
    let more_frags := negb (msg_len <=? next_byte fs) in
    let sch := sch <| more := more_frags |> in
    let fmsg := msg <| msgb_data := [octet_of_sch sch] ++ scomph ++ suh ++ data |> in
    let '(rc, s, out) := svc_tx_ui s fmsg (sapi l) false mmctx in
    if rc <? 0 then (rc, s, sne, fs, out)
    else if more_frags then (1, s, sne, fs, out)
    else (0, s, sne <| tx_npdu_nr ::= fun n => (n + 1) mod 0xfff |>, mk_sndcp_frag_state 0 0, out).

(** [while (1)]: [None] when the fuel is used up. *)
Fixpoint frag_loop (fuel : nat) (s : S) (sne : entity) (msg : msgb) (mmctx : Z) (fs : sndcp_frag_state)
  : option (Z * S * entity * list dl_unitdata) :=
  match fuel with
  | O => None
  | Datatypes.S fuel =>
      let '(rc, s, sne, fs, out) := sndcp_send_ud_frag s sne msg mmctx fs in
      if rc =? 0 then Some (0, s, sne, out)
      else if rc <? 0 then Some (rc, s, sne, out)
      else
        '(rc, s, sne, out') ← frag_loop fuel s sne msg mmctx fs;
        Some (rc, s, sne, out ++ out')
  end.

(** [size_t] has 64 bits. *)
Definition needs_fragments (msg_len n201_u : Z) : bool :=
  wrap 64 (n201_u - (sizeof_sch + sizeof_suh + sizeof_scomph)) <? msg_len.

Definition sndcp_unitdata_req (fuel : nat) (s : S) (l : list entity) (msg : msgb) (r : lle_ref)
    (ns : Z) (mmctx : Z) : option (Z * S * list entity * list dl_unitdata) :=
  match gprs_sndcp_entity_by_lle l r ns with
  | None => Some (- EIO, s, l, [])
  | Some (i, sne) =>
      if needs_fragments (Z.of_nat (length (msgb_data msg))) (n201_u (params (svc_lle s r))) then
        '(rc, s, sne, out) ← frag_loop fuel s sne msg mmctx (mk_sndcp_frag_state 0 0);
        Some (rc, s, <[i := sne]> l, out)
      else
        let suh := octets_of_suh (suh_of_entity sne 0) in
        let sne := sne <| tx_npdu_nr ::= fun n => (n + 1) mod 0xfff |> in
        let scomph := octet_of_scomph (mk_sndcp_comp_hdr 0 0) in
        let sch := (sch_of_octet msgb_fresh) <| first := true |> <| sch_type := true |>
                     <| sch_nsapi := ns .& 0xf |> in
        let msg := msg <| msgb_data := [octet_of_sch sch] ++ [scomph] ++ suh ++ msgb_data msg |> in
        let '(rc, s, out) := svc_tx_ui s msg (sapi (svc_lle s r)) false mmctx in
        Some (rc, s, <[i := sne]> l, out)
  end.

(** ** LL-UNITDATA.ind

    [hdr] is the memory from the SN-PDU to the end of the message, [len] the length LLC found for
    the SN-PDU, [bcid] the cell identity of the message. *)
Definition sndcp_llunitdata_ind (s : S) (l : list entity) (bcid : list Z) (r : lle_ref)
    (hdr : list Z) (len : Z) : option (Z * list entity * list ind) :=
  let sch := sch_of_octet (rd hdr 0) in
  if negb (sch_type sch) then Some (- EINVAL, l, [])
  else if len <? sizeof_sch + sizeof_suh then Some (- EIO, l, [])
  else
    match gprs_sndcp_entity_by_lle l r (sch_nsapi sch) with
    | None => Some (- EIO, l, [])
    | Some (i, sne) =>
        let sne := sne <| ra_id := gsm48_parse_ra bcid |> in
        let l := <[i := sne]> l in
        if negb (first sch) || more sch then
          '(rc, sne, out) ← defrag_input sne (svc_tlli s (sne_lle sne)) hdr len;
          Some (rc, <[i := sne]> l, out)
        else
          let scomph := scomph_of_octet (rd hdr 1) in
          if first sch && (negb (pcomp scomph =? 0) || negb (dcomp scomph =? 0))
          then Some (- EIO, l, [])
          else
            let npdu := drop (suh_off sch + 2) hdr in
            let npdu_len := Z.of_nat (length hdr) - Z.of_nat (suh_off sch + 2) in
            if npdu_len <=? 0 then Some (- EIO, l, [])
            else
              let i := mk_ud_ind (ra_id sne) (svc_tlli s r) (nsapi sne) npdu_len npdu in
              Some (sgsn_rx_sndcp_ud_ind i, l, [i])
    end.

End Operations.

End Sndcp.
