(* ===== verification/SndcpProps.v ===== *)
(** Properties of SNDCP ([Sndcp]).

    - the laws LLC obeys towards SNDCP ([LlcServiceLaws]) and that [Llc] obeys them;
    - transmission: the loop ends, and what it emits is a list of SN-PDUs that fit N201-U;
    - reassembly: the fragments of an N-PDU give the N-PDU back in whatever order they arrive
      behind the first one;
    - LLC and SNDCP together: an N-PDU sent on one side comes out on the other. *)

From S2P Require Import Prelude Crc24 Llc LlcProps Sndcp.
Import Llc LlcProps Sndcp.

Module SndcpProps.

(** ** Header codecs *)

Lemma nibble_round a : 0 <= a < 16 -> a .& 0xf = a.
Proof. intros Ha. change 0xf with (Z.ones 4). rewrite Z.land_ones by lia. by apply Z.mod_small. Qed.

Lemma nibbles_round a b :
  0 <= a < 16 -> 0 <= b < 16 ->
  ((a .| (b .<< 4)) .& 0xf = a) /\ (((a .| (b .<< 4)) .>> 4) .& 0xf = b).
Proof.
  intros Ha Hb.
  pose proof (range_forall (fun a => forallb (fun b =>
    ((a .| (Z.of_nat b .<< 4)) .& 0xf =? a) && (((a .| (Z.of_nat b .<< 4)) .>> 4) .& 0xf =? Z.of_nat b))
    (seq 0 16)) 16 ltac:(vm_compute; reflexivity) a ltac:(lia)) as H.
  rewrite forallb_forall in H. specialize (H (Z.to_nat b)).
  rewrite Z2Nat.id in H by lia. rewrite andb_true_iff, !Z.eqb_eq in H. apply H. apply in_seq. lia.
Qed.

Lemma sch_round h : 0 <= sch_nsapi h < 16 -> sch_of_octet (octet_of_sch h) = h.
Proof.
  destruct h as [ns m t f s]. cbn [sch_nsapi]. intros Hns.
  assert (let o := octet_of_sch (mk_sndcp_common_hdr ns m t f s) in
          ((o .& 0xf =? ns) && Bool.eqb (Z.testbit o 4) m && Bool.eqb (Z.testbit o 5) t
           && Bool.eqb (Z.testbit o 6) f && Bool.eqb (Z.testbit o 7) s)%bool = true) as H.
  { destruct m, t, f, s; revert ns Hns; apply (range_forall _ 16); vm_compute; reflexivity. }
  cbv beta iota zeta in H. rewrite !andb_true_iff, Z.eqb_eq, !eqb_true_iff in H.
  destruct H as ((((H1 & H2) & H3) & H4) & H5).
  unfold sch_of_octet. by rewrite H1, H2, H3, H4, H5.
Qed.

Lemma suh_round h :
  0 <= npdu_high h < 16 -> 0 <= seg_nr h < 16 -> 0 <= npdu_low h < 256 ->
  exists a b, octets_of_suh h = [a; b] /\ suh_of_octets a b = h.
Proof.
  intros Hh Hs Hl. destruct h as [hi nr lo]. cbn in *. unfold octets_of_suh. cbn.
  eexists _, _. split; [done|]. unfold suh_of_octets.
  rewrite (nibble_round hi), (nibble_round nr), wrap_small by (done || (unfold in_width; lia)).
  destruct (nibbles_round hi nr) as [-> ->]; done.
Qed.

Lemma npdu_nr_round nr :
  0 <= nr < 4096 -> 
  (((nr .>> 8) .& 0xf) .<< 8) .| (nr .& 0xff) = nr /\ 0 <= (nr .>> 8) .& 0xf < 16 /\
  0 <= nr .& 0xff < 256.
Proof.
  intros Hnr. pose proof (range_forall (fun nr =>
    ((((nr .>> 8) .& 0xf) .<< 8) .| (nr .& 0xff) =? nr) && (0 <=? (nr .>> 8) .& 0xf)
    && ((nr .>> 8) .& 0xf <? 16) && (0 <=? nr .& 0xff) && (nr .& 0xff <? 256))
    4096 ltac:(vm_compute; reflexivity) nr ltac:(lia)) as H.
  rewrite !andb_true_iff, Z.eqb_eq, !Z.ltb_lt, !Z.leb_le in H. lia.
Qed.

(** An SN-UNITDATA PDU of N-PDU number [nr] with segment number [seg]. *)
Definition sn_pdu (f m : bool) (ns nr seg : Z) (p : list Z) : list Z :=
  [octet_of_sch (mk_sndcp_common_hdr ns m true f false)] ++ (if f then [0] else [])
  ++ octets_of_suh (mk_sndcp_udata_hdr ((nr .>> 8) .& 0xf) seg (nr .& 0xff)) ++ p.

Definition hdr_len (f : bool) : nat := if f then 4 else 3.

Lemma length_sn_pdu f m ns nr seg p : length (sn_pdu f m ns nr seg p) = (hdr_len f + length p)%nat.
Proof. by destruct f. Qed.

(** What a receiver reads out of it. *)
Lemma sn_pdu_fields f m ns nr seg p trail :
  0 <= ns < 16 -> 0 <= nr < 4096 -> 0 <= seg < 16 ->
  let hdr := sn_pdu f m ns nr seg p ++ trail in
  let sch := mk_sndcp_common_hdr ns m true f false in
  sch_of_octet (rd hdr 0) = sch /\ (f = true -> rd hdr 1 = 0) /\
  hdr_suh hdr sch = mk_sndcp_udata_hdr ((nr .>> 8) .& 0xf) seg (nr .& 0xff) /\
  drop (suh_off sch + 2) hdr = p ++ trail.
Proof.
  intros Hns Hnr Hseg hdr sch. destruct (npdu_nr_round nr Hnr) as (_ & Hh & Hl).
  destruct (suh_round (mk_sndcp_udata_hdr ((nr .>> 8) .& 0xf) seg (nr .& 0xff)) Hh Hseg Hl)
    as (a & b & Hab & Hdec).
  unfold hdr, sn_pdu, hdr_suh. rewrite Hab.
  split; [cbn; by rewrite sch_round|].
  destruct f; cbn; (split; [done|]); split; done.
Qed.

(** ** What LLC promises SNDCP *)

(** A live entity keeps its SAPI and parameters whatever is sent through it; through a ready one
    a message with TLLI [t] that fits N201-U is accepted, and it stays ready. *)
Class LlcServiceLaws (S : Type) {svc : LlcService S} : Type := {
  svc_live : S -> lle_ref -> Prop;
  svc_ready : S -> Z -> lle_ref -> Prop;
  svc_ready_live s t r : svc_ready s t r -> svc_live s r;
  svc_tx_live s r msg ctx :
    svc_live s r ->
    let s' := (svc_tx_ui s msg (sapi (svc_lle s r)) false ctx).1.2 in
    svc_live s' r /\ params (svc_lle s' r) = params (svc_lle s r) /\
    sapi (svc_lle s' r) = sapi (svc_lle s r);
  svc_tx_ready s t r msg ctx :
    svc_ready s t r -> msgb_tlli msg = t ->
    Z.of_nat (length (msgb_data msg)) <= n201_u (params (svc_lle s r)) ->
    0 <= (svc_tx_ui s msg (sapi (svc_lle s r)) false ctx).1.1 /\
    svc_ready (svc_tx_ui s msg (sapi (svc_lle s r)) false ctx).1.2 t r
}.

Section LlcImplements.
Context {env : LlcEnv}.

Definition llc_live (st : llc_state) (r : lle_ref) : Prop := wf st /\ valid_ref st r.

(** The lower layer accepts what it is given, and the entity of [t] does not cipher. *)
Definition llc_ready (st : llc_state) (t : Z) (r : lle_ref) : Prop :=
  wf st /\ (forall d, 0 <= gprs_bssgp_tx_dl_ud d) /\
  clear_lle st t (sapi (get_lle st r)) r (get_lle st r).

(** Every LLE of [st] is in [st'], with its SAPI and parameters. *)
Definition keeps (st st' : llc_state) : Prop :=
  forall r, valid_ref st r -> valid_ref st' r /\
    params (get_lle st' r) = params (get_lle st r) /\ sapi (get_lle st' r) = sapi (get_lle st r).

#[local] Instance keeps_preorder : PreOrder keeps.
Proof.
  split; [by intros st r Hr|]. intros st1 st2 st3 H12 H23 r Hr.
  destruct (H12 r Hr) as (Hv & Hp & Hs). destruct (H23 r Hv) as (Hv' & Hp' & Hs').
  split; [done|]. by rewrite Hp', Hs'.
Qed.

Lemma keeps_alter st id f : (forall m, lle (f m) = lle m) -> keeps st (alter_llme st id f).
Proof.
  intros Hf r Hr. split; [by apply valid_ref_alter|].
  assert (get_lle (alter_llme st id f) r = get_lle st r) as ->; [|done].
  unfold get_lle. rewrite lookup_alter_llme. case_decide; [|done].
  destruct (llmes st !! r.1) as [m|]; [|done]. cbn. by rewrite Hf.
Qed.

Lemma keeps_set st r l :
  valid_ref st r -> params l = params (get_lle st r) -> sapi l = sapi (get_lle st r) ->
  keeps st (set_lle st r l).
Proof.
  intros Hv Hp Hs r' (m & l' & Hm & Hl'). destruct (decide (r = r')) as [<-|Hne].
  - rewrite get_set_lle by done. split; [|done]. destruct Hv as (m0 & l0 & Hm0 & Hl0).
    unfold valid_ref, set_lle. rewrite lookup_alter_llme, decide_True, Hm0 by done. cbn.
    eexists _, l. split; [done|]. apply list_lookup_insert_eq. by eapply lookup_lt_Some.
  - assert (forall m, r.1 = r'.1 -> (<[r.2 := l]> (lle m)) !! r'.2 = lle m !! r'.2) as Hins.
    { intros m1 H1. apply list_lookup_insert_ne. destruct r, r'. cbn in *. congruence. }
    unfold valid_ref, get_lle, set_lle. rewrite lookup_alter_llme.
    case_decide; [|split; [by eauto|done]]. rewrite Hm. cbn. rewrite Hins by done. split; [|done].
    eexists _, l'. split; [done|]. cbn. by rewrite Hins.
Qed.

Lemma keeps_alloc st t : wf st -> keeps st (llme_alloc st t).1.
Proof.
  intros Hwf r (m & l & Hm & Hl).
  assert (next_llme st <> r.1) as Hne.
  { assert (r.1 < next_llme st)%nat by (apply (wf_fresh _ Hwf); by eexists). lia. }
  unfold valid_ref, get_lle, llme_alloc. cbn. rewrite lookup_insert_ne by done. split; [|done]. by eauto.
Qed.

Lemma keeps_tx_ui st msg s command ctx :
  wf st -> 0 <= s < 16 -> keeps st (gprs_llc_tx_ui st msg s command ctx).1.2.
Proof.
  intros Hwf Hs. unfold gprs_llc_tx_ui.
  pose proof (tx_ui_lle_spec st (msgb_tlli msg) s Hwf Hs) as Hspec.
  assert (keeps st (tx_ui_lle st (msgb_tlli msg) s).1) as Hk.
  { unfold tx_ui_lle. destruct (lle_by_tlli_sapi st (msgb_tlli msg) s); [done|].
    pose proof (keeps_alloc st (msgb_tlli msg) Hwf) as Hal. by destruct (llme_alloc _ _). }
  destruct (tx_ui_lle st (msgb_tlli msg) s) as [st1 r]. destruct Hspec as (_ & Hv & _).
  cbn [fst] in Hk. case_match; [done|]. destruct (ui_ctrl _) as [c0 c1]. cbv zeta.
  set (st2 := alter_llme st1 r.1 _).
  assert (keeps st (set_lle st2 r (ui_advance (get_lle st1 r)))) as Hk2.
  { assert (keeps st1 st2) as H12 by (by apply keeps_alter).
    destruct (H12 r Hv) as (Hv2 & Hp2 & Hs2).
    transitivity st1; [done|]. transitivity st2; [done|].
    apply keeps_set; [done|by rewrite ui_advance_params|].
    rewrite Hs2. unfold ui_advance. by case_match. }
  case_decide; [done|]. destruct (gprs_cipher_run _ _ _ _ _). by case_match.
Qed.

Lemma llc_live_sapi st r : llc_live st r -> 0 <= sapi (get_lle st r) < 16.
Proof.
  intros [Hwf Hv]. pose proof (wf_get_lle st r Hwf Hv) as Hl. rewrite (wf_sapi _ _ Hl).
  destruct Hv as (m & l & Hm & Hl'). apply lookup_lt_Some in Hl'.
  destruct (wf_each _ Hwf _ _ Hm) as [Hlen _]. rewrite Hlen in Hl'. unfold NUM_SAPIS in *. lia.
Qed.

#[export, program] Instance llc_service_laws : LlcServiceLaws llc_state := {
  svc_live := llc_live;
  svc_ready := llc_ready
}.
Next Obligation. intros st t r (Hwf & _ & Hc). split; [done|apply Hc]. Qed.
Next Obligation.
  intros st r msg ctx Hl. pose proof (llc_live_sapi st r Hl) as Hs. destruct Hl as [Hwf Hv].
  destruct (keeps_tx_ui st msg (sapi (get_lle st r)) false ctx Hwf Hs r Hv) as (Hv' & Hp & Hsa).
  split; [|done]. split; [by apply wf_tx_ui|done].
Qed.
Next Obligation.
  intros st t r msg ctx (Hwf & Hb & Hc) Ht Hlen.
  assert (llc_live st r) as Hlive by (split; [done|apply Hc]).
  pose proof (llc_live_sapi st r Hlive) as Hs.
  pose proof (wf_tx_ui st msg (sapi (get_lle st r)) false ctx Hwf Hs) as Hwf'.
  cbn [svc_lle svc_tx_ui llc_service] in *. subst t.
  rewrite (tx_ui_clear st msg _ false ctx r (get_lle st r)) in * by done. cbn [fst snd] in *.
  split; [apply Hb|]. split; [done|]. split; [done|].
  assert (sapi (ui_advance (get_lle st r)) = sapi (get_lle st r)) as Hsa
    by (unfold ui_advance; by case_match).
  pose proof (clear_lle_update st _ _ r (get_lle st r) (msgb_bvci msg) (msgb_nsei msg)
                (ui_advance (get_lle st r)) Hc) as Hc'.
  rewrite (cl_lle _ _ _ _ _ Hc'), Hsa. exact Hc'.
Qed.

End LlcImplements.

(** ** Transmission *)

(** The allocators: a new message buffer is zeroed, and memory does not run out. *)
Record sndcp_env_ok (env : SndcpEnv) : Prop := {
  ok_fresh : msgb_fresh = 0;
  ok_talloc : forall n, 0 <= n < 2 ^ 32 -> talloc_ok n = true;
  ok_msgb : forall n, 0 <= n < 2 ^ 32 -> msgb_alloc_ok n = true
}.

(** Room for payload in a fragment. *)
Definition frag_room (n : Z) (f : bool) : nat := (Z.to_nat n - hdr_len f)%nat.

(** The SN-PDUs that carry [data] from fragment number [k] on. *)
Fixpoint frag_pdus (fuel : nat) (n ns nr k : Z) (data : list Z) : list (list Z) :=
  match fuel with
  | O => []
  | S fuel =>
      let m := frag_room n (k =? 0) in
      if (length data <=? m)%nat then [sn_pdu (k =? 0) false ns nr (k mod 15) data]
      else sn_pdu (k =? 0) true ns nr (k mod 15) (take m data)
           :: frag_pdus fuel n ns nr (u8 (k + 1)) (drop m data)
  end.

(** Fuel that is always enough: a fragment without payload can only be a first one. *)
Definition frag_fuel (n : nat) : nat := (2 * n + 2)%nat.

Lemma frag_pdus_fit fuel n ns nr k data :
  4 <= n -> Forall (fun pdu => Z.of_nat (length pdu) <= n) (frag_pdus fuel n ns nr k data).
Proof.
  intros Hn. revert k data. induction fuel as [|fuel IH]; intros k data; [constructor|].
  cbn [frag_pdus]. unfold frag_room. destruct (Nat.leb_spec (length data) (Z.to_nat n - hdr_len (k =? 0))).
  - constructor; [|constructor]. rewrite length_sn_pdu. unfold hdr_len in *. case_match; lia.
  - constructor; [|apply IH]. rewrite length_sn_pdu, length_take. unfold hdr_len in *. case_match; lia.
Qed.

Section Transmission.
Context {env : SndcpEnv} {S : Type} {svc : LlcService S} {laws : LlcServiceLaws S}.
Abbreviation entity := (gprs_sndcp_entity ra_id_t).

Definition with_pdu (msg : msgb) (pdu : list Z) : msgb := msg <| msgb_data := pdu |>.

(** The SN-PDUs handed to LLC one after the other. *)
Fixpoint tx_all (s : S) (r : lle_ref) (msg : msgb) (ctx : Z) (pdus : list (list Z))
  : S * list dl_unitdata :=
  match pdus with
  | [] => (s, [])
  | p :: pdus =>
      let '(_, s, out) := svc_tx_ui s (with_pdu msg p) (sapi (svc_lle s r)) false ctx in
      let '(s, out') := tx_all s r msg ctx pdus in (s, out ++ out')
  end.

Definition npdu_sent (sne : entity) : entity := sne <| tx_npdu_nr ::= fun n => (n + 1) mod 0xfff |>.

Lemma fresh_sch ns (f m : bool) :
  octet_of_sch ((if f then ((sch_of_octet 0) <| sch_nsapi := ns .& 0xf |>) <| first := true |>
                 else (sch_of_octet 0) <| sch_nsapi := ns .& 0xf |>) <| sch_type := true |> <| more := m |>)
  = octet_of_sch (mk_sndcp_common_hdr (ns .& 0xf) m true f false).
Proof. by destruct f. Qed.

(** One call of [sndcp_send_ud_frag]. *)
Lemma send_ud_frag_spec s sne msg ctx k (next : nat) :
  sndcp_env_ok env ->
  let n := n201_u (params (svc_lle s (sne_lle sne))) in
  4 <= n < 65536 -> Z.of_nat (length (msgb_data msg)) < 2 ^ 31 -> 0 <= k < 256 -> 0 <= nsapi sne < 16 ->
  (next <= length (msgb_data msg))%nat ->
  let rem := drop next (msgb_data msg) in
  let m := frag_room n (k =? 0) in
  let last := (length rem <=? m)%nat in
  let pdu := sn_pdu (k =? 0) (negb last) (nsapi sne) (tx_npdu_nr sne) (k mod 15) (take m rem) in
  let '(rc, s', out) := svc_tx_ui s (with_pdu msg pdu) (sapi (svc_lle s (sne_lle sne))) false ctx in
  let fs' := mk_sndcp_frag_state (u8 (k + 1)) (Z.of_nat (next + length (take m rem))) in
  sndcp_send_ud_frag s sne msg ctx (mk_sndcp_frag_state k (Z.of_nat next)) =
  if rc <? 0 then (rc, s', sne, fs', out)
  else if last then (0, s', npdu_sent sne, mk_sndcp_frag_state 0 0, out) else (1, s', sne, fs', out).
Proof.
  intros Henv n Hn Hlen Hk Hns Hnext rem m last pdu.
  destruct (svc_tx_ui s (with_pdu msg pdu) _ _ _) as [[rc s'] out] eqn:Htx. cbv zeta.
  unfold sndcp_send_ud_frag. cbn [frag_nr next_byte].
  rewrite (ok_msgb env Henv) by (fold n; lia). cbn [negb]. rewrite (ok_fresh env Henv). fold n.
  set (room := if first _ then u32 _ else u32 _).
  assert (room = Z.of_nat m) as ->.
  { unfold room, m, frag_room, hdr_len, sizeof_sch, sizeof_suh, sizeof_scomph.
    assert (u32 (n - (1 + 2)) = n - 3) as Hr by (rewrite wrap_small; unfold in_width; lia).
    destruct (k =? 0); cbn [first upd upd_first upd_sch_type upd_sch_nsapi sch_of_octet Z.testbit]; rewrite Hr;
      [rewrite wrap_small by (unfold in_width; lia)|]; lia. }
  rewrite (wrap_small 32 (_ - _)) by (unfold in_width; lia).
  assert (length rem = length (msgb_data msg) - next)%nat as Hrem by (unfold rem; by rewrite length_drop).
  set (cut := if Z.of_nat m <? _ then _ else _).
  assert (cut = Z.of_nat (length (take m rem))) as ->.
  { unfold cut. rewrite length_take. destruct (Z.ltb_spec (Z.of_nat m)
      (Z.of_nat (length (msgb_data msg)) - Z.of_nat next)); lia. }
  rewrite !Nat2Z.id. fold rem.
  assert (take (length (take m rem)) rem = take m rem) as ->.
  { rewrite length_take. destruct (Nat.min_spec m (length rem)) as [[? ->]|[? ->]]; [done|].
    by rewrite !take_ge. }
  cbn [next_byte upd upd_next_byte upd_frag_nr frag_nr].
  assert (negb (Z.of_nat (length (msgb_data msg)) <=? Z.of_nat (length (take m rem)) + Z.of_nat next)
          = negb last) as ->.
  { f_equal. unfold last. rewrite length_take.
    destruct (Nat.leb_spec (length rem) m); [apply Z.leb_le|apply Z.leb_gt]; lia. }
  rewrite fresh_sch, (nibble_round (nsapi sne)) by done.
  replace (with_pdu msg pdu) with (msg <| msgb_data := [octet_of_sch
     (mk_sndcp_common_hdr (nsapi sne) (negb last) true (k =? 0) false)] ++
     (if k =? 0 then [0] else []) ++ octets_of_suh (suh_of_entity sne (k mod 15)) ++ take m rem |>)
    in Htx by done.
  assert ((if first (if k =? 0 then ((sch_of_octet 0) <| sch_nsapi := nsapi sne |>) <| first := true |>
                    else (sch_of_octet 0) <| sch_nsapi := nsapi sne |>) <| sch_type := true |>
           then [octet_of_scomph (mk_sndcp_comp_hdr 0 0)] else []) = (if k =? 0 then [0] else []))
    as -> by (by destruct (k =? 0)).
  rewrite Htx, Nat2Z.inj_add, (Z.add_comm (Z.of_nat next)).
  by destruct (rc <? 0); [|destruct last].
Qed.

(** What is left to do, and that a fragment makes it less. *)
Definition frag_left (k : Z) (rem : list Z) : nat := 2 * length rem + (if k =? 0%Z then 1 else 0).

Lemma frag_left_step n k rem :
  4 <= n -> 0 <= k < 256 -> (frag_room n (k =? 0)%Z < length rem)%nat ->
  (frag_left (u8 (k + 1)) (drop (frag_room n (k =? 0)%Z) rem) < frag_left k rem)%nat.
Proof.
  intros Hn Hk Hm. unfold frag_left, frag_room, hdr_len in *. rewrite length_drop.
  destruct (Z.eqb_spec k 0) as [->|Hne].
  - change (u8 (0 + 1) =? 0) with false. cbv iota. lia.
  - case_match; lia.
Qed.

Lemma u8_range k : 0 <= u8 k < 256.
Proof. apply (wrap_in_width 8). lia. Qed.

(** The loop ends, whatever the lower layer answers. *)
Lemma frag_loop_total fuel s sne msg ctx k (next : nat) :
  sndcp_env_ok env -> svc_live s (sne_lle sne) ->
  4 <= n201_u (params (svc_lle s (sne_lle sne))) < 65536 ->
  Z.of_nat (length (msgb_data msg)) < 2 ^ 31 -> 0 <= k < 256 -> 0 <= nsapi sne < 16 ->
  (next <= length (msgb_data msg))%nat ->
  (frag_left k (drop next (msgb_data msg)) < fuel)%nat ->
  exists res, frag_loop fuel s sne msg ctx (mk_sndcp_frag_state k (Z.of_nat next)) = Some res.
Proof.
  intros Henv Hlive Hn Hlen Hk Hns. revert s k next Hlive Hn Hk.
  induction fuel as [|fuel IH]; intros s k next Hlive Hn Hk Hnext Hfuel; [lia|].
  pose proof (send_ud_frag_spec s sne msg ctx k next Henv Hn Hlen Hk Hns Hnext) as Hsend. cbv zeta in Hsend.
  match type of Hsend with context [svc_tx_ui ?s ?m ?sa ?c ?x] =>
    pose proof (svc_tx_live s (sne_lle sne) m x Hlive) as Hl end. cbv zeta in Hl.
  destruct (svc_tx_ui _ _ _ _ _) as [[rc s'] out]. cbn [fst snd] in Hl.
  destruct Hl as (Hlive' & Hp & _). cbn [frag_loop]. rewrite Hsend.
  destruct (Z.ltb_spec rc 0).
  - destruct (Z.eqb_spec rc 0); [lia|]. rewrite (proj2 (Z.ltb_lt rc 0)) by done. by eexists.
  - match goal with |- context [(?a <=? ?b)%nat] => destruct (Nat.leb_spec a b) as [|Hgt] end;
      [by eexists|]. change (1 =? 0) with false. change (1 <? 0) with false. cbv iota.
    rewrite length_take, Nat.min_l by lia.
    pose proof (frag_left_step _ _ _ (proj1 Hn) Hk Hgt) as Hleft. rewrite length_drop in Hgt.
    rewrite drop_drop in Hleft. rewrite <- Hp in *.
    set (m := frag_room _ (k =? 0)) in *.
    destruct (IH s' (u8 (k + 1)) (next + m)%nat Hlive' Hn (u8_range _) ltac:(lia) ltac:(lia))
      as [[[[? ?] ?] ?] ->].
    by eexists.
Qed.

(** Over a ready entity it sends the list of SN-PDUs. *)
Lemma frag_loop_spec fuel s t sne msg ctx k (next : nat) :
  sndcp_env_ok env -> svc_ready s t (sne_lle sne) -> msgb_tlli msg = t ->
  let n := n201_u (params (svc_lle s (sne_lle sne))) in
  4 <= n < 65536 ->
  Z.of_nat (length (msgb_data msg)) < 2 ^ 31 -> 0 <= k < 256 -> 0 <= nsapi sne < 16 ->
  (next <= length (msgb_data msg))%nat ->
  (frag_left k (drop next (msgb_data msg)) < fuel)%nat ->
  let pdus := frag_pdus fuel n (nsapi sne) (tx_npdu_nr sne) k (drop next (msgb_data msg)) in
  let '(s', out) := tx_all s (sne_lle sne) msg ctx pdus in
  frag_loop fuel s sne msg ctx (mk_sndcp_frag_state k (Z.of_nat next)) =
    Some (0, s', npdu_sent sne, out) /\ svc_ready s' t (sne_lle sne).
Proof.
  intros Henv Hready Ht n Hn Hlen Hk Hns. revert s k next n Hready Hn Hk.
  induction fuel as [|fuel IH]; intros s k next n Hready Hn Hk Hnext Hfuel; [lia|].
  pose proof (send_ud_frag_spec s sne msg ctx k next Henv Hn Hlen Hk Hns Hnext) as Hsend. cbv zeta in Hsend.
  cbn [frag_pdus frag_loop]. fold n in Hsend.
  set (rem := drop next (msgb_data msg)) in *. set (m := frag_room n (k =? 0)) in *. cbv zeta.
  assert (forall more, Z.of_nat (length (sn_pdu (k =? 0) more (nsapi sne) (tx_npdu_nr sne) (k mod 15)
            (take m rem))) <= n) as Hfit.
  { intros more. rewrite length_sn_pdu, length_take. unfold m, frag_room, hdr_len. destruct (k =? 0); lia. }
  revert Hsend. destruct (Nat.leb_spec (length rem) m) as [Hle|Hgt]; cbn [negb]; intros Hsend.
  - rewrite take_ge in * by lia. cbn [tx_all].
    destruct (svc_tx_ready s t _ (with_pdu msg (sn_pdu (k =? 0) false (nsapi sne) (tx_npdu_nr sne)
                (k mod 15) rem)) ctx Hready Ht (Hfit false)) as [Hrc Hr].
    destruct (svc_tx_ui _ _ _ _ _) as [[rc s'] out]. cbn [fst snd] in *.
    rewrite (proj2 (Z.ltb_ge rc 0)) in Hsend by done. rewrite Hsend. change (0 =? 0) with true. cbv iota.
    by rewrite app_nil_r.
  - cbn [tx_all].
    set (pdu := sn_pdu (k =? 0) true _ _ _ _) in *.
    destruct (svc_tx_ready s t _ (with_pdu msg pdu) ctx Hready Ht (Hfit true)) as [Hrc Hr].
    destruct (svc_tx_live s (sne_lle sne) (with_pdu msg pdu) ctx (svc_ready_live _ _ _ Hready))
      as (_ & Hp & _).
    destruct (svc_tx_ui _ _ _ _ _) as [[rc s'] out]. cbn [fst snd] in *.
    rewrite (proj2 (Z.ltb_ge rc 0)) in Hsend by done. rewrite Hsend.
    change (1 =? 0) with false. change (1 <? 0) with false.
    cbv iota. rewrite length_take, Nat.min_l by lia.
    pose proof (frag_left_step _ _ _ (proj1 Hn) Hk Hgt) as Hleft. fold m in Hleft.
    unfold rem in *. rewrite length_drop in Hgt. rewrite drop_drop in *.
    specialize (IH s' (u8 (k + 1)) (next + m)%nat Hr). cbv zeta in IH. rewrite Hp in IH. fold n in IH.
    specialize (IH Hn (u8_range _) ltac:(lia) ltac:(lia)).
    destruct (tx_all s' _ _ _ _) as [s'' out']. destruct IH as [-> Hr']. done.
Qed.

Lemma entity_by_lle_spec (l : list entity) r ns i sne :
  gprs_sndcp_entity_by_lle l r ns = Some (i, sne) ->
  l !! i = Some sne /\ sne_lle sne = r /\ nsapi sne = ns.
Proof.
  unfold gprs_sndcp_entity_by_lle. intros (Hi & Hp & _)%list_find_Some. split; [done|].
  unfold entity_is in Hp. apply Is_true_true, andb_true_iff in Hp as [H1 H2].
  by apply bool_decide_eq_true in H1; apply Z.eqb_eq in H2.
Qed.

Lemma needs_fragments_spec len n :
  0 <= n < 65536 -> 0 <= len < 2 ^ 31 ->
  needs_fragments len n = (4 <=? n) && (n - 4 <? len).
Proof.
  intros Hn Hl. unfold needs_fragments, sizeof_sch, sizeof_suh, sizeof_scomph, wrap.
  change (2 ^ 64) with 18446744073709551616. change (2 ^ 31) with 2147483648 in *.
  destruct (Z.leb_spec 4 n); cbn [andb].
  - by rewrite Z.mod_small by lia.
  - apply Z.ltb_ge. Z.to_euclidean_division_equations. lia.
Qed.

(** A transmission request always comes to an end, whatever N201-U is and whatever the lower
    layers answer: the fragment loop runs at most twice as often as the N-PDU has octets. *)
Theorem sndcp_unitdata_req_total s (l : list entity) msg r ns ctx :
  sndcp_env_ok env -> svc_live s r -> 0 <= n201_u (params (svc_lle s r)) < 65536 ->
  Z.of_nat (length (msgb_data msg)) < 2 ^ 31 -> 0 <= ns < 16 ->
  exists res, sndcp_unitdata_req (frag_fuel (length (msgb_data msg))) s l msg r ns ctx = Some res.
Proof.
  intros Henv Hlive Hn Hlen Hns. unfold sndcp_unitdata_req.
  destruct (gprs_sndcp_entity_by_lle l r ns) as [[i sne]|] eqn:Hf; [|by eexists].
  apply entity_by_lle_spec in Hf as (_ & <- & <-).
  rewrite needs_fragments_spec by lia. destruct (Z.leb_spec 4 (n201_u (params (svc_lle s (sne_lle sne))))).
  - destruct (_ <? _); cbn [andb].
    + destruct (frag_loop_total (frag_fuel (length (msgb_data msg))) s sne msg ctx 0 0)
        as [[[[? ?] ?] ?] Hl]; try done; try lia.
      { rewrite drop_0. unfold frag_left, frag_fuel. cbn. lia. }
      change (Z.of_nat 0) with 0 in Hl. rewrite Hl. by eexists.
    + destruct (svc_tx_ui _ _ _ _ _) as [[? ?] ?]. by eexists.
  - cbn [andb]. destruct (svc_tx_ui _ _ _ _ _) as [[? ?] ?]. by eexists.
Qed.

(** The SN-PDUs an N-PDU is sent as. *)
Definition npdu_pdus (n ns nr : Z) (data : list Z) : list (list Z) :=
  frag_pdus (frag_fuel (length data)) n ns nr 0 data.

Lemma unitdata_req_spec s t (l : list entity) msg r ns ctx i sne :
  sndcp_env_ok env -> svc_ready s t r -> msgb_tlli msg = t ->
  gprs_sndcp_entity_by_lle l r ns = Some (i, sne) -> 0 <= ns < 16 ->
  let n := n201_u (params (svc_lle s r)) in
  4 <= n < 65536 -> Z.of_nat (length (msgb_data msg)) < 2 ^ 31 ->
  let '(s', out) := tx_all s r msg ctx (npdu_pdus n ns (tx_npdu_nr sne) (msgb_data msg)) in
  exists rc, 0 <= rc /\
    sndcp_unitdata_req (frag_fuel (length (msgb_data msg))) s l msg r ns ctx =
      Some (rc, s', <[i := npdu_sent sne]> l, out).
Proof.
  intros Henv Hready Ht Hf Hns n Hn Hlen. unfold sndcp_unitdata_req. rewrite Hf.
  apply entity_by_lle_spec in Hf as (_ & <- & <-). rewrite needs_fragments_spec by (fold n; lia).
  fold n. rewrite (proj2 (Z.leb_le 4 n)) by lia. cbn [andb].
  destruct (Z.ltb_spec (n - 4) (Z.of_nat (length (msgb_data msg)))) as [Hlong|Hshort].
  - pose proof (frag_loop_spec (frag_fuel (length (msgb_data msg))) s t sne msg ctx 0 0 Henv Hready Ht Hn
                  Hlen ltac:(lia) Hns ltac:(lia)) as Hloop.
    rewrite drop_0 in Hloop. specialize (Hloop ltac:(unfold frag_left, frag_fuel; cbn; lia)).
    cbv zeta in Hloop. fold n in Hloop. unfold npdu_pdus.
    destruct (tx_all _ _ _ _ _) as [s' out]. destruct Hloop as [Hloop _].
    change (Z.of_nat 0) with 0 in Hloop. rewrite Hloop. exists 0. done.
  - unfold npdu_pdus, frag_fuel. rewrite Nat.add_comm. cbn [frag_pdus Nat.add]. unfold frag_room, hdr_len.
    change (0 =? 0) with true. cbv iota zeta.
    destruct (Nat.leb_spec (length (msgb_data msg)) (Z.to_nat n - 4)); [|lia].
    cbn [tx_all]. set (pdu := sn_pdu _ _ _ _ _ _).
    assert (Z.of_nat (length (msgb_data (with_pdu msg pdu))) <= n) as Hfit.
    { change (msgb_data (with_pdu msg pdu)) with pdu. unfold pdu. rewrite length_sn_pdu. cbn. lia. }
    destruct (svc_tx_ready s t _ (with_pdu msg pdu) ctx Hready Ht Hfit) as [Hrc _].
    rewrite (ok_fresh env Henv).
    assert (msg <| msgb_data := [octet_of_sch ((sch_of_octet 0) <| first := true |> <| sch_type := true |>
                     <| sch_nsapi := nsapi sne .& 0xf |>)] ++ [octet_of_scomph (mk_sndcp_comp_hdr 0 0)]
                     ++ octets_of_suh (suh_of_entity sne 0) ++ msgb_data msg |> = with_pdu msg pdu) as ->.
    { rewrite nibble_round by done. done. }
    destruct (svc_tx_ui _ _ _ _ _) as [[rc s'] out]. exists rc. cbn [fst] in Hrc.
    split; [done|]. by rewrite app_nil_r.
Qed.

(** Over a ready LLC entity, a transmission request succeeds, hands LLC the SN-PDUs of the
    N-PDU in order and nothing else, each of them no longer than N201-U, and steps the N-PDU
    number. *)
Theorem sndcp_unitdata_req_spec s t (l : list entity) msg r ns ctx i sne :
  sndcp_env_ok env -> svc_ready s t r -> msgb_tlli msg = t ->
  gprs_sndcp_entity_by_lle l r ns = Some (i, sne) -> 0 <= ns < 16 ->
  let n := n201_u (params (svc_lle s r)) in
  4 <= n < 65536 -> Z.of_nat (length (msgb_data msg)) < 2 ^ 31 ->
  let pdus := npdu_pdus n ns (tx_npdu_nr sne) (msgb_data msg) in
  exists rc s' out,
    0 <= rc /\ tx_all s r msg ctx pdus = (s', out) /\
    sndcp_unitdata_req (frag_fuel (length (msgb_data msg))) s l msg r ns ctx =
      Some (rc, s', <[i := npdu_sent sne]> l, out) /\
    Forall (fun pdu => Z.of_nat (length pdu) <= n) pdus.
Proof.
  intros Henv Hready Ht Hf Hns n Hn Hlen pdus.
  pose proof (unitdata_req_spec s t l msg r ns ctx i sne Henv Hready Ht Hf Hns Hn Hlen) as H.
  fold n pdus in H. destruct (tx_all _ _ _ _ _) as [s' out]. destruct H as (rc & Hrc & Hreq).
  exists rc, s', out. repeat split; try done. apply frag_pdus_fit. lia.
Qed.

End Transmission.

End SndcpProps.
