(* ===== verification/SndcpReasm.v ===== *)
(** Reassembly of N-PDUs, and LLC and SNDCP together.

    The fragments of an N-PDU are numbered from 0; the first one resets the queue, the others may
    arrive in any order. The state of the queue is described by the numbers received so far. *)

From S2P Require Import Prelude Crc24 Llc LlcProps Sndcp SndcpProps.
Import Llc LlcProps Sndcp SndcpProps.

Module SndcpReasm.

(** ** The set of received segments *)

Definition seg_mask (arr : list nat) : Z := foldr (fun i m => m .| (1 .<< Z.of_nat i)) 0 arr.

Lemma seg_mask_nonneg arr : 0 <= seg_mask arr.
Proof.
  induction arr as [|i arr IH]; cbn; [lia|]. apply Z.lor_nonneg. split; [done|].
  rewrite Z.shiftl_nonneg. lia.
Qed.

Lemma seg_mask_testbit arr (j : nat) : Z.testbit (seg_mask arr) (Z.of_nat j) = bool_decide (j ∈ arr).
Proof.
  induction arr as [|i arr IH]; [cbn; by rewrite Z.testbit_0_l|]. cbn [seg_mask foldr].
  fold (seg_mask arr). rewrite Z.lor_spec, IH, Z.shiftl_spec by lia.
  destruct (decide (i = j)) as [->|Hne].
  - rewrite Z.sub_diag, orb_true_r. symmetry. apply bool_decide_eq_true. by left.
  - assert (Z.testbit 1 (Z.of_nat j - Z.of_nat i) = false) as ->.
    { destruct (decide (Z.of_nat j < Z.of_nat i)) as [?|?]; [by apply Z.testbit_neg_r; lia|].
      apply Z.bits_above_log2; [lia|]. cbn. lia. }
    rewrite orb_false_r. apply bool_decide_ext. rewrite elem_of_cons.
    split; [by right|intros [?|?]; [congruence|done]].
Qed.

Lemma seg_needed_ones h : 0 <= h < 32 -> seg_needed h = Z.ones (h + 1).
Proof.
  intros Hh. apply Z.eqb_eq.
  by apply (range_forall (fun h => seg_needed h =? Z.ones (h + 1)) 32).
Qed.

Definition seg_max (arr : list nat) : nat := foldr Nat.max 0%nat arr.

Lemma seg_max_ge arr i : i ∈ arr -> (i <= seg_max arr)%nat.
Proof. unfold seg_max. induction 1; cbn; lia. Qed.

Lemma seg_max_lt arr n : (0 < n)%nat -> Forall (fun i => i < n)%nat arr -> (seg_max arr < n)%nat.
Proof. intros Hn. unfold seg_max. induction 1; cbn; lia. Qed.

(** The bit mask shows all segments exactly when every number up to the last was received. *)
Lemma seg_mask_complete arr n :
  (0 < n <= 32)%nat -> Forall (fun i => i < n)%nat arr -> pred n ∈ arr ->
  (seg_needed (Z.of_nat (seg_max arr)) =? seg_mask arr) = true <-> forall i, (i < n)%nat -> i ∈ arr.
Proof.
  intros Hn Hlt Hlast. assert (seg_max arr = pred n) as ->.
  { pose proof (seg_max_ge arr _ Hlast). pose proof (seg_max_lt arr n ltac:(lia) Hlt). lia. }
  rewrite seg_needed_ones by lia. replace (Z.of_nat (pred n) + 1) with (Z.of_nat n) by lia.
  rewrite Z.eqb_eq. split.
  - intros Heq i Hi. apply (f_equal (fun m => Z.testbit m (Z.of_nat i))) in Heq.
    rewrite seg_mask_testbit, Z.ones_spec_low in Heq by lia. symmetry in Heq.
    by apply bool_decide_eq_true in Heq.
  - intros Hall. apply Z.bits_inj'. intros j Hj.
    replace j with (Z.of_nat (Z.to_nat j)) by lia. rewrite seg_mask_testbit.
    destruct (decide (Z.to_nat j < n)%nat).
    + rewrite Z.ones_spec_low by lia. symmetry. apply bool_decide_eq_true. by apply Hall.
    + rewrite Z.ones_spec_high by lia. symmetry. apply bool_decide_eq_false. intros Hin.
      rewrite Forall_forall in Hlt. specialize (Hlt _ Hin). lia.
Qed.

(** With no number twice, that is when there are [n] of them. *)
Lemma all_received arr n :
  NoDup arr -> Forall (fun i => i < n)%nat arr ->
  (forall i, (i < n)%nat -> i ∈ arr) <-> length arr = n.
Proof.
  intros Hnd Hlt. rewrite Forall_forall in Hlt.
  assert (arr ⊆+ seq 0 n) as Hsub.
  { apply NoDup_submseteq; [done|]. intros i Hi. apply elem_of_seq. specialize (Hlt i Hi). lia. }
  split.
  - intros Hall. apply submseteq_length in Hsub. rewrite length_seq in Hsub.
    assert (seq 0 n ⊆+ arr) as Hsub'.
    { apply NoDup_submseteq; [apply NoDup_seq|]. intros i Hi%elem_of_seq. apply Hall. lia. }
    apply submseteq_length in Hsub'. rewrite length_seq in Hsub'. lia.
  - intros Hlen i Hi. assert (arr ≡ₚ seq 0 n) as ->; [|apply elem_of_seq; lia].
    apply submseteq_length_Permutation; [done|]. by rewrite length_seq, Hlen.
Qed.

(** ** The queue *)

Section Queue.
Context (ps : list (list Z)).

Definition seg_data (i : nat) : list Z := default [] (ps !! i).
Definition seg_entry (i : nat) : defrag_queue_entry := mk_defrag_queue_entry (Z.of_nat i) (seg_data i).

(** The queue after the segments [arr] of an N-PDU of [length ps] segments, newest first. *)
Record holds (arr : list nat) (d : defrag_state) : Prop := {
  ho_list : frag_list d = seg_entry <$> arr;
  ho_highest : highest_seg d = Z.of_nat (seg_max arr);
  ho_have : seg_have d = seg_mask arr;
  ho_len : tot_len d = Z.of_nat (length (concat (seg_data <$> arr)));
  ho_more : no_more d = bool_decide (pred (length ps) ∈ arr)
}.

Lemma get_seg_spec arr i :
  NoDup arr -> i ∈ arr ->
  exists arr', defrag_get_seg (seg_entry <$> arr) (Z.of_nat i) = Some (seg_entry i, seg_entry <$> arr')
    /\ arr ≡ₚ i :: arr'.
Proof.
  intros Hnd Hin. induction Hnd as [|j arr Hj Hnd IH]; [by apply elem_of_nil in Hin|].
  cbn. destruct (Z.eqb_spec (Z.of_nat j) (Z.of_nat i)) as [Heq|Hne].
  - apply Nat2Z.inj in Heq as ->. by exists arr.
  - apply elem_of_cons in Hin as [->|Hin]; [done|]. destruct (IH Hin) as (arr' & -> & Hp).
    exists (j :: arr'). split; [done|]. rewrite Hp. constructor.
Qed.

Lemma collect_segments_spec arr nrs acc :
  NoDup arr -> arr ≡ₚ nrs ->
  collect_segments (seg_entry <$> arr) nrs acc = ([], Some (acc ++ concat (seg_data <$> nrs))).
Proof.
  revert arr acc. induction nrs as [|i nrs IH]; intros arr acc Hnd Hp.
  - apply Permutation_nil_r in Hp as ->. cbn. by rewrite app_nil_r.
  - destruct (get_seg_spec arr i Hnd) as (arr' & Hg & Hp'); [rewrite Hp; by left|].
    cbn [collect_segments]. rewrite Hg. assert (NoDup (i :: arr')) as Hnd' by (by rewrite <- Hp').
    apply NoDup_cons in Hnd' as [_ Hnd']. rewrite IH; [|done|].
    + cbn. by rewrite app_assoc.
    + apply (Permutation_cons_inv (a := i)). by rewrite <- Hp', Hp.
Qed.

Lemma concat_seg_data : concat (seg_data <$> seq 0 (length ps)) = concat ps.
Proof.
  f_equal. apply list_eq. intros i. rewrite list_lookup_fmap.
  destruct (decide (i < length ps)%nat) as [Hi|Hi].
  - rewrite lookup_seq_lt by done. cbn. unfold seg_data.
    apply lookup_lt_is_Some in Hi as [p ->]. done.
  - rewrite lookup_seq_ge, lookup_ge_None_2 by lia. done.
Qed.

Lemma length_concat_perm (a b : list nat) :
  a ≡ₚ b -> length (concat (seg_data <$> a)) = length (concat (seg_data <$> b)).
Proof. induction 1; cbn; rewrite ?length_app; lia. Qed.

End Queue.

(** ** Reception of one fragment *)

Section Reassembly.
Context {env : SndcpEnv} {S : Type} {svc : LlcService S}.
Abbreviation entity := (gprs_sndcp_entity ra_id_t).
Abbreviation ind := (ud_ind ra_id_t).

(** The queue a first fragment leaves, and a fragment added to a queue. *)
Definition fresh_queue (nr : Z) : defrag_state := mk_defrag_state nr 0 0 false 0 [].

Definition add_seg (d : defrag_state) (last : bool) (nr : Z) (p : list Z) : defrag_state :=
  {| npdu := npdu d; highest_seg := Z.max (highest_seg d) nr; seg_have := seg_have d .| (1 .<< nr);
     no_more := last || no_more d; tot_len := u32 (tot_len d + Z.of_nat (length p));
     frag_list := mk_defrag_queue_entry nr p :: frag_list d |}.

Lemma defrag_input_pdu (sne : entity) t f m ns nr seg p trail :
  sndcp_env_ok env -> 0 <= ns < 16 -> 0 <= nr < 4096 -> 0 <= seg < 16 -> Z.of_nat (length p) < 65536 ->
  let pdu := sn_pdu f m ns nr seg p in
  let d := add_seg (if f then fresh_queue nr else defrag sne) (negb m) seg p in
  let sne' := sne <| defrag := d |> in
  defrag_input sne t (pdu ++ trail) (Z.of_nat (length pdu)) =
  Some (if no_more d && defrag_have_all_segments d then defrag_segments sne' t else (0, sne', [])).
Proof.
  intros Henv Hns Hnr Hseg Hlen pdu d sne'.
  destruct (sn_pdu_fields f m ns nr seg p trail Hns Hnr Hseg) as (Hsch & _ & Hsuh & Hdata).
  fold pdu in Hsch, Hsuh, Hdata. unfold defrag_input. rewrite Hsch, Hsuh, Hdata.
  cbn [first more seg_nr npdu_high npdu_low]. rewrite (proj1 (npdu_nr_round nr Hnr)).
  assert (u32 (Z.of_nat (length pdu) - Z.of_nat (suh_off (mk_sndcp_common_hdr ns m true f false) + 2))
          = Z.of_nat (length p)) as ->.
  { unfold pdu. rewrite length_sn_pdu. unfold suh_off, hdr_len. cbn.
    rewrite wrap_small; [|unfold in_width]; destruct f; lia. }
  unfold defrag_enqueue. rewrite !(ok_talloc env Henv) by (unfold SIZEOF_DQE; lia). cbn [negb].
  rewrite (proj2 (Z.ltb_ge _ _)) by (rewrite length_app; lia).
  rewrite Nat2Z.id, take_app_length. cbn [mbind option_bind].
  change (0 <? 0) with false. cbv iota zeta.
  match goal with |- (if no_more ?a && _ then _ else _) = _ => assert (a = d) as -> end.
  { unfold d, add_seg, fresh_queue. destruct (defrag sne).
    destruct f, m; upd_norm; cbn [highest_seg negb orb no_more npdu seg_have tot_len frag_list];
      (match goal with |- context [?a <? seg] => destruct (Z.ltb_spec a seg) end;
       upd_norm; [rewrite Z.max_r by lia|rewrite Z.max_l by lia]; reflexivity). }
  fold sne'. by destruct (no_more d && defrag_have_all_segments d).
Qed.

(** ** From the first fragment to the N-PDU *)

Section Run.
Context (ps : list (list Z)).
Let n := length ps.
Hypothesis Hn : (2 <= n <= 16)%nat.
Hypothesis Hps : Forall (fun p => Z.of_nat (length p) < 65536) ps.

Lemma seg_data_small i : Z.of_nat (length (seg_data ps i)) < 65536.
Proof.
  unfold seg_data. destruct (ps !! i) as [p|] eqn:E; cbn; [|lia]. by eapply Forall_lookup_1 in Hps.
Qed.

Lemma total_small arr :
  Z.of_nat (length (concat (seg_data ps <$> arr))) <= 65536 * Z.of_nat (length arr).
Proof.
  induction arr as [|i arr IH]; cbn; [lia|]. rewrite length_app. pose proof (seg_data_small i). lia.
Qed.

Definition last_seg (i : nat) : bool := bool_decide (i = pred n).

Lemma holds_add arr d i :
  holds ps arr d -> (length arr <= 16)%nat ->
  holds ps (i :: arr) (add_seg d (last_seg i) (Z.of_nat i) (seg_data ps i)).
Proof.
  intros [Hl Hh Hm Ht Hno] Hlen. pose proof (seg_data_small i). pose proof (total_small arr).
  split; cbn.
  - by rewrite Hl.
  - rewrite Hh. unfold seg_max. cbn. lia.
  - by rewrite Hm.
  - rewrite Ht, length_app, wrap_small; unfold in_width; lia.
  - rewrite Hno. unfold last_seg, n. apply Bool.eq_iff_eq_true.
    rewrite orb_true_iff, !bool_decide_eq_true, elem_of_cons. intuition congruence.
Qed.

Lemma holds_first nr : holds ps [0%nat] (add_seg (fresh_queue nr) (last_seg 0) 0 (seg_data ps 0)).
Proof.
  apply (holds_add [] (fresh_queue nr) 0); [|cbn; lia].
  split; cbn; [done..|]. symmetry. apply bool_decide_eq_false, not_elem_of_nil.
Qed.

Lemma complete_iff arr d :
  holds ps arr d -> NoDup arr -> Forall (fun i => i < n)%nat arr ->
  no_more d && defrag_have_all_segments d = bool_decide (length arr = n).
Proof.
  intros [_ Hh Hm _ Hno] Hnd Hlt. unfold defrag_have_all_segments. rewrite Hh, Hm, Hno.
  apply Bool.eq_iff_eq_true. rewrite andb_true_iff, !bool_decide_eq_true. fold n. split.
  - intros [Hlast Hall]. apply all_received; [done..|]. eapply seg_mask_complete; [|done..|done]. lia.
  - intros Hlen. rewrite <- all_received in Hlen by done.
    assert (pred n ∈ arr) as Hlast by (apply Hlen; lia). split; [done|].
    eapply seg_mask_complete; [|done..]. lia.
Qed.

Lemma deliver_npdu (sne : entity) t arr d :
  sndcp_env_ok env -> holds ps arr d -> NoDup arr -> Forall (fun i => i < n)%nat arr -> length arr = n ->
  let i := mk_ud_ind (ra_id sne) t (nsapi sne) (Z.of_nat (length (concat ps))) (concat ps) in
  defrag_segments (sne <| defrag := d |>) t =
    (sgsn_rx_sndcp_ud_ind i, sne <| defrag := d <| frag_list := [] |> |>, [i]).
Proof.
  intros Henv Hho Hnd Hlt Hlen i. assert (arr ≡ₚ seq 0 n) as Hp.
  { apply NoDup_Permutation; [done|apply NoDup_seq|]. intros x. rewrite elem_of_seq. split.
    - intros Hx. rewrite Forall_forall in Hlt. specialize (Hlt x Hx). lia.
    - intros Hx. apply all_received with n; [done..|]. lia. }
  assert (seg_max arr = pred n) as Hmax.
  { assert (pred n ∈ arr) as Hin by (rewrite Hp, elem_of_seq; lia).
    pose proof (seg_max_ge arr _ Hin). pose proof (seg_max_lt arr n ltac:(lia) Hlt). lia. }
  destruct Hho as [Hl Hh _ Ht _]. unfold defrag_segments. cbn [defrag upd upd_defrag].
  pose proof (total_small arr) as Htot. rewrite Ht, Hl, Hh, Hmax.
  rewrite (ok_msgb env Henv) by (apply (wrap_in_width 32); lia). cbn [negb].
  replace (Z.to_nat (Z.of_nat (pred n)) + 1)%nat with n by lia.
  rewrite (collect_segments_spec ps arr _ [] Hnd Hp).
  rewrite (length_concat_perm ps _ _ Hp). unfold n. by rewrite concat_seg_data.
Qed.

Lemma entity_by_lle_insert (l : list entity) r ns k sne sne' :
  gprs_sndcp_entity_by_lle l r ns = Some (k, sne) ->
  sne_lle sne' = sne_lle sne -> nsapi sne' = nsapi sne ->
  gprs_sndcp_entity_by_lle (<[k := sne']> l) r ns = Some (k, sne').
Proof.
  unfold gprs_sndcp_entity_by_lle. intros (Hk & Hp & Hmin)%list_find_Some Hl Hns.
  apply list_find_Some. split; [|split].
  - apply list_lookup_insert_eq. by eapply lookup_lt_Some.
  - unfold entity_is in *. by rewrite Hl, Hns.
  - intros j x Hj Hlt. rewrite list_lookup_insert_ne in Hj by lia. by eapply Hmin.
Qed.

(** Indications for a sequence of SN-PDUs: the return codes, and what the SGSN core was given. *)
Fixpoint rx_all (s : S) (l : list entity) (bcid : list Z) (r : lle_ref) (pdus : list (list Z * Z))
  : option (list Z * list entity * list ind) :=
  match pdus with
  | [] => Some ([], l, [])
  | (hdr, len) :: pdus =>
      '(rc, l, out) ← sndcp_llunitdata_ind s l bcid r hdr len;
      '(rcs, l, out') ← rx_all s l bcid r pdus;
      Some (rc :: rcs, l, out ++ out')
  end.

(** Fragment [i] of the N-PDU. *)
Definition frag_pdu (ns nr : Z) (i : nat) : list Z :=
  sn_pdu (bool_decide (i = 0%nat)) (negb (last_seg i)) ns nr (Z.of_nat i) (seg_data ps i).

Definition frag_rx (ns nr : Z) (trail : nat -> list Z) (i : nat) : list Z * Z :=
  (frag_pdu ns nr i ++ trail i, Z.of_nat (length (frag_pdu ns nr i))).

Definition npdu_ind (sne : entity) (t : Z) (bcid : list Z) : ind :=
  mk_ud_ind (gsm48_parse_ra bcid) t (nsapi sne) (Z.of_nat (length (concat ps))) (concat ps).

(** One fragment that is not the whole N-PDU. *)
Lemma llunitdata_frag s (l : list entity) bcid r ns nr k sne i trail :
  sndcp_env_ok env -> gprs_sndcp_entity_by_lle l r ns = Some (k, sne) ->
  0 <= ns < 16 -> 0 <= nr < 4096 -> (i < n)%nat ->
  let d := add_seg (if bool_decide (i = 0%nat) then fresh_queue nr else defrag sne)
             (last_seg i) (Z.of_nat i) (seg_data ps i) in
  let sne' := sne <| ra_id := gsm48_parse_ra bcid |> <| defrag := d |> in
  sndcp_llunitdata_ind s l bcid r (frag_pdu ns nr i ++ trail) (Z.of_nat (length (frag_pdu ns nr i))) =
  let '(rc, sne', out) := if no_more d && defrag_have_all_segments d
                          then defrag_segments sne' (svc_tlli s r) else (0, sne', []) in
  Some (rc, <[k := sne']> l, out).
Proof.
  intros Henv Hf Hns Hnr Hi d sne'.
  pose proof (entity_by_lle_spec _ _ _ _ _ Hf) as (Hk & Hr & _).
  assert (0 <= Z.of_nat i < 16) as Hseg by lia.
  destruct (sn_pdu_fields (bool_decide (i = 0%nat)) (negb (last_seg i)) ns nr (Z.of_nat i)
              (seg_data ps i) trail Hns Hnr Hseg) as (Hsch & _ & _ & _).
  fold (frag_pdu ns nr i) in Hsch. unfold sndcp_llunitdata_ind. rewrite Hsch.
  cbn [sch_type sch_nsapi first more negb]. rewrite Hf.
  rewrite (proj2 (Z.ltb_ge _ _)) by (unfold frag_pdu, sizeof_sch, sizeof_suh;
    rewrite length_sn_pdu; unfold hdr_len; case_match; lia).
  assert (negb (bool_decide (i = 0%nat)) || negb (last_seg i) = true) as ->.
  { unfold last_seg. repeat case_bool_decide; try done. lia. }
  cbn [sne_lle upd upd_ra_id]. rewrite Hr. unfold frag_pdu at 1 2.
  rewrite defrag_input_pdu by (done || apply seg_data_small). rewrite negb_involutive.
  cbn [mbind option_bind]. cbn [defrag upd upd_ra_id]. fold d. cbv zeta.
  destruct (no_more d && defrag_have_all_segments d).
  - destruct (defrag_segments _ _) as [[rc e] out]. by rewrite list_insert_insert_eq.
  - by rewrite list_insert_insert_eq.
Qed.

Lemma rx_rest s (l : list entity) bcid r ns nr k sne arr todo trail :
  sndcp_env_ok env -> gprs_sndcp_entity_by_lle l r ns = Some (k, sne) ->
  0 <= ns < 16 -> 0 <= nr < 4096 ->
  holds ps arr (defrag sne) -> 0%nat ∈ arr -> arr ++ todo ≡ₚ seq 0 n -> todo <> [] ->
  let up := npdu_ind sne (svc_tlli s r) bcid in
  exists sne', frag_list (defrag sne') = [] /\
    rx_all s l bcid r (frag_rx ns nr trail <$> todo) =
      Some (replicate (length todo - 1) 0 ++ [sgsn_rx_sndcp_ud_ind up], <[k := sne']> l, [up]).
Proof.
  intros Henv Hf Hns Hnr. revert l sne arr Hf.
  induction todo as [|i todo IH]; intros l sne arr Hf Hho H0 Hp Hne up; [done|]. clear Hne.
  assert (NoDup (arr ++ i :: todo)) as Hnd by (rewrite Hp; apply NoDup_seq).
  assert (length (arr ++ i :: todo) = n) as Hlen by (rewrite Hp; apply length_seq).
  assert (Forall (fun j => j < n)%nat (arr ++ i :: todo)) as Hlt
    by (rewrite Hp, Forall_forall; intros j Hj%elem_of_seq; lia).
  rewrite length_app in Hlen. cbn [length] in Hlen.
  apply Forall_app in Hlt as [Hlt Hlt2]. apply Forall_cons in Hlt2 as [Hi Hlt2].
  apply NoDup_app in Hnd as (Hnd & Hdisj & Hnd2). 
  assert (i ∉ arr) as Hia by (intros Hia; apply (Hdisj i Hia); by left).
  assert (i <> 0%nat) as Hi0 by (intros ->; done).
  cbn [fmap list_fmap rx_all]. unfold frag_rx at 1.
  rewrite (llunitdata_frag s l bcid r ns nr k sne i (trail i)) by done.
  rewrite (bool_decide_eq_false_2 (i = 0%nat)) by done. cbv zeta.
  set (d := add_seg (defrag sne) _ _ _).
  assert (holds ps (i :: arr) d) as Hho' by (apply holds_add; [done|lia]).
  assert (NoDup (i :: arr)) as Hnd' by (by constructor).
  assert (Forall (fun j => j < n)%nat (i :: arr)) as Hlt' by (by constructor).
  rewrite (complete_iff (i :: arr) d) by done. cbn [length].
  destruct todo as [|i' todo].
  - rewrite bool_decide_eq_true_2 by (cbn in Hlen; lia).
    rewrite (deliver_npdu _ _ (i :: arr) d) by (done || (cbn in *; lia)).
    eexists. split; [|done]. done.
  - rewrite bool_decide_eq_false_2 by (cbn in Hlen; lia). cbn [mbind option_bind].
    set (sne1 := (sne <| ra_id := gsm48_parse_ra bcid |>) <| defrag := d |>).
    destruct (IH (<[k := sne1]> l) sne1 (i :: arr)) as (sne' & He & Hrx); try done.
    + by eapply entity_by_lle_insert.
    + by right.
    + rewrite <- Hp. cbn. apply Permutation_middle.
    + exists sne'. split; [done|]. rewrite Hrx.
      cbn [length Nat.sub replicate app mbind option_bind]. by rewrite list_insert_insert_eq, Nat.sub_0_r.
Qed.

Lemma reassembly s (l : list entity) bcid r ns nr k sne ord trail :
  sndcp_env_ok env -> gprs_sndcp_entity_by_lle l r ns = Some (k, sne) ->
  0 <= ns < 16 -> 0 <= nr < 4096 -> ord ≡ₚ seq 1 (n - 1) ->
  let up := npdu_ind sne (svc_tlli s r) bcid in
  exists sne', frag_list (defrag sne') = [] /\
    rx_all s l bcid r (frag_rx ns nr trail <$> 0%nat :: ord) =
      Some (replicate (n - 1) 0 ++ [sgsn_rx_sndcp_ud_ind up], <[k := sne']> l, [up]).
Proof.
  intros Henv Hf Hns Hnr Hord up. cbn [fmap list_fmap rx_all]. unfold frag_rx at 1.
  rewrite (llunitdata_frag s l bcid r ns nr k sne 0 (trail 0%nat)) by (done || lia).
  rewrite (bool_decide_eq_true_2 (0 = 0)%nat) by done. cbv zeta.
  set (d := add_seg (fresh_queue nr) _ _ _).
  assert (holds ps [0%nat] d) as Hho by apply holds_first.
  rewrite (complete_iff [0%nat] d Hho (NoDup_singleton _)) by (constructor; [lia|constructor]).
  rewrite bool_decide_eq_false_2 by (cbn; lia). cbn [mbind option_bind].
  set (sne1 := (sne <| ra_id := gsm48_parse_ra bcid |>) <| defrag := d |>).
  destruct (rx_rest s (<[k := sne1]> l) bcid r ns nr k sne1 [0%nat] ord trail) as (sne' & He & Hrx);
    try done.
  - by eapply entity_by_lle_insert.
  - by left.
  - rewrite Hord. change ([0%nat] ++ seq 1 (n - 1)) with (seq 0 (Datatypes.S (n - 1))).
    by replace (Datatypes.S (n - 1)) with n by lia.
  - intros ->. apply Permutation_nil_l in Hord. destruct (n - 1)%nat eqn:E; [lia|done].
  - exists sne'. split; [done|]. rewrite Hrx. cbn [mbind option_bind].
    assert (length ord = n - 1)%nat as -> by (rewrite Hord; apply length_seq).
    rewrite list_insert_insert_eq. cbn [app]. repeat f_equal.
    destruct (n - 1)%nat eqn:E; [lia|]. cbn. by rewrite Nat.sub_0_r.
Qed.

(** C10: the fragments of an N-PDU of two to sixteen segments, the first one first and the others
    in any order, each followed by whatever stands behind it in its message, give the SGSN core
    exactly one N-PDU: the concatenated payloads, with their length, when the last of them
    arrived. Whatever the queue held before is dropped, and it is empty afterwards. *)
Theorem reassembly_any_order s (l : list entity) bcid r ns nr k sne ord trail :
  sndcp_env_ok env -> gprs_sndcp_entity_by_lle l r ns = Some (k, sne) ->
  0 <= ns < 16 -> 0 <= nr < 4096 -> ord ≡ₚ seq 1 (n - 1) ->
  let up := npdu_ind sne (svc_tlli s r) bcid in
  exists sne', frag_list (defrag sne') = [] /\
    rx_all s l bcid r (frag_rx ns nr trail <$> 0%nat :: ord) =
      Some (replicate (n - 1) 0 ++ [sgsn_rx_sndcp_ud_ind up], <[k := sne']> l, [up]).
Proof. apply reassembly. Qed.

End Run.

End Reassembly.

(** ** How the sender cuts an N-PDU *)

Fixpoint chunks (fuel : nat) (n : Z) (f : bool) (data : list Z) : list (list Z) :=
  match fuel with
  | O => []
  | S fuel =>
      let m := frag_room n f in
      if (length data <=? m)%nat then [data] else take m data :: chunks fuel n false (drop m data)
  end.

Lemma chunks_concat fuel n (f : bool) data :
  4 <= n -> (2 * length data + (if f then 1 else 0) < fuel)%nat -> concat (chunks fuel n f data) = data.
Proof.
  intros Hn. revert f data. induction fuel as [|fuel IH]; intros f data Hfuel; [lia|].
  cbn [chunks]. destruct (Nat.leb_spec (length data) (frag_room n f)) as [|Hgt].
  - cbn. apply app_nil_r.
  - cbn [concat]. rewrite IH; [apply take_drop|]. rewrite length_drop.
    unfold frag_room, hdr_len in *. destruct f; lia.
Qed.

Lemma chunks_small fuel n f data :
  4 <= n -> Forall (fun p => Z.of_nat (length p) <= n) (chunks fuel n f data).
Proof.
  intros Hn. revert f data. induction fuel as [|fuel IH]; intros f data; [constructor|].
  cbn [chunks]. unfold frag_room. destruct (Nat.leb_spec (length data) (Z.to_nat n - hdr_len f)).
  - constructor; [lia|constructor].
  - constructor; [rewrite length_take; lia|apply IH].
Qed.

(** [c] fragments carry this much. *)
Definition frags_capacity (n : Z) (c : nat) : nat := frag_room n true + (c - 1) * frag_room n false.

Lemma chunks_length fuel n f data c :
  4 <= n -> (length data <= frag_room n f + c * frag_room n false)%nat ->
  (length (chunks fuel n f data) <= S c)%nat.
Proof.
  intros Hn. revert f data c. induction fuel as [|fuel IH]; intros f data c Hc; [cbn; lia|].
  cbn [chunks]. destruct (Nat.leb_spec (length data) (frag_room n f)) as [|Hgt]; [cbn; lia|].
  cbn [length]. destruct c as [|c]; [lia|].
  specialize (IH false (drop (frag_room n f) data) c). rewrite length_drop in IH. lia.
Qed.

Lemma chunks_length_2 fuel n data :
  (frag_room n true < length data)%nat -> (2 <= fuel)%nat -> (2 <= length (chunks fuel n true data))%nat.
Proof.
  intros Hlen Hfuel. destruct fuel as [|[|fuel]]; [lia..|]. cbn [chunks].
  destruct (Nat.leb_spec (length data) (frag_room n true)); [lia|].
  by destruct (Nat.leb_spec (length (drop (frag_room n true) data)) (frag_room n false)); cbn; lia.
Qed.

(** Up to fifteen fragments carry their index as segment number. *)
Lemma frag_pdus_chunks fuel n ns nr (k : nat) data :
  4 <= n -> (2 * length data + (if bool_decide (k = 0%nat) then 1 else 0) < fuel)%nat ->
  (k + length (chunks fuel n (bool_decide (k = 0%nat)) data) <= 15)%nat ->
  frag_pdus fuel n ns nr (Z.of_nat k) data =
  imap (fun i p => sn_pdu (bool_decide (k + i = 0)%nat)
          (negb (bool_decide (i = pred (length (chunks fuel n (bool_decide (k = 0%nat)) data))))) ns nr
          (Z.of_nat (k + i)) p) (chunks fuel n (bool_decide (k = 0%nat)) data).
Proof.
  intros Hn. revert k data. induction fuel as [|fuel IH]; intros k data Hfuel; [done|].
  cbn [chunks frag_pdus]. set (f := bool_decide (k = 0%nat)) in *.
  assert ((Z.of_nat k =? 0) = f) as ->.
  { apply Bool.eq_iff_eq_true. unfold f. rewrite Z.eqb_eq, bool_decide_eq_true. lia. }
  destruct (Nat.leb_spec (length data) (frag_room n f)) as [|Hgt].
  - cbn. intros Hk. rewrite Z.mod_small by lia. by rewrite Nat.add_0_r.
  - cbn [length imap]. intros Hk. rewrite Z.mod_small by lia. rewrite Nat.add_0_r.
    assert (u8 (Z.of_nat k + 1) = Z.of_nat (S k)) as ->.
    { rewrite wrap_small; unfold in_width; lia. }
    specialize (IH (S k) (drop (frag_room n f) data)).
    rewrite (bool_decide_eq_false_2 (S k = 0%nat)), length_drop in IH by lia.
    assert (2 * (length data - frag_room n f) < fuel)%nat as Hfuel'
      by (unfold frag_room, hdr_len in *; destruct f; lia).
    set (c := chunks fuel n false _) in *.
    assert (0 < length c)%nat as Hc. { unfold c. destruct fuel; [lia|]. cbn [chunks]. destruct (_ <=? _)%nat; cbn; lia. }
    rewrite IH by lia. f_equal.
    + rewrite (bool_decide_eq_false_2 (0%nat = _)) by lia. done.
    + apply imap_ext. intros i p Hi. unfold compose. rewrite Nat.add_succ_comm. f_equal. f_equal.
      apply bool_decide_ext. lia.
Qed.

(** ** LLC and SNDCP together *)

Section EndToEnd.
Context {lenv : LlcEnv} {env : SndcpEnv}.
Abbreviation entity := (gprs_sndcp_entity ra_id_t).
Abbreviation ind := (ud_ind ra_id_t).

(** The peer takes the frames off the wire: LLC, and SNDCP for what LLC indicates to it. *)
Fixpoint rcv_frames (st : llc_state) (l : list entity) (bcid : list Z) (t : Z) (frames : list dl_unitdata)
  : option (list entity * list ind) :=
  match frames with
  | [] => Some (l, [])
  | (m, _) :: frames =>
      let '(rc, st, _) := gprs_llc_rcvmsg st (mk_msgb t 0 0 (msgb_data m))
                            (Z.of_nat (length (msgb_data m))) in
      match rc with
      | IND (SNDCP_IND r hdr len) =>
          '(_, l, out) ← sndcp_llunitdata_ind st l bcid r hdr len;
          '(l, out') ← rcv_frames st l bcid t frames;
          Some (l, out ++ out')
      | _ => rcv_frames st l bcid t frames
      end
  end.

Lemma llunitdata_ind_ext (s1 s2 : llc_state) (l : list entity) bcid r hdr len :
  svc_tlli s1 r = svc_tlli s2 r ->
  sndcp_llunitdata_ind s1 l bcid r hdr len = sndcp_llunitdata_ind s2 l bcid r hdr len.
Proof.
  intros Ht. unfold sndcp_llunitdata_ind.
  destruct (gprs_sndcp_entity_by_lle l r _) as [[k sne]|] eqn:Hf; [|done].
  apply entity_by_lle_spec in Hf as (_ & Hr & _). cbn [sne_lle upd upd_ra_id]. rewrite Hr.
  by rewrite Ht.
Qed.

Lemma rx_all_ext (s1 s2 : llc_state) (l : list entity) bcid r pdus :
  svc_tlli s1 r = svc_tlli s2 r -> rx_all s1 l bcid r pdus = rx_all s2 l bcid r pdus.
Proof.
  intros Ht. revert l. induction pdus as [|[hdr len] pdus IH]; intros l; [done|].
  cbn [rx_all]. rewrite (llunitdata_ind_ext s1 s2) by done.
  destruct (sndcp_llunitdata_ind s2 l bcid r hdr len) as [[[rc l'] out]|]; [|done].
  cbn [mbind option_bind]. by rewrite IH.
Qed.

Lemma svc_tlli_set st id b n r l r' :
  svc_tlli (set_lle (alter_llme st id (fun m => m <| bvci := b |> <| nsei := n |>)) r l) r' = svc_tlli st r'.
Proof.
  cbn [svc_tlli llc_service]. unfold set_lle. rewrite !lookup_alter_llme.
  repeat case_decide; by destruct (llmes st !! r'.1).
Qed.

Definition ui_trail (p : list Z) (trail : list Z) : list Z * Z := (p ++ trail, Z.of_nat (length p)).

(** A list of SN-PDUs handed to LLC on one side is a list of indications on the other, each
    SN-PDU followed by the three octets of the FCS. *)
Lemma rcv_frames_tx_all s t1 t2 st1 st2 (l : list entity) bcid r1 r2 l1 l2 msg ctx pdus :
  is_sndcp_sapi s = true -> clear_lle st1 t1 s r1 l1 -> clear_lle st2 t2 s r2 l2 ->
  msgb_tlli msg = t1 -> sapi l1 = s -> 0 <= vu_send l1 < 512 -> vu_recv l2 = vu_send l1 ->
  n201_u (params l1) < 65530 -> Forall (fun p => Z.of_nat (length p) <= n201_u (params l1)) pdus ->
  exists trails, length trails = length pdus /\ Forall (fun tr => length tr = 3%nat) trails /\
    rcv_frames st2 l bcid t2 (tx_all st1 r1 msg ctx pdus).2 =
    (fun '(_, l, out) => (l, out)) <$> rx_all st2 l bcid r2 (zip_with ui_trail pdus trails).
Proof.
  intros Hs H1 H2 Hm Hsa Hv Heq Hn Hps. revert st1 st2 l l1 l2 H1 H2 Hsa Hv Heq Hn Hps.
  induction pdus as [|p pdus IH]; intros st1 st2 l l1 l2 H1 H2 Hsa Hv Heq Hn Hps; [by exists []|].
  apply Forall_cons in Hps as [Hp Hps]. pose proof (sndcp_sapi_usable s Hs) as Hus.
  cbn [tx_all svc_lle svc_tx_ui llc_service].
  rewrite (cl_lle _ _ _ _ _ H1), Hsa. rewrite <- Hm in H1.
  rewrite (tx_ui_clear st1 (with_pdu msg p) s false ctx r1 l1 H1) by done.
  set (st1' := set_lle _ r1 (ui_advance l1)).
  assert (clear_lle st1' t1 s r1 (ui_advance l1)) as H1'
    by (rewrite <- Hm; by apply clear_lle_update with (l := l1)).
  destruct (tx_all st1' r1 msg ctx pdus) as [st1'' out] eqn:Htx. cbn [snd app rcv_frames].
  cbn [msgb_data upd upd_msgb_data with_pdu].
  rewrite (rcvmsg_ui_frame st2 t2 0 0 s false (vu_send l1) p r2 l2) by (done || lia).
  rewrite Heq, Z.ltb_irrefl.
  set (st2' := set_lle _ r2 (ui_accept l2 (vu_send l1))).
  assert (clear_lle st2' t2 s r2 (ui_accept l2 (vu_send l1))) as H2'
    by (by apply clear_lle_update with (l := l2)).
  assert (svc_tlli st2' r2 = svc_tlli st2 r2) as Htl by apply svc_tlli_set.
  unfold llc_deliver, data_octets. cbn [data h_sapi data_len ui_parsed].
  assert ((s =? GPRS_SAPI_GMM) = false) as ->.
  { apply Z.eqb_neq. intros ->. done. }
  rewrite Hs. change (Z.to_nat 3) with 3%nat.
  set (tr := drop (length p) (drop 3 (ui_frame s false (vu_send l1) p))).
  assert (drop 3 (ui_frame s false (vu_send l1) p) = p ++ tr) as ->.
  { rewrite <- (take_drop (length p) (drop 3 _)). fold tr. f_equal. apply drop_3_ui_frame. }
  assert (forall l', exists trails, length trails = length pdus /\
     Forall (fun tr => length tr = 3%nat) trails /\
     rcv_frames st2' l' bcid t2 out =
     (fun '(_, l, out) => (l, out)) <$> rx_all st2' l' bcid r2 (zip_with ui_trail pdus trails)) as Hall.
  { intros l'. replace out with (tx_all st1' r1 msg ctx pdus).2 by (by rewrite Htx).
    eapply IH; try done.
    - unfold ui_advance. by case_match.
    - rewrite ui_advance_vu_send. apply Z.mod_pos_bound. lia.
    - by rewrite ui_advance_vu_send, ui_accept_vu_recv.
    - by rewrite ui_advance_params.
    - by rewrite ui_advance_params. }
  assert (length tr = 3%nat) as Htr.
  { unfold tr. rewrite !length_drop, length_ui_frame. lia. }
  rewrite (llunitdata_ind_ext st2' st2) by done.
  destruct (sndcp_llunitdata_ind st2 l bcid r2 (p ++ tr) (Z.of_nat (length p))) as [[[rc l'] o]|] eqn:Hi.
  - destruct (Hall l') as (trails & Hl & H3 & Hr). exists (tr :: trails).
    split; [cbn; by rewrite Hl|]. split; [by constructor|].
    cbn [zip_with rx_all ui_trail]. rewrite Hi. cbn [mbind option_bind]. rewrite Hr.
    rewrite (rx_all_ext st2' st2) by done.
    by destruct (rx_all st2 l' bcid r2 _) as [[[rcs l''] o']|].
  - destruct (Hall l) as (trails & Hl & H3 & Hr). exists (tr :: trails).
    split; [cbn; by rewrite Hl|]. split; [by constructor|].
    cbn [zip_with rx_all ui_trail]. by rewrite Hi.
Qed.

Lemma zip_frag_rx ps ns nr trails :
  length trails = length ps ->
  zip_with ui_trail
    (imap (fun i p => sn_pdu (bool_decide (i = 0%nat)) (negb (bool_decide (i = pred (length ps)))) ns nr
                        (Z.of_nat i) p) ps) trails =
  frag_rx ps ns nr (fun i => default [] (trails !! i)) <$> seq 0 (length ps).
Proof.
  intros Hlen. apply list_eq. intros i. rewrite lookup_zip_with, list_lookup_imap, list_lookup_fmap.
  destruct (decide (i < length ps)%nat) as [Hi|Hi].
  - rewrite lookup_seq_lt by done. cbn. unfold frag_rx, frag_pdu, seg_data, last_seg.
    assert (is_Some (trails !! i)) as [tr ->] by (apply lookup_lt_is_Some; lia).
    assert (is_Some (ps !! i)) as [p ->] by (by apply lookup_lt_is_Some). done.
  - by rewrite lookup_seq_ge, (lookup_ge_None_2 ps) by lia.
Qed.

(** The sender's LLC entity and the peer's are in step: the same SAPI, unciphered, and the peer
    expects the next frame the sender sends. *)
Record in_step (st1 st2 : llc_state) (t1 t2 : Z) (r1 r2 : lle_ref) : Prop := {
  is_ready : llc_ready st1 t1 r1;
  is_sapi : is_sndcp_sapi (sapi (get_lle st1 r1)) = true;
  is_peer : clear_lle st2 t2 (sapi (get_lle st1 r1)) r2 (get_lle st2 r2);
  is_seq : vu_recv (get_lle st2 r2) = vu_send (get_lle st1 r1);
  is_n201 : 4 <= n201_u (params (get_lle st1 r1)) < 65530
}.

Lemma request_to_indications st1 st2 t2 r1 r2 (e1 e2 : list entity) msg ns ctx bcid k1 sne1 :
  sndcp_env_ok env -> in_step st1 st2 (msgb_tlli msg) t2 r1 r2 ->
  gprs_sndcp_entity_by_lle e1 r1 ns = Some (k1, sne1) -> 0 <= ns < 16 ->
  Z.of_nat (length (msgb_data msg)) < 2 ^ 31 ->
  let pdus := npdu_pdus (n201_u (params (get_lle st1 r1))) ns (tx_npdu_nr sne1) (msgb_data msg) in
  exists rc st1' frames trails,
    0 <= rc /\ sndcp_unitdata_req (frag_fuel (length (msgb_data msg))) st1 e1 msg r1 ns ctx =
                 Some (rc, st1', <[k1 := npdu_sent sne1]> e1, frames) /\
    length trails = length pdus /\ Forall (fun tr => length tr = 3%nat) trails /\
    rcv_frames st2 e2 bcid t2 frames =
      (fun '(_, l, out) => (l, out)) <$> rx_all st2 e2 bcid r2 (zip_with ui_trail pdus trails).
Proof.
  intros Henv [Hready Hs H2 Hseq Hn] Hf Hns Hlen pdus.
  pose proof (unitdata_req_spec st1 (msgb_tlli msg) e1 msg r1 ns ctx k1 sne1 Henv Hready eq_refl Hf Hns
                ltac:(cbn; lia) Hlen) as Hreq.
  cbn [svc_lle llc_service] in Hreq. fold pdus in Hreq.
  destruct Hready as (Hwf & _ & H1). pose proof (wf_get_lle st1 r1 Hwf (cl_valid _ _ _ _ _ H1)) as Hl1.
  destruct (rcv_frames_tx_all (sapi (get_lle st1 r1)) (msgb_tlli msg) t2 st1 st2 e2 bcid r1 r2
    (get_lle st1 r1) (get_lle st2 r2) msg ctx pdus) as (trails & Hl & H3 & Hr); try done; try lia.
  { apply Hl1. }
  { apply frag_pdus_fit. lia. }
  destruct (tx_all st1 r1 msg ctx pdus) as [st1' frames]. destruct Hreq as (rc & Hrc & Hreq).
  by exists rc, st1', frames, trails.
Qed.

(** C1: an N-PDU that needs two to fifteen fragments, sent by SNDCP over an unciphered LLC
    entity, arrives at SNDCP of a peer that is in step: the SGSN core there is given exactly one
    N-PDU, with the octets that were sent. *)
Theorem npdu_end_to_end st1 st2 t2 r1 r2 (e1 e2 : list entity) msg ns ctx bcid k1 k2 sne1 sne2 :
  sndcp_env_ok env -> in_step st1 st2 (msgb_tlli msg) t2 r1 r2 ->
  gprs_sndcp_entity_by_lle e1 r1 ns = Some (k1, sne1) ->
  gprs_sndcp_entity_by_lle e2 r2 ns = Some (k2, sne2) ->
  0 <= ns < 16 -> 0 <= tx_npdu_nr sne1 < 4096 ->
  let n := n201_u (params (get_lle st1 r1)) in
  (frag_room n true < length (msgb_data msg) <= frags_capacity n 15)%nat ->
  exists rc st1' e1' frames e2',
    0 <= rc /\
    sndcp_unitdata_req (frag_fuel (length (msgb_data msg))) st1 e1 msg r1 ns ctx =
      Some (rc, st1', e1', frames) /\
    rcv_frames st2 e2 bcid t2 frames =
      Some (e2', [mk_ud_ind (gsm48_parse_ra bcid) (svc_tlli st2 r2) ns
                    (Z.of_nat (length (msgb_data msg))) (msgb_data msg)]).
Proof.
  intros Henv Hstep Hf1 Hf2 Hns Hnr n Hlen. pose proof (is_n201 _ _ _ _ _ _ Hstep) as Hn. fold n in Hn.
  set (fuel := frag_fuel (length (msgb_data msg))).
  set (ps := chunks fuel n true (msgb_data msg)).
  assert (2 * length (msgb_data msg) + 1 < fuel)%nat as Hfuel by (unfold fuel, frag_fuel; lia).
  assert (concat ps = msgb_data msg) as Hcat by (apply chunks_concat; lia).
  assert (Forall (fun p => Z.of_nat (length p) < 65536) ps) as Hsmall.
  { eapply Forall_impl; [apply (chunks_small fuel n true); lia|]. cbn. lia. }
  assert (2 <= length ps)%nat as Hps2 by (apply chunks_length_2; lia).
  assert (length ps <= 15)%nat as Hps15.
  { apply (chunks_length fuel n true _ 14); [lia|]. unfold frags_capacity in Hlen. lia. }
  destruct (request_to_indications st1 st2 t2 r1 r2 e1 e2 msg ns ctx bcid k1 sne1 Henv Hstep Hf1 Hns)
    as (rc & st1' & frames & trails & Hrc & Hreq & Hl & _ & Hrcv).
  { unfold frags_capacity, frag_room, hdr_len in Hlen. lia. }
  fold n in Hl, Hrcv. unfold npdu_pdus in *. fold fuel in Hl, Hrcv, Hreq.
  pose proof (frag_pdus_chunks fuel n ns (tx_npdu_nr sne1) 0 (msgb_data msg)) as Hpd.
  change (Z.of_nat 0) with 0 in Hpd. cbn [Nat.add] in Hpd. rewrite (bool_decide_eq_true_2 (0 = 0)%nat) in Hpd by done. fold ps in Hpd.
  rewrite Hpd in Hl, Hrcv by lia. rewrite length_imap in Hl.
  rewrite zip_frag_rx in Hrcv by done.
  assert (seq 0 (length ps) = 0%nat :: seq 1 (length ps - 1)) as Hseq
    by (destruct (length ps); [lia|]; cbn; by rewrite Nat.sub_0_r).
  rewrite Hseq in Hrcv.
  edestruct (reassembly ps) as (sne' & _ & Hrx); [lia|done|done|exact Hf2|done|done|done|].
  rewrite Hrx in Hrcv. cbn [fmap option_fmap option_map] in Hrcv. unfold npdu_ind in Hrcv.
  rewrite Hcat in Hrcv. apply entity_by_lle_spec in Hf2 as (_ & _ & Hns2). rewrite Hns2 in Hrcv.
  by exists rc, st1', (<[k1 := npdu_sent sne1]> e1), frames, (<[k2 := sne']> e2).
Qed.

(** An N-PDU that is sent in one piece arrives three octets too long: the N-PDU that reaches
    the SGSN core of the peer extends to the end of the message and ends in the FCS of LLC. *)
Theorem unfragmented_npdu_keeps_fcs st1 st2 t2 r1 r2 (e1 e2 : list entity) msg ns ctx bcid k1 k2 sne1 sne2 :
  sndcp_env_ok env -> in_step st1 st2 (msgb_tlli msg) t2 r1 r2 ->
  gprs_sndcp_entity_by_lle e1 r1 ns = Some (k1, sne1) ->
  gprs_sndcp_entity_by_lle e2 r2 ns = Some (k2, sne2) ->
  0 <= ns < 16 -> 0 <= tx_npdu_nr sne1 < 4096 ->
  (length (msgb_data msg) <= frag_room (n201_u (params (get_lle st1 r1))) true)%nat ->
  exists rc st1' e1' frames e2' trail,
    0 <= rc /\ length trail = 3%nat /\
    sndcp_unitdata_req (frag_fuel (length (msgb_data msg))) st1 e1 msg r1 ns ctx =
      Some (rc, st1', e1', frames) /\
    rcv_frames st2 e2 bcid t2 frames =
      Some (e2', [mk_ud_ind (gsm48_parse_ra bcid) (svc_tlli st2 r2) ns
                    (Z.of_nat (length (msgb_data msg) + 3)) (msgb_data msg ++ trail)]).
Proof.
  intros Henv Hstep Hf1 Hf2 Hns Hnr Hlen. pose proof (is_n201 _ _ _ _ _ _ Hstep) as Hn.
  set (n := n201_u _) in *.
  destruct (request_to_indications st1 st2 t2 r1 r2 e1 e2 msg ns ctx bcid k1 sne1 Henv Hstep Hf1 Hns)
    as (rc & st1' & frames & trails & Hrc & Hreq & Hl & H3 & Hrcv).
  { unfold frag_room, hdr_len in Hlen. lia. }
  fold n in Hl, Hrcv.
  assert (npdu_pdus n ns (tx_npdu_nr sne1) (msgb_data msg) =
          [sn_pdu true false ns (tx_npdu_nr sne1) 0 (msgb_data msg)]) as Hpd.
  { unfold npdu_pdus, frag_fuel. rewrite Nat.add_comm. cbn [frag_pdus Nat.add].
    change (0 =? 0) with true. by rewrite (proj2 (Nat.leb_le _ _) Hlen). }
  rewrite Hpd in Hl, Hrcv. destruct trails as [|tr [|]]; try done.
  apply Forall_cons in H3 as [H3 _]. cbn [zip_with ui_trail rx_all] in Hrcv.
  destruct (sn_pdu_fields true false ns (tx_npdu_nr sne1) 0 (msgb_data msg) tr Hns Hnr ltac:(lia))
    as (Hsch & H1 & _ & Hdata).
  set (pdu := sn_pdu _ _ _ _ _ _) in *.
  assert (length (pdu ++ tr) = length (msgb_data msg) + 7)%nat as Hpl
    by (rewrite length_app, H3; unfold pdu; rewrite length_sn_pdu; cbn; lia).
  unfold sndcp_llunitdata_ind in Hrcv. rewrite Hsch in Hrcv. cbn [sch_type sch_nsapi first more] in Hrcv.
  rewrite Hf2, H1, Hdata, Hpl in Hrcv by done.
  rewrite (proj2 (Z.ltb_ge _ _)) in Hrcv
    by (unfold pdu, sizeof_sch, sizeof_suh; rewrite length_sn_pdu; cbn; lia).
  cbn [negb orb suh_off first] in Hrcv. change (scomph_of_octet 0) with (mk_sndcp_comp_hdr 0 0) in Hrcv.
  cbn [pcomp dcomp Z.eqb negb orb andb Nat.add] in Hrcv.
  replace (Z.of_nat (length (msgb_data msg) + 7) - Z.of_nat 4)
    with (Z.of_nat (length (msgb_data msg) + 3)) in Hrcv by lia.
  rewrite (proj2 (Z.leb_gt _ _)) in Hrcv by lia. cbn in Hrcv.
  apply entity_by_lle_spec in Hf2 as (_ & _ & Hns2). rewrite Hns2 in Hrcv.
  by eexists rc, st1', _, frames, _, tr.
Qed.

End EndToEnd.

End SndcpReasm.
