(* ===== verification/SndcpInv.v ===== *)
(** The invariant of SNDCP over its entry points, and what becomes of a first fragment that is too
    short. *)

From S2P Require Import Prelude Crc24 Llc LlcProps Sndcp SndcpProps SndcpReasm.
Import Llc LlcProps Sndcp SndcpProps SndcpReasm.

Module SndcpInv.

Section Invariant.
Context {env : SndcpEnv} {S : Type} {svc : LlcService S}.
Abbreviation entity := (gprs_sndcp_entity ra_id_t).

Definition entity_key (sne : entity) : lle_ref * Z := (sne_lle sne, nsapi sne).

(** The N-PDU number skips 4095; segment numbers have four bits. *)
Record wf_entity (sne : entity) : Prop := {
  we_npdu : 0 <= tx_npdu_nr sne < 4095;
  we_highest : 0 <= highest_seg (defrag sne) < 16;
  we_have : in_width 16 (seg_have (defrag sne));
  we_len : in_width 32 (tot_len (defrag sne));
  we_segs : Forall (fun e => 0 <= dqe_seg_nr e < 16) (frag_list (defrag sne))
}.

(** No two entities serve the same LLE and NSAPI. *)
Record wf_entities (l : list entity) : Prop := {
  wes_keys : NoDup (entity_key <$> l);
  wes_each : Forall wf_entity l
}.

Lemma wf_entities_insert l i sne sne' :
  wf_entities l -> l !! i = Some sne -> entity_key sne' = entity_key sne -> wf_entity sne' ->
  wf_entities (<[i := sne']> l).
Proof.
  intros [Hk He] Hi Heq Hw. split.
  - rewrite list_fmap_insert, Heq, list_insert_id; [done|]. by rewrite list_lookup_fmap, Hi.
  - by apply Forall_insert.
Qed.

Lemma get_seg_Forall P l nr x l' :
  defrag_get_seg l nr = Some (x, l') -> Forall P l -> Forall P l'.
Proof.
  revert l'. induction l as [|e l IH]; intros l' Hg Hl; [done|]. cbn in Hg.
  apply Forall_cons in Hl as [He Hl]. case_match; [by injection Hg as _ <-|].
  destruct (defrag_get_seg l nr) as [[y l'']|] eqn:E; [|done]. injection Hg as -> <-.
  constructor; [done|]. by apply IH.
Qed.

Lemma collect_Forall P l nrs acc : Forall P l -> Forall P (collect_segments l nrs acc).1.
Proof.
  revert l acc. induction nrs as [|nr nrs IH]; intros l acc Hl; [done|]. cbn.
  destruct (defrag_get_seg l (Z.of_nat nr)) as [[x l']|] eqn:E; [|done].
  apply IH. by eapply get_seg_Forall.
Qed.

Lemma wf_defrag_segments (sne : entity) t :
  wf_entity sne ->
  wf_entity (defrag_segments sne t).1.2 /\ entity_key (defrag_segments sne t).1.2 = entity_key sne.
Proof.
  intros [H1 H2 H3 H4 H5]. unfold defrag_segments. case_match; [done|].
  pose proof (collect_Forall _ _ (seq 0 (Z.to_nat (highest_seg (defrag sne)) + 1)) [] H5) as H6.
  destruct (collect_segments _ _ _) as [l' [npdu|]]; cbn [fst] in H6; (split; [split; done|done]).
Qed.

Lemma seg_nr_range a b : 0 <= seg_nr (suh_of_octets a b) < 16.
Proof. cbn. apply (in_width_land_ones 4). lia. Qed.

Lemma wf_defrag_input (sne : entity) t hdr len rc sne' out :
  wf_entity sne -> defrag_input sne t hdr len = Some (rc, sne', out) ->
  wf_entity sne' /\ entity_key sne' = entity_key sne.
Proof.
  intros Hw. unfold defrag_input. cbv zeta.
  set (d0 := if first _ then _ else defrag sne). set (nr := seg_nr _).
  assert (0 <= nr < 16) as Hnr by apply seg_nr_range.
  assert (wf_entity (sne <| defrag := d0 |>)) as Hw0.
  { destruct Hw. unfold d0. case_match; split; cbn; try done; unfold in_width; lia. }
  unfold defrag_enqueue.
  destruct (negb (talloc_ok SIZEOF_DQE)); [by intros [= <- <- <-]|].
  destruct (negb (talloc_ok _)); [by intros [= <- <- <-]|].
  destruct (Z.of_nat _ <? _); [by cbn|]. cbn [mbind option_bind]. change (0 <? 0) with false. cbv iota.
  set (d1 := upd tot_len _ _). set (d2 := if more _ then d1 else _).
  assert (wf_entity (sne <| defrag := d2 |>)) as Hw2.
  { assert (in_width 16 (1 .<< nr)) as Hb.
    { rewrite Z.shiftl_mul_pow2 by lia. unfold in_width. split; [lia|].
      rewrite Z.mul_1_l. apply Z.pow_lt_mono_r; lia. }
    destruct Hw0 as [G1 G2 G3 G4 G5]. cbn [defrag upd upd_defrag tx_npdu_nr] in *.
    unfold d2, d1. destruct (more _); destruct (highest_seg _ <? nr); split; cbn; try done;
      try (by apply in_width_lor); try (apply wrap_in_width; lia); by constructor. }
  destruct (no_more d2 && _).
  - intros [= Hd]. apply wf_defrag_segments with (t := t) in Hw2. by rewrite Hd in Hw2.
  - by intros [= <- <- <-].
Qed.

Lemma wf_npdu_sent (sne : entity) : wf_entity sne -> wf_entity (npdu_sent sne).
Proof. intros []. split; try done. cbn. apply Z.mod_pos_bound. lia. Qed.

Lemma wf_frag_loop fuel s (sne : entity) msg ctx fs rc s' sne' out :
  wf_entity sne -> frag_loop fuel s sne msg ctx fs = Some (rc, s', sne', out) ->
  wf_entity sne' /\ entity_key sne' = entity_key sne.
Proof.
  revert s sne fs out. induction fuel as [|fuel IH]; intros s sne fs out Hw; [done|].
  cbn [frag_loop]. destruct (sndcp_send_ud_frag s sne msg ctx fs) as [[[[rc1 s1] sne1] fs1] out1] eqn:E.
  assert (wf_entity sne1 /\ entity_key sne1 = entity_key sne) as [Hw1 Hk1].
  { unfold sndcp_send_ud_frag in E. cbv zeta in E. case_match; [by injection E as _ _ <- _ _|].
    destruct (svc_tx_ui _ _ _ _ _) as [[rc2 s2] out2].
    destruct (rc2 <? 0); [by injection E as _ _ <- _ _|].
    match type of E with (if ?b then _ else _) = _ => destruct b end; [by injection E as _ _ <- _ _|].
    injection E as _ _ <- _ _. split; [by apply wf_npdu_sent|done]. }
  case_match; [by intros [= _ _ <- _]|]. case_match; [by intros [= _ _ <- _]|].
  destruct (frag_loop fuel s1 sne1 msg ctx fs1) as [[[[rc2 s2] sne2] out2]|] eqn:E2; [|done].
  cbn. intros [= -> -> -> _]. rewrite <- Hk1. by eapply IH.
Qed.

(** One entry point of the layer returns; what it hands to the neighbours is left out. *)
Inductive sndcp_step : list entity -> list entity -> Prop :=
| step_activate l r ns : sndcp_step l (sndcp_sm_activate_ind l r ns).2
| step_deactivate l r ns : sndcp_step l (sndcp_sm_deactivate_ind l r ns).2
| step_unitdata_req fuel s l msg r ns ctx rc s' l' out :
    sndcp_unitdata_req fuel s l msg r ns ctx = Some (rc, s', l', out) -> sndcp_step l l'
| step_llunitdata_ind (s : S) l bcid r hdr len rc l' out :
    sndcp_llunitdata_ind s l bcid r hdr len = Some (rc, l', out) -> sndcp_step l l'.

Inductive sndcp_reachable : list entity -> Prop :=
| sndcp_init : sndcp_reachable []
| sndcp_reach l l' : sndcp_reachable l -> sndcp_step l l' -> sndcp_reachable l'.

Lemma wf_activate l r ns : wf_entities l -> wf_entities (sndcp_sm_activate_ind l r ns).2.
Proof.
  intros Hw. unfold sndcp_sm_activate_ind.
  destruct (gprs_sndcp_entity_by_lle l r ns) eqn:Hf; [done|].
  unfold gprs_sndcp_entity_alloc. destruct (negb entity_alloc_ok); [done|]. destruct Hw as [Hk He]. split; cbn.
  - constructor; [|done]. intros (sne & Heq & Hin)%list_elem_of_fmap.
    unfold gprs_sndcp_entity_by_lle in Hf. apply list_find_None in Hf.
    rewrite Forall_forall in Hf. apply (Hf sne Hin). unfold entity_is, entity_key in *.
    cbn in Heq. injection Heq as -> ->. apply Is_true_true.
    by rewrite Z.eqb_refl, bool_decide_eq_true_2.
  - constructor; [|done]. split; cbn; try done; unfold in_width; lia.
Qed.

Lemma wf_sndcp_step l l' : sndcp_step l l' -> wf_entities l -> wf_entities l'.
Proof.
  destruct 1 as [l r ns|l r ns|fuel s l msg r ns ctx rc s' l' out Hreq|s l bcid r hdr len rc l' out Hind];
    intros Hw.
  - by apply wf_activate.
  - unfold sndcp_sm_deactivate_ind. destruct (gprs_sndcp_entity_by_lle l r ns) as [[i sne]|]; [|done].
    destruct Hw as [Hk He]. split; cbn.
    + rewrite list_fmap_delete. eapply sublist_NoDup; [done|apply sublist_delete].
    + by apply Forall_delete.
  - unfold sndcp_unitdata_req in Hreq.
    destruct (gprs_sndcp_entity_by_lle l r ns) as [[i sne]|] eqn:Hf; [|by injection Hreq as _ _ <- _].
    apply entity_by_lle_spec in Hf as (Hi & _).
    assert (wf_entity sne) as Hsne by (destruct Hw as [_ He]; by eapply Forall_lookup_1).
    destruct (needs_fragments _ _).
    + destruct (frag_loop _ _ _ _ _ _) as [[[[rc1 s1] sne1] out1]|] eqn:E; [|done].
      injection Hreq as _ _ <- _. apply wf_frag_loop in E as [? ?]; [|done].
      by eapply wf_entities_insert.
    + cbv zeta in Hreq. destruct (svc_tx_ui _ _ _ _ _) as [[? ?] ?]. injection Hreq as _ _ <- _.
      eapply wf_entities_insert; [done|done| |by apply wf_npdu_sent]. done.
  - unfold sndcp_llunitdata_ind in Hind. cbv zeta in Hind.
    case_match; [by injection Hind as _ <- _|]. case_match; [by injection Hind as _ <- _|].
    destruct (gprs_sndcp_entity_by_lle l r _) as [[i sne]|] eqn:Hf; [|by injection Hind as _ <- _].
    apply entity_by_lle_spec in Hf as (Hi & _).
    assert (wf_entity sne) as Hsne by (destruct Hw as [_ He]; by eapply Forall_lookup_1).
    assert (wf_entity (sne <| ra_id := gsm48_parse_ra bcid |>)) as Hsne'
      by (destruct Hsne; by split).
    assert (wf_entities (<[i := sne <| ra_id := gsm48_parse_ra bcid |>]> l)) as Hw'
      by (by eapply wf_entities_insert).
    destruct (negb _ || _).
    + destruct (defrag_input _ _ _ _) as [[[rc1 sne1] out1]|] eqn:E; [|done].
      injection Hind as _ <- _. apply wf_defrag_input in E as [? ?]; [|done].
      rewrite list_insert_insert_eq. by eapply wf_entities_insert.
    + repeat (case_match; [by injection Hind as _ <- _|]). by injection Hind as _ <- _.
Qed.

(** in every state SNDCP reaches no two entities serve the same LLE and NSAPI, N-PDU numbers
    stay below 4095 and the reassembly counters in the width of their fields. *)
Theorem sndcp_reachable_wf l : sndcp_reachable l -> wf_entities l.
Proof.
  induction 1; [|by eapply wf_sndcp_step]. split; [apply NoDup_nil_2|constructor].
Qed.

(** A first fragment of three octets passes the length check, but its header has four: the
    length of its payload wraps to 4294967295, and unless that allocation fails the copy runs
    over the end of the message. *)
Theorem short_first_fragment (s : S) (l : list entity) bcid r hdr i sne :
  let sch := sch_of_octet (rd hdr 0) in
  sch_type sch = true -> first sch = true -> more sch = true ->
  gprs_sndcp_entity_by_lle l r (sch_nsapi sch) = Some (i, sne) ->
  talloc_ok SIZEOF_DQE = true -> Z.of_nat (length hdr) < 4294967295 ->
  sndcp_llunitdata_ind s l bcid r hdr 3 = None \/
  talloc_ok 4294967295 = false /\
    exists l', sndcp_llunitdata_ind s l bcid r hdr 3 = Some (- ENOMEM, l', []).
Proof.
  intros sch Ht Hf Hm He Hal Hlen. unfold sndcp_llunitdata_ind. fold sch. rewrite Ht, He, Hf, Hm.
  cbn [negb orb]. change (3 <? sizeof_sch + sizeof_suh) with false. cbv iota zeta.
  unfold defrag_input. fold sch. unfold suh_off. rewrite Hf. cbv zeta.
  change (u32 (3 - Z.of_nat (2 + 2))) with 4294967295. unfold defrag_enqueue. rewrite Hal. cbn [negb].
  destruct (talloc_ok 4294967295) eqn:E; cbn [negb].
  - left. rewrite length_drop. by rewrite (proj2 (Z.ltb_lt _ _)) by lia.
  - right. split; [done|]. by eexists.
Qed.

End Invariant.

End SndcpInv.
