(* ===== verification/SndcpRuns.v ===== *)
(** Concrete runs of SNDCP over LLC: one mobile, one entity on SAPI 3 and NSAPI 5, nothing
    ciphered, memory enough. *)

From S2P Require Import Prelude Crc24 Llc LlcProps Sndcp SndcpProps SndcpReasm SndcpInv.
Import Llc LlcProps Sndcp SndcpProps SndcpReasm SndcpInv.

Module SndcpRuns.

Definition sndcp_test_env : SndcpEnv := {|
  ra_id_t := list Z;
  ra_id_zero := [];
  gsm48_parse_ra := take 6;
  msgb_fresh := 0;
  talloc_ok _ := true;
  entity_alloc_ok := true;
  msgb_alloc_ok _ := true;
  sgsn_rx_sndcp_ud_ind _ := 0
|}.
#[local] Existing Instance sndcp_test_env.
#[local] Existing Instance test_env.

Lemma test_env_ok : sndcp_env_ok sndcp_test_env.
Proof. by split. Qed.

Definition ref3 : lle_ref := (0%nat, 3%nat).
Definition test_entities : list (gprs_sndcp_entity ra_id_t) := (sndcp_sm_activate_ind [] ref3 5).2.
Definition test_entity : gprs_sndcp_entity ra_id_t :=
  mk_gprs_sndcp_entity ra_id_zero ref3 5 0 SNDCP_RX_S_FIRST defrag_zero.
Definition test_bcid : list Z := [0; 1; 2; 3; 4; 5; 6; 7].

Lemma st_clear_ready : llc_ready st_clear test_tlli ref3.
Proof.
  split; [apply st_clear_wf|]. split; [done|]. exact (st_clear_ok 3 ltac:(lia)).
Qed.

Lemma st_clear_in_step : in_step st_clear st_clear test_tlli test_tlli ref3 ref3.
Proof.
  split; [apply st_clear_ready|done|exact (st_clear_ok 3 ltac:(lia))|done|vm_bounds].
Qed.

(** N201-U of SAPI 3 is 500 octets: 600 need two fragments. *)
Definition long_msg : msgb := mk_msgb test_tlli 7 8 (replicate 600 0x2b).
Definition short_msg : msgb := mk_msgb test_tlli 7 8 [1; 2; 3].

Lemma sndcp_unitdata_req_total_witness :
  exists res, sndcp_unitdata_req 1202 st_clear test_entities long_msg ref3 5 0 = Some res.
Proof.
  apply (sndcp_unitdata_req_total st_clear test_entities long_msg ref3 5 0).
  - exact test_env_ok.
  - exact (svc_ready_live _ _ _ st_clear_ready).
  - vm_bounds.
  - vm_bounds.
  - lia.
Defined.

Lemma sndcp_unitdata_req_spec_witness :
  exists rc s' out,
    0 <= rc /\ sndcp_unitdata_req 1202 st_clear test_entities long_msg ref3 5 0 =
      Some (rc, s', [npdu_sent test_entity], out).
Proof.
  destruct (sndcp_unitdata_req_spec st_clear test_tlli test_entities long_msg ref3 5 0 0 test_entity)
    as (rc & s' & out & Hrc & _ & Hreq & _).
  - exact test_env_ok.
  - exact st_clear_ready.
  - reflexivity.
  - reflexivity.
  - lia.
  - vm_bounds.
  - vm_bounds.
  - exists rc, s', out. split; [exact Hrc|exact Hreq].
Defined.

Definition test_ps : list (list Z) := [[1; 2]; [3]; [4; 5]].

Lemma reassembly_any_order_witness :
  exists sne' : gprs_sndcp_entity ra_id_t,
    frag_list (defrag sne') = [] /\
    rx_all st_clear test_entities test_bcid ref3 (frag_rx test_ps 5 77 (fun _ => [9; 9; 9]) <$> [0; 2; 1]%nat)
    = Some ([0; 0; 0], [sne'],
        [mk_ud_ind (take 6 test_bcid) test_tlli 5 5 [1; 2; 3; 4; 5]]).
Proof.
  assert ([2; 1]%nat ≡ₚ seq 1 (length test_ps - 1)) as Hp by apply Permutation_swap.
  assert (2 <= length test_ps <= 16)%nat as Hn by (cbn; lia).
  assert (Forall (fun p => Z.of_nat (length p) < 65536) test_ps) as Hps by (repeat constructor; cbn; lia).
  destruct (reassembly_any_order test_ps Hn Hps st_clear test_entities test_bcid ref3 5 77 0 test_entity
              [2; 1]%nat (fun _ => [9; 9; 9]) test_env_ok) as (sne' & He & Hrx);
    [reflexivity|lia|lia|exact Hp|].
  exists sne'. split; [exact He|]. etransitivity; [exact Hrx|]. vm_compute. reflexivity.
Defined.

Lemma npdu_end_to_end_witness :
  exists rc st1' e1' frames e2',
    0 <= rc /\
    sndcp_unitdata_req 1202 st_clear test_entities long_msg ref3 5 0 = Some (rc, st1', e1', frames) /\
    rcv_frames st_clear test_entities test_bcid test_tlli frames =
      Some (e2', [mk_ud_ind (take 6 test_bcid) test_tlli 5 600 (replicate 600 0x2b)]).
Proof.
  apply (npdu_end_to_end st_clear st_clear test_tlli ref3 ref3 test_entities test_entities long_msg 5 0
           test_bcid 0 0 test_entity test_entity).
  - exact test_env_ok.
  - exact st_clear_in_step.
  - reflexivity.
  - reflexivity.
  - lia.
  - vm_bounds.
  - vm_bounds.
Defined.

Lemma unfragmented_npdu_keeps_fcs_witness :
  exists rc st1' e1' frames e2' trail,
    0 <= rc /\ length trail = 3%nat /\
    sndcp_unitdata_req 8 st_clear test_entities short_msg ref3 5 0 = Some (rc, st1', e1', frames) /\
    rcv_frames st_clear test_entities test_bcid test_tlli frames =
      Some (e2', [mk_ud_ind (take 6 test_bcid) test_tlli 5 6 ([1; 2; 3] ++ trail)]).
Proof.
  apply (unfragmented_npdu_keeps_fcs st_clear st_clear test_tlli ref3 ref3 test_entities test_entities
           short_msg 5 0 test_bcid 0 0 test_entity test_entity).
  - exact test_env_ok.
  - exact st_clear_in_step.
  - reflexivity.
  - reflexivity.
  - lia.
  - vm_bounds.
  - vm_bounds.
Defined.

Lemma sndcp_reachable_wf_witness :
  wf_entities (sndcp_sm_activate_ind test_entities ref3 6).2.
Proof.
  apply (sndcp_reachable_wf (S := llc_state)).
  eapply sndcp_reach; [|apply step_activate]. eapply sndcp_reach; [apply sndcp_init|apply step_activate].
Defined.

Lemma short_first_fragment_witness :
  sndcp_llunitdata_ind st_clear test_entities test_bcid ref3 [0x75; 0x00; 0x00; 9; 9; 9] 3 = None.
Proof.
  destruct (short_first_fragment st_clear test_entities test_bcid ref3 [0x75; 0x00; 0x00; 9; 9; 9]
              0 test_entity) as [Hn|[Hf _]].
  - reflexivity.
  - reflexivity.
  - reflexivity.
  - reflexivity.
  - reflexivity.
  - vm_bounds.
  - exact Hn.
  - discriminate.
Defined.

(** With sixteen fragments the first and the last carry the same segment number (it is taken
    modulo 15 where four bits would hold it): the N-PDU handed up announces the full length, but
    holds only the newer of the two, in the wrong place. *)
Theorem sixteen_fragments_corrupt :
  let ps := (fun i => [Z.of_nat i]) <$> seq 0 16 in
  let pdus := imap (fun i p => sn_pdu (bool_decide (i = 0%nat)) (negb (bool_decide (i = 15%nat))) 5 77
                                 (Z.of_nat i mod 15) p) ps in
  exists rcs e,
    rx_all st_clear test_entities test_bcid ref3 ((fun p => (p, Z.of_nat (length p))) <$> pdus) =
    Some (rcs, e, [mk_ud_ind (take 6 test_bcid) test_tlli 5 16
                     [15; 1; 2; 3; 4; 5; 6; 7; 8; 9; 10; 11; 12; 13; 14]]).
Proof. eexists _, _. vm_compute. reflexivity. Qed.

End SndcpRuns.
