(* ===== verification/Ns.v ===== *)
(** GPRS Network Service on the Gb interface: libgb/gprs_ns.c, libgb/gprs_ns_frgre.c and
    openbsc/gprs_ns.h.

    The NS-VCs live in the store [nsvcs]; [gprs_nsvcs] is the list of the instance in its order
    and [unknown_nsvc] the spare object that is in no list. Operations run in the monad [M]: they
    change the instance and emit events (datagrams, signals, unit data for BSSGP), and following
    a null pointer is undefined behaviour. The listeners of signals and the user of the instance
    are not called back into the instance. *)

From S2P Require Import Prelude.

Module Ns.

(** ** Protocol constants *)

Definition NS_PDUT_UNITDATA : Z := 0x00.
Definition NS_PDUT_RESET : Z := 0x02.
Definition NS_PDUT_RESET_ACK : Z := 0x03.
Definition NS_PDUT_BLOCK : Z := 0x04.
Definition NS_PDUT_BLOCK_ACK : Z := 0x05.
Definition NS_PDUT_UNBLOCK : Z := 0x06.
Definition NS_PDUT_UNBLOCK_ACK : Z := 0x07.
Definition NS_PDUT_STATUS : Z := 0x08.
Definition NS_PDUT_ALIVE : Z := 0x0a.
Definition NS_PDUT_ALIVE_ACK : Z := 0x0b.

Definition NS_IE_CAUSE : Z := 0x00.
Definition NS_IE_VCI : Z := 0x01.
Definition NS_IE_PDU : Z := 0x02.
Definition NS_IE_BVCI : Z := 0x03.
Definition NS_IE_NSEI : Z := 0x04.

Definition NS_CAUSE_TRANSIT_FAIL : Z := 0x00.
Definition NS_CAUSE_OM_INTERVENTION : Z := 0x01.
Definition NS_CAUSE_EQUIP_FAIL : Z := 0x02.
Definition NS_CAUSE_NSVC_BLOCKED : Z := 0x03.
Definition NS_CAUSE_NSVC_UNKNOWN : Z := 0x04.
Definition NS_CAUSE_BVCI_UNKNOWN : Z := 0x05.
Definition NS_CAUSE_SEM_INCORR_PDU : Z := 0x08.
Definition NS_CAUSE_PDU_INCOMP_PSTATE : Z := 0x0a.
Definition NS_CAUSE_PROTO_ERR_UNSPEC : Z := 0x0b.
Definition NS_CAUSE_INVAL_ESSENT_IE : Z := 0x0c.
Definition NS_CAUSE_MISSING_ESSENT_IE : Z := 0x0d.

Definition NSE_S_BLOCKED : Z := 0x0001.
Definition NSE_S_ALIVE : Z := 0x0002.

Inductive gprs_ns_ll : Type := GPRS_NS_LL_UDP | GPRS_NS_LL_E1 | GPRS_NS_LL_FR_GRE.

Inductive ns_timeout : Type :=
| NS_TOUT_TNS_BLOCK | NS_TOUT_TNS_BLOCK_RETRIES | NS_TOUT_TNS_RESET | NS_TOUT_TNS_RESET_RETRIES
| NS_TOUT_TNS_TEST | NS_TOUT_TNS_ALIVE | NS_TOUT_TNS_ALIVE_RETRIES.

Inductive nsvc_timer_mode : Type := NSVC_TIMER_TNS_TEST | NSVC_TIMER_TNS_ALIVE | NSVC_TIMER_TNS_RESET.
#[export] Instance nsvc_timer_mode_eq_dec : EqDecision nsvc_timer_mode.
Proof. solve_decision. Defined.

Inductive ns_ctr : Type :=
| NS_CTR_PKTS_IN | NS_CTR_PKTS_OUT | NS_CTR_BYTES_IN | NS_CTR_BYTES_OUT | NS_CTR_BLOCKED | NS_CTR_DEAD.

Inductive ns_signal : Type := S_NS_RESET | S_NS_BLOCK | S_NS_UNBLOCK | S_NS_ALIVE_EXP.

(** ** State *)

Record sockaddr_in : Type := mk_sockaddr_in {
  sin_addr : Z;  (* s_addr *)
  sin_port : Z  (* as stored, in network order *)
}.

#[export] Instance upd_sin_addr : Upd sin_addr := fun f r => mk_sockaddr_in (f (sin_addr r))
  (sin_port r).
#[export] Instance upd_sin_port : Upd sin_port := fun f r => mk_sockaddr_in (sin_addr r) (f
  (sin_port r)).

#[export] Instance sockaddr_in_eq_dec : EqDecision sockaddr_in.
Proof. solve_decision. Defined.

Record gprs_nsvc : Type := mk_gprs_nsvc {
  nsei : Z;  (* uint16_t *)
  nsvci : Z;  (* uint16_t *)
  state : Z;  (* uint32_t *)
  remote_state : Z;  (* uint32_t *)
  timer : option Z;  (* seconds, while the timer is pending *)
  timer_mode : nsvc_timer_mode;
  alive_retries : Z;  (* int *)
  remote_end_is_sgsn : bool;
  persistent : bool;
  ctrg : list Z;  (* one counter per ns_ctr *)
  ll : gprs_ns_ll;
  bts_addr : sockaddr_in  (* both members of the union *)
}.

#[export] Instance upd_nsei : Upd nsei := fun f r => mk_gprs_nsvc (f (nsei r)) (nsvci r) (state
  r) (remote_state r) (timer r) (timer_mode r) (alive_retries r) (remote_end_is_sgsn r)
  (persistent r) (ctrg r) (ll r) (bts_addr r).
#[export] Instance upd_nsvci : Upd nsvci := fun f r => mk_gprs_nsvc (nsei r) (f (nsvci r))
  (state r) (remote_state r) (timer r) (timer_mode r) (alive_retries r) (remote_end_is_sgsn r)
  (persistent r) (ctrg r) (ll r) (bts_addr r).
#[export] Instance upd_state : Upd state := fun f r => mk_gprs_nsvc (nsei r) (nsvci r) (f (state
  r)) (remote_state r) (timer r) (timer_mode r) (alive_retries r) (remote_end_is_sgsn r)
  (persistent r) (ctrg r) (ll r) (bts_addr r).
#[export] Instance upd_remote_state : Upd remote_state := fun f r => mk_gprs_nsvc (nsei r)
  (nsvci r) (state r) (f (remote_state r)) (timer r) (timer_mode r) (alive_retries r)
  (remote_end_is_sgsn r) (persistent r) (ctrg r) (ll r) (bts_addr r).
#[export] Instance upd_timer : Upd timer := fun f r => mk_gprs_nsvc (nsei r) (nsvci r) (state r)
  (remote_state r) (f (timer r)) (timer_mode r) (alive_retries r) (remote_end_is_sgsn r)
  (persistent r) (ctrg r) (ll r) (bts_addr r).
#[export] Instance upd_timer_mode : Upd timer_mode := fun f r => mk_gprs_nsvc (nsei r) (nsvci r)
  (state r) (remote_state r) (timer r) (f (timer_mode r)) (alive_retries r) (remote_end_is_sgsn r)
  (persistent r) (ctrg r) (ll r) (bts_addr r).
#[export] Instance upd_alive_retries : Upd alive_retries := fun f r => mk_gprs_nsvc (nsei r)
  (nsvci r) (state r) (remote_state r) (timer r) (timer_mode r) (f (alive_retries r))
  (remote_end_is_sgsn r) (persistent r) (ctrg r) (ll r) (bts_addr r).
#[export] Instance upd_remote_end_is_sgsn : Upd remote_end_is_sgsn := fun f r => mk_gprs_nsvc
  (nsei r) (nsvci r) (state r) (remote_state r) (timer r) (timer_mode r) (alive_retries r) (f
  (remote_end_is_sgsn r)) (persistent r) (ctrg r) (ll r) (bts_addr r).
#[export] Instance upd_persistent : Upd persistent := fun f r => mk_gprs_nsvc (nsei r) (nsvci r)
  (state r) (remote_state r) (timer r) (timer_mode r) (alive_retries r) (remote_end_is_sgsn r) (f
  (persistent r)) (ctrg r) (ll r) (bts_addr r).
#[export] Instance upd_ctrg : Upd ctrg := fun f r => mk_gprs_nsvc (nsei r) (nsvci r) (state r)
  (remote_state r) (timer r) (timer_mode r) (alive_retries r) (remote_end_is_sgsn r) (persistent
  r) (f (ctrg r)) (ll r) (bts_addr r).
#[export] Instance upd_ll : Upd ll := fun f r => mk_gprs_nsvc (nsei r) (nsvci r) (state r)
  (remote_state r) (timer r) (timer_mode r) (alive_retries r) (remote_end_is_sgsn r) (persistent
  r) (ctrg r) (f (ll r)) (bts_addr r).
#[export] Instance upd_bts_addr : Upd bts_addr := fun f r => mk_gprs_nsvc (nsei r) (nsvci r)
  (state r) (remote_state r) (timer r) (timer_mode r) (alive_retries r) (remote_end_is_sgsn r)
  (persistent r) (ctrg r) (ll r) (f (bts_addr r)).

Record gprs_ns_inst : Type := mk_gprs_ns_inst {
  nsvcs : gmap nat gprs_nsvc;  (* the allocated NS-VCs *)
  gprs_nsvcs : list nat;
  unknown_nsvc : nat;
  timeout : ns_timeout -> Z;  (* uint16_t each *)
  next_nsvc : nat  (* the address of the next allocation *)
}.

#[export] Instance upd_nsvcs : Upd nsvcs := fun f r => mk_gprs_ns_inst (f (nsvcs r)) (gprs_nsvcs
  r) (unknown_nsvc r) (timeout r) (next_nsvc r).
#[export] Instance upd_gprs_nsvcs : Upd gprs_nsvcs := fun f r => mk_gprs_ns_inst (nsvcs r) (f
  (gprs_nsvcs r)) (unknown_nsvc r) (timeout r) (next_nsvc r).
#[export] Instance upd_unknown_nsvc : Upd unknown_nsvc := fun f r => mk_gprs_ns_inst (nsvcs r)
  (gprs_nsvcs r) (f (unknown_nsvc r)) (timeout r) (next_nsvc r).
#[export] Instance upd_timeout : Upd timeout := fun f r => mk_gprs_ns_inst (nsvcs r) (gprs_nsvcs
  r) (unknown_nsvc r) (f (timeout r)) (next_nsvc r).
#[export] Instance upd_next_nsvc : Upd next_nsvc := fun f r => mk_gprs_ns_inst (nsvcs r)
  (gprs_nsvcs r) (unknown_nsvc r) (timeout r) (f (next_nsvc r)).

(** A received or submitted message: the octets from [l2h] on and the identifiers of its control
    block. *)
Record ns_msg : Type := mk_ns_msg {
  l2 : list Z;
  m_nsei : Z;
  m_bvci : Z
}.

#[export] Instance upd_l2 : Upd l2 := fun f r => mk_ns_msg (f (l2 r)) (m_nsei r) (m_bvci r).
#[export] Instance upd_m_nsei : Upd m_nsei := fun f r => mk_ns_msg (l2 r) (f (m_nsei r)) (m_bvci
  r).
#[export] Instance upd_m_bvci : Upd m_bvci := fun f r => mk_ns_msg (l2 r) (m_nsei r) (f (m_bvci
  r)).

Inductive ns_event : Type :=
| NS_SENDTO (lk : gprs_ns_ll) (daddr : sockaddr_in) (data : list Z)  (* a datagram on the socket *)
| NS_SIGNAL (s : ns_signal) (nsvc : nat) (cause : Z)
| NS_UNITDATA (nsvc : nat) (msg_nsei bvci : Z) (bssgph : list Z).    (* the callback of the user *)

(** The TLV library, the sockets, the allocator and the user of the instance. *)
Class NsEnv : Type := {
  (* an error, or for each tag the memory from the value on *)
  tlv_parse : list Z -> res (Z -> option (list Z));
  msgb_tvlv_put : Z -> list Z -> list Z;
  ns_msgb_ok : bool;
  (* the octet of the headroom under the spare octet of a UNITDATA header *)
  ns_spare : Z;
  sendto_rc : ns_event -> Z;
  ns_cb_rc : ns_event -> Z
}.

Section Operations.
Context {env : NsEnv}.

Abbreviation NS := (M gprs_ns_inst ns_event).

(** ** Access to an NS-VC *)

Definition nsvc_get (id : nat) : NS gprs_nsvc :=
  fun nsi => match nsvcs nsi !! id with Some v => Some (v, nsi, []) | None => None end.
Definition nsvc_upd (id : nat) (f : gprs_nsvc -> gprs_nsvc) : NS unit :=
  modify (fun nsi => nsi <| nsvcs ::= alter f id |>).

(** Following a pointer that may be null. *)
Definition deref (p : option nat) : NS nat :=
  match p with Some id => mret id | None => fault end.

Definition ctr_index (c : ns_ctr) : nat :=
  match c with
  | NS_CTR_PKTS_IN => 0 | NS_CTR_PKTS_OUT => 1 | NS_CTR_BYTES_IN => 2 | NS_CTR_BYTES_OUT => 3
  | NS_CTR_BLOCKED => 4 | NS_CTR_DEAD => 5
  end.
Definition rate_ctr_add (id : nat) (c : ns_ctr) (n : Z) : NS unit :=
  nsvc_upd id (fun v => v <| ctrg ::= alter (fun x => wrap 64 (x + n)) (ctr_index c) |>).
Definition rate_ctr_inc (id : nat) (c : ns_ctr) : NS unit := rate_ctr_add id c 1.

(** ** Lookup, creation, deletion *)

Definition nsvc_find (nsi : gprs_ns_inst) (p : gprs_nsvc -> bool) : option nat :=
  find (fun id => match nsvcs nsi !! id with Some v => p v | None => false end) (gprs_nsvcs nsi).

Definition nsvc_by_nsvci (nsi : gprs_ns_inst) (n : Z) : option nat :=
  nsvc_find nsi (fun v => nsvci v =? n).
Definition nsvc_by_nsei (nsi : gprs_ns_inst) (n : Z) : option nat :=
  nsvc_find nsi (fun v => nsei v =? n).
Definition nsvc_by_rem_addr (nsi : gprs_ns_inst) (sin : sockaddr_in) : option nat :=
  nsvc_find nsi (fun v => (sin_addr (bts_addr v) =? sin_addr sin) && (sin_port (bts_addr v) =? sin_port sin)).

(** Before the RESET procedure: blocked and dead. *)
Definition nsvc_new (n : Z) : gprs_nsvc :=
  {| nsei := 0; nsvci := n; state := NSE_S_BLOCKED; remote_state := 0; timer := None;
     timer_mode := NSVC_TIMER_TNS_TEST; alive_retries := 0; remote_end_is_sgsn := false;
     persistent := false; ctrg := replicate 6 0; ll := GPRS_NS_LL_UDP;
     bts_addr := mk_sockaddr_in 0 0 |}.

Definition nsvc_create (n : Z) : NS nat :=
  id ← gets next_nsvc;
  modify (fun nsi => nsi <| nsvcs ::= insert id (nsvc_new n) |> <| gprs_nsvcs ::= cons id |>
                         <| next_nsvc ::= S |>);;
  mret id.

Definition nsvc_delete (id : nat) : NS unit :=
  modify (fun nsi => nsi <| gprs_nsvcs ::= filter (fun i => i <> id) |> <| nsvcs ::= delete id |>).

Definition ns_osmo_signal_dispatch (id : nat) (s : ns_signal) (cause : Z) : NS unit :=
  emit (NS_SIGNAL s id cause).

(** ** Transmission *)

(** A datagram is emitted and the return code of the socket taken. *)
Definition sendto (lk : gprs_ns_ll) (daddr : sockaddr_in) (data : list Z) : NS Z :=
  let e := NS_SENDTO lk daddr data in emit e;; mret (sendto_rc e).

Definition nsip_sendmsg (id : nat) (data : list Z) : NS Z :=
  v ← nsvc_get id; sendto GPRS_NS_LL_UDP (bts_addr v) data.

Definition GRE_PTYPE_FR : Z := 0x6559.
Definition GRE_PTYPE_IPv4 : Z := 0x0800.
Definition GRE_PTYPE_KAR : Z := 0x0000.
Definition IPPROTO_GRE : Z := 47.
(** A 16-bit field in the other byte order. *)
Definition ntohs (x : Z) : Z := ((x .& 0xff) .<< 8) .| ((x .>> 8) .& 0xff).
Definition htons : Z -> Z := ntohs.

Definition fr_header (dlci : Z) : list Z := [(dlci .>> 2) .& 0xfc; u8 (((dlci .& 0xf) .<< 4) .| 0x01)].
Definition gre_header : list Z := [0; 0] ++ be16 GRE_PTYPE_FR.

Definition gprs_ns_frgre_sendmsg (id : nat) (data : list Z) : NS Z :=
  v ← nsvc_get id;
  let dlci := ntohs (sin_port (bts_addr v)) in
  let daddr := mk_sockaddr_in (sin_addr (bts_addr v)) IPPROTO_GRE in
  sendto GPRS_NS_LL_FR_GRE daddr (gre_header ++ fr_header dlci ++ data).

Definition gprs_ns_tx (id : nat) (data : list Z) : NS Z :=
  rate_ctr_inc id NS_CTR_PKTS_OUT;;
  rate_ctr_add id NS_CTR_BYTES_OUT (Z.of_nat (length data));;
  v ← nsvc_get id;
  match ll v with
  | GPRS_NS_LL_UDP => nsip_sendmsg id data
  | GPRS_NS_LL_FR_GRE => gprs_ns_frgre_sendmsg id data
  | GPRS_NS_LL_E1 => mret (- EIO)
  end.

Definition gprs_ns_tx_simple (id : nat) (pdu_type : Z) : NS Z :=
  if negb ns_msgb_ok then mret (- ENOMEM) else gprs_ns_tx id [pdu_type].

Definition gprs_ns_tx_reset (id : nat) (cause : Z) : NS Z :=
  v ← nsvc_get id;
  if negb ns_msgb_ok then mret (- ENOMEM)
  else gprs_ns_tx id ([NS_PDUT_RESET] ++ msgb_tvlv_put NS_IE_CAUSE [cause]
                      ++ msgb_tvlv_put NS_IE_VCI (be16 (nsvci v))
                      ++ msgb_tvlv_put NS_IE_NSEI (be16 (nsei v))).

Definition status_vci (cause : Z) : bool :=
  (cause =? NS_CAUSE_NSVC_BLOCKED) || (cause =? NS_CAUSE_NSVC_UNKNOWN).
Definition status_pdu (cause : Z) : bool :=
  bool_decide (cause ∈ [NS_CAUSE_SEM_INCORR_PDU; NS_CAUSE_PDU_INCOMP_PSTATE; NS_CAUSE_PROTO_ERR_UNSPEC;
                        NS_CAUSE_INVAL_ESSENT_IE; NS_CAUSE_MISSING_ESSENT_IE]).

Definition gprs_ns_tx_status (p : option nat) (cause bvci : Z) (orig_msg : ns_msg) : NS Z :=
  id ← deref p;
  v ← nsvc_get id;
  if negb ns_msgb_ok then mret (- ENOMEM)
  else gprs_ns_tx id ([NS_PDUT_STATUS] ++ msgb_tvlv_put NS_IE_CAUSE [cause]
         ++ (if status_vci cause then msgb_tvlv_put NS_IE_VCI (be16 (nsvci v)) else [])
         ++ (if status_pdu cause then msgb_tvlv_put NS_IE_PDU (l2 orig_msg) else [])
         ++ (if cause =? NS_CAUSE_BVCI_UNKNOWN then msgb_tvlv_put NS_IE_VCI (be16 bvci) else [])).

Definition gprs_ns_tx_block (id : nat) (cause : Z) : NS Z :=
  v ← nsvc_get id;
  if negb ns_msgb_ok then mret (- ENOMEM)
  else
    nsvc_upd id (fun v => v <| state ::= fun s => s .| NSE_S_BLOCKED |>);;
    rate_ctr_inc id NS_CTR_BLOCKED;;
    gprs_ns_tx id ([NS_PDUT_BLOCK] ++ msgb_tvlv_put NS_IE_CAUSE [cause]
                   ++ msgb_tvlv_put NS_IE_VCI (be16 (nsvci v))).

Definition gprs_ns_tx_unblock (id : nat) : NS Z := gprs_ns_tx_simple id NS_PDUT_UNBLOCK.
Definition gprs_ns_tx_alive (id : nat) : NS Z := gprs_ns_tx_simple id NS_PDUT_ALIVE.
Definition gprs_ns_tx_alive_ack (id : nat) : NS Z := gprs_ns_tx_simple id NS_PDUT_ALIVE_ACK.

Definition gprs_ns_tx_reset_ack (id : nat) : NS Z :=
  if negb ns_msgb_ok then mret (- ENOMEM)
  else
    v ← nsvc_get id;
    gprs_ns_tx id ([NS_PDUT_RESET_ACK] ++ msgb_tvlv_put NS_IE_VCI (be16 (nsvci v))
                   ++ msgb_tvlv_put NS_IE_NSEI (be16 (nsei v))).

(** ** Timers *)

Definition timer_mode_tout (m : nsvc_timer_mode) : ns_timeout :=
  match m with
  | NSVC_TIMER_TNS_RESET => NS_TOUT_TNS_RESET
  | NSVC_TIMER_TNS_ALIVE => NS_TOUT_TNS_ALIVE
  | NSVC_TIMER_TNS_TEST => NS_TOUT_TNS_TEST
  end.

Definition nsvc_start_timer (id : nat) (mode : nsvc_timer_mode) : NS unit :=
  seconds ← gets (fun nsi => timeout nsi (timer_mode_tout mode));
  nsvc_upd id (fun v => v <| timer := Some seconds |> <| timer_mode := mode |>).

Definition gprs_ns_timer_cb (id : nat) : NS unit :=
  v ← nsvc_get id;
  match timer_mode v with
  | NSVC_TIMER_TNS_ALIVE =>
      nsvc_upd id (fun v => v <| alive_retries ::= Z.add 1 |>);;
      v ← nsvc_get id;
      retries ← gets (fun nsi => timeout nsi NS_TOUT_TNS_ALIVE_RETRIES);
      if retries <? alive_retries v then
        nsvc_upd id (fun v => v <| state := NSE_S_BLOCKED |>);;
        rate_ctr_inc id NS_CTR_BLOCKED;;
        rate_ctr_inc id NS_CTR_DEAD;;
        ns_osmo_signal_dispatch id S_NS_ALIVE_EXP 0;;
        ns_osmo_signal_dispatch id S_NS_BLOCK NS_CAUSE_NSVC_BLOCKED
      else
        _ ← gprs_ns_tx_alive id;
        nsvc_start_timer id NSVC_TIMER_TNS_ALIVE
  | NSVC_TIMER_TNS_TEST =>
      _ ← gprs_ns_tx_alive id;
      nsvc_upd id (fun v => v <| alive_retries := 0 |>);;
      nsvc_start_timer id NSVC_TIMER_TNS_ALIVE
  | NSVC_TIMER_TNS_RESET =>
      _ ← gprs_ns_tx_reset id NS_CAUSE_OM_INTERVENTION;
      nsvc_start_timer id NSVC_TIMER_TNS_RESET
  end.

(** The timer library takes the timer off its list and calls back. *)
Definition timer_expired (id : nat) : NS unit :=
  nsvc_upd id (fun v => v <| timer := None |>);; gprs_ns_timer_cb id.

(** ** NS-UNITDATA-REQUEST *)

Definition gprs_ns_sendmsg (msg : ns_msg) : NS Z :=
  p ← gets (fun nsi => nsvc_by_nsei nsi (m_nsei msg));
  match p with
  | None => mret (- EINVAL)
  | Some id =>
      v ← nsvc_get id;
      if negb (tst (state v) NSE_S_ALIVE) then mret (- EBUSY)
      else if tst (state v) NSE_S_BLOCKED then mret (- EBUSY)
      else gprs_ns_tx id ([NS_PDUT_UNITDATA; ns_spare] ++ be16 (m_bvci msg) ++ l2 msg)
  end.

(** ** Reception *)

Definition gprs_ns_rx_unitdata (id : nat) (msg : ns_msg) : NS Z :=
  v ← nsvc_get id;
  if tst (state v) NSE_S_BLOCKED then gprs_ns_tx_status (Some id) NS_CAUSE_NSVC_BLOCKED 0 msg
  else
    let bvci := (rd (l2 msg) 2 .<< 8) .| rd (l2 msg) 3 in
    let e := NS_UNITDATA id (m_nsei msg) bvci (drop 4 (l2 msg)) in
    emit e;; mret (ns_cb_rc e).

(** The information elements behind the PDU type. *)
Definition ns_ies (msg : ns_msg) : res (Z -> option (list Z)) := tlv_parse (drop 1 (l2 msg)).

Definition gprs_ns_rx_status (id : nat) (msg : ns_msg) : NS Z :=
  match ns_ies msg with
  | Err rc => mret rc
  | Ok tp => match tp NS_IE_CAUSE with None => mret (- EINVAL) | Some _ => mret 0 end
  end.

Definition gprs_ns_rx_reset (id : nat) (msg : ns_msg) : NS Z :=
  match ns_ies msg with
  | Err rc => mret rc
  | Ok tp =>
      match tp NS_IE_CAUSE, tp NS_IE_VCI, tp NS_IE_NSEI with
      | Some cause, Some vci, Some sei =>
          nsvc_upd id (fun v => v <| state := NSE_S_BLOCKED .| NSE_S_ALIVE |>
                                  <| nsei := rd_be16 sei |> <| nsvci := rd_be16 vci |>);;
          _ ← gprs_ns_tx_simple id NS_PDUT_ALIVE;
          nsvc_start_timer id NSVC_TIMER_TNS_TEST;;
          ns_osmo_signal_dispatch id S_NS_RESET (rd cause 0);;
          gprs_ns_tx_reset_ack id
      | _, _, _ =>
          _ ← gprs_ns_tx_status (Some id) NS_CAUSE_MISSING_ESSENT_IE 0 msg;
          mret (- EINVAL)
      end
  end.

Definition gprs_ns_rx_block (id : nat) (msg : ns_msg) : NS Z :=
  nsvc_upd id (fun v => v <| state ::= fun s => s .| NSE_S_BLOCKED |>);;
  match ns_ies msg with
  | Err rc => mret rc
  | Ok tp =>
      match tp NS_IE_CAUSE, tp NS_IE_VCI with
      | Some cause, Some _ =>
          ns_osmo_signal_dispatch id S_NS_BLOCK (rd cause 0);;
          rate_ctr_inc id NS_CTR_BLOCKED;;
          gprs_ns_tx_simple id NS_PDUT_BLOCK_ACK
      | _, _ =>
          _ ← gprs_ns_tx_status (Some id) NS_CAUSE_MISSING_ESSENT_IE 0 msg;
          mret (- EINVAL)
      end
  end.

(** What [gprs_ns_rcvmsg] does for a peer it does not know: the NS-VC to go on with, or the
    return code. *)
Definition rcvmsg_unknown_peer (msg : ns_msg) (saddr : sockaddr_in) (lk : gprs_ns_ll) : NS (nat + Z) :=
  let pdu_type := rd (l2 msg) 0 in
  if pdu_type =? NS_PDUT_STATUS then mret (inr 0)
  else if negb (pdu_type =? NS_PDUT_RESET) then
    id ← gets unknown_nsvc;
    nsvc_upd id (fun v => v <| nsei := 0xfffe |> <| nsvci := 0xfffe |> <| bts_addr := saddr |>
                            <| state := NSE_S_ALIVE |> <| ll := lk |>);;
    rc ← gprs_ns_tx_status (Some id) NS_CAUSE_PDU_INCOMP_PSTATE 0 msg;
    mret (inr rc)
  else
    match ns_ies msg with
    | Err rc => mret (inr rc)
    | Ok tp =>
        match tp NS_IE_CAUSE, tp NS_IE_VCI, tp NS_IE_NSEI with
        | Some _, Some _, Some sei =>
            p ← gets (fun nsi => nsvc_by_nsei nsi (rd_be16 sei));
            id ← match p with
                 | Some id => mret id
                 | None =>
                     id ← nsvc_create 0xffff;
                     nsvc_upd id (fun v => v <| ll := lk |>);;
                     mret id
                 end;
            nsvc_upd id (fun v => v <| bts_addr := saddr |>);;
            mret (inl id)
        | _, _, _ =>
            _ ← gprs_ns_tx_status None NS_CAUSE_MISSING_ESSENT_IE 0 msg;
            mret (inr (- EINVAL))
        end
    end.

(** The switch over the PDU type. *)
Definition rcvmsg_dispatch (id : nat) (msg : ns_msg) : NS Z :=
  let pdu_type := rd (l2 msg) 0 in
  if pdu_type =? NS_PDUT_ALIVE then
    v ← nsvc_get id;
    if state v =? NSE_S_BLOCKED then gprs_ns_tx_reset id NS_CAUSE_PDU_INCOMP_PSTATE
    else gprs_ns_tx_alive_ack id
  else if pdu_type =? NS_PDUT_ALIVE_ACK then
    nsvc_start_timer id NSVC_TIMER_TNS_TEST;;
    v ← nsvc_get id;
    if remote_end_is_sgsn v && tst (state v) NSE_S_BLOCKED then gprs_ns_tx_unblock id else mret 0
  else if pdu_type =? NS_PDUT_UNITDATA then gprs_ns_rx_unitdata id msg
  else if pdu_type =? NS_PDUT_STATUS then gprs_ns_rx_status id msg
  else if pdu_type =? NS_PDUT_RESET then gprs_ns_rx_reset id msg
  else if pdu_type =? NS_PDUT_RESET_ACK then
    nsvc_upd id (fun v => v <| state := NSE_S_BLOCKED .| NSE_S_ALIVE |>
                            <| remote_state := NSE_S_BLOCKED .| NSE_S_ALIVE |>);;
    rate_ctr_inc id NS_CTR_BLOCKED;;
    v ← nsvc_get id;
    when (persistent v || remote_end_is_sgsn v) (nsvc_upd id (fun v => v <| timer := None |>));;
    rc ← gprs_ns_tx_simple id NS_PDUT_ALIVE;
    nsvc_start_timer id NSVC_TIMER_TNS_TEST;;
    mret rc
  else if pdu_type =? NS_PDUT_UNBLOCK then
    nsvc_upd id (fun v => v <| state ::= fun s => Z.land s (Z.lnot NSE_S_BLOCKED) |>);;
    ns_osmo_signal_dispatch id S_NS_UNBLOCK 0;;
    gprs_ns_tx_simple id NS_PDUT_UNBLOCK_ACK
  else if pdu_type =? NS_PDUT_UNBLOCK_ACK then
    nsvc_upd id (fun v => v <| state := NSE_S_ALIVE |> <| remote_state := NSE_S_ALIVE |>);;
    ns_osmo_signal_dispatch id S_NS_UNBLOCK 0;;
    mret 0
  else if pdu_type =? NS_PDUT_BLOCK then gprs_ns_rx_block id msg
  else if pdu_type =? NS_PDUT_BLOCK_ACK then
    nsvc_upd id (fun v => v <| remote_state := NSE_S_BLOCKED .| NSE_S_ALIVE |>);;
    mret 0
  else mret (- EINVAL).

(** Main entry point: here incoming NS frames enter. *)
Definition gprs_ns_rcvmsg (msg : ns_msg) (saddr : sockaddr_in) (lk : gprs_ns_ll) : NS Z :=
  p ← gets (fun nsi => nsvc_by_rem_addr nsi saddr);
  r ← match p with
      | None => x ← rcvmsg_unknown_peer msg saddr lk; mret (x, msg)
      | Some id => v ← nsvc_get id; mret (inl id, msg <| m_nsei := nsei v |>)
      end;
  match r with
  | (inr rc, _) => mret rc
  | (inl id, msg) =>
      rate_ctr_inc id NS_CTR_PKTS_IN;;
      rate_ctr_add id NS_CTR_BYTES_IN (Z.of_nat (length (l2 msg)));;
      rcvmsg_dispatch id msg
  end.

(** ** The instance *)

Definition default_timeout (t : ns_timeout) : Z :=
  match t with
  | NS_TOUT_TNS_BLOCK => 3 | NS_TOUT_TNS_BLOCK_RETRIES => 3
  | NS_TOUT_TNS_RESET => 3 | NS_TOUT_TNS_RESET_RETRIES => 3
  | NS_TOUT_TNS_TEST => 30 | NS_TOUT_TNS_ALIVE => 3 | NS_TOUT_TNS_ALIVE_RETRIES => 10
  end.

(** The dummy NS-VC is created and unlinked again. *)
Definition gprs_ns_instantiate : gprs_ns_inst :=
  {| nsvcs := {[0%nat := nsvc_new 0xfffe]}; gprs_nsvcs := []; unknown_nsvc := 0;
     timeout := default_timeout; next_nsvc := 1 |}.

Definition gprs_nsvc_reset (id : nat) (cause : Z) : NS unit :=
  nsvc_upd id (fun v => v <| state := NSE_S_BLOCKED |>);;
  _ ← gprs_ns_tx_reset id cause; (* an error is only logged *)
  nsvc_start_timer id NSVC_TIMER_TNS_RESET.

Definition nsip_connect (dest : sockaddr_in) (sei vci : Z) : NS nat :=
  p ← gets (fun nsi => nsvc_by_rem_addr nsi dest);
  id ← match p with Some id => mret id | None => nsvc_create vci end;
  nsvc_upd id (fun v => v <| bts_addr := dest |> <| nsei := sei |> <| nsvci := vci |>
                          <| remote_end_is_sgsn := true |>);;
  gprs_nsvc_reset id NS_CAUSE_OM_INTERVENTION;;
  mret id.

(** ** Frame relay in GRE: what [read_nsfrgre_msg] makes of a received IP packet *)

Inductive frgre_rx : Type :=
| FRGRE_ERR (rc : Z)
| FRGRE_KEEPALIVE (daddr : sockaddr_in) (data : list Z)  (* sendto() of the inner packet *)
| FRGRE_FRAME (dlci : Z) (l2h : list Z).

(** Fields of [struct iphdr]; addresses as stored. *)
Definition ip_ihl (p : list Z) : Z := rd p 0 .& 0xf.
Definition ip_protocol (p : list Z) : Z := rd p 9.
Definition ip_saddr (p : list Z) : list Z := take 4 (drop 12 p).
Definition ip_daddr (p : list Z) : list Z := take 4 (drop 16 p).
Definition le32 (p : list Z) : Z := rd p 0 .| (rd p 1 .<< 8) .| (rd p 2 .<< 16) .| (rd p 3 .<< 24).
Definition gre_ptype (p : list Z) : Z := rd_be16 (drop 2 p).

Definition handle_rx_gre_ipv4 (msg : list Z) : frgre_rx :=
  let ihl := ip_ihl msg in
  let gre_payload_len := Z.of_nat (length msg) - (ihl * 4 + 4) in
  let inner_iph := drop (Z.to_nat (ihl * 4 + 4)) msg in
  if gre_payload_len <? ip_ihl inner_iph * 4 + 4 then FRGRE_ERR (- EIO)
  else if negb (bool_decide (ip_saddr inner_iph = ip_daddr msg)) || negb (bool_decide (ip_daddr inner_iph = ip_saddr msg))
  then FRGRE_ERR (- EIO)
  else if negb (ip_protocol inner_iph =? IPPROTO_GRE) then FRGRE_ERR (- EIO)
  else
    let inner_greh := drop (Z.to_nat (ihl * 4)) inner_iph in
    if negb (gre_ptype inner_greh =? GRE_PTYPE_KAR) then FRGRE_ERR (- EIO)
    else FRGRE_KEEPALIVE (mk_sockaddr_in (le32 (ip_daddr inner_iph)) IPPROTO_GRE)
           (take (Z.to_nat (gre_payload_len - ip_ihl inner_iph * 4)) inner_greh).

(** [msg] is what recvfrom() returned, not empty; [sizeof(struct iphdr)] is 20. *)
Definition read_nsfrgre_msg (msg : list Z) : frgre_rx :=
  let len := Z.of_nat (length msg) in
  if len <? 20 + 4 + 2 then FRGRE_ERR (- EIO)
  else if len <? ip_ihl msg * 4 + 4 + 2 then FRGRE_ERR (- EIO)
  else
    let greh := drop (Z.to_nat (ip_ihl msg * 4)) msg in
    if gre_ptype greh =? GRE_PTYPE_IPv4 then handle_rx_gre_ipv4 msg
    else if negb (gre_ptype greh =? GRE_PTYPE_FR) then FRGRE_ERR (- EIO)
    else if len <? 4 + 2 then FRGRE_ERR (- EIO)
    else
      let frh := drop 4 greh in
      if tst (rd frh 0) 0x01 then FRGRE_ERR (- EIO)
      else if negb (rd frh 1 .& 0x0f =? 0x01) then FRGRE_ERR (- EIO)
      else FRGRE_FRAME (((rd frh 0 .& 0xfc) .<< 2) .| (rd frh 1 .>> 4)) (drop 2 frh).

(** A frame on a signalling DLCI is ignored, the others enter the instance with the DLCI in the
    port of the peer's address. *)
Definition handle_nsfrgre_read (src : sockaddr_in) (msg : list Z) : NS Z :=
  if negb ns_msgb_ok then mret (- ENOMEM) else
  match msg with [] => mret 0 | _ =>
  match read_nsfrgre_msg msg with
  | FRGRE_ERR rc => mret rc
  | FRGRE_KEEPALIVE daddr data => sendto GPRS_NS_LL_FR_GRE daddr data
  | FRGRE_FRAME dlci l2h =>
      if (dlci =? 0) || (dlci =? 1023) then mret 0
      else gprs_ns_rcvmsg (mk_ns_msg l2h 0 0) (src <| sin_port := htons dlci |>) GPRS_NS_LL_FR_GRE
  end end.

(** [handle_nsip_read] for a datagram recvfrom() returned. *)
Definition handle_nsip_read (src : sockaddr_in) (data : list Z) : NS Z :=
  if negb ns_msgb_ok then mret (- ENOMEM) else
  match data with
  | [] => mret 0
  | _ => gprs_ns_rcvmsg (mk_ns_msg data 0 0) src GPRS_NS_LL_UDP
  end.

End Operations.

End Ns.
