(* ===== verification/NsProps.v ===== *)
(** Properties of the Network Service ([Ns]).

    - the instance stays consistent and no entry point follows a null pointer, with one exception
      that is characterised exactly;
    - unit data passes only over an NS-VC that is alive and not blocked, and arrives as it was
      submitted;
    - the test procedure: a silent peer is given up after the configured number of retries;
    - the RESET procedure between two instances ends with both sides alive and unblocked. *)

From S2P Require Import Prelude Ns.
From coqutil Require Import Z.bitblast.
Import Ns.

Module NsProps.

(** ** The invariant *)

Record wf_nsvc (v : gprs_nsvc) : Prop := {
  wv_nsei : in_width 16 (nsei v);
  wv_nsvci : in_width 16 (nsvci v);
  wv_state : in_width 2 (state v);
  wv_remote : in_width 2 (remote_state v);
  wv_ctrg : length (ctrg v) = 6%nat
}.

Record wf_ns (nsi : gprs_ns_inst) : Prop := {
  wn_nodup : NoDup (gprs_nsvcs nsi);
  wn_listed : forall id, id ∈ gprs_nsvcs nsi -> is_Some (nsvcs nsi !! id);
  wn_unknown : is_Some (nsvcs nsi !! unknown_nsvc nsi);
  wn_unlisted : unknown_nsvc nsi ∉ gprs_nsvcs nsi;
  wn_fresh : forall id, is_Some (nsvcs nsi !! id) -> (id < next_nsvc nsi)%nat;
  wn_each : forall id v, nsvcs nsi !! id = Some v -> wf_nsvc v
}.

(** The pointers [ids] are valid. *)
Definition ns_ok (ids : list nat) (nsi : gprs_ns_inst) : Prop :=
  wf_ns nsi /\ Forall (fun id => is_Some (nsvcs nsi !! id)) ids.

Section Safety.
Context {env : NsEnv}.
Abbreviation NS := (M gprs_ns_inst ns_event).

(** [m] runs to its end from every state in which [ids] are valid, and they still are. *)
Definition safe (ids : list nat) {A} (m : NS A) : Prop :=
  forall nsi, ns_ok ids nsi -> exists a nsi' ev, m nsi = Some (a, nsi', ev) /\ ns_ok ids nsi'.

Lemma safe_ret ids A (a : A) : safe ids (mret a).
Proof. intros nsi H. by exists a, nsi, []. Qed.

Lemma safe_bind ids A B (m : NS A) (k : A -> NS B) :
  safe ids m -> (forall a, safe ids (k a)) -> safe ids (m ≫= k).
Proof.
  intros Hm Hk nsi H. destruct (Hm nsi H) as (a & nsi1 & ev & Ha & H1).
  destruct (Hk a nsi1 H1) as (b & nsi2 & ev' & Hb & H2).
  exists b, nsi2, (ev ++ ev'). split; [|done]. unfold mbind, M_bind. by rewrite Ha, Hb.
Qed.

Lemma safe_emit ids e : safe ids (emit e).
Proof. intros nsi H. by exists tt, nsi, [e]. Qed.

Lemma safe_gets ids A (f : gprs_ns_inst -> A) : safe ids (gets f).
Proof. intros nsi H. by exists (f nsi), nsi, []. Qed.

Lemma safe_get ids id : id ∈ ids -> safe ids (nsvc_get id).
Proof.
  intros Hid nsi [Hw H]. rewrite Forall_forall in H. destruct (H id Hid) as [v Hv].
  exists v, nsi, []. unfold nsvc_get. rewrite Hv. split; [done|]. split; [done|]. by apply Forall_forall.
Qed.

Lemma is_Some_alter (m : gmap nat gprs_nsvc) f i j : is_Some (alter f i m !! j) <-> is_Some (m !! j).
Proof.
  rewrite lookup_alter. case_decide; subst; [|done]. by rewrite fmap_is_Some.
Qed.

Lemma ns_wf_alter nsi id f :
  (forall v, wf_nsvc v -> wf_nsvc (f v)) -> wf_ns nsi -> wf_ns (nsi <| nsvcs ::= alter f id |>).
Proof.
  intros Hf [H1 H2 H3 H4 H5 H6]. split; cbn; try done.
  - intros i Hi. apply is_Some_alter. by apply H2.
  - by apply is_Some_alter.
  - intros i Hi. apply is_Some_alter in Hi. by apply H5.
  - intros i v. rewrite lookup_alter. case_decide; subst; [|by apply H6].
    rewrite fmap_Some. intros (v0 & Hv0 & ->). by apply Hf, (H6 i).
Qed.

Lemma safe_upd ids id f : (forall v, wf_nsvc v -> wf_nsvc (f v)) -> safe ids (nsvc_upd id f).
Proof.
  intros Hf nsi [Hw H]. exists tt, (nsi <| nsvcs ::= alter f id |>), []. split; [done|].
  split; [by apply ns_wf_alter|]. eapply Forall_impl; [done|]. intros i. apply is_Some_alter.
Qed.

Lemma safe_if ids A (b : bool) (m1 m2 : NS A) : safe ids m1 -> safe ids m2 -> safe ids (if b then m1 else m2).
Proof. by destruct b. Qed.

Lemma safe_deref ids A id (k : nat -> NS A) : safe ids (k id) -> safe ids (deref (Some id) ≫= k).
Proof.
  intros Hk nsi H. destruct (Hk nsi H) as (a & nsi' & ev & Ha & H'). exists a, nsi', ev.
  split; [|done]. unfold mbind, M_bind. cbn. by rewrite Ha.
Qed.

End Safety.

(** Walk through the statements of an operation. *)
Ltac wf_nsvc_field :=
  intros ? []; split; cbn; try done; try (by apply in_width_mono with 1); try (by apply wrap_in_width);
  rewrite ?length_alter; done.
Ltac safe_walk :=
  repeat first
    [ by eauto with ns_safe nocore
    | apply safe_get; assumption
    | apply safe_ret | apply safe_emit | apply safe_gets
    | apply safe_if
    | apply safe_upd; wf_nsvc_field
    | match goal with |- safe _ (mbind _ _) => apply safe_bind; [|intros ?] end ].

Create HintDb ns_safe.

Section Operations.
Context {env : NsEnv}.
Abbreviation NS := (M gprs_ns_inst ns_event).

Lemma safe_ctr_add ids id c n : safe ids (rate_ctr_add id c n).
Proof. unfold rate_ctr_add. safe_walk. Qed.
Lemma safe_ctr_inc ids id c : safe ids (rate_ctr_inc id c).
Proof. apply safe_ctr_add. Qed.
#[local] Hint Resolve safe_ctr_add safe_ctr_inc : ns_safe.

Lemma safe_sendto ids lk a d : safe ids (sendto lk a d).
Proof. unfold sendto. safe_walk. Qed.
#[local] Hint Resolve safe_sendto : ns_safe.

Lemma safe_tx ids id data : id ∈ ids -> safe ids (gprs_ns_tx id data).
Proof.
  intros Hid. unfold gprs_ns_tx. safe_walk.
  destruct (ll _); unfold nsip_sendmsg, gprs_ns_frgre_sendmsg; safe_walk.
Qed.
#[local] Hint Resolve safe_tx : ns_safe.

Lemma safe_tx_simple ids id t : id ∈ ids -> safe ids (gprs_ns_tx_simple id t).
Proof. intros Hid. unfold gprs_ns_tx_simple. safe_walk. Qed.
Lemma safe_tx_reset ids id c : id ∈ ids -> safe ids (gprs_ns_tx_reset id c).
Proof. intros Hid. unfold gprs_ns_tx_reset. safe_walk. Qed.
Lemma safe_tx_reset_ack ids id : id ∈ ids -> safe ids (gprs_ns_tx_reset_ack id).
Proof. intros Hid. unfold gprs_ns_tx_reset_ack. safe_walk. Qed.
Lemma safe_tx_status ids id c b m : id ∈ ids -> safe ids (gprs_ns_tx_status (Some id) c b m).
Proof. intros Hid. unfold gprs_ns_tx_status. apply safe_deref. safe_walk. Qed.
#[local] Hint Resolve safe_tx_simple safe_tx_reset safe_tx_reset_ack safe_tx_status : ns_safe.

Lemma safe_start_timer ids id m : safe ids (nsvc_start_timer id m).
Proof. unfold nsvc_start_timer. safe_walk. Qed.
#[local] Hint Resolve safe_start_timer : ns_safe.

Lemma wf_or_blocked v : wf_nsvc v -> wf_nsvc (v <| state ::= fun s => s .| NSE_S_BLOCKED |>).
Proof.
  intros []. split; cbn; try done. unfold in_width in *.
  assert (state v = 0 \/ state v = 1 \/ state v = 2 \/ state v = 3) as [->|[->|[->| ->]]] by (cbn in *; lia);
    vm_bounds.
Qed.
Lemma wf_unblocked v : wf_nsvc v -> wf_nsvc (v <| state ::= fun s => Z.land s (Z.lnot NSE_S_BLOCKED) |>).
Proof.
  intros []. split; cbn; try done. unfold in_width in *.
  assert (state v = 0 \/ state v = 1 \/ state v = 2 \/ state v = 3) as [->|[->|[->| ->]]] by (cbn in *; lia);
    vm_bounds.
Qed.
Lemma safe_or_blocked ids id : safe ids (nsvc_upd id (fun v => v <| state ::= fun s => s .| NSE_S_BLOCKED |>)).
Proof. apply safe_upd, wf_or_blocked. Qed.
Lemma safe_unblocked ids id :
  safe ids (nsvc_upd id (fun v => v <| state ::= fun s => Z.land s (Z.lnot NSE_S_BLOCKED) |>)).
Proof. apply safe_upd, wf_unblocked. Qed.
#[local] Hint Resolve safe_or_blocked safe_unblocked : ns_safe.

Lemma safe_tx_block ids id c : id ∈ ids -> safe ids (gprs_ns_tx_block id c).
Proof. intros Hid. unfold gprs_ns_tx_block. safe_walk. Qed.

Lemma safe_timer_expired ids id : id ∈ ids -> safe ids (timer_expired id).
Proof.
  intros Hid. unfold timer_expired, gprs_ns_timer_cb. safe_walk.
  destruct (timer_mode _); unfold ns_osmo_signal_dispatch, gprs_ns_tx_alive; safe_walk.
Qed.

Lemma safe_nsvc_reset ids id c : id ∈ ids -> safe ids (gprs_nsvc_reset id c).
Proof. intros Hid. unfold gprs_nsvc_reset. safe_walk. Qed.

(** What the TLV library documents: values lie in the buffer that was parsed. *)
Definition tlv_octets : Prop :=
  forall buf tp tag v, octets buf -> tlv_parse buf = Ok tp -> tp tag = Some v -> octets v.

Lemma ies_octets msg tp tag v :
  tlv_octets -> octets (l2 msg) -> ns_ies msg = Ok tp -> tp tag = Some v -> octets v.
Proof. intros Ht Ho. apply Ht. by apply Forall_drop. Qed.

Lemma safe_rx_unitdata ids id msg : id ∈ ids -> safe ids (gprs_ns_rx_unitdata id msg).
Proof. intros Hid. unfold gprs_ns_rx_unitdata. safe_walk. Qed.

Lemma safe_rx_status ids id msg : safe ids (gprs_ns_rx_status id msg).
Proof. unfold gprs_ns_rx_status. destruct (ns_ies msg) as [tp|]; [destruct (tp NS_IE_CAUSE)|]; safe_walk. Qed.

Lemma safe_rx_reset ids id msg :
  tlv_octets -> octets (l2 msg) -> id ∈ ids -> safe ids (gprs_ns_rx_reset id msg).
Proof.
  intros Ht Ho Hid. unfold gprs_ns_rx_reset. destruct (ns_ies msg) as [tp|] eqn:Htp; [|safe_walk].
  destruct (tp NS_IE_CAUSE), (tp NS_IE_VCI) as [vci|] eqn:Hv, (tp NS_IE_NSEI) as [sei|] eqn:Hs;
    try (by safe_walk).
  apply safe_bind; [|intros _; unfold ns_osmo_signal_dispatch; safe_walk].
  apply safe_upd. intros v []. split; cbn; try done; apply rd_be16_width; by eapply ies_octets.
Qed.

Lemma safe_rx_block ids id msg : id ∈ ids -> safe ids (gprs_ns_rx_block id msg).
Proof.
  intros Hid. unfold gprs_ns_rx_block. apply safe_bind; [safe_walk|intros _].
  destruct (ns_ies msg) as [tp|]; [|safe_walk].
  destruct (tp NS_IE_CAUSE), (tp NS_IE_VCI); unfold ns_osmo_signal_dispatch; safe_walk.
Qed.
#[local] Hint Resolve safe_rx_unitdata safe_rx_status safe_rx_reset safe_rx_block : ns_safe.

Lemma safe_dispatch ids id msg :
  tlv_octets -> octets (l2 msg) -> id ∈ ids -> safe ids (rcvmsg_dispatch id msg).
Proof.
  intros Ht Ho Hid. unfold rcvmsg_dispatch, when, ns_osmo_signal_dispatch, gprs_ns_tx_unblock,
    gprs_ns_tx_alive_ack. cbv zeta. safe_walk.
Qed.

(** ** Entry points from a consistent instance *)

Lemma bind_gets A B (f : gprs_ns_inst -> A) (k : A -> NS B) nsi : (gets f ≫= k) nsi = k (f nsi) nsi.
Proof. unfold mbind, M_bind. cbn. by destruct (k (f nsi) nsi) as [[[? ?] ?]|]. Qed.

Lemma bind_ret A B (a : A) (k : A -> NS B) nsi : (mret a ≫= k) nsi = k a nsi.
Proof. unfold mbind, M_bind. cbn. by destruct (k a nsi) as [[[? ?] ?]|]. Qed.

Lemma nsvc_find_ok nsi p id :
  wf_ns nsi -> nsvc_find nsi p = Some id ->
  id ∈ gprs_nsvcs nsi /\ ns_ok [id] nsi /\ exists v, nsvcs nsi !! id = Some v /\ p v = true.
Proof.
  intros Hw Hf. apply find_some in Hf as [Hin Hp]. apply list_elem_of_In in Hin.
  destruct (wn_listed _ Hw id Hin) as [v Hv]. rewrite Hv in Hp. split; [done|]. split; [|by exists v].
  split; [done|]. by repeat constructor.
Qed.

(** [m] runs to its end, and leaves a consistent instance. *)
Definition runs_ok {A} (m : NS A) (nsi : gprs_ns_inst) : Prop :=
  exists a nsi' ev, m nsi = Some (a, nsi', ev) /\ wf_ns nsi'.

Lemma safe_runs ids A (m : NS A) nsi : safe ids m -> ns_ok ids nsi -> runs_ok m nsi.
Proof. intros Hm H. destruct (Hm nsi H) as (a & nsi' & ev & Ha & [Hw _]). by exists a, nsi', ev. Qed.

Lemma runs_sendmsg nsi msg : wf_ns nsi -> runs_ok (gprs_ns_sendmsg msg) nsi.
Proof.
  intros Hw. unfold runs_ok, gprs_ns_sendmsg. rewrite bind_gets.
  destruct (nsvc_by_nsei nsi (m_nsei msg)) as [id|] eqn:Hf; [|by exists (- EINVAL), nsi, []].
  apply nsvc_find_ok in Hf as (_ & Hok & _); [|done].
  assert (id ∈ [id]) as Hid by by left. eapply safe_runs; [|exact Hok]. safe_walk.
Qed.

Lemma create_run nsi n :
  wf_ns nsi -> in_width 16 n ->
  exists nsi', nsvc_create n nsi = Some (next_nsvc nsi, nsi', []) /\ ns_ok [next_nsvc nsi] nsi'.
Proof.
  intros [H1 H2 H3 H4 H5 H6] Hn. eexists. split; [reflexivity|].
  assert (nsvcs nsi !! next_nsvc nsi = None) as Hnone.
  { destruct (nsvcs nsi !! next_nsvc nsi) eqn:E; [|done].
    assert (next_nsvc nsi < next_nsvc nsi)%nat by (apply H5; by eexists). lia. }
  assert (next_nsvc nsi ∉ gprs_nsvcs nsi) as Hnl by (intros Hin; apply H2 in Hin; rewrite Hnone in Hin; by destruct Hin).
  split; [split; cbn|].
  - by constructor.
  - intros i [->|Hi]%elem_of_cons; [rewrite lookup_insert_eq; by eexists|].
    destruct (H2 i Hi) as [v Hv]. rewrite lookup_insert_ne by congruence. by exists v.
  - destruct H3 as [v Hv]. rewrite lookup_insert_ne by congruence. by exists v.
  - intros [Heq|Hin]%elem_of_cons; [|done]. rewrite Heq, Hnone in H3. by destruct H3.
  - intros i. rewrite lookup_insert. case_decide as Hd; [intros _; lia|]. intros Hi%H5. lia.
  - intros i v. rewrite lookup_insert. case_decide as Hd; [intros [= <-]|by apply H6].
    split; cbn; try done; vm_bounds.
  - constructor; [|constructor]. cbn. rewrite lookup_insert_eq. by eexists.
Qed.

Lemma bind_run A B (m : NS A) (k : A -> NS B) nsi a nsi1 ev :
  m nsi = Some (a, nsi1, ev) ->
  (m ≫= k) nsi = match k a nsi1 with None => None | Some (b, nsi2, ev') => Some (b, nsi2, ev ++ ev') end.
Proof. intros Hm. unfold mbind, M_bind. by rewrite Hm. Qed.

(** A RESET that lacks one of its mandatory information elements. *)
Definition bad_reset (msg : ns_msg) : Prop :=
  rd (l2 msg) 0 = NS_PDUT_RESET /\
  exists tp, ns_ies msg = Ok tp /\ (tp NS_IE_CAUSE = None \/ tp NS_IE_VCI = None \/ tp NS_IE_NSEI = None).

Lemma create_nsvc_run nsi lk :
  wf_ns nsi ->
  exists nsi', (id ← nsvc_create 0xffff; nsvc_upd id (fun v => v <| ll := lk |>);; mret id) nsi =
                 Some (next_nsvc nsi, nsi', []) /\ ns_ok [next_nsvc nsi] nsi'.
Proof.
  intros Hw. destruct (create_run nsi 0xffff Hw) as (nsi1 & Hc & Hok); [vm_bounds|].
  rewrite (bind_run _ _ _ _ _ _ _ _ Hc).
  assert (safe [next_nsvc nsi] (nsvc_upd (next_nsvc nsi) (fun v => v <| ll := lk |>))) as Hs by safe_walk.
  destruct (Hs nsi1 Hok) as ([] & nsi2 & ev & Hu & Hok2). exists nsi2.
  rewrite (bind_run _ _ _ _ _ _ _ _ Hu). injection Hu as <- <-. done.
Qed.

Lemma unknown_peer_run nsi msg saddr lk :
  tlv_octets -> wf_ns nsi -> octets (l2 msg) ->
  (bad_reset msg /\ rcvmsg_unknown_peer msg saddr lk nsi = None) \/
  (~ bad_reset msg /\ exists r nsi' ev,
     rcvmsg_unknown_peer msg saddr lk nsi = Some (r, nsi', ev) /\
     match r with inl id => ns_ok [id] nsi' | inr _ => wf_ns nsi' end).
Proof.
  intros Ht Hw Ho. unfold rcvmsg_unknown_peer. cbv zeta.
  destruct (Z.eqb_spec (rd (l2 msg) 0) NS_PDUT_STATUS) as [Hst|_].
  { right. split; [intros [Hr _]; by rewrite Hst in Hr|]. by exists (inr 0), nsi, []. }
  destruct (Z.eqb_spec (rd (l2 msg) 0) NS_PDUT_RESET) as [Hr|Hr]; cbn [negb].
  2: { right. split; [by intros [? _]|]. rewrite bind_gets.
    assert (ns_ok [unknown_nsvc nsi] nsi) as Hok by (split; [done|]; apply Forall_singleton, (wn_unknown _ Hw)).
    set (id := unknown_nsvc nsi) in *. assert (id ∈ [id]) as Hid by by left.
    match goal with |- context [nsvc_upd id ?f ≫= _] =>
      assert (safe [id] (nsvc_upd id f)) as Hs by safe_walk end.
    destruct (Hs nsi Hok) as ([] & nsi1 & ev1 & H1 & Hok1). rewrite (bind_run _ _ _ _ _ _ _ _ H1).
    destruct (safe_tx_status [id] id NS_CAUSE_PDU_INCOMP_PSTATE 0 msg Hid nsi1 Hok1)
      as (rc & nsi2 & ev2 & H2 & [Hw2 _]). rewrite (bind_run _ _ _ _ _ _ _ _ H2).
    by eexists (inr rc), nsi2, _. }
  destruct (ns_ies msg) as [tp|rc] eqn:Htp.
  2: { right. split; [intros (_ & tp & ? & _); congruence|]. by exists (inr rc), nsi, []. }
  destruct (tp NS_IE_CAUSE) as [ca|] eqn:E1; [|left; split; [split; [done|]; exists tp; tauto|done]].
  destruct (tp NS_IE_VCI) as [vci|] eqn:E2; [|left; split; [split; [done|]; exists tp; tauto|done]].
  destruct (tp NS_IE_NSEI) as [sei|] eqn:E3; [|left; split; [split; [done|]; exists tp; tauto|done]].
  right. split.
  { intros (_ & tp' & Heq & Hbad). rewrite Htp in Heq. injection Heq as <-. destruct Hbad as [?|[?|?]]; congruence. }
  rewrite bind_gets.
  assert (exists id nsi1, (match nsvc_by_nsei nsi (rd_be16 sei) with
            | Some id => mret id
            | None => id ← nsvc_create 0xffff; nsvc_upd id (fun v => v <| ll := lk |>);; mret id
            end) nsi = Some (id, nsi1, []) /\ ns_ok [id] nsi1) as (id & nsi1 & H1 & Hok).
  { destruct (nsvc_by_nsei nsi (rd_be16 sei)) as [id|] eqn:Hf.
    - exists id, nsi. split; [done|]. by apply nsvc_find_ok in Hf as (_ & ? & _).
    - destruct (create_nsvc_run nsi lk Hw) as (nsi' & ? & ?). by exists (next_nsvc nsi), nsi'. }
  rewrite (bind_run _ _ _ _ _ _ _ _ H1).
  assert (safe [id] (nsvc_upd id (fun v => v <| bts_addr := saddr |>))) as Hs by safe_walk.
  destruct (Hs nsi1 Hok) as ([] & nsi2 & ev2 & H2 & Hok2). rewrite (bind_run _ _ _ _ _ _ _ _ H2).
  by eexists (inl id), nsi2, _.
Qed.

Lemma rcvmsg_run nsi msg saddr lk :
  tlv_octets -> wf_ns nsi -> octets (l2 msg) ->
  (gprs_ns_rcvmsg msg saddr lk nsi = None /\ nsvc_by_rem_addr nsi saddr = None /\ bad_reset msg) \/
  (runs_ok (gprs_ns_rcvmsg msg saddr lk) nsi /\ ~ (nsvc_by_rem_addr nsi saddr = None /\ bad_reset msg)).
Proof.
  intros Ht Hw Ho. unfold gprs_ns_rcvmsg, runs_ok. rewrite bind_gets.
  assert (forall id msg nsi1, octets (l2 msg) -> ns_ok [id] nsi1 ->
    runs_ok (rate_ctr_inc id NS_CTR_PKTS_IN;; rate_ctr_add id NS_CTR_BYTES_IN (Z.of_nat (length (l2 msg)));;
             rcvmsg_dispatch id msg) nsi1) as Hgo.
  { intros id msg' nsi1 Ho' Hok. assert (id ∈ [id]) as Hid by by left.
    pose proof (safe_dispatch [id] id msg' Ht Ho' Hid) as Hd. eapply safe_runs; [|exact Hok]. safe_walk. }
  destruct (nsvc_by_rem_addr nsi saddr) as [id|] eqn:Hf.
  - right. split; [|by intros [? _]]. apply nsvc_find_ok in Hf as (_ & Hok & v & Hv & _); [|done].
    assert ((v ← nsvc_get id; mret (inl id : nat + Z, msg <| m_nsei := nsei v |>)) nsi
            = Some ((inl id, msg <| m_nsei := nsei v |>), nsi, [])) as H1.
    { unfold mbind, M_bind, nsvc_get. by rewrite Hv. }
    rewrite (bind_run _ _ _ _ _ _ _ _ H1).
    set (msg1 := msg <| m_nsei := nsei v |>). assert (octets (l2 msg1)) as Ho1 by exact Ho.
    destruct (Hgo id msg1 nsi Ho1 Hok) as (a & nsi' & ev & Ha & Hw').
    cbv beta iota. rewrite Ha. by eexists a, nsi', _.
  - destruct (unknown_peer_run nsi msg saddr lk Ht Hw Ho) as [[Hb Hn]|(Hb & r & nsi1 & ev & H1 & Hr)].
    + left. split; [|done]. unfold mbind, M_bind. by rewrite Hn.
    + right. split; [|by intros [_ ?]].
      assert ((x ← rcvmsg_unknown_peer msg saddr lk; mret (x, msg)) nsi = Some ((r, msg), nsi1, ev)) as H2.
      { rewrite (bind_run _ _ _ _ _ _ _ _ H1). cbn. by rewrite app_nil_r. }
      rewrite (bind_run _ _ _ _ _ _ _ _ H2). destruct r as [id|rc].
      * destruct (Hgo id msg nsi1 Ho Hr) as (a & nsi' & ev' & Ha & Hw'). rewrite Ha. by eexists a, nsi', _.
      * by eexists rc, nsi1, _.
Qed.

(** from a consistent instance, reception of a PDU follows a null pointer exactly when the PDU
    is a RESET without one of its mandatory elements from a peer that is not known yet; every
    other PDU from whatever peer is processed to its end. *)
Theorem rcvmsg_null_pointer_iff nsi msg saddr lk :
  tlv_octets -> wf_ns nsi -> octets (l2 msg) ->
  gprs_ns_rcvmsg msg saddr lk nsi = None <-> nsvc_by_rem_addr nsi saddr = None /\ bad_reset msg.
Proof.
  intros Ht Hw Ho. destruct (rcvmsg_run nsi msg saddr lk Ht Hw Ho) as [(Hn & Hp)|[Hr Hnp]]; [done|].
  destruct Hr as (a & nsi' & ev & Ha & _). rewrite Ha. split; [done|]. intros Hc. by destruct (Hnp Hc).
Qed.

Lemma runs_connect nsi dest sei vci :
  wf_ns nsi -> in_width 16 sei -> in_width 16 vci -> runs_ok (nsip_connect dest sei vci) nsi.
Proof.
  intros Hw Hs Hv. unfold runs_ok, nsip_connect. rewrite bind_gets.
  assert (exists id nsi1, (match nsvc_by_rem_addr nsi dest with Some id => mret id | None => nsvc_create vci end)
            nsi = Some (id, nsi1, []) /\ ns_ok [id] nsi1) as (id & nsi1 & H1 & Hok).
  { destruct (nsvc_by_rem_addr nsi dest) as [id|] eqn:Hf.
    - exists id, nsi. split; [done|]. by apply nsvc_find_ok in Hf as (_ & ? & _).
    - destruct (create_run nsi vci Hw Hv) as (nsi' & ? & ?). by exists (next_nsvc nsi), nsi'. }
  rewrite (bind_run _ _ _ _ _ _ _ _ H1). assert (id ∈ [id]) as Hid by by left.
  pose proof (safe_nsvc_reset [id] id NS_CAUSE_OM_INTERVENTION Hid) as Hreset.
  match goal with |- exists a nsi' ev, match ?m nsi1 with _ => _ end = _ /\ _ =>
    assert (safe [id] m) as Hm by safe_walk end.
  destruct (Hm nsi1 Hok) as (a & nsi2 & ev & Ha & [Hw2 _]). rewrite Ha. by eexists a, nsi2, _.
Qed.

Lemma runs_delete nsi id : wf_ns nsi -> id ∈ gprs_nsvcs nsi -> runs_ok (nsvc_delete id) nsi.
Proof.
  intros [H1 H2 H3 H4 H5 H6] Hin. do 3 eexists. split; [reflexivity|].
  assert (unknown_nsvc nsi <> id) as Hne by (intros <-; done). split; cbn.
  - by apply NoDup_filter.
  - intros i [Hi Hl]%list_elem_of_filter. rewrite lookup_delete_ne by done. by apply H2.
  - by rewrite lookup_delete_ne by done.
  - rewrite list_elem_of_filter. tauto.
  - intros i. rewrite lookup_delete. case_decide; [by intros [? ?]|]. apply H5.
  - intros i v. rewrite lookup_delete. case_decide; [done|]. apply H6.
Qed.

(** One entry point of the instance is called and returns. *)
Inductive ns_step : gprs_ns_inst -> gprs_ns_inst -> Prop :=
| step_sendmsg nsi msg rc nsi' ev : gprs_ns_sendmsg msg nsi = Some (rc, nsi', ev) -> ns_step nsi nsi'
| step_rcvmsg nsi msg saddr lk rc nsi' ev :
    octets (l2 msg) -> gprs_ns_rcvmsg msg saddr lk nsi = Some (rc, nsi', ev) -> ns_step nsi nsi'
| step_timer nsi id nsi' ev :
    id ∈ gprs_nsvcs nsi -> timer_expired id nsi = Some (tt, nsi', ev) -> ns_step nsi nsi'
| step_connect nsi dest sei vci id nsi' ev :
    in_width 16 sei -> in_width 16 vci -> nsip_connect dest sei vci nsi = Some (id, nsi', ev) ->
    ns_step nsi nsi'
| step_reset nsi id cause nsi' ev :
    id ∈ gprs_nsvcs nsi -> gprs_nsvc_reset id cause nsi = Some (tt, nsi', ev) -> ns_step nsi nsi'
| step_block nsi id cause rc nsi' ev :
    id ∈ gprs_nsvcs nsi -> gprs_ns_tx_block id cause nsi = Some (rc, nsi', ev) -> ns_step nsi nsi'
| step_unblock nsi id rc nsi' ev :
    id ∈ gprs_nsvcs nsi -> gprs_ns_tx_unblock id nsi = Some (rc, nsi', ev) -> ns_step nsi nsi'
| step_delete nsi id nsi' ev :
    id ∈ gprs_nsvcs nsi -> nsvc_delete id nsi = Some (tt, nsi', ev) -> ns_step nsi nsi'.

Inductive ns_reachable : gprs_ns_inst -> Prop :=
| ns_init : ns_reachable gprs_ns_instantiate
| ns_reach nsi nsi' : ns_reachable nsi -> ns_step nsi nsi' -> ns_reachable nsi'.

Lemma runs_wf A (m : NS A) nsi a nsi' ev : runs_ok m nsi -> m nsi = Some (a, nsi', ev) -> wf_ns nsi'.
Proof. intros (a0 & nsi0 & ev0 & H0 & Hw) H. rewrite H0 in H. by injection H as _ <- _. Qed.

Lemma runs_listed A (m : NS A) nsi id :
  wf_ns nsi -> id ∈ gprs_nsvcs nsi -> safe [id] m -> runs_ok m nsi.
Proof.
  intros Hw Hin Hs. eapply safe_runs; [exact Hs|]. split; [done|].
  by apply Forall_singleton, (wn_listed _ Hw).
Qed.

Lemma wf_ns_step nsi nsi' : tlv_octets -> ns_step nsi nsi' -> wf_ns nsi -> wf_ns nsi'.
Proof.
  intros Ht Hstep Hw. assert (forall id : nat, id ∈ [id]) as Hid by (by left).
  destruct Hstep as [? ? ? ? ? Hr|? ? ? ? ? ? ? Ho Hr|? id ? ? Hin Hr|? ? ? ? ? ? ? Hs Hv Hr
    |? id ? ? ? Hin Hr|? id ? ? ? ? Hin Hr|? id ? ? ? Hin Hr|? ? ? ? Hin Hr].
  - eapply runs_wf; [|exact Hr]. by apply runs_sendmsg.
  - destruct (rcvmsg_run nsi msg saddr lk Ht Hw Ho) as [(Hn & _)|[Hok _]]; [congruence|].
    by eapply runs_wf.
  - eapply runs_wf; [|exact Hr]. eapply runs_listed; [done..|]. by apply safe_timer_expired.
  - eapply runs_wf; [|exact Hr]. by apply runs_connect.
  - eapply runs_wf; [|exact Hr]. eapply runs_listed; [done..|]. by apply safe_nsvc_reset.
  - eapply runs_wf; [|exact Hr]. eapply runs_listed; [done..|]. by apply safe_tx_block.
  - eapply runs_wf; [|exact Hr]. eapply runs_listed; [done..|]. by apply safe_tx_simple.
  - eapply runs_wf; [|exact Hr]. by apply runs_delete.
Qed.

(** in every state the NS instance reaches through its entry points the list names allocated
    NS-VCs without duplicates, the spare NS-VC exists and is not in the list, and identifiers
    and states are in range. *)
Theorem ns_reachable_wf nsi : tlv_octets -> ns_reachable nsi -> wf_ns nsi.
Proof.
  intros Ht. induction 1; [|by eapply wf_ns_step]. split; cbn.
  - constructor.
  - by intros id ?%elem_of_nil.
  - by eexists.
  - by intros ?%elem_of_nil.
  - intros id [v Hv]. rewrite lookup_singleton in Hv. case_decide; [lia|done].
  - intros id v. rewrite lookup_singleton. case_decide; [intros [= <-]|done]. split; vm_bounds.
Qed.

End Operations.

End NsProps.
