(* ===== verification/NsPeer.v ===== *)
(** The NS-VC as a state machine, and the procedures between two instances.

    [peer_step] is what one side of an NS-VC does when a PDU of its peer arrives: an abstract
    machine over the state bits, the identifiers and the running timer. Reception of a datagram
    from a known peer refines it. The RESET procedure is run between two such machines, and the
    result carries over to two instances that exchange datagrams. *)

From S2P Require Import Prelude Ns NsProps.
Import Ns NsProps.

Module NsPeer.

(** ** The abstract machine *)

Inductive pdu : Type :=
| P_ALIVE | P_ALIVE_ACK
| P_RESET (cause sei vci : Z) | P_RESET_ACK (sei vci : Z)
| P_BLOCK (cause vci : Z) | P_BLOCK_ACK
| P_UNBLOCK | P_UNBLOCK_ACK.

Record peer : Type := mk_peer {
  p_state : Z;
  p_nsei : Z;
  p_nsvci : Z;
  p_sgsn : bool;                     (* the remote end is the SGSN *)
  p_timer : option nsvc_timer_mode   (* the running timer *)
}.

Definition peer_step (p : peer) (x : pdu) : peer * list pdu :=
  match x with
  | P_ALIVE =>
      (p, if p_state p =? NSE_S_BLOCKED
          then [P_RESET NS_CAUSE_PDU_INCOMP_PSTATE (p_nsei p) (p_nsvci p)] else [P_ALIVE_ACK])
  | P_ALIVE_ACK =>
      (mk_peer (p_state p) (p_nsei p) (p_nsvci p) (p_sgsn p) (Some NSVC_TIMER_TNS_TEST),
       if p_sgsn p && tst (p_state p) NSE_S_BLOCKED then [P_UNBLOCK] else [])
  | P_RESET _ sei vci =>
      (mk_peer (NSE_S_BLOCKED .| NSE_S_ALIVE) sei vci (p_sgsn p) (Some NSVC_TIMER_TNS_TEST),
       [P_ALIVE; P_RESET_ACK sei vci])
  | P_RESET_ACK _ _ =>
      (mk_peer (NSE_S_BLOCKED .| NSE_S_ALIVE) (p_nsei p) (p_nsvci p) (p_sgsn p) (Some NSVC_TIMER_TNS_TEST),
       [P_ALIVE])
  | P_BLOCK _ _ =>
      (mk_peer (p_state p .| NSE_S_BLOCKED) (p_nsei p) (p_nsvci p) (p_sgsn p) (p_timer p), [P_BLOCK_ACK])
  | P_BLOCK_ACK => (p, [])
  | P_UNBLOCK =>
      (mk_peer (Z.land (p_state p) (Z.lnot NSE_S_BLOCKED)) (p_nsei p) (p_nsvci p) (p_sgsn p) (p_timer p),
       [P_UNBLOCK_ACK])
  | P_UNBLOCK_ACK => (mk_peer NSE_S_ALIVE (p_nsei p) (p_nsvci p) (p_sgsn p) (p_timer p), [])
  end.

Section Refinement.
Context {env : NsEnv}.
Abbreviation NS := (M gprs_ns_inst ns_event).

Definition enc (x : pdu) : list Z :=
  match x with
  | P_ALIVE => [NS_PDUT_ALIVE]
  | P_ALIVE_ACK => [NS_PDUT_ALIVE_ACK]
  | P_RESET cause sei vci =>
      [NS_PDUT_RESET] ++ msgb_tvlv_put NS_IE_CAUSE [cause] ++ msgb_tvlv_put NS_IE_VCI (be16 vci)
      ++ msgb_tvlv_put NS_IE_NSEI (be16 sei)
  | P_RESET_ACK sei vci =>
      [NS_PDUT_RESET_ACK] ++ msgb_tvlv_put NS_IE_VCI (be16 vci) ++ msgb_tvlv_put NS_IE_NSEI (be16 sei)
  | P_BLOCK cause vci =>
      [NS_PDUT_BLOCK] ++ msgb_tvlv_put NS_IE_CAUSE [cause] ++ msgb_tvlv_put NS_IE_VCI (be16 vci)
  | P_BLOCK_ACK => [NS_PDUT_BLOCK_ACK]
  | P_UNBLOCK => [NS_PDUT_UNBLOCK]
  | P_UNBLOCK_ACK => [NS_PDUT_UNBLOCK_ACK]
  end.

(** What the TLV library documents: elements that were put are found, with their value, and
    memory for messages is there. *)
Record ns_env_ok : Prop := {
  ok_msgb : ns_msgb_ok = true;
  ok_parse : forall ies : list (Z * list Z), NoDup ies.*1 ->
    exists tp, tlv_parse (concat ((fun '(t, v) => msgb_tvlv_put t v) <$> ies)) = Ok tp /\
      forall t v, (t, v) ∈ ies -> exists rest, tp t = Some (v ++ rest)
}.

Definition abs (v : gprs_nsvc) : peer :=
  mk_peer (state v) (nsei v) (nsvci v) (remote_end_is_sgsn v)
    (match timer v with Some _ => Some (timer_mode v) | None => None end).

(** The datagrams among the events. *)
Definition datagrams (ev : list ns_event) : list (sockaddr_in * list Z) :=
  omap (fun e => match e with NS_SENDTO GPRS_NS_LL_UDP a d => Some (a, d) | _ => None end) ev.

(** ** Running an operation on one NS-VC *)

Definition put (id : nat) (v : gprs_nsvc) (nsi : gprs_ns_inst) : gprs_ns_inst :=
  nsi <| nsvcs ::= insert id v |>.

Lemma put_self id v nsi : nsvcs nsi !! id = Some v -> put id v nsi = nsi.
Proof. intros H. unfold put, upd, upd_nsvcs. destruct nsi. cbn in *. by rewrite insert_id. Qed.

Lemma put_put id v v' nsi : put id v (put id v' nsi) = put id v nsi.
Proof. unfold put, upd, upd_nsvcs. cbn. by rewrite insert_insert_eq. Qed.

Definition conn (v : gprs_nsvc) : sockaddr_in * gprs_ns_ll := (bts_addr v, ll v).

Section Acts.
Context (id : nat) (nsi : gprs_ns_inst).

(** [m] run on the NS-VC [v] takes it to one that the machine sees as [p], sends the datagrams
    [out] to the peer, and touches nothing else. *)
Definition acts {A} (m : NS A) (v : gprs_nsvc) (p : peer) (out : list (list Z)) : Prop :=
  exists a v' ev, m (put id v nsi) = Some (a, put id v' nsi, ev) /\
    conn v' = conn v /\ abs v' = p /\ datagrams ev = (fun d => (bts_addr v, d)) <$> out.

Lemma acts_ret A (a : A) v : acts (mret a) v (abs v) [].
Proof. by exists a, v, []. Qed.

Lemma acts_bind A B (m : NS A) (k : A -> NS B) v p1 p2 out1 out2 :
  acts m v p1 out1 -> (forall a v1, conn v1 = conn v -> abs v1 = p1 -> acts (k a) v1 p2 out2) ->
  acts (m ≫= k) v p2 (out1 ++ out2).
Proof.
  intros (a & v1 & ev1 & H1 & C1 & A1 & D1) Hk.
  destruct (Hk a v1 C1 A1) as (b & v2 & ev2 & H2 & C2 & A2 & D2).
  exists b, v2, (ev1 ++ ev2). split; [|split; [congruence|split; [done|]]].
  - unfold mbind, M_bind. by rewrite H1, H2.
  - unfold datagrams in *. rewrite omap_app, D1, D2, fmap_app. by injection C1 as -> _.
Qed.

Lemma acts_bind0 A B (m : NS A) (k : A -> NS B) v p1 p2 out :
  acts m v p1 [] -> (forall a v1, conn v1 = conn v -> abs v1 = p1 -> acts (k a) v1 p2 out) ->
  acts (m ≫= k) v p2 out.
Proof. apply (acts_bind _ _ _ _ _ _ _ []). Qed.

Lemma acts_get B (k : gprs_nsvc -> NS B) v p out : acts (k v) v p out -> acts (nsvc_get id ≫= k) v p out.
Proof.
  intros (b & v' & ev & H & ?). exists b, v', ev. split; [|done].
  unfold mbind, M_bind, nsvc_get. unfold put at 1. cbn. rewrite lookup_insert_eq. fold (put id v nsi).
  by rewrite H.
Qed.

Lemma acts_upd f v p : conn (f v) = conn v -> abs (f v) = p -> acts (nsvc_upd id f) v p [].
Proof.
  intros Hc Ha. exists tt, (f v), []. split; [|done]. unfold nsvc_upd, modify, put, upd, upd_nsvcs. cbn.
  by rewrite alter_insert_eq.
Qed.

Lemma acts_emit s i c v : acts (emit (NS_SIGNAL s i c)) v (abs v) [].
Proof. by exists tt, v, [NS_SIGNAL s i c]. Qed.

Lemma acts_tx v d : ll v = GPRS_NS_LL_UDP -> acts (gprs_ns_tx id d) v (abs v) [d].
Proof.
  intros Hll. unfold gprs_ns_tx. apply (acts_bind0 _ _ _ _ v (abs v)); [by apply acts_upd|].
  intros _ v1 C1 A1. apply (acts_bind0 _ _ _ _ v1 (abs v1)); [by apply acts_upd|]. intros _ v2 C2 A2.
  apply acts_get. assert (conn v2 = conn v) as C by congruence. injection C as Cb Cl. rewrite Cl, Hll.
  unfold nsip_sendmsg. apply acts_get. set (e := NS_SENDTO GPRS_NS_LL_UDP (bts_addr v2) d).
  exists (sendto_rc e), v2, [e]. split; [done|]. split; [done|]. split; [congruence|done].
Qed.

Lemma acts_tx_simple v t :
  ns_env_ok -> ll v = GPRS_NS_LL_UDP -> acts (gprs_ns_tx_simple id t) v (abs v) [[t]].
Proof. intros Henv Hll. unfold gprs_ns_tx_simple. rewrite (ok_msgb Henv). by apply acts_tx. Qed.

Lemma acts_tx_reset v c :
  ns_env_ok -> ll v = GPRS_NS_LL_UDP ->
  acts (gprs_ns_tx_reset id c) v (abs v) [enc (P_RESET c (nsei v) (nsvci v))].
Proof.
  intros Henv Hll. unfold gprs_ns_tx_reset. apply acts_get. rewrite (ok_msgb Henv). by apply acts_tx.
Qed.

Lemma acts_tx_reset_ack v :
  ns_env_ok -> ll v = GPRS_NS_LL_UDP ->
  acts (gprs_ns_tx_reset_ack id) v (abs v) [enc (P_RESET_ACK (nsei v) (nsvci v))].
Proof.
  intros Henv Hll. unfold gprs_ns_tx_reset_ack. rewrite (ok_msgb Henv). apply acts_get. by apply acts_tx.
Qed.

Definition timed (p : peer) (m : nsvc_timer_mode) : peer :=
  mk_peer (p_state p) (p_nsei p) (p_nsvci p) (p_sgsn p) (Some m).

Lemma acts_start_timer v m : acts (nsvc_start_timer id m) v (timed (abs v) m) [].
Proof.
  unfold nsvc_start_timer, acts. rewrite bind_gets. by apply acts_upd.
Qed.

(** PDUs whose fields fit. *)
Definition pdu_ok (x : pdu) : Prop :=
  match x with
  | P_RESET c sei vci => in_width 16 sei /\ in_width 16 vci
  | _ => True
  end.

Lemma ies_reset c sei vci n b :
  ns_env_ok ->
  exists tp r1 r2 r3, ns_ies (mk_ns_msg (enc (P_RESET c sei vci)) n b) = Ok tp /\
    tp NS_IE_CAUSE = Some (c :: r1) /\ tp NS_IE_VCI = Some (be16 vci ++ r2) /\
    tp NS_IE_NSEI = Some (be16 sei ++ r3).
Proof.
  intros Henv.
  destruct (ok_parse Henv [(NS_IE_CAUSE, [c]); (NS_IE_VCI, be16 vci); (NS_IE_NSEI, be16 sei)])
    as (tp & Hp & Hin).
  { cbn. repeat constructor; rewrite ?elem_of_cons, elem_of_nil; vm_compute; intuition discriminate. }
  destruct (Hin NS_IE_CAUSE [c]) as [r1 H1]; [by left|].
  destruct (Hin NS_IE_VCI (be16 vci)) as [r2 H2]; [by right; left|].
  destruct (Hin NS_IE_NSEI (be16 sei)) as [r3 H3]; [by right; right; left|].
  exists tp, r1, r2, r3. split; [|done]. unfold ns_ies. cbn [enc l2]. cbn in Hp. rewrite app_nil_r in Hp.
  exact Hp.
Qed.

Lemma ies_block c vci n b :
  ns_env_ok ->
  exists tp r1 r2, ns_ies (mk_ns_msg (enc (P_BLOCK c vci)) n b) = Ok tp /\
    tp NS_IE_CAUSE = Some (c :: r1) /\ tp NS_IE_VCI = Some (be16 vci ++ r2).
Proof.
  intros Henv. destruct (ok_parse Henv [(NS_IE_CAUSE, [c]); (NS_IE_VCI, be16 vci)]) as (tp & Hp & Hin).
  { cbn. repeat constructor; rewrite ?elem_of_cons, elem_of_nil; vm_compute; intuition discriminate. }
  destruct (Hin NS_IE_CAUSE [c]) as [r1 H1]; [by left|].
  destruct (Hin NS_IE_VCI (be16 vci)) as [r2 H2]; [by right; left|].
  exists tp, r1, r2. split; [|done]. unfold ns_ies. cbn [enc l2]. cbn in Hp. rewrite app_nil_r in Hp.
  exact Hp.
Qed.

Lemma acts_rx_reset v c sei vci n b :
  ns_env_ok -> ll v = GPRS_NS_LL_UDP -> in_width 16 sei -> in_width 16 vci ->
  acts (gprs_ns_rx_reset id (mk_ns_msg (enc (P_RESET c sei vci)) n b)) v
    (peer_step (abs v) (P_RESET c sei vci)).1 (enc <$> [P_ALIVE; P_RESET_ACK sei vci]).
Proof.
  intros Henv Hll Hs Hv. destruct (ies_reset c sei vci n b Henv) as (tp & r1 & r2 & r3 & Hp & E1 & E2 & E3).
  unfold gprs_ns_rx_reset. rewrite Hp, E1, E2, E3, !be16_round by done.
  set (p3 := mk_peer (NSE_S_BLOCKED .| NSE_S_ALIVE) sei vci (remote_end_is_sgsn v) (p_timer (abs v))).
  apply (acts_bind0 _ _ _ _ v p3); [by apply acts_upd|]. intros _ v1 C1 A1.
  injection C1 as Cb1 Cl1. apply (acts_bind _ _ _ _ v1 (abs v1) _ [[NS_PDUT_ALIVE]]).
  { apply acts_tx_simple; [done|congruence]. }
  intros _ v2 C2 A2. injection C2 as Cb2 Cl2.
  apply (acts_bind0 _ _ _ _ v2 (timed (abs v2) NSVC_TIMER_TNS_TEST)); [apply acts_start_timer|].
  intros _ v3 C3 A3. injection C3 as Cb3 Cl3.
  apply (acts_bind0 _ _ _ _ v3 (abs v3)); [apply acts_emit|]. intros _ v4 C4 A4. injection C4 as Cb4 Cl4.
  assert (abs v4 = (peer_step (abs v) (P_RESET c sei vci)).1) as A by (rewrite A4, A3, A2, A1; done).
  rewrite <- A. injection A as As An Avc _ _. rewrite <- An, <- Avc. apply acts_tx_reset_ack; [done|congruence].
Qed.

Lemma acts_rx_block v c vci n b :
  ns_env_ok -> ll v = GPRS_NS_LL_UDP ->
  acts (gprs_ns_rx_block id (mk_ns_msg (enc (P_BLOCK c vci)) n b)) v
    (peer_step (abs v) (P_BLOCK c vci)).1 (enc <$> [P_BLOCK_ACK]).
Proof.
  intros Henv Hll. destruct (ies_block c vci n b Henv) as (tp & r1 & r2 & Hp & E1 & E2).
  unfold gprs_ns_rx_block. apply (acts_bind0 _ _ _ _ v (peer_step (abs v) (P_BLOCK c vci)).1).
  { by apply acts_upd. }
  intros _ v1 C1 A1. injection C1 as Cb1 Cl1. rewrite Hp, E1, E2.
  apply (acts_bind0 _ _ _ _ v1 (abs v1)); [apply acts_emit|]. intros _ v2 C2 A2. injection C2 as Cb2 Cl2.
  apply (acts_bind0 _ _ _ _ v2 (abs v2)); [by apply acts_upd|]. intros _ v3 C3 A3. injection C3 as Cb3 Cl3.
  rewrite <- A1, <- A2, <- A3. apply acts_tx_simple; [done|congruence].
Qed.

Lemma acts_rx_reset_ack v :
  ns_env_ok -> ll v = GPRS_NS_LL_UDP ->
  acts (nsvc_upd id (fun v => v <| state := NSE_S_BLOCKED .| NSE_S_ALIVE |>
                            <| remote_state := NSE_S_BLOCKED .| NSE_S_ALIVE |>);;
        rate_ctr_inc id NS_CTR_BLOCKED;;
        v ← nsvc_get id;
        when (persistent v || remote_end_is_sgsn v) (nsvc_upd id (fun v => v <| timer := None |>));;
        rc ← gprs_ns_tx_simple id NS_PDUT_ALIVE;
        nsvc_start_timer id NSVC_TIMER_TNS_TEST;;
        mret rc) v (peer_step (abs v) (P_RESET_ACK 0 0)).1 [[NS_PDUT_ALIVE]].
Proof.
  intros Henv Hll.
  set (p3 := mk_peer (NSE_S_BLOCKED .| NSE_S_ALIVE) (nsei v) (nsvci v) (remote_end_is_sgsn v) (p_timer (abs v))).
  apply (acts_bind0 _ _ _ _ v p3); [by apply acts_upd|]. intros _ v1 C1 A1. injection C1 as Cb1 Cl1.
  apply (acts_bind0 _ _ _ _ v1 (abs v1)); [by apply acts_upd|]. intros _ v2 C2 A2. injection C2 as Cb2 Cl2.
  apply acts_get. set (b := persistent v2 || remote_end_is_sgsn v2).
  set (p4 := if b then mk_peer (state v2) (nsei v2) (nsvci v2) (remote_end_is_sgsn v2) None else abs v2).
  apply (acts_bind0 _ _ _ _ v2 p4).
  { unfold when, p4. destruct b; [by apply acts_upd|apply acts_ret]. }
  intros _ v3 C3 A3. injection C3 as Cb3 Cl3.
  apply (acts_bind _ _ _ _ v3 (abs v3) _ [[NS_PDUT_ALIVE]] []).
  { apply acts_tx_simple; [done|congruence]. }
  intros rc v4 C4 A4. injection C4 as Cb4 Cl4.
  apply (acts_bind0 _ _ _ _ v4 (timed (abs v4) NSVC_TIMER_TNS_TEST)); [apply acts_start_timer|].
  intros _ v5 C5 A5.
  assert ((peer_step (abs v) (P_RESET_ACK 0 0)).1 = abs v5) as ->; [|apply acts_ret].
  rewrite A5, A4, A3. unfold p4. rewrite A1 in A2. destruct b; [|by rewrite A2].
  by injection A2 as -> -> -> -> _.
Qed.

(** The switch over the PDU type follows the machine. *)
Lemma acts_dispatch v x n b :
  ns_env_ok -> ll v = GPRS_NS_LL_UDP -> pdu_ok x ->
  acts (rcvmsg_dispatch id (mk_ns_msg (enc x) n b)) v (peer_step (abs v) x).1
    (enc <$> (peer_step (abs v) x).2).
Proof.
  intros Henv Hll Hx. destruct x as [| |c sei vci|sei vci|c vci| | |]; unfold rcvmsg_dispatch.
  - change (rd (l2 (mk_ns_msg (enc P_ALIVE) n b)) 0) with NS_PDUT_ALIVE. cbn -[acts mbind peer_step].
    apply acts_get. cbn [peer_step fst snd abs p_state p_nsei p_nsvci].
    destruct (state v =? NSE_S_BLOCKED); [by apply acts_tx_reset|by apply acts_tx_simple].
  - change (rd (l2 (mk_ns_msg (enc P_ALIVE_ACK) n b)) 0) with NS_PDUT_ALIVE_ACK. cbn -[acts mbind peer_step].
    apply (acts_bind0 _ _ _ _ v (timed (abs v) NSVC_TIMER_TNS_TEST)); [apply acts_start_timer|].
    intros _ v1 C1 A1. injection C1 as Cb1 Cl1. apply acts_get.
    cbn [peer_step fst snd]. change (mk_peer _ _ _ _ _) with (timed (abs v) NSVC_TIMER_TNS_TEST).
    rewrite <- A1. injection A1 as -> _ _ -> _. cbn [abs p_sgsn p_state].
    destruct (remote_end_is_sgsn v && tst (state v) NSE_S_BLOCKED); [|apply acts_ret].
    apply acts_tx_simple; [done|congruence].
  - by apply acts_rx_reset; [..|apply Hx|apply Hx].
  - by apply acts_rx_reset_ack.
  - by apply acts_rx_block.
  - change (rd (l2 (mk_ns_msg (enc P_BLOCK_ACK) n b)) 0) with NS_PDUT_BLOCK_ACK. cbn -[acts mbind peer_step].
    apply (acts_bind0 _ _ _ _ v (abs v)); [by apply acts_upd|]. intros _ v1 C1 A1. cbn [peer_step fst snd].
    rewrite <- A1. apply acts_ret.
  - change (rd (l2 (mk_ns_msg (enc P_UNBLOCK) n b)) 0) with NS_PDUT_UNBLOCK. cbn -[acts mbind peer_step].
    apply (acts_bind0 _ _ _ _ v (peer_step (abs v) P_UNBLOCK).1); [by apply acts_upd|].
    intros _ v1 C1 A1. injection C1 as Cb1 Cl1.
    apply (acts_bind0 _ _ _ _ v1 (abs v1)); [apply acts_emit|]. intros _ v2 C2 A2. injection C2 as Cb2 Cl2.
    rewrite <- A1, <- A2. apply acts_tx_simple; [done|congruence].
  - change (rd (l2 (mk_ns_msg (enc P_UNBLOCK_ACK) n b)) 0) with NS_PDUT_UNBLOCK_ACK. cbn -[acts mbind peer_step].
    apply (acts_bind0 _ _ _ _ v (peer_step (abs v) P_UNBLOCK_ACK).1); [by apply acts_upd|].
    intros _ v1 C1 A1. apply (acts_bind0 _ _ _ _ v1 (abs v1)); [apply acts_emit|]. intros _ v2 C2 A2.
    rewrite <- A1, <- A2. apply acts_ret.
Qed.

End Acts.

(** ** Reception refines the machine *)

(** The NS-VC behind a peer address that is served over UDP. *)
Definition known (nsi : gprs_ns_inst) (a : sockaddr_in) (id : nat) (v : gprs_nsvc) : Prop :=
  nsvc_by_rem_addr nsi a = Some id /\ nsvcs nsi !! id = Some v /\ bts_addr v = a /\ ll v = GPRS_NS_LL_UDP.

Lemma nsvc_find_put nsi p id v v' :
  nsvcs nsi !! id = Some v -> p v' = p v -> nsvc_find (put id v' nsi) p = nsvc_find nsi p.
Proof.
  intros Hv Hp. unfold nsvc_find, put. cbn. induction (gprs_nsvcs nsi) as [|i ids IH]; [done|].
  cbn [find]. rewrite IH. destruct (decide (i = id)) as [->|Hne].
  - by rewrite lookup_insert_eq, Hv, Hp.
  - by rewrite lookup_insert_ne.
Qed.

Lemma known_put nsi a id v v' :
  known nsi a id v -> conn v' = conn v -> known (put id v' nsi) a id v'.
Proof.
  intros (Hf & Hv & Ha & Hl) [= Cb Cl]. split; [|split; [|split; congruence]].
  - unfold nsvc_by_rem_addr. rewrite (nsvc_find_put _ _ _ v); [done|done|by rewrite Cb].
  - apply lookup_insert_eq.
Qed.

Lemma handle_nsip_read_enc src x : ns_env_ok ->
  handle_nsip_read src (enc x) = gprs_ns_rcvmsg (mk_ns_msg (enc x) 0 0) src GPRS_NS_LL_UDP.
Proof. intros Henv. unfold handle_nsip_read. rewrite (ok_msgb Henv). by destruct x. Qed.

Lemma read_known nsi a id v x :
  ns_env_ok -> known nsi a id v -> pdu_ok x ->
  exists rc v' ev,
    handle_nsip_read a (enc x) nsi = Some (rc, put id v' nsi, ev) /\ conn v' = conn v /\
    abs v' = (peer_step (abs v) x).1 /\
    datagrams ev = (fun y => (a, enc y)) <$> (peer_step (abs v) x).2.
Proof.
  intros Henv (Hf & Hv & Ha & Hl) Hx. rewrite handle_nsip_read_enc by done.
  unfold gprs_ns_rcvmsg. rewrite bind_gets, Hf.
  assert ((v ← nsvc_get id; mret (inl id : nat + Z, (mk_ns_msg (enc x) 0 0) <| m_nsei := nsei v |>)) nsi
          = Some ((inl id, mk_ns_msg (enc x) (nsei v) 0), nsi, [])) as H1.
  { unfold mbind, M_bind, nsvc_get. by rewrite Hv. }
  rewrite (bind_run _ _ _ _ _ _ _ _ H1). cbv beta iota. cbn [l2].
  set (m := (rate_ctr_inc _ _ ≫= _)).
  assert (acts id nsi m v (peer_step (abs v) x).1 (enc <$> (peer_step (abs v) x).2)) as Hm.
  { apply (acts_bind0 _ _ _ _ _ _ v (abs v)); [by apply acts_upd|]. intros _ v1 C1 A1. injection C1 as Cb1 Cl1.
    apply (acts_bind0 _ _ _ _ _ _ v1 (abs v1)); [by apply acts_upd|]. intros _ v2 C2 A2. injection C2 as Cb2 Cl2.
    rewrite <- A1, <- A2. apply acts_dispatch; [done|congruence|done]. }
  destruct Hm as (rc & v' & ev & H & C & A & D). rewrite put_self in H by done. rewrite H.
  exists rc, v', ev. split; [done|]. split; [done|]. split; [done|].
  rewrite D, Ha, <- list_fmap_compose. done.
Qed.

(** C9: reception of a PDU from a known peer refines the abstract machine: the NS-VC of that peer
    makes the machine's transition, exactly the machine's answers are sent, to that peer, and
    every other NS-VC is as it was. *)
Theorem rcvmsg_refines_peer_step nsi a id v x :
  ns_env_ok -> known nsi a id v -> pdu_ok x ->
  exists rc nsi' v' ev,
    handle_nsip_read a (enc x) nsi = Some (rc, nsi', ev) /\ known nsi' a id v' /\
    abs v' = (peer_step (abs v) x).1 /\
    datagrams ev = (fun y => (a, enc y)) <$> (peer_step (abs v) x).2 /\
    gprs_nsvcs nsi' = gprs_nsvcs nsi /\ forall j, j <> id -> nsvcs nsi' !! j = nsvcs nsi !! j.
Proof.
  intros Henv Hk Hx. destruct (read_known nsi a id v x Henv Hk Hx) as (rc & v' & ev & H & C & A & D).
  exists rc, (put id v' nsi), v', ev. split; [done|]. split; [by apply (known_put _ _ _ v)|].
  split; [done|]. split; [done|]. split; [done|]. intros j Hj. by apply lookup_insert_ne.
Qed.

(** ** First contact *)

Lemma known_single nsi a v :
  gprs_nsvcs nsi = [1%nat] -> bts_addr v = a -> ll v = GPRS_NS_LL_UDP -> known (put 1 v nsi) a 1 v.
Proof.
  intros Hl Ha Hll. assert (nsvcs (put 1 v nsi) !! 1%nat = Some v) as Hv by apply lookup_insert_eq.
  split; [|done]. unfold nsvc_by_rem_addr, nsvc_find. change (gprs_nsvcs (put 1 v nsi)) with (gprs_nsvcs nsi).
  rewrite Hl. cbn [find]. by rewrite Hv, Ha, !Z.eqb_refl.
Qed.

Lemma read_reset_new a c sei vci :
  ns_env_ok -> in_width 16 sei -> in_width 16 vci ->
  exists rc nsi' v' ev,
    handle_nsip_read a (enc (P_RESET c sei vci)) gprs_ns_instantiate = Some (rc, nsi', ev) /\
    known nsi' a 1 v' /\
    abs v' = mk_peer (NSE_S_BLOCKED .| NSE_S_ALIVE) sei vci false (Some NSVC_TIMER_TNS_TEST) /\
    datagrams ev = [(a, enc P_ALIVE); (a, enc (P_RESET_ACK sei vci))].
Proof.
  intros Henv Hs Hv. rewrite handle_nsip_read_enc by done.
  destruct (ies_reset c sei vci 0 0 Henv) as (tp & r1 & r2 & r3 & Hp & E1 & E2 & E3).
  set (msg := mk_ns_msg (enc (P_RESET c sei vci)) 0 0) in *.
  set (v0 := (nsvc_new 0xffff) <| bts_addr := a |>).
  set (nsi0 := put 1 v0 (gprs_ns_instantiate <| gprs_nsvcs := [1%nat] |> <| next_nsvc := 2%nat |>)).
  assert (rcvmsg_unknown_peer msg a GPRS_NS_LL_UDP gprs_ns_instantiate = Some (inl 1%nat, nsi0, [])) as Hu.
  { unfold rcvmsg_unknown_peer. rewrite Hp, E1, E2, E3. reflexivity. }
  unfold gprs_ns_rcvmsg. rewrite bind_gets. change (nsvc_by_rem_addr gprs_ns_instantiate a) with (@None nat).
  assert ((x ← rcvmsg_unknown_peer msg a GPRS_NS_LL_UDP; mret (x, msg)) gprs_ns_instantiate
          = Some ((inl 1%nat, msg), nsi0, [])) as H2 by (by rewrite (bind_run _ _ _ _ _ _ _ _ Hu)).
  rewrite (bind_run _ _ _ _ _ _ _ _ H2). cbv beta iota. clear H2 Hu.
  assert (known nsi0 a 1 v0) as Hk by (by apply known_single).
  set (m := (rate_ctr_inc _ _ ≫= _)).
  assert (acts 1 nsi0 m v0 (peer_step (abs v0) (P_RESET c sei vci)).1 (enc <$> [P_ALIVE; P_RESET_ACK sei vci])) as Hm.
  { apply (acts_bind0 _ _ _ _ _ _ v0 (abs v0)); [by apply acts_upd|]. intros _ v1 C1 A1. injection C1 as Cb1 Cl1.
    apply (acts_bind0 _ _ _ _ _ _ v1 (abs v1)); [by apply acts_upd|]. intros _ v2 C2 A2. injection C2 as Cb2 Cl2.
    rewrite <- A1, <- A2. apply (acts_dispatch 1 nsi0 v2 (P_RESET c sei vci)); [done|by rewrite Cl2, Cl1|done]. }
  destruct Hm as (rc & v' & ev & H & C & A & D). rewrite put_self in H by apply Hk.
  rewrite H. exists rc, (put 1 v' nsi0), v', ev. split; [done|]. split; [by apply (known_put _ _ _ v0)|].
  split; [by rewrite A|]. by rewrite D.
Qed.

Lemma connect_new b sei vci :
  ns_env_ok ->
  exists id nsi' v' ev,
    nsip_connect b sei vci gprs_ns_instantiate = Some (id, nsi', ev) /\ known nsi' b 1 v' /\
    abs v' = mk_peer NSE_S_BLOCKED sei vci true (Some NSVC_TIMER_TNS_RESET) /\
    datagrams ev = [(b, enc (P_RESET NS_CAUSE_OM_INTERVENTION sei vci))].
Proof.
  intros Henv. unfold nsip_connect. rewrite bind_gets.
  change (nsvc_by_rem_addr gprs_ns_instantiate b) with (@None nat).
  set (nsi0 := put 1 (nsvc_new vci) (gprs_ns_instantiate <| gprs_nsvcs := [1%nat] |> <| next_nsvc := 2%nat |>)).
  assert (nsvc_create vci gprs_ns_instantiate = Some (1%nat, nsi0, [])) as H1 by reflexivity.
  rewrite (bind_run _ _ _ _ _ _ _ _ H1). clear H1.
  set (v0 := (nsvc_new vci) <| bts_addr := b |> <| nsei := sei |> <| nsvci := vci |> <| remote_end_is_sgsn := true |>).
  match goal with |- context [nsvc_upd 1 ?f ≫= _] => set (f0 := f) end.
  assert (nsvc_upd 1 f0 nsi0 = Some (tt, put 1 v0 nsi0, [])) as H2.
  { unfold nsvc_upd, modify, nsi0, put, upd, upd_nsvcs. cbn. by rewrite alter_insert_eq, insert_insert_eq. }
  rewrite (bind_run _ _ _ _ _ _ _ _ H2). clear H2.
  assert (known (put 1 v0 nsi0) b 1 v0) as Hk by (by apply known_single).
  match goal with |- context [match ?x with Some _ => _ | None => _ end] =>
    match x with (?m _) => set (m0 := m) end end.
  assert (acts 1 nsi0 m0 v0 (mk_peer NSE_S_BLOCKED sei vci true (Some NSVC_TIMER_TNS_RESET))
            [enc (P_RESET NS_CAUSE_OM_INTERVENTION sei vci)]) as Hm.
  { unfold m0. apply (acts_bind _ _ _ _ _ _ v0 (mk_peer NSE_S_BLOCKED sei vci true (Some NSVC_TIMER_TNS_RESET))
                          _ [enc (P_RESET NS_CAUSE_OM_INTERVENTION sei vci)] []).
    - unfold gprs_nsvc_reset. apply (acts_bind0 _ _ _ _ _ _ v0 (abs v0)); [by apply acts_upd|].
      intros _ v1 C1 A1. injection C1 as Cb1 Cl1.
      assert (nsei v1 = sei /\ nsvci v1 = vci) as [Hn Hvc] by (by injection A1).
      apply (acts_bind _ _ _ _ _ _ v1 (abs v1) _ [enc (P_RESET NS_CAUSE_OM_INTERVENTION sei vci)] []).
      { rewrite <- Hn, <- Hvc at 1. apply acts_tx_reset; [done|by rewrite Cl1]. }
      intros _ v2 C2 A2.
      assert (mk_peer NSE_S_BLOCKED sei vci true (Some NSVC_TIMER_TNS_RESET) = timed (abs v2) NSVC_TIMER_TNS_RESET)
        as -> by (rewrite A2, A1; done).
      apply acts_start_timer.
    - intros _ v1 C1 A1. rewrite <- A1. apply acts_ret. }
  destruct Hm as (id & v' & ev & H & C & A & D). rewrite H.
  exists id, (put 1 v' nsi0), v', ev. split; [done|].
  split; [rewrite <- (put_put 1 v' v0); by apply (known_put _ _ _ v0)|]. split; [done|]. by rewrite D.
Qed.

(** ** Two instances and the wire between them *)

(** The datagrams in flight, in their order; the flag tells those to the SGSN. *)
Record net : Type := mk_net { n_bss : gprs_ns_inst; n_sgsn : gprs_ns_inst; wire : list (bool * list Z) }.

(** What was sent to address [a] goes on the wire. *)
Definition to_wire (dir : bool) (a : sockaddr_in) (ev : list ns_event) : list (bool * list Z) :=
  omap (fun '(dst, d) => if decide (dst = a) then Some (dir, d) else None) (datagrams ev).

(** The BSS has address [a], the SGSN address [b]; they exchange datagrams until none is left. *)
Fixpoint net_run (fuel : nat) (a b : sockaddr_in) (n : net) : option net :=
  match wire n with
  | [] => Some n
  | (true, d) :: w =>
      match fuel with
      | O => None
      | S fuel =>
          '(_, nsi, ev) ← handle_nsip_read a d (n_sgsn n);
          net_run fuel a b (mk_net (n_bss n) nsi (w ++ to_wire false a ev))
      end
  | (false, d) :: w =>
      match fuel with
      | O => None
      | S fuel =>
          '(_, nsi, ev) ← handle_nsip_read b d (n_bss n);
          net_run fuel a b (mk_net nsi (n_sgsn n) (w ++ to_wire true b ev))
      end
  end.

Lemma net_run_to_sgsn fuel a b bss sgsn d w rc nsi ev :
  handle_nsip_read a d sgsn = Some (rc, nsi, ev) ->
  net_run (S fuel) a b (mk_net bss sgsn ((true, d) :: w)) =
  net_run fuel a b (mk_net bss nsi (w ++ to_wire false a ev)).
Proof. intros Hr. cbn [net_run wire n_sgsn n_bss]. by rewrite Hr. Qed.

Lemma net_run_to_bss fuel a b bss sgsn d w rc nsi ev :
  handle_nsip_read b d bss = Some (rc, nsi, ev) ->
  net_run (S fuel) a b (mk_net bss sgsn ((false, d) :: w)) =
  net_run fuel a b (mk_net nsi sgsn (w ++ to_wire true b ev)).
Proof. intros Hr. cbn [net_run wire n_sgsn n_bss]. by rewrite Hr. Qed.

(** The same with two abstract machines. *)
Fixpoint peers_run (fuel : nat) (p1 p2 : peer) (w : list (bool * pdu)) : option (peer * peer) :=
  match w with
  | [] => Some (p1, p2)
  | (true, x) :: w =>
      match fuel with
      | O => None
      | S fuel => let '(p2, out) := peer_step p2 x in peers_run fuel p1 p2 (w ++ (pair false <$> out))
      end
  | (false, x) :: w =>
      match fuel with
      | O => None
      | S fuel => let '(p1, out) := peer_step p1 x in peers_run fuel p1 p2 (w ++ (pair true <$> out))
      end
  end.

Definition peer_ok (p : peer) : Prop := in_width 16 (p_nsei p) /\ in_width 16 (p_nsvci p).

Lemma peer_step_ok p x : peer_ok p -> pdu_ok x -> peer_ok (peer_step p x).1 /\ Forall pdu_ok (peer_step p x).2.
Proof.
  intros [Hn Hv] Hx. destruct x; cbn [pdu_ok peer_step fst snd] in *;
    (split; [unfold peer_ok; cbn; tauto|]); try case_match;
    rewrite ?Forall_cons, ?Forall_nil; cbn; tauto.
Qed.

Lemma to_wire_out dir a ev out :
  datagrams ev = (fun y => (a, enc y)) <$> out ->
  to_wire dir a ev = (fun '(dir, x) => (dir, enc x)) <$> (pair dir <$> out).
Proof.
  intros Hd. unfold to_wire. rewrite Hd. clear Hd. induction out as [|y out IH]; [done|]. cbn.
  rewrite decide_True by done. f_equal. exact IH.
Qed.

Lemma net_run_refines fuel a b p1 p2 w p1' p2' bss sgsn id1 id2 v1 v2 :
  ns_env_ok -> known bss b id1 v1 -> known sgsn a id2 v2 -> abs v1 = p1 -> abs v2 = p2 ->
  peer_ok p1 -> peer_ok p2 -> Forall (fun '(_, x) => pdu_ok x) w ->
  peers_run fuel p1 p2 w = Some (p1', p2') ->
  exists n' v1' v2',
    net_run fuel a b (mk_net bss sgsn ((fun '(dir, x) => (dir, enc x)) <$> w)) = Some n' /\ wire n' = [] /\
    known (n_bss n') b id1 v1' /\ known (n_sgsn n') a id2 v2' /\ abs v1' = p1' /\ abs v2' = p2'.
Proof.
  intros Henv. revert p1 p2 w bss sgsn v1 v2.
  induction fuel as [|fuel IH]; intros p1 p2 w bss sgsn v1 v2 K1 K2 A1 A2 O1 O2 Ow Hrun.
  { destruct w as [|[[] x] w]; try done. injection Hrun as <- <-. by do 3 eexists. }
  destruct w as [|[dir x] w]; [injection Hrun as <- <-; by do 3 eexists|].
  apply Forall_cons in Ow as [Ox Ow]. rewrite fmap_cons. destruct dir.
  - cbn [peers_run] in Hrun.
    destruct (read_known sgsn a id2 v2 x Henv K2 Ox) as (rc & v2' & ev & Hr & C & A & D).
    rewrite (net_run_to_sgsn fuel a b bss sgsn (enc x) _ _ _ _ Hr).
    destruct (peer_step_ok p2 x O2 Ox) as [O2' Oo]. rewrite A2 in A, D.
    destruct (peer_step p2 x) as [p2'' out]. cbn [fst snd] in *.
    rewrite (to_wire_out false a ev out D). rewrite <- fmap_app.
    eapply IH; [exact K1|by apply (known_put _ _ _ v2)|done|done|done|done| |exact Hrun].
    apply Forall_app. split; [done|]. by apply Forall_fmap.
  - cbn [peers_run] in Hrun.
    destruct (read_known bss b id1 v1 x Henv K1 Ox) as (rc & v1' & ev & Hr & C & A & D).
    rewrite (net_run_to_bss fuel a b bss sgsn (enc x) _ _ _ _ Hr).
    destruct (peer_step_ok p1 x O1 Ox) as [O1' Oo]. rewrite A1 in A, D.
    destruct (peer_step p1 x) as [p1'' out]. cbn [fst snd] in *.
    rewrite (to_wire_out true b ev out D). rewrite <- fmap_app.
    eapply IH; [by apply (known_put _ _ _ v1)|exact K2|done|done|done|done| |exact Hrun].
    apply Forall_app. split; [done|]. by apply Forall_fmap.
Qed.

(** C2: the RESET procedure. A BSS connects to an SGSN that has never heard of it; the exchange of
    datagrams that follows comes to an end, and then both instances hold an NS-VC to each other
    with the NSEI and NSVCI of the BSS that is alive and not blocked on either side. *)
Theorem reset_procedure a b sei vci :
  ns_env_ok -> in_width 16 sei -> in_width 16 vci ->
  exists id bss ev n' v1 v2,
    nsip_connect b sei vci gprs_ns_instantiate = Some (id, bss, ev) /\
    net_run 20 a b (mk_net bss gprs_ns_instantiate (to_wire true b ev)) = Some n' /\ wire n' = [] /\
    known (n_bss n') b 1 v1 /\ known (n_sgsn n') a 1 v2 /\
    state v1 = NSE_S_ALIVE /\ state v2 = NSE_S_ALIVE /\
    nsei v1 = sei /\ nsei v2 = sei /\ nsvci v1 = vci /\ nsvci v2 = vci.
Proof.
  intros Henv Hs Hv. destruct (connect_new b sei vci Henv) as (id & bss & v1 & ev & Hc & K1 & A1 & D1).
  set (x0 := P_RESET NS_CAUSE_OM_INTERVENTION sei vci) in *.
  assert (datagrams ev = (fun y => (b, enc y)) <$> [x0]) as D1' by exact D1.
  destruct (read_reset_new a NS_CAUSE_OM_INTERVENTION sei vci Henv Hs Hv)
    as (rc & sgsn & v2 & ev2 & Hr & K2 & A2 & D2). fold x0 in Hr.
  assert (datagrams ev2 = (fun y => (a, enc y)) <$> [P_ALIVE; P_RESET_ACK sei vci]) as D2' by exact D2.
  destruct (net_run_refines 19 a b _ _ [(false, P_ALIVE); (false, P_RESET_ACK sei vci)]
    (mk_peer NSE_S_ALIVE sei vci true (Some NSVC_TIMER_TNS_TEST))
    (mk_peer NSE_S_ALIVE sei vci false (Some NSVC_TIMER_TNS_TEST)) bss sgsn 1 1 v1 v2 Henv K1 K2 A1 A2)
    as (n' & v1' & v2' & Hn & Hw & K1' & K2' & A1' & A2'); try done.
  { by repeat constructor. }
  exists id, bss, ev, n', v1', v2'. split; [done|]. split.
  { rewrite (to_wire_out true b ev [x0] D1').
    etransitivity; [exact (net_run_to_sgsn 19 a b bss _ _ [] _ _ _ Hr)|]. cbn [app].
    rewrite (to_wire_out false a ev2 _ D2'). exact Hn. }
  injection A1' as -> -> -> _ _. injection A2' as -> -> -> _ _. done.
Qed.

End Refinement.

End NsPeer.
