(* ===== verification/NsData.v ===== *)
(** Unit data and supervision over an NS-VC: what [gprs_ns_sendmsg] lets through, how it arrives,
    how a silent peer is given up, and the frame relay header. *)

From S2P Require Import Prelude Ns NsProps NsPeer.
From coqutil Require Import Z.bitblast.
Import Ns NsProps NsPeer.

Module NsData.

Section Data.
Context {env : NsEnv}.
Abbreviation NS := (M gprs_ns_inst ns_event).

(** ** Exact runs on one NS-VC *)

Lemma get_put id v nsi : nsvc_get id (put id v nsi) = Some (v, put id v nsi, []).
Proof. unfold nsvc_get, put. cbn. by rewrite lookup_insert_eq. Qed.

Lemma upd_put id f v nsi : nsvc_upd id f (put id v nsi) = Some (tt, put id (f v) nsi, []).
Proof. unfold nsvc_upd, modify, put, upd, upd_nsvcs. cbn. by rewrite alter_insert_eq. Qed.

(** Two NS-VCs that differ in their counters only. *)
Definition but_ctr (v v' : gprs_nsvc) : Prop := exists c, v' = v <| ctrg := c |>.

Lemma tx_exact id d v nsi :
  ll v = GPRS_NS_LL_UDP ->
  exists rc v', but_ctr v v' /\
    gprs_ns_tx id d (put id v nsi) = Some (rc, put id v' nsi, [NS_SENDTO GPRS_NS_LL_UDP (bts_addr v) d]).
Proof.
  intros Hll. unfold gprs_ns_tx, rate_ctr_inc, rate_ctr_add.
  rewrite (bind_run _ _ _ _ _ _ _ _ (upd_put _ _ _ _)), (bind_run _ _ _ _ _ _ _ _ (upd_put _ _ _ _)),
    (bind_run _ _ _ _ _ _ _ _ (get_put _ _ _)).
  cbn [ll upd upd_ctrg]. rewrite Hll. unfold nsip_sendmsg.
  rewrite (bind_run _ _ _ _ _ _ _ _ (get_put _ _ _)). cbn [sendto emit bts_addr upd upd_ctrg].
  do 2 eexists. split; [|reflexivity]. by eexists.
Qed.

Lemma tx_simple_exact id t v nsi :
  ns_env_ok -> ll v = GPRS_NS_LL_UDP ->
  exists rc v', but_ctr v v' /\
    gprs_ns_tx_simple id t (put id v nsi) = Some (rc, put id v' nsi, [NS_SENDTO GPRS_NS_LL_UDP (bts_addr v) [t]]).
Proof. intros Henv Hll. unfold gprs_ns_tx_simple. rewrite (ok_msgb Henv). by apply tx_exact. Qed.

(** ** NS-UNITDATA *)

Definition unitdata_pdu (bvci : Z) (data : list Z) : list Z :=
  [NS_PDUT_UNITDATA; ns_spare] ++ be16 bvci ++ data.

(** Unit data is sent exactly when the NSEI resolves to an NS-VC that is alive and not
    blocked: one datagram to its peer, with the BVCI in the header. Otherwise nothing is sent,
    nothing changes, and the caller is told -EINVAL or -EBUSY. *)
Theorem sendmsg_spec nsi msg :
  match nsvc_by_nsei nsi (m_nsei msg) with
  | None => gprs_ns_sendmsg msg nsi = Some (- EINVAL, nsi, [])
  | Some id =>
      forall v, nsvcs nsi !! id = Some v -> ll v = GPRS_NS_LL_UDP ->
      if tst (state v) NSE_S_ALIVE && negb (tst (state v) NSE_S_BLOCKED) then
        exists rc v', but_ctr v v' /\ gprs_ns_sendmsg msg nsi =
          Some (rc, put id v' nsi,
                [NS_SENDTO GPRS_NS_LL_UDP (bts_addr v) (unitdata_pdu (m_bvci msg) (l2 msg))])
      else gprs_ns_sendmsg msg nsi = Some (- EBUSY, nsi, [])
  end.
Proof.
  unfold gprs_ns_sendmsg. destruct (nsvc_by_nsei nsi (m_nsei msg)) as [id|] eqn:Hf; rewrite bind_gets, Hf; [|done].
  intros v Hv Hll. match goal with |- context [(nsvc_get id ≫= ?k) nsi] =>
    replace ((nsvc_get id ≫= k) nsi) with ((nsvc_get id ≫= k) (put id v nsi)) by (by rewrite put_self) end.
  rewrite (bind_run _ _ _ _ _ _ _ _ (get_put _ _ _)).
  destruct (tst (state v) NSE_S_ALIVE); cbn [negb andb]; [|by rewrite put_self].
  destruct (tst (state v) NSE_S_BLOCKED); cbn [negb]; [by rewrite put_self|].
  destruct (tx_exact id (unitdata_pdu (m_bvci msg) (l2 msg)) v nsi Hll) as (rc & v' & Hc & Htx).
  exists rc, v'. split; [done|]. unfold unitdata_pdu in Htx. by rewrite Htx.
Qed.

(** Reception of a UNITDATA PDU from a known peer. *)
Lemma read_unitdata nsi a id v bvci data :
  ns_env_ok -> known nsi a id v -> in_width 16 bvci ->
  exists v0, but_ctr v v0 /\
  handle_nsip_read a (unitdata_pdu bvci data) nsi =
  gprs_ns_rx_unitdata id (mk_ns_msg (unitdata_pdu bvci data) (nsei v) 0) (put id v0 nsi).
Proof.
  intros Henv (Hf & Hv & Ha & Hl) Hb.
  assert (handle_nsip_read a (unitdata_pdu bvci data) =
          gprs_ns_rcvmsg (mk_ns_msg (unitdata_pdu bvci data) 0 0) a GPRS_NS_LL_UDP) as ->
    by (unfold handle_nsip_read; by rewrite (ok_msgb Henv)).
  unfold gprs_ns_rcvmsg. rewrite bind_gets, Hf.
  set (msg1 := mk_ns_msg (unitdata_pdu bvci data) (nsei v) 0).
  assert ((v ← nsvc_get id; mret (inl id : nat + Z, (mk_ns_msg (unitdata_pdu bvci data) 0 0) <| m_nsei := nsei v |>))
            nsi = Some ((inl id, msg1), nsi, [])) as H1.
  { unfold mbind, M_bind, nsvc_get. by rewrite Hv. }
  rewrite (bind_run _ _ _ _ _ _ _ _ H1). cbv beta iota. unfold rate_ctr_inc, rate_ctr_add.
  match goal with |- context [(nsvc_upd id ?f ≫= ?k) nsi] =>
    replace ((nsvc_upd id f ≫= k) nsi) with ((nsvc_upd id f ≫= k) (put id v nsi)) by (by rewrite put_self) end.
  rewrite (bind_run _ _ _ _ _ _ _ _ (upd_put _ _ _ _)), (bind_run _ _ _ _ _ _ _ _ (upd_put _ _ _ _)).
  assert (rcvmsg_dispatch id msg1 = gprs_ns_rx_unitdata id msg1) as -> by reflexivity.
  match goal with |- context [gprs_ns_rx_unitdata id msg1 (put id ?w nsi)] => exists w; set (v0 := w) end.
  split; [by eexists|]. by destruct (gprs_ns_rx_unitdata id msg1 (put id v0 nsi)) as [[[? ?] ?]|].
Qed.

Lemma be16_bytes x rest : rd (be16 x ++ rest) 0 = (x .>> 8) .& 0xff /\ rd (be16 x ++ rest) 1 = x .& 0xff.
Proof. done. Qed.

(** unit data sent over one side of an NS-VC comes out of the other side as it went in: one
    indication to the user, with the BVCI and the octets submitted there, and the NSEI known
    here. *)
Theorem unitdata_transfer nsi1 nsi2 msg a id1 id2 v1 v2 :
  ns_env_ok -> in_width 16 (m_bvci msg) ->
  nsvc_by_nsei nsi1 (m_nsei msg) = Some id1 -> nsvcs nsi1 !! id1 = Some v1 -> ll v1 = GPRS_NS_LL_UDP ->
  state v1 = NSE_S_ALIVE -> known nsi2 a id2 v2 -> state v2 = NSE_S_ALIVE ->
  exists rc nsi1' d rc' nsi2',
    gprs_ns_sendmsg msg nsi1 = Some (rc, nsi1', [NS_SENDTO GPRS_NS_LL_UDP (bts_addr v1) d]) /\
    handle_nsip_read a d nsi2 = Some (rc', nsi2', [NS_UNITDATA id2 (nsei v2) (m_bvci msg) (l2 msg)]).
Proof.
  intros Henv Hb Hf Hv1 Hl1 Hs1 Hk Hs2.
  assert (exists rc nsi1', gprs_ns_sendmsg msg nsi1 = Some (rc, nsi1',
    [NS_SENDTO GPRS_NS_LL_UDP (bts_addr v1) (unitdata_pdu (m_bvci msg) (l2 msg))])) as (rc & nsi1' & Hsend).
  { unfold gprs_ns_sendmsg. rewrite bind_gets, Hf, <- (put_self id1 v1 nsi1 Hv1).
    rewrite (bind_run _ _ _ _ _ _ _ _ (get_put _ _ _)), Hs1. cbn [negb].
    destruct (tx_exact id1 (unitdata_pdu (m_bvci msg) (l2 msg)) v1 nsi1 Hl1) as (rc & v' & _ & Htx).
    unfold unitdata_pdu in *. change (tst NSE_S_ALIVE NSE_S_ALIVE) with true.
    change (tst NSE_S_ALIVE NSE_S_BLOCKED) with false. cbn [negb]. rewrite Htx. by do 2 eexists. }
  destruct (read_unitdata nsi2 a id2 v2 (m_bvci msg) (l2 msg) Henv Hk Hb) as (v0 & [c ->] & Hr).
  exists rc, nsi1', (unitdata_pdu (m_bvci msg) (l2 msg)). rewrite Hsend, Hr. unfold gprs_ns_rx_unitdata.
  rewrite (bind_run _ _ _ _ _ _ _ _ (get_put _ _ _)). cbn [state upd upd_ctrg]. rewrite Hs2.
  change (tst NSE_S_ALIVE NSE_S_BLOCKED) with false. cbv iota zeta. cbn [l2 m_nsei].
  pose proof (be16_round (m_bvci msg) (l2 msg) Hb) as Hround. unfold rd_be16 in Hround.
  change ((rd (unitdata_pdu (m_bvci msg) (l2 msg)) 2 .<< 8) .| rd (unitdata_pdu (m_bvci msg) (l2 msg)) 3)
    with ((rd (be16 (m_bvci msg) ++ l2 msg) 0 .<< 8) .| rd (be16 (m_bvci msg) ++ l2 msg) 1).
  rewrite Hround. by do 2 eexists.
Qed.

(** Unit data that arrives over a blocked NS-VC does not reach the user: the peer is told by
    one STATUS PDU with the cause and the NSVCI. *)
Theorem unitdata_blocked nsi a id v bvci data :
  ns_env_ok -> known nsi a id v -> in_width 16 bvci -> tst (state v) NSE_S_BLOCKED = true ->
  exists rc nsi', handle_nsip_read a (unitdata_pdu bvci data) nsi =
    Some (rc, nsi', [NS_SENDTO GPRS_NS_LL_UDP a
      ([NS_PDUT_STATUS] ++ msgb_tvlv_put NS_IE_CAUSE [NS_CAUSE_NSVC_BLOCKED]
       ++ msgb_tvlv_put NS_IE_VCI (be16 (nsvci v)))]).
Proof.
  intros Henv Hk Hb Hs. destruct (read_unitdata nsi a id v bvci data Henv Hk Hb) as (v0 & [c ->] & Hr).
  destruct Hk as (_ & _ & Ha & Hl). rewrite Hr. unfold gprs_ns_rx_unitdata.
  rewrite (bind_run _ _ _ _ _ _ _ _ (get_put _ _ _)). cbn [state upd upd_ctrg]. rewrite Hs.
  unfold gprs_ns_tx_status. cbn [deref]. rewrite bind_ret, (bind_run _ _ _ _ _ _ _ _ (get_put _ _ _)), (ok_msgb Henv).
  cbn [negb status_vci status_pdu].
  match goal with |- context [gprs_ns_tx id ?d (put id ?v1 nsi)] =>
    destruct (tx_exact id d v1 nsi Hl) as (rc & v' & _ & Htx) end.
  rewrite Htx. exists rc, (put id v' nsi). cbn [app bts_addr upd upd_ctrg nsvci]. rewrite Ha.
  change (status_pdu NS_CAUSE_NSVC_BLOCKED) with false. change (status_vci NS_CAUSE_NSVC_BLOCKED) with true.
  change (NS_CAUSE_NSVC_BLOCKED =? NS_CAUSE_BVCI_UNKNOWN) with false. cbv iota. by rewrite !app_nil_r.
Qed.

(** ** The test procedure *)

(** The timer of the NS-VC expires [n] times in a row: nothing is heard of the peer. *)
Fixpoint expire (n : nat) (id : nat) : NS unit :=
  match n with O => mret tt | S n => timer_expired id;; expire n id end.

Definition alive_dgram (v : gprs_nsvc) : ns_event := NS_SENDTO GPRS_NS_LL_UDP (bts_addr v) [NS_PDUT_ALIVE].

Definition retries (nsi : gprs_ns_inst) : Z := timeout nsi NS_TOUT_TNS_ALIVE_RETRIES.

(** One expiry while the peer is being tested. *)
Lemma expired_test id v nsi :
  ns_env_ok -> ll v = GPRS_NS_LL_UDP -> timer_mode v = NSVC_TIMER_TNS_TEST ->
  exists v', timer_expired id (put id v nsi) = Some (tt, put id v' nsi, [alive_dgram v]) /\
    conn v' = conn v /\ state v' = state v /\ timer_mode v' = NSVC_TIMER_TNS_ALIVE /\ alive_retries v' = 0 /\
    is_Some (timer v').
Proof.
  intros Henv Hll Hm. unfold timer_expired, gprs_ns_timer_cb.
  rewrite (bind_run _ _ _ _ _ _ _ _ (upd_put _ _ _ _)), (bind_run _ _ _ _ _ _ _ _ (get_put _ _ _)).
  cbn [timer_mode upd upd_timer]. rewrite Hm.
  set (v0 := v <| timer := None |>).
  destruct (tx_simple_exact id NS_PDUT_ALIVE v0 nsi Henv Hll) as (rc & v1 & [c ->] & Htx).
  unfold gprs_ns_tx_alive. rewrite (bind_run _ _ _ _ _ _ _ _ Htx), (bind_run _ _ _ _ _ _ _ _ (upd_put _ _ _ _)).
  unfold nsvc_start_timer. rewrite bind_gets, upd_put. eexists. split; [reflexivity|].
  repeat split. by eexists.
Qed.

Lemma expired_alive id v nsi :
  ns_env_ok -> ll v = GPRS_NS_LL_UDP -> timer_mode v = NSVC_TIMER_TNS_ALIVE ->
  alive_retries v + 1 <= retries nsi ->
  exists v', timer_expired id (put id v nsi) = Some (tt, put id v' nsi, [alive_dgram v]) /\
    conn v' = conn v /\ state v' = state v /\ timer_mode v' = NSVC_TIMER_TNS_ALIVE /\
    alive_retries v' = alive_retries v + 1 /\ is_Some (timer v').
Proof.
  intros Henv Hll Hm Hr. unfold timer_expired, gprs_ns_timer_cb.
  rewrite (bind_run _ _ _ _ _ _ _ _ (upd_put _ _ _ _)), (bind_run _ _ _ _ _ _ _ _ (get_put _ _ _)).
  cbn [timer_mode upd upd_timer]. rewrite Hm.
  rewrite (bind_run _ _ _ _ _ _ _ _ (upd_put _ _ _ _)), (bind_run _ _ _ _ _ _ _ _ (get_put _ _ _)), bind_gets.
  change (timeout (put id _ nsi) NS_TOUT_TNS_ALIVE_RETRIES) with (retries nsi).
  set (v1 := (v <| timer := None |>) <| alive_retries ::= Z.add 1 |>).
  rewrite (proj2 (Z.ltb_ge _ _)) by (cbn; lia).
  destruct (tx_simple_exact id NS_PDUT_ALIVE v1 nsi Henv Hll) as (rc & v2 & [c ->] & Htx).
  unfold gprs_ns_tx_alive. rewrite (bind_run _ _ _ _ _ _ _ _ Htx).
  unfold nsvc_start_timer. rewrite bind_gets, upd_put. eexists. split; [reflexivity|].
  repeat split; [cbn; lia|by eexists].
Qed.

Lemma expired_last id v nsi :
  timer_mode v = NSVC_TIMER_TNS_ALIVE -> retries nsi < alive_retries v + 1 ->
  exists v', timer_expired id (put id v nsi) = Some (tt, put id v' nsi,
      [NS_SIGNAL S_NS_ALIVE_EXP id 0; NS_SIGNAL S_NS_BLOCK id NS_CAUSE_NSVC_BLOCKED]) /\
    state v' = NSE_S_BLOCKED /\ timer v' = None.
Proof.
  intros Hm Hr. unfold timer_expired, gprs_ns_timer_cb.
  rewrite (bind_run _ _ _ _ _ _ _ _ (upd_put _ _ _ _)), (bind_run _ _ _ _ _ _ _ _ (get_put _ _ _)).
  cbn [timer_mode upd upd_timer]. rewrite Hm.
  rewrite (bind_run _ _ _ _ _ _ _ _ (upd_put _ _ _ _)), (bind_run _ _ _ _ _ _ _ _ (get_put _ _ _)), bind_gets.
  change (timeout (put id _ nsi) NS_TOUT_TNS_ALIVE_RETRIES) with (retries nsi).
  rewrite (proj2 (Z.ltb_lt _ _)) by (cbn; lia). unfold rate_ctr_inc, rate_ctr_add.
  rewrite !(bind_run _ _ _ _ _ _ _ _ (upd_put _ _ _ _)). eexists. split; [reflexivity|]. done.
Qed.

Lemma expire_testing (n : nat) id v nsi :
  ns_env_ok -> ll v = GPRS_NS_LL_UDP -> timer_mode v = NSVC_TIMER_TNS_ALIVE ->
  alive_retries v + Z.of_nat n <= retries nsi ->
  exists v', expire n id (put id v nsi) = Some (tt, put id v' nsi, replicate n (alive_dgram v)) /\
    conn v' = conn v /\ state v' = state v /\ timer_mode v' = NSVC_TIMER_TNS_ALIVE /\
    alive_retries v' = alive_retries v + Z.of_nat n /\ (is_Some (timer v) -> is_Some (timer v')).
Proof.
  intros Henv. revert v. induction n as [|n IH]; intros v Hll Hm Hr.
  { exists v. repeat split; try done. lia. }
  destruct (expired_alive id v nsi Henv Hll Hm) as (v1 & H1 & C1 & S1 & M1 & R1 & T1); [lia|].
  injection C1 as Cb Cl. destruct (IH v1) as (v2 & H2 & C2 & S2 & M2 & R2 & T2); [congruence|done|lia|].
  exists v2. cbn [expire]. rewrite (bind_run _ _ _ _ _ _ _ _ H1), H2.
  split; [unfold alive_dgram; by rewrite Cb|].
  split; [unfold conn in *; congruence|]. split; [congruence|]. split; [done|]. split; [lia|]. auto.
Qed.

Lemma expire_app n m id nsi nsi1 ev1 :
  expire n id nsi = Some (tt, nsi1, ev1) ->
  expire (n + m) id nsi =
    match expire m id nsi1 with None => None | Some (b, nsi2, ev2) => Some (b, nsi2, ev1 ++ ev2) end.
Proof.
  revert nsi ev1. induction n as [|n IH]; intros nsi ev1; cbn [expire Nat.add].
  { intros [= <- <-]. by destruct (expire m id nsi) as [[[? ?] ?]|]. }
  unfold mbind, M_bind. destruct (timer_expired id nsi) as [[[[] nsi0] ev0]|]; [|done].
  destruct (expire n id nsi0) as [[[[] nsi2] ev2]|] eqn:E; [|done]. intros [= <- <-].
  rewrite (IH nsi0 ev2 E). destruct (expire m id nsi2) as [[[? ?] ?]|]; [|done]. by rewrite app_assoc.
Qed.

(** the test procedure of a silent peer. From the expiry of Tns-test on, the NS-VC keeps its
    state while ALIVE is sent once and then as often as retries are configured; the expiry
    after that blocks the NS-VC and marks it dead, tells the listeners, and the timer stops. *)
Theorem silent_peer_blocked id v nsi (r : nat) :
  ns_env_ok -> nsvcs nsi !! id = Some v -> ll v = GPRS_NS_LL_UDP -> timer_mode v = NSVC_TIMER_TNS_TEST ->
  retries nsi = Z.of_nat r ->
  (forall n, (1 <= n <= r + 1)%nat -> exists v',
     expire n id nsi = Some (tt, put id v' nsi, replicate n (alive_dgram v)) /\
     state v' = state v /\ is_Some (timer v')) /\
  exists v',
    expire (r + 2) id nsi = Some (tt, put id v' nsi, replicate (r + 1) (alive_dgram v) ++
      [NS_SIGNAL S_NS_ALIVE_EXP id 0; NS_SIGNAL S_NS_BLOCK id NS_CAUSE_NSVC_BLOCKED]) /\
    state v' = NSE_S_BLOCKED /\ timer v' = None.
Proof.
  intros Henv Hv Hll Hm Hr.
  destruct (expired_test id v nsi Henv Hll Hm) as (v1 & H1 & C1 & S1 & M1 & R1 & T1).
  rewrite put_self in H1 by done. injection C1 as Cb Cl.
  assert (forall n, (n <= r)%nat -> exists v',
    expire (S n) id nsi = Some (tt, put id v' nsi, replicate (S n) (alive_dgram v)) /\
    conn v' = conn v /\ state v' = state v /\ timer_mode v' = NSVC_TIMER_TNS_ALIVE /\
    alive_retries v' = Z.of_nat n /\ is_Some (timer v')) as Hall.
  { intros n Hn. destruct (expire_testing n id v1 nsi Henv) as (v2 & H2 & C2 & S2 & M2 & R2 & T2);
      [congruence|done|lia|]. exists v2. cbn [expire]. rewrite (bind_run _ _ _ _ _ _ _ _ H1), H2.
    split; [unfold alive_dgram; by rewrite Cb|]. unfold conn in *.
    split; [congruence|]. split; [congruence|]. split; [done|]. split; [lia|]. auto. }
  split.
  - intros [|n] Hn; [lia|]. destruct (Hall n) as (v' & H & _ & Hs & _ & _ & Ht); [lia|]. by exists v'.
  - destruct (Hall r) as (v2 & H2 & _ & _ & M2 & R2 & _); [lia|].
    destruct (expired_last id v2 nsi M2) as (v3 & H3 & S3 & T3); [lia|].
    exists v3. replace (r + 2)%nat with (S r + 1)%nat by lia. rewrite (expire_app _ _ _ _ _ _ H2).
    cbn [expire]. rewrite (bind_run _ _ _ _ _ _ _ _ H3). rewrite Nat.add_1_r. done.
Qed.

(** ** Frame relay *)

(** The DLCI that a frame is sent with over GRE is the one the receiver finds, and the NS PDU
    behind the headers is unchanged, whatever IP header without options is in front. *)
Theorem frgre_roundtrip ip dlci pdu :
  length ip = 20%nat -> ip_ihl ip = 5 -> 0 <= dlci < 1024 ->
  read_nsfrgre_msg (ip ++ gre_header ++ fr_header dlci ++ pdu) = FRGRE_FRAME dlci pdu.
Proof.
  intros Hlen Hihl Hd. set (frame := gre_header ++ fr_header dlci ++ pdu).
  assert (ip_ihl (ip ++ frame) = 5) as Hi.
  { rewrite <- Hihl. unfold ip_ihl. by rewrite rd_app_l by lia. }
  unfold read_nsfrgre_msg. rewrite Hi.
  assert (length (ip ++ frame) = (26 + length pdu)%nat) as -> by (rewrite length_app, Hlen; done).
  rewrite !(proj2 (Z.ltb_ge _ _)) by lia. change (Z.to_nat (5 * 4)) with 20%nat.
  rewrite <- Hlen, drop_app_length.
  change (gre_ptype frame) with 0x6559. cbn [Z.eqb GRE_PTYPE_IPv4 GRE_PTYPE_FR Pos.eqb negb].
  change (drop 4 frame) with (fr_header dlci ++ pdu). 
  change (rd (fr_header dlci ++ pdu) 0) with ((dlci .>> 2) .& 0xfc).
  change (rd (fr_header dlci ++ pdu) 1) with (u8 (((dlci .& 0xf) .<< 4) .| 0x01)).
  change (drop 2 (fr_header dlci ++ pdu)) with pdu.
  pose proof (range_forall (fun dlci =>
    let f0 := (dlci .>> 2) .& 0xfc in let f1 := u8 (((dlci .& 0xf) .<< 4) .| 0x01) in
    negb (tst f0 0x01) && (f1 .& 0x0f =? 0x01) && (((f0 .& 0xfc) .<< 2) .| (f1 .>> 4) =? dlci))
    1024 ltac:(vm_compute; reflexivity) dlci Hd) as H.
  cbv beta zeta in H. rewrite !andb_true_iff, negb_true_iff in H. destruct H as [[H0 H1] H2].
  rewrite H0, H1. cbn [negb]. by apply Z.eqb_eq in H2 as ->.
Qed.

End Data.

End NsData.
