(* ===== verification/NsRuns.v ===== *)
(** Concrete runs of the Network Service: a TLV codec with one octet of tag and one of length, sockets
    that always accept, and two addresses. *)

From S2P Require Import Prelude Ns NsProps NsPeer NsData.
Import Ns NsProps NsPeer NsData.

Module NsRuns.

Fixpoint tlvs (fuel : nat) (buf : list Z) (tag : Z) : option (list Z) :=
  match fuel with
  | O => None
  | S fuel =>
      match buf with
      | t :: l :: rest => if tag =? t then Some rest else tlvs fuel (drop (Z.to_nat l) rest) tag
      | _ => None
      end
  end.

Definition ns_test_env : NsEnv := {|
  tlv_parse buf := Ok (tlvs (length buf) buf);
  msgb_tvlv_put t v := t :: Z.of_nat (length v) :: v;
  ns_msgb_ok := true;
  ns_spare := 0;
  sendto_rc _ := 1;
  ns_cb_rc _ := 0
|}.
#[local] Existing Instance ns_test_env.

Lemma tlvs_octets fuel buf tag v : octets buf -> tlvs fuel buf tag = Some v -> octets v.
Proof.
  revert buf. induction fuel as [|fuel IH]; intros buf Ho; [done|]. cbn [tlvs].
  destruct buf as [|t [|l rest]]; [done|done|]. apply Forall_cons in Ho as [_ Ho]. apply Forall_cons in Ho as [_ Ho].
  destruct (tag =? t); [by intros [= <-]|]. apply IH. by apply Forall_drop.
Qed.

Lemma test_tlv_octets : tlv_octets.
Proof. intros buf tp tag v Ho [= <-]. by apply tlvs_octets. Qed.

Lemma tlvs_found (ies : list (Z * list Z)) fuel t v :
  NoDup ies.*1 -> (t, v) ∈ ies ->
  let buf := concat ((fun '(t, v) => msgb_tvlv_put t v) <$> ies) in
  (length buf <= fuel)%nat -> exists rest, tlvs fuel buf t = Some (v ++ rest).
Proof.
  revert fuel. induction ies as [|[t' v'] ies IH]; intros fuel Hnd Hin buf Hfuel; [by apply elem_of_nil in Hin|].
  apply NoDup_cons in Hnd as [Hnew Hnd]. cbn in buf. destruct fuel as [|fuel]; [cbn in Hfuel; lia|].
  cbn [tlvs buf]. apply elem_of_cons in Hin as [[= -> ->]|Hin].
  - rewrite Z.eqb_refl. by eexists.
  - assert (t <> t') as Hne.
    { intros ->. apply Hnew. apply list_elem_of_fmap. by exists (t', v). }
    rewrite (proj2 (Z.eqb_neq t t') Hne), Nat2Z.id, drop_app_length.
    apply IH; [done|done|]. unfold buf in Hfuel. cbn in Hfuel. rewrite length_app in Hfuel. cbn in *. lia.
Qed.

Lemma test_ns_env_ok : ns_env_ok.
Proof.
  split; [done|]. intros ies Hnd. eexists. split; [reflexivity|]. intros t v Hin. by apply tlvs_found.
Qed.

Definition addr_bss : sockaddr_in := mk_sockaddr_in 0x0100000a 0x5d58.
Definition addr_sgsn : sockaddr_in := mk_sockaddr_in 0x0200000a 0x5d58.

(** An instance with one NS-VC to [a] in state [s]. *)
Definition nsvc_to (a : sockaddr_in) (s : Z) : gprs_nsvc :=
  (nsvc_new 101) <| nsei := 102 |> <| bts_addr := a |> <| state := s |>.
Definition inst_to (a : sockaddr_in) (s : Z) : gprs_ns_inst :=
  put 1 (nsvc_to a s) (gprs_ns_instantiate <| gprs_nsvcs := [1%nat] |> <| next_nsvc := 2%nat |>).

Lemma inst_known a s : known (inst_to a s) a 1 (nsvc_to a s).
Proof. by apply known_single. Qed.

Lemma init_wf : wf_ns gprs_ns_instantiate.
Proof.
  split; cbn.
  - constructor.
  - by intros id ?%elem_of_nil.
  - by eexists.
  - by intros ?%elem_of_nil.
  - intros id [v Hv]. rewrite lookup_singleton in Hv. case_decide; [lia|done].
  - intros id v. rewrite lookup_singleton. case_decide; [intros [= <-]|done]. split; vm_bounds.
Qed.

Lemma rcvmsg_null_pointer_iff_witness :
  gprs_ns_rcvmsg (mk_ns_msg [0x02; 0x00; 0x01; 0x01] 0 0) addr_bss GPRS_NS_LL_UDP gprs_ns_instantiate = None.
Proof.
  apply (rcvmsg_null_pointer_iff gprs_ns_instantiate (mk_ns_msg [0x02; 0x00; 0x01; 0x01] 0 0) addr_bss GPRS_NS_LL_UDP).
  - exact test_tlv_octets.
  - exact init_wf.
  - repeat constructor; vm_compute; congruence.
  - split; [reflexivity|]. split; [reflexivity|]. eexists. split; [reflexivity|]. right. left. reflexivity.
Defined.

Lemma ns_reachable_wf_witness :
  exists nsi ev, nsip_connect addr_sgsn 102 101 gprs_ns_instantiate = Some (1%nat, nsi, ev) /\ wf_ns nsi.
Proof.
  destruct (nsip_connect addr_sgsn 102 101 gprs_ns_instantiate) as [[[id nsi] ev]|] eqn:E;
    [|vm_compute in E; discriminate].
  exists nsi, ev. assert (id = 1%nat) as -> by (vm_compute in E; injection E as <- _ _; reflexivity).
  split; [reflexivity|]. apply (ns_reachable_wf nsi test_tlv_octets).
  eapply ns_reach; [apply ns_init|]. eapply step_connect; [| |exact E]; vm_bounds.
Defined.

Lemma rcvmsg_refines_peer_step_witness :
  exists rc nsi' v' ev,
    handle_nsip_read addr_bss (enc P_UNBLOCK) (inst_to addr_bss 3) = Some (rc, nsi', ev) /\
    known nsi' addr_bss 1 v' /\ abs v' = mk_peer NSE_S_ALIVE 102 101 false None /\
    datagrams ev = [(addr_bss, [NS_PDUT_UNBLOCK_ACK])].
Proof.
  destruct (rcvmsg_refines_peer_step (inst_to addr_bss 3) addr_bss 1 (nsvc_to addr_bss 3) P_UNBLOCK)
    as (rc & nsi' & v' & ev & H & K & A & D & _).
  - exact test_ns_env_ok.
  - exact (inst_known addr_bss 3).
  - exact I.
  - exists rc, nsi', v', ev. split; [exact H|]. split; [exact K|]. split; [exact A|exact D].
Defined.

Lemma reset_procedure_witness :
  exists id bss ev n' v1 v2,
    nsip_connect addr_sgsn 102 101 gprs_ns_instantiate = Some (id, bss, ev) /\
    net_run 20 addr_bss addr_sgsn (mk_net bss gprs_ns_instantiate (to_wire true addr_sgsn ev)) = Some n' /\
    wire n' = [] /\ known (n_bss n') addr_sgsn 1 v1 /\ known (n_sgsn n') addr_bss 1 v2 /\
    state v1 = NSE_S_ALIVE /\ state v2 = NSE_S_ALIVE /\
    nsei v1 = 102 /\ nsei v2 = 102 /\ nsvci v1 = 101 /\ nsvci v2 = 101.
Proof.
  apply (reset_procedure addr_bss addr_sgsn 102 101).
  - exact test_ns_env_ok.
  - vm_bounds.
  - vm_bounds.
Defined.

Definition test_udata : ns_msg := mk_ns_msg [1; 2; 3] 102 7.

Lemma unitdata_transfer_witness :
  exists rc nsi1' d rc' nsi2',
    gprs_ns_sendmsg test_udata (inst_to addr_sgsn 2) =
      Some (rc, nsi1', [NS_SENDTO GPRS_NS_LL_UDP addr_sgsn d]) /\
    handle_nsip_read addr_bss d (inst_to addr_bss 2) = Some (rc', nsi2', [NS_UNITDATA 1 102 7 [1; 2; 3]]).
Proof.
  apply (unitdata_transfer (inst_to addr_sgsn 2) (inst_to addr_bss 2) test_udata addr_bss 1 1
           (nsvc_to addr_sgsn 2) (nsvc_to addr_bss 2)).
  - exact test_ns_env_ok.
  - vm_bounds.
  - reflexivity.
  - reflexivity.
  - reflexivity.
  - reflexivity.
  - exact (inst_known addr_bss 2).
  - reflexivity.
Defined.

Lemma unitdata_blocked_witness :
  exists rc nsi', handle_nsip_read addr_bss (unitdata_pdu 7 [1; 2; 3]) (inst_to addr_bss 3) =
    Some (rc, nsi', [NS_SENDTO GPRS_NS_LL_UDP addr_bss [0x08; 0x00; 1; 0x03; 0x01; 2; 0; 101]]).
Proof.
  destruct (unitdata_blocked (inst_to addr_bss 3) addr_bss 1 (nsvc_to addr_bss 3) 7 [1; 2; 3])
    as (rc & nsi' & H).
  - exact test_ns_env_ok.
  - exact (inst_known addr_bss 3).
  - vm_bounds.
  - reflexivity.
  - exists rc, nsi'. etransitivity; [exact H|]. vm_compute. reflexivity.
Defined.

Lemma sendmsg_spec_witness :
  gprs_ns_sendmsg test_udata (inst_to addr_bss 3) = Some (- EBUSY, inst_to addr_bss 3, []).
Proof. exact (sendmsg_spec (inst_to addr_bss 3) test_udata (nsvc_to addr_bss 3) eq_refl eq_refl). Defined.

(** The default of ten retries: twelve expiries. *)
Lemma silent_peer_blocked_witness :
  exists v',
    expire 12 1 (inst_to addr_bss 2) = Some (tt, put 1 v' (inst_to addr_bss 2),
      replicate 11 (NS_SENDTO GPRS_NS_LL_UDP addr_bss [NS_PDUT_ALIVE]) ++
      [NS_SIGNAL S_NS_ALIVE_EXP 1 0; NS_SIGNAL S_NS_BLOCK 1 NS_CAUSE_NSVC_BLOCKED]) /\
    state v' = NSE_S_BLOCKED /\ timer v' = None.
Proof.
  destruct (silent_peer_blocked 1 (nsvc_to addr_bss 2) (inst_to addr_bss 2) 10) as [_ H].
  - exact test_ns_env_ok.
  - reflexivity.
  - reflexivity.
  - reflexivity.
  - reflexivity.
  - exact H.
Defined.

Lemma frgre_roundtrip_witness :
  read_nsfrgre_msg ((0x45 :: replicate 19 0) ++ gre_header ++ fr_header 100 ++ [0x0a]) = FRGRE_FRAME 100 [0x0a].
Proof.
  apply (frgre_roundtrip (0x45 :: replicate 19 0) 100 [0x0a]).
  - reflexivity.
  - reflexivity.
  - lia.
Defined.

End NsRuns.
