(* ===== verification/Sgsn.v ===== *)
(** The contexts of the SGSN: gprs/gprs_sgsn.c, openbsc/gprs_sgsn.h, the BVC contexts and the flow
    control state of openbsc/gprs_bssgp.h, and the two requests BSSGP makes of mobility management
    (gprs/gprs_gmm.c).

    The process has four global lists; here they are one state. Each object lives in a store and is
    named by its number there, the lists hold numbers in their order, and the timers that are
    pending are kept apart from the objects, since freeing an object does not stop its timer.
    BSSGP (Bssgp.v), mobility management (Gmm.v) and the GTP side (Gtp.v) run on this state in the monad
    [M]; what they hand to LLC, NS, SNDCP and libgtp are events in their order. The layers below
    never change what this state holds except through Bssgp.v. *)

From S2P Require Import Prelude.

Module Sgsn.

(** ** Data *)

(** A routing area identity. *)
Record gprs_ra_id : Type := mk_gprs_ra_id {
  mcc : Z;
  mnc : Z;
  lac : Z;
  rac : Z
}.

#[export] Instance upd_mcc : Upd mcc := fun f r => mk_gprs_ra_id (f (mcc r)) (mnc r) (lac r)
  (rac r).
#[export] Instance upd_mnc : Upd mnc := fun f r => mk_gprs_ra_id (mcc r) (f (mnc r)) (lac r)
  (rac r).
#[export] Instance upd_lac : Upd lac := fun f r => mk_gprs_ra_id (mcc r) (mnc r) (f (lac r))
  (rac r).
#[export] Instance upd_rac : Upd rac := fun f r => mk_gprs_ra_id (mcc r) (mnc r) (lac r) (f (rac
  r)).

#[export] Instance gprs_ra_id_eq_dec : EqDecision gprs_ra_id.
Proof. solve_decision. Defined.

Record timeval : Type := mk_timeval {
  tv_sec : Z;
  tv_usec : Z
}.

#[export] Instance upd_tv_sec : Upd tv_sec := fun f r => mk_timeval (f (tv_sec r)) (tv_usec r).
#[export] Instance upd_tv_usec : Upd tv_usec := fun f r => mk_timeval (tv_sec r) (f (tv_usec
  r)).


(** What [out_cb] of a flow control points to. *)
Inductive fc_out_cb : Type :=
| OUT_TX_DL_UD    (* _bssgp_tx_dl_ud *)
| OUT_FC_IN.      (* bssgp_fc_in *)

(** The flow controls there are, as what a pointer to one names. *)
Inductive fc_ref : Type :=
| FC_BVC (bctx : nat)
| FC_MS (mm : nat).

(** A message buffer: the identifiers of its control block and its octets. *)

Record msgb : Type := mk_msgb {
  msgb_tlli : Z;
  msgb_nsei : Z;
  msgb_bvci : Z;
  msgb_data : list Z
}.

#[export] Instance upd_msgb_tlli : Upd msgb_tlli := fun f r => mk_msgb (f (msgb_tlli r))
  (msgb_nsei r) (msgb_bvci r) (msgb_data r).
#[export] Instance upd_msgb_nsei : Upd msgb_nsei := fun f r => mk_msgb (msgb_tlli r) (f
  (msgb_nsei r)) (msgb_bvci r) (msgb_data r).
#[export] Instance upd_msgb_bvci : Upd msgb_bvci := fun f r => mk_msgb (msgb_tlli r) (msgb_nsei
  r) (f (msgb_bvci r)) (msgb_data r).
#[export] Instance upd_msgb_data : Upd msgb_data := fun f r => mk_msgb (msgb_tlli r) (msgb_nsei
  r) (msgb_bvci r) (f (msgb_data r)).

(** An element of a flow control queue. *)
Record bssgp_fc_queue_element : Type := mk_bssgp_fc_queue_element {
  q_msg : msgb;
  q_llc_pdu_len : Z;  (* uint32_t *)
  q_priv : option fc_ref
}.

#[export] Instance upd_q_msg : Upd q_msg := fun f r => mk_bssgp_fc_queue_element (f (q_msg r))
  (q_llc_pdu_len r) (q_priv r).
#[export] Instance upd_q_llc_pdu_len : Upd q_llc_pdu_len := fun f r => mk_bssgp_fc_queue_element
  (q_msg r) (f (q_llc_pdu_len r)) (q_priv r).
#[export] Instance upd_q_priv : Upd q_priv := fun f r => mk_bssgp_fc_queue_element (q_msg r)
  (q_llc_pdu_len r) (f (q_priv r)).

(** Flow control, one per cell and one per mobile. [max_queue_depth] is never used. *)
Record bssgp_flow_control : Type := mk_bssgp_flow_control {
  bucket_size_max : Z;  (* uint32_t *)
  bucket_leak_rate : Z;  (* uint32_t *)
  bucket_counter : Z;  (* uint32_t *)
  time_last_pdu : timeval;
  queue_depth : Z;  (* uint32_t *)
  fc_queue : option (list bssgp_fc_queue_element);  (* None: a list head of two null pointers *)
  fc_timer : option (Z * Z);  (* seconds and microseconds, while it is pending *)
  out_cb : option fc_out_cb
}.

#[export] Instance upd_bucket_size_max : Upd bucket_size_max := fun f r => mk_bssgp_flow_control
  (f (bucket_size_max r)) (bucket_leak_rate r) (bucket_counter r) (time_last_pdu r) (queue_depth
  r) (fc_queue r) (fc_timer r) (out_cb r).
#[export] Instance upd_bucket_leak_rate : Upd bucket_leak_rate := fun f r =>
  mk_bssgp_flow_control (bucket_size_max r) (f (bucket_leak_rate r)) (bucket_counter r)
  (time_last_pdu r) (queue_depth r) (fc_queue r) (fc_timer r) (out_cb r).
#[export] Instance upd_bucket_counter : Upd bucket_counter := fun f r => mk_bssgp_flow_control
  (bucket_size_max r) (bucket_leak_rate r) (f (bucket_counter r)) (time_last_pdu r) (queue_depth
  r) (fc_queue r) (fc_timer r) (out_cb r).
#[export] Instance upd_time_last_pdu : Upd time_last_pdu := fun f r => mk_bssgp_flow_control
  (bucket_size_max r) (bucket_leak_rate r) (bucket_counter r) (f (time_last_pdu r)) (queue_depth
  r) (fc_queue r) (fc_timer r) (out_cb r).
#[export] Instance upd_queue_depth : Upd queue_depth := fun f r => mk_bssgp_flow_control
  (bucket_size_max r) (bucket_leak_rate r) (bucket_counter r) (time_last_pdu r) (f (queue_depth
  r)) (fc_queue r) (fc_timer r) (out_cb r).
#[export] Instance upd_fc_queue : Upd fc_queue := fun f r => mk_bssgp_flow_control
  (bucket_size_max r) (bucket_leak_rate r) (bucket_counter r) (time_last_pdu r) (queue_depth r) (f
  (fc_queue r)) (fc_timer r) (out_cb r).
#[export] Instance upd_fc_timer : Upd fc_timer := fun f r => mk_bssgp_flow_control
  (bucket_size_max r) (bucket_leak_rate r) (bucket_counter r) (time_last_pdu r) (queue_depth r)
  (fc_queue r) (f (fc_timer r)) (out_cb r).
#[export] Instance upd_out_cb : Upd out_cb := fun f r => mk_bssgp_flow_control (bucket_size_max
  r) (bucket_leak_rate r) (bucket_counter r) (time_last_pdu r) (queue_depth r) (fc_queue r)
  (fc_timer r) (f (out_cb r)).


(** What [talloc_zero] leaves. *)
Definition fc_zero : bssgp_flow_control := mk_bssgp_flow_control 0 0 0 (mk_timeval 0 0) 0 None None None.

Inductive bssgp_ctr : Type :=
| BSSGP_CTR_PKTS_IN | BSSGP_CTR_PKTS_OUT | BSSGP_CTR_BYTES_IN | BSSGP_CTR_BYTES_OUT
| BSSGP_CTR_BLOCKED | BSSGP_CTR_DISCARDED.

Definition BVC_S_BLOCKED : Z := 0x0001.

(** The context of a cell. *)
Record bssgp_bvc_ctx : Type := mk_bssgp_bvc_ctx {
  bvc_ra_id : gprs_ra_id;
  cell_id : Z;
  bvci : Z;
  nsei : Z;
  state : Z;  (* uint32_t *)
  bvc_ctrg : list Z;  (* one counter per bssgp_ctr *)
  bvc_fc : bssgp_flow_control;
  bmax_default_ms : Z;  (* uint32_t *)
  r_default_ms : Z  (* uint32_t *)
}.

#[export] Instance upd_bvc_ra_id : Upd bvc_ra_id := fun f r => mk_bssgp_bvc_ctx (f (bvc_ra_id
  r)) (cell_id r) (bvci r) (nsei r) (state r) (bvc_ctrg r) (bvc_fc r) (bmax_default_ms r)
  (r_default_ms r).
#[export] Instance upd_cell_id : Upd cell_id := fun f r => mk_bssgp_bvc_ctx (bvc_ra_id r) (f
  (cell_id r)) (bvci r) (nsei r) (state r) (bvc_ctrg r) (bvc_fc r) (bmax_default_ms r)
  (r_default_ms r).
#[export] Instance upd_bvci : Upd bvci := fun f r => mk_bssgp_bvc_ctx (bvc_ra_id r) (cell_id r)
  (f (bvci r)) (nsei r) (state r) (bvc_ctrg r) (bvc_fc r) (bmax_default_ms r) (r_default_ms r).
#[export] Instance upd_nsei : Upd nsei := fun f r => mk_bssgp_bvc_ctx (bvc_ra_id r) (cell_id r)
  (bvci r) (f (nsei r)) (state r) (bvc_ctrg r) (bvc_fc r) (bmax_default_ms r) (r_default_ms r).
#[export] Instance upd_state : Upd state := fun f r => mk_bssgp_bvc_ctx (bvc_ra_id r) (cell_id
  r) (bvci r) (nsei r) (f (state r)) (bvc_ctrg r) (bvc_fc r) (bmax_default_ms r) (r_default_ms r).
#[export] Instance upd_bvc_ctrg : Upd bvc_ctrg := fun f r => mk_bssgp_bvc_ctx (bvc_ra_id r)
  (cell_id r) (bvci r) (nsei r) (state r) (f (bvc_ctrg r)) (bvc_fc r) (bmax_default_ms r)
  (r_default_ms r).
#[export] Instance upd_bvc_fc : Upd bvc_fc := fun f r => mk_bssgp_bvc_ctx (bvc_ra_id r) (cell_id
  r) (bvci r) (nsei r) (state r) (bvc_ctrg r) (f (bvc_fc r)) (bmax_default_ms r) (r_default_ms r).
#[export] Instance upd_bmax_default_ms : Upd bmax_default_ms := fun f r => mk_bssgp_bvc_ctx
  (bvc_ra_id r) (cell_id r) (bvci r) (nsei r) (state r) (bvc_ctrg r) (bvc_fc r) (f
  (bmax_default_ms r)) (r_default_ms r).
#[export] Instance upd_r_default_ms : Upd r_default_ms := fun f r => mk_bssgp_bvc_ctx (bvc_ra_id
  r) (cell_id r) (bvci r) (nsei r) (state r) (bvc_ctrg r) (bvc_fc r) (bmax_default_ms r) (f
  (r_default_ms r)).


Inductive gprs_mm_state : Type :=
| GMM_DEREGISTERED | GMM_COMMON_PROC_INIT | GMM_REGISTERED_NORMAL | GMM_REGISTERED_SUSPENDED
| GMM_DEREGISTERED_INIT.
#[export] Instance gprs_mm_state_eq_dec : EqDecision gprs_mm_state.
Proof. solve_decision. Defined.

Inductive gprs_mm_ctr : Type :=
| GMM_CTR_PKTS_SIG_IN | GMM_CTR_PKTS_SIG_OUT | GMM_CTR_PKTS_UDATA_IN | GMM_CTR_PKTS_UDATA_OUT
| GMM_CTR_BYTES_UDATA_IN | GMM_CTR_BYTES_UDATA_OUT | GMM_CTR_PDP_CTX_ACT | GMM_CTR_SUSPEND
| GMM_CTR_PAGING_PS | GMM_CTR_PAGING_CS | GMM_CTR_RA_UPDATE.

Inductive gprs_pdp_ctr : Type :=
| PDP_CTR_PKTS_UDATA_IN | PDP_CTR_PKTS_UDATA_OUT | PDP_CTR_BYTES_UDATA_IN | PDP_CTR_BYTES_UDATA_OUT.

Inductive gprs_t3350_mode : Type :=
| GMM_T3350_MODE_ATT | GMM_T3350_MODE_RAU | GMM_T3350_MODE_PTMSI_REALL.

Definition GSM_IMSI_LENGTH : nat := 17.
Definition GSM_IMEI_LENGTH : nat := 17.

(** The context of a mobile; the members the code never uses are left out. *)
Record sgsn_mm_ctx : Type := mk_sgsn_mm_ctx {
  imsi : list Z;  (* the characters before the terminator *)
  mm_state : gprs_mm_state;
  p_tmsi : Z;  (* uint32_t *)
  p_tmsi_old : Z;  (* uint32_t *)
  imei : list Z;
  ra : gprs_ra_id;
  mm_cell_id : Z;  (* uint16_t *)
  ms_radio_access_capa : list Z;
  ms_network_capa : list Z;
  drx_parms : Z;  (* uint16_t *)
  pdp_list : list nat;
  llme : option nat;
  tlli : Z;  (* uint32_t *)
  tlli_new : Z;  (* uint32_t *)
  mm_nsei : Z;
  mm_bvci : Z;
  mm_ctrg : list Z;  (* one counter per gprs_mm_ctr *)
  mm_T : Z;
  mm_num_T_exp : Z;
  t3350_mode : gprs_t3350_mode;
  t3370_id_type : Z;  (* uint8_t *)
  mm_fc : bssgp_flow_control
}.

#[export] Instance upd_imsi : Upd imsi := fun f r => mk_sgsn_mm_ctx (f (imsi r)) (mm_state r)
  (p_tmsi r) (p_tmsi_old r) (imei r) (ra r) (mm_cell_id r) (ms_radio_access_capa r)
  (ms_network_capa r) (drx_parms r) (pdp_list r) (llme r) (tlli r) (tlli_new r) (mm_nsei r)
  (mm_bvci r) (mm_ctrg r) (mm_T r) (mm_num_T_exp r) (t3350_mode r) (t3370_id_type r) (mm_fc r).
#[export] Instance upd_mm_state : Upd mm_state := fun f r => mk_sgsn_mm_ctx (imsi r) (f
  (mm_state r)) (p_tmsi r) (p_tmsi_old r) (imei r) (ra r) (mm_cell_id r) (ms_radio_access_capa r)
  (ms_network_capa r) (drx_parms r) (pdp_list r) (llme r) (tlli r) (tlli_new r) (mm_nsei r)
  (mm_bvci r) (mm_ctrg r) (mm_T r) (mm_num_T_exp r) (t3350_mode r) (t3370_id_type r) (mm_fc r).
#[export] Instance upd_p_tmsi : Upd p_tmsi := fun f r => mk_sgsn_mm_ctx (imsi r) (mm_state r) (f
  (p_tmsi r)) (p_tmsi_old r) (imei r) (ra r) (mm_cell_id r) (ms_radio_access_capa r)
  (ms_network_capa r) (drx_parms r) (pdp_list r) (llme r) (tlli r) (tlli_new r) (mm_nsei r)
  (mm_bvci r) (mm_ctrg r) (mm_T r) (mm_num_T_exp r) (t3350_mode r) (t3370_id_type r) (mm_fc r).
#[export] Instance upd_p_tmsi_old : Upd p_tmsi_old := fun f r => mk_sgsn_mm_ctx (imsi r)
  (mm_state r) (p_tmsi r) (f (p_tmsi_old r)) (imei r) (ra r) (mm_cell_id r) (ms_radio_access_capa
  r) (ms_network_capa r) (drx_parms r) (pdp_list r) (llme r) (tlli r) (tlli_new r) (mm_nsei r)
  (mm_bvci r) (mm_ctrg r) (mm_T r) (mm_num_T_exp r) (t3350_mode r) (t3370_id_type r) (mm_fc r).
#[export] Instance upd_imei : Upd imei := fun f r => mk_sgsn_mm_ctx (imsi r) (mm_state r)
  (p_tmsi r) (p_tmsi_old r) (f (imei r)) (ra r) (mm_cell_id r) (ms_radio_access_capa r)
  (ms_network_capa r) (drx_parms r) (pdp_list r) (llme r) (tlli r) (tlli_new r) (mm_nsei r)
  (mm_bvci r) (mm_ctrg r) (mm_T r) (mm_num_T_exp r) (t3350_mode r) (t3370_id_type r) (mm_fc r).
#[export] Instance upd_ra : Upd ra := fun f r => mk_sgsn_mm_ctx (imsi r) (mm_state r) (p_tmsi r)
  (p_tmsi_old r) (imei r) (f (ra r)) (mm_cell_id r) (ms_radio_access_capa r) (ms_network_capa r)
  (drx_parms r) (pdp_list r) (llme r) (tlli r) (tlli_new r) (mm_nsei r) (mm_bvci r) (mm_ctrg r)
  (mm_T r) (mm_num_T_exp r) (t3350_mode r) (t3370_id_type r) (mm_fc r).
#[export] Instance upd_mm_cell_id : Upd mm_cell_id := fun f r => mk_sgsn_mm_ctx (imsi r)
  (mm_state r) (p_tmsi r) (p_tmsi_old r) (imei r) (ra r) (f (mm_cell_id r)) (ms_radio_access_capa
  r) (ms_network_capa r) (drx_parms r) (pdp_list r) (llme r) (tlli r) (tlli_new r) (mm_nsei r)
  (mm_bvci r) (mm_ctrg r) (mm_T r) (mm_num_T_exp r) (t3350_mode r) (t3370_id_type r) (mm_fc r).
#[export] Instance upd_ms_radio_access_capa : Upd ms_radio_access_capa := fun f r =>
  mk_sgsn_mm_ctx (imsi r) (mm_state r) (p_tmsi r) (p_tmsi_old r) (imei r) (ra r) (mm_cell_id r) (f
  (ms_radio_access_capa r)) (ms_network_capa r) (drx_parms r) (pdp_list r) (llme r) (tlli r)
  (tlli_new r) (mm_nsei r) (mm_bvci r) (mm_ctrg r) (mm_T r) (mm_num_T_exp r) (t3350_mode r)
  (t3370_id_type r) (mm_fc r).
#[export] Instance upd_ms_network_capa : Upd ms_network_capa := fun f r => mk_sgsn_mm_ctx (imsi
  r) (mm_state r) (p_tmsi r) (p_tmsi_old r) (imei r) (ra r) (mm_cell_id r) (ms_radio_access_capa
  r) (f (ms_network_capa r)) (drx_parms r) (pdp_list r) (llme r) (tlli r) (tlli_new r) (mm_nsei r)
  (mm_bvci r) (mm_ctrg r) (mm_T r) (mm_num_T_exp r) (t3350_mode r) (t3370_id_type r) (mm_fc r).
#[export] Instance upd_drx_parms : Upd drx_parms := fun f r => mk_sgsn_mm_ctx (imsi r) (mm_state
  r) (p_tmsi r) (p_tmsi_old r) (imei r) (ra r) (mm_cell_id r) (ms_radio_access_capa r)
  (ms_network_capa r) (f (drx_parms r)) (pdp_list r) (llme r) (tlli r) (tlli_new r) (mm_nsei r)
  (mm_bvci r) (mm_ctrg r) (mm_T r) (mm_num_T_exp r) (t3350_mode r) (t3370_id_type r) (mm_fc r).
#[export] Instance upd_pdp_list : Upd pdp_list := fun f r => mk_sgsn_mm_ctx (imsi r) (mm_state
  r) (p_tmsi r) (p_tmsi_old r) (imei r) (ra r) (mm_cell_id r) (ms_radio_access_capa r)
  (ms_network_capa r) (drx_parms r) (f (pdp_list r)) (llme r) (tlli r) (tlli_new r) (mm_nsei r)
  (mm_bvci r) (mm_ctrg r) (mm_T r) (mm_num_T_exp r) (t3350_mode r) (t3370_id_type r) (mm_fc r).
#[export] Instance upd_llme : Upd llme := fun f r => mk_sgsn_mm_ctx (imsi r) (mm_state r)
  (p_tmsi r) (p_tmsi_old r) (imei r) (ra r) (mm_cell_id r) (ms_radio_access_capa r)
  (ms_network_capa r) (drx_parms r) (pdp_list r) (f (llme r)) (tlli r) (tlli_new r) (mm_nsei r)
  (mm_bvci r) (mm_ctrg r) (mm_T r) (mm_num_T_exp r) (t3350_mode r) (t3370_id_type r) (mm_fc r).
#[export] Instance upd_tlli : Upd tlli := fun f r => mk_sgsn_mm_ctx (imsi r) (mm_state r)
  (p_tmsi r) (p_tmsi_old r) (imei r) (ra r) (mm_cell_id r) (ms_radio_access_capa r)
  (ms_network_capa r) (drx_parms r) (pdp_list r) (llme r) (f (tlli r)) (tlli_new r) (mm_nsei r)
  (mm_bvci r) (mm_ctrg r) (mm_T r) (mm_num_T_exp r) (t3350_mode r) (t3370_id_type r) (mm_fc r).
#[export] Instance upd_tlli_new : Upd tlli_new := fun f r => mk_sgsn_mm_ctx (imsi r) (mm_state
  r) (p_tmsi r) (p_tmsi_old r) (imei r) (ra r) (mm_cell_id r) (ms_radio_access_capa r)
  (ms_network_capa r) (drx_parms r) (pdp_list r) (llme r) (tlli r) (f (tlli_new r)) (mm_nsei r)
  (mm_bvci r) (mm_ctrg r) (mm_T r) (mm_num_T_exp r) (t3350_mode r) (t3370_id_type r) (mm_fc r).
#[export] Instance upd_mm_nsei : Upd mm_nsei := fun f r => mk_sgsn_mm_ctx (imsi r) (mm_state r)
  (p_tmsi r) (p_tmsi_old r) (imei r) (ra r) (mm_cell_id r) (ms_radio_access_capa r)
  (ms_network_capa r) (drx_parms r) (pdp_list r) (llme r) (tlli r) (tlli_new r) (f (mm_nsei r))
  (mm_bvci r) (mm_ctrg r) (mm_T r) (mm_num_T_exp r) (t3350_mode r) (t3370_id_type r) (mm_fc r).
#[export] Instance upd_mm_bvci : Upd mm_bvci := fun f r => mk_sgsn_mm_ctx (imsi r) (mm_state r)
  (p_tmsi r) (p_tmsi_old r) (imei r) (ra r) (mm_cell_id r) (ms_radio_access_capa r)
  (ms_network_capa r) (drx_parms r) (pdp_list r) (llme r) (tlli r) (tlli_new r) (mm_nsei r) (f
  (mm_bvci r)) (mm_ctrg r) (mm_T r) (mm_num_T_exp r) (t3350_mode r) (t3370_id_type r) (mm_fc r).
#[export] Instance upd_mm_ctrg : Upd mm_ctrg := fun f r => mk_sgsn_mm_ctx (imsi r) (mm_state r)
  (p_tmsi r) (p_tmsi_old r) (imei r) (ra r) (mm_cell_id r) (ms_radio_access_capa r)
  (ms_network_capa r) (drx_parms r) (pdp_list r) (llme r) (tlli r) (tlli_new r) (mm_nsei r)
  (mm_bvci r) (f (mm_ctrg r)) (mm_T r) (mm_num_T_exp r) (t3350_mode r) (t3370_id_type r) (mm_fc
  r).
#[export] Instance upd_mm_T : Upd mm_T := fun f r => mk_sgsn_mm_ctx (imsi r) (mm_state r)
  (p_tmsi r) (p_tmsi_old r) (imei r) (ra r) (mm_cell_id r) (ms_radio_access_capa r)
  (ms_network_capa r) (drx_parms r) (pdp_list r) (llme r) (tlli r) (tlli_new r) (mm_nsei r)
  (mm_bvci r) (mm_ctrg r) (f (mm_T r)) (mm_num_T_exp r) (t3350_mode r) (t3370_id_type r) (mm_fc
  r).
#[export] Instance upd_mm_num_T_exp : Upd mm_num_T_exp := fun f r => mk_sgsn_mm_ctx (imsi r)
  (mm_state r) (p_tmsi r) (p_tmsi_old r) (imei r) (ra r) (mm_cell_id r) (ms_radio_access_capa r)
  (ms_network_capa r) (drx_parms r) (pdp_list r) (llme r) (tlli r) (tlli_new r) (mm_nsei r)
  (mm_bvci r) (mm_ctrg r) (mm_T r) (f (mm_num_T_exp r)) (t3350_mode r) (t3370_id_type r) (mm_fc
  r).
#[export] Instance upd_t3350_mode : Upd t3350_mode := fun f r => mk_sgsn_mm_ctx (imsi r)
  (mm_state r) (p_tmsi r) (p_tmsi_old r) (imei r) (ra r) (mm_cell_id r) (ms_radio_access_capa r)
  (ms_network_capa r) (drx_parms r) (pdp_list r) (llme r) (tlli r) (tlli_new r) (mm_nsei r)
  (mm_bvci r) (mm_ctrg r) (mm_T r) (mm_num_T_exp r) (f (t3350_mode r)) (t3370_id_type r) (mm_fc
  r).
#[export] Instance upd_t3370_id_type : Upd t3370_id_type := fun f r => mk_sgsn_mm_ctx (imsi r)
  (mm_state r) (p_tmsi r) (p_tmsi_old r) (imei r) (ra r) (mm_cell_id r) (ms_radio_access_capa r)
  (ms_network_capa r) (drx_parms r) (pdp_list r) (llme r) (tlli r) (tlli_new r) (mm_nsei r)
  (mm_bvci r) (mm_ctrg r) (mm_T r) (mm_num_T_exp r) (t3350_mode r) (f (t3370_id_type r)) (mm_fc
  r).
#[export] Instance upd_mm_fc : Upd mm_fc := fun f r => mk_sgsn_mm_ctx (imsi r) (mm_state r)
  (p_tmsi r) (p_tmsi_old r) (imei r) (ra r) (mm_cell_id r) (ms_radio_access_capa r)
  (ms_network_capa r) (drx_parms r) (pdp_list r) (llme r) (tlli r) (tlli_new r) (mm_nsei r)
  (mm_bvci r) (mm_ctrg r) (mm_T r) (mm_num_T_exp r) (t3350_mode r) (t3370_id_type r) (f (mm_fc
  r)).


Inductive pdp_ctx_state : Type := PDP_STATE_NONE | PDP_STATE_CR_REQ | PDP_STATE_CR_CONF | PDP_STATE_INACT_PEND.

(** A PDP context; the members the code never uses are left out. *)
Record sgsn_pdp_ctx : Type := mk_sgsn_pdp_ctx {
  pdp_mm : option nat;
  pdp_ggsn : option nat;
  pdp_lib : option nat;  (* the context of libgtp *)
  pdp_ctrg : list Z;  (* one counter per gprs_pdp_ctr *)
  pdp_state : pdp_ctx_state;
  nsapi : Z;  (* uint16_t *)
  sapi : Z;  (* uint16_t *)
  ti : Z;  (* uint8_t *)
  pdp_T : Z;
  pdp_num_T_exp : Z
}.

#[export] Instance upd_pdp_mm : Upd pdp_mm := fun f r => mk_sgsn_pdp_ctx (f (pdp_mm r))
  (pdp_ggsn r) (pdp_lib r) (pdp_ctrg r) (pdp_state r) (nsapi r) (sapi r) (ti r) (pdp_T r)
  (pdp_num_T_exp r).
#[export] Instance upd_pdp_ggsn : Upd pdp_ggsn := fun f r => mk_sgsn_pdp_ctx (pdp_mm r) (f
  (pdp_ggsn r)) (pdp_lib r) (pdp_ctrg r) (pdp_state r) (nsapi r) (sapi r) (ti r) (pdp_T r)
  (pdp_num_T_exp r).
#[export] Instance upd_pdp_lib : Upd pdp_lib := fun f r => mk_sgsn_pdp_ctx (pdp_mm r) (pdp_ggsn
  r) (f (pdp_lib r)) (pdp_ctrg r) (pdp_state r) (nsapi r) (sapi r) (ti r) (pdp_T r) (pdp_num_T_exp
  r).
#[export] Instance upd_pdp_ctrg : Upd pdp_ctrg := fun f r => mk_sgsn_pdp_ctx (pdp_mm r)
  (pdp_ggsn r) (pdp_lib r) (f (pdp_ctrg r)) (pdp_state r) (nsapi r) (sapi r) (ti r) (pdp_T r)
  (pdp_num_T_exp r).
#[export] Instance upd_pdp_state : Upd pdp_state := fun f r => mk_sgsn_pdp_ctx (pdp_mm r)
  (pdp_ggsn r) (pdp_lib r) (pdp_ctrg r) (f (pdp_state r)) (nsapi r) (sapi r) (ti r) (pdp_T r)
  (pdp_num_T_exp r).
#[export] Instance upd_nsapi : Upd nsapi := fun f r => mk_sgsn_pdp_ctx (pdp_mm r) (pdp_ggsn r)
  (pdp_lib r) (pdp_ctrg r) (pdp_state r) (f (nsapi r)) (sapi r) (ti r) (pdp_T r) (pdp_num_T_exp
  r).
#[export] Instance upd_sapi : Upd sapi := fun f r => mk_sgsn_pdp_ctx (pdp_mm r) (pdp_ggsn r)
  (pdp_lib r) (pdp_ctrg r) (pdp_state r) (nsapi r) (f (sapi r)) (ti r) (pdp_T r) (pdp_num_T_exp
  r).
#[export] Instance upd_ti : Upd ti := fun f r => mk_sgsn_pdp_ctx (pdp_mm r) (pdp_ggsn r)
  (pdp_lib r) (pdp_ctrg r) (pdp_state r) (nsapi r) (sapi r) (f (ti r)) (pdp_T r) (pdp_num_T_exp
  r).
#[export] Instance upd_pdp_T : Upd pdp_T := fun f r => mk_sgsn_pdp_ctx (pdp_mm r) (pdp_ggsn r)
  (pdp_lib r) (pdp_ctrg r) (pdp_state r) (nsapi r) (sapi r) (ti r) (f (pdp_T r)) (pdp_num_T_exp
  r).
#[export] Instance upd_pdp_num_T_exp : Upd pdp_num_T_exp := fun f r => mk_sgsn_pdp_ctx (pdp_mm
  r) (pdp_ggsn r) (pdp_lib r) (pdp_ctrg r) (pdp_state r) (nsapi r) (sapi r) (ti r) (pdp_T r) (f
  (pdp_num_T_exp r)).

(** A GGSN. *)
Record sgsn_ggsn_ctx : Type := mk_sgsn_ggsn_ctx {
  ggsn_id : Z;  (* uint32_t *)
  gtp_version : Z;
  remote_addr : Z;
  remote_restart_ctr : Z
}.

#[export] Instance upd_ggsn_id : Upd ggsn_id := fun f r => mk_sgsn_ggsn_ctx (f (ggsn_id r))
  (gtp_version r) (remote_addr r) (remote_restart_ctr r).
#[export] Instance upd_gtp_version : Upd gtp_version := fun f r => mk_sgsn_ggsn_ctx (ggsn_id r)
  (f (gtp_version r)) (remote_addr r) (remote_restart_ctr r).
#[export] Instance upd_remote_addr : Upd remote_addr := fun f r => mk_sgsn_ggsn_ctx (ggsn_id r)
  (gtp_version r) (f (remote_addr r)) (remote_restart_ctr r).
#[export] Instance upd_remote_restart_ctr : Upd remote_restart_ctr := fun f r =>
  mk_sgsn_ggsn_ctx (ggsn_id r) (gtp_version r) (remote_addr r) (f (remote_restart_ctr r)).

(** The members of a context of libgtp that this code reads or writes. *)
Record pdp_t : Type := mk_pdp_t {
  lib_version : Z;
  lib_priv : option nat;
  hisaddr : Z;  (* hisaddr0 and hisaddr1 *)
  selmode : Z;
  eua : list Z;
  apn_use : list Z;
  pco_req : list Z;
  qos_req : list Z;
  gsnl : Z;  (* gsnlc and gsnlu *)
  radio_pri : Z
}.

#[export] Instance upd_lib_version : Upd lib_version := fun f r => mk_pdp_t (f (lib_version r))
  (lib_priv r) (hisaddr r) (selmode r) (eua r) (apn_use r) (pco_req r) (qos_req r) (gsnl r)
  (radio_pri r).
#[export] Instance upd_lib_priv : Upd lib_priv := fun f r => mk_pdp_t (lib_version r) (f
  (lib_priv r)) (hisaddr r) (selmode r) (eua r) (apn_use r) (pco_req r) (qos_req r) (gsnl r)
  (radio_pri r).
#[export] Instance upd_hisaddr : Upd hisaddr := fun f r => mk_pdp_t (lib_version r) (lib_priv r)
  (f (hisaddr r)) (selmode r) (eua r) (apn_use r) (pco_req r) (qos_req r) (gsnl r) (radio_pri r).
#[export] Instance upd_selmode : Upd selmode := fun f r => mk_pdp_t (lib_version r) (lib_priv r)
  (hisaddr r) (f (selmode r)) (eua r) (apn_use r) (pco_req r) (qos_req r) (gsnl r) (radio_pri r).
#[export] Instance upd_eua : Upd eua := fun f r => mk_pdp_t (lib_version r) (lib_priv r)
  (hisaddr r) (selmode r) (f (eua r)) (apn_use r) (pco_req r) (qos_req r) (gsnl r) (radio_pri r).
#[export] Instance upd_apn_use : Upd apn_use := fun f r => mk_pdp_t (lib_version r) (lib_priv r)
  (hisaddr r) (selmode r) (eua r) (f (apn_use r)) (pco_req r) (qos_req r) (gsnl r) (radio_pri r).
#[export] Instance upd_pco_req : Upd pco_req := fun f r => mk_pdp_t (lib_version r) (lib_priv r)
  (hisaddr r) (selmode r) (eua r) (apn_use r) (f (pco_req r)) (qos_req r) (gsnl r) (radio_pri r).
#[export] Instance upd_qos_req : Upd qos_req := fun f r => mk_pdp_t (lib_version r) (lib_priv r)
  (hisaddr r) (selmode r) (eua r) (apn_use r) (pco_req r) (f (qos_req r)) (gsnl r) (radio_pri r).
#[export] Instance upd_gsnl : Upd gsnl := fun f r => mk_pdp_t (lib_version r) (lib_priv r)
  (hisaddr r) (selmode r) (eua r) (apn_use r) (pco_req r) (qos_req r) (f (gsnl r)) (radio_pri r).
#[export] Instance upd_radio_pri : Upd radio_pri := fun f r => mk_pdp_t (lib_version r)
  (lib_priv r) (hisaddr r) (selmode r) (eua r) (apn_use r) (pco_req r) (qos_req r) (gsnl r) (f
  (radio_pri r)).

(** The buffers of a context of libgtp, and the causes the code knows. *)
Inductive pdp_v : Type := PDP_EUA | PDP_APN_USE | PDP_PCO_REQ | PDP_QOS_REQ.
Inductive gtp_cause : Type :=
| GTPCAUSE_ACC_REQ | GTPCAUSE_NO_RESOURCES | GTPCAUSE_NOT_SUPPORTED | GTPCAUSE_MAN_IE_INCORRECT
| GTPCAUSE_MAN_IE_MISSING | GTPCAUSE_OPT_IE_INCORRECT | GTPCAUSE_SYS_FAIL | GTPCAUSE_ROAMING_REST
| GTPCAUSE_PTIMSI_MISMATCH | GTPCAUSE_CONN_SUSP | GTPCAUSE_AUTH_FAIL | GTPCAUSE_USER_AUTH_FAIL
| GTPCAUSE_CONTEXT_NOT_FOUND | GTPCAUSE_ADDR_OCCUPIED | GTPCAUSE_NO_MEMORY | GTPCAUSE_RELOC_FAIL
| GTPCAUSE_UNKNOWN_MAN_EXTHEADER | GTPCAUSE_MISSING_APN | GTPCAUSE_UNKNOWN_PDP.

(** The globals of the SGSN. *)
Record sgsn_state : Type := mk_sgsn_state {
  bvcs : gmap nat bssgp_bvc_ctx;
  bssgp_bvc_ctxts : list nat;
  mms : gmap nat sgsn_mm_ctx;
  sgsn_mm_ctxts : list nat;
  pdps : gmap nat sgsn_pdp_ctx;
  sgsn_pdp_ctxts : list nat;
  ggsns : gmap nat sgsn_ggsn_ctx;
  sgsn_ggsn_ctxts : list nat;
  libs : gmap nat pdp_t;  (* the contexts of libgtp in use *)
  mm_timers : gmap nat Z;  (* the pending timers of mobiles: seconds *)
  pdp_timers : gmap nat Z;
  next_id : nat;  (* the address of the next allocation *)
  rand_nr : nat;  (* how often rand was called *)
  tick_nr : nat  (* how often the clock was read *)
}.

#[export] Instance upd_bvcs : Upd bvcs := fun f r => mk_sgsn_state (f (bvcs r)) (bssgp_bvc_ctxts
  r) (mms r) (sgsn_mm_ctxts r) (pdps r) (sgsn_pdp_ctxts r) (ggsns r) (sgsn_ggsn_ctxts r) (libs r)
  (mm_timers r) (pdp_timers r) (next_id r) (rand_nr r) (tick_nr r).
#[export] Instance upd_bssgp_bvc_ctxts : Upd bssgp_bvc_ctxts := fun f r => mk_sgsn_state (bvcs
  r) (f (bssgp_bvc_ctxts r)) (mms r) (sgsn_mm_ctxts r) (pdps r) (sgsn_pdp_ctxts r) (ggsns r)
  (sgsn_ggsn_ctxts r) (libs r) (mm_timers r) (pdp_timers r) (next_id r) (rand_nr r) (tick_nr r).
#[export] Instance upd_mms : Upd mms := fun f r => mk_sgsn_state (bvcs r) (bssgp_bvc_ctxts r) (f
  (mms r)) (sgsn_mm_ctxts r) (pdps r) (sgsn_pdp_ctxts r) (ggsns r) (sgsn_ggsn_ctxts r) (libs r)
  (mm_timers r) (pdp_timers r) (next_id r) (rand_nr r) (tick_nr r).
#[export] Instance upd_sgsn_mm_ctxts : Upd sgsn_mm_ctxts := fun f r => mk_sgsn_state (bvcs r)
  (bssgp_bvc_ctxts r) (mms r) (f (sgsn_mm_ctxts r)) (pdps r) (sgsn_pdp_ctxts r) (ggsns r)
  (sgsn_ggsn_ctxts r) (libs r) (mm_timers r) (pdp_timers r) (next_id r) (rand_nr r) (tick_nr r).
#[export] Instance upd_pdps : Upd pdps := fun f r => mk_sgsn_state (bvcs r) (bssgp_bvc_ctxts r)
  (mms r) (sgsn_mm_ctxts r) (f (pdps r)) (sgsn_pdp_ctxts r) (ggsns r) (sgsn_ggsn_ctxts r) (libs r)
  (mm_timers r) (pdp_timers r) (next_id r) (rand_nr r) (tick_nr r).
#[export] Instance upd_sgsn_pdp_ctxts : Upd sgsn_pdp_ctxts := fun f r => mk_sgsn_state (bvcs r)
  (bssgp_bvc_ctxts r) (mms r) (sgsn_mm_ctxts r) (pdps r) (f (sgsn_pdp_ctxts r)) (ggsns r)
  (sgsn_ggsn_ctxts r) (libs r) (mm_timers r) (pdp_timers r) (next_id r) (rand_nr r) (tick_nr r).
#[export] Instance upd_ggsns : Upd ggsns := fun f r => mk_sgsn_state (bvcs r) (bssgp_bvc_ctxts
  r) (mms r) (sgsn_mm_ctxts r) (pdps r) (sgsn_pdp_ctxts r) (f (ggsns r)) (sgsn_ggsn_ctxts r) (libs
  r) (mm_timers r) (pdp_timers r) (next_id r) (rand_nr r) (tick_nr r).
#[export] Instance upd_sgsn_ggsn_ctxts : Upd sgsn_ggsn_ctxts := fun f r => mk_sgsn_state (bvcs
  r) (bssgp_bvc_ctxts r) (mms r) (sgsn_mm_ctxts r) (pdps r) (sgsn_pdp_ctxts r) (ggsns r) (f
  (sgsn_ggsn_ctxts r)) (libs r) (mm_timers r) (pdp_timers r) (next_id r) (rand_nr r) (tick_nr r).
#[export] Instance upd_libs : Upd libs := fun f r => mk_sgsn_state (bvcs r) (bssgp_bvc_ctxts r)
  (mms r) (sgsn_mm_ctxts r) (pdps r) (sgsn_pdp_ctxts r) (ggsns r) (sgsn_ggsn_ctxts r) (f (libs r))
  (mm_timers r) (pdp_timers r) (next_id r) (rand_nr r) (tick_nr r).
#[export] Instance upd_mm_timers : Upd mm_timers := fun f r => mk_sgsn_state (bvcs r)
  (bssgp_bvc_ctxts r) (mms r) (sgsn_mm_ctxts r) (pdps r) (sgsn_pdp_ctxts r) (ggsns r)
  (sgsn_ggsn_ctxts r) (libs r) (f (mm_timers r)) (pdp_timers r) (next_id r) (rand_nr r) (tick_nr
  r).
#[export] Instance upd_pdp_timers : Upd pdp_timers := fun f r => mk_sgsn_state (bvcs r)
  (bssgp_bvc_ctxts r) (mms r) (sgsn_mm_ctxts r) (pdps r) (sgsn_pdp_ctxts r) (ggsns r)
  (sgsn_ggsn_ctxts r) (libs r) (mm_timers r) (f (pdp_timers r)) (next_id r) (rand_nr r) (tick_nr
  r).
#[export] Instance upd_next_id : Upd next_id := fun f r => mk_sgsn_state (bvcs r)
  (bssgp_bvc_ctxts r) (mms r) (sgsn_mm_ctxts r) (pdps r) (sgsn_pdp_ctxts r) (ggsns r)
  (sgsn_ggsn_ctxts r) (libs r) (mm_timers r) (pdp_timers r) (f (next_id r)) (rand_nr r) (tick_nr
  r).
#[export] Instance upd_rand_nr : Upd rand_nr := fun f r => mk_sgsn_state (bvcs r)
  (bssgp_bvc_ctxts r) (mms r) (sgsn_mm_ctxts r) (pdps r) (sgsn_pdp_ctxts r) (ggsns r)
  (sgsn_ggsn_ctxts r) (libs r) (mm_timers r) (pdp_timers r) (next_id r) (f (rand_nr r)) (tick_nr
  r).
#[export] Instance upd_tick_nr : Upd tick_nr := fun f r => mk_sgsn_state (bvcs r)
  (bssgp_bvc_ctxts r) (mms r) (sgsn_mm_ctxts r) (pdps r) (sgsn_pdp_ctxts r) (ggsns r)
  (sgsn_ggsn_ctxts r) (libs r) (mm_timers r) (pdp_timers r) (next_id r) (rand_nr r) (f (tick_nr
  r)).


Definition sgsn_empty : sgsn_state :=
  mk_sgsn_state ∅ [] ∅ [] ∅ [] ∅ [] ∅ ∅ ∅ 0 0 0.

(** What is handed to the layers around. *)
Inductive sgsn_event : Type :=
| EvNsSend (nsei bvci : Z) (data : list Z)                       (* gprs_ns_sendmsg *)
| EvLlcRcv (tlli nsei bvci : Z) (llch : list Z) (llc_len : Z) (bcid : list Z)  (* gprs_llc_rcvmsg *)
| EvLlcTxUi (tlli nsei bvci : Z) (data : list Z) (command : bool) (mm : option nat)  (* gprs_llc_tx_ui, GMM SAPI *)
| EvLlgmmAssign (llme : option nat) (old_tlli new_tlli : Z)      (* gprs_llgmm_assign, no ciphering *)
| EvSndcpActivate (llme : option nat) (sapi nsapi : Z)
| EvSndcpDeactivate (llme : option nat) (sapi nsapi : Z)
| EvSndcpReq (tlli nsei bvci : Z) (data : list Z) (llme : option nat) (sapi nsapi : Z) (mm : nat)
| EvGtpCreate (lib : option nat)                                  (* gtp_create_context_req *)
| EvGtpDelete (lib : option nat)                                  (* gtp_delete_context_req *)
| EvGtpData (lib : option nat) (npdu : list Z).                    (* gtp_data_req *)

(** The libraries, the clock and the memory. *)
Class SgsnEnv : Type := {
  (* libosmocore *)
  gprs_tlli_type : Z -> Z;
  TLLI_LOCAL : Z;
  TLLI_FOREIGN : Z;
  gprs_tmsi2tlli : Z -> Z -> Z;
  gsm48_parse_ra : list Z -> gprs_ra_id;
  gsm48_construct_ra : gprs_ra_id -> list Z;
  gsm48_generate_mid_from_tmsi : Z -> list Z;
  gsm48_generate_mid_from_imsi : list Z -> list Z;
  gsm48_mi_to_string : list Z -> Z -> list Z;
  (* for each tag the length and the memory from the value on, if it is present *)
  bssgp_tlv_parse : list Z -> Z -> Z -> option (Z * list Z);
  gmm_tlv_parse : list Z -> Z -> Z -> option (Z * list Z);
  sm_tlv_parse : list Z -> Z -> Z -> option (Z * list Z);
  msgb_tlv_put : Z -> list Z -> list Z;
  msgb_lv_put : list Z -> list Z;
  GSM48_PDISC_MM_GPRS : Z;
  GSM48_PDISC_SM_GPRS : Z;
  GSM_MI_TYPE_MASK : Z;
  GSM_MI_TYPE_IMSI : Z;
  GSM_MI_TYPE_IMEI : Z;
  GSM_MI_TYPE_TMSI : Z;
  msgb_tvlv_put : Z -> list Z -> list Z;  (* an element as it is appended or prepended *)
  TVLV_MAX_ONEBYTE : Z;
  (* the C library *)
  rand : nat -> Z;
  rand_draws : nat;  (* the draws [sgsn_alloc_ptmsi] makes at most *)
  clock : nat -> timeval;
  (* memory *)
  msgb_ok : bool;
  bvc_alloc_ok : bool;
  mm_alloc_ok : bool;
  pdp_alloc_ok : bool;
  ggsn_alloc_ok : bool;
  fcqe_alloc_ok : bool;
  uninit : Z;
  (* libgtp: a context for an IMSI and an NSAPI *)
  pdp_newpdp : Z -> Z -> option pdp_t;
  gtp_v_size : pdp_v -> nat;  (* the sizes of its buffers *)
  gtpcause : gtp_cause -> Z;
  gtp_listenaddr : Z;
  (* what the other layers return *)
  event_rc : sgsn_event -> Z
}.

Section sgsn.
Context {env : SgsnEnv}.

Abbreviation SG := (M sgsn_state sgsn_event).

(** ** Objects behind pointers *)

(** [*p] of a pointer to an object in the store [f]. *)
Definition load {A} (f : sgsn_state -> gmap nat A) (id : nat) : SG A :=
  fun st => match f st !! id with Some x => Some (x, st, []) | None => None end.
Definition mm_get : nat -> SG sgsn_mm_ctx := load mms.
Definition pdp_get : nat -> SG sgsn_pdp_ctx := load pdps.
Definition bvc_get : nat -> SG bssgp_bvc_ctx := load bvcs.
Definition ggsn_get : nat -> SG sgsn_ggsn_ctx := load ggsns.
Definition lib_get : nat -> SG pdp_t := load libs.
(** Members assigned through a pointer that is known to be valid. *)
Definition mm_upd (id : nat) (f : sgsn_mm_ctx -> sgsn_mm_ctx) : SG unit :=
  mm_get id;; modify (fun st => st <| mms ::= alter f id |>).
Definition pdp_upd (id : nat) (f : sgsn_pdp_ctx -> sgsn_pdp_ctx) : SG unit :=
  pdp_get id;; modify (fun st => st <| pdps ::= alter f id |>).
Definition bvc_upd (id : nat) (f : bssgp_bvc_ctx -> bssgp_bvc_ctx) : SG unit :=
  bvc_get id;; modify (fun st => st <| bvcs ::= alter f id |>).
Definition ggsn_upd (id : nat) (f : sgsn_ggsn_ctx -> sgsn_ggsn_ctx) : SG unit :=
  ggsn_get id;; modify (fun st => st <| ggsns ::= alter f id |>).
Definition lib_upd (id : nat) (f : pdp_t -> pdp_t) : SG unit :=
  lib_get id;; modify (fun st => st <| libs ::= alter f id |>).
(** Following a pointer that may be null. *)
Definition deref {A} (p : option A) : SG A := match p with Some a => mret a | None => fault end.

(** An event is emitted and its return code taken. *)
Definition call (e : sgsn_event) : SG Z := emit e;; mret (event_rc e).

Definition bssgp_ctr_index (c : bssgp_ctr) : nat :=
  match c with
  | BSSGP_CTR_PKTS_IN => 0 | BSSGP_CTR_PKTS_OUT => 1 | BSSGP_CTR_BYTES_IN => 2
  | BSSGP_CTR_BYTES_OUT => 3 | BSSGP_CTR_BLOCKED => 4 | BSSGP_CTR_DISCARDED => 5
  end.
Definition mm_ctr_index (c : gprs_mm_ctr) : nat :=
  match c with
  | GMM_CTR_PKTS_SIG_IN => 0 | GMM_CTR_PKTS_SIG_OUT => 1 | GMM_CTR_PKTS_UDATA_IN => 2
  | GMM_CTR_PKTS_UDATA_OUT => 3 | GMM_CTR_BYTES_UDATA_IN => 4 | GMM_CTR_BYTES_UDATA_OUT => 5
  | GMM_CTR_PDP_CTX_ACT => 6 | GMM_CTR_SUSPEND => 7 | GMM_CTR_PAGING_PS => 8
  | GMM_CTR_PAGING_CS => 9 | GMM_CTR_RA_UPDATE => 10
  end.
Definition pdp_ctr_index (c : gprs_pdp_ctr) : nat :=
  match c with
  | PDP_CTR_PKTS_UDATA_IN => 0 | PDP_CTR_PKTS_UDATA_OUT => 1 | PDP_CTR_BYTES_UDATA_IN => 2
  | PDP_CTR_BYTES_UDATA_OUT => 3
  end.
Definition ctr_add (i : nat) (n : Z) (ctrs : list Z) : list Z := alter (fun x => wrap 64 (x + n)) i ctrs.
Definition bvc_ctr_add (id : nat) (c : bssgp_ctr) (n : Z) : SG unit :=
  bvc_upd id (fun b => b <| bvc_ctrg ::= ctr_add (bssgp_ctr_index c) n |>).
Definition mm_ctr_add (id : nat) (c : gprs_mm_ctr) (n : Z) : SG unit :=
  mm_upd id (fun m => m <| mm_ctrg ::= ctr_add (mm_ctr_index c) n |>).
Definition pdp_ctr_add (id : nat) (c : gprs_pdp_ctr) (n : Z) : SG unit :=
  pdp_upd id (fun p => p <| pdp_ctrg ::= ctr_add (pdp_ctr_index c) n |>).

(** ** Mobiles *)

Definition ra_id_equals (id1 id2 : gprs_ra_id) : bool :=
  (mcc id1 =? mcc id2) && (mnc id1 =? mnc id2) && (lac id1 =? lac id2) && (rac id1 =? rac id2).

Definition tlli_foreign (t : Z) : Z := (t .| 0x80000000) .& Z.lnot 0x40000000.

(** The first mobile of the list that [p] holds of. *)
Definition mm_find (st : sgsn_state) (p : sgsn_mm_ctx -> bool) : option nat :=
  find (fun id => match mms st !! id with Some m => p m | None => false end) (sgsn_mm_ctxts st).

Definition by_local_tlli (t : Z) (m : sgsn_mm_ctx) : bool :=
  ((p_tmsi m .| 0xC0000000) =? t)
  || negb (p_tmsi_old m =? 0) && ((p_tmsi_old m .| 0xC0000000) =? t).

(** The mobile that is found by a local TLLI takes it. *)
Definition sgsn_mm_ctx_by_tlli (t : Z) (raid : gprs_ra_id) : SG (option nat) :=
  st ← gets (fun st => st);
  match mm_find st (fun m => (t =? tlli m) && ra_id_equals raid (ra m)) with
  | Some id => mret (Some id)
  | None =>
      let tlli_type := gprs_tlli_type t in
      if tlli_type =? TLLI_LOCAL then
        match mm_find st (by_local_tlli t) with
        | Some id => mm_upd id (fun m => m <| tlli := t |>);; mret (Some id)
        | None => mret None
        end
      else if tlli_type =? TLLI_FOREIGN then
        mret (mm_find st (fun m => (t =? tlli_foreign (tlli m)) && ra_id_equals raid (ra m)))
      else mret None
  end.

Definition sgsn_mm_ctx_by_ptmsi (t : Z) : SG (option nat) :=
  gets (fun st => mm_find st (fun m => (t =? p_tmsi m)
                                       || negb (p_tmsi_old m =? 0) && (p_tmsi_old m =? t))).

Definition sgsn_mm_ctx_by_imsi (s : list Z) : SG (option nat) :=
  gets (fun st => mm_find st (fun m => bool_decide (s = imsi m))).

Definition mm_new (t : Z) (raid : gprs_ra_id) : sgsn_mm_ctx :=
  mk_sgsn_mm_ctx [] GMM_DEREGISTERED 0 0 [] raid 0 [] [] 0 [] None t 0 0 0 (replicate 11 0) 0 0
    GMM_T3350_MODE_ATT 0 (fc_zero <| out_cb := Some OUT_FC_IN |>).

Definition sgsn_mm_ctx_alloc (t : Z) (raid : gprs_ra_id) : SG (option nat) :=
  if negb mm_alloc_ok then mret None
  else
    id ← gets next_id;
    modify (fun st => st <| mms ::= insert id (mm_new t raid) |> <| sgsn_mm_ctxts ::= cons id |>
                         <| next_id ::= S |>);;
    mret (Some id).

(** ** PDP contexts *)

Definition unlink (id : nat) : list nat -> list nat := filter (fun i => i <> id).

(** The context leaves the list of its mobile and the global list. *)
Definition sgsn_pdp_ctx_free (id : nat) : SG unit :=
  p ← pdp_get id;
  match pdp_mm p with
  | Some mm => modify (fun st => st <| mms ::= alter (fun m => m <| pdp_list ::= unlink id |>) mm |>)
  | None => mret tt
  end;;
  modify (fun st => st <| sgsn_pdp_ctxts ::= unlink id |> <| pdps ::= delete id |>).

Fixpoint for_each {A} (f : A -> SG unit) (xs : list A) : SG unit :=
  match xs with
  | [] => mret tt
  | x :: xs => f x;; for_each f xs
  end.

Definition sgsn_mm_ctx_free (id : nat) : SG unit :=
  m ← mm_get id;
  modify (fun st => st <| sgsn_mm_ctxts ::= unlink id |>);;
  for_each sgsn_pdp_ctx_free (pdp_list m);;
  modify (fun st => st <| mms ::= delete id |>).

Definition pdp_find (st : sgsn_state) (ids : list nat) (p : sgsn_pdp_ctx -> bool) : option nat :=
  find (fun id => match pdps st !! id with Some x => p x | None => false end) ids.

Definition sgsn_pdp_ctx_by_nsapi (mm : nat) (n : Z) : SG (option nat) :=
  m ← mm_get mm; gets (fun st => pdp_find st (pdp_list m) (fun p => nsapi p =? n)).

Definition sgsn_pdp_ctx_by_tid (mm : nat) (t : Z) : SG (option nat) :=
  m ← mm_get mm; gets (fun st => pdp_find st (pdp_list m) (fun p => ti p =? t)).

Definition pdp_new (mm : nat) (n : Z) : sgsn_pdp_ctx :=
  mk_sgsn_pdp_ctx (Some mm) None None (replicate 4 0) PDP_STATE_NONE n 0 0 0 0.

Definition sgsn_pdp_ctx_alloc (mm : nat) (n : Z) : SG (option nat) :=
  pdp ← sgsn_pdp_ctx_by_nsapi mm n;
  match pdp with
  | Some _ => mret None
  | None =>
      if negb pdp_alloc_ok then mret None
      else
        id ← gets next_id;
        modify (fun st => st <| pdps ::= insert id (pdp_new mm n) |> <| sgsn_pdp_ctxts ::= cons id |>
                             <| next_id ::= S |>);;
        mm_upd mm (fun m => m <| pdp_list ::= cons id |>);;
        mret (Some id)
  end.

(** ** GGSNs *)

Definition ggsn_find (st : sgsn_state) (p : sgsn_ggsn_ctx -> bool) : option nat :=
  find (fun id => match ggsns st !! id with Some g => p g | None => false end) (sgsn_ggsn_ctxts st).

Definition sgsn_ggsn_ctx_by_id (n : Z) : SG (option nat) :=
  gets (fun st => ggsn_find st (fun g => n =? ggsn_id g)).
Definition sgsn_ggsn_ctx_by_addr (addr : Z) : SG (option nat) :=
  gets (fun st => ggsn_find st (fun g => addr =? remote_addr g)).

Definition sgsn_ggsn_ctx_alloc (n : Z) : SG (option nat) :=
  if negb ggsn_alloc_ok then mret None
  else
    id ← gets next_id;
    modify (fun st => st <| ggsns ::= insert id (mk_sgsn_ggsn_ctx n 1 0 (-1)) |>
                         <| sgsn_ggsn_ctxts ::= cons id |> <| next_id ::= S |>);;
    mret (Some id).

Definition sgsn_ggsn_ctx_find_alloc (n : Z) : SG (option nat) :=
  ggc ← sgsn_ggsn_ctx_by_id n;
  match ggc with Some id => mret (Some id) | None => sgsn_ggsn_ctx_alloc n end.

(** ** Temporary identities *)

Definition ptmsi_in_use (st : sgsn_state) (t : Z) : bool :=
  existsb (fun id => match mms st !! id with Some m => p_tmsi m =? t | None => false end)
          (sgsn_mm_ctxts st).

(** Draw until the identity is not in use; at most [fuel] times. *)
Fixpoint ptmsi_loop (fuel : nat) : SG Z :=
  match fuel with
  | O => fault
  | S fuel =>
      n ← gets rand_nr;
      modify (fun st => st <| rand_nr ::= S |>);;
      let ptmsi := u32 (rand n) in
      used ← gets (fun st => ptmsi_in_use st ptmsi);
      if (used : bool) then ptmsi_loop fuel else mret ptmsi
  end.
Definition sgsn_alloc_ptmsi : SG Z := ptmsi_loop rand_draws.

(** ** SUSPEND and RESUME *)

Definition gprs_gmm_rx_suspend (raid : gprs_ra_id) (t : Z) : SG Z :=
  mmctx ← sgsn_mm_ctx_by_tlli t raid;
  match mmctx with
  | None => mret (- EINVAL)
  | Some id =>
      m ← mm_get id;
      if decide (mm_state m = GMM_REGISTERED_NORMAL) then
        mm_upd id (fun m => m <| mm_state := GMM_REGISTERED_SUSPENDED |>);; mret 0
      else mret (- EINVAL)
  end.

Definition gprs_gmm_rx_resume (raid : gprs_ra_id) (t suspend_ref : Z) : SG Z :=
  mmctx ← sgsn_mm_ctx_by_tlli t raid;
  match mmctx with
  | None => mret (- EINVAL)
  | Some id =>
      m ← mm_get id;
      if decide (mm_state m = GMM_REGISTERED_SUSPENDED) then
        mm_upd id (fun m => m <| mm_state := GMM_REGISTERED_NORMAL |>);; mret 0
      else mret (- EINVAL)
  end.

(** The clock is read. *)
Definition gettimeofday : SG timeval :=
  n ← gets tick_nr; modify (fun st => st <| tick_nr ::= S |>);; mret (clock n).

End sgsn.
End Sgsn.
