(* ===== verification/SgsnInv.v ===== *)
(** The invariant of the contexts of the SGSN, and what the operations of Sgsn.v do to it. *)

From S2P Require Import Prelude Sgsn.
Import Sgsn.

Module SgsnInv.

Abbreviation SG := (M sgsn_state sgsn_event).

(** ** The invariant *)

(** A list holds each object of a store once. *)
Definition lists {A} (l : list nat) (f : gmap nat A) : Prop :=
  NoDup l /\ forall id, id ∈ l <-> is_Some (f !! id).

(** A flow control nothing was ever queued in, with its callback. *)
Definition fc_ok (cb : fc_out_cb) (fc : bssgp_flow_control) : Prop :=
  queue_depth fc = 0 /\ fc_queue fc = None /\ fc_timer fc = None /\ out_cb fc = Some cb.

(** The P-TMSIs of the mobiles but [x] differ; [mml] is the list of the mobiles. *)
Record wf_gen (x : option nat) (mml : list nat) (st : sgsn_state) : Prop := mk_wf_gen {
  wf_mms : lists mml (mms st);
  wf_pdps : lists (sgsn_pdp_ctxts st) (pdps st);
  wf_bvcs : lists (bssgp_bvc_ctxts st) (bvcs st);
  wf_ggsns : lists (sgsn_ggsn_ctxts st) (ggsns st);
  wf_fresh_mm id : is_Some (mms st !! id) -> (id < next_id st)%nat;
  wf_fresh_pdp id : is_Some (pdps st !! id) -> (id < next_id st)%nat;
  wf_fresh_bvc id : is_Some (bvcs st !! id) -> (id < next_id st)%nat;
  wf_fresh_ggsn id : is_Some (ggsns st !! id) -> (id < next_id st)%nat;
  wf_fresh_lib id : is_Some (libs st !! id) -> (id < next_id st)%nat;
  wf_fresh_mm_timer id : is_Some (mm_timers st !! id) -> (id < next_id st)%nat;
  wf_fresh_pdp_timer id : is_Some (pdp_timers st !! id) -> (id < next_id st)%nat;
  (* a PDP context is in the list of its mobile and in no other *)
  wf_pdp_mm id p : pdps st !! id = Some p ->
    exists mm m, pdp_mm p = Some mm /\ mms st !! mm = Some m /\ id ∈ pdp_list m;
  wf_pdp_list mm m : mms st !! mm = Some m ->
    NoDup (pdp_list m)
    /\ forall id, id ∈ pdp_list m -> exists p, pdps st !! id = Some p /\ pdp_mm p = Some mm;
  (* a mobile has one PDP context for an NSAPI *)
  wf_nsapi i j p q : pdps st !! i = Some p -> pdps st !! j = Some q ->
    pdp_mm p = pdp_mm q -> nsapi p = nsapi q -> i = j;
  (* no two mobiles have one P-TMSI *)
  wf_ptmsi i j m n : Some i <> x -> Some j <> x -> mms st !! i = Some m -> mms st !! j = Some n ->
    p_tmsi m = p_tmsi n -> i = j;
  (* a cell has one context *)
  wf_bvc i j b c : bvcs st !! i = Some b -> bvcs st !! j = Some c ->
    nsei b = nsei c -> bvci b = bvci c -> i = j;
  wf_mm_fc i m : mms st !! i = Some m -> fc_ok OUT_FC_IN (mm_fc m);
  wf_bvc_fc i b : bvcs st !! i = Some b -> fc_ok OUT_TX_DL_UD (bvc_fc b);
  (* a timer that runs has not expired too often *)
  wf_mm_timer i m : is_Some (mm_timers st !! i) -> mms st !! i = Some m -> 0 <= mm_num_T_exp m < 5;
  (* a PDP context only waits for its deactivation, and its counter never moves *)
  wf_pdp_timer i p : is_Some (pdp_timers st !! i) -> pdps st !! i = Some p ->
    pdp_T p = 3395 /\ pdp_num_T_exp p = 0
}.
Arguments wf_mms {x mml st}.
Arguments wf_pdps {x mml st}.
Arguments wf_bvcs {x mml st}.
Arguments wf_ggsns {x mml st}.
Arguments wf_pdp_mm {x mml st}.
Arguments wf_pdp_list {x mml st}.
Arguments wf_ptmsi {x mml st}.
Arguments wf_bvc {x mml st}.
Arguments wf_mm_fc {x mml st}.
Arguments wf_bvc_fc {x mml st}.
Arguments wf_mm_timer {x mml st}.
Arguments wf_pdp_timer {x mml st}.
Arguments wf_nsapi {x mml st}.

Definition wf_but (x : option nat) (st : sgsn_state) : Prop := wf_gen x (sgsn_mm_ctxts st) st.
Abbreviation sgsn_wf := (wf_but None).

Lemma lists_nil {A} : lists [] (∅ : gmap nat A).
Proof.
  split; [constructor|]. intros id. rewrite lookup_empty. split; [by intros ?%elem_of_nil|by intros [? [=]]].
Qed.
Lemma lists_cons {A} l (f : gmap nat A) id x :
  lists l f -> f !! id = None -> lists (id :: l) (<[id := x]> f).
Proof.
  intros [Hnd Hl] Hid. split.
  - constructor; [|done]. rewrite Hl, Hid. by intros [? [=]].
  - intros i. rewrite elem_of_cons, lookup_insert_is_Some', Hl. split; intros [->|?]; auto.
Qed.
Lemma lists_unlink {A} l (f : gmap nat A) id : lists l f -> lists (unlink id l) (delete id f).
Proof.
  intros [Hnd Hl]. split; [by apply NoDup_filter|].
  intros i. unfold unlink. rewrite list_elem_of_filter, lookup_delete_is_Some, Hl. split; intros [??]; split; congruence || done.
Qed.

Lemma sgsn_empty_wf : sgsn_wf sgsn_empty.
Proof.
  split; cbn; try apply lists_nil; setoid_rewrite lookup_empty;
    intros; repeat match goal with H : is_Some None |- _ => destruct H as [? H] end; done.
Qed.

Lemma wf_but_weaken x st : sgsn_wf st -> wf_but x st.
Proof. intros H. destruct H. split; auto. intros i j m n _ _. by apply wf_ptmsi0. Qed.

(** ** States with the same structure *)

(** The objects of two stores are related one by one. *)
Definition rel {A} (R : nat -> A -> A -> Prop) (f g : gmap nat A) : Prop :=
  forall i, option_Forall2 (R i) (f !! i) (g !! i).

Lemma rel_refl {A} (R : nat -> A -> A -> Prop) f : (forall i a, R i a a) -> rel R f f.
Proof. intros HR i. destruct (f !! i); constructor. apply HR. Qed.
Lemma rel_alter {A} (R : nat -> A -> A -> Prop) f h id :
  (forall i a, R i a a) -> (forall a, f !! id = Some a -> R id a (h a)) -> rel R f (alter h id f).
Proof.
  intros HR Hh i. destruct (decide (i = id)) as [->|Hi].
  - rewrite lookup_alter_eq. destruct (f !! id) eqn:E; constructor. by apply Hh.
  - rewrite lookup_alter_ne by done. destruct (f !! i); constructor. apply HR.
Qed.
Lemma rel_some {A} (R : nat -> A -> A -> Prop) f g i b :
  rel R f g -> g !! i = Some b -> exists a, f !! i = Some a /\ R i a b.
Proof. intros H Hi. specialize (H i). rewrite Hi in H. inversion H; subst. eauto. Qed.
Lemma rel_some_l {A} (R : nat -> A -> A -> Prop) f g i a :
  rel R f g -> f !! i = Some a -> exists b, g !! i = Some b /\ R i a b.
Proof. intros H Hi. specialize (H i). rewrite Hi in H. inversion H; subst. eauto. Qed.
Lemma rel_is_Some {A} (R : nat -> A -> A -> Prop) f g i : rel R f g -> is_Some (g !! i) <-> is_Some (f !! i).
Proof. intros H. specialize (H i). inversion H; subst; split; intros [? [=]]; eauto. Qed.
Lemma rel_lists {A} (R : nat -> A -> A -> Prop) f g l : rel R f g -> lists l f -> lists l g.
Proof. intros H [Hnd Hl]. split; [done|]. intros i. rewrite Hl. symmetry. by apply (rel_is_Some R). Qed.

(** What no assignment to an object changes. *)
Definition like_mm (x : option nat) (i : nat) (m n : sgsn_mm_ctx) : Prop :=
  (Some i <> x -> p_tmsi n = p_tmsi m) /\ pdp_list n = pdp_list m
  /\ (fc_ok OUT_FC_IN (mm_fc m) -> fc_ok OUT_FC_IN (mm_fc n)).
Definition like_pdp (i : nat) (p q : sgsn_pdp_ctx) : Prop := pdp_mm q = pdp_mm p /\ nsapi q = nsapi p.
Definition same_bvc (i : nat) (b c : bssgp_bvc_ctx) : Prop :=
  nsei c = nsei b /\ bvci c = bvci b /\ (fc_ok OUT_TX_DL_UD (bvc_fc b) -> fc_ok OUT_TX_DL_UD (bvc_fc c)).

(** States with the same objects in the same lists. *)
Record like (x : option nat) (st st' : sgsn_state) : Prop := mk_like {
  like_mms : rel (like_mm x) (mms st) (mms st');
  like_pdps : rel like_pdp (pdps st) (pdps st');
  like_bvcs : rel same_bvc (bvcs st) (bvcs st');
  like_ggsns : rel (fun _ _ _ => True) (ggsns st) (ggsns st');
  like_libs : rel (fun _ _ _ => True) (libs st) (libs st');
  like_lists : (sgsn_pdp_ctxts st', bssgp_bvc_ctxts st', sgsn_ggsn_ctxts st')
               = (sgsn_pdp_ctxts st, bssgp_bvc_ctxts st, sgsn_ggsn_ctxts st);
  like_next : next_id st' = next_id st
}.

(** The part of the invariant that is about timers. *)
Definition timers_ok (st : sgsn_state) : Prop :=
  (forall id, is_Some (mm_timers st !! id) -> (id < next_id st)%nat)
  /\ (forall id, is_Some (pdp_timers st !! id) -> (id < next_id st)%nat)
  /\ (forall i m, is_Some (mm_timers st !! i) -> mms st !! i = Some m -> 0 <= mm_num_T_exp m < 5)
  /\ (forall i p, is_Some (pdp_timers st !! i) -> pdps st !! i = Some p ->
                   pdp_T p = 3395 /\ pdp_num_T_exp p = 0).

Lemma wf_timers x mml st : wf_gen x mml st -> timers_ok st.
Proof. intros H. destruct H. by split_and!. Qed.

Lemma wf_like x mml st st' : wf_gen x mml st -> like x st st' -> timers_ok st' -> wf_gen x mml st'.
Proof.
  intros H [Hm Hp Hb Hg Hl [= E1 E2 E3] En] (Ht1 & Ht2 & Ht3 & Ht4). destruct H.
  split; rewrite ?E1, ?E2, ?E3; rewrite ?En in *; eauto using rel_lists.
  1-5: intros id; rewrite rel_is_Some by eassumption; auto.
  - intros id p Hid. destruct (rel_some _ _ _ _ _ Hp Hid) as (p' & Hp' & -> & _).
    destruct (wf_pdp_mm0 _ _ Hp') as (mm & m & -> & Hmm & Hin).
    destruct (rel_some_l _ _ _ _ _ Hm Hmm) as (m' & Hm' & _ & Hl' & _). exists mm, m'.
    by rewrite Hl'.
  - intros mm m Hmm. destruct (rel_some _ _ _ _ _ Hm Hmm) as (m' & Hm' & _ & -> & _).
    destruct (wf_pdp_list0 _ _ Hm') as [Hnd Hin]. split; [done|]. intros id Hid.
    destruct (Hin id Hid) as (p & Hpid & Hpm).
    destruct (rel_some_l _ _ _ _ _ Hp Hpid) as (q & Hq & Hqm & _). exists q. by rewrite Hqm.
  - intros i j p q Hi Hj. destruct (rel_some _ _ _ _ _ Hp Hi) as (p' & Hp' & -> & ->).
    destruct (rel_some _ _ _ _ _ Hp Hj) as (q' & Hq' & -> & ->). eauto.
  - intros i j m n Hxi Hxj Hi Hj. destruct (rel_some _ _ _ _ _ Hm Hi) as (m' & Hm' & E & _).
    destruct (rel_some _ _ _ _ _ Hm Hj) as (n' & Hn' & E' & _). rewrite (E Hxi), (E' Hxj). eauto.
  - intros i j b c Hi Hj. destruct (rel_some _ _ _ _ _ Hb Hi) as (b' & Hb' & -> & -> & _).
    destruct (rel_some _ _ _ _ _ Hb Hj) as (c' & Hc' & -> & -> & _). eauto.
  - intros i m Hi. destruct (rel_some _ _ _ _ _ Hm Hi) as (m' & Hm' & _ & _ & Hf). eauto.
  - intros i b Hi. destruct (rel_some _ _ _ _ _ Hb Hi) as (b' & Hb' & _ & _ & Hf). eauto.
Qed.

(** What leaves the timers and their counters alone, too. *)
Definition same_mm (x : option nat) (i : nat) (m n : sgsn_mm_ctx) : Prop :=
  like_mm x i m n /\ mm_num_T_exp n = mm_num_T_exp m.
Definition same_pdp (i : nat) (p q : sgsn_pdp_ctx) : Prop :=
  like_pdp i p q /\ pdp_T q = pdp_T p /\ pdp_num_T_exp q = pdp_num_T_exp p.

Record same (x : option nat) (st st' : sgsn_state) : Prop := mk_same {
  same_mms : rel (same_mm x) (mms st) (mms st');
  same_pdps : rel same_pdp (pdps st) (pdps st');
  same_bvcs : rel same_bvc (bvcs st) (bvcs st');
  same_ggsns : rel (fun _ _ _ => True) (ggsns st) (ggsns st');
  same_libs : rel (fun _ _ _ => True) (libs st) (libs st');
  same_lists : (sgsn_pdp_ctxts st', bssgp_bvc_ctxts st', sgsn_ggsn_ctxts st')
               = (sgsn_pdp_ctxts st, bssgp_bvc_ctxts st, sgsn_ggsn_ctxts st);
  same_timers : mm_timers st' = mm_timers st /\ pdp_timers st' = pdp_timers st;
  same_next : next_id st' = next_id st
}.

Lemma rel_mono {A} (R R' : nat -> A -> A -> Prop) f g :
  (forall i a b, R i a b -> R' i a b) -> rel R f g -> rel R' f g.
Proof. intros HR H i. destruct (H i); constructor. auto. Qed.

Lemma wf_same x mml st st' : wf_gen x mml st -> same x st st' -> wf_gen x mml st'.
Proof.
  intros H [Hm Hp Hb Hg Hl E [Et1 Et2] En]. apply (wf_like _ _ st); [done| |].
  - split; [eapply rel_mono, Hm|eapply rel_mono, Hp|done..]; by intros ? ? ? [].
  - destruct (wf_timers _ _ _ H) as (H1 & H2 & H3 & H4). unfold timers_ok. rewrite Et1, Et2, En.
    split_and!; [done..| |].
    + intros i m Ht Hi. destruct (rel_some _ _ _ _ _ Hm Hi) as (m' & Hm' & _ & ->). eauto.
    + intros i p Ht Hi. destruct (rel_some _ _ _ _ _ Hp Hi) as (p' & Hp' & _ & -> & ->). eauto.
Qed.

(** ** Steps that leave the structure alone *)

Section steps.
Context {env : SgsnEnv}.
Implicit Types (x : option nat).

Lemma keeps_load {A} (I : sgsn_state -> Prop) (f : sgsn_state -> gmap nat A) id : keeps I (load f id).
Proof. intros st HI. unfold wlp, load. by destruct (f st !! id). Qed.
Lemma hoare_load {A} (I : sgsn_state -> Prop) (f : sgsn_state -> gmap nat A) id :
  hoare I (load f id) (fun a st => I st /\ f st !! id = Some a).
Proof. intros st HI. unfold wlp, load. by destruct (f st !! id) eqn:E. Qed.
Lemma keeps_deref {A} (I : sgsn_state -> Prop) (p : option A) : keeps I (deref p : SG A).
Proof. destruct p; [apply keeps_ret|apply keeps_fault]. Qed.
Lemma keeps_call (I : sgsn_state -> Prop) e : keeps I (call e).
Proof. by intros st HI. Qed.

Lemma keeps_same x (f : sgsn_state -> sgsn_state) :
  (forall st, same x st (f st)) -> (forall st, sgsn_mm_ctxts (f st) = sgsn_mm_ctxts st) ->
  keeps (wf_but x) (modify f : SG unit).
Proof.
  intros Hs Hl. apply keeps_modify. intros st Hw. unfold wf_but. rewrite Hl. by apply (wf_same _ _ st).
Qed.

Lemma same_mm_refl x i m : same_mm x i m m.
Proof. unfold same_mm, same_pdp, same_bvc, like_mm, like_pdp. by split_and!. Qed.
Lemma same_pdp_refl i p : same_pdp i p p.
Proof. unfold same_mm, same_pdp, same_bvc, like_mm, like_pdp. by split_and!. Qed.
Lemma same_bvc_refl i b : same_bvc i b b.
Proof. unfold same_mm, same_pdp, same_bvc, like_mm, like_pdp. by split_and!. Qed.
Hint Resolve rel_refl rel_alter same_mm_refl same_pdp_refl same_bvc_refl : core.

Lemma keeps_mm_upd x id f :
  (forall m, same_mm x id m (f m)) -> keeps (wf_but x) (mm_upd id f).
Proof.
  intros Hf. apply keeps_bind; [apply keeps_load|intros _]. apply keeps_same; [|done].
  intros st. split; cbn; auto.
Qed.
Lemma keeps_pdp_upd x id f :
  (forall p, same_pdp id p (f p)) -> keeps (wf_but x) (pdp_upd id f).
Proof.
  intros Hf. apply keeps_bind; [apply keeps_load|intros _]. apply keeps_same; [|done].
  intros st. split; cbn; auto.
Qed.
Lemma keeps_bvc_upd x id f :
  (forall b, same_bvc id b (f b)) -> keeps (wf_but x) (bvc_upd id f).
Proof.
  intros Hf. apply keeps_bind; [apply keeps_load|intros _]. apply keeps_same; [|done].
  intros st. split; cbn; auto.
Qed.
Lemma keeps_ggsn_upd x id f : keeps (wf_but x) (ggsn_upd id f).
Proof.
  apply keeps_bind; [apply keeps_load|intros _]. apply keeps_same; [|done]. intros st. split; cbn; auto.
Qed.
Lemma keeps_lib_upd x id f : keeps (wf_but x) (lib_upd id f).
Proof.
  apply keeps_bind; [apply keeps_load|intros _]. apply keeps_same; [|done]. intros st. split; cbn; auto.
Qed.
Lemma keeps_rand_nr x (f : nat -> nat) : keeps (wf_but x) (modify (fun st => st <| rand_nr ::= f |>) : SG unit).
Proof. apply keeps_same; [|done]. intros st. split; cbn; auto. Qed.
Lemma keeps_tick_nr x (f : nat -> nat) : keeps (wf_but x) (modify (fun st => st <| tick_nr ::= f |>) : SG unit).
Proof. apply keeps_same; [|done]. intros st. split; cbn; auto. Qed.

Lemma keeps_bvc_ctr_add x id c n : keeps (wf_but x) (bvc_ctr_add id c n).
Proof. apply keeps_bvc_upd. intros b. unfold same_bvc. by split_and!. Qed.
Lemma keeps_mm_ctr_add x id c n : keeps (wf_but x) (mm_ctr_add id c n).
Proof. apply keeps_mm_upd. intros m. unfold same_mm, like_mm. by split_and!. Qed.
Lemma keeps_pdp_ctr_add x id c n : keeps (wf_but x) (pdp_ctr_add id c n).
Proof. apply keeps_pdp_upd. intros p. unfold same_pdp, like_pdp. by split_and!. Qed.
Lemma keeps_gettimeofday x : keeps (wf_but x) gettimeofday.
Proof. apply keeps_bind; [apply keeps_gets|intros n]. apply keeps_bind; [apply keeps_tick_nr|auto with keeps]. Qed.
End steps.

(** The steps that keep the invariant; an assignment does when it leaves the members of [same_mm],
    [same_pdp] or [same_bvc] alone. *)
#[export] Hint Resolve keeps_call keeps_deref keeps_load keeps_ggsn_upd keeps_lib_upd
  keeps_bvc_ctr_add keeps_mm_ctr_add keeps_pdp_ctr_add keeps_gettimeofday keeps_rand_nr : keeps.
#[export] Hint Extern 1 (keeps _ (mm_get _)) => apply keeps_load : keeps.
#[export] Hint Extern 1 (keeps _ (pdp_get _)) => apply keeps_load : keeps.
#[export] Hint Extern 1 (keeps _ (bvc_get _)) => apply keeps_load : keeps.
#[export] Hint Extern 1 (keeps _ (ggsn_get _)) => apply keeps_load : keeps.
#[export] Hint Extern 1 (keeps _ (lib_get _)) => apply keeps_load : keeps.
#[export] Hint Extern 2 (keeps _ (mm_upd _ _)) =>
  apply keeps_mm_upd; intros ?; unfold same_mm, like_mm; by split_and! : keeps.
#[export] Hint Extern 2 (keeps _ (pdp_upd _ _)) =>
  apply keeps_pdp_upd; intros ?; unfold same_pdp, like_pdp; by split_and! : keeps.
#[export] Hint Extern 2 (keeps _ (bvc_upd _ _)) =>
  apply keeps_bvc_upd; intros ?; unfold same_bvc; by split_and! : keeps.

(** Case analysis of look-ups in a store with a new object. *)
Ltac insert_cases :=
  repeat match goal with
         | H : <[_ := _]> _ !! _ = Some _ |- _ => apply lookup_insert_Some in H as [[? ?]|[? H]]; subst
         | H : is_Some (<[_ := _]> _ !! _) |- _ => apply lookup_insert_is_Some' in H as [?|H]; subst
         end.

Section contexts.
Context {env : SgsnEnv}.
Implicit Types (x : option nat).

(** ** Lookups *)

Lemma find_Some_elem {A} (p : A -> bool) l a : find p l = Some a -> a ∈ l /\ p a = true.
Proof. intros [H1 H2]%find_some. split; [by apply list_elem_of_In|done]. Qed.

Lemma mm_find_Some st p id : mm_find st p = Some id -> exists m, mms st !! id = Some m /\ p m = true.
Proof. intros [_ H]%find_Some_elem. destruct (mms st !! id) as [m|]; [by exists m|done]. Qed.

Lemma mm_find_None st x p id m :
  wf_but x st -> mm_find st p = None -> mms st !! id = Some m -> p m = false.
Proof.
  intros Hw Hf Hid. assert (id ∈ sgsn_mm_ctxts st) as Hin by (apply (wf_mms Hw); by eexists).
  apply list_elem_of_In in Hin. pose proof (find_none _ _ Hf id Hin) as H. cbn in H. by rewrite Hid in H.
Qed.

Lemma keeps_by_tlli t raid : keeps sgsn_wf (sgsn_mm_ctx_by_tlli t raid).
Proof. unfold sgsn_mm_ctx_by_tlli. keeps_tac. Qed.

(** ** Allocation *)

Lemma wf_fresh_none x mml st id :
  wf_gen x mml st -> (next_id st <= id)%nat ->
  mms st !! id = None /\ pdps st !! id = None /\ bvcs st !! id = None /\ ggsns st !! id = None
  /\ libs st !! id = None /\ mm_timers st !! id = None /\ pdp_timers st !! id = None.
Proof.
  intros Hw Hid. destruct Hw.
  split_and!; apply eq_None_not_Some; intros Hs;
    match type of Hs with is_Some (?f _ !! _) => idtac end;
    first [ apply wf_fresh_mm0 in Hs | apply wf_fresh_pdp0 in Hs | apply wf_fresh_bvc0 in Hs
          | apply wf_fresh_ggsn0 in Hs | apply wf_fresh_lib0 in Hs | apply wf_fresh_mm_timer0 in Hs
          | apply wf_fresh_pdp_timer0 in Hs ]; lia.
Qed.

Lemma wf_new_mm t raid st :
  sgsn_wf st -> let id := next_id st in
  wf_but (Some id)
    (st <| mms ::= insert id (mm_new t raid) |> <| sgsn_mm_ctxts ::= cons id |> <| next_id ::= S |>).
Proof.
  intros Hw id. destruct (wf_fresh_none _ _ _ id Hw (le_n _)) as (Em & _ & _ & _ & _ & Et & _).
  destruct Hw. split; cbn; try (by eauto using Nat.lt_lt_succ_r); fold id.
  - by apply lists_cons.
  - intros i Hi. insert_cases; [lia|]. apply wf_fresh_mm0 in Hi. lia.
  - intros i p Hp. destruct (wf_pdp_mm0 i p Hp) as (mm & m & ? & Hmm & ?). exists mm, m.
    split_and!; [done| |done]. apply lookup_insert_Some. right. split; [congruence|done].
  - intros mm m Hm. insert_cases; [|eauto]. cbn. split; [constructor|]. by intros ? ?%elem_of_nil.
  - intros i j m n Hi Hj Hm Hn. insert_cases; try done. apply wf_ptmsi0; congruence.
  - intros i m Hm. insert_cases; [done|eauto].
  - intros i m Hs Hm. insert_cases; [|eauto]. rewrite Et in Hs. by destruct Hs.
Qed.

Lemma hoare_mm_alloc t raid :
  hoare sgsn_wf (sgsn_mm_ctx_alloc t raid)
    (fun o st => match o with
                 | Some id => wf_but (Some id) st /\ is_Some (mms st !! id)
                 | None => sgsn_wf st
                 end).
Proof.
  intros st Hw. unfold sgsn_mm_ctx_alloc. destruct mm_alloc_ok; cbn; [|done].
  split; [by apply wf_new_mm|]. cbn. rewrite lookup_insert_eq. by eexists.
Qed.

Lemma keeps_ggsn_alloc n : keeps sgsn_wf (sgsn_ggsn_ctx_alloc n).
Proof.
  intros st Hw. unfold sgsn_ggsn_ctx_alloc. destruct ggsn_alloc_ok; cbn; [|done].
  destruct (wf_fresh_none _ _ _ (next_id st) Hw (le_n _)) as (_ & _ & _ & Eg & _).
  destruct Hw. split; cbn; try (by eauto using Nat.lt_lt_succ_r).
  - by apply lists_cons.
  - intros i Hi. insert_cases; [lia|]. apply wf_fresh_ggsn0 in Hi. lia.
Qed.

(** A new PDP context for an NSAPI its mobile has none for. *)
Lemma wf_new_pdp mm m n st :
  sgsn_wf st -> mms st !! mm = Some m -> pdp_find st (pdp_list m) (fun p => nsapi p =? n) = None ->
  let id := next_id st in
  sgsn_wf (st <| pdps ::= insert id (pdp_new mm n) |> <| sgsn_pdp_ctxts ::= cons id |> <| next_id ::= S |>
              <| mms ::= alter (fun m => m <| pdp_list ::= cons id |>) mm |>).
Proof.
  intros Hw Hmm Hfind id. destruct (wf_fresh_none _ _ _ id Hw (le_n _)) as (_ & Ep & _ & _ & _ & _ & Et).
  assert (forall i p, pdps st !! i = Some p -> pdp_mm p = Some mm -> nsapi p <> n) as Hns.
  { intros i p Hp Hpm. destruct (wf_pdp_mm Hw i p Hp) as (mm' & m' & E & Hm' & Hin).
    rewrite Hpm in E. injection E as <-. simplify_eq.
    apply list_elem_of_In in Hin. pose proof (find_none _ _ Hfind i Hin) as H. cbn in H.
    rewrite Hp in H. by apply Z.eqb_neq in H. }
  assert (forall i p, pdps st !! i = Some p -> i <> id) as Hne by congruence.
  destruct Hw. split; cbn; try (by eauto using Nat.lt_lt_succ_r); fold id.
  - destruct wf_mms0 as [? Hl]. split; [done|]. intros i. by rewrite Hl, lookup_alter_is_Some.
  - by apply lists_cons.
  - intros i Hi. rewrite lookup_alter_is_Some in Hi. apply wf_fresh_mm0 in Hi. lia.
  - intros i Hi. insert_cases; [lia|]. apply wf_fresh_pdp0 in Hi. lia.
  - intros i p Hp. insert_cases.
    + exists mm, (m <| pdp_list ::= cons id |>). rewrite lookup_alter_eq, Hmm. cbn.
      split_and!; [done..|]. by left.
    + destruct (wf_pdp_mm0 i p Hp) as (mm' & m' & E & Hm' & Hin).
      destruct (decide (mm' = mm)) as [->|Hmm'].
      * exists mm, (m <| pdp_list ::= cons id |>). rewrite lookup_alter_eq, Hmm. simplify_eq. cbn.
        split_and!; [done..|]. by right.
      * exists mm', m'. by rewrite lookup_alter_ne.
  - intros mm' m' Hm'. destruct (decide (mm' = mm)) as [->|Hmm'].
    + rewrite lookup_alter_eq, Hmm in Hm'. injection Hm' as <-. cbn.
      destruct (wf_pdp_list0 mm m Hmm) as [Hnd Hl]. split.
      * constructor; [|done]. intros Hin. destruct (Hl _ Hin) as (p & Hp & _). by apply (Hne _ _ Hp).
      * intros i Hi. apply elem_of_cons in Hi as [->|Hi].
        { exists (pdp_new mm n). by rewrite lookup_insert_eq. }
        destruct (Hl _ Hi) as (p & Hp & Hpm). exists p.
        rewrite lookup_insert_ne; [done|]. intros <-. by apply (Hne _ _ Hp).
    + rewrite lookup_alter_ne in Hm' by done. destruct (wf_pdp_list0 mm' m' Hm') as [Hnd Hl].
      split; [done|]. intros i Hi. destruct (Hl _ Hi) as (p & Hp & Hpm). exists p.
      rewrite lookup_insert_ne; [done|]. intros <-. by apply (Hne _ _ Hp).
  - intros i j p q Hp Hq Emm En. apply lookup_insert_Some in Hp as [[? ?]|[? Hp]];
      apply lookup_insert_Some in Hq as [[? ?]|[? Hq]]; subst; cbn in *; [done| | |eauto].
    + symmetry in Emm, En. by destruct (Hns _ _ Hq Emm).
    + by destruct (Hns _ _ Hp Emm).
  - intros i j m1 m2 _ _ H1 H2. rewrite lookup_alter_Some in H1, H2.
    assert (forall i m', (mm = i /\ (exists y, mms st !! i = Some y /\ m' = y <| pdp_list ::= cons id |>)
                          \/ mm <> i /\ mms st !! i = Some m') ->
                         exists y, mms st !! i = Some y /\ p_tmsi y = p_tmsi m') as Hy.
    { intros i' m' [[_ (y & ? & ->)]|[_ ?]]; eauto. }
    destruct (Hy _ _ H1) as (y1 & ? & <-), (Hy _ _ H2) as (y2 & ? & <-). by apply wf_ptmsi0.
  - intros i m' H. apply lookup_alter_Some in H as [[_ (y & ? & ->)]|[_ ?]]; cbn; eauto.
  - intros i m' Hs H. apply lookup_alter_Some in H as [[_ (y & ? & ->)]|[_ ?]]; cbn; eauto.
  - intros i p Hs Hp. insert_cases; [|eauto]. rewrite Et in Hs. by destruct Hs.
Qed.

Lemma keeps_pdp_alloc mm n : keeps sgsn_wf (sgsn_pdp_ctx_alloc mm n).
Proof.
  unfold sgsn_pdp_ctx_alloc, sgsn_pdp_ctx_by_nsapi.
  intros st Hw. rewrite !wlp_bind. unfold mm_get, load at 1, wlp.
  destruct (mms st !! mm) as [m|] eqn:Em; [|done]. cbn.
  destruct (pdp_find st (pdp_list m) _) eqn:Ef; cbn; [done|].
  destruct pdp_alloc_ok; cbn; [|done].
  unfold mbind, M_bind, mm_upd, mm_get, load, gets, modify, mret, M_ret, mbind, M_bind; cbn. rewrite Em.
  by apply (wf_new_pdp mm m).
Qed.

(** ** Freeing *)

(** The state when PDP context [id] of the mobile [mm] is freed. *)
Definition free_pdp (id mm : nat) (st : sgsn_state) : sgsn_state :=
  st <| mms ::= alter (fun m => m <| pdp_list ::= unlink id |>) mm |>
     <| sgsn_pdp_ctxts ::= unlink id |> <| pdps ::= delete id |>.

Lemma wf_free_pdp x mml st id p mm :
  wf_gen x mml st -> pdps st !! id = Some p -> pdp_mm p = Some mm ->
  wf_gen x mml (free_pdp id mm st).
Proof.
  intros Hw Hp Hmm.
  assert (forall i m', mms (free_pdp id mm st) !! i = Some m' ->
            exists y, mms st !! i = Some y /\ p_tmsi y = p_tmsi m' /\ mm_fc y = mm_fc m'
                      /\ mm_num_T_exp y = mm_num_T_exp m'
                      /\ pdp_list m' = if decide (mm = i) then unlink id (pdp_list y) else pdp_list y) as Hy.
  { intros i m' H. cbn in H. apply lookup_alter_Some in H as [[<- (y & ? & ->)]|[? ?]].
    - exists y. by rewrite decide_True.
    - exists m'. by rewrite decide_False. }
  assert (pdps (free_pdp id mm st) = delete id (pdps st)) as Ep by done.
  destruct Hw. split; rewrite ?Ep; eauto.
  - destruct wf_mms0 as [? Hl]. split; [done|]. intros i. cbn. by rewrite Hl, lookup_alter_is_Some.
  - by apply lists_unlink.
  - intros i. cbn. rewrite lookup_alter_is_Some. apply wf_fresh_mm0.
  - intros i. rewrite lookup_delete_is_Some. intros [_ ?]. by apply wf_fresh_pdp0.
  - intros i q Hq. apply lookup_delete_Some in Hq as [Hne Hq].
    destruct (wf_pdp_mm0 i q Hq) as (mm' & m' & E & Hm' & Hin). cbn.
    destruct (decide (mm' = mm)) as [->|Hmm'].
    + exists mm, (m' <| pdp_list ::= unlink id |>). rewrite lookup_alter_eq, Hm'.
      split_and!; [done..|]. by apply list_elem_of_filter.
    + exists mm', m'. by rewrite lookup_alter_ne.
  - intros mm' m' Hm'. destruct (Hy _ _ Hm') as (y & Hyy & _ & _ & _ & ->).
    destruct (wf_pdp_list0 mm' y Hyy) as [Hnd Hl].
    assert (forall i, i ∈ pdp_list y -> i <> id ->
              exists q, delete id (pdps st) !! i = Some q /\ pdp_mm q = Some mm') as Hq.
    { intros i Hi Hne. destruct (Hl i Hi) as (q & ? & ?). exists q. by rewrite lookup_delete_ne. }
    destruct (decide (mm = mm')) as [<-|Hne].
    + split; [by apply NoDup_filter|]. intros i [? ?]%list_elem_of_filter. by apply Hq.
    + split; [done|]. intros i Hi. apply Hq; [done|]. intros ->.
      destruct (Hl id Hi) as (q & ? & ?). congruence.
  - intros i j q r [_ Hi]%lookup_delete_Some [_ Hj]%lookup_delete_Some. eauto.
  - intros i j m n Hxi Hxj Hi Hj. destruct (Hy _ _ Hi) as (? & ? & <- & _), (Hy _ _ Hj) as (? & ? & <- & _).
    by apply wf_ptmsi0.
  - intros i m' Hm'. destruct (Hy _ _ Hm') as (y & ? & _ & <- & _). eauto.
  - intros i m' Hs Hm'. destruct (Hy _ _ Hm') as (y & ? & _ & _ & <- & _). eauto.
  - intros i q Hs [_ Hq]%lookup_delete_Some. eauto.
Qed.

Lemma run_pdp_free id p mm st :
  pdps st !! id = Some p -> pdp_mm p = Some mm ->
  sgsn_pdp_ctx_free id st = Some (tt, free_pdp id mm st, []).
Proof.
  intros Hp Hmm. unfold sgsn_pdp_ctx_free, pdp_get, load, mbind, M_bind. by rewrite Hp, Hmm.
Qed.

Lemma keeps_pdp_free id : keeps sgsn_wf (sgsn_pdp_ctx_free id).
Proof.
  intros st Hw. destruct (pdps st !! id) as [p|] eqn:Hp.
  - destruct (wf_pdp_mm Hw id p Hp) as (mm & m & Hmm & _).
    unfold wlp. rewrite (run_pdp_free _ _ _ _ Hp Hmm). by apply (wf_free_pdp _ _ _ _ p).
  - unfold wlp, sgsn_pdp_ctx_free, pdp_get, load, mbind, M_bind. by rewrite Hp.
Qed.

Lemma unlink_head id l : NoDup (id :: l) -> unlink id (id :: l) = l.
Proof.
  intros [Hni _]%NoDup_cons. unfold unlink. rewrite filter_cons, decide_False by naive_solver.
  apply list_filter_id, Forall_forall. intros i Hi ->. done.
Qed.

(** All PDP contexts of a mobile are freed; the mobile itself may have left the list. *)
Lemma free_pdps x mml mm st m :
  wf_gen x mml st -> mms st !! mm = Some m ->
  wlp (for_each sgsn_pdp_ctx_free (pdp_list m))
    (fun _ st' => wf_gen x mml st' /\ (exists m', mms st' !! mm = Some m' /\ pdp_list m' = [])
                  /\ sgsn_mm_ctxts st' = sgsn_mm_ctxts st) st.
Proof.
  intros Hw Hm. remember (pdp_list m) as l eqn:El. revert st m Hw Hm El.
  induction l as [|id l IH]; intros st m Hw Hm El; cbn.
  { split_and!; [done| |done]. by exists m. }
  destruct (wf_pdp_list Hw mm m Hm) as [Hnd Hl]. rewrite <- El in Hnd, Hl.
  destruct (Hl id ltac:(by left)) as (p & Hp & Hpm).
  rewrite wlp_bind. unfold wlp at 1. rewrite (run_pdp_free _ _ _ _ Hp Hpm).
  apply (IH (free_pdp id mm st) (m <| pdp_list ::= unlink id |>)).
  - by apply (wf_free_pdp _ _ _ _ p).
  - cbn. by rewrite lookup_alter_eq, Hm.
  - cbn. by rewrite <- El, unlink_head.
Qed.

Lemma wf_free_mm mml st id m :
  wf_gen None mml st -> mms st !! id = Some m -> pdp_list m = [] ->
  wf_gen None (unlink id mml) (st <| mms ::= delete id |>).
Proof.
  intros Hw Hm Hl. destruct Hw. split; cbn; eauto.
  - by apply lists_unlink.
  - intros i [_ ?]%lookup_delete_is_Some. auto.
  - intros i p Hp. destruct (wf_pdp_mm0 i p Hp) as (mm & m' & ? & Hm' & Hin). exists mm, m'.
    split_and!; [done| |done]. apply lookup_delete_Some. split; [|done]. intros <-.
    simplify_eq. rewrite Hl in Hin. by apply elem_of_nil in Hin.
  - intros mm m' [_ ?]%lookup_delete_Some. eauto.
  - intros i j m1 m2 ? ? [_ ?]%lookup_delete_Some [_ ?]%lookup_delete_Some. eauto.
  - intros i m' [_ ?]%lookup_delete_Some. eauto.
  - intros i m' ? [_ ?]%lookup_delete_Some. eauto.
Qed.

Lemma keeps_mm_free id : keeps sgsn_wf (sgsn_mm_ctx_free id).
Proof.
  intros st Hw. unfold sgsn_mm_ctx_free. rewrite wlp_bind. unfold mm_get, load, wlp at 1.
  destruct (mms st !! id) as [m|] eqn:Hm; [|done]. rewrite wlp_bind. unfold modify, wlp at 1.
  rewrite wlp_bind.
  apply (wlp_mono _ _ _ _ (free_pdps None (sgsn_mm_ctxts st) id
           (st <| sgsn_mm_ctxts ::= unlink id |>) m ltac:(by destruct Hw) Hm)).
  intros _ st' (Hw' & (m' & Hm' & Hl') & E). cbn in E. unfold wlp, sgsn_wf, wf_but. cbn. rewrite E.
  by apply (wf_free_mm _ _ _ m').
Qed.

(** ** Temporary identities *)

Lemma ptmsi_in_use_false x st t :
  wf_but x st -> ptmsi_in_use st t = false -> forall id m, mms st !! id = Some m -> p_tmsi m <> t.
Proof.
  intros Hw Hf id m Hm. assert (id ∈ sgsn_mm_ctxts st) as Hin by (apply (wf_mms Hw); by eexists).
  intros E. apply not_true_iff_false in Hf. apply Hf. apply existsb_exists.
  exists id. split; [by apply list_elem_of_In|]. rewrite Hm. by apply Z.eqb_eq.
Qed.

(** A draw that is in use is thrown away. *)
Lemma hoare_ptmsi_loop x fuel :
  hoare (wf_but x) (ptmsi_loop fuel)
    (fun t st => wf_but x st /\ forall id m, mms st !! id = Some m -> p_tmsi m <> t).
Proof.
  induction fuel as [|fuel IH]; [done|]. intros st Hw. cbn [ptmsi_loop].
  rewrite wlp_bind. unfold gets at 1, wlp at 1. rewrite wlp_bind. unfold modify at 1, wlp at 1.
  rewrite wlp_bind. unfold gets at 1, wlp at 1.
  assert (wf_but x (st <| rand_nr ::= S |>)) as Hw' by (by apply (keeps_rand_nr x S)).
  destruct (ptmsi_in_use _ _) eqn:E; [by apply IH|]. split; [done|].
  by apply (ptmsi_in_use_false x).
Qed.

End contexts.

#[export] Hint Resolve keeps_by_tlli keeps_pdp_alloc keeps_ggsn_alloc keeps_pdp_free keeps_mm_free : keeps.


End SgsnInv.
