(* ===== verification/Bssgp.v ===== *)
(** BSSGP on the side of the SGSN: libgb/gprs_bssgp.c, gprs_bssgp_util.c and openbsc/gprs_bssgp.h.

    The base stations announce their cells (BVCs), block and unblock them and set the parameters of
    flow control; their messages go up to LLC and mobility management, messages for mobiles go
    down through the flow control of the mobile and then of its cell.

    A received message is the octets from the BSSGP header to the tail and the identifiers NS put
    into its control block. Callbacks that run last (LLC above, NS below) are events. A pointer to
    a flow control names the cell or the mobile it is part of. Null pointers that are only followed
    to log are not followed here; on those paths the context is there. *)

From S2P Require Import Prelude Sgsn.
Import Sgsn.

Module Bssgp.

Definition BVCI_SIGNALLING : Z := 0x0000.
Definition BVCI_PTM : Z := 0x0001.

(** [enum bssgp_pdu_type] *)
Definition BSSGP_PDUT_DL_UNITDATA : Z := 0x00.
Definition BSSGP_PDUT_UL_UNITDATA : Z := 0x01.
Definition BSSGP_PDUT_RA_CAPABILITY : Z := 0x02.
Definition BSSGP_PDUT_PAGING_PS : Z := 0x06.
Definition BSSGP_PDUT_PAGING_CS : Z := 0x07.
Definition BSSGP_PDUT_RA_CAPA_UDPATE : Z := 0x08.
Definition BSSGP_PDUT_RA_CAPA_UPDATE_ACK : Z := 0x09.
Definition BSSGP_PDUT_RADIO_STATUS : Z := 0x0a.
Definition BSSGP_PDUT_SUSPEND : Z := 0x0b.
Definition BSSGP_PDUT_SUSPEND_ACK : Z := 0x0c.
Definition BSSGP_PDUT_SUSPEND_NACK : Z := 0x0d.
Definition BSSGP_PDUT_RESUME : Z := 0x0e.
Definition BSSGP_PDUT_RESUME_ACK : Z := 0x0f.
Definition BSSGP_PDUT_RESUME_NACK : Z := 0x10.
Definition BSSGP_PDUT_BVC_BLOCK : Z := 0x20.
Definition BSSGP_PDUT_BVC_BLOCK_ACK : Z := 0x21.
Definition BSSGP_PDUT_BVC_RESET : Z := 0x22.
Definition BSSGP_PDUT_BVC_RESET_ACK : Z := 0x23.
Definition BSSGP_PDUT_BVC_UNBLOCK : Z := 0x24.
Definition BSSGP_PDUT_BVC_UNBLOCK_ACK : Z := 0x25.
Definition BSSGP_PDUT_FLOW_CONTROL_BVC : Z := 0x26.
Definition BSSGP_PDUT_FLOW_CONTROL_BVC_ACK : Z := 0x27.
Definition BSSGP_PDUT_FLOW_CONTROL_MS : Z := 0x28.
Definition BSSGP_PDUT_FLOW_CONTROL_MS_ACK : Z := 0x29.
Definition BSSGP_PDUT_FLUSH_LL : Z := 0x2a.
Definition BSSGP_PDUT_FLUSH_LL_ACK : Z := 0x2b.
Definition BSSGP_PDUT_LLC_DISCARD : Z := 0x2c.
Definition BSSGP_PDUT_SGSN_INVOKE_TRACE : Z := 0x40.
Definition BSSGP_PDUT_STATUS : Z := 0x41.
Definition BSSGP_PDUT_DOWNLOAD_BSS_PFC : Z := 0x50.
Definition BSSGP_PDUT_CREATE_BSS_PFC_ACK : Z := 0x52.
Definition BSSGP_PDUT_CREATE_BSS_PFC_NACK : Z := 0x53.
Definition BSSGP_PDUT_MODIFY_BSS_PFC : Z := 0x54.
Definition BSSGP_PDUT_DELETE_BSS_PFC_ACK : Z := 0x57.

(** [enum bssgp_iei_type], the elements the code uses *)
Definition BSSGP_IE_BMAX_DEFAULT_MS : Z := 0x01.
Definition BSSGP_IE_BSS_AREA_ID : Z := 0x02.
Definition BSSGP_IE_BUCKET_LEAK_RATE : Z := 0x03.
Definition BSSGP_IE_BVCI : Z := 0x04.
Definition BSSGP_IE_BVC_BUCKET_SIZE : Z := 0x05.
Definition BSSGP_IE_CAUSE : Z := 0x07.
Definition BSSGP_IE_CELL_ID : Z := 0x08.
Definition BSSGP_IE_DRX_PARAMS : Z := 0x0a.
Definition BSSGP_IE_IMSI : Z := 0x0d.
Definition BSSGP_IE_LLC_PDU : Z := 0x0e.
Definition BSSGP_IE_LLC_FRAMES_DISCARDED : Z := 0x0f.
Definition BSSGP_IE_LOCATION_AREA : Z := 0x10.
Definition BSSGP_IE_MS_BUCKET_SIZE : Z := 0x12.
Definition BSSGP_IE_MS_RADIO_ACCESS_CAP : Z := 0x13.
Definition BSSGP_IE_PDU_IN_ERROR : Z := 0x15.
Definition BSSGP_IE_PDU_LIFETIME : Z := 0x16.
Definition BSSGP_IE_QOS_PROFILE : Z := 0x18.
Definition BSSGP_IE_ROUTEING_AREA : Z := 0x1b.
Definition BSSGP_IE_R_DEFAULT_MS : Z := 0x1c.
Definition BSSGP_IE_SUSPEND_REF_NR : Z := 0x1d.
Definition BSSGP_IE_TAG : Z := 0x1e.
Definition BSSGP_IE_TLLI : Z := 0x1f.
Definition BSSGP_IE_TMSI : Z := 0x20.
Definition BSSGP_IE_NUM_OCT_AFF : Z := 0x25.

(** [enum gprs_bssgp_cause], the causes the code sends *)
Definition BSSGP_CAUSE_UNKNOWN_BVCI : Z := 0x05.
Definition BSSGP_CAUSE_BVCI_BLOCKED : Z := 0x09.
Definition BSSGP_CAUSE_MISSING_MAND_IE : Z := 0x22.
Definition BSSGP_CAUSE_PROTO_ERR_UNSPEC : Z := 0x27.
Definition BSSGP_CAUSE_PDU_INCOMP_FEAT : Z := 0x28.

(** Four octets in network order. *)
Definition be32 (x : Z) : list Z := [(x .>> 24) .& 0xff; (x .>> 16) .& 0xff; (x .>> 8) .& 0xff; x .& 0xff].
Definition rd_be32 (p : list Z) : Z :=
  (rd p 0 .<< 24) .| (rd p 1 .<< 16) .| (rd p 2 .<< 8) .| rd p 3.

Section bssgp.
Context {env : SgsnEnv}.

Abbreviation SG := (M sgsn_state sgsn_event).

(** The elements of a message: for each tag the length and the memory from the value on. *)
Definition tlv_parsed : Type := Z -> option (Z * list Z).
Definition TLVP_PRESENT (tp : tlv_parsed) (t : Z) : bool := match tp t with Some _ => true | None => false end.
Definition TLVP_VAL (tp : tlv_parsed) (t : Z) : SG (list Z) := deref (snd <$> tp t).
Definition TLVP_LEN (tp : tlv_parsed) (t : Z) : Z := default 0 (fst <$> tp t).

(** ** The contexts of cells *)

Definition btsctx_by_bvci_nsei (bv ns : Z) : SG (option nat) :=
  gets (fun st => find (fun id => match bvcs st !! id with
                                  | Some b => (nsei b =? ns) && (bvci b =? bv)
                                  | None => false
                                  end) (bssgp_bvc_ctxts st)).

Definition bvc_new (bv ns : Z) : bssgp_bvc_ctx :=
  mk_bssgp_bvc_ctx (mk_gprs_ra_id 0 0 0 0) 0 bv ns 0 (replicate 6 0)
    (fc_zero <| out_cb := Some OUT_TX_DL_UD |>) 0 0.

Definition btsctx_alloc (bv ns : Z) : SG (option nat) :=
  if negb bvc_alloc_ok then mret None
  else
    id ← gets next_id;
    modify (fun st => st <| bvcs ::= insert id (bvc_new bv ns) |> <| bssgp_bvc_ctxts ::= cons id |>
                         <| next_id ::= S |>);;
    mret (Some id).

(** ** Messages to the base station *)

(** [msgb_put] on the result of [bssgp_msgb_alloc], which is not checked; the message to NS. *)
Definition bssgp_send (ns ns_bvci : Z) (data : list Z) : SG Z :=
  if msgb_ok then call (EvNsSend ns ns_bvci data) else fault.

Definition bssgp_tx_simple_bvci (pdu_type ns bv ns_bvci : Z) : SG Z :=
  bssgp_send ns ns_bvci ([pdu_type] ++ msgb_tvlv_put BSSGP_IE_BVCI (be16 bv)).

Definition bssgp_tx_status (cause : Z) (bv : option Z) (orig_msg : msgb) : SG Z :=
  bssgp_send (msgb_nsei orig_msg) 0
    ([BSSGP_PDUT_STATUS] ++ msgb_tvlv_put BSSGP_IE_CAUSE [cause]
     ++ match bv with Some b => msgb_tvlv_put BSSGP_IE_BVCI (be16 b) | None => [] end
     ++ msgb_tvlv_put BSSGP_IE_PDU_IN_ERROR (msgb_data orig_msg)).

Definition bssgp_tx_fc_bvc_ack (ns tag ns_bvci : Z) : SG Z :=
  bssgp_send ns ns_bvci ([BSSGP_PDUT_FLOW_CONTROL_BVC_ACK] ++ msgb_tvlv_put BSSGP_IE_TAG [tag]).

Definition bssgp_tx_fc_ms_ack (ns t tag ns_bvci : Z) : SG Z :=
  bssgp_send ns ns_bvci ([BSSGP_PDUT_FLOW_CONTROL_MS_ACK] ++ msgb_tvlv_put BSSGP_IE_TLLI (be32 t)
                         ++ msgb_tvlv_put BSSGP_IE_TAG [tag]).

(** The TLLI and the routing area, with which every answer to SUSPEND and RESUME begins. *)
Definition tlli_ra (t : Z) (ra_id : gprs_ra_id) : list Z :=
  msgb_tvlv_put BSSGP_IE_TLLI (be32 t) ++ msgb_tvlv_put BSSGP_IE_ROUTEING_AREA (gsm48_construct_ra ra_id).

Definition bssgp_tx_suspend_ack (ns t : Z) (ra_id : gprs_ra_id) (suspend_ref : Z) : SG Z :=
  bssgp_send ns 0 ([BSSGP_PDUT_SUSPEND_ACK] ++ tlli_ra t ra_id
                   ++ msgb_tvlv_put BSSGP_IE_SUSPEND_REF_NR [suspend_ref]).

Definition opt_cause (cause : option Z) : list Z :=
  match cause with Some c => msgb_tvlv_put BSSGP_IE_CAUSE [c] | None => [] end.

Definition bssgp_tx_suspend_nack (ns t : Z) (ra_id : gprs_ra_id) (cause : option Z) : SG Z :=
  bssgp_send ns 0 ([BSSGP_PDUT_SUSPEND_NACK] ++ tlli_ra t ra_id ++ opt_cause cause).

Definition bssgp_tx_resume_ack (ns t : Z) (ra_id : gprs_ra_id) : SG Z :=
  bssgp_send ns 0 ([BSSGP_PDUT_RESUME_ACK] ++ tlli_ra t ra_id).

(** The type of the PDU is that of a SUSPEND-NACK. *)
Definition bssgp_tx_resume_nack (ns t : Z) (ra_id : gprs_ra_id) (cause : option Z) : SG Z :=
  bssgp_send ns 0 ([BSSGP_PDUT_SUSPEND_NACK] ++ tlli_ra t ra_id ++ opt_cause cause).

Definition bssgp_parse_cell_id (buf : list Z) : gprs_ra_id * Z :=
  (gsm48_parse_ra buf, rd_be16 (drop 6 buf)).

(** ** RESET, BLOCK, UNBLOCK *)

Definition bssgp_rx_bvc_reset (msg : msgb) (tp : tlv_parsed) (ns_bvci : Z) : SG Z :=
  let ns := msgb_nsei msg in
  v ← TLVP_VAL tp BSSGP_IE_BVCI;
  let bv := rd_be16 v in
  TLVP_VAL tp BSSGP_IE_CAUSE;;
  bctx ← btsctx_by_bvci_nsei bv ns;
  bctx ← match bctx with Some id => mret (Some id) | None => btsctx_alloc bv ns end;
  id ← deref bctx;
  bvc_upd id (fun b => b <| state ::= fun s => s .& Z.lnot BVC_S_BLOCKED |>);;
  let ptp := negb (bv =? 0) && negb (bv =? 1) in
  if ptp && negb (TLVP_PRESENT tp BSSGP_IE_CELL_ID) then mret (- EINVAL)
  else
    (if ptp then
       cell ← TLVP_VAL tp BSSGP_IE_CELL_ID;
       let '(ra_id, cid) := bssgp_parse_cell_id cell in
       bvc_upd id (fun b => b <| bvc_ra_id := ra_id |> <| cell_id := cid |>)
     else mret tt);;
    bssgp_tx_simple_bvci BSSGP_PDUT_BVC_RESET_ACK ns bv ns_bvci;;
    mret 0.

Definition bssgp_rx_bvc_block (msg : msgb) (tp : tlv_parsed) : SG Z :=
  v ← TLVP_VAL tp BSSGP_IE_BVCI;
  let bv := rd_be16 v in
  if bv =? BVCI_SIGNALLING then mret 0
  else
    ptp_ctx ← btsctx_by_bvci_nsei bv (msgb_nsei msg);
    match ptp_ctx with
    | None => bssgp_tx_status BSSGP_CAUSE_UNKNOWN_BVCI (Some bv) msg
    | Some id =>
        bvc_upd id (fun b => b <| state ::= fun s => s .| BVC_S_BLOCKED |>);;
        bvc_ctr_add id BSSGP_CTR_BLOCKED 1;;
        bssgp_tx_simple_bvci BSSGP_PDUT_BVC_BLOCK_ACK (msgb_nsei msg) bv (msgb_bvci msg)
    end.

Definition bssgp_rx_bvc_unblock (msg : msgb) (tp : tlv_parsed) : SG Z :=
  v ← TLVP_VAL tp BSSGP_IE_BVCI;
  let bv := rd_be16 v in
  if bv =? BVCI_SIGNALLING then mret 0
  else
    ptp_ctx ← btsctx_by_bvci_nsei bv (msgb_nsei msg);
    match ptp_ctx with
    | None => bssgp_tx_status BSSGP_CAUSE_UNKNOWN_BVCI (Some bv) msg
    | Some id =>
        bvc_upd id (fun b => b <| state ::= fun s => s .& Z.lnot BVC_S_BLOCKED |>);;
        bssgp_tx_simple_bvci BSSGP_PDUT_BVC_UNBLOCK_ACK (msgb_nsei msg) bv (msgb_bvci msg)
    end.

(** ** Messages for LLC and mobility management *)

(** The TLLI in a unit data header. *)
Definition ud_tlli (msg : msgb) : Z := rd_be32 (drop 1 (msgb_data msg)).

Definition bssgp_rx_ul_ud (msg : msgb) (tp : tlv_parsed) : SG Z :=
  let t := ud_tlli msg in
  if negb (TLVP_PRESENT tp BSSGP_IE_CELL_ID) || negb (TLVP_PRESENT tp BSSGP_IE_LLC_PDU) then
    bssgp_tx_status BSSGP_CAUSE_MISSING_MAND_IE None msg
  else
    llch ← TLVP_VAL tp BSSGP_IE_LLC_PDU;
    bcid ← TLVP_VAL tp BSSGP_IE_CELL_ID;
    call (EvLlcRcv t (msgb_nsei msg) (msgb_bvci msg) llch (TLVP_LEN tp BSSGP_IE_LLC_PDU) bcid).

Definition bssgp_rx_suspend (msg : msgb) (tp : tlv_parsed) : SG Z :=
  if negb (TLVP_PRESENT tp BSSGP_IE_TLLI) || negb (TLVP_PRESENT tp BSSGP_IE_ROUTEING_AREA) then
    bssgp_tx_status BSSGP_CAUSE_MISSING_MAND_IE None msg
  else
    v ← TLVP_VAL tp BSSGP_IE_TLLI;
    let t := rd_be32 v in
    r ← TLVP_VAL tp BSSGP_IE_ROUTEING_AREA;
    let raid := gsm48_parse_ra r in
    rc ← gprs_gmm_rx_suspend raid t;
    if rc <? 0 then bssgp_tx_suspend_nack (msgb_nsei msg) t raid None
    else bssgp_tx_suspend_ack (msgb_nsei msg) t raid 0;; mret 0.

Definition bssgp_rx_resume (msg : msgb) (tp : tlv_parsed) : SG Z :=
  if negb (TLVP_PRESENT tp BSSGP_IE_TLLI) || negb (TLVP_PRESENT tp BSSGP_IE_ROUTEING_AREA)
     || negb (TLVP_PRESENT tp BSSGP_IE_SUSPEND_REF_NR) then
    bssgp_tx_status BSSGP_CAUSE_MISSING_MAND_IE None msg
  else
    v ← TLVP_VAL tp BSSGP_IE_TLLI;
    let t := rd_be32 v in
    ref ← TLVP_VAL tp BSSGP_IE_SUSPEND_REF_NR;
    r ← TLVP_VAL tp BSSGP_IE_ROUTEING_AREA;
    let raid := gsm48_parse_ra r in
    rc ← gprs_gmm_rx_resume raid t (rd ref 0);
    if rc <? 0 then bssgp_tx_resume_nack (msgb_nsei msg) t raid None
    else bssgp_tx_resume_ack (msgb_nsei msg) t raid;; mret 0.

(** Missing elements are only logged. *)
Definition bssgp_rx_llc_disc (ctx : option nat) : SG Z :=
  id ← deref ctx; bvc_ctr_add id BSSGP_CTR_DISCARDED 1;; mret 0.

(** ** Flow control *)

Definition fc_get (r : fc_ref) : SG bssgp_flow_control :=
  match r with
  | FC_BVC id => b ← bvc_get id; mret (bvc_fc b)
  | FC_MS id => m ← mm_get id; mret (mm_fc m)
  end.
Definition fc_upd (r : fc_ref) (f : bssgp_flow_control -> bssgp_flow_control) : SG unit :=
  match r with
  | FC_BVC id => bvc_upd id (fun b => b <| bvc_fc ::= f |>)
  | FC_MS id => mm_upd id (fun m => m <| mm_fc ::= f |>)
  end.

(** [timersub] and the centiseconds of the difference, as the code stores them. *)
Definition timersub (a b : timeval) : timeval :=
  let sec := tv_sec a - tv_sec b in
  let usec := tv_usec a - tv_usec b in
  if usec <? 0 then mk_timeval (sec - 1) (usec + 1000000) else mk_timeval sec usec.
Definition csecs (d : timeval) : Z := u32 (tv_sec d * 100 + Z.quot (tv_usec d) 10000).

(** The bucket: whether the PDU has to wait, and the flow control after the decision. *)
Definition fc_bucket (time_now : timeval) (fc : bssgp_flow_control) (pdu_len : Z)
  : bool * bssgp_flow_control :=
  let csecs_elapsed := csecs (timersub time_now (time_last_pdu fc)) in
  let leaked := u32 (csecs_elapsed * (bucket_leak_rate fc / 100)) in
  let bucket_predicted := u32 (bucket_counter fc + pdu_len) - leaked in
  if bucket_predicted <? pdu_len then (false, fc)
  else if bucket_predicted <=? bucket_size_max fc then
    (false, fc <| bucket_counter := bucket_predicted |>)
  else (true, fc).

Definition bssgp_fc_needs_queueing (r : fc_ref) (pdu_len : Z) : SG bool :=
  fc ← fc_get r;
  if negb (queue_depth fc =? 0) then mret true
  else
    time_now ← gettimeofday;
    let '(queue, fc) := fc_bucket time_now fc pdu_len in
    fc_upd r (fun _ => fc);;
    mret queue.

(** A head of two null pointers is not an empty list. *)
Definition llist_empty {A} (q : option (list A)) : bool :=
  match q with Some [] => true | _ => false end.

(** [llist_entry(&fc->queue.next, ...)]: the list head itself, read as if it was an element, whose
    message and length are taken from the members behind the head. *)
Definition fc_first_entry (r : fc_ref) : SG bssgp_fc_queue_element := fault.

Definition fc_queue_timer_cfg (r : fc_ref) : SG Z :=
  fc ← fc_get r;
  if llist_empty (fc_queue fc) then mret 0
  else
    fcqe ← fc_first_entry r;
    if bucket_leak_rate fc =? 0 then fault
    else
      let msecs := u32 (q_llc_pdu_len fcqe * 1000) / bucket_leak_rate fc in
      fc_upd r (fun fc => fc <| fc_timer := Some (msecs / 1000, (msecs mod 1000) * 1000) |>);;
      mret 0.

(** [llist_add_tail] follows the pointers of the head. *)
Definition fc_enqueue (r : fc_ref) (msg : msgb) (llc_pdu_len : Z) (priv : option fc_ref) : SG Z :=
  if negb fcqe_alloc_ok then mret (- ENOMEM)
  else
    fc ← fc_get r;
    q ← deref (fc_queue fc);
    fc_upd r (fun fc => fc <| fc_queue := Some (q ++ [mk_bssgp_fc_queue_element msg llc_pdu_len priv]) |>);;
    fc_queue_timer_cfg r;;
    mret 0.

Definition _bssgp_tx_dl_ud (msg : msgb) : SG Z :=
  call (EvNsSend (msgb_nsei msg) (msgb_bvci msg) (msgb_data msg)).

(** The output callback of a mobile is the input of its cell's flow control, which hands on a null
    pointer: three levels are all there are. *)
Fixpoint fc_in_loop (fuel : nat) (fc : option fc_ref) (msg : msgb) (llc_pdu_len : Z)
    (priv : option fc_ref) : SG Z :=
  match fuel with
  | O => fault
  | S fuel =>
      r ← deref fc;
      queue ← bssgp_fc_needs_queueing r llc_pdu_len;
      if (queue : bool) then fc_enqueue r msg llc_pdu_len priv
      else
        time_now ← gettimeofday;
        fc_upd r (fun fc => fc <| time_last_pdu := time_now |>);;
        f ← fc_get r;
        cb ← deref (out_cb f);
        match cb with
        | OUT_TX_DL_UD => _bssgp_tx_dl_ud msg
        | OUT_FC_IN => fc_in_loop fuel priv msg llc_pdu_len None
        end
  end.
Definition bssgp_fc_in : option fc_ref -> msgb -> Z -> option fc_ref -> SG Z := fc_in_loop 3.

Definition fc_timer_cb (r : fc_ref) : SG unit :=
  fc ← fc_get r;
  if llist_empty (fc_queue fc) then mret tt
  else
    fcqe ← fc_first_entry r;
    queue ← bssgp_fc_needs_queueing r (q_llc_pdu_len fcqe);
    if (queue : bool) then fc_queue_timer_cfg r;; mret tt
    else
      time_now ← gettimeofday;
      fc_upd r (fun fc => fc <| fc_queue ::= fmap tail |> <| time_last_pdu := time_now |>);;
      f ← fc_get r;
      cb ← deref (out_cb f);
      match cb with
      | OUT_TX_DL_UD => _bssgp_tx_dl_ud (q_msg fcqe)
      | OUT_FC_IN => bssgp_fc_in (q_priv fcqe) (q_msg fcqe) (q_llc_pdu_len fcqe) None
      end;;
      fc_queue_timer_cfg r;;
      mret tt.

Definition bssgp_fc_ms_init (mm : nat) (bv ns : Z) : SG Z :=
  ctx ← btsctx_by_bvci_nsei bv ns;
  match ctx with
  | None => mret (- ENODEV)
  | Some id =>
      b ← bvc_get id;
      fc_upd (FC_MS mm) (fun fc => fc <| bucket_size_max := bmax_default_ms b |>
                                      <| bucket_leak_rate := r_default_ms b |>);;
      mret 0
  end.

Definition bssgp_rx_fc_bvc (msg : msgb) (tp : tlv_parsed) (bctx : nat) : SG Z :=
  if negb (forallb (TLVP_PRESENT tp)
             [BSSGP_IE_TAG; BSSGP_IE_BVC_BUCKET_SIZE; BSSGP_IE_BUCKET_LEAK_RATE;
              BSSGP_IE_BMAX_DEFAULT_MS; BSSGP_IE_R_DEFAULT_MS]) then
    bssgp_tx_status BSSGP_CAUSE_MISSING_MAND_IE None msg
  else
    size ← TLVP_VAL tp BSSGP_IE_BVC_BUCKET_SIZE;
    rate ← TLVP_VAL tp BSSGP_IE_BUCKET_LEAK_RATE;
    bmax ← TLVP_VAL tp BSSGP_IE_BMAX_DEFAULT_MS;
    r ← TLVP_VAL tp BSSGP_IE_R_DEFAULT_MS;
    bvc_upd bctx (fun b =>
      b <| bvc_fc ::= fun fc => fc <| bucket_size_max := 100 * rd_be16 size |>
                                   <| bucket_leak_rate := 100 * rd_be16 rate |> |>
        <| bmax_default_ms := 100 * rd_be16 bmax |> <| r_default_ms := 100 * rd_be16 r |>);;
    tag ← TLVP_VAL tp BSSGP_IE_TAG;
    bssgp_tx_fc_bvc_ack (msgb_nsei msg) (rd tag 0) (msgb_bvci msg).

Definition bssgp_rx_fc_ms (msg : msgb) (tp : tlv_parsed) : SG Z :=
  if negb (forallb (TLVP_PRESENT tp)
             [BSSGP_IE_TLLI; BSSGP_IE_TAG; BSSGP_IE_MS_BUCKET_SIZE; BSSGP_IE_BUCKET_LEAK_RATE]) then
    bssgp_tx_status BSSGP_CAUSE_MISSING_MAND_IE None msg
  else
    v ← TLVP_VAL tp BSSGP_IE_TLLI;
    tag ← TLVP_VAL tp BSSGP_IE_TAG;
    bssgp_tx_fc_ms_ack (msgb_nsei msg) (rd_be32 v) (rd tag 0) (msgb_bvci msg).

(** ** Reception *)

(** PDUs that are not implemented, and PDUs only the SGSN sends, on the BVC of a cell. *)
Definition ptp_not_implemented (pdu_type : Z) : bool :=
  bool_decide (pdu_type ∈ [BSSGP_PDUT_STATUS; BSSGP_PDUT_DOWNLOAD_BSS_PFC; BSSGP_PDUT_CREATE_BSS_PFC_ACK;
                           BSSGP_PDUT_CREATE_BSS_PFC_NACK; BSSGP_PDUT_MODIFY_BSS_PFC;
                           BSSGP_PDUT_DELETE_BSS_PFC_ACK]).
Definition ptp_downlink_only (pdu_type : Z) : bool :=
  bool_decide (pdu_type ∈ [BSSGP_PDUT_DL_UNITDATA; BSSGP_PDUT_PAGING_PS; BSSGP_PDUT_PAGING_CS;
                           BSSGP_PDUT_RA_CAPA_UPDATE_ACK; BSSGP_PDUT_FLOW_CONTROL_BVC_ACK;
                           BSSGP_PDUT_FLOW_CONTROL_MS_ACK; BSSGP_PDUT_RA_CAPABILITY]).

Definition gprs_bssgp_rx_ptp (msg : msgb) (tp : tlv_parsed) (bctx : option nat) : SG Z :=
  let pdu_type := rd (msgb_data msg) 0 in
  id ← deref bctx;
  b ← bvc_get id;
  if tst (state b) BVC_S_BLOCKED && negb (pdu_type =? BSSGP_PDUT_STATUS) then
    bssgp_tx_status BSSGP_CAUSE_BVCI_BLOCKED (Some (msgb_bvci msg)) msg
  else if pdu_type =? BSSGP_PDUT_UL_UNITDATA then bssgp_rx_ul_ud msg tp
  else if (pdu_type =? BSSGP_PDUT_RA_CAPA_UDPATE) || (pdu_type =? BSSGP_PDUT_RADIO_STATUS) then mret 0
  else if pdu_type =? BSSGP_PDUT_FLOW_CONTROL_BVC then bssgp_rx_fc_bvc msg tp id
  else if pdu_type =? BSSGP_PDUT_FLOW_CONTROL_MS then bssgp_rx_fc_ms msg tp
  else if ptp_not_implemented pdu_type then bssgp_tx_status BSSGP_CAUSE_PDU_INCOMP_FEAT None msg
  else if ptp_downlink_only pdu_type then
    bssgp_tx_status BSSGP_CAUSE_PROTO_ERR_UNSPEC None msg;; mret (- EINVAL)
  else bssgp_tx_status BSSGP_CAUSE_PROTO_ERR_UNSPEC None msg.

Definition sign_downlink_only (pdu_type : Z) : bool :=
  bool_decide (pdu_type ∈ [BSSGP_PDUT_PAGING_PS; BSSGP_PDUT_PAGING_CS; BSSGP_PDUT_SUSPEND_ACK;
                           BSSGP_PDUT_SUSPEND_NACK; BSSGP_PDUT_RESUME_ACK; BSSGP_PDUT_RESUME_NACK;
                           BSSGP_PDUT_FLUSH_LL; BSSGP_PDUT_BVC_BLOCK_ACK; BSSGP_PDUT_BVC_UNBLOCK_ACK;
                           BSSGP_PDUT_SGSN_INVOKE_TRACE]).

Definition gprs_bssgp_rx_sign (msg : msgb) (tp : tlv_parsed) (bctx : option nat) : SG Z :=
  let pdu_type := rd (msgb_data msg) 0 in
  let err_mand_ie := bssgp_tx_status BSSGP_CAUSE_MISSING_MAND_IE None msg in
  if pdu_type =? BSSGP_PDUT_SUSPEND then bssgp_rx_suspend msg tp
  else if pdu_type =? BSSGP_PDUT_RESUME then bssgp_rx_resume msg tp
  else if pdu_type =? BSSGP_PDUT_FLUSH_LL_ACK then mret 0
  else if pdu_type =? BSSGP_PDUT_LLC_DISCARD then bssgp_rx_llc_disc bctx
  else if pdu_type =? BSSGP_PDUT_BVC_BLOCK then
    if negb (TLVP_PRESENT tp BSSGP_IE_BVCI) || negb (TLVP_PRESENT tp BSSGP_IE_CAUSE) then err_mand_ie
    else bssgp_rx_bvc_block msg tp
  else if pdu_type =? BSSGP_PDUT_BVC_UNBLOCK then
    if negb (TLVP_PRESENT tp BSSGP_IE_BVCI) then err_mand_ie else bssgp_rx_bvc_unblock msg tp
  else if pdu_type =? BSSGP_PDUT_BVC_RESET then
    if negb (TLVP_PRESENT tp BSSGP_IE_BVCI) || negb (TLVP_PRESENT tp BSSGP_IE_CAUSE) then err_mand_ie
    else bssgp_rx_bvc_reset msg tp (msgb_bvci msg)
  else if pdu_type =? BSSGP_PDUT_STATUS then mret 0
  else if sign_downlink_only pdu_type then
    bssgp_tx_status BSSGP_CAUSE_PROTO_ERR_UNSPEC None msg;; mret (- EINVAL)
  else bssgp_tx_status BSSGP_CAUSE_PROTO_ERR_UNSPEC None msg.

(** Unit data headers have the TLLI and the QoS profile in front of the elements. *)
Definition bssgp_hdr_len (pdu_type : Z) : nat :=
  if negb (pdu_type =? BSSGP_PDUT_UL_UNITDATA) && negb (pdu_type =? BSSGP_PDUT_DL_UNITDATA) then 1 else 8.

Definition gprs_bssgp_rcvmsg (msg : msgb) : SG Z :=
  let pdu_type := rd (msgb_data msg) 0 in
  let ns_bvci := msgb_bvci msg in
  let len := Z.of_nat (length (msgb_data msg)) in
  let h := bssgp_hdr_len pdu_type in
  let tp := bssgp_tlv_parse (drop h (msgb_data msg)) (len - Z.of_nat h) in
  bctx ← btsctx_by_bvci_nsei ns_bvci (msgb_nsei msg);
  match bctx with
  | None =>
      if negb (pdu_type =? BSSGP_PDUT_BVC_RESET) then
        bssgp_tx_status BSSGP_CAUSE_UNKNOWN_BVCI None msg
      else if ns_bvci =? BVCI_SIGNALLING then gprs_bssgp_rx_sign msg tp None
      else if ns_bvci =? BVCI_PTM then bssgp_tx_status BSSGP_CAUSE_PDU_INCOMP_FEAT None msg
      else gprs_bssgp_rx_ptp msg tp None
  | Some id =>
      bvc_ctr_add id BSSGP_CTR_PKTS_IN 1;;
      bvc_ctr_add id BSSGP_CTR_BYTES_IN len;;
      if ns_bvci =? BVCI_SIGNALLING then gprs_bssgp_rx_sign msg tp (Some id)
      else if ns_bvci =? BVCI_PTM then bssgp_tx_status BSSGP_CAUSE_PDU_INCOMP_FEAT None msg
      else gprs_bssgp_rx_ptp msg tp (Some id)
  end.

(** ** Transmission *)

(** Tag and length of the LLC PDU. *)
Definition llc_pdu_tlv (msg_len : Z) : list Z :=
  if TVLV_MAX_ONEBYTE <? msg_len then [BSSGP_IE_LLC_PDU; u8 (msg_len .>> 8); msg_len .& 0xff]
  else [BSSGP_IE_LLC_PDU; (msg_len .& 0x7f) .| 0x80].

(** The elements that tell the base station about the mobile, in their order in the message. *)
Definition dl_ud_mm_ies (m : sgsn_mm_ctx) : list Z :=
  (if bool_decide (ms_radio_access_capa m = []) then []
   else msgb_tvlv_put BSSGP_IE_MS_RADIO_ACCESS_CAP (ms_radio_access_capa m))
  ++ msgb_tvlv_put BSSGP_IE_DRX_PARAMS (be16 (drx_parms m))
  ++ (let mi := gsm48_generate_mid_from_imsi (imsi m) in
      if bool_decide (imsi m = []) || (Z.of_nat (length mi) <=? 2) then []
      else msgb_tvlv_put BSSGP_IE_IMSI (drop 2 mi)).

Definition qos_profile_default : list Z := [0x00; 0x00; 0x20].

Definition dl_ud_hdr (t : Z) : list Z := [BSSGP_PDUT_DL_UNITDATA] ++ be32 t ++ qos_profile_default.

Definition gprs_bssgp_tx_dl_ud (msg : msgb) (mmctx : option nat) : SG Z :=
  let msg_len := u16 (Z.of_nat (length (msgb_data msg))) in
  if msgb_bvci msg <=? BVCI_PTM then mret (- EINVAL)
  else
    bctx ← btsctx_by_bvci_nsei (msgb_bvci msg) (msgb_nsei msg);
    match bctx with
    | None => mret (- ENODEV)
    | Some id =>
        let data := llc_pdu_tlv msg_len ++ msgb_data msg in
        ies ← match mmctx with
              | Some mm => m ← mm_get mm; mret (dl_ud_mm_ies m)
              | None => mret []
              end;
        let data := dl_ud_hdr (msgb_tlli msg) ++ msgb_tvlv_put BSSGP_IE_PDU_LIFETIME (be16 1000)
                    ++ ies ++ data in
        bvc_ctr_add id BSSGP_CTR_PKTS_OUT 1;;
        bvc_ctr_add id BSSGP_CTR_BYTES_OUT (Z.of_nat (length data));;
        bssgp_fc_in (FC_MS <$> mmctx) (msg <| msgb_data := data |>) msg_len (Some (FC_BVC id))
    end.

Inductive bssgp_paging_mode : Type := BSSGP_PAGING_PS | BSSGP_PAGING_CS.
Inductive bssgp_paging_scope : Type :=
| BSSGP_PAGING_BSS_AREA
| BSSGP_PAGING_LOCATION_AREA
| BSSGP_PAGING_ROUTEING_AREA
| BSSGP_PAGING_BVCI.

Record bssgp_paging_info : Type := mk_bssgp_paging_info {
  mode : bssgp_paging_mode;
  scope : bssgp_paging_scope;
  pg_raid : gprs_ra_id;
  pg_bvci : Z;
  pg_imsi : list Z;
  ptmsi : option Z;
  drx_params : Z;
  qos : list Z
}.

#[export] Instance upd_mode : Upd mode := fun f r => mk_bssgp_paging_info (f (mode r)) (scope r)
  (pg_raid r) (pg_bvci r) (pg_imsi r) (ptmsi r) (drx_params r) (qos r).
#[export] Instance upd_scope : Upd scope := fun f r => mk_bssgp_paging_info (mode r) (f (scope
  r)) (pg_raid r) (pg_bvci r) (pg_imsi r) (ptmsi r) (drx_params r) (qos r).
#[export] Instance upd_pg_raid : Upd pg_raid := fun f r => mk_bssgp_paging_info (mode r) (scope
  r) (f (pg_raid r)) (pg_bvci r) (pg_imsi r) (ptmsi r) (drx_params r) (qos r).
#[export] Instance upd_pg_bvci : Upd pg_bvci := fun f r => mk_bssgp_paging_info (mode r) (scope
  r) (pg_raid r) (f (pg_bvci r)) (pg_imsi r) (ptmsi r) (drx_params r) (qos r).
#[export] Instance upd_pg_imsi : Upd pg_imsi := fun f r => mk_bssgp_paging_info (mode r) (scope
  r) (pg_raid r) (pg_bvci r) (f (pg_imsi r)) (ptmsi r) (drx_params r) (qos r).
#[export] Instance upd_ptmsi : Upd ptmsi := fun f r => mk_bssgp_paging_info (mode r) (scope r)
  (pg_raid r) (pg_bvci r) (pg_imsi r) (f (ptmsi r)) (drx_params r) (qos r).
#[export] Instance upd_drx_params : Upd drx_params := fun f r => mk_bssgp_paging_info (mode r)
  (scope r) (pg_raid r) (pg_bvci r) (pg_imsi r) (ptmsi r) (f (drx_params r)) (qos r).
#[export] Instance upd_qos : Upd qos := fun f r => mk_bssgp_paging_info (mode r) (scope r)
  (pg_raid r) (pg_bvci r) (pg_imsi r) (ptmsi r) (drx_params r) (f (qos r)).

Definition paging_scope (pinfo : bssgp_paging_info) : list Z :=
  match scope pinfo with
  | BSSGP_PAGING_BSS_AREA => msgb_tvlv_put BSSGP_IE_BSS_AREA_ID [0]
  | BSSGP_PAGING_LOCATION_AREA =>
      msgb_tvlv_put BSSGP_IE_LOCATION_AREA (take 4 (gsm48_construct_ra (pg_raid pinfo)))
  | BSSGP_PAGING_ROUTEING_AREA =>
      msgb_tvlv_put BSSGP_IE_ROUTEING_AREA (take 6 (gsm48_construct_ra (pg_raid pinfo)))
  | BSSGP_PAGING_BVCI => msgb_tvlv_put BSSGP_IE_BVCI (be16 (pg_bvci pinfo))
  end.

Definition gprs_bssgp_tx_paging (ns ns_bvci : Z) (pinfo : bssgp_paging_info) : SG Z :=
  if negb msgb_ok then fault
  else
    let mi := gsm48_generate_mid_from_imsi (pg_imsi pinfo) in
    let ps := match mode pinfo with BSSGP_PAGING_PS => true | BSSGP_PAGING_CS => false end in
    if Z.of_nat (length mi) <? 2 then mret (- EINVAL)
    else
      bssgp_send ns ns_bvci
        ([if ps then BSSGP_PDUT_PAGING_PS else BSSGP_PDUT_PAGING_CS]
         ++ msgb_tvlv_put BSSGP_IE_IMSI (drop 2 mi)
         ++ msgb_tvlv_put BSSGP_IE_DRX_PARAMS (be16 (drx_params pinfo))
         ++ paging_scope pinfo
         ++ (if ps then msgb_tvlv_put BSSGP_IE_QOS_PROFILE (take 3 (qos pinfo)) else [])
         ++ match ptmsi pinfo with Some t => msgb_tvlv_put BSSGP_IE_TMSI (be32 t) | None => [] end).

End bssgp.
End Bssgp.
