(* ===== verification/BssgpInv.v ===== *)
(** The operations of BSSGP keep the invariant of the SGSN, and run without undefined behaviour but
    for one message. *)

From S2P Require Import Prelude Sgsn SgsnInv Bssgp.
Import Sgsn SgsnInv Bssgp.

Module BssgpInv.

Section keeps.
Context {env : SgsnEnv}.
Implicit Types (x : option nat).

Lemma keeps_bssgp_send x ns bv data : keeps (wf_but x) (bssgp_send ns bv data).
Proof. unfold bssgp_send. keeps_tac. Qed.
Lemma keeps_tx_status x cause bv msg : keeps (wf_but x) (bssgp_tx_status cause bv msg).
Proof. apply keeps_bssgp_send. Qed.
Lemma keeps_tlvp_val x tp t : keeps (wf_but x) (TLVP_VAL tp t).
Proof. apply keeps_deref. Qed.
Hint Resolve keeps_bssgp_send keeps_tx_status keeps_tlvp_val : keeps.

Lemma keeps_suspend raid t : keeps sgsn_wf (gprs_gmm_rx_suspend raid t).
Proof. unfold gprs_gmm_rx_suspend. keeps_tac. Qed.
Lemma keeps_resume raid t r : keeps sgsn_wf (gprs_gmm_rx_resume raid t r).
Proof. unfold gprs_gmm_rx_resume. keeps_tac. Qed.

(** ** Flow control *)

Definition cb_of (r : fc_ref) : fc_out_cb := match r with FC_BVC _ => OUT_TX_DL_UD | FC_MS _ => OUT_FC_IN end.

Lemma keeps_fc_upd x r f :
  (forall fc, fc_ok (cb_of r) fc -> fc_ok (cb_of r) (f fc)) -> keeps (wf_but x) (fc_upd r f).
Proof.
  intros Hf. destruct r; cbn in *; [apply keeps_bvc_upd|apply keeps_mm_upd]; intros m;
    unfold same_bvc, same_mm, like_mm; cbn; split_and!; auto.
Qed.

Lemma keeps_fc_get x r : keeps (wf_but x) (fc_get r).
Proof. destruct r; cbn; keeps_tac. Qed.

Lemma hoare_fc_get x r :
  hoare (wf_but x) (fc_get r) (fun fc st => wf_but x st /\ fc_ok (cb_of r) fc).
Proof.
  intros st Hw. destruct r; cbn; rewrite wlp_bind; unfold bvc_get, mm_get, load, wlp at 1;
    destruct (_ !! _) eqn:E; try done; split; try done; [by eapply (wf_bvc_fc Hw)|by eapply (wf_mm_fc Hw)].
Qed.

Lemma fc_bucket_ok cb now fc len : fc_ok cb fc -> fc_ok cb (fc_bucket now fc len).2.
Proof. intros H. unfold fc_bucket. by repeat case_match. Qed.

Lemma keeps_needs_queueing x r len : keeps (wf_but x) (bssgp_fc_needs_queueing r len).
Proof.
  apply (hoare_bind _ _ _ _ _ (hoare_fc_get x r)). intros fc st [Hw Hfc]. revert st Hw.
  change (keeps (wf_but x) (if negb (queue_depth fc =? 0) then mret true
    else time_now ← gettimeofday;
         let '(queue, fc) := fc_bucket time_now fc len in fc_upd r (fun _ => fc);; mret queue)).
  keeps_tac. apply keeps_fc_upd. intros _ _.
  match goal with H : fc_bucket ?n _ _ = _ |- _ => pose proof (fc_bucket_ok _ n _ len Hfc) as Hb; by rewrite H in Hb end.
Qed.

(** Nothing can be queued. *)
Lemma keeps_enqueue x r msg len priv : keeps (wf_but x) (fc_enqueue r msg len priv).
Proof.
  unfold fc_enqueue. destruct fcqe_alloc_ok; cbn; [|apply keeps_ret].
  apply (hoare_bind _ _ _ _ _ (hoare_fc_get x r)). intros fc st [Hw (_ & -> & _)]. done.
Qed.
Hint Resolve keeps_needs_queueing keeps_enqueue keeps_fc_get : keeps.

Lemma keeps_fc_in x fuel fc msg len priv : keeps (wf_but x) (fc_in_loop fuel fc msg len priv).
Proof.
  revert fc priv. induction fuel as [|fuel IH]; intros fc priv; cbn [fc_in_loop]; unfold _bssgp_tx_dl_ud; keeps_tac.
  by apply keeps_fc_upd.
Qed.

Lemma keeps_fc_timer_cb x r : keeps (wf_but x) (fc_timer_cb r).
Proof. unfold fc_timer_cb, fc_first_entry. keeps_tac. Qed.

Lemma keeps_fc_ms_init x mm bv ns : keeps (wf_but x) (bssgp_fc_ms_init mm bv ns).
Proof. unfold bssgp_fc_ms_init, btsctx_by_bvci_nsei. keeps_tac. by apply (keeps_fc_upd _ (FC_MS mm)). Qed.

(** ** Cells *)

Lemma by_bvci_nsei_Some bv ns st id :
  sgsn_wf st ->
  find (fun id => match bvcs st !! id with
                  | Some b => (nsei b =? ns) && (bvci b =? bv)
                  | None => false
                  end) (bssgp_bvc_ctxts st) = Some id ->
  exists b, bvcs st !! id = Some b /\ nsei b = ns /\ bvci b = bv.
Proof.
  intros Hw [_ H]%find_Some_elem. destruct (bvcs st !! id) as [b|]; [|done]. exists b.
  apply andb_true_iff in H as [H1%Z.eqb_eq H2%Z.eqb_eq]. done.
Qed.

Lemma by_bvci_nsei_None x bv ns st :
  wf_but x st ->
  find (fun id => match bvcs st !! id with
                  | Some b => (nsei b =? ns) && (bvci b =? bv)
                  | None => false
                  end) (bssgp_bvc_ctxts st) = None ->
  forall id b, bvcs st !! id = Some b -> nsei b = ns -> bvci b = bv -> False.
Proof.
  intros Hw Hf id b Hb <- <-. assert (id ∈ bssgp_bvc_ctxts st) as Hin by (apply (wf_bvcs Hw); by eexists).
  apply list_elem_of_In in Hin. pose proof (find_none _ _ Hf id Hin) as H. cbn in H.
  by rewrite Hb, !Z.eqb_refl in H.
Qed.

Lemma wf_new_bvc bv ns st :
  sgsn_wf st ->
  (forall id b, bvcs st !! id = Some b -> nsei b = ns -> bvci b = bv -> False) ->
  sgsn_wf (st <| bvcs ::= insert (next_id st) (bvc_new bv ns) |>
              <| bssgp_bvc_ctxts ::= cons (next_id st) |> <| next_id ::= S |>).
Proof.
  intros Hw Hn. destruct (wf_fresh_none _ _ _ (next_id st) Hw (le_n _)) as (_ & _ & Eb & _).
  destruct Hw. split; cbn; try (by eauto using Nat.lt_lt_succ_r).
  - by apply lists_cons.
  - intros i Hi. insert_cases; [lia|]. apply wf_fresh_bvc0 in Hi. lia.
  - intros i j b c Hi Hj En Ebv.
    apply lookup_insert_Some in Hi as [[? ?]|[? Hi]]; apply lookup_insert_Some in Hj as [[? ?]|[? Hj]];
      subst; cbn in *; [done| | |eauto]; exfalso; eauto.
  - intros i b Hi. insert_cases; [done|eauto].
Qed.

Lemma hoare_bvc_find_alloc bv ns :
  keeps sgsn_wf (bctx ← btsctx_by_bvci_nsei bv ns;
                 match bctx with Some id => mret (Some id) | None => btsctx_alloc bv ns end).
Proof.
  intros st Hw. rewrite wlp_bind. unfold btsctx_by_bvci_nsei, gets, wlp at 1.
  destruct (find _ _) eqn:E; [done|]. unfold btsctx_alloc. destruct bvc_alloc_ok; cbn; [|done].
  apply wf_new_bvc; [done|]. by apply (by_bvci_nsei_None None).
Qed.

(** ** Reception *)

Lemma keeps_bvc_reset msg tp ns_bvci : keeps sgsn_wf (bssgp_rx_bvc_reset msg tp ns_bvci).
Proof.
  unfold bssgp_rx_bvc_reset. apply keeps_bind; [apply keeps_tlvp_val|intros v].
  apply keeps_bind; [apply keeps_tlvp_val|intros _].
  assert (forall {A} (k : option nat -> M sgsn_state sgsn_event A),
    (forall o, keeps sgsn_wf (k o)) ->
    keeps sgsn_wf (bctx ← btsctx_by_bvci_nsei (rd_be16 v) (msgb_nsei msg);
                   bctx ← match bctx with
                          | Some id => mret (Some id)
                          | None => btsctx_alloc (rd_be16 v) (msgb_nsei msg)
                          end; k bctx)) as Hfa.
  { intros A k Hk st Hw. pose proof (hoare_bvc_find_alloc (rd_be16 v) (msgb_nsei msg) st Hw) as H.
    rewrite wlp_bind in H. rewrite wlp_bind.
    apply (wlp_mono _ _ _ _ H). intros o st' H'. rewrite wlp_bind.
    apply (wlp_mono _ _ _ _ H'). intros o' st'' Hw''. by apply Hk. }
  apply Hfa. intros o. unfold bssgp_tx_simple_bvci. keeps_tac.
Qed.

Lemma keeps_bvc_block msg tp : keeps sgsn_wf (bssgp_rx_bvc_block msg tp).
Proof. unfold bssgp_rx_bvc_block, btsctx_by_bvci_nsei, bssgp_tx_simple_bvci. keeps_tac. Qed.
Lemma keeps_bvc_unblock msg tp : keeps sgsn_wf (bssgp_rx_bvc_unblock msg tp).
Proof. unfold bssgp_rx_bvc_unblock, btsctx_by_bvci_nsei, bssgp_tx_simple_bvci. keeps_tac. Qed.
Lemma keeps_fc_bvc msg tp id : keeps sgsn_wf (bssgp_rx_fc_bvc msg tp id).
Proof. unfold bssgp_rx_fc_bvc, bssgp_tx_fc_bvc_ack. keeps_tac. Qed.
Hint Resolve keeps_suspend keeps_resume keeps_bvc_reset keeps_bvc_block keeps_bvc_unblock keeps_fc_bvc : keeps.

Lemma keeps_rx_ptp msg tp o : keeps sgsn_wf (gprs_bssgp_rx_ptp msg tp o).
Proof.
  unfold gprs_bssgp_rx_ptp, bssgp_rx_ul_ud, bssgp_rx_fc_ms, bssgp_tx_fc_ms_ack. keeps_tac.
Qed.

Lemma keeps_rx_sign msg tp o : keeps sgsn_wf (gprs_bssgp_rx_sign msg tp o).
Proof.
  unfold gprs_bssgp_rx_sign, bssgp_rx_suspend, bssgp_rx_resume, bssgp_rx_llc_disc,
    bssgp_tx_suspend_nack, bssgp_tx_suspend_ack, bssgp_tx_resume_nack, bssgp_tx_resume_ack.
  keeps_tac.
Qed.

Lemma keeps_bssgp_rcvmsg msg : keeps sgsn_wf (gprs_bssgp_rcvmsg msg).
Proof.
  unfold gprs_bssgp_rcvmsg, btsctx_by_bvci_nsei.
  pose proof keeps_rx_ptp. pose proof keeps_rx_sign. keeps_tac.
Qed.

Lemma keeps_tx_dl_ud msg mm : keeps sgsn_wf (gprs_bssgp_tx_dl_ud msg mm).
Proof. unfold gprs_bssgp_tx_dl_ud, btsctx_by_bvci_nsei. keeps_tac. apply keeps_fc_in. Qed.

Lemma keeps_tx_paging ns bv p : keeps sgsn_wf (gprs_bssgp_tx_paging ns bv p).
Proof. unfold gprs_bssgp_tx_paging. keeps_tac. Qed.

End keeps.

End BssgpInv.
