(* ===== verification/SgsnDemo.v ===== *)
(** A concrete surrounding of the SGSN for the witnesses: the parts of libosmocore, libgtp and the C library it
    uses, as small functions that behave as documented, with memory and a clock that advances by 10 ms
    every time it is read. *)

From S2P Require Import Prelude Sgsn SgsnInv Bssgp.
Import Sgsn SgsnInv Bssgp.

Module SgsnDemo.

(** Elements with a tag and a length of one octet (with its top bit set) or two. *)
Fixpoint tvlv (fuel : nat) (p : list Z) (len t : Z) : option (Z * list Z) :=
  match fuel with
  | O => None
  | S fuel =>
      if len <? 2 then None
      else
        let short := tst (rd p 1) 0x80 in
        let l := if short then rd p 1 .& 0x7f else (rd p 1 .<< 8) .| rd p 2 in
        let h := if short then 2%nat else 3%nat in
        if len <? Z.of_nat h + l then None
        else if rd p 0 =? t then Some (l, drop h p)
        else tvlv fuel (drop (h + Z.to_nat l) p) (len - Z.of_nat h - l) t
  end.

Definition tvlv_put (t : Z) (v : list Z) : list Z :=
  let n := Z.of_nat (length v) in
  if n <=? 0x7f then [t; n .| 0x80] ++ v else [t; n .>> 8; n .& 0xff] ++ v.

(** A routing area without the coding of its digits. *)
Definition ra_octets (r : gprs_ra_id) : list Z := be16 (mcc r) ++ [mnc r] ++ be16 (lac r) ++ [rac r].
Definition octets_ra (p : list Z) : gprs_ra_id :=
  mk_gprs_ra_id (rd_be16 p) (rd p 2) (rd_be16 (drop 3 p)) (rd p 5).

Definition demo_env : SgsnEnv := {|
  gprs_tlli_type t := t .>> 30;
  TLLI_LOCAL := 3;
  TLLI_FOREIGN := 2;
  gprs_tmsi2tlli t ty := (t .& 0x3fffffff) .| (ty .<< 30);
  gsm48_parse_ra := octets_ra;
  gsm48_construct_ra := ra_octets;
  gsm48_generate_mid_from_tmsi t := [0x17; 5; 0xf4] ++ be32 t;
  gsm48_generate_mid_from_imsi s := [0x17; Z.of_nat (length s)] ++ s;
  gsm48_mi_to_string p n := take (Z.to_nat n) p;
  bssgp_tlv_parse p len := tvlv (length p) p len;
  gmm_tlv_parse p len := tvlv (length p) p len;
  sm_tlv_parse p len := tvlv (length p) p len;
  msgb_tlv_put t v := [t; Z.of_nat (length v)] ++ v;
  msgb_lv_put v := [Z.of_nat (length v)] ++ v;
  GSM48_PDISC_MM_GPRS := 8;
  GSM48_PDISC_SM_GPRS := 10;
  GSM_MI_TYPE_MASK := 7;
  GSM_MI_TYPE_IMSI := 1;
  GSM_MI_TYPE_IMEI := 2;
  GSM_MI_TYPE_TMSI := 4;
  msgb_tvlv_put := tvlv_put;
  TVLV_MAX_ONEBYTE := 0x7f;
  rand n := 0x1234567 + Z.of_nat n;
  rand_draws := 100;
  clock n := mk_timeval (Z.of_nat (n / 100)) (Z.of_nat (n mod 100) * 10000);
  msgb_ok := true;
  bvc_alloc_ok := true;
  mm_alloc_ok := true;
  pdp_alloc_ok := true;
  ggsn_alloc_ok := true;
  fcqe_alloc_ok := true;
  uninit := 0;
  pdp_newpdp i n := Some (mk_pdp_t 1 None 0 0 [] [] [] [] 0 0);
  gtp_v_size _ := 16%nat;
  gtpcause c := match c with GTPCAUSE_ACC_REQ => 128 | _ => 199 end;
  gtp_listenaddr := 0x7f000001;
  event_rc _ := 0
|}.

(** A cell of NSE 100 with BVCI 2, and a mobile that is in it. *)
Definition demo_cell : bssgp_bvc_ctx := (bvc_new 2 100) <| bvc_fc ::= fun fc =>
  fc <| bucket_size_max := 3000 |> <| bucket_leak_rate := 1000 |> |>.
Definition demo_ra : gprs_ra_id := mk_gprs_ra_id 262 1 4660 5.
Definition demo_mm : sgsn_mm_ctx :=
  (mm_new 0xc0000001 demo_ra) <| imsi := [2; 6; 2; 0; 1] |> <| imei := [1; 2; 3] |> <| p_tmsi := 0xc0000001 |>
    <| mm_nsei := 100 |> <| mm_bvci := 2 |> <| llme := Some 7%nat |> <| mm_state := GMM_REGISTERED_NORMAL |>
    <| mm_fc ::= fun fc => fc <| bucket_size_max := 1500 |> <| bucket_leak_rate := 500 |> |>.
Definition demo_pdp : sgsn_pdp_ctx := (pdp_new 1 5) <| pdp_ggsn := Some 3%nat |> <| ti := 1 |>.
Definition demo_ggsn : sgsn_ggsn_ctx := mk_sgsn_ggsn_ctx 0 1 0x0a000001 7.
Definition demo_state : sgsn_state :=
  sgsn_empty <| bvcs := {[ 0%nat := demo_cell ]} |> <| bssgp_bvc_ctxts := [0%nat] |>
    <| mms := {[ 1%nat := demo_mm <| pdp_list := [2%nat] |> ]} |> <| sgsn_mm_ctxts := [1%nat] |>
    <| pdps := {[ 2%nat := demo_pdp ]} |> <| sgsn_pdp_ctxts := [2%nat] |>
    <| ggsns := {[ 3%nat := demo_ggsn ]} |> <| sgsn_ggsn_ctxts := [3%nat] |>
    <| next_id := 4%nat |>.

Lemma demo_wf : sgsn_wf demo_state.
Proof.
  assert (forall A (i : nat) (x : A), lists [i] ({[ i := x ]} : gmap nat A)) as Hl.
  { intros A i x. split; [apply NoDup_singleton|]. intros j. rewrite list_elem_of_singleton.
    destruct (decide (j = i)) as [->|Hj]; [rewrite lookup_singleton_eq; split; [by eexists|done]|].
    rewrite lookup_singleton_ne by done. split; [done|by intros [? [=]]]. }
  assert (forall A (i j : nat) (x : A), is_Some (({[ i := x ]} : gmap nat A) !! j) -> j = i) as Hs.
  { intros A i j x [y Hy]. by apply lookup_singleton_Some in Hy as [-> _]. }
  split; cbn; try apply Hl.
  1-4: intros id ->%Hs; lia.
  all: try (intros id H; rewrite lookup_empty in H; by destruct H).
  - intros id p Hp. apply lookup_singleton_Some in Hp as [<- <-].
    exists 1%nat, (demo_mm <| pdp_list := [2%nat] |>). rewrite lookup_singleton_eq. split_and!; [done..|by left].
  - intros mm m Hm. apply lookup_singleton_Some in Hm as [<- <-]. split; [apply NoDup_singleton|].
    intros id ->%list_elem_of_singleton. exists demo_pdp. by rewrite lookup_singleton_eq.
  - intros i j p q Hp Hq _ _. apply lookup_singleton_Some in Hp as [<- _]. by apply lookup_singleton_Some in Hq as [<- _].
  - intros i j m n _ _ Hm Hn _. apply lookup_singleton_Some in Hm as [<- _]. by apply lookup_singleton_Some in Hn as [<- _].
  - intros i j b c Hb Hc _ _. apply lookup_singleton_Some in Hb as [<- _]. by apply lookup_singleton_Some in Hc as [<- _].
  - intros i m Hm. by apply lookup_singleton_Some in Hm as [_ <-].
  - intros i b Hb. by apply lookup_singleton_Some in Hb as [_ <-].
  - intros i m H. rewrite lookup_empty in H. by destruct H.
  - intros i p H. rewrite lookup_empty in H. by destruct H.
Qed.

End SgsnDemo.
