(* ===== verification/BssgpProps.v ===== *)
(** What BSSGP does with every message: the leaky buckets, downlink unit data, the procedures of the
    cells, uplink unit data, and the one message that follows a null pointer. *)

From S2P Require Import Prelude Sgsn SgsnInv Bssgp BssgpInv SgsnDemo.
Import Sgsn SgsnInv Bssgp BssgpInv SgsnDemo.

Module BssgpProps.

(** ** The leaky bucket *)

(** A time in microseconds. *)
Definition usec (t : timeval) : Z := tv_sec t * 1000000 + tv_usec t.
Definition valid_time (t : timeval) : Prop := 0 <= tv_usec t < 1000000.

Lemma csecs_timersub a b :
  valid_time a -> valid_time b -> usec b <= usec a ->
  csecs (timersub a b) = u32 ((usec a - usec b) / 10000).
Proof.
  intros Ha Hb Hle. unfold csecs, timersub, usec, valid_time in *. cbv zeta.
  assert (forall s u, 0 <= u -> u < 1000000 -> s * 100 + Z.quot u 10000 = (s * 1000000 + u) / 10000) as H.
  { intros s u Hu1 Hu2. rewrite Z.quot_div_nonneg by lia. Z.to_euclidean_division_equations. lia. }
  destruct (tv_usec a - tv_usec b <? 0) eqn:E; cbn [tv_sec tv_usec].
  - apply Z.ltb_lt in E. rewrite H by lia. do 2 f_equal. lia.
  - apply Z.ltb_ge in E. rewrite H by lia. do 2 f_equal. lia.
Qed.

(** PDUs that pass one after the other at their times: the flow control after them, the octets that
    were added to the bucket and the octets that passed an empty bucket without being added. *)
Fixpoint bucket_run (fc : bssgp_flow_control) (pdus : list (timeval * Z))
  : option (bssgp_flow_control * Z * Z) :=
  match pdus with
  | [] => Some (fc, 0, 0)
  | (now, len) :: pdus =>
      let '(queue, fc') := fc_bucket now fc len in
      if (queue : bool) then None
      else
        let leaked := u32 (csecs (timersub now (time_last_pdu fc)) * (bucket_leak_rate fc / 100)) in
        let empty := u32 (bucket_counter fc + len) - leaked <? len in
        match bucket_run (fc' <| time_last_pdu := now |>) pdus with
        | Some (fc, counted, free) =>
            Some (fc, if empty then counted else counted + len, if empty then free + len else free)
        | None => None
        end
  end.

(** The times never go back. *)
Fixpoint ordered (t : timeval) (pdus : list (timeval * Z)) : Prop :=
  match pdus with
  | [] => True
  | (now, _) :: pdus => valid_time now /\ usec t <= usec now /\ ordered now pdus
  end.

Definition lengths_ok : list (timeval * Z) -> Prop := Forall (fun p => in_width 16 p.2).
Definition last_time (t : timeval) (pdus : list (timeval * Z)) : timeval :=
  default t (fst <$> last pdus).

Lemma last_time_cons t now len pdus : last_time t ((now, len) :: pdus) = last_time now pdus.
Proof. unfold last_time. destruct pdus; [done|]. rewrite last_cons. by destruct (last _) eqn:?. Qed.

Lemma u32_le x : 0 <= x -> 0 <= u32 x <= x.
Proof. intros H. unfold wrap. split; [by apply Z.mod_pos_bound|by apply Z.mod_le]. Qed.

Lemma div_add_le m a b : 0 < m -> a / m + b / m <= (a + b) / m.
Proof.
  intros Hm. apply Z.div_le_lower_bound; [done|].
  pose proof (Z.mul_div_le a m Hm). pose proof (Z.mul_div_le b m Hm). lia.
Qed.

(** One PDU and the bucket. *)
Lemma fc_bucket_cases fc now len :
  valid_time (time_last_pdu fc) -> valid_time now -> usec (time_last_pdu fc) <= usec now -> in_width 16 len ->
  0 <= bucket_counter fc <= bucket_size_max fc -> bucket_size_max fc < 2 ^ 31 -> 0 <= bucket_leak_rate fc ->
  exists leaked,
    u32 (csecs (timersub now (time_last_pdu fc)) * (bucket_leak_rate fc / 100)) = leaked
    /\ 0 <= leaked <= bucket_leak_rate fc / 100 * ((usec now - usec (time_last_pdu fc)) / 10000)
    /\ u32 (bucket_counter fc + len) = bucket_counter fc + len.
Proof.
  intros Hv Hnow Hle Hlen Hc Hb Hr. eexists. split; [done|]. rewrite csecs_timersub by done.
  set (d := (usec now - usec (time_last_pdu fc)) / 10000).
  assert (0 <= d) as Hd by (apply Z.div_pos; lia).
  assert (0 <= bucket_leak_rate fc / 100) as HR by (apply Z.div_pos; lia).
  pose proof (u32_le d Hd) as Hu. split.
  - pose proof (u32_le (u32 d * (bucket_leak_rate fc / 100)) ltac:(nia)). nia.
  - apply wrap_small. unfold in_width in *. lia.
Qed.

(** Flow control as a leaky bucket: of the octets that pass a bucket that is not empty no more
    than its size less its level at the beginning plus what leaks at the configured rate in the time of
    the transfer, whatever the sizes and the times of the PDUs. *)
Theorem flow_control_rate fc pdus fc' counted free :
  valid_time (time_last_pdu fc) -> ordered (time_last_pdu fc) pdus -> lengths_ok pdus ->
  0 <= bucket_counter fc <= bucket_size_max fc -> bucket_size_max fc < 2 ^ 31 -> 0 <= bucket_leak_rate fc ->
  bucket_run fc pdus = Some (fc', counted, free) ->
  counted <= bucket_size_max fc - bucket_counter fc
             + bucket_leak_rate fc / 100
               * ((usec (last_time (time_last_pdu fc) pdus) - usec (time_last_pdu fc)) / 10000).
Proof.
  revert fc fc' counted free. induction pdus as [|[now len] pdus IH]; intros fc fc' counted free Hv Ho Hl Hc Hb Hr.
  { intros [= <- <- <-]. change (last_time _ []) with (time_last_pdu fc).
    rewrite Z.sub_diag, Zdiv_0_l, Z.mul_0_r. lia. }
  destruct Ho as (Hnow & Hle & Ho). apply Forall_cons in Hl as [Hlen Hl]. rewrite last_time_cons.
  destruct (fc_bucket_cases fc now len) as (leaked & El & Hleak & Esum); [done..|].
  cbn [bucket_run]. unfold fc_bucket. rewrite El, Esum. unfold in_width in Hlen. cbn [snd] in Hlen.
  set (T := usec (last_time now pdus)).
  assert ((usec now - usec (time_last_pdu fc)) / 10000 + (T - usec now) / 10000
          <= (T - usec (time_last_pdu fc)) / 10000) as Hfl.
  { replace (T - usec (time_last_pdu fc)) with (usec now - usec (time_last_pdu fc) + (T - usec now)) by lia.
    by apply div_add_le. }
  assert (0 <= (usec now - usec (time_last_pdu fc)) / 10000) as Hd1 by (apply Z.div_pos; lia).
  assert (0 <= bucket_leak_rate fc / 100) as HR by (apply Z.div_pos; lia).
  destruct (bucket_counter fc + len - leaked <? len) eqn:E1.
  - destruct (bucket_run _ pdus) as [[[fc1 c1] f1]|] eqn:E; [|done]. intros [= <- <- <-].
    apply IH in E; [|done..]. cbn in E. fold T in E. nia.
  - apply Z.ltb_ge in E1. destruct (_ <=? bucket_size_max fc) eqn:E2; [|done]. apply Z.leb_le in E2.
    destruct (bucket_run _ pdus) as [[[fc1 c1] f1]|] eqn:E; [|done]. intros [= <- <- <-].
    apply IH in E; [|done..|cbn; lia|done|done]. cbn in E. fold T in E. nia.
Qed.

(** Every PDU comes so late after the one before that more leaks in between than is in the bucket. *)
Fixpoint spaced (rate level : Z) (t : timeval) (pdus : list (timeval * Z)) : Prop :=
  match pdus with
  | [] => True
  | (now, _) :: pdus =>
      valid_time now /\ 0 <= usec now - usec t < 10000 * 2 ^ 32
      /\ level < (usec now - usec t) / 10000 * (rate / 100) < 2 ^ 32 /\ spaced rate level now pdus
  end.
Definition total : list (timeval * Z) -> Z := foldr (fun p n => p.2 + n) 0.

(** The bucket is bypassed: PDUs that come so far apart that the bucket runs empty in between all pass
    and are never counted, whatever their sizes and the size of the bucket. *)
Theorem flow_control_bypassed fc pdus :
  valid_time (time_last_pdu fc) -> lengths_ok pdus -> 0 <= bucket_counter fc < 2 ^ 31 ->
  spaced (bucket_leak_rate fc) (bucket_counter fc) (time_last_pdu fc) pdus ->
  exists fc', bucket_run fc pdus = Some (fc', 0, total pdus) /\ bucket_counter fc' = bucket_counter fc.
Proof.
  revert fc. induction pdus as [|[now len] pdus IH]; intros fc Hv Hl Hc Hs; [by exists fc|].
  destruct Hs as (Hnow & Hgap & Hleak & Hs). apply Forall_cons in Hl as [Hlen Hl].
  unfold in_width in Hlen. cbn [snd] in Hlen.
  set (d := (usec now - usec (time_last_pdu fc)) / 10000) in *.
  assert (0 <= d < 2 ^ 32) as Hd.
  { split; [apply Z.div_pos; lia|]. apply Z.div_lt_upper_bound; lia. }
  cbn [bucket_run]. unfold fc_bucket. rewrite csecs_timersub by (done || lia). fold d.
  rewrite (wrap_small 32 d) by done. rewrite (wrap_small 32 (d * _)) by (unfold in_width; lia).
  rewrite (wrap_small 32 (_ + len)) by (unfold in_width; lia).
  assert ((bucket_counter fc + len - d * (bucket_leak_rate fc / 100) <? len) = true) as -> by (apply Z.ltb_lt; lia).
  destruct (IH (fc <| time_last_pdu := now |>)) as (fc' & -> & Hc'); [done..|]. exists fc'. split; [|done].
  cbn. do 2 f_equal. lia.
Qed.

(** ** Downlink unit data *)

Section dl.
Context {env : SgsnEnv}.

Abbreviation SG := (M sgsn_state sgsn_event).

Definition fc_at (r : fc_ref) (st : sgsn_state) (fc : bssgp_flow_control) : Prop :=
  match r with
  | FC_BVC id => exists b, bvcs st !! id = Some b /\ bvc_fc b = fc
  | FC_MS id => exists m, mms st !! id = Some m /\ mm_fc m = fc
  end.
Definition upd_fc (r : fc_ref) (f : bssgp_flow_control -> bssgp_flow_control) (st : sgsn_state) : sgsn_state :=
  match r with
  | FC_BVC id => st <| bvcs ::= alter (fun b => b <| bvc_fc ::= f |>) id |>
  | FC_MS id => st <| mms ::= alter (fun m => m <| mm_fc ::= f |>) id |>
  end.

Lemma run_bvc_get id b st : bvcs st !! id = Some b -> bvc_get id st = Some (b, st, []).
Proof. intros H. unfold bvc_get, load. by rewrite H. Qed.
Lemma run_bvc_upd id f b st :
  bvcs st !! id = Some b -> bvc_upd id f st = Some (tt, st <| bvcs ::= alter f id |>, []).
Proof. intros H. unfold bvc_upd. by rewrite (run_bind _ _ _ _ _ _ (run_bvc_get _ _ _ H)). Qed.

Lemma run_fc_get r fc st : fc_at r st fc -> fc_get r st = Some (fc, st, []).
Proof.
  destruct r; cbn; intros (x & Hx & <-); unfold bvc_get, mm_get, load, mbind, M_bind; by rewrite Hx.
Qed.
Lemma run_fc_upd r f fc st : fc_at r st fc -> fc_upd r f st = Some (tt, upd_fc r f st, []).
Proof.
  destruct r; cbn; intros (x & Hx & _);
    unfold bvc_upd, mm_upd, bvc_get, mm_get, load, mbind, M_bind; by rewrite Hx.
Qed.
Lemma fc_at_upd r f fc st : fc_at r st fc -> fc_at r (upd_fc r f st) (f fc).
Proof. destruct r; cbn; intros (x & Hx & <-); rewrite lookup_alter_eq, Hx; by eexists. Qed.
Lemma fc_at_tick r fc st : fc_at r st fc -> fc_at r (st <| tick_nr ::= S |>) fc.
Proof. by destruct r. Qed.
Lemma fc_at_other r r' f fc st :
  match r, r' with FC_BVC _, FC_MS _ | FC_MS _, FC_BVC _ => True | _, _ => False end ->
  fc_at r st fc -> fc_at r (upd_fc r' f st) fc.
Proof. by destruct r, r'. Qed.

(** The flow control when a PDU has passed: decided at one time, sent at another. *)
Definition fc_passed (decided sent : timeval) (len : Z) (fc : bssgp_flow_control) : bssgp_flow_control :=
  (fc_bucket decided fc len).2 <| time_last_pdu := sent |>.

(** The state in which a flow control has let a PDU pass. *)
Definition fc_pass (r : fc_ref) (len : Z) (st : sgsn_state) : sgsn_state :=
  let t := tick_nr st in
  upd_fc r (fc_passed (clock t) (clock (S t)) len) (st <| tick_nr := S (S t) |>).

Lemma upd_fc_id r fc st : fc_at r st fc -> upd_fc r (fun _ => fc) st = st.
Proof.
  destruct r, st; cbn; intros (x & Hx & <-); unfold upd, upd_bvcs, upd_mms; cbn; f_equal; apply alter_id; intros y Hy;
    rewrite Hx in Hy; injection Hy as <-; by destruct x.
Qed.
Lemma upd_fc_upd_fc r f g st : upd_fc r f (upd_fc r g st) = upd_fc r (fun fc => f (g fc)) st.
Proof. destruct r, st; cbn; unfold upd, upd_bvcs, upd_mms; cbn; f_equal; rewrite alter_alter_eq; by apply alter_ext. Qed.
Lemma upd_fc_tick r f st : (upd_fc r f st) <| tick_nr ::= S |> = upd_fc r f (st <| tick_nr ::= S |>).
Proof. by destruct r. Qed.
Lemma upd_fc_at r fc f g st : fc_at r st fc -> f fc = g fc -> upd_fc r f st = upd_fc r g st.
Proof.
  destruct r, st; cbn; intros (x & Hx & <-) E; unfold upd, upd_bvcs, upd_mms; cbn; f_equal; apply alter_ext; intros y Hy;
    rewrite Hx in Hy; injection Hy as <-; destruct x; cbn in *; unfold upd, upd_bvc_fc, upd_mm_fc; cbn; by rewrite E.
Qed.

Lemma run_gettimeofday st : gettimeofday st = Some (clock (tick_nr st), st <| tick_nr ::= S |>, []).
Proof. done. Qed.

Lemma run_needs_queueing r fc len st :
  fc_at r st fc -> queue_depth fc = 0 ->
  bssgp_fc_needs_queueing r len st
  = Some ((fc_bucket (clock (tick_nr st)) fc len).1,
          upd_fc r (fun _ => (fc_bucket (clock (tick_nr st)) fc len).2) (st <| tick_nr ::= S |>), []).
Proof.
  intros Hat Hd. unfold bssgp_fc_needs_queueing. run_with (run_fc_get _ _ _ Hat).
  rewrite Hd. cbn [Z.eqb negb]. run_with (run_gettimeofday st). destruct (fc_bucket _ _ _) as [q fc'] eqn:E.
  by run_with (run_fc_upd _ (fun _ => fc') _ _ (fc_at_tick _ _ _ Hat)).
Qed.

(** One level of flow control: the PDU passes to the level below, or it is to wait, and then the queue
    is the null pointer. *)
Lemma run_fc_level n r fc cb msg len priv st :
  fc_at r st fc -> fc_ok cb fc ->
  fc_in_loop (S n) (Some r) msg len priv st
  = if (fc_bucket (clock (tick_nr st)) fc len).1 then
      if fcqe_alloc_ok then None
      else Some (- ENOMEM, st <| tick_nr ::= S |>, [])
    else
      match cb with
      | OUT_TX_DL_UD => _bssgp_tx_dl_ud msg (fc_pass r len st)
      | OUT_FC_IN => fc_in_loop n priv msg len None (fc_pass r len st)
      end.
Proof.
  intros Hat Hok. destruct (id Hok) as (Hd & Hq & _ & Hcb). cbn [fc_in_loop deref]. rewrite run_ret.
  run_with (run_needs_queueing _ _ len _ Hat Hd).
  pose proof (fc_bucket_ok cb (clock (tick_nr st)) fc len Hok) as Hok'.
  assert ((fc_bucket (clock (tick_nr st)) fc len).1 = true -> (fc_bucket (clock (tick_nr st)) fc len).2 = fc) as Hsame.
  { unfold fc_bucket. by repeat case_match. }
  set (b := fc_bucket _ _ _) in *.
  pose proof (fc_at_upd r (fun _ => b.2) _ _ (fc_at_tick _ _ _ Hat)) as Hat1. cbn beta in Hat1.
  destruct b.1.
  - rewrite (Hsame eq_refl) in Hat1 |- *. unfold fc_enqueue. destruct fcqe_alloc_ok; cbn [negb].
    + run_with (run_fc_get _ _ _ Hat1). by rewrite Hq.
    + by rewrite (upd_fc_id _ _ _ (fc_at_tick _ _ _ Hat)).
  - set (st1 := upd_fc r _ _) in *. run_with (run_gettimeofday st1).
    set (f := fun fc => fc <| time_last_pdu := clock (tick_nr st1) |>).
    pose proof (fc_at_tick _ _ _ Hat1) as Hat2. run_with (run_fc_upd _ f _ _ Hat2).
    assert (upd_fc r f (st1 <| tick_nr ::= S |>) = fc_pass r len st) as Est.
    { unfold fc_pass, st1, f. rewrite upd_fc_tick, upd_fc_upd_fc.
      transitivity (upd_fc r (fun _ => b.2 <| time_last_pdu := clock (S (tick_nr st)) |>)
                      (st <| tick_nr := S (S (tick_nr st)) |>)); [by destruct r|].
      apply (upd_fc_at _ fc); [by destruct r|done]. }
    pose proof (fc_at_upd r f _ _ Hat2) as Hat3. rewrite Est in Hat3 |- *. run_with (run_fc_get _ _ _ Hat3).
    destruct Hok' as (_ & _ & _ & Hcb'). change (out_cb (f b.2)) with (out_cb b.2). rewrite Hcb'.
    cbn [deref]. rewrite run_ret. by destruct cb.
Qed.

(** The context of a cell. *)
Definition cell_at (st : sgsn_state) (ns bv : Z) (id : nat) (b : bssgp_bvc_ctx) : Prop :=
  bvcs st !! id = Some b /\ nsei b = ns /\ bvci b = bv.

Lemma run_by_bvci_nsei st ns bv id b :
  sgsn_wf st -> cell_at st ns bv id b -> btsctx_by_bvci_nsei bv ns st = Some (Some id, st, []).
Proof.
  intros Hw (Hb & Hn & Hv). unfold btsctx_by_bvci_nsei, gets. do 3 f_equal.
  destruct (find _ _) as [i|] eqn:E; [|by destruct (by_bvci_nsei_None None _ _ _ Hw E _ _ Hb)].
  destruct (by_bvci_nsei_Some _ _ _ _ Hw E) as (c & Hc & Hcn & Hcv). f_equal.
  apply (wf_bvc Hw _ _ _ _ Hc Hb); congruence.
Qed.
Lemma run_by_bvci_nsei_none st ns bv :
  sgsn_wf st -> (forall id b, ~ cell_at st ns bv id b) -> btsctx_by_bvci_nsei bv ns st = Some (None, st, []).
Proof.
  intros Hw Hn. unfold btsctx_by_bvci_nsei, gets. do 3 f_equal. destruct (find _ _) as [i|] eqn:E; [|done].
  destruct (by_bvci_nsei_Some _ _ _ _ Hw E) as (c & Hc). by destruct (Hn i c).
Qed.

(** The DL-UNITDATA PDU around an LLC PDU for a mobile. *)
Definition dl_ud_data (msg : msgb) (m : sgsn_mm_ctx) : list Z :=
  dl_ud_hdr (msgb_tlli msg) ++ msgb_tvlv_put BSSGP_IE_PDU_LIFETIME (be16 1000) ++ dl_ud_mm_ies m
  ++ llc_pdu_tlv (u16 (Z.of_nat (length (msgb_data msg)))) ++ msgb_data msg.

(** The counters of a cell after a PDU for it. *)
Definition dl_counted (data : list Z) (b : bssgp_bvc_ctx) : bssgp_bvc_ctx :=
  b <| bvc_ctrg ::= fun c => ctr_add (bssgp_ctr_index BSSGP_CTR_BYTES_OUT) (Z.of_nat (length data))
                               (ctr_add (bssgp_ctr_index BSSGP_CTR_PKTS_OUT) 1 c) |>.

Lemma alter_bvcs (f g : bssgp_bvc_ctx -> bssgp_bvc_ctx) id st :
  (st <| bvcs ::= alter f id |>) <| bvcs ::= alter g id |> = st <| bvcs ::= alter (fun b => g (f b)) id |>.
Proof. destruct st. cbv [upd upd_bvcs]. cbn. by rewrite alter_alter_eq. Qed.

Lemma run_dl_counted {A} st id b data (k : SG A) :
  bvcs st !! id = Some b ->
  (bvc_ctr_add id BSSGP_CTR_PKTS_OUT 1;; bvc_ctr_add id BSSGP_CTR_BYTES_OUT (Z.of_nat (length data));; k) st
  = k (st <| bvcs ::= alter (dl_counted data) id |>).
Proof.
  intros Hb. unfold bvc_ctr_add. run_with (run_bvc_upd _ _ _ _ Hb).
  match goal with |- (bvc_upd id ?f ≫= _) ?st' = _ =>
    assert (bvcs st' !! id = Some (b <| bvc_ctrg ::= ctr_add (bssgp_ctr_index BSSGP_CTR_PKTS_OUT) 1 |>)) as Hb1
  end.
  { cbn. by rewrite lookup_alter_eq, Hb. }
  run_with (run_bvc_upd _ _ _ _ Hb1). by rewrite alter_bvcs.
Qed.

(** A PDU that would have to wait. *)
Definition cannot_wait (st : sgsn_state) : option (Z * sgsn_state * list sgsn_event) :=
  if fcqe_alloc_ok then None else Some (- ENOMEM, st, []).

(** Unit data for a mobile: refused for the signalling and the multicast BVC and for a cell that was never
    announced; else the cell counts it and the leaky buckets of the mobile and then of the cell decide.
    When both have room the PDU is handed to NS at once with the header, the lifetime, the mobile's
    elements and the LLC PDU, and both buckets have taken it; when one has not, a null pointer is
    followed or, without memory, the PDU is lost: it never waits in a queue. *)
Theorem dl_unitdata_sent st msg mm m :
  sgsn_wf st -> mms st !! mm = Some m ->
  let len := u16 (Z.of_nat (length (msgb_data msg))) in
  let data := dl_ud_data msg m in
  let t n := clock (tick_nr st + n)%nat in
  (msgb_bvci msg <= BVCI_PTM -> gprs_bssgp_tx_dl_ud msg (Some mm) st = Some (- EINVAL, st, []))
  /\ (BVCI_PTM < msgb_bvci msg -> (forall id b, ~ cell_at st (msgb_nsei msg) (msgb_bvci msg) id b) ->
        gprs_bssgp_tx_dl_ud msg (Some mm) st = Some (- ENODEV, st, []))
  /\ (BVCI_PTM < msgb_bvci msg -> forall id b, cell_at st (msgb_nsei msg) (msgb_bvci msg) id b ->
        let st1 := st <| bvcs ::= alter (dl_counted data) id |> in
        let st2 := fc_pass (FC_MS mm) len st1 in
        let ev := EvNsSend (msgb_nsei msg) (msgb_bvci msg) data in
        gprs_bssgp_tx_dl_ud msg (Some mm) st
        = if (fc_bucket (t 0%nat) (mm_fc m) len).1 then cannot_wait (st1 <| tick_nr := S (tick_nr st) |>)
          else if (fc_bucket (t 2%nat) (bvc_fc b) len).1 then
            cannot_wait (st2 <| tick_nr := (tick_nr st + 3)%nat |>)
          else Some (event_rc ev, fc_pass (FC_BVC id) len st2, [ev])).
Proof.
  intros Hw Hm len data t. split; [|split].
  - intros H. unfold gprs_bssgp_tx_dl_ud. by apply Z.leb_le in H as ->.
  - intros H Hn. unfold gprs_bssgp_tx_dl_ud. apply Z.leb_gt in H as ->. by run_with (run_by_bvci_nsei_none _ _ _ Hw Hn).
  - intros H id b Hc st1 st2 ev. unfold gprs_bssgp_tx_dl_ud. fold len. apply Z.leb_gt in H as ->.
    run_with (run_by_bvci_nsei _ _ _ _ _ Hw Hc).
    assert ((x ← mm_get mm; mret (dl_ud_mm_ies x)) st = Some (dl_ud_mm_ies m, st, [])) as Hies.
    { unfold mm_get, load, mbind, M_bind. by rewrite Hm. }
    run_with Hies. change (dl_ud_hdr _ ++ _) with data. destruct Hc as (Hb & _ & _).
    rewrite (run_dl_counted st id b data _ Hb). fold st1. unfold bssgp_fc_in. cbn [fmap option_fmap option_map].
    assert (fc_at (FC_MS mm) st1 (mm_fc m)) as Hat1 by by exists m.
    rewrite (run_fc_level _ _ _ OUT_FC_IN _ _ _ _ Hat1 (wf_mm_fc Hw _ _ Hm)).
    change (clock (tick_nr st1)) with (clock (tick_nr st)). unfold t. rewrite Nat.add_0_r.
    destruct (fc_bucket _ (mm_fc m) len).1; [done|]. fold st2.
    assert (fc_at (FC_BVC id) st2 (bvc_fc b)) as Hat2.
    { exists (dl_counted data b). split; [|done]. cbn. by rewrite lookup_alter_eq, Hb. }
    rewrite (run_fc_level _ _ _ OUT_TX_DL_UD _ _ _ _ Hat2 (wf_bvc_fc Hw _ _ Hb)).
    change (tick_nr st2) with (S (S (tick_nr st))). replace (tick_nr st + 2)%nat with (S (S (tick_nr st))) by lia.
    replace (tick_nr st + 3)%nat with (S (S (S (tick_nr st)))) by lia. by destruct (fc_bucket _ (bvc_fc b) len).1.
Qed.

End dl.

(** ** Witnesses *)

Definition demo_fc : bssgp_flow_control := bvc_fc demo_cell.
Definition demo_pdus : list (timeval * Z) := [(mk_timeval 0 20000, 1000); (mk_timeval 1 0, 1500); (mk_timeval 9 0, 400)].

Lemma flow_control_rate_witness :
  exists fc' counted free, bucket_run demo_fc demo_pdus = Some (fc', counted, free)
    /\ counted <= 3000 + 10 * 900.
Proof.
  destruct (bucket_run demo_fc demo_pdus) as [[[fc' counted] free]|] eqn:E; [|vm_compute in E; discriminate].
  exists fc', counted, free. split; [done|].
  refine (flow_control_rate demo_fc demo_pdus fc' counted free _ _ _ _ _ _ E); vm_bounds || (unfold lengths_ok; repeat constructor; vm_bounds).
Defined.

Lemma flow_control_bypassed_witness :
  exists fc', bucket_run demo_fc [(mk_timeval 1 0, 60000); (mk_timeval 2 0, 60000)] = Some (fc', 0, 120000)
    /\ bucket_counter fc' = 0.
Proof.
  apply (flow_control_bypassed demo_fc [(mk_timeval 1 0, 60000); (mk_timeval 2 0, 60000)]);
    vm_bounds || (unfold lengths_ok; repeat constructor; vm_bounds).
Defined.

Definition demo_pdu : msgb := mk_msgb 0xc0000001 100 2 [0x41; 0; 1; 2; 3].

Lemma dl_unitdata_sent_witness :
  exists rc st', @gprs_bssgp_tx_dl_ud demo_env demo_pdu (Some 1%nat) demo_state
    = Some (rc, st', [EvNsSend 100 2 (@dl_ud_data demo_env demo_pdu demo_mm)]).
Proof.
  destruct (@dl_unitdata_sent demo_env demo_state demo_pdu 1%nat _ demo_wf eq_refl) as (_ & _ & H).
  eexists _, _. rewrite (H eq_refl 0%nat demo_cell (conj eq_refl (conj eq_refl eq_refl))). vm_compute. reflexivity.
Defined.

End BssgpProps.
