(* ===== verification/BssgpCells.v ===== *)
(** What the SGSN answers on the BVCs: a table of cells and, for each message of a base station, the
    table after it and the messages that leave. Theorems: BSSGP (Bssgp.v) implements it; what reaches
    LLC. *)

From S2P Require Import Prelude Sgsn SgsnInv Bssgp BssgpInv BssgpProps SgsnDemo.
Import Sgsn SgsnInv Bssgp BssgpInv BssgpProps SgsnDemo.

Module BssgpCells.

(** ** The specification *)

(** The cells by NSEI and BVCI, and whether each is blocked. *)
Abbreviation cells := (gmap (Z * Z) bool).

Section spec.
Context {env : SgsnEnv}.

(** The elements a PDU has to have, on the signalling BVC and on that of a cell. *)
Definition sign_mandatory (pdu_type : Z) : list Z :=
  if pdu_type =? BSSGP_PDUT_SUSPEND then [BSSGP_IE_TLLI; BSSGP_IE_ROUTEING_AREA]
  else if pdu_type =? BSSGP_PDUT_RESUME then
    [BSSGP_IE_TLLI; BSSGP_IE_ROUTEING_AREA; BSSGP_IE_SUSPEND_REF_NR]
  else if (pdu_type =? BSSGP_PDUT_BVC_BLOCK) || (pdu_type =? BSSGP_PDUT_BVC_RESET) then
    [BSSGP_IE_BVCI; BSSGP_IE_CAUSE]
  else if pdu_type =? BSSGP_PDUT_BVC_UNBLOCK then [BSSGP_IE_BVCI]
  else [].
Definition ptp_mandatory (pdu_type : Z) : list Z :=
  if pdu_type =? BSSGP_PDUT_UL_UNITDATA then [BSSGP_IE_CELL_ID; BSSGP_IE_LLC_PDU]
  else if pdu_type =? BSSGP_PDUT_FLOW_CONTROL_BVC then
    [BSSGP_IE_TAG; BSSGP_IE_BVC_BUCKET_SIZE; BSSGP_IE_BUCKET_LEAK_RATE; BSSGP_IE_BMAX_DEFAULT_MS;
     BSSGP_IE_R_DEFAULT_MS]
  else if pdu_type =? BSSGP_PDUT_FLOW_CONTROL_MS then
    [BSSGP_IE_TLLI; BSSGP_IE_TAG; BSSGP_IE_MS_BUCKET_SIZE; BSSGP_IE_BUCKET_LEAK_RATE]
  else [].
Definition complete (tp : tlv_parsed) (ies : list Z) : bool := forallb (TLVP_PRESENT tp) ies.
Definition ie (tp : tlv_parsed) (t : Z) : list Z := default [] (snd <$> tp t).

(** Answers, to the BVC the message came from or to the signalling BVC. *)
Definition to_bvc (msg : msgb) (data : list Z) : list sgsn_event :=
  [EvNsSend (msgb_nsei msg) (msgb_bvci msg) data].
Definition to_sign (msg : msgb) (data : list Z) : list sgsn_event := [EvNsSend (msgb_nsei msg) 0 data].
Definition status (cause : Z) (bv : option Z) (msg : msgb) : list sgsn_event :=
  to_sign msg ([BSSGP_PDUT_STATUS] ++ msgb_tvlv_put BSSGP_IE_CAUSE [cause]
     ++ match bv with Some b => msgb_tvlv_put BSSGP_IE_BVCI (be16 b) | None => [] end
     ++ msgb_tvlv_put BSSGP_IE_PDU_IN_ERROR (msgb_data msg)).
Definition about_bvci (pdu_type bv : Z) : list Z := [pdu_type] ++ msgb_tvlv_put BSSGP_IE_BVCI (be16 bv).

(** Whether mobility management can suspend or resume the mobile of a message. *)
Definition gmm_accepts (st : sgsn_state) (tp : tlv_parsed) (from : gprs_mm_state) : bool :=
  match sgsn_mm_ctx_by_tlli (rd_be32 (ie tp BSSGP_IE_TLLI)) (gsm48_parse_ra (ie tp BSSGP_IE_ROUTEING_AREA)) st with
  | Some (Some id, st, _) => bool_decide (mm_state <$> mms st !! id = Some from)
  | _ => false
  end.

(** The signalling BVC. *)
Definition spec_sign (c : cells) (accepts : gprs_mm_state -> bool) (msg : msgb) (tp : tlv_parsed)
  : cells * list sgsn_event :=
  let ty := rd (msgb_data msg) 0 in
  let bv := rd_be16 (ie tp BSSGP_IE_BVCI) in
  let cell := (msgb_nsei msg, bv) in
  let who := tlli_ra (rd_be32 (ie tp BSSGP_IE_TLLI)) (gsm48_parse_ra (ie tp BSSGP_IE_ROUTEING_AREA)) in
  if negb (complete tp (sign_mandatory ty)) then (c, status BSSGP_CAUSE_MISSING_MAND_IE None msg)
  else if ty =? BSSGP_PDUT_SUSPEND then
    (c, to_sign msg (if accepts GMM_REGISTERED_NORMAL
                     then [BSSGP_PDUT_SUSPEND_ACK] ++ who ++ msgb_tvlv_put BSSGP_IE_SUSPEND_REF_NR [0]
                     else [BSSGP_PDUT_SUSPEND_NACK] ++ who))
  else if ty =? BSSGP_PDUT_RESUME then
    (c, to_sign msg ((if accepts GMM_REGISTERED_SUSPENDED then [BSSGP_PDUT_RESUME_ACK]
                      else [BSSGP_PDUT_SUSPEND_NACK]) ++ who))
  else if ty =? BSSGP_PDUT_BVC_RESET then
    (<[cell := false]> c,
     if negb (bv =? 0) && negb (bv =? 1) && negb (TLVP_PRESENT tp BSSGP_IE_CELL_ID) then []
     else to_bvc msg (about_bvci BSSGP_PDUT_BVC_RESET_ACK bv))
  else if (ty =? BSSGP_PDUT_BVC_BLOCK) || (ty =? BSSGP_PDUT_BVC_UNBLOCK) then
    if bv =? BVCI_SIGNALLING then (c, [])
    else
      match c !! cell with
      | None => (c, status BSSGP_CAUSE_UNKNOWN_BVCI (Some bv) msg)
      | Some _ =>
          if ty =? BSSGP_PDUT_BVC_BLOCK then (<[cell := true]> c, to_bvc msg (about_bvci BSSGP_PDUT_BVC_BLOCK_ACK bv))
          else (<[cell := false]> c, to_bvc msg (about_bvci BSSGP_PDUT_BVC_UNBLOCK_ACK bv))
      end
  else if bool_decide (ty ∈ [BSSGP_PDUT_FLUSH_LL_ACK; BSSGP_PDUT_LLC_DISCARD; BSSGP_PDUT_STATUS]) then (c, [])
  else (c, status BSSGP_CAUSE_PROTO_ERR_UNSPEC None msg).

(** The BVC of a cell: only unit data goes further up, and nothing does while the cell is blocked. *)
Definition spec_ptp (blocked : bool) (msg : msgb) (tp : tlv_parsed) : list sgsn_event :=
  let ty := rd (msgb_data msg) 0 in
  if blocked && negb (ty =? BSSGP_PDUT_STATUS) then status BSSGP_CAUSE_BVCI_BLOCKED (Some (msgb_bvci msg)) msg
  else if negb (complete tp (ptp_mandatory ty)) then status BSSGP_CAUSE_MISSING_MAND_IE None msg
  else if ty =? BSSGP_PDUT_UL_UNITDATA then
    [EvLlcRcv (ud_tlli msg) (msgb_nsei msg) (msgb_bvci msg) (ie tp BSSGP_IE_LLC_PDU)
       (TLVP_LEN tp BSSGP_IE_LLC_PDU) (ie tp BSSGP_IE_CELL_ID)]
  else if (ty =? BSSGP_PDUT_RA_CAPA_UDPATE) || (ty =? BSSGP_PDUT_RADIO_STATUS) then []
  else if ty =? BSSGP_PDUT_FLOW_CONTROL_BVC then
    to_bvc msg ([BSSGP_PDUT_FLOW_CONTROL_BVC_ACK] ++ msgb_tvlv_put BSSGP_IE_TAG [rd (ie tp BSSGP_IE_TAG) 0])
  else if ty =? BSSGP_PDUT_FLOW_CONTROL_MS then
    to_bvc msg ([BSSGP_PDUT_FLOW_CONTROL_MS_ACK]
                ++ msgb_tvlv_put BSSGP_IE_TLLI (be32 (rd_be32 (ie tp BSSGP_IE_TLLI)))
                ++ msgb_tvlv_put BSSGP_IE_TAG [rd (ie tp BSSGP_IE_TAG) 0])
  else if ptp_not_implemented ty then status BSSGP_CAUSE_PDU_INCOMP_FEAT None msg
  else status BSSGP_CAUSE_PROTO_ERR_UNSPEC None msg.

(** The elements of a message. *)
Definition ies_of (msg : msgb) : tlv_parsed :=
  let h := bssgp_hdr_len (rd (msgb_data msg) 0) in
  bssgp_tlv_parse (drop h (msgb_data msg)) (Z.of_nat (length (msgb_data msg)) - Z.of_nat h).

(** Every message; [None]: a null pointer is followed. *)
Definition spec_rcvmsg (c : cells) (accepts : gprs_mm_state -> bool) (msg : msgb)
  : option (cells * list sgsn_event) :=
  let tp := ies_of msg in
  let bv := msgb_bvci msg in
  let known := c !! (msgb_nsei msg, bv) in
  if bool_decide (known = None) && negb (rd (msgb_data msg) 0 =? BSSGP_PDUT_BVC_RESET) then
    Some (c, status BSSGP_CAUSE_UNKNOWN_BVCI None msg)
  else if bv =? BVCI_SIGNALLING then Some (spec_sign c accepts msg tp)
  else if bv =? BVCI_PTM then Some (c, status BSSGP_CAUSE_PDU_INCOMP_FEAT None msg)
  else
    match known with
    | Some blocked => Some (c, spec_ptp blocked msg tp)
    | None => None
    end.

(** The table of a state of the SGSN. *)
Definition abs (st : sgsn_state) (c : cells) : Prop :=
  forall ns bv blk, c !! (ns, bv) = Some blk
    <-> exists id b, cell_at st ns bv id b /\ tst (state b) BVC_S_BLOCKED = blk.

(** ** The table and the store *)

Lemma tst_set s : tst (s .| BVC_S_BLOCKED) BVC_S_BLOCKED = true.
Proof.
  unfold tst. apply negb_true_iff, Z.eqb_neq. rewrite Z.land_lor_distr_l. intros H%Z.lor_eq_0_iff. by destruct H.
Qed.
Lemma tst_clear s : tst (s .& Z.lnot BVC_S_BLOCKED) BVC_S_BLOCKED = false.
Proof. unfold tst. rewrite <- Z.land_assoc. by rewrite Z.land_0_r. Qed.

Lemma abs_none st c ns bv : abs st c -> c !! (ns, bv) = None -> forall id b, ~ cell_at st ns bv id b.
Proof. intros Ha Hn id b Hc. assert (c !! (ns, bv) = Some (tst (state b) BVC_S_BLOCKED)) by (apply Ha; eauto). congruence. Qed.
Lemma abs_some st c ns bv blk :
  abs st c -> c !! (ns, bv) = Some blk -> exists id b, cell_at st ns bv id b /\ tst (state b) BVC_S_BLOCKED = blk.
Proof. intros Ha Hn. by apply Ha. Qed.

Definition like_cell (b c : bssgp_bvc_ctx) : Prop :=
  nsei c = nsei b /\ bvci c = bvci b /\ tst (state c) BVC_S_BLOCKED = tst (state b) BVC_S_BLOCKED.

Lemma cell_at_alter st id f ns bv i c :
  (forall b, nsei (f b) = nsei b /\ bvci (f b) = bvci b) ->
  cell_at (st <| bvcs ::= alter f id |>) ns bv i c
  <-> exists b, cell_at st ns bv i b /\ c = if decide (i = id) then f b else b.
Proof.
  intros Hf. unfold cell_at. cbn. destruct (decide (i = id)) as [->|Hi].
  - rewrite lookup_alter_eq. destruct (bvcs st !! id) as [b|]; cbn; split.
    + intros ([= <-] & <- & <-). exists b. by destruct (Hf b) as [-> ->].
    + intros (? & ([= <-] & <- & <-) & ->). by destruct (Hf b) as [-> ->].
    + by intros [[=] _].
    + by intros (? & ([=] & _) & _).
  - rewrite lookup_alter_ne by done. split; [by eauto|]. by intros (b & ? & ->).
Qed.

(** Assignments that do not touch what the table shows. *)
Lemma abs_like st id f c : (forall b, like_cell b (f b)) -> abs st c -> abs (st <| bvcs ::= alter f id |>) c.
Proof.
  intros Hf Ha ns bv blk. rewrite (Ha ns bv blk).
  assert (forall b, nsei (f b) = nsei b /\ bvci (f b) = bvci b) as Hf' by (intros b; destruct (Hf b); tauto).
  setoid_rewrite (cell_at_alter st id f); [|done]. split.
  - intros (i & b & Hc & <-). exists i, (if decide (i = id) then f b else b). split; [by exists b|].
    case_decide; [apply Hf|done].
  - intros (i & b' & (b & Hc & ->) & <-). exists i, b. split; [done|]. case_decide; [symmetry; apply Hf|done].
Qed.

(** A cell is blocked or unblocked. *)
Lemma abs_set st id b f c ns bv blk :
  sgsn_wf st -> cell_at st ns bv id b ->
  (forall b, nsei (f b) = nsei b /\ bvci (f b) = bvci b /\ tst (state (f b)) BVC_S_BLOCKED = blk) ->
  abs st c -> abs (st <| bvcs ::= alter f id |>) (<[(ns, bv) := blk]> c).
Proof.
  intros Hw Hc Hf Ha ns' bv' blk'.
  assert (forall b, nsei (f b) = nsei b /\ bvci (f b) = bvci b) as Hf' by (intros x; destruct (Hf x); tauto).
  setoid_rewrite (cell_at_alter st id f); [|done].
  rewrite lookup_insert_Some, (Ha ns' bv' blk'). split.
  - intros [[[= <- <-] <-]|[Hne (i & x & Hx & Hblk)]].
    + exists id, (f b). split; [|apply Hf]. exists b. by rewrite decide_True.
    + exists i, x. split; [|done]. exists x. split; [done|]. rewrite decide_False; [done|]. intros ->.
      destruct Hx as (Hx & <- & <-), Hc as (Hc & <- & <-). congruence.
  - intros (i & y & (x & Hx & ->) & Hblk). destruct (decide (i = id)) as [->|Hi].
    + left. destruct Hx as (Hx & <- & <-), Hc as (Hc & <- & <-). simplify_eq. split; [done|]. symmetry. apply Hf.
    + right. split; [|by exists i, x]. intros [= <- <-]. apply Hi.
      destruct Hx as (Hx & Hn & Hv), Hc as (Hc & Hn' & Hv'). apply (wf_bvc Hw _ _ _ _ Hx Hc); congruence.
Qed.

(** A cell is announced. *)
Lemma abs_new st c ns bv n :
  bvcs st !! n = None -> c !! (ns, bv) = None -> abs st c ->
  abs (st <| bvcs ::= insert n (bvc_new bv ns) |> <| bssgp_bvc_ctxts ::= cons n |> <| next_id ::= S |>)
      (<[(ns, bv) := false]> c).
Proof.
  intros Hn Hc Ha ns' bv' blk. rewrite lookup_insert_Some, (Ha ns' bv' blk). unfold cell_at. cbn. split.
  - intros [[[= <- <-] <-]|[Hne (i & x & (Hx & ? & ?) & Hblk)]].
    + exists n, (bvc_new bv ns). by rewrite lookup_insert_eq.
    + exists i, x. rewrite lookup_insert_ne; [done|]. congruence.
  - intros (i & x & (Hx & E1 & E2) & Hblk). apply lookup_insert_Some in Hx as [[<- <-]|[? Hx]].
    + left. cbn in *. by subst.
    + right. split; [|by exists i, x]. intros [= <- <-].
      destruct (abs_none _ _ _ _ Ha Hc i x). done.
Qed.

Lemma abs_bvcs st st' c : bvcs st' = bvcs st -> abs st c -> abs st' c.
Proof. intros E Ha ns bv blk. unfold cell_at. rewrite E. apply Ha. Qed.

End spec.
(** ** The handlers *)

(** Decide the comparisons of constants. *)
Ltac eqb_closed :=
  repeat match goal with
         | |- context [?a =? ?b] =>
             let v := eval vm_compute in (a =? b) in
             match v with true => idtac | false => idtac end; change (a =? b) with v; cbv iota
         end; cbn [negb andb orb].

(** The specification for a type that is known. *)
Ltac spec_type ty E :=
  unfold spec_sign, spec_ptp, sign_mandatory, ptp_mandatory; cbv zeta; fold ty; rewrite ?E; eqb_closed;
  repeat match goal with
         | |- context [bool_decide (?x ∈ ?l)] =>
             let v := eval vm_compute in (bool_decide (x ∈ l)) in
             match v with true => idtac | false => idtac end; change (bool_decide (x ∈ l)) with v; cbv iota
         end.

Section memory.
Context {env : SgsnEnv}.
Abbreviation SG := (M sgsn_state sgsn_event).
Hypothesis Hmsgb : msgb_ok = true.
Hypothesis Halloc : bvc_alloc_ok = true.

(** A handler does what the specification says. *)
Definition does (m : SG Z) (st : sgsn_state) (r : cells * list sgsn_event) : Prop :=
  exists rc st', m st = Some (rc, st', r.2) /\ abs st' r.1.

Lemma does_ret st c n : abs st c -> does (mret n) st (c, []).
Proof. intros Ha. by exists n, st. Qed.
Lemma does_send st c ns bv data : abs st c -> does (bssgp_send ns bv data) st (c, [EvNsSend ns bv data]).
Proof. intros Ha. eexists _, st. unfold bssgp_send. by rewrite Hmsgb. Qed.
Lemma does_then m n st r : does m st r -> does (m;; mret n) st r.
Proof.
  intros (rc & st' & Hm & Ha). exists n, st'. split; [|done]. rewrite (run_bind _ _ _ _ _ _ Hm). cbn.
  by rewrite app_nil_r.
Qed.
Lemma does_bind {A} (m : SG A) k a st st' r : m st = Some (a, st', []) -> does (k a) st' r -> does (m ≫= k) st r.
Proof. intros Hm (rc & st2 & Hk & Ha). exists rc, st2. split; [|done]. by run_with Hm. Qed.
Lemma does_val tp t k st r :
  TLVP_PRESENT tp t = true -> does (k (ie tp t)) st r -> does (TLVP_VAL tp t ≫= k) st r.
Proof.
  unfold TLVP_PRESENT, TLVP_VAL, ie. destruct (tp t) as [[n v]|]; [|done]. intros _. cbn.
  by apply does_bind.
Qed.
Lemma does_bvc_upd id b f (k : unit -> SG Z) st r :
  bvcs st !! id = Some b -> does (k tt) (st <| bvcs ::= alter f id |>) r -> does (bvc_upd id f ≫= k) st r.
Proof. intros Hb. apply does_bind. by apply (run_bvc_upd _ _ b). Qed.

(** The finding of a mobile, and what mobility management says. *)
Lemma run_by_tlli t raid st :
  sgsn_wf st ->
  exists o st', sgsn_mm_ctx_by_tlli t raid st = Some (o, st', []) /\ bvcs st' = bvcs st
                /\ forall id, o = Some id -> is_Some (mms st' !! id).
Proof.
  intros Hw. unfold sgsn_mm_ctx_by_tlli. rewrite run_gets. destruct (mm_find st _) as [i|] eqn:E.
  { exists (Some i), st. split_and!; [done..|]. intros id [= <-]. apply mm_find_Some in E as (m & Hm & _). by eexists. }
  cbv zeta. destruct (gprs_tlli_type t =? TLLI_LOCAL).
  - destruct (mm_find st (by_local_tlli t)) as [i|] eqn:E2; [|by exists None, st].
    apply mm_find_Some in E2 as (m & Hm & _). exists (Some i), (st <| mms ::= alter (fun m => m <| tlli := t |>) i |>).
    split_and!; [|done|].
    + unfold mm_upd, mm_get, load, mbind, M_bind. by rewrite Hm.
    + intros id [= <-]. cbn. rewrite lookup_alter_eq, Hm. by eexists.
  - destruct (gprs_tlli_type t =? TLLI_FOREIGN); [|by exists None, st].
    exists (mm_find st (fun m => (t =? tlli_foreign (tlli m)) && ra_id_equals raid (ra m))), st.
    split_and!; [done..|]. intros id (m & Hm & _)%mm_find_Some. by eexists.
Qed.

Lemma run_gmm_change t raid (from to : gprs_mm_state) st :
  sgsn_wf st ->
  exists rc st',
    (mmctx ← sgsn_mm_ctx_by_tlli t raid;
     match mmctx with
     | None => mret (- EINVAL)
     | Some id =>
         m ← mm_get id;
         if decide (mm_state m = from) then mm_upd id (fun m => m <| mm_state := to |>);; mret 0
         else mret (- EINVAL)
     end) st = Some (rc, st', [])
    /\ bvcs st' = bvcs st
    /\ (rc <? 0) = negb match sgsn_mm_ctx_by_tlli t raid st with
                        | Some (Some id, st, _) => bool_decide (mm_state <$> mms st !! id = Some from)
                        | _ => false
                        end.
Proof.
  intros Hw. destruct (run_by_tlli t raid st Hw) as (o & st' & Hrun & Eb & Ho). run_with Hrun. rewrite Hrun.
  destruct o as [id|]; [|by exists (- EINVAL), st'].
  destruct (Ho id eq_refl) as [m Hm]. rewrite Hm. cbn [fmap option_fmap option_map].
  assert (mm_get id st' = Some (m, st', [])) as Hget by (unfold mm_get, load; by rewrite Hm). run_with Hget.
  destruct (decide (mm_state m = from)) as [E|E].
  - exists 0, (st' <| mms ::= alter (fun m => m <| mm_state := to |>) id |>). split_and!; [|done|].
    + unfold mm_upd, mbind, M_bind. by rewrite Hget.
    + rewrite bool_decide_eq_true_2; [done|congruence].
  - exists (- EINVAL), st'. split_and!; [done..|]. rewrite bool_decide_eq_false_2; [done|congruence].
Qed.

Lemma gmm_accepts_bvcs st f tp from : gmm_accepts (st <| bvcs ::= f |>) tp from = gmm_accepts st tp from.
Proof.
  unfold gmm_accepts, sgsn_mm_ctx_by_tlli. rewrite !run_gets. cbv zeta.
  change (mm_find (st <| bvcs ::= f |>)) with (mm_find st).
  destruct (mm_find st _); [done|]. destruct (gprs_tlli_type _ =? TLLI_LOCAL).
  - destruct (mm_find st (by_local_tlli _)) as [i|]; [|done].
    unfold mm_upd, mm_get, load, mbind, M_bind. cbn. by destruct (mms st !! i).
  - by destruct (_ =? TLLI_FOREIGN).
Qed.

(** The cases of a missing element. *)
Local Ltac complete_ies :=
  match goal with
  | |- context [complete ?tp ?l] =>
      unfold complete; cbn [forallb];
      repeat match goal with
             | |- context [TLVP_PRESENT tp ?t] =>
                 destruct (TLVP_PRESENT tp t) eqn:?; cbn [negb andb orb]; try by apply does_send
             end
  end.

Lemma does_suspend msg tp st c :
  sgsn_wf st -> abs st c -> rd (msgb_data msg) 0 = BSSGP_PDUT_SUSPEND ->
  does (bssgp_rx_suspend msg tp) st (spec_sign c (gmm_accepts st tp) msg tp).
Proof.
  intros Hw Ha Hty. unfold bssgp_rx_suspend, spec_sign, sign_mandatory. rewrite Hty. cbv zeta. eqb_closed. complete_ies.
  do 2 (apply does_val; [done|]).
  destruct (run_gmm_change (rd_be32 (ie tp BSSGP_IE_TLLI)) (gsm48_parse_ra (ie tp BSSGP_IE_ROUTEING_AREA))
    GMM_REGISTERED_NORMAL GMM_REGISTERED_SUSPENDED st Hw) as (rc & st' & Hrun & Eb & Hrc).
  apply (does_bind _ _ _ _ _ _ Hrun). rewrite Hrc. fold (gmm_accepts st tp GMM_REGISTERED_NORMAL).
  pose proof (abs_bvcs _ _ _ Eb Ha). destruct (gmm_accepts _ _ _); [by apply does_then, does_send|].
  unfold bssgp_tx_suspend_nack, opt_cause. rewrite app_nil_r. by apply does_send.
Qed.

Lemma does_resume msg tp st c :
  sgsn_wf st -> abs st c -> rd (msgb_data msg) 0 = BSSGP_PDUT_RESUME ->
  does (bssgp_rx_resume msg tp) st (spec_sign c (gmm_accepts st tp) msg tp).
Proof.
  intros Hw Ha Hty. unfold bssgp_rx_resume, spec_sign, sign_mandatory. rewrite Hty. cbv zeta. eqb_closed. complete_ies.
  do 3 (apply does_val; [done|]).
  destruct (run_gmm_change (rd_be32 (ie tp BSSGP_IE_TLLI)) (gsm48_parse_ra (ie tp BSSGP_IE_ROUTEING_AREA))
    GMM_REGISTERED_SUSPENDED GMM_REGISTERED_NORMAL st Hw) as (rc & st' & Hrun & Eb & Hrc).
  apply (does_bind _ _ _ _ _ _ Hrun). rewrite Hrc. fold (gmm_accepts st tp GMM_REGISTERED_SUSPENDED).
  pose proof (abs_bvcs _ _ _ Eb Ha). destruct (gmm_accepts _ _ _); [by apply does_then, does_send|].
  unfold bssgp_tx_resume_nack, opt_cause. rewrite app_nil_r. by apply does_send.
Qed.

(** The context of the cell that a RESET is about is found or made. *)
Lemma run_reset_ctx st c ns bv :
  sgsn_wf st -> abs st c ->
  exists id b st', (bctx ← btsctx_by_bvci_nsei bv ns;
                    match bctx with Some id => mret (Some id) | None => btsctx_alloc bv ns end) st
                   = Some (Some id, st', [])
    /\ sgsn_wf st' /\ cell_at st' ns bv id b
    /\ forall f, (forall b, nsei (f b) = nsei b /\ bvci (f b) = bvci b /\ tst (state (f b)) BVC_S_BLOCKED = false) ->
          abs (st' <| bvcs ::= alter f id |>) (<[(ns, bv) := false]> c).
Proof.
  intros Hw Ha. destruct (c !! (ns, bv)) as [blk|] eqn:E.
  - destruct (abs_some _ _ _ _ _ Ha E) as (id & b & Hc & _). exists id, b, st.
    run_with (run_by_bvci_nsei _ _ _ _ _ Hw Hc). split_and!; [done..|]. intros f Hf. by apply (abs_set _ _ b).
  - pose proof (abs_none _ _ _ _ Ha E) as Hn. run_with (run_by_bvci_nsei_none _ _ _ Hw Hn).
    unfold btsctx_alloc. rewrite Halloc. cbn [negb]. rewrite run_gets, run_modify.
    set (st' := st <| bvcs ::= _ |> <| bssgp_bvc_ctxts ::= _ |> <| next_id ::= _ |>).
    assert (sgsn_wf st') as Hw' by (apply wf_new_bvc; [done|]; intros id b ???; by apply (Hn id b)).
    destruct (wf_fresh_none _ _ _ (next_id st) Hw (le_n _)) as (_ & _ & Eb & _).
    assert (cell_at st' ns bv (next_id st) (bvc_new bv ns)) as Hc.
    { split; [|done]. cbn. by rewrite lookup_insert_eq. }
    exists (next_id st), (bvc_new bv ns), st'. split_and!; [done..|]. intros f Hf.
    rewrite <- (insert_insert_eq c (ns, bv) false false). apply (abs_set _ _ _ _ _ _ _ _ Hw' Hc Hf). by apply abs_new.
Qed.

Lemma does_assoc {A B} (m : SG A) (f : A -> SG B) k st r :
  does ((m ≫= f) ≫= k) st r -> does (m ≫= fun a => f a ≫= k) st r.
Proof.
  intros (rc & st' & Hm & Ha). exists rc, st'. split; [|done]. rewrite <- Hm. unfold mbind, M_bind.
  destruct (m st) as [[[a s1] e1]|]; [|done]. destruct (f a s1) as [[[b s2] e2]|]; [|done].
  destruct (k b s2) as [[[z s3] e3]|]; [|done]. by rewrite app_assoc.
Qed.

Lemma does_reset msg tp st c :
  sgsn_wf st -> abs st c -> rd (msgb_data msg) 0 = BSSGP_PDUT_BVC_RESET ->
  complete tp [BSSGP_IE_BVCI; BSSGP_IE_CAUSE] = true ->
  does (bssgp_rx_bvc_reset msg tp (msgb_bvci msg)) st (spec_sign c (gmm_accepts st tp) msg tp).
Proof.
  intros Hw Ha Hty Hc. unfold bssgp_rx_bvc_reset, spec_sign, sign_mandatory. rewrite Hty. cbv zeta. eqb_closed.
  rewrite Hc. cbn [negb]. apply andb_true_iff in Hc as [Hbv [Hcause _]%andb_true_iff].
  do 2 (apply does_val; [done|]). set (bv := rd_be16 (ie tp BSSGP_IE_BVCI)).
  apply (does_assoc (btsctx_by_bvci_nsei bv (msgb_nsei msg)) (fun bctx => match bctx with
    | Some id => mret (Some id) | None => btsctx_alloc bv (msgb_nsei msg) end)).
  destruct (run_reset_ctx st c (msgb_nsei msg) bv Hw Ha) as (id & b & st' & Hrun & Hw' & Hat & Hset).
  apply (does_bind _ _ _ _ _ _ Hrun). cbn [deref]. apply (does_bind (mret id) _ id st' st'); [done|].
  destruct Hat as (Hb & Hn & Hv). apply (does_bvc_upd _ b); [done|].
  set (f := fun b => b <| state ::= fun s => s .& Z.lnot BVC_S_BLOCKED |>).
  assert (abs (st' <| bvcs ::= alter f id |>) (<[(msgb_nsei msg, bv):=false]> c)) as Ha1.
  { apply Hset. intros x. split_and!; [done..|]. apply tst_clear. }
  destruct (negb (bv =? 0) && negb (bv =? 1)) eqn:Eptp; cbn [andb];
    [destruct (TLVP_PRESENT tp BSSGP_IE_CELL_ID) eqn:Ecell; cbn [negb]; [|by apply does_ret]|].
  - set (st2 := st' <| bvcs ::= alter f id |>) in *.
    assert (bvcs st2 !! id = Some (f b)) as Hb2 by (cbn; by rewrite lookup_alter_eq, Hb).
    unfold TLVP_PRESENT in Ecell. destruct (tp BSSGP_IE_CELL_ID) as [[n v]|] eqn:Etp; [|done].
    apply (does_bind _ _ tt st2 (st2 <| bvcs ::= alter (fun b => b <| bvc_ra_id := gsm48_parse_ra v |>
                                                        <| cell_id := rd_be16 (drop 6 v) |>) id |>)).
    + unfold TLVP_VAL. rewrite Etp. cbn [fmap option_fmap option_map deref snd]. rewrite run_ret.
      by apply (run_bvc_upd _ _ (f b)).
    + apply does_then, does_send. by apply abs_like.
  - apply does_bind with (a := tt) (st' := st' <| bvcs ::= alter f id |>); [done|]. by apply does_then, does_send.
Qed.

Lemma does_block msg tp st c :
  sgsn_wf st -> abs st c -> rd (msgb_data msg) 0 = BSSGP_PDUT_BVC_BLOCK ->
  complete tp [BSSGP_IE_BVCI; BSSGP_IE_CAUSE] = true ->
  does (bssgp_rx_bvc_block msg tp) st (spec_sign c (gmm_accepts st tp) msg tp).
Proof.
  intros Hw Ha Hty Hc. unfold bssgp_rx_bvc_block, spec_sign, sign_mandatory. rewrite Hty. cbv zeta. eqb_closed.
  rewrite Hc. cbn [negb]. apply andb_true_iff in Hc as [Hbv _]. apply does_val; [done|].
  set (bv := rd_be16 (ie tp BSSGP_IE_BVCI)). destruct (bv =? BVCI_SIGNALLING); [by apply does_ret|].
  destruct (c !! (msgb_nsei msg, bv)) as [blk|] eqn:E.
  - destruct (abs_some _ _ _ _ _ Ha E) as (i & b & Hat & _).
    apply (does_bind _ _ _ _ _ _ (run_by_bvci_nsei _ _ _ _ _ Hw Hat)). destruct (id Hat) as (Hb & _ & _).
    apply (does_bvc_upd _ b); [done|]. set (f := fun b => b <| state ::= fun s => s .| BVC_S_BLOCKED |>).
    apply (does_bvc_upd _ (f b)); [cbn; by rewrite lookup_alter_eq, Hb|]. apply does_send, abs_like; [done|].
    apply (abs_set _ _ b); try done. intros x. split_and!; [done..|]. apply tst_set.
  - apply (does_bind _ _ _ _ _ _ (run_by_bvci_nsei_none _ _ _ Hw (abs_none _ _ _ _ Ha E))). by apply does_send.
Qed.

Lemma does_unblock msg tp st c :
  sgsn_wf st -> abs st c -> rd (msgb_data msg) 0 = BSSGP_PDUT_BVC_UNBLOCK ->
  complete tp [BSSGP_IE_BVCI] = true ->
  does (bssgp_rx_bvc_unblock msg tp) st (spec_sign c (gmm_accepts st tp) msg tp).
Proof.
  intros Hw Ha Hty Hc. unfold bssgp_rx_bvc_unblock, spec_sign, sign_mandatory. rewrite Hty. cbv zeta. eqb_closed.
  rewrite Hc. cbn [negb]. apply andb_true_iff in Hc as [Hbv _]. apply does_val; [done|].
  set (bv := rd_be16 (ie tp BSSGP_IE_BVCI)). destruct (bv =? BVCI_SIGNALLING); [by apply does_ret|].
  destruct (c !! (msgb_nsei msg, bv)) as [blk|] eqn:E.
  - destruct (abs_some _ _ _ _ _ Ha E) as (i & b & Hat & _).
    apply (does_bind _ _ _ _ _ _ (run_by_bvci_nsei _ _ _ _ _ Hw Hat)). destruct (id Hat) as (Hb & _ & _).
    apply (does_bvc_upd _ b); [done|]. apply does_send.
    apply (abs_set _ _ b); try done. intros x. split_and!; [done..|]. apply tst_clear.
  - apply (does_bind _ _ _ _ _ _ (run_by_bvci_nsei_none _ _ _ Hw (abs_none _ _ _ _ Ha E))). by apply does_send.
Qed.

Lemma complete1 tp t : negb (TLVP_PRESENT tp t) = negb (complete tp [t]).
Proof. unfold complete. cbn. by rewrite andb_true_r. Qed.
Lemma complete2 tp t u : negb (TLVP_PRESENT tp t) || negb (TLVP_PRESENT tp u) = negb (complete tp [t; u]).
Proof. unfold complete. cbn. by rewrite andb_true_r, negb_andb. Qed.

(** The signalling BVC. *)
Lemma does_sign msg tp o st c :
  sgsn_wf st -> abs st c ->
  match o with
  | Some id => is_Some (bvcs st !! id)
  | None => rd (msgb_data msg) 0 = BSSGP_PDUT_BVC_RESET
  end ->
  does (gprs_bssgp_rx_sign msg tp o) st (spec_sign c (gmm_accepts st tp) msg tp).
Proof.
  intros Hw Ha Ho. unfold gprs_bssgp_rx_sign. cbv zeta.
  set (ty := rd (msgb_data msg) 0) in *.
  destruct (ty =? BSSGP_PDUT_SUSPEND) eqn:E1; [apply Z.eqb_eq in E1; by apply does_suspend|].
  destruct (ty =? BSSGP_PDUT_RESUME) eqn:E2; [apply Z.eqb_eq in E2; by apply does_resume|].
  destruct (ty =? BSSGP_PDUT_FLUSH_LL_ACK) eqn:E3; [apply Z.eqb_eq in E3; spec_type ty E3; by apply does_ret|].
  destruct (ty =? BSSGP_PDUT_LLC_DISCARD) eqn:E4; [apply Z.eqb_eq in E4|].
  { spec_type ty E4. destruct o as [id|]; [|by rewrite E4 in Ho]. destruct Ho as [b Hb].
    unfold bssgp_rx_llc_disc. apply (does_bind (mret id) _ id st st); [done|].
    apply (does_bvc_upd _ b); [done|]. by apply does_ret, abs_like. }
  destruct (ty =? BSSGP_PDUT_BVC_BLOCK) eqn:E5; [apply Z.eqb_eq in E5|].
  { rewrite complete2. destruct (complete tp _) eqn:Hc; cbn [negb]; [by apply does_block|].
    spec_type ty E5. rewrite Hc. by apply does_send. }
  destruct (ty =? BSSGP_PDUT_BVC_UNBLOCK) eqn:E6; [apply Z.eqb_eq in E6|].
  { rewrite complete1. destruct (complete tp _) eqn:Hc; cbn [negb]; [by apply does_unblock|].
    spec_type ty E6. rewrite Hc. by apply does_send. }
  destruct (ty =? BSSGP_PDUT_BVC_RESET) eqn:E7; [apply Z.eqb_eq in E7|].
  { rewrite complete2. destruct (complete tp _) eqn:Hc; cbn [negb]; [by apply does_reset|].
    spec_type ty E7. rewrite Hc. by apply does_send. }
  destruct (ty =? BSSGP_PDUT_STATUS) eqn:E8; [apply Z.eqb_eq in E8; spec_type ty E8; by apply does_ret|].
  unfold spec_sign, sign_mandatory. cbv zeta. fold ty. rewrite E1, E2, E5, E6, E7. cbn [orb negb complete forallb].
  rewrite bool_decide_eq_false_2.
  2: { apply Z.eqb_neq in E3, E4, E8. set_unfold. tauto. }
  destruct (sign_downlink_only ty); [apply does_then|]; by apply does_send.
Qed.

(** The BVC of a cell. *)
Lemma does_ptp msg tp id b st c :
  abs st c -> bvcs st !! id = Some b ->
  does (gprs_bssgp_rx_ptp msg tp (Some id)) st (c, spec_ptp (tst (state b) BVC_S_BLOCKED) msg tp).
Proof.
  intros Ha Hb. unfold gprs_bssgp_rx_ptp. cbv zeta. set (ty := rd (msgb_data msg) 0).
  apply (does_bind (mret id) _ id st st); [done|]. apply (does_bind _ _ _ _ _ _ (run_bvc_get _ _ _ Hb)).
  unfold spec_ptp. cbv zeta. fold ty. destruct (tst (state b) BVC_S_BLOCKED && _); [by apply does_send|].
  destruct (ty =? BSSGP_PDUT_UL_UNITDATA) eqn:E1; [apply Z.eqb_eq in E1|].
  { spec_type ty E1. unfold bssgp_rx_ul_ud. rewrite complete2. cbv zeta.
    destruct (complete tp _) eqn:Hc; cbn [negb]; [|by apply does_send].
    apply andb_true_iff in Hc as [H1 [H2 _]%andb_true_iff]. do 2 (apply does_val; [done|]). by eexists _, st. }
  destruct ((ty =? BSSGP_PDUT_RA_CAPA_UDPATE) || (ty =? BSSGP_PDUT_RADIO_STATUS)) eqn:E2.
  { apply orb_true_iff in E2 as [E2%Z.eqb_eq|E2%Z.eqb_eq]; spec_type ty E2; by apply does_ret. }
  destruct (ty =? BSSGP_PDUT_FLOW_CONTROL_BVC) eqn:E3; [apply Z.eqb_eq in E3|].
  { spec_type ty E3. unfold bssgp_rx_fc_bvc. fold (complete tp
      [BSSGP_IE_TAG; BSSGP_IE_BVC_BUCKET_SIZE; BSSGP_IE_BUCKET_LEAK_RATE; BSSGP_IE_BMAX_DEFAULT_MS;
       BSSGP_IE_R_DEFAULT_MS]).
    destruct (complete tp _) eqn:Hc; cbn [negb]; [|by apply does_send].
    unfold complete in Hc. cbn [forallb] in Hc. rewrite !andb_true_iff in Hc.
    destruct Hc as (H1 & H2 & H3 & H4 & H5 & _). do 4 (apply does_val; [done|]).
    apply (does_bvc_upd _ b); [done|]. apply does_val; [done|]. by apply does_send, abs_like. }
  destruct (ty =? BSSGP_PDUT_FLOW_CONTROL_MS) eqn:E4; [apply Z.eqb_eq in E4|].
  { spec_type ty E4. unfold bssgp_rx_fc_ms. fold (complete tp
      [BSSGP_IE_TLLI; BSSGP_IE_TAG; BSSGP_IE_MS_BUCKET_SIZE; BSSGP_IE_BUCKET_LEAK_RATE]).
    destruct (complete tp _) eqn:Hc; cbn [negb]; [|by apply does_send].
    unfold complete in Hc. cbn [forallb] in Hc. rewrite !andb_true_iff in Hc.
    destruct Hc as (H1 & H2 & _). do 2 (apply does_val; [done|]). by apply does_send. }
  unfold ptp_mandatory. rewrite E1, E3, E4. cbn [complete forallb negb].
  destruct (ptp_not_implemented ty); [by apply does_send|].
  destruct (ptp_downlink_only ty); [apply does_then|]; by apply does_send.
Qed.

Lemma spec_sign_ext c acc acc' msg tp :
  (forall m, acc m = acc' m) -> spec_sign c acc msg tp = spec_sign c acc' msg tp.
Proof. intros H. unfold spec_sign. by rewrite !H. Qed.

Lemma wf_bvc_alter st id f b :
  sgsn_wf st -> bvcs st !! id = Some b -> (forall b, same_bvc id b (f b)) -> sgsn_wf (st <| bvcs ::= alter f id |>).
Proof. intros Hw Hb Hf. exact (wlp_run _ _ _ _ _ _ (keeps_bvc_upd None id f Hf st Hw) (run_bvc_upd id f b st Hb)). Qed.

(** A message for a known cell is counted. *)
Lemma does_known st ns bv id b len X (g : nat -> SG Z) r :
  sgsn_wf st -> cell_at st ns bv id b ->
  (forall f, (forall b, same_bvc id b (f b) /\ state (f b) = state b) ->
     sgsn_wf (st <| bvcs ::= alter f id |>) -> does (g id) (st <| bvcs ::= alter f id |>) r) ->
  does (bctx ← btsctx_by_bvci_nsei bv ns;
        match bctx with
        | None => X
        | Some id => bvc_ctr_add id BSSGP_CTR_PKTS_IN 1;; bvc_ctr_add id BSSGP_CTR_BYTES_IN len;; g id
        end) st r.
Proof.
  intros Hw Hat Hg. apply (does_bind _ _ _ _ _ _ (run_by_bvci_nsei _ _ _ _ _ Hw Hat)). destruct Hat as (Hb & _).
  set (f1 := fun b => b <| bvc_ctrg ::= ctr_add (bssgp_ctr_index BSSGP_CTR_PKTS_IN) 1 |>).
  apply (does_bvc_upd _ b); [done|]. fold f1. apply (does_bvc_upd _ (f1 b)); [cbn; by rewrite lookup_alter_eq, Hb|].
  rewrite alter_bvcs. apply Hg; [done|]. by eapply wf_bvc_alter.
Qed.

(** Every message. *)
Lemma rcvmsg_spec msg st c :
  sgsn_wf st -> abs st c ->
  match spec_rcvmsg c (gmm_accepts st (ies_of msg)) msg with
  | Some r => does (gprs_bssgp_rcvmsg msg) st r
  | None => gprs_bssgp_rcvmsg msg st = None
  end.
Proof.
  intros Hw Ha. unfold spec_rcvmsg, gprs_bssgp_rcvmsg. cbv zeta. fold (ies_of msg).
  set (ty := rd (msgb_data msg) 0). set (tp := ies_of msg).
  destruct (c !! (msgb_nsei msg, msgb_bvci msg)) as [blk|] eqn:E.
  - destruct (abs_some _ _ _ _ _ Ha E) as (id & b & Hat & <-).
    rewrite bool_decide_eq_false_2 by done. cbn [andb].
    assert (forall f, (forall b, same_bvc id b (f b) /\ state (f b) = state b) -> abs (st <| bvcs ::= alter f id |>) c) as Ha'.
    { intros f Hf. apply abs_like; [|done]. intros x. destruct (Hf x) as [(? & ? & _) Hs]. unfold like_cell.
      by rewrite Hs. }
    destruct (msgb_bvci msg =? BVCI_SIGNALLING) eqn:E0; [|destruct (msgb_bvci msg =? BVCI_PTM) eqn:E1];
      (apply (does_known _ _ _ id b); [done..|]; intros f Hf Hw').
    + erewrite spec_sign_ext; [apply does_sign; [done|by apply Ha'|]|intros m; symmetry; apply gmm_accepts_bvcs].
      cbn. rewrite lookup_alter_eq. destruct Hat as (-> & _). by eexists.
    + by apply does_send, Ha'.
    + destruct Hat as (Hb & _). destruct (Hf b) as [_ <-]. apply does_ptp; [by apply Ha'|].
      cbn. by rewrite lookup_alter_eq, Hb.
  - pose proof (abs_none _ _ _ _ Ha E) as Hn. pose proof (run_by_bvci_nsei_none _ _ _ Hw Hn) as Hrun.
    rewrite bool_decide_eq_true_2 by done. cbn [andb].
    destruct (ty =? BSSGP_PDUT_BVC_RESET) eqn:Et; cbn [negb]; [|apply (does_bind _ _ _ _ _ _ Hrun); by apply does_send].
    apply Z.eqb_eq in Et.
    destruct (msgb_bvci msg =? BVCI_SIGNALLING); [|destruct (msgb_bvci msg =? BVCI_PTM)].
    + apply (does_bind _ _ _ _ _ _ Hrun). by apply does_sign.
    + apply (does_bind _ _ _ _ _ _ Hrun). by apply does_send.
    + by run_with Hrun.
Qed.

End memory.

(** ** The properties *)

Section claims.
Context {env : SgsnEnv}.

(** C8: BSSGP implements the table of cells: with memory, every message from any base station, on any
    BVC, of any type, with any elements, changes the table and is answered exactly as the specification
    says, and the contexts stay in order; where the specification has no answer a null pointer is followed. *)
Theorem bssgp_implements_cells msg st c :
  msgb_ok = true -> bvc_alloc_ok = true -> sgsn_wf st -> abs st c ->
  match spec_rcvmsg c (gmm_accepts st (ies_of msg)) msg with
  | Some (c', ev) => exists rc st', gprs_bssgp_rcvmsg msg st = Some (rc, st', ev) /\ abs st' c' /\ sgsn_wf st'
  | None => gprs_bssgp_rcvmsg msg st = None
  end.
Proof.
  intros Hm Hb Hw Ha. pose proof (rcvmsg_spec Hm Hb msg st c Hw Ha) as H.
  destruct (spec_rcvmsg _ _ _) as [[c' ev]|]; [|done]. destruct H as (rc & st' & Hrun & Ha').
  exists rc, st'. split_and!; [done..|]. exact (wlp_run _ _ _ _ _ _ (keeps_bssgp_rcvmsg msg st Hw) Hrun).
Qed.

(** The table of any state. *)
Definition table (st : sgsn_state) : cells :=
  list_to_map ((fun p => ((nsei p.2, bvci p.2), tst (state p.2) BVC_S_BLOCKED)) <$> map_to_list (bvcs st)).

Lemma abs_table st : sgsn_wf st -> abs st (table st).
Proof.
  intros Hw ns bv blk. unfold table. rewrite <- elem_of_list_to_map'.
  - rewrite list_elem_of_fmap. split.
    + intros ([id b] & [= -> -> ->] & Hb%elem_of_map_to_list). by exists id, b.
    + intros (id & b & (Hb & <- & <-) & <-). exists (id, b). by rewrite elem_of_map_to_list.
  - intros x. rewrite !list_elem_of_fmap. intros ([i b] & [= -> -> ->] & Hb%elem_of_map_to_list).
    intros ([j c] & [= En Ev ->] & Hc%elem_of_map_to_list). cbn in *.
    assert (i = j) as -> by (by apply (wf_bvc Hw _ _ _ _ Hb Hc)). congruence.
Qed.

Lemma table_none st ns bv : sgsn_wf st -> table st !! (ns, bv) = None <-> forall id b, ~ cell_at st ns bv id b.
Proof.
  intros Hw. pose proof (abs_table st Hw) as Ha. split; [by apply abs_none|]. intros Hn.
  destruct (table st !! (ns, bv)) as [blk|] eqn:E; [|done]. apply Ha in E as (id & b & Hc & _). by destruct (Hn id b).
Qed.

(** The one message with which BSSGP itself follows a null pointer: a RESET on the BVC of a cell (neither
    signalling nor multicast) that was never announced on its own NSE. What LLC does with unit data
    is not part of this ([BssgpLlc]). *)
Lemma rcvmsg_None msg st :
  msgb_ok = true -> bvc_alloc_ok = true -> sgsn_wf st ->
  gprs_bssgp_rcvmsg msg st = None
  <-> rd (msgb_data msg) 0 = BSSGP_PDUT_BVC_RESET /\ msgb_bvci msg <> BVCI_SIGNALLING /\ msgb_bvci msg <> BVCI_PTM
      /\ forall id b, ~ cell_at st (msgb_nsei msg) (msgb_bvci msg) id b.
Proof.
  intros Hm Hb Hw. pose proof (rcvmsg_spec Hm Hb msg st _ Hw (abs_table st Hw)) as H.
  rewrite <- table_none by done. unfold spec_rcvmsg in H.
  destruct (table st !! (msgb_nsei msg, msgb_bvci msg)) as [blk|] eqn:E.
  { rewrite bool_decide_eq_false_2 in H by done. cbn [andb] in H.
    split; [|by intros (_ & _ & _ & ?)]. intros Hnone.
    destruct (msgb_bvci msg =? BVCI_SIGNALLING), (msgb_bvci msg =? BVCI_PTM); destruct H as (? & ? & ? & _); congruence. }
  rewrite bool_decide_eq_true_2 in H by done. cbn [andb] in H.
  destruct (rd (msgb_data msg) 0 =? BSSGP_PDUT_BVC_RESET) eqn:Et; cbn [negb] in H.
  2: { apply Z.eqb_neq in Et. split; [|by intros [? _]]. destruct H as (? & ? & ? & _). congruence. }
  apply Z.eqb_eq in Et.
  destruct (msgb_bvci msg =? BVCI_SIGNALLING) eqn:E0; [apply Z.eqb_eq in E0; split; [|tauto]; destruct H as (? & ? & ? & _); congruence|].
  destruct (msgb_bvci msg =? BVCI_PTM) eqn:E1; [apply Z.eqb_eq in E1; split; [|tauto]; destruct H as (? & ? & ? & _); congruence|].
  apply Z.eqb_neq in E0, E1. tauto.
Qed.

(** Messages to the base station. *)
Definition to_bss (e : sgsn_event) : bool := match e with EvNsSend _ _ _ => true | _ => false end.

Lemma not_llc t ns bv llch len bcid ev : forallb to_bss ev = true -> ~ EvLlcRcv t ns bv llch len bcid ∈ ev.
Proof. intros H Hin. rewrite forallb_forall in H. apply list_elem_of_In in Hin. by apply H in Hin. Qed.
Lemma spec_sign_bss c acc msg tp : forallb to_bss (spec_sign c acc msg tp).2 = true.
Proof. unfold spec_sign. cbv zeta. by repeat case_match. Qed.

(** The specification and LLC. *)
Lemma spec_ptp_llc blocked msg tp t ns bv llch len bcid :
  EvLlcRcv t ns bv llch len bcid ∈ spec_ptp blocked msg tp
  <-> rd (msgb_data msg) 0 = BSSGP_PDUT_UL_UNITDATA /\ blocked = false
      /\ (t, ns, bv) = (ud_tlli msg, msgb_nsei msg, msgb_bvci msg)
      /\ tp BSSGP_IE_LLC_PDU = Some (len, llch) /\ exists n, tp BSSGP_IE_CELL_ID = Some (n, bcid).
Proof.
  unfold spec_ptp. cbv zeta. set (ty := rd (msgb_data msg) 0).
  destruct (ty =? BSSGP_PDUT_UL_UNITDATA) eqn:Et.
  2: { apply Z.eqb_neq in Et. split; [|by intros [? _]]. intros Hin. exfalso. revert Hin. apply not_llc.
       by repeat case_match. }
  apply Z.eqb_eq in Et. spec_type ty Et. destruct blocked; cbn [andb].
  { split; [by intros ?%(not_llc _ _ _ _ _ _ (status _ _ _) eq_refl)|by intros (_ & ? & _)]. }
  unfold complete, TLVP_PRESENT, TLVP_LEN, ie. cbn [forallb].
  destruct (tp BSSGP_IE_CELL_ID) as [[n cid]|] eqn:Ec; cbn [andb negb].
  2: { split; [by intros ?%(not_llc _ _ _ _ _ _ (status _ _ _) eq_refl)|by intros (_ & _ & _ & _ & ? & ?)]. }
  destruct (tp BSSGP_IE_LLC_PDU) as [[k pdu]|] eqn:Ep; cbn [andb negb].
  2: { split; [by intros ?%(not_llc _ _ _ _ _ _ (status _ _ _) eq_refl)|by intros (_ & _ & _ & ? & _)]. }
  rewrite list_elem_of_singleton. cbn. split.
  - intros [= -> -> -> -> -> ->]. split_and!; try done. by eexists.
  - by intros (_ & _ & [= -> -> ->] & [= -> ->] & ? & [= _ ->]).
Qed.

Lemma spec_llc c acc msg r t ns bv llch len bcid :
  spec_rcvmsg c acc msg = Some r ->
  EvLlcRcv t ns bv llch len bcid ∈ r.2
  <-> rd (msgb_data msg) 0 = BSSGP_PDUT_UL_UNITDATA
      /\ (t, ns, bv) = (ud_tlli msg, msgb_nsei msg, msgb_bvci msg)
      /\ bv <> BVCI_SIGNALLING /\ bv <> BVCI_PTM
      /\ c !! (ns, bv) = Some false
      /\ ies_of msg BSSGP_IE_LLC_PDU = Some (len, llch)
      /\ exists n, ies_of msg BSSGP_IE_CELL_ID = Some (n, bcid).
Proof.
  unfold spec_rcvmsg. cbv zeta.
  assert (forall ev, forallb to_bss ev = true -> forall P : Prop, ~ P -> EvLlcRcv t ns bv llch len bcid ∈ ev <-> P) as Hno.
  { intros ev Hev P HP. split; [|done]. intros H. by apply not_llc in H. }
  case_bool_decide as E; cbn [andb].
  - destruct (rd _ 0 =? BSSGP_PDUT_BVC_RESET) eqn:Et; cbn [negb]; intros Hr.
    + apply Z.eqb_eq in Et. rewrite E, Et in *.
      destruct (msgb_bvci msg =? BVCI_SIGNALLING), (msgb_bvci msg =? BVCI_PTM); try discriminate Hr; injection Hr as <-;
        (apply Hno; [apply spec_sign_bss || done|by intros (? & _)]).
    + injection Hr as <-. apply Hno; [done|]. intros (_ & [= -> -> ->] & _ & _ & ? & _). congruence.
  - destruct (msgb_bvci msg =? BVCI_SIGNALLING) eqn:E0.
    { intros [= <-]. apply Z.eqb_eq in E0. apply Hno; [apply spec_sign_bss|]. by intros (_ & [= -> -> ->] & ? & _). }
    destruct (msgb_bvci msg =? BVCI_PTM) eqn:E1.
    { intros [= <-]. apply Z.eqb_eq in E1. apply Hno; [done|]. by intros (_ & [= -> -> ->] & _ & ? & _). }
    destruct (c !! _) as [blk|] eqn:Ec; [|done]. intros [= <-]. apply Z.eqb_neq in E0, E1.
    cbn [snd]. rewrite spec_ptp_llc. split.
    + intros (? & -> & [= -> -> ->] & ? & ?). done.
    + intros (? & [= -> -> ->] & _ & _ & ? & ? & ?). split_and!; try done. congruence.
Qed.

(** C36: What reaches LLC: a message is handed on if and only if it is unit data with both its elements on the
    BVC of a cell that was announced and is not blocked, and what is handed on are its TLLI, its cell and its PDU. *)
Theorem uplink_reaches_llc msg st rc st' ev t ns bv llch len bcid :
  msgb_ok = true -> bvc_alloc_ok = true -> sgsn_wf st -> gprs_bssgp_rcvmsg msg st = Some (rc, st', ev) ->
  EvLlcRcv t ns bv llch len bcid ∈ ev
  <-> rd (msgb_data msg) 0 = BSSGP_PDUT_UL_UNITDATA
      /\ (t, ns, bv) = (ud_tlli msg, msgb_nsei msg, msgb_bvci msg)
      /\ bv <> BVCI_SIGNALLING /\ bv <> BVCI_PTM
      /\ (exists id b, cell_at st ns bv id b /\ tst (state b) BVC_S_BLOCKED = false)
      /\ ies_of msg BSSGP_IE_LLC_PDU = Some (len, llch)
      /\ exists n, ies_of msg BSSGP_IE_CELL_ID = Some (n, bcid).
Proof.
  intros Hm Hb Hw Hrun. pose proof (rcvmsg_spec Hm Hb msg st _ Hw (abs_table st Hw)) as H. rewrite Hrun in H.
  assert (forall c bv, (exists id b, cell_at st c bv id b /\ tst (state b) BVC_S_BLOCKED = false)
            <-> table st !! (c, bv) = Some false) as Hcell by (intros; symmetry; apply (abs_table st Hw)).
  rewrite Hcell. clear Hcell.
  destruct (spec_rcvmsg _ _ _) as [r|] eqn:Espec; [|done].
  destruct H as (rc' & st2 & H & _). rewrite Hrun in H. injection H as _ _ ->.
  by rewrite (spec_llc _ _ _ _ _ _ _ _ _ _ Espec).
Qed.

End claims.

(** ** Witnesses *)

Definition demo_block : msgb :=
  mk_msgb 0 100 2 ([BSSGP_PDUT_UL_UNITDATA; 0xc0; 0; 0; 1; 0; 0; 0x20]
                   ++ tvlv_put BSSGP_IE_CELL_ID [1; 6; 1; 18; 52; 5; 0; 9] ++ tvlv_put BSSGP_IE_LLC_PDU [0x41; 1; 2]).

Lemma bssgp_implements_cells_witness :
  exists rc st', @gprs_bssgp_rcvmsg demo_env demo_block demo_state
    = Some (rc, st', [EvLlcRcv 0xc0000001 100 2 [0x41; 1; 2] 3
                        ([1; 6; 1; 18; 52; 5; 0; 9] ++ tvlv_put BSSGP_IE_LLC_PDU [0x41; 1; 2])])
    /\ abs st' {[ (100, 2) := false ]} /\ sgsn_wf st'.
Proof.
  exact (@bssgp_implements_cells demo_env demo_block demo_state _ eq_refl eq_refl demo_wf (abs_table _ demo_wf)).
Defined.

Definition demo_ul_run : option (Z * sgsn_state * list sgsn_event) := @gprs_bssgp_rcvmsg demo_env demo_block demo_state.

Lemma uplink_reaches_llc_witness :
  exists rc st' ev, demo_ul_run = Some (rc, st', ev)
    /\ EvLlcRcv 0xc0000001 100 2 [0x41; 1; 2] 3
         ([1; 6; 1; 18; 52; 5; 0; 9] ++ tvlv_put BSSGP_IE_LLC_PDU [0x41; 1; 2]) ∈ ev.
Proof.
  destruct demo_ul_run as [[[rc st'] ev]|] eqn:E; [|vm_compute in E; discriminate].
  exists rc, st', ev. split; [done|].
  apply (@uplink_reaches_llc demo_env demo_block demo_state rc st' ev _ _ _ _ _ _ eq_refl eq_refl demo_wf E).
  split_and!; [reflexivity|reflexivity|discriminate|discriminate| |reflexivity|by eexists].
  by exists 0%nat, demo_cell.
Defined.

End BssgpCells.
