(* ===== verification/BssgpLlc.v ===== *)
(** BSSGP and LLC together: what becomes of a message of a base station when the LLC PDU in it is
    received (gprs/gprs_llc.c) before gprs_bssgp_rcvmsg (libgb/gprs_bssgp.c) returns, up to the point where LLC hands
    on to mobility management or SNDCP; and which messages end the program on that way. *)

From S2P Require Import Prelude Crc24 Llc LlcProps Sgsn SgsnInv Bssgp BssgpInv BssgpProps SgsnDemo BssgpCells.

Module BssgpLlc.
Import Sgsn SgsnInv Bssgp BssgpInv BssgpProps SgsnDemo BssgpCells.

(** ** LLC and the answers it sends at once *)

Section xid.
Context {lenv : Llc.LlcEnv}.

(** LLC answers the PDU: it is an XID frame with the right FCS for an entity that is known (or made for
    mobility management) and does not use ciphering. *)
Definition xid_answered (lst : Llc.llc_state) (m : Llc.msgb) (len : Z) : Prop :=
  exists g lst' r, Llc.gprs_llc_hdr_parse (Llc.msgb_data m) len = Ok g /\ Llc.cmd g = Llc.GPRS_LLC_XID
    /\ Llc.rx_lle lst (Llc.msgb_tlli m) g = Some (lst', r) /\ Llc.llme_algo lst' r.1 = Llc.GPRS_ALGO_GEA0
    /\ Llc.fcs g = Llc.gprs_llc_fcs (Llc.msgb_data m) (Z.to_nat (Llc.crc_length g)).

Lemma parse_format_xid h len g g' :
  Llc.is_encrypted g = false -> Llc.parse_format h len g = Ok g' -> Llc.cmd g' = Llc.GPRS_LLC_XID ->
  Llc.is_encrypted g' = false.
Proof.
  intros He. unfold Llc.parse_format. case_match.
  { intros [= <-]. unfold Llc.parse_i, Llc.supervisory_cmd. cbv zeta. cbn [Llc.cmd upd Llc.upd_data_len Llc.upd_data Llc.upd_cmd].
    repeat case_match; done. }
  case_match.
  { intros [= <-]. unfold Llc.parse_s, Llc.supervisory_cmd. cbv zeta. cbn [Llc.cmd upd Llc.upd_cmd].
    repeat case_match; done. }
  case_match.
  { intros [= <-]. unfold Llc.parse_ui. cbv zeta. repeat case_match; done. }
  unfold Llc.parse_u. repeat case_match; try done; by intros [= <-].
Qed.
Lemma parse_xid h len g :
  Llc.gprs_llc_hdr_parse h len = Ok g -> Llc.cmd g = Llc.GPRS_LLC_XID -> Llc.is_encrypted g = false.
Proof.
  unfold Llc.gprs_llc_hdr_parse. case_match; [done|]. cbv zeta. case_match; [done|]. case_match; [done|].
  destruct (Llc.parse_format _ _ _) as [g'|] eqn:Hf; [|done]. case_decide; [done|].
  intros [= <-]. revert Hf. by apply parse_format_xid.
Qed.

(** An answer of LLC goes down with the cell of the PDU and without a mobile. *)
Definition answer_of (m : Llc.msgb) (out : list Llc.dl_unitdata) : Prop :=
  exists resp, out = [(resp, 0)] /\ Llc.msgb_bvci resp = Llc.msgb_bvci m /\ Llc.msgb_nsei resp = Llc.msgb_nsei m.

Lemma rcvmsg_answers lst m len :
  LlcProps.wf lst ->
  match Llc.gprs_llc_rcvmsg lst m len with
  | (r, _, out) =>
      (xid_answered lst m len /\ (r = Llc.ABORT \/ answer_of m out))
      \/ (~ xid_answered lst m len /\ r <> Llc.ABORT /\ out = [])
  end.
Proof.
  intros Hwf. unfold Llc.gprs_llc_rcvmsg.
  destruct (Llc.gprs_llc_hdr_parse _ len) as [g|rc] eqn:Hp.
  2:{ right. split; [|done]. intros (g & _ & _ & Hg & _). congruence. }
  destruct (Llc.rx_lle lst (Llc.msgb_tlli m) g) as [[lst' r]|] eqn:Hr.
  2:{ right. split; [|done]. intros (g' & lst' & r & Hg & _ & Hr' & _). congruence. }
  assert (xid_answered lst m len <-> Llc.cmd g = Llc.GPRS_LLC_XID /\ Llc.llme_algo lst' r.1 = Llc.GPRS_ALGO_GEA0
    /\ Llc.fcs g = Llc.gprs_llc_fcs (Llc.msgb_data m) (Z.to_nat (Llc.crc_length g))) as Hx.
  { split; [|by intros (? & ? & ?); exists g, lst', r].
    intros (g' & lst2 & r2 & Hg & Hc & Hr' & Ha & Hf). rewrite Hp in Hg. injection Hg as <-.
    rewrite Hr in Hr'. injection Hr' as <- <-. done. }
  revert Hx. generalize (xid_answered lst m len). intros X Hx.
  assert (0 <= Llc.h_sapi g < 16) as Hs.
  { rewrite (LlcProps.hdr_parse_sapi _ _ _ Hp). apply LlcProps.land_15_range. }
  destruct (LlcProps.rx_lle_spec _ _ _ _ _ Hwf Hs Hr) as (Hwf' & Hv & _).
  assert (Llc.cmd g = Llc.GPRS_LLC_XID \/ Llc.cmd g <> Llc.GPRS_LLC_XID) as [Hc|Hc]
    by (destruct (Llc.cmd g); (by left) || by right).
  - unfold Llc.rx_decrypt. rewrite (parse_xid _ _ _ Hp Hc). case_decide as Ha; [|right; split; [tauto|done]].
    cbn [Llc.fcs Llc.crc_length upd Llc.upd_fcs_calc Llc.fcs_calc].
    destruct (Z.eqb_spec (Llc.fcs g) (Llc.gprs_llc_fcs (Llc.msgb_data m) (Z.to_nat (Llc.crc_length g)))) as [Hf|Hf];
      cbn [negb]; [|right; split; [tauto|done]].
    destruct Hv as (mm & l & Hm & Hl).
    rewrite LlcProps.lookup_alter_llme, decide_True, Hm by done. cbn [fmap option_fmap option_map].
    unfold Llc.gprs_llc_hdr_rx. cbn [Llc.cmd Llc.data_len upd Llc.upd_fcs_calc]. rewrite Hc.
    assert X as HX by (by apply Hx).
    destruct (Llc.XID_ROOM <? _); [left; by split; [|left]|]. unfold Llc.gprs_llc_tx_xid, Llc.gprs_llc_tx_u.
    cbn [fst snd]. change (0 <? 0) with false. cbv iota. left. split; [done|]. right. by eexists.
  - assert (~ X) as HX by tauto. destruct (Llc.rx_decrypt lst' r _ g) as [h|rc]; [|by right].
    destruct (negb _); [by right|]. destruct (Llc.llmes _ !! r.1) as [m'|]; [|by right]. unfold Llc.gprs_llc_hdr_rx. cbn [Llc.cmd upd Llc.upd_fcs_calc].
    assert (forall g, Llc.llc_deliver r h g <> Llc.ABORT) as Hd.
    { intros g0. unfold Llc.llc_deliver. by repeat case_match. }
    destruct (Llc.cmd g); try done; repeat case_match; simplify_eq; by right.
Qed.

End xid.

(** ** The way of a message through both layers *)

Section both.
Context {env : SgsnEnv} {lenv : Llc.LlcEnv}.

(** A message of LLC for BSSGP; the mobile it concerns, if any. *)
Definition of_llc (m : Llc.msgb) : msgb :=
  mk_msgb (Llc.msgb_tlli m) (Llc.msgb_nsei m) (Llc.msgb_bvci m) (Llc.msgb_data m).
Definition mmctx_of (p : Z) : option nat := if p =? 0 then None else Some (Z.to_nat p).

Fixpoint send_down (out : list Llc.dl_unitdata) : SG unit :=
  match out with
  | [] => mret tt
  | (m, p) :: out => gprs_bssgp_tx_dl_ud (of_llc m) (mmctx_of p);; send_down out
  end.

(** The call of gprs_llc_rcvmsg among the events. *)
Definition llc_call (ev : list sgsn_event) : option (Llc.msgb * Z) :=
  head (omap (fun e => match e with
                       | EvLlcRcv t ns bv llch len bcid => Some (Llc.mk_msgb t bv ns llch, len)
                       | _ => None
                       end) ev).

(** bssgp_rx_ul_ud ends with the call of gprs_llc_rcvmsg, so its effects come last. The result is what LLC
    would do next: return, or call mobility management or SNDCP. *)
Definition bssgp_llc_rcvmsg (msg : msgb) (lst : Llc.llc_state) : SG (Llc.llc_state * option Llc.llc_rc) := fun st =>
  match gprs_bssgp_rcvmsg msg st with
  | None => None
  | Some (_, st, ev) =>
      match llc_call ev with
      | None => Some ((lst, None), st, ev)
      | Some (m, len) =>
          match Llc.gprs_llc_rcvmsg lst m len with
          | (Llc.ABORT, _, _) => None
          | (r, lst, out) => emits ev ((send_down out;; mret (lst, Some r)) st)
          end
      end
  end.

(** The unit data that reaches LLC. *)
Definition unit_data (msg : msgb) (st : sgsn_state) (llch : list Z) (len : Z) : Prop :=
  rd (msgb_data msg) 0 = BSSGP_PDUT_UL_UNITDATA
  /\ msgb_bvci msg <> BVCI_SIGNALLING /\ msgb_bvci msg <> BVCI_PTM
  /\ (exists id b, cell_at st (msgb_nsei msg) (msgb_bvci msg) id b /\ tst (state b) BVC_S_BLOCKED = false)
  /\ ies_of msg BSSGP_IE_LLC_PDU = Some (len, llch)
  /\ is_Some (ies_of msg BSSGP_IE_CELL_ID).

Definition llc_msg (msg : msgb) (llch : list Z) : Llc.msgb :=
  Llc.mk_msgb (ud_tlli msg) (msgb_bvci msg) (msgb_nsei msg) llch.

(** *** The calls of LLC *)

Lemma llc_call_Some ev m len :
  llc_call ev = Some (m, len) ->
  exists bcid, EvLlcRcv (Llc.msgb_tlli m) (Llc.msgb_nsei m) (Llc.msgb_bvci m) (Llc.msgb_data m) len bcid ∈ ev.
Proof.
  unfold llc_call. destruct (omap _ ev) as [|x l] eqn:E; [done|]. intros [= ->].
  assert ((m, len) ∈ (m, len) :: l) as Hx by left. rewrite <- E in Hx.
  apply list_elem_of_omap in Hx as (e & He & Hm). destruct e; try done. injection Hm as <- <-. by eexists.
Qed.
Lemma llc_call_None ev t ns bv llch len bcid : llc_call ev = None -> ~ EvLlcRcv t ns bv llch len bcid ∈ ev.
Proof.
  unfold llc_call. destruct (omap _ ev) as [|x l] eqn:E; [|done]. intros _ Hin.
  assert ((Llc.mk_msgb t bv ns llch, len) ∈ @nil (Llc.msgb * Z)) as Hx.
  { rewrite <- E. apply list_elem_of_omap. by eexists. }
  by apply elem_of_nil in Hx.
Qed.

(** What the specification hands to LLC is the unit data of the message. *)
Lemma llc_call_unit_data msg st acc r m len :
  sgsn_wf st -> spec_rcvmsg (table st) acc msg = Some r -> llc_call r.2 = Some (m, len) ->
  m = llc_msg msg (Llc.msgb_data m) /\ unit_data msg st (Llc.msgb_data m) len /\ r.1 = table st.
Proof.
  intros Hw Hs (bcid & Hin)%llc_call_Some. apply (spec_llc _ _ _ _ _ _ _ _ _ _ Hs) in Hin as (Ht & Hm & H0 & H1 & Hc & Hl & n & Hi).
  destruct m as [t bv ns data]. cbn in *. injection Hm as -> -> ->. split; [done|]. split.
  - split_and!; try done; try by eexists. by apply (abs_table st Hw).
  - revert Hs. unfold spec_rcvmsg. cbv zeta. rewrite Hc, bool_decide_eq_false_2 by done. cbn [andb].
    apply Z.eqb_neq in H0 as ->. apply Z.eqb_neq in H1 as ->. by intros [= <-].
Qed.
Lemma unit_data_llc_call msg st acc r llch len :
  sgsn_wf st -> spec_rcvmsg (table st) acc msg = Some r -> unit_data msg st llch len ->
  llc_call r.2 = Some (llc_msg msg llch, len).
Proof.
  intros Hw Hs (Ht & H0 & H1 & Hc & Hl & [n bcid] & Hi).
  assert (EvLlcRcv (ud_tlli msg) (msgb_nsei msg) (msgb_bvci msg) llch len bcid ∈ r.2) as Hin.
  { apply (spec_llc _ _ _ _ _ _ _ _ _ _ Hs). split_and!; try done; try by eexists. by apply (abs_table st Hw). }
  destruct (llc_call r.2) as [[m len']|] eqn:E; [|by apply (llc_call_None _ _ _ _ _ _ _ E) in Hin].
  destruct (llc_call_unit_data _ _ _ _ _ _ Hw Hs E) as (-> & (_ & _ & _ & _ & Hl' & _) & _).
  rewrite Hl in Hl'. by injection Hl' as <- <-.
Qed.

(** An answer of LLC on the cell of a mobile goes to the flow control of no mobile. *)
Lemma answer_fails st msg id b :
  sgsn_wf st -> cell_at st (msgb_nsei msg) (msgb_bvci msg) id b -> BVCI_PTM < msgb_bvci msg ->
  gprs_bssgp_tx_dl_ud msg None st = None.
Proof.
  intros Hw Hc H. unfold gprs_bssgp_tx_dl_ud. apply Z.leb_gt in H as ->. run_with (run_by_bvci_nsei _ _ _ _ _ Hw Hc).
  rewrite run_ret. destruct Hc as (Hb & _). by rewrite (run_dl_counted st id b _ _ Hb).
Qed.

(** C40: Which messages of a base station end the program before they leave BSSGP and LLC, for any state of both:
    a RESET on the BVC of a cell (neither signalling nor multicast) that was never announced on its own NSE;
    and, on a cell that was announced and is not blocked, unit data whose LLC PDU is an XID frame that LLC
    answers (an entity that is known or is made for mobility management, no ciphering, the right FCS). LLC
    answers without a mobile, and the flow control of BSSGP follows that null pointer; or the
    frame is too short for its answer. No other message does, up to the call of mobility management or SNDCP. *)
Theorem bssgp_llc_fails_iff msg lst st :
  msgb_ok = true -> bvc_alloc_ok = true -> sgsn_wf st -> LlcProps.wf lst -> 0 <= msgb_bvci msg ->
  bssgp_llc_rcvmsg msg lst st = None
  <-> (rd (msgb_data msg) 0 = BSSGP_PDUT_BVC_RESET /\ msgb_bvci msg <> BVCI_SIGNALLING /\ msgb_bvci msg <> BVCI_PTM
       /\ forall id b, ~ cell_at st (msgb_nsei msg) (msgb_bvci msg) id b)
      \/ exists llch len, unit_data msg st llch len /\ xid_answered lst (llc_msg msg llch) len.
Proof.
  intros Hm Hb Hw Hl Hbv. rewrite <- (rcvmsg_None msg st Hm Hb Hw). unfold bssgp_llc_rcvmsg.
  pose proof (rcvmsg_spec Hm Hb msg st _ Hw (abs_table st Hw)) as H.
  destruct (spec_rcvmsg _ _ _) as [r|] eqn:Hs; [|by rewrite H; split; [left|]].
  destruct H as (rc & st' & Hrun & Ha). rewrite Hrun.
  destruct (llc_call r.2) as [[m len]|] eqn:Hc.
  2:{ split; [done|]. intros [?|(llch & len & Hu & _)]; [done|].
      by rewrite (unit_data_llc_call _ _ _ _ _ _ Hw Hs Hu) in Hc. }
  destruct (llc_call_unit_data _ _ _ _ _ _ Hw Hs Hc) as (Em & Hu & Et).
  pose proof (rcvmsg_answers lst m len Hl) as Hans.
  assert ((exists llch len, unit_data msg st llch len /\ xid_answered lst (llc_msg msg llch) len)
          <-> xid_answered lst m len) as ->.
  { split; [|intros; exists (Llc.msgb_data m), len; by rewrite <- Em].
    intros (llch & k & Hu2 & Hx). rewrite (unit_data_llc_call _ _ _ _ _ _ Hw Hs Hu2) in Hc. by injection Hc as <- <-. }
  destruct (Llc.gprs_llc_rcvmsg lst m len) as [[rc' lst'] out].
  destruct Hans as [[Hx Hans]|(Hx & Hne & ->)].
  2:{ split; [|intros [?|?]; done]. by destruct rc'. }
  split; [by right|intros _]. destruct Hans as [->|(resp & -> & Ebv & Ens)]; [done|].
  assert (gprs_bssgp_tx_dl_ud (of_llc resp) None st' = None) as Hf.
  { destruct Hu as (_ & H0 & H1 & Hcell & _). apply (abs_table st Hw) in Hcell. rewrite <- Et in Hcell.
    destruct (abs_some _ _ _ _ _ Ha Hcell) as (id & b & Hat & _). apply (answer_fails _ _ id b).
    - exact (wlp_run _ _ _ _ _ _ (keeps_bssgp_rcvmsg msg st Hw) Hrun).
    - unfold of_llc. cbn. rewrite Ebv, Ens, Em. done.
    - unfold of_llc. cbn. rewrite Ebv, Em. cbn. unfold BVCI_SIGNALLING, BVCI_PTM in *. lia. }
  destruct rc'; try done; cbn [send_down]; unfold mbind, M_bind; change (mmctx_of 0) with (@None nat); by rewrite Hf.
Qed.

End both.
(** ** A witness *)

(** The XID frame of a mobile that LLC knows, in unit data of the demonstration's cell. *)
Definition demo_xid : msgb :=
  mk_msgb 0 100 2 ([BSSGP_PDUT_UL_UNITDATA] ++ be32 LlcProps.test_tlli ++ [0; 0; 0x20]
                   ++ tvlv_put BSSGP_IE_CELL_ID [1; 6; 1; 18; 52; 5; 0; 9] ++ tvlv_put BSSGP_IE_LLC_PDU LlcProps.test_xid).

Lemma bssgp_llc_fails_iff_witness :
  bssgp_llc_rcvmsg (env := demo_env) (lenv := LlcProps.test_env) demo_xid LlcProps.st_clear demo_state = None.
Proof.
  apply (bssgp_llc_fails_iff (env := demo_env) (lenv := LlcProps.test_env) demo_xid LlcProps.st_clear demo_state
           eq_refl eq_refl demo_wf LlcProps.st_clear_wf).
  { by vm_compute. }
  right. exists LlcProps.test_xid, 7. split.
  - split_and!; [reflexivity|discriminate|discriminate| |reflexivity|by eexists]. by exists 0%nat, demo_cell.
  - destruct (Llc.gprs_llc_hdr_parse LlcProps.test_xid 7) as [g|] eqn:E; [|vm_compute in E; discriminate].
    exists g, LlcProps.st_clear, (0%nat, 1%nat). vm_compute in E. injection E as <-. split_and!; by vm_compute.
Defined.

(** The same cell hands a frame that LLC does not answer on. *)
Example unanswered_goes_on :
  exists st' ev, bssgp_llc_rcvmsg (env := demo_env) (lenv := LlcProps.test_env) demo_block LlcProps.st_clear demo_state
    = Some ((LlcProps.st_clear, Some (Llc.RC (- 5))), st', ev).
Proof. eexists _, _. by vm_compute. Qed.

End BssgpLlc.
