(* ===== verification/Gmm.v ===== *)
(** GPRS mobility and session management: gprs/gprs_gmm.c, openbsc/gsm_04_08_gprs.h, and the requests
    to libgtp of gprs/sgsn_libgtp.c that session management makes.

    A received message is what LLC hands up: the memory from the layer 3 header on with the number of
    octets to the tail, the cell identity BSSGP found, and the identifiers of the control block.
    A message that is sent is an event for LLC, as are the assignments of TLLIs; requests to the
    GGSN are events for libgtp. [gsm48_msgb_alloc] is not checked. The branches of [#ifdef]
    are those the build takes: PTMSI_ALLOC is set, ALLOW_ALL_IMSI and DIRTY_HACK are not. *)

From S2P Require Import Prelude Sgsn Bssgp.
Import Sgsn Bssgp.

Module Gmm.

Definition GSM48_MT_GMM_ATTACH_REQ : Z := 0x01.
Definition GSM48_MT_GMM_ATTACH_ACK : Z := 0x02.
Definition GSM48_MT_GMM_ATTACH_COMPL : Z := 0x03.
Definition GSM48_MT_GMM_ATTACH_REJ : Z := 0x04.
Definition GSM48_MT_GMM_DETACH_REQ : Z := 0x05.
Definition GSM48_MT_GMM_DETACH_ACK : Z := 0x06.
Definition GSM48_MT_GMM_RA_UPD_REQ : Z := 0x08.
Definition GSM48_MT_GMM_RA_UPD_ACK : Z := 0x09.
Definition GSM48_MT_GMM_RA_UPD_COMPL : Z := 0x0a.
Definition GSM48_MT_GMM_RA_UPD_REJ : Z := 0x0b.
Definition GSM48_MT_GMM_PTMSI_REALL_COMPL : Z := 0x11.
Definition GSM48_MT_GMM_AUTH_CIPH_RESP : Z := 0x13.
Definition GSM48_MT_GMM_ID_REQ : Z := 0x15.
Definition GSM48_MT_GMM_ID_RESP : Z := 0x16.
Definition GSM48_MT_GMM_STATUS : Z := 0x20.

Definition GSM48_MT_GSM_ACT_PDP_REQ : Z := 0x41.
Definition GSM48_MT_GSM_ACT_PDP_ACK : Z := 0x42.
Definition GSM48_MT_GSM_ACT_PDP_REJ : Z := 0x43.
Definition GSM48_MT_GSM_DEACT_PDP_REQ : Z := 0x46.
Definition GSM48_MT_GSM_DEACT_PDP_ACK : Z := 0x47.
Definition GSM48_MT_GSM_STATUS : Z := 0x55.

Definition GPRS_UPD_T_RA_LA : Z := 1.
Definition GPRS_UPD_T_RA_LA_IMSI_ATT : Z := 2.

Definition GSM48_IE_GMM_ALLOC_PTMSI : Z := 0x18.
Definition GSM48_IE_GMM_PDP_CTX_STATUS : Z := 0x32.
Definition GSM48_IE_GSM_APN : Z := 0x28.
Definition GSM48_IE_GSM_PROTO_CONF_OPT : Z := 0x27.
Definition GSM48_IE_GSM_PDP_ADDR : Z := 0x2b.

Definition GMM_CAUSE_GPRS_NOTALLOWED : Z := 0x07.
Definition GMM_CAUSE_MS_ID_NOT_DERIVED : Z := 0x09.
Definition GMM_CAUSE_IMPL_DETACHED : Z := 0x0a.
Definition GMM_CAUSE_NET_FAIL : Z := 0x11.
Definition GMM_CAUSE_SEM_INCORR_MSG : Z := 0x5f.
Definition GMM_CAUSE_MSGT_NOTEXIST_NOTIMPL : Z := 0x61.
Definition GMM_CAUSE_PROTO_ERR_UNSPEC : Z := 0x6f.

Definition GSM_CAUSE_INSUFF_RSRC : Z := 0x1a.
Definition GSM_CAUSE_MISSING_APN : Z := 0x1b.
Definition GSM_CAUSE_UNKNOWN_PDP : Z := 0x1c.
Definition GSM_CAUSE_AUTH_FAILED : Z := 0x1d.
Definition GSM_CAUSE_ACT_REJ_GGSN : Z := 0x1e.
Definition GSM_CAUSE_SERV_OPT_NOTSUPP : Z := 0x20.
Definition GSM_CAUSE_REQ_SERV_OPT_NOTSUB : Z := 0x21.
Definition GSM_CAUSE_NSAPI_IN_USE : Z := 0x23.
Definition GSM_CAUSE_NET_FAIL : Z := 0x26.
Definition GSM_CAUSE_INV_MAND_INFO : Z := 0x60.
Definition GSM_CAUSE_MSGT_NOTEXIST_NOTIMPL : Z := 0x61.
Definition GSM_CAUSE_PROTO_ERR_UNSPEC : Z := 0x6f.

Definition GSM0408_T3350_SECS : Z := 6.
Definition GSM0408_T3360_SECS : Z := 6.
Definition GSM0408_T3370_SECS : Z := 6.
Definition GSM0408_T3395_SECS : Z := 8.

Definition GPRS_TMR_MINUTE : Z := 1 .<< 5.

(** The TLLI that stands for none in LLGMM-ASSIGN. *)
Definition TLLI_UNASSIGNED : Z := 0xffffffff.

(** A message from LLC. *)
Record gmm_msg : Type := mk_gmm_msg {
  g_tlli : Z;
  g_nsei : Z;
  g_bvci : Z;
  g_bcid : list Z;  (* the cell identity *)
  g_data : list Z;  (* the memory from the layer 3 header on *)
  g_len : Z  (* the octets from the header to the tail *)
}.

#[export] Instance upd_g_tlli : Upd g_tlli := fun f r => mk_gmm_msg (f (g_tlli r)) (g_nsei r)
  (g_bvci r) (g_bcid r) (g_data r) (g_len r).
#[export] Instance upd_g_nsei : Upd g_nsei := fun f r => mk_gmm_msg (g_tlli r) (f (g_nsei r))
  (g_bvci r) (g_bcid r) (g_data r) (g_len r).
#[export] Instance upd_g_bvci : Upd g_bvci := fun f r => mk_gmm_msg (g_tlli r) (g_nsei r) (f
  (g_bvci r)) (g_bcid r) (g_data r) (g_len r).
#[export] Instance upd_g_bcid : Upd g_bcid := fun f r => mk_gmm_msg (g_tlli r) (g_nsei r)
  (g_bvci r) (f (g_bcid r)) (g_data r) (g_len r).
#[export] Instance upd_g_data : Upd g_data := fun f r => mk_gmm_msg (g_tlli r) (g_nsei r)
  (g_bvci r) (g_bcid r) (f (g_data r)) (g_len r).
#[export] Instance upd_g_len : Upd g_len := fun f r => mk_gmm_msg (g_tlli r) (g_nsei r) (g_bvci
  r) (g_bcid r) (g_data r) (f (g_len r)).

(** The identifiers of a control block: TLLI, NSEI, BVCI. *)
Definition msg_ids : Type := Z * Z * Z.

Section gmm.
Context {env : SgsnEnv}.

Abbreviation SG := (M sgsn_state sgsn_event).

(** [memcpy] of [n] octets from [p]. *)
Definition mem (n : Z) (p : list Z) : list Z := map (rd p) (seq 0 (Z.to_nat n)).

(** ** Timers of a mobile *)

Definition mm_schedule (id : nat) (seconds : Z) : SG unit :=
  modify (fun st => st <| mm_timers ::= insert id seconds |>).

Definition mmctx_timer_start (id : nat) (T seconds : Z) : SG unit :=
  mm_upd id (fun m => m <| mm_T := T |> <| mm_num_T_exp := 0 |>);;
  mm_schedule id seconds.

(** That another timer may be running is only logged. *)
Definition mmctx_timer_stop (id : nat) (T : Z) : SG unit :=
  mm_get id;; modify (fun st => st <| mm_timers ::= delete id |>).

(** ** Sending *)

Definition gsm48_gmm_sendmsg (ids : msg_ids) (data : list Z) (command : bool) (mm : option nat) : SG Z :=
  if negb msgb_ok then fault
  else
    match mm with Some id => mm_ctr_add id GMM_CTR_PKTS_SIG_OUT 1 | None => mret tt end;;
    let '(t, ns, bv) := ids in
    call (EvLlcTxUi t ns bv data command mm).

Definition gmm_copy_id (old : gmm_msg) : msg_ids := (g_tlli old, g_nsei old, g_bvci old).
Definition msgid2mmctx (id : nat) (msg : gmm_msg) : SG unit :=
  mm_upd id (fun m => m <| mm_bvci := g_bvci msg |> <| mm_nsei := g_nsei msg |>).
Definition mmctx2msgid (m : sgsn_mm_ctx) : msg_ids := (tlli m, mm_nsei m, mm_bvci m).

(** A message to a mobile that has a context. *)
Definition tx_mm (id : nat) (data : sgsn_mm_ctx -> list Z) (command : bool) : SG Z :=
  m ← mm_get id; gsm48_gmm_sendmsg (mmctx2msgid m) (data m) command (Some id).

Definition _tx_status (ids : msg_ids) (cause : Z) (mmctx : option nat) (sm : bool) : SG Z :=
  gsm48_gmm_sendmsg ids
    (if sm then [GSM48_PDISC_SM_GPRS; GSM48_MT_GSM_STATUS; cause]
     else [GSM48_PDISC_MM_GPRS; GSM48_MT_GMM_STATUS; cause]) false mmctx.

Definition gsm48_tx_gmm_status (id : nat) (cause : Z) : SG Z :=
  m ← mm_get id; _tx_status (mmctx2msgid m) cause (Some id) false.
Definition gsm48_tx_gmm_status_oldmsg (oldmsg : gmm_msg) (cause : Z) : SG Z :=
  _tx_status (gmm_copy_id oldmsg) cause None false.
Definition gsm48_tx_sm_status (id : nat) (cause : Z) : SG Z :=
  m ← mm_get id; _tx_status (mmctx2msgid m) cause (Some id) true.
Definition gsm48_tx_sm_status_oldmsg (oldmsg : gmm_msg) (cause : Z) : SG Z :=
  _tx_status (gmm_copy_id oldmsg) cause None true.

(** The element with the new P-TMSI. *)
Definition alloc_ptmsi_ie (m : sgsn_mm_ctx) : list Z :=
  <[0%nat := GSM48_IE_GMM_ALLOC_PTMSI]> (gsm48_generate_mid_from_tmsi (p_tmsi m)).

Definition gsm48_tx_gmm_att_ack (id : nat) : SG Z :=
  tx_mm id (fun m =>
    [GSM48_PDISC_MM_GPRS; GSM48_MT_GMM_ATTACH_ACK; 0x01; GPRS_TMR_MINUTE .| 10; 4]
    ++ gsm48_construct_ra (ra m) ++ alloc_ptmsi_ie m) false.

Definition _tx_gmm_att_rej (ids : msg_ids) (gmm_cause : Z) : SG Z :=
  gsm48_gmm_sendmsg ids [GSM48_PDISC_MM_GPRS; GSM48_MT_GMM_ATTACH_REJ; gmm_cause] false None.
Definition gsm48_tx_gmm_att_rej_oldmsg (old_msg : gmm_msg) (gmm_cause : Z) : SG Z :=
  _tx_gmm_att_rej (gmm_copy_id old_msg) gmm_cause.
Definition gsm48_tx_gmm_att_rej (id : nat) (gmm_cause : Z) : SG Z :=
  m ← mm_get id; _tx_gmm_att_rej (mmctx2msgid m) gmm_cause.

Definition gsm48_tx_gmm_det_ack (id : nat) (force_stby : Z) : SG Z :=
  tx_mm id (fun _ => [GSM48_PDISC_MM_GPRS; GSM48_MT_GMM_DETACH_ACK; force_stby]) false.

Definition gsm48_tx_gmm_id_req (id : nat) (id_type : Z) : SG Z :=
  tx_mm id (fun _ => [GSM48_PDISC_MM_GPRS; GSM48_MT_GMM_ID_REQ; id_type .& 0xf]) true.

Definition gsm48_tx_gmm_ra_upd_ack (id : nat) : SG Z :=
  tx_mm id (fun m =>
    [GSM48_PDISC_MM_GPRS; GSM48_MT_GMM_RA_UPD_ACK; 0x00; GPRS_TMR_MINUTE .| 10]
    ++ gsm48_construct_ra (ra m) ++ alloc_ptmsi_ie m) false.

Definition gsm48_tx_gmm_ra_upd_rej (old_msg : gmm_msg) (cause : Z) : SG Z :=
  gsm48_gmm_sendmsg (gmm_copy_id old_msg)
    [GSM48_PDISC_MM_GPRS; GSM48_MT_GMM_RA_UPD_REJ; cause; 0] false None.

(** [gprs_llgmm_assign] with GEA0 and no key. *)
Definition llgmm_assign (id : nat) (old_tlli new_tlli : sgsn_mm_ctx -> Z) : SG unit :=
  m ← mm_get id;
  l ← deref (llme m);
  call (EvLlgmmAssign (Some l) (old_tlli m) (new_tlli m));;
  mret tt.

(** ** PDP contexts towards the GGSN (sgsn_libgtp.c) *)

Definition imsi_str2gtp (str : list Z) : Z :=
  if Nat.ltb 16 (length str) then 0
  else foldr (fun n imsi64 =>
         let val := if Nat.ltb n (length str) then (rd str n - 48) .& 0xf else 0xf in
         imsi64 .| (val .<< (Z.of_nat n * 4))) 0 (seq 0 16).

(** A value of a message copied into a buffer of libgtp. *)
Definition gtp_lv (b : pdp_v) (lv : option (Z * list Z)) : list Z :=
  match lv with
  | Some (l, v) => mem (Z.min l (Z.of_nat (gtp_v_size b))) v
  | None => []
  end.

Definition sgsn_create_pdp_ctx (ggsn mmctx : nat) (n : Z) (tp : tlv_parsed)
    (req_qos req_pdp_addr : Z * list Z) : SG (option nat) :=
  pctx ← sgsn_pdp_ctx_alloc mmctx n;
  match pctx with
  | None => mret None
  | Some pctx =>
      m ← mm_get mmctx;
      match pdp_newpdp (imsi_str2gtp (imsi m)) n with
      | None => mret None
      | Some pdp =>
          lib ← gets next_id;
          modify (fun st => st <| libs ::= insert lib pdp |> <| next_id ::= S |>);;
          lib_upd lib (fun l => l <| lib_priv := Some pctx |>);;
          pdp_upd pctx (fun p => p <| pdp_lib := Some lib |> <| pdp_ggsn := Some ggsn |>);;
          g ← ggsn_get ggsn;
          lib_upd lib (fun l =>
            l <| lib_version := gtp_version g |> <| hisaddr := remote_addr g |> <| selmode := 0x01 |>
              <| eua := alter (fun x => x .| 0xf0) 0%nat (gtp_lv PDP_EUA (Some req_pdp_addr)) |>
              <| apn_use := gtp_lv PDP_APN_USE (tp GSM48_IE_GSM_APN) |>
              <| pco_req := gtp_lv PDP_PCO_REQ (tp GSM48_IE_GSM_PROTO_CONF_OPT) |>
              <| qos_req := gtp_lv PDP_QOS_REQ (Some req_qos) |>
              <| gsnl := gtp_listenaddr |>);;
          pdp_upd pctx (fun p => p <| pdp_state := PDP_STATE_CR_REQ |>);;
          call (EvGtpCreate (Some lib));;
          mret (Some pctx)
      end
  end.

Definition sgsn_delete_pdp_ctx (id : nat) : SG Z :=
  p ← pdp_get id;
  g ← deref (pdp_ggsn p);
  ggsn_get g;;
  call (EvGtpDelete (pdp_lib p)).

(** ** Attach *)

Definition gsm48_gmm_authorize (id : nat) (mode : gprs_t3350_mode) : SG Z :=
  let id_req (id_type : Z) :=
    mm_upd id (fun m => m <| mm_state := GMM_COMMON_PROC_INIT |> <| t3370_id_type := id_type |>);;
    mmctx_timer_start id 3370 GSM0408_T3370_SECS;;
    gsm48_tx_gmm_id_req id id_type in
  m ← mm_get id;
  if negb (bool_decide (imei m = [])) && negb (bool_decide (imsi m = [])) then
    mm_upd id (fun m => m <| t3350_mode := mode |>);;
    mmctx_timer_start id 3350 GSM0408_T3350_SECS;;
    mm_upd id (fun m => m <| mm_state := GMM_REGISTERED_NORMAL |>);;
    gsm48_tx_gmm_att_ack id
  else if bool_decide (imei m = []) then id_req GSM_MI_TYPE_IMEI
  else if bool_decide (imsi m = []) then id_req GSM_MI_TYPE_IMSI
  else mret 0.

(** A context of another mobile with the IMSI is dropped. *)
Definition drop_old_imsi (id : nat) (mi_string : list Z) : SG unit :=
  m ← mm_get id;
  if bool_decide (imsi m = []) then
    ictx ← sgsn_mm_ctx_by_imsi mi_string;
    match ictx with
    | Some i => llgmm_assign i tlli (fun _ => TLLI_UNASSIGNED);; sgsn_mm_ctx_free i
    | None => mret tt
    end
  else mret tt.

(** [strncpy] fills the buffer without a terminator when the identity is too long; the string is
    taken to end there. *)
Definition gsm48_rx_gmm_id_resp (ctx : option nat) (msg : gmm_msg) : SG Z :=
  let d := g_data msg in
  let mi_type := rd d 3 .& GSM_MI_TYPE_MASK in
  let mi_string := gsm48_mi_to_string (drop 3 d) (rd d 2) in
  match ctx with
  | None => mret (- EINVAL)
  | Some id =>
      m ← mm_get id;
      (if mi_type =? t3370_id_type m then mmctx_timer_stop id 3370 else mret tt);;
      (if mi_type =? GSM_MI_TYPE_IMSI then
         drop_old_imsi id mi_string;;
         mm_upd id (fun m => m <| imsi := take GSM_IMEI_LENGTH mi_string |>)
       else if mi_type =? GSM_MI_TYPE_IMEI then
         mm_upd id (fun m => m <| imei := take GSM_IMEI_LENGTH mi_string |>)
       else mret tt);;
      m ← mm_get id;
      gsm48_gmm_authorize id (t3350_mode m)
  end.

(** Decimal digits, at least [w] of them. *)
Fixpoint digits (fuel : nat) (n : Z) : list Z :=
  match fuel with
  | O => []
  | S fuel => (if n <? 10 then [] else digits fuel (n / 10)) ++ [48 + n mod 10]
  end.
Definition printf_0 (w : nat) (n : Z) : list Z :=
  let s := digits 10 n in replicate (w - length s) 48 ++ s.
Definition mccmnc (ra_id : gprs_ra_id) : list Z := printf_0 3 (mcc ra_id) ++ printf_0 2 (mnc ra_id).

(** A context of its own for a mobile that has none. *)
Definition att_new_ctx (t : Z) (ra_id : gprs_ra_id) (msg : gmm_msg) (f : sgsn_mm_ctx -> sgsn_mm_ctx)
  : SG (option nat) :=
  ctx ← sgsn_mm_ctx_alloc t ra_id;
  match ctx with
  | None => mret None
  | Some id => mm_upd id f;; bssgp_fc_ms_init id (g_bvci msg) (g_nsei msg);; mret (Some id)
  end.

(** The context of the mobile that attaches, or the answer that ends the procedure. *)
Definition att_find_ctx (ctx : option nat) (msg : gmm_msg) (ra_id : gprs_ra_id) (mi_type : Z)
    (mi mi_string : list Z) : SG (res nat) :=
  let reject (cause : Z) := rc ← gsm48_tx_gmm_att_rej_oldmsg msg cause; mret (Err rc) in
  if mi_type =? GSM_MI_TYPE_IMSI then
    ctx ← match ctx with Some id => mret (Some id) | None => sgsn_mm_ctx_by_imsi mi_string end;
    match ctx with
    | Some id => mret (Ok id)
    | None =>
        if negb (bool_decide (take 5 (mccmnc ra_id) = take 5 mi_string)) then
          reject GMM_CAUSE_GPRS_NOTALLOWED
        else
          ctx ← att_new_ctx 0 ra_id msg (fun m => m <| imsi := take GSM_IMSI_LENGTH mi_string |>);
          match ctx with Some id => mret (Ok id) | None => reject GMM_CAUSE_NET_FAIL end
    end
  else if mi_type =? GSM_MI_TYPE_TMSI then
    let tmsi := rd_be32 (drop 1 mi) in
    ctx ← match ctx with Some id => mret (Some id) | None => sgsn_mm_ctx_by_ptmsi tmsi end;
    match ctx with
    | Some id => mret (Ok id)
    | None =>
        ctx ← att_new_ctx (g_tlli msg) ra_id msg (fun m => m <| p_tmsi := tmsi |>);
        id ← deref ctx;
        mret (Ok id)
    end
  else reject GMM_CAUSE_MS_ID_NOT_DERIVED.

(** The new P-TMSI, and the local TLLI that goes with it. *)
Definition new_ptmsi (id : nat) : SG unit :=
  mm_upd id (fun m => m <| p_tmsi_old := p_tmsi m |>);;
  t ← sgsn_alloc_ptmsi;
  mm_upd id (fun m => m <| p_tmsi := t |>).
Definition local_tlli (id : nat) : SG unit :=
  mm_upd id (fun m => m <| tlli_new := gprs_tmsi2tlli (p_tmsi m) TLLI_LOCAL |>).

(** The buffer of the MS network capability; up to 8 octets are copied into it. *)
Definition MS_NETWORK_CAPA_SIZE : Z := 4.

Definition gsm48_rx_gmm_att_req (ctx : option nat) (msg : gmm_msg) (l : nat) : SG Z :=
  let d := g_data msg in
  let '(ra_id, cid) := bssgp_parse_cell_id (g_bcid msg) in
  let err_inval := gsm48_tx_gmm_att_rej_oldmsg msg GMM_CAUSE_SEM_INCORR_MSG in
  let msnc_len := rd d 2 in
  let msnc := drop 3 d in
  if 8 <? msnc_len then err_inval
  else
    let cur := (3 + Z.to_nat msnc_len)%nat in
    let drx_par := (rd d (cur + 1) .<< 8) .| rd d (cur + 2) in
    let mi_len := rd d (cur + 3) in
    let mi := drop (cur + 4) d in
    if 8 <? mi_len then err_inval
    else
      let mi_type := rd mi 0 .& GSM_MI_TYPE_MASK in
      let cur := (cur + 4 + Z.to_nat mi_len)%nat in
      let mi_string := gsm48_mi_to_string mi mi_len in
      let ms_ra_acc_cap_len := rd d (cur + 6) in
      let ms_ra_acc_cap := drop (cur + 7) d in
      if 52 <? ms_ra_acc_cap_len then err_inval
      else
        ctx ← att_find_ctx ctx msg ra_id mi_type mi mi_string;
        match ctx with
        | Err rc => mret rc
        | Ok id =>
            mm_upd id (fun m => m <| tlli := g_tlli msg |> <| llme := Some l |>);;
            msgid2mmctx id msg;;
            mm_upd id (fun m =>
              m <| ra := ra_id |> <| mm_cell_id := cid |> <| drx_parms := drx_par |>
                <| ms_radio_access_capa := mem ms_ra_acc_cap_len ms_ra_acc_cap |>);;
            (if MS_NETWORK_CAPA_SIZE <? msnc_len then fault
             else mm_upd id (fun m => m <| ms_network_capa := mem msnc_len msnc |>));;
            new_ptmsi id;;
            local_tlli id;;
            llgmm_assign id tlli tlli_new;;
            gsm48_gmm_authorize id GMM_T3350_MODE_ATT
        end.

(** ** Detach *)

Definition gsm48_rx_gmm_det_req (id : nat) (msg : gmm_msg) : SG Z :=
  mm_upd id (fun m => m <| mm_state := GMM_DEREGISTERED |>);;
  m ← mm_get id;
  for_each (fun p => sgsn_delete_pdp_ctx p;; mret tt) (pdp_list m);;
  rc ← gsm48_tx_gmm_det_ack id 0;
  llgmm_assign id tlli (fun _ => TLLI_UNASSIGNED);;
  mret rc.

(** ** Routing area update *)

(** Whether the mobile has the PDP context of an NSAPI, in its PDP context status. *)
Definition pdp_status_active (pdp_status : list Z) (n : Z) : bool :=
  if n <? 8 then tst (rd pdp_status 0) (1 .<< n) else tst (rd pdp_status 1) (1 .<< (n - 8)).

Definition process_ms_ctx_status (id : nat) (pdp_status : list Z) : SG unit :=
  m ← mm_get id;
  for_each (fun pid =>
    p ← pdp_get pid;
    if pdp_status_active pdp_status (nsapi p) then mret tt
    else sgsn_delete_pdp_ctx pid;; mret tt) (pdp_list m).

Definition gsm48_rx_gmm_ra_upd_req (msg : gmm_msg) : SG Z :=
  let d := g_data msg in
  let upd_type := rd d 2 .& 0x0f in
  let old_ra_id := gsm48_parse_ra (drop 3 d) in
  let ms_ra_acc_cap_len := rd d 9 in
  if 52 <? ms_ra_acc_cap_len then gsm48_tx_gmm_ra_upd_rej msg GMM_CAUSE_PROTO_ERR_UNSPEC
  else
    let cur := (10 + Z.to_nat ms_ra_acc_cap_len)%nat in
    let tp := gmm_tlv_parse (drop cur d) (g_len msg - Z.of_nat cur) in
    if (upd_type =? GPRS_UPD_T_RA_LA) || (upd_type =? GPRS_UPD_T_RA_LA_IMSI_ATT) then
      gsm48_tx_gmm_ra_upd_rej msg GMM_CAUSE_PROTO_ERR_UNSPEC
    else
      mmctx ← sgsn_mm_ctx_by_tlli (g_tlli msg) old_ra_id;
      registered ← match mmctx with
                   | Some id => m ← mm_get id; mret (negb (bool_decide (mm_state m = GMM_DEREGISTERED)))
                   | None => mret false
                   end;
      match mmctx with
      | Some id =>
          if negb registered then gsm48_tx_gmm_ra_upd_rej msg GMM_CAUSE_MS_ID_NOT_DERIVED
          else
            msgid2mmctx id msg;;
            mm_ctr_add id GMM_CTR_PKTS_SIG_IN 1;;
            mm_upd id (fun m => m <| ra := (bssgp_parse_cell_id (g_bcid msg)).1 |>
                                  <| tlli := g_tlli msg |>);;
            mm_ctr_add id GMM_CTR_RA_UPDATE 1;;
            new_ptmsi id;;
            mm_upd id (fun m => m <| t3350_mode := GMM_T3350_MODE_RAU |>);;
            mmctx_timer_start id 3350 GSM0408_T3350_SECS;;
            local_tlli id;;
            llgmm_assign id tlli tlli_new;;
            match tp GSM48_IE_GMM_PDP_CTX_STATUS with
            | Some (_, v) => process_ms_ctx_status id v
            | None => mret tt
            end;;
            gsm48_tx_gmm_ra_upd_ack id
      | None => gsm48_tx_gmm_ra_upd_rej msg GMM_CAUSE_MS_ID_NOT_DERIVED
      end.

(** ** Dispatch of mobility management *)

(** The old TLLI is given up. *)
Definition new_tlli_confirmed (id : nat) : SG unit :=
  mmctx_timer_stop id 3350;;
  mm_upd id (fun m => m <| p_tmsi_old := 0 |> <| tlli := tlli_new m |>).

Definition gsm0408_rcv_gmm (mmctx : option nat) (msg : gmm_msg) (l : nat) : SG Z :=
  let msg_type := rd (g_data msg) 1 in
  match mmctx with
  | None =>
      if msg_type =? GSM48_MT_GMM_RA_UPD_REQ then gsm48_rx_gmm_ra_upd_req msg
      else if msg_type =? GSM48_MT_GMM_ATTACH_REQ then gsm48_rx_gmm_att_req None msg l
      else gsm48_tx_gmm_status_oldmsg msg GMM_CAUSE_MS_ID_NOT_DERIVED
  | Some id =>
      if msg_type =? GSM48_MT_GMM_RA_UPD_REQ then gsm48_rx_gmm_ra_upd_req msg
      else if msg_type =? GSM48_MT_GMM_ATTACH_REQ then gsm48_rx_gmm_att_req (Some id) msg l
      else if msg_type =? GSM48_MT_GMM_ID_RESP then gsm48_rx_gmm_id_resp (Some id) msg
      else if msg_type =? GSM48_MT_GMM_STATUS then mret 0
      else if msg_type =? GSM48_MT_GMM_DETACH_REQ then gsm48_rx_gmm_det_req id msg
      else if (msg_type =? GSM48_MT_GMM_ATTACH_COMPL) || (msg_type =? GSM48_MT_GMM_RA_UPD_COMPL) then
        new_tlli_confirmed id;;
        llgmm_assign id (fun _ => TLLI_UNASSIGNED) tlli_new;;
        mret uninit
      else if msg_type =? GSM48_MT_GMM_PTMSI_REALL_COMPL then new_tlli_confirmed id;; mret uninit
      else if msg_type =? GSM48_MT_GMM_AUTH_CIPH_RESP then mret 0
      else gsm48_tx_gmm_status id GMM_CAUSE_MSGT_NOTEXIST_NOTIMPL
  end.

(** ** Timeouts of a mobile *)

(** A timer that expires is no longer pending; its callback gets the context. *)
Definition mmctx_timer_cb (id : nat) : SG unit :=
  modify (fun st => st <| mm_timers ::= delete id |>);;
  mm_upd id (fun m => m <| mm_num_T_exp ::= fun n => n + 1 |>);;
  m ← mm_get id;
  let deregister := mm_upd id (fun m => m <| mm_state := GMM_DEREGISTERED |>) in
  if mm_T m =? 3350 then
    if 5 <=? mm_num_T_exp m then deregister
    else
      match t3350_mode m with
      | GMM_T3350_MODE_ATT => gsm48_tx_gmm_att_ack id;; mret tt
      | GMM_T3350_MODE_RAU => gsm48_tx_gmm_ra_upd_ack id;; mret tt
      | GMM_T3350_MODE_PTMSI_REALL => mret tt
      end;;
      mm_schedule id GSM0408_T3350_SECS
  else if mm_T m =? 3360 then
    if 5 <=? mm_num_T_exp m then deregister else mm_schedule id GSM0408_T3360_SECS
  else if mm_T m =? 3370 then
    if 5 <=? mm_num_T_exp m then
      gsm48_tx_gmm_att_rej id GMM_CAUSE_MS_ID_NOT_DERIVED;; deregister
    else
      gsm48_tx_gmm_id_req id (t3370_id_type m);;
      mm_schedule id GSM0408_T3370_SECS
  else mret tt.

(** ** Session management *)

Definition pdp_schedule (id : nat) (seconds : Z) : SG unit :=
  modify (fun st => st <| pdp_timers ::= insert id seconds |>).

Definition pdpctx_timer_start (id : nat) (T seconds : Z) : SG unit :=
  pdp_upd id (fun p => p <| pdp_T := T |> <| pdp_num_T_exp := 0 |>);;
  pdp_schedule id seconds.

(** [default_qos], octet by octet. *)
Definition default_qos : list Z :=
  [3 .| (4 .<< 3); 2 .| (6 .<< 4); 0x1f; 2 .| (2 .<< 3) .| (3 .<< 5); 0x99; 0x3f; 0x3f; 1 .| (1 .<< 4);
   3 .| (0x10 .<< 2); 0xff; 0xff; 0; 0; 0].

(** The header of a session management message for a transaction of the mobile. *)
Definition sm_hdr (tid msg_type : Z) : list Z :=
  [u8 (GSM48_PDISC_SM_GPRS .| (u8 (tid .^ 0x8) .<< 4)); msg_type].

Definition gsm48_tx_gsm_act_pdp_acc (id : nat) : SG Z :=
  p ← pdp_get id;
  mm ← deref (pdp_mm p);
  m ← mm_get mm;
  lib ← deref (pdp_lib p);
  lib_upd lib (fun l => l <| eua ::= alter (fun x => x .& Z.lnot 0xf0) 0%nat |>);;
  l ← lib_get lib;
  lib_upd lib (fun l => l <| eua ::= alter (fun x => x .| 0xf0) 0%nat |>);;
  gsm48_gmm_sendmsg (mmctx2msgid m)
    (sm_hdr (ti p) GSM48_MT_GSM_ACT_PDP_ACK ++ [u8 (sapi p)] ++ msgb_lv_put default_qos
     ++ [u8 (radio_pri l)] ++ msgb_tlv_put GSM48_IE_GSM_PDP_ADDR (eua l)
     ++ (if bool_decide (pco_req l = []) then []
         else msgb_tlv_put GSM48_IE_GSM_PROTO_CONF_OPT (pco_req l))) false (Some mm).

(** No caller gives protocol configuration options. *)
Definition gsm48_tx_gsm_act_pdp_rej (mm : nat) (tid cause : Z) : SG Z :=
  tx_mm mm (fun _ => sm_hdr tid GSM48_MT_GSM_ACT_PDP_REJ ++ [cause]) false.

Definition _gsm48_tx_gsm_deact_pdp_req (mm : nat) (tid sm_cause : Z) : SG Z :=
  tx_mm mm (fun _ => sm_hdr tid GSM48_MT_GSM_DEACT_PDP_REQ ++ [sm_cause]) false.
Definition gsm48_tx_gsm_deact_pdp_req (id : nat) (sm_cause : Z) : SG Z :=
  pdpctx_timer_start id 3395 GSM0408_T3395_SECS;;
  p ← pdp_get id;
  mm ← deref (pdp_mm p);
  _gsm48_tx_gsm_deact_pdp_req mm (ti p) sm_cause.

Definition _gsm48_tx_gsm_deact_pdp_acc (mm : nat) (tid : Z) : SG Z :=
  tx_mm mm (fun _ => sm_hdr tid GSM48_MT_GSM_DEACT_PDP_ACK) false.
Definition gsm48_tx_gsm_deact_pdp_acc (id : nat) : SG Z :=
  p ← pdp_get id; mm ← deref (pdp_mm p); _gsm48_tx_gsm_deact_pdp_acc mm (ti p).

(** The elements behind the requested PDP address, if the message goes on. *)
Definition act_pdp_tp (d : list Z) (len : Z) (cur : nat) : tlv_parsed :=
  if Z.of_nat cur <? len then sm_tlv_parse (drop cur d) (len - Z.of_nat cur) else fun _ => None.

Definition gsm48_rx_gsm_act_pdp_req (mm : nat) (msg : gmm_msg) : SG Z :=
  let d := g_data msg in
  let transaction_id := rd d 0 .>> 4 in
  let req_nsapi := rd d 2 in
  let req_llc_sapi := rd d 3 in
  let req_qos_len := rd d 4 in
  let qos_end := (5 + Z.to_nat req_qos_len)%nat in
  let req_pdpa_len := rd d qos_end in
  let req_pdpa := drop (qos_end + 1) d in
  let tp := act_pdp_tp d (g_len msg) (qos_end + 1 + Z.to_nat req_pdpa_len) in
  if (req_nsapi <? 5) || (15 <? req_nsapi) then
    gsm48_tx_gsm_act_pdp_rej mm transaction_id GSM_CAUSE_INV_MAND_INFO
  else
    pdp ← sgsn_pdp_ctx_by_nsapi mm req_nsapi;
    match pdp with
    | Some id =>
        p ← pdp_get id;
        if (sapi p =? req_llc_sapi) && (ti p =? transaction_id) then gsm48_tx_gsm_act_pdp_acc id
        else gsm48_tx_gsm_act_pdp_rej mm transaction_id GSM_CAUSE_NSAPI_IN_USE
    | None =>
        mm_ctr_add mm GMM_CTR_PDP_CTX_ACT 1;;
        ggsn ← sgsn_ggsn_ctx_by_id 0;
        match ggsn with
        | None => mret (- EIO)
        | Some g =>
            pdp ← sgsn_create_pdp_ctx g mm req_nsapi tp (req_qos_len, drop 5 d) (req_pdpa_len, req_pdpa);
            match pdp with
            | None => mret (-1)
            | Some id =>
                pdp_upd id (fun p => p <| sapi := req_llc_sapi |> <| ti := transaction_id |>);;
                mret 0
            end
        end
    end.

Definition gsm48_rx_gsm_deact_pdp_req (mm : nat) (msg : gmm_msg) : SG Z :=
  let transaction_id := rd (g_data msg) 0 .>> 4 in
  pdp ← sgsn_pdp_ctx_by_tid mm transaction_id;
  match pdp with
  | None => _gsm48_tx_gsm_deact_pdp_acc mm transaction_id
  | Some id => sgsn_delete_pdp_ctx id
  end.

Definition gsm48_rx_gsm_deact_pdp_ack (mm : nat) (msg : gmm_msg) : SG Z :=
  pdp ← sgsn_pdp_ctx_by_tid mm (rd (g_data msg) 0 .>> 4);
  match pdp with
  | None => mret 0
  | Some id => sgsn_delete_pdp_ctx id
  end.

Definition pdpctx_timer_cb (id : nat) : SG unit :=
  modify (fun st => st <| pdp_timers ::= delete id |>);;
  pdp_upd id (fun p => p <| pdp_num_T_exp ::= fun n => n + 1 |>);;
  p ← pdp_get id;
  if pdp_T p =? 3395 then
    if 4 <=? pdp_num_T_exp p then
      pdp_upd id (fun p => p <| pdp_state := PDP_STATE_NONE |>);;
      sgsn_delete_pdp_ctx id;;
      mret tt
    else
      gsm48_tx_gsm_deact_pdp_req id GSM_CAUSE_NET_FAIL;;
      pdp_schedule id GSM0408_T3395_SECS
  else mret tt.

Definition gsm0408_rcv_gsm (mmctx : option nat) (msg : gmm_msg) : SG Z :=
  let msg_type := rd (g_data msg) 1 in
  match mmctx with
  | None =>
      gsm48_tx_gmm_status_oldmsg msg GMM_CAUSE_IMPL_DETACHED;;
      gsm48_tx_sm_status_oldmsg msg GSM_CAUSE_PROTO_ERR_UNSPEC
  | Some mm =>
      if msg_type =? GSM48_MT_GSM_ACT_PDP_REQ then gsm48_rx_gsm_act_pdp_req mm msg
      else if msg_type =? GSM48_MT_GSM_DEACT_PDP_REQ then gsm48_rx_gsm_deact_pdp_req mm msg
      else if msg_type =? GSM48_MT_GSM_DEACT_PDP_ACK then gsm48_rx_gsm_deact_pdp_ack mm msg
      else if msg_type =? GSM48_MT_GSM_STATUS then mret 0
      else gsm48_tx_sm_status mm GSM_CAUSE_MSGT_NOTEXIST_NOTIMPL
  end.

(** ** The entry point of LLC *)

Definition gsm0408_gprs_rcvmsg (msg : gmm_msg) (l : nat) : SG Z :=
  let pdisc := rd (g_data msg) 0 .& 0x0f in
  let '(ra_id, _) := bssgp_parse_cell_id (g_bcid msg) in
  mmctx ← sgsn_mm_ctx_by_tlli (g_tlli msg) ra_id;
  match mmctx with
  | Some id =>
      msgid2mmctx id msg;;
      mm_ctr_add id GMM_CTR_PKTS_SIG_IN 1;;
      mm_upd id (fun m => m <| llme := Some l |>)
  | None => mret tt
  end;;
  if pdisc =? GSM48_PDISC_MM_GPRS then gsm0408_rcv_gmm mmctx msg l
  else if pdisc =? GSM48_PDISC_SM_GPRS then gsm0408_rcv_gsm mmctx msg
  else mret (- EINVAL).

End gmm.
End Gmm.
