(* ===== verification/Gtp.v ===== *)
(** The SGSN's side of libgtp: gprs/sgsn_libgtp.c, and the recovery of a GGSN in gprs/gprs_sgsn.c.

    libgtp calls back with its own context and the pointer it was given when the request was made:
    here a number of the store [libs] and one of the store [pdps]. libgtp's part in a callback,
    freeing its context, is left to libgtp but where the code asks for it. *)

From S2P Require Import Prelude Sgsn Bssgp Gmm.
Import Sgsn Bssgp Gmm.

Module Gtp.

Section gtp.
Context {env : SgsnEnv}.

Abbreviation SG := (M sgsn_state sgsn_event).

(** ** Causes *)

Definition cause_map (map : list (gtp_cause * Z)) (cause_in deflt : Z) : Z :=
  match find (fun m => gtpcause m.1 =? cause_in) map with
  | Some m => m.2
  | None => deflt
  end.

Definition gtp2sm_cause_map : list (gtp_cause * Z) :=
  [(GTPCAUSE_NO_RESOURCES, GSM_CAUSE_INSUFF_RSRC);
   (GTPCAUSE_NOT_SUPPORTED, GSM_CAUSE_SERV_OPT_NOTSUPP);
   (GTPCAUSE_MAN_IE_INCORRECT, GSM_CAUSE_INV_MAND_INFO);
   (GTPCAUSE_MAN_IE_MISSING, GSM_CAUSE_INV_MAND_INFO);
   (GTPCAUSE_OPT_IE_INCORRECT, GSM_CAUSE_PROTO_ERR_UNSPEC);
   (GTPCAUSE_SYS_FAIL, GSM_CAUSE_NET_FAIL);
   (GTPCAUSE_ROAMING_REST, GSM_CAUSE_REQ_SERV_OPT_NOTSUB);
   (GTPCAUSE_PTIMSI_MISMATCH, GSM_CAUSE_PROTO_ERR_UNSPEC);
   (GTPCAUSE_CONN_SUSP, GSM_CAUSE_PROTO_ERR_UNSPEC);
   (GTPCAUSE_AUTH_FAIL, GSM_CAUSE_AUTH_FAILED);
   (GTPCAUSE_USER_AUTH_FAIL, GSM_CAUSE_ACT_REJ_GGSN);
   (GTPCAUSE_CONTEXT_NOT_FOUND, GSM_CAUSE_PROTO_ERR_UNSPEC);
   (GTPCAUSE_ADDR_OCCUPIED, GSM_CAUSE_INSUFF_RSRC);
   (GTPCAUSE_NO_MEMORY, GSM_CAUSE_INSUFF_RSRC);
   (GTPCAUSE_RELOC_FAIL, GSM_CAUSE_PROTO_ERR_UNSPEC);
   (GTPCAUSE_UNKNOWN_MAN_EXTHEADER, GSM_CAUSE_PROTO_ERR_UNSPEC);
   (GTPCAUSE_MISSING_APN, GSM_CAUSE_MISSING_APN);
   (GTPCAUSE_UNKNOWN_PDP, GSM_CAUSE_UNKNOWN_PDP)].

(** ** Confirmations *)

(** The LLE a PDP context runs on: the LLME of its mobile and its SAPI. *)
Definition pdp_llme (p : sgsn_pdp_ctx) : SG (option nat) :=
  mm ← deref (pdp_mm p); m ← mm_get mm; mret (llme m).

Definition pdp_reject (pdp : option nat) (pctx : nat) (reject_cause : Z) : SG Z :=
  pdp_upd pctx (fun p => p <| pdp_state := PDP_STATE_NONE |>);;
  match pdp with
  | Some lib => modify (fun st => st <| libs ::= delete lib |>)
  | None => mret tt
  end;;
  p ← pdp_get pctx;
  mm ← deref (pdp_mm p);
  gsm48_tx_gsm_act_pdp_rej mm (ti p) reject_cause;;
  sgsn_pdp_ctx_free pctx;;
  mret (-1).

Definition create_pdp_conf (pdp : option nat) (pctx : nat) (cause : Z) : SG Z :=
  if cause <? 0 then
    version1 ← match pdp with
               | Some lib => l ← lib_get lib; mret (lib_version l =? 1)
               | None => mret false
               end;
    match pdp with
    | Some lib =>
        if (version1 : bool) then
          lib_upd lib (fun l => l <| lib_version := 0 |>);;
          call (EvGtpCreate (Some lib));;
          mret 0
        else pdp_reject pdp pctx GSM_CAUSE_NET_FAIL
    | None => pdp_reject pdp pctx GSM_CAUSE_NET_FAIL
    end
  else if negb (cause =? gtpcause GTPCAUSE_ACC_REQ) then
    pdp_reject pdp pctx (cause_map gtp2sm_cause_map (u8 cause) GSM_CAUSE_ACT_REJ_GGSN)
  else
    p ← pdp_get pctx;
    l ← pdp_llme p;
    call (EvSndcpActivate l (sapi p) (nsapi p));;
    gsm48_tx_gsm_act_pdp_acc pctx.

Definition delete_pdp_conf (pctx : nat) : SG Z :=
  p ← pdp_get pctx;
  l ← pdp_llme p;
  call (EvSndcpDeactivate l (sapi p) (nsapi p));;
  rc ← gsm48_tx_gsm_deact_pdp_acc pctx;
  sgsn_pdp_ctx_free pctx;;
  mret rc.

(** ** Restart of a GGSN *)

Definition drop_one_pdp (id : nat) : SG unit :=
  p ← pdp_get id;
  mm ← deref (pdp_mm p);
  m ← mm_get mm;
  if bool_decide (mm_state m = GMM_REGISTERED_NORMAL) then
    gsm48_tx_gsm_deact_pdp_req id GSM_CAUSE_NET_FAIL;; mret tt
  else sgsn_pdp_ctx_free id.

(** [llist_for_each_entry] reads the link of the element after the body has run. *)
Fixpoint drop_pdps (ggsn : nat) (ids : list nat) : SG Z :=
  match ids with
  | [] => mret 0
  | id :: ids =>
      p ← pdp_get id;
      let drop := bool_decide (pdp_ggsn p = Some ggsn) in
      (if drop then drop_one_pdp id else mret tt);;
      pdp_get id;;
      num ← drop_pdps ggsn ids;
      mret (num + if drop then 1 else 0)
  end.

Fixpoint drop_mms (ggsn : nat) (mms : list nat) : SG Z :=
  match mms with
  | [] => mret 0
  | mm :: mms =>
      m ← mm_get mm;
      num ← drop_pdps ggsn (pdp_list m);
      num' ← drop_mms ggsn mms;
      mret (num + num')
  end.

Definition drop_all_pdp_for_ggsn (ggsn : nat) : SG Z :=
  ids ← gets sgsn_mm_ctxts; drop_mms ggsn ids.

Definition cb_recovery (peer_addr recovery : Z) : SG Z :=
  ggsn ← sgsn_ggsn_ctx_by_addr peer_addr;
  match ggsn with
  | None => mret (- EINVAL)
  | Some id =>
      g ← ggsn_get id;
      if remote_restart_ctr g =? -1 then
        ggsn_upd id (fun g => g <| remote_restart_ctr := recovery |>);; mret 0
      else if negb (remote_restart_ctr g =? recovery) then
        ggsn_upd id (fun g => g <| remote_restart_ctr := recovery |>);;
        drop_all_pdp_for_ggsn id;;
        mret 0
      else mret 0
  end.

(** ** Data *)

(** Paging of a suspended mobile in its cell. *)
Definition data_paging_info (m : sgsn_mm_ctx) : bssgp_paging_info :=
  mk_bssgp_paging_info BSSGP_PAGING_PS BSSGP_PAGING_BVCI (mk_gprs_ra_id 0 0 0 0) (mm_bvci m) (imsi m)
    (Some (p_tmsi m)) (drx_parms m) [0; 0; 0].

Definition data_counters (pdp mm : nat) (len : Z) (out : bool) : SG unit :=
  pdp_ctr_add pdp (if out then PDP_CTR_PKTS_UDATA_OUT else PDP_CTR_PKTS_UDATA_IN) 1;;
  pdp_ctr_add pdp (if out then PDP_CTR_BYTES_UDATA_OUT else PDP_CTR_BYTES_UDATA_IN) len;;
  mm_ctr_add mm (if out then GMM_CTR_PKTS_UDATA_OUT else GMM_CTR_PKTS_UDATA_IN) 1;;
  mm_ctr_add mm (if out then GMM_CTR_BYTES_UDATA_OUT else GMM_CTR_BYTES_UDATA_IN) len.

Definition cb_data_ind (lib : nat) (packet : list Z) : SG Z :=
  l ← lib_get lib;
  match lib_priv l with
  | None => mret (- EIO)
  | Some id =>
      p ← pdp_get id;
      mm ← deref (pdp_mm p);
      m ← mm_get mm;
      let send :=
        data_counters id mm (Z.of_nat (length packet)) true;;
        call (EvSndcpReq (tlli m) (mm_nsei m) (mm_bvci m) packet (llme m) (sapi p) (nsapi p) mm) in
      if negb msgb_ok then fault
      else
        match mm_state m with
        | GMM_REGISTERED_SUSPENDED =>
            gprs_bssgp_tx_paging (mm_nsei m) 0 (data_paging_info m);;
            mm_ctr_add mm GMM_CTR_PAGING_PS 1;;
            send
        | GMM_REGISTERED_NORMAL => send
        | _ => mret (-1)
        end
  end.

Definition sgsn_rx_sndcp_ud_ind (ra_id : gprs_ra_id) (t n : Z) (npdu : list Z) : SG Z :=
  mmctx ← sgsn_mm_ctx_by_tlli t ra_id;
  match mmctx with
  | None => mret (- EIO)
  | Some mm =>
      pdp ← sgsn_pdp_ctx_by_nsapi mm n;
      match pdp with
      | None => mret (- EIO)
      | Some id =>
          p ← pdp_get id;
          match pdp_lib p with
          | None => mret (- EIO)
          | Some lib =>
              data_counters id mm (Z.of_nat (length npdu)) false;;
              g ← deref (pdp_ggsn p);
              ggsn_get g;;
              call (EvGtpData (Some lib) npdu)
          end
      end
  end.

End gtp.
End Gtp.
