(* ===== verification/GmmInv.v ===== *)
(** Mobility management, session management and the callbacks of libgtp keep the invariant of the
    SGSN. *)

From S2P Require Import Prelude Sgsn SgsnInv Bssgp BssgpInv Gmm Gtp.
Import Sgsn SgsnInv Bssgp BssgpInv Gmm Gtp.

Module GmmInv.

(** ** Timers *)

Hint Resolve rel_refl rel_alter : core.
Lemma like_mm_refl x i m : like_mm x i m m.
Proof. unfold like_mm. by split_and!. Qed.
Lemma like_pdp_refl i p : like_pdp i p p.
Proof. by split. Qed.
Hint Resolve like_mm_refl like_pdp_refl same_bvc_refl : core.

(** Assignments to a mobile and changes of the timers. *)
Lemma wf_mm_timer_upd mml st st' id f m :
  wf_gen None mml st -> mms st !! id = Some m ->
  p_tmsi (f m) = p_tmsi m -> pdp_list (f m) = pdp_list m -> mm_fc (f m) = mm_fc m ->
  st' = st <| mms ::= alter f id |> <| mm_timers := mm_timers st' |> ->
  (forall i, is_Some (mm_timers st' !! i) ->
     i = id /\ 0 <= mm_num_T_exp (f m) < 5 \/ i <> id /\ is_Some (mm_timers st !! i)) ->
  wf_gen None mml st'.
Proof.
  intros Hw Hm Ep El Ef E Ht. apply (wf_like _ _ st); [done| |].
  - rewrite E. split; cbn; auto. apply rel_alter; [auto|]. intros m' Hm'. simplify_eq.
    unfold like_mm. by rewrite Ep, El, Ef.
  - destruct (wf_timers _ _ _ Hw) as (H1 & H2 & H3 & H4). rewrite E. split_and!; cbn; auto.
    + intros i [[-> _]|[_ Hi]]%Ht; [|auto]. destruct Hw. apply wf_fresh_mm0. by eexists.
    + intros i m' Hi Hm'. apply lookup_alter_Some in Hm' as [[<- (y & Hy & ->)]|[Hne Hm']].
      * simplify_eq. by apply Ht in Hi as [[_ ?]|[? _]].
      * apply Ht in Hi as [[? _]|[_ ?]]; [done|eauto].
Qed.

(** The same for a PDP context. *)
Lemma wf_pdp_timer_upd mml st st' id f p :
  wf_gen None mml st -> pdps st !! id = Some p ->
  pdp_mm (f p) = pdp_mm p -> nsapi (f p) = nsapi p ->
  st' = st <| pdps ::= alter f id |> <| pdp_timers := pdp_timers st' |> ->
  (forall i, is_Some (pdp_timers st' !! i) ->
     i = id /\ pdp_T (f p) = 3395 /\ pdp_num_T_exp (f p) = 0 \/ i <> id /\ is_Some (pdp_timers st !! i)) ->
  wf_gen None mml st'.
Proof.
  intros Hw Hp Em En E Ht. apply (wf_like _ _ st); [done| |].
  - rewrite E. split; cbn; auto. apply rel_alter; [auto|]. intros p' Hp'. by simplify_eq.
  - destruct (wf_timers _ _ _ Hw) as (H1 & H2 & H3 & H4). rewrite E. split_and!; cbn; auto.
    + intros i [[-> _]|[_ Hi]]%Ht; [|auto]. destruct Hw. apply wf_fresh_pdp0. by eexists.
    + intros i p' Hi Hp'. apply lookup_alter_Some in Hp' as [[<- (y & Hy & ->)]|[Hne Hp']].
      * simplify_eq. by apply Ht in Hi as [[_ ?]|[? _]].
      * apply Ht in Hi as [[? _]|[_ ?]]; [done|eauto].
Qed.

Section keeps.
Context {env : SgsnEnv}.
Implicit Types (x : option nat).

(** ** Steps *)

Lemma run_mm_upd id f m st :
  mms st !! id = Some m -> mm_upd id f st = Some (tt, st <| mms ::= alter f id |>, []).
Proof. intros H. unfold mm_upd, mm_get, load, mbind, M_bind. by rewrite H. Qed.
Lemma run_pdp_upd id f p st :
  pdps st !! id = Some p -> pdp_upd id f st = Some (tt, st <| pdps ::= alter f id |>, []).
Proof. intros H. unfold pdp_upd, pdp_get, load, mbind, M_bind. by rewrite H. Qed.
Lemma run_mm_get id m st : mms st !! id = Some m -> mm_get id st = Some (m, st, []).
Proof. intros H. unfold mm_get, load. by rewrite H. Qed.
Lemma run_pdp_get id p st : pdps st !! id = Some p -> pdp_get id st = Some (p, st, []).
Proof. intros H. unfold pdp_get, load. by rewrite H. Qed.
Lemma mm_get_None {A} id (k : _ -> SG A) st : mms st !! id = None -> (mm_get id ≫= k) st = None.
Proof. intros H. unfold mm_get, load, mbind, M_bind. by rewrite H. Qed.
Lemma mm_upd_None {A} id f (k : _ -> SG A) st : mms st !! id = None -> (mm_upd id f ≫= k) st = None.
Proof. intros H. unfold mm_upd, mm_get, load, mbind, M_bind. by rewrite H. Qed.
Lemma pdp_upd_None {A} id f (k : _ -> SG A) st : pdps st !! id = None -> (pdp_upd id f ≫= k) st = None.
Proof. intros H. unfold pdp_upd, pdp_get, load, mbind, M_bind. by rewrite H. Qed.
Lemma pdp_get_None {A} id (k : _ -> SG A) st : pdps st !! id = None -> (pdp_get id ≫= k) st = None.
Proof. intros H. unfold pdp_get, load, mbind, M_bind. by rewrite H. Qed.

Lemma keeps_for_each {A} (I : sgsn_state -> Prop) (f : A -> SG unit) xs :
  (forall a, keeps I (f a)) -> keeps I (for_each f xs).
Proof. intros Hf. induction xs; cbn; keeps_tac. Qed.

Lemma keeps_timer_start id T s : keeps sgsn_wf (mmctx_timer_start id T s).
Proof.
  intros st Hw. unfold wlp, mmctx_timer_start. destruct (mms st !! id) as [m|] eqn:Hm.
  - run_with (run_mm_upd _ _ _ _ Hm). cbn.
    apply (wf_mm_timer_upd _ st _ id (fun m => m <| mm_T := T |> <| mm_num_T_exp := 0 |>) m); [done..|]. cbn.
    intros i [<-|Hi]%lookup_insert_is_Some'; [left; split; [done|lia]|].
    destruct (decide (i = id)) as [->|]; [left; split; [done|lia]|by right].
  - by rewrite mm_upd_None.
Qed.

Lemma keeps_timer_stop id T : keeps sgsn_wf (mmctx_timer_stop id T).
Proof.
  apply keeps_bind; [apply keeps_load|intros _]. apply keeps_modify. intros st Hw.
  apply (wf_like _ _ st); [done| |].
  - split; cbn; auto.
  - destruct (wf_timers _ _ _ Hw) as (H1 & H2 & H3 & H4). split_and!; cbn; auto.
    + intros i [_ ?]%lookup_delete_is_Some. auto.
    + intros i m [_ ?]%lookup_delete_is_Some. eauto.
Qed.

Lemma keeps_sendmsg x ids data cmd mm : keeps (wf_but x) (gsm48_gmm_sendmsg ids data cmd mm).
Proof. unfold gsm48_gmm_sendmsg. destruct ids as [[t ns] bv]. keeps_tac. Qed.
Hint Resolve keeps_timer_start keeps_timer_stop keeps_sendmsg keeps_for_each : keeps.
Lemma keeps_tx_mm x id data cmd : keeps (wf_but x) (tx_mm id data cmd).
Proof. unfold tx_mm. keeps_tac. Qed.
Lemma keeps_llgmm_assign x id f g : keeps (wf_but x) (llgmm_assign id f g).
Proof. unfold llgmm_assign. keeps_tac. Qed.
Lemma keeps_delete_pdp x id : keeps (wf_but x) (sgsn_delete_pdp_ctx id).
Proof. unfold sgsn_delete_pdp_ctx. keeps_tac. Qed.
Hint Resolve keeps_tx_mm keeps_llgmm_assign keeps_delete_pdp : keeps.

Lemma keeps_new_lib l :
  keeps sgsn_wf (lib ← gets next_id;
                 modify (fun st => st <| libs ::= insert lib l |> <| next_id ::= S |>);; mret lib : SG nat).
Proof.
  intros st Hw. unfold wlp, gets, modify, mbind, M_bind, mret, M_ret. cbn.
  destruct Hw. split; cbn; try (by eauto using Nat.lt_lt_succ_r).
  intros i [<-|Hi]%lookup_insert_is_Some'; [lia|]. apply wf_fresh_lib0 in Hi. lia.
Qed.

Lemma keeps_new_lib_then {A} l (k : nat -> SG A) :
  (forall id, keeps sgsn_wf (k id)) ->
  keeps sgsn_wf (lib ← gets next_id;
                 modify (fun st => st <| libs ::= insert lib l |> <| next_id ::= S |>);; k lib).
Proof.
  intros Hk st Hw. rewrite wlp_bind. unfold gets, wlp at 1. rewrite wlp_bind. unfold modify, wlp at 1.
  apply Hk. apply (keeps_new_lib l st Hw).
Qed.

Lemma keeps_del_lib lib : keeps sgsn_wf (modify (fun st => st <| libs ::= delete lib |>) : SG unit).
Proof.
  apply keeps_modify. intros st Hw. destruct Hw. split; cbn; eauto.
  intros i [_ ?]%lookup_delete_is_Some. auto.
Qed.

Lemma keeps_create_pdp g mm n tp q a : keeps sgsn_wf (sgsn_create_pdp_ctx g mm n tp q a).
Proof.
  apply keeps_bind; [keeps_tac|intros [pctx|]; [|keeps_tac]].
  apply keeps_bind; [keeps_tac|intros m]. destruct (pdp_newpdp _ _); [|keeps_tac].
  apply keeps_new_lib_then. keeps_tac.
Qed.
Hint Resolve keeps_create_pdp keeps_del_lib : keeps.

(** ** Attach, detach, routing area update *)

Lemma keeps_authorize id mode : keeps sgsn_wf (gsm48_gmm_authorize id mode).
Proof. unfold gsm48_gmm_authorize, gsm48_tx_gmm_att_ack, gsm48_tx_gmm_id_req. keeps_tac. Qed.
Hint Resolve keeps_authorize : keeps.

Lemma keeps_id_resp o msg : keeps sgsn_wf (gsm48_rx_gmm_id_resp o msg).
Proof. unfold gsm48_rx_gmm_id_resp, drop_old_imsi, sgsn_mm_ctx_by_imsi. keeps_tac. Qed.

(** The P-TMSI that was drawn is in no other context. *)
Lemma wf_set_ptmsi st id t :
  wf_but (Some id) st -> (forall i m, mms st !! i = Some m -> p_tmsi m <> t) ->
  sgsn_wf (st <| mms ::= alter (fun m => m <| p_tmsi := t |>) id |>).
Proof.
  intros Hw Ht.
  assert (wf_but (Some id) (st <| mms ::= alter (fun m => m <| p_tmsi := t |>) id |>)) as Hw'.
  { apply (wf_same _ _ st); [done|]. split; cbn; auto using same_pdp_refl.
    apply rel_alter; [intros; apply same_mm_refl|]. intros m _. unfold same_mm, like_mm. by split_and!. }
  destruct Hw'. split; try done. intros i j m n _ _ Hi Hj Ep.
  destruct (decide (i = id)) as [->|Hi'], (decide (j = id)) as [->|Hj']; [done| | |].
  - exfalso. cbn in Hi, Hj. rewrite lookup_alter_ne in Hj by done.
    apply lookup_alter_Some in Hi as [[_ (y & _ & ->)]|[? _]]; [|done]. cbn in Ep. by apply (Ht j n).
  - exfalso. cbn in Hi, Hj. rewrite lookup_alter_ne in Hi by done.
    apply lookup_alter_Some in Hj as [[_ (y & _ & ->)]|[? _]]; [|done]. cbn in Ep. by apply (Ht i m).
  - apply (wf_ptmsi0 i j m n); congruence || done.
Qed.

Lemma hoare_new_ptmsi id : hoare (wf_but (Some id)) (new_ptmsi id) (fun _ => sgsn_wf).
Proof.
  apply (hoare_bind _ _ _ (fun _ => wf_but (Some id))).
  { apply keeps_mm_upd. intros m. unfold same_mm, like_mm. by split_and!. }
  intros _. apply (hoare_bind _ _ _ _ _ (hoare_ptmsi_loop (Some id) rand_draws)). intros t st [Hw Ht].
  unfold wlp. destruct (mms st !! id) as [m|] eqn:Hm.
  - rewrite (run_mm_upd _ _ _ _ Hm). by apply wf_set_ptmsi.
  - unfold mm_upd, mm_get, load, mbind, M_bind. by rewrite Hm.
Qed.

Lemma hoare_att_new_ctx t raid msg f :
  (forall id m, same_mm (Some id) id m (f m)) ->
  hoare sgsn_wf (att_new_ctx t raid msg f)
    (fun o st => match o with Some id => wf_but (Some id) st | None => sgsn_wf st end).
Proof.
  intros Hf. apply (hoare_bind _ _ _ _ _ (hoare_mm_alloc t raid)).
  intros [id|]; [|by apply hoare_ret].
  apply (hoare_bind _ _ _ (fun _ => wf_but (Some id))).
  { intros st [Hw _]. by apply (keeps_mm_upd (Some id)). }
  intros _. apply (hoare_bind _ _ _ (fun _ => wf_but (Some id))); [apply keeps_fc_ms_init|].
  intros _. by apply hoare_ret.
Qed.

Definition att_found (r : res nat) (st : sgsn_state) : Prop :=
  match r with Ok id => wf_but (Some id) st | Err _ => sgsn_wf st end.

Lemma hoare_reject msg cause :
  hoare sgsn_wf (rc ← gsm48_tx_gmm_att_rej_oldmsg msg cause; mret (Err rc)) att_found.
Proof. apply (hoare_bind _ _ _ (fun _ => sgsn_wf)); [apply keeps_sendmsg|]. intros rc. by apply hoare_ret. Qed.

Lemma hoare_att_find o msg raid ty mi s : hoare sgsn_wf (att_find_ctx o msg raid ty mi s) att_found.
Proof.
  unfold att_find_ctx.
  assert (forall id, hoare sgsn_wf (mret (Ok id) : SG (res nat)) att_found) as Hok.
  { intros id st Hw. by apply wf_but_weaken. }
  destruct (_ =? _); [|destruct (_ =? _); [|apply hoare_reject]];
    (apply (hoare_bind _ _ _ (fun _ => sgsn_wf));
       [unfold sgsn_mm_ctx_by_imsi, sgsn_mm_ctx_by_ptmsi; destruct o; [apply keeps_ret|apply keeps_gets]|]);
    (intros [id|]; [apply Hok|]).
  - destruct (negb _); [apply hoare_reject|].
    eapply hoare_bind.
    { apply hoare_att_new_ctx. intros id m. unfold same_mm, like_mm. by split_and!. }
    intros [id|]; [by apply hoare_ret|apply hoare_reject].
  - eapply hoare_bind.
    { apply hoare_att_new_ctx. intros id m. unfold same_mm, like_mm. by split_and!. }
    intros [id|]; [by apply hoare_ret|done].
Qed.

Lemma keeps_att_req o msg l : keeps sgsn_wf (gsm48_rx_gmm_att_req o msg l).
Proof.
  unfold gsm48_rx_gmm_att_req. destruct (bssgp_parse_cell_id _) as [raid cid].
  do 3 (destruct (_ <? _); [apply keeps_sendmsg|]).
  apply (hoare_bind _ _ _ _ _ (hoare_att_find _ _ _ _ _ _)). intros [id|rc]; [|apply keeps_ret].
  unfold msgid2mmctx, local_tlli.
  do 3 (apply (hoare_bind _ _ _ (fun _ => wf_but (Some id)));
          [apply keeps_mm_upd; intros m; unfold same_mm, like_mm; by split_and!|intros _]).
  apply (hoare_bind _ _ _ (fun _ => wf_but (Some id))).
  { destruct (_ <? _); [apply keeps_fault|apply keeps_mm_upd; intros m; unfold same_mm, like_mm; by split_and!]. }
  intros _. apply (hoare_bind _ _ _ _ _ (hoare_new_ptmsi id)). intros _.
  change (keeps sgsn_wf (local_tlli id;; llgmm_assign id tlli tlli_new;; gsm48_gmm_authorize id GMM_T3350_MODE_ATT)).
  unfold local_tlli. keeps_tac.
Qed.

Lemma keeps_det_req id msg : keeps sgsn_wf (gsm48_rx_gmm_det_req id msg).
Proof. unfold gsm48_rx_gmm_det_req, gsm48_tx_gmm_det_ack. keeps_tac. apply keeps_for_each. keeps_tac. Qed.

Lemma keeps_ra_upd msg : keeps sgsn_wf (gsm48_rx_gmm_ra_upd_req msg).
Proof.
  assert (forall id, keeps sgsn_wf (new_ptmsi id)) as Hn.
  { intros id st Hw. by apply hoare_new_ptmsi, wf_but_weaken. }
  unfold gsm48_rx_gmm_ra_upd_req, gsm48_tx_gmm_ra_upd_rej, gsm48_tx_gmm_ra_upd_ack,
    process_ms_ctx_status, msgid2mmctx, local_tlli.
  keeps_tac. apply keeps_for_each. keeps_tac.
Qed.
Hint Resolve keeps_id_resp keeps_att_req keeps_det_req keeps_ra_upd : keeps.

Lemma keeps_rcv_gmm o msg l : keeps sgsn_wf (gsm0408_rcv_gmm o msg l).
Proof.
  unfold gsm0408_rcv_gmm, new_tlli_confirmed, gsm48_tx_gmm_status, gsm48_tx_gmm_status_oldmsg, _tx_status.
  keeps_tac.
Qed.

Hint Resolve keeps_rcv_gmm : keeps.

(** ** Timeouts *)

(** The state and the event when a message is sent to a mobile. *)
Definition sent_mm (id : nat) : sgsn_state -> sgsn_state :=
  fun st => st <| mms ::= alter (fun m => m <| mm_ctrg ::= ctr_add (mm_ctr_index GMM_CTR_PKTS_SIG_OUT) 1 |>) id |>.
Definition msg_to_mm (id : nat) (m : sgsn_mm_ctx) (data : list Z) (cmd : bool) : sgsn_event :=
  EvLlcTxUi (tlli m) (mm_nsei m) (mm_bvci m) data cmd (Some id).

Lemma run_tx_mm id m data cmd st :
  msgb_ok = true -> mms st !! id = Some m ->
  tx_mm id data cmd st
  = Some (event_rc (msg_to_mm id m (data m) cmd), sent_mm id st, [msg_to_mm id m (data m) cmd]).
Proof.
  intros Hok Hm. unfold tx_mm. run_with (run_mm_get _ _ _ Hm).
  unfold gsm48_gmm_sendmsg. rewrite Hok. cbn [negb mmctx2msgid].
  unfold mm_ctr_add. by run_with (run_mm_upd _ _ _ _ Hm).
Qed.

Lemma wf_sent_mm id st : sgsn_wf st -> sgsn_wf (sent_mm id st).
Proof.
  intros Hw. apply (wf_same _ _ st); [done|]. split; cbn; auto using same_pdp_refl.
  apply rel_alter; [intros; apply same_mm_refl|]. intros m _. unfold same_mm, like_mm. by split_and!.
Qed.

Lemma wf_mm_schedule id m s st :
  sgsn_wf st -> mms st !! id = Some m -> 0 <= mm_num_T_exp m < 5 ->
  sgsn_wf (st <| mm_timers ::= insert id s |>).
Proof.
  intros Hw Hm Hn. apply (wf_like _ _ st); [done| |].
  - split; cbn; auto.
  - destruct (wf_timers _ _ _ Hw) as (H1 & H2 & H3 & H4). split_and!; cbn; auto.
    + intros i [<-|?]%lookup_insert_is_Some'; [|auto]. destruct Hw. apply wf_fresh_mm0. by eexists.
    + intros i m' [<-|?]%lookup_insert_is_Some' Hm'; [by simplify_eq|eauto].
Qed.

(** [send] leaves the state alone but for the counter of messages to the mobile. *)
Definition only_sends {A} (id : nat) (send : SG A) : Prop :=
  forall st, match send st with
             | Some (_, st', _) => st' = st \/ st' = sent_mm id st
             | None => True
             end.

Lemma only_sends_ret id : only_sends id (mret tt : SG unit).
Proof. intros st. by left. Qed.
Lemma only_sends_tx_mm id data cmd : only_sends id (tx_mm id data cmd).
Proof.
  intros st. destruct (mms st !! id) as [m|] eqn:Hm; [|by unfold tx_mm; rewrite mm_get_None].
  destruct msgb_ok eqn:Hok.
  - rewrite (run_tx_mm id m) by done. by right.
  - unfold tx_mm, mm_get, load, mbind, M_bind, gsm48_gmm_sendmsg. by rewrite Hm, Hok.
Qed.
Lemma only_sends_then {A} id (send : SG A) : only_sends id send -> only_sends id (send;; mret tt).
Proof.
  intros H st. specialize (H st). unfold mbind, M_bind. by destruct (send st) as [[[a st'] ev]|].
Qed.

(** A message is sent again and its timer scheduled. *)
Lemma keeps_retransmit {A} id m (send : SG A) s st :
  only_sends id send -> sgsn_wf st -> mms st !! id = Some m -> 0 <= mm_num_T_exp m < 5 ->
  wlp (send;; mm_schedule id s) (fun _ => sgsn_wf) st.
Proof.
  intros Hs Hw Hm Hn. specialize (Hs st). rewrite wlp_bind. unfold wlp at 1.
  destruct (send st) as [[[a st'] ev]|]; [|done].
  destruct Hs as [->| ->]; [by apply (wf_mm_schedule id m)|].
  apply (wf_mm_schedule id (m <| mm_ctrg ::= ctr_add (mm_ctr_index GMM_CTR_PKTS_SIG_OUT) 1 |>)); [|  |done].
  - by apply wf_sent_mm.
  - cbn. by rewrite lookup_alter_eq, Hm.
Qed.

Lemma keeps_mm_timer_cb id st :
  sgsn_wf st -> is_Some (mm_timers st !! id) -> wlp (mmctx_timer_cb id) (fun _ => sgsn_wf) st.
Proof.
  intros Hw Ht. unfold mmctx_timer_cb. rewrite wlp_bind. unfold modify at 1, wlp at 1.
  set (st0 := st <| mm_timers ::= delete id |>).
  destruct (mms st !! id) as [m|] eqn:Hm; [|unfold wlp; by rewrite mm_upd_None].
  pose proof (wf_mm_timer Hw id m Ht Hm) as Hn.
  rewrite wlp_bind. unfold wlp at 1. rewrite (run_mm_upd id _ m st0) by done.
  set (f := fun m => m <| mm_num_T_exp ::= fun n => n + 1 |>).
  set (st1 := st0 <| mms ::= alter f id |>).
  assert (sgsn_wf st1) as Hw1.
  { apply (wf_mm_timer_upd _ st _ id f m); [done..|].
    intros i Hs. cbn in Hs. apply lookup_delete_is_Some in Hs as [Hi ?]. by right. }
  assert (mms st1 !! id = Some (f m)) as Hm1 by (cbn; by rewrite lookup_alter_eq, Hm).
  rewrite wlp_bind. unfold wlp at 1. rewrite (run_mm_get _ _ _ Hm1).
  assert (keeps sgsn_wf (mm_upd id (fun m => m <| mm_state := GMM_DEREGISTERED |>))) as Hd by keeps_tac.
  repeat case_match; try (by apply Hd);
    try (apply (keeps_retransmit id (f m)); [|done..|cbn in *; lia]);
    try first [ apply only_sends_ret | apply only_sends_tx_mm | apply only_sends_then, only_sends_tx_mm ].
  all: try (apply (wf_mm_schedule id (f m)); [done..|cbn in *; lia]).
  all: assert (keeps sgsn_wf (gsm48_tx_gmm_att_rej id GMM_CAUSE_MS_ID_NOT_DERIVED)) as Hr
    by (unfold gsm48_tx_gmm_att_rej, _tx_gmm_att_rej; keeps_tac).
  - by apply (keeps_bind _ _ _ Hr (fun _ => Hd)).
  - exact Hw1.
Qed.

(** ** Session management *)

Lemma run_deact_req id p mm m cause st :
  msgb_ok = true -> pdps st !! id = Some p -> pdp_mm p = Some mm -> mms st !! mm = Some m ->
  gsm48_tx_gsm_deact_pdp_req id cause st
  = let ev := msg_to_mm mm m (sm_hdr (ti p) GSM48_MT_GSM_DEACT_PDP_REQ ++ [cause]) false in
    Some (event_rc ev,
          sent_mm mm (st <| pdps ::= alter (fun p => p <| pdp_T := 3395 |> <| pdp_num_T_exp := 0 |>) id |>
                         <| pdp_timers ::= insert id GSM0408_T3395_SECS |>), [ev]).
Proof.
  intros Hok Hp Hmm Hm. unfold gsm48_tx_gsm_deact_pdp_req, pdpctx_timer_start.
  set (f := fun p => p <| pdp_T := 3395 |> <| pdp_num_T_exp := 0 |>).
  set (st1 := st <| pdps ::= alter f id |> <| pdp_timers ::= insert id GSM0408_T3395_SECS |>).
  assert ((pdp_upd id f;; pdp_schedule id GSM0408_T3395_SECS) st = Some (tt, st1, [])) as H1.
  { by run_with (run_pdp_upd _ _ _ _ Hp). }
  run_with H1.
  assert (pdps st1 !! id = Some (f p)) as Hp1 by (cbn; by rewrite lookup_alter_eq, Hp).
  run_with (run_pdp_get _ _ _ Hp1). cbn [f pdp_mm]. unfold f at 1. cbn. rewrite Hmm.
  cbn [deref]. rewrite run_ret. unfold _gsm48_tx_gsm_deact_pdp_req.
  by rewrite (run_tx_mm mm m) by done.
Qed.

Lemma deact_req_no_memory {A} id cause (k : Z -> SG A) st :
  msgb_ok = false -> (gsm48_tx_gsm_deact_pdp_req id cause ≫= k) st = None.
Proof.
  intros Hok.
  assert (forall id ids data cmd (st : sgsn_state), gsm48_gmm_sendmsg ids data cmd id st = None) as Hs.
  { intros. unfold gsm48_gmm_sendmsg. by rewrite Hok. }
  unfold gsm48_tx_gsm_deact_pdp_req, _gsm48_tx_gsm_deact_pdp_req, tx_mm, mbind, M_bind.
  destruct (pdpctx_timer_start _ _ _ st) as [[[[] st1] ev]|]; [|done].
  destruct (pdp_get id st1) as [[[p st2] ev2]|]; [|done].
  destruct (deref (pdp_mm p) st2) as [[[mm st3] ev3]|]; [|done].
  destruct (mm_get mm st3) as [[[m st4] ev4]|]; [|done]. by rewrite Hs.
Qed.

Lemma wf_deact_started id p s st :
  sgsn_wf st -> pdps st !! id = Some p ->
  sgsn_wf (st <| pdps ::= alter (fun p => p <| pdp_T := 3395 |> <| pdp_num_T_exp := 0 |>) id |>
              <| pdp_timers ::= insert id s |>).
Proof.
  intros Hw Hp. eapply (wf_pdp_timer_upd _ st _ id (fun p => p <| pdp_T := 3395 |> <| pdp_num_T_exp := 0 |>) p);
    [done..|].
  intros i Hs. cbn in Hs. destruct (decide (i = id)) as [->|Hne]; [by left|right].
  split; [done|]. by apply lookup_insert_is_Some' in Hs as [?|?].
Qed.

Lemma keeps_deact_req id cause : keeps sgsn_wf (gsm48_tx_gsm_deact_pdp_req id cause).
Proof.
  intros st Hw. destruct (pdps st !! id) as [p|] eqn:Hp.
  2: { unfold wlp, gsm48_tx_gsm_deact_pdp_req, pdpctx_timer_start, mbind, M_bind.
       unfold pdp_upd, pdp_get, load, mbind, M_bind. by rewrite Hp. }
  unfold gsm48_tx_gsm_deact_pdp_req. rewrite wlp_bind. unfold pdpctx_timer_start.
  rewrite wlp_bind. unfold wlp at 1. rewrite (run_pdp_upd _ _ _ _ Hp).
  unfold pdp_schedule, modify, wlp at 1.
  assert (forall st', sgsn_wf st' ->
    wlp (p ← pdp_get id; mm ← deref (pdp_mm p); _gsm48_tx_gsm_deact_pdp_req mm (ti p) cause)
      (fun _ => sgsn_wf) st') as H.
  { change (keeps sgsn_wf (p ← pdp_get id; mm ← deref (pdp_mm p); _gsm48_tx_gsm_deact_pdp_req mm (ti p) cause)).
    unfold _gsm48_tx_gsm_deact_pdp_req. keeps_tac. }
  apply H. by apply (wf_deact_started id p).
Qed.
Hint Resolve keeps_deact_req : keeps.

Lemma keeps_act_pdp_acc id : keeps sgsn_wf (gsm48_tx_gsm_act_pdp_acc id).
Proof. unfold gsm48_tx_gsm_act_pdp_acc. keeps_tac. Qed.
Hint Resolve keeps_act_pdp_acc : keeps.

Lemma keeps_by_nsapi x mm n : keeps (wf_but x) (sgsn_pdp_ctx_by_nsapi mm n).
Proof. unfold sgsn_pdp_ctx_by_nsapi. keeps_tac. Qed.
Lemma keeps_by_tid x mm t : keeps (wf_but x) (sgsn_pdp_ctx_by_tid mm t).
Proof. unfold sgsn_pdp_ctx_by_tid. keeps_tac. Qed.
Hint Resolve keeps_by_nsapi keeps_by_tid : keeps.

Lemma keeps_rcv_gsm o msg : keeps sgsn_wf (gsm0408_rcv_gsm o msg).
Proof.
  unfold gsm0408_rcv_gsm, gsm48_rx_gsm_act_pdp_req, gsm48_rx_gsm_deact_pdp_req, gsm48_rx_gsm_deact_pdp_ack,
    gsm48_tx_gmm_status_oldmsg, gsm48_tx_sm_status_oldmsg, gsm48_tx_sm_status, _tx_status,
    gsm48_tx_gsm_act_pdp_rej, _gsm48_tx_gsm_deact_pdp_acc, sgsn_ggsn_ctx_by_id.
  keeps_tac.
Qed.
Hint Resolve keeps_rcv_gsm : keeps.

Lemma keeps_gmm_rcvmsg msg l : keeps sgsn_wf (gsm0408_gprs_rcvmsg msg l).
Proof. unfold gsm0408_gprs_rcvmsg, msgid2mmctx. keeps_tac. Qed.

(** The state in which a deactivation has been requested. *)
Definition deact_requested (id mm : nat) (st : sgsn_state) : sgsn_state :=
  sent_mm mm (st <| pdps ::= alter (fun p => p <| pdp_T := 3395 |> <| pdp_num_T_exp := 0 |>) id |>
                 <| pdp_timers ::= insert id GSM0408_T3395_SECS |>).

(** The state when such a timer has expired. *)
Definition deact_expired (id : nat) (st : sgsn_state) : sgsn_state :=
  st <| pdp_timers ::= delete id |>
     <| pdps ::= alter (fun p => p <| pdp_num_T_exp ::= fun n => n + 1 |>) id |>.

Lemma pdp_timer_cb_unfold id p st :
  pdps st !! id = Some p -> pdp_T p = 3395 -> pdp_num_T_exp p = 0 ->
  pdpctx_timer_cb id st
  = (gsm48_tx_gsm_deact_pdp_req id GSM_CAUSE_NET_FAIL;; pdp_schedule id GSM0408_T3395_SECS)
      (deact_expired id st).
Proof.
  intros Hp HT Hn. unfold pdpctx_timer_cb. run_steps.
  set (f := fun p => p <| pdp_num_T_exp ::= fun n => n + 1 |>).
  assert (pdps (st <| pdp_timers ::= delete id |>) !! id = Some p) as Hp0 by done.
  run_with (run_pdp_upd id f p _ Hp0).
  assert (pdps (deact_expired id st) !! id = Some (f p)) as Hp1 by (cbn; by rewrite lookup_alter_eq, Hp).
  run_with (run_pdp_get _ _ _ Hp1). run_steps.
  unfold f at 1 2. cbn [pdp_T pdp_num_T_exp upd upd_pdp_num_T_exp]. by rewrite HT, Hn.
Qed.

Lemma timers_commute (f : sgsn_mm_ctx -> sgsn_mm_ctx) (g h : sgsn_pdp_ctx -> sgsn_pdp_ctx) mm id s st :
  (forall p, g (h p) = g p) ->
  st <| pdp_timers ::= delete id |> <| pdps ::= alter h id |> <| pdps ::= alter g id |>
     <| pdp_timers ::= insert id s |> <| mms ::= alter f mm |> <| pdp_timers ::= insert id s |>
  = st <| pdps ::= alter g id |> <| pdp_timers ::= insert id s |> <| mms ::= alter f mm |>.
Proof.
  intros Hg. destruct st as [a1 a2 a3 a4 a5 a6 a7 a8 a9 a10 a11 a12 a13 a14].
  transitivity (mk_sgsn_state a1 a2 (alter f mm a3) a4 (alter g id (alter h id a5)) a6 a7 a8 a9 a10
                  (<[id := s]> (<[id := s]> (delete id a11))) a12 a13 a14); [reflexivity|].
  rewrite alter_alter_eq, insert_insert_eq, insert_delete_eq.
  rewrite (alter_ext (g ∘ h) g) by (intros; apply Hg). reflexivity.
Qed.

(** The timer of a PDP context that waits for its deactivation: another request is sent and the
    timer runs again. *)
Lemma run_pdp_timer_cb id p mm m st :
  msgb_ok = true -> pdps st !! id = Some p -> pdp_mm p = Some mm -> mms st !! mm = Some m ->
  pdp_T p = 3395 -> pdp_num_T_exp p = 0 ->
  pdpctx_timer_cb id st
  = Some (tt, deact_requested id mm st,
          [msg_to_mm mm m (sm_hdr (ti p) GSM48_MT_GSM_DEACT_PDP_REQ ++ [GSM_CAUSE_NET_FAIL]) false]).
Proof.
  intros Hok Hp Hmm Hm HT Hn. rewrite (pdp_timer_cb_unfold id p) by done.
  set (p1 := p <| pdp_num_T_exp ::= fun n => n + 1 |>).
  assert (pdps (deact_expired id st) !! id = Some p1) as Hp1 by (cbn; by rewrite lookup_alter_eq, Hp).
  run_with (run_deact_req id p1 mm m GSM_CAUSE_NET_FAIL _ Hok Hp1 Hmm Hm).
  unfold pdp_schedule, modify. cbn [emits app]. do 3 f_equal.
  unfold deact_requested, sent_mm, deact_expired. by apply timers_commute.
Qed.

Lemma wf_deact_requested id p mm st :
  sgsn_wf st -> pdps st !! id = Some p -> sgsn_wf (deact_requested id mm st).
Proof. intros Hw Hp. by apply wf_sent_mm, (wf_deact_started id p). Qed.

Lemma keeps_pdp_timer_cb id st :
  sgsn_wf st -> is_Some (pdp_timers st !! id) -> wlp (pdpctx_timer_cb id) (fun _ => sgsn_wf) st.
Proof.
  intros Hw Ht. destruct (pdps st !! id) as [p|] eqn:Hp.
  2: { unfold wlp, pdpctx_timer_cb. run_steps. by rewrite pdp_upd_None. }
  destruct (wf_pdp_timer Hw id p Ht Hp) as [HT Hn].
  destruct (wf_pdp_mm Hw id p Hp) as (mm & m & Hmm & Hm & _). unfold wlp.
  destruct msgb_ok eqn:Hok.
  - rewrite (run_pdp_timer_cb id p mm m st) by done. by apply (wf_deact_requested id p).
  - rewrite (pdp_timer_cb_unfold id p) by done.
    by rewrite deact_req_no_memory.
Qed.

(** ** Callbacks of libgtp *)

Lemma keeps_pdp_llme x p : keeps (wf_but x) (pdp_llme p).
Proof. unfold pdp_llme. keeps_tac. Qed.
Hint Resolve keeps_pdp_llme : keeps.

Lemma keeps_pdp_reject lib pctx cause : keeps sgsn_wf (pdp_reject lib pctx cause).
Proof. unfold pdp_reject, gsm48_tx_gsm_act_pdp_rej. keeps_tac. Qed.
Hint Resolve keeps_pdp_reject : keeps.

Lemma keeps_create_conf lib pctx cause : keeps sgsn_wf (create_pdp_conf lib pctx cause).
Proof. unfold create_pdp_conf. keeps_tac. Qed.

Lemma keeps_delete_conf pctx : keeps sgsn_wf (delete_pdp_conf pctx).
Proof. unfold delete_pdp_conf, gsm48_tx_gsm_deact_pdp_acc, _gsm48_tx_gsm_deact_pdp_acc. keeps_tac. Qed.

Lemma keeps_drop_pdps g ids : keeps sgsn_wf (drop_pdps g ids).
Proof. induction ids; cbn [drop_pdps]; unfold drop_one_pdp; keeps_tac. Qed.
Hint Resolve keeps_drop_pdps : keeps.

Lemma keeps_drop_mms g ids : keeps sgsn_wf (drop_mms g ids).
Proof. induction ids; cbn [drop_mms]; keeps_tac. Qed.
Hint Resolve keeps_drop_mms : keeps.

Lemma keeps_recovery addr r : keeps sgsn_wf (cb_recovery addr r).
Proof. unfold cb_recovery, sgsn_ggsn_ctx_by_addr, drop_all_pdp_for_ggsn. keeps_tac. Qed.

Lemma keeps_data_counters pdp mm len out : keeps sgsn_wf (data_counters pdp mm len out).
Proof. unfold data_counters. keeps_tac. Qed.
Hint Resolve keeps_data_counters keeps_tx_paging : keeps.

Lemma keeps_data_ind lib packet : keeps sgsn_wf (cb_data_ind lib packet).
Proof. unfold cb_data_ind. keeps_tac. Qed.

Lemma keeps_sndcp_ud_ind raid t n npdu : keeps sgsn_wf (sgsn_rx_sndcp_ud_ind raid t n npdu).
Proof. unfold sgsn_rx_sndcp_ud_ind. keeps_tac. Qed.

End keeps.

End GmmInv.
