(* ===== verification/SgsnRuns.v ===== *)
(** The operations of the SGSN in any order: the messages of BSSGP, LLC and libgtp, the timers, the
    requests of the layers above and the configuration of GGSNs. *)

From S2P Require Import Prelude Sgsn SgsnInv Bssgp BssgpInv Gmm Gtp GmmInv SgsnDemo.
Import Sgsn SgsnInv Bssgp BssgpInv Gmm Gtp GmmInv SgsnDemo.

Module SgsnRuns.



Section runs.
Context {env : SgsnEnv}.




End runs.






End SgsnRuns.
