(* ===== verification/GmmProps.v ===== *)
(** What the timers of mobility and session management do, and the restart of a GGSN. *)

From S2P Require Import Prelude Sgsn SgsnInv Bssgp BssgpInv Gmm Gtp GmmInv SgsnDemo.
Import Sgsn SgsnInv Bssgp BssgpInv Gmm Gtp GmmInv SgsnDemo.

Module GmmProps.

Section timers.
Context {env : SgsnEnv}.
Abbreviation SG := (M sgsn_state sgsn_event).

(** The same timeout [n] times in a row, with nothing from the mobile in between. *)
Fixpoint repeat_m (n : nat) (m : SG unit) : SG unit :=
  match n with
  | O => mret tt
  | S n => m;; repeat_m n m
  end.


(** ** T3395 *)

(** The deactivation of a PDP context is never given up: however often T3395 expires while the mobile is
    silent, each time one more DEACTIVATE PDP CONTEXT REQUEST is sent and the timer runs again; the GGSN is
    never asked to delete the context, which stays in its state with its counter at zero. *)
Theorem deactivation_never_ends n st id p mm m :
  msgb_ok = true -> pdps st !! id = Some p -> pdp_mm p = Some mm -> mms st !! mm = Some m ->
  pdp_T p = 3395 -> pdp_num_T_exp p = 0 -> is_Some (pdp_timers st !! id) ->
  exists st', repeat_m n (pdpctx_timer_cb id) st
    = Some (tt, st', replicate n (msg_to_mm mm m (sm_hdr (ti p) GSM48_MT_GSM_DEACT_PDP_REQ ++ [GSM_CAUSE_NET_FAIL]) false))
    /\ pdps st' !! id = Some p /\ is_Some (pdp_timers st' !! id).
Proof.
  intros Hok. revert st m. induction n as [|n IH]; intros st m Hp Hmm Hm HT Hn Hs.
  { by exists st. }
  cbn [repeat_m]. rewrite (run_bind _ _ _ _ _ _ (run_pdp_timer_cb id p mm m st Hok Hp Hmm Hm HT Hn)).
  set (st1 := deact_requested id mm st).
  assert (pdps st1 !! id = Some p) as Hp1.
  { cbn. rewrite lookup_alter_eq, Hp. cbn. f_equal. destruct p; cbn in *. by subst. }
  set (m1 := m <| mm_ctrg ::= ctr_add (mm_ctr_index GMM_CTR_PKTS_SIG_OUT) 1 |>).
  assert (mms st1 !! mm = Some m1) as Hm1 by (cbn; by rewrite lookup_alter_eq, Hm).
  destruct (IH st1 m1) as (st' & -> & ? & ?); [done..| |].
  { cbn. rewrite lookup_insert_eq. by eexists. }
  by exists st'.
Qed.

(** ** T3350, T3360, T3370 *)













(** ** The restart of a GGSN *)

(** A PDP context of a GGSN. *)
Definition of_ggsn (st : sgsn_state) (g id : nat) : bool :=
  bool_decide ((p ← pdps st !! id; pdp_ggsn p) = Some g).

(** The PDP contexts of the GGSN, in the order of the mobiles and of their lists. *)
Definition ggsn_pdps (st : sgsn_state) (g : nat) : list nat :=
  mm ← sgsn_mm_ctxts st;
  match mms st !! mm with
  | Some m => List.filter (of_ggsn st g) (pdp_list m)
  | None => []
  end.

(** The request to deactivate a context. *)
Definition deact_event (st : sgsn_state) (id : nat) : option sgsn_event :=
  p ← pdps st !! id;
  mm ← pdp_mm p;
  m ← mms st !! mm;
  Some (msg_to_mm mm m (sm_hdr (ti p) GSM48_MT_GSM_DEACT_PDP_REQ ++ [GSM_CAUSE_NET_FAIL]) false).

(** Whether the mobile of a context is registered and not suspended. *)
Definition owner_normal (st : sgsn_state) (id : nat) : bool :=
  bool_decide ((p ← pdps st !! id; mm ← pdp_mm p; m ← mms st !! mm; Some (mm_state m)) = Some GMM_REGISTERED_NORMAL).

(** The deactivation of a context is under way. *)
Definition deactivating (st : sgsn_state) (id : nat) : Prop :=
  is_Some (pdp_timers st !! id) /\ exists p, pdps st !! id = Some p /\ pdp_T p = 3395.

(** What the walk through the contexts leaves alone. *)
Definition kept (st st' : sgsn_state) : Prop :=
  (forall i m, mms st !! i = Some m -> exists c, mms st' !! i = Some (m <| mm_ctrg := c |>))
  /\ (forall i p, pdps st !! i = Some p -> exists p', pdps st' !! i = Some p'
        /\ pdp_mm p' = pdp_mm p /\ pdp_ggsn p' = pdp_ggsn p /\ ti p' = ti p)
  /\ (forall i, deactivating st i -> deactivating st' i).

Lemma kept_refl st : kept st st.
Proof. split_and!; [|by eauto|done]. intros i m Hm. exists (mm_ctrg m). by destruct m. Qed.
Lemma kept_trans st1 st2 st3 : kept st1 st2 -> kept st2 st3 -> kept st1 st3.
Proof.
  intros (Hm & Hp & Hd) (Hm' & Hp' & Hd'). split_and!; [| |auto].
  - intros i m Hi. destruct (Hm i m Hi) as [c Hc]. destruct (Hm' _ _ Hc) as [c' Hc']. by exists c'.
  - intros i p Hi. destruct (Hp i p Hi) as (p1 & H1 & E1 & E2 & E3).
    destruct (Hp' _ _ H1) as (p2 & H2 & F1 & F2 & F3). exists p2. by rewrite F1, F2, F3.
Qed.

Lemma kept_requested st id p mm :
  pdps st !! id = Some p -> kept st (deact_requested id mm st).
Proof.
  intros Hp. split_and!; cbn.
  - intros i m Hm. destruct (decide (i = mm)) as [->|?].
    + rewrite lookup_alter_eq, Hm. by eexists.
    + rewrite lookup_alter_ne by done. exists (mm_ctrg m). rewrite Hm. by destruct m.
  - intros i q Hq. destruct (decide (i = id)) as [->|?].
    + rewrite lookup_alter_eq, Hq. by eexists.
    + rewrite lookup_alter_ne by done. by exists q.
  - intros i (Ht & q & Hq & HT). split; [by apply lookup_insert_is_Some'; right|].
    cbn. destruct (decide (i = id)) as [->|?].
    + rewrite lookup_alter_eq, Hq. by eexists.
    + rewrite lookup_alter_ne by done. by exists q.
Qed.

Lemma requested_deactivating st id p mm :
  pdps st !! id = Some p -> deactivating (deact_requested id mm st) id.
Proof.
  intros Hp. split; cbn; [rewrite lookup_insert_eq; by eexists|]. rewrite lookup_alter_eq, Hp. by eexists.
Qed.

Lemma run_pdp_freed id p st :
  pdps st !! id = Some p -> exists st', sgsn_pdp_ctx_free id st = Some (tt, st', []) /\ pdps st' !! id = None.
Proof.
  intros Hp. unfold sgsn_pdp_ctx_free. run_with (run_pdp_get _ _ _ Hp).
  destruct (pdp_mm p); eexists; (split; [reflexivity|]); cbn; by rewrite lookup_delete_eq.
Qed.

(** A context whose mobile is not registered is freed, and then its link is followed. *)
Lemma run_drop_bad {A} id p mm m (k : sgsn_pdp_ctx -> SG A) st :
  pdps st !! id = Some p -> pdp_mm p = Some mm -> mms st !! mm = Some m -> mm_state m <> GMM_REGISTERED_NORMAL ->
  (drop_one_pdp id;; p ← pdp_get id; k p) st = None.
Proof.
  intros Hp Hmm Hm Hs.
  assert (drop_one_pdp id st = sgsn_pdp_ctx_free id st) as E.
  { unfold drop_one_pdp. run_with (run_pdp_get _ _ _ Hp). rewrite Hmm. cbn [deref]. rewrite run_ret.
    run_with (run_mm_get _ _ _ Hm). by rewrite bool_decide_eq_false_2. }
  destruct (run_pdp_freed id p st Hp) as (st' & Hrun & Hnone).
  unfold mbind at 1, M_bind at 1. rewrite E, Hrun. by rewrite pdp_get_None.
Qed.

Lemma run_drop_good id p mm m st :
  msgb_ok = true -> pdps st !! id = Some p -> pdp_mm p = Some mm -> mms st !! mm = Some m ->
  mm_state m = GMM_REGISTERED_NORMAL ->
  drop_one_pdp id st
  = Some (tt, deact_requested id mm st,
          [msg_to_mm mm m (sm_hdr (ti p) GSM48_MT_GSM_DEACT_PDP_REQ ++ [GSM_CAUSE_NET_FAIL]) false]).
Proof.
  intros Hok Hp Hmm Hm Hs. unfold drop_one_pdp. run_with (run_pdp_get _ _ _ Hp). rewrite Hmm. cbn [deref].
  rewrite run_ret. run_with (run_mm_get _ _ _ Hm). rewrite bool_decide_eq_true_2 by done.
  by rewrite (run_bind _ _ _ _ _ _ (run_deact_req id p mm m GSM_CAUSE_NET_FAIL st Hok Hp Hmm Hm)).
Qed.

Lemma run_drop_pdps g mm m ids st0 st :
  msgb_ok = true -> kept st0 st -> mms st0 !! mm = Some m ->
  (forall id, id ∈ ids -> exists p, pdps st0 !! id = Some p /\ pdp_mm p = Some mm) ->
  let hit := List.filter (of_ggsn st0 g) ids in
  (mm_state m <> GMM_REGISTERED_NORMAL -> hit <> [] -> drop_pdps g ids st = None)
  /\ (mm_state m = GMM_REGISTERED_NORMAL \/ hit = [] ->
      exists n st', drop_pdps g ids st = Some (n, st', omap (deact_event st0) hit)
        /\ kept st st' /\ forall id, id ∈ hit -> deactivating st' id).
Proof.
  intros Hok. revert st. induction ids as [|id ids IH]; intros st Hk Hm Hids hit.
  { split; [done|]. intros _. exists 0, st. split_and!; [done|apply kept_refl|]. by intros ? ?%elem_of_nil. }
  destruct (Hids id ltac:(by left)) as (p & Hp & Hpm).
  destruct (proj1 (proj2 Hk) _ _ Hp) as (p' & Hp' & Em & Eg & Et).
  destruct (proj1 Hk _ _ Hm) as (c & Hm').
  cbn [drop_pdps]. run_with (run_pdp_get _ _ _ Hp'). rewrite Eg.
  assert (of_ggsn st0 g id = bool_decide (pdp_ggsn p = Some g)) as Ehit by (unfold of_ggsn; by rewrite Hp).
  subst hit. cbn [List.filter]. rewrite Ehit. clear Ehit.
  assert (forall id, id ∈ ids -> exists p, pdps st0 !! id = Some p /\ pdp_mm p = Some mm) as Hids'.
  { intros i Hi. apply Hids. by right. }
  case_bool_decide as Eggsn.
  2: { rewrite run_ret. run_with (run_pdp_get _ _ _ Hp'). destruct (IH st Hk Hm Hids') as [IH1 IH2]. split.
       - intros H1 H2. unfold mbind, M_bind. by rewrite IH1.
       - intros H. destruct (IH2 H) as (n & st' & Hrun & Hk' & Hd). run_with Hrun.
         exists (n + 0), st'. split_and!; [|done..]. unfold mret, M_ret. cbn. by rewrite app_nil_r. }
  split.
  - intros Hne _. apply (run_drop_bad id p' mm (m <| mm_ctrg := c |>)); try done. by rewrite Em.
  - intros [Hs|]; [|done].
    rewrite (run_bind _ _ _ _ _ _ (run_drop_good id p' mm (m <| mm_ctrg := c |>) st Hok Hp' (eq_trans Em Hpm) Hm' Hs)).
    set (st1 := deact_requested id mm st).
    assert (kept st st1) as Hk1 by (by apply (kept_requested st id p')).
    destruct (proj1 (proj2 Hk1) _ _ Hp') as (p1 & Hp1 & _). run_with (run_pdp_get _ _ _ Hp1).
    destruct (IH st1 (kept_trans _ _ _ Hk Hk1) Hm Hids') as [_ IH2].
    destruct (IH2 (or_introl Hs)) as (n & st' & Hrun & Hk' & Hd). rewrite (run_bind _ _ _ _ _ _ Hrun).
    exists (n + 1), st'. split_and!.
    + cbn [emits mret M_ret omap list_omap]. unfold deact_event at 2. rewrite Hp. cbn. rewrite Hpm. cbn.
      rewrite Hm. cbn. by rewrite app_nil_r, Et.
    + by apply (kept_trans _ st1).
    + intros i [->|Hi]%elem_of_cons; [|by apply Hd]. apply (proj2 (proj2 Hk')). by apply (requested_deactivating st id p').
Qed.

(** The contexts of the GGSN of one mobile. *)
Definition mm_hit (st : sgsn_state) (g mm : nat) : list nat :=
  match mms st !! mm with
  | Some m => List.filter (of_ggsn st g) (pdp_list m)
  | None => []
  end.

Lemma owner_normal_hit st g mm m id :
  sgsn_wf st -> mms st !! mm = Some m -> id ∈ mm_hit st g mm ->
  owner_normal st id = bool_decide (mm_state m = GMM_REGISTERED_NORMAL).
Proof.
  intros Hw Hm Hin. unfold mm_hit in Hin. rewrite Hm in Hin. apply list_elem_of_In, filter_In in Hin as [Hin _].
  apply list_elem_of_In in Hin. destruct (wf_pdp_list Hw mm m Hm) as [_ Hl].
  destruct (Hl id Hin) as (p & Hp & Hpm). unfold owner_normal. rewrite Hp. cbn. rewrite Hpm. cbn. rewrite Hm. cbn.
  apply bool_decide_ext. split; congruence.
Qed.

Lemma run_drop_mms g l st0 st :
  msgb_ok = true -> sgsn_wf st0 -> kept st0 st -> (forall mm, mm ∈ l -> is_Some (mms st0 !! mm)) ->
  let hit := l ≫= mm_hit st0 g in
  (forallb (owner_normal st0) hit = false -> drop_mms g l st = None)
  /\ (forallb (owner_normal st0) hit = true ->
      exists n st', drop_mms g l st = Some (n, st', omap (deact_event st0) hit)
        /\ kept st st' /\ forall id, id ∈ hit -> deactivating st' id).
Proof.
  intros Hok Hw. revert st. induction l as [|mm l IH]; intros st Hk Hl hit.
  { split; [done|]. intros _. exists 0, st. split_and!; [done|apply kept_refl|]. by intros ? ?%elem_of_nil. }
  destruct (Hl mm ltac:(by left)) as [m Hm]. destruct (proj1 Hk _ _ Hm) as [c Hm'].
  cbn [drop_mms]. run_with (run_mm_get _ _ _ Hm'). change (pdp_list (m <| mm_ctrg := c |>)) with (pdp_list m).
  destruct (run_drop_pdps g mm m (pdp_list m) st0 st Hok Hk Hm) as [Hbad Hgood].
  { intros id Hid. by apply (wf_pdp_list Hw mm m Hm). }
  assert (hit = mm_hit st0 g mm ++ (l ≫= mm_hit st0 g)) as -> by done.
  assert (forall id, id ∈ mm_hit st0 g mm -> owner_normal st0 id = bool_decide (mm_state m = GMM_REGISTERED_NORMAL)) as Ho.
  { intros id. by apply owner_normal_hit. }
  assert (mm_hit st0 g mm = List.filter (of_ggsn st0 g) (pdp_list m)) as Eh by (unfold mm_hit; by rewrite Hm).
  rewrite forallb_app. rewrite <- Eh in Hbad, Hgood.
  destruct (forallb (owner_normal st0) (mm_hit st0 g mm)) eqn:Emm; cbn [andb].
  - destruct Hgood as (n & st1 & Hrun & Hk1 & Hd1).
    { destruct (decide (mm_hit st0 g mm = [])) as [?|Hne]; [by right|left].
      destruct (mm_hit st0 g mm) as [|id h]; [done|]. specialize (Ho id ltac:(by left)).
      cbn in Emm. rewrite Ho in Emm. apply andb_true_iff in Emm as [Emm _]. by apply bool_decide_eq_true in Emm. }
    rewrite (run_bind _ _ _ _ _ _ Hrun).
    destruct (IH st1 (kept_trans _ _ _ Hk Hk1)) as [Hbad2 Hgood2]; [intros i Hi; apply Hl; by right|]. split.
    + intros H. unfold mbind at 1, M_bind at 1. by rewrite Hbad2.
    + intros H. destruct (Hgood2 H) as (n' & st2 & Hrun2 & Hk2 & Hd2). rewrite (run_bind _ _ _ _ _ _ Hrun2).
      exists (n + n'), st2. split_and!.
      * unfold mret, M_ret. cbn [emits]. by rewrite app_nil_r, omap_app.
      * by apply (kept_trans _ st1).
      * intros id [Hi|Hi]%elem_of_app; [|by apply Hd2]. apply (proj2 (proj2 Hk2)). by apply Hd1.
  - split; [|done]. intros _. unfold mbind at 1, M_bind at 1. rewrite Hbad; [done| |].
    + intros Hs. assert (forallb (owner_normal st0) (mm_hit st0 g mm) = true); [|congruence].
      apply forallb_forall. intros id Hid. apply list_elem_of_In in Hid. rewrite (Ho id Hid). by apply bool_decide_eq_true.
    + intros E. by rewrite E in Emm.
Qed.

(** The restart of a GGSN: when a known GGSN comes with another restart counter, each of its PDP
    contexts is asked to be deactivated, once and in the order of the mobiles, and waits for T3395. That holds
    if and only if every mobile with such a context is registered and not suspended; if one is not,
    its context is freed under the walk, which then follows the freed link. *)
Theorem ggsn_restart st addr rec g gc :
  msgb_ok = true -> sgsn_wf st -> sgsn_ggsn_ctx_by_addr addr st = Some (Some g, st, []) -> ggsns st !! g = Some gc ->
  remote_restart_ctr gc <> -1 -> remote_restart_ctr gc <> rec ->
  if forallb (owner_normal st) (ggsn_pdps st g) then
    exists st', cb_recovery addr rec st = Some (0, st', omap (deact_event st) (ggsn_pdps st g))
      /\ forall id, id ∈ ggsn_pdps st g -> deactivating st' id
  else cb_recovery addr rec st = None.
Proof.
  intros Hok Hw Hby Hg H1 H2. unfold cb_recovery. run_with Hby.
  assert (ggsn_get g st = Some (gc, st, [])) as Hget by (unfold ggsn_get, load; by rewrite Hg). run_with Hget.
  apply Z.eqb_neq in H1, H2. rewrite H1, H2. cbn [negb].
  set (f := fun g => g <| remote_restart_ctr := rec |>). set (st1 := st <| ggsns ::= alter f g |>).
  assert (ggsn_upd g f st = Some (tt, st1, [])) as Hupd by (unfold ggsn_upd, mbind, M_bind; by rewrite Hget).
  run_with Hupd. unfold drop_all_pdp_for_ggsn.
  assert (kept st st1) as Hk by (destruct (kept_refl st) as (? & ? & ?); by split_and!).
  destruct (run_drop_mms g (sgsn_mm_ctxts st) st st1 Hok Hw Hk) as [Hbad Hgood].
  { intros mm Hmm. by apply (wf_mms Hw). }
  change (sgsn_mm_ctxts st ≫= mm_hit st g) with (ggsn_pdps st g) in *.
  assert ((ids ← gets sgsn_mm_ctxts; drop_mms g ids) st1 = drop_mms g (sgsn_mm_ctxts st) st1) as E by by rewrite run_gets.
  destruct (forallb (owner_normal st) (ggsn_pdps st g)).
  - destruct Hgood as (n & st' & Hrun & _ & Hd); [done|]. exists st'. split; [|done].
    unfold mbind at 1, M_bind at 1. rewrite E, Hrun. unfold mret, M_ret. by rewrite app_nil_r.
  - unfold mbind at 1, M_bind at 1. by rewrite E, Hbad.
Qed.

End timers.
(** ** Witnesses *)

Definition demo_waiting : sgsn_state :=
  demo_state <| pdps ::= alter (fun p => p <| pdp_T := 3395 |>) 2%nat |> <| pdp_timers := {[ 2%nat := 8 ]} |>
    <| mms ::= alter (fun m => m <| mm_T := 3370 |>) 1%nat |> <| mm_timers := {[ 1%nat := 6 ]} |>.

Definition demo_mm1 : sgsn_mm_ctx := demo_mm <| pdp_list := [2%nat] |> <| mm_T := 3370 |>.
Lemma demo_deact :
  EvLlcTxUi 0xc0000001 100 2 [0x9a; 0x46; 0x26] false (Some 1%nat)
  = msg_to_mm 1 demo_mm1 (@sm_hdr demo_env 1 GSM48_MT_GSM_DEACT_PDP_REQ ++ [GSM_CAUSE_NET_FAIL]) false.
Proof. by vm_compute. Qed.

Lemma deactivation_never_ends_witness :
  exists st', @repeat_m 20 (@pdpctx_timer_cb demo_env 2%nat) demo_waiting
    = Some (tt, st', replicate 20 (EvLlcTxUi 0xc0000001 100 2 [0x9a; 0x46; 0x26] false (Some 1%nat)))
    /\ pdps st' !! 2%nat = Some (demo_pdp <| pdp_T := 3395 |>) /\ is_Some (pdp_timers st' !! 2%nat).
Proof.
  rewrite demo_deact. assert (is_Some (pdp_timers demo_waiting !! 2%nat)) as Hs by by eexists.
  destruct (@deactivation_never_ends demo_env 20 demo_waiting 2%nat (demo_pdp <| pdp_T := 3395 |>) 1%nat demo_mm1
    eq_refl eq_refl eq_refl eq_refl eq_refl eq_refl Hs) as (st' & Hrun & Hp & Ht).
  exists st'. split_and!; [exact Hrun|exact Hp|exact Ht].
Defined.


Lemma ggsn_restart_witness :
  exists st', @cb_recovery demo_env 0x0a000001 8 demo_state
    = Some (0, st', omap (@deact_event demo_env demo_state) [2%nat])
    /\ forall id, id ∈ [2%nat] -> deactivating st' id.
Proof.
  assert (@sgsn_ggsn_ctx_by_addr 0x0a000001 demo_state = Some (Some 3%nat, demo_state, [])) as Hby by by vm_compute.
  assert (forallb (owner_normal demo_state) (ggsn_pdps demo_state 3) = true) as Hn by by vm_compute.
  pose proof (@ggsn_restart demo_env demo_state 0x0a000001 8 3%nat demo_ggsn eq_refl demo_wf Hby eq_refl) as H.
  rewrite Hn in H. assert (ggsn_pdps demo_state 3 = [2%nat]) as E by by vm_compute. rewrite E in H.
  apply H; discriminate.
Defined.

End GmmProps.
