(* ===== verification/Meas.v ===== *)
(** Measurement reports of a logical channel: the ring of the last six reports with its averages
    (libbsc/meas_rep.c, [lchan_next_meas_rep] of libcommon/gsm_data.c) and the table of neighbour
    cells kept for handover decisions (libbsc/handover_decision.c).

    The ring is [lchan->meas_rep] with [lchan->meas_rep_idx], the table is [lchan->neigh_meas].
    What the ring means is [ring_holds]: which reports, newest first, it remembers. *)

From S2P Require Import Prelude.

Module Meas.

(** The value an [int] keeps. *)
Definition s32 (x : Z) : Z := (x + 2 ^ 31) mod 2 ^ 32 - 2 ^ 31.

Definition MRC_F_PROCESSED : Z := 0x0001.
Definition MEAS_REP_F_UL_DTX : Z := 0x01.
Definition MEAS_REP_F_DL_VALID : Z := 0x02.
Definition MEAS_REP_F_BA1 : Z := 0x04.
Definition MEAS_REP_F_DL_DTX : Z := 0x08.
Definition MEAS_REP_F_MS_TO : Z := 0x10.
Definition MEAS_REP_F_MS_L1 : Z := 0x20.
Definition MEAS_REP_F_FPC : Z := 0x40.
Definition MAX_NEIGH_MEAS : nat := 10.
Definition MAX_WIN_NEIGH_AVG : nat := 10.
(** [ARRAY_SIZE(lchan->meas_rep)] *)
Definition MEAS_REPS : nat := 6.
(** [ARRAY_SIZE(mr->cell)] *)
Definition MEAS_CELLS : nat := 6.

(** One neighbour of a measurement report. *)
Record gsm_meas_rep_cell : Type := mk_gsm_meas_rep_cell {
  mrc_rxlev : Z;
  mrc_bsic : Z;
  mrc_neigh_idx : Z;
  mrc_arfcn : Z;
  mrc_flags : Z
}.

#[export] Instance upd_mrc_rxlev : Upd mrc_rxlev := fun f r => mk_gsm_meas_rep_cell (f
  (mrc_rxlev r)) (mrc_bsic r) (mrc_neigh_idx r) (mrc_arfcn r) (mrc_flags r).
#[export] Instance upd_mrc_bsic : Upd mrc_bsic := fun f r => mk_gsm_meas_rep_cell (mrc_rxlev r)
  (f (mrc_bsic r)) (mrc_neigh_idx r) (mrc_arfcn r) (mrc_flags r).
#[export] Instance upd_mrc_neigh_idx : Upd mrc_neigh_idx := fun f r => mk_gsm_meas_rep_cell
  (mrc_rxlev r) (mrc_bsic r) (f (mrc_neigh_idx r)) (mrc_arfcn r) (mrc_flags r).
#[export] Instance upd_mrc_arfcn : Upd mrc_arfcn := fun f r => mk_gsm_meas_rep_cell (mrc_rxlev
  r) (mrc_bsic r) (mrc_neigh_idx r) (f (mrc_arfcn r)) (mrc_flags r).
#[export] Instance upd_mrc_flags : Upd mrc_flags := fun f r => mk_gsm_meas_rep_cell (mrc_rxlev
  r) (mrc_bsic r) (mrc_neigh_idx r) (mrc_arfcn r) (f (mrc_flags r)).

Record gsm_rx_lev_qual : Type := mk_gsm_rx_lev_qual {
  rx_lev : Z;
  rx_qual : Z
}.

#[export] Instance upd_rx_lev : Upd rx_lev := fun f r => mk_gsm_rx_lev_qual (f (rx_lev r))
  (rx_qual r).
#[export] Instance upd_rx_qual : Upd rx_qual := fun f r => mk_gsm_rx_lev_qual (rx_lev r) (f
  (rx_qual r)).

Record gsm_meas_rep_unidir : Type := mk_gsm_meas_rep_unidir {
  mru_full : gsm_rx_lev_qual;
  mru_sub : gsm_rx_lev_qual
}.

#[export] Instance upd_mru_full : Upd mru_full := fun f r => mk_gsm_meas_rep_unidir (f (mru_full
  r)) (mru_sub r).
#[export] Instance upd_mru_sub : Upd mru_sub := fun f r => mk_gsm_meas_rep_unidir (mru_full r)
  (f (mru_sub r)).

(** A measurement report; the back pointer to the channel is left out. *)
Record gsm_meas_rep : Type := mk_gsm_meas_rep {
  mr_nr : Z;
  mr_flags : Z;
  mr_ul : gsm_meas_rep_unidir;
  mr_dl : gsm_meas_rep_unidir;
  mr_bs_power : Z;
  mr_ms_timing_offset : Z;
  mr_ms_l1_pwr : Z;
  mr_ms_l1_ta : Z;
  num_cell : Z;
  mr_cell : list gsm_meas_rep_cell
}.

#[export] Instance upd_mr_nr : Upd mr_nr := fun f r => mk_gsm_meas_rep (f (mr_nr r)) (mr_flags
  r) (mr_ul r) (mr_dl r) (mr_bs_power r) (mr_ms_timing_offset r) (mr_ms_l1_pwr r) (mr_ms_l1_ta r)
  (num_cell r) (mr_cell r).
#[export] Instance upd_mr_flags : Upd mr_flags := fun f r => mk_gsm_meas_rep (mr_nr r) (f
  (mr_flags r)) (mr_ul r) (mr_dl r) (mr_bs_power r) (mr_ms_timing_offset r) (mr_ms_l1_pwr r)
  (mr_ms_l1_ta r) (num_cell r) (mr_cell r).
#[export] Instance upd_mr_ul : Upd mr_ul := fun f r => mk_gsm_meas_rep (mr_nr r) (mr_flags r) (f
  (mr_ul r)) (mr_dl r) (mr_bs_power r) (mr_ms_timing_offset r) (mr_ms_l1_pwr r) (mr_ms_l1_ta r)
  (num_cell r) (mr_cell r).
#[export] Instance upd_mr_dl : Upd mr_dl := fun f r => mk_gsm_meas_rep (mr_nr r) (mr_flags r)
  (mr_ul r) (f (mr_dl r)) (mr_bs_power r) (mr_ms_timing_offset r) (mr_ms_l1_pwr r) (mr_ms_l1_ta r)
  (num_cell r) (mr_cell r).
#[export] Instance upd_mr_bs_power : Upd mr_bs_power := fun f r => mk_gsm_meas_rep (mr_nr r)
  (mr_flags r) (mr_ul r) (mr_dl r) (f (mr_bs_power r)) (mr_ms_timing_offset r) (mr_ms_l1_pwr r)
  (mr_ms_l1_ta r) (num_cell r) (mr_cell r).
#[export] Instance upd_mr_ms_timing_offset : Upd mr_ms_timing_offset := fun f r =>
  mk_gsm_meas_rep (mr_nr r) (mr_flags r) (mr_ul r) (mr_dl r) (mr_bs_power r) (f
  (mr_ms_timing_offset r)) (mr_ms_l1_pwr r) (mr_ms_l1_ta r) (num_cell r) (mr_cell r).
#[export] Instance upd_mr_ms_l1_pwr : Upd mr_ms_l1_pwr := fun f r => mk_gsm_meas_rep (mr_nr r)
  (mr_flags r) (mr_ul r) (mr_dl r) (mr_bs_power r) (mr_ms_timing_offset r) (f (mr_ms_l1_pwr r))
  (mr_ms_l1_ta r) (num_cell r) (mr_cell r).
#[export] Instance upd_mr_ms_l1_ta : Upd mr_ms_l1_ta := fun f r => mk_gsm_meas_rep (mr_nr r)
  (mr_flags r) (mr_ul r) (mr_dl r) (mr_bs_power r) (mr_ms_timing_offset r) (mr_ms_l1_pwr r) (f
  (mr_ms_l1_ta r)) (num_cell r) (mr_cell r).
#[export] Instance upd_num_cell : Upd num_cell := fun f r => mk_gsm_meas_rep (mr_nr r) (mr_flags
  r) (mr_ul r) (mr_dl r) (mr_bs_power r) (mr_ms_timing_offset r) (mr_ms_l1_pwr r) (mr_ms_l1_ta r)
  (f (num_cell r)) (mr_cell r).
#[export] Instance upd_mr_cell : Upd mr_cell := fun f r => mk_gsm_meas_rep (mr_nr r) (mr_flags
  r) (mr_ul r) (mr_dl r) (mr_bs_power r) (mr_ms_timing_offset r) (mr_ms_l1_pwr r) (mr_ms_l1_ta r)
  (num_cell r) (f (mr_cell r)).

(** A neighbour cell that is being averaged; unused when the ARFCN is 0. *)
Record neigh_meas_proc : Type := mk_neigh_meas_proc {
  nmp_arfcn : Z;
  nmp_bsic : Z;
  nmp_rxlev : list Z;
  rxlev_cnt : Z;
  last_seen_nr : Z
}.

#[export] Instance upd_nmp_arfcn : Upd nmp_arfcn := fun f r => mk_neigh_meas_proc (f (nmp_arfcn
  r)) (nmp_bsic r) (nmp_rxlev r) (rxlev_cnt r) (last_seen_nr r).
#[export] Instance upd_nmp_bsic : Upd nmp_bsic := fun f r => mk_neigh_meas_proc (nmp_arfcn r) (f
  (nmp_bsic r)) (nmp_rxlev r) (rxlev_cnt r) (last_seen_nr r).
#[export] Instance upd_nmp_rxlev : Upd nmp_rxlev := fun f r => mk_neigh_meas_proc (nmp_arfcn r)
  (nmp_bsic r) (f (nmp_rxlev r)) (rxlev_cnt r) (last_seen_nr r).
#[export] Instance upd_rxlev_cnt : Upd rxlev_cnt := fun f r => mk_neigh_meas_proc (nmp_arfcn r)
  (nmp_bsic r) (nmp_rxlev r) (f (rxlev_cnt r)) (last_seen_nr r).
#[export] Instance upd_last_seen_nr : Upd last_seen_nr := fun f r => mk_neigh_meas_proc
  (nmp_arfcn r) (nmp_bsic r) (nmp_rxlev r) (rxlev_cnt r) (f (last_seen_nr r)).


Definition zero_cell : gsm_meas_rep_cell := mk_gsm_meas_rep_cell 0 0 0 0 0.
Definition zero_unidir : gsm_meas_rep_unidir :=
  mk_gsm_meas_rep_unidir (mk_gsm_rx_lev_qual 0 0) (mk_gsm_rx_lev_qual 0 0).
(** [memset(meas_rep, 0, sizeof( *meas_rep))] *)
Definition zero_meas_rep : gsm_meas_rep :=
  mk_gsm_meas_rep 0 0 zero_unidir zero_unidir 0 0 0 0 0 (replicate MEAS_CELLS zero_cell).
Definition zero_neigh : neigh_meas_proc :=
  mk_neigh_meas_proc 0 0 (replicate MAX_WIN_NEIGH_AVG 0) 0 0.

Inductive meas_rep_field : Type :=
| MEAS_REP_DL_RXLEV_FULL
| MEAS_REP_DL_RXLEV_SUB
| MEAS_REP_DL_RXQUAL_FULL
| MEAS_REP_DL_RXQUAL_SUB
| MEAS_REP_UL_RXLEV_FULL
| MEAS_REP_UL_RXLEV_SUB
| MEAS_REP_UL_RXQUAL_FULL
| MEAS_REP_UL_RXQUAL_SUB.

Definition get_field (rep : gsm_meas_rep) (field : meas_rep_field) : Z :=
  match field with
  | MEAS_REP_DL_RXLEV_FULL => rx_lev (mru_full (mr_dl rep))
  | MEAS_REP_DL_RXLEV_SUB => rx_lev (mru_sub (mr_dl rep))
  | MEAS_REP_DL_RXQUAL_FULL => rx_qual (mru_full (mr_dl rep))
  | MEAS_REP_DL_RXQUAL_SUB => rx_qual (mru_sub (mr_dl rep))
  | MEAS_REP_UL_RXLEV_FULL => rx_lev (mru_full (mr_ul rep))
  | MEAS_REP_UL_RXLEV_SUB => rx_lev (mru_sub (mr_ul rep))
  | MEAS_REP_UL_RXQUAL_FULL => rx_qual (mru_full (mr_ul rep))
  | MEAS_REP_UL_RXQUAL_SUB => rx_qual (mru_sub (mr_ul rep))
  end.

Definition calc_initial_idx (array_size meas_rep_idx num_values : Z) : Z :=
  let offs := s32 (meas_rep_idx - num_values) in
  u32 (if offs <? 0 then array_size + offs else offs).

(** [j = (idx + i) % n] for an array of [n] entries. *)
Definition ring_pos (n : nat) (idx : Z) (i : nat) : nat :=
  Z.to_nat (u32 (idx + Z.of_nat i) mod Z.of_nat n).

(** [lchan->meas_rep] and [lchan->meas_rep_idx] *)
Record meas_ring : Type := mk_meas_ring {
  meas_rep : list gsm_meas_rep;
  meas_rep_idx : Z
}.

(** The report the loops look at in round [i]. *)
Definition ring_rep (lc : meas_ring) (idx : Z) (i : nat) : gsm_meas_rep :=
  default zero_meas_rep (meas_rep lc !! ring_pos MEAS_REPS idx i).

Definition get_meas_rep_avg (lc : meas_ring) (field : meas_rep_field) (num : Z) : Z :=
  if num <? 1 then 0
  else
    let idx := calc_initial_idx (Z.of_nat MEAS_REPS) (meas_rep_idx lc) num in
    let avg := foldl (fun avg i => s32 (avg + get_field (ring_rep lc idx i) field)) 0
                 (seq 0 (Z.to_nat num)) in
    s32 (u32 avg / num).

(** The loop of [meas_rep_n_out_of_m_be] from round [i] on, [k] rounds left. *)
Fixpoint n_out_of_m_loop (lc : meas_ring) (field : meas_rep_field) (n be idx : Z)
    (k i : nat) (count : Z) : Z :=
  match k with
  | O => 0
  | S k =>
      let val := get_field (ring_rep lc idx i) field in
      let count := if be <=? val then count + 1 else count in
      if n <=? count then 1 else n_out_of_m_loop lc field n be idx k (S i) count
  end.
Definition meas_rep_n_out_of_m_be (lc : meas_ring) (field : meas_rep_field) (n m be : Z) : Z :=
  let idx := calc_initial_idx (Z.of_nat MEAS_REPS) (meas_rep_idx lc) m in
  n_out_of_m_loop lc field n be idx (Z.to_nat m) 0 0.

(** The slot that is handed out, and the ring with the slot cleared. *)
Definition lchan_next_meas_rep (lc : meas_ring) : nat * meas_ring :=
  let i := Z.to_nat (meas_rep_idx lc) in
  (i, mk_meas_ring (<[i := zero_meas_rep]> (meas_rep lc))
        ((meas_rep_idx lc + 1) mod Z.of_nat MEAS_REPS)).

(** A report is received: a slot is taken and filled in. *)
Definition store_rep (lc : meas_ring) (r : gsm_meas_rep) : meas_ring :=
  let '(i, lc) := lchan_next_meas_rep lc in
  mk_meas_ring (<[i := r]> (meas_rep lc)) (meas_rep_idx lc).

(** ** The measurement report of the mobile station *)

(** Neighbour [k] of the report; [nth] is the n-th ARFCN of the neighbour list. *)
Definition parse_cell (nth : Z -> Z) (data : list Z) (k : nat) : gsm_meas_rep_cell :=
  let d := rd data in
  let cell rxlev idx bsic := mk_gsm_meas_rep_cell rxlev bsic idx (u16 (nth (idx + 1))) 0 in
  match k with
  | 0 => cell (d 3 .& 0x3f) (d 4 .>> 3) (((d 4 .& 0x07) .<< 3) .| (d 5 .>> 5))
  | 1 => cell (((d 5 .& 0x1f) .<< 1) .| (d 6 .>> 7)) ((d 6 .>> 2) .& 0x1f)
              (((d 6 .& 0x03) .<< 4) .| (d 7 .>> 4))
  | 2 => cell (((d 7 .& 0x0f) .<< 2) .| (d 8 .>> 6)) ((d 8 .>> 1) .& 0x1f)
              (((d 8 .& 0x01) .<< 5) .| (d 9 .>> 3))
  | 3 => cell (((d 9 .& 0x07) .<< 3) .| (d 10 .>> 5)) (d 10 .& 0x1f) (d 11 .>> 2)
  | 4 => cell (((d 11 .& 0x03) .<< 4) .| (d 12 .>> 4))
              (((d 12 .& 0xf) .<< 1) .| (d 13 .>> 7)) ((d 13 .>> 1) .& 0x3f)
  | _ => cell (((d 13 .& 0x01) .<< 5) .| (d 14 .>> 3))
              (((d 14 .& 0x07) .<< 2) .| (d 15 .>> 6)) (d 15 .& 0x3f)
  end%nat.

(** [is_meas_rep]: the message type is right. [rep] has cleared cells, as its caller provides. *)
Definition gsm48_parse_meas_rep (nth : Z -> Z) (rep : gsm_meas_rep) (is_meas_rep : bool)
    (data : list Z) : Z * gsm_meas_rep :=
  if negb is_meas_rep then (- EINVAL, rep)
  else
    let d := rd data in
    let flag (b : bool) f rep := if b then rep <| mr_flags ::= fun x => x .| f |> else rep in
    let rep := flag (tst (d 0%nat) 0x80) MEAS_REP_F_BA1 rep in
    let rep := flag (tst (d 0%nat) 0x40) MEAS_REP_F_UL_DTX rep in
    let rep := flag (negb (tst (d 1%nat) 0x40)) MEAS_REP_F_DL_VALID rep in
    let rep := rep <| mr_dl := mk_gsm_meas_rep_unidir
      (mk_gsm_rx_lev_qual (d 0%nat .& 0x3f) ((d 3%nat .>> 4) .& 0x7))
      (mk_gsm_rx_lev_qual (d 1%nat .& 0x3f) ((d 3%nat .>> 1) .& 0x7)) |> in
    let n := ((d 3%nat .>> 6) .& 0x3) .| ((d 2%nat .& 0x01) .<< 2) in
    let rep := rep <| num_cell := n |> in
    if (n <? 1) || (6 <? n) then (0, rep)
    else
      (0, rep <| mr_cell ::= fun l => map (parse_cell nth data) (seq 0 (Z.to_nat n)) ++
                                       drop (Z.to_nat n) l |>).

(** ** Neighbour cells *)

(** The answer, and the report with the cell marked as processed. *)
Definition rxlev_for_cell_in_rep (mr : gsm_meas_rep) (arfcn bsic : Z) : Z * gsm_meas_rep :=
  match list_find (fun mrc => mrc_arfcn mrc = arfcn /\ mrc_bsic mrc = bsic)
          (take (Z.to_nat (num_cell mr)) (mr_cell mr)) with
  | Some (i, mrc) =>
      (mrc_rxlev mrc,
       mr <| mr_cell ::= alter (fun c => c <| mrc_flags ::= fun f => f .| MRC_F_PROCESSED |>) i |>)
  | None => (- ENODEV, mr)
  end.

(** [None]: division by zero. *)
Definition neigh_meas_avg (nmp : neigh_meas_proc) (window : Z) : option Z :=
  let n := Z.of_nat MAX_WIN_NEIGH_AVG in
  let idx := calc_initial_idx n (rxlev_cnt nmp mod n) window in
  let avg := foldl (fun avg i => s32 (avg + rd (nmp_rxlev nmp) (ring_pos MAX_WIN_NEIGH_AVG idx i)))
               0 (seq 0 (Z.to_nat window)) in
  if window =? 0 then None else Some (Z.quot avg window).

(** The worst neighbour of [l], whose first entry has index [j]; [worst] is the best candidate
    so far with its average. *)
Fixpoint worst_neigh (l : list neigh_meas_proc) (j : nat) (worst : option (nat * Z))
    : option (option (nat * Z)) :=
  match l with
  | [] => Some worst
  | nmp :: l =>
      avg ← neigh_meas_avg nmp (Z.of_nat MAX_WIN_NEIGH_AVG);
      worst_neigh l (S j)
        (match worst with
         | Some (_, w) => if avg <? w then Some (j, avg) else worst
         | None => Some (j, avg)
         end)
  end.
Definition find_evict_neigh (neigh : list neigh_meas_proc) : option (option nat) :=
  match list_find (fun nmp => nmp_arfcn nmp = 0) neigh with
  | Some (j, _) => Some (Some j)
  | None => w ← worst_neigh neigh 0 None; Some (option_map fst w)
  end.

(** A sample goes into the ring of the neighbour. *)
Definition push_rxlev (v : Z) (nmp : neigh_meas_proc) : neigh_meas_proc :=
  let idx := Z.to_nat (rxlev_cnt nmp mod Z.of_nat MAX_WIN_NEIGH_AVG) in
  nmp <| nmp_rxlev ::= <[idx := v]> |> <| rxlev_cnt ::= fun c => u32 (c + 1) |>.

(** The first loop of [process_meas_neigh]: one entry of the table. *)
Definition update_neigh (mr : gsm_meas_rep) (nmp : neigh_meas_proc)
    : gsm_meas_rep * neigh_meas_proc :=
  if nmp_arfcn nmp =? 0 then (mr, nmp)
  else
    let '(rxlev, mr) := rxlev_for_cell_in_rep mr (nmp_arfcn nmp) (nmp_bsic nmp) in
    if 0 <=? rxlev then (mr, push_rxlev (u8 rxlev) (nmp <| last_seen_nr := mr_nr mr |>))
    else (mr, push_rxlev 0 nmp).
Fixpoint update_neighs (mr : gsm_meas_rep) (l : list neigh_meas_proc)
    : gsm_meas_rep * list neigh_meas_proc :=
  match l with
  | [] => (mr, [])
  | nmp :: l =>
      let '(mr, nmp) := update_neigh mr nmp in
      let '(mr, l) := update_neighs mr l in
      (mr, nmp :: l)
  end.

(** The second loop: cell [i] of the report, if it is new. [None]: a null pointer is followed or
    the array is left. *)
Definition add_neigh (mr : gsm_meas_rep) (neigh : list neigh_meas_proc) (i : nat)
    : option (gsm_meas_rep * list neigh_meas_proc) :=
  mrc ← mr_cell mr !! i;
  if tst (mrc_flags mrc) MRC_F_PROCESSED then Some (mr, neigh)
  else
    j ← mjoin (find_evict_neigh neigh);
    nmp ← neigh !! j;
    let nmp := nmp <| nmp_arfcn := mrc_arfcn mrc |> <| nmp_bsic := mrc_bsic mrc |> in
    let nmp := push_rxlev (mrc_rxlev mrc) nmp <| last_seen_nr := mr_nr mr |> in
    Some (mr <| mr_cell ::= alter (fun c => c <| mrc_flags ::= fun f => f .| MRC_F_PROCESSED |>) i |>,
          <[j := nmp]> neigh).
Fixpoint add_neighs (k i : nat) (mr : gsm_meas_rep) (neigh : list neigh_meas_proc)
    : option (gsm_meas_rep * list neigh_meas_proc) :=
  match k with
  | O => Some (mr, neigh)
  | S k => '(mr, neigh) ← add_neigh mr neigh i; add_neighs k (S i) mr neigh
  end.

Definition process_meas_neigh (mr : gsm_meas_rep) (neigh : list neigh_meas_proc)
    : option (gsm_meas_rep * list neigh_meas_proc) :=
  let '(mr, neigh) := update_neighs mr neigh in
  add_neighs (Z.to_nat (num_cell mr)) 0 mr neigh.

End Meas.
