(* ===== verification/MeasProps.v ===== *)
(** The ring of measurement reports refines the history of reports: what [get_meas_rep_avg] and
    [meas_rep_n_out_of_m_be] compute from the ring is the average, or the count, over the last
    reports received. The table of neighbour cells never leaves its array. *)

From S2P Require Import Prelude Meas.

Module MeasProps.
Import Meas.

(** The sum of a list. *)
Definition Zsum (l : list Z) : Z := foldr Z.add 0 l.

Lemma Zsum_app l1 l2 : Zsum (l1 ++ l2) = Zsum l1 + Zsum l2.
Proof. induction l1 as [|x l1 IH]; cbn; [done|]. unfold Zsum in *. rewrite IH. lia. Qed.

Lemma Zsum_bound l b : Forall (fun x => 0 <= x <= b) l -> 0 <= Zsum l <= b * Z.of_nat (length l).
Proof.
  induction 1 as [|x l Hx Hl IH]; cbn [length]; [cbn; lia|].
  change (Zsum (x :: l)) with (x + Zsum l). lia.
Qed.

(** ** What the ring remembers *)

(** [hist]: the reports received, newest first. *)
Definition ring_holds (lc : meas_ring) (hist : list gsm_meas_rep) : Prop :=
  length (meas_rep lc) = MEAS_REPS /\ 0 <= meas_rep_idx lc < 6 /\
  forall k r, hist !! k = Some r -> (k < MEAS_REPS)%nat ->
    meas_rep lc !! Z.to_nat ((meas_rep_idx lc - 1 - Z.of_nat k) mod 6) = Some r.

Definition ring_wf (lc : meas_ring) : Prop := ring_holds lc [].

(** Every field is an octet. *)
Definition rep_ok (r : gsm_meas_rep) : Prop := forall f, in_width 8 (get_field r f).

Lemma store_rep_holds lc hist r :
  ring_holds lc hist -> ring_holds (store_rep lc r) (r :: hist).
Proof.
  intros (Hl & Hi & Hh). unfold store_rep, lchan_next_meas_rep, MEAS_REPS in *.
  cbn [meas_rep meas_rep_idx]. rewrite list_insert_insert_eq.
  unfold ring_holds, MEAS_REPS. cbn [meas_rep meas_rep_idx].
  split; [by rewrite length_insert|]. split; [apply Z.mod_pos_bound; lia|].
  change (Z.of_nat 6) with 6 in *. intros [|k] r' Hk Hlt.
  - injection Hk as <-. replace (Z.to_nat _) with (Z.to_nat (meas_rep_idx lc)).
    { apply list_lookup_insert_eq. lia. }
    f_equal. Z.to_euclidean_division_equations. lia.
  - cbn in Hk. rewrite list_lookup_insert_ne.
    + rewrite <- (Hh k r' Hk) by lia. do 2 f_equal.
      Z.to_euclidean_division_equations. lia.
    + Z.to_euclidean_division_equations. lia.
Qed.

Lemma calc_initial_idx_spec n idx num :
  0 < n < 2 ^ 31 -> 0 <= idx < n -> 0 <= num <= n ->
  calc_initial_idx n idx num = (idx - num) mod n.
Proof.
  intros Hn Hi Hm. unfold calc_initial_idx, s32, wrap.
  rewrite (Z.mod_small (idx - num + 2 ^ 31)) by lia.
  destruct (Z.ltb_spec (idx - num + 2 ^ 31 - 2 ^ 31) 0).
  - rewrite Z.mod_small by lia. apply Z.mod_unique with (-1); lia.
  - rewrite !Z.mod_small by lia. lia.
Qed.

(** Round [i] over the last [num] reports looks at report [num - 1 - i] of the history. *)
Lemma ring_rep_spec lc hist num i r :
  ring_holds lc hist -> (num <= MEAS_REPS)%nat -> (i < num)%nat ->
  hist !! (num - 1 - i)%nat = Some r ->
  ring_rep lc (calc_initial_idx 6 (meas_rep_idx lc) (Z.of_nat num)) i = r.
Proof.
  intros (Hl & Hi & Hh) Hn Hlt Hr. unfold ring_rep, ring_pos, MEAS_REPS in *.
  rewrite calc_initial_idx_spec by lia. change (Z.of_nat 6) with 6.
  replace (Z.to_nat _) with
    (Z.to_nat ((meas_rep_idx lc - 1 - Z.of_nat (num - 1 - i)) mod 6)).
  { rewrite (Hh _ r Hr) by lia. done. }
  f_equal. unfold wrap. rewrite (Z.mod_small (_ + _) (2 ^ 32)).
  - rewrite Zplus_mod_idemp_l. f_equal. lia.
  - pose proof (Z.mod_pos_bound (meas_rep_idx lc - Z.of_nat num) 6). lia.
Qed.

(** The values of a field in the last [num] reports, oldest first. *)
Definition window (hist : list gsm_meas_rep) (field : meas_rep_field) (num : nat) : list Z :=
  (fun r => get_field r field) <$> reverse (take num hist).

Lemma window_lookup lc hist field num i :
  ring_holds lc hist -> (num <= MEAS_REPS)%nat -> (num <= length hist)%nat -> (i < num)%nat ->
  window hist field num !! i =
    Some (get_field (ring_rep lc (calc_initial_idx 6 (meas_rep_idx lc) (Z.of_nat num)) i) field).
Proof.
  intros Hh Hn Hl Hi. unfold window. rewrite list_lookup_fmap.
  destruct (lookup_lt_is_Some_2 hist (num - 1 - i)) as [r Hr]; [lia|].
  rewrite reverse_lookup by (rewrite length_take; lia). rewrite length_take.
  replace (num `min` length hist - S i)%nat with (num - 1 - i)%nat by lia.
  rewrite lookup_take_lt, Hr by lia. cbn. by rewrite (ring_rep_spec lc hist num i r).
Qed.

Lemma length_window hist field num :
  (num <= length hist)%nat -> length (window hist field num) = num.
Proof. intros H. unfold window. rewrite length_fmap, length_reverse, length_take. lia. Qed.

Lemma window_octets hist field num :
  Forall rep_ok hist -> Forall (fun x => 0 <= x <= 255) (window hist field num).
Proof.
  intros H. unfold window. apply Forall_fmap, Forall_reverse, Forall_take.
  eapply Forall_impl; [exact H|]. intros r Hr. specialize (Hr field). unfold in_width in Hr.
  cbn. lia.
Qed.

(** A loop over indices that reads a list is a loop over the list. *)
Lemma foldl_seq_lookup {A} (g : nat -> Z) (step : A -> Z -> A) (l : list Z) (a : A) :
  (forall i x, l !! i = Some x -> g i = x) ->
  foldl (fun a i => step a (g i)) a (seq 0 (length l)) = foldl step a l.
Proof.
  induction l as [|x l IH] using rev_ind; intros Hg; [done|].
  rewrite length_app, seq_app, !foldl_app. cbn. rewrite IH.
  - rewrite (Hg (length l) x); [done|]. by apply list_lookup_middle.
  - intros i y Hy. apply Hg. rewrite lookup_app_l; [done|]. by eapply lookup_lt_Some.
Qed.

Lemma s32_small x : - 2 ^ 31 <= x < 2 ^ 31 -> s32 x = x.
Proof. intros H. unfold s32. rewrite Z.mod_small by lia. lia. Qed.

Lemma foldl_s32_sum l : forall a,
  Forall (fun x => 0 <= x <= 255) l -> 0 <= a -> a + 255 * Z.of_nat (length l) < 2 ^ 31 ->
  foldl (fun avg x => s32 (avg + x)) a l = a + Zsum l.
Proof.
  induction l as [|x l IH]; intros a Hl Ha Hb; cbn [foldl Zsum foldr]; [lia|].
  apply Forall_cons in Hl as [Hx Hl]. cbn [length] in Hb. fold (Zsum l).
  rewrite s32_small by lia. rewrite IH by (done || lia). lia.
Qed.

Lemma get_meas_rep_avg_holds lc hist field num :
  ring_holds lc hist -> Forall rep_ok hist -> (1 <= num <= MEAS_REPS)%nat ->
  (num <= length hist)%nat ->
  get_meas_rep_avg lc field (Z.of_nat num) = Zsum (window hist field num) / Z.of_nat num.
Proof.
  intros Hh Ho Hn Hl. unfold get_meas_rep_avg. destruct (Z.ltb_spec (Z.of_nat num) 1); [lia|].
  change (Z.of_nat MEAS_REPS) with 6. rewrite Nat2Z.id.
  pose proof (window_octets hist field num Ho) as Hw.
  pose proof (length_window hist field num Hl) as Hlen.
  pose proof (Zsum_bound _ _ Hw) as Hb. rewrite Hlen in Hb. unfold MEAS_REPS in *.
  replace (seq 0 num) with (seq 0 (length (window hist field num))) by (by rewrite Hlen).
  rewrite (foldl_seq_lookup
    (fun i => get_field (ring_rep lc (calc_initial_idx 6 (meas_rep_idx lc) (Z.of_nat num)) i) field)
    (fun a x => s32 (a + x)) (window hist field num) 0).
  2: { intros i x Hx. pose proof (lookup_lt_Some _ _ _ Hx).
       rewrite (window_lookup lc) in Hx by (done || unfold MEAS_REPS; lia). by injection Hx. }
  rewrite foldl_s32_sum by (done || lia). rewrite Z.add_0_l.
  rewrite (wrap_small 32) by (unfold in_width; lia).
  apply s32_small. assert (Zsum (window hist field num) / Z.of_nat num <= 1530).
  { apply Z.div_le_upper_bound; nia. }
  pose proof (Z.div_pos (Zsum (window hist field num)) (Z.of_nat num)). lia.
Qed.

(** How many values reach [be]. *)
Definition count_be (be : Z) (l : list Z) : Z := Z.of_nat (length (filter (fun x => be <= x) l)).

Lemma count_be_cons be x l :
  count_be be (x :: l) = (if be <=? x then 1 else 0) + count_be be l.
Proof.
  unfold count_be. rewrite filter_cons.
  destruct (Z.leb_spec be x); case_decide; cbn [length]; lia.
Qed.

Lemma n_out_of_m_loop_spec lc field n be idx l : forall i count,
  (forall k x, l !! k = Some x -> get_field (ring_rep lc idx (i + k)) field = x) ->
  n_out_of_m_loop lc field n be idx (length l) i count =
  if (negb (Z.of_nat (length l) =? 0)) && (n <=? count + count_be be l) then 1 else 0.
Proof.
  induction l as [|x l IH]; intros i count Hl; [done|].
  cbn [length n_out_of_m_loop]. rewrite count_be_cons.
  rewrite <- (Nat.add_0_r i), (Hl 0%nat x) by done. rewrite Nat.add_0_r.
  destruct (Z.eqb_spec (Z.of_nat (S (length l))) 0); [lia|]. cbn [negb andb].
  assert (0 <= count_be be l) by (unfold count_be; lia).
  rewrite IH.
  2: { intros k y Hy. rewrite <- (Hl (S k) y Hy). do 2 f_equal. lia. }
  destruct (Z.leb_spec be x);
    repeat match goal with |- context [?a <=? ?b] => destruct (Z.leb_spec a b); try lia end;
    try done; rewrite ?andb_true_r, ?andb_false_r; try done;
    destruct l; cbn in *; try done; unfold count_be in *; cbn in *; lia.
Qed.

Lemma n_out_of_m_holds lc hist field n num be :
  ring_holds lc hist -> (num <= MEAS_REPS)%nat -> (num <= length hist)%nat ->
  meas_rep_n_out_of_m_be lc field n (Z.of_nat num) be =
  if negb (Z.of_nat num =? 0) && (n <=? count_be be (window hist field num)) then 1 else 0.
Proof.
  intros Hh Hn Hl. unfold meas_rep_n_out_of_m_be. change (Z.of_nat MEAS_REPS) with 6.
  rewrite Nat2Z.id. pose proof (length_window hist field num Hl) as Hlen.
  rewrite <- Hlen at 2. rewrite n_out_of_m_loop_spec.
  - by rewrite Hlen.
  - intros k x Hx. pose proof (lookup_lt_Some _ _ _ Hx).
    rewrite (window_lookup lc) in Hx by (done || lia). by injection Hx.
Qed.

Lemma foldl_store_holds rs : forall lc hist,
  ring_holds lc hist -> ring_holds (foldl store_rep lc rs) (reverse rs ++ hist).
Proof.
  induction rs as [|r rs IH]; intros lc hist Hh; [done|].
  cbn [foldl]. rewrite reverse_cons, <- app_assoc. by apply IH, store_rep_holds.
Qed.

(** The last [num] elements. *)
Definition last_n {A} (num : nat) (l : list A) : list A := drop (length l - num) l.

Lemma window_reverse rs field num :
  window (reverse rs) field num = (fun r => get_field r field) <$> last_n num rs.
Proof.
  unfold window, last_n. f_equal. rewrite take_reverse, reverse_involutive. done.
Qed.

(** after any sequence [rs] of measurement reports, the average over the last [num] reports
    is the mean of that field in the [num] reports received last, and the vote of
    [meas_rep_n_out_of_m_be] counts them, for every window the ring of six entries can hold. *)
Theorem meas_window lc rs field num n be :
  ring_wf lc -> Forall rep_ok rs -> (1 <= num <= MEAS_REPS)%nat -> (num <= length rs)%nat ->
  let vals := (fun r => get_field r field) <$> last_n num rs in
  get_meas_rep_avg (foldl store_rep lc rs) field (Z.of_nat num) = Zsum vals / Z.of_nat num /\
  meas_rep_n_out_of_m_be (foldl store_rep lc rs) field n (Z.of_nat num) be =
    if n <=? count_be be vals then 1 else 0.
Proof.
  intros Hw Ho Hn Hl vals. apply (foldl_store_holds rs) in Hw. rewrite app_nil_r in Hw.
  unfold vals. rewrite <- window_reverse. split.
  - apply get_meas_rep_avg_holds; rewrite ?length_reverse; try done. by apply Forall_reverse.
  - rewrite (n_out_of_m_holds _ (reverse rs)); rewrite ?length_reverse; try done; [|lia].
    by destruct num; [lia|].
Qed.

Definition test_rep (lev qual : Z) : gsm_meas_rep :=
  zero_meas_rep <| mr_dl := mk_gsm_meas_rep_unidir (mk_gsm_rx_lev_qual lev qual)
                              (mk_gsm_rx_lev_qual lev qual) |>.
Definition test_ring : meas_ring := mk_meas_ring (replicate 6 zero_meas_rep) 4.
Definition test_reps : list gsm_meas_rep :=
  (fun x => test_rep x (x mod 8)) <$> [10; 20; 30; 40; 50; 60; 63; 61].

Lemma meas_window_witness :
  ring_wf test_ring /\
  get_meas_rep_avg (foldl store_rep test_ring test_reps) MEAS_REP_DL_RXLEV_FULL 4 = 58 /\
  meas_rep_n_out_of_m_be (foldl store_rep test_ring test_reps) MEAS_REP_DL_RXQUAL_FULL 3 4 4 = 1.
Proof.
  assert (ring_wf test_ring) as Hw by (repeat split; [cbn; lia..|done]).
  assert (Forall rep_ok test_reps) as Ho.
  { repeat (apply Forall_cons; split; [intros []; vm_bounds|]). by apply Forall_nil. }
  split; [done|].
  pose proof (meas_window test_ring test_reps MEAS_REP_DL_RXLEV_FULL 4 3 4 Hw Ho
    ltac:(unfold MEAS_REPS; lia) ltac:(cbn; lia)) as [H1 _].
  pose proof (meas_window test_ring test_reps MEAS_REP_DL_RXQUAL_FULL 4 3 4 Hw Ho
    ltac:(unfold MEAS_REPS; lia) ltac:(cbn; lia)) as [_ H2].
  split.
  - exact (eq_trans H1 ltac:(vm_compute; reflexivity)).
  - exact (eq_trans H2 ltac:(vm_compute; reflexivity)).
Defined.

(** The default window of ten reports (gsm_data.c) is longer than the ring of six: the loop wraps
    and counts some of the reports twice. Here the last six average to 50. *)
Example default_window_wraps :
  get_meas_rep_avg (foldl store_rep test_ring test_reps) MEAS_REP_DL_RXLEV_FULL 10 = 48 /\
  get_meas_rep_avg (foldl store_rep test_ring test_reps) MEAS_REP_DL_RXLEV_FULL 6 = 50.
Proof. vm_compute. done. Qed.

(** ** The layout of the measurement report (GSM 04.08, 10.5.2.20) *)

(** Bit [n] of the octets, the most significant bit of an octet first. *)
Definition bit (data : list Z) (n : Z) : bool :=
  Z.testbit (rd data (Z.to_nat (n / 8))) (7 - n mod 8).

(** [v] is the number in the [len] bits from bit [start] on. *)
Definition is_field (v : Z) (data : list Z) (start len : Z) : Prop :=
  in_width len v /\ forall i, 0 <= i < len -> Z.testbit v (len - 1 - i) = bit data (start + i).

(** [x] and [y]: consecutive octets. The field takes the last [p] bits of [x] and the first [q]
    of [y]. *)
Lemma field_two data (a : nat) p q :
  octets data -> 0 < p < 8 -> 0 < q < 8 ->
  is_field (((rd data a .& Z.ones p) .<< q) .| (rd data (S a) .>> (8 - q))) data
    (8 * Z.of_nat a + (8 - p)) (p + q).
Proof.
  intros Ho Hp Hq. pose proof (rd_octet data (S a) Ho) as [H0 Hy]%in_width_testbit; [|lia].
  split.
  - apply in_width_testbit; [lia|]. split.
    + apply Z.lor_nonneg. split; [|by apply Z.shiftr_nonneg].
      apply Z.shiftl_nonneg, Z.land_nonneg. right. rewrite Z.ones_equiv.
      pose proof (Z.pow_pos_nonneg 2 p). lia.
    + intros i Hi. rewrite Z.lor_spec, Z.shiftl_spec, Z.land_spec, Z.shiftr_spec by lia.
      rewrite Z.ones_spec_high, andb_false_r by lia. rewrite Hy by lia. done.
  - intros i Hi. rewrite Z.lor_spec, Z.shiftl_spec, Z.land_spec, Z.shiftr_spec by lia. unfold bit.
    destruct (decide (i < p)).
    + rewrite Z.ones_spec_low, andb_true_r by lia. rewrite Hy by lia. rewrite orb_false_r.
      f_equal; [f_equal|]; Z.to_euclidean_division_equations; lia.
    + rewrite (Z.testbit_neg_r (rd data a)) by lia. cbn [andb orb].
      f_equal; [f_equal|]; Z.to_euclidean_division_equations; lia.
Qed.

(** The field lies inside octet [a], [r] bits before its end. *)
Lemma field_one data (a : nat) r len :
  0 <= r -> 0 < len -> r + len <= 8 ->
  is_field ((rd data a .>> r) .& Z.ones len) data (8 * Z.of_nat a + (8 - r - len)) len.
Proof.
  intros Hr Hl Hb. split; [apply in_width_land_ones; lia|].
  intros i Hi. rewrite Z.land_spec, Z.shiftr_spec by lia.
  rewrite Z.ones_spec_low, andb_true_r by lia. unfold bit.
  f_equal; [f_equal|]; Z.to_euclidean_division_equations; lia.
Qed.

(** The field is the start of octet [a]. *)
Lemma field_first data (a : nat) len :
  octets data -> 0 < len <= 8 -> is_field (rd data a .>> (8 - len)) data (8 * Z.of_nat a) len.
Proof.
  intros Ho Hl. replace (rd data a .>> (8 - len)) with ((rd data a .>> (8 - len)) .& Z.ones len).
  - replace (8 * Z.of_nat a) with (8 * Z.of_nat a + (8 - (8 - len) - len)) by lia.
    apply field_one; lia.
  - rewrite <- wrap_land by lia. apply wrap_small.
    replace len with (8 - (8 - len)) at 1 by lia. apply in_width_shiftr; [lia|by apply rd_octet].
Qed.

(** Prove that an expression is a field at a given position, which is a closed term. *)
Ltac solve_field Ho :=
  cbn [parse_cell mrc_rxlev mrc_neigh_idx mrc_bsic];
  match goal with
  | |- is_field (((rd ?d ?a .& _) .<< ?q) .| _) _ _ ?l =>
      exact (field_two d a (l - q) q Ho ltac:(lia) ltac:(lia))
  | |- is_field ((rd ?d ?a .>> ?r) .& _) _ _ ?l =>
      exact (field_one d a r l ltac:(lia) ltac:(lia) ltac:(lia))
  | |- is_field (rd ?d ?a .& _) _ _ ?l =>
      exact (field_one d a 0 l ltac:(lia) ltac:(lia) ltac:(lia))
  | |- is_field (rd ?d ?a .>> _) _ _ ?l =>
      exact (field_first d a l Ho ltac:(lia))
  end.

(** Cell [k] of the report occupies 17 bits: level, index in the neighbour list, BSIC. *)
Definition cell_layout (nth : Z -> Z) (data : list Z) (k : nat) (c : gsm_meas_rep_cell) : Prop :=
  let start := 26 + 17 * Z.of_nat k in
  is_field (mrc_rxlev c) data start 6 /\ is_field (mrc_neigh_idx c) data (start + 6) 5 /\
  is_field (mrc_bsic c) data (start + 11) 6 /\ mrc_arfcn c = u16 (nth (mrc_neigh_idx c + 1)) /\
  mrc_flags c = 0.

Lemma parse_cell_layout nth data k :
  octets data -> (k < MEAS_CELLS)%nat -> cell_layout nth data k (parse_cell nth data k).
Proof.
  intros Ho Hk. unfold MEAS_CELLS in Hk. unfold cell_layout.
  do 6 (destruct k as [|k]; [split; [|split; [|split; [|done]]]; solve_field Ho|]). lia.
Qed.

Lemma num_cell_layout data :
  octets data ->
  is_field (((rd data 3 .>> 6) .& 0x3) .| ((rd data 2 .& 0x01) .<< 2)) data 23 3.
Proof.
  intros Ho. rewrite Z.lor_comm.
  replace ((rd data 3 .>> 6) .& 0x3) with (rd data 3 .>> 6).
  - exact (field_two data 2 1 2 Ho ltac:(lia) ltac:(lia)).
  - change 0x3 with (Z.ones 2). rewrite <- wrap_land by lia. symmetry. apply wrap_small.
    apply (in_width_shiftr 8 6); [lia|by apply rd_octet].
Qed.

(** A measurement report is decoded by its bit layout: the number of neighbours is bits 23 to
    25, the levels of the serving cell are bits 2 to 7 and 10 to 15, and neighbour [k] has its
    level, neighbour index and BSIC in the 17 bits from bit 26 + 17 k on. The two quality fields
    are taken from bits 25 to 27 and 28 to 30, which belong to the number of neighbours and to the
    level of the first neighbour; GSM 04.08 puts them at bits 17 and 20. *)
Theorem meas_rep_layout nth rep data :
  octets data -> length (mr_cell rep) = MEAS_CELLS ->
  exists rep', gsm48_parse_meas_rep nth rep true data = (0, rep') /\
    is_field (num_cell rep') data 23 3 /\
    is_field (rx_lev (mru_full (mr_dl rep'))) data 2 6 /\
    is_field (rx_lev (mru_sub (mr_dl rep'))) data 10 6 /\
    is_field (rx_qual (mru_full (mr_dl rep'))) data 25 3 /\
    is_field (rx_qual (mru_sub (mr_dl rep'))) data 28 3 /\
    length (mr_cell rep') = MEAS_CELLS /\
    forall k, Z.of_nat k < num_cell rep' <= 6 ->
      exists c, mr_cell rep' !! k = Some c /\ cell_layout nth data k c.
Proof.
  intros Ho Hl. unfold gsm48_parse_meas_rep. cbn [negb].
  set (n := ((rd data 3 .>> 6) .& 0x3) .| _). pose proof (num_cell_layout data Ho) as Hn. fold n in Hn.
  set (rep1 := if tst (rd data 0) 0x80 then _ else rep).
  set (rep2 := if tst (rd data 0) 0x40 then _ else rep1).
  set (rep3 := if negb (tst (rd data 1) 0x40) then _ else rep2).
  assert (mr_cell rep3 = mr_cell rep) as Hc.
  { unfold rep3, rep2, rep1. by destruct (tst (rd data 0) 0x80), (tst (rd data 0) 0x40),
      (negb (tst (rd data 1) 0x40)); upd_norm. }
  assert (Hdl : is_field (rd data 0 .& 0x3f) data 2 6 /\ is_field (rd data 1 .& 0x3f) data 10 6 /\
    is_field ((rd data 3 .>> 4) .& 0x7) data 25 3 /\ is_field ((rd data 3 .>> 1) .& 0x7) data 28 3).
  { split; [|split; [|split]]; solve_field Ho. }
  destruct Hdl as (D1 & D2 & D3 & D4).
  destruct ((n <? 1) || (6 <? n)) eqn:E; (eexists; split; [reflexivity|]); upd_norm;
    cbn [num_cell mr_dl mr_cell mru_full mru_sub rx_lev rx_qual]; rewrite Hc;
    (split; [exact Hn|]); (split; [done|]); (split; [done|]); (split; [done|]); (split; [done|]).
  - split; [done|]. intros k Hk. apply orb_true_iff in E as [E|E]; lia.
  - apply orb_false_iff in E as [E1 E2]. unfold MEAS_CELLS in *.
    split; [rewrite length_app, length_map, length_seq, length_drop; lia|].
    intros k Hk. exists (parse_cell nth data k). split.
    + rewrite lookup_app_l by (rewrite length_map, length_seq; lia).
      rewrite list_lookup_fmap, lookup_seq_lt by lia. done.
    + apply parse_cell_layout; [done|]. unfold MEAS_CELLS. lia.
Qed.

(** One neighbour at level 33, index 3, BSIC 44; the quality fields should be 5 and 6. *)
Lemma meas_rep_layout_witness :
  let data := [0x32; 0x31; 0x5c; 0x61; 0x1d; 0x80] in
  octets data /\
  exists rep', gsm48_parse_meas_rep (fun n => 100 + n) zero_meas_rep true data = (0, rep') /\
    length (mr_cell rep') = MEAS_CELLS.
Proof.
  intros data. assert (octets data) as Ho.
  { unfold data. repeat (apply Forall_cons; split; [vm_bounds|]). by apply Forall_nil. }
  split; [exact Ho|].
  destruct (meas_rep_layout (fun n => 100 + n) zero_meas_rep data Ho eq_refl)
    as (rep' & H & _ & _ & _ & _ & _ & Hl & _).
  exists rep'. split; [exact H|exact Hl].
Defined.

(** ** The table of neighbour cells *)

Lemma neigh_meas_avg_total nmp w : w <> 0 -> is_Some (neigh_meas_avg nmp w).
Proof. intros Hw. unfold neigh_meas_avg. destruct (Z.eqb_spec w 0); [done|]. by eexists. Qed.

Lemma worst_neigh_total l : forall j w,
  (match w with Some (k, _) => (k < j)%nat | None => l <> [] end) ->
  exists k a, worst_neigh l j w = Some (Some (k, a)) /\ (k < j + length l)%nat.
Proof.
  induction l as [|nmp l IH]; intros j w Hw; cbn [worst_neigh length].
  - destruct w as [[k a]|]; [|done]. exists k, a. split; [done|]. lia.
  - destruct (neigh_meas_avg_total nmp (Z.of_nat MAX_WIN_NEIGH_AVG)) as [a Ha]; [done|].
    rewrite Ha. cbn [mbind option_bind].
    destruct (IH (S j) (match w with
         | Some (_, w0) => if a <? w0 then Some (j, a) else w
         | None => Some (j, a)
         end)) as (k & b & Hk & Hlt).
    { destruct w as [[k w]|]; [destruct (a <? w)|]; lia. }
    exists k, b. split; [done|]. lia.
Qed.

(** There is always an entry to put a new cell in: a null pointer is never followed. *)
Lemma find_evict_neigh_total neigh :
  neigh <> [] -> exists j, find_evict_neigh neigh = Some (Some j) /\ (j < length neigh)%nat.
Proof.
  intros Hn. unfold find_evict_neigh.
  destruct (list_find _ neigh) as [[j nmp]|] eqn:E.
  - apply list_find_Some in E as (Hj & _ & _). exists j. split; [done|]. by eapply lookup_lt_Some.
  - destruct (worst_neigh_total neigh 0 None Hn) as (k & a & Hk & Hlt). rewrite Hk. by exists k.
Qed.

Definition cells_ok (mr : gsm_meas_rep) : Prop := length (mr_cell mr) = MEAS_CELLS.
Definition table_ok (neigh : list neigh_meas_proc) : Prop := length neigh = MAX_NEIGH_MEAS.

Lemma rxlev_for_cell_frame mr a b x mr' :
  rxlev_for_cell_in_rep mr a b = (x, mr') ->
  length (mr_cell mr') = length (mr_cell mr) /\ num_cell mr' = num_cell mr.
Proof.
  unfold rxlev_for_cell_in_rep. intros H.
  destruct (list_find _ _) as [[i mrc]|]; injection H as <- <-; [|done].
  upd_norm. cbn [mr_cell num_cell]. by rewrite length_alter.
Qed.

Lemma update_neighs_frame l : forall mr mr' l',
  update_neighs mr l = (mr', l') ->
  length l' = length l /\ length (mr_cell mr') = length (mr_cell mr) /\ num_cell mr' = num_cell mr.
Proof.
  induction l as [|nmp l IH]; intros mr mr' l' H; cbn in H; [by injection H as <- <-|].
  destruct (update_neigh mr nmp) as [mr1 nmp1] eqn:E1.
  destruct (update_neighs mr1 l) as [mr2 l2] eqn:E2. injection H as <- <-.
  apply IH in E2 as (H1 & H2 & H3). cbn [length].
  assert (length (mr_cell mr1) = length (mr_cell mr) /\ num_cell mr1 = num_cell mr) as [H4 H5].
  { unfold update_neigh in E1. destruct (_ =? 0); [by injection E1 as <- <-|].
    destruct (rxlev_for_cell_in_rep mr _ _) as [x mr3] eqn:E3.
    apply rxlev_for_cell_frame in E3. destruct (0 <=? x); by injection E1 as <- <-. }
  repeat split; congruence.
Qed.

Lemma add_neigh_total mr neigh i :
  (i < length (mr_cell mr))%nat -> neigh <> [] ->
  exists mr' neigh', add_neigh mr neigh i = Some (mr', neigh') /\
    length (mr_cell mr') = length (mr_cell mr) /\ length neigh' = length neigh.
Proof.
  intros Hi Hn. unfold add_neigh. destruct (lookup_lt_is_Some_2 _ _ Hi) as [mrc Hc].
  rewrite Hc. cbn [mbind option_bind]. destruct (tst _ _); [by eexists _, _|].
  destruct (find_evict_neigh_total neigh Hn) as (j & Hj & Hlt). rewrite Hj.
  cbn [mjoin option_join mbind option_bind].
  destruct (lookup_lt_is_Some_2 _ _ Hlt) as [nmp Hl]. rewrite Hl. cbn [mbind option_bind].
  eexists _, _. split; [done|]. upd_norm. cbn [mr_cell]. by rewrite length_alter, length_insert.
Qed.

Lemma add_neighs_total k : forall i mr neigh,
  (i + k <= length (mr_cell mr))%nat -> neigh <> [] ->
  exists mr' neigh', add_neighs k i mr neigh = Some (mr', neigh') /\
    length (mr_cell mr') = length (mr_cell mr) /\ length neigh' = length neigh.
Proof.
  induction k as [|k IH]; intros i mr neigh Hk Hn; cbn [add_neighs]; [by eexists _, _|].
  destruct (add_neigh_total mr neigh i) as (mr1 & n1 & H1 & Hc & Hl); [lia|done|].
  rewrite H1. cbn [mbind option_bind].
  destruct (IH (S i) mr1 n1) as (mr2 & n2 & H2 & Hc2 & Hl2).
  - lia.
  - intros ->. by destruct neigh.
  - rewrite H2. eexists _, _. split; [done|]. split; congruence.
Qed.

(** With at most six cells in the report, as its caller checks, the arrays are never left. *)
Lemma process_meas_neigh_total mr neigh :
  num_cell mr < 7 -> cells_ok mr -> table_ok neigh ->
  exists mr' neigh', process_meas_neigh mr neigh = Some (mr', neigh') /\
    cells_ok mr' /\ table_ok neigh'.
Proof.
  intros Hc Hm Ht. unfold process_meas_neigh, cells_ok, table_ok, MEAS_CELLS in *.
  destruct (update_neighs mr neigh) as [mr1 n1] eqn:E.
  apply update_neighs_frame in E as (H1 & H2 & H3).
  destruct (add_neighs_total (Z.to_nat (num_cell mr1)) 0 mr1 n1) as (mr2 & n2 & HA & HB & HC).
  - lia.
  - intros ->. by rewrite <- H1 in Ht.
  - rewrite HA. eexists _, _. split; [done|]. split; congruence.
Qed.

(** The entry a new cell takes keeps the samples of the cell it replaces: after [lchan_free],
    which only clears the ARFCN, a cell seen once at level 10 is averaged with what is left. *)
Example stale_neighbour_average :
  let old := mk_neigh_meas_proc 0 5 (replicate 10 60) 10 3 in
  let mr := zero_meas_rep <| num_cell := 1 |>
    <| mr_cell := mk_gsm_meas_rep_cell 10 7 0 100 0 :: replicate 5 zero_cell |> in
  match process_meas_neigh mr (old :: replicate 9 zero_neigh) with
  | Some (_, nmp :: _) => nmp_arfcn nmp = 100 /\ neigh_meas_avg nmp 10 = Some 55
  | _ => False
  end.
Proof. vm_compute. done. Qed.

End MeasProps.
