(* ===== verification/Chreq.v ===== *)
(** The CHANNEL REQUEST a mobile sends on the RACH: from its octet to the channel type and the
    reason of the request (libbsc/gsm_04_08_utils.c). The two tables are the source's; that they
    say what GSM 04.08 table 9.9 says is shown against a decoder written by the leading bits. *)

From S2P Require Import Prelude.

Module Chreq.

(** [enum gsm_chan_t] *)
Inductive gsm_chan_t : Type :=
| GSM_LCHAN_NONE
| GSM_LCHAN_SDCCH
| GSM_LCHAN_TCH_F
| GSM_LCHAN_TCH_H
| GSM_LCHAN_UNKNOWN.
#[export] Instance gsm_chan_t_eq_dec : EqDecision gsm_chan_t.
Proof. solve_decision. Defined.

Inductive gsm_chreq_reason_t : Type :=
| GSM_CHREQ_REASON_EMERG
| GSM_CHREQ_REASON_PAG
| GSM_CHREQ_REASON_CALL
| GSM_CHREQ_REASON_LOCATION_UPD
| GSM_CHREQ_REASON_OTHER.
#[export] Instance gsm_chreq_reason_t_eq_dec : EqDecision gsm_chreq_reason_t.
Proof. solve_decision. Defined.

(** [enum chreq_type] *)
Inductive chreq_type : Type :=
| CHREQ_T_EMERG_CALL
| CHREQ_T_CALL_REEST_TCH_F
| CHREQ_T_CALL_REEST_TCH_H
| CHREQ_T_CALL_REEST_TCH_H_DBL
| CHREQ_T_SDCCH
| CHREQ_T_TCH_F
| CHREQ_T_VOICE_CALL_TCH_H
| CHREQ_T_DATA_CALL_TCH_H
| CHREQ_T_LOCATION_UPD
| CHREQ_T_PAG_R_ANY_NECI1
| CHREQ_T_PAG_R_ANY_NECI0
| CHREQ_T_PAG_R_TCH_F
| CHREQ_T_PAG_R_TCH_FH
| CHREQ_T_LMU
| CHREQ_T_RESERVED_SDCCH
| CHREQ_T_RESERVED_IGNORE.
#[export] Instance chreq_type_eq_dec : EqDecision chreq_type.
Proof. solve_decision. Defined.

Record chreq : Type := mk_chreq {
  chr_val : Z;
  chr_mask : Z;
  chr_type : chreq_type
}.

Definition chreq_type_neci1 : list chreq := [
  mk_chreq 0xa0 0xe0 CHREQ_T_EMERG_CALL;
  mk_chreq 0xc0 0xe0 CHREQ_T_CALL_REEST_TCH_F;
  mk_chreq 0x68 0xfc CHREQ_T_CALL_REEST_TCH_H;
  mk_chreq 0x6c 0xfc CHREQ_T_CALL_REEST_TCH_H_DBL;
  mk_chreq 0xe0 0xe0 CHREQ_T_TCH_F;
  mk_chreq 0x40 0xf0 CHREQ_T_VOICE_CALL_TCH_H;
  mk_chreq 0x50 0xf0 CHREQ_T_DATA_CALL_TCH_H;
  mk_chreq 0x00 0xf0 CHREQ_T_LOCATION_UPD;
  mk_chreq 0x10 0xf0 CHREQ_T_SDCCH;
  mk_chreq 0x80 0xe0 CHREQ_T_PAG_R_ANY_NECI1;
  mk_chreq 0x20 0xf0 CHREQ_T_PAG_R_TCH_F;
  mk_chreq 0x30 0xf0 CHREQ_T_PAG_R_TCH_FH;
  mk_chreq 0x67 0xff CHREQ_T_LMU;
  mk_chreq 0x60 0xf9 CHREQ_T_RESERVED_SDCCH;
  mk_chreq 0x61 0xfb CHREQ_T_RESERVED_SDCCH;
  mk_chreq 0x63 0xff CHREQ_T_RESERVED_SDCCH;
  mk_chreq 0x7f 0xff CHREQ_T_RESERVED_IGNORE
].

Definition chreq_type_neci0 : list chreq := [
  mk_chreq 0xa0 0xe0 CHREQ_T_EMERG_CALL;
  mk_chreq 0xc0 0xe0 CHREQ_T_CALL_REEST_TCH_H;
  mk_chreq 0xe0 0xe0 CHREQ_T_TCH_F;
  mk_chreq 0x50 0xf0 CHREQ_T_DATA_CALL_TCH_H;
  mk_chreq 0x00 0xe0 CHREQ_T_LOCATION_UPD;
  mk_chreq 0x80 0xe0 CHREQ_T_PAG_R_ANY_NECI0;
  mk_chreq 0x20 0xf0 CHREQ_T_PAG_R_TCH_F;
  mk_chreq 0x30 0xf0 CHREQ_T_PAG_R_TCH_FH;
  mk_chreq 0x67 0xff CHREQ_T_LMU;
  mk_chreq 0x60 0xf9 CHREQ_T_RESERVED_SDCCH;
  mk_chreq 0x61 0xfb CHREQ_T_RESERVED_SDCCH;
  mk_chreq 0x63 0xff CHREQ_T_RESERVED_SDCCH;
  mk_chreq 0x7f 0xff CHREQ_T_RESERVED_IGNORE
].

Definition ctype_by_chreq (t : chreq_type) : gsm_chan_t :=
  match t with
  | CHREQ_T_EMERG_CALL => GSM_LCHAN_TCH_F
  | CHREQ_T_CALL_REEST_TCH_F => GSM_LCHAN_TCH_F
  | CHREQ_T_CALL_REEST_TCH_H => GSM_LCHAN_TCH_H
  | CHREQ_T_CALL_REEST_TCH_H_DBL => GSM_LCHAN_TCH_H
  | CHREQ_T_SDCCH => GSM_LCHAN_SDCCH
  | CHREQ_T_TCH_F => GSM_LCHAN_TCH_F
  | CHREQ_T_VOICE_CALL_TCH_H => GSM_LCHAN_TCH_H
  | CHREQ_T_DATA_CALL_TCH_H => GSM_LCHAN_TCH_H
  | CHREQ_T_LOCATION_UPD => GSM_LCHAN_SDCCH
  | CHREQ_T_PAG_R_ANY_NECI1 => GSM_LCHAN_SDCCH
  | CHREQ_T_PAG_R_ANY_NECI0 => GSM_LCHAN_SDCCH
  | CHREQ_T_PAG_R_TCH_F => GSM_LCHAN_TCH_F
  | CHREQ_T_PAG_R_TCH_FH => GSM_LCHAN_TCH_F
  | CHREQ_T_LMU => GSM_LCHAN_SDCCH
  | CHREQ_T_RESERVED_SDCCH => GSM_LCHAN_SDCCH
  | CHREQ_T_RESERVED_IGNORE => GSM_LCHAN_UNKNOWN
  end.

Definition reason_by_chreq (t : chreq_type) : gsm_chreq_reason_t :=
  match t with
  | CHREQ_T_EMERG_CALL => GSM_CHREQ_REASON_EMERG
  | CHREQ_T_CALL_REEST_TCH_F => GSM_CHREQ_REASON_CALL
  | CHREQ_T_CALL_REEST_TCH_H => GSM_CHREQ_REASON_CALL
  | CHREQ_T_CALL_REEST_TCH_H_DBL => GSM_CHREQ_REASON_CALL
  | CHREQ_T_SDCCH => GSM_CHREQ_REASON_OTHER
  | CHREQ_T_TCH_F => GSM_CHREQ_REASON_OTHER
  | CHREQ_T_VOICE_CALL_TCH_H => GSM_CHREQ_REASON_CALL
  | CHREQ_T_DATA_CALL_TCH_H => GSM_CHREQ_REASON_OTHER
  | CHREQ_T_LOCATION_UPD => GSM_CHREQ_REASON_LOCATION_UPD
  | CHREQ_T_PAG_R_ANY_NECI1 => GSM_CHREQ_REASON_PAG
  | CHREQ_T_PAG_R_ANY_NECI0 => GSM_CHREQ_REASON_PAG
  | CHREQ_T_PAG_R_TCH_F => GSM_CHREQ_REASON_PAG
  | CHREQ_T_PAG_R_TCH_FH => GSM_CHREQ_REASON_PAG
  | CHREQ_T_LMU => GSM_CHREQ_REASON_OTHER
  | CHREQ_T_RESERVED_SDCCH => GSM_CHREQ_REASON_OTHER
  | CHREQ_T_RESERVED_IGNORE => GSM_CHREQ_REASON_OTHER
  end.

(** The fields of [struct gsm_network] the decoding uses. *)
Record chreq_policy : Type := mk_chreq_policy {
  neci : Z;
  pag_any_tch : Z;
  net_ctype_by_chreq : chreq_type -> gsm_chan_t  (* network->ctype_by_chreq[] *)
}.

Definition set_ctype (t : chreq_type) (c : gsm_chan_t) (tab : chreq_type -> gsm_chan_t)
    : chreq_type -> gsm_chan_t :=
  fun t' => if decide (t' = t) then c else tab t'.

Definition gsm_net_update_ctype (network : chreq_policy) : chreq_policy :=
  let tab := ctype_by_chreq in
  let tab := if negb (neci network =? 0) then set_ctype CHREQ_T_EMERG_CALL GSM_LCHAN_TCH_H tab
             else tab in
  let tab :=
    if negb (pag_any_tch network =? 0) then
      if negb (neci network =? 0) then
        set_ctype CHREQ_T_PAG_R_ANY_NECI1 GSM_LCHAN_TCH_H
          (set_ctype CHREQ_T_PAG_R_ANY_NECI0 GSM_LCHAN_TCH_H tab)
      else
        set_ctype CHREQ_T_PAG_R_ANY_NECI1 GSM_LCHAN_TCH_F
          (set_ctype CHREQ_T_PAG_R_ANY_NECI0 GSM_LCHAN_TCH_F tab)
    else tab in
  mk_chreq_policy (neci network) (pag_any_tch network) tab.

(** The type of the first entry that matches. *)
Fixpoint chreq_lookup (tab : list chreq) (ra : Z) : option chreq_type :=
  match tab with
  | [] => None
  | chr :: tab => if ra .& chr_mask chr =? chr_val chr then Some (chr_type chr)
                  else chreq_lookup tab ra
  end.

Definition get_ctype_by_chreq (network : chreq_policy) (ra : Z) : gsm_chan_t :=
  let chreq := if negb (neci network =? 0) then chreq_type_neci1 else chreq_type_neci0 in
  match chreq_lookup chreq ra with
  | Some t => net_ctype_by_chreq network t
  | None => GSM_LCHAN_SDCCH
  end.

Definition get_reason_by_chreq (ra neci : Z) : gsm_chreq_reason_t :=
  let chreq := if negb (neci =? 0) then chreq_type_neci1 else chreq_type_neci0 in
  match chreq_lookup chreq ra with
  | Some t => reason_by_chreq t
  | None => GSM_CHREQ_REASON_OTHER
  end.

(** ** The reference decoder, by the leading bits of the octet *)

(** With the NECI bit ([n]) and TCHs for paging responses ([p]): channel type and reason. *)
Definition chreq_reference (n p : bool) (ra : Z) : gsm_chan_t * gsm_chreq_reason_t :=
  let top3 := ra .>> 5 in
  let top4 := ra .>> 4 in
  let low4 := ra .& 0x0f in
  let pag_any := if p then (if n then GSM_LCHAN_TCH_H else GSM_LCHAN_TCH_F) else GSM_LCHAN_SDCCH in
  let half_if_neci := if n then GSM_LCHAN_TCH_H else GSM_LCHAN_TCH_F in
  if top3 =? 5 then (half_if_neci, GSM_CHREQ_REASON_EMERG)
  else if top3 =? 6 then
    (if n then GSM_LCHAN_TCH_F else GSM_LCHAN_TCH_H, GSM_CHREQ_REASON_CALL)
  else if top3 =? 7 then (GSM_LCHAN_TCH_F, GSM_CHREQ_REASON_OTHER)
  else if top3 =? 4 then (pag_any, GSM_CHREQ_REASON_PAG)
  else if top4 =? 0 then (GSM_LCHAN_SDCCH, GSM_CHREQ_REASON_LOCATION_UPD)
  else if top4 =? 1 then
    (GSM_LCHAN_SDCCH, if n then GSM_CHREQ_REASON_OTHER else GSM_CHREQ_REASON_LOCATION_UPD)
  else if (top4 =? 2) || (top4 =? 3) then (GSM_LCHAN_TCH_F, GSM_CHREQ_REASON_PAG)
  else if top4 =? 4 then
    if n then (GSM_LCHAN_TCH_H, GSM_CHREQ_REASON_CALL) else (GSM_LCHAN_SDCCH, GSM_CHREQ_REASON_OTHER)
  else if top4 =? 5 then (GSM_LCHAN_TCH_H, GSM_CHREQ_REASON_OTHER)
  else if (top4 =? 6) && (8 <=? low4) && n then (GSM_LCHAN_TCH_H, GSM_CHREQ_REASON_CALL)
  else if ra =? 0x7f then (GSM_LCHAN_UNKNOWN, GSM_CHREQ_REASON_OTHER)
  else (GSM_LCHAN_SDCCH, GSM_CHREQ_REASON_OTHER).

(** How many entries of a table an octet matches. *)
Definition matches (tab : list chreq) (ra : Z) : nat :=
  length (filter (fun chr => ra .& chr_mask chr = chr_val chr) tab).

Lemma tables_unambiguous ra :
  0 <= ra < 256 -> (matches chreq_type_neci0 ra <= 1)%nat /\ (matches chreq_type_neci1 ra <= 1)%nat.
Proof.
  intros H.
  assert (Nat.leb (matches chreq_type_neci0 ra) 1 && Nat.leb (matches chreq_type_neci1 ra) 1 = true)
    as Hb.
  { apply (range_forall (fun ra => Nat.leb (matches chreq_type_neci0 ra) 1 &&
             Nat.leb (matches chreq_type_neci1 ra) 1) 256); [by vm_compute|lia]. }
  apply andb_true_iff in Hb as [H0 H1]. by apply Nat.leb_le in H0; apply Nat.leb_le in H1.
Qed.

(** The decoding depends on the policy only through the two flags being set or not. *)
Lemma get_ctype_flags pol ra :
  get_ctype_by_chreq (gsm_net_update_ctype pol) ra =
  get_ctype_by_chreq (gsm_net_update_ctype
    (mk_chreq_policy (if neci pol =? 0 then 0 else 1) (if pag_any_tch pol =? 0 then 0 else 1)
       ctype_by_chreq)) ra.
Proof.
  unfold get_ctype_by_chreq, gsm_net_update_ctype. cbn [neci pag_any_tch net_ctype_by_chreq].
  by destruct (neci pol =? 0), (pag_any_tch pol =? 0).
Qed.

Definition chreq_agrees (n p : bool) (ra : Z) : bool :=
  let pol := gsm_net_update_ctype
    (mk_chreq_policy (if n then 1 else 0) (if p then 1 else 0) ctype_by_chreq) in
  bool_decide ((get_ctype_by_chreq pol ra, get_reason_by_chreq ra (if n then 1 else 0)) =
               chreq_reference n p ra).

(** for every octet of a CHANNEL REQUEST, under every setting of the network, the channel
    type and the reason the tables give are those of the reference decoder, and no octet matches
    two entries of a table, so that the order of the entries does not matter. *)
Theorem chreq_decode pol ra :
  0 <= ra < 256 ->
  (get_ctype_by_chreq (gsm_net_update_ctype pol) ra, get_reason_by_chreq ra (neci pol)) =
    chreq_reference (negb (neci pol =? 0)) (negb (pag_any_tch pol =? 0)) ra /\
  (matches chreq_type_neci0 ra <= 1)%nat /\ (matches chreq_type_neci1 ra <= 1)%nat.
Proof.
  intros Hr. split; [|by apply tables_unambiguous]. rewrite get_ctype_flags.
  replace (get_reason_by_chreq ra (neci pol)) with
    (get_reason_by_chreq ra (if neci pol =? 0 then 0 else 1))
    by (unfold get_reason_by_chreq; by destruct (neci pol =? 0)).
  assert (forall n p, chreq_agrees n p ra = true) as H.
  { intros n p. apply (range_forall (chreq_agrees n p) 256); [|lia].
    by destruct n, p; vm_compute. }
  specialize (H (negb (neci pol =? 0)) (negb (pag_any_tch pol =? 0))).
  unfold chreq_agrees in H. apply bool_decide_eq_true in H. rewrite <- H.
  by destruct (neci pol =? 0), (pag_any_tch pol =? 0).
Qed.

Lemma chreq_decode_witness :
  0 <= 0xa3 < 256 /\
  get_ctype_by_chreq (gsm_net_update_ctype (mk_chreq_policy 1 0 ctype_by_chreq)) 0xa3 =
    GSM_LCHAN_TCH_H.
Proof.
  split; [lia|].
  pose proof (chreq_decode (mk_chreq_policy 1 0 ctype_by_chreq) 0xa3 ltac:(lia)) as [H _].
  exact (f_equal fst H).
Defined.

End Chreq.
