(* ===== verification/Radio.v ===== *)
(** The radio resources of a BSC: networks, BTSs, transceivers (TRX), time slots (TS) and logical
    channels (lchan) with their allocation and look-up (libcommon/gsm_data_shared.c,
    libcommon/gsm_data.c, [nm_is_running] of libbsc/abis_nm.c, [lchan_lookup] of
    libbsc/abis_rsl.c).

    A BTS is one record with everything it owns; a pointer into it is a path: the index of the TRX
    in [trx_list], of the time slot in the TRX and of the logical channel in the time slot. [None]
    results of pointer type are NULL; where the code would follow a null pointer or leave an array
    the outer option is [None]. *)

From S2P Require Import Prelude Meas Chreq.

Module Radio.
Export Meas Chreq.

(** Numbers that the headers of libosmocore define and the sources use by name. *)
Class LibosmoConst : Type := {
  NM_OPSTATE_NULL : Z;
  NM_OPSTATE_ENABLED : Z;
  NM_AVSTATE_OK : Z;
  NM_AVSTATE_POWER_OFF : Z;
  NM_STATE_UNLOCKED : Z;
  BS11_OBJ_CCLK : Z;
  BS11_OBJ_BBSIG : Z;
  BS11_OBJ_PA : Z;
  GSM_LAC_RESERVED_ALL_BTS : Z;
  GSM48_REJECT_ROAMING_NOT_ALLOWED : Z
}.

Definition TRX_NR_TS : nat := 8.
Definition TS_MAX_LCHAN : nat := 8.
Definition TS_F_PDCH_MODE : Z := 0x1000.
Definition LCHAN_SAPI_UNUSED : Z := 0.
Definition LCHAN_SAPI_MS : Z := 1.
Definition LCHAN_SAPI_NET : Z := 2.
Definition GSM_T3101_DEFAULT : Z := 10.
Definition GSM_T3113_DEFAULT : Z := 60.

(** [enum gsm_phys_chan_config] *)
Inductive gsm_phys_chan_config : Type :=
| GSM_PCHAN_NONE
| GSM_PCHAN_CCCH
| GSM_PCHAN_CCCH_SDCCH4
| GSM_PCHAN_TCH_F
| GSM_PCHAN_TCH_H
| GSM_PCHAN_SDCCH8_SACCH8C
| GSM_PCHAN_PDCH
| GSM_PCHAN_TCH_F_PDCH
| GSM_PCHAN_UNKNOWN.
#[export] Instance pchan_eq_dec : EqDecision gsm_phys_chan_config.
Proof. solve_decision. Defined.

Inductive gsm_lchan_state : Type :=
| LCHAN_S_NONE
| LCHAN_S_ACT_REQ
| LCHAN_S_ACTIVE
| LCHAN_S_REL_REQ
| LCHAN_S_REL_ERR
| LCHAN_S_INACTIVE.
#[export] Instance lchan_state_eq_dec : EqDecision gsm_lchan_state.
Proof. solve_decision. Defined.

Inductive gsm_bts_type : Type :=
| GSM_BTS_TYPE_UNKNOWN
| GSM_BTS_TYPE_BS11
| GSM_BTS_TYPE_NANOBTS
| GSM_BTS_TYPE_RBS2000
| GSM_BTS_TYPE_HSL_FEMTO
| GSM_BTS_TYPE_NOKIA_SITE.
#[export] Instance bts_type_eq_dec : EqDecision gsm_bts_type.
Proof. solve_decision. Defined.

(** The [NM_OC_*] numbers. *)
Inductive nm_obj_class : Type :=
| NM_OC_NONE  (* 0 of a fresh object *)
| NM_OC_SITE_MANAGER
| NM_OC_BTS
| NM_OC_RADIO_CARRIER
| NM_OC_BASEB_TRANSC
| NM_OC_CHANNEL
| NM_OC_BS11
| NM_OC_BS11_RACK
| NM_OC_BS11_ENVABTSE
| NM_OC_GPRS_NSE
| NM_OC_GPRS_CELL
| NM_OC_GPRS_NSVC
| NM_OC_OTHER (n : Z).

(** What the activation timer calls. *)
Inductive act_cb : Type :=
| lchan_act_tmr_cb
| lchan_deact_tmr_cb.

(** [enum rsl_cmod_spd], the values the sources set. *)
Inductive rsl_cmod_spd : Type :=
| RSL_CMOD_SPD_NONE
| RSL_CMOD_SPD_SPEECH
| RSL_CMOD_SPD_DATA
| RSL_CMOD_SPD_SIGN.
(** [enum gsm48_chan_mode] *)
Inductive gsm48_chan_mode : Type :=
| GSM48_CMODE_SIGN
| GSM48_CMODE_SPEECH_V1
| GSM48_CMODE_SPEECH_EFR
| GSM48_CMODE_SPEECH_AMR
| GSM48_CMODE_DATA_14k5
| GSM48_CMODE_DATA_12k0
| GSM48_CMODE_DATA_6k0
| GSM48_CMODE_DATA_3k6
| GSM48_CMODE_OTHER (n : Z).
#[export] Instance chan_mode_eq_dec : EqDecision gsm48_chan_mode.
Proof. solve_decision. Defined.

(** * Data *)

Record gsm_nm_state : Type := mk_gsm_nm_state {
  operational : Z;
  administrative : Z;
  availability : Z
}.

#[export] Instance upd_operational : Upd operational := fun f r => mk_gsm_nm_state (f
  (operational r)) (administrative r) (availability r).
#[export] Instance upd_administrative : Upd administrative := fun f r => mk_gsm_nm_state
  (operational r) (f (administrative r)) (availability r).
#[export] Instance upd_availability : Upd availability := fun f r => mk_gsm_nm_state
  (operational r) (administrative r) (f (availability r)).

Record abis_om_obj_inst : Type := mk_abis_om_obj_inst {
  oi_bts_nr : Z;
  oi_trx_nr : Z;
  oi_ts_nr : Z
}.

#[export] Instance upd_oi_bts_nr : Upd oi_bts_nr := fun f r => mk_abis_om_obj_inst (f (oi_bts_nr
  r)) (oi_trx_nr r) (oi_ts_nr r).
#[export] Instance upd_oi_trx_nr : Upd oi_trx_nr := fun f r => mk_abis_om_obj_inst (oi_bts_nr r)
  (f (oi_trx_nr r)) (oi_ts_nr r).
#[export] Instance upd_oi_ts_nr : Upd oi_ts_nr := fun f r => mk_abis_om_obj_inst (oi_bts_nr r)
  (oi_trx_nr r) (f (oi_ts_nr r)).

(** A managed object. *)
Record gsm_abis_mo : Type := mk_gsm_abis_mo {
  obj_class : nm_obj_class;
  obj_inst : abis_om_obj_inst;
  nm_state : gsm_nm_state
}.

#[export] Instance upd_obj_class : Upd obj_class := fun f r => mk_gsm_abis_mo (f (obj_class r))
  (obj_inst r) (nm_state r).
#[export] Instance upd_obj_inst : Upd obj_inst := fun f r => mk_gsm_abis_mo (obj_class r) (f
  (obj_inst r)) (nm_state r).
#[export] Instance upd_nm_state : Upd nm_state := fun f r => mk_gsm_abis_mo (obj_class r)
  (obj_inst r) (f (nm_state r)).

(** A logical channel. *)
Record gsm_lchan : Type := mk_gsm_lchan {
  lc_nr : Z;
  lc_type : gsm_chan_t;
  rsl_cmode : rsl_cmod_spd;
  tch_mode : gsm48_chan_mode;
  lc_state : gsm_lchan_state;
  bs_power : Z;
  ms_power : Z;
  encr_alg_id : Z;
  encr_key : list Z;  (* the first key_len octets *)
  mr_conf : list Z;
  sapis : list Z;
  sach_deact : Z;
  release_reason : Z;
  rqd_ta : Z;
  T3101 : option Z;  (* seconds, when it runs *)
  T3111 : option Z;
  error_timer : option Z;
  act_timer : option (act_cb * Z);
  neigh_meas : list neigh_meas_proc;
  lc_meas : meas_ring;
  rqd_ref : option (list Z);
  lc_conn : option nat  (* the connection that uses the channel *)
}.

#[export] Instance upd_lc_nr : Upd lc_nr := fun f r => mk_gsm_lchan (f (lc_nr r)) (lc_type r)
  (rsl_cmode r) (tch_mode r) (lc_state r) (bs_power r) (ms_power r) (encr_alg_id r) (encr_key r)
  (mr_conf r) (sapis r) (sach_deact r) (release_reason r) (rqd_ta r) (T3101 r) (T3111 r)
  (error_timer r) (act_timer r) (neigh_meas r) (lc_meas r) (rqd_ref r) (lc_conn r).
#[export] Instance upd_lc_type : Upd lc_type := fun f r => mk_gsm_lchan (lc_nr r) (f (lc_type
  r)) (rsl_cmode r) (tch_mode r) (lc_state r) (bs_power r) (ms_power r) (encr_alg_id r) (encr_key
  r) (mr_conf r) (sapis r) (sach_deact r) (release_reason r) (rqd_ta r) (T3101 r) (T3111 r)
  (error_timer r) (act_timer r) (neigh_meas r) (lc_meas r) (rqd_ref r) (lc_conn r).
#[export] Instance upd_rsl_cmode : Upd rsl_cmode := fun f r => mk_gsm_lchan (lc_nr r) (lc_type
  r) (f (rsl_cmode r)) (tch_mode r) (lc_state r) (bs_power r) (ms_power r) (encr_alg_id r)
  (encr_key r) (mr_conf r) (sapis r) (sach_deact r) (release_reason r) (rqd_ta r) (T3101 r) (T3111
  r) (error_timer r) (act_timer r) (neigh_meas r) (lc_meas r) (rqd_ref r) (lc_conn r).
#[export] Instance upd_tch_mode : Upd tch_mode := fun f r => mk_gsm_lchan (lc_nr r) (lc_type r)
  (rsl_cmode r) (f (tch_mode r)) (lc_state r) (bs_power r) (ms_power r) (encr_alg_id r) (encr_key
  r) (mr_conf r) (sapis r) (sach_deact r) (release_reason r) (rqd_ta r) (T3101 r) (T3111 r)
  (error_timer r) (act_timer r) (neigh_meas r) (lc_meas r) (rqd_ref r) (lc_conn r).
#[export] Instance upd_lc_state : Upd lc_state := fun f r => mk_gsm_lchan (lc_nr r) (lc_type r)
  (rsl_cmode r) (tch_mode r) (f (lc_state r)) (bs_power r) (ms_power r) (encr_alg_id r) (encr_key
  r) (mr_conf r) (sapis r) (sach_deact r) (release_reason r) (rqd_ta r) (T3101 r) (T3111 r)
  (error_timer r) (act_timer r) (neigh_meas r) (lc_meas r) (rqd_ref r) (lc_conn r).
#[export] Instance upd_bs_power : Upd bs_power := fun f r => mk_gsm_lchan (lc_nr r) (lc_type r)
  (rsl_cmode r) (tch_mode r) (lc_state r) (f (bs_power r)) (ms_power r) (encr_alg_id r) (encr_key
  r) (mr_conf r) (sapis r) (sach_deact r) (release_reason r) (rqd_ta r) (T3101 r) (T3111 r)
  (error_timer r) (act_timer r) (neigh_meas r) (lc_meas r) (rqd_ref r) (lc_conn r).
#[export] Instance upd_ms_power : Upd ms_power := fun f r => mk_gsm_lchan (lc_nr r) (lc_type r)
  (rsl_cmode r) (tch_mode r) (lc_state r) (bs_power r) (f (ms_power r)) (encr_alg_id r) (encr_key
  r) (mr_conf r) (sapis r) (sach_deact r) (release_reason r) (rqd_ta r) (T3101 r) (T3111 r)
  (error_timer r) (act_timer r) (neigh_meas r) (lc_meas r) (rqd_ref r) (lc_conn r).
#[export] Instance upd_encr_alg_id : Upd encr_alg_id := fun f r => mk_gsm_lchan (lc_nr r)
  (lc_type r) (rsl_cmode r) (tch_mode r) (lc_state r) (bs_power r) (ms_power r) (f (encr_alg_id
  r)) (encr_key r) (mr_conf r) (sapis r) (sach_deact r) (release_reason r) (rqd_ta r) (T3101 r)
  (T3111 r) (error_timer r) (act_timer r) (neigh_meas r) (lc_meas r) (rqd_ref r) (lc_conn r).
#[export] Instance upd_encr_key : Upd encr_key := fun f r => mk_gsm_lchan (lc_nr r) (lc_type r)
  (rsl_cmode r) (tch_mode r) (lc_state r) (bs_power r) (ms_power r) (encr_alg_id r) (f (encr_key
  r)) (mr_conf r) (sapis r) (sach_deact r) (release_reason r) (rqd_ta r) (T3101 r) (T3111 r)
  (error_timer r) (act_timer r) (neigh_meas r) (lc_meas r) (rqd_ref r) (lc_conn r).
#[export] Instance upd_mr_conf : Upd mr_conf := fun f r => mk_gsm_lchan (lc_nr r) (lc_type r)
  (rsl_cmode r) (tch_mode r) (lc_state r) (bs_power r) (ms_power r) (encr_alg_id r) (encr_key r)
  (f (mr_conf r)) (sapis r) (sach_deact r) (release_reason r) (rqd_ta r) (T3101 r) (T3111 r)
  (error_timer r) (act_timer r) (neigh_meas r) (lc_meas r) (rqd_ref r) (lc_conn r).
#[export] Instance upd_sapis : Upd sapis := fun f r => mk_gsm_lchan (lc_nr r) (lc_type r)
  (rsl_cmode r) (tch_mode r) (lc_state r) (bs_power r) (ms_power r) (encr_alg_id r) (encr_key r)
  (mr_conf r) (f (sapis r)) (sach_deact r) (release_reason r) (rqd_ta r) (T3101 r) (T3111 r)
  (error_timer r) (act_timer r) (neigh_meas r) (lc_meas r) (rqd_ref r) (lc_conn r).
#[export] Instance upd_sach_deact : Upd sach_deact := fun f r => mk_gsm_lchan (lc_nr r) (lc_type
  r) (rsl_cmode r) (tch_mode r) (lc_state r) (bs_power r) (ms_power r) (encr_alg_id r) (encr_key
  r) (mr_conf r) (sapis r) (f (sach_deact r)) (release_reason r) (rqd_ta r) (T3101 r) (T3111 r)
  (error_timer r) (act_timer r) (neigh_meas r) (lc_meas r) (rqd_ref r) (lc_conn r).
#[export] Instance upd_release_reason : Upd release_reason := fun f r => mk_gsm_lchan (lc_nr r)
  (lc_type r) (rsl_cmode r) (tch_mode r) (lc_state r) (bs_power r) (ms_power r) (encr_alg_id r)
  (encr_key r) (mr_conf r) (sapis r) (sach_deact r) (f (release_reason r)) (rqd_ta r) (T3101 r)
  (T3111 r) (error_timer r) (act_timer r) (neigh_meas r) (lc_meas r) (rqd_ref r) (lc_conn r).
#[export] Instance upd_rqd_ta : Upd rqd_ta := fun f r => mk_gsm_lchan (lc_nr r) (lc_type r)
  (rsl_cmode r) (tch_mode r) (lc_state r) (bs_power r) (ms_power r) (encr_alg_id r) (encr_key r)
  (mr_conf r) (sapis r) (sach_deact r) (release_reason r) (f (rqd_ta r)) (T3101 r) (T3111 r)
  (error_timer r) (act_timer r) (neigh_meas r) (lc_meas r) (rqd_ref r) (lc_conn r).
#[export] Instance upd_T3101 : Upd T3101 := fun f r => mk_gsm_lchan (lc_nr r) (lc_type r)
  (rsl_cmode r) (tch_mode r) (lc_state r) (bs_power r) (ms_power r) (encr_alg_id r) (encr_key r)
  (mr_conf r) (sapis r) (sach_deact r) (release_reason r) (rqd_ta r) (f (T3101 r)) (T3111 r)
  (error_timer r) (act_timer r) (neigh_meas r) (lc_meas r) (rqd_ref r) (lc_conn r).
#[export] Instance upd_T3111 : Upd T3111 := fun f r => mk_gsm_lchan (lc_nr r) (lc_type r)
  (rsl_cmode r) (tch_mode r) (lc_state r) (bs_power r) (ms_power r) (encr_alg_id r) (encr_key r)
  (mr_conf r) (sapis r) (sach_deact r) (release_reason r) (rqd_ta r) (T3101 r) (f (T3111 r))
  (error_timer r) (act_timer r) (neigh_meas r) (lc_meas r) (rqd_ref r) (lc_conn r).
#[export] Instance upd_error_timer : Upd error_timer := fun f r => mk_gsm_lchan (lc_nr r)
  (lc_type r) (rsl_cmode r) (tch_mode r) (lc_state r) (bs_power r) (ms_power r) (encr_alg_id r)
  (encr_key r) (mr_conf r) (sapis r) (sach_deact r) (release_reason r) (rqd_ta r) (T3101 r) (T3111
  r) (f (error_timer r)) (act_timer r) (neigh_meas r) (lc_meas r) (rqd_ref r) (lc_conn r).
#[export] Instance upd_act_timer : Upd act_timer := fun f r => mk_gsm_lchan (lc_nr r) (lc_type
  r) (rsl_cmode r) (tch_mode r) (lc_state r) (bs_power r) (ms_power r) (encr_alg_id r) (encr_key
  r) (mr_conf r) (sapis r) (sach_deact r) (release_reason r) (rqd_ta r) (T3101 r) (T3111 r)
  (error_timer r) (f (act_timer r)) (neigh_meas r) (lc_meas r) (rqd_ref r) (lc_conn r).
#[export] Instance upd_neigh_meas : Upd neigh_meas := fun f r => mk_gsm_lchan (lc_nr r) (lc_type
  r) (rsl_cmode r) (tch_mode r) (lc_state r) (bs_power r) (ms_power r) (encr_alg_id r) (encr_key
  r) (mr_conf r) (sapis r) (sach_deact r) (release_reason r) (rqd_ta r) (T3101 r) (T3111 r)
  (error_timer r) (act_timer r) (f (neigh_meas r)) (lc_meas r) (rqd_ref r) (lc_conn r).
#[export] Instance upd_lc_meas : Upd lc_meas := fun f r => mk_gsm_lchan (lc_nr r) (lc_type r)
  (rsl_cmode r) (tch_mode r) (lc_state r) (bs_power r) (ms_power r) (encr_alg_id r) (encr_key r)
  (mr_conf r) (sapis r) (sach_deact r) (release_reason r) (rqd_ta r) (T3101 r) (T3111 r)
  (error_timer r) (act_timer r) (neigh_meas r) (f (lc_meas r)) (rqd_ref r) (lc_conn r).
#[export] Instance upd_rqd_ref : Upd rqd_ref := fun f r => mk_gsm_lchan (lc_nr r) (lc_type r)
  (rsl_cmode r) (tch_mode r) (lc_state r) (bs_power r) (ms_power r) (encr_alg_id r) (encr_key r)
  (mr_conf r) (sapis r) (sach_deact r) (release_reason r) (rqd_ta r) (T3101 r) (T3111 r)
  (error_timer r) (act_timer r) (neigh_meas r) (lc_meas r) (f (rqd_ref r)) (lc_conn r).
#[export] Instance upd_lc_conn : Upd lc_conn := fun f r => mk_gsm_lchan (lc_nr r) (lc_type r)
  (rsl_cmode r) (tch_mode r) (lc_state r) (bs_power r) (ms_power r) (encr_alg_id r) (encr_key r)
  (mr_conf r) (sapis r) (sach_deact r) (release_reason r) (rqd_ta r) (T3101 r) (T3111 r)
  (error_timer r) (act_timer r) (neigh_meas r) (lc_meas r) (rqd_ref r) (f (lc_conn r)).

(** A time slot. *)
Record gsm_bts_trx_ts : Type := mk_gsm_bts_trx_ts {
  ts_nr : Z;
  ts_pchan : gsm_phys_chan_config;
  ts_flags : Z;
  ts_mo : gsm_abis_mo;
  ts_tsc : Z;
  hop_enabled : Z;
  hop_maio : Z;
  hop_hsn : Z;
  hop_ma : list Z;  (* the first ma_len octets *)
  e1_nr : Z;
  e1_ts : Z;
  e1_ts_ss : Z;
  lchan : list gsm_lchan
}.

#[export] Instance upd_ts_nr : Upd ts_nr := fun f r => mk_gsm_bts_trx_ts (f (ts_nr r)) (ts_pchan
  r) (ts_flags r) (ts_mo r) (ts_tsc r) (hop_enabled r) (hop_maio r) (hop_hsn r) (hop_ma r) (e1_nr
  r) (e1_ts r) (e1_ts_ss r) (lchan r).
#[export] Instance upd_ts_pchan : Upd ts_pchan := fun f r => mk_gsm_bts_trx_ts (ts_nr r) (f
  (ts_pchan r)) (ts_flags r) (ts_mo r) (ts_tsc r) (hop_enabled r) (hop_maio r) (hop_hsn r) (hop_ma
  r) (e1_nr r) (e1_ts r) (e1_ts_ss r) (lchan r).
#[export] Instance upd_ts_flags : Upd ts_flags := fun f r => mk_gsm_bts_trx_ts (ts_nr r)
  (ts_pchan r) (f (ts_flags r)) (ts_mo r) (ts_tsc r) (hop_enabled r) (hop_maio r) (hop_hsn r)
  (hop_ma r) (e1_nr r) (e1_ts r) (e1_ts_ss r) (lchan r).
#[export] Instance upd_ts_mo : Upd ts_mo := fun f r => mk_gsm_bts_trx_ts (ts_nr r) (ts_pchan r)
  (ts_flags r) (f (ts_mo r)) (ts_tsc r) (hop_enabled r) (hop_maio r) (hop_hsn r) (hop_ma r) (e1_nr
  r) (e1_ts r) (e1_ts_ss r) (lchan r).
#[export] Instance upd_ts_tsc : Upd ts_tsc := fun f r => mk_gsm_bts_trx_ts (ts_nr r) (ts_pchan
  r) (ts_flags r) (ts_mo r) (f (ts_tsc r)) (hop_enabled r) (hop_maio r) (hop_hsn r) (hop_ma r)
  (e1_nr r) (e1_ts r) (e1_ts_ss r) (lchan r).
#[export] Instance upd_hop_enabled : Upd hop_enabled := fun f r => mk_gsm_bts_trx_ts (ts_nr r)
  (ts_pchan r) (ts_flags r) (ts_mo r) (ts_tsc r) (f (hop_enabled r)) (hop_maio r) (hop_hsn r)
  (hop_ma r) (e1_nr r) (e1_ts r) (e1_ts_ss r) (lchan r).
#[export] Instance upd_hop_maio : Upd hop_maio := fun f r => mk_gsm_bts_trx_ts (ts_nr r)
  (ts_pchan r) (ts_flags r) (ts_mo r) (ts_tsc r) (hop_enabled r) (f (hop_maio r)) (hop_hsn r)
  (hop_ma r) (e1_nr r) (e1_ts r) (e1_ts_ss r) (lchan r).
#[export] Instance upd_hop_hsn : Upd hop_hsn := fun f r => mk_gsm_bts_trx_ts (ts_nr r) (ts_pchan
  r) (ts_flags r) (ts_mo r) (ts_tsc r) (hop_enabled r) (hop_maio r) (f (hop_hsn r)) (hop_ma r)
  (e1_nr r) (e1_ts r) (e1_ts_ss r) (lchan r).
#[export] Instance upd_hop_ma : Upd hop_ma := fun f r => mk_gsm_bts_trx_ts (ts_nr r) (ts_pchan
  r) (ts_flags r) (ts_mo r) (ts_tsc r) (hop_enabled r) (hop_maio r) (hop_hsn r) (f (hop_ma r))
  (e1_nr r) (e1_ts r) (e1_ts_ss r) (lchan r).
#[export] Instance upd_e1_nr : Upd e1_nr := fun f r => mk_gsm_bts_trx_ts (ts_nr r) (ts_pchan r)
  (ts_flags r) (ts_mo r) (ts_tsc r) (hop_enabled r) (hop_maio r) (hop_hsn r) (hop_ma r) (f (e1_nr
  r)) (e1_ts r) (e1_ts_ss r) (lchan r).
#[export] Instance upd_e1_ts : Upd e1_ts := fun f r => mk_gsm_bts_trx_ts (ts_nr r) (ts_pchan r)
  (ts_flags r) (ts_mo r) (ts_tsc r) (hop_enabled r) (hop_maio r) (hop_hsn r) (hop_ma r) (e1_nr r)
  (f (e1_ts r)) (e1_ts_ss r) (lchan r).
#[export] Instance upd_e1_ts_ss : Upd e1_ts_ss := fun f r => mk_gsm_bts_trx_ts (ts_nr r)
  (ts_pchan r) (ts_flags r) (ts_mo r) (ts_tsc r) (hop_enabled r) (hop_maio r) (hop_hsn r) (hop_ma
  r) (e1_nr r) (e1_ts r) (f (e1_ts_ss r)) (lchan r).
#[export] Instance upd_lchan : Upd lchan := fun f r => mk_gsm_bts_trx_ts (ts_nr r) (ts_pchan r)
  (ts_flags r) (ts_mo r) (ts_tsc r) (hop_enabled r) (hop_maio r) (hop_hsn r) (hop_ma r) (e1_nr r)
  (e1_ts r) (e1_ts_ss r) (f (lchan r)).

(** A transceiver. *)
Record gsm_bts_trx : Type := mk_gsm_bts_trx {
  trx_nr : Z;
  rsl_tei : Z;
  trx_mo : gsm_abis_mo;
  bb_transc_mo : gsm_abis_mo;
  arfcn : Z;
  nominal_power : Z;
  bbsig_mo : gsm_abis_mo;
  pa_mo : gsm_abis_mo;
  trx_ts : list gsm_bts_trx_ts
}.

#[export] Instance upd_trx_nr : Upd trx_nr := fun f r => mk_gsm_bts_trx (f (trx_nr r)) (rsl_tei
  r) (trx_mo r) (bb_transc_mo r) (arfcn r) (nominal_power r) (bbsig_mo r) (pa_mo r) (trx_ts r).
#[export] Instance upd_rsl_tei : Upd rsl_tei := fun f r => mk_gsm_bts_trx (trx_nr r) (f (rsl_tei
  r)) (trx_mo r) (bb_transc_mo r) (arfcn r) (nominal_power r) (bbsig_mo r) (pa_mo r) (trx_ts r).
#[export] Instance upd_trx_mo : Upd trx_mo := fun f r => mk_gsm_bts_trx (trx_nr r) (rsl_tei r)
  (f (trx_mo r)) (bb_transc_mo r) (arfcn r) (nominal_power r) (bbsig_mo r) (pa_mo r) (trx_ts r).
#[export] Instance upd_bb_transc_mo : Upd bb_transc_mo := fun f r => mk_gsm_bts_trx (trx_nr r)
  (rsl_tei r) (trx_mo r) (f (bb_transc_mo r)) (arfcn r) (nominal_power r) (bbsig_mo r) (pa_mo r)
  (trx_ts r).
#[export] Instance upd_arfcn : Upd arfcn := fun f r => mk_gsm_bts_trx (trx_nr r) (rsl_tei r)
  (trx_mo r) (bb_transc_mo r) (f (arfcn r)) (nominal_power r) (bbsig_mo r) (pa_mo r) (trx_ts r).
#[export] Instance upd_nominal_power : Upd nominal_power := fun f r => mk_gsm_bts_trx (trx_nr r)
  (rsl_tei r) (trx_mo r) (bb_transc_mo r) (arfcn r) (f (nominal_power r)) (bbsig_mo r) (pa_mo r)
  (trx_ts r).
#[export] Instance upd_bbsig_mo : Upd bbsig_mo := fun f r => mk_gsm_bts_trx (trx_nr r) (rsl_tei
  r) (trx_mo r) (bb_transc_mo r) (arfcn r) (nominal_power r) (f (bbsig_mo r)) (pa_mo r) (trx_ts
  r).
#[export] Instance upd_pa_mo : Upd pa_mo := fun f r => mk_gsm_bts_trx (trx_nr r) (rsl_tei r)
  (trx_mo r) (bb_transc_mo r) (arfcn r) (nominal_power r) (bbsig_mo r) (f (pa_mo r)) (trx_ts r).
#[export] Instance upd_trx_ts : Upd trx_ts := fun f r => mk_gsm_bts_trx (trx_nr r) (rsl_tei r)
  (trx_mo r) (bb_transc_mo r) (arfcn r) (nominal_power r) (bbsig_mo r) (pa_mo r) (f (trx_ts r)).

Record gsm_bts_gprs_nsvc : Type := mk_gsm_bts_gprs_nsvc {
  nsvc_id : Z;
  nsvc_mo : gsm_abis_mo
}.

#[export] Instance upd_nsvc_id : Upd nsvc_id := fun f r => mk_gsm_bts_gprs_nsvc (f (nsvc_id r))
  (nsvc_mo r).
#[export] Instance upd_nsvc_mo : Upd nsvc_mo := fun f r => mk_gsm_bts_gprs_nsvc (nsvc_id r) (f
  (nsvc_mo r)).

Record gsm_bts_model : Type := mk_gsm_bts_model {
  model_type : gsm_bts_type;
  model_started : bool;
  model_start : option Z  (* start() with what it returns *)
}.

#[export] Instance upd_model_type : Upd model_type := fun f r => mk_gsm_bts_model (f (model_type
  r)) (model_started r) (model_start r).
#[export] Instance upd_model_started : Upd model_started := fun f r => mk_gsm_bts_model
  (model_type r) (f (model_started r)) (model_start r).
#[export] Instance upd_model_start : Upd model_start := fun f r => mk_gsm_bts_model (model_type
  r) (model_started r) (f (model_start r)).

(** A BTS. *)
Record gsm_bts : Type := mk_gsm_bts {
  bts_nr : Z;
  location_area_code : Z;
  bts_tsc : Z;
  bsic : Z;
  bts_type : gsm_bts_type;
  bts_model : option nat;
  ms_max_power : Z;
  oml_tei : Z;
  bts_mo : gsm_abis_mo;
  free_chans_need : Z;  (* paging.free_chans_need *)
  c0 : option nat;
  site_mgr_mo : gsm_abis_mo;
  cclk_mo : gsm_abis_mo;
  rack_mo : gsm_abis_mo;
  envabtse_mo : list gsm_abis_mo;
  nse_mo : gsm_abis_mo;
  nse_timer : list Z;
  cell_mo : gsm_abis_mo;
  cell_timer : list Z;
  nsvc : list gsm_bts_gprs_nsvc;
  rach_b_thresh : Z;
  rach_ldavg_slots : Z;
  num_trx : Z;
  trx_list : list gsm_bts_trx;
  chan_alloc_reverse : Z;
  neigh_list_manual_mode : Z;
  cell_resel_hyst : Z;
  rxlev_acc_min : Z;
  rach_re : Z;
  rach_tx_integer : Z;
  rach_max_trans : Z;
  rach_t2 : Z
}.

#[export] Instance upd_bts_nr : Upd bts_nr := fun f r => mk_gsm_bts (f (bts_nr r))
  (location_area_code r) (bts_tsc r) (bsic r) (bts_type r) (bts_model r) (ms_max_power r) (oml_tei
  r) (bts_mo r) (free_chans_need r) (c0 r) (site_mgr_mo r) (cclk_mo r) (rack_mo r) (envabtse_mo r)
  (nse_mo r) (nse_timer r) (cell_mo r) (cell_timer r) (nsvc r) (rach_b_thresh r) (rach_ldavg_slots
  r) (num_trx r) (trx_list r) (chan_alloc_reverse r) (neigh_list_manual_mode r) (cell_resel_hyst
  r) (rxlev_acc_min r) (rach_re r) (rach_tx_integer r) (rach_max_trans r) (rach_t2 r).
#[export] Instance upd_location_area_code : Upd location_area_code := fun f r => mk_gsm_bts
  (bts_nr r) (f (location_area_code r)) (bts_tsc r) (bsic r) (bts_type r) (bts_model r)
  (ms_max_power r) (oml_tei r) (bts_mo r) (free_chans_need r) (c0 r) (site_mgr_mo r) (cclk_mo r)
  (rack_mo r) (envabtse_mo r) (nse_mo r) (nse_timer r) (cell_mo r) (cell_timer r) (nsvc r)
  (rach_b_thresh r) (rach_ldavg_slots r) (num_trx r) (trx_list r) (chan_alloc_reverse r)
  (neigh_list_manual_mode r) (cell_resel_hyst r) (rxlev_acc_min r) (rach_re r) (rach_tx_integer r)
  (rach_max_trans r) (rach_t2 r).
#[export] Instance upd_bts_tsc : Upd bts_tsc := fun f r => mk_gsm_bts (bts_nr r)
  (location_area_code r) (f (bts_tsc r)) (bsic r) (bts_type r) (bts_model r) (ms_max_power r)
  (oml_tei r) (bts_mo r) (free_chans_need r) (c0 r) (site_mgr_mo r) (cclk_mo r) (rack_mo r)
  (envabtse_mo r) (nse_mo r) (nse_timer r) (cell_mo r) (cell_timer r) (nsvc r) (rach_b_thresh r)
  (rach_ldavg_slots r) (num_trx r) (trx_list r) (chan_alloc_reverse r) (neigh_list_manual_mode r)
  (cell_resel_hyst r) (rxlev_acc_min r) (rach_re r) (rach_tx_integer r) (rach_max_trans r)
  (rach_t2 r).
#[export] Instance upd_bsic : Upd bsic := fun f r => mk_gsm_bts (bts_nr r) (location_area_code
  r) (bts_tsc r) (f (bsic r)) (bts_type r) (bts_model r) (ms_max_power r) (oml_tei r) (bts_mo r)
  (free_chans_need r) (c0 r) (site_mgr_mo r) (cclk_mo r) (rack_mo r) (envabtse_mo r) (nse_mo r)
  (nse_timer r) (cell_mo r) (cell_timer r) (nsvc r) (rach_b_thresh r) (rach_ldavg_slots r)
  (num_trx r) (trx_list r) (chan_alloc_reverse r) (neigh_list_manual_mode r) (cell_resel_hyst r)
  (rxlev_acc_min r) (rach_re r) (rach_tx_integer r) (rach_max_trans r) (rach_t2 r).
#[export] Instance upd_bts_type : Upd bts_type := fun f r => mk_gsm_bts (bts_nr r)
  (location_area_code r) (bts_tsc r) (bsic r) (f (bts_type r)) (bts_model r) (ms_max_power r)
  (oml_tei r) (bts_mo r) (free_chans_need r) (c0 r) (site_mgr_mo r) (cclk_mo r) (rack_mo r)
  (envabtse_mo r) (nse_mo r) (nse_timer r) (cell_mo r) (cell_timer r) (nsvc r) (rach_b_thresh r)
  (rach_ldavg_slots r) (num_trx r) (trx_list r) (chan_alloc_reverse r) (neigh_list_manual_mode r)
  (cell_resel_hyst r) (rxlev_acc_min r) (rach_re r) (rach_tx_integer r) (rach_max_trans r)
  (rach_t2 r).
#[export] Instance upd_bts_model : Upd bts_model := fun f r => mk_gsm_bts (bts_nr r)
  (location_area_code r) (bts_tsc r) (bsic r) (bts_type r) (f (bts_model r)) (ms_max_power r)
  (oml_tei r) (bts_mo r) (free_chans_need r) (c0 r) (site_mgr_mo r) (cclk_mo r) (rack_mo r)
  (envabtse_mo r) (nse_mo r) (nse_timer r) (cell_mo r) (cell_timer r) (nsvc r) (rach_b_thresh r)
  (rach_ldavg_slots r) (num_trx r) (trx_list r) (chan_alloc_reverse r) (neigh_list_manual_mode r)
  (cell_resel_hyst r) (rxlev_acc_min r) (rach_re r) (rach_tx_integer r) (rach_max_trans r)
  (rach_t2 r).
#[export] Instance upd_ms_max_power : Upd ms_max_power := fun f r => mk_gsm_bts (bts_nr r)
  (location_area_code r) (bts_tsc r) (bsic r) (bts_type r) (bts_model r) (f (ms_max_power r))
  (oml_tei r) (bts_mo r) (free_chans_need r) (c0 r) (site_mgr_mo r) (cclk_mo r) (rack_mo r)
  (envabtse_mo r) (nse_mo r) (nse_timer r) (cell_mo r) (cell_timer r) (nsvc r) (rach_b_thresh r)
  (rach_ldavg_slots r) (num_trx r) (trx_list r) (chan_alloc_reverse r) (neigh_list_manual_mode r)
  (cell_resel_hyst r) (rxlev_acc_min r) (rach_re r) (rach_tx_integer r) (rach_max_trans r)
  (rach_t2 r).
#[export] Instance upd_oml_tei : Upd oml_tei := fun f r => mk_gsm_bts (bts_nr r)
  (location_area_code r) (bts_tsc r) (bsic r) (bts_type r) (bts_model r) (ms_max_power r) (f
  (oml_tei r)) (bts_mo r) (free_chans_need r) (c0 r) (site_mgr_mo r) (cclk_mo r) (rack_mo r)
  (envabtse_mo r) (nse_mo r) (nse_timer r) (cell_mo r) (cell_timer r) (nsvc r) (rach_b_thresh r)
  (rach_ldavg_slots r) (num_trx r) (trx_list r) (chan_alloc_reverse r) (neigh_list_manual_mode r)
  (cell_resel_hyst r) (rxlev_acc_min r) (rach_re r) (rach_tx_integer r) (rach_max_trans r)
  (rach_t2 r).
#[export] Instance upd_bts_mo : Upd bts_mo := fun f r => mk_gsm_bts (bts_nr r)
  (location_area_code r) (bts_tsc r) (bsic r) (bts_type r) (bts_model r) (ms_max_power r) (oml_tei
  r) (f (bts_mo r)) (free_chans_need r) (c0 r) (site_mgr_mo r) (cclk_mo r) (rack_mo r)
  (envabtse_mo r) (nse_mo r) (nse_timer r) (cell_mo r) (cell_timer r) (nsvc r) (rach_b_thresh r)
  (rach_ldavg_slots r) (num_trx r) (trx_list r) (chan_alloc_reverse r) (neigh_list_manual_mode r)
  (cell_resel_hyst r) (rxlev_acc_min r) (rach_re r) (rach_tx_integer r) (rach_max_trans r)
  (rach_t2 r).
#[export] Instance upd_free_chans_need : Upd free_chans_need := fun f r => mk_gsm_bts (bts_nr r)
  (location_area_code r) (bts_tsc r) (bsic r) (bts_type r) (bts_model r) (ms_max_power r) (oml_tei
  r) (bts_mo r) (f (free_chans_need r)) (c0 r) (site_mgr_mo r) (cclk_mo r) (rack_mo r)
  (envabtse_mo r) (nse_mo r) (nse_timer r) (cell_mo r) (cell_timer r) (nsvc r) (rach_b_thresh r)
  (rach_ldavg_slots r) (num_trx r) (trx_list r) (chan_alloc_reverse r) (neigh_list_manual_mode r)
  (cell_resel_hyst r) (rxlev_acc_min r) (rach_re r) (rach_tx_integer r) (rach_max_trans r)
  (rach_t2 r).
#[export] Instance upd_c0 : Upd c0 := fun f r => mk_gsm_bts (bts_nr r) (location_area_code r)
  (bts_tsc r) (bsic r) (bts_type r) (bts_model r) (ms_max_power r) (oml_tei r) (bts_mo r)
  (free_chans_need r) (f (c0 r)) (site_mgr_mo r) (cclk_mo r) (rack_mo r) (envabtse_mo r) (nse_mo
  r) (nse_timer r) (cell_mo r) (cell_timer r) (nsvc r) (rach_b_thresh r) (rach_ldavg_slots r)
  (num_trx r) (trx_list r) (chan_alloc_reverse r) (neigh_list_manual_mode r) (cell_resel_hyst r)
  (rxlev_acc_min r) (rach_re r) (rach_tx_integer r) (rach_max_trans r) (rach_t2 r).
#[export] Instance upd_site_mgr_mo : Upd site_mgr_mo := fun f r => mk_gsm_bts (bts_nr r)
  (location_area_code r) (bts_tsc r) (bsic r) (bts_type r) (bts_model r) (ms_max_power r) (oml_tei
  r) (bts_mo r) (free_chans_need r) (c0 r) (f (site_mgr_mo r)) (cclk_mo r) (rack_mo r)
  (envabtse_mo r) (nse_mo r) (nse_timer r) (cell_mo r) (cell_timer r) (nsvc r) (rach_b_thresh r)
  (rach_ldavg_slots r) (num_trx r) (trx_list r) (chan_alloc_reverse r) (neigh_list_manual_mode r)
  (cell_resel_hyst r) (rxlev_acc_min r) (rach_re r) (rach_tx_integer r) (rach_max_trans r)
  (rach_t2 r).
#[export] Instance upd_cclk_mo : Upd cclk_mo := fun f r => mk_gsm_bts (bts_nr r)
  (location_area_code r) (bts_tsc r) (bsic r) (bts_type r) (bts_model r) (ms_max_power r) (oml_tei
  r) (bts_mo r) (free_chans_need r) (c0 r) (site_mgr_mo r) (f (cclk_mo r)) (rack_mo r)
  (envabtse_mo r) (nse_mo r) (nse_timer r) (cell_mo r) (cell_timer r) (nsvc r) (rach_b_thresh r)
  (rach_ldavg_slots r) (num_trx r) (trx_list r) (chan_alloc_reverse r) (neigh_list_manual_mode r)
  (cell_resel_hyst r) (rxlev_acc_min r) (rach_re r) (rach_tx_integer r) (rach_max_trans r)
  (rach_t2 r).
#[export] Instance upd_rack_mo : Upd rack_mo := fun f r => mk_gsm_bts (bts_nr r)
  (location_area_code r) (bts_tsc r) (bsic r) (bts_type r) (bts_model r) (ms_max_power r) (oml_tei
  r) (bts_mo r) (free_chans_need r) (c0 r) (site_mgr_mo r) (cclk_mo r) (f (rack_mo r))
  (envabtse_mo r) (nse_mo r) (nse_timer r) (cell_mo r) (cell_timer r) (nsvc r) (rach_b_thresh r)
  (rach_ldavg_slots r) (num_trx r) (trx_list r) (chan_alloc_reverse r) (neigh_list_manual_mode r)
  (cell_resel_hyst r) (rxlev_acc_min r) (rach_re r) (rach_tx_integer r) (rach_max_trans r)
  (rach_t2 r).
#[export] Instance upd_envabtse_mo : Upd envabtse_mo := fun f r => mk_gsm_bts (bts_nr r)
  (location_area_code r) (bts_tsc r) (bsic r) (bts_type r) (bts_model r) (ms_max_power r) (oml_tei
  r) (bts_mo r) (free_chans_need r) (c0 r) (site_mgr_mo r) (cclk_mo r) (rack_mo r) (f (envabtse_mo
  r)) (nse_mo r) (nse_timer r) (cell_mo r) (cell_timer r) (nsvc r) (rach_b_thresh r)
  (rach_ldavg_slots r) (num_trx r) (trx_list r) (chan_alloc_reverse r) (neigh_list_manual_mode r)
  (cell_resel_hyst r) (rxlev_acc_min r) (rach_re r) (rach_tx_integer r) (rach_max_trans r)
  (rach_t2 r).
#[export] Instance upd_nse_mo : Upd nse_mo := fun f r => mk_gsm_bts (bts_nr r)
  (location_area_code r) (bts_tsc r) (bsic r) (bts_type r) (bts_model r) (ms_max_power r) (oml_tei
  r) (bts_mo r) (free_chans_need r) (c0 r) (site_mgr_mo r) (cclk_mo r) (rack_mo r) (envabtse_mo r)
  (f (nse_mo r)) (nse_timer r) (cell_mo r) (cell_timer r) (nsvc r) (rach_b_thresh r)
  (rach_ldavg_slots r) (num_trx r) (trx_list r) (chan_alloc_reverse r) (neigh_list_manual_mode r)
  (cell_resel_hyst r) (rxlev_acc_min r) (rach_re r) (rach_tx_integer r) (rach_max_trans r)
  (rach_t2 r).
#[export] Instance upd_nse_timer : Upd nse_timer := fun f r => mk_gsm_bts (bts_nr r)
  (location_area_code r) (bts_tsc r) (bsic r) (bts_type r) (bts_model r) (ms_max_power r) (oml_tei
  r) (bts_mo r) (free_chans_need r) (c0 r) (site_mgr_mo r) (cclk_mo r) (rack_mo r) (envabtse_mo r)
  (nse_mo r) (f (nse_timer r)) (cell_mo r) (cell_timer r) (nsvc r) (rach_b_thresh r)
  (rach_ldavg_slots r) (num_trx r) (trx_list r) (chan_alloc_reverse r) (neigh_list_manual_mode r)
  (cell_resel_hyst r) (rxlev_acc_min r) (rach_re r) (rach_tx_integer r) (rach_max_trans r)
  (rach_t2 r).
#[export] Instance upd_cell_mo : Upd cell_mo := fun f r => mk_gsm_bts (bts_nr r)
  (location_area_code r) (bts_tsc r) (bsic r) (bts_type r) (bts_model r) (ms_max_power r) (oml_tei
  r) (bts_mo r) (free_chans_need r) (c0 r) (site_mgr_mo r) (cclk_mo r) (rack_mo r) (envabtse_mo r)
  (nse_mo r) (nse_timer r) (f (cell_mo r)) (cell_timer r) (nsvc r) (rach_b_thresh r)
  (rach_ldavg_slots r) (num_trx r) (trx_list r) (chan_alloc_reverse r) (neigh_list_manual_mode r)
  (cell_resel_hyst r) (rxlev_acc_min r) (rach_re r) (rach_tx_integer r) (rach_max_trans r)
  (rach_t2 r).
#[export] Instance upd_cell_timer : Upd cell_timer := fun f r => mk_gsm_bts (bts_nr r)
  (location_area_code r) (bts_tsc r) (bsic r) (bts_type r) (bts_model r) (ms_max_power r) (oml_tei
  r) (bts_mo r) (free_chans_need r) (c0 r) (site_mgr_mo r) (cclk_mo r) (rack_mo r) (envabtse_mo r)
  (nse_mo r) (nse_timer r) (cell_mo r) (f (cell_timer r)) (nsvc r) (rach_b_thresh r)
  (rach_ldavg_slots r) (num_trx r) (trx_list r) (chan_alloc_reverse r) (neigh_list_manual_mode r)
  (cell_resel_hyst r) (rxlev_acc_min r) (rach_re r) (rach_tx_integer r) (rach_max_trans r)
  (rach_t2 r).
#[export] Instance upd_nsvc : Upd nsvc := fun f r => mk_gsm_bts (bts_nr r) (location_area_code
  r) (bts_tsc r) (bsic r) (bts_type r) (bts_model r) (ms_max_power r) (oml_tei r) (bts_mo r)
  (free_chans_need r) (c0 r) (site_mgr_mo r) (cclk_mo r) (rack_mo r) (envabtse_mo r) (nse_mo r)
  (nse_timer r) (cell_mo r) (cell_timer r) (f (nsvc r)) (rach_b_thresh r) (rach_ldavg_slots r)
  (num_trx r) (trx_list r) (chan_alloc_reverse r) (neigh_list_manual_mode r) (cell_resel_hyst r)
  (rxlev_acc_min r) (rach_re r) (rach_tx_integer r) (rach_max_trans r) (rach_t2 r).
#[export] Instance upd_rach_b_thresh : Upd rach_b_thresh := fun f r => mk_gsm_bts (bts_nr r)
  (location_area_code r) (bts_tsc r) (bsic r) (bts_type r) (bts_model r) (ms_max_power r) (oml_tei
  r) (bts_mo r) (free_chans_need r) (c0 r) (site_mgr_mo r) (cclk_mo r) (rack_mo r) (envabtse_mo r)
  (nse_mo r) (nse_timer r) (cell_mo r) (cell_timer r) (nsvc r) (f (rach_b_thresh r))
  (rach_ldavg_slots r) (num_trx r) (trx_list r) (chan_alloc_reverse r) (neigh_list_manual_mode r)
  (cell_resel_hyst r) (rxlev_acc_min r) (rach_re r) (rach_tx_integer r) (rach_max_trans r)
  (rach_t2 r).
#[export] Instance upd_rach_ldavg_slots : Upd rach_ldavg_slots := fun f r => mk_gsm_bts (bts_nr
  r) (location_area_code r) (bts_tsc r) (bsic r) (bts_type r) (bts_model r) (ms_max_power r)
  (oml_tei r) (bts_mo r) (free_chans_need r) (c0 r) (site_mgr_mo r) (cclk_mo r) (rack_mo r)
  (envabtse_mo r) (nse_mo r) (nse_timer r) (cell_mo r) (cell_timer r) (nsvc r) (rach_b_thresh r)
  (f (rach_ldavg_slots r)) (num_trx r) (trx_list r) (chan_alloc_reverse r) (neigh_list_manual_mode
  r) (cell_resel_hyst r) (rxlev_acc_min r) (rach_re r) (rach_tx_integer r) (rach_max_trans r)
  (rach_t2 r).
#[export] Instance upd_num_trx : Upd num_trx := fun f r => mk_gsm_bts (bts_nr r)
  (location_area_code r) (bts_tsc r) (bsic r) (bts_type r) (bts_model r) (ms_max_power r) (oml_tei
  r) (bts_mo r) (free_chans_need r) (c0 r) (site_mgr_mo r) (cclk_mo r) (rack_mo r) (envabtse_mo r)
  (nse_mo r) (nse_timer r) (cell_mo r) (cell_timer r) (nsvc r) (rach_b_thresh r) (rach_ldavg_slots
  r) (f (num_trx r)) (trx_list r) (chan_alloc_reverse r) (neigh_list_manual_mode r)
  (cell_resel_hyst r) (rxlev_acc_min r) (rach_re r) (rach_tx_integer r) (rach_max_trans r)
  (rach_t2 r).
#[export] Instance upd_trx_list : Upd trx_list := fun f r => mk_gsm_bts (bts_nr r)
  (location_area_code r) (bts_tsc r) (bsic r) (bts_type r) (bts_model r) (ms_max_power r) (oml_tei
  r) (bts_mo r) (free_chans_need r) (c0 r) (site_mgr_mo r) (cclk_mo r) (rack_mo r) (envabtse_mo r)
  (nse_mo r) (nse_timer r) (cell_mo r) (cell_timer r) (nsvc r) (rach_b_thresh r) (rach_ldavg_slots
  r) (num_trx r) (f (trx_list r)) (chan_alloc_reverse r) (neigh_list_manual_mode r)
  (cell_resel_hyst r) (rxlev_acc_min r) (rach_re r) (rach_tx_integer r) (rach_max_trans r)
  (rach_t2 r).
#[export] Instance upd_chan_alloc_reverse : Upd chan_alloc_reverse := fun f r => mk_gsm_bts
  (bts_nr r) (location_area_code r) (bts_tsc r) (bsic r) (bts_type r) (bts_model r) (ms_max_power
  r) (oml_tei r) (bts_mo r) (free_chans_need r) (c0 r) (site_mgr_mo r) (cclk_mo r) (rack_mo r)
  (envabtse_mo r) (nse_mo r) (nse_timer r) (cell_mo r) (cell_timer r) (nsvc r) (rach_b_thresh r)
  (rach_ldavg_slots r) (num_trx r) (trx_list r) (f (chan_alloc_reverse r)) (neigh_list_manual_mode
  r) (cell_resel_hyst r) (rxlev_acc_min r) (rach_re r) (rach_tx_integer r) (rach_max_trans r)
  (rach_t2 r).
#[export] Instance upd_neigh_list_manual_mode : Upd neigh_list_manual_mode := fun f r =>
  mk_gsm_bts (bts_nr r) (location_area_code r) (bts_tsc r) (bsic r) (bts_type r) (bts_model r)
  (ms_max_power r) (oml_tei r) (bts_mo r) (free_chans_need r) (c0 r) (site_mgr_mo r) (cclk_mo r)
  (rack_mo r) (envabtse_mo r) (nse_mo r) (nse_timer r) (cell_mo r) (cell_timer r) (nsvc r)
  (rach_b_thresh r) (rach_ldavg_slots r) (num_trx r) (trx_list r) (chan_alloc_reverse r) (f
  (neigh_list_manual_mode r)) (cell_resel_hyst r) (rxlev_acc_min r) (rach_re r) (rach_tx_integer
  r) (rach_max_trans r) (rach_t2 r).
#[export] Instance upd_cell_resel_hyst : Upd cell_resel_hyst := fun f r => mk_gsm_bts (bts_nr r)
  (location_area_code r) (bts_tsc r) (bsic r) (bts_type r) (bts_model r) (ms_max_power r) (oml_tei
  r) (bts_mo r) (free_chans_need r) (c0 r) (site_mgr_mo r) (cclk_mo r) (rack_mo r) (envabtse_mo r)
  (nse_mo r) (nse_timer r) (cell_mo r) (cell_timer r) (nsvc r) (rach_b_thresh r) (rach_ldavg_slots
  r) (num_trx r) (trx_list r) (chan_alloc_reverse r) (neigh_list_manual_mode r) (f
  (cell_resel_hyst r)) (rxlev_acc_min r) (rach_re r) (rach_tx_integer r) (rach_max_trans r)
  (rach_t2 r).
#[export] Instance upd_rxlev_acc_min : Upd rxlev_acc_min := fun f r => mk_gsm_bts (bts_nr r)
  (location_area_code r) (bts_tsc r) (bsic r) (bts_type r) (bts_model r) (ms_max_power r) (oml_tei
  r) (bts_mo r) (free_chans_need r) (c0 r) (site_mgr_mo r) (cclk_mo r) (rack_mo r) (envabtse_mo r)
  (nse_mo r) (nse_timer r) (cell_mo r) (cell_timer r) (nsvc r) (rach_b_thresh r) (rach_ldavg_slots
  r) (num_trx r) (trx_list r) (chan_alloc_reverse r) (neigh_list_manual_mode r) (cell_resel_hyst
  r) (f (rxlev_acc_min r)) (rach_re r) (rach_tx_integer r) (rach_max_trans r) (rach_t2 r).
#[export] Instance upd_rach_re : Upd rach_re := fun f r => mk_gsm_bts (bts_nr r)
  (location_area_code r) (bts_tsc r) (bsic r) (bts_type r) (bts_model r) (ms_max_power r) (oml_tei
  r) (bts_mo r) (free_chans_need r) (c0 r) (site_mgr_mo r) (cclk_mo r) (rack_mo r) (envabtse_mo r)
  (nse_mo r) (nse_timer r) (cell_mo r) (cell_timer r) (nsvc r) (rach_b_thresh r) (rach_ldavg_slots
  r) (num_trx r) (trx_list r) (chan_alloc_reverse r) (neigh_list_manual_mode r) (cell_resel_hyst
  r) (rxlev_acc_min r) (f (rach_re r)) (rach_tx_integer r) (rach_max_trans r) (rach_t2 r).
#[export] Instance upd_rach_tx_integer : Upd rach_tx_integer := fun f r => mk_gsm_bts (bts_nr r)
  (location_area_code r) (bts_tsc r) (bsic r) (bts_type r) (bts_model r) (ms_max_power r) (oml_tei
  r) (bts_mo r) (free_chans_need r) (c0 r) (site_mgr_mo r) (cclk_mo r) (rack_mo r) (envabtse_mo r)
  (nse_mo r) (nse_timer r) (cell_mo r) (cell_timer r) (nsvc r) (rach_b_thresh r) (rach_ldavg_slots
  r) (num_trx r) (trx_list r) (chan_alloc_reverse r) (neigh_list_manual_mode r) (cell_resel_hyst
  r) (rxlev_acc_min r) (rach_re r) (f (rach_tx_integer r)) (rach_max_trans r) (rach_t2 r).
#[export] Instance upd_rach_max_trans : Upd rach_max_trans := fun f r => mk_gsm_bts (bts_nr r)
  (location_area_code r) (bts_tsc r) (bsic r) (bts_type r) (bts_model r) (ms_max_power r) (oml_tei
  r) (bts_mo r) (free_chans_need r) (c0 r) (site_mgr_mo r) (cclk_mo r) (rack_mo r) (envabtse_mo r)
  (nse_mo r) (nse_timer r) (cell_mo r) (cell_timer r) (nsvc r) (rach_b_thresh r) (rach_ldavg_slots
  r) (num_trx r) (trx_list r) (chan_alloc_reverse r) (neigh_list_manual_mode r) (cell_resel_hyst
  r) (rxlev_acc_min r) (rach_re r) (rach_tx_integer r) (f (rach_max_trans r)) (rach_t2 r).
#[export] Instance upd_rach_t2 : Upd rach_t2 := fun f r => mk_gsm_bts (bts_nr r)
  (location_area_code r) (bts_tsc r) (bsic r) (bts_type r) (bts_model r) (ms_max_power r) (oml_tei
  r) (bts_mo r) (free_chans_need r) (c0 r) (site_mgr_mo r) (cclk_mo r) (rack_mo r) (envabtse_mo r)
  (nse_mo r) (nse_timer r) (cell_mo r) (cell_timer r) (nsvc r) (rach_b_thresh r) (rach_ldavg_slots
  r) (num_trx r) (trx_list r) (chan_alloc_reverse r) (neigh_list_manual_mode r) (cell_resel_hyst
  r) (rxlev_acc_min r) (rach_re r) (rach_tx_integer r) (rach_max_trans r) (f (rach_t2 r)).

Record handover_cfg : Type := mk_handover_cfg {
  ho_active : Z;
  win_rxlev_avg : Z;
  win_rxqual_avg : Z;
  win_rxlev_avg_neigh : Z;
  pwr_interval : Z;
  pwr_hysteresis : Z;
  max_distance : Z
}.

#[export] Instance upd_ho_active : Upd ho_active := fun f r => mk_handover_cfg (f (ho_active r))
  (win_rxlev_avg r) (win_rxqual_avg r) (win_rxlev_avg_neigh r) (pwr_interval r) (pwr_hysteresis r)
  (max_distance r).
#[export] Instance upd_win_rxlev_avg : Upd win_rxlev_avg := fun f r => mk_handover_cfg
  (ho_active r) (f (win_rxlev_avg r)) (win_rxqual_avg r) (win_rxlev_avg_neigh r) (pwr_interval r)
  (pwr_hysteresis r) (max_distance r).
#[export] Instance upd_win_rxqual_avg : Upd win_rxqual_avg := fun f r => mk_handover_cfg
  (ho_active r) (win_rxlev_avg r) (f (win_rxqual_avg r)) (win_rxlev_avg_neigh r) (pwr_interval r)
  (pwr_hysteresis r) (max_distance r).
#[export] Instance upd_win_rxlev_avg_neigh : Upd win_rxlev_avg_neigh := fun f r =>
  mk_handover_cfg (ho_active r) (win_rxlev_avg r) (win_rxqual_avg r) (f (win_rxlev_avg_neigh r))
  (pwr_interval r) (pwr_hysteresis r) (max_distance r).
#[export] Instance upd_pwr_interval : Upd pwr_interval := fun f r => mk_handover_cfg (ho_active
  r) (win_rxlev_avg r) (win_rxqual_avg r) (win_rxlev_avg_neigh r) (f (pwr_interval r))
  (pwr_hysteresis r) (max_distance r).
#[export] Instance upd_pwr_hysteresis : Upd pwr_hysteresis := fun f r => mk_handover_cfg
  (ho_active r) (win_rxlev_avg r) (win_rxqual_avg r) (win_rxlev_avg_neigh r) (pwr_interval r) (f
  (pwr_hysteresis r)) (max_distance r).
#[export] Instance upd_max_distance : Upd max_distance := fun f r => mk_handover_cfg (ho_active
  r) (win_rxlev_avg r) (win_rxqual_avg r) (win_rxlev_avg_neigh r) (pwr_interval r) (pwr_hysteresis
  r) (f (max_distance r)).

(** The network. *)
Record gsm_network : Type := mk_gsm_network {
  country_code : Z;
  network_code : Z;
  reject_cause : Z;
  net_policy : chreq_policy;  (* neci, pag_any_tch and ctype_by_chreq *)
  handover : handover_cfg;
  num_bts : Z;
  bts_list : list gsm_bts;
  net_T3101 : Z;
  net_T3111 : Z;
  net_T3113 : Z;
  net_T3122 : Z;
  dtx_enabled : Z
}.

#[export] Instance upd_country_code : Upd country_code := fun f r => mk_gsm_network (f
  (country_code r)) (network_code r) (reject_cause r) (net_policy r) (handover r) (num_bts r)
  (bts_list r) (net_T3101 r) (net_T3111 r) (net_T3113 r) (net_T3122 r) (dtx_enabled r).
#[export] Instance upd_network_code : Upd network_code := fun f r => mk_gsm_network
  (country_code r) (f (network_code r)) (reject_cause r) (net_policy r) (handover r) (num_bts r)
  (bts_list r) (net_T3101 r) (net_T3111 r) (net_T3113 r) (net_T3122 r) (dtx_enabled r).
#[export] Instance upd_reject_cause : Upd reject_cause := fun f r => mk_gsm_network
  (country_code r) (network_code r) (f (reject_cause r)) (net_policy r) (handover r) (num_bts r)
  (bts_list r) (net_T3101 r) (net_T3111 r) (net_T3113 r) (net_T3122 r) (dtx_enabled r).
#[export] Instance upd_net_policy : Upd net_policy := fun f r => mk_gsm_network (country_code r)
  (network_code r) (reject_cause r) (f (net_policy r)) (handover r) (num_bts r) (bts_list r)
  (net_T3101 r) (net_T3111 r) (net_T3113 r) (net_T3122 r) (dtx_enabled r).
#[export] Instance upd_handover : Upd handover := fun f r => mk_gsm_network (country_code r)
  (network_code r) (reject_cause r) (net_policy r) (f (handover r)) (num_bts r) (bts_list r)
  (net_T3101 r) (net_T3111 r) (net_T3113 r) (net_T3122 r) (dtx_enabled r).
#[export] Instance upd_num_bts : Upd num_bts := fun f r => mk_gsm_network (country_code r)
  (network_code r) (reject_cause r) (net_policy r) (handover r) (f (num_bts r)) (bts_list r)
  (net_T3101 r) (net_T3111 r) (net_T3113 r) (net_T3122 r) (dtx_enabled r).
#[export] Instance upd_bts_list : Upd bts_list := fun f r => mk_gsm_network (country_code r)
  (network_code r) (reject_cause r) (net_policy r) (handover r) (num_bts r) (f (bts_list r))
  (net_T3101 r) (net_T3111 r) (net_T3113 r) (net_T3122 r) (dtx_enabled r).
#[export] Instance upd_net_T3101 : Upd net_T3101 := fun f r => mk_gsm_network (country_code r)
  (network_code r) (reject_cause r) (net_policy r) (handover r) (num_bts r) (bts_list r) (f
  (net_T3101 r)) (net_T3111 r) (net_T3113 r) (net_T3122 r) (dtx_enabled r).
#[export] Instance upd_net_T3111 : Upd net_T3111 := fun f r => mk_gsm_network (country_code r)
  (network_code r) (reject_cause r) (net_policy r) (handover r) (num_bts r) (bts_list r)
  (net_T3101 r) (f (net_T3111 r)) (net_T3113 r) (net_T3122 r) (dtx_enabled r).
#[export] Instance upd_net_T3113 : Upd net_T3113 := fun f r => mk_gsm_network (country_code r)
  (network_code r) (reject_cause r) (net_policy r) (handover r) (num_bts r) (bts_list r)
  (net_T3101 r) (net_T3111 r) (f (net_T3113 r)) (net_T3122 r) (dtx_enabled r).
#[export] Instance upd_net_T3122 : Upd net_T3122 := fun f r => mk_gsm_network (country_code r)
  (network_code r) (reject_cause r) (net_policy r) (handover r) (num_bts r) (bts_list r)
  (net_T3101 r) (net_T3111 r) (net_T3113 r) (f (net_T3122 r)) (dtx_enabled r).
#[export] Instance upd_dtx_enabled : Upd dtx_enabled := fun f r => mk_gsm_network (country_code
  r) (network_code r) (reject_cause r) (net_policy r) (handover r) (num_bts r) (bts_list r)
  (net_T3101 r) (net_T3111 r) (net_T3113 r) (net_T3122 r) (f (dtx_enabled r)).


(** * Fresh objects: memory from [talloc_zero] *)

Definition zero_inst : abis_om_obj_inst := mk_abis_om_obj_inst 0 0 0.
Definition zero_mo : gsm_abis_mo := mk_gsm_abis_mo NM_OC_NONE zero_inst (mk_gsm_nm_state 0 0 0).
Definition zero_lchan : gsm_lchan :=
  mk_gsm_lchan 0 GSM_LCHAN_NONE RSL_CMOD_SPD_NONE GSM48_CMODE_SIGN LCHAN_S_NONE 0 0 0 [] []
    (replicate 8 LCHAN_SAPI_UNUSED) 0 0 0 None None None None
    (replicate MAX_NEIGH_MEAS zero_neigh) (mk_meas_ring (replicate MEAS_REPS zero_meas_rep) 0)
    None None.
Definition zero_ts : gsm_bts_trx_ts :=
  mk_gsm_bts_trx_ts 0 GSM_PCHAN_NONE 0 zero_mo 0 0 0 0 [] 0 0 0 (replicate TS_MAX_LCHAN zero_lchan).
Definition zero_trx : gsm_bts_trx :=
  mk_gsm_bts_trx 0 0 zero_mo zero_mo 0 0 zero_mo zero_mo (replicate TRX_NR_TS zero_ts).
Definition zero_bts : gsm_bts :=
  mk_gsm_bts 0 0 0 0 GSM_BTS_TYPE_UNKNOWN None 0 0 zero_mo 0 None zero_mo zero_mo zero_mo
    (replicate 4 zero_mo) zero_mo (replicate 7 0) zero_mo (replicate 11 0)
    (replicate 2 (mk_gsm_bts_gprs_nsvc 0 zero_mo)) 0 0 0 [] 0 0 0 0 0 0 0 0.

(** * Paths *)

(** A logical channel: TRX, time slot, sub-slot. *)
Definition path : Type := (nat * nat * nat)%type.

Definition get_ts (bts : gsm_bts) (i j : nat) : option gsm_bts_trx_ts :=
  trx ← trx_list bts !! i; trx_ts trx !! j.
Definition get_lchan (bts : gsm_bts) (p : path) : option gsm_lchan :=
  let '(i, j, k) := p in ts ← get_ts bts i j; lchan ts !! k.
Definition at_ts (i j : nat) (f : gsm_bts_trx_ts -> gsm_bts_trx_ts) (bts : gsm_bts) : gsm_bts :=
  bts <| trx_list ::= alter (fun trx => trx <| trx_ts ::= alter f j |>) i |>.
Definition at_lchan (p : path) (f : gsm_lchan -> gsm_lchan) (bts : gsm_bts) : gsm_bts :=
  let '(i, j, k) := p in at_ts i j (fun ts => ts <| lchan ::= alter f k |>) bts.

(** The first element [f] has an answer for. *)
Fixpoint find_first {A B} (f : A -> option B) (l : list A) : option B :=
  match l with
  | [] => None
  | x :: l => match f x with Some y => Some y | None => find_first f l end
  end.
(** The index of the first element that satisfies [f]. *)
Definition find_idx {A} (f : A -> bool) (l : list A) : option nat :=
  option_map fst (list_find (fun x => f x = true) l).

Section radio.
Context `{LibosmoConst}.

(** * Managed objects *)

Definition nm_is_running (s : gsm_nm_state) : bool :=
  (operational s =? NM_OPSTATE_ENABLED) &&
  ((availability s =? NM_AVSTATE_OK) || (availability s =? 0xff)).

Definition gsm_abis_mo_reset (mo : gsm_abis_mo) : gsm_abis_mo :=
  mo <| nm_state ::= fun s =>
    s <| operational := NM_OPSTATE_NULL |> <| availability := NM_AVSTATE_POWER_OFF |> |>.

Definition gsm_mo_init (mo : gsm_abis_mo) (cls : nm_obj_class) (p1 p2 p3 : Z) : gsm_abis_mo :=
  let mo := mo <| obj_class := cls |> in
  let mo := mo <| obj_inst := mk_abis_om_obj_inst (u8 p1) (u8 p2) (u8 p3) |> in
  gsm_abis_mo_reset mo.

(** * Allocation of TRX and BTS; [None] is a failed allocation *)

Definition trx_alloc_ts (bts : gsm_bts) (trx : gsm_bts_trx) (k : nat) (ts : gsm_bts_trx_ts)
    : gsm_bts_trx_ts :=
  let ts := ts <| ts_nr := Z.of_nat k |> <| ts_pchan := GSM_PCHAN_NONE |> <| ts_tsc := -1 |> in
  let ts := ts <| ts_mo ::= fun mo => gsm_mo_init mo NM_OC_CHANNEL (bts_nr bts) (trx_nr trx)
                                        (ts_nr ts) |> in
  ts <| lchan ::= imap (fun l lc => lc <| lc_nr := Z.of_nat l |> <| lc_type := GSM_LCHAN_NONE |>) |>.

(** [ok]: memory is available. The BTS with the new TRX at the end of its list. *)
Definition gsm_bts_trx_alloc (ok : bool) (bts : gsm_bts) : option gsm_bts :=
  if negb ok then None
  else
    let trx := zero_trx <| trx_nr := u8 (num_trx bts) |> in
    let bts := bts <| num_trx ::= fun n => n + 1 |> in
    let trx := trx <| trx_mo ::= fun mo =>
      mo <| nm_state ::= fun s => s <| administrative := NM_STATE_UNLOCKED |> |> |> in
    let trx := trx <| trx_mo ::= fun mo =>
      gsm_mo_init mo NM_OC_RADIO_CARRIER (bts_nr bts) (trx_nr trx) 0xff |> in
    let trx := trx <| bb_transc_mo ::= fun mo =>
      gsm_mo_init mo NM_OC_BASEB_TRANSC (bts_nr bts) (trx_nr trx) 0xff |> in
    let trx := trx <| trx_ts ::= imap (trx_alloc_ts bts trx) |> in
    let trx :=
      if negb (trx_nr trx =? 0) then
        match c0 bts ≫= fun i => trx_list bts !! i with
        | Some t0 => trx <| nominal_power := nominal_power t0 |>
        | None => trx  (* no BTS is without its primary TRX *)
        end
      else trx in
    Some (bts <| trx_list ::= fun l => l ++ [trx] |>).

Definition bts_nse_timer_default : list Z := [3; 3; 3; 3; 30; 3; 10].
Definition bts_cell_timer_default : list Z := [3; 3; 3; 3; 3; 10; 3; 10; 3; 10; 3].

Definition bts_init_nsvc (bts : gsm_bts) (i : nat) (n : gsm_bts_gprs_nsvc) : gsm_bts_gprs_nsvc :=
  let n := n <| nsvc_id := Z.of_nat i |> in
  n <| nsvc_mo ::= fun mo => gsm_mo_init mo NM_OC_GPRS_NSVC (bts_nr bts) (Z.of_nat i) 0xff |>.

(** [ok]: memory for the BTS and for its TRX is available. *)
Definition gsm_bts_alloc (ok ok_trx : bool) : option gsm_bts :=
  if negb ok then None
  else
    let bts := zero_bts in
    let bts := bts <| num_trx := 0 |> <| trx_list := [] |> <| ms_max_power := 15 |> in
    let bts := bts <| bts_mo ::= fun mo => gsm_mo_init mo NM_OC_BTS (bts_nr bts) 0xff 0xff |> in
    let bts := bts <| site_mgr_mo ::= fun mo => gsm_mo_init mo NM_OC_SITE_MANAGER 0xff 0xff 0xff |> in
    let bts := bts <| nsvc ::= imap (bts_init_nsvc bts) |> in
    let bts := bts <| nse_timer := bts_nse_timer_default |> in
    let bts := bts <| nse_mo ::= fun mo => gsm_mo_init mo NM_OC_GPRS_NSE (bts_nr bts) 0xff 0xff |> in
    let bts := bts <| cell_timer := bts_cell_timer_default |> in
    let bts := bts <| cell_mo ::= fun mo => gsm_mo_init mo NM_OC_GPRS_CELL (bts_nr bts) 0xff 0xff |> in
    bts ← gsm_bts_trx_alloc ok_trx bts;
    let bts := bts <| c0 := Some 0%nat |> in
    let bts := at_ts 0 0 (fun ts => ts <| ts_pchan := GSM_PCHAN_CCCH_SDCCH4 |>) bts in
    let bts := bts <| rach_b_thresh := -1 |> <| rach_ldavg_slots := -1 |> in
    Some (bts <| free_chans_need := -1 |>).

Definition reset_trx_mo (trx : gsm_bts_trx) : gsm_bts_trx :=
  let trx := trx <| trx_mo ::= gsm_abis_mo_reset |> <| bb_transc_mo ::= gsm_abis_mo_reset |> in
  trx <| trx_ts ::= fmap (fun ts => ts <| ts_mo ::= gsm_abis_mo_reset |>) |>.

Definition gsm_bts_mo_reset (bts : gsm_bts) : gsm_bts :=
  let bts := bts <| bts_mo ::= gsm_abis_mo_reset |> <| site_mgr_mo ::= gsm_abis_mo_reset |> in
  let bts := bts <| nsvc ::= fmap (fun n => n <| nsvc_mo ::= gsm_abis_mo_reset |>) |> in
  let bts := bts <| nse_mo ::= gsm_abis_mo_reset |> <| cell_mo ::= gsm_abis_mo_reset |> in
  bts <| trx_list ::= fmap reset_trx_mo |>.

(** * Look-up *)

(** [num_trx] is an [int]: the index of the TRX. *)
Definition gsm_bts_trx_num (bts : gsm_bts) (num : Z) : option nat :=
  if num_trx bts <=? num then None
  else find_idx (fun trx => trx_nr trx =? num) (trx_list bts).

Definition gsm_bts_trx_by_nr (bts : gsm_bts) (nr : Z) : option nat :=
  find_idx (fun trx => trx_nr trx =? nr) (trx_list bts).

(** [num_bts] is unsigned, and so is the comparison. *)
Definition gsm_bts_num (net : gsm_network) (num : Z) : option nat :=
  if num_bts net <=? u32 num then None
  else find_idx (fun bts => bts_nr bts =? num) (bts_list net).

Definition neighbor_matches (a b : Z) (neigh : gsm_bts) : bool :=
  match c0 neigh ≫= fun i => trx_list neigh !! i with
  | Some trx => (arfcn trx =? a) && (bsic neigh =? b)
  | None => false  (* every BTS has a primary TRX *)
  end.
Definition gsm_bts_neighbor (net : gsm_network) (a b : Z) : option nat :=
  find_idx (neighbor_matches a b) (bts_list net).

(** The loop of [gsm_bts_by_lac] from number [i] on; the outer [None]: a number has no BTS. *)
Fixpoint bts_by_lac_loop (net : gsm_network) (lac : Z) (start : option nat) (skip : bool) (k : nat)
    (i : Z) : option (option nat) :=
  match k with
  | O => Some None
  | S k =>
      let bts := gsm_bts_num net i in
      if skip then bts_by_lac_loop net lac start (negb (bool_decide (start = bts))) k (i + 1)
      else
        if lac =? GSM_LAC_RESERVED_ALL_BTS then Some bts
        else
          b ← bts; r ← bts_list net !! b;
          if location_area_code r =? lac then Some (Some b)
          else bts_by_lac_loop net lac start false k (i + 1)
  end.
Definition gsm_bts_by_lac (net : gsm_network) (lac : Z) (start_bts : option nat)
    : option (option nat) :=
  bts_by_lac_loop net lac start_bts (bool_decide (is_Some start_bts)) (Z.to_nat (num_bts net)) 0.

(** A pointer to one of the managed objects of a BTS. *)
Inductive mo_ref : Type :=
| MO_bts | MO_site_mgr | MO_cclk | MO_rack | MO_nse | MO_cell
| MO_trx (i : nat) | MO_bb_transc (i : nat) | MO_bbsig (i : nat) | MO_pa (i : nat)
| MO_ts (i j : nat) | MO_envabtse (n : nat) | MO_nsvc (n : nat).

Definition mo_get (bts : gsm_bts) (r : mo_ref) : option gsm_abis_mo :=
  match r with
  | MO_bts => Some (bts_mo bts)
  | MO_site_mgr => Some (site_mgr_mo bts)
  | MO_cclk => Some (cclk_mo bts)
  | MO_rack => Some (rack_mo bts)
  | MO_nse => Some (nse_mo bts)
  | MO_cell => Some (cell_mo bts)
  | MO_trx i => option_map trx_mo (trx_list bts !! i)
  | MO_bb_transc i => option_map bb_transc_mo (trx_list bts !! i)
  | MO_bbsig i => option_map bbsig_mo (trx_list bts !! i)
  | MO_pa i => option_map pa_mo (trx_list bts !! i)
  | MO_ts i j => option_map ts_mo (get_ts bts i j)
  | MO_envabtse n => envabtse_mo bts !! n
  | MO_nsvc n => option_map nsvc_mo (nsvc bts !! n)
  end.

(** The outer [None]: the address is computed from a TRX that does not exist. *)
Definition gsm_objclass2mo (bts : gsm_bts) (cls : nm_obj_class) (inst : abis_om_obj_inst)
    : option (option mo_ref) :=
  let trx := gsm_bts_trx_num bts (oi_trx_nr inst) in
  match cls with
  | NM_OC_BTS => Some (Some MO_bts)
  | NM_OC_RADIO_CARRIER =>
      if num_trx bts <=? oi_trx_nr inst then Some None
      else i ← trx; Some (Some (MO_trx i))
  | NM_OC_BASEB_TRANSC =>
      if num_trx bts <=? oi_trx_nr inst then Some None
      else i ← trx; Some (Some (MO_bb_transc i))
  | NM_OC_CHANNEL =>
      if num_trx bts <=? oi_trx_nr inst then Some None
      else if Z.of_nat TRX_NR_TS <=? oi_ts_nr inst then Some None
      else i ← trx; Some (Some (MO_ts i (Z.to_nat (oi_ts_nr inst))))
  | NM_OC_SITE_MANAGER => Some (Some MO_site_mgr)
  | NM_OC_BS11 =>
      (* without a break the rack is returned in the end *)
      if oi_bts_nr inst =? BS11_OBJ_CCLK then Some (Some MO_rack)
      else if oi_bts_nr inst =? BS11_OBJ_BBSIG then
        if num_trx bts <? oi_ts_nr inst then Some None else _ ← trx; Some (Some MO_rack)
      else if oi_bts_nr inst =? BS11_OBJ_PA then
        if num_trx bts <? oi_ts_nr inst then Some None else _ ← trx; Some (Some MO_rack)
      else Some None
  | NM_OC_BS11_RACK => Some (Some MO_rack)
  | NM_OC_BS11_ENVABTSE =>
      if Z.of_nat (length (envabtse_mo bts)) <=? oi_trx_nr inst then Some None
      else Some (Some (MO_envabtse (Z.to_nat (oi_trx_nr inst))))
  | NM_OC_GPRS_NSE => Some (Some MO_nse)
  | NM_OC_GPRS_CELL => Some (Some MO_cell)
  | NM_OC_GPRS_NSVC =>
      if Z.of_nat (length (nsvc bts)) <=? oi_trx_nr inst then Some None
      else Some (Some (MO_nsvc (Z.to_nat (oi_trx_nr inst))))
  | NM_OC_NONE | NM_OC_OTHER _ => Some None
  end.

(** The state of the object, or NULL. *)
Definition gsm_objclass2nmstate (bts : gsm_bts) (cls : nm_obj_class) (inst : abis_om_obj_inst)
    : option (option gsm_nm_state) :=
  mo ← gsm_objclass2mo bts cls inst;
  match mo with
  | None => Some None
  | Some r => option_map (fun mo => Some (nm_state mo)) (mo_get bts r)
  end.

(** A pointer to one of the objects themselves. *)
Inductive obj_ref : Type :=
| OBJ_bts | OBJ_site_mgr | OBJ_nse | OBJ_cell
| OBJ_trx (i : nat) | OBJ_bb_transc (i : nat) | OBJ_ts (i j : nat) | OBJ_nsvc (n : nat).

Definition gsm_objclass2obj (bts : gsm_bts) (cls : nm_obj_class) (inst : abis_om_obj_inst)
    : option (option obj_ref) :=
  let trx := gsm_bts_trx_num bts (oi_trx_nr inst) in
  match cls with
  | NM_OC_BTS => Some (Some OBJ_bts)
  | NM_OC_RADIO_CARRIER =>
      if num_trx bts <=? oi_trx_nr inst then Some None
      else Some (option_map OBJ_trx trx)
  | NM_OC_BASEB_TRANSC =>
      if num_trx bts <=? oi_trx_nr inst then Some None
      else i ← trx; Some (Some (OBJ_bb_transc i))
  | NM_OC_CHANNEL =>
      if num_trx bts <=? oi_trx_nr inst then Some None
      else if Z.of_nat TRX_NR_TS <=? oi_ts_nr inst then Some None
      else i ← trx; Some (Some (OBJ_ts i (Z.to_nat (oi_ts_nr inst))))
  | NM_OC_SITE_MANAGER => Some (Some OBJ_site_mgr)
  | NM_OC_GPRS_NSE => Some (Some OBJ_nse)
  | NM_OC_GPRS_CELL => Some (Some OBJ_cell)
  | NM_OC_GPRS_NSVC =>
      if Z.of_nat (length (nsvc bts)) <=? oi_trx_nr inst then Some None
      else Some (Some (OBJ_nsvc (Z.to_nat (oi_trx_nr inst))))
  | _ => Some None
  end.

(** * Channel numbers (GSM 04.08 table 10.5.25) *)

Definition gsm_ts2chan_nr (ts : gsm_bts_trx_ts) (lchan_nr : Z) : Z :=
  let cbits :=
    match ts_pchan ts with
    | GSM_PCHAN_TCH_F | GSM_PCHAN_PDCH | GSM_PCHAN_TCH_F_PDCH => 0x01
    | GSM_PCHAN_TCH_H => u8 (0x02 + lchan_nr)
    | GSM_PCHAN_CCCH_SDCCH4 => u8 (0x04 + lchan_nr)
    | GSM_PCHAN_SDCCH8_SACCH8C => u8 (0x08 + lchan_nr)
    | _ => 0x10
    end in
  u8 ((cbits .<< 3) .| (ts_nr ts .& 0x7)).

Definition gsm_lchan2chan_nr (ts : gsm_bts_trx_ts) (lc : gsm_lchan) : Z :=
  gsm_ts2chan_nr ts (lc_nr lc).

(** Time slot and sub-slot; a channel combination that does not fit is only logged. *)
Definition lchan_lookup (chan_nr : Z) : option (nat * nat) :=
  let ts_nr := chan_nr .& 0x07 in
  let cbits := chan_nr .>> 3 in
  let lch_idx :=
    if cbits =? 0x01 then Some 0
    else if cbits .& 0x1e =? 0x02 then Some (cbits .& 0x1)
    else if cbits .& 0x1c =? 0x04 then Some (cbits .& 0x3)
    else if cbits .& 0x18 =? 0x08 then Some (cbits .& 0x7)
    else if (cbits =? 0x10) || (cbits =? 0x11) || (cbits =? 0x12) then Some 0
    else None in
  option_map (fun l => (Z.to_nat ts_nr, Z.to_nat l)) lch_idx.

Definition set_ts_e1link (ts : gsm_bts_trx_ts) (nr e1ts ss : Z) : gsm_bts_trx_ts :=
  ts <| e1_nr := nr |> <| e1_ts := e1ts |> <| e1_ts_ss := ss |>.

(** * BTS models and registration *)

Definition bts_model_find (models : list gsm_bts_model) (type : gsm_bts_type) : option nat :=
  find_idx (fun m => bool_decide (model_type m = type)) models.

(** The return code and the list of models. *)
Definition gsm_bts_model_register (models : list gsm_bts_model) (model : gsm_bts_model)
    : Z * list gsm_bts_model :=
  match bts_model_find models (model_type model) with
  | Some _ => (- EEXIST, models)
  | None => (0, models ++ [model])
  end.

Definition on_c0 (f : gsm_bts_trx -> gsm_bts_trx) (bts : gsm_bts) : gsm_bts :=
  match c0 bts with
  | Some i => bts <| trx_list ::= alter f i |>
  | None => bts  (* every BTS has a primary TRX *)
  end.

(** The defaults of a BTS type. *)
Definition bts_type_defaults (bts : gsm_bts) : gsm_bts :=
  match bts_type bts with
  | GSM_BTS_TYPE_HSL_FEMTO =>
      let bts := on_c0 (fun trx => trx <| rsl_tei := 0 |>) bts in
      let bts := bts <| oml_tei := 0xff |> in
      on_c0 (fun trx => trx <| nominal_power := 23 |>) bts
  | GSM_BTS_TYPE_NANOBTS =>
      let bts := bts <| oml_tei := 0xff |> in
      on_c0 (fun trx => trx <| nominal_power := 23 |>) bts
  | _ => bts
  end.

Definition gsm_set_bts_type (models : list gsm_bts_model) (bts : gsm_bts) (type : gsm_bts_type)
    : Z * list gsm_bts_model * gsm_bts :=
  match bts_model_find models type with
  | None => (- EINVAL, models, bts)
  | Some m =>
      let bts := bts <| bts_type := type |> <| bts_model := Some m |> in
      match models !! m with
      | Some (mk_gsm_bts_model _ false (Some ret)) =>
          if ret <? 0 then (ret, models, bts)
          else (0, alter (fun md => md <| model_started := true |>) m models, bts_type_defaults bts)
      | _ => (0, models, bts_type_defaults bts)
      end
  end.

(** The network with the new BTS, or NULL and the network as it was. *)
Definition gsm_bts_alloc_register (models : list gsm_bts_model) (ok ok_trx : bool)
    (net : gsm_network) (type : gsm_bts_type) (tsc bsic_ : Z) : option gsm_network :=
  let model := bts_model_find models type in
  if bool_decide (model = None) && negb (bool_decide (type = GSM_BTS_TYPE_UNKNOWN)) then None
  else
    bts ← gsm_bts_alloc ok ok_trx;
    let bts := bts <| bts_nr := u8 (num_bts net) |> in
    let net := net <| num_bts ::= fun n => u32 (n + 1) |> in
    let bts := bts <| bts_type := type |> <| bts_model := model |> in
    let bts := bts <| bts_tsc := u8 tsc |> <| bsic := u8 bsic_ |> in
    let bts := bts <| neigh_list_manual_mode := 0 |> <| cell_resel_hyst := 2 |> in
    let bts := bts <| rxlev_acc_min := 0 |> <| rach_re := 1 |> <| rach_tx_integer := 9 |> in
    let bts := bts <| rach_max_trans := 3 |> <| rach_t2 := 4 |> in
    Some (net <| bts_list ::= fun l => l ++ [bts] |>).

(** The fields of a new network that the model has. *)
Definition gsm_network_init (cc nc : Z) : gsm_network :=
  mk_gsm_network (u16 cc) (u16 nc) GSM48_REJECT_ROAMING_NOT_ALLOWED
    (gsm_net_update_ctype (mk_chreq_policy 0 0 (fun _ => GSM_LCHAN_NONE)))
    (mk_handover_cfg 0 10 1 10 6 3 9999)
    0 [] GSM_T3101_DEFAULT 0 GSM_T3113_DEFAULT 0 0.

Definition is_ipaccess_bts (bts : gsm_bts) : bool :=
  match bts_type bts with
  | GSM_BTS_TYPE_NANOBTS => true
  | _ => false
  end.

End radio.

End Radio.
