(* ===== verification/ChanAlloc.v ===== *)
(** Allocation, freeing and release of physical and logical channels (libbsc/chan_alloc.c), and
    what it calls of libbsc/abis_rsl.c and libbsc/gsm_04_08_utils.c to release a channel.

    Allocation changes the BTS, freeing and release change one logical channel; [on_lchan] lifts
    the second kind to the BTS. Messages to the BTS and signals to other parts of the program are
    events, in their order. The signal handlers of other parts are not run: the only field of the
    channel they change is its connection, which [lchan_free] clears itself right after. *)

From S2P Require Import Prelude Radio.

Module ChanAlloc.
Export Radio.

Inductive lchan_signal : Type :=
| S_LCHAN_UNEXPECTED_RELEASE
| S_LCHAN_ACTIVATE_ACK
| S_LCHAN_ACTIVATE_NACK
| S_LCHAN_HANDOVER_DETECT
| S_LCHAN_MEAS_REP (mr : gsm_meas_rep).

Inductive radio_event : Type :=
| EvSetChannelAttr (i j : nat) (pchan : gsm_phys_chan_config)  (* OML, for the time slot *)
| EvAllocFail (type : gsm_chan_t)                              (* S_CHALLOC_ALLOC_FAIL *)
| EvFreed (type : gsm_chan_t)                                  (* S_CHALLOC_FREED *)
| EvSignal (s : lchan_signal)                                  (* SS_LCHAN *)
| EvRelReq (chan_nr link_id reason : Z)                        (* RSL RELEASE REQUEST *)
| EvRRRelease (chan_nr : Z)                                    (* RR CHANNEL RELEASE to the MS *)
| EvDeactSacch (chan_nr : Z)                                   (* RSL DEACTIVATE SACCH *)
| EvRfChanRel (chan_nr : Z)                                    (* RSL RF CHANNEL RELEASE *)
| EvImmAssign (chan_nr ta : Z) (req_ref : list Z)              (* RSL IMMEDIATE ASSIGN *)
| EvRllInd (link_id : Z) (rel : bool)                          (* rll_indication: REL or EST/ERR *)
| EvL3 (link_id : Z).                                          (* gsm0408_rcvmsg *)

Section chan_alloc.
Context `{LibosmoConst}.

(** [enum gsm_phys_chan_config] as the number that indexes an array; the header is libosmocore's. *)
Context (pchan_val : gsm_phys_chan_config -> Z).

(** * Usable TRX and time slots *)

Definition ts_is_usable (bts : gsm_bts) (ts : gsm_bts_trx_ts) : bool :=
  if is_ipaccess_bts bts then nm_is_running (nm_state (ts_mo ts)) else true.

Definition trx_is_usable (bts : gsm_bts) (trx : gsm_bts_trx) : bool :=
  if is_ipaccess_bts bts then
    nm_is_running (nm_state (trx_mo trx)) && nm_is_running (nm_state (bb_transc_mo trx))
  else true.

(** * Physical channels *)

(** The result is the path of the time slot, or NULL. *)
Definition ts_c0_alloc (pchan : gsm_phys_chan_config) : M gsm_bts radio_event (option (nat * nat)) :=
  bts ← gets id;
  match c0 bts with
  | None => fault
  | Some i =>
      match get_ts bts i 0 with
      | None => fault
      | Some ts =>
          if negb (bool_decide (pchan = GSM_PCHAN_CCCH)) &&
             negb (bool_decide (pchan = GSM_PCHAN_CCCH_SDCCH4)) then mret None
          else if negb (bool_decide (ts_pchan ts = GSM_PCHAN_NONE)) then mret None
          else
            _ ← modify (at_ts i 0 (fun ts => ts <| ts_pchan := pchan |>));
            mret (Some (i, 0%nat))
      end
  end.

(** The time slots that may carry [pchan], first and last; [None]: the whole search gives up. *)
Definition ts_alloc_range (primary : bool) (pchan : gsm_phys_chan_config) : option (nat * nat) :=
  if primary then
    match pchan with
    | GSM_PCHAN_CCCH | GSM_PCHAN_CCCH_SDCCH4 => Some (0, 0)%nat
    | GSM_PCHAN_TCH_F | GSM_PCHAN_TCH_H => Some (1, 7)%nat
    | _ => None
    end
  else
    match pchan with
    | GSM_PCHAN_SDCCH8_SACCH8C  (* (1, 1), but the case falls through *)
    | GSM_PCHAN_TCH_F | GSM_PCHAN_TCH_H => Some (1, 7)%nat
    | _ => None
    end.

(** Time slot [j] can be taken. *)
Definition ts_spare (bts : gsm_bts) (trx : gsm_bts_trx) (j : nat) : bool :=
  match trx_ts trx !! j with
  | Some ts => ts_is_usable bts ts && bool_decide (ts_pchan ts = GSM_PCHAN_NONE)
  | None => false
  end.

(** The search through the TRX list, whose first element has index [i]. *)
Fixpoint ts_alloc_find (bts : gsm_bts) (pchan : gsm_phys_chan_config) (i : nat)
    (l : list gsm_bts_trx) : option (nat * nat) :=
  match l with
  | [] => None
  | trx :: l =>
      if negb (trx_is_usable bts trx) then ts_alloc_find bts pchan (S i) l
      else
        match ts_alloc_range (bool_decide (c0 bts = Some i)) pchan with
        | None => None
        | Some (from, to) =>
            match find (ts_spare bts trx) (seq from (to + 1 - from)) with
            | Some j => Some (i, j)
            | None => ts_alloc_find bts pchan (S i) l
            end
        end
  end.

Definition ts_alloc (pchan : gsm_phys_chan_config) : M gsm_bts radio_event (option (nat * nat)) :=
  bts ← gets id;
  match ts_alloc_find bts pchan 0 (trx_list bts) with
  | Some (i, j) =>
      _ ← modify (at_ts i j (fun ts => ts <| ts_pchan := pchan |>));
      _ ← emit (EvSetChannelAttr i j pchan);
      mret (Some (i, j))
  | None => mret None
  end.

Definition ts_free (ts : gsm_bts_trx_ts) : gsm_bts_trx_ts := ts <| ts_pchan := GSM_PCHAN_NONE |>.

(** * Logical channels *)

(** The table of sub-slots: what it lists, 0 in its gaps, [None] beyond its end. *)
Definition subslots_table : list (gsm_phys_chan_config * Z) := [
  (GSM_PCHAN_NONE, 0);
  (GSM_PCHAN_CCCH, 0);
  (GSM_PCHAN_CCCH_SDCCH4, 4);
  (GSM_PCHAN_TCH_F, 1);
  (GSM_PCHAN_TCH_H, 2);
  (GSM_PCHAN_SDCCH8_SACCH8C, 8);
  (GSM_PCHAN_TCH_F_PDCH, 1)
].
Definition subslots_listed (p : gsm_phys_chan_config) : option Z :=
  option_map (fun r => snd (snd r)) (list_find (fun e => fst e = p) subslots_table).
Definition subslots_per_pchan (p : gsm_phys_chan_config) : option Z :=
  match subslots_listed p with
  | Some n => Some n
  | None => if existsb (fun e => pchan_val p <? pchan_val (fst e)) subslots_table then Some 0 else None
  end.

Definition lchan_is_free (lc : gsm_lchan) : bool :=
  bool_decide (lc_type lc = GSM_LCHAN_NONE) && bool_decide (lc_state lc = LCHAN_S_NONE).

(** The time slot serves requests for [pchan]. *)
Definition ts_suits (ts : gsm_bts_trx_ts) (pchan : gsm_phys_chan_config) : bool :=
  if bool_decide (ts_pchan ts = GSM_PCHAN_TCH_F_PDCH) && bool_decide (pchan = GSM_PCHAN_TCH_F)
  then negb (tst (ts_flags ts) TS_F_PDCH_MODE)
  else bool_decide (ts_pchan ts = pchan).

Definition subslot_free (ts : gsm_bts_trx_ts) (ss : nat) : bool :=
  match lchan ts !! ss with
  | Some lc => lchan_is_free lc
  | None => false  (* no listed number of sub-slots is beyond [TS_MAX_LCHAN] *)
  end.

(** Only asked for channel combinations that the table lists. *)
Definition lc_find_trx (bts : gsm_bts) (trx : gsm_bts_trx) (pchan : gsm_phys_chan_config)
    : option (nat * nat) :=
  if negb (trx_is_usable bts trx) then None
  else
    find_first (fun j =>
      ts ← trx_ts trx !! j;
      if negb (ts_is_usable bts ts) then None
      else if negb (ts_suits ts pchan) then None
      else option_map (pair j)
             (find (subslot_free ts) (seq 0 (Z.to_nat (default 0 (subslots_listed pchan))))))
      (seq 0 8).

(** The TRXs, from the first to the last or in reverse. *)
Definition trx_order (bts : gsm_bts) : list nat :=
  let l := seq 0 (length (trx_list bts)) in
  if chan_alloc_reverse bts =? 0 then l else reverse l.

Definition lc_find_bts (pchan : gsm_phys_chan_config) : M gsm_bts radio_event (option path) :=
  bts ← gets id;
  match find_first (fun i =>
          match trx_list bts !! i with
          | Some trx => option_map (fun '(j, k) => (i, j, k)) (lc_find_trx bts trx pchan)
          | None => None
          end) (trx_order bts) with
  | Some p => mret (Some p)
  | None =>
      if bool_decide (pchan = GSM_PCHAN_CCCH_SDCCH4) then mret None
      else
        ts ← ts_alloc pchan;
        mret (option_map (fun '(i, j) => (i, j, 0%nat)) ts)
  end.

(** [if (!lchan) { lchan = next; type = t; }] *)
Definition or_else (r : option path * gsm_chan_t) (next : M gsm_bts radio_event (option path))
    (t : gsm_chan_t) : M gsm_bts radio_event (option path * gsm_chan_t) :=
  match r with
  | (Some p, ty) => mret (Some p, ty)
  | (None, _) => lc ← next; mret (lc, t)
  end.

(** The channel to use and its type. *)
Definition lchan_search (type : gsm_chan_t) (allow_bigger : bool)
    : M gsm_bts radio_event (option path * gsm_chan_t) :=
  bts ← gets id;
  match type with
  | GSM_LCHAN_SDCCH =>
      let '(first, second) :=
        if chan_alloc_reverse bts =? 0 then (GSM_PCHAN_CCCH_SDCCH4, GSM_PCHAN_SDCCH8_SACCH8C)
        else (GSM_PCHAN_SDCCH8_SACCH8C, GSM_PCHAN_CCCH_SDCCH4) in
      lc ← lc_find_bts first;
      r ← or_else (lc, type) (lc_find_bts second) type;
      if allow_bigger then
        r ← or_else r (lc_find_bts GSM_PCHAN_TCH_H) GSM_LCHAN_TCH_H;
        or_else r (lc_find_bts GSM_PCHAN_TCH_F) GSM_LCHAN_TCH_F
      else mret r
  | GSM_LCHAN_TCH_F => lc ← lc_find_bts GSM_PCHAN_TCH_F; mret (lc, type)
  | GSM_LCHAN_TCH_H =>
      lc ← lc_find_bts GSM_PCHAN_TCH_H;
      or_else (lc, type) (lc_find_bts GSM_PCHAN_TCH_F) GSM_LCHAN_TCH_F
  | _ => mret (None, type)
  end.

(** What allocation writes into the channel. *)
Definition lchan_claim (type : gsm_chan_t) (lc : gsm_lchan) : gsm_lchan :=
  let lc := lc <| lc_type := type |> in
  let lc := lc <| sapis ::= fmap (fun _ => 0) |> in
  lc <| mr_conf ::= fmap (fun _ => 0) |>.

Definition lchan_alloc (type : gsm_chan_t) (allow_bigger : bool)
    : M gsm_bts radio_event (option path) :=
  '(lchan, type) ← lchan_search type allow_bigger;
  match lchan with
  | Some p => _ ← modify (at_lchan p (lchan_claim type)); mret (Some p)
  | None => _ ← emit (EvAllocFail type); mret None
  end.

(** * Freeing *)

Definition forget_meas (lc : gsm_lchan) : gsm_lchan :=
  let lc := lc <| lc_meas ::= fun m =>
    mk_meas_ring ((fun r => r <| mr_flags := 0 |> <| mr_nr := 0 |>) <$> meas_rep m) 0 |> in
  lc <| neigh_meas ::= fmap (fun n => n <| nmp_arfcn := 0 |>) |>.

Definition lchan_free : M gsm_lchan radio_event unit :=
  type ← gets lc_type;
  _ ← modify (fun lc => lc <| lc_type := GSM_LCHAN_NONE |>);
  state ← gets lc_state;
  _ ← when (negb (bool_decide (state = LCHAN_S_NONE)))
        (modify (fun lc => lc <| lc_state := LCHAN_S_NONE |>));
  conn ← gets lc_conn;
  _ ← when (bool_decide (is_Some conn)) (emit (EvSignal S_LCHAN_UNEXPECTED_RELEASE));
  _ ← modify (fun lc => lc <| T3101 := None |>);
  _ ← modify forget_meas;
  ref ← gets rqd_ref;
  _ ← when (bool_decide (is_Some ref))
        (modify (fun lc => lc <| rqd_ref := None |> <| rqd_ta := 0 |>));
  _ ← emit (EvFreed type);
  _ ← modify (fun lc => lc <| lc_conn := None |>);
  modify (fun lc => lc <| sach_deact := 0 |> <| release_reason := 0 |>).

Definition lchan_reset : M gsm_lchan radio_event unit :=
  _ ← modify (fun lc => lc <| T3101 := None |> <| T3111 := None |> <| error_timer := None |>);
  modify (fun lc => lc <| lc_type := GSM_LCHAN_NONE |> <| lc_state := LCHAN_S_NONE |>).

(** * Release; [ts] is the time slot of the channel *)

Section release.
Context (ts : gsm_bts_trx_ts).

Definition rsl_release_request (link_id reason : Z) : M gsm_lchan radio_event unit :=
  chan_nr ← gets (gsm_lchan2chan_nr ts);
  emit (EvRelReq chan_nr (u8 link_id) (u8 reason)).

Definition rsl_lchan_set_state (s : gsm_lchan_state) : M gsm_lchan radio_event unit :=
  modify (fun lc => lc <| lc_state := s |>).

Definition rsl_deact_sacch : M gsm_lchan radio_event unit :=
  chan_nr ← gets (gsm_lchan2chan_nr ts); emit (EvDeactSacch chan_nr).

Definition gsm48_send_rr_release : M gsm_lchan radio_event unit :=
  chan_nr ← gets (gsm_lchan2chan_nr ts);
  _ ← emit (EvRRRelease chan_nr);
  rsl_deact_sacch.

Definition is_tch (t : gsm_chan_t) : bool :=
  bool_decide (t = GSM_LCHAN_TCH_F) || bool_decide (t = GSM_LCHAN_TCH_H).

(** 0: a request is on its way, 1: no SAPI but 0 is left. *)
Definition lchan_release_next_sapi : M gsm_lchan radio_event Z :=
  lc ← gets id;
  match find (fun sapi => negb (rd (sapis lc) sapi =? LCHAN_SAPI_UNUSED))
          (seq 1 (length (sapis lc) - 1)) with
  | Some sapi =>
      let link_id := u8 (Z.of_nat sapi) in
      let link_id := if is_tch (lc_type lc) then link_id .| 0x40 else link_id in
      _ ← rsl_release_request link_id (release_reason lc);
      mret 0
  | None => mret 1
  end.

Definition lchan_handle_release : M gsm_lchan radio_event unit :=
  rc ← lchan_release_next_sapi;
  if rc =? 0 then mret tt
  else
    lc ← gets id;
    if negb (sach_deact lc =? 0) then gsm48_send_rr_release
    else
      _ ← rsl_release_request 0 (release_reason lc);
      rsl_lchan_set_state LCHAN_S_REL_REQ.

Definition rsl_lchan_rll_release (link_id : Z) : M gsm_lchan radio_event Z :=
  lc ← gets id;
  if negb (bool_decide (lc_state lc = LCHAN_S_REL_REQ)) then mret (-1)
  else
    _ ← when (negb (link_id .& 0x7 =? 0)) lchan_handle_release;
    mret 0.

Definition lchan_release (sd reason : Z) : M gsm_lchan radio_event Z :=
  _ ← rsl_lchan_set_state LCHAN_S_REL_REQ;
  _ ← modify (fun lc => lc <| lc_conn := None |>);
  _ ← modify (fun lc => lc <| release_reason := reason |>);
  _ ← modify (fun lc => lc <| sach_deact := sd |>);
  _ ← lchan_handle_release;
  mret 1.

End release.

(** An operation on the channel at [p], with its time slot. *)
Definition on_lchan {A} (p : path) (m : gsm_bts_trx_ts -> M gsm_lchan radio_event A)
    : M gsm_bts radio_event A := fun bts =>
  let '(i, j, _) := p in
  match get_ts bts i j, get_lchan bts p with
  | Some ts, Some lc =>
      match m ts lc with
      | Some (a, lc, ev) => Some (a, at_lchan p (fun _ => lc) bts, ev)
      | None => None
      end
  | _, _ => None
  end.

(** * Subscribers *)

(** [conn_subscr]: the subscriber of a connection. *)
Definition lchan_of_subscr (conn_subscr : nat -> option nat) (subscr : nat) (lc : gsm_lchan) : bool :=
  match lc_conn lc with
  | Some c => bool_decide (conn_subscr c = Some subscr)
  | None => false
  end.
Definition lchan_find (conn_subscr : nat -> option nat) (bts : gsm_bts) (subscr : nat)
    : option gsm_lchan :=
  find_first (fun trx =>
    find_first (fun ts_no =>
      ts ← trx_ts trx !! ts_no;
      find_first (fun lchan_no =>
        lc ← lchan ts !! lchan_no;
        if lchan_of_subscr conn_subscr subscr lc then Some lc else None)
        (seq 0 TS_MAX_LCHAN)) (seq 0 8)) (trx_list bts).

Definition connection_for_subscr (conn_subscr : nat -> option nat) (net : gsm_network) (subscr : nat)
    : option nat :=
  match find_first (fun bts => lchan_find conn_subscr bts subscr) (bts_list net) with
  | Some lc => lc_conn lc
  | None => None
  end.

(** * Load *)

Record load_counter : Type := mk_load_counter { total : Z; used : Z }.
Definition pchan_load : Type := gsm_phys_chan_config -> load_counter.

Definition count_lchan (pchan : gsm_phys_chan_config) (lc : gsm_lchan) (cl : pchan_load) : pchan_load :=
  fun p =>
    if decide (p = pchan) then
      let pl := cl p in
      mk_load_counter (u32 (total pl + 1))
        (if bool_decide (lc_state lc = LCHAN_S_NONE) then used pl else u32 (used pl + 1))
    else cl p.

(** One time slot; [None]: the table of sub-slots is left. *)
Definition ts_chan_load (cl : pchan_load) (ts : gsm_bts_trx_ts) : option pchan_load :=
  if negb (nm_is_running (nm_state (ts_mo ts))) then Some cl
  else
    n ← subslots_per_pchan (ts_pchan ts);
    Some (foldl (fun cl lc => count_lchan (ts_pchan ts) lc cl) cl (take (Z.to_nat n) (lchan ts))).

Fixpoint loads {A} (f : pchan_load -> A -> option pchan_load) (cl : pchan_load) (l : list A)
    : option pchan_load :=
  match l with
  | [] => Some cl
  | x :: l => cl ← f cl x; loads f cl l
  end.

Definition trx_chan_load (cl : pchan_load) (trx : gsm_bts_trx) : option pchan_load :=
  if negb (nm_is_running (nm_state (trx_mo trx))) || negb (nm_is_running (nm_state (bb_transc_mo trx)))
  then Some cl
  else loads ts_chan_load cl (trx_ts trx).

Definition bts_chan_load (cl : pchan_load) (bts : gsm_bts) : option pchan_load :=
  loads trx_chan_load cl (trx_list bts).

Definition network_chan_load (net : gsm_network) : option pchan_load :=
  loads bts_chan_load (fun _ => mk_load_counter 0 0) (bts_list net).

End chan_alloc.
End ChanAlloc.
