(* ===== verification/AllocProps.v ===== *)
(** Channel allocation is sound and complete: a channel that is handed out was free and suits the
    request, and a request fails only when nothing could serve it. *)

From S2P Require Import Prelude Radio ChanAlloc.

Module AllocProps.
Import ChanAlloc.

(** ** First elements *)

Lemma find_first_Some {A B} (f : A -> option B) l y :
  find_first f l = Some y -> exists x, x ∈ l /\ f x = Some y.
Proof.
  induction l as [|x l IH]; cbn; [done|]. destruct (f x) as [z|] eqn:E.
  - intros [= ->]. exists x. split; [left|done].
  - intros (x' & Hin & Hx)%IH. exists x'. split; [by right|done].
Qed.

Lemma find_first_None {A B} (f : A -> option B) l :
  find_first f l = None <-> forall x, x ∈ l -> f x = None.
Proof.
  induction l as [|x l IH]; cbn.
  - split; [|done]. intros _ x Hx. by apply not_elem_of_nil in Hx.
  - destruct (f x) as [z|] eqn:E.
    + split; [done|]. intros H. rewrite (H x) in E; [done|left].
    + rewrite IH. split.
      * intros H x' [->|Hx]%elem_of_cons; [done|by apply H].
      * intros H x' Hx. apply H. by right.
Qed.

Lemma find_seq_Some f n m x :
  find f (seq n m) = Some x -> (n <= x < n + m)%nat /\ f x = true.
Proof. intros [Hin Hf]%find_some. split; [by apply in_seq|done]. Qed.

Lemma find_seq_None f n m :
  find f (seq n m) = None <-> forall x, (n <= x < n + m)%nat -> f x = false.
Proof.
  split.
  - intros H x Hx. eapply find_none in H; [done|]. by apply in_seq.
  - intros H. destruct (find f (seq n m)) as [x|] eqn:E; [|done].
    apply find_seq_Some in E as [Hx Hf]. by rewrite H in Hf.
Qed.

(** ** The shape of a BTS *)

Definition ts_wf (ts : gsm_bts_trx_ts) : Prop := length (lchan ts) = TS_MAX_LCHAN.
Definition trx_wf (trx : gsm_bts_trx) : Prop :=
  length (trx_ts trx) = TRX_NR_TS /\ Forall ts_wf (trx_ts trx).

(** A time slot without channel combination has no channel in use. *)
Definition ts_idle_free (ts : gsm_bts_trx_ts) : Prop :=
  ts_pchan ts = GSM_PCHAN_NONE -> Forall (fun lc => lchan_is_free lc = true) (lchan ts).

Record bts_wf (bts : gsm_bts) : Prop := {
  wf_c0 : c0 bts = Some 0%nat;
  wf_trx : Forall trx_wf (trx_list bts);
  wf_idle : forall i j ts, get_ts bts i j = Some ts -> ts_idle_free ts
}.

(** What the code leaves alone while it allocates. *)
Definition same_frame (bts bts' : gsm_bts) : Prop :=
  bts_type bts' = bts_type bts /\ c0 bts' = c0 bts /\
  chan_alloc_reverse bts' = chan_alloc_reverse bts /\
  length (trx_list bts') = length (trx_list bts).

Lemma get_ts_at_ts bts i j f i' j' :
  get_ts (at_ts i j f bts) i' j' =
  if decide (i = i' /\ j = j') then f <$> get_ts bts i' j' else get_ts bts i' j'.
Proof.
  unfold get_ts, at_ts. upd_norm. cbn [trx_list]. rewrite list_lookup_alter.
  destruct (decide (i = i')) as [->|Hi].
  - destruct (trx_list bts !! i') as [trx|]; cbn; [|by case_decide].
    upd_norm. cbn [trx_ts]. rewrite list_lookup_alter. repeat case_decide; intuition congruence.
  - rewrite (decide_False (P := i = i' /\ j = j')) by tauto. done.
Qed.

Lemma get_lchan_at_lchan bts p f p' :
  get_lchan (at_lchan p f bts) p' =
  if decide (p = p') then f <$> get_lchan bts p' else get_lchan bts p'.
Proof.
  destruct p as [[i j] k], p' as [[i' j'] k']. unfold get_lchan, at_lchan.
  rewrite get_ts_at_ts. destruct (decide (i = i' /\ j = j')) as [[-> ->]|Hn].
  - destruct (get_ts bts i' j') as [ts|]; cbn; [|by case_decide].
    upd_norm. cbn [lchan]. rewrite list_lookup_alter.
    repeat case_decide; try done; congruence.
  - rewrite decide_False; [done|]. intros [= -> -> ->]. tauto.
Qed.

Lemma get_lchan_at_pchan bts i j pchan p :
  get_lchan (at_ts i j (fun ts => ts <| ts_pchan := pchan |>) bts) p = get_lchan bts p.
Proof.
  destruct p as [[i' j'] k']. unfold get_lchan. rewrite get_ts_at_ts. case_decide; [|done].
  by destruct (get_ts bts i' j').
Qed.

Lemma at_ts_trx_wf bts i j f :
  (forall ts, ts_wf ts -> ts_wf (f ts)) ->
  Forall trx_wf (trx_list bts) -> Forall trx_wf (trx_list (at_ts i j f bts)).
Proof.
  intros Hf Hwf. unfold at_ts. upd_norm. cbn [trx_list]. apply Forall_alter; [done|].
  intros trx _ [Hl Ht]. split; upd_norm; cbn [trx_ts]; [by rewrite length_alter|].
  apply Forall_alter; [done|]. intros ts _. apply Hf.
Qed.

Lemma at_ts_frame bts i j f : same_frame bts (at_ts i j f bts).
Proof.
  unfold same_frame, at_ts. upd_norm. cbn [bts_type c0 chan_alloc_reverse trx_list].
  by rewrite length_alter.
Qed.

Lemma at_pchan_wf bts i j pchan :
  pchan <> GSM_PCHAN_NONE -> bts_wf bts ->
  bts_wf (at_ts i j (fun ts => ts <| ts_pchan := pchan |>) bts).
Proof.
  intros Hp [Hc Ht Hi]. split; [by unfold at_ts; upd_norm|by apply at_ts_trx_wf|].
  intros i' j' ts. rewrite get_ts_at_ts. case_decide; [|by apply Hi].
  destruct (get_ts bts i' j'); cbn; [|done]. intros [= <-]. upd_norm. by intros ?.
Qed.

Lemma at_lchan_wf bts i j k f ts :
  get_ts bts i j = Some ts ->
  (ts_pchan ts <> GSM_PCHAN_NONE \/ forall lc, lchan_is_free lc = true -> lchan_is_free (f lc) = true) ->
  bts_wf bts -> bts_wf (at_lchan (i, j, k) f bts).
Proof.
  intros Hts Hp [Hc Ht Hi]. unfold at_lchan. split; [by unfold at_ts; upd_norm| |].
  - apply at_ts_trx_wf; [|done]. intros ts0. unfold ts_wf. upd_norm. cbn [lchan].
    by rewrite length_alter.
  - intros i' j' ts'. rewrite get_ts_at_ts. case_decide as Hij; [|by apply Hi].
    destruct Hij as [<- <-]. rewrite Hts. intros [= <-]. unfold ts_idle_free. upd_norm.
    cbn [ts_pchan lchan]. intros Hn. destruct Hp as [Hp|Hp]; [done|].
    specialize (Hi _ _ _ Hts Hn). by apply Forall_alter; [|intros lc _; apply Hp].
Qed.

Section alloc.
Context `{LibosmoConst}.

Lemma usable_frame bts bts' :
  same_frame bts bts' ->
  (forall ts, ts_is_usable bts' ts = ts_is_usable bts ts) /\
  (forall trx, trx_is_usable bts' trx = trx_is_usable bts trx).
Proof.
  intros (Ht & _). unfold ts_is_usable, trx_is_usable, is_ipaccess_bts. rewrite Ht. done.
Qed.

(** ** What could serve a request *)

(** Sub-slot [k] of the time slot at [i], [j] carries [pchan] and is free. *)
Definition free_subslot (bts : gsm_bts) (pchan : gsm_phys_chan_config) (p : path) : Prop :=
  let '(i, j, k) := p in
  exists trx ts lc n, trx_list bts !! i = Some trx /\ trx_ts trx !! j = Some ts /\
    lchan ts !! k = Some lc /\ trx_is_usable bts trx = true /\ ts_is_usable bts ts = true /\
    ts_suits ts pchan = true /\ subslots_listed pchan = Some n /\ Z.of_nat k < n /\
    lchan_is_free lc = true.

(** The time slot at [i], [j] can be configured for [pchan]. *)
Definition open_ts (bts : gsm_bts) (pchan : gsm_phys_chan_config) (i j : nat) : Prop :=
  exists trx, trx_list bts !! i = Some trx /\ trx_is_usable bts trx = true /\
    ts_spare bts trx j = true /\ (1 <= j <= 7)%nat /\
    match pchan with
    | GSM_PCHAN_TCH_F | GSM_PCHAN_TCH_H => True
    | GSM_PCHAN_SDCCH8_SACCH8C =>
        forall trx0, trx_list bts !! 0%nat = Some trx0 -> trx_is_usable bts trx0 = false
    | _ => False
    end.

(** A channel of this kind can be had. *)
Definition obtainable (bts : gsm_bts) (pchan : gsm_phys_chan_config) : Prop :=
  (exists p, free_subslot bts pchan p) \/ (exists i j, open_ts bts pchan i j).

(** The channel combinations [lchan_alloc] asks for. *)
Definition alloc_pchan (pchan : gsm_phys_chan_config) : Prop :=
  pchan = GSM_PCHAN_CCCH_SDCCH4 \/ pchan = GSM_PCHAN_SDCCH8_SACCH8C \/
  pchan = GSM_PCHAN_TCH_F \/ pchan = GSM_PCHAN_TCH_H.

Lemma lc_find_trx_Some bts i trx pchan j k :
  trx_list bts !! i = Some trx ->
  lc_find_trx bts trx pchan = Some (j, k) -> free_subslot bts pchan (i, j, k).
Proof.
  intros Hi. unfold lc_find_trx. destruct (trx_is_usable bts trx) eqn:Eu; [|done].
  intros (j' & Hj & Hf)%find_first_Some.
  destruct (trx_ts trx !! j') as [ts|] eqn:Et; [|done]. cbn [mbind option_bind] in Hf.
  destruct (ts_is_usable bts ts) eqn:Etu; [|done]. destruct (ts_suits ts pchan) eqn:Es; [|done].
  cbn [negb] in Hf. destruct (find _ _) as [k'|] eqn:Ef; [|done].
  injection Hf as -> ->. apply find_seq_Some in Ef as [Hk Hf]. unfold subslot_free in Hf.
  destruct (lchan ts !! k) as [lc|] eqn:El; [|done].
  destruct (subslots_listed pchan) as [n|] eqn:En; cbn [default from_option id] in Hk; [|lia].
  exists trx, ts, lc, n. repeat split; try done. unfold id in Hk. lia.
Qed.

Lemma lc_find_trx_None bts i trx pchan j k :
  trx_wf trx -> trx_list bts !! i = Some trx ->
  lc_find_trx bts trx pchan = None -> ~ free_subslot bts pchan (i, j, k).
Proof.
  intros [Hl _] Hi Hn (trx' & ts & lc & n & Hi' & Ht & Hk & Hu & Htu & Hs & Hn' & Hlt & Hf).
  rewrite Hi in Hi'. injection Hi' as <-. unfold lc_find_trx in Hn. rewrite Hu in Hn.
  cbn [negb] in Hn. rewrite find_first_None in Hn. specialize (Hn j). rewrite Ht in Hn.
  cbn [mbind option_bind] in Hn. rewrite Htu, Hs, Hn' in Hn. cbn [negb default from_option] in Hn.
  assert (j ∈ seq 0 8) as Hj.
  { apply elem_of_seq. apply lookup_lt_Some in Ht. unfold TRX_NR_TS in Hl. lia. }
  specialize (Hn Hj). destruct (find _ _) as [k'|] eqn:E; [done|].
  rewrite find_seq_None in E. specialize (E k). unfold subslot_free in E. rewrite Hk, Hf in E.
  unfold id in E. specialize (E ltac:(lia)). done.
Qed.

Lemma ts_alloc_range_spec prim pchan :
  alloc_pchan pchan -> pchan <> GSM_PCHAN_CCCH_SDCCH4 ->
  ts_alloc_range prim pchan =
    if prim && bool_decide (pchan = GSM_PCHAN_SDCCH8_SACCH8C) then None else Some (1, 7)%nat.
Proof. intros [->|[->|[->| ->]]] Hn; by destruct prim. Qed.

(** The search from TRX [i] on; the primary TRX is number 0. *)
Lemma ts_alloc_find_spec bts pchan l : forall i,
  c0 bts = Some 0%nat -> alloc_pchan pchan -> pchan <> GSM_PCHAN_CCCH_SDCCH4 ->
  (forall n, trx_list bts !! (i + n)%nat = l !! n) ->
  match ts_alloc_find bts pchan i l with
  | Some (a, j) => (i <= a)%nat /\ exists trx, trx_list bts !! a = Some trx /\
      trx_is_usable bts trx = true /\ ts_spare bts trx j = true /\ (1 <= j <= 7)%nat
  | None => forall a j, (i <= a)%nat -> ~ open_ts bts pchan a j
  end.
Proof.
  induction l as [|trx l IH]; intros i Hc Hp Hn Hl; cbn [ts_alloc_find].
  { intros a j Ha (trx & Ht & _). specialize (Hl (a - i)%nat).
    replace (i + (a - i))%nat with a in Hl by lia. by rewrite Ht in Hl. }
  assert (Hi : trx_list bts !! i = Some trx) by (rewrite <- (Nat.add_0_r i); by rewrite (Hl 0%nat)).
  assert (IH' : forall n, trx_list bts !! (S i + n)%nat = l !! n).
  { intros n. replace (S i + n)%nat with (i + S n)%nat by lia. by rewrite (Hl (S n)). }
  specialize (IH (S i) Hc Hp Hn IH').
  (* the induction hypothesis covers everything but TRX i *)
  assert (Hrest : (forall j, ~ open_ts bts pchan i j) ->
    match ts_alloc_find bts pchan (S i) l with
    | Some (a, j) => (i <= a)%nat /\ exists trx, trx_list bts !! a = Some trx /\
        trx_is_usable bts trx = true /\ ts_spare bts trx j = true /\ (1 <= j <= 7)%nat
    | None => forall a j, (i <= a)%nat -> ~ open_ts bts pchan a j
    end).
  { intros H0. destruct (ts_alloc_find bts pchan (S i) l) as [[a j]|].
    - destruct IH as [Ha IH]. split; [lia|done].
    - intros a j Ha. destruct (decide (a = i)) as [->|]; [apply H0|apply IH; lia]. }
  destruct (trx_is_usable bts trx) eqn:Eu; cbn [negb].
  2: { apply Hrest. intros j (trx' & Ht & Hu & _). rewrite Hi in Ht. injection Ht as <-. congruence. }
  rewrite ts_alloc_range_spec by done. rewrite Hc.
  destruct (bool_decide (Some 0%nat = Some i) && bool_decide (pchan = _)) eqn:E.
  { apply andb_true_iff in E as [E1 E2]. apply bool_decide_eq_true in E1, E2. injection E1 as <-.
    subst pchan. intros a j _ (t & _ & _ & _ & _ & Hx). rewrite (Hx trx Hi) in Eu. done. }
  cbn [Nat.add Nat.sub]. destruct (find (ts_spare bts trx) _) as [j|] eqn:Ef.
  - apply find_seq_Some in Ef as [Hj Hs]. split; [done|]. exists trx. repeat split; try done; lia.
  - apply Hrest. intros j (trx' & Ht & _ & Hs & Hj & _). rewrite Hi in Ht. injection Ht as <-.
    rewrite find_seq_None in Ef. rewrite Ef in Hs by lia. done.
Qed.

(** ** One channel combination *)

(** [p] of [bts] is handed out for [pchan]; [bts'] is the BTS at that moment. *)
Record served (bts bts' : gsm_bts) (pchan : gsm_phys_chan_config) (p : path) : Prop := {
  sv_free : exists lc, get_lchan bts p = Some lc /\ lchan_is_free lc = true;
  sv_ts : free_subslot bts' pchan p;
  sv_lchans : forall p', get_lchan bts' p' = get_lchan bts p';
  sv_wf : bts_wf bts';
  sv_frame : same_frame bts bts'
}.

Lemma alloc_pchan_not_none pchan : alloc_pchan pchan -> pchan <> GSM_PCHAN_NONE.
Proof. by intros [->|[->|[->| ->]]]. Qed.

Lemma alloc_pchan_subslot pchan :
  alloc_pchan pchan -> exists n, subslots_listed pchan = Some n /\ 0 < n.
Proof. intros [->|[->|[->| ->]]]; by eexists. Qed.

Lemma trx_order_elem bts i : i ∈ trx_order bts <-> (i < length (trx_list bts))%nat.
Proof.
  unfold trx_order. destruct (chan_alloc_reverse bts =? 0);
    rewrite ?elem_of_reverse, elem_of_seq; lia.
Qed.

Lemma ts_alloc_served bts pchan i j trx :
  bts_wf bts -> alloc_pchan pchan ->
  trx_list bts !! i = Some trx -> trx_is_usable bts trx = true -> ts_spare bts trx j = true ->
  served bts (at_ts i j (fun ts => ts <| ts_pchan := pchan |>) bts) pchan (i, j, 0%nat).
Proof.
  intros Hwf Hp Hi Hu Hs. unfold ts_spare in Hs.
  destruct (trx_ts trx !! j) as [ts|] eqn:Ej; [|done].
  apply andb_true_iff in Hs as [Htu Hn]. apply bool_decide_eq_true in Hn.
  assert (Hts : get_ts bts i j = Some ts) by (unfold get_ts; by rewrite Hi).
  pose proof (wf_trx _ Hwf) as Hw. rewrite Forall_lookup in Hw. destruct (Hw i trx Hi) as [_ Hw'].
  rewrite Forall_lookup in Hw'. specialize (Hw' j ts Ej). unfold ts_wf, TS_MAX_LCHAN in Hw'.
  destruct (lookup_lt_is_Some_2 (lchan ts) 0) as [lc Hlc]; [lia|].
  assert (lchan_is_free lc = true) as Hf.
  { pose proof (wf_idle _ Hwf _ _ _ Hts Hn) as Hall. rewrite Forall_lookup in Hall. by eapply Hall. }
  destruct (alloc_pchan_subslot pchan Hp) as (n & Hsub & Hpos).
  set (bts' := at_ts i j _ bts). pose proof (at_ts_frame bts i j
    (fun ts => ts <| ts_pchan := pchan |>)) as Hfr. fold bts' in Hfr.
  destruct (usable_frame _ _ Hfr) as [Hut Hux].
  split.
  - exists lc. unfold get_lchan. rewrite Hts. done.
  - exists (trx <| trx_ts ::= alter (fun ts => ts <| ts_pchan := pchan |>) j |>),
      (ts <| ts_pchan := pchan |>), lc, n.
    assert (trx_list bts' !! i =
            Some (trx <| trx_ts ::= alter (fun ts => ts <| ts_pchan := pchan |>) j |>)) as Ht'.
    { unfold bts', at_ts. upd_norm. cbn [trx_list]. by rewrite list_lookup_alter_eq, Hi. }
    split; [done|]. split; [upd_norm; cbn [trx_ts]; by rewrite list_lookup_alter_eq, Ej|].
    split; [by upd_norm|]. split; [rewrite Hux; unfold trx_is_usable in *; by upd_norm|].
    split; [rewrite Hut; unfold ts_is_usable in *; by upd_norm|].
    split; [|by repeat split]. unfold ts_suits. upd_norm. cbn [ts_pchan].
    destruct Hp as [->|[->|[->| ->]]]; done.
  - intros p'. apply get_lchan_at_pchan.
  - apply at_pchan_wf; [by apply alloc_pchan_not_none|done].
  - done.
Qed.

Lemma lc_find_bts_spec bts pchan :
  bts_wf bts -> alloc_pchan pchan ->
  (exists p bts' ev, lc_find_bts pchan bts = Some (Some p, bts', ev) /\ served bts bts' pchan p) \/
  (lc_find_bts pchan bts = Some (None, bts, []) /\ ~ obtainable bts pchan).
Proof.
  intros Hwf Hp. unfold lc_find_bts. run_steps. unfold id.
  destruct (find_first _ (trx_order bts)) as [p|] eqn:E.
  - left. exists p, bts, []. split; [done|]. apply find_first_Some in E as (i & Hi & Hf).
    destruct (trx_list bts !! i) as [trx|] eqn:Et; [|done].
    destruct (lc_find_trx bts trx pchan) as [[j k]|] eqn:Ec; [|done]. injection Hf as <-.
    pose proof (lc_find_trx_Some _ _ _ _ _ _ Et Ec) as Hfree. split; try done.
    destruct Hfree as (t & ts & lc & n & Ht & Hts & Hlc & _ & _ & _ & _ & _ & Hf).
    exists lc. unfold get_lchan, get_ts. rewrite Ht. cbn [mbind option_bind]. rewrite Hts. done.
  - rewrite find_first_None in E.
    assert (Hnone : forall p, ~ free_subslot bts pchan p).
    { intros [[i j] k] Hfs. pose proof Hfs as (trx & _ & _ & _ & Ht & _).
      specialize (E i). rewrite Ht in E.
      rewrite trx_order_elem in E. specialize (E ltac:(by eapply lookup_lt_Some)).
      destruct (lc_find_trx bts trx pchan) as [[j' k']|] eqn:Ec; [done|].
      revert Hfs. eapply lc_find_trx_None; [|done|done].
      pose proof (wf_trx _ Hwf) as Hw. rewrite Forall_lookup in Hw. by eapply Hw. }
    destruct (bool_decide (pchan = GSM_PCHAN_CCCH_SDCCH4)) eqn:Eb.
    + right. split; [done|]. apply bool_decide_eq_true in Eb as ->.
      intros [[p Hfs]|(i & j & (? & _ & _ & _ & _ & []))]. by apply (Hnone p).
    + apply bool_decide_eq_false in Eb.
      pose proof (ts_alloc_find_spec bts pchan (trx_list bts) 0 (wf_c0 _ Hwf) Hp Eb ltac:(done))
        as Hs.
      destruct (ts_alloc_find bts pchan 0 (trx_list bts)) as [[i j]|] eqn:Ea.
      * left. destruct Hs as (_ & trx & Ht & Hu & Hsp & _).
        eexists (i, j, 0%nat), _, [EvSetChannelAttr i j pchan].
        split; [|by eapply ts_alloc_served].
        erewrite run_bind; [|unfold ts_alloc; run_steps; unfold id; rewrite Ea; by run_steps].
        done.
      * right. split.
        { erewrite run_bind; [|unfold ts_alloc; run_steps; unfold id; by rewrite Ea]. done. }
        intros [[p Hfs]|(i & j & Ho)]; [by apply (Hnone p)|].
        eapply (Hs i j); [lia|done].
Qed.

(** ** [lchan_alloc] *)

(** The channel combinations a request can be served with. *)
Definition alloc_kinds (type : gsm_chan_t) (allow_bigger : bool) : list gsm_phys_chan_config :=
  match type with
  | GSM_LCHAN_SDCCH =>
      [GSM_PCHAN_CCCH_SDCCH4; GSM_PCHAN_SDCCH8_SACCH8C] ++
      (if allow_bigger then [GSM_PCHAN_TCH_H; GSM_PCHAN_TCH_F] else [])
  | GSM_LCHAN_TCH_F => [GSM_PCHAN_TCH_F]
  | GSM_LCHAN_TCH_H => [GSM_PCHAN_TCH_H; GSM_PCHAN_TCH_F]
  | _ => []
  end.

Lemma alloc_kinds_pchan type allow_bigger pchan :
  pchan ∈ alloc_kinds type allow_bigger -> alloc_pchan pchan.
Proof.
  unfold alloc_pchan. destruct type, allow_bigger; cbn [alloc_kinds app];
    rewrite ?elem_of_cons, elem_of_nil; tauto.
Qed.

(** The type a channel on [pchan] gets. *)
Definition kind_type (pchan : gsm_phys_chan_config) : gsm_chan_t :=
  match pchan with
  | GSM_PCHAN_TCH_F => GSM_LCHAN_TCH_F
  | GSM_PCHAN_TCH_H => GSM_LCHAN_TCH_H
  | _ => GSM_LCHAN_SDCCH
  end.

(** The state of the search after [kinds] were tried. *)
Definition tried (bts : gsm_bts) (kinds : list gsm_phys_chan_config)
    (r : option path * gsm_chan_t) (bts' : gsm_bts) : Prop :=
  match r with
  | (Some p, t) => exists pchan, pchan ∈ kinds /\ t = kind_type pchan /\ served bts bts' pchan p
  | (None, _) => bts' = bts /\ forall pchan, pchan ∈ kinds -> ~ obtainable bts pchan
  end.

Lemma lc_find_bts_tried bts pchan t :
  bts_wf bts -> alloc_pchan pchan -> t = kind_type pchan ->
  exists r bts' ev, lc_find_bts pchan bts = Some (r, bts', ev) /\ tried bts [pchan] (r, t) bts'.
Proof.
  intros Hwf Hp Ht. destruct (lc_find_bts_spec bts pchan Hwf Hp) as [(p & b & ev & Hf & Hs)|[Hf Hn]].
  - exists (Some p), b, ev. split; [done|]. exists pchan. split; [left|done].
  - exists None, bts, []. split; [done|]. split; [done|].
    intros pc Hpc. by apply list_elem_of_singleton in Hpc as ->.
Qed.

Lemma or_else_tried bts kinds r bts1 pchan t :
  bts_wf bts -> alloc_pchan pchan -> t = kind_type pchan -> tried bts kinds r bts1 ->
  exists r' bts2 ev, or_else r (lc_find_bts pchan) t bts1 = Some (r', bts2, ev) /\
    tried bts (kinds ++ [pchan]) r' bts2.
Proof.
  intros Hwf Hp Ht. destruct r as [[p|] ty]; cbn [tried or_else].
  - intros (pc & Hin & Hs). eexists (Some p, ty), bts1, []. split; [done|].
    exists pc. split; [by apply elem_of_app; left|done].
  - intros [-> Hno]. destruct (lc_find_bts_tried bts pchan t Hwf Hp Ht) as (r & b & ev & Hf & Hr).
    exists (r, t), b, (ev ++ []). split; [by erewrite run_bind by done|].
    destruct r as [p|]; cbn [tried] in *.
    + destruct Hr as (pc & Hin & Hs). exists pc. split; [by apply elem_of_app; right|done].
    + destruct Hr as [-> Hr]. split; [done|]. intros pc [H1|H1]%elem_of_app; [by apply Hno|by apply Hr].
Qed.

Lemma lchan_search_spec bts type allow_bigger :
  bts_wf bts ->
  exists r bts' ev, lchan_search type allow_bigger bts = Some (r, bts', ev) /\
    tried bts (alloc_kinds type allow_bigger) r bts'.
Proof.
  intros Hwf. unfold lchan_search. run_steps. unfold id, alloc_kinds.
  assert (H1 : alloc_pchan GSM_PCHAN_TCH_F) by (unfold alloc_pchan; tauto).
  assert (H2 : alloc_pchan GSM_PCHAN_TCH_H) by (unfold alloc_pchan; tauto).
  destruct type.
  1,5: by eexists (None, _), bts, []; split; [done|]; split; [done|]; intros pc Hx;
    apply not_elem_of_nil in Hx.
  - set (order := if chan_alloc_reverse bts =? 0 then _ else _).
    assert (Ho : exists a b, order = (a, b) /\ alloc_pchan a /\ alloc_pchan b /\
      kind_type a = GSM_LCHAN_SDCCH /\ kind_type b = GSM_LCHAN_SDCCH /\
      (forall pc, pc ∈ [a] ++ [b] <-> pc ∈ [GSM_PCHAN_CCCH_SDCCH4; GSM_PCHAN_SDCCH8_SACCH8C])).
    { unfold order, alloc_pchan. destruct (chan_alloc_reverse bts =? 0);
        eexists _, _; split_and!; try done; try tauto.
      intros pc. cbn [app]. rewrite !elem_of_cons. tauto. }
    destruct Ho as (a & b & -> & Ha & Hb & Ta & Tb & Hab).
    destruct (lc_find_bts_tried bts a _ Hwf Ha (eq_sym Ta)) as (r1 & b1 & e1 & Hf1 & Hr1).
    erewrite run_bind by done.
    destruct (or_else_tried bts [a] (r1, GSM_LCHAN_SDCCH) b1 b _ Hwf Hb (eq_sym Tb) Hr1)
      as (r2 & b2 & e2 & Hf2 & Hr2).
    erewrite run_bind by done.
    assert (Hsub : forall ks ks' r b, (forall pc, pc ∈ ks <-> pc ∈ ks') -> tried bts ks r b ->
      tried bts ks' r b).
    { intros ks ks' [[p|] ty] bb Hk; cbn [tried].
      - intros (pc & Hin & Hs). exists pc. by rewrite <- Hk.
      - intros [-> Hn]. split; [done|]. intros pc Hin. by apply Hn, Hk. }
    destruct allow_bigger.
    + destruct (or_else_tried bts _ r2 b2 GSM_PCHAN_TCH_H _ Hwf H2 eq_refl Hr2)
        as (r3 & b3 & e3 & Hf3 & Hr3). erewrite run_bind by exact Hf3.
      destruct (or_else_tried bts _ r3 b3 GSM_PCHAN_TCH_F _ Hwf H1 eq_refl Hr3)
        as (r4 & b4 & e4 & Hf4 & Hr4). cbn [kind_type] in Hf4. rewrite Hf4.
      eexists _, _, _. split; [done|]. revert Hr4. apply Hsub. intros pc.
      rewrite <- (app_assoc ([a] ++ [b])), (elem_of_app ([a] ++ [b])), Hab, <- elem_of_app. done.
    + eexists _, _, _. split; [done|]. revert Hr2. apply Hsub. intros pc.
      by rewrite app_nil_r, Hab.
  - destruct (lc_find_bts_tried bts _ GSM_LCHAN_TCH_F Hwf H1 eq_refl) as (r & b & e & Hf & Hr).
    erewrite run_bind by done. by eexists _, _, _.
  - destruct (lc_find_bts_tried bts _ GSM_LCHAN_TCH_H Hwf H2 eq_refl) as (r & b & e & Hf & Hr).
    erewrite run_bind by done.
    destruct (or_else_tried bts _ (r, GSM_LCHAN_TCH_H) b _ GSM_LCHAN_TCH_F Hwf H1 eq_refl Hr)
      as (r2 & b2 & e2 & Hf2 & Hr2). rewrite Hf2. by eexists _, _, _.
Qed.

Lemma kind_type_not_none pchan : kind_type pchan <> GSM_LCHAN_NONE.
Proof. by destruct pchan. Qed.

(** A channel was handed out: it was free, it is on a usable time slot with a channel combination
    that serves the request, and nothing but this channel was changed. *)
Definition handed_out (bts bts' : gsm_bts) (kinds : list gsm_phys_chan_config) (p : path) : Prop :=
  exists pchan lc, pchan ∈ kinds /\ get_lchan bts p = Some lc /\ lchan_is_free lc = true /\
    get_lchan bts' p = Some (lchan_claim (kind_type pchan) lc) /\
    (forall p', p' <> p -> get_lchan bts' p' = get_lchan bts p') /\
    exists trx ts, trx_list bts' !! p.1.1 = Some trx /\ trx_ts trx !! p.1.2 = Some ts /\
      trx_is_usable bts' trx = true /\ ts_is_usable bts' ts = true /\ ts_suits ts pchan = true.

Lemma ts_suits_not_none ts pchan :
  ts_suits ts pchan = true -> pchan <> GSM_PCHAN_NONE -> ts_pchan ts <> GSM_PCHAN_NONE.
Proof.
  unfold ts_suits. destruct (bool_decide (ts_pchan ts = GSM_PCHAN_TCH_F_PDCH)) eqn:E.
  - apply bool_decide_eq_true in E as ->. done.
  - cbn [andb]. intros Hb. apply bool_decide_eq_true in Hb as ->. done.
Qed.

Lemma lchan_alloc_outcome bts type allow_bigger :
  bts_wf bts ->
  exists r bts' ev, lchan_alloc type allow_bigger bts = Some (r, bts', ev) /\ bts_wf bts' /\
    match r with
    | Some p => handed_out bts bts' (alloc_kinds type allow_bigger) p
    | None => bts' = bts /\ (exists e t, ev = e ++ [EvAllocFail t]) /\
        forall pchan, pchan ∈ alloc_kinds type allow_bigger -> ~ obtainable bts pchan
    end.
Proof.
  intros Hwf. destruct (lchan_search_spec bts type allow_bigger Hwf) as (r & b & ev & Hs & Hr).
  unfold lchan_alloc. destruct r as [[p|] t]; cbn [tried] in Hr.
  - destruct Hr as (pchan & Hin & -> & [(lc & Hlc & Hf) Hts Hls Hwf' Hfr]).
    erewrite run_bind by done. run_steps.
    destruct p as [[i j] k].
    destruct Hts as (trx & ts & lc0 & n & Ht & Hj & Hk & Hu & Htu & Hsu & Hn & Hlt & _).
    assert (Hgts : get_ts b i j = Some ts) by (unfold get_ts; by rewrite Ht).
    assert (Halloc : pchan <> GSM_PCHAN_NONE).
    { by apply alloc_pchan_not_none, (alloc_kinds_pchan type allow_bigger). }
    set (f := lchan_claim (kind_type pchan)).
    eexists (Some (i, j, k)), (at_lchan (i, j, k) f b), _. split; [done|]. split.
    { eapply at_lchan_wf; [done| |done]. left. by eapply ts_suits_not_none. }
    exists pchan, lc. split; [done|]. split; [done|]. split; [done|].
    split; [by rewrite get_lchan_at_lchan, decide_True, Hls, Hlc by done|].
    split; [intros p' Hne; rewrite get_lchan_at_lchan, decide_False by congruence; apply Hls|].
    unfold at_lchan. set (g := fun ts : gsm_bts_trx_ts => _).
    pose proof (at_ts_frame b i j g) as Hfr2. destruct (usable_frame _ _ Hfr2) as [Hut Hux].
    exists (trx <| trx_ts ::= alter g j |>), (g ts). cbn [fst snd].
    unfold at_ts. upd_norm. cbn [trx_list]. rewrite list_lookup_alter_eq, Ht. split; [done|].
    split; [cbn [trx_ts]; by rewrite list_lookup_alter_eq, Hj|].
    unfold at_ts in Hut, Hux. revert Hut Hux. upd_norm. intros Hut Hux. rewrite Hux, Hut.
    unfold g, trx_is_usable, ts_is_usable, ts_suits in *. by upd_norm.
  - destruct Hr as [-> Hno]. erewrite run_bind by done. run_steps.
    eexists None, bts, _. split; [done|]. split; [done|]. split; [done|].
    split; [by exists ev, t|done].
Qed.

(** ** Freeing *)

Lemma lchan_free_spec lc :
  lchan_free lc =
  Some (tt,
    forget_meas lc <| lc_type := GSM_LCHAN_NONE |> <| lc_state := LCHAN_S_NONE |>
      <| T3101 := None |> <| rqd_ref := None |>
      <| rqd_ta := (if bool_decide (is_Some (rqd_ref lc)) then 0 else rqd_ta lc) |>
      <| lc_conn := None |> <| sach_deact := 0 |> <| release_reason := 0 |>,
    (if bool_decide (is_Some (lc_conn lc)) then [EvSignal S_LCHAN_UNEXPECTED_RELEASE] else []) ++
    [EvFreed (lc_type lc)]).
Proof.
  unfold lchan_free. run_steps. unfold modify, emits. unfold forget_meas.
  destruct lc as [? ? ? ? st ? ? ? ? ? ? ? ? ? ? ? ? ? ? ? ref conn]. upd_norm.
  cbn [lc_type lc_state lc_conn rqd_ref rqd_ta lc_meas].
  by destruct (bool_decide (st = LCHAN_S_NONE)) eqn:Es; [apply bool_decide_eq_true in Es as ->|];
    destruct conn, ref; cbn [negb]; upd_norm.
Qed.

(** ** A BTS comes into being *)

Lemma fresh_trx_wf bts trx t :
  trx_ts t = imap (trx_alloc_ts bts trx) (trx_ts zero_trx) -> trx_wf t.
Proof.
  intros Ht. unfold trx_wf. rewrite Ht. split; [done|].
  repeat (apply Forall_cons; split; [done|]). done.
Qed.

Lemma fresh_trx_idle bts trx :
  Forall ts_idle_free (imap (trx_alloc_ts bts trx) (trx_ts zero_trx)).
Proof.
  repeat (apply Forall_cons; split; [intros _; repeat (apply Forall_cons; split; [done|]); done|]).
  done.
Qed.

Lemma get_ts_app bts l i j ts :
  get_ts (bts <| trx_list ::= fun ts => ts ++ l |>) i j = Some ts ->
  get_ts bts i j = Some ts \/ exists trx, trx ∈ l /\ ts ∈ trx_ts trx.
Proof.
  unfold get_ts. upd_norm. cbn [trx_list]. destruct (_ !! i) as [trx|] eqn:E; [|done].
  cbn [mbind option_bind]. intros Hts. apply lookup_app_Some in E as [E|[_ E]].
  - left. by rewrite E.
  - right. exists trx. split; eapply list_elem_of_lookup_2; done.
Qed.

Definition bts_shape (bts : gsm_bts) : Prop :=
  Forall trx_wf (trx_list bts) /\
  forall i j ts, get_ts bts i j = Some ts -> ts_idle_free ts.

Lemma gsm_bts_trx_alloc_shape ok bts bts' :
  gsm_bts_trx_alloc ok bts = Some bts' -> bts_shape bts -> bts_shape bts' /\ c0 bts' = c0 bts.
Proof.
  unfold gsm_bts_trx_alloc. destruct ok; [cbn [negb]|done].
  intros [= <-] [Hw Hid].
  match goal with |- bts_shape (upd _ (fun l => l ++ [?t]) _) /\ _ => set (trx := t) end.
  assert (exists b t, trx_ts trx = imap (trx_alloc_ts b t) (trx_ts zero_trx)) as (b & t & Heq).
  { unfold trx. upd_norm. cbn [trx_ts trx_nr]. destruct (_ =? 0); cbn [negb];
      [|destruct (_ ≫= _)]; by eexists _, _. }
  pose proof (fresh_trx_wf _ _ _ Heq) as Ht. pose proof (fresh_trx_idle b t) as Hi.
  rewrite <- Heq in Hi. clearbody trx. split; [split|by upd_norm].
  - upd_norm. cbn [trx_list]. apply Forall_app. split; [done|by apply Forall_singleton].
  - intros i j ts Hts. apply get_ts_app in Hts as [Hts|(x & Hin & Hts)].
    + eapply (Hid i j). revert Hts. unfold get_ts. by upd_norm.
    + apply list_elem_of_singleton in Hin as ->. rewrite Forall_forall in Hi. by apply Hi.
Qed.

Lemma gsm_bts_trx_alloc_wf ok bts bts' :
  gsm_bts_trx_alloc ok bts = Some bts' -> bts_wf bts -> bts_wf bts'.
Proof.
  intros Ha [Hc Hw Hid].
  destruct (gsm_bts_trx_alloc_shape _ _ _ Ha) as [[Hw' Hid'] Hc']; [done|]. split; [congruence|done|done].
Qed.

(** Only the primary TRX and the list of TRXs matter. *)
Lemma bts_wf_ext bts bts' :
  c0 bts' = Some 0%nat -> trx_list bts' = trx_list bts -> bts_shape bts -> bts_wf bts'.
Proof.
  intros Hc Hl [Hw Hid]. split; [done|by rewrite Hl|].
  intros i j ts. unfold get_ts. rewrite Hl. apply Hid.
Qed.

Lemma gsm_bts_alloc_wf ok ok_trx bts : gsm_bts_alloc ok ok_trx = Some bts -> bts_wf bts.
Proof.
  unfold gsm_bts_alloc. destruct ok; [cbn [negb]|done].
  match goal with |- (gsm_bts_trx_alloc _ ?b ≫= _) = _ -> _ => set (b0 := b) end.
  destruct (gsm_bts_trx_alloc ok_trx b0) as [b1|] eqn:E; [|done]. cbn [mbind option_bind].
  intros [= <-].
  apply gsm_bts_trx_alloc_shape in E as [Hs _].
  2: { split; [by apply Forall_nil|]. unfold get_ts, b0. by upd_norm. }
  set (b2 := b1 <| c0 := Some 0%nat |>).
  assert (bts_wf b2) as Hb2 by (apply (bts_wf_ext b1); unfold b2; by upd_norm).
  assert (bts_wf (at_ts 0 0 (fun ts => ts <| ts_pchan := GSM_PCHAN_CCCH_SDCCH4 |>) b2)) as [Hc Hw Hid]
    by (by apply at_pchan_wf).
  eapply bts_wf_ext; [| |by split]; by upd_norm.
Qed.

(** C4: a request for a channel is always answered. A channel that is handed out was free, lies on
    a usable time slot of a usable TRX whose channel combination serves the request, and no other
    channel is touched; it is marked as taken, without SAPIs and multi-rate configuration; when the answer is NULL, the failure is signalled, the BTS is unchanged and
    neither a free channel nor a time slot to open exists for any combination that could serve the
    request. *)
Theorem lchan_alloc_spec bts type allow_bigger :
  bts_wf bts ->
  exists r bts' ev, lchan_alloc type allow_bigger bts = Some (r, bts', ev) /\ bts_wf bts' /\
    match r with
    | Some p => handed_out bts bts' (alloc_kinds type allow_bigger) p /\
        exists lc', get_lchan bts' p = Some lc' /\ lc_type lc' <> GSM_LCHAN_NONE /\
          Forall (fun x => x = 0) (sapis lc') /\ Forall (fun x => x = 0) (mr_conf lc')
    | None => bts' = bts /\ (exists e t, ev = e ++ [EvAllocFail t]) /\
        forall pchan, pchan ∈ alloc_kinds type allow_bigger -> ~ obtainable bts pchan
    end.
Proof.
  intros Hw. destruct (lchan_alloc_outcome bts type allow_bigger Hw) as (r & bts' & ev & Ha & Hw' & Hr).
  exists r, bts', ev. split_and!; [done..|]. destruct r as [p|]; [|done]. split; [done|].
  destruct Hr as (pchan & lc & _ & _ & _ & Hlc & _). eexists. split; [exact Hlc|]. unfold lchan_claim. upd_norm.
  split_and!; [apply kind_type_not_none|by apply Forall_fmap, Forall_true..].
Qed.

End alloc.
End AllocProps.
