(* ===== verification/RadioProps.v ===== *)
(** Channel numbers are unambiguous, and the load of the network is what it says: the number of
    logical channels on running time slots, and of those that are not idle. *)

From S2P Require Import Prelude Radio ChanAlloc.

Module RadioProps.
Import ChanAlloc.

(** ** Channel numbers *)

(** How many sub-slots a channel number can tell apart. *)
Definition chan_nr_subslots (pchan : gsm_phys_chan_config) : nat :=
  match pchan with
  | GSM_PCHAN_TCH_H => 2
  | GSM_PCHAN_CCCH_SDCCH4 => 4
  | GSM_PCHAN_SDCCH8_SACCH8C => 8
  | _ => 1
  end.

(** Every sub-slot the allocator uses has a number of its own. *)
Lemma allocated_subslots_numbered pchan n :
  subslots_listed pchan = Some n -> n <= Z.of_nat (chan_nr_subslots pchan).
Proof. destruct pchan; vm_compute; intros [= <-]; discriminate. Qed.

Definition chan_nr_check (pchan : gsm_phys_chan_config) (j k : nat) : bool :=
  bool_decide
    (lchan_lookup (gsm_ts2chan_nr (zero_ts <| ts_pchan := pchan |> <| ts_nr := Z.of_nat j |>)
                     (Z.of_nat k)) = Some (j, k)).

Lemma chan_nr_check_all pchan :
  forallb (fun j => forallb (chan_nr_check pchan j) (seq 0 (chan_nr_subslots pchan))) (seq 0 8) = true.
Proof. by destruct pchan; vm_compute. Qed.

Lemma ts2chan_nr_fields ts ts' n :
  ts_pchan ts = ts_pchan ts' -> ts_nr ts = ts_nr ts' -> gsm_ts2chan_nr ts n = gsm_ts2chan_nr ts' n.
Proof. intros H1 H2. unfold gsm_ts2chan_nr. by rewrite H1, H2. Qed.

Lemma lchan_lookup_chan_nr ts (j k : nat) :
  ts_nr ts = Z.of_nat j -> (j < TRX_NR_TS)%nat -> (k < chan_nr_subslots (ts_pchan ts))%nat ->
  lchan_lookup (gsm_ts2chan_nr ts (Z.of_nat k)) = Some (j, k).
Proof.
  intros Hn Hj Hk. pose proof (chan_nr_check_all (ts_pchan ts)) as H.
  rewrite forallb_forall in H. specialize (H j ltac:(apply in_seq; unfold TRX_NR_TS in Hj; lia)).
  rewrite forallb_forall in H. specialize (H k ltac:(apply in_seq; lia)).
  unfold chan_nr_check in H. apply bool_decide_eq_true in H. rewrite <- H. f_equal.
  by apply ts2chan_nr_fields; upd_norm.
Qed.

(** The numbers of time slots and logical channels are their positions, as they are after
    [gsm_bts_trx_alloc]. *)
Definition numbered (bts : gsm_bts) : Prop :=
  forall i j ts, get_ts bts i j = Some ts -> ts_nr ts = Z.of_nat j /\ (j < TRX_NR_TS)%nat /\
    forall k lc, lchan ts !! k = Some lc -> lc_nr lc = Z.of_nat k.

(** on a TRX the channel number of a logical channel, as [gsm_lchan2chan_nr] puts it into a
    message, is resolved by [lchan_lookup] to the time slot and sub-slot of that very channel; so
    no two channels of a TRX share a number. *)
Theorem chan_nr_roundtrip bts i j k ts lc :
  numbered bts -> get_ts bts i j = Some ts -> lchan ts !! k = Some lc ->
  (k < chan_nr_subslots (ts_pchan ts))%nat ->
  lchan_lookup (gsm_lchan2chan_nr ts lc) = Some (j, k) /\
  forall j' k' ts' lc', get_ts bts i j' = Some ts' -> lchan ts' !! k' = Some lc' ->
    (k' < chan_nr_subslots (ts_pchan ts'))%nat ->
    gsm_lchan2chan_nr ts' lc' = gsm_lchan2chan_nr ts lc -> (j', k') = (j, k).
Proof.
  intros Hn Hts Hlc Hk.
  assert (Hrt : forall j k ts lc, get_ts bts i j = Some ts -> lchan ts !! k = Some lc ->
    (k < chan_nr_subslots (ts_pchan ts))%nat ->
    lchan_lookup (gsm_lchan2chan_nr ts lc) = Some (j, k)).
  { intros j0 k0 ts0 lc0 Hts0 Hlc0 Hk0. destruct (Hn _ _ _ Hts0) as (Hnr & Hj & Hl).
    unfold gsm_lchan2chan_nr. rewrite (Hl _ _ Hlc0). by apply lchan_lookup_chan_nr. }
  split; [by apply Hrt|]. intros j' k' ts' lc' Hts' Hlc' Hk' He.
  pose proof (Hrt _ _ _ _ Hts' Hlc' Hk') as H1. rewrite He, (Hrt _ _ _ _ Hts Hlc Hk) in H1.
  by injection H1 as -> ->.
Qed.

Definition test_bts : gsm_bts :=
  zero_bts <| trx_list :=
    [zero_trx <| trx_ts := imap (fun j ts =>
        ts <| ts_nr := Z.of_nat j |> <| ts_pchan := GSM_PCHAN_SDCCH8_SACCH8C |>
           <| lchan ::= imap (fun k lc => lc <| lc_nr := Z.of_nat k |>) |>)
      (replicate 8 zero_ts) |>] |>.

Lemma test_bts_numbered : numbered test_bts.
Proof.
  intros [|i] j ts; [|done].
  do 8 (destruct j as [|j]; [intros [= <-]; split; [done|]; split; [unfold TRX_NR_TS; lia|];
    intros k lc; do 8 (destruct k as [|k]; [by intros [= <-]|]); done|]).
  done.
Qed.

Lemma chan_nr_roundtrip_witness :
  exists ts lc, get_ts test_bts 0 5 = Some ts /\ lchan ts !! 6%nat = Some lc /\
    gsm_lchan2chan_nr ts lc = 0x75 /\ lchan_lookup 0x75 = Some (5, 6)%nat.
Proof.
  eexists _, _. split; [vm_compute; reflexivity|]. split; [vm_compute; reflexivity|].
  split; [vm_compute; reflexivity|].
  refine (proj1 (chan_nr_roundtrip test_bts 0 5 6 _ _ test_bts_numbered
    ltac:(vm_compute; reflexivity) ltac:(vm_compute; reflexivity) _)).
  vm_compute. lia.
Defined.

(** ** Load *)

Section load.
Context `{LibosmoConst} (pchan_val : gsm_phys_chan_config -> Z).

Definition running (mo : gsm_abis_mo) : bool := nm_is_running (nm_state mo).

(** The channels that are counted, each with the channel combination it is counted for. *)
Definition counted_ts (ts : gsm_bts_trx_ts) : list (gsm_phys_chan_config * gsm_lchan) :=
  if running (ts_mo ts) then
    pair (ts_pchan ts) <$>
      take (Z.to_nat (default 0 (subslots_per_pchan pchan_val (ts_pchan ts)))) (lchan ts)
  else [].
Definition counted_trx (trx : gsm_bts_trx) : list (gsm_phys_chan_config * gsm_lchan) :=
  if running (trx_mo trx) && running (bb_transc_mo trx) then trx_ts trx ≫= counted_ts else [].
Definition counted (net : gsm_network) : list (gsm_phys_chan_config * gsm_lchan) :=
  bts_list net ≫= fun bts => trx_list bts ≫= counted_trx.

Definition count_pchan (p : gsm_phys_chan_config) (l : list (gsm_phys_chan_config * gsm_lchan)) : Z :=
  Z.of_nat (length (filter (fun e => e.1 = p) l)).
Definition count_busy (p : gsm_phys_chan_config) (l : list (gsm_phys_chan_config * gsm_lchan)) : Z :=
  Z.of_nat (length (filter (fun e => e.1 = p /\ lc_state e.2 <> LCHAN_S_NONE) l)).

(** [cl] counts the channels [l]. *)
Definition counts (cl : pchan_load) (l : list (gsm_phys_chan_config * gsm_lchan)) : Prop :=
  forall p, total (cl p) = u32 (count_pchan p l) /\ used (cl p) = u32 (count_busy p l).

Lemma u32_succ x : u32 (u32 x + 1) = u32 (x + 1).
Proof. unfold wrap. by rewrite Zplus_mod_idemp_l. Qed.

Lemma count_lchan_counts cl l p lc :
  counts cl l -> counts (count_lchan p lc cl) (l ++ [(p, lc)]).
Proof.
  intros Hc q. unfold count_lchan, count_pchan, count_busy. rewrite !filter_app.
  rewrite !filter_cons, !filter_nil. cbn [fst snd].
  destruct (Hc q) as [Ht Hu]. unfold count_pchan, count_busy in *.
  destruct (decide (q = p)) as [->|Hq].
  - rewrite decide_True by done. cbn [total used]. rewrite !length_app, Ht, u32_succ.
    split; [f_equal; cbn [length]; lia|].
    destruct (decide (lc_state lc = LCHAN_S_NONE)) as [Hs|Hs].
    + rewrite bool_decide_true by done. rewrite decide_False by tauto. rewrite Hu.
      f_equal. cbn [length]. lia.
    + rewrite bool_decide_false by done. rewrite decide_True by tauto. rewrite Hu, u32_succ.
      f_equal. cbn [length]. lia.
  - rewrite !decide_False by (intros Hx; intuition congruence). by rewrite !app_nil_r.
Qed.

Lemma fold_count_counts p lcs : forall cl l,
  counts cl l -> counts (foldl (fun cl lc => count_lchan p lc cl) cl lcs) (l ++ (pair p <$> lcs)).
Proof.
  induction lcs as [|lc lcs IH]; intros cl l Hc; cbn [foldl]; [by rewrite app_nil_r|].
  rewrite fmap_cons, cons_middle, app_assoc. by apply IH, count_lchan_counts.
Qed.

(** A loop whose every round counts [g x] counts them all. *)
Lemma loads_counts {A} (f : pchan_load -> A -> option pchan_load) (g : A -> list _) (xs : list A) :
  (forall x cl l, x ∈ xs -> counts cl l -> exists cl', f cl x = Some cl' /\ counts cl' (l ++ g x)) ->
  forall cl l, counts cl l -> exists cl', loads f cl xs = Some cl' /\ counts cl' (l ++ (xs ≫= g)).
Proof.
  induction xs as [|x xs IH]; intros Hf cl l Hc; cbn [loads].
  { exists cl. split; [done|]. cbn. by rewrite app_nil_r. }
  destruct (Hf x cl l) as (cl' & Hx & Hc'); [left|done|]. rewrite Hx. cbn [mbind option_bind].
  destruct (IH ltac:(intros; apply Hf; [by right|done]) cl' _ Hc') as (cl2 & Hl & Hc2).
  exists cl2. split; [done|]. rewrite bind_cons. by rewrite <- app_assoc in Hc2.
Qed.

(** Every time slot that runs has a channel combination of the table. *)
Definition pchans_known (net : gsm_network) : Prop :=
  Forall (fun bts => Forall (fun trx => Forall (fun ts =>
    is_Some (subslots_per_pchan pchan_val (ts_pchan ts))) (trx_ts trx)) (trx_list bts)) (bts_list net).

(** When every time slot has a channel combination of the table, the load of the network is
    computed, and it counts for each combination the logical channels on running time slots of
    running TRXs, and those of them that are not idle. *)
Theorem network_load_counts net :
  pchans_known net ->
  exists cl, network_chan_load pchan_val net = Some cl /\
    forall p, total (cl p) = u32 (count_pchan p (counted net)) /\
              used (cl p) = u32 (count_busy p (counted net)).
Proof.
  intros Hk. unfold network_chan_load, counted.
  destruct (loads_counts (bts_chan_load pchan_val) (fun bts => trx_list bts ≫= counted_trx)
              (bts_list net)) with (cl := fun _ : gsm_phys_chan_config => mk_load_counter 0 0)
    (l := @nil (gsm_phys_chan_config * gsm_lchan)) as (cl & Hl & Hc); [|done|by exists cl].
  intros bts cl l Hb Hcl. unfold bts_chan_load. revert cl l Hcl. apply loads_counts.
  intros trx cl l Ht Hcl. unfold trx_chan_load, counted_trx, running.
  destruct (nm_is_running (nm_state (trx_mo trx))); cbn [negb orb andb];
    [|exists cl; by rewrite app_nil_r].
  destruct (nm_is_running (nm_state (bb_transc_mo trx))); cbn [negb];
    [|exists cl; by rewrite app_nil_r].
  revert cl l Hcl. apply loads_counts. intros ts cl l Hts Hcl.
  unfold ts_chan_load, counted_ts, running.
  destruct (nm_is_running (nm_state (ts_mo ts))); cbn [negb]; [|exists cl; by rewrite app_nil_r].
  unfold pchans_known in Hk. rewrite Forall_forall in Hk. specialize (Hk bts Hb).
  rewrite Forall_forall in Hk. specialize (Hk trx Ht). rewrite Forall_forall in Hk.
  destruct (Hk ts Hts) as [n Hn]. rewrite Hn. cbn [mbind option_bind default from_option].
  eexists. split; [done|]. by apply fold_count_counts.
Qed.

End load.

Definition test_const : LibosmoConst :=
  {| NM_OPSTATE_NULL := 0xff; NM_OPSTATE_ENABLED := 2; NM_AVSTATE_OK := 0xff;
     NM_AVSTATE_POWER_OFF := 2; NM_STATE_UNLOCKED := 2; BS11_OBJ_CCLK := 2; BS11_OBJ_BBSIG := 0;
     BS11_OBJ_PA := 1; GSM_LAC_RESERVED_ALL_BTS := 0xfffe; GSM48_REJECT_ROAMING_NOT_ALLOWED := 13 |}.

(** The order of the enumeration in libosmocore. *)
Definition test_pchan_val (p : gsm_phys_chan_config) : Z :=
  match p with
  | GSM_PCHAN_NONE => 0 | GSM_PCHAN_CCCH => 1 | GSM_PCHAN_CCCH_SDCCH4 => 2 | GSM_PCHAN_TCH_F => 3
  | GSM_PCHAN_TCH_H => 4 | GSM_PCHAN_SDCCH8_SACCH8C => 5 | GSM_PCHAN_PDCH => 6
  | GSM_PCHAN_TCH_F_PDCH => 7 | GSM_PCHAN_UNKNOWN => 8
  end.

Definition up (mo : gsm_abis_mo) : gsm_abis_mo := mo <| nm_state := mk_gsm_nm_state 2 2 0xff |>.
(** A network of one BTS whose first time slot carries eight SDCCHs, one of them in use. *)
Definition test_net : gsm_network :=
  (@gsm_network_init test_const 262 42) <| num_bts := 1 |> <| bts_list := [
    test_bts <| trx_list ::= fmap (fun trx =>
      trx <| trx_mo ::= up |> <| bb_transc_mo ::= up |>
          <| trx_ts ::= alter (fun ts => ts <| ts_mo ::= up |>
               <| lchan ::= alter (fun lc => lc <| lc_state := LCHAN_S_ACTIVE |>) 3%nat |>) 0%nat |>) |>] |>.

Lemma network_load_counts_witness :
  exists cl, @network_chan_load test_const test_pchan_val test_net = Some cl /\
    total (cl GSM_PCHAN_SDCCH8_SACCH8C) = 8 /\ used (cl GSM_PCHAN_SDCCH8_SACCH8C) = 1.
Proof.
  assert (pchans_known test_pchan_val test_net) as Hk.
  { refine (bool_decide_unpack _ _). vm_compute. exact I. }
  destruct (@network_load_counts test_const test_pchan_val test_net Hk) as (cl & Hcl & Hc).
  exists cl. split; [exact Hcl|]. destruct (Hc GSM_PCHAN_SDCCH8_SACCH8C) as [Ht Hu].
  split.
  - exact (eq_trans Ht ltac:(vm_compute; reflexivity)).
  - exact (eq_trans Hu ltac:(vm_compute; reflexivity)).
Defined.

End RadioProps.
