(* ===== verification/Rsl.v ===== *)
(** The life of a logical channel as driven by RSL messages from the BTS and by its timers
    (libbsc/abis_rsl.c), with the request for a channel that starts it. *)

From S2P Require Import Prelude Radio ChanAlloc.

Module Rsl.
Export ChanAlloc.

(** What the code uses of the network, of the configuration and of libosmocore. *)
Record rsl_env : Type := mk_rsl_env {
  env_T3101 : Z;
  env_T3111 : Z;
  env_T3122 : Z;
  env_dtx : Z;
  env_policy : chreq_policy;
  env_neigh_arfcn : Z -> Z;          (* n-th ARFCN of the neighbour list *)
  env_ms_pwr_dbm : Z -> Z;           (* ms_pwr_dbm(band, .) *)
  env_ms_pwr_ctl_lvl : Z;            (* ms_pwr_ctl_lvl(band, ms_max_power) *)
  env_sizeof_ptr : Z;                (* of the machine *)
  GSM48_PDISC_RR : Z;                (* of GSM 04.08 *)
  GSM48_MT_RR_IMM_ASS : Z;
  GSM48_PM_SAME : Z
}.

(** Element type of [chan_rt] and [chan_rate]: names of GSM 08.58 numbers. *)
Inductive rsl_cmod_crt : Type := RSL_CMOD_CRT_SDCCH | RSL_CMOD_CRT_TCH_Bm | RSL_CMOD_CRT_TCH_Lm.
Inductive rsl_cmod_sp : Type :=
| RSL_CMOD_SP_SIGN  (* 0 *)
| RSL_CMOD_SP_GSM1 | RSL_CMOD_SP_GSM2 | RSL_CMOD_SP_GSM3
| RSL_CMOD_SP_NT_14k5 | RSL_CMOD_SP_NT_12k0 | RSL_CMOD_SP_NT_6k0.

Record rsl_ie_chan_mode : Type := mk_rsl_ie_chan_mode {
  dtx_dtu : Z;
  spd_ind : rsl_cmod_spd;
  chan_rt : rsl_cmod_crt;
  chan_rate : rsl_cmod_sp
}.

(** An immediate assignment reject (04.08 9.1.20), with its four pairs of a request reference and a wait indication. *)
Record gsm48_imm_ass_rej : Type := mk_gsm48_imm_ass_rej {
  iar_l2_plen : Z;
  iar_proto_discr : Z;
  iar_msg_type : Z;
  iar_page_mode : Z;
  iar_refs : list (list Z * Z)
}.

(** The messages that are only sent by this part. *)
Inductive rsl_cmd : Type :=
| CHAN_ACTIV (chan_nr act_type : Z) (cm : rsl_ie_chan_mode) (ma : list Z) (encr : option (list Z))
    (ho_ref : option Z) (bs_pwr ms_pwr ta : Z) (mr : option (list Z))
| MODE_MODIFY_REQ (chan_nr : Z) (cm : rsl_ie_chan_mode) (encr mr : option (list Z))
| ENCR_CMD (chan_nr : Z) (encr l3 : list Z)
| IMMEDIATE_ASSIGN_CMD (len : Z) (iar : gsm48_imm_ass_rej).  (* the first [len] octets of it *)

Inductive rsl_event : Type :=
| Radio_ev (e : radio_event)
| Cmd (c : rsl_cmd)
| NoChannel.  (* stats.chreq.no_channel *)

(** Code that changes a channel, and code that changes a BTS. *)
Abbreviation LM := (M gsm_lchan rsl_event).
Abbreviation BM := (M gsm_bts rsl_event).

Section rsl.
Context `{LibosmoConst} (env : rsl_env).

(** * Messages *)

(** Without the bits of the algorithm number beyond an octet. *)
Definition build_encr_info (lc : gsm_lchan) : list Z := (encr_alg_id lc .& 0xff) :: encr_key lc.

Definition RSL_ENC_ALG_A5 (x : Z) : Z := x + 1.

(** [None] is -EINVAL. *)
Definition channel_mode_from_lchan (lc : gsm_lchan) : option rsl_ie_chan_mode :=
  let dtx := if negb (env_dtx env =? 0) then 0x03 else 0x00 in
  rt ← match lc_type lc with
       | GSM_LCHAN_SDCCH => Some RSL_CMOD_CRT_SDCCH
       | GSM_LCHAN_TCH_F => Some RSL_CMOD_CRT_TCH_Bm
       | GSM_LCHAN_TCH_H => Some RSL_CMOD_CRT_TCH_Lm
       | GSM_LCHAN_NONE | GSM_LCHAN_UNKNOWN => None
       end;
  rate ← match tch_mode lc with
         | GSM48_CMODE_SIGN => Some RSL_CMOD_SP_SIGN
         | GSM48_CMODE_SPEECH_V1 => Some RSL_CMOD_SP_GSM1
         | GSM48_CMODE_SPEECH_EFR => Some RSL_CMOD_SP_GSM2
         | GSM48_CMODE_SPEECH_AMR => Some RSL_CMOD_SP_GSM3
         | GSM48_CMODE_DATA_14k5 => Some RSL_CMOD_SP_NT_14k5
         | GSM48_CMODE_DATA_12k0 => Some RSL_CMOD_SP_NT_12k0
         | GSM48_CMODE_DATA_6k0 => Some RSL_CMOD_SP_NT_6k0
         | GSM48_CMODE_DATA_3k6 | GSM48_CMODE_OTHER _ => None
         end;
  Some (mk_rsl_ie_chan_mode dtx (rsl_cmode lc) rt rate).

Definition encr_ie (lc : gsm_lchan) : option (list Z) :=
  if RSL_ENC_ALG_A5 0 <? encr_alg_id lc then Some (build_encr_info lc) else None.
Definition mr_ie (lc : gsm_lchan) : option (list Z) :=
  if bool_decide (tch_mode lc = GSM48_CMODE_SPEECH_AMR) then Some (mr_conf lc) else None.

Section lchan.
Context (ts : gsm_bts_trx_ts).

(** A part of chan_alloc.c, run here. *)
Definition radio {S A} (m : M S radio_event A) : M S rsl_event A := fun st =>
  match m st with
  | Some (a, st, ev) => Some (a, st, Radio_ev <$> ev)
  | None => None
  end.

(** [handover]: the activation type is one of the two for a handover. *)
Definition rsl_chan_activate_lchan (act_type : Z) (handover : bool) (ta ho_ref : Z) : LM Z :=
  lc ← gets id;
  match channel_mode_from_lchan lc with
  | None => mret (- EINVAL)
  | Some cm =>
      _ ← emit (Cmd (CHAN_ACTIV (gsm_lchan2chan_nr ts lc) act_type cm
             (if negb (hop_enabled ts =? 0) then hop_ma ts else [])
             (encr_ie lc) (if handover then Some ho_ref else None)
             (bs_power lc) (ms_power lc) ta (mr_ie lc)));
      mret 0
  end.

Definition rsl_chan_mode_modify_req : LM Z :=
  lc ← gets id;
  match channel_mode_from_lchan lc with
  | None => mret (- EINVAL)
  | Some cm =>
      _ ← emit (Cmd (MODE_MODIFY_REQ (gsm_lchan2chan_nr ts lc) cm (encr_ie lc) (mr_ie lc)));
      mret 0
  end.

Definition rsl_encryption_cmd (l3 : list Z) : LM Z :=
  lc ← gets id;
  _ ← emit (Cmd (ENCR_CMD (gsm_lchan2chan_nr ts lc) (build_encr_info lc) l3));
  mret 0.

(** * Timers; a timer that fires runs no more *)

Definition act_tmr_cb : LM unit :=
  _ ← radio (rsl_lchan_set_state LCHAN_S_NONE); radio lchan_free.
Definition deact_tmr_cb : LM unit :=
  _ ← radio (rsl_lchan_set_state LCHAN_S_NONE); radio lchan_free.

Definition act_timer_fires : LM unit :=
  t ← gets act_timer;
  match t with
  | None => mret tt
  | Some (cb, _) =>
      _ ← modify (fun lc => lc <| act_timer := None |>);
      match cb with
      | lchan_act_tmr_cb => act_tmr_cb
      | lchan_deact_tmr_cb => deact_tmr_cb
      end
  end.

Definition error_timeout_cb : LM unit :=
  lc ← gets id;
  if negb (bool_decide (lc_state lc = LCHAN_S_REL_ERR)) then mret tt
  else radio (rsl_lchan_set_state LCHAN_S_NONE).
Definition error_timer_fires : LM unit :=
  _ ← modify (fun lc => lc <| error_timer := None |>); error_timeout_cb.

Definition rsl_rf_chan_release (error : bool) : LM Z :=
  lc ← gets id;
  if bool_decide (lc_state lc = LCHAN_S_REL_ERR) then mret (-1)
  else
    let chan_nr := gsm_lchan2chan_nr ts lc in
    _ ← when error (modify (fun lc =>
          lc <| lc_state := LCHAN_S_REL_ERR |> <| error_timer := Some (env_T3111 env + 2) |>));
    _ ← modify (fun lc => lc <| act_timer := Some (lchan_deact_tmr_cb, 4) |>);
    _ ← emit (Radio_ev (EvRfChanRel chan_nr));
    mret 0.

Definition t3101_expired : LM Z := rsl_rf_chan_release true.
Definition t3111_expired : LM Z := rsl_rf_chan_release false.
Definition T3101_fires : LM Z :=
  _ ← modify (fun lc => lc <| T3101 := None |>); t3101_expired.
Definition T3111_fires : LM Z :=
  _ ← modify (fun lc => lc <| T3111 := None |>); t3111_expired.

(** * Messages of the dedicated channel *)

Definition rsl_rx_rf_chan_rel_ack : LM Z :=
  _ ← modify (fun lc => lc <| act_timer := None |>);
  _ ← modify (fun lc => lc <| T3111 := None |>);
  lc ← gets id;
  _ ← when (negb (bool_decide (lc_state lc = LCHAN_S_REL_ERR)))
        (modify (fun lc => lc <| lc_state := LCHAN_S_NONE |>));
  _ ← radio lchan_free;
  mret 0.

Definition rsl_send_imm_assignment : LM unit :=
  lc ← gets id;
  _ ← modify (fun lc => lc <| T3101 := Some (env_T3101 env) |>);
  emit (Radio_ev (EvImmAssign (gsm_lchan2chan_nr ts lc) (rqd_ta lc) (default [] (rqd_ref lc)))).

(** [ie_chan]: the first element is the channel number. *)
Definition rsl_rx_chan_act_ack (ie_chan : bool) : LM Z :=
  if negb ie_chan then mret (- EINVAL)
  else
    _ ← modify (fun lc => lc <| act_timer := None |>);
    _ ← radio (rsl_lchan_set_state LCHAN_S_ACTIVE);
    lc ← gets id;
    _ ← (if bool_decide (is_Some (rqd_ref lc)) then
           _ ← rsl_send_imm_assignment;
           modify (fun lc => lc <| rqd_ref := None |> <| rqd_ta := 0 |>)
         else mret tt);
    _ ← emit (Radio_ev (EvSignal S_LCHAN_ACTIVATE_ACK));
    mret 0.

(** [cause]: the cause element, if there is one, as "radio channel already active" or not. *)
Definition rsl_rx_chan_act_nack (ie_chan : bool) (cause : option bool) : LM Z :=
  _ ← modify (fun lc => lc <| act_timer := None |>);
  if negb ie_chan then mret (- EINVAL)
  else
    _ ← match cause with
        | Some true => _ ← rsl_rf_chan_release true; mret tt
        | _ => radio (rsl_lchan_set_state LCHAN_S_NONE)
        end;
    _ ← emit (Radio_ev (EvSignal S_LCHAN_ACTIVATE_NACK));
    _ ← radio lchan_free;
    mret 0.

Definition rsl_rx_conn_fail : LM Z := rsl_rf_chan_release true.

(** The elements of a MEASUREMENT RESULT. *)
Record meas_res_ies : Type := mk_meas_res_ies {
  ie_meas_res_nr : option Z;
  ie_uplink_meas : option (list Z);
  ie_bs_power : option Z;
  ie_ms_timing_offset : option Z;
  ie_l1_info : option (list Z);
  ie_l3_info : option (bool * list Z)  (* it is a measurement report; what follows its header *)
}.

(** The mandatory parts of the report. *)
Definition meas_uplink (val : list Z) (mr : gsm_meas_rep) : gsm_meas_rep :=
  if (3 <=? length val)%nat then
    let mr := if tst (rd val 0) 0x40 then mr <| mr_flags ::= fun f => f .| MEAS_REP_F_DL_DTX |>
              else mr in
    mr <| mr_ul := mk_gsm_meas_rep_unidir
      (mk_gsm_rx_lev_qual (rd val 0 .& 0x3f) ((rd val 2 .>> 3) .& 0x7))
      (mk_gsm_rx_lev_qual (rd val 1 .& 0x3f) (rd val 2 .& 0x7)) |>
  else mr.

Definition meas_l1_info (val : list Z) (mr : gsm_meas_rep) : gsm_meas_rep :=
  let mr := mr <| mr_flags ::= fun f => f .| MEAS_REP_F_MS_L1 |> in
  let mr := mr <| mr_ms_l1_pwr := env_ms_pwr_dbm env (rd val 0 .>> 3) |> in
  let mr := if tst (rd val 0) 0x04 then mr <| mr_flags ::= fun f => f .| MEAS_REP_F_FPC |> else mr in
  mr <| mr_ms_l1_ta := rd val 1 |>.

(** The slot of the report is taken before the state is looked at. *)
Definition rsl_rx_meas_res (ies : meas_res_ies) : LM Z :=
  lc ← gets id;
  let '(i, ring) := lchan_next_meas_rep (lc_meas lc) in
  _ ← modify (fun lc => lc <| lc_meas := ring |>);
  let write mr : LM unit :=
    modify (fun lc => lc <| lc_meas := mk_meas_ring (<[i := mr]> (meas_rep ring)) (meas_rep_idx ring) |>) in
  if negb (bool_decide (lc_state lc = LCHAN_S_ACTIVE)) then mret 0
  else
    match ie_meas_res_nr ies, ie_uplink_meas ies, ie_bs_power ies with
    | Some nr, Some up, Some pwr =>
        let mr := zero_meas_rep <| mr_nr := nr |> in
        let mr := meas_uplink up mr <| mr_bs_power := pwr |> in
        let mr := match ie_ms_timing_offset ies with
                  | Some o => mr <| mr_ms_timing_offset := o |>
                  | None => mr
                  end in
        let mr := match ie_l1_info ies with Some val => meas_l1_info val mr | None => mr end in
        let '(rc, mr) :=
          match ie_l3_info ies with
          | Some (is_rep, data) => gsm48_parse_meas_rep (env_neigh_arfcn env) mr is_rep data
          | None => (0, mr)
          end in
        _ ← write mr;
        if rc <? 0 then mret rc
        else _ ← emit (Radio_ev (EvSignal (S_LCHAN_MEAS_REP mr))); mret 0
    | _, _, _ => mret (- EIO)
    end.

(** * Messages of the radio link layer *)

(** [t200]: the cause is that T200 expired. *)
Definition rsl_rx_rll_err_ind (link_id : Z) (t200 : bool) : LM Z :=
  _ ← emit (Radio_ev (EvRllInd link_id false));
  if t200 then rsl_rf_chan_release true else mret 0.

Definition rsl_handle_release : LM unit :=
  lc ← gets id;
  if negb (bool_decide (lc_state lc = LCHAN_S_REL_REQ)) then mret tt
  else
    if existsb (fun s => negb (s =? LCHAN_SAPI_UNUSED)) (sapis lc) then mret tt
    else modify (fun lc => lc <| T3111 := Some (env_T3111 env) |>).

Definition set_sapi (link_id v : Z) : LM unit :=
  modify (fun lc => lc <| sapis ::= <[Z.to_nat (link_id .& 0x7) := v]> |>).

(** [l3]: a layer 3 message is on board. *)
Inductive rll_msg : Type :=
| RLL_DATA_IND (l3 : bool)
| RLL_EST_IND (l3 : bool)
| RLL_EST_CONF
| RLL_REL_IND
| RLL_REL_CONF
| RLL_ERROR_IND (t200 : bool)
| RLL_OTHER.

Definition rx_rll (link_id : Z) (m : rll_msg) : LM Z :=
  match m with
  | RLL_DATA_IND l3 =>
      _ ← when l3 (emit (Radio_ev (EvL3 link_id))); mret 0
  | RLL_EST_IND l3 =>
      _ ← set_sapi link_id LCHAN_SAPI_MS;
      _ ← modify (fun lc => lc <| T3101 := None |>);
      _ ← when l3 (emit (Radio_ev (EvL3 link_id)));
      mret 0
  | RLL_EST_CONF =>
      _ ← set_sapi link_id LCHAN_SAPI_NET;
      _ ← emit (Radio_ev (EvRllInd link_id false));
      mret 0
  | RLL_REL_IND =>
      _ ← set_sapi link_id LCHAN_SAPI_UNUSED;
      _ ← emit (Radio_ev (EvRllInd link_id true));
      _ ← rsl_handle_release;
      _ ← radio (rsl_lchan_rll_release ts link_id);
      mret 0
  | RLL_REL_CONF =>
      _ ← set_sapi link_id LCHAN_SAPI_UNUSED;
      _ ← rsl_handle_release;
      _ ← radio (rsl_lchan_rll_release ts link_id);
      mret 0
  | RLL_ERROR_IND t200 => rsl_rx_rll_err_ind link_id t200
  | RLL_OTHER => mret 0
  end.

(** The messages of [abis_rsl_rx_dchan] that concern one channel. *)
Inductive dchan_msg : Type :=
| CHAN_ACTIV_ACK (ie_chan : bool)
| CHAN_ACTIV_NACK (ie_chan : bool) (cause : option bool)
| CONN_FAIL
| MEAS_RES (ies : meas_res_ies)
| HANDO_DET
| RF_CHAN_REL_ACK
| PDCH_ACT_ACK
| PDCH_DEACT_ACK
| DCHAN_LOGGED     (* the messages that are only logged *)
| DCHAN_UNKNOWN.

Definition rx_dchan (m : dchan_msg) : LM Z :=
  match m with
  | CHAN_ACTIV_ACK ie => rsl_rx_chan_act_ack ie
  | CHAN_ACTIV_NACK ie cause => rsl_rx_chan_act_nack ie cause
  | CONN_FAIL => rsl_rx_conn_fail
  | MEAS_RES ies => rsl_rx_meas_res ies
  | HANDO_DET => _ ← emit (Radio_ev (EvSignal S_LCHAN_HANDOVER_DETECT)); mret 0
  | RF_CHAN_REL_ACK => rsl_rx_rf_chan_rel_ack
  | PDCH_ACT_ACK | PDCH_DEACT_ACK | DCHAN_LOGGED => mret 0
  | DCHAN_UNKNOWN => mret (- EINVAL)
  end.

End lchan.

(** * Dispatch: the channel number names the channel of TRX [i] *)

Definition on_rsl_lchan {A} (p : path) (m : gsm_bts_trx_ts -> LM A) : BM A := fun bts =>
  let '(i, j, _) := p in
  match get_ts bts i j, get_lchan bts p with
  | Some ts, Some lc =>
      match m ts lc with
      | Some (a, lc, ev) => Some (a, at_lchan p (fun _ => lc) bts, ev)
      | None => None
      end
  | _, _ => None
  end.

(** The name of the channel is put into the log first: a channel that does not exist is a null
    pointer that is followed. *)
Definition abis_rsl_rx_rll (i : nat) (chan_nr link_id : Z) (m : rll_msg) : BM Z :=
  match lchan_lookup chan_nr with
  | None => fault
  | Some (j, k) => on_rsl_lchan (i, j, k) (fun ts => rx_rll ts link_id m)
  end.

Definition set_pdch_mode (on : bool) (ts : gsm_bts_trx_ts) : gsm_bts_trx_ts :=
  ts <| ts_flags ::= fun f => if on then f .| TS_F_PDCH_MODE else Z.ldiff f TS_F_PDCH_MODE |>.

Definition abis_rsl_rx_dchan (i : nat) (chan_nr : Z) (m : dchan_msg) : BM Z :=
  match lchan_lookup chan_nr with
  | None => fault
  | Some (j, k) =>
      _ ← match m with
          | PDCH_ACT_ACK => modify (at_ts i j (set_pdch_mode true))
          | PDCH_DEACT_ACK => modify (at_ts i j (set_pdch_mode false))
          | _ => mret tt
          end;
      on_rsl_lchan (i, j, k) (fun ts => rx_dchan ts m)
  end.

(** * A mobile requests a channel *)

(** The message type that is filled in is that of an immediate assignment, the pseudo length stays 0, and the length that
    is passed on is [sizeof(iar)] of a pointer, not the length of the message. *)
Definition rsl_send_imm_ass_rej (num_req_refs : nat) (rqd_refs : list (list Z)) (wait_ind : Z)
    : BM unit :=
  let ref n := if (n <=? num_req_refs)%nat then default [] (rqd_refs !! (n - 1)%nat)
               else default [] (rqd_refs !! 0%nat) in
  let iar := mk_gsm48_imm_ass_rej 0 (GSM48_PDISC_RR env) (GSM48_MT_RR_IMM_ASS env) (GSM48_PM_SAME env)
               [(default [] (rqd_refs !! 0%nat), wait_ind); (ref 2%nat, wait_ind); (ref 3%nat, wait_ind);
                (ref 4%nat, wait_ind)] in
  emit (Cmd (IMMEDIATE_ASSIGN_CMD (u8 (env_sizeof_ptr env)) iar)).

(** The three elements of the message: tag of the request reference, its three octets, and the
    access delay with its tag. [ok]: memory for the request reference is available. [msg_lchan]: what the message's
    channel number was resolved to (abis_rsl_rx_cchan); the line that is logged when there is no channel follows that
    pointer. *)
Definition rsl_rx_chan_rqd (ok : bool) (msg_lchan : option (nat * nat)) (ie_ref_ok : bool) (rqd_ref_ : list Z)
    (ie_delay_ok : bool) (ta : Z) : BM Z :=
  if negb ie_ref_ok then mret (- EINVAL)
  else if negb ie_delay_ok then mret (- EINVAL)
  else
    let ra := rd rqd_ref_ 0 in
    let lctype := get_ctype_by_chreq (env_policy env) ra in
    let chreq_reason := get_reason_by_chreq ra (neci (env_policy env)) in
    let is_lu := bool_decide (chreq_reason = GSM_CHREQ_REASON_LOCATION_UPD) in
    lchan ← radio (lchan_alloc lctype is_lu);
    match lchan with
    | None =>
        _ ← (match msg_lchan with Some _ => mret tt | None => fault end);
        _ ← emit NoChannel;
        _ ← when (negb (env_T3122 env =? 0))
              (rsl_send_imm_ass_rej 1 [rqd_ref_] (env_T3122 env .& 0xff));
        mret (- ENOMEM)
    | Some p =>
        on_rsl_lchan p (fun ts =>
          _ ← radio (rsl_lchan_set_state LCHAN_S_ACT_REQ);
          if negb ok then
            _ ← modify (fun lc => lc <| rqd_ref := None |>);
            _ ← radio lchan_free;
            mret (- ENOMEM)
          else
            _ ← modify (fun lc => lc <| rqd_ref := Some rqd_ref_ |>);
            _ ← modify (fun lc => lc <| rqd_ta := ta |>);
            _ ← modify (fun lc => lc <| encr_alg_id := RSL_ENC_ALG_A5 0 |>);
            _ ← modify (fun lc => lc <| ms_power := u8 (env_ms_pwr_ctl_lvl env) |>);
            _ ← modify (fun lc => lc <| bs_power := 0 |>);
            _ ← modify (fun lc => lc <| rsl_cmode := RSL_CMOD_SPD_SIGN |>);
            _ ← modify (fun lc => lc <| tch_mode := GSM48_CMODE_SIGN |>);
            _ ← modify (fun lc => lc <| act_timer := Some (lchan_act_tmr_cb, 4) |>);
            _ ← rsl_chan_activate_lchan ts 0x00 false ta 0;
            mret 0)
    end.

(** CHANNEL REQUIRED, as abis_rsl_rx_cchan hands it on. *)
Definition abis_rsl_rx_chan_rqd (ok : bool) (chan_nr : Z) (ie_ref_ok : bool) (rqd_ref_ : list Z)
    (ie_delay_ok : bool) (ta : Z) : BM Z :=
  rsl_rx_chan_rqd ok (lchan_lookup chan_nr) ie_ref_ok rqd_ref_ ie_delay_ok ta.

(** * The link to a TRX is lost (bsc_init.c) *)

Definition drop_lchan : LM unit :=
  lc ← gets id;
  _ ← (if negb (bool_decide (lc_state lc = LCHAN_S_NONE)) then radio lchan_free else mret tt);
  radio lchan_reset.

Fixpoint drop_lchans (ps : list path) : BM unit :=
  match ps with
  | [] => mret tt
  | p :: ps => _ ← on_rsl_lchan p (fun _ => drop_lchan); drop_lchans ps
  end.
Definition trx_paths (i : nat) : list path :=
  seq 0 TRX_NR_TS ≫= fun j => (fun k => (i, j, k)) <$> seq 0 TS_MAX_LCHAN.
Definition inp_tei_dn (i : nat) : BM unit :=
  _ ← drop_lchans (trx_paths i); modify gsm_bts_mo_reset.

End rsl.
End Rsl.
