(* ===== verification/RslProps.v ===== *)
(** The life of a logical channel: which RSL messages crash the program, that the release procedure
    ends with the channel free, and what happens to a channel in error state. *)

From S2P Require Import Prelude Radio ChanAlloc AllocProps RadioProps Rsl.

Module RslProps.
Import Rsl AllocProps RadioProps.

(** ** Programs that never fault *)

Definition runs {S E A} (m : M S E A) : Prop := forall st, exists r, m st = Some r.

Lemma runs_ret {S E A} (a : A) : runs (mret a : M S E A).
Proof. intros st. by eexists. Qed.
Lemma runs_bind {S E A B} (m : M S E A) (k : A -> M S E B) :
  runs m -> (forall a, runs (k a)) -> runs (m ≫= k).
Proof.
  intros Hm Hk st. destruct (Hm st) as [[[a st'] ev] Ha]. destruct (Hk a st') as [[[b s] e] Hb].
  rewrite (run_bind _ _ _ _ _ _ Ha), Hb. by eexists.
Qed.
Lemma runs_gets {S E A} (f : S -> A) : runs (gets f : M S E A).
Proof. intros st. by eexists. Qed.
Lemma runs_modify {S E} (f : S -> S) : runs (modify f : M S E unit).
Proof. intros st. by eexists. Qed.
Lemma runs_emit {S E} (e : E) : runs (emit e : M S E unit).
Proof. intros st. by eexists. Qed.
Lemma runs_when {S E} b (m : M S E unit) : runs m -> runs (when b m).
Proof. intros Hm. destruct b; [done|apply runs_ret]. Qed.
Lemma runs_radio {S A} (m : M S radio_event A) : runs m -> runs (radio m).
Proof. intros Hm st. unfold radio. destruct (Hm st) as [[[a s] e] ->]. by eexists. Qed.

Create HintDb runs.
#[export] Hint Resolve runs_ret runs_gets runs_modify runs_emit runs_when runs_radio : runs.

(** Walk through a program. *)
Ltac runs_tac :=
  repeat first
    [ apply runs_bind; [|intros ?]
    | progress eauto 2 with runs
    | match goal with
      | |- runs (if ?b then _ else _) => destruct b
      | |- runs (match ?x with _ => _ end) => destruct x
      | |- runs (let '(_, _) := ?x in _) => destruct x
      end ].

Section rsl.
Context `{LibosmoConst} (env : rsl_env) (ts : gsm_bts_trx_ts).

Lemma runs_lchan_free : runs lchan_free.
Proof. intros st. rewrite lchan_free_spec. by eexists. Qed.
Lemma runs_release_request l r : runs (rsl_release_request ts l r).
Proof. unfold rsl_release_request. runs_tac. Qed.
Lemma runs_set_state s : runs (rsl_lchan_set_state s).
Proof. apply runs_modify. Qed.
Hint Resolve runs_lchan_free runs_release_request runs_set_state : runs.
Lemma runs_handle_release : runs (lchan_handle_release ts).
Proof.
  unfold lchan_handle_release, lchan_release_next_sapi, gsm48_send_rr_release, rsl_deact_sacch.
  runs_tac.
Qed.
Hint Resolve runs_handle_release : runs.
Lemma runs_rll_release l : runs (rsl_lchan_rll_release ts l).
Proof. unfold rsl_lchan_rll_release. runs_tac. Qed.
Lemma runs_rf_chan_release e : runs (rsl_rf_chan_release env ts e).
Proof. unfold rsl_rf_chan_release. runs_tac. Qed.
Hint Resolve runs_rll_release runs_rf_chan_release : runs.

Lemma runs_rx_dchan m : runs (rx_dchan env ts m).
Proof.
  destruct m; cbn [rx_dchan];
    unfold rsl_rx_chan_act_ack, rsl_rx_chan_act_nack, rsl_rx_conn_fail, rsl_rx_rf_chan_rel_ack,
      rsl_rx_meas_res, rsl_send_imm_assignment; runs_tac.
Qed.

Lemma runs_rx_rll l m : runs (rx_rll env ts l m).
Proof.
  destruct m; cbn [rx_rll]; unfold set_sapi, rsl_handle_release, rsl_rx_rll_err_ind; runs_tac.
Qed.

End rsl.

(** ** Channel numbers without a channel *)

Definition lookup_check (chan_nr : Z) : bool :=
  match lchan_lookup chan_nr with
  | None => (chan_nr <? 8) || (0x98 <=? chan_nr)
  | Some (j, k) => (8 <=? chan_nr) && (chan_nr <? 0x98) && (j <? 8)%nat && (k <? 8)%nat
  end.

Lemma lchan_lookup_range chan_nr :
  in_width 8 chan_nr ->
  match lchan_lookup chan_nr with
  | None => chan_nr < 8 \/ 0x98 <= chan_nr
  | Some (j, k) => 8 <= chan_nr < 0x98 /\ (j < TRX_NR_TS)%nat /\ (k < TS_MAX_LCHAN)%nat
  end.
Proof.
  intros Hw.
  assert (lookup_check chan_nr = true) as Hc.
  { apply (range_forall lookup_check 256); [by vm_compute|]. unfold in_width in Hw. lia. }
  unfold lookup_check in Hc. unfold TRX_NR_TS, TS_MAX_LCHAN.
  destruct (lchan_lookup chan_nr) as [[j k]|].
  - rewrite !andb_true_iff in Hc. destruct Hc as [[[H1 H2] H3] H4].
    apply Nat.ltb_lt in H3, H4. lia.
  - apply orb_true_iff in Hc. lia.
Qed.

(** Every position of a TRX has a channel. *)
Definition trx_full (bts : gsm_bts) (i : nat) : Prop :=
  forall j k, (j < TRX_NR_TS)%nat -> (k < TS_MAX_LCHAN)%nat ->
    is_Some (get_ts bts i j) /\ is_Some (get_lchan bts (i, j, k)).

Lemma trx_full_wf bts i trx :
  bts_wf bts -> trx_list bts !! i = Some trx -> trx_full bts i.
Proof.
  intros Hwf Hi j k Hj Hk. pose proof (wf_trx _ Hwf) as Hw. rewrite Forall_lookup in Hw.
  destruct (Hw _ _ Hi) as [Hl Ht]. destruct (lookup_lt_is_Some_2 (trx_ts trx) j) as [ts Hts]; [lia|].
  rewrite Forall_lookup in Ht. specialize (Ht _ _ Hts). unfold ts_wf in Ht.
  unfold get_lchan, get_ts. rewrite Hi. cbn [mbind option_bind]. rewrite Hts. split; [done|].
  apply lookup_lt_is_Some_2. lia.
Qed.

Section dispatch.
Context `{LibosmoConst} (env : rsl_env).

Lemma on_rsl_lchan_runs {A} bts p (m : gsm_bts_trx_ts -> LM A) :
  is_Some (get_ts bts p.1.1 p.1.2) -> is_Some (get_lchan bts p) -> (forall ts, runs (m ts)) ->
  exists r, on_rsl_lchan p m bts = Some r.
Proof.
  destruct p as [[i j] k]. cbn [fst snd]. intros [ts Hts] [lc Hlc] Hm. unfold on_rsl_lchan.
  rewrite Hts, Hlc. destruct (Hm ts lc) as [[[a l] e] ->]. by eexists.
Qed.

Lemma trx_full_flags bts i j b :
  trx_full bts i -> trx_full (at_ts i j (set_pdch_mode b) bts) i.
Proof.
  intros Hf j' k Hj Hk. destruct (Hf j' k Hj Hk) as [[ts Hts] [lc Hlc]].
  unfold get_lchan in *. rewrite get_ts_at_ts, Hts in *. cbn in Hlc.
  case_decide; cbn; [|by rewrite Hlc]. unfold set_pdch_mode. upd_norm. cbn [lchan]. by rewrite Hlc.
Qed.

(** an RSL message with a channel number below 0x08 or from 0x98 on is resolved to no channel,
    and the dispatchers for dedicated channel and link layer messages then follow a null pointer,
    whatever the message is; for every other channel number they run to the end. *)
Theorem rsl_null_pointer_iff bts i trx chan_nr :
  bts_wf bts -> trx_list bts !! i = Some trx -> in_width 8 chan_nr ->
  (forall m, abis_rsl_rx_dchan env i chan_nr m bts = None <-> chan_nr < 8 \/ 0x98 <= chan_nr) /\
  (forall l m, abis_rsl_rx_rll env i chan_nr l m bts = None <-> chan_nr < 8 \/ 0x98 <= chan_nr).
Proof.
  intros Hwf Hi Hw. pose proof (trx_full_wf _ _ _ Hwf Hi) as Hf.
  pose proof (lchan_lookup_range _ Hw) as Hl. unfold abis_rsl_rx_dchan, abis_rsl_rx_rll.
  destruct (lchan_lookup chan_nr) as [[j k]|]; [|done]. destruct Hl as (Hr & Hj & Hk).
  split.
  - intros m. split; [|lia]. intros Hn. exfalso.
    assert (exists st, (match m with
      | PDCH_ACT_ACK => modify (at_ts i j (set_pdch_mode true))
      | PDCH_DEACT_ACK => modify (at_ts i j (set_pdch_mode false))
      | _ => mret tt end : BM unit) bts = Some (tt, st, []) /\ trx_full st i) as (st & Hs & Hf').
    { destruct m; eexists; (split; [reflexivity|]); try done; by apply trx_full_flags. }
    rewrite (run_bind _ _ _ _ _ _ Hs), emits_nil in Hn.
    destruct (Hf' j k Hj Hk) as [Ht Hc].
    destruct (on_rsl_lchan_runs st (i, j, k) (fun ts => rx_dchan env ts m) Ht Hc) as [r Hr'].
    { intros ts. apply runs_rx_dchan. }
    congruence.
  - intros l m. split; [|lia]. intros Hn. exfalso. destruct (Hf j k Hj Hk) as [Ht Hc].
    destruct (on_rsl_lchan_runs bts (i, j, k) (fun ts => rx_rll env ts l m) Ht Hc) as [r Hr'].
    { intros ts. apply runs_rx_rll. }
    congruence.
Qed.

End dispatch.
(** ** The error state *)

Section error.
Context `{LibosmoConst} (env : rsl_env) (ts : gsm_bts_trx_ts).

(** A channel that is released because of an error is put into the error state, with a timer
    running for T3111 + 2 seconds that is meant to end it; but the acknowledgement of the release
    frees the channel at once: it can be allocated again while that timer still runs. *)
Theorem error_state_lost lc :
  lc_state lc <> LCHAN_S_REL_ERR ->
  exists lc1 ev1 lc2 ev2,
    rsl_rf_chan_release env ts true lc = Some (0, lc1, ev1) /\
    lc_state lc1 = LCHAN_S_REL_ERR /\ error_timer lc1 = Some (env_T3111 env + 2) /\
    rsl_rx_rf_chan_rel_ack lc1 = Some (0, lc2, ev2) /\
    lchan_is_free lc2 = true /\ error_timer lc2 = Some (env_T3111 env + 2).
Proof.
  intros Hs. set (lc1 := lc <| lc_state := LCHAN_S_REL_ERR |>
    <| error_timer := Some (env_T3111 env + 2) |> <| act_timer := Some (lchan_deact_tmr_cb, 4) |>).
  exists lc1, [Radio_ev (EvRfChanRel (gsm_lchan2chan_nr ts lc))].
  assert (exists lc2 ev2, rsl_rx_rf_chan_rel_ack lc1 = Some (0, lc2, ev2) /\
    lchan_is_free lc2 = true /\ error_timer lc2 = Some (env_T3111 env + 2)) as (lc2 & ev2 & Ha & Hf & Ht).
  { unfold rsl_rx_rf_chan_rel_ack. run_steps. unfold id.
    erewrite run_bind by (unfold radio; by rewrite lchan_free_spec). eexists _, _.
    split; [cbn; by rewrite app_nil_r|]. unfold lc1, forget_meas. by upd_norm. }
  exists lc2, ev2. split; [|split; [by unfold lc1; upd_norm|split; [by unfold lc1; upd_norm|done]]].
  unfold rsl_rf_chan_release. run_steps. unfold id. rewrite bool_decide_false by done.
  run_steps. done.
Qed.

End error.

(** ** A mobile requests a channel *)

Section chan_rqd.
Context `{LibosmoConst} (env : rsl_env).

Lemma on_rsl_lchan_eq {A} bts p (m : gsm_bts_trx_ts -> LM A) ts lc a lc' ev :
  get_ts bts p.1.1 p.1.2 = Some ts -> get_lchan bts p = Some lc -> m ts lc = Some (a, lc', ev) ->
  on_rsl_lchan p m bts = Some (a, at_lchan p (fun _ => lc') bts, ev).
Proof.
  destruct p as [[i j] k]. cbn [fst snd]. intros Ht Hl Hm. unfold on_rsl_lchan. by rewrite Ht, Hl, Hm.
Qed.

(** What a channel looks like while its activation is awaited. *)
Record awaits_activation (req : list Z) (ta : Z) (lc : gsm_lchan) : Prop := {
  aw_state : lc_state lc = LCHAN_S_ACT_REQ;
  aw_type : lc_type lc <> GSM_LCHAN_NONE;
  aw_timer : act_timer lc = Some (lchan_act_tmr_cb, 4);
  aw_ref : rqd_ref lc = Some req;
  aw_ta : rqd_ta lc = ta
}.

(** The commands among the events. *)
Definition commands (ev : list rsl_event) : list rsl_cmd :=
  ev ≫= fun e => match e with Cmd c => [c] | _ => [] end.

Lemma commands_radio (ev : list radio_event) : commands (Radio_ev <$> ev) = [].
Proof. unfold commands. by induction ev. Qed.

Lemma chan_activate_rqd ts lc ta :
  lc_type lc <> GSM_LCHAN_NONE -> lc_type lc <> GSM_LCHAN_UNKNOWN -> tch_mode lc = GSM48_CMODE_SIGN ->
  exists cm encr mr ma, rsl_chan_activate_lchan env ts 0 false ta 0 lc =
    Some (0, lc, [Cmd (CHAN_ACTIV (gsm_lchan2chan_nr ts lc) 0 cm ma encr None
                        (bs_power lc) (ms_power lc) ta mr)]).
Proof.
  intros Hn Hu Hm. unfold rsl_chan_activate_lchan. run_steps. unfold id, channel_mode_from_lchan.
  rewrite Hm. destruct (lc_type lc) eqn:Et; try done; by eexists _, _, _, _.
Qed.

Lemma kind_type_known pchan : kind_type pchan <> GSM_LCHAN_UNKNOWN.
Proof. by destruct pchan. Qed.

(** The BTS acknowledges the activation: the mobile is told, with its own reference. *)
Lemma activation_acknowledged ts req ta lc :
  awaits_activation req ta lc ->
  exists lc', rsl_rx_chan_act_ack env ts true lc =
    Some (0, lc', [Radio_ev (EvImmAssign (gsm_lchan2chan_nr ts lc) ta req);
                   Radio_ev (EvSignal S_LCHAN_ACTIVATE_ACK)]) /\
    lc_state lc' = LCHAN_S_ACTIVE /\ T3101 lc' = Some (env_T3101 env) /\
    act_timer lc' = None /\ rqd_ref lc' = None.
Proof.
  intros [Hs Ht Hm Hr Ha]. unfold rsl_rx_chan_act_ack, radio, rsl_lchan_set_state. cbn [negb].
  run_steps. erewrite run_bind by done. run_steps. unfold id.
  rewrite bool_decide_true by (upd_norm; by rewrite Hr).
  eexists. split.
  - unfold rsl_send_imm_assignment, modify, gets, emit, mbind, M_bind, id. upd_norm.
    cbn [rqd_ref rqd_ta]. rewrite Hr, Ha. reflexivity.
  - by upd_norm.
Qed.

(** What is sent when there is no channel: the first octets, as many as a pointer has, of an immediate assignment reject with
    the reference of the request four times, whose message type says immediate assignment. *)
Definition chan_rejected (req : list Z) : rsl_cmd :=
  let wait := env_T3122 env .& 0xff in
  IMMEDIATE_ASSIGN_CMD (u8 (env_sizeof_ptr env))
    (mk_gsm48_imm_ass_rej 0 (GSM48_PDISC_RR env) (GSM48_MT_RR_IMM_ASS env) (GSM48_PM_SAME env)
       [(req, wait); (req, wait); (req, wait); (req, wait)]).

(** C37: A channel request with its elements in place, on whatever channel number, is answered in one of three ways. Either one
    channel, free until now, is reserved for it and nothing else in the BTS changes: it awaits its
    activation under a timer, keeps the reference of the request, and its activation is commanded
    under the channel number of its own time slot and sub-slot; once the BTS acknowledges the activation the channel
    is active and an immediate assignment with that number, the timing advance and the reference of the
    request is sent, supervised by T3101. Or nothing that could serve the type of the request is to
    be had and the number of the request names a channel: the BTS does not change, and if a waiting time is configured the reject is
    sent, which the code gets wrong: it has the message type of an immediate assignment and is cut to the size of a
    pointer. Or nothing is to be had and the number names no channel: the program follows a null pointer to log it. *)
Theorem chan_rqd_answered bts chan_nr req ta :
  bts_wf bts ->
  let ty := get_ctype_by_chreq (env_policy env) (rd req 0) in
  let lu := bool_decide (get_reason_by_chreq (rd req 0) (neci (env_policy env)) =
                         GSM_CHREQ_REASON_LOCATION_UPD) in
  let nothing := forall pchan, pchan ∈ alloc_kinds ty lu -> ~ obtainable bts pchan in
  match abis_rsl_rx_chan_rqd env true chan_nr true req true ta bts with
  | Some (rc, bts', ev) =>
      (rc = 0 /\ exists p lc lc' ts cm encr mr ma,
        get_lchan bts p = Some lc /\ lchan_is_free lc = true /\
        get_lchan bts' p = Some lc' /\ get_ts bts' p.1.1 p.1.2 = Some ts /\ awaits_activation req ta lc' /\
        (forall p', p' <> p -> get_lchan bts' p' = get_lchan bts p') /\
        commands ev = [CHAN_ACTIV (gsm_lchan2chan_nr ts lc') 0 cm ma encr None 0
                         (u8 (env_ms_pwr_ctl_lvl env)) ta mr] /\
        exists lc2, rsl_rx_chan_act_ack env ts true lc' =
            Some (0, lc2, [Radio_ev (EvImmAssign (gsm_lchan2chan_nr ts lc') ta req);
                           Radio_ev (EvSignal S_LCHAN_ACTIVATE_ACK)]) /\
          lc_state lc2 = LCHAN_S_ACTIVE /\ T3101 lc2 = Some (env_T3101 env) /\
          act_timer lc2 = None /\ rqd_ref lc2 = None) \/
      (rc = - ENOMEM /\ bts' = bts /\ nothing /\ is_Some (lchan_lookup chan_nr) /\
        commands ev = if env_T3122 env =? 0 then [] else [chan_rejected req])
  | None => nothing /\ lchan_lookup chan_nr = None
  end.
Proof.
  intros Hwf ty lu nothing. unfold abis_rsl_rx_chan_rqd, rsl_rx_chan_rqd. cbn [negb]. fold ty lu.
  destruct (lchan_alloc_outcome bts ty lu Hwf) as (r & b & ev & Ha & Hwf' & Hr).
  erewrite run_bind by (unfold radio; by rewrite Ha). destruct r as [p|].
  - destruct Hr as (pchan & lc & Hin & Hlc & Hfree & Hlc' & Hother & trx & ts & Ht & Hts & _).
    assert (Hgts : get_ts b p.1.1 p.1.2 = Some ts) by (unfold get_ts; by rewrite Ht).
    set (lc0 := lchan_claim (kind_type pchan) lc) in *.
    match goal with |- context [on_rsl_lchan p ?m b] => set (body := m) end.
    assert (exists lc1 cm encr mr ma, body ts lc0 = Some (0, lc1, [Cmd (CHAN_ACTIV
        (gsm_lchan2chan_nr ts lc1) 0 cm ma encr None 0 (u8 (env_ms_pwr_ctl_lvl env)) ta mr)]) /\
      awaits_activation req ta lc1) as (lc1 & cm & encr & mr & ma & Hbody & Haw).
    { unfold body, radio, rsl_lchan_set_state. erewrite run_bind by done. cbn [negb]. run_steps.
      match goal with |- context [(rsl_chan_activate_lchan _ _ _ _ _ _ ≫= _) ?l] => set (lc1 := l) end.
      destruct (chan_activate_rqd ts lc1 ta) as (cm & encr & mr & ma & Hact).
      1-3: unfold lc1, lc0, lchan_claim; upd_norm; cbn [lc_type];
        first [apply kind_type_not_none | apply kind_type_known | done].
      exists lc1, cm, encr, mr, ma. rewrite (run_bind _ _ _ _ _ _ Hact). split; [done|].
      unfold lc1, lc0, lchan_claim. split; upd_norm; cbn [lc_type]; try done.
      apply kind_type_not_none. }
    rewrite (on_rsl_lchan_eq b p body ts lc0 _ _ _ Hgts Hlc' Hbody). cbn [emits].
    left. split; [done|]. set (ts' := ts <| lchan ::= alter (fun _ => lc1) p.2 |>).
    change (gsm_lchan2chan_nr ts lc1) with (gsm_lchan2chan_nr ts' lc1).
    exists p, lc, lc1, ts', cm, encr, mr, ma. split; [done|]. split; [done|].
    split; [by rewrite get_lchan_at_lchan, decide_True, Hlc' by done|].
    split; [destruct p as [[i j] k]; cbn [fst snd at_lchan] in *; by rewrite get_ts_at_ts, decide_True, Hgts by done|].
    split; [done|]. split; [|split; [|by apply activation_acknowledged]].
    + intros p' Hp'. rewrite get_lchan_at_lchan, decide_False by congruence. by apply Hother.
    + unfold commands. rewrite bind_app. fold (commands (Radio_ev <$> ev)).
      by rewrite commands_radio.
  - destruct Hr as (-> & _ & Hno). destruct (lchan_lookup chan_nr) as [q|]; [|by split].
    unfold rsl_send_imm_ass_rej.
    destruct (env_T3122 env =? 0); cbn [negb when]; cbn -[commands nothing]; right; (split; [done|]; split; [done|]; split; [done|]; split; [by eexists|]);
      unfold commands; rewrite !bind_app; fold (commands (Radio_ev <$> ev)); rewrite commands_radio; done.
Qed.

End chan_rqd.
End RslProps.
