(* ===== verification/RslRelease.v ===== *)
(** The release procedure of a logical channel against a BTS that answers what it is asked: every
    data link but SAPI 0 is released first, one after the other, then SAPI 0, and when T3111 has
    run off and the BTS has confirmed the release of the radio channel, the channel is free. *)

From S2P Require Import Prelude Radio ChanAlloc AllocProps Rsl RslProps.

Module RslRelease.
Import Rsl AllocProps RslProps.

(** ** A BTS that answers *)

Inductive bts_msg : Type :=
| BRll (link_id : Z) (m : rll_msg)
| BDchan (m : dchan_msg).

(** A release request is confirmed, the mobile answers RR CHANNEL RELEASE with a DISC on SAPI 0,
    and the release of the radio channel is acknowledged. *)
Definition replies (e : rsl_event) : list bts_msg :=
  match e with
  | Radio_ev (EvRelReq _ link _) => [BRll link RLL_REL_CONF]
  | Radio_ev (EvRRRelease _) => [BRll 0 RLL_REL_IND]
  | Radio_ev (EvRfChanRel _) => [BDchan RF_CHAN_REL_ACK]
  | _ => []
  end.

(** The links a release was requested for. *)
Definition released (ev : list rsl_event) : list Z :=
  ev ≫= fun e => match e with Radio_ev (EvRelReq _ link _) => [link] | _ => [] end.

Section release.
Context `{LibosmoConst} (env : rsl_env) (ts : gsm_bts_trx_ts).

Definition rx_bts (m : bts_msg) : LM Z :=
  match m with
  | BRll link m => rx_rll env ts link m
  | BDchan m => rx_dchan env ts m
  end.

(** The channel with the answers [q] on their way; T3111 expires when nothing is. [None]: out of
    fuel, or a fault. *)
Fixpoint release_run (fuel : nat) (lc : gsm_lchan) (q : list bts_msg)
    : option (gsm_lchan * list rsl_event) :=
  match fuel with
  | O => None
  | S fuel =>
      match q with
      | m :: q =>
          match rx_bts m lc with
          | Some (_, lc, ev) =>
              '(lc, tr) ← release_run fuel lc (q ++ (ev ≫= replies)); Some (lc, ev ++ tr)
          | None => None
          end
      | [] =>
          match T3111 lc with
          | None => Some (lc, [])
          | Some _ =>
              match T3111_fires env ts lc with
              | Some (_, lc, ev) =>
                  '(lc, tr) ← release_run fuel lc (ev ≫= replies); Some (lc, ev ++ tr)
              | None => None
              end
          end
      end
  end.

(** ** The channel during its release *)

(** The data links that are up, without SAPI 0. *)
Definition pending (l : list Z) : list nat :=
  filter (fun s => rd l s <> LCHAN_SAPI_UNUSED) (seq 1 7).

(** The link identifier of SAPI [s]. *)
Definition link_of (t : gsm_chan_t) (s : nat) : Z :=
  if is_tch t then Z.of_nat s .| 0x40 else Z.of_nat s.

Record releasing (sd : Z) (reason : Z) (lc : gsm_lchan) : Prop := {
  rel_state : lc_state lc = LCHAN_S_REL_REQ;
  rel_sd : sach_deact lc = sd;
  rel_reason : release_reason lc = reason;
  rel_len : length (sapis lc) = 8%nat
}.

(** The next request. *)
Definition next_request (sd reason : Z) (lc : gsm_lchan) : list radio_event :=
  let chan_nr := gsm_lchan2chan_nr ts lc in
  match pending (sapis lc) with
  | s :: _ => [EvRelReq chan_nr (link_of (lc_type lc) s) (u8 reason)]
  | [] => if sd =? 0 then [EvRelReq chan_nr 0 (u8 reason)]
          else [EvRRRelease chan_nr; EvDeactSacch chan_nr]
  end.

Lemma find_filter l :
  find (fun s => negb (rd l s =? LCHAN_SAPI_UNUSED)) (seq 1 7) = head (pending l).
Proof.
  unfold pending. generalize (seq 1 7). intros ss.
  induction ss as [|s ss IH]; cbn [find]; [done|]. rewrite filter_cons.
  destruct (Z.eqb_spec (rd l s) LCHAN_SAPI_UNUSED) as [Hs|Hs]; cbn [negb].
  - rewrite decide_False by tauto. done.
  - rewrite decide_True by done. done.
Qed.

Lemma pending_elem l s : s ∈ pending l -> (1 <= s < 8)%nat.
Proof. unfold pending. rewrite list_elem_of_filter, elem_of_seq. lia. Qed.

Lemma link_of_u8 t s :
  (s < 8)%nat -> (if is_tch t then u8 (Z.of_nat s) .| 0x40 else u8 (Z.of_nat s)) = link_of t s /\
  u8 (link_of t s) = link_of t s /\ Z.to_nat (link_of t s .& 0x7) = s.
Proof.
  intros Hs. unfold link_of. do 8 (destruct s as [|s]; [by destruct (is_tch t)|]). lia.
Qed.

Lemma set_state_same lc s : lc_state lc = s -> lc <| lc_state := s |> = lc.
Proof. intros <-. by destruct lc. Qed.

Lemma handle_release_spec sd reason lc :
  releasing sd reason lc -> lchan_handle_release ts lc = Some (tt, lc, next_request sd reason lc).
Proof.
  intros [Hs Hd Hr Hl]. unfold lchan_handle_release, next_request.
  assert (lchan_release_next_sapi ts lc =
    match pending (sapis lc) with
    | s :: _ => Some (0, lc, [EvRelReq (gsm_lchan2chan_nr ts lc) (link_of (lc_type lc) s) (u8 reason)])
    | [] => Some (1, lc, [])
    end) as Hn.
  { unfold lchan_release_next_sapi. run_steps. unfold id. rewrite Hl. cbn [Nat.sub].
    rewrite find_filter. destruct (pending (sapis lc)) as [|s rest] eqn:Ep; cbn [head]; [done|].
    pose proof (pending_elem (sapis lc) s ltac:(rewrite Ep; left)) as Hse.
    destruct (link_of_u8 (lc_type lc) s ltac:(lia)) as (H1 & H2 & _).
    unfold rsl_release_request. rewrite H1.
    erewrite run_bind; [|run_steps; unfold emit; done]. by rewrite H2, Hr. }
  destruct (pending (sapis lc)) as [|s rest].
  - erewrite run_bind by exact Hn. cbn [Z.eqb]. run_steps. unfold id. rewrite Hd.
    destruct (sd =? 0); cbn [negb].
    + unfold rsl_release_request. erewrite run_bind; [|run_steps; unfold emit; done].
      unfold rsl_lchan_set_state, modify. rewrite set_state_same by done. by rewrite Hr.
    + done.
  - erewrite run_bind by exact Hn. done.
Qed.

(** [rsl_handle_release] starts T3111, or leaves it. *)
Lemma handle_T3111_spec sd reason lc :
  releasing sd reason lc -> exists t, rsl_handle_release env lc = Some (tt, lc <| T3111 := t |>, []).
Proof.
  intros [Hs Hd Hr Hl]. unfold rsl_handle_release. run_steps. unfold id. rewrite Hs. cbn [negb].
  rewrite bool_decide_true by done. cbn [negb]. destruct (existsb _ _).
  - exists (T3111 lc). by destruct lc.
  - by eexists.
Qed.

Lemma filter_ne (s : nat) (l : list nat) : s ∉ l -> filter (fun x => x <> s) l = l.
Proof.
  induction l as [|x l IH]; [done|]. intros [Hx Hl]%not_elem_of_cons.
  rewrite filter_cons_True by congruence. by rewrite IH.
Qed.

Lemma pending_insert l s rest :
  length l = 8%nat -> pending l = s :: rest -> pending (<[s := LCHAN_SAPI_UNUSED]> l) = rest.
Proof.
  intros Hl Hp. pose proof (pending_elem l s ltac:(rewrite Hp; left)) as Hs.
  assert (pending (<[s := LCHAN_SAPI_UNUSED]> l) = filter (fun x => x <> s) (pending l)) as ->.
  { unfold pending. rewrite list_filter_filter. apply list_filter_iff. intros x. unfold rd.
    destruct (decide (x = s)) as [->|Hx].
    - rewrite list_lookup_insert_eq by lia. cbn. tauto.
    - rewrite list_lookup_insert_ne by done. tauto. }
  assert (NoDup (pending l)) as Hnd by (apply NoDup_filter, NoDup_seq).
  rewrite Hp in *. apply NoDup_cons in Hnd as [Hn _]. rewrite filter_cons_False by tauto.
  by apply filter_ne.
Qed.

Lemma releasing_T3111 sd reason lc t :
  releasing sd reason lc -> releasing sd reason (lc <| T3111 := t |>).
Proof. intros [Hs Hd Hr Hl]. by split; upd_norm. Qed.

Lemma releasing_sapi sd reason lc s v :
  releasing sd reason lc -> releasing sd reason (lc <| sapis ::= <[s := v]> |>).
Proof. intros [Hs Hd Hr Hl]. split; upd_norm; cbn [sapis]; rewrite ?length_insert; done. Qed.

Lemma next_request_fields sd reason lc lc' :
  sapis lc' = sapis lc -> lc_type lc' = lc_type lc -> lc_nr lc' = lc_nr lc ->
  next_request sd reason lc' = next_request sd reason lc.
Proof. intros H1 H2 H3. unfold next_request, gsm_lchan2chan_nr. by rewrite H1, H2, H3. Qed.

(** A data link other than SAPI 0 is confirmed: the next request follows. *)
Lemma rel_conf_spec sd reason lc s rest :
  releasing sd reason lc -> pending (sapis lc) = s :: rest ->
  exists t, let lc1 := lc <| sapis ::= <[s := LCHAN_SAPI_UNUSED]> |> <| T3111 := t |> in
    rx_bts (BRll (link_of (lc_type lc) s) RLL_REL_CONF) lc =
      Some (0, lc1, Radio_ev <$> next_request sd reason lc1) /\
    releasing sd reason lc1 /\ pending (sapis lc1) = rest.
Proof.
  intros Hr Hp. pose proof (pending_elem _ s ltac:(rewrite Hp; left)) as Hs.
  destruct (link_of_u8 (lc_type lc) s ltac:(lia)) as (_ & _ & Hlink).
  set (lc0 := lc <| sapis ::= <[s := LCHAN_SAPI_UNUSED]> |>).
  assert (Hr0 : releasing sd reason lc0) by (by apply releasing_sapi).
  destruct (handle_T3111_spec sd reason lc0 Hr0) as [t Ht]. exists t. cbn zeta.
  assert (Hr1 : releasing sd reason (lc0 <| T3111 := t |>)) by (by apply releasing_T3111).
  split; [|split; [done|]].
  - cbn [rx_bts rx_rll]. unfold set_sapi. run_steps. rewrite Hlink. fold lc0.
    erewrite run_bind by exact Ht. rewrite emits_nil.
    assert (rsl_lchan_rll_release ts (link_of (lc_type lc) s) (lc0 <| T3111 := t |>) =
      Some (0, lc0 <| T3111 := t |>, next_request sd reason (lc0 <| T3111 := t |>))) as Hrel.
    { unfold rsl_lchan_rll_release. run_steps. unfold id. rewrite (rel_state _ _ _ Hr1).
      rewrite bool_decide_true by done. cbn [negb].
      assert ((link_of (lc_type lc) s .& 0x7 =? 0) = false) as -> by (apply Z.eqb_neq; lia).
      cbn [negb when]. erewrite run_bind by (by apply handle_release_spec).
      cbn. by rewrite app_nil_r. }
    erewrite run_bind by (unfold radio; by rewrite Hrel). cbn. by rewrite app_nil_r.
  - unfold lc0. upd_norm. cbn [sapis]. apply pending_insert; [by destruct Hr|done].
Qed.

(** The last answer, for SAPI 0: T3111 is started. *)
Lemma rel_last_spec sd reason lc m :
  releasing sd reason lc -> pending (sapis lc) = [] -> m = RLL_REL_CONF \/ m = RLL_REL_IND ->
  exists ev, rx_bts (BRll 0 m) lc =
    Some (0, lc <| sapis ::= <[0%nat := LCHAN_SAPI_UNUSED]> |> <| T3111 := Some (env_T3111 env) |>, ev) /\
    (ev ≫= replies) = [] /\ released ev = [].
Proof.
  intros Hr Hp Hm. set (lc0 := lc <| sapis ::= <[0%nat := LCHAN_SAPI_UNUSED]> |>).
  assert (Hr0 : releasing sd reason lc0) by (by apply releasing_sapi).
  assert (Ht : rsl_handle_release env lc0 = Some (tt, lc0 <| T3111 := Some (env_T3111 env) |>, [])).
  { unfold rsl_handle_release. run_steps. unfold id. rewrite (rel_state _ _ _ Hr0).
    rewrite bool_decide_true by done. cbn [negb].
    assert (existsb (fun s => negb (s =? LCHAN_SAPI_UNUSED)) (sapis lc0) = false) as ->; [|done].
    unfold lc0. upd_norm. cbn [sapis]. pose proof (rel_len _ _ _ Hr) as Hl.
    apply Bool.not_true_is_false. rewrite existsb_exists. intros (x & Hin & Hx).
    apply list_elem_of_In, list_elem_of_lookup_1 in Hin as [i Hi].
    destruct i as [|i]; [rewrite list_lookup_insert_eq in Hi by lia; by injection Hi as <-|].
    rewrite list_lookup_insert_ne in Hi by done.
    assert (S i ∈ pending (sapis lc)) as Hin; [|by rewrite Hp in Hin; apply not_elem_of_nil in Hin].
    unfold pending. apply list_elem_of_filter. split.
    - unfold rd. rewrite Hi. cbn. apply negb_true_iff, Z.eqb_neq in Hx. done.
    - apply lookup_lt_Some in Hi. apply elem_of_seq. lia. }
  assert (Hrel : rsl_lchan_rll_release ts 0 (lc0 <| T3111 := Some (env_T3111 env) |>) =
    Some (0, lc0 <| T3111 := Some (env_T3111 env) |>, [])).
  { unfold rsl_lchan_rll_release. run_steps. unfold id. upd_norm. cbn [lc_state].
    change (lc_state _) with (lc_state lc0). rewrite (rel_state _ _ _ Hr0).
    rewrite bool_decide_true by done. done. }
  destruct Hm as [->| ->]; cbn [rx_bts rx_rll]; unfold set_sapi; run_steps;
    change (Z.to_nat (0 .& 0x7)) with 0%nat; fold lc0;
    (erewrite run_bind by exact Ht); rewrite ?emits_nil;
    (erewrite run_bind by (unfold radio; by rewrite Hrel)); by eexists.
Qed.

(** ** The run *)

(** The channel is free and none of its timers runs but the error timer. *)
Definition released_lchan (lc : gsm_lchan) : Prop :=
  lchan_is_free lc = true /\ lc_conn lc = None /\ T3101 lc = None /\ T3111 lc = None /\
  act_timer lc = None.

Lemma release_run_msg fuel lc m q r lc1 ev lc2 tr :
  rx_bts m lc = Some (r, lc1, ev) -> release_run fuel lc1 (q ++ (ev ≫= replies)) = Some (lc2, tr) ->
  release_run (S fuel) lc (m :: q) = Some (lc2, ev ++ tr).
Proof. intros Hm Hr. cbn [release_run]. by rewrite Hm, Hr. Qed.

Lemma release_run_T3111 fuel lc t r lc1 ev lc2 tr :
  T3111 lc = Some t -> T3111_fires env ts lc = Some (r, lc1, ev) ->
  release_run fuel lc1 (ev ≫= replies) = Some (lc2, tr) ->
  release_run (S fuel) lc [] = Some (lc2, ev ++ tr).
Proof. intros Ht Hf Hr. cbn [release_run]. by rewrite Ht, Hf, Hr. Qed.

Lemma release_run_end fuel lc : T3111 lc = None -> release_run (S fuel) lc [] = Some (lc, []).
Proof. intros Ht. cbn [release_run]. by rewrite Ht. Qed.

Lemma T3111_fires_spec lc :
  lc_state lc = LCHAN_S_REL_REQ ->
  T3111_fires env ts lc =
    Some (0, lc <| T3111 := None |> <| act_timer := Some (lchan_deact_tmr_cb, 4) |>,
          [Radio_ev (EvRfChanRel (gsm_lchan2chan_nr ts lc))]).
Proof.
  intros Hs. unfold T3111_fires, t3111_expired. run_steps. unfold rsl_rf_chan_release. run_steps.
  unfold id. assert (lc_state (lc <| T3111 := None |>) = LCHAN_S_REL_REQ) as -> by by upd_norm.
  rewrite bool_decide_false by done. run_steps. done.
Qed.

Lemma rel_ack_spec lc :
  lc_state lc <> LCHAN_S_REL_ERR ->
  exists lc1 ev, rx_bts (BDchan RF_CHAN_REL_ACK) lc = Some (0, lc1, ev) /\ released_lchan lc1 /\
    (ev ≫= replies) = [] /\ released ev = [].
Proof.
  intros Hs. cbn [rx_bts rx_dchan]. unfold rsl_rx_rf_chan_rel_ack. run_steps. unfold id.
  erewrite run_bind by (unfold radio; by rewrite lchan_free_spec). eexists _, _.
  split; [cbn; by rewrite app_nil_r|].
  split; [|by case_bool_decide]. unfold released_lchan, forget_meas.
  by destruct lc as [? ? ? ? st ? ? ? ? ? ? ? ? ? ? ? ? ? ? ? ref conn]; upd_norm;
    destruct (negb _); upd_norm.
Qed.

(** From the last answer on. *)
Lemma release_tail sd reason lc m fuel :
  releasing sd reason lc -> pending (sapis lc) = [] -> m = RLL_REL_CONF \/ m = RLL_REL_IND ->
  (4 <= fuel)%nat ->
  exists lc2 tr, release_run fuel lc [BRll 0 m] = Some (lc2, tr) /\ released_lchan lc2 /\
    released tr = [].
Proof.
  intros Hr Hp Hm Hf. destruct fuel as [|[|[|[|fuel]]]]; [lia..|].
  destruct (rel_last_spec sd reason lc m Hr Hp Hm) as (ev & Hrx & Hrep & Hrel).
  set (lc1 := lc <| sapis ::= <[0%nat := LCHAN_SAPI_UNUSED]> |>) in *.
  assert (Hs1 : lc_state (lc1 <| T3111 := Some (env_T3111 env) |>) = LCHAN_S_REL_REQ).
  { upd_norm. cbn [lc_state]. unfold lc1. upd_norm. by destruct Hr. }
  pose proof (T3111_fires_spec _ Hs1) as Hfire. set (lc2 := _ <| act_timer := _ |>) in Hfire.
  destruct (rel_ack_spec lc2) as (lc3 & ev3 & Hack & Hdone & Hrep3 & Hrel3).
  { unfold lc2. revert Hs1. upd_norm. cbn [lc_state]. by intros ->. }
  eexists lc3, _. split; [|split; [done|]].
  - eapply release_run_msg; [exact Hrx|]. rewrite Hrep. cbn [app].
    eapply release_run_T3111; [by upd_norm|exact Hfire|]. cbn [mbind list_bind replies app].
    eapply release_run_msg; [exact Hack|]. rewrite Hrep3. cbn [app].
    apply release_run_end. by destruct Hdone as (_ & _ & _ & H3 & _).
  - unfold released in *. rewrite !bind_app, Hrel, Hrel3. done.
Qed.

(** The requests that are due when the links [l] are up. *)
Definition requests (sd : Z) (t : gsm_chan_t) (l : list nat) : list Z :=
  map (link_of t) l ++ (if sd =? 0 then [0] else []).

Lemma released_next sd reason lc :
  released (Radio_ev <$> next_request sd reason lc) =
  match pending (sapis lc) with
  | s :: _ => [link_of (lc_type lc) s]
  | [] => if sd =? 0 then [0] else []
  end.
Proof. unfold next_request. destruct (pending (sapis lc)); [by destruct (sd =? 0)|done]. Qed.

Lemma release_loop sd reason l : forall lc fuel,
  releasing sd reason lc -> pending (sapis lc) = l -> (length l + 4 <= fuel)%nat ->
  let ev := (Radio_ev <$> next_request sd reason lc : list rsl_event) in
  exists lc2 tr, release_run fuel lc (ev ≫= replies) = Some (lc2, tr) /\ released_lchan lc2 /\
    released (ev ++ tr) = requests sd (lc_type lc) l.
Proof.
  induction l as [|s l IH]; intros lc fuel Hr Hp Hf ev.
  - assert (exists m, (ev ≫= replies) = [BRll 0 m] /\ (m = RLL_REL_CONF \/ m = RLL_REL_IND))
      as (m & Hq & Hm).
    { unfold ev, next_request. rewrite Hp. destruct (sd =? 0); eexists; (split; [done|]); tauto. }
    destruct (release_tail sd reason lc m fuel Hr Hp Hm) as (lc2 & tr & Hrun & Hd & Hrel).
    { cbn [length] in Hf. lia. }
    exists lc2, tr. rewrite Hq. split; [done|]. split; [done|].
    unfold released in *. rewrite bind_app, Hrel, app_nil_r.
    pose proof (released_next sd reason lc) as Hn. rewrite Hp in Hn. exact Hn.
  - cbn [length] in Hf. destruct fuel as [|fuel]; [lia|].
    destruct (rel_conf_spec sd reason lc s l Hr Hp) as (t & Hrx & Hr1 & Hp1).
    set (lc1 := lc <| sapis ::= <[s := LCHAN_SAPI_UNUSED]> |> <| T3111 := t |>) in *.
    destruct (IH lc1 fuel Hr1 Hp1 ltac:(lia)) as (lc2 & tr & Hrun & Hd & Hrel).
    assert (ev = [Radio_ev (EvRelReq (gsm_lchan2chan_nr ts lc) (link_of (lc_type lc) s) (u8 reason))])
      as Hev by (unfold ev, next_request; by rewrite Hp).
    rewrite Hev. cbn [mbind list_bind replies app].
    eexists lc2, _. split; [eapply release_run_msg; [exact Hrx|exact Hrun]|]. split; [done|].
    unfold released in *. cbn [mbind list_bind app]. rewrite Hrel. done.
Qed.

(** C5: whatever its state and its data links, a channel that is released against a BTS that
    answers ends free, without connection and without running timer; and it takes the links in
    order, each once: SAPIs 1 to 7 that are up, then SAPI 0, unless the mobile is told to release
    by RR CHANNEL RELEASE, when it takes down SAPI 0 itself. *)
Theorem release_completes sd reason lc :
  length (sapis lc) = 8%nat ->
  exists lc1 ev lc2 tr,
    lchan_release ts sd reason lc = Some (1, lc1, ev) /\
    release_run 12 lc1 ((Radio_ev <$> ev) ≫= replies) = Some (lc2, tr) /\ released_lchan lc2 /\
    released ((Radio_ev <$> ev) ++ tr) = requests sd (lc_type lc) (pending (sapis lc)).
Proof.
  intros Hl. unfold lchan_release, rsl_lchan_set_state. run_steps.
  set (lc1 := lc <| lc_state := LCHAN_S_REL_REQ |> <| lc_conn := None |>
                 <| release_reason := reason |> <| sach_deact := sd |>).
  assert (Hr : releasing sd reason lc1) by (split; unfold lc1; by upd_norm).
  erewrite run_bind by (by apply handle_release_spec).
  destruct (release_loop sd reason (pending (sapis lc)) lc1 12 Hr) as (lc2 & tr & Hrun & Hd & Hrel).
  - unfold lc1. by upd_norm.
  - assert (length (pending (sapis lc)) <= 7)%nat; [|lia].
    unfold pending. etransitivity; [apply length_filter|]. by rewrite length_seq.
  - exists lc1, (next_request sd reason lc1), lc2, tr. split; [cbn; by rewrite app_nil_r|].
    split; [exact Hrun|]. split; [exact Hd|]. rewrite Hrel. unfold lc1. by upd_norm.
Qed.

End release.
End RslRelease.
