(* ===== verification/RslRuns.v ===== *)
(** The theorems on channel allocation and release at concrete cells. *)

From S2P Require Import Prelude Radio ChanAlloc AllocProps RadioProps Rsl RslProps RslRelease.

Module RslRuns.
Import Rsl AllocProps RadioProps RslProps RslRelease.

#[local] Existing Instance test_const.

(** A fresh BTS: SDCCH/4 on the first time slot, the rest not configured. *)
Definition test_cell : gsm_bts := default zero_bts (gsm_bts_alloc true true).

Lemma test_cell_wf : bts_wf test_cell.
Proof. apply (gsm_bts_alloc_wf true true). reflexivity. Qed.

Definition result {S E A} (r : option (A * S * list E)) : option A := option_map (fun x => fst (fst x)) r.

Lemma lchan_alloc_spec_witness :
  bts_wf test_cell /\
  exists bts' ev, lchan_alloc GSM_LCHAN_TCH_F false test_cell = Some (Some (0, 1, 0)%nat, bts', ev) /\
    bts_wf bts' /\ handed_out test_cell bts' [GSM_PCHAN_TCH_F] (0, 1, 0)%nat.
Proof.
  split; [exact test_cell_wf|].
  destruct (lchan_alloc_spec test_cell GSM_LCHAN_TCH_F false test_cell_wf)
    as (r & bts' & ev & Ha & Hw & Hr).
  assert (result (lchan_alloc GSM_LCHAN_TCH_F false test_cell) = Some (Some (0, 1, 0)%nat)) as Hres
    by (vm_compute; reflexivity).
  rewrite Ha in Hres. injection Hres as ->. destruct Hr as [Hr _]. by exists bts', ev.
Defined.

Definition test_env : rsl_env :=
  mk_rsl_env 10 3 10 0 (gsm_net_update_ctype (mk_chreq_policy 0 0 ctype_by_chreq))
    (fun n => n) (fun x => x) 5 8 6 0x3f 0.

Lemma rsl_null_pointer_iff_witness :
  abis_rsl_rx_dchan test_env 0 0x00 RF_CHAN_REL_ACK test_cell = None /\
  abis_rsl_rx_dchan test_env 0 0x20 RF_CHAN_REL_ACK test_cell <> None.
Proof.
  assert (exists trx, trx_list test_cell !! 0%nat = Some trx) as [trx Htrx].
  { vm_compute. eexists. reflexivity. }
  split.
  - apply (proj1 (rsl_null_pointer_iff test_env test_cell 0 trx 0x00 test_cell_wf Htrx
      ltac:(vm_bounds)) RF_CHAN_REL_ACK). left. lia.
  - intros Hn. apply (proj1 (rsl_null_pointer_iff test_env test_cell 0 trx 0x20 test_cell_wf Htrx
      ltac:(vm_bounds)) RF_CHAN_REL_ACK) in Hn. lia.
Defined.

(** A TCH/F with SAPIs 0 and 3 up. *)
Definition test_lchan : gsm_lchan :=
  zero_lchan <| lc_type := GSM_LCHAN_TCH_F |> <| lc_state := LCHAN_S_ACTIVE |>
    <| sapis := [1; 0; 0; 2; 0; 0; 0; 0] |> <| lc_conn := Some 7%nat |>.
Definition test_ts : gsm_bts_trx_ts := zero_ts <| ts_pchan := GSM_PCHAN_TCH_F |> <| ts_nr := 2 |>.

Lemma release_completes_witness :
  exists lc1 ev lc2 tr,
    lchan_release test_ts 0 0 test_lchan = Some (1, lc1, ev) /\
    release_run test_env test_ts 12 lc1 ((Radio_ev <$> ev) ≫= replies) = Some (lc2, tr) /\
    released_lchan lc2 /\ released ((Radio_ev <$> ev) ++ tr) = [0x43; 0].
Proof. exact (release_completes test_env test_ts 0 0 test_lchan eq_refl). Defined.

Lemma error_state_lost_witness :
  exists lc1 ev1 lc2 ev2,
    rsl_rf_chan_release test_env test_ts true test_lchan = Some (0, lc1, ev1) /\
    rsl_rx_rf_chan_rel_ack lc1 = Some (0, lc2, ev2) /\
    lchan_is_free lc2 = true /\ error_timer lc2 = Some 5.
Proof.
  destruct (error_state_lost test_env test_ts test_lchan ltac:(discriminate))
    as (lc1 & ev1 & lc2 & ev2 & H1 & _ & _ & H2 & H3 & H4).
  exists lc1, ev1, lc2, ev2. split; [exact H1|]. split; [exact H2|]. split; [exact H3|exact H4].
Defined.

Lemma chan_rqd_answered_witness :
  exists bts' ev p lc', abis_rsl_rx_chan_rqd test_env true 0x88 true [0x00; 1; 2] true 3 test_cell =
      Some (0, bts', ev) /\
    get_lchan bts' p = Some lc' /\ awaits_activation [0x00; 1; 2] 3 lc'.
Proof.
  pose proof (chan_rqd_answered test_env test_cell 0x88 [0x00; 1; 2] 3 test_cell_wf) as H.
  assert (result (abis_rsl_rx_chan_rqd test_env true 0x88 true [0x00; 1; 2] true 3 test_cell) = Some 0)
    as Hc by (vm_compute; reflexivity).
  revert H Hc. destruct (abis_rsl_rx_chan_rqd test_env true 0x88 true [0x00; 1; 2] true 3 test_cell)
    as [[[rc bts'] ev]|]; [|discriminate].
  intros [(-> & p & lc & lc' & ts & cm & encr & mr & ma & _ & _ & Hl & _ & Ha & _)|(-> & _)] Hc; [|discriminate].
  exists bts', ev, p, lc'. split; [done|]. split; [exact Hl|exact Ha].
Defined.

End RslRuns.
