(* ===== verification/RslHist.v ===== *)
(** Histories of the channels of a BTS: every operation of chan_alloc.c and abis_rsl.c that takes, changes or
    gives back a logical channel, in any order and number, and who holds which channel meanwhile. Theorem: a
    channel that is held is not handed out again until it was freed. *)

From S2P Require Import Prelude Chreq Radio ChanAlloc AllocProps RadioProps Rsl RslProps RslRuns.

Module RslHist.
Import Rsl AllocProps RadioProps RslProps RslRuns.

(** ** When a program frees its channel *)

(** lchan_free tells the statistics of every channel that it frees. *)
Definition is_freed (e : rsl_event) : bool := match e with Radio_ev (EvFreed _) => true | _ => false end.
Definition frees (ev : list rsl_event) : bool := existsb is_freed ev.

Lemma frees_app a b : frees (a ++ b) = frees a || frees b.
Proof. apply existsb_app. Qed.

(** A program leaves the type of the channel alone, but for lchan_free. *)
Definition tracks {A} (m : LM A) : Prop := forall lc,
  match m lc with
  | Some (_, lc', ev) => lc_type lc' = if frees ev then GSM_LCHAN_NONE else lc_type lc
  | None => True
  end.

Section tracks.
Context `{LibosmoConst}.

Lemma tracks_ret {A} (a : A) : tracks (mret a).
Proof. done. Qed.
Lemma tracks_gets {A} (f : gsm_lchan -> A) : tracks (gets f).
Proof. done. Qed.
Lemma tracks_fault {A} : tracks (fault : LM A).
Proof. done. Qed.
Lemma tracks_modify f : (forall lc, lc_type (f lc) = lc_type lc) -> tracks (modify f).
Proof. intros Hf lc. apply Hf. Qed.
Lemma tracks_emit e : is_freed e = false -> tracks (emit e).
Proof. intros He lc. cbn. by rewrite He. Qed.
Lemma tracks_bind {A B} (m : LM B) (k : B -> LM A) : tracks m -> (forall b, tracks (k b)) -> tracks (m ≫= k).
Proof.
  intros Hm Hk lc. unfold mbind, M_bind. generalize (Hm lc). destruct (m lc) as [[[b lc1] e1]|]; [|done]. intros Hm1.
  generalize (Hk b lc1). destruct (k b lc1) as [[[a lc2] e2]|]; [|done]. intros Hk2. rewrite frees_app, Hk2, Hm1.
  by destruct (frees e1), (frees e2).
Qed.
Lemma tracks_when b m : tracks m -> tracks (when b m).
Proof. by destruct b. Qed.

(** The same for the programs of chan_alloc.c. *)
Lemma tracks_radio_bind {A B} (m : M gsm_lchan radio_event B) (k : B -> M gsm_lchan radio_event A) :
  tracks (radio m) -> (forall b, tracks (radio (k b))) -> tracks (radio (m ≫= k)).
Proof.
  intros Hm Hk lc. generalize (Hm lc). unfold radio, mbind, M_bind.
  destruct (m lc) as [[[b lc1] e1]|]; [|done]. intros Hm1. generalize (Hk b lc1). unfold radio.
  destruct (k b lc1) as [[[a lc2] e2]|]; [|done]. intros Hk2. rewrite fmap_app, frees_app, Hk2, Hm1. by destruct (frees (_ <$> e1)), (frees (_ <$> e2)).
Qed.
Lemma tracks_radio_ret {A} (a : A) : tracks (radio (mret a)).
Proof. done. Qed.
Lemma tracks_radio_gets {A} (f : gsm_lchan -> A) : tracks (radio (gets f)).
Proof. done. Qed.
Lemma tracks_radio_modify f : (forall lc, lc_type (f lc) = lc_type lc) -> tracks (radio (modify f)).
Proof. intros Hf lc. apply Hf. Qed.
Lemma tracks_radio_emit e : is_freed (Radio_ev e) = false -> tracks (radio (emit e)).
Proof. intros He lc. cbn [radio emit fmap list_fmap frees existsb]. by rewrite He. Qed.
Lemma tracks_radio_when b m : tracks (radio m) -> tracks (radio (when b m)).
Proof. by destruct b. Qed.
Lemma tracks_free : tracks (radio lchan_free).
Proof.
  intros lc. unfold radio. rewrite lchan_free_spec. rewrite fmap_app, frees_app. cbn. rewrite orb_true_r.
  unfold forget_meas. by upd_norm.
Qed.
End tracks.

Create HintDb tracks.
#[export] Hint Resolve tracks_ret tracks_gets tracks_fault tracks_radio_ret tracks_radio_gets tracks_free : tracks.

(** A program, from its steps. *)
Ltac tracks_step :=
  lazymatch goal with
  | |- forall _, _ => intro
  | |- tracks (let '_ := ?e in _) => destruct e eqn:?
  | |- tracks (match ?e with _ => _ end) => destruct e eqn:?
  | |- tracks (radio (match ?e with _ => _ end)) => destruct e eqn:?
  | |- tracks (_ ≫= _) => apply tracks_bind; [|intros ?]
  | |- tracks (radio (_ ≫= _)) => apply tracks_radio_bind; [|intros ?]
  | |- tracks (when _ _) => apply tracks_when
  | |- tracks (radio (when _ _)) => apply tracks_radio_when
  | |- tracks (modify _) => apply tracks_modify; intros ?; upd_norm; try done
  | |- tracks (radio (modify _)) => apply tracks_radio_modify; intros ?; upd_norm; try done
  | |- tracks (emit _) => apply tracks_emit; try done
  | |- tracks (radio (emit _)) => apply tracks_radio_emit; try done
  end.
Ltac tracks_tac := repeat first [ solve [auto 2 with tracks] | progress cbv zeta | tracks_step ].

Section programs.
Context `{LibosmoConst} (env : rsl_env) (ts : gsm_bts_trx_ts).

Lemma tracks_set_state s : tracks (radio (rsl_lchan_set_state s)).
Proof. unfold rsl_lchan_set_state. tracks_tac. Qed.
#[local] Hint Resolve tracks_set_state : tracks.
Lemma tracks_handle_release : tracks (radio (lchan_handle_release ts)).
Proof.
  unfold lchan_handle_release, lchan_release_next_sapi, rsl_release_request, gsm48_send_rr_release, rsl_deact_sacch. tracks_tac.
Qed.
#[local] Hint Resolve tracks_handle_release : tracks.
Lemma tracks_release sd reason : tracks (radio (lchan_release ts sd reason)).
Proof. unfold lchan_release. tracks_tac. Qed.
Lemma tracks_rll_release link : tracks (radio (rsl_lchan_rll_release ts link)).
Proof. unfold rsl_lchan_rll_release. tracks_tac. Qed.
#[local] Hint Resolve tracks_release tracks_rll_release : tracks.
Lemma tracks_chan_release error : tracks (rsl_rf_chan_release env ts error).
Proof. unfold rsl_rf_chan_release. tracks_tac. Qed.
#[local] Hint Resolve tracks_chan_release : tracks.
Lemma tracks_activate t ho ta r : tracks (rsl_chan_activate_lchan env ts t ho ta r).
Proof. unfold rsl_chan_activate_lchan. tracks_tac. Qed.
#[local] Hint Resolve tracks_activate : tracks.
Lemma tracks_rx_dchan m : tracks (rx_dchan env ts m).
Proof.
  destruct m; cbn [rx_dchan]; unfold rsl_rx_chan_act_ack, rsl_send_imm_assignment, rsl_rx_chan_act_nack, rsl_rx_conn_fail,
    rsl_rx_meas_res, rsl_rx_rf_chan_rel_ack; tracks_tac.
Qed.
Lemma tracks_rx_rll link m : tracks (rx_rll env ts link m).
Proof.
  destruct m; cbn [rx_rll]; unfold set_sapi, rsl_handle_release, rsl_rx_rll_err_ind; tracks_tac.
Qed.

End programs.

(** ** Who holds a channel *)

(** A channel that is marked as taken. *)
Definition in_use (bts : gsm_bts) (p : path) : Prop :=
  exists lc, get_lchan bts p = Some lc /\ lc_type lc <> GSM_LCHAN_NONE.

(** A time slot without a channel combination has no channel that is taken. *)
Definition ts_typed (ts : gsm_bts_trx_ts) : Prop :=
  ts_wf ts /\ (ts_pchan ts = GSM_PCHAN_NONE -> Forall (fun lc => lc_type lc = GSM_LCHAN_NONE) (lchan ts)).
Definition typed (bts : gsm_bts) : Prop := forall i j ts, get_ts bts i j = Some ts -> ts_typed ts.

Lemma get_lchan_ts bts i j k lc :
  get_lchan bts (i, j, k) = Some lc -> exists ts, get_ts bts i j = Some ts /\ lchan ts !! k = Some lc.
Proof. unfold get_lchan. destruct (get_ts bts i j) as [ts|]; [|done]. by exists ts. Qed.

(** A channel that is taken or freed, or keeps its type. *)
Lemma typed_at_lchan bts p lc lc' :
  typed bts -> get_lchan bts p = Some lc ->
  (lc_type lc = GSM_LCHAN_NONE -> lc_type lc' = GSM_LCHAN_NONE) -> typed (at_lchan p (fun _ => lc') bts).
Proof.
  destruct p as [[i j] k]. intros Ht Hlc Hty i' j' ts. unfold at_lchan. rewrite get_ts_at_ts.
  case_decide as E; [|apply Ht]. destruct E as [<- <-]. apply get_lchan_ts in Hlc as (ts0 & Hts & Hk). rewrite Hts. intros [= <-].
  destruct (Ht _ _ _ Hts) as [Hw Hn]. split; [unfold ts_wf; upd_norm; cbn [lchan]; by rewrite length_alter|].
  upd_norm. cbn [ts_pchan lchan]. intros Hp. specialize (Hn Hp). rewrite Forall_lookup in Hn |- *.
  intros k' x. rewrite list_lookup_alter. case_decide; [subst k'|by apply Hn].
  rewrite Hk. intros [= <-]. apply Hty. by apply (Hn k).
Qed.
Lemma typed_at_ts bts i j f :
  typed bts -> (forall ts, get_ts bts i j = Some ts -> ts_typed (f ts)) -> typed (at_ts i j f bts).
Proof.
  intros Ht Hf i' j' ts. rewrite get_ts_at_ts. case_decide as E; [|apply Ht]. destruct E as [<- <-].
  destruct (get_ts bts i j) as [ts0|]; [|done]. intros [= <-]. by apply Hf.
Qed.

(** *** Allocation *)

(** [p] can be taken in [bts']: it is not taken, and [bts'] has the channels of [bts]. *)
Definition picked (bts bts' : gsm_bts) (p : path) : Prop :=
  typed bts' /\ (forall q, get_lchan bts' q = get_lchan bts q)
  /\ (exists lc, get_lchan bts p = Some lc /\ lc_type lc = GSM_LCHAN_NONE)
  /\ forall ts, get_ts bts' p.1.1 p.1.2 = Some ts -> ts_pchan ts <> GSM_PCHAN_NONE.
(** What a search has found since it started in [bts0]. *)
Definition found (bts0 : gsm_bts) (r : option path * gsm_chan_t) (bts : gsm_bts) : Prop :=
  match r.1 with Some p => picked bts0 bts p | None => bts = bts0 end /\ r.2 <> GSM_LCHAN_NONE.
(** A part of the search. *)
Definition searches {A} (m : M gsm_bts radio_event A) (bts : gsm_bts) (Q : A -> gsm_bts -> Prop) : Prop :=
  match m bts with
  | Some (a, bts', ev) => frees (Radio_ev <$> ev) = false /\ Q a bts'
  | None => True
  end.

Lemma searches_bind {A B} (m : M gsm_bts radio_event B) (k : B -> M gsm_bts radio_event A) bts Q :
  searches m bts (fun b bts' => searches (k b) bts' Q) -> searches (m ≫= k) bts Q.
Proof.
  unfold searches, mbind, M_bind. destruct (m bts) as [[[b bts1] e1]|]; [|done]. intros [H1 H2].
  destruct (k b bts1) as [[[a bts2] e2]|]; [|done]. destruct H2 as [H2 H3]. by rewrite fmap_app, frees_app, H1, H2.
Qed.
Lemma searches_ret {A} (a : A) bts (Q : A -> gsm_bts -> Prop) : Q a bts -> searches (mret a) bts Q.
Proof. done. Qed.
Lemma searches_mono {A} (m : M gsm_bts radio_event A) bts (Q Q' : A -> gsm_bts -> Prop) :
  searches m bts Q -> (forall a b, Q a b -> Q' a b) -> searches m bts Q'.
Proof. unfold searches. destruct (m bts) as [[[a b] e]|]; [|done]. intros [? ?] HQ. auto. Qed.

Section alloc.
Context `{LibosmoConst}.

Lemma ts_alloc_find_spare bts pchan l : forall n i j,
  (forall m, trx_list bts !! (n + m)%nat = l !! m) -> ts_alloc_find bts pchan n l = Some (i, j) ->
  exists trx, trx_list bts !! i = Some trx /\ ts_spare bts trx j = true.
Proof.
  induction l as [|trx l IH]; [done|]. intros n i j Hl. cbn [ts_alloc_find].
  assert (forall m, trx_list bts !! (S n + m)%nat = l !! m) as Hl'.
  { intros m. replace (S n + m)%nat with (n + S m)%nat by lia. by rewrite Hl. }
  destruct (negb _); [by apply IH|]. destruct (ts_alloc_range _ _) as [[a b]|]; [|done].
  destruct (find _ _) as [j'|] eqn:E; [|by apply IH]. intros [= <- <-]. apply find_seq_Some in E as [_ E].
  exists trx. by rewrite <- (Nat.add_0_r n), Hl.
Qed.

Lemma searches_find pchan bts :
  pchan <> GSM_PCHAN_NONE -> typed bts ->
  searches (lc_find_bts pchan) bts (fun r bts' => match r with Some p => picked bts bts' p | None => bts' = bts end).
Proof.
  intros Hp Ht. unfold searches, lc_find_bts. rewrite run_gets. unfold id.
  destruct (find_first _ (trx_order bts)) as [p|] eqn:E.
  { split; [done|]. apply find_first_Some in E as (i & _ & Hf). destruct (trx_list bts !! i) as [trx|] eqn:Ei; [|done].
    destruct (lc_find_trx bts trx pchan) as [[j k]|] eqn:El; [|done]. injection Hf as <-.
    destruct (lc_find_trx_Some _ _ _ _ _ _ Ei El) as (trx' & ts & lc & n & Hi & Hj & Hk & _ & _ & Hs & _ & _ & Hf).
    assert (get_ts bts i j = Some ts) as Hts by (unfold get_ts; by rewrite Hi).
    split_and!; [done|done| |].
    - exists lc. split; [unfold get_lchan; by rewrite Hts|]. unfold lchan_is_free in Hf. by apply andb_prop in Hf as [?%bool_decide_eq_true _].
    - intros ts1. cbn [fst snd]. rewrite Hts. intros [= <-]. by eapply ts_suits_not_none. }
  destruct (bool_decide _); [by split|]. unfold ts_alloc. rewrite run_assoc, run_gets. unfold id.
  destruct (ts_alloc_find bts pchan 0 (trx_list bts)) as [[i j]|] eqn:Ea; [|by split]. split; [done|].
  destruct (ts_alloc_find_spare _ _ _ 0 _ _ ltac:(done) Ea) as (trx & Hi & Hs). unfold ts_spare in Hs.
  destruct (trx_ts trx !! j) as [ts|] eqn:Hj; [|done]. apply andb_prop in Hs as [_ Hn%bool_decide_eq_true].
  assert (get_ts bts i j = Some ts) as Hts by (unfold get_ts; by rewrite Hi).
  destruct (Ht _ _ _ Hts) as [Hw Hall]. specialize (Hall Hn). cbn [option_map].
  split_and!.
  - apply typed_at_ts; [done|]. rewrite Hts. intros ts0 [= <-]. split; upd_norm; [done|]. by intros ?.
  - intros q. apply get_lchan_at_pchan.
  - unfold ts_wf, TS_MAX_LCHAN in Hw. destruct (lookup_lt_is_Some_2 (lchan ts) 0) as [lc Hlc]; [lia|].
    exists lc. split; [unfold get_lchan; by rewrite Hts|]. rewrite Forall_lookup in Hall. by eapply Hall.
  - intros ts1. cbn [fst snd]. rewrite get_ts_at_ts, decide_True, Hts by done. intros [= <-]. by upd_norm.
Qed.

Lemma searches_or_else bts0 r pchan t bts :
  pchan <> GSM_PCHAN_NONE -> t <> GSM_LCHAN_NONE -> typed bts0 -> found bts0 r bts ->
  searches (or_else r (lc_find_bts pchan) t) bts (found bts0).
Proof.
  intros Hp Htt Ht Hf. destruct r as [[p|] ty]; cbn [or_else]; [by apply searches_ret|].
  destruct Hf as [E _]. cbn in E. subst bts. apply searches_bind.
  apply (searches_mono _ _ _ _ (searches_find pchan bts0 Hp Ht)). intros lc b Hb. by apply searches_ret.
Qed.

Lemma searches_search type bigger bts :
  typed bts -> searches (lchan_search type bigger) bts (fun r bts' => match r.1 with
    | Some p => picked bts bts' p /\ r.2 <> GSM_LCHAN_NONE | None => bts' = bts end).
Proof.
  intros Ht. assert (forall m, searches m bts (found bts) -> searches m bts (fun r bts' => match r.1 with
    | Some p => picked bts bts' p /\ r.2 <> GSM_LCHAN_NONE | None => bts' = bts end)) as Hfound.
  { intros m Hm. apply (searches_mono _ _ _ _ Hm). intros r b [? ?]. by destruct r.1. }
  unfold lchan_search. apply searches_bind. split; [done|]. unfold id. cbv beta.
  destruct type; try by apply searches_ret.
  all: apply Hfound; clear Hfound.
  2,3: apply searches_bind; (eapply searches_mono; [by apply searches_find|]); intros lc b Hb;
    first [by apply searches_ret|by apply searches_or_else].
  destruct (chan_alloc_reverse bts =? 0); apply searches_bind;
    (eapply searches_mono; [by apply searches_find|]); intros lc b Hb;
    apply searches_bind; (eapply searches_mono; [by apply (searches_or_else bts)|]); intros r1 b1 Hr1;
    (destruct bigger; [|by apply searches_ret]); apply searches_bind;
    (eapply searches_mono; [by apply (searches_or_else bts)|]); intros r2 b2 Hr2; by apply searches_or_else.
Qed.

(** What the allocation does, on any BTS whose idle time slots have no channel that is taken. *)
Lemma alloc_takes type bigger bts r bts' ev :
  typed bts -> lchan_alloc type bigger bts = Some (r, bts', ev) ->
  frees (Radio_ev <$> ev) = false /\
  match r with
  | Some p => typed bts' /\ (exists lc t, get_lchan bts p = Some lc /\ lc_type lc = GSM_LCHAN_NONE
                /\ get_lchan bts' p = Some (lchan_claim t lc) /\ t <> GSM_LCHAN_NONE)
              /\ forall q, q <> p -> get_lchan bts' q = get_lchan bts q
  | None => bts' = bts
  end.
Proof.
  intros Ht Ha.
  assert (searches (lchan_alloc type bigger) bts (fun r bts' => match r with
    | Some p => typed bts' /\ (exists lc t, get_lchan bts p = Some lc /\ lc_type lc = GSM_LCHAN_NONE
                /\ get_lchan bts' p = Some (lchan_claim t lc) /\ t <> GSM_LCHAN_NONE)
              /\ forall q, q <> p -> get_lchan bts' q = get_lchan bts q
    | None => bts' = bts end)) as Hall; [|unfold searches in Hall; by rewrite Ha in Hall].
  unfold lchan_alloc. apply searches_bind. apply (searches_mono _ _ _ _ (searches_search type bigger bts Ht)).
  intros [[p|] t] b Hb; cbn [fst snd] in Hb; apply searches_bind; (split; [done|]); apply searches_ret; [|done].
  destruct Hb as [(Hty & Hsame & (lc & Hlc & Hn) & Hts) Htt].
  assert (get_lchan b p = Some lc) as Hlb by (by rewrite Hsame).
  split_and!.
  - destruct p as [[i j] k]. intros i' j' ts. unfold at_lchan. rewrite get_ts_at_ts. case_decide as E; [|apply Hty].
    destruct E as [<- <-]. apply get_lchan_ts in Hlb as (ts0 & Hts0 & Hk). rewrite Hts0. intros [= <-].
    destruct (Hty _ _ _ Hts0) as [Hw _]. split; [unfold ts_wf; upd_norm; cbn [lchan]; by rewrite length_alter|].
    upd_norm. cbn [ts_pchan]. intros Hp. by destruct (Hts _ Hts0).
  - exists lc, t. by rewrite get_lchan_at_lchan, decide_True, Hlb.
  - intros q Hq. rewrite get_lchan_at_lchan, decide_False by done. apply Hsame.
Qed.
End alloc.

(** ** Histories *)

(** What else is done to a channel: its timers fire; the rest of the BSC releases or frees it, activates it (and
    frees it when there is no mode for it, as handle_new_assignment and bsc_handover_start do), changes its mode or
    its ciphering, its state, or one of the members it sets (bsc_api.c, handover_logic.c). *)
Inductive chan_setting : Type :=
| SetMode (mode : gsm48_chan_mode) (cmode : rsl_cmod_spd)
| SetPower (ms bs : Z)
| SetEncr (alg : Z) (key : list Z)
| SetMrConf (conf : list Z)
| SetConn (conn : option nat).
Inductive chan_act : Type :=
| ActTimer | ErrorTimer | T3101Expires | T3111Expires
| Release (sd reason : Z)
| Free
| Activate (act_type : Z) (handover : bool) (ta ho_ref : Z)
| ModeModify
| Encrypt (l3 : list Z)
| SetState (s : gsm_lchan_state)
| Set_ (s : chan_setting).

Section histories.
Context `{LibosmoConst} (env : rsl_env).

Definition set_setting (s : chan_setting) (lc : gsm_lchan) : gsm_lchan :=
  match s with
  | SetMode mode cmode => lc <| tch_mode := mode |> <| rsl_cmode := cmode |>
  | SetPower ms bs => lc <| ms_power := ms |> <| bs_power := bs |>
  | SetEncr alg key => lc <| encr_alg_id := alg |> <| encr_key := key |>
  | SetMrConf conf => lc <| mr_conf := conf |>
  | SetConn conn => lc <| lc_conn := conn |>
  end.
Definition run_act (ts : gsm_bts_trx_ts) (a : chan_act) : LM unit :=
  match a with
  | ActTimer => act_timer_fires
  | ErrorTimer => error_timer_fires
  | T3101Expires => T3101_fires env ts;; mret tt
  | T3111Expires => T3111_fires env ts;; mret tt
  | Release sd reason => radio (lchan_release ts sd reason);; mret tt
  | Free => radio lchan_free
  | Activate t ho ta r =>
      rc ← rsl_chan_activate_lchan env ts t ho ta r;
      if rc <? 0 then radio lchan_free else radio (rsl_lchan_set_state LCHAN_S_ACT_REQ)
  | ModeModify => rsl_chan_mode_modify_req env ts;; mret tt
  | Encrypt l3 => rsl_encryption_cmd ts l3;; mret tt
  | SetState s => radio (rsl_lchan_set_state s)
  | Set_ s => modify (set_setting s)
  end.

(** Who holds which channel after an operation on [p]: [p] is given back when lchan_free ran. *)
Definition after (p : path) (ev : list rsl_event) (held : list path) : list path :=
  if frees ev then filter (fun q => q <> p) held else held.
(** The same for a message, whose channel number names the channel. *)
Definition after_msg (i : nat) (chan_nr : Z) (ev : list rsl_event) (held : list path) : list path :=
  match lchan_lookup chan_nr with Some (j, k) => after (i, j, k) ev held | None => held end.
(** The channel that a channel request takes, unless it is freed again at once. *)
Definition taken_by_rqd (ies_ok : bool) (req : list Z) (bts : gsm_bts) : option path :=
  if ies_ok then
    match lchan_alloc (get_ctype_by_chreq (env_policy env) (rd req 0))
            (bool_decide (get_reason_by_chreq (rd req 0) (neci (env_policy env)) = GSM_CHREQ_REASON_LOCATION_UPD)) bts with
    | Some (r, _, _) => r
    | None => None
    end
  else None.
Definition after_rqd (r : option path) (ev : list rsl_event) (held : list path) : list path :=
  match r with Some p => after p ev (p :: held) | None => held end.

(** The users hold channels: those that were handed out to them and not freed since. *)
Inductive history : gsm_bts -> list path -> Prop :=
| history_start bts :
    bts_wf bts -> (forall p lc, get_lchan bts p = Some lc -> lc_type lc = GSM_LCHAN_NONE) -> history bts []
| history_alloc bts held type bigger r bts' ev :
    history bts held -> lchan_alloc type bigger bts = Some (r, bts', ev) -> history bts' (option_list r ++ held)
| history_chan_rqd bts held ok chan_nr ie_ref ie_delay req ta rc bts' ev :
    history bts held -> abis_rsl_rx_chan_rqd env ok chan_nr ie_ref req ie_delay ta bts = Some (rc, bts', ev) ->
    history bts' (after_rqd (taken_by_rqd (ie_ref && ie_delay) req bts) ev held)
| history_rll bts held i chan_nr link m rc bts' ev :
    history bts held -> abis_rsl_rx_rll env i chan_nr link m bts = Some (rc, bts', ev) ->
    history bts' (after_msg i chan_nr ev held)
| history_dchan bts held i chan_nr m rc bts' ev :
    history bts held -> abis_rsl_rx_dchan env i chan_nr m bts = Some (rc, bts', ev) ->
    history bts' (after_msg i chan_nr ev held)
| history_act bts held p a bts' ev :
    history bts held -> on_rsl_lchan p (fun ts => run_act ts a) bts = Some (tt, bts', ev) ->
    history bts' (after p ev held)
| history_down bts held i bts' ev :
    history bts held -> inp_tei_dn i bts = Some (tt, bts', ev) ->
    history bts' (filter (fun p => p ∉ trx_paths i) held).

(** *** The invariant *)

Record held_ok (bts : gsm_bts) (held : list path) : Prop := {
  ho_typed : typed bts;
  ho_nodup : NoDup held;
  ho_in_use : forall p, p ∈ held <-> in_use bts p
}.

Lemma tracks_act ts a : tracks (run_act ts a).
Proof.
  destruct a; cbn [run_act].
  - unfold act_timer_fires, act_tmr_cb, deact_tmr_cb. tracks_tac; apply tracks_set_state.
  - unfold error_timer_fires, error_timeout_cb. tracks_tac; apply tracks_set_state.
  - unfold T3101_fires, t3101_expired. tracks_tac; apply tracks_chan_release.
  - unfold T3111_fires, t3111_expired. tracks_tac; apply tracks_chan_release.
  - apply tracks_bind; [apply tracks_release|intros ?; apply tracks_ret].
  - apply tracks_free.
  - apply tracks_bind; [apply tracks_activate|]. intros rc. destruct (rc <? 0); [apply tracks_free|apply tracks_set_state].
  - unfold rsl_chan_mode_modify_req. tracks_tac.
  - unfold rsl_encryption_cmd. tracks_tac.
  - apply tracks_set_state.
  - apply tracks_modify. intros lc. by destruct s.
Qed.

(** One channel. *)
Lemma on_lchan_held {A} p (m : gsm_bts_trx_ts -> LM A) bts held a bts' ev :
  (forall ts, tracks (m ts)) -> held_ok bts held -> on_rsl_lchan p m bts = Some (a, bts', ev) ->
  held_ok bts' (after p ev held).
Proof.
  intros Hm [Ht Hn Hu] Hrun. destruct p as [[i j] k]. unfold on_rsl_lchan in Hrun.
  destruct (get_ts bts i j) as [ts|]; [|done]. destruct (get_lchan bts (i, j, k)) as [lc|] eqn:Hlc; [|done].
  specialize (Hm ts lc). destruct (m ts lc) as [[[a' lc'] e]|]; [|done]. injection Hrun as -> <- ->.
  change (held_ok (at_lchan (i, j, k) (fun _ => lc') bts) (after (i, j, k) ev held)).
  assert (lc_type lc = GSM_LCHAN_NONE -> lc_type lc' = GSM_LCHAN_NONE) as Hk by (rewrite Hm; by destruct (frees ev)).
  assert (forall q, in_use (at_lchan (i, j, k) (fun _ => lc') bts) q
            <-> if decide ((i, j, k) = q) then lc_type lc' <> GSM_LCHAN_NONE else in_use bts q) as Huse.
  { intros q. unfold in_use. rewrite get_lchan_at_lchan. repeat case_decide; try done. subst q. rewrite Hlc.
    split; [by intros (x & [= <-] & ?)|by exists lc']. }
  split.
  - by apply (typed_at_lchan _ _ lc).
  - unfold after. destruct (frees ev); [by apply NoDup_filter|done].
  - intros q. rewrite Huse. unfold after. destruct (frees ev); rewrite ?list_elem_of_filter, Hu, ?Hm; case_decide as E; subst.
    + intuition congruence.
    + intuition congruence.
    + unfold in_use. rewrite Hlc. split; [by intros (x & [= <-] & ?)|by exists lc].
    + done.
Qed.

Lemma alloc_held type bigger bts held r bts' ev :
  held_ok bts held -> lchan_alloc type bigger bts = Some (r, bts', ev) ->
  held_ok bts' (option_list r ++ held) /\ frees (Radio_ev <$> ev) = false
  /\ forall p, r = Some p -> ~ p ∈ held /\ in_use bts' p /\ forall q, q <> p -> get_lchan bts' q = get_lchan bts q.
Proof.
  intros [Ht Hn Hu] Ha. destruct (alloc_takes _ _ _ _ _ _ Ht Ha) as [Hf Hr]. destruct r as [p|]; [|subst bts'; by split_and!].
  destruct Hr as (Ht' & (lc & t & Hlc & Hnone & Hlc' & Htt) & Hothers).
  assert (p ∉ held) as Hp.
  { rewrite Hu. intros (x & Hx & ?). rewrite Hlc in Hx. by injection Hx as <-. }
  assert (in_use bts' p) as Hp'. { exists (lchan_claim t lc). split; [done|]. unfold lchan_claim. by upd_norm. }
  split; [|split; [done|by intros q [= <-]]]. change (option_list (Some p) ++ held) with (p :: held).
  split; [done|by constructor|].
  intros q. rewrite elem_of_cons. destruct (decide (q = p)) as [->|Hq]; [split; [done|by left]|].
  unfold in_use. rewrite Hothers by done. fold (in_use bts q). rewrite <- Hu. split; [by intros [?|?]|by right].
Qed.

(** A channel request. *)
Lemma rqd_held ok chan_nr ie_ref ie_delay req ta bts held rc bts' ev :
  held_ok bts held -> abis_rsl_rx_chan_rqd env ok chan_nr ie_ref req ie_delay ta bts = Some (rc, bts', ev) ->
  held_ok bts' (after_rqd (taken_by_rqd (ie_ref && ie_delay) req bts) ev held).
Proof.
  intros Hh. unfold abis_rsl_rx_chan_rqd, rsl_rx_chan_rqd, taken_by_rqd.
  destruct ie_ref; cbn [negb andb]; [|by intros [= _ <- <-]]. destruct ie_delay; cbn [negb andb]; [|by intros [= _ <- <-]].
  destruct (lchan_alloc _ _ bts) as [[[r b] e]|] eqn:Ha;
    [|unfold mbind at 1, M_bind at 1; unfold radio at 1; by rewrite Ha].
  rewrite (run_bind _ _ _ r b (Radio_ev <$> e)) by (unfold radio; by rewrite Ha).
  destruct (alloc_held _ _ _ _ _ _ _ Hh Ha) as (Hb & Hf & Hr). destruct r as [p|].
  - match goal with |- context [on_rsl_lchan p ?m b] => set (body := m) end.
    assert (forall ts, tracks (body ts)) as Hbody.
    { intros ts. unfold body. tracks_tac; first [apply tracks_set_state|apply tracks_activate]. }
    destruct (on_rsl_lchan p body b) as [[[rc' b'] e']|] eqn:Hrun; [|done]. cbn [emits]. intros [= -> -> <-].
    pose proof (on_lchan_held _ _ _ _ _ _ _ Hbody Hb Hrun) as H1. cbn [after_rqd]. unfold after in *.
    by rewrite frees_app, Hf.
  - destruct (alloc_takes _ _ _ _ _ _ (ho_typed _ _ Hh) Ha) as [_ ->]. cbn [after_rqd].
    destruct (lchan_lookup chan_nr); [|done]. unfold rsl_send_imm_ass_rej.
    destruct (env_T3122 env =? 0); cbn; by intros [= _ <- _].
Qed.

(** The link to a TRX is lost. *)
Lemma drop_lchan_type lc a lc' ev : drop_lchan lc = Some (a, lc', ev) -> lc_type lc' = GSM_LCHAN_NONE.
Proof.
  unfold drop_lchan. rewrite run_gets. unfold id. generalize (if negb (bool_decide (lc_state lc = LCHAN_S_NONE)) then radio lchan_free else mret tt : LM unit).
  intros m. unfold mbind, M_bind. destruct (m lc) as [[[u lc1] e1]|]; [|done]. cbn. intros [= _ <- _]. by upd_norm.
Qed.
Lemma drop_held ps bts bts' ev :
  typed bts -> drop_lchans ps bts = Some (tt, bts', ev) ->
  typed bts' /\ forall q, in_use bts' q <-> ~ q ∈ ps /\ in_use bts q.
Proof.
  revert bts ev. induction ps as [|p ps IH]; intros bts ev Ht; cbn [drop_lchans].
  { intros [= <- _]. split; [done|]. intros q. rewrite elem_of_nil. tauto. }
  unfold mbind, M_bind. destruct (on_rsl_lchan p (fun _ => drop_lchan) bts) as [[[[] b] e]|] eqn:Hp; [|done].
  destruct (drop_lchans ps b) as [[[[] b2] e2]|] eqn:Hps; [|done]. intros [= <- _].
  destruct p as [[i j] k]. unfold on_rsl_lchan in Hp.
  destruct (get_ts bts i j) as [ts|]; [|done]. destruct (get_lchan bts (i, j, k)) as [lc|] eqn:Hlc; [|done].
  destruct (drop_lchan lc) as [[[[] lc'] e']|] eqn:Hd; [|done]. apply drop_lchan_type in Hd. injection Hp as <- ->.
  change (drop_lchans ps (at_lchan (i, j, k) (fun _ => lc') bts) = Some (tt, b2, e2)) in Hps.
  destruct (IH _ _ (typed_at_lchan bts (i, j, k) lc lc' Ht Hlc (fun _ => Hd)) Hps) as [Ht2 Hu]. split; [done|].
  intros q. rewrite Hu, elem_of_cons. unfold in_use. rewrite get_lchan_at_lchan. case_decide as E.
  - subst q. rewrite Hlc. split; [by intros [_ (x & [= <-] & ?)]|tauto].
  - intuition congruence.
Qed.
Lemma typed_mo_reset bts : typed bts -> typed (gsm_bts_mo_reset bts) /\ forall q, in_use (gsm_bts_mo_reset bts) q <-> in_use bts q.
Proof.
  intros Ht. assert (forall i j, get_ts (gsm_bts_mo_reset bts) i j
    = (fun ts => ts <| ts_mo ::= gsm_abis_mo_reset |>) <$> get_ts bts i j) as Hg.
  { intros i j. unfold get_ts. change (trx_list (gsm_bts_mo_reset bts)) with (reset_trx_mo <$> trx_list bts). rewrite list_lookup_fmap.
    destruct (trx_list bts !! i) as [trx|]; [|done]. cbn [fmap option_fmap option_map mbind option_bind].
    change (trx_ts (reset_trx_mo trx)) with ((fun ts => ts <| ts_mo ::= gsm_abis_mo_reset |>) <$> trx_ts trx). by rewrite list_lookup_fmap. }
  split.
  - intros i j ts. rewrite Hg. intros (ts0 & Hts & ->)%fmap_Some. destruct (Ht _ _ _ Hts). split; by upd_norm.
  - intros [[i j] k]. unfold in_use, get_lchan. rewrite Hg. destruct (get_ts bts i j) as [ts|]; [|done]. cbn. by upd_norm.
Qed.
Lemma down_held i bts held bts' ev :
  held_ok bts held -> inp_tei_dn i bts = Some (tt, bts', ev) -> held_ok bts' (filter (fun p => p ∉ trx_paths i) held).
Proof.
  intros [Ht Hn Hu]. unfold inp_tei_dn, mbind, M_bind.
  destruct (drop_lchans (trx_paths i) bts) as [[[[] b] e]|] eqn:Hd; [|done]. intros [= <- _].
  destruct (drop_held _ _ _ _ Ht Hd) as [Ht1 Hu1]. destruct (typed_mo_reset b Ht1) as [Ht2 Hu2].
  split; [done|by apply NoDup_filter|]. intros q. by rewrite Hu2, Hu1, list_elem_of_filter, Hu.
Qed.

(** A message of the dedicated channel may also mark its time slot as a PDCH. *)
Lemma pdch_held bts held i j b : held_ok bts held -> held_ok (at_ts i j (set_pdch_mode b) bts) held.
Proof.
  intros [Ht Hn Hu]. split; [|done|].
  - apply typed_at_ts; [done|]. intros ts Hts. destruct (Ht _ _ _ Hts). unfold set_pdch_mode. split; by upd_norm.
  - intros [[i' j'] k]. rewrite Hu. unfold in_use, get_lchan. rewrite get_ts_at_ts. case_decide as E; [|done].
    destruct E as [<- <-]. destruct (get_ts bts i j) as [ts|]; [|done]. cbn. unfold set_pdch_mode. by upd_norm.
Qed.
Lemma dchan_held bts held i chan_nr m rc bts' ev :
  held_ok bts held -> abis_rsl_rx_dchan env i chan_nr m bts = Some (rc, bts', ev) ->
  held_ok bts' (after_msg i chan_nr ev held).
Proof.
  intros Hh. unfold abis_rsl_rx_dchan, after_msg. destruct (lchan_lookup chan_nr) as [[j k]|]; [|done].
  assert (exists b, held_ok b held /\ (match m with
          | PDCH_ACT_ACK => modify (at_ts i j (set_pdch_mode true))
          | PDCH_DEACT_ACK => modify (at_ts i j (set_pdch_mode false))
          | _ => mret tt
          end : BM unit) bts = Some (tt, b, [])) as (b & Hb & Hrun).
  { destruct m; eexists; (split; [|reflexivity]); first [done|by apply pdch_held]. }
  rewrite (run_bind _ _ _ _ _ _ Hrun), emits_nil. intros Hm. eapply on_lchan_held; [|exact Hb|exact Hm].
  intros ts. apply tracks_rx_dchan.
Qed.

Lemma history_held bts held : history bts held -> held_ok bts held.
Proof.
  induction 1 as [bts Hwf Hnone| | | | | |].
  - split; [|constructor|].
    + intros i j ts Hts. split.
      * unfold get_ts in Hts. destruct (trx_list bts !! i) as [trx|] eqn:Ei; [|done].
        pose proof (wf_trx _ Hwf) as Hw. rewrite Forall_lookup in Hw. destruct (Hw i trx Ei) as [_ Hl].
        rewrite Forall_lookup in Hl. by apply (Hl j).
      * intros _. apply Forall_lookup. intros k lc Hk. apply (Hnone (i, j, k)). unfold get_lchan. by rewrite Hts.
    + intros p. split; [by intros ?%elem_of_nil|]. intros (lc & Hlc & Hn). by destruct Hn; apply (Hnone p).
  - by eapply alloc_held.
  - by eapply rqd_held.
  - unfold abis_rsl_rx_rll, after_msg in *. destruct (lchan_lookup chan_nr) as [[j k]|]; [|done].
    eapply on_lchan_held; [|done|done]. intros ts. apply tracks_rx_rll.
  - by eapply dchan_held.
  - eapply on_lchan_held; [|done|done]. intros ts. apply tracks_act.
  - by eapply down_held.
Qed.

(** C13: No channel has two users. Take any history of a BTS, which starts well-formed with no channel taken, made of the
    operations of the code in any order, number and with any arguments: channels are handed out by lchan_alloc or to a
    channel request of a mobile; RLL messages and messages of the dedicated channel arrive for any channel
    number, for channels that are held and others; the timers of any channel fire; the BSC releases, frees,
    activates, modifies and configures any channel; the link to a TRX is lost. The channels that
    are held, which are those that were handed out and not freed since (by lchan_free, or with their TRX), are exactly
    those that the BTS marks as taken, none is held twice, and what is handed out next is not
    among them: it becomes marked and no other channel changes. *)
Theorem no_double_allocation bts held :
  history bts held ->
  NoDup held /\ (forall p, p ∈ held <-> in_use bts p)
  /\ forall type bigger p bts' ev, lchan_alloc type bigger bts = Some (Some p, bts', ev) ->
       ~ p ∈ held /\ in_use bts' p /\ forall q, q <> p -> get_lchan bts' q = get_lchan bts q.
Proof.
  intros Hh. apply history_held in Hh as Hok. split_and!; [apply Hok|apply Hok|].
  intros type bigger p bts' ev Ha. by apply (alloc_held _ _ _ _ _ _ _ Hok Ha).
Qed.

End histories.

(** ** A witness *)

(** A mobile requests a channel, the BTS acknowledges its activation and the mobile establishes the link; the
    channel is held. *)
Definition no_channel_taken (bts : gsm_bts) : bool :=
  forallb (fun trx => forallb (fun ts => forallb (fun lc => bool_decide (lc_type lc = GSM_LCHAN_NONE)) (lchan ts))
             (trx_ts trx)) (trx_list bts).
Lemma no_channel_taken_spec bts p lc :
  no_channel_taken bts = true -> get_lchan bts p = Some lc -> lc_type lc = GSM_LCHAN_NONE.
Proof.
  destruct p as [[i j] k]. intros Hn (ts & Hts & Hk)%get_lchan_ts. unfold get_ts in Hts.
  destruct (trx_list bts !! i) as [trx|] eqn:Ei; [|done]. cbn in Hts. unfold no_channel_taken in Hn.
  rewrite forallb_forall in Hn. apply list_elem_of_lookup_2, list_elem_of_In, Hn in Ei. rewrite forallb_forall in Ei.
  apply list_elem_of_lookup_2, list_elem_of_In, Ei in Hts. rewrite forallb_forall in Hts.
  apply list_elem_of_lookup_2, list_elem_of_In, Hts in Hk. by apply bool_decide_eq_true in Hk.
Qed.

#[local] Existing Instance test_const.

Abbreviation outcome := (option (Z * gsm_bts * list rsl_event)).
Definition rc_of (r : outcome) : Z := match r with Some (rc, _, _) => rc | None => 0 end.
Definition bts_of (r : outcome) : gsm_bts := match r with Some (_, b, _) => b | None => zero_bts end.
Definition ev_of (r : outcome) : list rsl_event := match r with Some (_, _, ev) => ev | None => [] end.
Definition returns (r : outcome) : bool := match r with Some _ => true | None => false end.
Lemma returns_run r : returns r = true -> r = Some (rc_of r, bts_of r, ev_of r).
Proof. by destruct r as [[[rc b] ev]|]. Qed.

Abbreviation run_request := (abis_rsl_rx_chan_rqd test_env true 0x88 true [0x00; 1; 2] true 3 test_cell).
Abbreviation run_ack := (abis_rsl_rx_dchan test_env 0 0x20 (CHAN_ACTIV_ACK true) (bts_of run_request)).
Abbreviation run_est := (abis_rsl_rx_rll test_env 0 0x20 0 (RLL_EST_IND true) (bts_of run_ack)).
Abbreviation next_channel := (lchan_alloc GSM_LCHAN_SDCCH false (bts_of run_est)).

Lemma run_request_returns : returns run_request = true.
Proof. by vm_compute. Qed.
Lemma run_ack_returns : returns run_ack = true.
Proof. by vm_compute. Qed.
Lemma run_est_returns : returns run_est = true.
Proof. by vm_compute. Qed.
Lemma run_history : history test_env (bts_of run_est) [(0, 0, 0)%nat].
Proof.
  assert (history test_env test_cell []) as H0.
  { apply history_start; [apply test_cell_wf|]. intros p lc. apply no_channel_taken_spec. by vm_compute. }
  pose proof (history_chan_rqd _ _ _ _ _ _ _ _ _ _ _ _ H0 (returns_run _ run_request_returns)) as H1.
  pose proof (history_dchan _ _ _ _ _ _ _ _ _ H1 (returns_run _ run_ack_returns)) as H2.
  pose proof (history_rll _ _ _ _ _ _ _ _ _ _ H2 (returns_run _ run_est_returns)) as H3.
  match type of H3 with history _ _ ?held => assert (held = [(0, 0, 0)%nat]) as E by (vm_compute; reflexivity) end.
  by rewrite E in H3.
Qed.

Lemma no_double_allocation_witness :
  exists p bts' ev, next_channel = Some (Some p, bts', ev) /\ ~ p ∈ [(0, 0, 0)%nat] /\ in_use bts' p.
Proof.
  assert (result next_channel = Some (Some (0, 0, 1)%nat)) as Hres by (vm_compute; reflexivity).
  destruct next_channel as [[[[p|] bts'] ev]|] eqn:Ha; [|discriminate..].
  exists p, bts', ev. split; [reflexivity|].
  destruct (no_double_allocation test_env _ _ run_history) as (_ & _ & Hnext).
  destruct (Hnext GSM_LCHAN_SDCCH false p bts' ev Ha) as (Hp & Hu & _). by split.
Defined.

End RslHist.
