(* ===== verification/Handover.v ===== *)
(** The decision to hand a call over to another cell (libbsc/handover_decision.c), on top of the
    measurements of Meas.v. The decision ends in a call of [bsc_handover_start] with the BTS that
    was chosen; what that call returns is an argument. *)

From S2P Require Import Prelude Meas MeasProps Chreq Radio ChanAlloc.

Module Handover.
Import ChanAlloc MeasProps.

Section handover.
(** [rxlev2dbm] of libosmocore, and the return code of [bsc_handover_start]. *)
Context (rxlev2dbm : Z -> Z) (handover_start : nat -> Z).

(** The return code, and the BTS a handover was started to. *)
Definition handover_to_arfcn_bsic (net : gsm_network) (a b : Z) : Z * option nat :=
  match gsm_bts_neighbor net a b with
  | None => (- EINVAL, None)
  | Some n => (handover_start n, Some n)
  end.

(** The loop of [attempt_handover] over the table, whose rest [l] starts at entry [j]. The outer
    [None]: division by zero. *)
Fixpoint best_cell_loop (cfg : handover_cfg) (rx : Z) (l : list neigh_meas_proc) (j : nat)
    (best : option nat) (best_better_db : Z) : option (option nat) :=
  match l with
  | [] => Some best
  | nmp :: l =>
      if nmp_arfcn nmp =? 0 then best_cell_loop cfg rx l (S j) best best_better_db
      else
        avg ← neigh_meas_avg nmp (s32 (win_rxlev_avg_neigh cfg));
        if u32 avg <? u32 (rx + pwr_hysteresis cfg) then
          best_cell_loop cfg rx l (S j) best best_better_db
        else
          let better := s32 (avg - rx) in
          if best_better_db <? u32 better then
            best_cell_loop cfg rx l (S j) (Some j) (u32 better)
          else best_cell_loop cfg rx l (S j) best best_better_db
  end.

Definition attempt_handover (net : gsm_network) (neigh : list neigh_meas_proc) (mr : gsm_meas_rep)
    : option (Z * option nat) :=
  let cfg := handover net in
  best ← best_cell_loop cfg (rx_lev (mru_full (mr_dl mr))) neigh 0 None 0;
  match best with
  | None => Some (0, None)
  | Some j =>
      nmp ← neigh !! j;
      if ho_active cfg =? 0 then Some (0, None)
      else Some (handover_to_arfcn_bsic net (nmp_arfcn nmp) (nmp_bsic nmp))
  end.

(** The conditions under which a handover is attempted; [None]: division by zero. *)
Definition handover_due (cfg : handover_cfg) (lc : meas_ring) (mr : gsm_meas_rep) : option bool :=
  let av_rxlev := get_meas_rep_avg lc MEAS_REP_DL_RXLEV_FULL (win_rxlev_avg cfg) in
  let dbm := rxlev2dbm (u8 av_rxlev) in
  let bad := meas_rep_n_out_of_m_be lc MEAS_REP_DL_RXQUAL_FULL 3 4 5 in
  if (-85 <? dbm) && negb (bad =? 0) then Some true
  else if negb (bad =? 0) then Some true
  else if dbm <=? -110 then Some true
  else if max_distance cfg <? mr_ms_l1_ta mr then Some true
  else if pwr_interval cfg =? 0 then None
  else Some (mr_nr mr mod pwr_interval cfg =? 0).

(** The part for traffic channels; the report is entry [i] of the ring of the channel. *)
Definition process_tch_meas_rep (net : gsm_network) (lc : gsm_lchan) (i : nat)
    : option (Z * gsm_lchan * option nat) :=
  mr ← meas_rep (lc_meas lc) !! i;
  '(mr, neigh) ← (if (0 <? num_cell mr) && (num_cell mr <? 7)
                  then process_meas_neigh mr (neigh_meas lc)
                  else Some (mr, neigh_meas lc));
  let ring := mk_meas_ring (<[i := mr]> (meas_rep (lc_meas lc))) (meas_rep_idx (lc_meas lc)) in
  let lc := lc <| neigh_meas := neigh |> <| lc_meas := ring |> in
  due ← handover_due (handover net) ring mr;
  if (due : bool) then
    '(rc, target) ← attempt_handover net neigh mr;
    Some (rc, lc, target)
  else Some (0, lc, None).

Definition process_meas_rep (net : gsm_network) (lc : gsm_lchan) (i : nat)
    : option (Z * gsm_lchan * option nat) :=
  match lc_type lc with
  | GSM_LCHAN_TCH_F | GSM_LCHAN_TCH_H => process_tch_meas_rep net lc i
  | _ => Some (0, lc, None)
  end.

(** ** The choice of the cell *)

(** The averages of the table entries, as the decision sees them. *)
Definition cell_avg (cfg : handover_cfg) (nmp : neigh_meas_proc) : Z :=
  default 0 (neigh_meas_avg nmp (s32 (win_rxlev_avg_neigh cfg))).

(** A cell that is in use, better than the serving cell, and by the hysteresis at least. *)
Definition eligible (cfg : handover_cfg) (rx : Z) (nmp : neigh_meas_proc) : Prop :=
  nmp_arfcn nmp <> 0 /\ rx + pwr_hysteresis cfg <= cell_avg cfg nmp /\ rx < cell_avg cfg nmp.

(** The configuration the VTY allows. *)
Definition cfg_ok (cfg : handover_cfg) : Prop :=
  1 <= win_rxlev_avg_neigh cfg <= 10 /\ 0 <= pwr_hysteresis cfg < 2 ^ 16 /\ pwr_interval cfg <> 0.
Definition samples_ok (nmp : neigh_meas_proc) : Prop := octets (nmp_rxlev nmp).

Lemma foldl_s32_range (f : nat -> Z) l : forall a,
  (forall i, 0 <= f i <= 255) -> 0 <= a -> a + 255 * Z.of_nat (length l) < 2 ^ 31 ->
  0 <= foldl (fun avg i => s32 (avg + f i)) a l <= a + 255 * Z.of_nat (length l).
Proof.
  induction l as [|i l IH]; intros a Hf Ha Hb; cbn [foldl length] in *; [lia|].
  specialize (Hf i) as Hi. rewrite s32_small by lia.
  specialize (IH (a + f i) Hf). lia.
Qed.

Lemma neigh_meas_avg_range nmp w :
  samples_ok nmp -> 1 <= w <= 10 -> exists a, neigh_meas_avg nmp w = Some a /\ 0 <= a <= 255.
Proof.
  intros Ho Hw. unfold neigh_meas_avg. destruct (Z.eqb_spec w 0); [lia|]. eexists. split; [done|].
  match goal with |- context [foldl ?f 0 ?l] =>
    pose proof (foldl_s32_range (fun i => rd (nmp_rxlev nmp) (ring_pos MAX_WIN_NEIGH_AVG
      (calc_initial_idx (Z.of_nat MAX_WIN_NEIGH_AVG)
         (rxlev_cnt nmp mod Z.of_nat MAX_WIN_NEIGH_AVG) w) i)) l 0) as Hr; set (s := foldl f 0 l) in *
  end.
  rewrite length_seq in Hr. destruct Hr as [H0 H1]; [|lia|lia|].
  { intros i. pose proof (rd_octet (nmp_rxlev nmp) (ring_pos MAX_WIN_NEIGH_AVG
      (calc_initial_idx (Z.of_nat MAX_WIN_NEIGH_AVG)
         (rxlev_cnt nmp mod Z.of_nat MAX_WIN_NEIGH_AVG) w) i) Ho) as Hx.
    unfold in_width in Hx. lia. }
  rewrite Z.quot_div_nonneg by lia. split; [apply Z.div_pos; lia|].
  apply Z.div_le_upper_bound; lia.
Qed.

(** The answer of the loop: the best of [l], if it beats what was found before. *)
Lemma best_cell_loop_spec cfg rx l : forall j best db,
  cfg_ok cfg -> Forall samples_ok l -> 0 <= rx <= 255 -> 0 <= db < 2 ^ 16 ->
  exists r, best_cell_loop cfg rx l j best db = Some r /\
    ((r = best /\ forall nmp, nmp ∈ l -> eligible cfg rx nmp -> cell_avg cfg nmp - rx <= db) \/
     (exists k nmp, r = Some (j + k)%nat /\ l !! k = Some nmp /\ eligible cfg rx nmp /\
        db < cell_avg cfg nmp - rx /\
        (forall nmp', nmp' ∈ l -> eligible cfg rx nmp' -> cell_avg cfg nmp' <= cell_avg cfg nmp))).
Proof.
  induction l as [|nmp l IH]; intros j best db Hc Ho Hrx Hdb; cbn [best_cell_loop].
  { exists best. split; [done|]. left. split; [done|]. intros ? Hx. by apply not_elem_of_nil in Hx. }
  apply Forall_cons in Ho as [Hs Ho]. destruct Hc as (Hw & Hh & Hp).
  assert (Hskip : forall best' db', 0 <= db' < 2 ^ 16 ->
    (eligible cfg rx nmp -> cell_avg cfg nmp - rx <= db') ->
    exists r, best_cell_loop cfg rx l (S j) best' db' = Some r /\
    ((r = best' /\ forall nmp', nmp' ∈ nmp :: l -> eligible cfg rx nmp' -> cell_avg cfg nmp' - rx <= db') \/
     (exists k nmp', r = Some (j + k)%nat /\ (nmp :: l) !! k = Some nmp' /\ eligible cfg rx nmp' /\
        db' < cell_avg cfg nmp' - rx /\ (forall nmp'', nmp'' ∈ nmp :: l -> eligible cfg rx nmp'' ->
          cell_avg cfg nmp'' <= cell_avg cfg nmp')))).
  { intros best' db' Hdb' Hn. destruct (IH (S j) best' db') as (r & Hr & [[-> Hall]|(k & n' & -> & Hk & He & Hlt & Hall)]);
      [by unfold cfg_ok|done|done|done|exists best'|exists (Some (S j + k)%nat)]; (split; [done|]).
    - left. split; [done|]. intros n' [->|Hin]%elem_of_cons He; [by apply Hn|by apply Hall].
    - right. exists (S k), n'. split; [f_equal; lia|]. split; [done|]. split; [done|]. split; [done|].
      intros n'' [->|Hin]%elem_of_cons He'; [specialize (Hn He'); lia|by apply Hall]. }
  destruct (Z.eqb_spec (nmp_arfcn nmp) 0) as [Ha|Ha].
  { apply Hskip; [done|]. by intros [Hx _]. }
  rewrite (s32_small (win_rxlev_avg_neigh cfg)) by lia.
  destruct (neigh_meas_avg_range nmp _ Hs Hw) as (a & Havg & Hra). rewrite Havg. cbn [mbind option_bind].
  assert (Hca : cell_avg cfg nmp = a).
  { unfold cell_avg. rewrite s32_small by lia. by rewrite Havg. }
  rewrite !(wrap_small 32) by (unfold in_width; lia).
  destruct (Z.ltb_spec a (rx + pwr_hysteresis cfg)).
  { apply Hskip; [done|]. intros (_ & Hx & _). lia. }
  rewrite s32_small by lia. rewrite !(wrap_small 32) by (unfold in_width; lia).
  destruct (Z.ltb_spec db (a - rx)) as [Hb|Hb]; [|apply Hskip; [done|]; intros _; lia].
  destruct (Hskip (Some j) (a - rx)) as (r & Hr & [[-> Hall]|(k & n' & -> & Hk & He & Hlt & Hall)]);
    [lia|intros _; lia| |]; eexists; (split; [exact Hr|]); right.
  - exists 0%nat, nmp. split; [f_equal; lia|]. split; [done|].
    split; [unfold eligible; split; [done|lia]|]. split; [lia|].
    intros n' Hin He. specialize (Hall n' Hin He). lia.
  - exists k, n'. split; [done|]. split; [done|]. split; [done|]. split; [lia|done].
Qed.

(** The cell that is chosen from a table: eligible, and no eligible one is better. *)
Definition best_cell (cfg : handover_cfg) (rx : Z) (neigh : list neigh_meas_proc)
    (nmp : neigh_meas_proc) : Prop :=
  nmp ∈ neigh /\ eligible cfg rx nmp /\
  forall nmp', nmp' ∈ neigh -> eligible cfg rx nmp' -> cell_avg cfg nmp' <= cell_avg cfg nmp.

Lemma attempt_handover_outcome net neigh mr :
  let rx := rx_lev (mru_full (mr_dl mr)) in
  cfg_ok (handover net) -> Forall samples_ok neigh -> 0 <= rx <= 255 ->
  exists rc target, attempt_handover net neigh mr = Some (rc, target) /\
    ((exists nmp, ho_active (handover net) <> 0 /\ best_cell (handover net) rx neigh nmp /\
        (rc, target) = handover_to_arfcn_bsic net (nmp_arfcn nmp) (nmp_bsic nmp)) \/
     (rc = 0 /\ target = None /\
        (ho_active (handover net) = 0 \/ forall nmp, nmp ∈ neigh -> ~ eligible (handover net) rx nmp))).
Proof.
  intros rx Hc Ho Hrx. unfold attempt_handover. fold rx.
  destruct (best_cell_loop_spec (handover net) rx neigh 0 None 0 Hc Ho Hrx ltac:(lia))
    as (r & -> & [[-> Hall]|(k & nmp & -> & Hk & He & _ & Hall)]); cbn [mbind option_bind].
  - exists 0, None. split; [done|]. right. split; [done|]. split; [done|]. right.
    intros nmp Hin He. specialize (Hall nmp Hin He). destruct He as (_ & _ & He). lia.
  - cbn [Nat.add]. rewrite Hk. cbn [mbind option_bind].
    destruct (Z.eqb_spec (ho_active (handover net)) 0) as [Ha|Ha].
    + exists 0, None. split; [done|]. right. tauto.
    + destruct (handover_to_arfcn_bsic net (nmp_arfcn nmp) (nmp_bsic nmp)) as [rc target] eqn:Eh.
      exists rc, target. split; [done|]. left. exists nmp. split; [done|]. split; [|done].
      split; [by eapply list_elem_of_lookup_2|done].
Qed.

(** ** The decision *)

(** New samples are octets if the old ones and the levels of the report are. *)
Definition levels_ok (mr : gsm_meas_rep) : Prop := Forall (fun c => in_width 8 (mrc_rxlev c)) (mr_cell mr).

Lemma push_rxlev_ok v nmp : in_width 8 v -> samples_ok nmp -> samples_ok (push_rxlev v nmp).
Proof.
  intros Hv Hs. unfold samples_ok, push_rxlev. upd_norm. cbn [nmp_rxlev]. by apply Forall_insert.
Qed.

Lemma update_neigh_ok mr nmp mr' nmp' :
  update_neigh mr nmp = (mr', nmp') -> levels_ok mr -> samples_ok nmp ->
  levels_ok mr' /\ samples_ok nmp'.
Proof.
  unfold update_neigh. destruct (_ =? 0); [by intros [= <- <-]|].
  destruct (rxlev_for_cell_in_rep mr _ _) as [x mr1] eqn:E. intros Hu Hl Hs.
  assert (levels_ok mr1) as Hl1.
  { unfold rxlev_for_cell_in_rep in E. destruct (list_find _ _) as [[i c]|]; injection E as _ <-; [|done].
    unfold levels_ok. upd_norm. cbn [mr_cell]. apply Forall_alter; [done|]. intros y _ Hy. by upd_norm. }
  destruct (0 <=? x); injection Hu as <- <-; (split; [done|]); apply push_rxlev_ok; try done;
    apply wrap_in_width; lia.
Qed.

Lemma update_neighs_ok l : forall mr mr' l',
  update_neighs mr l = (mr', l') -> levels_ok mr -> Forall samples_ok l ->
  levels_ok mr' /\ Forall samples_ok l'.
Proof.
  induction l as [|nmp l IH]; intros mr mr' l' Hu Hl Hs; cbn in Hu; [by injection Hu as <- <-|].
  destruct (update_neigh mr nmp) as [mr1 nmp1] eqn:E1.
  destruct (update_neighs mr1 l) as [mr2 l2] eqn:E2. injection Hu as <- <-.
  apply Forall_cons in Hs as [Hn Hs]. destruct (update_neigh_ok _ _ _ _ E1 Hl Hn) as [Hl1 Hn1].
  destruct (IH _ _ _ E2 Hl1 Hs) as [Hl2 Hs2]. split; [done|]. by apply Forall_cons.
Qed.

Lemma add_neighs_ok k : forall i mr neigh mr' neigh',
  add_neighs k i mr neigh = Some (mr', neigh') -> levels_ok mr -> Forall samples_ok neigh ->
  Forall samples_ok neigh'.
Proof.
  induction k as [|k IH]; intros i mr neigh mr' neigh' Ha Hl Hs; cbn [add_neighs] in Ha.
  { by injection Ha as <- <-. }
  destruct (add_neigh mr neigh i) as [[mr1 n1]|] eqn:E; [|done]. cbn [mbind option_bind] in Ha.
  assert (levels_ok mr1 /\ Forall samples_ok n1) as [Hl1 Hs1]; [|by eapply IH].
  unfold add_neigh in E. destruct (mr_cell mr !! i) as [c|] eqn:Ec; [|done]. cbn [mbind option_bind] in E.
  destruct (tst _ _); [by injection E as <- <-|].
  destruct (mjoin (find_evict_neigh neigh)) as [j|]; [|done]. cbn [mbind option_bind] in E.
  destruct (neigh !! j) as [nmp|] eqn:Ej; [|done]. cbn [mbind option_bind] in E.
  injection E as <- <-. split.
  - unfold levels_ok. upd_norm. cbn [mr_cell]. apply Forall_alter; [done|]. intros y _ Hy. by upd_norm.
  - apply Forall_insert; [done|]. rewrite Forall_lookup in Hs. specialize (Hs _ _ Ej).
    unfold levels_ok in Hl. rewrite Forall_lookup in Hl. specialize (Hl _ _ Ec).
    unfold samples_ok, push_rxlev in *. upd_norm. cbn [nmp_rxlev]. by apply Forall_insert.
Qed.

Lemma process_meas_neigh_samples mr neigh mr' neigh' :
  process_meas_neigh mr neigh = Some (mr', neigh') -> levels_ok mr -> Forall samples_ok neigh ->
  Forall samples_ok neigh'.
Proof.
  unfold process_meas_neigh. destruct (update_neighs mr neigh) as [mr1 n1] eqn:E. intros Hp Hl Hs.
  destruct (update_neighs_ok _ _ _ _ E Hl Hs) as [Hl1 Hs1]. by eapply add_neighs_ok.
Qed.

(** What a measurement report on a channel has to satisfy. *)
Record meas_ok (lc : gsm_lchan) (mr : gsm_meas_rep) : Prop := {
  mo_cells : cells_ok mr;
  mo_levels : levels_ok mr;
  mo_rx : 0 <= rx_lev (mru_full (mr_dl mr)) <= 255;
  mo_table : table_ok (neigh_meas lc);
  mo_samples : Forall samples_ok (neigh_meas lc)
}.

Lemma rxlev_for_cell_dl mr a b x mr' :
  rxlev_for_cell_in_rep mr a b = (x, mr') -> mr_dl mr' = mr_dl mr.
Proof.
  unfold rxlev_for_cell_in_rep. destruct (list_find _ _) as [[i c]|]; intros [= <- <-]; by upd_norm.
Qed.
Lemma update_neighs_dl l : forall mr mr' l', update_neighs mr l = (mr', l') -> mr_dl mr' = mr_dl mr.
Proof.
  induction l as [|nmp l IH]; intros mr mr' l' Hu; cbn in Hu; [by injection Hu as <- <-|].
  destruct (update_neigh mr nmp) as [mr1 nmp1] eqn:E1.
  destruct (update_neighs mr1 l) as [mr2 l2] eqn:E2. injection Hu as <- <-.
  rewrite (IH _ _ _ E2). unfold update_neigh in E1. destruct (_ =? 0); [by injection E1 as <- <-|].
  destruct (rxlev_for_cell_in_rep mr _ _) as [x mr3] eqn:E3. apply rxlev_for_cell_dl in E3.
  by destruct (0 <=? x); injection E1 as <- <-.
Qed.
Lemma add_neighs_dl k : forall i mr n mr' n', add_neighs k i mr n = Some (mr', n') -> mr_dl mr' = mr_dl mr.
Proof.
  induction k as [|k IH]; intros i mr n mr' n' Ha; cbn [add_neighs] in Ha; [by injection Ha as <- <-|].
  destruct (add_neigh mr n i) as [[mr1 n1]|] eqn:E; [|done]. cbn [mbind option_bind] in Ha.
  rewrite (IH _ _ _ _ _ Ha). unfold add_neigh in E. destruct (mr_cell mr !! i); [|done].
  cbn [mbind option_bind] in E. destruct (tst _ _); [by injection E as <- <-|].
  destruct (mjoin _); [|done]. cbn [mbind option_bind] in E. destruct (_ !! _); [|done].
  cbn [mbind option_bind] in E. injection E as <- <-. by upd_norm.
Qed.

(** The reasons to look for a better cell: three of the last four reports show a bad quality, the
    level is low on average, the mobile is far away, or it is the turn of the power budget. *)
Inductive ho_reason (cfg : handover_cfg) (lc : meas_ring) (mr : gsm_meas_rep) : Prop :=
| ho_bad_quality : meas_rep_n_out_of_m_be lc MEAS_REP_DL_RXQUAL_FULL 3 4 5 <> 0 -> ho_reason cfg lc mr
| ho_low_level :
    rxlev2dbm (u8 (get_meas_rep_avg lc MEAS_REP_DL_RXLEV_FULL (win_rxlev_avg cfg))) <= -110 ->
    ho_reason cfg lc mr
| ho_distance : max_distance cfg < mr_ms_l1_ta mr -> ho_reason cfg lc mr
| ho_power_budget : mr_nr mr mod pwr_interval cfg = 0 -> ho_reason cfg lc mr.

(** A handover to BTS [n] is justified by the channel as it is after the report. *)
Definition justified (net : gsm_network) (rx : Z) (lc : gsm_lchan) (i n : nat) : Prop :=
  ho_active (handover net) <> 0 /\
  (exists mr, meas_rep (lc_meas lc) !! i = Some mr /\
    ho_reason (handover net) (lc_meas lc) mr) /\
  exists nmp, best_cell (handover net) rx (neigh_meas lc) nmp /\
    gsm_bts_neighbor net (nmp_arfcn nmp) (nmp_bsic nmp) = Some n.

(** There is no reason for a handover, or no cell to go to. *)
Definition not_justified (net : gsm_network) (rx : Z) (lc : gsm_lchan) (i : nat) : Prop :=
  ho_active (handover net) = 0 \/
  (exists mr, meas_rep (lc_meas lc) !! i = Some mr /\
    ~ ho_reason (handover net) (lc_meas lc) mr) \/
  (forall nmp, nmp ∈ neigh_meas lc -> ~ eligible (handover net) rx nmp) \/
  exists nmp, best_cell (handover net) rx (neigh_meas lc) nmp /\
    gsm_bts_neighbor net (nmp_arfcn nmp) (nmp_bsic nmp) = None.

Lemma handover_due_iff cfg lc mr :
  pwr_interval cfg <> 0 ->
  exists due, handover_due cfg lc mr = Some due /\ (due = true <-> ho_reason cfg lc mr).
Proof.
  intros Hp. unfold handover_due. apply Z.eqb_neq in Hp. rewrite Hp.
  set (bad := meas_rep_n_out_of_m_be _ _ _ _ _). set (dbm := rxlev2dbm _).
  destruct ((-85 <? dbm) && negb (bad =? 0)) eqn:E1.
  { apply andb_true_iff in E1 as [_ E1]. exists true. split; [done|]. split; [|done].
    intros _. apply ho_bad_quality. fold bad. by apply Z.eqb_neq, negb_true_iff. }
  destruct (Z.eqb_spec bad 0) as [Eb|Eb]; cbn [negb];
    [|exists true; split; [done|]; split; [by intros _; apply ho_bad_quality|done]].
  destruct (Z.leb_spec dbm (-110)) as [El|El];
    [exists true; split; [done|]; split; [by intros _; apply ho_low_level|done]|].
  destruct (Z.ltb_spec (max_distance cfg) (mr_ms_l1_ta mr)) as [Ed|Ed];
    [exists true; split; [done|]; split; [by intros _; apply ho_distance|done]|].
  eexists. split; [done|]. rewrite Z.eqb_eq. split; [by apply ho_power_budget|].
  intros [Hx|Hx|Hx|Hx]; [done|fold dbm in Hx; lia|lia|done].
Qed.

(** The neighbours of the report are taken over. *)
Lemma take_neighbours lc mr :
  meas_ok lc mr ->
  exists mr' neigh', (if (0 <? num_cell mr) && (num_cell mr <? 7)
      then process_meas_neigh mr (neigh_meas lc) else Some (mr, neigh_meas lc)) = Some (mr', neigh') /\
    table_ok neigh' /\ Forall samples_ok neigh' /\ mr_dl mr' = mr_dl mr.
Proof.
  intros [Hcells Hlev Hrx Htab Hsam].
  destruct ((0 <? num_cell mr) && (num_cell mr <? 7)) eqn:E; [|by exists mr, (neigh_meas lc)].
  apply andb_true_iff in E as [_ E]. apply Z.ltb_lt in E.
  destruct (process_meas_neigh_total mr (neigh_meas lc) E Hcells Htab) as (mr' & n' & Hp & _ & Ht).
  exists mr', n'. split; [done|]. split; [done|].
  split; [by eapply process_meas_neigh_samples|].
  unfold process_meas_neigh in Hp. destruct (update_neighs mr (neigh_meas lc)) as [mr1 n1] eqn:Eu.
  by rewrite (add_neighs_dl _ _ _ _ _ _ Hp), (update_neighs_dl _ _ _ _ Eu).
Qed.

Lemma process_tch_outcome net lc i mr :
  cfg_ok (handover net) -> meas_rep (lc_meas lc) !! i = Some mr -> meas_ok lc mr ->
  exists rc lc' target, process_tch_meas_rep net lc i = Some (rc, lc', target) /\
    table_ok (neigh_meas lc') /\ Forall samples_ok (neigh_meas lc') /\
    match target with
    | Some n => justified net (rx_lev (mru_full (mr_dl mr))) lc' i n
    | None => not_justified net (rx_lev (mru_full (mr_dl mr))) lc' i
    end.
Proof.
  intros Hc Hi Hok. unfold process_tch_meas_rep. rewrite Hi. cbn [mbind option_bind].
  destruct (take_neighbours lc mr Hok) as (mr' & neigh' & -> & Htab & Hsam & Hdl).
  cbn [mbind option_bind]. cbn zeta.
  set (ring := mk_meas_ring (<[i := mr']> (meas_rep (lc_meas lc))) (meas_rep_idx (lc_meas lc))).
  set (lc1 := lc <| neigh_meas := neigh' |> <| lc_meas := ring |>).
  assert (Hn1 : neigh_meas lc1 = neigh') by (unfold lc1; by upd_norm).
  assert (Hr1 : lc_meas lc1 = ring) by (unfold lc1; by upd_norm).
  assert (Hmr : meas_rep ring !! i = Some mr').
  { cbn [meas_rep ring]. apply list_lookup_insert_eq. by eapply lookup_lt_Some. }
  destruct (handover_due_iff (handover net) ring mr') as (due & Hdue & Hreason);
    [by destruct Hc as (_ & _ & ?)|].
  rewrite Hdue. cbn [mbind option_bind].
  destruct due.
  2:{ exists 0, lc1, None. rewrite Hn1. split_and!; [done..|]. right. left. rewrite Hr1.
      exists mr'. split; [done|]. by rewrite <- Hreason. }
  destruct (attempt_handover_outcome net neigh' mr' Hc Hsam) as (rc & target & Ha & Hcase).
  { rewrite Hdl. apply Hok. }
  rewrite Ha. cbn [mbind option_bind]. exists rc, lc1, target.
  split; [done|]. rewrite Hn1. split; [done|]. split; [done|]. unfold justified, not_justified.
  rewrite Hr1, Hn1. rewrite Hdl in Hcase.
  destruct Hcase as [(nmp & Hact & Hbest & Hto)|(_ & -> & [Hx|Hx])]; [|tauto..].
  unfold handover_to_arfcn_bsic in Hto.
  destruct (gsm_bts_neighbor net (nmp_arfcn nmp) (nmp_bsic nmp)) eqn:En; injection Hto as _ ->.
  - split; [done|]. split; [exists mr'; split; [done|by apply Hreason]|]. by exists nmp.
  - do 3 right. by exists nmp.
Qed.

(** C38: the measurement report of a channel is processed without leaving an array or dividing by
    zero. A handover is started exactly when it should be: for a traffic channel, with handovers
    enabled, one of the four reasons present and a neighbour in the table that beats the serving
    cell by the hysteresis; it goes to the one with the best average, found in the network by its
    ARFCN and BSIC. When none is started one of these is missing. *)
Theorem handover_decision net lc i mr :
  cfg_ok (handover net) -> meas_rep (lc_meas lc) !! i = Some mr -> meas_ok lc mr ->
  exists rc lc' target, process_meas_rep net lc i = Some (rc, lc', target) /\
    table_ok (neigh_meas lc') /\ Forall samples_ok (neigh_meas lc') /\
    match target with
    | Some n => is_tch (lc_type lc) = true /\
        justified net (rx_lev (mru_full (mr_dl mr))) lc' i n
    | None => is_tch (lc_type lc) = true -> not_justified net (rx_lev (mru_full (mr_dl mr))) lc' i
    end.
Proof.
  intros Hc Hi Hok. destruct (process_tch_outcome net lc i mr Hc Hi Hok) as (rc & lc' & t & Hp & H1 & H2 & H3).
  unfold process_meas_rep.
  destruct (lc_type lc) eqn:Ety;
    first [ exists rc, lc', t; split; [exact Hp|]; split; [done|]; split; [done|]; by destruct t
          | exists 0, lc, None; destruct Hok; by split_and! ].
Qed.

End handover.

(** ** A concrete decision *)

Definition rxlev_dbm (x : Z) : Z := x - 110.

(** One neighbour cell on ARFCN 100, ten reports at level 60. *)
Definition ho_neigh : neigh_meas_proc := mk_neigh_meas_proc 100 7 (replicate 10 60) 10 0.
Definition ho_lchan : gsm_lchan :=
  zero_lchan <| lc_type := GSM_LCHAN_TCH_F |>
    <| neigh_meas := ho_neigh :: replicate 9 zero_neigh |>
    <| lc_meas := mk_meas_ring (replicate 6 (test_rep 20 6)) 0 |>.
Definition ho_bts : gsm_bts :=
  zero_bts <| c0 := Some 0%nat |> <| bsic := 7 |> <| trx_list := [zero_trx <| arfcn := 100 |>] |>.
Definition ho_net : gsm_network :=
  mk_gsm_network 262 42 0 (mk_chreq_policy 0 0 ctype_by_chreq) (mk_handover_cfg 1 6 1 10 6 3 9999)
    1 [ho_bts] 10 3 60 0 0.

Lemma handover_decision_witness :
  exists lc', process_meas_rep rxlev_dbm (fun _ => 0) ho_net ho_lchan 0 = Some (0, lc', Some 0%nat) /\
    justified rxlev_dbm ho_net 20 lc' 0 0.
Proof.
  assert (meas_ok ho_lchan (test_rep 20 6)) as Hok.
  { split; [reflexivity| |cbn; lia|reflexivity|].
    - refine (bool_decide_unpack _ _). vm_compute. exact I.
    - refine (bool_decide_unpack _ _). vm_compute. exact I. }
  destruct (handover_decision rxlev_dbm (fun _ => 0) ho_net ho_lchan 0 (test_rep 20 6)
    ltac:(repeat split; cbn; lia) eq_refl Hok) as (rc & lc' & t & Hp & _ & _ & Hj).
  assert (option_map (fun r => (fst (fst r), snd r))
    (process_meas_rep rxlev_dbm (fun _ => 0) ho_net ho_lchan 0) = Some (0, Some 0%nat)) as Hr
    by (vm_compute; reflexivity).
  rewrite Hp in Hr. injection Hr as -> ->. exists lc'. split; [exact Hp|].
  exact (proj2 Hj).
Defined.

End Handover.
