(* ===== verification/Paging.v ===== *)
(** Paging of subscribers (libbsc/paging.c). Each BTS has a queue of requests and two timers; the
    network pages a subscriber in every cell of its location area.

    A request is named by its subscriber, since a queue never holds two for one subscriber. The
    callbacks of the requests, the messages to the BTS and the counters are events. *)

From S2P Require Import Prelude Chreq Radio ChanAlloc.

Module Paging.
Import ChanAlloc.

(** [RSL_CHANNEED_*] *)
Inductive rsl_channeed : Type :=
| RSL_CHANNEED_ANY
| RSL_CHANNEED_SDCCH
| RSL_CHANNEED_TCH_F
| RSL_CHANNEED_TCH_ForH.

Inductive gsm_paging_event : Type :=
| GSM_PAGING_SUCCEEDED
| GSM_PAGING_EXPIRED
| GSM_PAGING_OOM
| GSM_PAGING_BUSY.

Inductive paging_event : Type :=
| EvPage (subscr : nat) (tmsi : option Z) (chan_type : rsl_channeed)  (* gsm0808_page *)
| EvCallback (cb : nat) (msg : gsm_paging_event) (conn : option nat) (param : nat)
| EvAttempted
| EvExpired
| EvDetached.

Definition GSM_RESERVED_TMSI : Z := 0xFFFFFFFF.

(** A pending request. *)
Record gsm_paging_request : Type := mk_gsm_paging_request {
  rq_subscr : nat;
  chan_type : rsl_channeed;
  rq_T3113 : Z;  (* seconds; it always runs *)
  attempts : Z;
  cbfn : option nat;
  cbfn_param : nat
}.

#[export] Instance upd_rq_subscr : Upd rq_subscr := fun f r => mk_gsm_paging_request (f
  (rq_subscr r)) (chan_type r) (rq_T3113 r) (attempts r) (cbfn r) (cbfn_param r).
#[export] Instance upd_chan_type : Upd chan_type := fun f r => mk_gsm_paging_request (rq_subscr
  r) (f (chan_type r)) (rq_T3113 r) (attempts r) (cbfn r) (cbfn_param r).
#[export] Instance upd_rq_T3113 : Upd rq_T3113 := fun f r => mk_gsm_paging_request (rq_subscr r)
  (chan_type r) (f (rq_T3113 r)) (attempts r) (cbfn r) (cbfn_param r).
#[export] Instance upd_attempts : Upd attempts := fun f r => mk_gsm_paging_request (rq_subscr r)
  (chan_type r) (rq_T3113 r) (f (attempts r)) (cbfn r) (cbfn_param r).
#[export] Instance upd_cbfn : Upd cbfn := fun f r => mk_gsm_paging_request (rq_subscr r)
  (chan_type r) (rq_T3113 r) (attempts r) (f (cbfn r)) (cbfn_param r).
#[export] Instance upd_cbfn_param : Upd cbfn_param := fun f r => mk_gsm_paging_request
  (rq_subscr r) (chan_type r) (rq_T3113 r) (attempts r) (cbfn r) (f (cbfn_param r)).

(** The paging state of a BTS; [free_chans_need] is in the BTS. *)
Record gsm_bts_paging_state : Type := mk_gsm_bts_paging_state {
  pg_bts : bool;  (* the back pointer is set: the state was initialised *)
  pending_requests : list gsm_paging_request;
  work_timer : bool;
  credit_timer : bool;
  available_slots : Z
}.

#[export] Instance upd_pg_bts : Upd pg_bts := fun f r => mk_gsm_bts_paging_state (f (pg_bts r))
  (pending_requests r) (work_timer r) (credit_timer r) (available_slots r).
#[export] Instance upd_pending_requests : Upd pending_requests := fun f r =>
  mk_gsm_bts_paging_state (pg_bts r) (f (pending_requests r)) (work_timer r) (credit_timer r)
  (available_slots r).
#[export] Instance upd_work_timer : Upd work_timer := fun f r => mk_gsm_bts_paging_state (pg_bts
  r) (pending_requests r) (f (work_timer r)) (credit_timer r) (available_slots r).
#[export] Instance upd_credit_timer : Upd credit_timer := fun f r => mk_gsm_bts_paging_state
  (pg_bts r) (pending_requests r) (work_timer r) (f (credit_timer r)) (available_slots r).
#[export] Instance upd_available_slots : Upd available_slots := fun f r =>
  mk_gsm_bts_paging_state (pg_bts r) (pending_requests r) (work_timer r) (credit_timer r) (f
  (available_slots r)).


(** What [talloc_zero] leaves of the paging state of a BTS. *)
Definition zero_paging : gsm_bts_paging_state := mk_gsm_bts_paging_state false [] false false 0.

Section paging.
Context `{LibosmoConst} (pchan_val : gsm_phys_chan_config -> Z).
(** The network, and the TMSI and location area of the subscribers. *)
Context (net : gsm_network) (subscr_tmsi subscr_lac : nat -> Z).

(** * One BTS *)

Abbreviation PM := (M gsm_bts_paging_state paging_event).

Definition paging_init_if_needed : PM unit :=
  modify (fun ps =>
    if pg_bts ps then ps
    else ps <| pg_bts := true |> <| pending_requests := [] |> <| available_slots := 20 |>).

Definition paging_schedule_if_needed : PM unit :=
  modify (fun ps =>
    if bool_decide (pending_requests ps = []) then ps
    else if negb (work_timer ps) then ps <| work_timer := true |> else ps).

(** The request of [subscr] is taken off the queue and given up. *)
Fixpoint remove_request (subscr : nat) (l : list gsm_paging_request) : list gsm_paging_request :=
  match l with
  | [] => []
  | r :: l => if bool_decide (rq_subscr r = subscr) then l else r :: remove_request subscr l
  end.
Definition paging_remove_request (subscr : nat) : PM unit :=
  modify (fun ps => ps <| pending_requests ::= remove_request subscr |>).

Definition page_ms (rq : gsm_paging_request) : PM unit :=
  emit (EvPage (rq_subscr rq)
          (if subscr_tmsi (rq_subscr rq) =? GSM_RESERVED_TMSI then None
           else Some (subscr_tmsi (rq_subscr rq)))
          (chan_type rq)).

(** The sum of two differences of unsigned counters, as an [int]. *)
Definition free_chans (c1 c2 : load_counter) : Z :=
  s32 (u32 (s32 (u32 (total c1 - used c1)) + u32 (total c2 - used c2))).

(** True when there are fewer free channels than needed. [None]: the load is not computable. *)
Definition can_send_pag_req (bts : gsm_bts) (rsl_type : rsl_channeed) : option bool :=
  pl ← bts_chan_load pchan_val (fun _ => mk_load_counter 0 0) bts;
  let policy := net_policy net in
  let tch :=
    match rsl_type with
    | RSL_CHANNEED_TCH_F | RSL_CHANNEED_TCH_ForH => true
    | RSL_CHANNEED_SDCCH => false
    | RSL_CHANNEED_ANY => negb (pag_any_tch policy =? 0)
    end in
  let count :=
    if tch then
      if negb (neci policy =? 0) then free_chans (pl GSM_PCHAN_TCH_F) (pl GSM_PCHAN_TCH_H)
      else free_chans (pl GSM_PCHAN_TCH_F) (mk_load_counter 0 0)
    else free_chans (pl GSM_PCHAN_SDCCH8_SACCH8C) (pl GSM_PCHAN_CCCH_SDCCH4) in
  Some (count <? free_chans_need bts).

(** [skip]: there are not enough free channels. *)
Definition page_first (rq : gsm_paging_request) : PM unit :=
  _ ← page_ms rq;
  _ ← modify (fun ps => ps <| available_slots ::= fun n => u16 (n - 1) |>);
  modify (fun ps => ps <| pending_requests ::= fun l => tail l ++ [rq <| attempts ::= fun a => a + 1 |>] |>).

Definition paging_handle_pending_requests (bts : gsm_bts) : PM unit :=
  ps ← gets id;
  match pending_requests ps with
  | [] => mret tt
  | rq :: _ =>
      if available_slots ps =? 0 then modify (fun ps => ps <| credit_timer := true |>)
      else
        match (if negb (free_chans_need bts =? -1) then can_send_pag_req bts (chan_type rq)
               else Some false) with
        | None => fault
        | Some skip =>
            _ ← (if (skip : bool) then mret tt else page_first rq);
            modify (fun ps => ps <| work_timer := true |>)
        end
  end.

Definition paging_worker (bts : gsm_bts) : PM unit := paging_handle_pending_requests bts.
Definition work_timer_fires (bts : gsm_bts) : PM unit :=
  _ ← modify (fun ps => ps <| work_timer := false |>); paging_worker bts.

Definition paging_give_credit (bts : gsm_bts) : PM unit :=
  _ ← modify (fun ps => ps <| available_slots := 20 |>);
  paging_handle_pending_requests bts.
Definition credit_timer_fires (bts : gsm_bts) : PM unit :=
  _ ← modify (fun ps => ps <| credit_timer := false |>); paging_give_credit bts.

Definition is_for (subscr : nat) (rq : gsm_paging_request) : bool := bool_decide (rq_subscr rq = subscr).

Definition paging_pending_request (subscr : nat) (ps : gsm_bts_paging_state) : bool :=
  existsb (is_for subscr) (pending_requests ps).

(** T3113 of the request of [subscr] expires. *)
Definition paging_T3113_expired (subscr : nat) : PM unit :=
  ps ← gets id;
  match find (is_for subscr) (pending_requests ps) with
  | None => mret tt  (* no such timer *)
  | Some rq =>
      _ ← emit EvExpired;
      let msg := if 0 <? attempts rq then GSM_PAGING_EXPIRED else GSM_PAGING_BUSY in
      _ ← paging_remove_request subscr;
      match cbfn rq with
      | Some cb => emit (EvCallback cb msg None (cbfn_param rq))
      | None => mret tt
      end
  end.

Definition _paging_request (subscr : nat) (type : rsl_channeed) (cb : option nat) (data : nat) : PM Z :=
  ps ← gets id;
  if paging_pending_request subscr ps then mret (- EEXIST)
  else
    let rq := mk_gsm_paging_request subscr type (net_T3113 net) 0 cb data in
    _ ← modify (fun ps => ps <| pending_requests ::= fun l => l ++ [rq] |>);
    _ ← paging_schedule_if_needed;
    mret 0.

(** [conn]: the connection that answered. *)
Definition _paging_request_stop (subscr : nat) (conn : option nat) : PM unit :=
  _ ← paging_init_if_needed;
  ps ← gets id;
  match find (is_for subscr) (pending_requests ps) with
  | None => mret tt
  | Some rq =>
      _ ← match conn, cbfn rq with
          | Some c, Some cb => emit (EvCallback cb GSM_PAGING_SUCCEEDED (Some c) (cbfn_param rq))
          | _, _ => mret tt
          end;
      paging_remove_request subscr
  end.

Definition paging_update_buffer_space (free_slots : Z) : PM unit :=
  _ ← paging_init_if_needed;
  _ ← modify (fun ps => ps <| credit_timer := false |>);
  _ ← modify (fun ps => ps <| available_slots := u16 free_slots |>);
  paging_schedule_if_needed.

Definition paging_pending_requests_nr : PM Z :=
  _ ← paging_init_if_needed;
  ps ← gets id;
  mret (u32 (Z.of_nat (length (pending_requests ps)))).

(** The list head of a BTS that was never initialised holds null pointers. *)
Definition paging_get_data (subscr : nat) : PM (option nat) :=
  ps ← gets id;
  if negb (pg_bts ps) then fault
  else mret (option_map cbfn_param (find (is_for subscr) (pending_requests ps))).

(** * The network: the paging states of its BTSs, in the order of the list *)

Abbreviation NM := (M (list gsm_bts_paging_state) paging_event).

Definition on_bts {A} (b : nat) (m : PM A) : NM A := fun st =>
  match st !! b with
  | None => None
  | Some ps =>
      match m ps with
      | Some (a, ps, ev) => Some (a, <[b := ps]> st, ev)
      | None => None
      end
  end.

(** [trx_is_usable(bts->c0)] *)
Definition bts_usable (b : nat) : option bool :=
  bts ← bts_list net !! b;
  i ← c0 bts;
  trx ← trx_list bts !! i;
  Some (trx_is_usable bts trx).

(** The loop over the location area, from the BTS after [bts] on. *)
Fixpoint paging_request_loop (fuel : nat) (subscr : nat) (type : rsl_channeed) (cb : option nat)
    (data : nat) (bts : option nat) (num_pages : Z) : NM Z :=
  match fuel with
  | O => fault
  | S fuel =>
      match gsm_bts_by_lac net (subscr_lac subscr) bts with
      | None => fault
      | Some None =>
          _ ← when (num_pages =? 0) (emit EvDetached);
          mret num_pages
      | Some (Some b) =>
          match bts_usable b with
          | None => fault
          | Some false => paging_request_loop fuel subscr type cb data (Some b) num_pages
          | Some true =>
              _ ← on_bts b paging_init_if_needed;
              let num_pages := num_pages + 1 in
              rc ← on_bts b (_paging_request subscr type cb data);
              if rc <? 0 then mret rc
              else paging_request_loop fuel subscr type cb data (Some b) num_pages
          end
      end
  end.
Definition paging_request (subscr : nat) (type : rsl_channeed) (cb : option nat) (data : nat) : NM Z :=
  _ ← emit EvAttempted;
  paging_request_loop (S (length (bts_list net))) subscr type cb data None 0.

Fixpoint paging_stop_loop (fuel : nat) (_bts : option nat) (subscr : nat) (bts : option nat) : NM unit :=
  match fuel with
  | O => fault
  | S fuel =>
      match gsm_bts_by_lac net (subscr_lac subscr) bts with
      | None => fault
      | Some None => mret tt
      | Some (Some b) =>
          _ ← (if bool_decide (Some b = _bts) then mret tt
               else on_bts b (_paging_request_stop subscr None));
          paging_stop_loop fuel _bts subscr (Some b)
      end
  end.
Definition paging_request_stop (_bts : option nat) (subscr : nat) (conn : option nat) : NM unit :=
  _ ← match _bts with
      | Some b => on_bts b (_paging_request_stop subscr conn)
      | None => mret tt
      end;
  paging_stop_loop (S (length (bts_list net))) _bts subscr None.

End paging.

End Paging.
