(* ===== verification/PagingProps.v ===== *)
(** Paging works: a queue that is not empty is always waited for by a timer, every request gets its
    turn, and a subscriber is paged in exactly the usable cells of its location area until paging is
    stopped, which leaves the queues as they were. *)

From S2P Require Import Prelude Radio ChanAlloc AllocProps RadioProps Paging.

Module PagingProps.
Import ChanAlloc RadioProps Paging.

Section paging.
Context `{LibosmoConst} (pchan_val : gsm_phys_chan_config -> Z).
Context (net : gsm_network) (subscr_tmsi subscr_lac : nat -> Z).

(** ** One BTS: no request is forgotten *)

Definition subscribers (ps : gsm_bts_paging_state) : list nat := rq_subscr <$> pending_requests ps.

Record paging_ok (ps : gsm_bts_paging_state) : Prop := {
  po_nodup : NoDup (subscribers ps);
  po_live : pending_requests ps <> [] -> work_timer ps = true \/ credit_timer ps = true;
  po_slots : in_width 16 (available_slots ps)
}.

(** Everything that happens to the paging state of a BTS. *)
Inductive paging_op : Type :=
| OpRequest (subscr : nat) (type : rsl_channeed) (cb : option nat) (data : nat)
| OpStop (subscr : nat) (conn : option nat)
| OpT3113 (subscr : nat)
| OpBufferSpace (free_slots : Z)
| OpWorkTimer
| OpCreditTimer.

Definition do_op (bts : gsm_bts) (op : paging_op) : M gsm_bts_paging_state paging_event unit :=
  match op with
  | OpRequest s t cb d => _ ← paging_init_if_needed; _ ← _paging_request net s t cb d; mret tt
  | OpStop s c => _paging_request_stop s c
  | OpT3113 s => paging_T3113_expired s
  | OpBufferSpace n => paging_update_buffer_space n
  | OpWorkTimer => work_timer_fires pchan_val net subscr_tmsi bts
  | OpCreditTimer => credit_timer_fires pchan_val net subscr_tmsi bts
  end.

(** A timer only fires when it runs. *)
Definition may (op : paging_op) (ps : gsm_bts_paging_state) : Prop :=
  match op with
  | OpWorkTimer => work_timer ps = true
  | OpCreditTimer => credit_timer ps = true
  | _ => True
  end.

Inductive paging_reachable (bts : gsm_bts) : gsm_bts_paging_state -> Prop :=
| pr_start : paging_reachable bts zero_paging
| pr_step ps op u ps' ev :
    paging_reachable bts ps -> may op ps -> do_op bts op ps = Some (u, ps', ev) ->
    paging_reachable bts ps'.

Lemma remove_request_subseteq s l : remove_request s l `sublist_of` l.
Proof. induction l as [|r l IH]; cbn; [done|]. case_bool_decide; by constructor. Qed.

Lemma remove_request_nodup s l : NoDup (rq_subscr <$> l) -> NoDup (rq_subscr <$> remove_request s l).
Proof.
  intros Hn. eapply sublist_NoDup; [exact Hn|]. apply fmap_sublist, remove_request_subseteq.
Qed.

Lemma paging_init_ok ps :
  paging_ok ps ->
  exists ps', paging_init_if_needed ps = Some (tt, ps', []) /\ paging_ok ps' /\
    pending_requests ps' = (if pg_bts ps then pending_requests ps else []) /\ pg_bts ps' = true.
Proof.
  intros Hok. eexists. split; [done|]. destruct (pg_bts ps) eqn:E; [done|].
  split; [|by upd_norm]. destruct Hok. split; unfold subscribers; upd_norm; [apply NoDup_nil_2|done|done].
Qed.

Lemma schedule_live ps :
  NoDup (subscribers ps) -> in_width 16 (available_slots ps) ->
  exists ps', paging_schedule_if_needed ps = Some (tt, ps', []) /\ paging_ok ps' /\
    pending_requests ps' = pending_requests ps /\ pg_bts ps' = pg_bts ps.
Proof.
  intros Hn Hs. unfold paging_schedule_if_needed, modify. eexists. split; [done|].
  case_bool_decide as E; [|destruct (work_timer ps) eqn:Ew; cbn [negb]].
  - split; [by split|done].
  - split; [|done]. split; [done|by left|done].
  - split; [|by upd_norm]. split; unfold subscribers; upd_norm; [done|by left|done].
Qed.

(** Whatever the timers were, a queue that has been looked at is waited for. *)
Lemma handle_pending_ok bts ps u ps' ev :
  NoDup (subscribers ps) -> in_width 16 (available_slots ps) ->
  paging_handle_pending_requests pchan_val net subscr_tmsi bts ps = Some (u, ps', ev) ->
  paging_ok ps'.
Proof.
  intros Hn Hs. unfold paging_handle_pending_requests. run_steps. unfold id.
  destruct (pending_requests ps) as [|rq l] eqn:El.
  { intros [= _ <- _]. by split; rewrite ?El. }
  destruct (available_slots ps =? 0) eqn:E0.
  { intros [= _ <- _]. split; unfold subscribers in *; upd_norm; [done|by right|done]. }
  destruct (if negb (free_chans_need bts =? -1) then _ else _) as [skip|]; [|done].
  destruct skip.
  - run_steps. intros [= _ <- _].
    split; unfold subscribers in *; upd_norm; [done|by left|done].
  - unfold page_first, page_ms. run_steps. intros [= _ <- _].
    split; unfold subscribers in *; upd_norm; [|by left|by apply wrap_in_width].
    cbn [pending_requests]. rewrite El in *. cbn [tail]. rewrite fmap_app. cbn [fmap list_fmap].
    upd_norm. cbn [rq_subscr]. rewrite fmap_cons in Hn. apply NoDup_cons in Hn as [H1 H2].
    apply NoDup_app. split; [done|]. split; [|apply NoDup_singleton].
    intros x Hx Hx'. apply list_elem_of_singleton in Hx' as ->. done.
Qed.

Lemma paging_ok_step bts op ps u ps' ev :
  paging_ok ps -> do_op bts op ps = Some (u, ps', ev) -> paging_ok ps'.
Proof.
  intros Hok. destruct op as [s t cb d|s c|s|n| |]; cbn [do_op].
  - destruct (paging_init_ok ps Hok) as (ps1 & Hi & Hok1 & Hp1 & _).
    run_with Hi. unfold _paging_request.
    unfold paging_pending_request. intros Hr.
    destruct (existsb (is_for s) (pending_requests ps1)) eqn:Ee.
    { erewrite run_bind in Hr; [|run_steps; unfold id; rewrite Ee; reflexivity]. cbn in Hr.
      injection Hr as _ <- _. done. }
    destruct Hok1 as [Hn Hl Hs].
    set (ps2 := ps1 <| pending_requests ::= fun l => l ++ [mk_gsm_paging_request s t (net_T3113 net) 0 cb d] |>).
    destruct (schedule_live ps2) as (ps3 & Hsch & Hok3 & _).
    { unfold subscribers, ps2. upd_norm. cbn [pending_requests]. rewrite fmap_app. apply NoDup_app.
      split; [done|]. split; [|apply NoDup_singleton]. intros x Hx Hx'.
      cbn [fmap list_fmap rq_subscr] in Hx'. apply list_elem_of_singleton in Hx' as ->.
      unfold subscribers in Hx. apply list_elem_of_fmap in Hx as (r & -> & Hin).
      assert (existsb (is_for (rq_subscr r)) (pending_requests ps1) = true) as Ht.
      { apply existsb_exists. exists r. split; [by apply list_elem_of_In|].
        unfold is_for. by rewrite bool_decide_true. }
      cbn in Ee. congruence. }
    { unfold ps2. by upd_norm. }
    erewrite run_bind in Hr; [|run_steps; unfold id; rewrite Ee; run_steps;
      fold ps2; erewrite run_bind by exact Hsch; cbn; reflexivity].
    cbn in Hr. by injection Hr as _ <- _.
  - destruct (paging_init_ok ps Hok) as (ps1 & Hi & Hok1 & Hp1 & _).
    unfold _paging_request_stop. run_with Hi. run_steps. unfold id.
    destruct (find (is_for s) (pending_requests ps1)) as [rq|]; [|by intros [= _ <- _]].
    assert (paging_ok (ps1 <| pending_requests ::= remove_request s |>)) as Hrm.
    { destruct Hok1 as [Hn Hl Hs]. split; unfold subscribers; upd_norm; cbn [pending_requests];
        [by apply remove_request_nodup| |done]. intros Hne. apply Hl. intros He.
      rewrite He in Hne. done. }
    unfold paging_remove_request. destruct c, (cbfn rq); run_steps; by intros [= _ <- _].
  - unfold paging_T3113_expired. run_steps. unfold id.
    destruct (find (is_for s) (pending_requests ps)) as [rq|]; [|by intros [= _ <- _]].
    assert (paging_ok (ps <| pending_requests ::= remove_request s |>)) as Hrm.
    { destruct Hok as [Hn Hl Hs]. split; unfold subscribers; upd_norm; cbn [pending_requests];
        [by apply remove_request_nodup| |done]. intros Hne. apply Hl. intros He.
      rewrite He in Hne. done. }
    unfold paging_remove_request. run_steps. destruct (cbfn rq); by intros [= _ <- _].
  - destruct (paging_init_ok ps Hok) as (ps1 & Hi & [Hn Hl Hs] & _).
    unfold paging_update_buffer_space. run_with Hi. run_steps.
    set (ps2 := ps1 <| credit_timer := false |> <| available_slots := u16 n |>).
    destruct (schedule_live ps2) as (ps3 & Hsch & Hok3 & _).
    { unfold subscribers, ps2. by upd_norm. }
    { unfold ps2. upd_norm. by apply wrap_in_width. }
    rewrite Hsch. by intros [= _ <- _].
  - unfold work_timer_fires, paging_worker. run_steps. intros Hr.
    eapply handle_pending_ok; [| |exact Hr]; unfold subscribers; upd_norm; apply Hok.
  - unfold credit_timer_fires, paging_give_credit. run_steps. intros Hr.
    eapply handle_pending_ok; [| |exact Hr]; unfold subscribers; upd_norm; [apply Hok|done].
Qed.

Lemma zero_paging_ok : paging_ok zero_paging.
Proof. split; [apply NoDup_nil_2|done|done]. Qed.

(** C35: No paging request is forgotten. Whatever sequence of requests, answers, expiries of T3113,
    load indications and timer expiries a BTS has seen, a queue that is not empty is waited for by
    the work timer or the credit timer, no subscriber is queued twice, and the number of slots
    stays 16 bits wide. *)
Theorem paging_never_stalls bts ps :
  paging_reachable bts ps ->
  (pending_requests ps <> [] -> work_timer ps = true \/ credit_timer ps = true) /\
  NoDup (subscribers ps) /\ in_width 16 (available_slots ps).
Proof.
  intros Hr. assert (paging_ok ps) as [Hn Hl Hs]; [|done].
  induction Hr as [|ps op u ps' ev _ IH _ Hop]; [apply zero_paging_ok|].
  by eapply paging_ok_step.
Qed.

(** ** One BTS: every request gets its turn *)

(** [k] times the work timer. *)
Fixpoint worker_runs (bts : gsm_bts) (k : nat) : M gsm_bts_paging_state paging_event unit :=
  match k with
  | O => mret tt
  | S k => _ ← work_timer_fires pchan_val net subscr_tmsi bts; worker_runs bts k
  end.

Definition again (rq : gsm_paging_request) : gsm_paging_request := rq <| attempts ::= fun a => a + 1 |>.
Definition paged (rq : gsm_paging_request) : paging_event :=
  EvPage (rq_subscr rq)
    (if subscr_tmsi (rq_subscr rq) =? GSM_RESERVED_TMSI then None
     else Some (subscr_tmsi (rq_subscr rq)))
    (chan_type rq).

Lemma worker_once bts b wt ct n rq l :
  free_chans_need bts = -1 -> 0 < n -> in_width 16 n ->
  work_timer_fires pchan_val net subscr_tmsi bts (mk_gsm_bts_paging_state b (rq :: l) wt ct n) =
    Some (tt, mk_gsm_bts_paging_state b (l ++ [again rq]) true ct (n - 1), [paged rq]).
Proof.
  intros Hf Hn Hw. unfold work_timer_fires, paging_worker, paging_handle_pending_requests.
  run_steps. unfold id. upd_norm. cbn [pending_requests available_slots].
  destruct (Z.eqb_spec n 0) as [->|_]; [lia|]. rewrite Hf. cbn [negb Z.eqb Pos.eqb].
  unfold page_first, page_ms, modify, emit, mbind, M_bind, again, paged. cbn [app tail].
  upd_norm. cbn [pending_requests available_slots tail app]. do 4 f_equal.
  apply wrap_small. unfold in_width in *. lia.
Qed.

Lemma worker_runs_spec bts k b ct n wt l1 l2 :
  free_chans_need bts = -1 -> in_width 16 n -> Z.of_nat k <= n -> k = length l1 ->
  (0 < k)%nat ->
  worker_runs bts k (mk_gsm_bts_paging_state b (l1 ++ l2) wt ct n) =
    Some (tt, mk_gsm_bts_paging_state b (l2 ++ (again <$> l1)) true ct (n - Z.of_nat k), paged <$> l1).
Proof.
  intros Hf. revert n wt l1 l2. induction k as [|k IH]; intros n wt l1 l2 Hw Hk Hl H0; [lia|].
  destruct l1 as [|rq l1]; [done|]. cbn [worker_runs app].
  erewrite run_bind by (apply worker_once; [done|lia|done]).
  destruct k as [|k].
  - destruct l1; [|done]. done.
  - rewrite <- app_assoc. rewrite IH; [|unfold in_width in *; lia|lia|by injection Hl|lia].
    cbn [emits app fmap list_fmap]. rewrite <- app_assoc. cbn [app]. do 4 f_equal. lia.
Qed.

(** Paging is round robin. While there are slots and channels are not reserved, [k] expiries of
    the work timer page exactly the first [k] pending requests, in their order, with the TMSI when
    the subscriber has one, and leave them at the end of the queue with one more attempt each and
    [k] slots used up; the timer runs again. A full round therefore pages everybody once. *)
Theorem paging_round_robin bts ps k :
  free_chans_need bts = -1 -> in_width 16 (available_slots ps) ->
  (0 < k <= length (pending_requests ps))%nat -> Z.of_nat k <= available_slots ps ->
  worker_runs bts k ps =
    Some (tt, ps <| pending_requests ::= fun l => drop k l ++ (again <$> take k l) |>
                 <| available_slots ::= fun n => n - Z.of_nat k |> <| work_timer := true |>,
          paged <$> take k (pending_requests ps)).
Proof.
  intros Hf Hw [H0 Hk] Hn. destruct ps as [b l wt ct n].
  cbn [pending_requests available_slots] in *. upd_norm.
  cbn [pending_requests available_slots]. rewrite <- (take_drop k l) at 1.
  apply worker_runs_spec; [done|done|done| |done]. rewrite length_take. lia.
Qed.

(** ** The network: the cells of a location area *)

(** The BTSs are numbered as [gsm_bts_alloc_register] does. *)
Record bts_numbered : Prop := {
  bn_num : num_bts net = Z.of_nat (length (bts_list net));
  bn_width : in_width 32 (num_bts net);
  bn_nr b bts : bts_list net !! b = Some bts -> bts_nr bts = Z.of_nat b
}.

Definition in_la (lac : Z) (b : nat) : bool :=
  match bts_list net !! b with
  | Some bts => (lac =? GSM_LAC_RESERVED_ALL_BTS) || (location_area_code bts =? lac)
  | None => false
  end.

(** The cells of a location area from number [p] on, in their order. *)
Definition la_from (lac : Z) (p : nat) : list nat :=
  filter (fun b => in_la lac b = true) (seq p (length (bts_list net) - p)).

Lemma gsm_bts_num_at b :
  bts_numbered -> (b < length (bts_list net))%nat -> gsm_bts_num net (Z.of_nat b) = Some b.
Proof.
  intros [Hn Hw Hnr] Hb. unfold gsm_bts_num. rewrite Hn in *.
  rewrite wrap_small by (unfold in_width in *; lia).
  destruct (Z.leb_spec (Z.of_nat (length (bts_list net))) (Z.of_nat b)) as [|_]; [lia|].
  destruct (lookup_lt_is_Some_2 _ _ Hb) as [bts E]. unfold find_idx.
  replace (list_find _ (bts_list net)) with (Some (b, bts)); [done|]. symmetry.
  apply list_find_Some. split_and!; [done|by apply Z.eqb_eq, Hnr|].
  intros j y Hj Hlt He. apply Z.eqb_eq in He. rewrite (Hnr _ _ Hj) in He. lia.
Qed.

Lemma la_from_cons lac p bts :
  bts_list net !! p = Some bts ->
  la_from lac p = if in_la lac p then p :: la_from lac (S p) else la_from lac (S p).
Proof.
  intros E. apply lookup_lt_Some in E as Hlt. unfold la_from.
  replace (length (bts_list net) - p)%nat with (S (length (bts_list net) - S p)) by lia.
  cbn [seq]. rewrite filter_cons. by destruct (in_la lac p).
Qed.
Lemma la_from_end lac p : (length (bts_list net) <= p)%nat -> la_from lac p = [].
Proof. intros Hp. unfold la_from. by replace (_ - p)%nat with O by lia. Qed.

Lemma by_lac_scan lac start k p :
  bts_numbered -> (p + k = length (bts_list net))%nat ->
  bts_by_lac_loop net lac start false k (Z.of_nat p) = Some (head (la_from lac p)).
Proof.
  intros Hbn. revert p. induction k as [|k IH]; intros p Hk; cbn [bts_by_lac_loop].
  { by rewrite la_from_end by lia. }
  rewrite gsm_bts_num_at by (done || lia).
  destruct (lookup_lt_is_Some_2 (bts_list net) p ltac:(lia)) as [bts E].
  rewrite (la_from_cons _ _ _ E). unfold in_la. rewrite E.
  destruct (lac =? GSM_LAC_RESERVED_ALL_BTS); [done|]. cbn [mbind option_bind orb]. rewrite E. cbn [mbind option_bind].
  destruct (location_area_code bts =? lac); [done|].
  replace (Z.of_nat p + 1) with (Z.of_nat (S p)) by lia. apply IH. lia.
Qed.

Lemma by_lac_skip lac s k p :
  bts_numbered -> (p + k = length (bts_list net))%nat -> (p <= s < length (bts_list net))%nat ->
  bts_by_lac_loop net lac (Some s) true k (Z.of_nat p) = Some (head (la_from lac (S s))).
Proof.
  intros Hbn. revert p. induction k as [|k IH]; intros p Hk Hs; cbn [bts_by_lac_loop]; [lia|].
  rewrite gsm_bts_num_at by (done || lia).
  replace (Z.of_nat p + 1) with (Z.of_nat (S p)) by lia.
  case_bool_decide as E; cbn [negb].
  - injection E as <-. apply by_lac_scan; [done|lia].
  - apply IH; [lia|]. assert (s <> p) by congruence. lia.
Qed.

(** Where the loop over a location area goes on after [start]. *)
Definition after (start : option nat) : nat := match start with Some s => S s | None => O end.

Lemma gsm_bts_by_lac_next lac start :
  bts_numbered -> (after start <= length (bts_list net))%nat ->
  gsm_bts_by_lac net lac start = Some (head (la_from lac (after start))).
Proof.
  intros Hbn Hs. unfold gsm_bts_by_lac. rewrite (bn_num Hbn), Nat2Z.id.
  change 0 with (Z.of_nat 0). destruct start as [s|]; cbn [after] in *.
  - rewrite bool_decide_true by done. apply by_lac_skip; [done|done|lia].
  - rewrite bool_decide_false by (by intros [? ?]). by apply by_lac_scan.
Qed.

Lemma la_from_head lac p b :
  head (la_from lac p) = Some b -> (p <= length (bts_list net))%nat ->
  (p <= b < length (bts_list net))%nat /\ la_from lac p = b :: la_from lac (S b).
Proof.
  intros Hh Hp. remember (length (bts_list net) - p)%nat as k eqn:Hk. revert p Hh Hp Hk.
  induction k as [|k IH]; intros p Hh Hp Hk; [by rewrite la_from_end in Hh by lia|].
  destruct (lookup_lt_is_Some_2 (bts_list net) p ltac:(lia)) as [bts E].
  rewrite (la_from_cons _ _ _ E) in *. destruct (in_la lac p).
  - injection Hh as <-. split; [lia|done].
  - destruct (IH (S p)) as [? ?]; [done|lia|lia|]. split; [lia|done].
Qed.

(** ** The network: paging in a location area *)

Lemma run_on_bts {A} b (m : M gsm_bts_paging_state paging_event A) st ps a ps' ev :
  st !! b = Some ps -> m ps = Some (a, ps', ev) -> on_bts b m st = Some (a, <[b := ps']> st, ev).
Proof. intros Hb Hm. unfold on_bts. by rewrite Hb, Hm. Qed.

(** A change of some of the BTSs. *)
Definition on_all (f : gsm_bts_paging_state -> gsm_bts_paging_state) (l : list nat)
    (st : list gsm_bts_paging_state) : list gsm_bts_paging_state :=
  foldl (fun st b => alter f b st) st l.

Lemma lookup_on_all f l st b :
  NoDup l -> on_all f l st !! b = if decide (b ∈ l) then f <$> st !! b else st !! b.
Proof.
  unfold on_all. revert st. induction l as [|a l IH]; intros st Hn; [done|].
  apply NoDup_cons in Hn as [Ha Hn]. cbn [foldl]. rewrite IH by done.
  destruct (decide (b = a)) as [->|Hne].
  - rewrite decide_False by done. rewrite decide_True by left. apply list_lookup_alter_eq.
  - rewrite list_lookup_alter_ne by congruence.
    destruct (decide (b ∈ l)); [rewrite decide_True by by right|rewrite decide_False]; [done..|].
    by intros [?|?]%elem_of_cons.
Qed.
Lemma length_on_all f l st : length (on_all f l st) = length st.
Proof.
  unfold on_all. revert st. induction l as [|a l IH]; intros st; [done|].
  cbn [foldl]. by rewrite IH, length_alter.
Qed.

Definition init (ps : gsm_bts_paging_state) : gsm_bts_paging_state :=
  if pg_bts ps then ps
  else ps <| pg_bts := true |> <| pending_requests := [] |> <| available_slots := 20 |>.
(** A BTS once the subscriber is queued, and once the queueing is undone. *)
Definition requested (s : nat) (t : rsl_channeed) (cb : option nat) (d : nat)
    (ps : gsm_bts_paging_state) : gsm_bts_paging_state :=
  (init ps) <| pending_requests ::= fun l => l ++ [mk_gsm_paging_request s t (net_T3113 net) 0 cb d] |>
    <| work_timer := true |>.
Definition stopped (s : nat) (ps : gsm_bts_paging_state) : gsm_bts_paging_state :=
  (init ps) <| pending_requests ::= remove_request s |>.

Lemma is_for_pending s l : existsb (is_for s) l = bool_decide (s ∈ rq_subscr <$> l).
Proof.
  induction l as [|r l IH]; [done|]. cbn [existsb fmap list_fmap]. rewrite IH. unfold is_for.
  apply Bool.eq_true_iff_eq. rewrite orb_true_iff, !bool_decide_eq_true, elem_of_cons.
  by split; (intros [?|?]; [left|right]).
Qed.

Lemma request_one s t cb d ps :
  s ∉ subscribers (init ps) ->
  paging_init_if_needed ps = Some (tt, init ps, [])
  /\ _paging_request net s t cb d (init ps) = Some (0, requested s t cb d ps, []).
Proof.
  intros Hs. split; [done|]. unfold _paging_request, paging_pending_request. run_steps. unfold id.
  rewrite is_for_pending. unfold subscribers in Hs. rewrite bool_decide_false by done.
  run_steps. unfold paging_schedule_if_needed. run_steps. upd_norm. cbn [pending_requests].
  rewrite bool_decide_false by (by destruct (pending_requests (init ps))).
  unfold requested. upd_norm. cbn [pending_requests].
  destruct (work_timer (init ps)) eqn:E; cbn [negb]; upd_norm; by rewrite ?E.
Qed.

Lemma remove_absent s l : s ∉ rq_subscr <$> l -> remove_request s l = l.
Proof.
  induction l as [|r l IH]; [done|]. cbn [remove_request fmap list_fmap]. intros Hs.
  apply not_elem_of_cons in Hs as [Hne Hs]. rewrite bool_decide_false by congruence. by rewrite IH.
Qed.
Lemma remove_last s l r :
  s ∉ rq_subscr <$> l -> rq_subscr r = s -> remove_request s (l ++ [r]) = l.
Proof.
  intros Hs Hr. induction l as [|x l IH]; cbn [remove_request app].
  - by rewrite bool_decide_true.
  - cbn [fmap list_fmap] in Hs. apply not_elem_of_cons in Hs as [Hne Hs].
    rewrite bool_decide_false by congruence. by rewrite IH.
Qed.

(** The callback of an answered request. *)
Definition answered (s : nat) (conn : option nat) (ps : gsm_bts_paging_state) : list paging_event :=
  match find (is_for s) (pending_requests ps), conn with
  | Some rq, Some c =>
      match cbfn rq with
      | Some cb => [EvCallback cb GSM_PAGING_SUCCEEDED (Some c) (cbfn_param rq)]
      | None => []
      end
  | _, _ => []
  end.

Lemma stop_one s conn ps :
  _paging_request_stop s conn ps = Some (tt, stopped s ps, answered s conn (init ps)).
Proof.
  unfold _paging_request_stop, paging_init_if_needed. run_steps. fold (init ps). unfold id.
  unfold answered, stopped. destruct (find (is_for s) (pending_requests (init ps))) as [rq|] eqn:Ef.
  - unfold paging_remove_request. destruct conn, (cbfn rq); run_steps; done.
  - assert (remove_request s (pending_requests (init ps)) = pending_requests (init ps)) as Hr.
    { apply remove_absent. intros Hs.
      apply list_elem_of_fmap in Hs as (r & -> & Hr%list_elem_of_In).
      pose proof (find_none _ _ Ef _ Hr) as Hf. unfold is_for in Hf.
      by rewrite bool_decide_true in Hf. }
    upd_norm. rewrite Hr. by destruct (init ps).
Qed.

(** The usable cells of a list. *)
Definition usable_of (l : list nat) : list nat := filter (fun b => bts_usable net b = Some true) l.

Lemma request_loop_spec s t cb d fuel start num st :
  bts_numbered -> length st = length (bts_list net) ->
  (after start <= length (bts_list net))%nat ->
  (length (la_from (subscr_lac s) (after start)) < fuel)%nat ->
  (forall b, b ∈ la_from (subscr_lac s) (after start) -> is_Some (bts_usable net b)) ->
  (forall b ps, (after start <= b)%nat -> st !! b = Some ps -> s ∉ subscribers (init ps)) ->
  0 <= num ->
  let cells := usable_of (la_from (subscr_lac s) (after start)) in
  let n := num + Z.of_nat (length cells) in
  paging_request_loop net subscr_lac fuel s t cb d start num st =
    Some (n, on_all (requested s t cb d) cells st, if n =? 0 then [EvDetached] else []).
Proof.
  intros Hbn. revert start num st.
  induction fuel as [|fuel IH]; intros start num st Hlen Ha Hf Hu Hs Hn cells n; [lia|].
  cbn [paging_request_loop]. rewrite gsm_bts_by_lac_next by done.
  destruct (head (la_from (subscr_lac s) (after start))) as [b|] eqn:Eh.
  - destruct (la_from_head _ _ _ Eh Ha) as [Hb Ec].
    unfold n, cells. rewrite Ec in *. destruct (Hu b ltac:(by left)) as [u Eu]. rewrite Eu.
    unfold usable_of. rewrite filter_cons. cbn [length] in Hf.
    assert (forall b', b' ∈ la_from (subscr_lac s) (S b) -> is_Some (bts_usable net b')) as Hu'.
    { intros b' Hb'. apply Hu. by right. }
    destruct u; [rewrite decide_True by done|rewrite decide_False by congruence].
    + destruct (lookup_lt_is_Some_2 st b ltac:(lia)) as [ps Eps].
      destruct (request_one s t cb d ps) as [Hi Hr]; [by eapply (Hs b); [lia|]|].
      erewrite run_bind by (eapply run_on_bts; [exact Eps|exact Hi]). rewrite emits_nil.
      erewrite run_bind; [|eapply run_on_bts;
        [by apply list_lookup_insert_eq; apply lookup_lt_Some in Eps|exact Hr]].
      rewrite emits_nil. cbn [Z.ltb Z.compare]. rewrite list_insert_insert_eq.
      rewrite (list_insert_alter (requested s t cb d)) by done.
      rewrite (IH (Some b) (num + 1)); cbn [after];
        [|by rewrite length_alter|lia|lia|done| |lia].
      * cbn [length]. unfold usable_of. cbn [on_all foldl]. unfold on_all. cbn [foldl].
        by replace (num + 1 + _) with (num + Z.of_nat (S (length (filter
          (fun b => bts_usable net b = Some true) (la_from (subscr_lac s) (S b)))))) by lia.
      * intros b' ps' Hb'. rewrite list_lookup_alter_ne by lia. apply Hs. lia.
    + rewrite (IH (Some b) num); cbn [after]; [done|done|lia|lia|done| |done].
      intros b' ps' Hb'. apply Hs. lia.
  - unfold n, cells. destruct (la_from _ _) as [|? ?]; [|done]. cbn [length usable_of filter].
    rewrite Z.add_0_r. by destruct (num =? 0).
Qed.

Lemma stop_loop_spec s _bts fuel start st :
  bts_numbered -> length st = length (bts_list net) ->
  (after start <= length (bts_list net))%nat ->
  (length (la_from (subscr_lac s) (after start)) < fuel)%nat ->
  paging_stop_loop net subscr_lac fuel _bts s start st =
    Some (tt, on_all (stopped s)
                (filter (fun b => Some b <> _bts) (la_from (subscr_lac s) (after start))) st, []).
Proof.
  intros Hbn. revert start st. induction fuel as [|fuel IH]; intros start st Hlen Ha Hf; [lia|].
  cbn [paging_stop_loop]. rewrite gsm_bts_by_lac_next by done.
  destruct (head (la_from (subscr_lac s) (after start))) as [b|] eqn:Eh.
  - destruct (la_from_head _ _ _ Eh Ha) as [Hb Ec]. rewrite Ec in *. cbn [length] in Hf.
    rewrite filter_cons. destruct (decide (Some b <> _bts)) as [Hne|He].
    + rewrite bool_decide_false by done.
      destruct (lookup_lt_is_Some_2 st b ltac:(lia)) as [ps Eps].
      erewrite run_bind by (eapply run_on_bts; [exact Eps|apply stop_one]).
      rewrite (list_insert_alter (stopped s)) by done.
      rewrite (IH (Some b)); cbn [after]; [|by rewrite length_alter|lia|lia].
      unfold answered. by destruct (find _ _).
    + rewrite bool_decide_true by (by destruct (decide (Some b = _bts))).
      rewrite run_ret. by rewrite (IH (Some b)); cbn [after]; [|done|lia|lia].
  - by destruct (la_from _ _).
Qed.

(** The usable cells of the location area of a subscriber. *)
Definition reached (s : nat) : list nat := usable_of (la_from (subscr_lac s) 0).

Lemma la_from_nodup lac p : NoDup (la_from lac p).
Proof. apply NoDup_filter, NoDup_ListNoDup, seq_NoDup. Qed.
Lemma reached_nodup s : NoDup (reached s).
Proof. apply NoDup_filter, la_from_nodup. Qed.
Lemma length_la_from lac p : (length (la_from lac p) <= length (bts_list net) - p)%nat.
Proof. unfold la_from. etrans; [apply length_filter|]. by rewrite length_seq. Qed.

Lemma paging_request_reaches s t cb d st :
  bts_numbered -> length st = length (bts_list net) ->
  (forall b, b ∈ la_from (subscr_lac s) 0 -> is_Some (bts_usable net b)) ->
  (forall ps, ps ∈ st -> s ∉ subscribers (init ps)) ->
  paging_request net subscr_lac s t cb d st =
    Some (Z.of_nat (length (reached s)), on_all (requested s t cb d) (reached s) st,
          EvAttempted :: if bool_decide (reached s = []) then [EvDetached] else []).
Proof.
  intros Hbn Hlen Hu Hs. unfold paging_request. rewrite run_emit.
  pose proof (length_la_from (subscr_lac s) 0) as Hle.
  rewrite request_loop_spec; cbn [after]; [|done|done|lia|lia|done| |lia].
  - unfold reached. destruct (usable_of _); [done|]. cbn [length].
    rewrite bool_decide_false by done. by destruct (Z.eqb_spec (0 + Z.of_nat (S (length l))) 0); [lia|].
  - intros b ps _ Hb. apply Hs. by eapply list_elem_of_lookup_2.
Qed.

Definition stop_events (s : nat) (_bts conn : option nat) (st : list gsm_bts_paging_state) :
    list paging_event :=
  match _bts ≫= fun b => st !! b with
  | Some ps => answered s conn (init ps)
  | None => []
  end.
(** The cells that [paging_request_stop] looks at. *)
Definition stop_cells (s : nat) (_bts : option nat) : list nat :=
  option_list _bts ++ filter (fun b => Some b <> _bts) (la_from (subscr_lac s) 0).

Lemma paging_request_stop_spec s _bts conn st :
  bts_numbered -> length st = length (bts_list net) ->
  (forall b, _bts = Some b -> (b < length (bts_list net))%nat) ->
  paging_request_stop net subscr_lac _bts s conn st =
    Some (tt, on_all (stopped s) (stop_cells s _bts) st, stop_events s _bts conn st).
Proof.
  intros Hbn Hlen Hb. unfold paging_request_stop, stop_events, stop_cells.
  pose proof (length_la_from (subscr_lac s) 0) as Hle.
  destruct _bts as [b|]; cbn [option_list app mbind option_bind].
  - specialize (Hb b eq_refl). destruct (lookup_lt_is_Some_2 st b ltac:(lia)) as [ps Eps].
    rewrite Eps. erewrite run_bind by (eapply run_on_bts; [exact Eps|apply stop_one]).
    rewrite (list_insert_alter (stopped s)) by done.
    rewrite stop_loop_spec; cbn [after]; [|done|by rewrite length_alter|lia|lia].
    unfold on_all. cbn [foldl emits]. by rewrite app_nil_r.
  - rewrite run_ret, stop_loop_spec; cbn [after]; [done|done|done|lia|lia].
Qed.

Lemma stop_cells_nodup s _bts : NoDup (stop_cells s _bts).
Proof.
  unfold stop_cells. apply NoDup_app. split_and!.
  - destruct _bts; [apply NoDup_singleton|apply NoDup_nil_2].
  - intros x Hx [Hne _]%list_elem_of_filter. destruct _bts as [b|]; cbn [option_list] in Hx.
    + apply list_elem_of_singleton in Hx as ->. done.
    + by apply not_elem_of_nil in Hx.
  - apply NoDup_filter, la_from_nodup.
Qed.
Lemma reached_stop_cells s _bts b : b ∈ reached s -> b ∈ stop_cells s _bts.
Proof.
  intros [_ Hb]%list_elem_of_filter. unfold stop_cells. apply elem_of_app.
  destruct (decide (Some b = _bts)) as [<-|Hne]; [left; by apply list_elem_of_singleton|right].
  by apply list_elem_of_filter.
Qed.

Lemma init_idem ps : init (init ps) = init ps.
Proof. unfold init. by destruct (pg_bts ps) eqn:E; [rewrite E|]. Qed.
Lemma init_requested s t cb d ps : init (requested s t cb d ps) = requested s t cb d ps.
Proof. unfold requested, init. destruct (pg_bts ps) eqn:E; upd_norm; by rewrite ?E. Qed.

Lemma requested_pending s t cb d ps :
  pending_requests (requested s t cb d ps) =
    pending_requests (init ps) ++ [mk_gsm_paging_request s t (net_T3113 net) 0 cb d].
Proof. unfold requested. by upd_norm. Qed.

Lemma stopped_pending s ps :
  s ∉ subscribers (init ps) -> pending_requests (stopped s ps) = pending_requests (init ps).
Proof. intros Hs. unfold stopped. upd_norm. by apply remove_absent. Qed.
Lemma stopped_requested s t cb d ps :
  s ∉ subscribers (init ps) ->
  pending_requests (stopped s (requested s t cb d ps)) = pending_requests (init ps).
Proof.
  intros Hs. unfold stopped. rewrite init_requested.
  transitivity (remove_request s (pending_requests (requested s t cb d ps))); [done|].
  rewrite requested_pending. by apply remove_last.
Qed.

Lemma init_stopped s ps : init (stopped s ps) = stopped s ps.
Proof. unfold stopped, init. destruct (pg_bts ps) eqn:E; upd_norm; by rewrite ?E. Qed.

Lemma find_for_absent s l : s ∉ rq_subscr <$> l -> find (is_for s) l = None.
Proof.
  induction l as [|r l IH]; [done|]. cbn [find fmap list_fmap]. intros Hs.
  apply not_elem_of_cons in Hs as [Hne Hs]. unfold is_for at 1.
  rewrite bool_decide_false by congruence. by apply IH.
Qed.
Lemma find_for_app s t n a cb d l :
  s ∉ rq_subscr <$> l ->
  find (is_for s) (l ++ [mk_gsm_paging_request s t n a cb d]) = Some (mk_gsm_paging_request s t n a cb d).
Proof.
  induction l as [|r l IH]; cbn [find app fmap list_fmap]; intros Hs.
  - unfold is_for. by rewrite bool_decide_true.
  - apply not_elem_of_cons in Hs as [Hne Hs]. unfold is_for at 1. cbn [rq_subscr] in Hne.
    rewrite bool_decide_false by congruence. by apply IH.
Qed.

(** C11: Paging covers a location area and can be undone. A subscriber that is not queued anywhere
    is queued, once, in exactly the usable cells of its location area, and their number is
    returned; every other BTS is left as it was. When paging then stops, whichever BTS the answer
    comes from, every queue is again what it was, and the callback is called exactly when the
    answer comes on a connection in one of the cells that paged. *)
Theorem paging_location_area s t cb d st :
  bts_numbered -> length st = length (bts_list net) ->
  (forall b, b ∈ la_from (subscr_lac s) 0 -> is_Some (bts_usable net b)) ->
  (forall ps, ps ∈ st -> s ∉ subscribers (init ps)) ->
  exists st1 ev1,
    paging_request net subscr_lac s t cb d st = Some (Z.of_nat (length (reached s)), st1, ev1) /\
    (forall b ps, st !! b = Some ps ->
       exists ps1, st1 !! b = Some ps1 /\
         if decide (b ∈ reached s)
         then pending_requests ps1 =
                pending_requests (init ps) ++ [mk_gsm_paging_request s t (net_T3113 net) 0 cb d] /\
              work_timer ps1 = true
         else ps1 = ps) /\
    forall _bts conn, (forall b, _bts = Some b -> (b < length (bts_list net))%nat) ->
      exists st2 ev2,
        paging_request_stop net subscr_lac _bts s conn st1 = Some (tt, st2, ev2) /\
        (forall b ps2 ps, st2 !! b = Some ps2 -> st !! b = Some ps ->
           pending_requests (init ps2) = pending_requests (init ps)) /\
        ev2 = match _bts, conn, cb with
              | Some b, Some c, Some f =>
                  if decide (b ∈ reached s) then [EvCallback f GSM_PAGING_SUCCEEDED (Some c) d] else []
              | _, _, _ => []
              end.
Proof.
  intros Hbn Hlen Hu Hs. do 2 eexists. split; [by apply paging_request_reaches|]. split.
  - intros b ps Hb. rewrite lookup_on_all by apply reached_nodup. rewrite Hb.
    destruct (decide (b ∈ reached s)); (eexists; split; [done|]); [|done].
    split; [apply requested_pending|done].
  - intros _bts conn Hbts. do 2 eexists.
    split; [apply paging_request_stop_spec; by rewrite ?length_on_all|]. split.
    + intros b ps2 ps Hb2 Hb.
      specialize (Hs ps (list_elem_of_lookup_2 _ _ _ Hb)).
      rewrite lookup_on_all in Hb2 by apply stop_cells_nodup.
      rewrite lookup_on_all in Hb2 by apply reached_nodup. rewrite Hb in Hb2.
      destruct (decide (b ∈ reached s)) as [Hr|Hr].
      * rewrite decide_True in Hb2 by by apply reached_stop_cells.
        injection Hb2 as <-. rewrite init_stopped. by apply stopped_requested.
      * destruct (decide (b ∈ stop_cells s _bts)); injection Hb2 as <-; [|done].
        rewrite init_stopped. by apply stopped_pending.
    + unfold stop_events. destruct _bts as [b|]; [|done]. cbn [mbind option_bind].
      destruct (lookup_lt_is_Some_2 st b) as [ps Hb]; [rewrite Hlen; by apply Hbts|].
      specialize (Hs ps (list_elem_of_lookup_2 _ _ _ Hb)).
      rewrite lookup_on_all by apply reached_nodup. rewrite Hb.
      destruct (decide (b ∈ reached s)); cbn [fmap option_fmap option_map].
      * rewrite init_requested. unfold answered. rewrite requested_pending.
        rewrite find_for_app by done. by destruct conn, cb.
      * unfold answered. rewrite find_for_absent by done. by destruct conn, cb.
Qed.

End paging.
(** ** Runs *)

(** One BTS, in every location area. *)
Definition one_cell : gsm_network := test_net <| bts_list ::= fmap (fun bts => bts <| c0 := Some 0%nat |>) |>.
Definition test_bts_0 : gsm_bts := default test_bts (bts_list one_cell !! 0%nat).
Definition rq (s : nat) : gsm_paging_request := mk_gsm_paging_request s RSL_CHANNEED_SDCCH 60 0 (Some 3%nat) s.
Definition all_in_la (s : nat) : Z := 0xfffe.
Definition two_waiting : gsm_bts_paging_state := mk_gsm_bts_paging_state true [rq 1; rq 2] true false 20.

Lemma paging_never_stalls_witness :
  exists ps, @paging_reachable test_const test_pchan_val one_cell (fun _ => 5) test_bts_0 ps /\
    length (pending_requests ps) = 1%nat /\ (work_timer ps = true \/ credit_timer ps = true).
Proof.
  assert (@paging_reachable test_const test_pchan_val one_cell (fun _ => 5) test_bts_0
            (mk_gsm_bts_paging_state true [rq 1] true false 20)) as Hr.
  { eapply (pr_step _ _ _ _ zero_paging (OpRequest 1 RSL_CHANNEED_SDCCH (Some 3%nat) 1) tt _ []);
      [apply pr_start|done|vm_compute; reflexivity]. }
  eexists. split; [exact Hr|]. split; [done|].
  apply (@paging_never_stalls test_const test_pchan_val one_cell (fun _ => 5) test_bts_0 _ Hr).
  discriminate.
Defined.

Lemma paging_round_robin_witness :
  @worker_runs test_const test_pchan_val one_cell (fun _ => 5)
    (test_bts_0 <| free_chans_need := -1 |>) 2 two_waiting =
  Some (tt, mk_gsm_bts_paging_state true [again (rq 1); again (rq 2)] true false 18,
        [EvPage 1 (Some 5) RSL_CHANNEED_SDCCH; EvPage 2 (Some 5) RSL_CHANNEED_SDCCH]).
Proof.
  refine (@paging_round_robin test_const test_pchan_val one_cell (fun _ => 5)
            (test_bts_0 <| free_chans_need := -1 |>) two_waiting 2 _ _ _ _).
  - reflexivity.
  - split; [discriminate|reflexivity].
  - cbn. lia.
  - discriminate.
Defined.

Lemma paging_location_area_witness :
  exists st1 ev1,
    @paging_request test_const one_cell all_in_la 1 RSL_CHANNEED_SDCCH (Some 3%nat) 9 [zero_paging] =
      Some (1, st1, ev1).
Proof.
  assert (@bts_numbered one_cell) as Hbn.
  { split; [reflexivity|split; [discriminate|reflexivity]|].
    intros [|b] bts Hb; [injection Hb as <-; reflexivity|discriminate]. }
  destruct (@paging_location_area test_const one_cell all_in_la 1 RSL_CHANNEED_SDCCH (Some 3%nat) 9
              [zero_paging] Hbn eq_refl) as (st1 & ev1 & Hr & _).
  - intros b Hb. apply list_elem_of_filter in Hb as [_ Hb%list_elem_of_In].
    apply in_seq in Hb. destruct b; [|exfalso; cbn in Hb; lia]. by eexists true.
  - intros ps Hps%list_elem_of_singleton. subst. apply not_elem_of_nil.
  - exists st1, ev1. refine (eq_trans Hr _). reflexivity.
Defined.

End PagingProps.
