(* ===== verification/Bsc.v ===== *)
(** Connections of subscribers and the channels they use: assignment (libbsc/bsc_api.c), handover
    (libbsc/handover_logic.c) and the establishment of radio links (libbsc/bsc_rll.c), with the
    parts of libbsc/gsm_04_08_utils.c and libbsc/abis_rsl.c that meet there.

    The three files point into each other: a channel names its connection, a connection up to three
    channels, a handover and a link request name channels. The model keeps the pointers as they are:
    a channel is named by its BTS and its path, a connection by a number that is never reused.
    Signals are dispatched where the code dispatches them, unlike in ChanAlloc.v and Rsl.v. *)

From S2P Require Import Prelude Chreq Radio ChanAlloc Rsl.

Module Bsc.
Export Rsl.

(** BTS and path. *)
Definition lref : Type := (nat * path)%type.

Inductive gsm0808_cause : Type :=
| GSM0808_CAUSE_0
| GSM0808_CAUSE_RADIO_INTERFACE_MESSAGE_FAILURE
| GSM0808_CAUSE_RADIO_INTERFACE_FAILURE
| GSM0808_CAUSE_NO_RADIO_RESOURCE_AVAILABLE.

Inductive bsc_rllr_ind : Type :=
| BSC_RLLR_IND_EST_CONF
| BSC_RLLR_IND_REL_IND
| BSC_RLLR_IND_ERR_IND
| BSC_RLLR_IND_TIMEOUT.
#[export] Instance rllr_ind_eq_dec : EqDecision bsc_rllr_ind.
Proof. solve_decision. Defined.

Inductive ho_counter : Type := HO_attempted | HO_no_channel | HO_timeout | HO_completed | HO_failed.
#[export] Instance ho_counter_eq_dec : EqDecision ho_counter.
Proof. solve_decision. Defined.

(** What leaves this part: messages to the mobile and the BTS, and the callbacks of the MSC side
    ([struct bsc_api]). *)
Inductive bsc_event : Type :=
| Chan_ev (b : nat) (e : rsl_event)
| EvAssCmd (dest new : lref) (power : Z)             (* gsm48_send_rr_ass_cmd *)
| EvHoCmd (old new : lref) (power ho_ref : Z)        (* gsm48_send_ho_cmd *)
| EvModeModify (l : lref) (mode : gsm48_chan_mode)   (* gsm48_tx_chan_mode_modify *)
| EvCrcx (l : lref)                                  (* rsl_ipacc_crcx *)
| EvDataReq (l : lref) (link_id : Z) (msg : nat)     (* rsl_data_request *)
| EvEstReq (l : lref) (link_id : Z)                  (* rsl_establish_request *)
| EvMsgFree (msg : nat)                              (* msgb_free *)
| EvSubscrPut (c : nat)                              (* subscr_put of its subscriber *)
| EvHo (n : ho_counter)
| EvHandoverAck (old new : lref)                     (* S_HANDOVER_ACK *)
| ApiComplL3 (c : nat)
| ApiDtap (c : nat) (link_id : Z)
| ApiAssignCompl (c : nat) (rr_cause chosen : Z) (alg speech : Z)
| ApiAssignFail (c : nat) (cause : gsm0808_cause) (rr_cause : option Z)
| ApiClearRequest (c : nat)
| ApiCipherCompl (c : nat) (alg : Z)
| ApiSapiReject (c : nat) (link_id : Z).

(** A connection of a subscriber. *)
Record gsm_subscriber_connection : Type := mk_conn {
  cn_lchan : option lref;
  cn_ho_lchan : option lref;
  cn_secondary : option lref;
  cn_bts : option nat;
  cn_T10 : bool;  (* it runs *)
  cn_subscr : bool  (* conn->subscr is set: the mobile was identified *)
}.

#[export] Instance upd_cn_lchan : Upd cn_lchan := fun f r =>
  mk_conn (f (cn_lchan r)) (cn_ho_lchan r) (cn_secondary r) (cn_bts r) (cn_T10 r) (cn_subscr r).
#[export] Instance upd_cn_ho_lchan : Upd cn_ho_lchan := fun f r =>
  mk_conn (cn_lchan r) (f (cn_ho_lchan r)) (cn_secondary r) (cn_bts r) (cn_T10 r) (cn_subscr r).
#[export] Instance upd_cn_secondary : Upd cn_secondary := fun f r =>
  mk_conn (cn_lchan r) (cn_ho_lchan r) (f (cn_secondary r)) (cn_bts r) (cn_T10 r) (cn_subscr r).
#[export] Instance upd_cn_bts : Upd cn_bts := fun f r =>
  mk_conn (cn_lchan r) (cn_ho_lchan r) (cn_secondary r) (f (cn_bts r)) (cn_T10 r) (cn_subscr r).
#[export] Instance upd_cn_T10 : Upd cn_T10 := fun f r =>
  mk_conn (cn_lchan r) (cn_ho_lchan r) (cn_secondary r) (cn_bts r) (f (cn_T10 r)) (cn_subscr r).
#[export] Instance upd_cn_subscr : Upd cn_subscr := fun f r =>
  mk_conn (cn_lchan r) (cn_ho_lchan r) (cn_secondary r) (cn_bts r) (cn_T10 r) (f (cn_subscr r)).

(** A handover in progress. *)
Record bsc_handover : Type := mk_bsc_handover {
  old_lchan : lref;
  new_lchan : lref;
  T3103 : bool;  (* it runs *)
  ho_ref : Z
}.

#[export] Instance upd_old_lchan : Upd old_lchan := fun f r => mk_bsc_handover (f (old_lchan r))
  (new_lchan r) (T3103 r) (ho_ref r).
#[export] Instance upd_new_lchan : Upd new_lchan := fun f r => mk_bsc_handover (old_lchan r) (f
  (new_lchan r)) (T3103 r) (ho_ref r).
#[export] Instance upd_T3103 : Upd T3103 := fun f r => mk_bsc_handover (old_lchan r) (new_lchan
  r) (f (T3103 r)) (ho_ref r).
#[export] Instance upd_ho_ref : Upd ho_ref := fun f r => mk_bsc_handover (old_lchan r)
  (new_lchan r) (T3103 r) (f (ho_ref r)).

(** A request for a radio link; its timer always runs. The only callback is [rll_ind_cb]. *)
Record bsc_rll_req : Type := mk_bsc_rll_req {
  rr_lchan : lref;
  rr_link_id : Z;
  rr_msg : nat;  (* the message that waits, the data of the callback *)
  rr_msg_link : Z  (* OBSC_LINKID_CB of it *)
}.

#[export] Instance upd_rr_lchan : Upd rr_lchan := fun f r => mk_bsc_rll_req (f (rr_lchan r))
  (rr_link_id r) (rr_msg r) (rr_msg_link r).
#[export] Instance upd_rr_link_id : Upd rr_link_id := fun f r => mk_bsc_rll_req (rr_lchan r) (f
  (rr_link_id r)) (rr_msg r) (rr_msg_link r).
#[export] Instance upd_rr_msg : Upd rr_msg := fun f r => mk_bsc_rll_req (rr_lchan r) (rr_link_id
  r) (f (rr_msg r)) (rr_msg_link r).
#[export] Instance upd_rr_msg_link : Upd rr_msg_link := fun f r => mk_bsc_rll_req (rr_lchan r)
  (rr_link_id r) (rr_msg r) (f (rr_msg_link r)).

(** The channels, the connections and the three lists. *)
Record bsc_state : Type := mk_bsc_state {
  btss : list gsm_bts;
  conns : gmap nat gsm_subscriber_connection;  (* sub_connections *)
  next_conn : nat;
  bsc_handovers : list bsc_handover;
  next_ho_ref : Z;  (* the static variable of bsc_handover_start *)
  stray_T3103 : nat;  (* timers of handovers that were freed while they ran *)
  bsc_rll_reqs : list bsc_rll_req
}.

#[export] Instance upd_btss : Upd btss := fun f r => mk_bsc_state (f (btss r)) (conns r)
  (next_conn r) (bsc_handovers r) (next_ho_ref r) (stray_T3103 r) (bsc_rll_reqs r).
#[export] Instance upd_conns : Upd conns := fun f r => mk_bsc_state (btss r) (f (conns r))
  (next_conn r) (bsc_handovers r) (next_ho_ref r) (stray_T3103 r) (bsc_rll_reqs r).
#[export] Instance upd_next_conn : Upd next_conn := fun f r => mk_bsc_state (btss r) (conns r)
  (f (next_conn r)) (bsc_handovers r) (next_ho_ref r) (stray_T3103 r) (bsc_rll_reqs r).
#[export] Instance upd_bsc_handovers : Upd bsc_handovers := fun f r => mk_bsc_state (btss r)
  (conns r) (next_conn r) (f (bsc_handovers r)) (next_ho_ref r) (stray_T3103 r) (bsc_rll_reqs r).
#[export] Instance upd_next_ho_ref : Upd next_ho_ref := fun f r => mk_bsc_state (btss r) (conns
  r) (next_conn r) (bsc_handovers r) (f (next_ho_ref r)) (stray_T3103 r) (bsc_rll_reqs r).
#[export] Instance upd_stray_T3103 : Upd stray_T3103 := fun f r => mk_bsc_state (btss r) (conns
  r) (next_conn r) (bsc_handovers r) (next_ho_ref r) (f (stray_T3103 r)) (bsc_rll_reqs r).
#[export] Instance upd_bsc_rll_reqs : Upd bsc_rll_reqs := fun f r => mk_bsc_state (btss r)
  (conns r) (next_conn r) (bsc_handovers r) (next_ho_ref r) (stray_T3103 r) (f (bsc_rll_reqs r)).


(** * Channel types and modes of GSM 08.08 *)

Definition chosen_mode (m : gsm48_chan_mode) : Z :=
  match m with
  | GSM48_CMODE_SPEECH_V1 | GSM48_CMODE_SPEECH_EFR | GSM48_CMODE_SPEECH_AMR => 0x9
  | GSM48_CMODE_SIGN => 0x8
  | GSM48_CMODE_DATA_14k5 => 0xe
  | GSM48_CMODE_DATA_12k0 => 0xb
  | GSM48_CMODE_DATA_6k0 => 0xc
  | GSM48_CMODE_DATA_3k6 => 0xd
  | GSM48_CMODE_OTHER _ => 0
  end.
Definition chosen_type (t : gsm_chan_t) : Z :=
  match t with
  | GSM_LCHAN_NONE => 0x0
  | GSM_LCHAN_SDCCH => 0x1
  | GSM_LCHAN_TCH_F => 0x8
  | GSM_LCHAN_TCH_H => 0x9
  | GSM_LCHAN_UNKNOWN => 0
  end.
Definition lchan_to_chosen_channel (lc : gsm_lchan) : Z :=
  (chosen_mode (tch_mode lc) .<< 4) .| chosen_type (lc_type lc).

Definition chan_mode_to_speech (lc : gsm_lchan) : Z :=
  let half m := if bool_decide (lc_type lc = GSM_LCHAN_TCH_H) ||
                   bool_decide (tch_mode lc = GSM48_CMODE_SPEECH_AMR) then m .| 0x4 else m in
  match tch_mode lc with
  | GSM48_CMODE_SPEECH_V1 => half 1
  | GSM48_CMODE_SPEECH_EFR => half 0x11
  | GSM48_CMODE_SPEECH_AMR => half 0x21
  | _ => 0
  end.

(** The callbacks of the MSC side ([struct bsc_api]) that may be missing; every table has [compl_l3]. *)
Class BscApi := {
  has_sapi_n_reject : bool;
  has_cipher_mode_compl : bool;
  has_dtap : bool;
  has_assign_compl : bool;
  has_assign_fail : bool;
  has_clear_request : bool
}.
(** The table of the network in one program (libmsc/osmo_msc.c) and of the BSC (osmo-bsc/osmo_bsc_api.c). *)
Definition msc_handler : BscApi :=
  {| has_sapi_n_reject := true; has_cipher_mode_compl := false; has_dtap := true; has_assign_compl := false;
     has_assign_fail := false; has_clear_request := true |}.
Definition bsc_handler : BscApi :=
  {| has_sapi_n_reject := true; has_cipher_mode_compl := true; has_dtap := true; has_assign_compl := true;
     has_assign_fail := true; has_clear_request := true |}.

Definition lref_eqb (a b : option lref) : bool := bool_decide (a = b).

Section bsc.
Context `{LibosmoConst} `{BscApi} (env : rsl_env).
(** The multi rate configuration with version 1, ICMI and the mode 5.90, and the octets of the
    CIPHERING MODE COMMAND before its content: layouts and numbers of libosmocore. *)
Context (mr_conf_590 : list Z -> list Z) (ciph_m_cmd : list Z).
(** The answer of [clear_request]: whether the MSC side gives the connection up when it is told to clear it. *)
Context (api_clear_request : nat -> bool).

Abbreviation CM := (M bsc_state bsc_event).

(** * Following pointers *)

Definition on_bts {A} (b : nat) (m : M gsm_bts rsl_event A) : CM A := fun st =>
  match btss st !! b with
  | None => None
  | Some bts =>
      match m bts with
      | Some (a, bts, ev) => Some (a, st <| btss ::= <[b := bts]> |>, Chan_ev b <$> ev)
      | None => None
      end
  end.
Definition on_chan {A} (l : lref) (m : gsm_bts_trx_ts -> M gsm_lchan rsl_event A) : CM A :=
  on_bts l.1 (on_rsl_lchan l.2 m).
(** [f(lchan)] for a pointer that may be null. *)
Definition deref {A} (l : option lref) (k : lref -> CM A) : CM A :=
  match l with Some l => k l | None => fault end.

Definition lookup_chan (st : bsc_state) (l : lref) : option gsm_lchan :=
  bts ← btss st !! l.1; get_lchan bts l.2.
Definition get_chan (l : lref) : CM gsm_lchan := fun st =>
  match lookup_chan st l with Some lc => Some (lc, st, []) | None => None end.
Definition get_conn (c : nat) : CM gsm_subscriber_connection := fun st =>
  match conns st !! c with Some cn => Some (cn, st, []) | None => None end.
Definition set_conn (c : nat) (f : gsm_subscriber_connection -> gsm_subscriber_connection) : CM unit :=
  fun st => match conns st !! c with
            | Some cn => Some (tt, st <| conns ::= <[c := f cn]> |>, [])
            | None => None
            end.
(** [conn->bts], about to be followed. *)
Definition conn_bts (c : nat) : CM nat :=
  cn ← get_conn c; match cn_bts cn with Some b => mret b | None => fault end.
Definition set_lchan_conn (l : lref) (c : option nat) : CM unit :=
  on_chan l (fun _ => modify (fun lc => lc <| lc_conn := c |>)).

Definition set_state (l : lref) (s : gsm_lchan_state) : CM unit :=
  on_chan l (fun _ => radio (rsl_lchan_set_state s)).
Definition release (l : lref) (sd reason : Z) : CM unit :=
  _ ← on_chan l (fun ts => radio (lchan_release ts sd reason)); mret tt.
Definition bts_is_ipaccess (b : nat) : CM bool := fun st =>
  match btss st !! b with Some bts => Some (is_ipaccess_bts bts, st, []) | None => None end.

(** A callback of the MSC side that is called if it is there, and one that is called without asking. *)
Definition api_call (present : bool) (e : bsc_event) : CM unit := when present (emit e).
Definition api_call_unchecked (present : bool) (e : bsc_event) : CM unit := if present then emit e else fault.

(** * Radio links (bsc_rll.c) *)

Definition LINKID_MASK : Z := 0xC7.

Definition send_sapi_reject (c : nat) (link_id : Z) : CM unit :=
  _ ← conn_bts c; api_call has_sapi_n_reject (ApiSapiReject c link_id).

Definition rll_ind_cb (r : bsc_rll_req) (ind : bsc_rllr_ind) : CM unit :=
  lc ← get_chan (rr_lchan r);
  match lc_conn lc with
  | None => mret tt
  | Some c =>
      match ind with
      | BSC_RLLR_IND_EST_CONF => emit (EvDataReq (rr_lchan r) (rr_msg_link r) (rr_msg r))
      | _ => _ ← send_sapi_reject c (rr_msg_link r); emit (EvMsgFree (rr_msg r))
      end
  end.

(** The request at place [i] is done. *)
Definition complete_rllr (i : nat) (ind : bsc_rllr_ind) : CM unit :=
  reqs ← gets bsc_rll_reqs;
  match reqs !! i with
  | None => fault
  | Some r => _ ← modify (fun st => st <| bsc_rll_reqs ::= delete i |>); rll_ind_cb r ind
  end.
Definition timer_cb (i : nat) : CM unit := complete_rllr i BSC_RLLR_IND_TIMEOUT.

Definition rll_establish (ok : bool) (l : lref) (sapi : Z) (msg : nat) (msg_link : Z) : CM Z :=
  if negb ok then mret (- ENOMEM)
  else
    lc ← get_chan l;
    let link_id := if is_tch (lc_type lc) && negb (sapi =? 0) then sapi .| 0x40 else sapi in
    _ ← modify (fun st => st <| bsc_rll_reqs ::= cons (mk_bsc_rll_req l link_id msg msg_link) |>);
    _ ← emit (EvEstReq l link_id);
    mret 0.

Definition rllr_is (l : lref) (link_id : Z) (r : bsc_rll_req) : bool :=
  bool_decide (rr_lchan r = l) && (rr_link_id r .& LINKID_MASK =? link_id .& LINKID_MASK).
Definition rll_indication (l : lref) (link_id : Z) (ind : bsc_rllr_ind) : CM unit :=
  reqs ← gets bsc_rll_reqs;
  match find_idx (rllr_is l link_id) reqs with
  | Some i => complete_rllr i ind
  | None => mret tt
  end.

(** S_CHALLOC_FREED: the requests for the channel end, in the order of the list. *)
Fixpoint rll_freed_loop (l : lref) (k i : nat) : CM unit :=
  match k with
  | O => mret tt
  | S k =>
      reqs ← gets bsc_rll_reqs;
      match reqs !! i with
      | None => mret tt
      | Some r =>
          if bool_decide (rr_lchan r = l) then
            _ ← complete_rllr i BSC_RLLR_IND_ERR_IND; rll_freed_loop l k i
          else rll_freed_loop l k (S i)
      end
  end.
Definition rll_lchan_signal (l : lref) : CM unit :=
  n ← gets (fun st => length (bsc_rll_reqs st)); rll_freed_loop l n 0.

(** * Handover records *)

Definition bsc_ho_by_new_lchan (l : option lref) (st : bsc_state) : option nat :=
  find_idx (fun ho => lref_eqb (Some (new_lchan ho)) l) (bsc_handovers st).
Definition bsc_ho_by_old_lchan (l : option lref) (st : bsc_state) : option nat :=
  find_idx (fun ho => lref_eqb (Some (old_lchan ho)) l) (bsc_handovers st).
Definition get_ho (i : nat) : CM bsc_handover := fun st =>
  match bsc_handovers st !! i with Some ho => Some (ho, st, []) | None => None end.
(** [osmo_timer_del(&ho->T3103)] *)
Definition stop_T3103 (i : nat) : CM unit :=
  modify (fun st => st <| bsc_handovers ::= alter (fun ho => ho <| T3103 := false |>) i |>).
(** [llist_del(&ho->list); talloc_free(ho);] A timer that runs is left behind. *)
Definition free_ho (i : nat) : CM unit :=
  ho ← get_ho i;
  _ ← modify (fun st => st <| bsc_handovers ::= delete i |>);
  when (T3103 ho) (modify (fun st => st <| stray_T3103 ::= S |>)).

Definition bsc_clear_handover (c : nat) (free_lchan : bool) : CM unit :=
  cn ← get_conn c;
  i ← gets (bsc_ho_by_new_lchan (cn_ho_lchan cn));
  match i with
  | None => mret tt
  | Some i =>
      ho ← get_ho i;
      _ ← deref (cn_ho_lchan cn) (fun l => set_lchan_conn l None);
      _ ← set_conn c (fun cn => cn <| cn_ho_lchan := None |>);
      _ ← (if free_lchan then release (new_lchan ho) 0 1 else mret tt);
      _ ← stop_T3103 i;
      free_ho i
  end.

(** * Connections (bsc_api.c) *)

(** [ok]: memory is available. *)
Definition subscr_con_allocate (ok : bool) (l : lref) : CM (option nat) :=
  if negb ok then mret None
  else
    c ← gets next_conn;
    _ ← modify (fun st => st <| next_conn ::= S |>
          <| conns ::= <[c := mk_conn (Some l) None None (Some l.1) false false]> |>);
    _ ← set_lchan_conn l (Some c);
    mret (Some c).

Definition drop_conn_of (l : option lref) : CM unit :=
  match l with Some l => set_lchan_conn l None | None => mret tt end.
Definition subscr_con_free (c : nat) : CM unit :=
  cn ← get_conn c;
  _ ← when (cn_subscr cn) (emit (EvSubscrPut c));
  _ ← drop_conn_of (cn_ho_lchan cn);
  _ ← drop_conn_of (cn_lchan cn);
  _ ← drop_conn_of (cn_secondary cn);
  modify (fun st => st <| conns ::= delete c |>).

Definition gsm0808_clear (c : nat) : CM unit :=
  cn ← get_conn c;
  _ ← (if bool_decide (is_Some (cn_ho_lchan cn)) then bsc_clear_handover c true else mret tt);
  cn ← get_conn c;
  _ ← match cn_secondary cn with Some l => release l 0 1 | None => mret tt end;
  cn ← get_conn c;
  _ ← match cn_lchan cn with Some l => release l 1 0 | None => mret tt end;
  set_conn c (fun cn => mk_conn None None None None false (cn_subscr cn)).

(** The pair of calls every MSC side ends a connection with. *)
Definition clear_and_free (c : nat) : CM unit := _ ← gsm0808_clear c; subscr_con_free c.

Definition handle_release (c : nat) (l : lref) : CM unit :=
  cn ← get_conn c;
  _ ← (if lref_eqb (cn_secondary cn) (Some l) then
         _ ← set_conn c (fun cn => cn <| cn_T10 := false |>);
         _ ← set_conn c (fun cn => cn <| cn_secondary := None |>);
         api_call_unchecked has_assign_fail (ApiAssignFail c GSM0808_CAUSE_RADIO_INTERFACE_FAILURE None)
       else mret tt);
  _ ← api_call has_clear_request (ApiClearRequest c);
  let destruct := if has_clear_request then api_clear_request c else true in
  cn ← get_conn c;
  _ ← (if lref_eqb (cn_lchan cn) (Some l) then set_conn c (fun cn => cn <| cn_lchan := None |>)
       else mret tt);
  _ ← (if lref_eqb (cn_ho_lchan cn) (Some l) then
         _ ← bsc_clear_handover c false; set_conn c (fun cn => cn <| cn_ho_lchan := None |>)
       else mret tt);
  _ ← set_lchan_conn l None;
  _ ← gsm0808_clear c;
  if destruct then subscr_con_free c else mret tt.

(** * Freeing a channel, with the handlers of its signals *)

Definition lchan_free_begin : LM gsm_chan_t :=
  type ← gets lc_type;
  _ ← modify (fun lc => lc <| lc_type := GSM_LCHAN_NONE |>);
  _ ← modify (fun lc => lc <| lc_state := LCHAN_S_NONE |>);
  mret type.
Definition lchan_free_middle : LM unit :=
  _ ← modify (fun lc => lc <| T3101 := None |>);
  _ ← modify forget_meas;
  modify (fun lc => if bool_decide (is_Some (rqd_ref lc)) then lc <| rqd_ref := None |> <| rqd_ta := 0 |>
                    else lc).
Definition lchan_free_end : LM unit :=
  _ ← modify (fun lc => lc <| lc_conn := None |>);
  modify (fun lc => lc <| sach_deact := 0 |> <| release_reason := 0 |>).

Definition free_lchan (l : lref) : CM unit :=
  type ← on_chan l (fun _ => lchan_free_begin);
  lc ← get_chan l;
  _ ← match lc_conn lc with
      | Some c => _ ← emit (Chan_ev l.1 (Radio_ev (EvSignal S_LCHAN_UNEXPECTED_RELEASE)));
                  handle_release c l
      | None => mret tt
      end;
  _ ← on_chan l (fun _ => lchan_free_middle);
  _ ← emit (Chan_ev l.1 (Radio_ev (EvFreed type)));
  _ ← rll_lchan_signal l;
  on_chan l (fun _ => lchan_free_end).

(** * Assignment *)

Definition handle_mr_config (l : lref) : CM unit :=
  on_chan l (fun _ => modify (fun lc => lc <| mr_conf ::= mr_conf_590 |>)).

Definition copy_encr (old lc : gsm_lchan) : gsm_lchan :=
  lc <| encr_alg_id := encr_alg_id old |> <| encr_key := encr_key old |>.
Definition copy_power (old lc : gsm_lchan) : gsm_lchan :=
  lc <| ms_power := ms_power old |> <| bs_power := bs_power old |>.

Definition handle_new_assignment (c : nat) (mode : gsm48_chan_mode) (full_rate : bool) : CM Z :=
  cn ← get_conn c;
  b ← conn_bts c;
  p ← on_bts b (Rsl.radio (lchan_alloc (if full_rate then GSM_LCHAN_TCH_F else GSM_LCHAN_TCH_H) false));
  match p with
  | None => mret (-1)
  | Some p =>
      let new := (b, p) in
      old ← deref (cn_lchan cn) get_chan;
      _ ← on_chan new (fun _ => modify (fun lc =>
            copy_power old (copy_encr old lc) <| tch_mode := mode |>
              <| rsl_cmode := RSL_CMOD_SPD_SPEECH |>));
      _ ← (if bool_decide (mode = GSM48_CMODE_SPEECH_AMR) then handle_mr_config new else mret tt);
      rc ← on_chan new (fun ts => rsl_chan_activate_lchan env ts 0x1 false 0 0);
      if rc <? 0 then _ ← free_lchan new; mret (-1)
      else
        _ ← set_conn c (fun cn => cn <| cn_secondary := Some new |>);
        _ ← set_lchan_conn new (Some c);
        _ ← set_state new LCHAN_S_ACT_REQ;
        mret 0
  end.

Definition gsm48_lchan_modify (l : lref) (mode : gsm48_chan_mode) : CM unit :=
  _ ← on_chan l (fun _ => modify (fun lc => lc <| tch_mode := mode |>));
  emit (EvModeModify l mode).

Definition gsm0808_assign_req (c : nat) (mode : gsm48_chan_mode) (full_rate : bool) : CM Z :=
  _ ← conn_bts c;
  cn ← get_conn c;
  deref (cn_lchan cn) (fun l =>
    lc ← get_chan l;
    rc ← (if bool_decide (lc_type lc = GSM_LCHAN_SDCCH) then handle_new_assignment c mode full_rate
          else
            _ ← (if bool_decide (mode = GSM48_CMODE_SPEECH_AMR) then handle_mr_config l else mret tt);
            _ ← gsm48_lchan_modify l mode;
            mret 0);
    if negb (rc =? 0) then _ ← api_call_unchecked has_assign_fail (ApiAssignFail c GSM0808_CAUSE_0 None); mret (-1)
    else _ ← set_conn c (fun cn => cn <| cn_T10 := true |>); mret 0).

Definition assignment_t10_timeout (c : nat) : CM unit :=
  _ ← set_conn c (fun cn => cn <| cn_T10 := false |>);
  cn ← get_conn c;
  _ ← match cn_secondary cn with Some l => release l 0 1 | None => mret tt end;
  _ ← set_conn c (fun cn => cn <| cn_secondary := None |>);
  _ ← conn_bts c;
  api_call_unchecked has_assign_fail (ApiAssignFail c GSM0808_CAUSE_NO_RADIO_RESOURCE_AVAILABLE None).

Definition handle_chan_ack (c : nat) (l : lref) : CM unit :=
  cn ← get_conn c;
  if negb (lref_eqb (cn_secondary cn) (Some l)) then mret tt
  else lc ← get_chan l; deref (cn_lchan cn) (fun dest => emit (EvAssCmd dest l (ms_power lc))).
Definition handle_chan_nack (c : nat) (l : lref) : CM unit :=
  cn ← get_conn c;
  if negb (lref_eqb (cn_secondary cn) (Some l)) then mret tt
  else
    _ ← deref (cn_secondary cn) (fun l => set_lchan_conn l None);
    set_conn c (fun cn => cn <| cn_secondary := None |>).

(** The arguments of the callback are evaluated only when it is there. *)
Definition assign_compl (c : nat) (rr_cause : Z) (l : option lref) : CM unit :=
  when has_assign_compl (deref l (fun l =>
    lc ← get_chan l;
    emit (ApiAssignCompl c rr_cause (lchan_to_chosen_channel lc) (encr_alg_id lc)
            (chan_mode_to_speech lc)))).

(** [cause]: the octet of a message of the right length. *)
Definition handle_ass_compl (c : nat) (l : lref) (cause : option Z) : CM unit :=
  _ ← conn_bts c;
  cn ← get_conn c;
  if negb (lref_eqb (cn_secondary cn) (Some l)) then mret tt
  else
    match cause with
    | None => mret tt
    | Some cause =>
        _ ← set_conn c (fun cn => cn <| cn_T10 := false |>);
        _ ← deref (cn_lchan cn) (fun old => release old 0 1);
        _ ← set_conn c (fun cn => cn <| cn_lchan := cn_secondary cn |>);
        _ ← set_conn c (fun cn => cn <| cn_secondary := None |>);
        cn ← get_conn c;
        b ← conn_bts c;
        ip ← bts_is_ipaccess b;
        _ ← deref (cn_lchan cn) (fun l =>
              lc ← get_chan l;
              when (ip && negb (bool_decide (tch_mode lc = GSM48_CMODE_SIGN))) (emit (EvCrcx l)));
        assign_compl c cause (cn_lchan cn)
    end.

Definition handle_ass_fail (c : nat) (l : lref) (cause : option Z) : CM unit :=
  _ ← conn_bts c;
  cn ← get_conn c;
  if negb (lref_eqb (cn_lchan cn) (Some l)) then mret tt
  else
    _ ← set_conn c (fun cn => cn <| cn_T10 := false |>);
    _ ← deref (cn_secondary cn) (fun l => release l 0 1);
    _ ← set_conn c (fun cn => cn <| cn_secondary := None |>);
    api_call_unchecked has_assign_fail (ApiAssignFail c GSM0808_CAUSE_RADIO_INTERFACE_MESSAGE_FAILURE cause).

(** [mode]: what the mobile confirms. *)
Definition gsm48_rx_rr_modif_ack (l : lref) (mode : gsm48_chan_mode) : CM Z :=
  lc ← get_chan l;
  if negb (bool_decide (mode = tch_mode lc)) then mret (-1)
  else
    _ ← on_chan l (fun _ => modify (fun lc =>
          match mode with
          | GSM48_CMODE_SIGN => lc <| rsl_cmode := RSL_CMOD_SPD_SIGN |>
          | GSM48_CMODE_SPEECH_V1 | GSM48_CMODE_SPEECH_EFR | GSM48_CMODE_SPEECH_AMR =>
              lc <| rsl_cmode := RSL_CMOD_SPD_SPEECH |>
          | GSM48_CMODE_DATA_14k5 | GSM48_CMODE_DATA_12k0 | GSM48_CMODE_DATA_6k0
          | GSM48_CMODE_DATA_3k6 => lc <| rsl_cmode := RSL_CMOD_SPD_DATA |>
          | GSM48_CMODE_OTHER _ => lc
          end));
    rc ← on_chan l (fun ts => rsl_chan_mode_modify_req env ts);
    ip ← bts_is_ipaccess l.1;
    _ ← when (ip && negb (bool_decide (mode = GSM48_CMODE_SIGN))) (emit (EvCrcx l));
    mret rc.

(** * Messages of the mobile *)

Inductive dtap_msg : Type :=
| DtapShort                             (* no room for a header *)
| RR_CIPH_M_COMPL
| RR_ASS_COMPL (cause : option Z)
| RR_ASS_FAIL (cause : option Z)
| RR_CHAN_MODE_MODIF_ACK (mode : gsm48_chan_mode)
| DtapOther.

Definition dispatch_dtap (c : nat) (l : lref) (link_id : Z) (m : dtap_msg) : CM unit :=
  match m with
  | DtapShort => mret tt
  | RR_CIPH_M_COMPL =>
      if has_cipher_mode_compl then
        cn ← get_conn c;
        deref (cn_lchan cn) (fun l => lc ← get_chan l; emit (ApiCipherCompl c (encr_alg_id lc)))
      else api_call has_dtap (ApiDtap c link_id)
  | RR_ASS_COMPL cause => _ ← handle_ass_compl c l cause; api_call has_dtap (ApiDtap c link_id)
  | RR_ASS_FAIL cause => _ ← handle_ass_fail c l cause; api_call has_dtap (ApiDtap c link_id)
  | RR_CHAN_MODE_MODIF_ACK mode =>
      _ ← set_conn c (fun cn => cn <| cn_T10 := false |>);
      rc ← gsm48_rx_rr_modif_ack l mode;
      if rc <? 0 then api_call has_assign_fail (ApiAssignFail c GSM0808_CAUSE_NO_RADIO_RESOURCE_AVAILABLE None)
      else cn ← get_conn c; assign_compl c 0 (cn_lchan cn)
  | DtapOther => api_call has_dtap (ApiDtap c link_id)
  end.

(** [ok]: memory is available, [accept]: the answer of the MSC side to a new connection. *)
Definition gsm0408_rcvmsg (ok accept : bool) (l : lref) (link_id : Z) (m : dtap_msg) : CM Z :=
  lc ← get_chan l;
  if negb (bool_decide (lc_state lc = LCHAN_S_ACTIVE)) then mret (-1)
  else
    match lc_conn lc with
    | Some c => _ ← dispatch_dtap c l link_id m; mret 0
    | None =>
        c ← subscr_con_allocate ok l;
        match c with
        | None => _ ← release l 0 0; mret (-1)
        | Some c =>
            _ ← emit (ApiComplL3 c);
            _ ← (if accept then mret tt
                 else
                   _ ← set_conn c (fun cn => cn <| cn_lchan := None |>);
                   _ ← subscr_con_free c;
                   release l 0 0);
            mret 0
        end
    end.

(** * Requests of the MSC side *)

Definition gsm48_send_rr_ciph_mode (l : lref) (want_imeisv : Z) : CM Z :=
  lc ← get_chan l;
  let set := if encr_alg_id lc <=? RSL_ENC_ALG_A5 0 then 0
             else u8 (((encr_alg_id lc - 2) .<< 1) .| 1) in
  on_chan l (fun ts => rsl_encryption_cmd ts
    (ciph_m_cmd ++ [((want_imeisv .& 0x1) .<< 4) .| (set .& 0xf)])).

(** [memcpy] of [len] octets at [key] into the channel; it runs off the end of the key or of the
    address space when [len] does not fit. *)
Definition copy_key (l : lref) (key : list Z) (len : Z) : CM unit :=
  if (len <? 0) || (Z.of_nat (length key) <? len) then fault
  else on_chan l (fun _ => modify (fun lc => lc <| encr_key := take (Z.to_nat len) key |>)).

Definition gsm0808_cipher_mode (c : nat) (cipher : Z) (key : option (list Z)) (len : Z)
    (include_imeisv : Z) : CM Z :=
  if (0 <? cipher) && bool_decide (key = None) then mret (-1)
  else if 16 <? len then mret (-1)
  else
    cn ← get_conn c;
    deref (cn_lchan cn) (fun l =>
      _ ← on_chan l (fun _ => modify (fun lc => lc <| encr_alg_id := u8 (RSL_ENC_ALG_A5 cipher) |>));
      _ ← match key with Some key => copy_key l key len | None => mret tt end;
      gsm48_send_rr_ciph_mode l include_imeisv).

Definition gsm0808_submit_dtap (ok : bool) (c : nat) (msg : nat) (link_id : Z) (allow_sach : bool) : CM Z :=
  cn ← get_conn c;
  match cn_lchan cn with
  | None => _ ← emit (EvMsgFree msg); mret (-1)
  | Some l =>
      lc ← get_chan l;
      let sapi := link_id .& 0x7 in
      let link_id := if allow_sach && negb (sapi =? 0) && is_tch (lc_type lc) then link_id .| 0x40
                     else link_id in
      if rd (sapis lc) (Z.to_nat sapi) =? LCHAN_SAPI_UNUSED then
        rc ← rll_establish ok l sapi msg (u8 link_id);
        if negb (rc =? 0) then
          _ ← emit (EvMsgFree msg); _ ← send_sapi_reject c link_id; mret (-1)
        else mret 0
      else _ ← emit (EvDataReq l (u8 link_id) msg); mret 0
  end.

(** * Handover (handover_logic.c) *)

(** [ok]: memory is available. *)
Definition bsc_handover_start (ok : bool) (old : lref) (b : nat) : CM Z :=
  i ← gets (bsc_ho_by_old_lchan (Some old));
  if bool_decide (is_Some i) then mret (- EBUSY)
  else
    _ ← emit (EvHo HO_attempted);
    olc ← get_chan old;
    match lc_conn olc with
    | None => mret (- ENOSPC)
    | Some c =>
        p ← on_bts b (Rsl.radio (lchan_alloc (lc_type olc) false));
        match p with
        | None => _ ← emit (EvHo HO_no_channel); mret (- ENOSPC)
        | Some p =>
            let new := (b, p) in
            if negb ok then _ ← free_lchan new; mret (- ENOMEM)
            else
              ref ← gets next_ho_ref;
              _ ← modify (fun st => st <| next_ho_ref ::= fun n => u8 (n + 1) |>);
              olc ← get_chan old;
              _ ← on_chan new (fun _ => modify (fun lc =>
                    copy_power olc (copy_encr olc lc) <| rsl_cmode := rsl_cmode olc |>
                      <| tch_mode := tch_mode olc |>));
              _ ← set_lchan_conn new (Some c);
              _ ← set_conn c (fun cn => cn <| cn_ho_lchan := Some new |>);
              rc ← on_chan new (fun ts => rsl_chan_activate_lchan env ts 0x2 true 0 ref);
              if rc <? 0 then
                _ ← set_conn c (fun cn => cn <| cn_ho_lchan := None |>);
                _ ← set_lchan_conn new None;
                _ ← free_lchan new;
                mret rc
              else
                _ ← set_state new LCHAN_S_ACT_REQ;
                _ ← modify (fun st => st <| bsc_handovers ::= cons (mk_bsc_handover old new false ref) |>);
                mret 0
        end
    end.

(** The connection of the new channel forgets it. *)
Definition drop_new_lchan (new : lref) : CM unit :=
  lc ← get_chan new;
  match lc_conn lc with
  | None => fault
  | Some c =>
      _ ← set_conn c (fun cn => cn <| cn_ho_lchan := None |>);
      set_lchan_conn new None
  end.

(** T3103 of the handover at place [i] expires. *)
Definition ho_T3103_cb (i : nat) : CM unit :=
  _ ← stop_T3103 i;  (* it runs no more *)
  ho ← get_ho i;
  _ ← emit (EvHo HO_timeout);
  _ ← drop_new_lchan (new_lchan ho);
  _ ← release (new_lchan ho) 0 1;
  free_ho i.
(** The timer of a handover that was freed expires. *)
Definition stray_T3103_cb : CM unit := fault.

Definition ho_chan_activ_ack (new : lref) : CM Z :=
  i ← gets (bsc_ho_by_new_lchan (Some new));
  match i with
  | None => mret (- ENODEV)
  | Some i =>
      ho ← get_ho i;
      _ ← emit (EvHoCmd (old_lchan ho) new 0 (ho_ref ho));
      _ ← modify (fun st => st <| bsc_handovers ::= alter (fun ho => ho <| T3103 := true |>) i |>);
      ip ← bts_is_ipaccess new.1;
      _ ← when ip (emit (EvCrcx new));
      mret 0
  end.

Definition ho_chan_activ_nack (new : lref) : CM Z :=
  i ← gets (bsc_ho_by_new_lchan (Some new));
  match i with
  | None => mret (- ENODEV)
  | Some i => _ ← drop_new_lchan new; _ ← free_ho i; mret 0
  end.

(** [subscr_name(conn->subscr)], in the arguments of a log message: it reads the subscriber. *)
Definition subscr_name (c : nat) : CM unit :=
  cn ← get_conn c; if cn_subscr cn then mret tt else fault.

Definition ho_gsm48_ho_compl (new : lref) : CM Z :=
  i ← gets (bsc_ho_by_new_lchan (Some new));
  match i with
  | None => mret (- ENODEV)
  | Some i =>
      ho ← get_ho i;
      olc ← get_chan (old_lchan ho);
      nlc ← get_chan new;
      match lc_conn olc, lc_conn nlc with
      | Some oc, Some c =>
          _ ← subscr_name oc;
          _ ← emit (EvHo HO_completed);
          _ ← stop_T3103 i;
          _ ← set_conn c (fun cn => cn <| cn_ho_lchan := None |>);
          _ ← set_conn c (fun cn => cn <| cn_lchan := Some new |>);
          _ ← set_lchan_conn (old_lchan ho) None;
          _ ← set_state (old_lchan ho) LCHAN_S_INACTIVE;
          _ ← release (old_lchan ho) 0 1;
          _ ← free_ho i;
          mret 0
      | _, _ => fault  (* their connections are looked into *)
      end
  end.

Definition ho_gsm48_ho_fail (old : lref) : CM Z :=
  i ← gets (bsc_ho_by_old_lchan (Some old));
  match i with
  | None => mret (- ENODEV)
  | Some i =>
      ho ← get_ho i;
      _ ← emit (EvHo HO_failed);
      _ ← stop_T3103 i;
      _ ← free_ho i;
      _ ← drop_new_lchan (new_lchan ho);
      _ ← release (new_lchan ho) 0 1;
      mret 0
  end.

Definition ho_rsl_detect (new : lref) : CM Z :=
  i ← gets (bsc_ho_by_new_lchan (Some new));
  mret (if bool_decide (is_Some i) then 0 else - ENODEV).

Definition ho_ipac_crcx_ack (new : lref) : CM Z :=
  i ← gets (bsc_ho_by_new_lchan (Some new));
  match i with
  | None => mret 0
  | Some i => ho ← get_ho i; _ ← emit (EvHandoverAck (old_lchan ho) new); mret 0
  end.

(** * Messages and timers of the channel, with the handlers of their signals *)

(** [bsc_handle_lchan_signal]: nothing is done for a channel without connection. *)
Definition bsc_handle_lchan_signal (l : lref) (k : nat -> CM unit) : CM unit :=
  lc ← get_chan l; match lc_conn lc with Some c => k c | None => mret tt end.

Definition bsc_chan_act_ack (l : lref) (ie_chan : bool) : CM Z :=
  rc ← on_chan l (fun ts => rsl_rx_chan_act_ack env ts ie_chan);
  if rc <? 0 then mret rc
  else
    _ ← ho_chan_activ_ack l;
    _ ← bsc_handle_lchan_signal l (fun c => handle_chan_ack c l);
    mret rc.

Definition bsc_chan_act_nack (l : lref) (ie_chan : bool) (cause : option bool) : CM Z :=
  _ ← on_chan l (fun _ => modify (fun lc => lc <| act_timer := None |>));
  if negb ie_chan then mret (- EINVAL)
  else
    _ ← match cause with
        | Some true => _ ← on_chan l (fun ts => rsl_rf_chan_release env ts true); mret tt
        | _ => set_state l LCHAN_S_NONE
        end;
    _ ← ho_chan_activ_nack l;
    _ ← bsc_handle_lchan_signal l (fun c => handle_chan_nack c l);
    _ ← free_lchan l;
    mret 0.

(** The activation or deactivation was not acknowledged in time. *)
Definition bsc_act_timer (l : lref) : CM unit :=
  _ ← on_chan l (fun _ => modify (fun lc => lc <| act_timer := None |>));
  _ ← set_state l LCHAN_S_NONE;
  free_lchan l.

Definition bsc_rf_chan_rel_ack (l : lref) : CM Z :=
  _ ← on_chan l (fun _ => modify (fun lc => lc <| act_timer := None |>));
  _ ← on_chan l (fun _ => modify (fun lc => lc <| T3111 := None |>));
  lc ← get_chan l;
  _ ← (if negb (bool_decide (lc_state lc = LCHAN_S_REL_ERR)) then
         on_chan l (fun _ => modify (fun lc => lc <| lc_state := LCHAN_S_NONE |>))
       else mret tt);
  _ ← free_lchan l;
  mret 0.

End bsc.

End Bsc.
