(* ===== verification/BscProps.v ===== *)
(** What it means that connections, channels, handovers and link requests name each other
    consistently ([bsc_wf]), and what each primitive step on them leaves of it ([shape]). *)

From S2P Require Import Prelude Chreq Radio ChanAlloc AllocProps Rsl RslProps Bsc.

Module BscProps.
Import AllocProps RslProps Bsc.

(** ** Callbacks *)

Lemma wp_when_emit {S E} b (e : E) (Q : unit -> S -> Prop) st : wp (when b (emit e)) Q st <-> Q tt st.
Proof. rewrite wp_when. by destruct b. Qed.
Lemma wp_api_call b e (Q : unit -> bsc_state -> Prop) st : wp (api_call b e) Q st <-> Q tt st.
Proof. apply wp_when_emit. Qed.
Lemma wp_api_call_unchecked b e (Q : unit -> bsc_state -> Prop) st :
  wp (api_call_unchecked b e) Q st <-> b = true /\ Q tt st.
Proof. unfold api_call_unchecked. destruct b; [rewrite wp_emit; tauto|]. split; [done|by intros [? _]]. Qed.

Ltac wp_steps ::=
  repeat first [ rewrite wp_bind | rewrite wp_gets | rewrite wp_modify | rewrite wp_emit | rewrite wp_ret
               | rewrite wp_when_emit | rewrite wp_api_call ].

Section bsc.
Context `{LibosmoConst} `{BscApi}.

(** ** Steps on one channel *)

Definition put (l : lref) (lc : gsm_lchan) (st : bsc_state) : bsc_state :=
  st <| btss ::= alter (at_lchan l.2 (fun _ => lc)) l.1 |>.

Lemma lookup_put l lc lc0 st l' :
  lookup_chan st l = Some lc0 ->
  lookup_chan (put l lc st) l' = if decide (l = l') then Some lc else lookup_chan st l'.
Proof.
  unfold lookup_chan, put. upd_norm. cbn [btss]. destruct l as [b p], l' as [b' p']. cbn [fst snd].
  intros Hl. rewrite list_lookup_alter. destruct (decide (b = b')) as [<-|Hb].
  - destruct (btss st !! b) as [bts|]; [|done]. cbn [mbind option_bind option_fmap fmap option_map] in *.
    rewrite get_lchan_at_lchan. destruct (decide (p = p')) as [<-|Hp].
    + by rewrite decide_True, Hl.
    + by rewrite decide_False by congruence.
  - by rewrite decide_False by congruence.
Qed.

Lemma wp_on_chan {A} l (m : gsm_bts_trx_ts -> LM A) (Q : A -> bsc_state -> Prop) st lc :
  lookup_chan st l = Some lc ->
  (forall ts, wp (m ts) (fun a lc' => Q a (put l lc' st)) lc) -> wp (on_chan l m) Q st.
Proof.
  unfold lookup_chan. destruct l as [b [[i j] k]]. cbn [fst snd]. intros Hl Hm.
  destruct (btss st !! b) as [bts|] eqn:Eb; [|done]. cbn [mbind option_bind] in Hl.
  assert (exists ts, get_ts bts i j = Some ts) as [ts Hts].
  { unfold get_lchan in Hl. destruct (get_ts bts i j) as [ts|]; [by exists ts|done]. }
  specialize (Hm ts). unfold wp in *. unfold on_chan, on_bts. cbn [fst snd]. rewrite Eb.
  unfold on_rsl_lchan. rewrite Hts, Hl. destruct (m ts lc) as [[[a lc'] ev]|]; [|done].
  match goal with |- Q a ?s => assert (s = put (b, (i, j, k)) lc' st) as -> end;
    [|done].
  unfold put. upd_norm. cbn [btss fst snd]. f_equal. apply list_eq. intros n.
  destruct (decide (n = b)) as [->|Hne].
  - rewrite list_lookup_insert_eq by (by eapply lookup_lt_Some). by rewrite list_lookup_alter_eq, Eb.
  - by rewrite list_lookup_insert_ne, list_lookup_alter_ne by congruence.
Qed.

Lemma wp_get_chan l (Q : gsm_lchan -> bsc_state -> Prop) st lc :
  lookup_chan st l = Some lc -> wp (get_chan l) Q st <-> Q lc st.
Proof. intros Hl. unfold wp, get_chan. by rewrite Hl. Qed.
Lemma wp_get_conn c (Q : gsm_subscriber_connection -> bsc_state -> Prop) st cn :
  conns st !! c = Some cn -> wp (get_conn c) Q st <-> Q cn st.
Proof. intros Hl. unfold wp, get_conn. by rewrite Hl. Qed.
Lemma wp_set_conn c f (Q : unit -> bsc_state -> Prop) st cn :
  conns st !! c = Some cn -> wp (set_conn c f) Q st <-> Q tt (st <| conns ::= <[c := f cn]> |>).
Proof. intros Hl. unfold wp, set_conn. by rewrite Hl. Qed.
Lemma wp_get_ho i (Q : bsc_handover -> bsc_state -> Prop) st ho :
  bsc_handovers st !! i = Some ho -> wp (get_ho i) Q st <-> Q ho st.
Proof. intros Hl. unfold wp, get_ho. by rewrite Hl. Qed.

(** What a release leaves of the channel. *)
Lemma release_channel ts sd reason lc :
  wp (radio (lchan_release ts sd reason))
    (fun _ lc' => lc_conn lc' = None /\ lc_type lc' = lc_type lc /\ lc_state lc' = LCHAN_S_REL_REQ) lc.
Proof.
  unfold wp, radio, lchan_release, rsl_lchan_set_state, modify, lchan_handle_release,
    lchan_release_next_sapi, gets, rsl_release_request, gsm48_send_rr_release, rsl_deact_sacch,
    rsl_lchan_set_state, mbind, M_bind, emit. upd_norm. cbn [sapis].
  destruct (find _ _); cbn; [done|]. unfold id. upd_norm. cbn [sach_deact].
  destruct (negb _); cbn; by upd_norm.
Qed.

(** ** What holds of the channels *)

Definition chan_conn (st : bsc_state) (l : lref) : option nat := lc ← lookup_chan st l; lc_conn lc.

(** The channels are in order; [ex]: a channel that is being freed. *)
Record frame (ex : option lref) (st : bsc_state) : Prop := {
  fr_bts : Forall bts_wf (btss st);
  fr_type : forall l lc c, lookup_chan st l = Some lc -> lc_conn lc = Some c -> Some l <> ex ->
    lc_type lc <> GSM_LCHAN_NONE;
  fr_rll : Forall (fun r => is_Some (lookup_chan st (rr_lchan r))) (bsc_rll_reqs st);
  fr_stray : stray_T3103 st = 0%nat
}.

Lemma in_use_not_free lc : lc_type lc <> GSM_LCHAN_NONE -> lchan_is_free lc = false.
Proof. intros Ht. unfold lchan_is_free. by rewrite bool_decide_false. Qed.

Lemma state_not_free lc : lc_state lc <> LCHAN_S_NONE -> lchan_is_free lc = false.
Proof. intros Ht. unfold lchan_is_free. rewrite (bool_decide_false _ Ht). apply andb_false_r. Qed.

Lemma lchan_is_free_same lc lc' :
  lc_type lc' = lc_type lc -> lc_state lc' = lc_state lc -> lchan_is_free lc' = lchan_is_free lc.
Proof. intros Ht Hs. unfold lchan_is_free. by rewrite Ht, Hs. Qed.

Lemma lookup_put_is_Some l lc lc0 st l' :
  lookup_chan st l = Some lc0 -> is_Some (lookup_chan st l') <-> is_Some (lookup_chan (put l lc st) l').
Proof.
  intros Hl. rewrite (lookup_put _ _ _ _ _ Hl). case_decide as E; [subst|done].
  rewrite Hl. by split; intros _; eexists.
Qed.

Lemma bts_wf_put l lc' lc st :
  Forall bts_wf (btss st) -> lookup_chan st l = Some lc ->
  lchan_is_free lc = false \/ lchan_is_free lc' = true ->
  Forall bts_wf (btss (put l lc' st)).
Proof.
  intros Hb Hl Hf. unfold put. upd_norm. cbn [btss]. destruct l as [b [[i j] k]]. cbn [fst snd].
  unfold lookup_chan in Hl. cbn [fst snd] in Hl.
  destruct (btss st !! b) as [bts|] eqn:Eb; [|done]. cbn [mbind option_bind] in Hl.
  apply Forall_lookup_2. intros n x Hx. rewrite list_lookup_alter in Hx.
  case_decide as En; [subst n|by eapply Forall_lookup_1 in Hb].
  rewrite Eb in Hx. injection Hx as <-. pose proof (Forall_lookup_1 _ _ _ _ Hb Eb) as Hwf.
  unfold get_lchan in Hl. destruct (get_ts bts i j) as [ts|] eqn:Ets; [|done]. cbn [mbind option_bind] in Hl.
  eapply at_lchan_wf; [exact Ets| |done]. destruct Hf as [Hf|Hf]; [left|right; by intros].
  intros Hn. pose proof (wf_idle _ Hwf _ _ _ Ets Hn) as Hall.
  pose proof (Forall_lookup_1 _ _ _ _ Hall Hl) as Hx. cbn beta in Hx. congruence.
Qed.

Lemma frame_put ex l lc' lc st :
  frame ex st -> lookup_chan st l = Some lc ->
  lchan_is_free lc = false \/ lchan_is_free lc' = true ->
  (lc_conn lc' = None \/ lc_type lc' <> GSM_LCHAN_NONE \/ ex = Some l) ->
  frame ex (put l lc' st).
Proof.
  intros [Hb Ht Hr Hs] Hl Hf Hc. split; [by eapply bts_wf_put| | |done].
  - intros l' x c Hx Hxc Hex. rewrite (lookup_put _ _ _ _ _ Hl) in Hx.
    case_decide as E; [subst l'; injection Hx as <-|by eapply Ht].
    destruct Hc as [Hc|[Hc|Hc]]; [congruence|done|by subst].
  - unfold put at 2. upd_norm. cbn [bsc_rll_reqs]. eapply Forall_impl; [exact Hr|].
    intros r. by apply lookup_put_is_Some with lc.
Qed.

(** ** What a state is like *)

Definition relink (l : lref) (c : option nat) (cc : lref -> option nat) : lref -> option nat :=
  fun l' => if decide (l = l') then c else cc l'.

(** [st] comes from [st0]: the same BTSs and channels. The channels are used as [cc] says, and there
    are these connections and handovers; [nx] is the next number of a connection. *)
Record shape (ex : option lref) (st0 : bsc_state) (nx : nat) (cc : lref -> option nat)
    (cs : gmap nat gsm_subscriber_connection) (hs : list bsc_handover) (st : bsc_state) : Prop := {
  sh_frame : frame ex st;
  sh_len : length (btss st) = length (btss st0);
  sh_exist : forall l, is_Some (lookup_chan st0 l) <-> is_Some (lookup_chan st l);
  sh_next : next_conn st = nx;
  sh_cc : forall l, chan_conn st l = cc l;
  sh_conns : conns st = cs;
  sh_hos : bsc_handovers st = hs
}.

Lemma shape_ext ex st0 nx cc cc' cs cs' hs hs' st :
  shape ex st0 nx cc cs hs st -> (forall l, cc l = cc' l) -> cs = cs' -> hs = hs' ->
  shape ex st0 nx cc' cs' hs' st.
Proof. intros [? ? ? ? Hc ? ?] He <- <-. split; try done. intros l. by rewrite Hc. Qed.

(** A change of fields the channels do not depend on. *)
Lemma frame_ext ex st st' :
  frame ex st -> btss st' = btss st -> bsc_rll_reqs st' = bsc_rll_reqs st ->
  stray_T3103 st' = stray_T3103 st -> frame ex st'.
Proof.
  intros [H1 H2 H3 H4] Hb Hr Hs. unfold lookup_chan in *.
  split; [by rewrite Hb| | |by rewrite Hs].
  - intros l. unfold lookup_chan. rewrite Hb. apply H2.
  - rewrite Hr. eapply Forall_impl; [exact H3|]. intros r. unfold lookup_chan. by rewrite Hb.
Qed.
Lemma shape_fields ex st0 nx cc cs hs st st' nx' cs' hs' :
  shape ex st0 nx cc cs hs st -> btss st' = btss st -> bsc_rll_reqs st' = bsc_rll_reqs st ->
  stray_T3103 st' = stray_T3103 st -> next_conn st' = nx' -> conns st' = cs' ->
  bsc_handovers st' = hs' -> shape ex st0 nx' cc cs' hs' st'.
Proof.
  intros [Hf Hl He _ Hc _ _] Hb Hr Hs Hn Hcs Hhs.
  split; try done; [by eapply frame_ext|by rewrite Hb|..].
  - intros l. rewrite He. unfold lookup_chan. by rewrite Hb.
  - intros l. rewrite <- Hc. unfold chan_conn, lookup_chan. by rewrite Hb.
Qed.

Section steps.
Context {ex : option lref} {st0 : bsc_state} {nx : nat} {cc : lref -> option nat}
  {cs : gmap nat gsm_subscriber_connection} {hs : list bsc_handover} {st : bsc_state}.
Hypothesis Hsh : shape ex st0 nx cc cs hs st.

Lemma shape_put l lc lc' :
  lookup_chan st l = Some lc -> lchan_is_free lc = false \/ lchan_is_free lc' = true ->
  (lc_conn lc' = None \/ lc_type lc' <> GSM_LCHAN_NONE \/ ex = Some l) ->
  shape ex st0 nx (relink l (lc_conn lc') cc) cs hs (put l lc' st).
Proof.
  destruct Hsh as [Hf Hl He Hn Hc Hcs Hhs]. intros Hlc Hfr Hcn. split; try done.
  - by eapply frame_put.
  - rewrite <- Hl. unfold put. upd_norm. cbn [btss]. by rewrite length_alter.
  - intros l'. rewrite He. by apply lookup_put_is_Some with lc.
  - intros l'. unfold chan_conn, relink. rewrite (lookup_put _ _ _ _ _ Hlc). rewrite <- Hc.
    by case_decide.
Qed.

Lemma relink_same l c l' : cc l = c -> relink l c cc l' = cc l'.
Proof. intros <-. unfold relink. by case_decide as E; [subst|]. Qed.

Lemma cc_lookup l lc : lookup_chan st l = Some lc -> lc_conn lc = cc l.
Proof. intros Hl. rewrite <- (sh_cc _ _ _ _ _ _ _ Hsh). unfold chan_conn. by rewrite Hl. Qed.
Lemma exists_lookup l : is_Some (lookup_chan st0 l) -> exists lc, lookup_chan st l = Some lc.
Proof. by intros [lc Hl]%(sh_exist _ _ _ _ _ _ _ Hsh); exists lc. Qed.
Lemma used_lookup l c :
  cc l = Some c -> Some l <> ex ->
  exists lc, lookup_chan st l = Some lc /\ lc_conn lc = Some c /\ lc_type lc <> GSM_LCHAN_NONE /\
    lchan_is_free lc = false.
Proof.
  rewrite <- (sh_cc _ _ _ _ _ _ _ Hsh). unfold chan_conn. intros Hc Hex.
  destruct (lookup_chan st l) as [lc|] eqn:El; [|done]. cbn in Hc. exists lc.
  assert (lc_type lc <> GSM_LCHAN_NONE) by (by eapply (fr_type _ _ (sh_frame _ _ _ _ _ _ _ Hsh))).
  split_and!; [done..|by apply in_use_not_free].
Qed.

(** A step on channel [l] that keeps its type and its connection. *)
Definition keeps {A} (m : LM A) (R : A -> gsm_lchan -> Prop) (lc : gsm_lchan) : Prop :=
  wp m (fun a lc' => lc_type lc' = lc_type lc /\ lc_conn lc' = lc_conn lc /\ R a lc') lc.

Lemma sp_keep {A} l (m : gsm_bts_trx_ts -> LM A) (Q : A -> bsc_state -> Prop) (R : A -> gsm_lchan -> Prop) lc :
  lookup_chan st l = Some lc -> lc_type lc <> GSM_LCHAN_NONE -> (forall ts, keeps (m ts) R lc) ->
  (forall a lc', lc_type lc' = lc_type lc -> lc_conn lc' = lc_conn lc -> R a lc' ->
    shape ex st0 nx cc cs hs (put l lc' st) -> Q a (put l lc' st)) ->
  wp (on_chan l m) Q st.
Proof.
  intros Hl Ht Hm HQ. eapply wp_on_chan; [done|]. intros ts. eapply wp_mono; [apply Hm|].
  intros a lc' (Ht' & Hc' & HR). cbn beta. apply HQ; [done..|].
  pose proof (cc_lookup _ _ Hl) as Hcc.
  eapply shape_ext; [apply (shape_put l lc lc' Hl)| |done|done].
  - left. by apply in_use_not_free.
  - right; left. by rewrite Ht'.
  - intros l'. apply relink_same. congruence.
Qed.

Lemma sp_modify l (f : gsm_lchan -> gsm_lchan) (Q : unit -> bsc_state -> Prop) lc :
  lookup_chan st l = Some lc -> lc_type lc <> GSM_LCHAN_NONE ->
  lc_type (f lc) = lc_type lc -> lc_conn (f lc) = lc_conn lc ->
  (shape ex st0 nx cc cs hs (put l (f lc) st) -> Q tt (put l (f lc) st)) ->
  wp (on_chan l (fun _ => modify f)) Q st.
Proof.
  intros Hl Ht H1 H2 HQ. apply (sp_keep l _ Q (fun _ lc' => lc' = f lc) lc Hl Ht).
  - intros ts. unfold keeps. by wp_steps.
  - intros [] lc' _ _ ->. apply HQ.
Qed.

Lemma sp_release l sd reason (Q : unit -> bsc_state -> Prop) c :
  cc l = Some c -> Some l <> ex ->
  (forall lc', lc_conn lc' = None -> lc_state lc' = LCHAN_S_REL_REQ -> lc_type lc' <> GSM_LCHAN_NONE ->
    shape ex st0 nx (relink l None cc) cs hs (put l lc' st) -> Q tt (put l lc' st)) ->
  wp (release l sd reason) Q st.
Proof.
  intros Hc Hex HQ. destruct (used_lookup _ _ Hc Hex) as (lc & Hl & _ & Ht & Hfr).
  unfold release. wp_steps. eapply wp_on_chan; [done|]. intros ts.
  eapply wp_mono; [apply release_channel|]. intros a lc' (Hcn & Ht' & Hs). cbn beta. wp_steps.
  apply HQ; [done|done|by rewrite Ht'|]. rewrite <- Hcn.
  apply (shape_put l lc lc' Hl); by left.
Qed.
Lemma sp_set_lchan_conn l d (Q : unit -> bsc_state -> Prop) lc :
  lookup_chan st l = Some lc -> (d = None \/ lc_type lc <> GSM_LCHAN_NONE) ->
  (shape ex st0 nx (relink l d cc) cs hs (put l (lc <| lc_conn := d |>) st) ->
    Q tt (put l (lc <| lc_conn := d |>) st)) ->
  wp (set_lchan_conn l d) Q st.
Proof.
  intros Hl Hd HQ. unfold set_lchan_conn. eapply wp_on_chan; [done|]. intros ts. wp_steps.
  apply HQ. set (lc' := lc <| lc_conn := d |>). change d with (lc_conn lc') at 1.
  assert (lchan_is_free lc' = lchan_is_free lc) as E by (by apply lchan_is_free_same).
  apply (shape_put l lc lc' Hl).
  - rewrite E. by destruct (lchan_is_free lc); [right|left].
  - destruct Hd; [by left|by right; left].
Qed.

Lemma sp_get_conn c (Q : gsm_subscriber_connection -> bsc_state -> Prop) cn :
  cs !! c = Some cn -> wp (get_conn c) Q st <-> Q cn st.
Proof. intros Hc. apply wp_get_conn. by rewrite (sh_conns _ _ _ _ _ _ _ Hsh). Qed.
Lemma sp_conn_bts c (Q : nat -> bsc_state -> Prop) cn b :
  cs !! c = Some cn -> cn_bts cn = Some b -> wp (conn_bts c) Q st <-> Q b st.
Proof. intros Hc Hb. unfold conn_bts. wp_steps. rewrite (sp_get_conn _ _ _ Hc), Hb. by wp_steps. Qed.
Lemma sp_set_conn c f (Q : unit -> bsc_state -> Prop) cn :
  cs !! c = Some cn ->
  (forall st', shape ex st0 nx cc (<[c := f cn]> cs) hs st' -> btss st' = btss st ->
    bsc_rll_reqs st' = bsc_rll_reqs st -> Q tt st') ->
  wp (set_conn c f) Q st.
Proof.
  intros Hc HQ. assert (conns st = cs) as Hcs by apply Hsh.
  rewrite (wp_set_conn _ _ _ _ cn) by (by rewrite Hcs). apply HQ; [|done..].
  eapply shape_fields; [exact Hsh|done..|apply Hsh| |apply Hsh]. upd_norm. cbn [conns]. by rewrite Hcs.
Qed.
Lemma sp_get_ho i (Q : bsc_handover -> bsc_state -> Prop) ho :
  hs !! i = Some ho -> wp (get_ho i) Q st <-> Q ho st.
Proof. intros Hi. apply wp_get_ho. by rewrite (sh_hos _ _ _ _ _ _ _ Hsh). Qed.

End steps.

(** ** The pointers *)

Definition holds (cn : gsm_subscriber_connection) (l : lref) : Prop :=
  cn_lchan cn = Some l \/ cn_ho_lchan cn = Some l \/ cn_secondary cn = Some l.
#[local] Instance holds_dec cn l : Decision (holds cn l).
Proof. unfold holds. apply _. Defined.

(** One connection: its channels differ, it has no other channel without a primary one, it does not
    change by assignment and by handover at once, and it knows its BTS while it has a channel or T10
    runs. *)
Record conn_ok (nb : nat) (cn : gsm_subscriber_connection) : Prop := {
  ck_distinct1 : forall l, cn_lchan cn = Some l -> cn_ho_lchan cn <> Some l /\ cn_secondary cn <> Some l;
  ck_distinct2 : forall l, cn_ho_lchan cn = Some l -> cn_secondary cn <> Some l;
  ck_primary : cn_lchan cn = None -> cn_ho_lchan cn = None /\ cn_secondary cn = None;
  ck_either : cn_secondary cn <> None -> cn_ho_lchan cn = None;
  ck_bts : cn_lchan cn <> None -> exists b, cn_bts cn = Some b /\ (b < nb)%nat;
  ck_T10 : cn_T10 cn = true -> cn_bts cn <> None
}.

(** The channels' view [cc] and the connections' view [cs] of who uses what agree, and so do the
    handovers [hs]. *)
Record graph (cc : lref -> option nat) (cs : gmap nat gsm_subscriber_connection)
    (hs : list bsc_handover) (nb next : nat) : Prop := {
  g_conn : forall l c, cc l = Some c <-> exists cn, cs !! c = Some cn /\ holds cn l;
  g_ok : forall c cn, cs !! c = Some cn -> conn_ok nb cn;
  g_fresh : forall c cn, cs !! c = Some cn -> (c < next)%nat;
  g_ho : forall ho, ho ∈ hs -> exists c cn, cs !! c = Some cn /\
    cn_ho_lchan cn = Some (new_lchan ho) /\ cn_lchan cn = Some (old_lchan ho);
  g_ho_of : forall c cn l, cs !! c = Some cn -> cn_ho_lchan cn = Some l ->
    exists ho, ho ∈ hs /\ new_lchan ho = l;
  g_nodup : NoDup (new_lchan <$> hs)
}.

Definition graph_of (st : bsc_state) : Prop :=
  graph (chan_conn st) (conns st) (bsc_handovers st) (length (btss st)) (next_conn st).

Record bsc_wf (st : bsc_state) : Prop := {
  bw_frame : frame None st;
  bw_graph : graph_of st
}.

(** One connection and its handover change, all others stay. *)
Lemma graph_update cc cs hs nb next c cn' cc' hs' next' :
  graph cc cs hs nb next ->
  conn_ok nb cn' -> (next <= next')%nat -> (c < next')%nat ->
  (forall l, cc' l = Some c <-> holds cn' l) ->
  (forall l c0, c0 <> c -> cc' l = Some c0 <-> cc l = Some c0) ->
  (forall ho, ho ∈ hs' -> (ho ∈ hs /\ cc (new_lchan ho) <> Some c) \/
     (cn_ho_lchan cn' = Some (new_lchan ho) /\ cn_lchan cn' = Some (old_lchan ho))) ->
  (forall ho, ho ∈ hs -> cc (new_lchan ho) <> Some c -> ho ∈ hs') ->
  (forall l, cn_ho_lchan cn' = Some l -> exists ho, ho ∈ hs' /\ new_lchan ho = l) ->
  NoDup (new_lchan <$> hs') ->
  graph cc' (<[c := cn']> cs) hs' nb next'.
Proof.
  intros [Gc Go Gf Gh Gof Gn] Hok Hnx Hcx Hcc Hother H1 H2 H3 Hnd. split.
  - intros l c0. destruct (decide (c0 = c)) as [->|Hne].
    + rewrite Hcc, lookup_insert_eq. split; [intros Hh; by exists cn'|]. by intros (cn & [= <-] & Hh).
    + rewrite Hother by done. by rewrite Gc, lookup_insert_ne by done.
  - intros c0 cn. destruct (decide (c0 = c)) as [->|Hne]; [rewrite lookup_insert_eq; by intros [= <-]|].
    rewrite lookup_insert_ne by done. apply Go.
  - intros c0 cn. destruct (decide (c0 = c)) as [->|Hne]; [done|].
    rewrite lookup_insert_ne by done. intros Hl%Gf. lia.
  - intros ho Hho. destruct (H1 ho Hho) as [[Hin Hnc]|[Hn Ho]].
    + destruct (Gh ho Hin) as (c0 & cn & Hl & Hn & Ho). exists c0, cn.
      rewrite lookup_insert_ne; [done|]. intros <-. apply Hnc, Gc. exists cn. split; [done|]. by right; left.
    + exists c, cn'. by rewrite lookup_insert_eq.
  - intros c0 cn l. destruct (decide (c0 = c)) as [->|Hne]; [rewrite lookup_insert_eq; intros [= <-]; by apply H3|].
    rewrite lookup_insert_ne by done. intros Hl Hn. destruct (Gof _ _ _ Hl Hn) as (ho & Hin & <-).
    exists ho. split; [|done]. apply H2; [done|]. intros Hc.
    assert (cc (new_lchan ho) = Some c0) by (apply Gc; exists cn; split; [done|by right; left]). congruence.
  - done.
Qed.

(** A connection without channels goes. *)
Lemma graph_delete cc cs hs nb next c cn :
  graph cc cs hs nb next -> cs !! c = Some cn -> (forall l, ~ holds cn l) ->
  graph cc (delete c cs) hs nb next.
Proof.
  intros [Gc Go Gf Gh Gof Gn] Hc Hno. split; [| | | | |done].
  - intros l c0. rewrite Gc. split; intros (cn0 & Hl & Hh).
    + exists cn0. split; [|done]. rewrite lookup_delete_ne; [done|]. intros <-.
      rewrite Hc in Hl. injection Hl as <-. by apply (Hno l).
    + apply lookup_delete_Some in Hl as [_ Hl]. by exists cn0.
  - intros c0 cn0 [_ Hl]%lookup_delete_Some. by eapply Go.
  - intros c0 cn0 [_ Hl]%lookup_delete_Some. by eapply Gf.
  - intros ho Hho. destruct (Gh ho Hho) as (c0 & cn0 & Hl & Hn & Ho). exists c0, cn0.
    rewrite lookup_delete_ne; [done|]. intros <-. rewrite Hc in Hl. injection Hl as <-.
    by apply (Hno (new_lchan ho)); right; left.
  - intros c0 cn0 l [_ Hl]%lookup_delete_Some. by eapply Gof.
Qed.

Lemma graph_ext cc cc' cs hs nb next :
  graph cc cs hs nb next -> (forall l, cc' l = cc l) -> graph cc' cs hs nb next.
Proof. intros [Gc Go Gf Gh Gof Gn] He. split; try done. intros l c. by rewrite He. Qed.

Lemma holder_unique cc cs hs nb next l c c' cn cn' :
  graph cc cs hs nb next -> cs !! c = Some cn -> cs !! c' = Some cn' -> holds cn l -> holds cn' l -> c = c'.
Proof.
  intros G H1 H2 H3 H4. assert (cc l = Some c) by (apply (g_conn _ _ _ _ _ G); by exists cn).
  assert (cc l = Some c') by (apply (g_conn _ _ _ _ _ G); by exists cn'). congruence.
Qed.

(** ** Handover records *)

Lemma find_idx_Some {A} (f : A -> bool) (xs : list A) i :
  find_idx f xs = Some i -> exists x, xs !! i = Some x /\ f x = true.
Proof.
  unfold find_idx. destruct (list_find _ xs) as [[j x]|] eqn:E; [|done]. intros [= <-].
  apply list_find_Some in E as (Hl & Hf & _). by exists x.
Qed.
Lemma find_idx_None {A} (f : A -> bool) (xs : list A) x :
  find_idx f xs = None -> x ∈ xs -> f x = false.
Proof.
  unfold find_idx. destruct (list_find _ xs) as [[j y]|] eqn:E; [done|]. intros _ Hx.
  apply list_find_None in E. rewrite Forall_forall in E. specialize (E x Hx). by destruct (f x).
Qed.

Lemma by_new_lchan st l ho :
  ho ∈ bsc_handovers st -> new_lchan ho = l ->
  exists i ho', bsc_ho_by_new_lchan (Some l) st = Some i /\ bsc_handovers st !! i = Some ho' /\
    new_lchan ho' = l.
Proof.
  intros Hin Hn. destruct (bsc_ho_by_new_lchan (Some l) st) as [i|] eqn:E.
  - destruct (find_idx_Some _ _ _ E) as (ho' & Hl & Hf). exists i, ho'. split; [done|]. split; [done|].
    unfold lref_eqb in Hf. apply bool_decide_eq_true in Hf. congruence.
  - apply (find_idx_None _ _ ho) in E; [|done]. unfold lref_eqb in E.
    apply bool_decide_eq_false in E. congruence.
Qed.
Lemma by_new_lchan_Some st l i :
  bsc_ho_by_new_lchan l st = Some i ->
  exists ho, bsc_handovers st !! i = Some ho /\ l = Some (new_lchan ho).
Proof.
  intros E. destruct (find_idx_Some _ _ _ E) as (ho & Hl & Hf). exists ho. split; [done|].
  unfold lref_eqb in Hf. by apply bool_decide_eq_true in Hf.
Qed.
Lemma by_new_lchan_None st ho :
  bsc_ho_by_new_lchan (Some (new_lchan ho)) st = None -> ho ∉ bsc_handovers st.
Proof.
  intros E Hin. apply (find_idx_None _ _ ho) in E; [|done]. unfold lref_eqb in E.
  by apply bool_decide_eq_false in E.
Qed.
Lemma by_old_lchan_Some st l i :
  bsc_ho_by_old_lchan l st = Some i ->
  exists ho, bsc_handovers st !! i = Some ho /\ l = Some (old_lchan ho).
Proof.
  intros E. destruct (find_idx_Some _ _ _ E) as (ho & Hl & Hf). exists ho. split; [done|].
  unfold lref_eqb in Hf. by apply bool_decide_eq_true in Hf.
Qed.

(** The records that are left when record [i] of the list goes. *)
Lemma delete_ho (hs : list bsc_handover) i ho :
  NoDup (new_lchan <$> hs) -> hs !! i = Some ho ->
  (forall x, x ∈ delete i hs <-> x ∈ hs /\ new_lchan x <> new_lchan ho) /\
  NoDup (new_lchan <$> delete i hs).
Proof.
  intros Hnd Hi. pose proof (delete_Permutation _ _ _ Hi) as Hp.
  assert (NoDup (new_lchan <$> (ho :: delete i hs))) as Hnd'.
  { eapply NoDup_Permutation_proper; [|exact Hnd]. symmetry. by apply fmap_Permutation. }
  rewrite fmap_cons in Hnd'. apply NoDup_cons in Hnd' as [Hn Hnd']. split; [|done].
  intros x. assert (x ∈ hs <-> x ∈ ho :: delete i hs) as -> by (by rewrite <- Hp). rewrite elem_of_cons. split.
  - intros Hx. split; [by right|]. intros He. apply Hn. rewrite <- He. by apply list_elem_of_fmap_2.
  - by intros [[->|Hx] Hne].
Qed.

(** ** The parts the operations share *)

Lemma delete_filter_ho (hs : list bsc_handover) i ho :
  NoDup (new_lchan <$> hs) -> hs !! i = Some ho ->
  delete i hs = filter (fun x => Some (new_lchan ho) <> Some (new_lchan x)) hs.
Proof.
  revert i. induction hs as [|x hs IH]; intros i Hnd Hi; [done|].
  rewrite fmap_cons in Hnd. apply NoDup_cons in Hnd as [Hn Hnd]. rewrite filter_cons.
  destruct i as [|i]; cbn in Hi.
  - injection Hi as ->. rewrite decide_False by (by intros ?). cbn. symmetry.
    apply list_filter_id, Forall_forall. intros y Hy [= He]. apply Hn. rewrite He.
    by apply list_elem_of_fmap_2.
  - rewrite decide_True; [cbn; f_equal; by apply IH|]. intros [= He]. apply Hn. rewrite <- He.
    by eapply list_elem_of_fmap_2, list_elem_of_lookup_2.
Qed.

Lemma by_new_of_shape {ex st0 nx cc cs hs st} (Hsh : shape ex st0 nx cc cs hs st) ho :
  ho ∈ hs -> NoDup (new_lchan <$> hs) ->
  exists i, bsc_ho_by_new_lchan (Some (new_lchan ho)) st = Some i /\ hs !! i = Some ho.
Proof.
  pose proof (sh_hos _ _ _ _ _ _ _ Hsh) as <-. intros Hin Hnd.
  destruct (by_new_lchan st _ ho Hin eq_refl) as (i & ho' & Hi & Hl & Hn).
  exists i. split; [done|]. apply list_elem_of_lookup_1 in Hin as [j Hj]. rewrite Hl.
  assert (i = j) as <- by (eapply (NoDup_lookup _ i j (new_lchan ho) Hnd);
    rewrite list_lookup_fmap; [by rewrite Hl; cbn; rewrite Hn|by rewrite Hj]). congruence.
Qed.

Section parts.
Context {ex : option lref} {st0 : bsc_state} {nx : nat} {cc : lref -> option nat}
  {cs : gmap nat gsm_subscriber_connection} {hs : list bsc_handover} {st : bsc_state}.
Hypothesis Hsh : shape ex st0 nx cc cs hs st.
Hypothesis Hnd : NoDup (new_lchan <$> hs).

(** The handovers that are left without the one to [l]. *)
Definition hos_without (l : option lref) (hs : list bsc_handover) : list bsc_handover :=
  filter (fun ho => l <> Some (new_lchan ho)) hs.

Lemma sp_stop_T3103 i ho (Q : unit -> bsc_state -> Prop) :
  hs !! i = Some ho ->
  (forall st', shape ex st0 nx cc cs (<[i := ho <| T3103 := false |>]> hs) st' -> btss st' = btss st -> Q tt st') ->
  wp (stop_T3103 i) Q st.
Proof.
  intros Hi HQ. unfold stop_T3103. wp_steps. apply HQ; [|done].
  eapply shape_fields; [exact Hsh|done..|apply Hsh|apply Hsh|]. upd_norm. cbn [bsc_handovers].
  rewrite (sh_hos _ _ _ _ _ _ _ Hsh). by rewrite <- (list_insert_alter _ _ _ ho Hi).
Qed.

(** The handover at place [i] ends, with or without its timer running. *)
Lemma sp_free_ho i ho (Q : unit -> bsc_state -> Prop) :
  hs !! i = Some ho -> T3103 ho = false ->
  (forall st', shape ex st0 nx cc cs (hos_without (Some (new_lchan ho)) hs) st' ->
    btss st' = btss st -> Q tt st') ->
  wp (free_ho i) Q st.
Proof.
  intros Hi Ht HQ. unfold free_ho. wp_steps. rewrite (sp_get_ho Hsh _ _ _ Hi). wp_steps.
  rewrite Ht, wp_when. apply HQ; [|done].
  eapply shape_fields; [exact Hsh|done..|apply Hsh|apply Hsh|]. upd_norm. cbn [bsc_handovers].
  rewrite (sh_hos _ _ _ _ _ _ _ Hsh). by apply delete_filter_ho.
Qed.

End parts.

Lemma stopped (hs : list bsc_handover) i ho :
  hs !! i = Some ho ->
  (<[i := ho <| T3103 := false |>]> hs) !! i = Some (ho <| T3103 := false |>) /\
  new_lchan <$> <[i := ho <| T3103 := false |>]> hs = new_lchan <$> hs /\
  (NoDup (new_lchan <$> hs) ->
   hos_without (Some (new_lchan ho)) (<[i := ho <| T3103 := false |>]> hs) =
   hos_without (Some (new_lchan ho)) hs).
Proof.
  intros Hi. set (ho' := ho <| T3103 := false |>).
  assert ((<[i := ho']> hs) !! i = Some ho') as Hi'.
  { apply list_lookup_insert_eq. by eapply lookup_lt_Some. }
  assert (new_lchan <$> <[i := ho']> hs = new_lchan <$> hs) as Hf.
  { rewrite list_fmap_insert. apply list_insert_id. by rewrite list_lookup_fmap, Hi. }
  split; [done|]. split; [done|]. intros Hnd. unfold hos_without.
  rewrite <- (delete_filter_ho hs i ho) by done.
  etrans; [symmetry; apply (delete_filter_ho _ i ho'); [by rewrite Hf|done]|].
  rewrite (list_insert_alter (fun _ => ho') _ _ ho) by done. apply list_delete_alter.
Qed.

Lemma sp_end_ho {ex st0 nx cc cs hs st} (Hsh : shape ex st0 nx cc cs hs st) i ho
    (Q : unit -> bsc_state -> Prop) :
  NoDup (new_lchan <$> hs) -> hs !! i = Some ho ->
  (forall st', shape ex st0 nx cc cs (hos_without (Some (new_lchan ho)) hs) st' ->
    btss st' = btss st -> Q tt st') ->
  wp (stop_T3103 i) (fun _ => wp (free_ho i) Q) st.
Proof.
  intros Hnd Hi HQ. eapply (sp_stop_T3103 Hsh); [done|]. intros st1 Hs1 Hb1.
  destruct (stopped hs i ho Hi) as (Hi' & Hf & Hw).
  eapply (sp_free_ho Hs1); [by rewrite Hf|done|done|]. intros st2 Hs2 Hb2.
  apply HQ; [|congruence]. eapply shape_ext; [exact Hs2|done|done|]. by apply Hw.
Qed.

End bsc.
End BscProps.
