(* ===== verification/BscParts.v ===== *)
(** The parts the operations of connections share - ending a handover, clearing a connection,
    freeing a channel, allocating one - and what each leaves of the pointers. *)

From S2P Require Import Prelude Chreq Radio ChanAlloc AllocProps Rsl RslProps Bsc BscProps.

Module BscParts.
Import AllocProps RslProps Bsc BscProps.

Section bsc.
Context `{LibosmoConst} `{BscApi}.

(** ** Clearing *)

Lemma sp_clear_handover {ex st0 nx cc cs hs st} (Hsh : shape ex st0 nx cc cs hs st) c (b : bool) cn ho
    (Q : unit -> bsc_state -> Prop) :
  cs !! c = Some cn -> cn_ho_lchan cn = Some (new_lchan ho) -> ho ∈ hs -> NoDup (new_lchan <$> hs) ->
  cc (new_lchan ho) = Some c -> (if b then Some (new_lchan ho) <> ex else True) ->
  (forall st', shape ex st0 nx (relink (new_lchan ho) None cc) (<[c := cn <| cn_ho_lchan := None |>]> cs)
     (hos_without (cn_ho_lchan cn) hs) st' -> Q tt st') ->
  wp (bsc_clear_handover c b) Q st.
Proof.
  intros Hc Hl Hin Hnd Hcc Hb HQ. unfold bsc_clear_handover. wp_steps.
  rewrite (sp_get_conn Hsh _ _ _ Hc). wp_steps.
  destruct (by_new_of_shape Hsh ho Hin Hnd) as (i & Hi & Hho). rewrite Hl, Hi. wp_steps.
  rewrite (sp_get_ho Hsh _ _ _ Hho). cbn [deref]. wp_steps.
  assert (exists lc, lookup_chan st (new_lchan ho) = Some lc) as [lc Hlc].
  { pose proof (sh_cc _ _ _ _ _ _ _ Hsh (new_lchan ho)) as E. rewrite Hcc in E. unfold chan_conn in E.
    destruct (lookup_chan st (new_lchan ho)); [by eexists|done]. }
  assert (b = true -> lc_type lc <> GSM_LCHAN_NONE) as Htype.
  { intros ->. destruct (used_lookup Hsh _ _ Hcc Hb) as (lc' & Hl' & _ & Ht & _). congruence. }
  apply (sp_set_lchan_conn Hsh _ None _ _ Hlc); [by left|]. intros Hs1. wp_steps.
  eapply (sp_set_conn Hs1 _ _ _ cn); [done|]. intros st2 Hs2 Hb2 _.
  assert (forall k, (forall st3, shape ex st0 nx (relink (new_lchan ho) None cc)
      (<[c := cn <| cn_ho_lchan := None |>]> cs) hs st3 -> wp k Q st3) ->
    wp ((if b then release (new_lchan ho) 0 1 else mret tt) ≫= fun _ => k) Q st2) as Hrel.
  { intros k Hk. wp_steps. destruct b; [|wp_steps; by apply Hk].
    unfold release. wp_steps. set (lc1 := lc <| lc_conn := None |>) in *.
    assert (lookup_chan st2 (new_lchan ho) = Some lc1) as Hl2.
    { unfold lookup_chan. rewrite Hb2. change (lookup_chan (put (new_lchan ho) lc1 st) (new_lchan ho) = Some lc1).
      by rewrite (lookup_put _ _ _ _ _ Hlc), decide_True. }
    eapply wp_on_chan; [done|]. intros ts. eapply wp_mono; [apply release_channel|].
    intros a lc' (Hcn & Ht & _). cbn beta. wp_steps. apply Hk.
    eapply shape_ext; [apply (shape_put Hs2 _ lc1 lc' Hl2); [|by left]| |done|done].
    - left. apply in_use_not_free. by apply Htype.
    - rewrite Hcn. intros l'. unfold relink. by case_decide. }
  apply Hrel. clear Hrel. intros st3 Hs3. wp_steps. eapply (sp_end_ho Hs3); [done..|].
  intros st4 Hs4 _. apply HQ. by rewrite Hl.
Qed.

(** What a connection loses: its channels, and the handover. *)
Definition unhold (cn : gsm_subscriber_connection) (cc : lref -> option nat) : lref -> option nat :=
  fun l => if decide (holds cn l) then None else cc l.
Definition no_channels (cn : gsm_subscriber_connection) : gsm_subscriber_connection :=
  mk_conn None None None None false (cn_subscr cn).

Lemma sp_release_opt {ex st0 nx cc cs hs st} (Hsh : shape ex st0 nx cc cs hs st) o sd reason c
    (Q : unit -> bsc_state -> Prop) :
  (forall l, o = Some l -> cc l = Some c /\ Some l <> ex) ->
  (forall st', shape ex st0 nx (fun l => if decide (o = Some l) then None else cc l) cs hs st' -> Q tt st') ->
  wp (match o with Some l => release l sd reason | None => mret tt end) Q st.
Proof.
  intros Ho HQ. destruct o as [l|].
  - destruct (Ho l eq_refl) as [Hc Hex]. eapply (sp_release Hsh); [done|done|].
    intros lc' _ _ _ Hs'. apply HQ. eapply shape_ext; [exact Hs'| |done|done]. intros l'. unfold relink.
    repeat case_decide; congruence.
  - wp_steps. apply HQ. by eapply shape_ext.
Qed.

(** What holds of a connection when it is cleared; its channels are not [ex]. *)
Record clearable (ex : option lref) (cc : lref -> option nat) (hs : list bsc_handover) (c : nat)
    (cn : gsm_subscriber_connection) : Prop := {
  cl_cc : forall l, holds cn l -> cc l = Some c /\ Some l <> ex;
  cl_distinct1 : forall l, cn_lchan cn = Some l -> cn_ho_lchan cn <> Some l /\ cn_secondary cn <> Some l;
  cl_distinct2 : forall l, cn_ho_lchan cn = Some l -> cn_secondary cn <> Some l;
  cl_ho : forall l, cn_ho_lchan cn = Some l -> exists ho, ho ∈ hs /\ new_lchan ho = l
}.

Lemma sp_gsm0808_clear {ex st0 nx cc cs hs st} (Hsh : shape ex st0 nx cc cs hs st) c cn
    (Q : unit -> bsc_state -> Prop) :
  cs !! c = Some cn -> NoDup (new_lchan <$> hs) -> clearable ex cc hs c cn ->
  (forall st', shape ex st0 nx (unhold cn cc) (<[c := no_channels cn]> cs)
     (hos_without (cn_ho_lchan cn) hs) st' -> Q tt st') ->
  wp (gsm0808_clear c) Q st.
Proof.
  intros Hc Hnd [Hcl Hd1 Hd2 Hho] HQ. unfold gsm0808_clear. wp_steps. rewrite (sp_get_conn Hsh _ _ _ Hc).
  set (cn1 := cn <| cn_ho_lchan := None |>).
  set (cc1 := fun l => if decide (cn_ho_lchan cn = Some l) then None else cc l).
  set (hs1 := hos_without (cn_ho_lchan cn) hs).
  assert (forall k : M bsc_state bsc_event unit,
    (forall st1 cs1, shape ex st0 nx cc1 cs1 hs1 st1 -> cs1 = <[c := cn1]> cs -> wp k Q st1) ->
    wp ((if bool_decide (is_Some (cn_ho_lchan cn)) then bsc_clear_handover c true else mret tt) ≫=
        fun _ => k) Q st) as Hstep.
  { intros k Hk. wp_steps. destruct (cn_ho_lchan cn) as [l|] eqn:El.
    - rewrite bool_decide_true by done. destruct (Hho l eq_refl) as (ho & Hin & <-).
      destruct (Hcl (new_lchan ho)) as [Hcc Hex]; [by right; left|].
      eapply (sp_clear_handover Hsh); [done|done|done|done|done|done|].
      intros st1 Hs1. rewrite El in Hs1. eapply Hk; [|done].
      eapply shape_ext; [exact Hs1| |done|done]. intros l'. unfold relink, cc1. repeat case_decide; congruence.
    - rewrite bool_decide_false by (by intros [? ?]). wp_steps. eapply Hk; [|done].
      eapply shape_ext; [exact Hsh|done| |].
      + symmetry. apply insert_id. rewrite Hc. unfold cn1. destruct cn. upd_norm. cbn in El. by subst.
      + unfold hs1, hos_without. symmetry. apply list_filter_id, Forall_forall. done. }
  apply Hstep. clear Hstep. intros st1 cs1 Hs1 ->. wp_steps.
  rewrite (sp_get_conn Hs1 _ _ cn1) by apply lookup_insert_eq. wp_steps.
  eapply (sp_release_opt Hs1).
  { intros l Hl. unfold cn1 in Hl. revert Hl. upd_norm. cbn [cn_secondary]. intros Hl.
    destruct (Hcl l) as [Hcc Hex]; [by right; right|]. split; [|done]. unfold cc1.
    rewrite decide_False; [done|]. intros Hn. by apply (Hd2 l). }
  intros st2 Hs2. wp_steps. rewrite (sp_get_conn Hs2 _ _ cn1) by apply lookup_insert_eq. wp_steps.
  eapply (sp_release_opt Hs2).
  { intros l. unfold cn1. upd_norm. cbn [cn_lchan cn_secondary]. intros Hl.
    destruct (Hcl l) as [Hcc Hex]; [by left|]. split; [|done]. destruct (Hd1 l Hl) as [N1 N2].
    unfold cc1. by rewrite !decide_False. }
  intros st3 Hs3. eapply (sp_set_conn Hs3 _ _ _ cn1); [apply lookup_insert_eq|]. intros st4 Hs4 _ _.
  apply HQ. eapply shape_ext; [exact Hs4| |by rewrite insert_insert_eq|done].
  intros l. unfold unhold, cc1, cn1, holds. upd_norm. cbn [cn_lchan cn_secondary cn_ho_lchan].
  repeat case_decide; tauto || congruence.
Qed.

(** A connection without channels is freed. *)
Lemma sp_free_bare {ex st0 nx cc cs hs st} (Hsh : shape ex st0 nx cc cs hs st) c cn
    (Q : unit -> bsc_state -> Prop) :
  cs !! c = Some cn -> cn_lchan cn = None -> cn_ho_lchan cn = None -> cn_secondary cn = None ->
  (forall st', shape ex st0 nx cc (delete c cs) hs st' -> Q tt st') ->
  wp (subscr_con_free c) Q st.
Proof.
  intros Hc H1 H2 H3 HQ. unfold subscr_con_free. wp_steps. rewrite (sp_get_conn Hsh _ _ _ Hc), H1, H2, H3.
  cbn [drop_conn_of]. wp_steps. apply HQ.
  eapply shape_fields; [exact Hsh|done..|apply Hsh| |apply Hsh]. upd_norm. cbn [conns].
  by rewrite (sh_conns _ _ _ _ _ _ _ Hsh).
Qed.
Lemma sp_free_cleared {ex st0 nx cc cs hs st} (Hsh : shape ex st0 nx cc cs hs st) c cn
    (Q : unit -> bsc_state -> Prop) :
  cs !! c = Some (no_channels cn) ->
  (forall st', shape ex st0 nx cc (delete c cs) hs st' -> Q tt st') ->
  wp (subscr_con_free c) Q st.
Proof. intros Hc. by apply (sp_free_bare Hsh c (no_channels cn)). Qed.

(** ** Freeing a channel *)

Lemma hos_without_elem l hs ho : ho ∈ hos_without l hs <-> ho ∈ hs /\ l <> Some (new_lchan ho).
Proof. unfold hos_without. rewrite list_elem_of_filter. tauto. Qed.
Lemma hos_without_nodup l hs : NoDup (new_lchan <$> hs) -> NoDup (new_lchan <$> hos_without l hs).
Proof. intros Hn. eapply sublist_NoDup; [exact Hn|]. apply fmap_sublist, sublist_filter. Qed.
Lemma hos_without_None hs : hos_without None hs = hs.
Proof. apply list_filter_id, Forall_forall. done. Qed.

Context (api_clear_request : nat -> bool).

(** [l] left the connection; the connection is told and cleared. *)
Lemma sp_release_rest {l st0 nx cc cs hs st} (Hsh : shape (Some l) st0 nx cc cs hs st) c cn (destruct : bool)
    (Q : unit -> bsc_state -> Prop) :
  cs !! c = Some cn -> is_Some (lookup_chan st0 l) -> NoDup (new_lchan <$> hs) ->
  clearable (Some l) (relink l None cc) hs c cn ->
  (forall st' cs', shape (Some l) st0 nx (unhold cn (relink l None cc)) cs' (hos_without (cn_ho_lchan cn) hs) st' ->
     cs' = <[c := no_channels cn]> cs \/ cs' = delete c cs -> Q tt st') ->
  wp (_ ← set_lchan_conn l None; _ ← gsm0808_clear c;
      if destruct then subscr_con_free c else mret tt) Q st.
Proof.
  intros Hc Hl Hnd Hcl HQ. destruct (exists_lookup Hsh _ Hl) as [lc Hlc]. wp_steps.
  apply (sp_set_lchan_conn Hsh _ None _ _ Hlc); [by left|]. intros Hs1. wp_steps.
  eapply (sp_gsm0808_clear Hs1); [done..|]. intros st2 Hs2.
  destruct destruct; [|wp_steps; eapply HQ; [done|by left]].
  eapply (sp_free_cleared Hs2); [apply lookup_insert_eq|]. intros st3 Hs3.
  eapply HQ; [done|]. right. apply delete_insert_eq.
Qed.

(** [cn'] is [cn] without channel [l]. *)
Definition without (l : lref) (o : option lref) : option lref :=
  if decide (o = Some l) then None else o.
Record lost (l : lref) (cn cn' : gsm_subscriber_connection) : Prop := {
  lost_lchan : cn_lchan cn' = without l (cn_lchan cn);
  lost_ho : cn_ho_lchan cn' = without l (cn_ho_lchan cn);
  lost_secondary : cn_secondary cn' = without l (cn_secondary cn);
  lost_subscr : cn_subscr cn' = cn_subscr cn
}.

Lemma without_Some l o l' : without l o = Some l' <-> o = Some l' /\ l' <> l.
Proof.
  unfold without. case_decide as E; [subst|].
  - split; [done|]. by intros [[= <-] ?].
  - split; [intros ->; split; [done|congruence]|by intros [-> _]].
Qed.
Lemma holds_lost l cn cn' l' : lost l cn cn' -> holds cn' l' <-> holds cn l' /\ l' <> l.
Proof. intros [H1 H2 H3 _]. unfold holds. rewrite H1, H2, H3, !without_Some. tauto. Qed.

Lemma clearable_lost l cc cc' hs hs' c cn cn' :
  clearable None cc hs c cn -> lost l cn cn' -> (forall l', l' <> l -> cc' l' = cc l') ->
  (forall ho, ho ∈ hs -> new_lchan ho <> l -> ho ∈ hs') ->
  clearable (Some l) (relink l None cc') hs' c cn'.
Proof.
  intros [Hcc Hd1 Hd2 Hho] Hlost Hc' Hh'. pose proof Hlost as [H1 H2 H3 _]. split.
  - intros l' [Hl Hne]%(holds_lost l cn). 2: done. destruct (Hcc l' Hl) as [Hl' _].
    unfold relink. rewrite decide_False by congruence. rewrite Hc' by done. split; [done|congruence].
  - intros l'. rewrite H1, H2, H3, !without_Some. intros [Hl _]. apply Hd1 in Hl. tauto.
  - intros l'. rewrite H2, H3, !without_Some. intros [Hl _]. apply Hd2 in Hl. tauto.
  - intros l'. rewrite H2, without_Some. intros [Hl Hne]. destruct (Hho l' Hl) as (ho & Hin & <-).
    exists ho. split; [by apply Hh'|done].
Qed.
Lemma unhold_lost l cc cc' cn cn' l' :
  lost l cn cn' -> holds cn l -> (forall l', l' <> l -> cc' l' = cc l') ->
  unhold cn' (relink l None cc') l' = unhold cn cc l'.
Proof.
  intros Hlost Hl Hc'. unfold unhold, relink. pose proof (holds_lost _ _ _ l' Hlost) as Hh.
  destruct (decide (l = l')) as [<-|Hne].
  - rewrite (decide_True (P := holds cn l)) by done. by case_decide.
  - rewrite Hc' by done. assert (l' <> l) by congruence. repeat case_decide; tauto.
Qed.

Ltac solve_lost :=
  split; upd_norm; cbn [cn_lchan cn_ho_lchan cn_secondary cn_subscr]; unfold without; repeat case_decide; congruence.

(** The connection [cn] loses channel [l], which is being freed, and then the others. *)
Lemma sp_handle_release {l st0 nx cc cs hs st} (Hsh : shape (Some l) st0 nx cc cs hs st) c cn
    (Q : unit -> bsc_state -> Prop) :
  cs !! c = Some cn -> holds cn l -> is_Some (lookup_chan st0 l) -> NoDup (new_lchan <$> hs) ->
  clearable None cc hs c cn -> (cn_secondary cn = Some l -> has_assign_fail = true) ->
  (forall st' cs', shape (Some l) st0 nx (unhold cn cc) cs' (hos_without (cn_ho_lchan cn) hs) st' ->
     cs' = <[c := no_channels cn]> cs \/ cs' = delete c cs -> Q tt st') ->
  wp (handle_release api_clear_request c l) Q st.
Proof.
  intros Hc Hl Hex Hnd [Hcc Hd1 Hd2 Hho] Hapi HQ. unfold handle_release. wp_steps.
  rewrite (sp_get_conn Hsh _ _ _ Hc). unfold lref_eqb.
  assert (forall cc1 cn1 hs1 st1, shape (Some l) st0 nx cc1 (<[c := cn1]> cs) hs1 st1 -> lost l cn cn1 ->
    (forall l', l' <> l -> cc1 l' = cc l') -> (forall ho, ho ∈ hs -> new_lchan ho <> l -> ho ∈ hs1) ->
    NoDup (new_lchan <$> hs1) -> hos_without (cn_ho_lchan cn1) hs1 = hos_without (cn_ho_lchan cn) hs ->
    wp (_ ← set_lchan_conn l None; _ ← gsm0808_clear c;
        if (if has_clear_request then api_clear_request c else true) then subscr_con_free c else mret tt) Q st1) as Hrest.
  { intros cc1 cn1 hs1 st1 Hs1 Hlost Hc1 Hh1 Hn1 Hh. 
    eapply (sp_release_rest Hs1); [apply lookup_insert_eq|done|done|by eapply clearable_lost|].
    intros st2 cs2 Hs2 Hcs2. rewrite insert_insert_eq, delete_insert_eq in Hcs2. unfold no_channels at 1 in Hcs2.
    rewrite (lost_subscr _ _ _ Hlost) in Hcs2. eapply HQ; [|done].
    eapply shape_ext; [exact Hs2| |done|done]. intros l'. by eapply unhold_lost. }
  destruct Hl as [Hl|[Hl|Hl]].
  - destruct (Hd1 l Hl) as [N1 N2]. rewrite (bool_decide_false (cn_secondary cn = _)) by done. wp_steps.
    rewrite (sp_get_conn Hsh _ _ _ Hc).
    rewrite (bool_decide_true (cn_lchan cn = _)), (bool_decide_false (cn_ho_lchan cn = _)) by done.
    wp_steps. eapply (sp_set_conn Hsh); [done|]. intros st1 Hs1 _ _. wp_steps. rewrite <- wp_bind.
    assert (lost l cn (cn <| cn_lchan := None |>)) as Hlost by solve_lost.
    by apply (Hrest _ _ _ _ Hs1 Hlost); try done; upd_norm.
  - assert (cn_lchan cn <> Some l) as N1 by (intros E; by apply Hd1 in E as [? _]).
    pose proof (Hd2 l Hl) as N2. rewrite (bool_decide_false (cn_secondary cn = _)) by done. wp_steps.
    rewrite (sp_get_conn Hsh _ _ _ Hc).
    rewrite (bool_decide_false (cn_lchan cn = _)), (bool_decide_true (cn_ho_lchan cn = _)) by done.
    wp_steps. destruct (Hho l Hl) as (ho & Hin & <-).
    eapply (sp_clear_handover Hsh); [done..|by apply Hcc; right; left|done|]. intros st1 Hs1. wp_steps.
    eapply (sp_set_conn Hs1); [apply lookup_insert_eq|]. intros st2 Hs2 _ _. wp_steps. rewrite <- wp_bind.
    rewrite insert_insert_eq in Hs2.
    eapply (Hrest _ _ _ _ Hs2); [solve_lost| | | |].
    + intros l' Hne. unfold relink. by rewrite decide_False.
    + intros ho' Hin' Hne. apply hos_without_elem. rewrite Hl. split; [done|congruence].
    + by apply hos_without_nodup.
    + upd_norm. cbn [cn_ho_lchan]. apply hos_without_None.
  - assert (cn_lchan cn <> Some l) as N1 by (intros E; by apply Hd1 in E as [_ ?]).
    assert (cn_ho_lchan cn <> Some l) as N2 by (intros E; by apply Hd2 in E).
    rewrite (bool_decide_true (cn_secondary cn = _)) by done. wp_steps.
    eapply (sp_set_conn Hsh); [done|]. intros st1 Hs1 _ _. wp_steps.
    eapply (sp_set_conn Hs1); [apply lookup_insert_eq|]. intros st2 Hs2 _ _. wp_steps.
    rewrite wp_api_call_unchecked. split; [by apply Hapi|]. wp_steps.
    rewrite insert_insert_eq in Hs2.
    rewrite (sp_get_conn Hs2 _ _ _ (lookup_insert_eq _ _ _)). upd_norm. cbn [cn_lchan cn_ho_lchan].
    rewrite (bool_decide_false (cn_lchan cn = _)), (bool_decide_false (cn_ho_lchan cn = _)) by done.
    wp_steps. rewrite <- wp_bind. by apply (Hrest _ _ _ _ Hs2); [solve_lost|..].
Qed.

(** The radio links. *)
Definition knows_bts (cc : lref -> option nat) (cs : gmap nat gsm_subscriber_connection) (l : lref) : Prop :=
  forall c, cc l = Some c -> exists cn b, cs !! c = Some cn /\ cn_bts cn = Some b.

Lemma sp_rll_ind {ex st0 nx cc cs hs st} (Hsh : shape ex st0 nx cc cs hs st) r ind
    (Q : unit -> bsc_state -> Prop) :
  is_Some (lookup_chan st (rr_lchan r)) -> knows_bts cc cs (rr_lchan r) -> Q tt st ->
  wp (rll_ind_cb r ind) Q st.
Proof.
  intros [lc Hl] Hb HQ. unfold rll_ind_cb. wp_steps. rewrite (wp_get_chan _ _ _ _ Hl).
  destruct (lc_conn lc) as [c|] eqn:Ec; [|by wp_steps].
  destruct (Hb c) as (cn & b & Hc & Hcb); [by rewrite <- (cc_lookup Hsh _ _ Hl)|].
  unfold send_sapi_reject. destruct ind; wp_steps; try done;
    rewrite (sp_conn_bts Hsh _ _ _ _ Hc Hcb); by wp_steps.
Qed.
Lemma sp_complete_rllr {ex st0 nx cc cs hs st} (Hsh : shape ex st0 nx cc cs hs st) i r ind
    (Q : unit -> bsc_state -> Prop) :
  bsc_rll_reqs st !! i = Some r -> knows_bts cc cs (rr_lchan r) ->
  (forall st', shape ex st0 nx cc cs hs st' -> btss st' = btss st ->
    bsc_rll_reqs st' = delete i (bsc_rll_reqs st) -> Q tt st') ->
  wp (complete_rllr i ind) Q st.
Proof.
  intros Hr Hb HQ. unfold complete_rllr. wp_steps. rewrite Hr. wp_steps.
  pose proof Hsh as [[Hw Ht Hrl Hst] Hlen Hex Hn Hc Hcs Hhs].
  set (st' := st <| bsc_rll_reqs ::= delete i |>).
  assert (shape ex st0 nx cc cs hs st') as Hs'.
  { split; try done. split; try done. apply Forall_delete, Hrl. }
  apply (sp_rll_ind Hs'); [|done|by apply HQ]. by eapply (Forall_lookup_1 _ _ _ _ Hrl).
Qed.
Lemma sp_rll_freed_loop {ex st0 nx cc cs hs} l k i st (Q : unit -> bsc_state -> Prop) :
  shape ex st0 nx cc cs hs st -> cc l = None ->
  (forall st', shape ex st0 nx cc cs hs st' -> btss st' = btss st -> Q tt st') ->
  wp (rll_freed_loop l k i) Q st.
Proof.
  revert i st. induction k as [|k IH]; intros i st Hsh Hl HQ; cbn [rll_freed_loop].
  - wp_steps. by apply HQ.
  - wp_steps. destruct (bsc_rll_reqs st !! i) as [r|] eqn:Er; [|wp_steps; by apply HQ].
    case_bool_decide as E; [|by apply IH]. wp_steps. eapply (sp_complete_rllr Hsh); [done| |].
    { intros c. rewrite E, Hl. done. }
    intros st1 Hs1 Hb1 _. apply IH; [done|done|]. intros st2 Hs2 Hb2. apply HQ; [done|congruence].
Qed.

Lemma frame_weaken ex st : frame None st -> frame ex st.
Proof. intros [H1 H2 H3 H4]. split; try done. intros l lc c Hl Hc _. by eapply H2. Qed.
Lemma shape_weaken ex st0 nx cc cs hs st : shape None st0 nx cc cs hs st -> shape ex st0 nx cc cs hs st.
Proof. intros []. split; try done. by apply frame_weaken. Qed.
Lemma shape_strengthen l st0 nx cc cs hs st :
  shape (Some l) st0 nx cc cs hs st -> cc l = None -> shape None st0 nx cc cs hs st.
Proof.
  intros Hsh Hl. pose proof Hsh as [[H1 H2 H3 H4] ? ? ? ? ? ?]. split; try done. split; try done.
  intros l' lc c Hl' Hc _. eapply H2; [done..|]. intros [= ->].
  pose proof (cc_lookup Hsh _ _ Hl'). congruence.
Qed.

(** The steps of [lchan_free] on the channel itself. *)
Lemma sp_free_begin {st0 nx cc cs hs st} (Hsh : shape None st0 nx cc cs hs st) l
    (Q : gsm_chan_t -> bsc_state -> Prop) :
  is_Some (lookup_chan st0 l) ->
  (forall t st', shape (Some l) st0 nx cc cs hs st' -> Q t st') ->
  wp (on_chan l (fun _ => lchan_free_begin)) Q st.
Proof.
  intros Hl HQ. destruct (exists_lookup Hsh _ Hl) as [lc Hlc].
  apply shape_weaken with (ex := Some l) in Hsh.
  eapply wp_on_chan; [done|]. intros ts. unfold lchan_free_begin. wp_steps. apply HQ.
  match goal with |- shape _ _ _ _ _ _ (put _ ?x _) => set (lc' := x) end.
  assert (lc_conn lc' = lc_conn lc) as E by (unfold lc'; by upd_norm).
  eapply shape_ext; [apply (shape_put Hsh l lc lc' Hlc); [by right|by right; right]| |done|done].
  intros l'. apply (relink_same (cc := cc)). rewrite E. symmetry. apply (cc_lookup Hsh _ _ Hlc).
Qed.

Lemma sp_free_tail {st0 nx cc cs hs st} l t (Q : unit -> bsc_state -> Prop)
    (Hsh : shape (Some l) st0 nx cc cs hs st) :
  is_Some (lookup_chan st0 l) -> cc l = None ->
  (forall st', shape None st0 nx cc cs hs st' -> Q tt st') ->
  wp (_ ← on_chan l (fun _ => lchan_free_middle);
      _ ← emit (Chan_ev l.1 (Radio_ev (EvFreed t)));
      _ ← rll_lchan_signal l;
      on_chan l (fun _ => lchan_free_end)) Q st.
Proof.
  intros Hl Hc HQ. destruct (exists_lookup Hsh _ Hl) as [lc Hlc].
  assert (lc_conn lc = None) as Hcn by (rewrite <- Hc; by apply (cc_lookup Hsh)).
  wp_steps. eapply wp_on_chan; [done|]. intros ts. unfold lchan_free_middle. wp_steps.
  match goal with |- context [put l ?x st] => set (lc1 := x) end.
  assert (lc_conn lc1 = None /\ lchan_is_free lc1 = lchan_is_free lc) as [Hc1 Hf1].
  { unfold lc1, forget_meas. upd_norm. cbn [rqd_ref]. by case_bool_decide; upd_norm. }
  assert (shape (Some l) st0 nx cc cs hs (put l lc1 st)) as Hs1.
  { eapply shape_ext; [apply (shape_put Hsh l lc lc1 Hlc)| |done|done].
    - rewrite Hf1. destruct (lchan_is_free lc); tauto.
    - by left.
    - intros l'. rewrite Hc1. by apply relink_same. }
  clearbody lc1. unfold rll_lchan_signal. wp_steps. eapply sp_rll_freed_loop; [exact Hs1|exact Hc|].
  intros st2 Hs2 _. destruct (exists_lookup Hs2 _ Hl) as [lc2 Hlc2].
  eapply wp_on_chan; [done|]. intros ts2. unfold lchan_free_end. wp_steps. apply HQ.
  eapply shape_strengthen; [|exact Hc].
  match goal with |- context [put l ?x st2] => set (lc3 := x) end.
  eapply shape_ext; [apply (shape_put Hs2 l lc2 lc3 Hlc2)| |done|done].
  - assert (lchan_is_free lc3 = lchan_is_free lc2) as -> by (unfold lc3; by upd_norm).
    destruct (lchan_is_free lc2); tauto.
  - by left.
  - intros l'. by apply relink_same.
Qed.

(** A channel no connection uses is freed. *)
Lemma sp_free_unused {st0 nx cc cs hs st} (Hsh : shape None st0 nx cc cs hs st) l
    (Q : unit -> bsc_state -> Prop) :
  is_Some (lookup_chan st0 l) -> cc l = None ->
  (forall st', shape None st0 nx cc cs hs st' -> Q tt st') ->
  wp (free_lchan api_clear_request l) Q st.
Proof.
  intros Hl Hc HQ. unfold free_lchan. wp_steps. apply (sp_free_begin Hsh _ _ Hl). intros t st1 Hs1.
  wp_steps. destruct (exists_lookup Hs1 _ Hl) as [lc Hlc]. rewrite (wp_get_chan _ _ _ _ Hlc).
  rewrite (cc_lookup Hs1 _ _ Hlc), Hc. wp_steps. rewrite <- !wp_bind. by apply (sp_free_tail l t _ Hs1).
Qed.

(** A channel is freed under the connection that uses it. *)
Lemma sp_free_used {st0 nx cc cs hs st} (Hsh : shape None st0 nx cc cs hs st) l c cn
    (Q : unit -> bsc_state -> Prop) :
  is_Some (lookup_chan st0 l) -> cs !! c = Some cn -> holds cn l -> NoDup (new_lchan <$> hs) ->
  clearable None cc hs c cn -> (cn_secondary cn = Some l -> has_assign_fail = true) ->
  (forall st' cs', shape None st0 nx (unhold cn cc) cs' (hos_without (cn_ho_lchan cn) hs) st' ->
     cs' = <[c := no_channels cn]> cs \/ cs' = delete c cs -> Q tt st') ->
  wp (free_lchan api_clear_request l) Q st.
Proof.
  intros Hl Hc Hh Hnd Hcl Hapi HQ. unfold free_lchan. wp_steps. apply (sp_free_begin Hsh _ _ Hl). intros t st1 Hs1.
  wp_steps. destruct (exists_lookup Hs1 _ Hl) as [lc Hlc]. rewrite (wp_get_chan _ _ _ _ Hlc).
  rewrite (cc_lookup Hs1 _ _ Hlc), (proj1 (cl_cc _ _ _ _ _ Hcl _ Hh)). wp_steps.
  eapply (sp_handle_release Hs1); [done..|]. intros st2 cs2 Hs2 Hcs2. wp_steps. rewrite <- !wp_bind.
  apply (sp_free_tail l t _ Hs2); [done|unfold unhold; by rewrite decide_True|].
  intros st3 Hs3. by eapply HQ.
Qed.

End bsc.
End BscParts.
