(* ===== verification/BscOps.v ===== *)
(** What each operation on connections leaves of the pointers: allocation, assignment, messages of
    the mobile and handover. *)

From S2P Require Import Prelude Chreq Radio ChanAlloc AllocProps Rsl RslProps Bsc BscProps BscParts.

Module BscOps.
Import AllocProps RslProps Bsc BscProps BscParts.

Section bsc.
Context `{LibosmoConst} `{BscApi} (env : rsl_env).
Context (mr_conf_590 : list Z -> list Z) (ciph_m_cmd : list Z) (api_clear_request : nat -> bool).

(** ** Channels *)

Lemma lkeeps_ret {A} (a : A) (R : A -> gsm_lchan -> Prop) lc : R a lc -> keeps (mret a) R lc.
Proof. intros HR. unfold keeps. by wp_steps. Qed.

Lemma wp_radio {S A} (m : M S radio_event A) (Q : A -> S -> Prop) st : wp (radio m) Q st <-> wp m Q st.
Proof. unfold wp, radio. by destruct (m st) as [[[a s] e]|]. Qed.

Ltac solve_keeps := unfold keeps; repeat first
  [ progress wp_steps | rewrite wp_radio | rewrite wp_when
  | match goal with |- context [if ?b then _ else _] => destruct b eqn:? end
  | match goal with |- context [match ?x with Some _ => _ | None => _ end] => destruct x eqn:? end ];
  unfold id; split_and!; upd_norm; try done.

Lemma keeps_activate ts t h ta ref lc :
  keeps (rsl_chan_activate_lchan env ts t h ta ref) (fun rc lc' => lc' = lc /\
    (rc = 0 /\ channel_mode_from_lchan env lc <> None \/ rc < 0 /\ channel_mode_from_lchan env lc = None)) lc.
Proof.
  unfold keeps, rsl_chan_activate_lchan. wp_steps. unfold id.
  destruct (channel_mode_from_lchan env lc); wp_steps; split_and!;
    first [done|by left|right; unfold EINVAL; split; [lia|done]].
Qed.
Lemma keeps_mode_modify ts lc :
  keeps (rsl_chan_mode_modify_req env ts) (fun _ _ => True) lc.
Proof. unfold rsl_chan_mode_modify_req. solve_keeps. Qed.
Lemma keeps_encryption ts l3 lc :
  keeps (rsl_encryption_cmd ts l3) (fun _ _ => True) lc.
Proof. unfold rsl_encryption_cmd. solve_keeps. Qed.
Lemma keeps_state s lc : keeps (radio (rsl_lchan_set_state s)) (fun _ lc' => lc' = lc <| lc_state := s |>) lc.
Proof. unfold rsl_lchan_set_state. solve_keeps. Qed.
Lemma keeps_act_ack ts ie lc :
  keeps (rsl_rx_chan_act_ack env ts ie)
    (fun rc lc' => if ie then rc = 0 /\ lc_state lc' = LCHAN_S_ACTIVE else rc < 0) lc.
Proof.
  unfold rsl_rx_chan_act_ack, rsl_lchan_set_state, rsl_send_imm_assignment.
  destruct ie; cbn [negb]; solve_keeps.
Qed.
Lemma keeps_rf_chan_release ts e lc :
  keeps (rsl_rf_chan_release env ts e) (fun _ _ => True) lc.
Proof. unfold rsl_rf_chan_release. solve_keeps. Qed.

(** A channel is handed out. *)
Lemma sp_alloc {st0 nx cc cs hs st} (Hsh : shape None st0 nx cc cs hs st) b ty
    (Q : option path -> bsc_state -> Prop) :
  (b < length (btss st0))%nat ->
  (forall st', shape None st0 nx cc cs hs st' -> (forall l, lookup_chan st' l = lookup_chan st l) -> Q None st') ->
  (forall p lc' st', shape None st0 nx cc cs hs st' -> lookup_chan st' (b, p) = Some lc' ->
     lc_type lc' <> GSM_LCHAN_NONE -> lc_type lc' <> GSM_LCHAN_UNKNOWN -> cc (b, p) = None ->
     is_Some (lookup_chan st0 (b, p)) ->
     (forall l, l <> (b, p) -> lookup_chan st' l = lookup_chan st l) -> Q (Some p) st') ->
  wp (on_bts b (radio (lchan_alloc ty false))) Q st.
Proof.
  intros Hb HN HS. pose proof Hsh as [[Hw Ht Hr Hs] Hlen Hex Hn Hc Hcs Hhs].
  destruct (lookup_lt_is_Some_2 (btss st) b) as [bts Ebts]; [lia|].
  destruct (lchan_alloc_outcome bts ty false (Forall_lookup_1 _ _ _ _ Hw Ebts))
    as (r & bts' & ev & Ha & Hwf' & Hres).
  assert (wp (on_bts b (radio (lchan_alloc ty false))) Q st <-> Q r (st <| btss ::= <[b := bts']> |>)) as ->.
  { unfold wp, on_bts, radio. by rewrite Ebts, Ha. }
  set (st' := st <| btss ::= <[b := bts']> |>).
  assert (forall l, lookup_chan st' l = if decide (l.1 = b) then get_lchan bts' l.2 else lookup_chan st l) as Hlk.
  { intros l. unfold lookup_chan, st'. upd_norm. cbn [btss]. case_decide as E.
    - by rewrite E, list_lookup_insert_eq by (by eapply lookup_lt_Some).
    - by rewrite list_lookup_insert_ne. }
  assert (forall l, l.1 = b -> lookup_chan st l = get_lchan bts l.2) as Hlk0.
  { intros l <-. unfold lookup_chan. by rewrite Ebts. }
  assert (forall (P : Prop), (forall l, is_Some (lookup_chan st l) <-> is_Some (lookup_chan st' l)) ->
    (forall l lc, lookup_chan st' l = Some lc -> lc_conn lc = chan_conn st l /\
       (lc_conn lc <> None -> lc_type lc <> GSM_LCHAN_NONE)) ->
    (shape None st0 nx cc cs hs st' -> P) -> P) as Hshape.
  { intros P He Hct HP. apply HP. split; [split| | | | |done|done].
    - unfold st'. upd_norm. cbn [btss]. by apply Forall_insert.
    - intros l lc c Hl Hlc _. apply (Hct _ _ Hl). by rewrite Hlc.
    - eapply Forall_impl; [exact Hr|]. intros r0. apply He.
    - done.
    - rewrite <- Hlen. unfold st'. upd_norm. cbn [btss]. apply length_insert.
    - intros l. by rewrite Hex.
    - done.
    - intros l. rewrite <- Hc. unfold chan_conn at 1. pose proof (He l) as Hel.
      destruct (lookup_chan st' l) as [lc|] eqn:E; [cbn; by apply Hct|].
      unfold chan_conn. destruct (lookup_chan st l) eqn:E0; [|done].
      destruct (proj1 Hel) as [? ?]; [by eexists|done]. }
  assert (forall l lc, lookup_chan st l = Some lc -> lc_conn lc <> None -> lc_type lc <> GSM_LCHAN_NONE) as Ht'.
  { intros l lc Hl Hcn. destruct (lc_conn lc) as [c|] eqn:E; [|done]. by eapply Ht. }
  destruct r as [p|].
  - destruct Hres as (pchan & lc & _ & Hlc & Hfree & Hlc' & Hother & _).
    assert (forall l, l <> (b, p) -> lookup_chan st' l = lookup_chan st l) as Hsame.
    { intros [b' p'] Hne. rewrite Hlk. cbn [fst snd]. case_decide; [subst b'|done].
      rewrite Hlk0 by done. apply Hother. cbn. intros ->. by apply Hne. }
    assert (lookup_chan st (b, p) = Some lc) as Hl by (by rewrite Hlk0).
    assert (lookup_chan st' (b, p) = Some (lchan_claim (kind_type pchan) lc)) as Hl'.
    { rewrite Hlk. cbn [fst snd]. by rewrite decide_True. }
    assert (lc_conn lc = None) as Hcn.
    { destruct (lc_conn lc) as [c|] eqn:E; [|done]. exfalso.
      assert (lc_type lc <> GSM_LCHAN_NONE) as Hn'%in_use_not_free by (apply (Ht' _ _ Hl); by rewrite E).
      congruence. }
    assert (lc_type (lchan_claim (kind_type pchan) lc) <> GSM_LCHAN_NONE) as Htn.
    { unfold lchan_claim. upd_norm. cbn [lc_type]. apply kind_type_not_none. }
    apply Hshape.
    + intros l. destruct (decide (l = (b, p))) as [->|Hne]; [|by rewrite Hsame].
      rewrite Hl, Hl'. by split; eexists.
    + intros l lc0. destruct (decide (l = (b, p))) as [->|Hne].
      * rewrite Hl'. intros [= <-]. split; [|done]. unfold chan_conn. rewrite Hl. cbn. rewrite Hcn.
        unfold lchan_claim. by upd_norm.
      * rewrite Hsame by done. intros Hl0. split; [|by apply (Ht' l)]. unfold chan_conn. by rewrite Hl0.
    + intros Hs'. eapply HS; [done|exact Hl'|done| | | |done].
      * unfold lchan_claim. upd_norm. cbn [lc_type]. by destruct pchan.
      * rewrite <- (sh_cc _ _ _ _ _ _ _ Hsh). unfold chan_conn. rewrite Hl. done.
      * apply Hex. by eexists.
  - destruct Hres as [-> _].
    assert (forall l, lookup_chan st' l = lookup_chan st l) as Hsame.
    { intros l. rewrite Hlk. case_decide; [|done]. by rewrite Hlk0. }
    apply Hshape.
    + intros l. by rewrite Hsame.
    + intros l lc0. rewrite Hsame. intros Hl0. split; [|by apply (Ht' l)]. unfold chan_conn. by rewrite Hl0.
    + intros Hs'. by apply HN.
Qed.

(** ** Connections and assignment *)

Lemma sp_con_allocate {st0 nx cc cs hs st} (Hsh : shape None st0 nx cc cs hs st) ok l lc
    (Q : option nat -> bsc_state -> Prop) :
  lookup_chan st l = Some lc -> lc_type lc <> GSM_LCHAN_NONE ->
  (ok = false -> Q None st) ->
  (forall st', ok = true -> shape None st0 (S nx) (relink l (Some nx) cc)
     (<[nx := mk_conn (Some l) None None (Some l.1) false false]> cs) hs st' -> Q (Some nx) st') ->
  wp (subscr_con_allocate ok l) Q st.
Proof.
  intros Hl Ht HN HS. unfold subscr_con_allocate. destruct ok; cbn [negb]; wp_steps; [|by apply HN].
  rewrite (sh_next _ _ _ _ _ _ _ Hsh).
  match goal with |- wp _ _ ?s => set (st1 := s) end.
  assert (shape None st0 (S nx) cc (<[nx := mk_conn (Some l) None None (Some l.1) false false]> cs) hs st1) as Hs1.
  { eapply shape_fields; [exact Hsh|done..| | |apply Hsh].
    - unfold st1. upd_norm. cbn [next_conn]. by rewrite (sh_next _ _ _ _ _ _ _ Hsh).
    - unfold st1. upd_norm. cbn [conns]. by rewrite (sh_conns _ _ _ _ _ _ _ Hsh). }
  apply (sp_set_lchan_conn Hs1 l _ _ lc Hl); [by right|]. intros Hs2. wp_steps. by apply HS.
Qed.

Lemma put_lookup {st} l lc lc0 : lookup_chan st l = Some lc0 -> lookup_chan (put l lc st) l = Some lc.
Proof. intros Hl. by rewrite (lookup_put _ _ _ _ _ Hl), decide_True. Qed.

(** The channel modes that have a code in CHANNEL ACTIVATION. *)
Definition mode_coded (mode : gsm48_chan_mode) : bool :=
  match mode with GSM48_CMODE_DATA_3k6 | GSM48_CMODE_OTHER _ => false | _ => true end.
Lemma mode_coded_spec lc :
  lc_type lc <> GSM_LCHAN_NONE -> lc_type lc <> GSM_LCHAN_UNKNOWN ->
  channel_mode_from_lchan env lc = None <-> mode_coded (tch_mode lc) = false.
Proof. unfold channel_mode_from_lchan. by destruct (lc_type lc), (tch_mode lc). Qed.

(** There is no channel for an assignment, or it cannot be activated in the mode. *)
Definition free_channel (st : bsc_state) (b : nat) (full_rate : bool) : bool :=
  match on_bts b (radio (lchan_alloc (if full_rate then GSM_LCHAN_TCH_F else GSM_LCHAN_TCH_H) false)) st with
  | Some (Some _, _, _) => true
  | _ => false
  end.
Definition assignment_refused (st : bsc_state) (b : nat) (mode : gsm48_chan_mode) (full_rate : bool) : bool :=
  negb (free_channel st b full_rate && mode_coded mode).

Lemma sp_new_assignment {st0 nx cc cs hs st} (Hsh : shape None st0 nx cc cs hs st) c mode full cn b old
    (Q : Z -> bsc_state -> Prop) :
  cs !! c = Some cn -> cn_bts cn = Some b -> (b < length (btss st0))%nat ->
  cn_lchan cn = Some old -> is_Some (lookup_chan st0 old) ->
  (forall st', assignment_refused st b mode full = true -> shape None st0 nx cc cs hs st' -> Q (-1) st') ->
  (forall new lc st', assignment_refused st b mode full = false ->
     new.1 = b -> cc new = None -> is_Some (lookup_chan st0 new) ->
     shape None st0 nx (relink new (Some c) cc) (<[c := cn <| cn_secondary := Some new |>]> cs) hs st' ->
     lookup_chan st' new = Some lc -> lc_state lc = LCHAN_S_ACT_REQ -> Q 0 st') ->
  wp (handle_new_assignment env mr_conf_590 api_clear_request c mode full) Q st.
Proof.
  intros Hc Hb Hlt Hold Hexo HF HS. unfold handle_new_assignment. wp_steps.
  rewrite (sp_get_conn Hsh _ _ _ Hc). wp_steps. rewrite (sp_conn_bts Hsh _ _ _ _ Hc Hb). wp_steps.
  set (alloc := on_bts b _).
  assert (wp alloc (fun r st1 => shape None st0 nx cc cs hs st1 /\ forall p, r = Some p ->
    exists lc', lookup_chan st1 (b, p) = Some lc' /\ lc_type lc' <> GSM_LCHAN_NONE /\ lc_type lc' <> GSM_LCHAN_UNKNOWN /\
      cc (b, p) = None /\ is_Some (lookup_chan st0 (b, p))) st) as Halloc.
  { apply (sp_alloc Hsh _ _ _ Hlt); [done|]. intros p lc' st1 Hs1 ? ? ? ? ? _. split; [done|].
    intros ? [= <-]. by exists lc'. }
  eapply wp_mono; [apply wp_self, Halloc|]. clear Halloc.
  intros r st1 ((ev & Hrun) & Hs1 & Hr).
  assert (free_channel st b full = bool_decide (is_Some r)) as Hfree.
  { unfold free_channel. fold alloc. rewrite Hrun. by destruct r. }
  destruct r as [p|]; cbn in Hfree.
  2:{ wp_steps. apply HF; [|done]. unfold assignment_refused. by rewrite Hfree. }
  destruct (Hr p eq_refl) as (lc1 & Hl1 & Ht1 & Hu1 & Hcc & Hex). clear Hr Hrun. wp_steps. rewrite Hold. cbn [deref].
  destruct (exists_lookup Hs1 _ Hexo) as [olc Holc]. rewrite (wp_get_chan _ _ _ _ Holc). wp_steps.
  apply (sp_modify Hs1 _ _ _ _ Hl1 Ht1); [by upd_norm..|].
  match goal with |- context [put _ ?x _] => set (lc2 := x) end. intros Hs2.
  assert (lc_type lc2 <> GSM_LCHAN_NONE /\ lc_type lc2 <> GSM_LCHAN_UNKNOWN /\ tch_mode lc2 = mode) as (Ht2 & Hu2 & Hm2)
    by (unfold lc2; by upd_norm).
  pose proof (put_lookup _ lc2 _ Hl1) as Hl2. clearbody lc2. wp_steps.
  match goal with |- wp _ ?P _ => assert (forall lc3 st3, shape None st0 nx cc cs hs st3 ->
    lookup_chan st3 (b, p) = Some lc3 -> lc_type lc3 <> GSM_LCHAN_NONE -> lc_type lc3 <> GSM_LCHAN_UNKNOWN ->
    tch_mode lc3 = mode -> P tt st3) as Hrest end.
  { intros lc3 st3 Hs3 Hl3 Ht3 Hu3 Hm3. wp_steps.
    pose proof (mode_coded_spec lc3 Ht3 Hu3) as Hcode. rewrite Hm3 in Hcode.
    apply (sp_keep Hs3 _ _ _ _ _ Hl3 Ht3 (fun ts => keeps_activate ts _ _ _ _ _)).
    intros rc lc4 _ _ [-> Hrc] Hs4. pose proof (put_lookup _ lc3 _ Hl3) as Hl4.
    destruct (rc <? 0) eqn:Erc.
    - wp_steps. apply (sp_free_unused api_clear_request Hs4); [done|done|]. intros st5 Hs5.
      wp_steps. apply HF; [|done]. unfold assignment_refused. rewrite Hfree.
      by rewrite (proj1 Hcode) by (destruct Hrc as [[? _]|[_ ?]]; [lia|done]).
    - assert (assignment_refused st b mode full = false) as Hacc.
      { unfold assignment_refused. rewrite Hfree. cbn [andb]. destruct (mode_coded mode); [done|].
        destruct Hrc as [[_ Hne]|[? _]]; [|lia]. destruct Hne. by apply Hcode. }
      wp_steps. eapply (sp_set_conn Hs4); [done|]. intros st5 Hs5 Hb5 _. wp_steps.
      assert (lookup_chan st5 (b, p) = Some lc3) as Hl5 by (unfold lookup_chan in *; by rewrite Hb5).
      apply (sp_set_lchan_conn Hs5 _ _ _ _ Hl5); [by right|]. intros Hs6.
      match goal with |- context [put _ ?x _] => set (lc6 := x) in * end.
      pose proof (put_lookup _ lc6 _ Hl5) as Hl6. wp_steps.
      apply (sp_keep Hs6 _ _ _ _ _ Hl6 Ht3 (fun ts => keeps_state _ _)).
      intros [] lc7 _ _ -> Hs7. wp_steps. eapply HS; [done| |done|done|exact Hs7|by eapply put_lookup|]; by upd_norm. }
  case_bool_decide.
  - unfold handle_mr_config. apply (sp_modify Hs2 _ _ _ _ Hl2 Ht2); [by upd_norm..|]. intros Hs3.
    eapply Hrest; [exact Hs3|by eapply put_lookup|by upd_norm..].
  - rewrite wp_ret. by eapply Hrest.
Qed.

Lemma sp_lchan_modify {st0 nx cc cs hs st} (Hsh : shape None st0 nx cc cs hs st) l mode c
    (Q : unit -> bsc_state -> Prop) :
  cc l = Some c -> (forall st', shape None st0 nx cc cs hs st' -> Q tt st') ->
  wp (gsm48_lchan_modify l mode) Q st.
Proof.
  intros Hl HQ. destruct (used_lookup Hsh _ _ Hl) as (lc & Hlc & _ & Ht & _); [done|].
  unfold gsm48_lchan_modify. wp_steps. apply (sp_modify Hsh _ _ _ _ Hlc Ht); [by upd_norm..|].
  intros Hs1. wp_steps. by apply HQ.
Qed.
Lemma sp_mr_config {st0 nx cc cs hs st} (Hsh : shape None st0 nx cc cs hs st) l c
    (Q : unit -> bsc_state -> Prop) :
  cc l = Some c -> (forall st', shape None st0 nx cc cs hs st' -> Q tt st') ->
  wp (handle_mr_config mr_conf_590 l) Q st.
Proof.
  intros Hl HQ. destruct (used_lookup Hsh _ _ Hl) as (lc & Hlc & _ & Ht & _); [done|].
  unfold handle_mr_config. apply (sp_modify Hsh _ _ _ _ Hlc Ht); [by upd_norm..|]. apply HQ.
Qed.

Lemma sp_assign_req {st0 nx cc cs hs st} (Hsh : shape None st0 nx cc cs hs st) c mode full cn b old
    (Q : Z -> bsc_state -> Prop) :
  cs !! c = Some cn -> cn_bts cn = Some b -> (b < length (btss st0))%nat ->
  cn_lchan cn = Some old -> cc old = Some c ->
  (forall lc, lookup_chan st old = Some lc -> lc_type lc = GSM_LCHAN_SDCCH ->
     assignment_refused st b mode full = true -> has_assign_fail = true) ->
  (forall st', shape None st0 nx cc cs hs st' -> Q (-1) st') ->
  (forall st', shape None st0 nx cc (<[c := cn <| cn_T10 := true |>]> cs) hs st' -> Q 0 st') ->
  (forall new lc st', new.1 = b -> cc new = None -> is_Some (lookup_chan st0 new) ->
     shape None st0 nx (relink new (Some c) cc)
       (<[c := (cn <| cn_secondary := Some new |>) <| cn_T10 := true |>]> cs) hs st' ->
     lookup_chan st' new = Some lc -> lc_state lc = LCHAN_S_ACT_REQ -> Q 0 st') ->
  wp (gsm0808_assign_req env mr_conf_590 api_clear_request c mode full) Q st.
Proof.
  intros Hc Hb Hlt Hold Hcc Hapi HF HM HS. unfold gsm0808_assign_req. wp_steps.
  rewrite (sp_conn_bts Hsh _ _ _ _ Hc Hb). wp_steps.
  rewrite (sp_get_conn Hsh _ _ _ Hc), Hold. cbn [deref]. wp_steps.
  destruct (used_lookup Hsh _ _ Hcc) as (lc & Hlc & _); [done|]. rewrite (wp_get_chan _ _ _ _ Hlc). wp_steps.
  case_bool_decide.
  - assert (is_Some (lookup_chan st0 old)) as Hexo by (apply Hsh; by eexists).
    eapply (sp_new_assignment Hsh); [done..| |].
    + intros st1 Hrf Hs1. cbn. wp_steps. rewrite wp_api_call_unchecked. split; [by eapply Hapi|].
      wp_steps. by apply HF.
    + intros new lc1 st1 _ Hnb Hn Hexn Hs1 Hl1 Ha. cbn [Z.eqb negb].
      wp_steps. eapply (sp_set_conn Hs1); [apply lookup_insert_eq|]. intros st2 Hs2 Hb2 _. wp_steps.
      rewrite insert_insert_eq in Hs2. eapply HS; [done..| |exact Ha].
      unfold lookup_chan in *. by rewrite Hb2.
  - wp_steps. assert (forall st1 (P : unit -> bsc_state -> Prop),
      (forall st2, shape None st0 nx cc cs hs st2 -> P tt st2) -> shape None st0 nx cc cs hs st1 ->
      wp (gsm48_lchan_modify old mode) P st1) as Hmod.
    { intros st1 P HP Hs1. by apply (sp_lchan_modify Hs1 _ _ c). }
    assert (forall st2, shape None st0 nx cc cs hs st2 ->
      wp (set_conn c (fun cn => cn <| cn_T10 := true |>)) (fun _ => wp (mret 0 : M bsc_state bsc_event Z) Q) st2) as Hend.
    { intros st2 Hs2. eapply (sp_set_conn Hs2); [done|]. intros st3 Hs3 _ _. wp_steps. by apply HM. }
    case_bool_decide; [apply (sp_mr_config Hsh _ c); [done|]; intros st1 Hs1|wp_steps; rename Hsh into Hs1];
      wp_steps; eapply Hmod; try exact Hs1; intros st2 Hs2; wp_steps; cbn [Z.eqb negb]; wp_steps; by apply Hend.
Qed.

(** The pending new channel of an assignment is given up. *)
Definition no_secondary (cn : gsm_subscriber_connection) : gsm_subscriber_connection :=
  (cn <| cn_T10 := false |>) <| cn_secondary := None |>.

Lemma sp_T10 {st0 nx cc cs hs st} (Hsh : shape None st0 nx cc cs hs st) c cn b
    (Q : unit -> bsc_state -> Prop) :
  cs !! c = Some cn -> cn_bts cn = Some b -> (forall l, cn_secondary cn = Some l -> cc l = Some c) ->
  has_assign_fail = true ->
  (forall st', shape None st0 nx (fun l => if decide (cn_secondary cn = Some l) then None else cc l)
     (<[c := no_secondary cn]> cs) hs st' -> Q tt st') ->
  wp (assignment_t10_timeout c) Q st.
Proof.
  intros Hc Hb Hs Hapi HQ. unfold assignment_t10_timeout. wp_steps. eapply (sp_set_conn Hsh); [done|].
  intros st1 Hs1 _ _. wp_steps. rewrite (sp_get_conn Hs1 _ _ _ (lookup_insert_eq _ _ _)).
  upd_norm. cbn [cn_secondary]. wp_steps. eapply (sp_release_opt Hs1 _ _ _ c).
  { intros l Hl. split; [by apply Hs|done]. }
  intros st2 Hs2. wp_steps. eapply (sp_set_conn Hs2); [apply lookup_insert_eq|]. intros st3 Hs3 _ _. wp_steps.
  rewrite insert_insert_eq in Hs3. rewrite (sp_conn_bts Hs3 _ _ _ b (lookup_insert_eq _ _ _)) by done.
  wp_steps. rewrite wp_api_call_unchecked. split; [done|by apply HQ].
Qed.

Lemma sp_ass_fail {st0 nx cc cs hs st} (Hsh : shape None st0 nx cc cs hs st) c cn b l sec cause
    (Q : unit -> bsc_state -> Prop) :
  cs !! c = Some cn -> cn_bts cn = Some b -> cn_lchan cn = Some l -> cn_secondary cn = Some sec -> cc sec = Some c ->
  has_assign_fail = true ->
  (forall lc st', shape None st0 nx (relink sec None cc) (<[c := no_secondary cn]> cs) hs st' ->
     lookup_chan st' sec = Some lc -> lc_state lc = LCHAN_S_REL_REQ -> Q tt st') ->
  wp (handle_ass_fail c l cause) Q st.
Proof.
  intros Hc Hb Hl Hs Hcc Hapi HQ. unfold handle_ass_fail. wp_steps.
  rewrite (sp_conn_bts Hsh _ _ _ _ Hc Hb). wp_steps. rewrite (sp_get_conn Hsh _ _ _ Hc), Hl.
  unfold lref_eqb. rewrite bool_decide_true by done. cbn [negb]. wp_steps.
  eapply (sp_set_conn Hsh); [done|]. intros st1 Hs1 _ _. wp_steps. rewrite Hs. cbn [deref].
  apply (sp_release Hs1 _ _ _ _ c); [done|done|]. intros lc _ Hrel _ Hs2.
  destruct (used_lookup Hs1 _ _ Hcc) as (slc & Hslc & _); [done|].
  pose proof (put_lookup _ lc _ Hslc) as Hl2. wp_steps.
  eapply (sp_set_conn Hs2); [apply lookup_insert_eq|]. intros st3 Hs3 Hb3 _. wp_steps.
  rewrite insert_insert_eq in Hs3. rewrite wp_api_call_unchecked. split; [done|].
  eapply HQ; [done| |done]. unfold lookup_chan in *. by rewrite Hb3.
Qed.

(** T10 expires while the new channel waits. *)
Lemma sp_T10_pending {st0 nx cc cs hs st} (Hsh : shape None st0 nx cc cs hs st) c cn b sec
    (Q : unit -> bsc_state -> Prop) :
  cs !! c = Some cn -> cn_bts cn = Some b -> cn_secondary cn = Some sec -> cc sec = Some c ->
  has_assign_fail = true ->
  (forall lc st', shape None st0 nx (relink sec None cc) (<[c := no_secondary cn]> cs) hs st' ->
     lookup_chan st' sec = Some lc -> lc_state lc = LCHAN_S_REL_REQ -> Q tt st') ->
  wp (assignment_t10_timeout c) Q st.
Proof.
  intros Hc Hb Hs Hcc Hapi HQ. unfold assignment_t10_timeout. wp_steps. eapply (sp_set_conn Hsh); [done|].
  intros st1 Hs1 _ _. wp_steps. rewrite (sp_get_conn Hs1 _ _ _ (lookup_insert_eq _ _ _)).
  upd_norm. cbn [cn_secondary]. rewrite Hs. wp_steps.
  apply (sp_release Hs1 _ _ _ _ c); [done|done|]. intros lc _ Hrel _ Hs2.
  destruct (used_lookup Hs1 _ _ Hcc) as (slc & Hslc & _); [done|].
  pose proof (put_lookup _ lc _ Hslc) as Hl2. wp_steps.
  eapply (sp_set_conn Hs2); [apply lookup_insert_eq|]. intros st3 Hs3 Hb3 _. wp_steps.
  rewrite insert_insert_eq in Hs3. rewrite (sp_conn_bts Hs3 _ _ _ b (lookup_insert_eq _ _ _)) by done.
  wp_steps. rewrite wp_api_call_unchecked. split; [done|]. eapply HQ; [done| |done]. unfold lookup_chan in *. by rewrite Hb3.
Qed.

Lemma sp_ass_compl {st0 nx cc cs hs st} (Hsh : shape None st0 nx cc cs hs st) c cn l old b cause
    (Q : unit -> bsc_state -> Prop) :
  cs !! c = Some cn -> cn_lchan cn = Some old -> cn_secondary cn = Some l -> cn_bts cn = Some b ->
  (b < length (btss st0))%nat -> cc old = Some c -> cc l = Some c -> old <> l ->
  (forall lc st', shape None st0 nx (relink old None cc)
     (<[c := (no_secondary cn) <| cn_lchan := Some l |>]> cs) hs st' ->
     lookup_chan st' old = Some lc -> lc_state lc = LCHAN_S_REL_REQ -> Q tt st') ->
  wp (handle_ass_compl c l (Some cause)) Q st.
Proof.
  intros Hc Hold Hl Hb Hlt Hco Hcl Hne HQ. unfold handle_ass_compl. wp_steps.
  rewrite (sp_conn_bts Hsh _ _ _ _ Hc Hb). wp_steps. rewrite (sp_get_conn Hsh _ _ _ Hc), Hl. unfold lref_eqb. rewrite bool_decide_true by done.
  cbn [negb]. wp_steps. eapply (sp_set_conn Hsh); [done|]. intros st1 Hs1 _ _. wp_steps.
  rewrite Hold. cbn [deref]. apply (sp_release Hs1 _ _ _ _ c); [done|done|]. intros lc _ Hrel _ Hs2.
  destruct (used_lookup Hs1 _ _ Hco) as (olc & Holc & _); [done|].
  pose proof (put_lookup _ lc _ Holc) as Hl2. wp_steps.
  eapply (sp_set_conn Hs2); [apply lookup_insert_eq|]. intros st3 Hs3 Hb3 _. wp_steps.
  eapply (sp_set_conn Hs3); [apply lookup_insert_eq|]. intros st4 Hs4 Hb4 _. wp_steps.
  rewrite !insert_insert_eq in Hs4. rewrite (sp_get_conn Hs4 _ _ _ (lookup_insert_eq _ _ _)).
  upd_norm. cbn [cn_bts cn_lchan cn_secondary]. rewrite Hl. wp_steps.
  rewrite (sp_conn_bts Hs4 _ _ _ b (lookup_insert_eq _ _ _)) by done. wp_steps.
  assert (lookup_chan st4 old = Some lc) as Hl4 by (unfold lookup_chan in *; congruence).
  destruct (lookup_lt_is_Some_2 (btss st4) b) as [bts Ebts].
  { by rewrite (sh_len _ _ _ _ _ _ _ Hs4). }
  unfold bts_is_ipaccess at 1. unfold wp at 1. rewrite Ebts. cbn [deref]. wp_steps.
  destruct (used_lookup Hs4 l c) as (nlc & Hnlc & _); [|done|].
  { unfold relink. by rewrite decide_False. }
  rewrite (wp_get_chan _ _ _ _ Hnlc), wp_when.
  assert (forall P : unit -> bsc_state -> Prop, P tt st4 ->
    wp (assign_compl c cause (Some l)) P st4) as Hac.
  { intros P HP. unfold assign_compl. rewrite wp_when. destruct has_assign_compl; [|done]. cbn [deref]. wp_steps. rewrite (wp_get_chan _ _ _ _ Hnlc). by wp_steps. }
  assert (Q tt st4) as HQ4.
  { eapply HQ; [|exact Hl4|done]. eapply shape_ext; [exact Hs4|done| |done]. f_equal. unfold no_secondary.
    upd_norm. by rewrite Hl. }
  case_match; wp_steps; by apply Hac.
Qed.

(** ** Handover *)

Definition ho_to (new : option lref) (cn : gsm_subscriber_connection) : gsm_subscriber_connection :=
  cn <| cn_ho_lchan := new |>.

Lemma sp_handover_start {st0 nx cc cs hs st} (Hsh : shape None st0 nx cc cs hs st) ok old b c cn
    (Q : Z -> bsc_state -> Prop) :
  cs !! c = Some cn -> cn_ho_lchan cn = None -> cc old = Some c -> (b < length (btss st0))%nat ->
  (forall ho, ho ∈ hs -> old_lchan ho <> old) ->
  (forall rc st', rc < 0 -> shape None st0 nx cc cs hs st' -> Q rc st') ->
  (forall new lc ref st', new.1 = b -> cc new = None -> is_Some (lookup_chan st0 new) ->
     shape None st0 nx (relink new (Some c) cc) (<[c := ho_to (Some new) cn]> cs)
       (mk_bsc_handover old new false ref :: hs) st' ->
     lookup_chan st' new = Some lc -> lc_state lc = LCHAN_S_ACT_REQ -> Q 0 st') ->
  wp (bsc_handover_start env api_clear_request ok old b) Q st.
Proof.
  intros Hc Hnh Hcc Hb Hno HF HS. unfold bsc_handover_start. wp_steps.
  destruct (bsc_ho_by_old_lchan (Some old) st) as [i|] eqn:Ei.
  { destruct (by_old_lchan_Some _ _ _ Ei) as (ho & Hho & [= ->]). exfalso.
    rewrite (sh_hos _ _ _ _ _ _ _ Hsh) in Hho. by eapply Hno; [eapply list_elem_of_lookup_2|]. }
  rewrite bool_decide_false by (by intros [? ?]). wp_steps.
  destruct (used_lookup Hsh _ _ Hcc) as (olc & Holc & Hoc & _); [done|].
  rewrite (wp_get_chan _ _ _ _ Holc), Hoc. wp_steps. apply (sp_alloc Hsh _ _ _ Hb).
  { intros st1 Hs1 _. wp_steps. apply HF; [unfold ENOSPC; lia|done]. }
  intros p lc1 st1 Hs1 Hl1 Ht1 _ Hn1 Hex1 _. destruct ok; cbn [negb].
  2:{ wp_steps. apply (sp_free_unused api_clear_request Hs1); [done..|]. intros st2 Hs2. wp_steps.
      apply HF; [unfold ENOMEM; lia|done]. }
  wp_steps. match goal with |- wp _ _ ?s => set (st2 := s) end.
  assert (shape None st0 nx cc cs hs st2) as Hs2.
  { by eapply shape_fields; [exact Hs1|done..| | |]; apply Hs1. }
  destruct (used_lookup Hs2 _ _ Hcc) as (olc2 & Holc2 & _); [done|]. rewrite (wp_get_chan _ _ _ _ Holc2).
  assert (lookup_chan st2 (b, p) = Some lc1) as Hl2 by exact Hl1. clearbody st2. wp_steps.
  apply (sp_modify Hs2 _ _ _ _ Hl2 Ht1); [by upd_norm..|].
  match goal with |- context [put _ ?x _] => set (lc3 := x) end. intros Hs3.
  assert (lc_type lc3 <> GSM_LCHAN_NONE) as Ht3 by (unfold lc3; by upd_norm).
  pose proof (put_lookup _ lc3 _ Hl2) as Hl3. clearbody lc3. wp_steps.
  apply (sp_set_lchan_conn Hs3 _ _ _ _ Hl3); [by right|]. intros Hs4.
  match goal with |- context [put _ ?x (put _ lc3 _)] => set (lc4 := x) in * end.
  pose proof (put_lookup _ lc4 _ Hl3) as Hl4.
  assert (lc_type lc4 <> GSM_LCHAN_NONE) as Ht4 by (unfold lc4; by upd_norm). clearbody lc4.
  wp_steps. eapply (sp_set_conn Hs4); [done|]. intros st5 Hs5 Hb5 _. wp_steps.
  assert (lookup_chan st5 (b, p) = Some lc4) as Hl5 by (unfold lookup_chan in *; by rewrite Hb5).
  apply (sp_keep Hs5 _ _ _ _ _ Hl5 Ht4 (fun ts => keeps_activate ts _ _ _ _ _)).
  intros rc lc6 _ _ [-> Hrc] Hs6. pose proof (put_lookup _ lc4 _ Hl5) as Hl6.
  destruct (rc <? 0) eqn:Erc; wp_steps.
  - eapply (sp_set_conn Hs6); [apply lookup_insert_eq|]. intros st7 Hs7 Hb7 _. wp_steps.
    rewrite insert_insert_eq in Hs7.
    assert (lookup_chan st7 (b, p) = Some lc4) as Hl7 by (unfold lookup_chan in *; by rewrite Hb7).
    apply (sp_set_lchan_conn Hs7 _ _ _ _ Hl7); [by left|]. intros Hs8. wp_steps.
    apply (sp_free_unused api_clear_request Hs8); [done|unfold relink; by rewrite decide_True|].
    intros st9 Hs9. wp_steps. apply HF; [lia|]. eapply shape_ext; [exact Hs9| | |done].
    + intros l. unfold relink. case_decide; congruence.
    + apply insert_id. rewrite Hc. f_equal. destruct cn. upd_norm. cbn in Hnh. by subst.
  - apply (sp_keep Hs6 _ _ _ _ _ Hl6 Ht4 (fun ts => keeps_state _ _)).
    intros [] lc7 _ _ -> Hs7. wp_steps. eapply (HS (b, p)); [done|done|done| | |].
    + eapply shape_fields; [exact Hs7|done..|apply Hs7|apply Hs7|]. 
      rewrite <- (sh_hos _ _ _ _ _ _ _ Hs7). by upd_norm.
    + exact (put_lookup _ _ _ Hl6).
    + by upd_norm.
Qed.

Lemma sp_drop_new {st0 nx cc cs hs st} (Hsh : shape None st0 nx cc cs hs st) new c cn
    (Q : unit -> bsc_state -> Prop) :
  cs !! c = Some cn -> cc new = Some c ->
  (forall lc st', shape None st0 nx (relink new None cc) (<[c := ho_to None cn]> cs) hs st' ->
     lookup_chan st' new = Some lc -> lc_type lc <> GSM_LCHAN_NONE -> Q tt st') ->
  wp (drop_new_lchan new) Q st.
Proof.
  intros Hc Hcc HQ. destruct (used_lookup Hsh _ _ Hcc) as (lc & Hl & Hlc & Ht & _); [done|].
  unfold drop_new_lchan. wp_steps. rewrite (wp_get_chan _ _ _ _ Hl), Hlc. wp_steps.
  eapply (sp_set_conn Hsh); [done|]. intros st1 Hs1 Hb1 _.
  assert (lookup_chan st1 new = Some lc) as Hl1 by (unfold lookup_chan in *; by rewrite Hb1).
  apply (sp_set_lchan_conn Hs1 _ _ _ _ Hl1); [by left|]. intros Hs2.
  eapply HQ; [exact Hs2|by eapply put_lookup|by upd_norm].
Qed.

(** Releasing a channel no connection uses. *)
Lemma sp_release_unused {st0 nx cc cs hs st} (Hsh : shape None st0 nx cc cs hs st) l sd reason lc
    (Q : unit -> bsc_state -> Prop) :
  lookup_chan st l = Some lc -> lc_type lc <> GSM_LCHAN_NONE -> cc l = None ->
  (forall lc' st', shape None st0 nx cc cs hs st' -> lookup_chan st' l = Some lc' ->
     lc_state lc' = LCHAN_S_REL_REQ -> Q tt st') ->
  wp (release l sd reason) Q st.
Proof.
  intros Hl Ht Hcc HQ. unfold release. wp_steps. eapply wp_on_chan; [done|]. intros ts.
  eapply wp_mono; [apply release_channel|]. intros a lc' (Hcn & Ht' & Hs). cbn beta. wp_steps.
  eapply HQ; [|by eapply put_lookup|done].
  eapply shape_ext; [apply (shape_put Hsh l lc lc' Hl)| |done|done].
  - left. by apply in_use_not_free.
  - by left.
  - intros l'. rewrite Hcn. by apply relink_same.
Qed.

(** A handover ends without success. *)
Section ho_end.
Context {st0 : bsc_state} {nx : nat} {cc : lref -> option nat}
  {cs : gmap nat gsm_subscriber_connection} {hs : list bsc_handover} {st : bsc_state}.
Hypothesis Hsh : shape None st0 nx cc cs hs st.
Context (i : nat) (ho : bsc_handover) (c : nat) (cn : gsm_subscriber_connection).
Hypothesis Hi : hs !! i = Some ho.
Hypothesis Hnd : NoDup (new_lchan <$> hs).
Hypothesis Hc : cs !! c = Some cn.
Hypothesis Hcc : cc (new_lchan ho) = Some c.

(** The new channel is unlinked and, where [rel], released. *)
Definition ho_ended (rel : bool) (st' : bsc_state) : Prop :=
  shape None st0 nx (relink (new_lchan ho) None cc) (<[c := ho_to None cn]> cs)
    (hos_without (Some (new_lchan ho)) hs) st' /\
  (rel = true -> exists lc, lookup_chan st' (new_lchan ho) = Some lc /\ lc_state lc = LCHAN_S_REL_REQ).

Lemma sp_ho_timeout (Q : unit -> bsc_state -> Prop) :
  (forall st', ho_ended true st' -> Q tt st') -> wp (ho_T3103_cb i) Q st.
Proof.
  intros HQ. unfold ho_T3103_cb. wp_steps. eapply (sp_stop_T3103 Hsh); [done|]. intros st1 Hs1 _.
  destruct (stopped hs i ho Hi) as (Hi' & Hf & Hw). wp_steps. rewrite (sp_get_ho Hs1 _ _ _ Hi'). wp_steps.
  eapply (sp_drop_new Hs1); [done|exact Hcc|]. intros lc st2 Hs2 Hl2 Ht2. wp_steps.
  eapply (sp_release_unused Hs2); [exact Hl2|done|unfold relink; by rewrite decide_True|].
  intros lc3 st3 Hs3 Hl3 Hrel. eapply (sp_free_ho Hs3); [by rewrite Hf|done|done|]. intros st4 Hs4 Hb4.
  apply HQ. split.
  - eapply shape_ext; [exact Hs4|done|done|by apply Hw].
  - intros _. exists lc3. split; [|done]. unfold lookup_chan in *. rewrite Hb4. exact Hl3.
Qed.

Lemma sp_ho_fail (Q : Z -> bsc_state -> Prop) :
  bsc_ho_by_old_lchan (Some (old_lchan ho)) st = Some i ->
  (forall st', ho_ended true st' -> Q 0 st') -> wp (ho_gsm48_ho_fail (old_lchan ho)) Q st.
Proof.
  intros Hold HQ. unfold ho_gsm48_ho_fail. wp_steps. rewrite Hold. wp_steps.
  rewrite (sp_get_ho Hsh _ _ _ Hi). wp_steps. eapply (sp_stop_T3103 Hsh); [done|]. intros st0' Hs0 _.
  destruct (stopped hs i ho Hi) as (Hi' & Hf & Hw). wp_steps.
  eapply (sp_free_ho Hs0); [by rewrite Hf|done|done|]. intros st1 Hs1 _. wp_steps. eapply shape_ext in Hs1; [|done|done|by apply Hw].
  eapply (sp_drop_new Hs1); [done|exact Hcc|].
  intros lc st2 Hs2 Hl2 Ht2. wp_steps.
  eapply (sp_release_unused Hs2); [exact Hl2|done|unfold relink; by rewrite decide_True|].
  intros lc3 st3 Hs3 Hl3 Hrel. wp_steps. apply HQ. split; [done|]. intros _. by exists lc3.
Qed.

Lemma sp_ho_nack (Q : Z -> bsc_state -> Prop) :
  bsc_ho_by_new_lchan (Some (new_lchan ho)) st = Some i -> T3103 ho = false ->
  (forall st', ho_ended false st' -> Q 0 st') -> wp (ho_chan_activ_nack (new_lchan ho)) Q st.
Proof.
  intros Hnew Ht HQ. unfold ho_chan_activ_nack. wp_steps. rewrite Hnew. wp_steps.
  eapply (sp_drop_new Hsh); [done|exact Hcc|]. intros lc st2 Hs2 Hl2 Ht2. wp_steps.
  eapply (sp_free_ho Hs2); [done|done|done|]. intros st3 Hs3 _. wp_steps. by apply HQ.
Qed.

(** The mobile arrived: the new channel replaces the old one, which is released. *)
Lemma sp_ho_compl (Q : Z -> bsc_state -> Prop) :
  bsc_ho_by_new_lchan (Some (new_lchan ho)) st = Some i ->
  cc (old_lchan ho) = Some c -> old_lchan ho <> new_lchan ho -> cn_subscr cn = true ->
  (forall st' lc, shape None st0 nx (relink (old_lchan ho) None cc)
     (<[c := (ho_to None cn) <| cn_lchan := Some (new_lchan ho) |>]> cs)
     (hos_without (Some (new_lchan ho)) hs) st' ->
     lookup_chan st' (old_lchan ho) = Some lc -> lc_state lc = LCHAN_S_REL_REQ -> Q 0 st') ->
  wp (ho_gsm48_ho_compl (new_lchan ho)) Q st.
Proof.
  intros Hnew Hco Hne Hsub HQ. unfold ho_gsm48_ho_compl. wp_steps. rewrite Hnew. wp_steps.
  rewrite (sp_get_ho Hsh _ _ _ Hi). wp_steps.
  destruct (used_lookup Hsh _ _ Hco) as (olc & Holc & Hoc & Hot & _); [done|].
  destruct (used_lookup Hsh _ _ Hcc) as (nlc & Hnlc & Hnc & _); [done|].
  rewrite (wp_get_chan _ _ _ _ Holc). wp_steps. rewrite (wp_get_chan _ _ _ _ Hnlc), Hoc, Hnc. wp_steps.
  unfold subscr_name. wp_steps. rewrite (sp_get_conn Hsh _ _ _ Hc), Hsub. wp_steps.
  eapply (sp_stop_T3103 Hsh); [done|]. intros st1 Hs1 Hb1.
  destruct (stopped hs i ho Hi) as (Hi' & Hf & Hw). wp_steps.
  eapply (sp_set_conn Hs1); [done|]. intros st2 Hs2 Hb2 _. wp_steps.
  eapply (sp_set_conn Hs2); [apply lookup_insert_eq|]. intros st3 Hs3 Hb3 _. wp_steps.
  rewrite insert_insert_eq in Hs3.
  assert (lookup_chan st3 (old_lchan ho) = Some olc) as Hl3 by (unfold lookup_chan in *; congruence).
  apply (sp_set_lchan_conn Hs3 _ _ _ _ Hl3); [by left|]. intros Hs4.
  match goal with |- context [put _ ?x st3] => set (lc4 := x) in * end.
  pose proof (put_lookup _ lc4 _ Hl3) as Hl4.
  assert (lc_type lc4 <> GSM_LCHAN_NONE) as Ht4 by (unfold lc4; by upd_norm). clearbody lc4. wp_steps.
  apply (sp_keep Hs4 _ _ _ _ _ Hl4 Ht4 (fun ts => keeps_state _ _)).
  intros [] lc5 Ht5 _ -> Hs5. pose proof (put_lookup _ (lc4 <| lc_state := LCHAN_S_INACTIVE |>) _ Hl4) as Hl5.
  wp_steps. eapply (sp_release_unused Hs5); [exact Hl5|by rewrite Ht5|unfold relink; by rewrite decide_True|].
  intros lc6 st6 Hs6 Hl6 Hrel. wp_steps.
  eapply (sp_free_ho Hs6); [by rewrite Hf|done|done|]. intros st7 Hs7 Hb7. wp_steps.
  eapply HQ; [| |exact Hrel].
  - eapply shape_ext; [exact Hs7|done|done|by apply Hw].
  - unfold lookup_chan in *. by rewrite Hb7.
Qed.

End ho_end.

(** The new channel is active: the mobile is sent there and T3103 runs. *)
Lemma sp_ho_ack {st0 nx cc cs hs st} (Hsh : shape None st0 nx cc cs hs st) i ho
    (Q : Z -> bsc_state -> Prop) :
  bsc_ho_by_new_lchan (Some (new_lchan ho)) st = Some i -> hs !! i = Some ho ->
  is_Some (lookup_chan st0 (new_lchan ho)) ->
  (forall st', shape None st0 nx cc cs (<[i := ho <| T3103 := true |>]> hs) st' -> Q 0 st') ->
  wp (ho_chan_activ_ack (new_lchan ho)) Q st.
Proof.
  intros Hnew Hi Hex HQ. unfold ho_chan_activ_ack. wp_steps. rewrite Hnew. wp_steps.
  rewrite (sp_get_ho Hsh _ _ _ Hi). wp_steps. match goal with |- wp _ _ ?s => set (st1 := s) end.
  assert (shape None st0 nx cc cs (<[i := ho <| T3103 := true |>]> hs) st1) as Hs1.
  { eapply shape_fields; [exact Hsh|done..|apply Hsh|apply Hsh|]. unfold st1. upd_norm. cbn [bsc_handovers].
    rewrite (sh_hos _ _ _ _ _ _ _ Hsh). by rewrite <- (list_insert_alter _ _ _ ho Hi). }
  destruct (exists_lookup Hs1 _ Hex) as [lc Hl]. unfold lookup_chan in Hl.
  destruct (btss st1 !! (new_lchan ho).1) as [bts|] eqn:Eb; [|done].
  unfold bts_is_ipaccess at 1. unfold wp at 1. rewrite Eb. wp_steps. by apply HQ.
Qed.

End bsc.
End BscOps.
