(* ===== verification/BscGraph.v ===== *)
(** What the operations do to the pointers between connections, channels and handovers: moves of one
    connection that keep them consistent. *)

From S2P Require Import Prelude Chreq Radio ChanAlloc AllocProps Rsl RslProps Bsc BscProps BscParts BscOps.

Module BscGraph.
Import AllocProps RslProps Bsc BscProps BscParts BscOps.

(** ** Moves of one connection *)

Section graph.
Context {cc : lref -> option nat} {cs : gmap nat gsm_subscriber_connection} {hs : list bsc_handover}
  {nb nx : nat}.
Hypothesis G : graph cc cs hs nb nx.
Context {c : nat} {cn : gsm_subscriber_connection}.
Hypothesis Hc : cs !! c = Some cn.

Lemma g_held l : holds cn l <-> cc l = Some c.
Proof.
  rewrite (g_conn _ _ _ _ _ G). split; [intros Hh; by exists cn|]. intros (cn' & Hc' & Hh). congruence.
Qed.
Lemma g_mine ho : ho ∈ hs -> cc (new_lchan ho) = Some c <-> cn_ho_lchan cn = Some (new_lchan ho).
Proof.
  intros Hin. split.
  - intros Hcc. destruct (g_ho _ _ _ _ _ G ho Hin) as (c' & cn' & Hc' & Hn & _).
    assert (c' = c) as ->; [|congruence].
    apply (holder_unique _ _ _ _ _ (new_lchan ho) _ _ _ _ G Hc' Hc); [by right; left|by apply g_held].
  - intros Hn. apply g_held. by right; left.
Qed.

Lemma g_clearable : clearable None cc hs c cn.
Proof.
  pose proof (g_ok _ _ _ _ _ G _ _ Hc) as Hok. split.
  - intros l Hl%g_held. done.
  - apply Hok.
  - apply Hok.
  - intros l Hl. by apply (g_ho_of _ _ _ _ _ G c cn).
Qed.

(** The connection becomes [cn']. *)
Lemma graph_moved cn' cc' hs' :
  conn_ok nb cn' ->
  (forall l, holds cn' l -> cc l = None \/ cc l = Some c) ->
  (forall l, cc' l = if decide (holds cn' l) then Some c else if decide (holds cn l) then None else cc l) ->
  (forall ho, ho ∈ hs' -> (ho ∈ hs /\ cn_ho_lchan cn <> Some (new_lchan ho)) \/
     (cn_ho_lchan cn' = Some (new_lchan ho) /\ cn_lchan cn' = Some (old_lchan ho))) ->
  (forall ho, ho ∈ hs -> cn_ho_lchan cn <> Some (new_lchan ho) -> ho ∈ hs') ->
  (forall l, cn_ho_lchan cn' = Some l -> exists ho, ho ∈ hs' /\ new_lchan ho = l) ->
  NoDup (new_lchan <$> hs') ->
  graph cc' (<[c := cn']> cs) hs' nb nx.
Proof.
  intros Hok Hfree Hcc' H1 H2 H3 Hnd.
  eapply graph_update; [exact G|exact Hok|done|by eapply (g_fresh _ _ _ _ _ G)|..]; try done.
  - intros l. rewrite Hcc'. repeat case_decide; try done.
    split; [|done]. intros Hl%g_held. done.
  - intros l c0 Hne. rewrite Hcc'. pose proof (g_held l) as Hg. repeat case_decide; try done.
    + destruct (Hfree l) as [E|E]; [done|..]; rewrite E; split; congruence.
    + rewrite (proj1 Hg) by done. split; congruence.
  - intros ho Hin. destruct (H1 ho Hin) as [[Hh Hn]|?]; [left|by right]. split; [done|]. by rewrite g_mine.
  - intros ho Hin Hn. apply H2; [done|]. by rewrite <- g_mine.
Qed.

(** ... and its handover, if it has one, goes on. *)
Lemma graph_moved_same cn' cc' :
  conn_ok nb cn' -> cn_ho_lchan cn' = cn_ho_lchan cn ->
  (cn_ho_lchan cn <> None -> cn_lchan cn' = cn_lchan cn) ->
  (forall l, holds cn' l -> cc l = None \/ cc l = Some c) ->
  (forall l, cc' l = if decide (holds cn' l) then Some c else if decide (holds cn l) then None else cc l) ->
  graph cc' (<[c := cn']> cs) hs nb nx.
Proof.
  intros Hok Hho Hl Hfree Hcc'. apply (graph_moved cn' cc' hs); try done.
  - intros ho Hin. destruct (decide (cn_ho_lchan cn = Some (new_lchan ho))) as [E|E]; [right|by left].
    split; [congruence|]. rewrite Hl by congruence.
    destruct (g_ho _ _ _ _ _ G ho Hin) as (c' & cn0 & Hc' & Hn & Ho).
    assert (c' = c) as ->; [|congruence].
    apply (holder_unique _ _ _ _ _ (new_lchan ho) _ _ _ _ G Hc' Hc); by right; left.
  - intros l. rewrite Hho. by apply (g_ho_of _ _ _ _ _ G c cn).
  - apply G.
Qed.

(** ... and has no handover any more. *)
Lemma graph_moved_end cn' cc' hs' :
  conn_ok nb cn' -> cn_ho_lchan cn' = None -> hs' = hos_without (cn_ho_lchan cn) hs ->
  (forall l, holds cn' l -> cc l = None \/ cc l = Some c) ->
  (forall l, cc' l = if decide (holds cn' l) then Some c else if decide (holds cn l) then None else cc l) ->
  graph cc' (<[c := cn']> cs) hs' nb nx.
Proof.
  intros Hok Hho -> Hfree Hcc'. apply (graph_moved cn' cc' _); try done.
  - intros ho Hin%hos_without_elem. by left.
  - intros ho Hin Hn. by apply hos_without_elem.
  - intros l. by rewrite Hho.
  - apply hos_without_nodup, G.
Qed.

Lemma graph_cleared cs' :
  cs' = <[c := no_channels cn]> cs \/ cs' = delete c cs ->
  graph (unhold cn cc) cs' (hos_without (cn_ho_lchan cn) hs) nb nx.
Proof.
  assert (graph (unhold cn cc) (<[c := no_channels cn]> cs) (hos_without (cn_ho_lchan cn) hs) nb nx) as G'.
  { assert (forall l, ~ holds (no_channels cn) l) as Hno by (intros l [?|[?|?]]; done).
    apply graph_moved_end; try done. by intros l ?%Hno. }
  intros [-> | ->]; [done|]. rewrite <- (delete_insert_eq cs c (no_channels cn)).
  eapply graph_delete; [exact G'|apply lookup_insert_eq|]. by intros l [?|[?|?]].
Qed.

End graph.

(** ** The moves of the operations *)

(** The connection keeps its channels; only the flag T10 changes. *)
Lemma graph_T10 {cc cs hs nb nx} (G : graph cc cs hs nb nx) c cn v :
  cs !! c = Some cn -> (v = true -> cn_bts cn <> None) -> graph cc (<[c := cn <| cn_T10 := v |>]> cs) hs nb nx.
Proof.
  intros Hc Hv. pose proof (g_ok _ _ _ _ _ G _ _ Hc) as [K1 K2 K3 K4 K5 K6].
  assert (forall l, holds (cn <| cn_T10 := v |>) l <-> holds cn l) as Hh by done.
  apply (graph_moved_same G Hc); [by split|done|done|..].
  - intros l Hl%Hh. right. by apply (g_held G Hc).
  - intros l. pose proof (g_held G Hc l). pose proof (Hh l). repeat case_decide; tauto.
Qed.

(** A new channel for the assignment. *)
Lemma graph_secondary {cc cs hs nb nx} (G : graph cc cs hs nb nx) c cn new :
  cs !! c = Some cn -> cn_lchan cn <> None -> cn_ho_lchan cn = None -> cn_secondary cn = None ->
  cc new = None ->
  graph (relink new (Some c) cc) (<[c := cn <| cn_secondary := Some new |>]> cs) hs nb nx.
Proof.
  intros Hc Hl Hho Hsec Hn. pose proof (g_ok _ _ _ _ _ G _ _ Hc) as [K1 K2 K3 K4 K5 K6].
  assert (~ holds cn new) as Hnew by (rewrite (g_held G Hc); congruence).
  assert (forall l, holds (cn <| cn_secondary := Some new |>) l <-> holds cn l \/ new = l) as Hh.
  { intros l. unfold holds. upd_norm. cbn [cn_secondary cn_lchan cn_ho_lchan]. rewrite Hsec.
    split; [intros [?|[?|[= ->]]]|intros [[?|[?|?]]| ->]]; (tauto || done). }
  apply (graph_moved_same G Hc); [|done|done|..].
  - split; upd_norm; cbn [cn_secondary cn_lchan cn_ho_lchan cn_bts]; try done.
    + intros l Hcl. split; [by rewrite Hho|]. intros [= ->]. apply Hnew. by left.
    + intros l. by rewrite Hho.
  - intros l [Hl'| <-]%Hh; [right; by apply (g_held G Hc)|by left].
  - intros l. pose proof (g_held G Hc l). pose proof (Hh l). unfold relink.
    repeat case_decide; intuition congruence.
Qed.

(** The new channel is given up. *)
Lemma graph_no_secondary {cc cs hs nb nx} (G : graph cc cs hs nb nx) c cn :
  cs !! c = Some cn ->
  graph (fun l => if decide (cn_secondary cn = Some l) then None else cc l)
    (<[c := no_secondary cn]> cs) hs nb nx.
Proof.
  intros Hc. pose proof (g_ok _ _ _ _ _ G _ _ Hc) as [K1 K2 K3 K4 K5 K6].
  assert (forall l, holds (no_secondary cn) l <-> holds cn l /\ cn_secondary cn <> Some l) as Hh.
  { intros l. unfold holds, no_secondary. upd_norm. cbn [cn_secondary cn_lchan cn_ho_lchan].
    specialize (K1 l). specialize (K2 l). split; [intros [?|[?|?]]|intros [[?|[?|?]] ?]]; (tauto || done). }
  apply (graph_moved_same G Hc); [|done|done|..].
  - split; unfold no_secondary; upd_norm; cbn [cn_secondary cn_lchan cn_ho_lchan cn_bts]; try done.
    + intros l Hl. split; [by apply K1|done].
    + intros Hl. split; [by apply K3|done].
  - intros l [Hl _]%Hh. right. by apply (g_held G Hc).
  - intros l. pose proof (g_held G Hc l). pose proof (Hh l).
    assert (cn_secondary cn = Some l -> holds cn l) by (intros ?; by right; right).
    repeat case_decide; intuition congruence.
Qed.

(** The new channel takes the place of the old one. *)
Lemma graph_ass_compl {cc cs hs nb nx} (G : graph cc cs hs nb nx) c cn old new :
  cs !! c = Some cn -> cn_lchan cn = Some old -> cn_secondary cn = Some new ->
  graph (relink old None cc) (<[c := (no_secondary cn) <| cn_lchan := Some new |>]> cs) hs nb nx.
Proof.
  intros Hc Ho Hn. pose proof (g_ok _ _ _ _ _ G _ _ Hc) as [K1 K2 K3 K4 K5 K6].
  assert (cn_ho_lchan cn = None) as Hho by (apply K4; by rewrite Hn).
  assert (old <> new) as Hne by (intros ->; by apply (K1 new) in Ho as [_ ?]).
  assert (forall l, holds ((no_secondary cn) <| cn_lchan := Some new |>) l <-> new = l) as Hh.
  { intros l. unfold holds, no_secondary. upd_norm. cbn [cn_secondary cn_lchan cn_ho_lchan]. rewrite Hho.
    split; [intros [[= ?]|[?|?]]; done|intros <-; by left]. }
  assert (forall l, holds cn l <-> old = l \/ new = l) as Hh0.
  { intros l. unfold holds. rewrite Ho, Hho, Hn. split; [intros [[= ?]|[?|[= ?]]]|intros [<-| <-]]; (tauto || done). }
  apply (graph_moved_same G Hc).
  - split; unfold no_secondary; upd_norm; cbn [cn_secondary cn_lchan cn_ho_lchan cn_bts]; try done.
    + intros l _. by rewrite Hho.
    + intros _. apply K5. by rewrite Ho.
  - done.
  - by rewrite Hho.
  - intros l <-%Hh. right. apply (g_held G Hc). by right; right.
  - intros l. pose proof (g_held G Hc l). pose proof (Hh l). pose proof (Hh0 l). unfold relink.
    repeat case_decide; intuition congruence.
Qed.

(** A connection comes into being on a channel. *)
Lemma graph_new {cc cs hs nb nx} (G : graph cc cs hs nb nx) l :
  cc l = None -> (l.1 < nb)%nat ->
  graph (relink l (Some nx) cc) (<[nx := mk_conn (Some l) None None (Some l.1) false false]> cs) hs nb (S nx).
Proof.
  intros Hl Hb. assert (cs !! nx = None) as Hnx.
  { destruct (cs !! nx) eqn:E; [|done]. apply (g_fresh _ _ _ _ _ G) in E. lia. }
  assert (forall l', cc l' <> Some nx) as Hno.
  { intros l' (cn & Hc & _)%(g_conn _ _ _ _ _ G). congruence. }
  eapply graph_update; [exact G| |lia|lia|..].
  - split; cbn [cn_lchan cn_ho_lchan cn_secondary cn_bts]; try done. intros _. by exists l.1.
  - intros l'. unfold relink, holds. cbn [cn_lchan cn_ho_lchan cn_secondary]. case_decide as E.
    + subst. split; [by left|done].
    + split; [intros ?%Hno; done|]. intros [[= ?]|[?|?]]; done.
  - intros l' c0 Hne. unfold relink. case_decide as E; [subst|done]. rewrite Hl. split; congruence.
  - intros ho Hin. left. split; [done|apply Hno].
  - done.
  - done.
  - apply G.
Qed.

Lemma graph_next {cc cs hs nb nx} (G : graph cc cs hs nb nx) : graph cc cs hs nb (S nx).
Proof. destruct G as [H1 H2 H3 H4 H5 H6]. split; try done. intros c cn Hc%H3. lia. Qed.

Lemma graph_ho_start {cc cs hs nb nx} (G : graph cc cs hs nb nx) c cn old new t ref :
  cs !! c = Some cn -> cn_lchan cn = Some old -> cn_ho_lchan cn = None -> cn_secondary cn = None ->
  cc new = None ->
  graph (relink new (Some c) cc) (<[c := ho_to (Some new) cn]> cs) (mk_bsc_handover old new t ref :: hs) nb nx.
Proof.
  intros Hc Hl Hho Hsec Hn. pose proof (g_ok _ _ _ _ _ G _ _ Hc) as [K1 K2 K3 K4 K5 K6].
  assert (~ holds cn new) as Hnew by (rewrite (g_held G Hc); congruence).
  assert (forall l, holds (ho_to (Some new) cn) l <-> holds cn l \/ new = l) as Hh.
  { intros l. unfold holds, ho_to. upd_norm. cbn [cn_secondary cn_lchan cn_ho_lchan]. rewrite Hho.
    split; [intros [?|[[= <-]|?]]|intros [[?|[?|?]]| <-]]; (tauto || done). }
  apply (graph_moved G Hc).
  - split; unfold ho_to; upd_norm; cbn [cn_secondary cn_lchan cn_ho_lchan cn_bts]; try done.
    + intros l Hcl. split; [|by rewrite Hsec]. intros [= ->]. apply Hnew. by left.
    + intros l _. by rewrite Hsec.
    + by rewrite Hl.
  - intros l [Hl'| <-]%Hh; [right; by apply (g_held G Hc)|by left].
  - intros l. pose proof (g_held G Hc l). pose proof (Hh l). unfold relink.
    repeat case_decide; intuition congruence.
  - intros ho [->|Hin]%elem_of_cons; [right|left].
    + split; [done|exact Hl].
    + split; [done|]. by rewrite Hho.
  - intros ho Hin _. by right.
  - intros l. unfold ho_to. upd_norm. cbn [cn_ho_lchan]. intros [= <-]. eexists. split; [by left|done].
  - rewrite fmap_cons. apply NoDup_cons. split; [|apply G]. intros (ho & Hn' & Hin)%list_elem_of_fmap.
    cbn in Hn'. destruct (g_ho _ _ _ _ _ G ho Hin) as (c' & cn' & Hc' & Hnl & _).
    assert (cc (new_lchan ho) = Some c') by (apply (g_held G Hc'); by right; left). congruence.
Qed.

Lemma graph_ho_end {cc cs hs nb nx} (G : graph cc cs hs nb nx) c cn new :
  cs !! c = Some cn -> cn_ho_lchan cn = Some new ->
  graph (relink new None cc) (<[c := ho_to None cn]> cs) (hos_without (Some new) hs) nb nx.
Proof.
  intros Hc Hho. pose proof (g_ok _ _ _ _ _ G _ _ Hc) as [K1 K2 K3 K4 K5 K6].
  assert (forall l, holds (ho_to None cn) l <-> holds cn l /\ new <> l) as Hh.
  { intros l. unfold holds, ho_to. upd_norm. cbn [cn_secondary cn_lchan cn_ho_lchan]. specialize (K1 l).
    specialize (K2 l). rewrite Hho in *. split; [|intros [[?|[[= ?]|?]] ?]; tauto || done].
    intros [H1|[H1|H1]]; [split; [tauto|]|done|split; [tauto|]]; intros <-; tauto. }
  assert (holds cn new) as Hnew by (by right; left).
  apply (graph_moved_end G Hc); [| |by rewrite Hho|..].
  - split; unfold ho_to; upd_norm; cbn [cn_secondary cn_lchan cn_ho_lchan cn_bts]; try done.
    + intros l Hl. split; [done|by apply K1].
    + intros Hl. split; [done|by apply K3].
  - done.
  - intros l [Hl _]%Hh. right. by apply (g_held G Hc).
  - intros l. pose proof (g_held G Hc l). pose proof (Hh l). unfold relink.
    repeat case_decide; subst; intuition congruence.
Qed.

Lemma graph_ho_compl {cc cs hs nb nx} (G : graph cc cs hs nb nx) c cn old new :
  cs !! c = Some cn -> cn_ho_lchan cn = Some new -> cn_lchan cn = Some old ->
  graph (relink old None cc) (<[c := (ho_to None cn) <| cn_lchan := Some new |>]> cs)
    (hos_without (Some new) hs) nb nx.
Proof.
  intros Hc Hho Hl. pose proof (g_ok _ _ _ _ _ G _ _ Hc) as [K1 K2 K3 K4 K5 K6].
  assert (cn_secondary cn = None) as Hsec.
  { destruct (cn_secondary cn) eqn:E; [|done]. rewrite K4 in Hho by done. done. }
  assert (old <> new) as Hne by (intros ->; by apply (K1 new) in Hl as [? _]).
  assert (forall l, holds ((ho_to None cn) <| cn_lchan := Some new |>) l <-> new = l) as Hh.
  { intros l. unfold holds, ho_to. upd_norm. cbn [cn_secondary cn_lchan cn_ho_lchan]. rewrite Hsec.
    split; [intros [[= ?]|[?|?]]; done|intros <-; by left]. }
  assert (forall l, holds cn l <-> old = l \/ new = l) as Hh0.
  { intros l. unfold holds. rewrite Hl, Hho, Hsec.
    split; [intros [[= ?]|[[= ?]|?]]|intros [<-| <-]]; (tauto || done). }
  apply (graph_moved_end G Hc); [| |by rewrite Hho|..].
  - split; unfold ho_to; upd_norm; cbn [cn_secondary cn_lchan cn_ho_lchan cn_bts]; try done.
    + intros l _. by rewrite Hsec.
    + intros _. apply K5. by rewrite Hl.
  - done.
  - intros l <-%Hh. right. apply (g_held G Hc). by right; left.
  - intros l. pose proof (g_held G Hc l). pose proof (Hh l). pose proof (Hh0 l). unfold relink.
    repeat case_decide; intuition congruence.
Qed.

(** A timer of a handover starts or stops. *)
Lemma graph_T3103 {cc cs hs nb nx} (G : graph cc cs hs nb nx) i ho v :
  hs !! i = Some ho -> graph cc cs (<[i := ho <| T3103 := v |>]> hs) nb nx.
Proof.
  destruct G as [H1 H2 H3 H4 H5 H6]. intros Hi. set (ho' := ho <| T3103 := v |>).
  pose proof (lookup_lt_Some _ _ _ Hi) as Hlt. split; try done.
  - intros x [j Hj]%list_elem_of_lookup_1. destruct (decide (i = j)) as [<-|Hne].
    + rewrite list_lookup_insert_eq in Hj by done. injection Hj as <-.
      apply (H4 ho). by eapply list_elem_of_lookup_2.
    + rewrite list_lookup_insert_ne in Hj by done. apply (H4 x). by eapply list_elem_of_lookup_2.
  - intros c cn l Hc Hl. destruct (H5 c cn l Hc Hl) as (x & [j Hj]%list_elem_of_lookup_1 & Hx).
    destruct (decide (i = j)) as [<-|Hne].
    + exists ho'. split; [eapply list_elem_of_lookup_2; by rewrite list_lookup_insert_eq|].
      rewrite Hi in Hj. injection Hj as ->. exact Hx.
    + exists x. split; [|done]. eapply list_elem_of_lookup_2. by rewrite list_lookup_insert_ne.
  - rewrite list_fmap_insert, list_insert_id; [done|]. by rewrite list_lookup_fmap, Hi.
Qed.

End BscGraph.
