(* ===== verification/BscInv.v ===== *)
(** Every operation keeps the pointers of connections, channels and handovers consistent and, with
    the exceptions [may] names, follows no null pointer. *)

From S2P Require Import Prelude Chreq Radio ChanAlloc AllocProps Rsl RslProps Bsc BscProps BscParts BscOps BscGraph.

Module BscInv.
Import AllocProps RslProps Bsc BscProps BscParts BscOps BscGraph.

(** ** From shapes to well-formed states and back *)

Lemma wf_shape st :
  bsc_wf st -> shape None st (next_conn st) (chan_conn st) (conns st) (bsc_handovers st) st.
Proof. intros [Hf _]. by split. Qed.
Lemma shape_wf st0 nx cc cs hs st :
  shape None st0 nx cc cs hs st -> graph cc cs hs (length (btss st0)) nx -> bsc_wf st.
Proof.
  intros [Hf Hl He Hn Hc <- <-] G. split; [done|]. unfold graph_of. rewrite Hl, Hn.
  by eapply graph_ext.
Qed.

(** A channel a message may arrive on: it is allocated. *)
Definition allocated (st : bsc_state) (l : lref) : Prop :=
  exists lc, lookup_chan st l = Some lc /\ lc_type lc <> GSM_LCHAN_NONE.

Lemma wp_is_ipaccess b st (Q : bool -> bsc_state -> Prop) :
  (b < length (btss st))%nat -> (forall ip, Q ip st) -> wp (bts_is_ipaccess b) Q st.
Proof.
  intros Hb HQ. destruct (lookup_lt_is_Some_2 (btss st) b Hb) as [bts Eb].
  unfold wp, bts_is_ipaccess. by rewrite Eb.
Qed.
Lemma lookup_bts st l lc : lookup_chan st l = Some lc -> (l.1 < length (btss st))%nat.
Proof.
  unfold lookup_chan. destruct (btss st !! l.1) eqn:E; [|done]. intros _. by eapply lookup_lt_Some.
Qed.

(** The handover at a place of the list, with its connection. *)
Lemma ho_conn st i ho :
  bsc_wf st -> bsc_handovers st !! i = Some ho ->
  exists c cn, conns st !! c = Some cn /\ cn_ho_lchan cn = Some (new_lchan ho) /\
    cn_lchan cn = Some (old_lchan ho) /\ chan_conn st (new_lchan ho) = Some c /\
    chan_conn st (old_lchan ho) = Some c.
Proof.
  intros [_ G] Hi. destruct (g_ho _ _ _ _ _ G ho) as (c & cn & Hc & Hn & Ho).
  { by eapply list_elem_of_lookup_2. }
  exists c, cn. split_and!; try done; apply (g_held G Hc); [by right; left|by left].
Qed.

Lemma ho_ended_wf st i ho c cn rel st' :
  bsc_wf st -> bsc_handovers st !! i = Some ho -> conns st !! c = Some cn ->
  cn_ho_lchan cn = Some (new_lchan ho) ->
  ho_ended (st0 := st) (nx := next_conn st) (cc := chan_conn st) (cs := conns st) (hs := bsc_handovers st)
    ho c cn rel st' -> bsc_wf st'.
Proof.
  intros [_ G] Hi Hc Hn [Hs' _]. eapply shape_wf; [exact Hs'|]. by apply graph_ho_end.
Qed.

Section bsc.
Context `{LibosmoConst} `{BscApi} (env : rsl_env).
Context (mr_conf_590 : list Z -> list Z) (ciph_m_cmd : list Z) (api_clear_request : nat -> bool).

(** The channel is the new one of an assignment, and nobody is there to be told that it failed. *)
Definition untold_loss (st : bsc_state) (l : lref) : Prop :=
  has_assign_fail = false /\ exists c cn, conns st !! c = Some cn /\ cn_secondary cn = Some l.

Lemma free_lchan_wf l st :
  bsc_wf st -> is_Some (lookup_chan st l) -> ~ untold_loss st l ->
  wp (free_lchan api_clear_request l) (fun _ => bsc_wf) st.
Proof.
  intros Hwf Hl Hno. pose proof (wf_shape _ Hwf) as Hsh. pose proof (bw_graph _ Hwf) as G.
  destruct (chan_conn st l) as [c|] eqn:Ec.
  - destruct (proj1 (g_conn _ _ _ _ _ G l c) Ec) as (cn & Hc & Hh).
    eapply (sp_free_used api_clear_request Hsh); [done|exact Hc|done|apply G|by apply (g_clearable G)| |].
    { intros Hs. destruct has_assign_fail eqn:Ea; [done|]. destruct Hno. split; [done|by exists c, cn]. }
    intros st' cs' Hs' Hcs'. eapply shape_wf; [exact Hs'|]. by apply (graph_cleared G Hc).
  - apply (sp_free_unused api_clear_request Hsh); [done..|]. intros st' Hs'.
    eapply shape_wf; [exact Hs'|exact G].
Qed.

Lemma clear_and_free_wf c st :
  bsc_wf st -> is_Some (conns st !! c) -> wp (clear_and_free c) (fun _ => bsc_wf) st.
Proof.
  intros Hwf [cn Hc]. pose proof (wf_shape _ Hwf) as Hsh. pose proof (bw_graph _ Hwf) as G.
  unfold clear_and_free. wp_steps.
  eapply (sp_gsm0808_clear Hsh); [exact Hc|apply G|by apply (g_clearable G)|]. intros st1 Hs1.
  eapply (sp_free_cleared Hs1); [apply lookup_insert_eq|]. intros st2 Hs2. rewrite delete_insert_eq in Hs2.
  eapply shape_wf; [exact Hs2|]. apply (graph_cleared G Hc). by right.
Qed.

(** ** Assignment and messages of the mobile *)

Lemma assign_req_wf c mode full cn st :
  bsc_wf st -> conns st !! c = Some cn -> cn_lchan cn <> None -> cn_ho_lchan cn = None ->
  cn_secondary cn = None ->
  (forall b l lc, cn_bts cn = Some b -> cn_lchan cn = Some l -> lookup_chan st l = Some lc ->
     lc_type lc = GSM_LCHAN_SDCCH -> assignment_refused st b mode full = true -> has_assign_fail = true) ->
  wp (gsm0808_assign_req env mr_conf_590 api_clear_request c mode full) (fun _ => bsc_wf) st.
Proof.
  intros Hwf Hc Hl Hho Hsec Hapi. pose proof (wf_shape _ Hwf) as Hsh. pose proof (bw_graph _ Hwf) as G.
  destruct (ck_bts _ _ (g_ok _ _ _ _ _ G _ _ Hc) Hl) as (b & Hb & Hlt).
  destruct (cn_lchan cn) as [old|] eqn:Eold; [|done].
  assert (chan_conn st old = Some c) as Hcc by (apply (g_held G Hc); by left).
  eapply (sp_assign_req env mr_conf_590 api_clear_request Hsh); [done..| | | |].
  - intros lc Hlc Ht Hr. by eapply Hapi.
  - intros st' Hs'. by eapply shape_wf.
  - intros st' Hs'. eapply shape_wf; [exact Hs'|]. by apply (graph_T10 G); [|rewrite Hb].
  - intros new lc st' _ Hn _ Hs' _ _. eapply shape_wf; [exact Hs'|].
    assert (cn_lchan cn <> None) as Hl' by (by rewrite Eold).
    pose proof (graph_secondary G c cn new Hc Hl' Hho Hsec Hn) as G'.
    pose proof (graph_T10 G' c _ true (lookup_insert_eq _ _ _)) as G2. rewrite insert_insert_eq in G2.
    apply G2. intros _. upd_norm. cbn [cn_bts]. by rewrite Hb.
Qed.

Lemma T10_wf c cn st :
  bsc_wf st -> conns st !! c = Some cn -> cn_T10 cn = true -> has_assign_fail = true ->
  wp (assignment_t10_timeout c) (fun _ => bsc_wf) st.
Proof.
  intros Hwf Hc HT Hapi. pose proof (wf_shape _ Hwf) as Hsh. pose proof (bw_graph _ Hwf) as G.
  pose proof (ck_T10 _ _ (g_ok _ _ _ _ _ G _ _ Hc) HT) as Hb.
  destruct (cn_bts cn) as [b|] eqn:Eb; [|done].
  eapply (sp_T10 Hsh); [exact Hc|exact Eb| | |].
  - intros l Hl. apply (g_held G Hc). by right; right.
  - done.
  - intros st' Hs'. eapply shape_wf; [exact Hs'|]. by apply graph_no_secondary.
Qed.

(** The message would release the new channel of an assignment when there is none, or report the failure to
    nobody. *)
Definition spurious_failure (st : bsc_state) (c : nat) (l : lref) : Prop :=
  exists cn, conns st !! c = Some cn /\ cn_lchan cn = Some l /\
    (cn_secondary cn = None \/ has_assign_fail = false).

Lemma ass_fail_wf c l cause cn st :
  bsc_wf st -> conns st !! c = Some cn -> cn_lchan cn <> None -> ~ spurious_failure st c l ->
  wp (handle_ass_fail c l cause) (fun _ => bsc_wf) st.
Proof.
  intros Hwf Hc Hp Hno. pose proof (wf_shape _ Hwf) as Hsh. pose proof (bw_graph _ Hwf) as G.
  destruct (ck_bts _ _ (g_ok _ _ _ _ _ G _ _ Hc) Hp) as (b & Hb & _).
  destruct (decide (cn_lchan cn = Some l)) as [Hl|Hl].
  - destruct (cn_secondary cn) as [sec|] eqn:Es.
    + assert (chan_conn st sec = Some c) as Hcc by (apply (g_held G Hc); by right; right).
      assert (has_assign_fail = true) as Hapi.
      { destruct has_assign_fail eqn:Ea; [done|]. destruct Hno. exists cn. by split_and!; [..|right]. }
      eapply (sp_ass_fail Hsh); [done..|]. intros lc st' Hs' _ _. eapply shape_wf; [exact Hs'|].
      eapply graph_ext; [by apply (graph_no_secondary G c cn)|]. intros l'. rewrite Es. unfold relink.
      repeat case_decide; congruence.
    + destruct Hno. exists cn. by split_and!; [..|left].
  - unfold handle_ass_fail. wp_steps. rewrite (sp_conn_bts Hsh _ _ _ _ Hc Hb). wp_steps.
    rewrite (sp_get_conn Hsh _ _ _ Hc). unfold lref_eqb.
    rewrite bool_decide_false by done. cbn [negb]. by wp_steps.
Qed.

Lemma ass_compl_wf c l cause cn st :
  bsc_wf st -> conns st !! c = Some cn -> cn_lchan cn <> None ->
  wp (handle_ass_compl c l cause) (fun _ => bsc_wf) st.
Proof.
  intros Hwf Hc Hp. pose proof (wf_shape _ Hwf) as Hsh. pose proof (bw_graph _ Hwf) as G.
  pose proof (g_ok _ _ _ _ _ G _ _ Hc) as Hok. destruct (ck_bts _ _ Hok Hp) as (b & Hb & Hlt).
  destruct (cn_lchan cn) as [old|] eqn:Eold; [|done].
  destruct (decide (cn_secondary cn = Some l /\ cause <> None)) as [[Hl Hcs]|Hl].
  - destruct cause as [cause|]; [|done].
    eapply (sp_ass_compl Hsh c cn l old b cause); try done.
    + apply (g_held G Hc). by left.
    + apply (g_held G Hc). by right; right.
    + intros ->. by apply (ck_distinct1 _ _ Hok) in Eold as [_ ?].
    + intros lc st' Hs' _ _. eapply shape_wf; [exact Hs'|]. by apply graph_ass_compl.
  - unfold handle_ass_compl. wp_steps. rewrite (sp_conn_bts Hsh _ _ _ _ Hc Hb). wp_steps.
    rewrite (sp_get_conn Hsh _ _ _ Hc). unfold lref_eqb. case_bool_decide as E; cbn [negb]; [|by wp_steps].
    destruct cause; [|by wp_steps]. destruct Hl. split; [congruence|done].
Qed.

Lemma modif_ack_shape {st0 nx cc cs hs st} (Hsh : shape None st0 nx cc cs hs st) l mode
    (Q : Z -> bsc_state -> Prop) :
  allocated st l -> (forall rc st', shape None st0 nx cc cs hs st' -> Q rc st') ->
  wp (gsm48_rx_rr_modif_ack env l mode) Q st.
Proof.
  intros (lc & Hl & Ht) HQ. unfold gsm48_rx_rr_modif_ack. wp_steps. rewrite (wp_get_chan _ _ _ _ Hl).
  case_bool_decide; cbn [negb]; wp_steps; [|by apply HQ].
  apply (sp_modify Hsh _ _ _ _ Hl Ht); [by destruct mode; upd_norm..|].
  match goal with |- context [put _ ?x _] => set (lc2 := x) end. intros Hs2.
  assert (lc_type lc2 <> GSM_LCHAN_NONE) as Ht2 by (unfold lc2; by destruct mode; upd_norm).
  pose proof (put_lookup _ lc2 _ Hl) as Hl2. clearbody lc2. wp_steps.
  apply (sp_keep Hs2 _ _ _ _ _ Hl2 Ht2 (fun ts => keeps_mode_modify env ts _)).
  intros rc lc3 _ _ _ Hs3. pose proof (put_lookup _ lc3 _ Hl2) as Hl3. wp_steps.
  apply wp_is_ipaccess; [by eapply lookup_bts|]. intros ip. wp_steps. by apply HQ.
Qed.

Lemma dispatch_wf c l link m cn st :
  bsc_wf st -> conns st !! c = Some cn -> cn_lchan cn <> None -> allocated st l ->
  (forall cause, m = RR_ASS_FAIL cause -> ~ spurious_failure st c l) ->
  wp (dispatch_dtap env c l link m) (fun _ => bsc_wf) st.
Proof.
  intros Hwf Hc Hl Ha Hm. pose proof (wf_shape _ Hwf) as Hsh. pose proof (bw_graph _ Hwf) as G.
  assert (forall l' st', cn_lchan cn = Some l' -> shape None st (next_conn st) (chan_conn st)
    (conns st) (bsc_handovers st) st' -> exists lc, lookup_chan st' l' = Some lc) as Hp.
  { intros l' st' E Hs'. destruct (used_lookup Hs' l' c) as (lc & Hlc & _); [|done|by exists lc].
    apply (g_held G Hc). by left. }
  destruct m as [| |cause|cause|mode|]; cbn [dispatch_dtap]; wp_steps.
  - done.
  - destruct has_cipher_mode_compl; wp_steps; [|done].
    rewrite (sp_get_conn Hsh _ _ _ Hc). destruct (cn_lchan cn) as [l'|] eqn:El; [|done]. cbn [deref].
    destruct (Hp l' st eq_refl Hsh) as [lc Hlc]. wp_steps. rewrite (wp_get_chan _ _ _ _ Hlc). by wp_steps.
  - eapply wp_mono; [by eapply ass_compl_wf|]. intros [] st' Hw. by wp_steps.
  - eapply wp_mono; [by eapply ass_fail_wf; [..|by eapply Hm]|]. intros [] st' Hw. by wp_steps.
  - eapply (sp_set_conn Hsh); [done|]. intros st1 Hs1 Hb1 _. wp_steps.
    assert (false = true -> cn_bts cn <> None) as Hf by done.
    pose proof (graph_T10 G c cn false Hc Hf) as G1.
    apply (modif_ack_shape Hs1).
    { destruct Ha as (lc & Hlc & Ht). exists lc. unfold lookup_chan in *. by rewrite Hb1. }
    intros rc st2 Hs2. assert (bsc_wf st2) as Hw2 by (by eapply shape_wf). case_match; wp_steps; [done|].
    rewrite (sp_get_conn Hs2 _ _ _ (lookup_insert_eq _ _ _)). upd_norm. cbn [cn_lchan].
    destruct (cn_lchan cn) as [l'|] eqn:El; [|done]. unfold assign_compl.
    rewrite wp_when. destruct has_assign_compl; [|done]. cbn [deref]. wp_steps.
    destruct (used_lookup Hs2 l' c) as (lc & Hlc & _); [|done|].
    { apply (g_held G Hc). by left. }
    rewrite (wp_get_chan _ _ _ _ Hlc). by wp_steps.
  - done.
Qed.

Lemma rcvmsg_wf ok accept l link m st :
  bsc_wf st -> allocated st l ->
  (forall lc c cause, m = RR_ASS_FAIL cause -> lookup_chan st l = Some lc ->
     lc_state lc = LCHAN_S_ACTIVE -> lc_conn lc = Some c -> ~ spurious_failure st c l) ->
  wp (gsm0408_rcvmsg env ok accept l link m) (fun _ => bsc_wf) st.
Proof.
  intros Hwf Ha Hm. pose proof (wf_shape _ Hwf) as Hsh. pose proof (bw_graph _ Hwf) as G.
  pose proof Ha as (lc & Hl & Ht). unfold gsm0408_rcvmsg. wp_steps. rewrite (wp_get_chan _ _ _ _ Hl).
  case_bool_decide as Eact; cbn [negb]; [|by wp_steps].
  pose proof (cc_lookup Hsh _ _ Hl) as Hcc. destruct (lc_conn lc) as [c|] eqn:Ec.
  - destruct (proj1 (g_conn _ _ _ _ _ G l c) (eq_sym Hcc)) as (cn & Hc & Hh). wp_steps.
    eapply wp_mono; [eapply dispatch_wf; try done|].
    + intros E. destruct (ck_primary _ _ (g_ok _ _ _ _ _ G _ _ Hc) E) as [E1 E2].
      destruct Hh as [?|[?|?]]; congruence.
    + intros cause ->. by eapply Hm.
    + intros [] st' Hw. by wp_steps.
  - wp_steps. apply (sp_con_allocate Hsh ok l lc _ Hl Ht).
    + intros _. wp_steps. apply (sp_release_unused Hsh l 0 0 lc _ Hl Ht (eq_sym Hcc)).
      intros lc' st' Hs' _ _. wp_steps. by eapply shape_wf.
    + intros st1 _ Hs1. wp_steps. destruct accept; wp_steps.
      { eapply shape_wf; [exact Hs1|]. apply graph_new; [exact G|done|by eapply lookup_bts]. }
      eapply (sp_set_conn Hs1); [apply lookup_insert_eq|]. intros st2 Hs2 _ _. wp_steps.
      rewrite insert_insert_eq in Hs2.
      eapply (sp_free_bare Hs2); [apply lookup_insert_eq|done..|]. intros st3 Hs3. wp_steps.
      apply (sp_release Hs3 _ _ _ _ (next_conn st)); [unfold relink; by rewrite decide_True|done|].
      intros lc4 _ _ _ Hs4. wp_steps. eapply shape_wf; [exact Hs4|].
      assert (conns st !! next_conn st = None) as Hnx.
      { destruct (conns st !! next_conn st) eqn:E; [|done]. apply (g_fresh _ _ _ _ _ G) in E. lia. }
      rewrite delete_insert_id by done. eapply graph_ext; [by apply (graph_next G)|].
      intros l'. unfold relink. case_decide; congruence.
Qed.

Lemma cipher_wf c cipher key len imeisv cn st :
  bsc_wf st -> conns st !! c = Some cn -> cn_lchan cn <> None ->
  (forall k, key = Some k -> 0 <= len <= Z.of_nat (length k)) ->
  wp (gsm0808_cipher_mode ciph_m_cmd c cipher key len imeisv) (fun _ => bsc_wf) st.
Proof.
  intros Hwf Hc Hp Hk. pose proof (wf_shape _ Hwf) as Hsh. pose proof (bw_graph _ Hwf) as G.
  unfold gsm0808_cipher_mode. case_match; [by wp_steps|]. case_match; [by wp_steps|]. wp_steps.
  rewrite (sp_get_conn Hsh _ _ _ Hc). destruct (cn_lchan cn) as [l|] eqn:El; [|done]. cbn [deref].
  assert (chan_conn st l = Some c) as Hcc by (apply (g_held G Hc); by left).
  destruct (used_lookup Hsh _ _ Hcc) as (lc & Hlc & _ & Ht & _); [done|]. wp_steps.
  apply (sp_modify Hsh _ _ _ _ Hlc Ht); [by upd_norm..|]. intros Hs1. wp_steps.
  assert (forall (P : unit -> bsc_state -> Prop) st1, shape None st (next_conn st) (chan_conn st) (conns st)
    (bsc_handovers st) st1 -> (forall st2, shape None st (next_conn st) (chan_conn st) (conns st)
    (bsc_handovers st) st2 -> P tt st2) ->
    wp (match key with Some key => copy_key l key len | None => mret tt end) P st1) as Hcopy.
  { intros P st1 Hs HP. destruct key as [k|]; [|wp_steps; by apply HP]. specialize (Hk k eq_refl).
    unfold copy_key. replace ((len <? 0) || (Z.of_nat (length k) <? len)) with false by lia.
    destruct (used_lookup Hs _ _ Hcc) as (lc1 & Hl1 & _ & Ht1 & _); [done|].
    apply (sp_modify Hs _ _ _ _ Hl1 Ht1); [by upd_norm..|]. by apply HP. }
  eapply Hcopy; [exact Hs1|]. intros st2 Hs2. unfold gsm48_send_rr_ciph_mode. wp_steps.
  destruct (used_lookup Hs2 _ _ Hcc) as (lc2 & Hl2 & _ & Ht2 & _); [done|].
  rewrite (wp_get_chan _ _ _ _ Hl2).
  apply (sp_keep Hs2 _ _ _ _ _ Hl2 Ht2 (fun ts => keeps_encryption ts _ _)).
  intros rc lc3 _ _ _ Hs3. by eapply shape_wf.
Qed.

Lemma submit_wf ok c msg link sach st :
  bsc_wf st -> is_Some (conns st !! c) ->
  wp (gsm0808_submit_dtap ok c msg link sach) (fun _ => bsc_wf) st.
Proof.
  intros Hwf [cn Hc]. pose proof (wf_shape _ Hwf) as Hsh. pose proof (bw_graph _ Hwf) as G.
  unfold gsm0808_submit_dtap. wp_steps. rewrite (sp_get_conn Hsh _ _ _ Hc).
  destruct (cn_lchan cn) as [l|] eqn:El; [|by wp_steps]. wp_steps.
  assert (chan_conn st l = Some c) as Hcc by (apply (g_held G Hc); by left).
  destruct (used_lookup Hsh _ _ Hcc) as (lc & Hlc & _ & Ht & _); [done|].
  destruct (ck_bts _ _ (g_ok _ _ _ _ _ G _ _ Hc)) as (b & Hb & _); [congruence|].
  rewrite (wp_get_chan _ _ _ _ Hlc). unfold send_sapi_reject. case_match; [|by wp_steps]. wp_steps.
  unfold rll_establish. destruct ok; cbn [negb]; wp_steps;
    [|change (- ENOMEM =? 0) with false; cbn [negb]; wp_steps; rewrite (sp_conn_bts Hsh _ _ _ _ Hc Hb); by wp_steps].
  rewrite (wp_get_chan _ _ _ _ Hlc). wp_steps. cbn [Z.eqb negb]. wp_steps.
  destruct Hwf as [[K1 K2 K3 K4] G']. split; [split; try done|done].
  upd_norm. cbn [bsc_rll_reqs]. apply Forall_cons. split; [|done]. cbn [rr_lchan]. by eexists.
Qed.

(** ** Handover *)

Lemma handover_start_wf ok old b st :
  bsc_wf st -> allocated st old -> (b < length (btss st))%nat ->
  (forall c cn, chan_conn st old = Some c -> conns st !! c = Some cn ->
     cn_lchan cn = Some old /\ cn_secondary cn = None) ->
  wp (bsc_handover_start env api_clear_request ok old b) (fun _ => bsc_wf) st.
Proof.
  intros Hwf (lc & Hl & Ht) Hb Hm. pose proof (wf_shape _ Hwf) as Hsh. pose proof (bw_graph _ Hwf) as G.
  destruct (bsc_ho_by_old_lchan (Some old) st) as [i|] eqn:Ei.
  { unfold bsc_handover_start. wp_steps. rewrite Ei, bool_decide_true by done. by wp_steps. }
  assert (forall ho, ho ∈ bsc_handovers st -> old_lchan ho <> old) as Hno.
  { intros ho Hin <-. eapply find_idx_None in Ei; [|exact Hin]. unfold lref_eqb in Ei.
    by apply bool_decide_eq_false in Ei. }
  destruct (chan_conn st old) as [c|] eqn:Ec.
  - destruct (proj1 (g_conn _ _ _ _ _ G old c) Ec) as (cn & Hc & _).
    destruct (Hm c cn eq_refl Hc) as [Ho Hs].
    assert (cn_ho_lchan cn = None) as Hho.
    { destruct (cn_ho_lchan cn) as [new|] eqn:En; [|done].
      destruct (g_ho_of _ _ _ _ _ G c cn new Hc En) as (ho & Hin & Hn).
      destruct (g_ho _ _ _ _ _ G ho Hin) as (c' & cn' & Hc' & Hn' & Ho').
      assert (c' = c) as ->; [|exfalso; apply (Hno ho Hin); congruence].
      apply (holder_unique _ _ _ _ _ new _ _ _ _ G Hc' Hc); right; left; congruence. }
    eapply (sp_handover_start env api_clear_request Hsh); [exact Hc|done..| |].
    + intros rc st' _ Hs'. by eapply shape_wf.
    + intros new lc' ref st' _ Hn _ Hs' _ _. eapply shape_wf; [exact Hs'|]. by apply graph_ho_start.
  - unfold bsc_handover_start. wp_steps. rewrite Ei, bool_decide_false by (by intros [? ?]). wp_steps.
    rewrite (wp_get_chan _ _ _ _ Hl). unfold chan_conn in Ec. rewrite Hl in Ec. cbn in Ec. rewrite Ec.
    by wp_steps.
Qed.

Lemma ho_timeout_wf i st :
  bsc_wf st -> is_Some (bsc_handovers st !! i) -> wp (ho_T3103_cb i) (fun _ => bsc_wf) st.
Proof.
  intros Hwf [ho Hi]. destruct (ho_conn st i ho Hwf Hi) as (c & cn & Hc & Hn & _ & Hcc & _).
  eapply (sp_ho_timeout (wf_shape _ Hwf)); [exact Hi|apply Hwf|exact Hc|done|].
  intros st' He. by eapply ho_ended_wf.
Qed.

Lemma ho_fail_wf l st : bsc_wf st -> wp (ho_gsm48_ho_fail l) (fun _ => bsc_wf) st.
Proof.
  intros Hwf. destruct (bsc_ho_by_old_lchan (Some l) st) as [i|] eqn:Ei.
  - destruct (by_old_lchan_Some _ _ _ Ei) as (ho & Hi & [= ->]).
    destruct (ho_conn st i ho Hwf Hi) as (c & cn & Hc & Hn & _ & Hcc & _).
    eapply (sp_ho_fail (wf_shape _ Hwf)); [exact Hi|apply Hwf|exact Hc|done|exact Ei|].
    intros st' He. by eapply ho_ended_wf.
  - unfold ho_gsm48_ho_fail. wp_steps. rewrite Ei. by wp_steps.
Qed.

(** The handover that ends on channel [l] is of a mobile that was never identified. *)
Definition unknown_mobile (st : bsc_state) (l : lref) : Prop :=
  exists ho c cn, ho ∈ bsc_handovers st /\ new_lchan ho = l /\ conns st !! c = Some cn /\
    cn_lchan cn = Some (old_lchan ho) /\ cn_subscr cn = false.

Lemma ho_compl_wf l st : bsc_wf st -> ~ unknown_mobile st l -> wp (ho_gsm48_ho_compl l) (fun _ => bsc_wf) st.
Proof.
  intros Hwf Hno. destruct (bsc_ho_by_new_lchan (Some l) st) as [i|] eqn:Ei.
  - destruct (by_new_lchan_Some _ _ _ Ei) as (ho & Hi & [= ->]).
    destruct (ho_conn st i ho Hwf Hi) as (c & cn & Hc & Hn & Ho & Hcc & Hco).
    pose proof (bw_graph _ Hwf) as G.
    assert (cn_subscr cn = true) as Hsub.
    { destruct (cn_subscr cn) eqn:Es; [done|]. destruct Hno. exists ho, c, cn. split_and!; try done.
      by eapply list_elem_of_lookup_2. }
    eapply (sp_ho_compl (wf_shape _ Hwf)); [exact Hi|apply Hwf|exact Hc|done|exact Ei|exact Hco| |exact Hsub|].
    + intros E. destruct (ck_distinct1 _ _ (g_ok _ _ _ _ _ G _ _ Hc) _ Ho) as [N _]. apply N. congruence.
    + intros st' lc Hs' _ _. eapply shape_wf; [exact Hs'|]. by apply graph_ho_compl.
  - unfold ho_gsm48_ho_compl. wp_steps. rewrite Ei. by wp_steps.
Qed.

End bsc.
End BscInv.
