(* ===== verification/BscRuns.v ===== *)
(** The operations of the BSC in any order: the pointers between connections, channels and handovers
    stay consistent, and which messages make the program follow a null pointer. *)

From S2P Require Import Prelude Chreq Radio ChanAlloc AllocProps Rsl RslProps Bsc BscProps BscParts BscOps BscGraph BscInv.

Module BscRuns.
Import AllocProps RslProps Bsc BscProps BscParts BscOps BscGraph BscInv.

Section bsc.
Context `{LibosmoConst} `{BscApi} (env : rsl_env).
Context (mr_conf_590 : list Z -> list Z) (ciph_m_cmd : list Z) (api_clear_request : nat -> bool).

(** ** The channel's messages and timers *)

Lemma handle_chan_ack_wf c l cn st :
  bsc_wf st -> conns st !! c = Some cn -> is_Some (lookup_chan st l) ->
  wp (handle_chan_ack c l) (fun _ => bsc_wf) st.
Proof.
  intros Hwf Hc [lc Hl]. pose proof (bw_graph _ Hwf) as G.
  unfold handle_chan_ack. wp_steps. rewrite (wp_get_conn _ _ _ _ Hc). unfold lref_eqb.
  case_bool_decide as E; cbn [negb]; wp_steps; [|done]. rewrite (wp_get_chan _ _ _ _ Hl).
  destruct (cn_lchan cn) as [d|] eqn:Ed; cbn [deref]; [by wp_steps|].
  destruct (ck_primary _ _ (g_ok _ _ _ _ _ G _ _ Hc) Ed) as [_ ?]. congruence.
Qed.

Lemma handle_chan_nack_wf c l cn st :
  bsc_wf st -> conns st !! c = Some cn ->
  wp (handle_chan_nack c l) (fun _ st' => bsc_wf st' /\
    (is_Some (lookup_chan st l) -> is_Some (lookup_chan st' l)) /\
    (forall cn', conns st' !! c = Some cn' -> cn_secondary cn' <> Some l) /\
    forall c', c' <> c -> conns st' !! c' = conns st !! c') st.
Proof.
  intros Hwf Hc. pose proof (wf_shape _ Hwf) as Hsh. pose proof (bw_graph _ Hwf) as G.
  unfold handle_chan_nack. wp_steps. rewrite (wp_get_conn _ _ _ _ Hc). unfold lref_eqb.
  case_bool_decide as E; cbn [negb]; wp_steps; [|split_and!; try done; congruence]. rewrite E. cbn [deref].
  assert (chan_conn st l = Some c) as Hcc by (apply (g_held G Hc); by right; right).
  destruct (used_lookup Hsh _ _ Hcc) as (lc & Hlc & _); [done|].
  apply (sp_set_lchan_conn Hsh _ _ _ _ Hlc); [by left|]. intros Hs1. wp_steps.
  eapply (sp_set_conn Hs1); [done|]. intros st2 Hs2 _ _.
  assert (conns st2 = <[c := cn <| cn_secondary := None |>]> (conns st)) as Hcs by apply Hs2.
  split_and!; [|by intros Hx%(sh_exist _ _ _ _ _ _ _ Hs2)| |].
  2:{ intros cn'. rewrite Hcs, lookup_insert_eq. by intros [= <-]. }
  2:{ intros c' Hne. by rewrite Hcs, lookup_insert_ne. }
  eapply shape_wf; [exact Hs2|].
  pose proof (graph_no_secondary G c cn Hc) as G1.
  pose proof (graph_T10 G1 c _ (cn_T10 cn) (lookup_insert_eq _ _ _)) as G2.
  rewrite insert_insert_eq in G2. eapply graph_ext; [apply G2, (g_ok _ _ _ _ _ G _ _ Hc)|]. intros l'. unfold relink. rewrite E. repeat case_decide; congruence.
Qed.

Lemma wp_lchan_signal l (k : nat -> M bsc_state bsc_event unit) (Q : unit -> bsc_state -> Prop) st :
  bsc_wf st -> is_Some (lookup_chan st l) -> (chan_conn st l = None -> Q tt st) ->
  (forall c cn, chan_conn st l = Some c -> conns st !! c = Some cn -> wp (k c) Q st) ->
  wp (bsc_handle_lchan_signal l k) Q st.
Proof.
  intros Hwf [lc Hl] HQ Hk. unfold bsc_handle_lchan_signal. wp_steps. rewrite (wp_get_chan _ _ _ _ Hl).
  assert (chan_conn st l = lc_conn lc) as Hcc by (unfold chan_conn; by rewrite Hl).
  destruct (lc_conn lc) as [c|] eqn:Ec; [|wp_steps; by apply HQ].
  destruct (proj1 (g_conn _ _ _ _ _ (bw_graph _ Hwf) l c) Hcc) as (cn & Hc & _). by eapply Hk.
Qed.

Lemma act_ack_wf l ie st :
  bsc_wf st -> allocated st l -> wp (bsc_chan_act_ack env l ie) (fun _ => bsc_wf) st.
Proof.
  intros Hwf (lc & Hl & Ht). pose proof (wf_shape _ Hwf) as Hsh. pose proof (bw_graph _ Hwf) as G.
  unfold bsc_chan_act_ack. wp_steps.
  apply (sp_keep Hsh _ _ _ _ _ Hl Ht (fun ts => keeps_act_ack env ts ie _)).
  intros rc lc1 _ _ _ Hs1. pose proof (put_lookup _ lc1 _ Hl) as Hl1.
  assert (bsc_wf (put l lc1 st)) as Hw1 by (by eapply shape_wf).
  case_match; wp_steps; [done|].
  assert (forall st2, bsc_wf st2 -> is_Some (lookup_chan st2 l) ->
    wp (bsc_handle_lchan_signal l (fun c => handle_chan_ack c l)) (fun _ => bsc_wf) st2) as Hsig.
  { intros st2 Hw2 Hx. apply wp_lchan_signal; [done..|]. intros c cn _ Hc. by eapply handle_chan_ack_wf. }
  assert (wp (ho_chan_activ_ack l) (fun _ st2 => bsc_wf st2 /\ is_Some (lookup_chan st2 l)) (put l lc1 st)) as Hho.
  { destruct (bsc_ho_by_new_lchan (Some l) (put l lc1 st)) as [i|] eqn:Ei.
    - destruct (by_new_lchan_Some _ _ _ Ei) as (ho & Hi & [= ->]).
      eapply (sp_ho_ack Hs1); [exact Ei|exact Hi|by eexists|]. intros st2 Hs2. split.
      + eapply shape_wf; [exact Hs2|]. by apply graph_T3103.
      + apply Hs2. by eexists.
    - unfold ho_chan_activ_ack. wp_steps. rewrite Ei. wp_steps. split; [done|by eexists]. }
  eapply wp_mono; [exact Hho|]. intros z st2 [Hw2 Hx2]. wp_steps.
  eapply wp_mono; [by apply Hsig|]. intros [] st3 Hw3. by wp_steps.
Qed.

Lemma act_nack_wf l ie cause st :
  bsc_wf st -> allocated st l ->
  (forall ho, ho ∈ bsc_handovers st -> new_lchan ho = l -> T3103 ho = false) ->
  wp (bsc_chan_act_nack env api_clear_request l ie cause) (fun _ => bsc_wf) st.
Proof.
  intros Hwf (lc & Hl & Ht) HT. pose proof (wf_shape _ Hwf) as Hsh. pose proof (bw_graph _ Hwf) as G.
  unfold bsc_chan_act_nack. wp_steps.
  apply (sp_modify Hsh _ _ _ _ Hl Ht); [by upd_norm..|].
  match goal with |- context [put _ ?x _] => set (lc1 := x) end. intros Hs1.
  assert (lc_type lc1 <> GSM_LCHAN_NONE) as Ht1 by (unfold lc1; by upd_norm).
  pose proof (put_lookup _ lc1 _ Hl) as Hl1. clearbody lc1. set (st1 := put l lc1 st) in *.
  assert (bsc_handovers st1 = bsc_handovers st) as Hhs by apply Hs1. clearbody st1.
  wp_steps. destruct ie; cbn [negb]; [|wp_steps; by eapply shape_wf]. wp_steps.
  match goal with |- wp _ ?P _ => assert (forall st2, shape None st (next_conn st) (chan_conn st)
    (conns st) (bsc_handovers st) st2 -> P tt st2) as Hrest end.
  { intros st2 Hs2. assert (bsc_wf st2) as Hw2 by (by eapply shape_wf). wp_steps.
    assert (wp (ho_chan_activ_nack l) (fun _ st3 => bsc_wf st3 /\ is_Some (lookup_chan st3 l)) st2) as Hho.
    { destruct (bsc_ho_by_new_lchan (Some l) st2) as [i|] eqn:Ei.
      - destruct (by_new_lchan_Some _ _ _ Ei) as (ho & Hi & [= ->]).
        rewrite (sh_hos _ _ _ _ _ _ _ Hs2) in Hi.
        destruct (ho_conn st i ho Hwf Hi) as (c & cn & Hc & Hn & _ & Hcc & _).
        eapply (sp_ho_nack Hs2); [exact Hi|apply G|exact Hc|exact Hcc|exact Ei| |].
        + apply HT; [by eapply list_elem_of_lookup_2|done].
        + intros st3 He. split; [exact (ho_ended_wf _ _ _ _ _ _ _ Hwf Hi Hc Hn He)|]. apply He. by eexists.
      - unfold ho_chan_activ_nack. wp_steps. rewrite Ei. wp_steps. split; [done|]. apply Hs2. by eexists. }
    eapply wp_mono; [exact Hho|]. intros z st3 [Hw3 Hx3]. wp_steps.
    assert (wp (bsc_handle_lchan_signal l (fun c => handle_chan_nack c l))
      (fun _ st4 => bsc_wf st4 /\ is_Some (lookup_chan st4 l) /\ ~ untold_loss st4 l) st3) as Hsig.
    { apply wp_lchan_signal; [done..| |].
      - intros Hn. split_and!; [done..|]. intros (_ & c & cn & Hc & Hs).
        assert (chan_conn st3 l = Some c) by (apply (g_held (bw_graph _ Hw3) Hc); by right; right). congruence.
      - intros c cn Hcc Hc. eapply wp_mono; [by eapply handle_chan_nack_wf|].
        intros [] st4 (Hw4 & Hx4 & Hn4 & Ho4). split_and!; [done|by apply Hx4|].
        intros (_ & c' & cn' & Hc' & Hs'). destruct (decide (c' = c)) as [->|Hne]; [by apply (Hn4 cn')|].
        rewrite Ho4 in Hc' by done.
        assert (chan_conn st3 l = Some c') by (apply (g_held (bw_graph _ Hw3) Hc'); by right; right). congruence. }
    eapply wp_mono; [exact Hsig|]. intros [] st4 (Hw4 & Hx4 & Hn4). wp_steps.
    eapply wp_mono; [by apply free_lchan_wf|]. intros [] st5 Hw5. by wp_steps. }
  assert (forall ts, keeps (rsl_rf_chan_release env ts true) (fun _ _ => True) lc1) as K1.
  { intros ts. apply keeps_rf_chan_release. }
  assert (forall ts : gsm_bts_trx_ts, keeps (radio (rsl_lchan_set_state LCHAN_S_NONE)) (fun _ _ => True) lc1) as K2.
  { intros _. eapply wp_mono; [apply keeps_state|]. intros a lc' (? & ? & _). by split_and!. }
  destruct cause as [[]|]; [wp_steps|unfold set_state..].
  - apply (sp_keep Hs1 _ _ _ _ _ Hl1 Ht1 K1). intros rc lc2 _ _ _ Hs2. rewrite wp_ret. by apply Hrest.
  - apply (sp_keep Hs1 _ _ _ _ _ Hl1 Ht1 K2). intros [] lc2 _ _ _ Hs2. by apply Hrest.
  - apply (sp_keep Hs1 _ _ _ _ _ Hl1 Ht1 K2). intros [] lc2 _ _ _ Hs2. by apply Hrest.
Qed.

Lemma act_timer_wf l st :
  bsc_wf st -> allocated st l -> ~ untold_loss st l ->
  wp (bsc_act_timer api_clear_request l) (fun _ => bsc_wf) st.
Proof.
  intros Hwf (lc & Hl & Ht) Hno. pose proof (wf_shape _ Hwf) as Hsh. pose proof (bw_graph _ Hwf) as G.
  unfold bsc_act_timer. wp_steps. apply (sp_modify Hsh _ _ _ _ Hl Ht); [by upd_norm..|].
  match goal with |- context [put _ ?x _] => set (lc1 := x) end. intros Hs1.
  assert (lc_type lc1 <> GSM_LCHAN_NONE) as Ht1 by (unfold lc1; by upd_norm).
  pose proof (put_lookup _ lc1 _ Hl) as Hl1. clearbody lc1. wp_steps. unfold set_state.
  apply (sp_keep Hs1 _ _ _ _ _ Hl1 Ht1 (fun ts => keeps_state _ _)).
  intros [] lc2 _ _ _ Hs2. apply free_lchan_wf; [by eapply shape_wf|apply Hs2; by eexists|].
  unfold untold_loss. by rewrite (sh_conns _ _ _ _ _ _ _ Hs2).
Qed.

Lemma rel_ack_wf l st :
  bsc_wf st -> allocated st l -> ~ untold_loss st l ->
  wp (bsc_rf_chan_rel_ack api_clear_request l) (fun _ => bsc_wf) st.
Proof.
  intros Hwf (lc & Hl & Ht) Hno. pose proof (wf_shape _ Hwf) as Hsh. pose proof (bw_graph _ Hwf) as G.
  unfold bsc_rf_chan_rel_ack. wp_steps. apply (sp_modify Hsh _ _ _ _ Hl Ht); [by upd_norm..|].
  match goal with |- context [put _ ?x _] => set (lc1 := x) end. intros Hs1.
  assert (lc_type lc1 <> GSM_LCHAN_NONE) as Ht1 by (unfold lc1; by upd_norm).
  pose proof (put_lookup _ lc1 _ Hl) as Hl1. clearbody lc1. wp_steps.
  apply (sp_modify Hs1 _ _ _ _ Hl1 Ht1); [by upd_norm..|].
  match goal with |- context [put _ ?x (put _ lc1 _)] => set (lc2 := x) end. intros Hs2.
  assert (lc_type lc2 <> GSM_LCHAN_NONE) as Ht2 by (unfold lc2; by upd_norm).
  pose proof (put_lookup _ lc2 _ Hl1) as Hl2. clearbody lc2. wp_steps.
  rewrite (wp_get_chan _ _ _ _ Hl2). wp_steps.
  match goal with |- wp _ ?P _ => assert (forall st3, shape None st (next_conn st) (chan_conn st)
    (conns st) (bsc_handovers st) st3 -> P tt st3) as Hrest end.
  { intros st3 Hs3. wp_steps. eapply wp_mono; [apply free_lchan_wf; [by eapply shape_wf|..]|].
    - apply Hs3. by eexists.
    - unfold untold_loss. by rewrite (sh_conns _ _ _ _ _ _ _ Hs3).
    - intros [] st4 Hw4. by wp_steps. }
  case_match; [|rewrite wp_ret; by apply Hrest].
  apply (sp_modify Hs2 _ _ _ _ Hl2 Ht2); [by upd_norm..|]. intros Hs3. by apply Hrest.
Qed.

(** Radio links. *)
Lemma wf_knows_bts st l : bsc_wf st -> knows_bts (chan_conn st) (conns st) l.
Proof.
  intros Hwf c Hc. pose proof (bw_graph _ Hwf) as G.
  destruct (proj1 (g_conn _ _ _ _ _ G l c) Hc) as (cn & Hcn & Hh).
  pose proof (g_ok _ _ _ _ _ G _ _ Hcn) as Hok.
  destruct (ck_bts _ _ Hok) as (b & Hb & _); [|by exists cn, b].
  intros E. destruct (ck_primary _ _ Hok E) as [E1 E2]. destruct Hh as [?|[?|?]]; congruence.
Qed.
Lemma rll_complete_wf i ind st :
  bsc_wf st -> is_Some (bsc_rll_reqs st !! i) -> wp (complete_rllr i ind) (fun _ => bsc_wf) st.
Proof.
  intros Hwf [r Hr]. eapply (sp_complete_rllr (wf_shape _ Hwf)); [done|by apply wf_knows_bts|].
  intros st' Hs' _ _. by eapply shape_wf; [|apply Hwf].
Qed.
Lemma rll_indication_wf l link ind st :
  bsc_wf st -> wp (rll_indication l link ind) (fun _ => bsc_wf) st.
Proof.
  intros Hwf. unfold rll_indication. wp_steps. destruct (find_idx _ _) as [i|] eqn:E; [|by wp_steps].
  destruct (find_idx_Some _ _ _ E) as (r & Hr & _). apply rll_complete_wf; [done|by eexists].
Qed.

(** Another part of the program allocates a channel, or changes one without touching its type and its
    connection. *)
Lemma alloc_wf b ty st :
  bsc_wf st -> (b < length (btss st))%nat ->
  wp (on_bts b (radio (lchan_alloc ty false))) (fun _ => bsc_wf) st.
Proof.
  intros Hwf Hb. apply (sp_alloc (wf_shape _ Hwf) _ _ _ Hb).
  - intros st' Hs' _. eapply shape_wf; [exact Hs'|apply Hwf].
  - intros p lc st' Hs' _ _ _ _ _ _. eapply shape_wf; [exact Hs'|apply Hwf].
Qed.
Lemma chan_wf l f st :
  bsc_wf st -> allocated st l -> (forall lc, lc_type (f lc) = lc_type lc /\ lc_conn (f lc) = lc_conn lc) ->
  wp (on_chan l (fun _ => modify f)) (fun _ => bsc_wf) st.
Proof.
  intros Hwf (lc & Hl & Ht) Hf. apply (sp_modify (wf_shape _ Hwf) _ _ _ _ Hl Ht); [apply Hf..|].
  intros Hs1. eapply shape_wf; [exact Hs1|apply Hwf].
Qed.
(** The MSC side identifies the mobile of a connection, or takes the subscriber away. *)
Lemma subscr_wf c v st :
  bsc_wf st -> is_Some (conns st !! c) -> wp (set_conn c (fun cn => cn <| cn_subscr := v |>)) (fun _ => bsc_wf) st.
Proof.
  intros Hwf [cn Hc]. pose proof (bw_graph _ Hwf) as G.
  eapply (sp_set_conn (wf_shape _ Hwf)); [exact Hc|]. intros st1 Hs1 _ _. eapply shape_wf; [exact Hs1|].
  pose proof (g_ok _ _ _ _ _ G _ _ Hc) as [K1 K2 K3 K4 K5 K6].
  assert (forall l, holds (cn <| cn_subscr := v |>) l <-> holds cn l) as Hh by done.
  apply (graph_moved_same G Hc); [by split|done|done|..].
  - intros l Hl%Hh. right. by apply (g_held G Hc).
  - intros l. pose proof (g_held G Hc l). pose proof (Hh l). repeat case_decide; tauto.
Qed.
Lemma detect_wf l st : bsc_wf st -> wp (ho_rsl_detect l) (fun _ => bsc_wf) st.
Proof. intros Hwf. unfold ho_rsl_detect. by wp_steps. Qed.
Lemma crcx_wf l st : bsc_wf st -> wp (ho_ipac_crcx_ack l) (fun _ => bsc_wf) st.
Proof.
  intros Hwf. unfold ho_ipac_crcx_ack. wp_steps.
  destruct (bsc_ho_by_new_lchan (Some l) st) as [i|] eqn:E; [|by wp_steps].
  destruct (by_new_lchan_Some _ _ _ E) as (ho & Hi & _). wp_steps. rewrite (wp_get_ho _ _ _ _ Hi). by wp_steps.
Qed.

End bsc.

(** ** Operations *)

Inductive bsc_op : Type :=
| OpMessage (ok accept : bool) (l : lref) (link_id : Z) (m : dtap_msg)
| OpAssign (c : nat) (mode : gsm48_chan_mode) (full_rate : bool)
| OpCipher (c : nat) (cipher : Z) (key : option (list Z)) (len include_imeisv : Z)
| OpSubmit (ok : bool) (c msg : nat) (link_id : Z) (allow_sach : bool)
| OpClear (c : nat)
| OpT10 (c : nat)
| OpActAck (l : lref) (ie_chan : bool)
| OpActNack (l : lref) (ie_chan : bool) (cause : option bool)
| OpActTimer (l : lref)
| OpRelAck (l : lref)
| OpHandover (ok : bool) (old : lref) (b : nat)
| OpHoCompl (l : lref)
| OpHoFail (l : lref)
| OpHoT3103 (i : nat)
| OpHoDetect (l : lref)
| OpCrcxAck (l : lref)
| OpRll (l : lref) (link_id : Z) (ind : bsc_rllr_ind)
| OpRllTimer (i : nat)
| OpSubscr (c : nat) (known : bool)  (* the MSC side identifies the mobile *)
| OpAlloc (b : nat) (type : gsm_chan_t)  (* CHAN RQD and others allocate *)
| OpChan (l : lref) (f : gsm_lchan -> gsm_lchan).  (* releases, measurements, timers *)

(** What the environment may do: messages and timers concern allocated channels, requests of the MSC
    side concern connections that exist. Four things the code does not check are left out because they
    break the pointers: a second assignment while one is pending (gsm0808_assign_req overwrites
    conn->secondary_lchan), an assignment during a handover, a handover during an assignment or of a channel
    that is not the primary one, and CHANNEL ACTIVATION NACK for a channel that was acknowledged and to which the
    mobile was sent (ho_chan_activ_nack frees the handover while T3103 runs). *)
Definition may (st : bsc_state) (op : bsc_op) : Prop :=
  match op with
  | OpMessage _ _ l _ _ | OpActAck l _ | OpActTimer l | OpRelAck l => allocated st l
  | OpAssign c _ _ => exists cn, conns st !! c = Some cn /\ cn_ho_lchan cn = None /\ cn_secondary cn = None
  | OpCipher c _ key len _ =>
      is_Some (conns st !! c) /\ forall k, key = Some k -> 0 <= len <= Z.of_nat (length k)
  | OpSubmit _ c _ _ _ | OpClear c | OpSubscr c _ => is_Some (conns st !! c)
  | OpT10 c => exists cn, conns st !! c = Some cn /\ cn_T10 cn = true
  | OpActNack l _ _ =>
      allocated st l /\ forall ho, ho ∈ bsc_handovers st -> new_lchan ho = l -> T3103 ho = false
  | OpHandover _ old b =>
      allocated st old /\ (b < length (btss st))%nat /\
      forall c cn, chan_conn st old = Some c -> conns st !! c = Some cn ->
        cn_lchan cn = Some old /\ cn_secondary cn = None
  | OpHoT3103 i => exists ho, bsc_handovers st !! i = Some ho /\ T3103 ho = true
  | OpRllTimer i => is_Some (bsc_rll_reqs st !! i)
  | OpHoCompl _ | OpHoFail _ | OpHoDetect _ | OpCrcxAck _ | OpRll _ _ _ => True
  | OpAlloc b _ => (b < length (btss st))%nat
  | OpChan l f =>
      allocated st l /\ forall lc, lc_type (f lc) = lc_type lc /\ lc_conn (f lc) = lc_conn lc
  end.

Section crashes.
Context `{LibosmoConst} `{BscApi}.

(** What follows a null pointer. For any MSC side: ASSIGNMENT FAILURE on the channel of a connection whose
    channel is not being changed, two requests for a connection that lost its channel, and HANDOVER COMPLETE of a
    mobile that was not identified. For one without [assign_fail] also every assignment that fails: it is
    refused, T10 expires, the mobile reports it, or the new channel is lost. *)
Definition crashes (st : bsc_state) (op : bsc_op) : Prop :=
  match op with
  | OpMessage _ _ l _ (RR_ASS_FAIL _) =>
      exists lc c, lookup_chan st l = Some lc /\ lc_state lc = LCHAN_S_ACTIVE /\ lc_conn lc = Some c /\
        spurious_failure st c l
  | OpAssign c mode full => exists cn, conns st !! c = Some cn /\
      (cn_lchan cn = None \/
       has_assign_fail = false /\ exists b l lc, cn_bts cn = Some b /\ cn_lchan cn = Some l /\
         lookup_chan st l = Some lc /\ lc_type lc = GSM_LCHAN_SDCCH /\ assignment_refused st b mode full = true)
  | OpCipher c cipher key len _ =>
      ~ (0 < cipher /\ key = None) /\ len <= 16 /\ exists cn, conns st !! c = Some cn /\ cn_lchan cn = None
  | OpT10 _ => has_assign_fail = false
  | OpActTimer l | OpRelAck l => untold_loss st l
  | OpHoCompl l => unknown_mobile st l
  | _ => False
  end.

#[local] Instance spurious_failure_dec st c l : Decision (spurious_failure st c l).
Proof.
  destruct (conns st !! c) as [cn|] eqn:E; [|right; intros (cn & Hc & _); congruence].
  destruct (decide (cn_lchan cn = Some l /\ (cn_secondary cn = None \/ has_assign_fail = false))) as [Hd|Hd].
  - left. by exists cn.
  - right. intros (x & Hx & ?). by simplify_eq.
Defined.
#[local] Instance untold_loss_dec st l : Decision (untold_loss st l).
Proof.
  refine (cast_if (decide (has_assign_fail = false /\ map_Exists (fun _ cn => cn_secondary cn = Some l) (conns st))));
    by unfold untold_loss, map_Exists in *.
Defined.
#[local] Instance unknown_mobile_dec st l : Decision (unknown_mobile st l).
Proof.
  destruct (decide (Exists (fun ho => new_lchan ho = l /\
    map_Exists (fun _ cn => cn_lchan cn = Some (old_lchan ho) /\ cn_subscr cn = false) (conns st)) (bsc_handovers st)))
    as [Hd|Hd]; unfold map_Exists in Hd; rewrite Exists_exists in Hd; [left|right].
  - destruct Hd as (ho & Hin & Hn & c & cn & Hc & Hl & Hs). by exists ho, c, cn.
  - intros (ho & c & cn & Hin & Hn & Hc & Hl & Hs). apply Hd. exists ho. split; [done|]. split; [done|]. by exists c, cn.
Defined.

Lemma crashes_dec st op : crashes st op \/ ~ crashes st op.
Proof.
  assert (forall P : Prop, Decision P -> P \/ ~ P) as Hdec by (intros P [?|?]; auto).
  destruct op as [ok accept l link m|c mode full|c cipher key len im| | |c|l ie|l ie cause|l|l|ok old b|l| | | | | | | | |];
    cbn [crashes]; try (right; tauto); try (apply Hdec, _).
  - destruct m; try (right; tauto). destruct (lookup_chan st l) as [lc|] eqn:El; [|right; by intros (x & c & Hx & _)].
    destruct (lc_conn lc) as [c|] eqn:Ec; [|right; intros (x & c & [= <-] & _ & ? & _); congruence].
    destruct (decide (lc_state lc = LCHAN_S_ACTIVE /\ spurious_failure st c l)) as [[? ?]|Hd].
    + left. by exists lc, c.
    + right. intros (x & c' & [= <-] & ? & Hc' & ?). rewrite Ec in Hc'. injection Hc' as <-. tauto.
  - destruct (conns st !! c) as [cn|] eqn:E; [|right; by intros (x & Hx & _)].
    destruct (cn_lchan cn) as [l|] eqn:El; [|left; exists cn; auto].
    destruct (cn_bts cn) as [b|] eqn:Eb; [|right; intros (x & [= <-] & [?|(_ & b & l' & lc & ? & _)]); congruence].
    destruct (lookup_chan st l) as [lc|] eqn:Elc;
      [|right; intros (x & [= <-] & [?|(_ & b' & l' & lc & _ & Hl & Hlc & _)]); congruence].
    destruct (decide (has_assign_fail = false /\ lc_type lc = GSM_LCHAN_SDCCH /\ assignment_refused st b mode full = true))
      as [(? & ? & ?)|Hd].
    + left. exists cn. split; [done|]. right. split; [done|]. by exists b, l, lc.
    + right. intros (x & [= <-] & [?|(? & b' & l' & lc' & Hb & Hl & Hlc & ? & ?)]); [congruence|]. apply Hd.
      simplify_eq. naive_solver.
  - destruct (conns st !! c) as [cn|] eqn:E; [|right; by intros (_ & _ & x & Hx & _)].
    destruct (decide (~ (0 < cipher /\ key = None) /\ len <= 16 /\ cn_lchan cn = None)) as [(? & ? & ?)|Hd].
    + left. split_and!; [done..|by exists cn].
    + right. intros (? & ? & x & [= <-] & ?). tauto.
Qed.

End crashes.

Section runs.
Context `{LibosmoConst} `{BscApi} (env : rsl_env).
Context (mr_conf_590 : list Z -> list Z) (ciph_m_cmd : list Z) (api_clear_request : nat -> bool).

Abbreviation CM := (M bsc_state bsc_event).
Definition quiet {A} (m : CM A) : CM unit := _ ← m; mret tt.

Definition run_op (op : bsc_op) : CM unit :=
  match op with
  | OpMessage ok accept l link_id m => quiet (gsm0408_rcvmsg env ok accept l link_id m)
  | OpAssign c mode full => quiet (gsm0808_assign_req env mr_conf_590 api_clear_request c mode full)
  | OpCipher c cipher key len imeisv => quiet (gsm0808_cipher_mode ciph_m_cmd c cipher key len imeisv)
  | OpSubmit ok c msg link_id sach => quiet (gsm0808_submit_dtap ok c msg link_id sach)
  | OpClear c => clear_and_free c
  | OpT10 c => assignment_t10_timeout c
  | OpActAck l ie => quiet (bsc_chan_act_ack env l ie)
  | OpActNack l ie cause => quiet (bsc_chan_act_nack env api_clear_request l ie cause)
  | OpActTimer l => bsc_act_timer api_clear_request l
  | OpRelAck l => quiet (bsc_rf_chan_rel_ack api_clear_request l)
  | OpHandover ok old b => quiet (bsc_handover_start env api_clear_request ok old b)
  | OpHoCompl l => quiet (ho_gsm48_ho_compl l)
  | OpHoFail l => quiet (ho_gsm48_ho_fail l)
  | OpHoT3103 i => ho_T3103_cb i
  | OpHoDetect l => quiet (ho_rsl_detect l)
  | OpCrcxAck l => quiet (ho_ipac_crcx_ack l)
  | OpRll l link_id ind => rll_indication l link_id ind
  | OpRllTimer i => timer_cb i
  | OpSubscr c known => set_conn c (fun cn => cn <| cn_subscr := known |>)
  | OpAlloc b type => quiet (on_bts b (radio (lchan_alloc type false)))
  | OpChan l f => on_chan l (fun _ => modify f)
  end.

(** Channels but no connections. *)
Definition bsc_start (st : bsc_state) : Prop :=
  Forall bts_wf (btss st) /\ (forall l, chan_conn st l = None) /\ conns st = ∅ /\
  bsc_handovers st = [] /\ bsc_rll_reqs st = [] /\ stray_T3103 st = 0%nat.

Inductive reachable : bsc_state -> Prop :=
| reach_start st : bsc_start st -> reachable st
| reach_op st op st' ev :
    reachable st -> may st op -> run_op op st = Some (tt, st', ev) -> reachable st'.

Lemma start_wf st : bsc_start st -> bsc_wf st.
Proof.
  intros (Hb & Hc & Hcs & Hhs & Hr & Hst). split.
  - split; [done| |by rewrite Hr|done]. intros l lc c Hl Hlc _. specialize (Hc l). unfold chan_conn in Hc.
    rewrite Hl in Hc. cbn in Hc. congruence.
  - unfold graph_of. rewrite Hcs, Hhs. split.
    + intros l c. rewrite Hc. split; [done|]. intros (cn & Hcn & _). by rewrite lookup_empty in Hcn.
    + intros c cn Hcn. by rewrite lookup_empty in Hcn.
    + intros c cn Hcn. by rewrite lookup_empty in Hcn.
    + intros ho Hin. by apply not_elem_of_nil in Hin.
    + intros c cn l Hcn. by rewrite lookup_empty in Hcn.
    + apply NoDup_nil_2.
Qed.

Lemma wp_quiet {A} (m : CM A) st : wp m (fun _ => bsc_wf) st -> wp (quiet m) (fun _ => bsc_wf) st.
Proof. intros Hm. unfold quiet. wp_steps. eapply wp_mono; [exact Hm|]. intros a st' Hw. by wp_steps. Qed.

(** A well-formed state and an operation that crashes in none of the ways above. *)
Lemma run_op_wf st op :
  bsc_wf st -> may st op -> ~ crashes st op -> wp (run_op op) (fun _ => bsc_wf) st.
Proof.
  intros Hwf Hm Hno. pose proof (bw_graph _ Hwf) as G.
  destruct op; cbn [may crashes run_op] in *; try apply wp_quiet.
  - apply rcvmsg_wf; [done..|]. intros lc c cause -> Hl Ha Hc Hsp. apply Hno. by exists lc, c.
  - destruct Hm as (cn & Hc & Hh & Hs). eapply assign_req_wf; [done..| |done|done|].
    + intros Hl. apply Hno. exists cn. split; [done|by left].
    + intros b l lc Hb Hl Hlc Ht Hr. destruct has_assign_fail eqn:Ea; [done|]. destruct Hno. exists cn.
      split; [done|]. right. split; [done|]. by exists b, l, lc.
  - destruct Hm as [[cn Hc] Hk].
    assert (0 < cipher /\ key = None \/ 16 < len \/ cn_lchan cn <> None) as [[H1 ->]|[H1|H1]].
    { destruct (decide (0 < cipher /\ key = None)); [by left|].
      destruct (decide (16 < len)); [by right; left|]. right; right. intros Hl. apply Hno.
      split; [done|]. split; [lia|]. by exists cn. }
    + unfold gsm0808_cipher_mode. replace (0 <? cipher) with true by lia. rewrite bool_decide_true by done.
      by wp_steps.
    + unfold gsm0808_cipher_mode. replace (16 <? len) with true by lia. case_match; by wp_steps.
    + by eapply cipher_wf.
  - by apply submit_wf.
  - by apply clear_and_free_wf.
  - destruct Hm as (cn & Hc & HT). eapply T10_wf; [done..|]. by destruct has_assign_fail.
  - by apply act_ack_wf.
  - destruct Hm as [Ha HT]. by apply act_nack_wf.
  - by apply act_timer_wf.
  - by apply rel_ack_wf.
  - destruct Hm as (Ha & Hb & Hc). by apply handover_start_wf.
  - by apply ho_compl_wf.
  - by apply ho_fail_wf.
  - destruct Hm as (ho & Hi & _). apply ho_timeout_wf; [done|by exists ho].
  - by apply detect_wf.
  - by apply crcx_wf.
  - by apply rll_indication_wf.
  - by apply rll_complete_wf.
  - by apply subscr_wf.
  - by apply alloc_wf.
  - destruct Hm as [Ha Hf]. by apply chan_wf.
Qed.

(** The loss of the new channel is reported to nobody. *)
Lemma free_lchan_untold st l :
  bsc_wf st -> is_Some (lookup_chan st l) -> untold_loss st l -> free_lchan api_clear_request l st = None.
Proof.
  intros Hwf Hl (Ha & c & cn & Hc & Hs). pose proof (wf_shape _ Hwf) as Hsh. pose proof (bw_graph _ Hwf) as G.
  assert (chan_conn st l = Some c) as Hcc by (apply (g_held G Hc); by right; right).
  unfold free_lchan. apply bind_none. apply (sp_free_begin Hsh _ _ Hl). intros t st1 Hs1.
  destruct (exists_lookup Hs1 _ Hl) as [lc Hlc]. apply bind_none. rewrite (wp_get_chan _ _ _ _ Hlc).
  rewrite (cc_lookup Hs1 _ _ Hlc), Hcc. rewrite run_assoc. apply bind_none. rewrite wp_emit.
  apply bind_none_absorb. unfold handle_release. apply bind_none. rewrite (sp_get_conn Hs1 _ _ _ Hc).
  unfold lref_eqb. rewrite bool_decide_true by done. apply bind_none_absorb. apply bind_none_always. intros _ st2.
  apply bind_none_always. intros _ st3. unfold api_call_unchecked. by rewrite Ha.
Qed.

Lemma act_timer_untold st l :
  bsc_wf st -> allocated st l -> untold_loss st l -> bsc_act_timer api_clear_request l st = None.
Proof.
  intros Hwf (lc & Hl & Ht) Hno. pose proof (wf_shape _ Hwf) as Hsh. pose proof (bw_graph _ Hwf) as G.
  unfold bsc_act_timer. apply bind_none. apply (sp_modify Hsh _ _ _ _ Hl Ht); [by upd_norm..|].
  match goal with |- context [put _ ?x _] => set (lc1 := x) end. intros Hs1.
  assert (lc_type lc1 <> GSM_LCHAN_NONE) as Ht1 by (unfold lc1; by upd_norm).
  pose proof (put_lookup _ lc1 _ Hl) as Hl1. clearbody lc1. apply bind_none. unfold set_state.
  apply (sp_keep Hs1 _ _ _ _ _ Hl1 Ht1 (fun ts => keeps_state _ _)).
  intros [] lc2 _ _ _ Hs2. apply free_lchan_untold; [by eapply shape_wf|apply Hs2; by eexists|].
  unfold untold_loss. by rewrite (sh_conns _ _ _ _ _ _ _ Hs2).
Qed.

Lemma rel_ack_untold st l :
  bsc_wf st -> allocated st l -> untold_loss st l -> bsc_rf_chan_rel_ack api_clear_request l st = None.
Proof.
  intros Hwf (lc & Hl & Ht) Hno. pose proof (wf_shape _ Hwf) as Hsh. pose proof (bw_graph _ Hwf) as G.
  unfold bsc_rf_chan_rel_ack. apply bind_none. apply (sp_modify Hsh _ _ _ _ Hl Ht); [by upd_norm..|].
  match goal with |- context [put _ ?x _] => set (lc1 := x) end. intros Hs1.
  assert (lc_type lc1 <> GSM_LCHAN_NONE) as Ht1 by (unfold lc1; by upd_norm).
  pose proof (put_lookup _ lc1 _ Hl) as Hl1. clearbody lc1. apply bind_none.
  apply (sp_modify Hs1 _ _ _ _ Hl1 Ht1); [by upd_norm..|].
  match goal with |- context [put _ ?x (put _ lc1 _)] => set (lc2 := x) end. intros Hs2.
  assert (lc_type lc2 <> GSM_LCHAN_NONE) as Ht2 by (unfold lc2; by upd_norm).
  pose proof (put_lookup _ lc2 _ Hl1) as Hl2. clearbody lc2. apply bind_none.
  rewrite (wp_get_chan _ _ _ _ Hl2). apply bind_none.
  assert (forall st3, shape None st (next_conn st) (chan_conn st) (conns st) (bsc_handovers st) st3 ->
    free_lchan api_clear_request l st3 = None) as Hfree.
  { intros st3 Hs3. apply free_lchan_untold; [by eapply shape_wf|apply Hs3; by eexists|].
    unfold untold_loss. by rewrite (sh_conns _ _ _ _ _ _ _ Hs3). }
  case_match; [|rewrite wp_ret; by apply bind_none_absorb, Hfree].
  apply (sp_modify Hs2 _ _ _ _ Hl2 Ht2); [by upd_norm..|]. intros Hs3. by apply bind_none_absorb, Hfree.
Qed.

Lemma T10_untold st c : has_assign_fail = false -> assignment_t10_timeout c st = None.
Proof.
  intros Ha. unfold assignment_t10_timeout. do 5 (apply bind_none_always; intros ? ?).
  unfold api_call_unchecked. by rewrite Ha.
Qed.

(** [conn_bts] reads. *)
Lemma conn_bts_then {A} c (k : nat -> M bsc_state bsc_event A) st :
  (forall b, k b st = None) -> (conn_bts c ≫= k) st = None.
Proof.
  intros Hk. unfold conn_bts, mbind, M_bind, get_conn. destruct (conns st !! c) as [cn|]; [|done].
  destruct (cn_bts cn) as [b|]; [|done]. cbn. by rewrite Hk.
Qed.

Lemma ass_fail_fault st c l cause : spurious_failure st c l -> handle_ass_fail c l cause st = None.
Proof.
  intros (cn & Hc & Hl & Hs). unfold handle_ass_fail. apply conn_bts_then. intros b.
  apply bind_none. rewrite (wp_get_conn _ _ _ _ Hc). unfold lref_eqb. rewrite bool_decide_true by done. cbn [negb].
  apply bind_none_always. intros _ st1.
  destruct Hs as [Hs|Ha]; [by rewrite Hs|].
  do 2 (apply bind_none_always; intros ? ?). unfold api_call_unchecked. by rewrite Ha.
Qed.

(** No channel for the assignment, or none that can be activated: its failure is reported to nobody. *)
Lemma assign_untold st c mode full cn b l lc :
  bsc_wf st -> conns st !! c = Some cn -> cn_bts cn = Some b -> cn_lchan cn = Some l ->
  lookup_chan st l = Some lc -> lc_type lc = GSM_LCHAN_SDCCH -> has_assign_fail = false ->
  assignment_refused st b mode full = true ->
  gsm0808_assign_req env mr_conf_590 api_clear_request c mode full st = None.
Proof.
  intros Hwf Hc Hb Hl Hlc Ht Ha Hr. pose proof (wf_shape _ Hwf) as Hsh. pose proof (bw_graph _ Hwf) as G.
  destruct (ck_bts _ _ (g_ok _ _ _ _ _ G _ _ Hc)) as (b' & Hb' & Hlt); [congruence|].
  assert (b' = b) as -> by congruence.
  unfold gsm0808_assign_req. apply conn_bts_then. intros b1. apply bind_none.
  rewrite (wp_get_conn _ _ _ _ Hc), Hl. cbn [deref]. apply bind_none. rewrite (wp_get_chan _ _ _ _ Hlc).
  rewrite bool_decide_true by done. apply bind_none.
  eapply (sp_new_assignment env mr_conf_590 api_clear_request Hsh); [done..|by eexists| |].
  - intros st1 _ _. change (negb (-1 =? 0)) with true. cbv iota. apply bind_none_absorb.
    unfold api_call_unchecked. by rewrite Ha.
  - intros. congruence.
Qed.

(** A log message reads the name of a subscriber that is not there. *)
Lemma ho_compl_unknown st l : bsc_wf st -> unknown_mobile st l -> ho_gsm48_ho_compl l st = None.
Proof.
  intros Hwf (ho & c & cn & Hin & <- & Hc & Hl & Hs).
  destruct (by_new_lchan _ _ ho Hin eq_refl) as (i & ho' & Hi & Hho & Hn).
  assert (ho' = ho) as ->.
  { destruct (list_elem_of_lookup_1 _ _ Hin) as [j Hj]. pose proof (g_nodup _ _ _ _ _ (bw_graph _ Hwf)) as Hnd.
    assert (i = j) as ->; [|congruence]. apply (NoDup_lookup _ _ _ (new_lchan ho) Hnd); rewrite list_lookup_fmap.
    - by rewrite Hho; cbn; rewrite Hn.
    - by rewrite Hj. }
  unfold ho_gsm48_ho_compl. apply bind_none. rewrite wp_gets, Hi. apply bind_none. rewrite (wp_get_ho _ _ _ _ Hho).
  destruct (ho_conn st i ho Hwf Hho) as (c' & cn' & Hc' & Hn' & Ho' & Hcn & Hco).
  assert (chan_conn st (old_lchan ho) = Some c) as Hco' by (apply (g_held (bw_graph _ Hwf) Hc); by left).
  destruct (used_lookup (wf_shape _ Hwf) _ _ Hco') as (olc & Holc & Hoc & _); [done|].
  destruct (used_lookup (wf_shape _ Hwf) _ _ Hcn) as (nlc & Hnlc & Hnc & _); [done|].
  apply bind_none. rewrite (wp_get_chan _ _ _ _ Holc). apply bind_none. rewrite (wp_get_chan _ _ _ _ Hnlc), Hoc, Hnc.
  apply bind_none_absorb. unfold subscr_name. apply bind_none. rewrite (wp_get_conn _ _ _ _ Hc), Hs. done.
Qed.

Lemma crashes_fault st op : bsc_wf st -> may st op -> crashes st op -> run_op op st = None.
Proof.
  intros Hwf Hm Hcr. destruct op; try done; cbn [may crashes run_op] in *; unfold quiet.
  - apply bind_none_absorb. destruct m; try done. destruct Hcr as (lc & c & Hl & Ha & Hc & Hsp).
    unfold gsm0408_rcvmsg. apply bind_none. rewrite (wp_get_chan _ _ _ _ Hl), bool_decide_true by done. cbn [negb].
    rewrite Hc. apply bind_none_absorb. cbn [dispatch_dtap]. by apply bind_none_absorb, ass_fail_fault.
  - apply bind_none_absorb. destruct Hcr as (cn & Hc & [Hl|(Ha & b & l & lc & Hb & Hl & Hlc & Ht & Hr)]); [|by eapply assign_untold].
    unfold gsm0808_assign_req. apply conn_bts_then. intros b. apply bind_none.
    by rewrite (wp_get_conn _ _ _ _ Hc), Hl.
  - apply bind_none_absorb. destruct Hcr as (Hk & Hlen & cn & Hc & Hl). unfold gsm0808_cipher_mode.
    assert ((0 <? cipher) && bool_decide (key = None) = false) as ->.
    { apply andb_false_iff. destruct (decide (key = None));
        [left; destruct (decide (0 < cipher)); [tauto|lia]|right; by apply bool_decide_false]. }
    replace (16 <? len) with false by lia. apply bind_none. by rewrite (wp_get_conn _ _ _ _ Hc), Hl.
  - by apply T10_untold.
  - by apply act_timer_untold.
  - by apply bind_none_absorb, rel_ack_untold.
  - by apply bind_none_absorb, ho_compl_unknown.
Qed.

Lemma reachable_bsc_wf st : reachable st -> bsc_wf st.
Proof.
  induction 1 as [st Hst|st op st' ev _ IH Hm Hrun]; [by apply start_wf|].
  assert (~ crashes st op) as Hno.
  { intros Hcr. rewrite (crashes_fault st op IH Hm Hcr) in Hrun. done. }
  pose proof (run_op_wf st op IH Hm Hno) as Hwp. by rewrite (wp_run _ _ _ _ _ _ Hrun) in Hwp.
Qed.

End runs.
End BscRuns.
