(* ===== verification/BscOutcome.v ===== *)
(** Where a connection is after an assignment or a handover, what becomes of the requests for radio
    links, and the theorems on connections at a concrete cell. *)

From S2P Require Import Prelude Chreq Radio ChanAlloc AllocProps RadioProps Rsl RslProps RslRuns Bsc BscProps BscParts BscOps BscGraph BscInv BscRuns.

Module BscOutcome.
Import AllocProps RadioProps RslProps RslRuns Bsc BscProps BscParts BscOps BscGraph BscInv BscRuns.

Section bsc.
Context `{LibosmoConst} `{BscApi} (env : rsl_env).
Context (mr_conf_590 : list Z -> list Z) (ciph_m_cmd : list Z) (api_clear_request : nat -> bool).

Abbreviation reachable := (reachable env mr_conf_590 ciph_m_cmd api_clear_request).
Abbreviation run_op := (run_op env mr_conf_590 ciph_m_cmd api_clear_request).

(** Connection [c] uses channel [l] and no other; nothing is pending. *)
Definition on_channel (st : bsc_state) (c : nat) (l : lref) : Prop :=
  chan_conn st l = Some c /\
  exists cn, conns st !! c = Some cn /\ cn_lchan cn = Some l /\ cn_ho_lchan cn = None /\ cn_secondary cn = None.

(** Channel [l] is being released and belongs to no connection. *)
Definition releasing (st : bsc_state) (l : lref) : Prop :=
  exists lc, lookup_chan st l = Some lc /\ lc_conn lc = None /\ lc_state lc = LCHAN_S_REL_REQ.

(** The connection ends up on [keep], [drop] is released, the other connections are untouched. *)
Definition settles (c : nat) (keep drop : lref) (st st' : bsc_state) : Prop :=
  on_channel st' c keep /\ releasing st' drop /\ forall c', c' <> c -> conns st' !! c' = conns st !! c'.

Definition settling (c : nat) (keep drop : lref) (op : bsc_op) (st : bsc_state) : Prop :=
  exists st' ev, run_op op st = Some (tt, st', ev) /\ settles c keep drop st st'.

Lemma settling_wp c keep drop op st :
  wp (run_op op) (fun _ => settles c keep drop st) st -> settling c keep drop op st.
Proof. intros ([] & st' & ev & Hr & Hs)%wp_elim. by exists st', ev. Qed.

(** From a shape whose connection [c] has one channel. *)
Lemma shape_settles {st cc cn' hs st'} c keep drop lc :
  shape None st (next_conn st) (relink drop None cc) (<[c := cn']> (conns st)) hs st' ->
  cn_lchan cn' = Some keep -> cn_ho_lchan cn' = None -> cn_secondary cn' = None ->
  cc keep = Some c -> keep <> drop -> lookup_chan st' drop = Some lc -> lc_state lc = LCHAN_S_REL_REQ ->
  settles c keep drop st st'.
Proof.
  intros Hs Hl Hho Hsec Hcc Hne Hd Hrel. split; [split|split].
  - rewrite (sh_cc _ _ _ _ _ _ _ Hs). unfold relink. by rewrite decide_False.
  - exists cn'. rewrite (sh_conns _ _ _ _ _ _ _ Hs). by rewrite lookup_insert_eq.
  - exists lc. split; [done|]. split; [|done]. rewrite (cc_lookup Hs _ _ Hd). unfold relink.
    by rewrite decide_True.
  - intros c' Hc'. by rewrite (sh_conns _ _ _ _ _ _ _ Hs), lookup_insert_ne.
Qed.

(** A message of the mobile on a channel that is active and in use reaches its handler. *)
Lemma wp_message ok accept l link m st lc c (Q : bsc_state -> Prop) :
  lookup_chan st l = Some lc -> lc_state lc = LCHAN_S_ACTIVE -> lc_conn lc = Some c ->
  wp (dispatch_dtap env c l link m) (fun _ => Q) st ->
  wp (run_op (OpMessage ok accept l link m)) (fun _ => Q) st.
Proof.
  intros Hl Ha Hc Hd. cbn [BscRuns.run_op]. unfold quiet. wp_steps. unfold gsm0408_rcvmsg. wp_steps.
  rewrite (wp_get_chan _ _ _ _ Hl), bool_decide_true by done. cbn [negb]. rewrite Hc. wp_steps.
  eapply wp_mono; [exact Hd|]. intros [] st' HQ. by wp_steps.
Qed.

Definition active (st : bsc_state) (l : lref) : Prop :=
  exists lc, lookup_chan st l = Some lc /\ lc_state lc = LCHAN_S_ACTIVE.

Lemma used_active st l c : active st l -> chan_conn st l = Some c ->
  exists lc, lookup_chan st l = Some lc /\ lc_state lc = LCHAN_S_ACTIVE /\ lc_conn lc = Some c.
Proof.
  intros (lc & Hl & Ha). unfold chan_conn. rewrite Hl. intros Hc. by exists lc.
Qed.

(** an assignment always settles. While the new channel [new] of connection [c] is pending, the
    ASSIGNMENT COMPLETE of the mobile on [new] moves the connection there and releases the old
    channel; for an MSC side that can be told of a failure, ASSIGNMENT FAILURE on the old channel, and the expiry of T10,
    leave it where it was and release [new]. In each case nothing stays pending and no other connection is touched. *)
Theorem assignment_settles st c cn old new :
  reachable st -> conns st !! c = Some cn -> cn_lchan cn = Some old -> cn_secondary cn = Some new ->
  (forall ok accept link cause, active st new ->
     settling c new old (OpMessage ok accept new link (RR_ASS_COMPL (Some cause))) st) /\
  (has_assign_fail = true -> forall ok accept link cause, active st old ->
     settling c old new (OpMessage ok accept old link (RR_ASS_FAIL cause)) st) /\
  (has_assign_fail = true -> settling c old new (OpT10 c) st).
Proof.
  intros Hr Hc Ho Hn. pose proof (reachable_bsc_wf _ _ _ _ _ Hr) as Hwf.
  pose proof (wf_shape _ Hwf) as Hsh. pose proof (bw_graph _ Hwf) as G.
  pose proof (g_ok _ _ _ _ _ G _ _ Hc) as Hok.
  assert (chan_conn st old = Some c) as Hco by (apply (g_held G Hc); by left).
  assert (chan_conn st new = Some c) as Hcn by (apply (g_held G Hc); by right; right).
  assert (cn_ho_lchan cn = None) as Hho by (apply (ck_either _ _ Hok); by rewrite Hn).
  assert (old <> new) as Hne by (intros ->; by apply (ck_distinct1 _ _ Hok) in Ho as [_ ?]).
  destruct (ck_bts _ _ Hok) as (b & Hb & Hlt); [congruence|].
  split; [|split].
  - intros ok accept link cause Ha. apply settling_wp.
    destruct (used_active _ _ _ Ha Hcn) as (lc & Hl & Hact & Hlc).
    eapply wp_message; [done..|]. cbn [dispatch_dtap]. wp_steps.
    eapply (sp_ass_compl Hsh c cn new old b); [done..|]. intros olc st' Hs' Hol Hrel. wp_steps.
    by eapply (shape_settles c new old olc Hs').
  - intros Hapi ok accept link cause Ha. apply settling_wp.
    destruct (used_active _ _ _ Ha Hco) as (lc & Hl & Hact & Hlc).
    eapply wp_message; [done..|]. cbn [dispatch_dtap]. wp_steps.
    eapply (sp_ass_fail Hsh); [done..|]. intros nlc st' Hs' Hnl Hrel. wp_steps.
    by eapply (shape_settles c old new nlc Hs').
  - intros Hapi. apply settling_wp. cbn [BscRuns.run_op]. eapply (sp_T10_pending Hsh); [done..|].
    intros nlc st' Hs' Hnl Hrel. by eapply (shape_settles c old new nlc Hs').
Qed.

(** ** Handover *)

Lemma ho_places st i ho :
  bsc_wf st -> bsc_handovers st !! i = Some ho ->
  bsc_ho_by_new_lchan (Some (new_lchan ho)) st = Some i /\
  bsc_ho_by_old_lchan (Some (old_lchan ho)) st = Some i.
Proof.
  intros Hwf Hi. pose proof (bw_graph _ Hwf) as G. pose proof (g_nodup _ _ _ _ _ G) as Hnd.
  assert (forall j x, bsc_handovers st !! j = Some x -> new_lchan x = new_lchan ho -> j = i) as Huniq.
  { intros j x Hj Hn. apply (NoDup_lookup _ _ _ (new_lchan ho) Hnd); rewrite list_lookup_fmap.
    - by rewrite Hj; cbn; rewrite Hn.
    - by rewrite Hi. }
  split.
  - destruct (by_new_of_shape (wf_shape _ Hwf) ho) as (j & Hj & Hl); [by eapply list_elem_of_lookup_2|done|].
    rewrite Hj. f_equal. by eapply Huniq.
  - destruct (bsc_ho_by_old_lchan (Some (old_lchan ho)) st) as [j|] eqn:Ej.
    + destruct (by_old_lchan_Some _ _ _ Ej) as (x & Hj & [= Hx]). f_equal. apply (Huniq j x Hj).
      destruct (ho_conn st i ho Hwf Hi) as (c & cn & Hc & Hn & Ho & _ & Hco).
      destruct (ho_conn st j x Hwf Hj) as (c' & cn' & Hc' & Hn' & Ho' & _ & Hco'). congruence.
    + apply (find_idx_None _ _ ho) in Ej; [|by eapply list_elem_of_lookup_2]. unfold lref_eqb in Ej.
      by apply bool_decide_eq_false in Ej.
Qed.

(** The connection settles and the handover to [new] is over. *)
Definition ho_settling (c : nat) (keep drop new : lref) (op : bsc_op) (st : bsc_state) : Prop :=
  exists st' ev, run_op op st = Some (tt, st', ev) /\ settles c keep drop st st' /\
    bsc_ho_by_new_lchan (Some new) st' = None.

Lemma ho_settling_wp c keep drop new op st :
  wp (run_op op) (fun _ st' => settles c keep drop st st' /\ bsc_ho_by_new_lchan (Some new) st' = None) st ->
  ho_settling c keep drop new op st.
Proof. intros ([] & st' & ev & Hr & Hs)%wp_elim. by exists st', ev. Qed.

Lemma no_record {ex st0 nx cc cs hs st} new :
  shape ex st0 nx cc cs (hos_without (Some new) hs) st -> bsc_ho_by_new_lchan (Some new) st = None.
Proof.
  intros Hsh. destruct (bsc_ho_by_new_lchan (Some new) st) as [i|] eqn:E; [|done].
  destruct (by_new_lchan_Some _ _ _ E) as (ho & Hi & [= ->]). exfalso.
  rewrite (sh_hos _ _ _ _ _ _ _ Hsh) in Hi. apply list_elem_of_lookup_2, hos_without_elem in Hi as [_ ?].
  done.
Qed.

(** C34: how a pending handover ends. While the handover at place [i] is pending, HANDOVER COMPLETE on
    the new channel moves the connection there and releases the old channel, if the mobile was identified; if not, as
    for every mobile of osmo-bsc, which never sets conn->subscr, the program follows a null pointer instead, since its log message
    names the subscriber (handover_logic.c:260). HANDOVER FAILURE on the
    old channel, and the expiry of T3103, leave the connection where it was and release the new
    channel. Where the program goes on, the handover is forgotten and no other connection is touched. (The loss of a channel and the
    end of the connection, which also end a handover, are not part of this.) *)
Theorem handover_settles st i ho :
  reachable st -> bsc_handovers st !! i = Some ho ->
  exists c cn, conns st !! c = Some cn /\
    chan_conn st (old_lchan ho) = Some c /\ chan_conn st (new_lchan ho) = Some c /\
    (if cn_subscr cn
     then ho_settling c (new_lchan ho) (old_lchan ho) (new_lchan ho) (OpHoCompl (new_lchan ho)) st
     else run_op (OpHoCompl (new_lchan ho)) st = None) /\
    ho_settling c (old_lchan ho) (new_lchan ho) (new_lchan ho) (OpHoFail (old_lchan ho)) st /\
    ho_settling c (old_lchan ho) (new_lchan ho) (new_lchan ho) (OpHoT3103 i) st.
Proof.
  intros Hr Hi. pose proof (reachable_bsc_wf _ _ _ _ _ Hr) as Hwf.
  pose proof (wf_shape _ Hwf) as Hsh. pose proof (bw_graph _ Hwf) as G. pose proof (g_nodup _ _ _ _ _ G) as Hnd.
  destruct (ho_conn st i ho Hwf Hi) as (c & cn & Hc & Hn & Ho & Hcn & Hco).
  destruct (ho_places st i ho Hwf Hi) as [Hnew Hold].
  pose proof (g_ok _ _ _ _ _ G _ _ Hc) as Hok.
  assert (cn_secondary cn = None) as Hsec.
  { destruct (cn_secondary cn) eqn:E; [|done]. rewrite (ck_either _ _ Hok) in Hn by (by rewrite E). done. }
  assert (old_lchan ho <> new_lchan ho) as Hne.
  { intros E. destruct (ck_distinct1 _ _ Hok _ Ho) as [N _]. apply N. congruence. }
  assert (forall rel st', rel = true -> ho_ended (st0 := st) (nx := next_conn st) (cc := chan_conn st)
    (cs := conns st) (hs := bsc_handovers st) ho c cn rel st' ->
    settles c (old_lchan ho) (new_lchan ho) st st' /\
    bsc_ho_by_new_lchan (Some (new_lchan ho)) st' = None) as Hend.
  { intros rel st' -> [Hs' (lc & Hl & Hrel)]; [done|]. split; [|by eapply no_record].
    by apply (shape_settles c _ _ lc Hs'). }
  exists c, cn. do 3 (split; [done|]). split_and!.
  - destruct (cn_subscr cn) eqn:Esub.
    + apply ho_settling_wp. cbn [BscRuns.run_op]. unfold quiet. wp_steps.
      eapply (sp_ho_compl Hsh); [done..|]. intros st' lc Hs' Hl Hrel. wp_steps.
      split; [|by eapply no_record]. by apply (shape_settles c _ _ lc Hs').
    + apply crashes_fault; [done..|]. exists ho, c, cn. split_and!; try done. by eapply list_elem_of_lookup_2.
  - apply ho_settling_wp. cbn [BscRuns.run_op]. unfold quiet. wp_steps. eapply (sp_ho_fail Hsh); [done..|]. intros st' He. wp_steps.
    by eapply Hend.
  - apply ho_settling_wp. cbn [BscRuns.run_op]. eapply (sp_ho_timeout Hsh); [done..|]. intros st' He. by eapply Hend.
Qed.

(** C33: the pointers between connections, channels, handovers and link requests are consistent in
    every state reached by the operations the environment may do ([may]): a channel belongs to a connection exactly when the connection names it as
    its primary, its handover or its assignment channel, and these differ; a pending handover is the
    one of its connection, from its primary to its handover channel, and there is at most one; a
    channel in use stays allocated, so it is not handed out again; a request for a radio link names a
    channel that exists; and no timer of a freed handover runs. [may] leaves out what the code does not check and what
    breaks the pointers: a second assignment request while an assignment or a handover is pending (bsc_api.c:326; [second_assignment]), the
    start of a handover while an assignment is pending or from a channel that is not the primary one, and CHANNEL ACTIVATION NACK for a handover channel
    after its ACK (handover_logic.c:236; [nack_after_ack]). *)
Theorem bsc_pointers_consistent st : reachable st -> bsc_wf st.
Proof. apply reachable_bsc_wf. Qed.

(** C39: what follows a null pointer. In every state reached by the operations of [may] such an operation
    fails exactly when it is an ASSIGNMENT FAILURE on the channel of a connection that has no
    assignment pending, an assignment or ciphering request for a connection that lost its
    channel, HANDOVER COMPLETE of a mobile that was not identified, or, when the MSC side has no [assign_fail] (as the table of
    osmo_msc.c), an assignment that is refused, that times out, that the mobile reports as failed or whose new channel is lost; all other
    messages, timers and requests run to their end. *)
Theorem bsc_null_pointer_iff st op :
  reachable st -> may st op -> run_op op st = None <-> crashes st op.
Proof.
  intros Hr Hm. split; [|by apply crashes_fault; [eapply reachable_bsc_wf|]]. intros Hrun.
  pose proof (reachable_bsc_wf _ _ _ _ _ Hr) as Hwf.
  assert (~ ~ crashes st op) as Hnn.
  { intros Hno. pose proof (run_op_wf env mr_conf_590 ciph_m_cmd api_clear_request st op Hwf Hm Hno) as Hw.
    unfold wp in Hw. by rewrite Hrun in Hw. }
  destruct (crashes_dec st op) as [?|?]; [done|]. by destruct Hnn.
Qed.

(** ** Radio links *)

(** What the end of request [r] sends: the message that waited, or its rejection; nothing when the
    channel has no connection any more. *)
Definition callback (st : bsc_state) (r : bsc_rll_req) (ind : bsc_rllr_ind) : list bsc_event :=
  match chan_conn st (rr_lchan r) with
  | None => []
  | Some c =>
      match ind with
      | BSC_RLLR_IND_EST_CONF => [EvDataReq (rr_lchan r) (rr_msg_link r) (rr_msg r)]
      | _ => (if has_sapi_n_reject then [ApiSapiReject c (rr_msg_link r)] else []) ++ [EvMsgFree (rr_msg r)]
      end
  end.

Definition with_reqs (rs : list bsc_rll_req) (st : bsc_state) : bsc_state :=
  st <| bsc_rll_reqs ::= fun _ => rs |>.

Definition rll_ok (st : bsc_state) : Prop :=
  Forall (fun r => is_Some (lookup_chan st (rr_lchan r))) (bsc_rll_reqs st) /\
  forall l, knows_bts (chan_conn st) (conns st) l.

Lemma complete_spec st i r ind :
  rll_ok st -> bsc_rll_reqs st !! i = Some r ->
  complete_rllr i ind st = Some (tt, with_reqs (delete i (bsc_rll_reqs st)) st, callback st r ind).
Proof.
  intros [Hok Hb] Hi. destruct (Forall_lookup_1 _ _ _ _ Hok Hi) as [lc Hl].
  unfold complete_rllr. run_steps. rewrite Hi. run_steps. unfold rll_ind_cb, callback.
  set (st' := with_reqs (delete i (bsc_rll_reqs st)) st).
  assert (get_chan (rr_lchan r) st' = Some (lc, st', [])) as Hg.
  { unfold st', get_chan, lookup_chan, with_reqs in *. upd_norm. cbn [btss]. by rewrite Hl. }
  assert (chan_conn st (rr_lchan r) = lc_conn lc) as Hcc by (unfold chan_conn; by rewrite Hl).
  change (st <| bsc_rll_reqs ::= delete i |>) with st'. rewrite Hcc.
  erewrite run_bind by exact Hg. destruct (lc_conn lc) as [c|]; [|done].
  destruct (Hb (rr_lchan r) c Hcc) as (cn & b & Hc & Hcb).
  assert (conn_bts c st' = Some (b, st', [])) as Hbts.
  { unfold conn_bts, mbind, M_bind, get_conn, st', with_reqs. upd_norm. cbn [conns]. by rewrite Hc, Hcb. }
  destruct ind; [done|..]; unfold send_sapi_reject, api_call; run_steps; unfold mbind, M_bind; rewrite Hbts;
    by destruct has_sapi_n_reject.
Qed.

Lemma callback_with_reqs rs st r ind : callback (with_reqs rs st) r ind = callback st r ind.
Proof. done. Qed.

Lemma freed_loop_spec l rest pre k st :
  rll_ok st -> bsc_rll_reqs st = pre ++ rest -> (length rest <= k)%nat ->
  rll_freed_loop l k (length pre) st =
  Some (tt, with_reqs (pre ++ filter (fun r => rr_lchan r <> l) rest) st,
        concat ((fun r => callback st r BSC_RLLR_IND_ERR_IND) <$> filter (fun r => rr_lchan r = l) rest)).
Proof.
  revert pre k st. induction rest as [|r rest IH]; intros pre k st Hok Hr Hk.
  - assert (with_reqs (pre ++ []) st = st) as Hst.
    { unfold with_reqs. destruct st. cbn in Hr. upd_norm. by rewrite Hr. }
    rewrite !filter_nil, Hst. destruct k as [|k]; [done|]. cbn [rll_freed_loop]. run_steps.
    rewrite Hr, app_nil_r. by rewrite (proj2 (lookup_ge_None _ _)).
  - destruct k as [|k]; [cbn in Hk; lia|]. cbn in Hk. cbn [rll_freed_loop]. run_steps.
    assert (bsc_rll_reqs st !! length pre = Some r) as Hi by (rewrite Hr; by apply list_lookup_middle).
    rewrite Hi, !filter_cons. case_bool_decide as E.
    + rewrite decide_False, decide_True by tauto. erewrite run_bind by (by apply complete_spec).
      assert (delete (length pre) (bsc_rll_reqs st) = pre ++ rest) as Hd.
      { rewrite Hr. by apply delete_middle. }
      rewrite Hd, (IH pre k (with_reqs (pre ++ rest) st)); [done| |done|lia].
      destruct Hok as [Hok Hb]. split; [|exact Hb]. cbn. rewrite Hr in Hok.
      apply Forall_app in Hok as [H1 H2]. apply Forall_cons in H2 as [_ H2]. by apply Forall_app.
    + rewrite decide_True, decide_False by tauto.
      assert (length (pre ++ [r]) = S (length pre)) as <- by (rewrite length_app; cbn; lia).
      rewrite IH; [by rewrite <- app_assoc|done|by rewrite <- app_assoc|lia].
Qed.

Lemma reachable_rll_ok st : reachable st -> rll_ok st.
Proof. intros Hr%reachable_bsc_wf. split; [apply Hr|]. intros l. by apply wf_knows_bts. Qed.

(** every request for a radio link ends once. An indication of the BTS ends the newest request of
    its channel and link and no other, the expiry of the timer ends that request, and when a channel
    is freed all its requests end, in the order of the list, and those of other channels stay. The
    end of a request sends the message that waited or rejects it, unless the channel has lost its
    connection: then nothing at all is sent. *)
Theorem rll_requests_end st l link_id ind :
  reachable st ->
  rll_indication l link_id ind st =
    match find_idx (rllr_is l link_id) (bsc_rll_reqs st) with
    | None => Some (tt, st, [])
    | Some i => Some (tt, with_reqs (delete i (bsc_rll_reqs st)) st,
                      from_option (fun r => callback st r ind) [] (bsc_rll_reqs st !! i))
    end /\
  (forall i r, bsc_rll_reqs st !! i = Some r ->
    timer_cb i st = Some (tt, with_reqs (delete i (bsc_rll_reqs st)) st, callback st r BSC_RLLR_IND_TIMEOUT)) /\
  rll_lchan_signal l st =
    Some (tt, with_reqs (filter (fun r => rr_lchan r <> l) (bsc_rll_reqs st)) st,
          concat ((fun r => callback st r BSC_RLLR_IND_ERR_IND) <$>
            filter (fun r => rr_lchan r = l) (bsc_rll_reqs st))).
Proof.
  intros Hr. pose proof (reachable_rll_ok st Hr) as Hok. split; [|split].
  - unfold rll_indication. run_steps. destruct (find_idx _ _) as [i|] eqn:E; [|done].
    destruct (find_idx_Some _ _ _ E) as (r & Hi & _). rewrite (complete_spec st i r) by done. by rewrite Hi.
  - intros i r Hi. by apply complete_spec.
  - unfold rll_lchan_signal. run_steps. by apply (freed_loop_spec l _ []).
Qed.

End bsc.

(** ** At a concrete cell *)

#[local] Existing Instance test_const.
#[local] Existing Instance bsc_handler.

Abbreviation run := (run_op test_env id [0x06; 0x35] (fun _ => true)).
Abbreviation reach := (reachable test_env id [0x06; 0x35] (fun _ => true)).

Definition cell_start : bsc_state := mk_bsc_state [test_cell] ∅ 0 [] 0 0 [].
Definition next (st : bsc_state) (op : bsc_op) : bsc_state :=
  match run op st with Some (_, st', _) => st' | None => st end.

Definition sdcch : lref := (0, (0, 0, 0))%nat.
Definition tch1 : lref := (0, (0, 1, 0))%nat.
Definition tch2 : lref := (0, (0, 2, 0))%nat.

Definition no_conns (bts : gsm_bts) : bool :=
  forallb (fun trx => forallb (fun ts => forallb (fun lc => bool_decide (lc_conn lc = None)) (lchan ts))
    (trx_ts trx)) (trx_list bts).
Lemma no_conns_spec bts p lc : no_conns bts = true -> get_lchan bts p = Some lc -> lc_conn lc = None.
Proof.
  unfold no_conns, get_lchan, get_ts. destruct p as [[i j] k]. rewrite forallb_forall. intros Hn.
  destruct (trx_list bts !! i) as [trx|] eqn:Ei; [|done]. cbn.
  destruct (trx_ts trx !! j) as [ts|] eqn:Ej; [|done]. cbn. intros Hk.
  assert (In trx (trx_list bts)) as Hin%Hn by (by eapply list_elem_of_In, list_elem_of_lookup_2).
  rewrite forallb_forall in Hin.
  assert (In ts (trx_ts trx)) as Hin2%Hin by (by eapply list_elem_of_In, list_elem_of_lookup_2).
  rewrite forallb_forall in Hin2. apply (bool_decide_eq_true_1 _), Hin2.
  by eapply list_elem_of_In, list_elem_of_lookup_2.
Qed.

Lemma start_reach : reach cell_start.
Proof.
  apply reach_start. split; [apply Forall_singleton, test_cell_wf|]. split; [|done].
  intros [b p]. unfold chan_conn, lookup_chan, cell_start. cbn [btss fst snd]. destruct b as [|b]; [|done].
  cbn [lookup list_lookup mbind option_bind]. destruct (get_lchan test_cell p) as [lc|] eqn:E; [|done].
  apply (no_conns_spec test_cell p); [by vm_compute|done].
Qed.

Lemma reach_next st op :
  reach st -> may st op -> match run op st with Some _ => true | None => false end = true -> reach (next st op).
Proof.
  intros Hr Hm. unfold next. destruct (run op st) as [[[[] st'] ev]|] eqn:E; [|done]. intros _.
  by eapply reach_op.
Qed.

Definition allocated_b (st : bsc_state) (l : lref) : bool :=
  match lookup_chan st l with Some lc => negb (bool_decide (lc_type lc = GSM_LCHAN_NONE)) | None => false end.
Lemma allocated_b_spec st l : allocated_b st l = true -> allocated st l.
Proof.
  unfold allocated_b, allocated. destruct (lookup_chan st l) as [lc|]; [|done]. intros Hb. exists lc.
  split; [done|]. by apply negb_true_iff, bool_decide_eq_false in Hb.
Qed.
Definition active_b (st : bsc_state) (l : lref) : bool :=
  match lookup_chan st l with Some lc => bool_decide (lc_state lc = LCHAN_S_ACTIVE) | None => false end.
Lemma active_b_spec st l : active_b st l = true -> active st l.
Proof.
  unfold active_b, active. destruct (lookup_chan st l) as [lc|]; [|done]. intros Hb. exists lc.
  split; [done|]. by apply bool_decide_eq_true in Hb.
Qed.

(** A mobile has a connection on the SDCCH. *)
Definition cell_connected : bsc_state :=
  foldl next cell_start [OpAlloc 0 GSM_LCHAN_SDCCH; OpActAck sdcch true; OpMessage true true sdcch 0 DtapOther].
(** It is being assigned a TCH. *)
Definition cell_assigning : bsc_state :=
  foldl next cell_connected [OpAssign 0 GSM48_CMODE_SPEECH_V1 true; OpActAck tch1 true].
(** It was identified and is being handed over to another one. *)
Definition cell_handover : bsc_state :=
  foldl next cell_assigning [OpSubscr 0 true; OpMessage true true tch1 0 (RR_ASS_COMPL (Some 0)); OpHandover true tch1 0;
    OpActAck tch2 true].
(** The MSC side waits for a link of SAPI 3. *)
Definition cell_sms : bsc_state := next cell_connected (OpSubmit true 0 7 3 true).


Ltac by_alloc := by apply allocated_b_spec; vm_compute.

Lemma connected_reach : reach cell_connected.
Proof.
  unfold cell_connected. cbn [foldl].
  apply reach_next; [apply reach_next; [apply reach_next; [apply start_reach|..]|..]|..];
    first [by vm_compute|by_alloc|cbn [may]; apply Nat.ltb_lt; by vm_compute].
Qed.
Lemma assigning_reach : reach cell_assigning.
Proof.
  unfold cell_assigning. cbn [foldl].
  apply reach_next; [apply reach_next; [apply connected_reach|..]|..]; try (by vm_compute); [|by_alloc].
  eexists. split; [by vm_compute|done].
Qed.
Lemma handover_reach : reach cell_handover.
Proof.
  unfold cell_handover. cbn [foldl].
  apply reach_next; [apply reach_next; [apply reach_next; [apply reach_next; [apply assigning_reach|..]|..]|..]|..];
    try (by vm_compute); [by eexists; vm_compute|by_alloc| |by_alloc].
  split; [by_alloc|]. split; [apply Nat.ltb_lt; by vm_compute|].
  intros c cn Hc. vm_compute in Hc. injection Hc as <-. vm_compute. intros [= <-]. done.
Qed.
Lemma sms_reach : reach cell_sms.
Proof. apply reach_next; [apply connected_reach|by eexists; vm_compute|by vm_compute]. Qed.

Lemma bsc_pointers_consistent_witness : reach cell_handover /\ bsc_wf cell_handover.
Proof.
  split; [exact handover_reach|].
  exact (bsc_pointers_consistent test_env id [0x06; 0x35] (fun _ => true) cell_handover handover_reach).
Defined.

(** What [may] leaves out. A second assignment while one is pending: the first new channel keeps pointing to the
    connection, which does not know it any more. *)
Example second_assignment :
  let st := next cell_assigning (OpAssign 0 GSM48_CMODE_SPEECH_V1 true) in
  chan_conn cell_assigning tch1 = Some 0%nat /\ chan_conn st tch1 = Some 0%nat /\
  option_map (fun cn => (cn_lchan cn, cn_ho_lchan cn, cn_secondary cn)) (conns st !! 0%nat) = Some (Some sdcch, None, Some tch2).
Proof. by vm_compute. Qed.
(** CHANNEL ACTIVATION NACK after the ACK: the handover is freed while its timer runs, and the timer follows the
    freed record. *)
Example nack_after_ack :
  let st := next cell_handover (OpActNack tch2 true None) in
  bsc_handovers st = [] /\ stray_T3103 st = 1%nat /\ stray_T3103_cb st = None.
Proof. by vm_compute. Qed.
(** A mobile that was not identified completes its handover: the program fails. *)
Example unknown_mobile_arrives :
  run (OpHoCompl tch2) (next cell_handover (OpSubscr 0 false)) = None /\
  match run (OpHoCompl tch2) cell_handover with Some _ => true | None => false end = true.
Proof. by vm_compute. Qed.
(** T10 expires: a BSC tells the MSC, the network in one program fails. *)
Example T10_without_assign_fail :
  @run_op _ msc_handler test_env id [0x06; 0x35] (fun _ => true) (OpT10 0) cell_assigning = None /\
  match run (OpT10 0) cell_assigning with Some _ => true | None => false end = true.
Proof. by vm_compute. Qed.

(** The mobile that was just accepted sends ASSIGNMENT FAILURE. *)
Lemma bsc_null_pointer_iff_witness :
  reach cell_connected /\ run (OpMessage true true sdcch 0 (RR_ASS_FAIL (Some 0x6f))) cell_connected = None.
Proof.
  split; [exact connected_reach|].
  assert (may cell_connected (OpMessage true true sdcch 0 (RR_ASS_FAIL (Some 0x6f)))) as Hm.
  { apply allocated_b_spec. vm_compute. reflexivity. }
  apply (bsc_null_pointer_iff test_env id [0x06; 0x35] (fun _ => true) cell_connected _ connected_reach Hm).
  eexists _, 0%nat. split; [vm_compute; reflexivity|]. split; [reflexivity|]. split; [reflexivity|].
  eexists. split; [vm_compute; reflexivity|]. split; [reflexivity|left; reflexivity].
Defined.

Lemma assignment_settles_witness :
  reach cell_assigning /\
  settling test_env id [0x06; 0x35] (fun _ => true) 0 tch1 sdcch
    (OpMessage true true tch1 0 (RR_ASS_COMPL (Some 0))) cell_assigning.
Proof.
  split; [exact assigning_reach|].
  assert (exists cn, conns cell_assigning !! 0%nat = Some cn /\ cn_lchan cn = Some sdcch /\
    cn_secondary cn = Some tch1) as (cn & Hc & Ho & Hn).
  { eexists. split; [vm_compute; reflexivity|]. split; reflexivity. }
  refine (proj1 (assignment_settles test_env id [0x06; 0x35] (fun _ => true) cell_assigning 0 cn sdcch tch1
    assigning_reach Hc Ho Hn) true true 0 0 _).
  apply active_b_spec. vm_compute. reflexivity.
Defined.

Lemma handover_settles_witness :
  reach cell_handover /\
  ho_settling test_env id [0x06; 0x35] (fun _ => true) 0 tch2 tch1 tch2 (OpHoCompl tch2) cell_handover.
Proof.
  split; [exact handover_reach|].
  assert (bsc_handovers cell_handover !! 0%nat = Some (mk_bsc_handover tch1 tch2 true 0)) as Hi
    by (vm_compute; reflexivity).
  pose proof (handover_settles test_env id [0x06; 0x35] (fun _ => true) cell_handover 0%nat
    (mk_bsc_handover tch1 tch2 true 0) handover_reach Hi) as (c & cn & Hcn & Hc & _ & Hs & _).
  assert (chan_conn cell_handover tch1 = Some 0%nat) as Hc0 by (vm_compute; reflexivity).
  assert (c = 0%nat) as ->.
  { change (chan_conn cell_handover tch1 = Some c) in Hc. rewrite Hc0 in Hc. injection Hc as <-. reflexivity. }
  assert (option_map cn_subscr (conns cell_handover !! 0%nat) = Some true) as Hsub by (vm_compute; reflexivity).
  rewrite Hcn in Hsub. injection Hsub as Hsub. rewrite Hsub in Hs. exact Hs.
Defined.

Lemma rll_requests_end_witness :
  reach cell_sms /\
  rll_indication sdcch 3 BSC_RLLR_IND_EST_CONF cell_sms =
    Some (tt, with_reqs [] cell_sms, [EvDataReq sdcch 3 7]).
Proof.
  split; [exact sms_reach|].
  assert (forall st, reach st -> bsc_rll_reqs st = [mk_bsc_rll_req sdcch 3 7 3] ->
    chan_conn st sdcch = Some 0%nat ->
    rll_indication sdcch 3 BSC_RLLR_IND_EST_CONF st = Some (tt, with_reqs [] st, [EvDataReq sdcch 3 7])) as Hgen.
  { intros st Hr Hreqs Hc.
    destruct (rll_requests_end test_env id [0x06; 0x35] (fun _ => true) st sdcch 3
      BSC_RLLR_IND_EST_CONF Hr) as [Hi _].
    assert (find_idx (rllr_is sdcch 3) [mk_bsc_rll_req sdcch 3 7 3] = Some 0%nat) as Hf
      by (vm_compute; reflexivity).
    rewrite Hreqs, Hf in Hi. cbn [lookup list_lookup from_option delete list_delete] in Hi.
    unfold callback in Hi. cbn [rr_lchan] in Hi. rewrite Hc in Hi. exact Hi. }
  apply Hgen; [exact sms_reach|vm_compute; reflexivity|vm_compute; reflexivity].
Defined.

End BscOutcome.
