(* ===== verification/Msc.v ===== *)
(** The state of the MSC half of the network in a box: transactions (libmsc/transaction.c,
    openbsc/transaction.h), connections and their pending operations (openbsc/gsm_data.h,
    libmsc/osmo_msc.c), subscribers (openbsc/gsm_subscriber.h, libbsc/gsm_subscriber_base.c), their
    channel requests (libmsc/gsm_subscriber.c) and the paging requests made for them
    (libbsc/paging.c as this side of it sees them), and the MNCC message (openbsc/mncc.h).

    Objects live in stores and are named by their number there; a pointer to an object that was
    freed finds nothing, and following it is undefined behaviour ([None]). Two calls leave this
    state and come back to it: towards the MNCC application ([mncc_recv]), which may answer before
    it returns, and [subscr_put_channel], which starts the next channel request, whose callback
    releases calls. They are the two methods of the class [Upcalls]; Mncc.v ties the knot. *)

From S2P Require Import Prelude Chreq.

Module Msc.

(** ** Data *)

(** What gsm_mncc_bearer_cap holds: the two members the code reads, and the others. *)

Record gsm_mncc_bearer_cap : Type := mk_gsm_mncc_bearer_cap {
  bcap_transfer : Z;
  bcap_mode : Z;
  bcap_rest : list Z
}.

#[export] Instance upd_bcap_transfer : Upd bcap_transfer := fun f r => mk_gsm_mncc_bearer_cap (f
  (bcap_transfer r)) (bcap_mode r) (bcap_rest r).
#[export] Instance upd_bcap_mode : Upd bcap_mode := fun f r => mk_gsm_mncc_bearer_cap
  (bcap_transfer r) (f (bcap_mode r)) (bcap_rest r).
#[export] Instance upd_bcap_rest : Upd bcap_rest := fun f r => mk_gsm_mncc_bearer_cap
  (bcap_transfer r) (bcap_mode r) (f (bcap_rest r)).

Record gsm_mncc_number : Type := mk_gsm_mncc_number {
  num_attr : list Z;  (* type, plan, present, screen *)
  number : list Z  (* the characters before the terminator *)
}.

#[export] Instance upd_num_attr : Upd num_attr := fun f r => mk_gsm_mncc_number (f (num_attr r))
  (number r).
#[export] Instance upd_number : Upd number := fun f r => mk_gsm_mncc_number (num_attr r) (f
  (number r)).

Record gsm_mncc_cause : Type := mk_gsm_mncc_cause {
  location : Z;
  coding : Z;
  cause_rec : Z;
  rec_val : Z;
  value : Z;
  diag_len : Z;
  diag : list Z
}.

#[export] Instance upd_location : Upd location := fun f r => mk_gsm_mncc_cause (f (location r))
  (coding r) (cause_rec r) (rec_val r) (value r) (diag_len r) (diag r).
#[export] Instance upd_coding : Upd coding := fun f r => mk_gsm_mncc_cause (location r) (f
  (coding r)) (cause_rec r) (rec_val r) (value r) (diag_len r) (diag r).
#[export] Instance upd_cause_rec : Upd cause_rec := fun f r => mk_gsm_mncc_cause (location r)
  (coding r) (f (cause_rec r)) (rec_val r) (value r) (diag_len r) (diag r).
#[export] Instance upd_rec_val : Upd rec_val := fun f r => mk_gsm_mncc_cause (location r)
  (coding r) (cause_rec r) (f (rec_val r)) (value r) (diag_len r) (diag r).
#[export] Instance upd_value : Upd value := fun f r => mk_gsm_mncc_cause (location r) (coding r)
  (cause_rec r) (rec_val r) (f (value r)) (diag_len r) (diag r).
#[export] Instance upd_diag_len : Upd diag_len := fun f r => mk_gsm_mncc_cause (location r)
  (coding r) (cause_rec r) (rec_val r) (value r) (f (diag_len r)) (diag r).
#[export] Instance upd_diag : Upd diag := fun f r => mk_gsm_mncc_cause (location r) (coding r)
  (cause_rec r) (rec_val r) (value r) (diag_len r) (f (diag r)).

(** An MNCC message. The elements the code only copies are their octets. *)
Record gsm_mncc : Type := mk_gsm_mncc {
  msg_type : Z;  (* uint32_t *)
  callref : Z;  (* uint32_t *)
  fields : Z;  (* uint32_t *)
  bearer_cap : gsm_mncc_bearer_cap;
  called : gsm_mncc_number;
  calling : gsm_mncc_number;
  redirecting : gsm_mncc_number;
  connected : gsm_mncc_number;
  cause : gsm_mncc_cause;
  progress : list Z;
  useruser : list Z;
  facility : list Z;
  cccap : list Z;
  ssversion : list Z;
  clir_sup : Z;
  clir_inv : Z;
  signal : Z;
  keypad : Z;
  more : Z;
  notify : Z;
  emergency : Z;
  mncc_imsi : list Z;  (* char [16] *)
  lchan_type : Z;
  lchan_mode : Z
}.

#[export] Instance upd_msg_type : Upd msg_type := fun f r => mk_gsm_mncc (f (msg_type r))
  (callref r) (fields r) (bearer_cap r) (called r) (calling r) (redirecting r) (connected r)
  (cause r) (progress r) (useruser r) (facility r) (cccap r) (ssversion r) (clir_sup r) (clir_inv
  r) (signal r) (keypad r) (more r) (notify r) (emergency r) (mncc_imsi r) (lchan_type r)
  (lchan_mode r).
#[export] Instance upd_callref : Upd callref := fun f r => mk_gsm_mncc (msg_type r) (f (callref
  r)) (fields r) (bearer_cap r) (called r) (calling r) (redirecting r) (connected r) (cause r)
  (progress r) (useruser r) (facility r) (cccap r) (ssversion r) (clir_sup r) (clir_inv r) (signal
  r) (keypad r) (more r) (notify r) (emergency r) (mncc_imsi r) (lchan_type r) (lchan_mode r).
#[export] Instance upd_fields : Upd fields := fun f r => mk_gsm_mncc (msg_type r) (callref r) (f
  (fields r)) (bearer_cap r) (called r) (calling r) (redirecting r) (connected r) (cause r)
  (progress r) (useruser r) (facility r) (cccap r) (ssversion r) (clir_sup r) (clir_inv r) (signal
  r) (keypad r) (more r) (notify r) (emergency r) (mncc_imsi r) (lchan_type r) (lchan_mode r).
#[export] Instance upd_bearer_cap : Upd bearer_cap := fun f r => mk_gsm_mncc (msg_type r)
  (callref r) (fields r) (f (bearer_cap r)) (called r) (calling r) (redirecting r) (connected r)
  (cause r) (progress r) (useruser r) (facility r) (cccap r) (ssversion r) (clir_sup r) (clir_inv
  r) (signal r) (keypad r) (more r) (notify r) (emergency r) (mncc_imsi r) (lchan_type r)
  (lchan_mode r).
#[export] Instance upd_called : Upd called := fun f r => mk_gsm_mncc (msg_type r) (callref r)
  (fields r) (bearer_cap r) (f (called r)) (calling r) (redirecting r) (connected r) (cause r)
  (progress r) (useruser r) (facility r) (cccap r) (ssversion r) (clir_sup r) (clir_inv r) (signal
  r) (keypad r) (more r) (notify r) (emergency r) (mncc_imsi r) (lchan_type r) (lchan_mode r).
#[export] Instance upd_calling : Upd calling := fun f r => mk_gsm_mncc (msg_type r) (callref r)
  (fields r) (bearer_cap r) (called r) (f (calling r)) (redirecting r) (connected r) (cause r)
  (progress r) (useruser r) (facility r) (cccap r) (ssversion r) (clir_sup r) (clir_inv r) (signal
  r) (keypad r) (more r) (notify r) (emergency r) (mncc_imsi r) (lchan_type r) (lchan_mode r).
#[export] Instance upd_redirecting : Upd redirecting := fun f r => mk_gsm_mncc (msg_type r)
  (callref r) (fields r) (bearer_cap r) (called r) (calling r) (f (redirecting r)) (connected r)
  (cause r) (progress r) (useruser r) (facility r) (cccap r) (ssversion r) (clir_sup r) (clir_inv
  r) (signal r) (keypad r) (more r) (notify r) (emergency r) (mncc_imsi r) (lchan_type r)
  (lchan_mode r).
#[export] Instance upd_connected : Upd connected := fun f r => mk_gsm_mncc (msg_type r) (callref
  r) (fields r) (bearer_cap r) (called r) (calling r) (redirecting r) (f (connected r)) (cause r)
  (progress r) (useruser r) (facility r) (cccap r) (ssversion r) (clir_sup r) (clir_inv r) (signal
  r) (keypad r) (more r) (notify r) (emergency r) (mncc_imsi r) (lchan_type r) (lchan_mode r).
#[export] Instance upd_cause : Upd cause := fun f r => mk_gsm_mncc (msg_type r) (callref r)
  (fields r) (bearer_cap r) (called r) (calling r) (redirecting r) (connected r) (f (cause r))
  (progress r) (useruser r) (facility r) (cccap r) (ssversion r) (clir_sup r) (clir_inv r) (signal
  r) (keypad r) (more r) (notify r) (emergency r) (mncc_imsi r) (lchan_type r) (lchan_mode r).
#[export] Instance upd_progress : Upd progress := fun f r => mk_gsm_mncc (msg_type r) (callref
  r) (fields r) (bearer_cap r) (called r) (calling r) (redirecting r) (connected r) (cause r) (f
  (progress r)) (useruser r) (facility r) (cccap r) (ssversion r) (clir_sup r) (clir_inv r)
  (signal r) (keypad r) (more r) (notify r) (emergency r) (mncc_imsi r) (lchan_type r) (lchan_mode
  r).
#[export] Instance upd_useruser : Upd useruser := fun f r => mk_gsm_mncc (msg_type r) (callref
  r) (fields r) (bearer_cap r) (called r) (calling r) (redirecting r) (connected r) (cause r)
  (progress r) (f (useruser r)) (facility r) (cccap r) (ssversion r) (clir_sup r) (clir_inv r)
  (signal r) (keypad r) (more r) (notify r) (emergency r) (mncc_imsi r) (lchan_type r) (lchan_mode
  r).
#[export] Instance upd_facility : Upd facility := fun f r => mk_gsm_mncc (msg_type r) (callref
  r) (fields r) (bearer_cap r) (called r) (calling r) (redirecting r) (connected r) (cause r)
  (progress r) (useruser r) (f (facility r)) (cccap r) (ssversion r) (clir_sup r) (clir_inv r)
  (signal r) (keypad r) (more r) (notify r) (emergency r) (mncc_imsi r) (lchan_type r) (lchan_mode
  r).
#[export] Instance upd_cccap : Upd cccap := fun f r => mk_gsm_mncc (msg_type r) (callref r)
  (fields r) (bearer_cap r) (called r) (calling r) (redirecting r) (connected r) (cause r)
  (progress r) (useruser r) (facility r) (f (cccap r)) (ssversion r) (clir_sup r) (clir_inv r)
  (signal r) (keypad r) (more r) (notify r) (emergency r) (mncc_imsi r) (lchan_type r) (lchan_mode
  r).
#[export] Instance upd_ssversion : Upd ssversion := fun f r => mk_gsm_mncc (msg_type r) (callref
  r) (fields r) (bearer_cap r) (called r) (calling r) (redirecting r) (connected r) (cause r)
  (progress r) (useruser r) (facility r) (cccap r) (f (ssversion r)) (clir_sup r) (clir_inv r)
  (signal r) (keypad r) (more r) (notify r) (emergency r) (mncc_imsi r) (lchan_type r) (lchan_mode
  r).
#[export] Instance upd_clir_sup : Upd clir_sup := fun f r => mk_gsm_mncc (msg_type r) (callref
  r) (fields r) (bearer_cap r) (called r) (calling r) (redirecting r) (connected r) (cause r)
  (progress r) (useruser r) (facility r) (cccap r) (ssversion r) (f (clir_sup r)) (clir_inv r)
  (signal r) (keypad r) (more r) (notify r) (emergency r) (mncc_imsi r) (lchan_type r) (lchan_mode
  r).
#[export] Instance upd_clir_inv : Upd clir_inv := fun f r => mk_gsm_mncc (msg_type r) (callref
  r) (fields r) (bearer_cap r) (called r) (calling r) (redirecting r) (connected r) (cause r)
  (progress r) (useruser r) (facility r) (cccap r) (ssversion r) (clir_sup r) (f (clir_inv r))
  (signal r) (keypad r) (more r) (notify r) (emergency r) (mncc_imsi r) (lchan_type r) (lchan_mode
  r).
#[export] Instance upd_signal : Upd signal := fun f r => mk_gsm_mncc (msg_type r) (callref r)
  (fields r) (bearer_cap r) (called r) (calling r) (redirecting r) (connected r) (cause r)
  (progress r) (useruser r) (facility r) (cccap r) (ssversion r) (clir_sup r) (clir_inv r) (f
  (signal r)) (keypad r) (more r) (notify r) (emergency r) (mncc_imsi r) (lchan_type r)
  (lchan_mode r).
#[export] Instance upd_keypad : Upd keypad := fun f r => mk_gsm_mncc (msg_type r) (callref r)
  (fields r) (bearer_cap r) (called r) (calling r) (redirecting r) (connected r) (cause r)
  (progress r) (useruser r) (facility r) (cccap r) (ssversion r) (clir_sup r) (clir_inv r) (signal
  r) (f (keypad r)) (more r) (notify r) (emergency r) (mncc_imsi r) (lchan_type r) (lchan_mode r).
#[export] Instance upd_more : Upd more := fun f r => mk_gsm_mncc (msg_type r) (callref r)
  (fields r) (bearer_cap r) (called r) (calling r) (redirecting r) (connected r) (cause r)
  (progress r) (useruser r) (facility r) (cccap r) (ssversion r) (clir_sup r) (clir_inv r) (signal
  r) (keypad r) (f (more r)) (notify r) (emergency r) (mncc_imsi r) (lchan_type r) (lchan_mode r).
#[export] Instance upd_notify : Upd notify := fun f r => mk_gsm_mncc (msg_type r) (callref r)
  (fields r) (bearer_cap r) (called r) (calling r) (redirecting r) (connected r) (cause r)
  (progress r) (useruser r) (facility r) (cccap r) (ssversion r) (clir_sup r) (clir_inv r) (signal
  r) (keypad r) (more r) (f (notify r)) (emergency r) (mncc_imsi r) (lchan_type r) (lchan_mode r).
#[export] Instance upd_emergency : Upd emergency := fun f r => mk_gsm_mncc (msg_type r) (callref
  r) (fields r) (bearer_cap r) (called r) (calling r) (redirecting r) (connected r) (cause r)
  (progress r) (useruser r) (facility r) (cccap r) (ssversion r) (clir_sup r) (clir_inv r) (signal
  r) (keypad r) (more r) (notify r) (f (emergency r)) (mncc_imsi r) (lchan_type r) (lchan_mode r).
#[export] Instance upd_mncc_imsi : Upd mncc_imsi := fun f r => mk_gsm_mncc (msg_type r) (callref
  r) (fields r) (bearer_cap r) (called r) (calling r) (redirecting r) (connected r) (cause r)
  (progress r) (useruser r) (facility r) (cccap r) (ssversion r) (clir_sup r) (clir_inv r) (signal
  r) (keypad r) (more r) (notify r) (emergency r) (f (mncc_imsi r)) (lchan_type r) (lchan_mode r).
#[export] Instance upd_lchan_type : Upd lchan_type := fun f r => mk_gsm_mncc (msg_type r)
  (callref r) (fields r) (bearer_cap r) (called r) (calling r) (redirecting r) (connected r)
  (cause r) (progress r) (useruser r) (facility r) (cccap r) (ssversion r) (clir_sup r) (clir_inv
  r) (signal r) (keypad r) (more r) (notify r) (emergency r) (mncc_imsi r) (f (lchan_type r))
  (lchan_mode r).
#[export] Instance upd_lchan_mode : Upd lchan_mode := fun f r => mk_gsm_mncc (msg_type r)
  (callref r) (fields r) (bearer_cap r) (called r) (calling r) (redirecting r) (connected r)
  (cause r) (progress r) (useruser r) (facility r) (cccap r) (ssversion r) (clir_sup r) (clir_inv
  r) (signal r) (keypad r) (more r) (notify r) (emergency r) (mncc_imsi r) (lchan_type r) (f
  (lchan_mode r)).

(** What [memset] to zero leaves. *)
Definition number_zero : gsm_mncc_number := mk_gsm_mncc_number [] [].
Definition cause_zero : gsm_mncc_cause := mk_gsm_mncc_cause 0 0 0 0 0 0 [].
Definition mncc_zero : gsm_mncc :=
  mk_gsm_mncc 0 0 0 (mk_gsm_mncc_bearer_cap 0 0 []) number_zero number_zero number_zero number_zero
    cause_zero [] [] [] [] [] 0 0 0 0 0 0 0 [] 0 0.

Definition MNCC_SETUP_REQ : Z := 0x0101.
Definition MNCC_SETUP_IND : Z := 0x0102.
Definition MNCC_SETUP_RSP : Z := 0x0103.
Definition MNCC_SETUP_CNF : Z := 0x0104.
Definition MNCC_SETUP_COMPL_REQ : Z := 0x0105.
Definition MNCC_SETUP_COMPL_IND : Z := 0x0106.
Definition MNCC_CALL_CONF_IND : Z := 0x0107.
Definition MNCC_CALL_PROC_REQ : Z := 0x0108.
Definition MNCC_PROGRESS_REQ : Z := 0x0109.
Definition MNCC_ALERT_REQ : Z := 0x010a.
Definition MNCC_ALERT_IND : Z := 0x010b.
Definition MNCC_NOTIFY_REQ : Z := 0x010c.
Definition MNCC_NOTIFY_IND : Z := 0x010d.
Definition MNCC_DISC_REQ : Z := 0x010e.
Definition MNCC_DISC_IND : Z := 0x010f.
Definition MNCC_REL_REQ : Z := 0x0110.
Definition MNCC_REL_IND : Z := 0x0111.
Definition MNCC_REL_CNF : Z := 0x0112.
Definition MNCC_FACILITY_REQ : Z := 0x0113.
Definition MNCC_FACILITY_IND : Z := 0x0114.
Definition MNCC_START_DTMF_IND : Z := 0x0115.
Definition MNCC_START_DTMF_RSP : Z := 0x0116.
Definition MNCC_START_DTMF_REJ : Z := 0x0117.
Definition MNCC_STOP_DTMF_IND : Z := 0x0118.
Definition MNCC_STOP_DTMF_RSP : Z := 0x0119.
Definition MNCC_MODIFY_REQ : Z := 0x011a.
Definition MNCC_MODIFY_IND : Z := 0x011b.
Definition MNCC_MODIFY_RSP : Z := 0x011c.
Definition MNCC_MODIFY_CNF : Z := 0x011d.
Definition MNCC_MODIFY_REJ : Z := 0x011e.
Definition MNCC_HOLD_IND : Z := 0x011f.
Definition MNCC_HOLD_CNF : Z := 0x0120.
Definition MNCC_HOLD_REJ : Z := 0x0121.
Definition MNCC_RETRIEVE_IND : Z := 0x0122.
Definition MNCC_RETRIEVE_CNF : Z := 0x0123.
Definition MNCC_RETRIEVE_REJ : Z := 0x0124.
Definition MNCC_USERINFO_REQ : Z := 0x0125.
Definition MNCC_USERINFO_IND : Z := 0x0126.
Definition MNCC_REJ_REQ : Z := 0x0127.
Definition MNCC_REJ_IND : Z := 0x0128.
Definition MNCC_BRIDGE : Z := 0x0200.
Definition MNCC_FRAME_RECV : Z := 0x0201.
Definition MNCC_FRAME_DROP : Z := 0x0202.
Definition MNCC_LCHAN_MODIFY : Z := 0x0203.
Definition GSM_TCHF_FRAME : Z := 0x0300.
Definition GSM_TCHF_FRAME_EFR : Z := 0x0301.

Definition MNCC_F_BEARER_CAP : Z := 0x0001.
Definition MNCC_F_CALLED : Z := 0x0002.
Definition MNCC_F_CALLING : Z := 0x0004.
Definition MNCC_F_REDIRECTING : Z := 0x0008.
Definition MNCC_F_CONNECTED : Z := 0x0010.
Definition MNCC_F_CAUSE : Z := 0x0020.
Definition MNCC_F_USERUSER : Z := 0x0040.
Definition MNCC_F_PROGRESS : Z := 0x0080.
Definition MNCC_F_EMERGENCY : Z := 0x0100.
Definition MNCC_F_FACILITY : Z := 0x0200.
Definition MNCC_F_SSVERSION : Z := 0x0400.
Definition MNCC_F_CCCAP : Z := 0x0800.
Definition MNCC_F_KEYPAD : Z := 0x1000.
Definition MNCC_F_SIGNAL : Z := 0x2000.

(** Call states (04.08, 5.1.2), by the names of libosmocore. *)
Inductive cc_cstate : Type :=
| GSM_CSTATE_NULL | GSM_CSTATE_INITIATED | GSM_CSTATE_MO_CALL_PROC | GSM_CSTATE_CALL_DELIVERED
| GSM_CSTATE_CALL_PRESENT | GSM_CSTATE_CALL_RECEIVED | GSM_CSTATE_CONNECT_REQUEST
| GSM_CSTATE_MO_TERM_CALL_CONF | GSM_CSTATE_ACTIVE | GSM_CSTATE_DISCONNECT_REQ
| GSM_CSTATE_DISCONNECT_IND | GSM_CSTATE_RELEASE_REQ | GSM_CSTATE_MO_ORIG_MODIFY
| GSM_CSTATE_MO_TERM_MODIFY | GSM_CSTATE_CONNECT_IND.
#[export] Instance cc_cstate_eq_dec : EqDecision cc_cstate.
Proof. solve_decision. Defined.

(** Protocol discriminators, and the message types this side sends or understands (04.08, 10.2 and
    10.4), by the names of libosmocore. *)
Inductive gsm48_pdisc : Type :=
| GSM48_PDISC_CC | GSM48_PDISC_MM | GSM48_PDISC_RR | GSM48_PDISC_MM_GPRS | GSM48_PDISC_SMS
| GSM48_PDISC_SM_GPRS | GSM48_PDISC_NC_SS.
#[export] Instance gsm48_pdisc_eq_dec : EqDecision gsm48_pdisc.
Proof. solve_decision. Defined.

Inductive gsm48_cc_mt : Type :=
| GSM48_MT_CC_ALERTING | GSM48_MT_CC_CALL_CONF | GSM48_MT_CC_CALL_PROC | GSM48_MT_CC_CONNECT
| GSM48_MT_CC_CONNECT_ACK | GSM48_MT_CC_EMERG_SETUP | GSM48_MT_CC_PROGRESS | GSM48_MT_CC_SETUP
| GSM48_MT_CC_MODIFY | GSM48_MT_CC_MODIFY_COMPL | GSM48_MT_CC_MODIFY_REJECT | GSM48_MT_CC_USER_INFO
| GSM48_MT_CC_HOLD | GSM48_MT_CC_HOLD_ACK | GSM48_MT_CC_HOLD_REJ | GSM48_MT_CC_RETR
| GSM48_MT_CC_RETR_ACK | GSM48_MT_CC_RETR_REJ | GSM48_MT_CC_DISCONNECT | GSM48_MT_CC_RELEASE
| GSM48_MT_CC_RELEASE_COMPL | GSM48_MT_CC_NOTIFY | GSM48_MT_CC_STATUS | GSM48_MT_CC_STATUS_ENQ
| GSM48_MT_CC_START_DTMF | GSM48_MT_CC_START_DTMF_ACK | GSM48_MT_CC_START_DTMF_REJ
| GSM48_MT_CC_STOP_DTMF | GSM48_MT_CC_STOP_DTMF_ACK | GSM48_MT_CC_FACILITY.
#[export] Instance gsm48_cc_mt_eq_dec : EqDecision gsm48_cc_mt.
Proof. solve_decision. Defined.

Inductive gsm48_mm_mt : Type :=
| GSM48_MT_MM_IMSI_DETACH_IND | GSM48_MT_MM_LOC_UPD_ACCEPT | GSM48_MT_MM_LOC_UPD_REJECT
| GSM48_MT_MM_LOC_UPD_REQUEST | GSM48_MT_MM_AUTH_REJ | GSM48_MT_MM_AUTH_REQ
| GSM48_MT_MM_AUTH_RESP | GSM48_MT_MM_ID_REQ | GSM48_MT_MM_ID_RESP | GSM48_MT_MM_TMSI_REALL_COMPL
| GSM48_MT_MM_CM_SERV_ACC | GSM48_MT_MM_CM_SERV_REJ | GSM48_MT_MM_CM_SERV_REQ
| GSM48_MT_MM_CM_REEST_REQ | GSM48_MT_MM_STATUS | GSM48_MT_MM_INFO.
#[export] Instance gsm48_mm_mt_eq_dec : EqDecision gsm48_mm_mt.
Proof. solve_decision. Defined.

Inductive gsm48_rr_mt : Type :=
| GSM48_MT_RR_CLSM_CHG | GSM48_MT_RR_GPRS_SUSP_REQ | GSM48_MT_RR_PAG_RESP | GSM48_MT_RR_STATUS
| GSM48_MT_RR_MEAS_REP | GSM48_MT_RR_APP_INFO | GSM48_MT_RR_CIPH_M_COMPL | GSM48_MT_RR_HANDO_COMPL
| GSM48_MT_RR_HANDO_FAIL.

(** Information elements of call control. *)
Inductive gsm48_iei : Type :=
| GSM48_IE_BEARER_CAP | GSM48_IE_CAUSE | GSM48_IE_CC_CAP | GSM48_IE_FACILITY | GSM48_IE_PROGR_IND
| GSM48_IE_CALLED_BCD | GSM48_IE_USER_USER | GSM48_IE_SS_VERS | GSM48_IE_MORE_DATA
| GSM48_IE_CLIR_SUPP | GSM48_IE_CLIR_INVOC | GSM48_IE_KPD_FACILITY.

(** Types of mobile identities. *)
Inductive gsm_mi_type : Type := GSM_MI_TYPE_IMSI | GSM_MI_TYPE_IMEI | GSM_MI_TYPE_IMEISV | GSM_MI_TYPE_TMSI.
#[export] Instance gsm_mi_type_eq_dec : EqDecision gsm_mi_type.
Proof. solve_decision. Defined.

(** A transaction. Of the union only the part of call control is kept; its timer is in the
    state. [trans->subscr] is never null: [trans_alloc] follows it. *)

Record gsm_trans : Type := mk_gsm_trans {
  protocol : gsm48_pdisc;
  transaction_id : Z;  (* uint8_t, 0xff: unassigned *)
  t_subscr : nat;
  t_conn : option nat;
  t_callref : Z;  (* uint32_t *)
  tch_recv : Z;
  paging_request : option nat;
  cc_state : cc_cstate;
  Tcurrent : Z;
  T308_second : Z;
  cc_msg : gsm_mncc
}.

#[export] Instance upd_protocol : Upd protocol := fun f r => mk_gsm_trans (f (protocol r))
  (transaction_id r) (t_subscr r) (t_conn r) (t_callref r) (tch_recv r) (paging_request r)
  (cc_state r) (Tcurrent r) (T308_second r) (cc_msg r).
#[export] Instance upd_transaction_id : Upd transaction_id := fun f r => mk_gsm_trans (protocol
  r) (f (transaction_id r)) (t_subscr r) (t_conn r) (t_callref r) (tch_recv r) (paging_request r)
  (cc_state r) (Tcurrent r) (T308_second r) (cc_msg r).
#[export] Instance upd_t_subscr : Upd t_subscr := fun f r => mk_gsm_trans (protocol r)
  (transaction_id r) (f (t_subscr r)) (t_conn r) (t_callref r) (tch_recv r) (paging_request r)
  (cc_state r) (Tcurrent r) (T308_second r) (cc_msg r).
#[export] Instance upd_t_conn : Upd t_conn := fun f r => mk_gsm_trans (protocol r)
  (transaction_id r) (t_subscr r) (f (t_conn r)) (t_callref r) (tch_recv r) (paging_request r)
  (cc_state r) (Tcurrent r) (T308_second r) (cc_msg r).
#[export] Instance upd_t_callref : Upd t_callref := fun f r => mk_gsm_trans (protocol r)
  (transaction_id r) (t_subscr r) (t_conn r) (f (t_callref r)) (tch_recv r) (paging_request r)
  (cc_state r) (Tcurrent r) (T308_second r) (cc_msg r).
#[export] Instance upd_tch_recv : Upd tch_recv := fun f r => mk_gsm_trans (protocol r)
  (transaction_id r) (t_subscr r) (t_conn r) (t_callref r) (f (tch_recv r)) (paging_request r)
  (cc_state r) (Tcurrent r) (T308_second r) (cc_msg r).
#[export] Instance upd_paging_request : Upd paging_request := fun f r => mk_gsm_trans (protocol
  r) (transaction_id r) (t_subscr r) (t_conn r) (t_callref r) (tch_recv r) (f (paging_request r))
  (cc_state r) (Tcurrent r) (T308_second r) (cc_msg r).
#[export] Instance upd_cc_state : Upd cc_state := fun f r => mk_gsm_trans (protocol r)
  (transaction_id r) (t_subscr r) (t_conn r) (t_callref r) (tch_recv r) (paging_request r) (f
  (cc_state r)) (Tcurrent r) (T308_second r) (cc_msg r).
#[export] Instance upd_Tcurrent : Upd Tcurrent := fun f r => mk_gsm_trans (protocol r)
  (transaction_id r) (t_subscr r) (t_conn r) (t_callref r) (tch_recv r) (paging_request r)
  (cc_state r) (f (Tcurrent r)) (T308_second r) (cc_msg r).
#[export] Instance upd_T308_second : Upd T308_second := fun f r => mk_gsm_trans (protocol r)
  (transaction_id r) (t_subscr r) (t_conn r) (t_callref r) (tch_recv r) (paging_request r)
  (cc_state r) (Tcurrent r) (f (T308_second r)) (cc_msg r).
#[export] Instance upd_cc_msg : Upd cc_msg := fun f r => mk_gsm_trans (protocol r)
  (transaction_id r) (t_subscr r) (t_conn r) (t_callref r) (tch_recv r) (paging_request r)
  (cc_state r) (Tcurrent r) (T308_second r) (f (cc_msg r)).

(** An authentication tuple. *)
Record gsm_auth_tuple : Type := mk_gsm_auth_tuple {
  tup_use_count : Z;
  tup_key_seq : Z;
  tup_rand : list Z;
  tup_sres : list Z;
  tup_kc : list Z
}.

#[export] Instance upd_tup_use_count : Upd tup_use_count := fun f r => mk_gsm_auth_tuple (f
  (tup_use_count r)) (tup_key_seq r) (tup_rand r) (tup_sres r) (tup_kc r).
#[export] Instance upd_tup_key_seq : Upd tup_key_seq := fun f r => mk_gsm_auth_tuple
  (tup_use_count r) (f (tup_key_seq r)) (tup_rand r) (tup_sres r) (tup_kc r).
#[export] Instance upd_tup_rand : Upd tup_rand := fun f r => mk_gsm_auth_tuple (tup_use_count r)
  (tup_key_seq r) (f (tup_rand r)) (tup_sres r) (tup_kc r).
#[export] Instance upd_tup_sres : Upd tup_sres := fun f r => mk_gsm_auth_tuple (tup_use_count r)
  (tup_key_seq r) (tup_rand r) (f (tup_sres r)) (tup_kc r).
#[export] Instance upd_tup_kc : Upd tup_kc := fun f r => mk_gsm_auth_tuple (tup_use_count r)
  (tup_key_seq r) (tup_rand r) (tup_sres r) (f (tup_kc r)).

(** A pending location update; [updating_timer]: its timer runs. *)
Record gsm_loc_updating_operation : Type := mk_gsm_loc_updating_operation {
  updating_timer : bool;
  waiting_for_imsi : bool;
  waiting_for_imei : bool;
  lu_op_key_seq : Z
}.

#[export] Instance upd_updating_timer : Upd updating_timer := fun f r =>
  mk_gsm_loc_updating_operation (f (updating_timer r)) (waiting_for_imsi r) (waiting_for_imei r)
  (lu_op_key_seq r).
#[export] Instance upd_waiting_for_imsi : Upd waiting_for_imsi := fun f r =>
  mk_gsm_loc_updating_operation (updating_timer r) (f (waiting_for_imsi r)) (waiting_for_imei r)
  (lu_op_key_seq r).
#[export] Instance upd_waiting_for_imei : Upd waiting_for_imei := fun f r =>
  mk_gsm_loc_updating_operation (updating_timer r) (waiting_for_imsi r) (f (waiting_for_imei r))
  (lu_op_key_seq r).
#[export] Instance upd_lu_op_key_seq : Upd lu_op_key_seq := fun f r =>
  mk_gsm_loc_updating_operation (updating_timer r) (waiting_for_imsi r) (waiting_for_imei r) (f
  (lu_op_key_seq r)).

(** What the callback of a security operation points to. *)
Inductive sec_cbfn : Type :=
| _gsm0408_authorize_sec_cb
| _gsm48_rx_mm_serv_req_sec_cb
| subscr_paging_sec_cb (subscr : nat).

Record gsm_security_operation : Type := mk_gsm_security_operation {
  op_atuple : gsm_auth_tuple;
  op_cb : option sec_cbfn
}.

#[export] Instance upd_op_atuple : Upd op_atuple := fun f r => mk_gsm_security_operation (f
  (op_atuple r)) (op_cb r).
#[export] Instance upd_op_cb : Upd op_cb := fun f r => mk_gsm_security_operation (op_atuple r)
  (f (op_cb r)).

(** The types of BTS. *)
Inductive gsm_bts_type : Type :=
| GSM_BTS_TYPE_UNKNOWN | GSM_BTS_TYPE_BS11 | GSM_BTS_TYPE_NANOBTS | GSM_BTS_TYPE_RBS2000
| GSM_BTS_TYPE_HSL_FEMTO | GSM_BTS_TYPE_NOKIA_SITE.
#[export] Instance gsm_bts_type_eq_dec : EqDecision gsm_bts_type.
Proof. solve_decision. Defined.

(** What this side reads of a BTS, and of the channel of a connection. *)

Record gsm_bts : Type := mk_gsm_bts {
  bts_lac : Z;
  bts_type : gsm_bts_type;
  bts_is_siemens : bool;
  trx_is_usable : bool
}.

#[export] Instance upd_bts_lac : Upd bts_lac := fun f r => mk_gsm_bts (f (bts_lac r)) (bts_type
  r) (bts_is_siemens r) (trx_is_usable r).
#[export] Instance upd_bts_type : Upd bts_type := fun f r => mk_gsm_bts (bts_lac r) (f (bts_type
  r)) (bts_is_siemens r) (trx_is_usable r).
#[export] Instance upd_bts_is_siemens : Upd bts_is_siemens := fun f r => mk_gsm_bts (bts_lac r)
  (bts_type r) (f (bts_is_siemens r)) (trx_is_usable r).
#[export] Instance upd_trx_is_usable : Upd trx_is_usable := fun f r => mk_gsm_bts (bts_lac r)
  (bts_type r) (bts_is_siemens r) (f (trx_is_usable r)).

Record gsm_lchan : Type := mk_gsm_lchan {
  l_type : Chreq.gsm_chan_t;
  l_bts : nat;  (* lchan->ts->trx->bts *)
  encr_alg_id : Z;
  rtp_socket : bool
}.

#[export] Instance upd_l_type : Upd l_type := fun f r => mk_gsm_lchan (f (l_type r)) (l_bts r)
  (encr_alg_id r) (rtp_socket r).
#[export] Instance upd_l_bts : Upd l_bts := fun f r => mk_gsm_lchan (l_type r) (f (l_bts r))
  (encr_alg_id r) (rtp_socket r).
#[export] Instance upd_encr_alg_id : Upd encr_alg_id := fun f r => mk_gsm_lchan (l_type r)
  (l_bts r) (f (encr_alg_id r)) (rtp_socket r).
#[export] Instance upd_rtp_socket : Upd rtp_socket := fun f r => mk_gsm_lchan (l_type r) (l_bts
  r) (encr_alg_id r) (f (rtp_socket r)).

(** A connection, with its channel ([None] after [gsm0808_clear]). *)
Record gsm_subscriber_connection : Type := mk_gsm_subscriber_connection {
  c_subscr : option nat;
  loc_operation : option gsm_loc_updating_operation;
  sec_operation : option gsm_security_operation;
  anch_operation : bool;  (* with its timer *)
  silent_call : bool;
  c_put_channel : bool;
  in_release : bool;
  c_lchan : option gsm_lchan;
  c_bts : nat
}.

#[export] Instance upd_c_subscr : Upd c_subscr := fun f r => mk_gsm_subscriber_connection (f
  (c_subscr r)) (loc_operation r) (sec_operation r) (anch_operation r) (silent_call r)
  (c_put_channel r) (in_release r) (c_lchan r) (c_bts r).
#[export] Instance upd_loc_operation : Upd loc_operation := fun f r =>
  mk_gsm_subscriber_connection (c_subscr r) (f (loc_operation r)) (sec_operation r)
  (anch_operation r) (silent_call r) (c_put_channel r) (in_release r) (c_lchan r) (c_bts r).
#[export] Instance upd_sec_operation : Upd sec_operation := fun f r =>
  mk_gsm_subscriber_connection (c_subscr r) (loc_operation r) (f (sec_operation r))
  (anch_operation r) (silent_call r) (c_put_channel r) (in_release r) (c_lchan r) (c_bts r).
#[export] Instance upd_anch_operation : Upd anch_operation := fun f r =>
  mk_gsm_subscriber_connection (c_subscr r) (loc_operation r) (sec_operation r) (f (anch_operation
  r)) (silent_call r) (c_put_channel r) (in_release r) (c_lchan r) (c_bts r).
#[export] Instance upd_silent_call : Upd silent_call := fun f r => mk_gsm_subscriber_connection
  (c_subscr r) (loc_operation r) (sec_operation r) (anch_operation r) (f (silent_call r))
  (c_put_channel r) (in_release r) (c_lchan r) (c_bts r).
#[export] Instance upd_c_put_channel : Upd c_put_channel := fun f r =>
  mk_gsm_subscriber_connection (c_subscr r) (loc_operation r) (sec_operation r) (anch_operation r)
  (silent_call r) (f (c_put_channel r)) (in_release r) (c_lchan r) (c_bts r).
#[export] Instance upd_in_release : Upd in_release := fun f r => mk_gsm_subscriber_connection
  (c_subscr r) (loc_operation r) (sec_operation r) (anch_operation r) (silent_call r)
  (c_put_channel r) (f (in_release r)) (c_lchan r) (c_bts r).
#[export] Instance upd_c_lchan : Upd c_lchan := fun f r => mk_gsm_subscriber_connection
  (c_subscr r) (loc_operation r) (sec_operation r) (anch_operation r) (silent_call r)
  (c_put_channel r) (in_release r) (f (c_lchan r)) (c_bts r).
#[export] Instance upd_c_bts : Upd c_bts := fun f r => mk_gsm_subscriber_connection (c_subscr r)
  (loc_operation r) (sec_operation r) (anch_operation r) (silent_call r) (c_put_channel r)
  (in_release r) (c_lchan r) (f (c_bts r)).

(** What [cbfn] of a channel request points to, with its parameter. The callback of short messages
    (gsm_04_11.c) is outside this model. *)
Inductive req_cbfn : Type :=
| setup_trig_pag_evt_cb (paging_request : nat)
| paging_cb_send_sms (sms : nat).

Inductive req_state : Type :=
| REQ_STATE_INITIAL | REQ_STATE_QUEUED | REQ_STATE_PAGED | REQ_STATE_FAILED_START | REQ_STATE_DISPATCHED.

(** A pending channel request of a subscriber. *)
Record subscr_request : Type := mk_subscr_request {
  channel_type : Z;
  r_state : req_state;
  r_cbfn : req_cbfn
}.

#[export] Instance upd_channel_type : Upd channel_type := fun f r => mk_subscr_request (f
  (channel_type r)) (r_state r) (r_cbfn r).
#[export] Instance upd_r_state : Upd r_state := fun f r => mk_subscr_request (channel_type r) (f
  (r_state r)) (r_cbfn r).
#[export] Instance upd_r_cbfn : Upd r_cbfn := fun f r => mk_subscr_request (channel_type r)
  (r_state r) (f (r_cbfn r)).

(** The equipment of a subscriber. *)
Record gsm_equipment : Type := mk_gsm_equipment {
  eq_imei : list Z;
  classmark1 : Z;
  classmark2_len : Z;
  classmark2 : list Z;
  classmark3_len : Z;
  classmark3 : list Z
}.

#[export] Instance upd_eq_imei : Upd eq_imei := fun f r => mk_gsm_equipment (f (eq_imei r))
  (classmark1 r) (classmark2_len r) (classmark2 r) (classmark3_len r) (classmark3 r).
#[export] Instance upd_classmark1 : Upd classmark1 := fun f r => mk_gsm_equipment (eq_imei r) (f
  (classmark1 r)) (classmark2_len r) (classmark2 r) (classmark3_len r) (classmark3 r).
#[export] Instance upd_classmark2_len : Upd classmark2_len := fun f r => mk_gsm_equipment
  (eq_imei r) (classmark1 r) (f (classmark2_len r)) (classmark2 r) (classmark3_len r) (classmark3
  r).
#[export] Instance upd_classmark2 : Upd classmark2 := fun f r => mk_gsm_equipment (eq_imei r)
  (classmark1 r) (classmark2_len r) (f (classmark2 r)) (classmark3_len r) (classmark3 r).
#[export] Instance upd_classmark3_len : Upd classmark3_len := fun f r => mk_gsm_equipment
  (eq_imei r) (classmark1 r) (classmark2_len r) (classmark2 r) (f (classmark3_len r)) (classmark3
  r).
#[export] Instance upd_classmark3 : Upd classmark3 := fun f r => mk_gsm_equipment (eq_imei r)
  (classmark1 r) (classmark2_len r) (classmark2 r) (classmark3_len r) (f (classmark3 r)).

(** A subscriber. *)
Record gsm_subscriber : Type := mk_gsm_subscriber {
  s_id : Z;
  s_imsi : list Z;
  s_tmsi : Z;  (* uint32_t *)
  s_lac : Z;  (* uint16_t *)
  s_extension : list Z;
  authorized : Z;
  flags : Z;  (* uint32_t *)
  equipment : gsm_equipment;
  use_count : Z;
  in_callback : bool;
  requests : list subscr_request
}.

#[export] Instance upd_s_id : Upd s_id := fun f r => mk_gsm_subscriber (f (s_id r)) (s_imsi r)
  (s_tmsi r) (s_lac r) (s_extension r) (authorized r) (flags r) (equipment r) (use_count r)
  (in_callback r) (requests r).
#[export] Instance upd_s_imsi : Upd s_imsi := fun f r => mk_gsm_subscriber (s_id r) (f (s_imsi
  r)) (s_tmsi r) (s_lac r) (s_extension r) (authorized r) (flags r) (equipment r) (use_count r)
  (in_callback r) (requests r).
#[export] Instance upd_s_tmsi : Upd s_tmsi := fun f r => mk_gsm_subscriber (s_id r) (s_imsi r)
  (f (s_tmsi r)) (s_lac r) (s_extension r) (authorized r) (flags r) (equipment r) (use_count r)
  (in_callback r) (requests r).
#[export] Instance upd_s_lac : Upd s_lac := fun f r => mk_gsm_subscriber (s_id r) (s_imsi r)
  (s_tmsi r) (f (s_lac r)) (s_extension r) (authorized r) (flags r) (equipment r) (use_count r)
  (in_callback r) (requests r).
#[export] Instance upd_s_extension : Upd s_extension := fun f r => mk_gsm_subscriber (s_id r)
  (s_imsi r) (s_tmsi r) (s_lac r) (f (s_extension r)) (authorized r) (flags r) (equipment r)
  (use_count r) (in_callback r) (requests r).
#[export] Instance upd_authorized : Upd authorized := fun f r => mk_gsm_subscriber (s_id r)
  (s_imsi r) (s_tmsi r) (s_lac r) (s_extension r) (f (authorized r)) (flags r) (equipment r)
  (use_count r) (in_callback r) (requests r).
#[export] Instance upd_flags : Upd flags := fun f r => mk_gsm_subscriber (s_id r) (s_imsi r)
  (s_tmsi r) (s_lac r) (s_extension r) (authorized r) (f (flags r)) (equipment r) (use_count r)
  (in_callback r) (requests r).
#[export] Instance upd_equipment : Upd equipment := fun f r => mk_gsm_subscriber (s_id r)
  (s_imsi r) (s_tmsi r) (s_lac r) (s_extension r) (authorized r) (flags r) (f (equipment r))
  (use_count r) (in_callback r) (requests r).
#[export] Instance upd_use_count : Upd use_count := fun f r => mk_gsm_subscriber (s_id r)
  (s_imsi r) (s_tmsi r) (s_lac r) (s_extension r) (authorized r) (flags r) (equipment r) (f
  (use_count r)) (in_callback r) (requests r).
#[export] Instance upd_in_callback : Upd in_callback := fun f r => mk_gsm_subscriber (s_id r)
  (s_imsi r) (s_tmsi r) (s_lac r) (s_extension r) (authorized r) (flags r) (equipment r)
  (use_count r) (f (in_callback r)) (requests r).
#[export] Instance upd_requests : Upd requests := fun f r => mk_gsm_subscriber (s_id r) (s_imsi
  r) (s_tmsi r) (s_lac r) (s_extension r) (authorized r) (flags r) (equipment r) (use_count r)
  (in_callback r) (f (requests r)).

Definition GSM_RESERVED_TMSI : Z := 0xFFFFFFFF.
Definition GSM_SUBSCRIBER_FIRST_CONTACT : Z := 0x00000001.
Definition GSM_IMSI_LENGTH : nat := 17.
Definition GSM_EXTENSION_LENGTH : nat := 15.

Inductive gsm_subscriber_field : Type :=
| GSM_SUBSCRIBER_IMSI | GSM_SUBSCRIBER_TMSI | GSM_SUBSCRIBER_EXTENSION | GSM_SUBSCRIBER_ID.
Inductive gsm_subscriber_update_reason : Type :=
| GSM_SUBSCRIBER_UPDATE_ATTACHED | GSM_SUBSCRIBER_UPDATE_DETACHED | GSM_SUBSCRIBER_UPDATE_EQUIPMENT.
Inductive gsm_auth_policy : Type :=
| GSM_AUTH_POLICY_CLOSED | GSM_AUTH_POLICY_ACCEPT_ALL | GSM_AUTH_POLICY_TOKEN.

(** What callbacks are told. *)
Inductive paging_event : Type :=
| GSM_PAGING_SUCCEEDED | GSM_PAGING_EXPIRED | GSM_PAGING_OOM | GSM_PAGING_BUSY.
#[export] Instance paging_event_eq_dec : EqDecision paging_event.
Proof. solve_decision. Defined.
Inductive security_event : Type :=
| GSM_SECURITY_NOAVAIL | GSM_SECURITY_AUTH_FAILED | GSM_SECURITY_SUCCEEDED.

(** What [cbfn] of a paging request points to. *)
Inductive pag_cbfn : Type :=
| subscr_paging_cb
| paging_cb_silent (data : Z).

(** A paging request that is pending at a BTS. *)
Record gsm_paging_request : Type := mk_gsm_paging_request {
  p_id : nat;
  p_bts : nat;
  p_subscr : nat;
  p_cbfn : pag_cbfn
}.

#[export] Instance upd_p_id : Upd p_id := fun f r => mk_gsm_paging_request (f (p_id r)) (p_bts
  r) (p_subscr r) (p_cbfn r).
#[export] Instance upd_p_bts : Upd p_bts := fun f r => mk_gsm_paging_request (p_id r) (f (p_bts
  r)) (p_subscr r) (p_cbfn r).
#[export] Instance upd_p_subscr : Upd p_subscr := fun f r => mk_gsm_paging_request (p_id r)
  (p_bts r) (f (p_subscr r)) (p_cbfn r).
#[export] Instance upd_p_cbfn : Upd p_cbfn := fun f r => mk_gsm_paging_request (p_id r) (p_bts
  r) (p_subscr r) (f (p_cbfn r)).

(** One end of a call of the built-in call switch. *)
Record gsm_call : Type := mk_gsm_call {
  call_callref : Z;
  remote_ref : Z
}.

#[export] Instance upd_call_callref : Upd call_callref := fun f r => mk_gsm_call (f
  (call_callref r)) (remote_ref r).
#[export] Instance upd_remote_ref : Upd remote_ref := fun f r => mk_gsm_call (call_callref r) (f
  (remote_ref r)).

(** The counters of the network this side increments. *)
Inductive msc_ctr : Type :=
| CTR_CALL_MO_SETUP | CTR_CALL_MT_SETUP | CTR_CALL_MT_CONNECT | CTR_CALL_MO_CONNECT_ACK
| CTR_LOC_UPD_NORMAL | CTR_LOC_UPD_ATTACH | CTR_LOC_UPD_PERIODIC | CTR_LOC_UPD_DETACH
| CTR_LOC_UPD_ACCEPT | CTR_LOC_UPD_REJECT
| CTR_PAGING_ATTEMPTED | CTR_PAGING_DETACHED | CTR_PAGING_COMPLETED | CTR_PAGING_EXPIRED.

(** What leaves this side. *)
Inductive msc_event : Type :=
| SUBMIT_DTAP (conn : nat) (data : list Z)          (* gsm0808_submit_dtap, link 0 *)
| CLEAR (conn : nat)                                 (* gsm0808_clear *)
| ASSIGN_REQ (conn : nat) (chan_mode full_rate : Z)  (* gsm0808_assign_req *)
| CIPHER_MODE (conn : nat) (cipher : Z) (kc : list Z)
| PAGE (bts subscr : nat)                            (* a request is queued at a BTS *)
| SIEMENS_MRPCI (conn : nat) (classmark2 : list Z)
| MNCC (m : gsm_mncc)                                (* queued for the MNCC application *)
| MNCC_SENT (m : gsm_mncc)                           (* written to its socket *)
| COUNT (c : msc_ctr)
| SUBSCR_ATTACHED (subscr : nat)
| SUBSCR_DETACHED (subscr : nat)
| SUBSCR_IDENTITY (mi : list Z)
| PAGING_RESULT (subscr : nat) (conn : option nat) (event : paging_event)
| SCALL_SUCCESS (conn : option nat) (data : Z)
| SCALL_EXPIRED (conn : option nat) (data : Z)
| SMS_PAGING (sms : nat) (event : paging_event) (conn : option nat)   (* paging_cb_send_sms *)
| HO_COMPL (conn : nat)
| HO_FAIL (conn : nat)
| MEAS_REP (conn : nat) (data : list Z)              (* gsm48_parse_meas_rep *)
| RCV_SMS (conn : nat) (data : list Z)               (* gsm0411_rcv_sms *)
| RCV_USSD (conn : nat) (data : list Z)              (* handle_rcv_ussd *)
| SMS_SAPI_REJECT (conn : nat)                       (* gsm411_sapi_n_reject *)
| DB_SYNC_SUBSCRIBER (subscr : nat)
| DB_ASSOC_IMEI (subscr : nat) (imei : list Z)
| DB_SYNC_EQUIPMENT (subscr : nat)
| DB_SYNC_TUPLE (subscr : nat) (atuple : gsm_auth_tuple)
| DB_APDU_BLOB (subscr : option nat) (id_flags len : Z) (apdu : list Z)
(* speech *)
| IPACC_MDCX_RTPSOCK (conn : nat)                    (* rsl_ipacc_mdcx_to_rtpsock *)
| IPACC_MDCX (conn remote : nat)                     (* rsl_ipacc_mdcx to the other's port *)
| RTP_SOCKET_PROXY (conn remote : nat)
| RTP_SOCKET_UPSTREAM (conn : nat) (callref : Z)
| RTP_SOCKET_FREE (conn : nat)
| RTP_SOCKET_CREATE (conn : nat)
| RTP_SOCKET_CONNECT (conn : nat)
| RTP_SEND_FRAME (conn : nat) (m : gsm_mncc)
| TRAU_MUX_MAP_LCHAN (conn remote : nat)
| TRAU_MUX_UNMAP (conn : option nat) (callref : Z)
| TRAU_RECV_LCHAN (conn : nat) (callref : Z)
| TRAU_SEND_FRAME (conn : nat) (m : gsm_mncc).

(** The state. *)
Record msc_state : Type := mk_msc_state {
  transs : gmap nat gsm_trans;
  trans_list : list nat;
  cc_timers : gmap nat (Z * Z);  (* seconds and microseconds *)
  conns : gmap nat gsm_subscriber_connection;
  conn_list : list nat;  (* in the order of their channels *)
  subscrs : gmap nat gsm_subscriber;
  active_subscribers : list nat;
  btss : list gsm_bts;
  pagings : list gsm_paging_request;
  pag_tokens : gset nat;  (* the [struct gsm_network **] of calls that page *)
  new_callref : Z;  (* of gsm_04_08.c *)
  call_objs : gmap nat gsm_call;
  call_list : list nat;
  int_new_callref : Z;  (* of mncc_builtin.c *)
  sock_conn : bool;  (* an application is connected *)
  upqueue : list gsm_mncc;
  next_id : nat;
  db_queries : nat
}.

#[export] Instance upd_transs : Upd transs := fun f r => mk_msc_state (f (transs r)) (trans_list
  r) (cc_timers r) (conns r) (conn_list r) (subscrs r) (active_subscribers r) (btss r) (pagings r)
  (pag_tokens r) (new_callref r) (call_objs r) (call_list r) (int_new_callref r) (sock_conn r)
  (upqueue r) (next_id r) (db_queries r).
#[export] Instance upd_trans_list : Upd trans_list := fun f r => mk_msc_state (transs r) (f
  (trans_list r)) (cc_timers r) (conns r) (conn_list r) (subscrs r) (active_subscribers r) (btss
  r) (pagings r) (pag_tokens r) (new_callref r) (call_objs r) (call_list r) (int_new_callref r)
  (sock_conn r) (upqueue r) (next_id r) (db_queries r).
#[export] Instance upd_cc_timers : Upd cc_timers := fun f r => mk_msc_state (transs r)
  (trans_list r) (f (cc_timers r)) (conns r) (conn_list r) (subscrs r) (active_subscribers r)
  (btss r) (pagings r) (pag_tokens r) (new_callref r) (call_objs r) (call_list r) (int_new_callref
  r) (sock_conn r) (upqueue r) (next_id r) (db_queries r).
#[export] Instance upd_conns : Upd conns := fun f r => mk_msc_state (transs r) (trans_list r)
  (cc_timers r) (f (conns r)) (conn_list r) (subscrs r) (active_subscribers r) (btss r) (pagings
  r) (pag_tokens r) (new_callref r) (call_objs r) (call_list r) (int_new_callref r) (sock_conn r)
  (upqueue r) (next_id r) (db_queries r).
#[export] Instance upd_conn_list : Upd conn_list := fun f r => mk_msc_state (transs r)
  (trans_list r) (cc_timers r) (conns r) (f (conn_list r)) (subscrs r) (active_subscribers r)
  (btss r) (pagings r) (pag_tokens r) (new_callref r) (call_objs r) (call_list r) (int_new_callref
  r) (sock_conn r) (upqueue r) (next_id r) (db_queries r).
#[export] Instance upd_subscrs : Upd subscrs := fun f r => mk_msc_state (transs r) (trans_list
  r) (cc_timers r) (conns r) (conn_list r) (f (subscrs r)) (active_subscribers r) (btss r)
  (pagings r) (pag_tokens r) (new_callref r) (call_objs r) (call_list r) (int_new_callref r)
  (sock_conn r) (upqueue r) (next_id r) (db_queries r).
#[export] Instance upd_active_subscribers : Upd active_subscribers := fun f r => mk_msc_state
  (transs r) (trans_list r) (cc_timers r) (conns r) (conn_list r) (subscrs r) (f
  (active_subscribers r)) (btss r) (pagings r) (pag_tokens r) (new_callref r) (call_objs r)
  (call_list r) (int_new_callref r) (sock_conn r) (upqueue r) (next_id r) (db_queries r).
#[export] Instance upd_btss : Upd btss := fun f r => mk_msc_state (transs r) (trans_list r)
  (cc_timers r) (conns r) (conn_list r) (subscrs r) (active_subscribers r) (f (btss r)) (pagings
  r) (pag_tokens r) (new_callref r) (call_objs r) (call_list r) (int_new_callref r) (sock_conn r)
  (upqueue r) (next_id r) (db_queries r).
#[export] Instance upd_pagings : Upd pagings := fun f r => mk_msc_state (transs r) (trans_list
  r) (cc_timers r) (conns r) (conn_list r) (subscrs r) (active_subscribers r) (btss r) (f (pagings
  r)) (pag_tokens r) (new_callref r) (call_objs r) (call_list r) (int_new_callref r) (sock_conn r)
  (upqueue r) (next_id r) (db_queries r).
#[export] Instance upd_pag_tokens : Upd pag_tokens := fun f r => mk_msc_state (transs r)
  (trans_list r) (cc_timers r) (conns r) (conn_list r) (subscrs r) (active_subscribers r) (btss r)
  (pagings r) (f (pag_tokens r)) (new_callref r) (call_objs r) (call_list r) (int_new_callref r)
  (sock_conn r) (upqueue r) (next_id r) (db_queries r).
#[export] Instance upd_new_callref : Upd new_callref := fun f r => mk_msc_state (transs r)
  (trans_list r) (cc_timers r) (conns r) (conn_list r) (subscrs r) (active_subscribers r) (btss r)
  (pagings r) (pag_tokens r) (f (new_callref r)) (call_objs r) (call_list r) (int_new_callref r)
  (sock_conn r) (upqueue r) (next_id r) (db_queries r).
#[export] Instance upd_call_objs : Upd call_objs := fun f r => mk_msc_state (transs r)
  (trans_list r) (cc_timers r) (conns r) (conn_list r) (subscrs r) (active_subscribers r) (btss r)
  (pagings r) (pag_tokens r) (new_callref r) (f (call_objs r)) (call_list r) (int_new_callref r)
  (sock_conn r) (upqueue r) (next_id r) (db_queries r).
#[export] Instance upd_call_list : Upd call_list := fun f r => mk_msc_state (transs r)
  (trans_list r) (cc_timers r) (conns r) (conn_list r) (subscrs r) (active_subscribers r) (btss r)
  (pagings r) (pag_tokens r) (new_callref r) (call_objs r) (f (call_list r)) (int_new_callref r)
  (sock_conn r) (upqueue r) (next_id r) (db_queries r).
#[export] Instance upd_int_new_callref : Upd int_new_callref := fun f r => mk_msc_state (transs
  r) (trans_list r) (cc_timers r) (conns r) (conn_list r) (subscrs r) (active_subscribers r) (btss
  r) (pagings r) (pag_tokens r) (new_callref r) (call_objs r) (call_list r) (f (int_new_callref
  r)) (sock_conn r) (upqueue r) (next_id r) (db_queries r).
#[export] Instance upd_sock_conn : Upd sock_conn := fun f r => mk_msc_state (transs r)
  (trans_list r) (cc_timers r) (conns r) (conn_list r) (subscrs r) (active_subscribers r) (btss r)
  (pagings r) (pag_tokens r) (new_callref r) (call_objs r) (call_list r) (int_new_callref r) (f
  (sock_conn r)) (upqueue r) (next_id r) (db_queries r).
#[export] Instance upd_upqueue : Upd upqueue := fun f r => mk_msc_state (transs r) (trans_list
  r) (cc_timers r) (conns r) (conn_list r) (subscrs r) (active_subscribers r) (btss r) (pagings r)
  (pag_tokens r) (new_callref r) (call_objs r) (call_list r) (int_new_callref r) (sock_conn r) (f
  (upqueue r)) (next_id r) (db_queries r).
#[export] Instance upd_next_id : Upd next_id := fun f r => mk_msc_state (transs r) (trans_list
  r) (cc_timers r) (conns r) (conn_list r) (subscrs r) (active_subscribers r) (btss r) (pagings r)
  (pag_tokens r) (new_callref r) (call_objs r) (call_list r) (int_new_callref r) (sock_conn r)
  (upqueue r) (f (next_id r)) (db_queries r).
#[export] Instance upd_db_queries : Upd db_queries := fun f r => mk_msc_state (transs r)
  (trans_list r) (cc_timers r) (conns r) (conn_list r) (subscrs r) (active_subscribers r) (btss r)
  (pagings r) (pag_tokens r) (new_callref r) (call_objs r) (call_list r) (int_new_callref r)
  (sock_conn r) (upqueue r) (next_id r) (f (db_queries r)).


(** ** What the state depends on

    Libraries, configuration and the layers below. The database is asked by queries, whose number
    is an argument of the answer, since what it holds changes. *)
Class MscEnv : Type := {
  (* libosmocore: numbers, in both directions *)
  pdisc_octet : gsm48_pdisc -> Z;
  gsm48_pdisc_of : Z -> option gsm48_pdisc;
  cc_mt_octet : gsm48_cc_mt -> Z;
  cc_mt_of : Z -> option gsm48_cc_mt;
  mm_mt_octet : gsm48_mm_mt -> Z;
  mm_mt_of : Z -> option gsm48_mm_mt;
  rr_mt_octet : gsm48_rr_mt -> Z;
  rr_mt_of : Z -> option gsm48_rr_mt;
  mi_type_octet : gsm_mi_type -> Z;
  mi_type_of : Z -> option gsm_mi_type;
  iei_octet : gsm48_iei -> Z;
  lchan_type_num : Chreq.gsm_chan_t -> Z;
  (* elements of call control: for each tag the memory from its length on, if it is present *)
  cc_tlv_parse : list Z -> option gsm48_iei -> option gsm48_iei -> gsm48_iei -> option (list Z);
  decode_bearer_cap : list Z -> gsm_mncc_bearer_cap;
  decode_called : list Z -> gsm_mncc_number;
  decode_cause : list Z -> gsm_mncc_cause;
  decode_facility : list Z -> list Z;
  decode_progress : list Z -> list Z;
  decode_useruser : list Z -> list Z;
  decode_ssversion : list Z -> list Z;
  decode_cccap : list Z -> list Z;
  decode_keypad : list Z -> Z;
  decode_notify : list Z -> Z;
  (* the octets of an element; [true]: without its tag *)
  encode_bearer_cap : bool -> gsm_mncc_bearer_cap -> list Z;
  encode_facility : bool -> list Z -> list Z;
  encode_progress : bool -> list Z -> list Z;
  encode_useruser : bool -> list Z -> list Z;
  encode_cause : bool -> gsm_mncc_cause -> list Z;
  encode_calling : gsm_mncc_number -> list Z;
  encode_called : gsm_mncc_number -> list Z;
  encode_redirecting : gsm_mncc_number -> list Z;
  encode_connected : gsm_mncc_number -> list Z;
  encode_signal : Z -> list Z;
  encode_keypad : Z -> list Z;
  encode_notify : Z -> list Z;
  encode_more : list Z;
  GSM48_CAUSE_CS_GSM : Z;
  GSM48_CAUSE_LOC_USER : Z;
  GSM48_CAUSE_LOC_PRN_S_LU : Z;
  GSM48_CC_CAUSE_RECOVERY_TIMER : Z;
  GSM48_CC_CAUSE_NORMAL_UNSPEC : Z;
  GSM48_CC_CAUSE_USER_NOTRESPOND : Z;
  GSM48_CC_CAUSE_RESOURCE_UNAVAIL : Z;
  GSM48_CC_CAUSE_DEST_OOO : Z;
  GSM48_CC_CAUSE_INVAL_TRANS_ID : Z;
  GSM48_CC_CAUSE_INV_NR_FORMAT : Z;
  GSM48_CC_CAUSE_UNASSIGNED_NR : Z;
  GSM48_CC_CAUSE_NORM_CALL_CLEAR : Z;
  GSM48_CC_CAUSE_BEARER_CA_UNAVAIL : Z;
  GSM48_CC_CAUSE_SERV_OPT_UNIMPL : Z;
  GSM48_CC_CAUSE_TEMP_FAILURE : Z;
  GSM_MNCC_BCAP_SPEECH : Z;
  RSL_CHANNEED_TCH_F : Z;
  GSM48_T : Z -> Z * Z;  (* the duration of the timer of this number *)
  (* elements of mobility management *)
  gsm48_mi_to_string : list Z -> Z -> list Z;
  gsm48_generate_lai : Z -> Z -> Z -> list Z;
  gsm48_generate_mid_from_tmsi : Z -> list Z;
  gsm_7bit_encode : list Z -> list Z;
  lu_type : list Z -> Z;
  lu_key_seq : list Z -> Z;
  lu_classmark1 : list Z -> Z;
  lu_mi_len : list Z -> Z;
  lu_mi : list Z -> list Z;
  idi_classmark1 : list Z -> Z;
  idi_mi_len : list Z -> Z;
  idi_mi : list Z -> list Z;
  serv_req_mi_len : list Z -> Z;
  serv_req_key_seq : list Z -> Z;
  sizeof_service_request_ptr : Z;
  pag_resp_key_seq : list Z -> Z;
  pag_resp_classmark2 : nat;  (* its offset in struct gsm48_pag_resp *)
  auth_resp_sres : list Z -> list Z;
  GSM48_LUPD_NORMAL : Z;
  GSM48_LUPD_PERIODIC : Z;
  GSM48_LUPD_IMSI_ATT : Z;
  GSM48_IE_NAME_LONG : Z;
  GSM48_IE_NAME_SHORT : Z;
  GSM48_REJECT_PROTOCOL_ERROR : Z;
  GSM48_REJECT_INCORRECT_MESSAGE : Z;
  GSM48_REJECT_IMSI_UNKNOWN_IN_HLR : Z;
  GSM_LAC_RESERVED_DETACHED : Z;
  msgb_data_len : Z;  (* the size of a received message buffer *)
  ms_cm2_a5n_support : list Z -> Z -> bool;
  comp128 : list Z -> list Z -> list Z * list Z;
  (* the C library *)
  random_octets : nat -> list Z;
  uninit_mi : list Z * Z;  (* an identity and its type that were never assigned *)
  (* memory *)
  trans_alloc_ok : bool;
  mncc_msgb_ok : bool;
  pag_token_ok : bool;
  request_alloc_ok : bool;
  call_alloc_ok : bool;
  anchor_alloc_ok : bool;
  (* configuration *)
  mncc_internal : bool;  (* the built-in call switch, or the socket *)
  keep_subscr : bool;
  a5_encryption : Z;
  auth_policy : gsm_auth_policy;
  reject_cause : Z;
  send_mm_info : bool;
  name_long : option (list Z);
  name_short : option (list Z);
  country_code : Z;
  network_code : Z;
  ipacc_rtp_direct : bool;
  handover_active : bool;
  def_codec : Z * Z;
  (* the database *)
  db_get_subscriber : nat -> gsm_subscriber_field -> list Z -> option gsm_subscriber;
  db_new_subscriber : nat -> list Z -> Z * list Z;  (* identifier and extension of a new one *)
  db_alloc_tmsi : nat -> gsm_subscriber -> Z;
  db_get_authinfo : nat -> gsm_subscriber -> Z * (Z * list Z);  (* rc; algorithm and key *)
  db_get_lastauthtuple : nat -> gsm_subscriber -> Z * gsm_auth_tuple;
  db_update : nat -> gsm_subscriber -> gsm_subscriber;  (* db_subscriber_update *)
  (* what the layers below return *)
  event_rc : msc_event -> Z
}.

(** ** The monad, and pointers *)

Abbreviation MS := (M msc_state msc_event).

(** The object a pointer points to: none when it was freed. *)
Definition load {A} (f : msc_state -> gmap nat A) (id : nat) : MS A :=
  fun st => match f st !! id with Some x => Some (x, st, []) | None => None end.
Definition trans_get : nat -> MS gsm_trans := load transs.
Definition conn_get : nat -> MS gsm_subscriber_connection := load conns.
Definition subscr_load : nat -> MS gsm_subscriber := load subscrs.
Definition trans_upd (id : nat) (f : gsm_trans -> gsm_trans) : MS unit :=
  trans_get id;; modify (fun st => st <| transs ::= alter f id |>).
Definition conn_upd (id : nat) (f : gsm_subscriber_connection -> gsm_subscriber_connection) : MS unit :=
  conn_get id;; modify (fun st => st <| conns ::= alter f id |>).
Definition subscr_upd (id : nat) (f : gsm_subscriber -> gsm_subscriber) : MS unit :=
  subscr_load id;; modify (fun st => st <| subscrs ::= alter f id |>).
(** Following a pointer that may be null. *)
Definition deref {A} (p : option A) : MS A := match p with Some a => mret a | None => fault end.
(** The channel of a connection. *)
Definition lchan_get (conn : nat) : MS gsm_lchan := c ← conn_get conn; deref (c_lchan c).

(** An event is emitted and its return code taken. *)
Definition call `{MscEnv} (e : msc_event) : MS Z := emit e;; mret (event_rc e).

(** An element taken out of a list. *)
Definition unlink (id : nat) : list nat -> list nat := filter (fun i => i <> id).

(** The BTS of a number. *)
Definition bts_get (nr : nat) : MS gsm_bts :=
  fun st => match btss st !! nr with Some b => Some (b, st, []) | None => None end.

(** [llist_for_each_entry_safe] over the list of transactions: the pointer to the next element is
    taken before the body runs, and followed after it. [acc] is what the loop accumulates. *)
Fixpoint next_in (id : nat) (l : list nat) : option nat :=
  match l with
  | x :: l' => if decide (x = id) then head l' else next_in id l'
  | [] => None
  end.
Fixpoint for_each_safe {A} (fuel : nat) (cur : option nat) (body : nat -> A -> MS A) (acc : A) : MS A :=
  match cur, fuel with
  | None, _ => mret acc
  | Some _, O => fault
  | Some id, S fuel =>
      trans_get id;;
      temp ← gets (fun st => next_in id (trans_list st));
      acc ← body id acc;
      for_each_safe fuel temp body acc
  end.
Definition for_each_trans {A} (body : nat -> A -> MS A) (acc : A) : MS A :=
  l ← gets trans_list;
  for_each_safe (length l) (head l) body acc.

(** ** Subscribers: gsm_subscriber_base.c *)

Definition equipment_zero : gsm_equipment := mk_gsm_equipment [] 0 0 [] 0 [].
Definition subscr_zero : gsm_subscriber :=
  mk_gsm_subscriber 0 [] GSM_RESERVED_TMSI 0 [] 0 0 equipment_zero 1 false [].

(** [s] is what the caller fills the new subscriber with. *)
Definition subscr_alloc (s : gsm_subscriber) : MS nat :=
  id ← gets next_id;
  modify (fun st => st <| next_id ::= S |>
                       <| subscrs ::= <[id := s <| use_count := 1 |> <| in_callback := false |>
                                                <| requests := [] |>]> |>
                       <| active_subscribers ::= fun l => l ++ [id] |>);;
  mret id.

Section subscribers.
Context {env : MscEnv}.

Definition subscr_free (subscr : nat) : MS unit :=
  subscr_load subscr;;
  modify (fun st => st <| active_subscribers ::= unlink subscr |> <| subscrs ::= delete subscr |>).

Definition subscr_get (subscr : nat) : MS nat :=
  subscr_upd subscr (fun s => s <| use_count ::= Z.succ |>);;
  mret subscr.

Definition subscr_put (subscr : nat) : MS unit :=
  subscr_upd subscr (fun s => s <| use_count ::= Z.pred |>);;
  s ← subscr_load subscr;
  when ((use_count s <=? 0) && negb keep_subscr) (subscr_free subscr).

Definition subscr_purge_inactive : MS unit :=
  modify (fun st =>
    let idle := fun id => match subscrs st !! id with Some s => use_count s <=? 0 | None => false end in
    st <| active_subscribers ::= filter (fun id => idle id = false) |>
       <| subscrs ::= filter (fun p => (use_count (snd p) <=? 0) = false) |>).

(** A query of the database. *)
Definition db_query {A} (answer : nat -> A) : MS A :=
  n ← gets db_queries;
  modify (fun st => st <| db_queries ::= S |>);;
  mret (answer n).

(** A subscriber in memory that satisfies [p], the first of the list, or else the one the database
    has for this field. *)
Definition active_by (p : gsm_subscriber -> bool) (st : msc_state) : option nat :=
  list_find (fun id => match subscrs st !! id with Some s => p s | None => false end = true)
    (active_subscribers st) ≫= fun r => Some (snd r).
Definition subscr_get_by (p : gsm_subscriber -> bool) (field : gsm_subscriber_field) (id : list Z)
  : MS (option nat) :=
  found ← gets (active_by p);
  match found with
  | Some s => s ← subscr_get s; mret (Some s)
  | None =>
      row ← db_query (fun n => db_get_subscriber n field id);
      match row with
      | Some s => s ← subscr_alloc s; mret (Some s)
      | None => mret None
      end
  end.

(** [sprintf("%u")] and [strtoul(str, NULL, 10)] of digits. *)
Fixpoint decimal (fuel : nat) (n : Z) : list Z :=
  match fuel with
  | O => []
  | S fuel => (if n <? 10 then [] else decimal fuel (n / 10)) ++ [48 + n mod 10]
  end.
Fixpoint strtoul (acc : Z) (str : list Z) : Z :=
  match str with
  | c :: str => if (48 <=? c) && (c <=? 57) then strtoul (acc * 10 + (c - 48)) str else acc
  | [] => acc
  end.
Definition tmsi_from_string (str : list Z) : Z := u32 (Z.min (strtoul 0 str) (2 ^ 64 - 1)).

Definition subscr_get_by_tmsi (tmsi : Z) : MS (option nat) :=
  subscr_get_by (fun s => s_tmsi s =? tmsi) GSM_SUBSCRIBER_TMSI (decimal 10 tmsi).
Definition subscr_get_by_imsi (imsi : list Z) : MS (option nat) :=
  subscr_get_by (fun s => bool_decide (s_imsi s = imsi)) GSM_SUBSCRIBER_IMSI imsi.
Definition subscr_get_by_extension (ext : list Z) : MS (option nat) :=
  subscr_get_by (fun s => bool_decide (s_extension s = ext)) GSM_SUBSCRIBER_EXTENSION ext.

(** [connection_for_subscr]: the first channel whose connection is of this subscriber. *)
Definition connection_for_subscr (subscr : nat) (st : msc_state) : option nat :=
  list_find (fun id => match conns st !! id with
                       | Some c => bool_decide (c_subscr c = Some subscr)
                       | None => false
                       end = true) (conn_list st) ≫= fun r => Some (snd r).
End subscribers.

(** ** Transactions: transaction.c *)

(** The first transaction of the list that satisfies [p]. *)
Definition trans_find (p : gsm_trans -> bool) (st : msc_state) : option nat :=
  list_find (fun id => match transs st !! id with Some t => p t | None => false end = true)
    (trans_list st) ≫= fun r => Some (snd r).

Definition trans_find_by_id (subscr : nat) (proto : gsm48_pdisc) (trans_id : Z) (st : msc_state)
  : option nat :=
  trans_find (fun t => bool_decide (t_subscr t = subscr) && bool_decide (protocol t = proto)
                       && (transaction_id t =? trans_id)) st.
Definition trans_find_by_callref (callref : Z) (st : msc_state) : option nat :=
  trans_find (fun t => t_callref t =? callref) st.

(** What [talloc_zero] and the assignments of [trans_alloc] leave. *)
Definition trans_new (subscr : nat) (proto : gsm48_pdisc) (trans_id callref : Z) : gsm_trans :=
  mk_gsm_trans proto trans_id subscr None callref 0 None GSM_CSTATE_NULL 0 0 mncc_zero.

Section transactions.
Context {env : MscEnv}.

Definition trans_alloc (subscr : nat) (proto : gsm48_pdisc) (trans_id callref : Z) : MS (option nat) :=
  subscr_load subscr;;
  if trans_alloc_ok then
    subscr_get subscr;;
    id ← gets next_id;
    modify (fun st => st <| next_id ::= S |>
                         <| transs ::= <[id := trans_new subscr proto trans_id callref]> |>
                         <| trans_list ::= fun l => l ++ [id] |>);;
    mret (Some id)
  else mret None.

(** The transaction identifiers in use, as a mask ([1 << 0xff] never occurs). *)
Definition used_tid_bitmask (subscr : nat) (proto : gsm48_pdisc) (st : msc_state) : Z :=
  foldl (fun mask id =>
           match transs st !! id with
           | Some t =>
               if bool_decide (t_subscr t <> subscr) || bool_decide (protocol t <> proto)
                  || (transaction_id t =? 0xff)
               then mask else mask .| (1 .<< transaction_id t)
           | None => mask
           end) 0 (trans_list st).

(** [for (h = 6; h > 0; h--)]: the highest identifier in use, 0 if it is none of 1 to 6. *)
Fixpoint tid_last (mask ti_flag : Z) (h : nat) : nat :=
  match h with
  | O => O
  | S h' => if tst mask (1 .<< (Z.of_nat h .| ti_flag)) then h else tid_last mask ti_flag h'
  end.
(** [for (i = 0; i < 7; i++)], with [n] rounds left. *)
Fixpoint tid_search (mask ti_flag : Z) (h i n : nat) : Z :=
  match n with
  | O => -1
  | S n => let j := Z.of_nat ((h + i) mod 7) .| ti_flag in
           if negb (tst mask (1 .<< j)) then j else tid_search mask ti_flag h (S i) n
  end.
Definition trans_assign_trans_id (subscr : nat) (proto : gsm48_pdisc) (ti_flag : Z) (st : msc_state) : Z :=
  let ti_flag := if ti_flag =? 0 then 0 else 0x8 in
  let mask := used_tid_bitmask subscr proto st in
  tid_search mask ti_flag (tid_last mask ti_flag 6) 0 7.

End transactions.

(** ** Calls that come back *)

Class Upcalls : Type := {
  mncc_recv : gsm_mncc -> MS unit;           (* cc_tx_to_mncc: net->mncc_recv *)
  subscr_put_channel : option nat -> MS unit
}.

End Msc.
