(* ===== verification/Cc.v ===== *)
(** Call control: gsm_04_08.c from [new_cc_state] to [gsm0408_rcv_cc], trans_free
    (libmsc/transaction.c) and msc_release_connection (libmsc/osmo_msc.c).

    One definition per handler, on the state of Msc.v. The two tables of the code,
    [downstatelist] and [datastatelist], are lists of handlers with the states they are for.
    Debugging output is left out, except that the objects it reads are read here, too. *)

From S2P Require Import Prelude Chreq Msc.
Import Msc.

Module Cc.

Section cc.
Context {env : MscEnv} {up : Upcalls}.
Implicit Types (t conn : nat) (m : gsm_mncc).

(** ** Messages *)

(** A message to the mobile, without its first octet, which [gsm48_conn_sendmsg] sets. *)
Definition cc_msg_new (mt : gsm48_cc_mt) : list Z := [0; cc_mt_octet mt].

Definition gsm0808_submit_dtap (conn : option nat) (msg : list Z) : MS Z :=
  id ← deref conn;
  c ← conn_get id;
  match c_lchan c with
  | None => mret (-1)
  | Some _ => call (SUBMIT_DTAP id msg)
  end.

Definition gsm48_conn_sendmsg (msg : list Z) (conn : option nat) (trans : option nat) : MS Z :=
  msg ← match trans with
        | Some t =>
            tr ← trans_get t;
            c ← deref (t_conn tr);
            conn_get c;;
            mret (u8 (pdisc_octet (protocol tr) .| (transaction_id tr .<< 4)) :: tail msg)
        | None => mret msg
        end;
  gsm0808_submit_dtap conn msg.

(** [gsm48_conn_sendmsg(msg, trans->conn, trans)] *)
Definition trans_sendmsg t (msg : list Z) : MS Z :=
  tr ← trans_get t;
  gsm48_conn_sendmsg msg (t_conn tr) (Some t).

Definition gsm48_tx_simple (conn : option nat) (pdisc : Z) (mt : Z) : MS Z :=
  id ← deref conn;
  conn_get id;;
  gsm48_conn_sendmsg [pdisc; mt] conn None.

Definition set_field (flag : Z) (m : gsm_mncc) : gsm_mncc := m <| fields ::= fun x => x .| flag |>.

Definition mncc_set_cause (data : gsm_mncc) (loc val : Z) : gsm_mncc :=
  (set_field MNCC_F_CAUSE data) <| cause ::= fun c => c <| location := loc |> <| value := val |> |>.

(** [memset(&m, 0, ...); m.callref = callref;] *)
Definition mncc_for (ref : Z) : gsm_mncc := mncc_zero <| callref := ref |>.

Definition new_cc_state t (state : cc_cstate) : MS unit := trans_upd t (fun tr => tr <| cc_state := state |>).

Definition gsm48_cc_tx_status t : MS Z :=
  trans_sendmsg t (cc_msg_new GSM48_MT_CC_STATUS
                     ++ [2; GSM48_CAUSE_CS_GSM .| GSM48_CAUSE_LOC_USER; 0x80 .| 30] ++ [0xc0 .| 0x00]).

(** ** Timers *)

Definition gsm48_stop_cc_timer t : MS unit :=
  trans_get t;;
  pending ← gets (fun st => cc_timers st !! t);
  match pending with
  | Some _ =>
      modify (fun st => st <| cc_timers ::= delete t |>);;
      trans_upd t (fun tr => tr <| Tcurrent := 0 |>)
  | None => mret tt
  end.

Definition gsm48_start_cc_timer t (current : Z) : MS unit :=
  trans_get t;;
  modify (fun st => st <| cc_timers ::= <[t := GSM48_T current]> |>);;
  trans_upd t (fun tr => tr <| Tcurrent := current |>).

(** ** Towards the MNCC application *)

(** The objects the debugging output reads. *)
Definition trans_debug (trans : option nat) : MS unit :=
  match trans with
  | Some t =>
      tr ← trans_get t;
      subscr_load (t_subscr tr);;
      match t_conn tr with Some c => conn_get c;; mret tt | None => mret tt end
  | None => mret tt
  end.

Definition mncc_recvmsg (trans : option nat) (mt : Z) (mncc : gsm_mncc) : MS Z :=
  trans_debug trans;;
  if mncc_msgb_ok then
    mncc_recv (mncc <| msg_type := mt |>);;
    mret 0
  else mret (- ENOMEM).

Definition mncc_release_ind (trans : option nat) (ref loc val : Z) : MS Z :=
  mncc_recvmsg trans MNCC_REL_IND (mncc_set_cause (mncc_for ref) loc val).

(** ** Release of transactions and connections *)

Definition _gsm48_cc_trans_free t : MS unit :=
  gsm48_stop_cc_timer t;;
  tr ← trans_get t;
  when (negb (t_callref tr =? 0))
    (subscr_load (t_subscr tr);;
     mncc_release_ind (Some t) (t_callref tr) GSM48_CAUSE_LOC_PRN_S_LU
       GSM48_CC_CAUSE_RESOURCE_UNAVAIL;; mret tt);;
  tr ← trans_get t;
  when (bool_decide (cc_state tr <> GSM_CSTATE_NULL)) (new_cc_state t GSM_CSTATE_NULL);;
  tr ← trans_get t;
  match t_conn tr with
  | Some c => lchan_get c;; call (TRAU_MUX_UNMAP (Some c) (t_callref tr));; mret tt
  | None => mret tt
  end.

Definition gsm0808_clear conn : MS unit :=
  call (CLEAR conn);;
  conn_upd conn (fun c => c <| c_lchan := None |>);;
  modify (fun st => st <| conn_list ::= unlink conn |>).

Definition subscr_con_free conn : MS unit :=
  c ← conn_get conn;
  match c_subscr c with Some s => subscr_put s | None => mret tt end;;
  conn_get conn;;
  modify (fun st => st <| conn_list ::= unlink conn |> <| conns ::= delete conn |>).

Definition msc_release_connection conn : MS unit :=
  c ← conn_get conn;
  if in_release c then mret tt
  else if silent_call c then mret tt
  else if bool_decide (is_Some (loc_operation c)) || bool_decide (is_Some (sec_operation c))
          || anch_operation c then mret tt
  else
    user ← gets (trans_find (fun tr => bool_decide (t_conn tr = Some conn)));
    match user with
    | Some _ => mret tt
    | None =>
        conn_upd conn (fun c => c <| in_release := true |>);;
        gsm0808_clear conn;;
        c ← conn_get conn;
        when (c_put_channel c)
          (conn_upd conn (fun c => c <| c_put_channel := false |>);;
           subscr_put_channel (c_subscr c));;
        subscr_con_free conn
    end.

(** Transactions of short messages are outside this model: nothing is done for them here. *)
Definition trans_free t : MS unit :=
  tr ← trans_get t;
  when (bool_decide (protocol tr = GSM48_PDISC_CC)) (_gsm48_cc_trans_free t);;
  tr ← trans_get t;
  when (bool_decide (t_conn tr = None) && bool_decide (is_Some (paging_request tr)))
    (subscr_load (t_subscr tr);;
     trans_upd t (fun tr => tr <| paging_request := None |>));;
  subscr_put (t_subscr tr);;
  modify (fun st => st <| trans_list ::= unlink t |>);;
  tr ← trans_get t;
  match t_conn tr with Some c => msc_release_connection c | None => mret tt end;;
  trans_get t;;
  modify (fun st => st <| transs ::= delete t |>).

(** [trans->callref = 0; trans_free(trans);] *)
Definition trans_forget t : MS unit :=
  trans_upd t (fun tr => tr <| t_callref := 0 |>);;
  trans_free t.

(** ** Received elements *)

Abbreviation tlvs := (gsm48_iei -> option (list Z)).

(** The l3 header and what follows it. *)
Definition gh_data (msg : list Z) : list Z := drop 2 msg.
Definition tlv_parse (msg : list Z) (lv1 lv2 : option gsm48_iei) : tlvs :=
  cc_tlv_parse (gh_data msg) lv1 lv2.

(** [if (TLVP_PRESENT(&tp, ie)) { m.fields |= flag; decode } ] *)
Definition ie (tp : tlvs) (i : gsm48_iei) (flag : Z) (put : list Z -> gsm_mncc -> gsm_mncc) (m : gsm_mncc)
  : gsm_mncc :=
  match tp i with Some lv => put lv (set_field flag m) | None => m end.
Definition ie_bearer_cap (tp : tlvs) : gsm_mncc -> gsm_mncc :=
  ie tp GSM48_IE_BEARER_CAP MNCC_F_BEARER_CAP (fun lv m => m <| bearer_cap := decode_bearer_cap lv |>).
Definition ie_facility (tp : tlvs) : gsm_mncc -> gsm_mncc :=
  ie tp GSM48_IE_FACILITY MNCC_F_FACILITY (fun lv m => m <| facility := decode_facility lv |>).
Definition ie_called (tp : tlvs) : gsm_mncc -> gsm_mncc :=
  ie tp GSM48_IE_CALLED_BCD MNCC_F_CALLED (fun lv m => m <| called := decode_called lv |>).
Definition ie_useruser (tp : tlvs) : gsm_mncc -> gsm_mncc :=
  ie tp GSM48_IE_USER_USER MNCC_F_USERUSER (fun lv m => m <| useruser := decode_useruser lv |>).
Definition ie_ssversion (tp : tlvs) : gsm_mncc -> gsm_mncc :=
  ie tp GSM48_IE_SS_VERS MNCC_F_SSVERSION (fun lv m => m <| ssversion := decode_ssversion lv |>).
Definition ie_cccap (tp : tlvs) : gsm_mncc -> gsm_mncc :=
  ie tp GSM48_IE_CC_CAP MNCC_F_CCCAP (fun lv m => m <| cccap := decode_cccap lv |>).
Definition ie_cause (tp : tlvs) : gsm_mncc -> gsm_mncc :=
  ie tp GSM48_IE_CAUSE MNCC_F_CAUSE (fun lv m => m <| cause := decode_cause lv |>).
Definition ie_progress (tp : tlvs) : gsm_mncc -> gsm_mncc :=
  ie tp GSM48_IE_PROGR_IND MNCC_F_PROGRESS (fun lv m => m <| progress := decode_progress lv |>).
Definition ie_keypad (tp : tlvs) : gsm_mncc -> gsm_mncc :=
  ie tp GSM48_IE_KPD_FACILITY MNCC_F_KEYPAD (fun lv m => m <| keypad := decode_keypad lv |>).
(** [if (TLVP_PRESENT(&tp, ie)) set;] *)
Definition ie_flag (tp : tlvs) (i : gsm48_iei) (set : gsm_mncc -> gsm_mncc) (m : gsm_mncc) : gsm_mncc :=
  match tp i with Some _ => set m | None => m end.

(** [if (trans->conn && trans->conn->lchan) m.lchan_type = ...;] *)
Definition with_lchan_type (tr : gsm_trans) (m : gsm_mncc) : MS gsm_mncc :=
  match t_conn tr with
  | Some c =>
      cn ← conn_get c;
      mret match c_lchan cn with
           | Some l => m <| lchan_type := lchan_type_num (l_type l) |>
           | None => m
           end
  | None => mret m
  end.

(** The octets of the element if the message has it. *)
Definition opt (m : gsm_mncc) (flag : Z) (octets : list Z) : list Z :=
  if tst (fields m) flag then octets else [].

(** ** Handlers *)

Definition gsm48_cc_rx_status_enq t (msg : list Z) : MS Z := gsm48_cc_tx_status t.

(** [strncpy] of the subscriber's number and IMSI. *)
Definition gsm48_cc_rx_setup t (msg : list Z) : MS Z :=
  tr ← trans_get t;
  setup ← with_lchan_type tr (mncc_for (t_callref tr));
  let tp := tlv_parse msg None None in
  let setup := if bool_decide (cc_mt_of (rd msg 1 .& 0xbf) = Some GSM48_MT_CC_EMERG_SETUP)
               then setup <| emergency := 1 |> else setup in
  s ← subscr_load (t_subscr tr);
  let setup := (set_field MNCC_F_CALLING setup)
                 <| calling ::= fun n => n <| number := s_extension s |> |>
                 <| mncc_imsi := take 15 (s_imsi s) |> in
  let setup := ie_ssversion tp (ie_useruser tp (ie_called tp (ie_facility tp (ie_bearer_cap tp setup)))) in
  let setup := ie_flag tp GSM48_IE_CLIR_SUPP (fun m => m <| clir_sup := 1 |>) setup in
  let setup := ie_flag tp GSM48_IE_CLIR_INVOC (fun m => m <| clir_inv := 1 |>) setup in
  let setup := ie_cccap tp setup in
  new_cc_state t GSM_CSTATE_INITIATED;;
  emit (COUNT CTR_CALL_MO_SETUP);;
  mncc_recvmsg (Some t) MNCC_SETUP_IND setup;;
  mret 0.

Definition gsm48_cc_tx_setup t (setup : gsm_mncc) : MS Z :=
  tr ← trans_get t;
  let refuse :=
    rc ← mncc_release_ind (Some t) (t_callref tr) GSM48_CAUSE_LOC_PRN_S_LU
           GSM48_CC_CAUSE_RESOURCE_UNAVAIL;
    trans_forget t;;
    mret rc in
  if negb (transaction_id tr =? 0xff) then refuse
  else
    subscr_load (t_subscr tr);;
    trans_id ← gets (trans_assign_trans_id (t_subscr tr) GSM48_PDISC_CC 0);
    if trans_id <? 0 then refuse
    else
      trans_upd t (fun tr => tr <| transaction_id := u8 trans_id |>);;
      gsm48_start_cc_timer t 0x303;;
      new_cc_state t GSM_CSTATE_CALL_PRESENT;;
      emit (COUNT CTR_CALL_MT_SETUP);;
      trans_sendmsg t (cc_msg_new GSM48_MT_CC_SETUP
        ++ opt setup MNCC_F_BEARER_CAP (encode_bearer_cap false (bearer_cap setup))
        ++ opt setup MNCC_F_FACILITY (encode_facility false (facility setup))
        ++ opt setup MNCC_F_PROGRESS (encode_progress false (progress setup))
        ++ opt setup MNCC_F_CALLING (encode_calling (calling setup))
        ++ opt setup MNCC_F_CALLED (encode_called (called setup))
        ++ opt setup MNCC_F_USERUSER (encode_useruser false (useruser setup))
        ++ opt setup MNCC_F_REDIRECTING (encode_redirecting (redirecting setup))
        ++ opt setup MNCC_F_SIGNAL (encode_signal (signal setup))).

Definition gsm48_cc_rx_call_conf t (msg : list Z) : MS Z :=
  gsm48_stop_cc_timer t;;
  gsm48_start_cc_timer t 0x310;;
  tr ← trans_get t;
  call_conf ← with_lchan_type tr (mncc_for (t_callref tr));
  let tp := tlv_parse msg None None in
  new_cc_state t GSM_CSTATE_MO_TERM_CALL_CONF;;
  mncc_recvmsg (Some t) MNCC_CALL_CONF_IND (ie_cccap tp (ie_cause tp (ie_bearer_cap tp call_conf))).

Definition gsm48_cc_tx_call_proc t (proceeding : gsm_mncc) : MS Z :=
  new_cc_state t GSM_CSTATE_MO_CALL_PROC;;
  trans_sendmsg t (cc_msg_new GSM48_MT_CC_CALL_PROC
    ++ opt proceeding MNCC_F_BEARER_CAP (encode_bearer_cap false (bearer_cap proceeding))
    ++ opt proceeding MNCC_F_FACILITY (encode_facility false (facility proceeding))
    ++ opt proceeding MNCC_F_PROGRESS (encode_progress false (progress proceeding))).

Definition gsm48_cc_rx_alerting t (msg : list Z) : MS Z :=
  gsm48_stop_cc_timer t;;
  gsm48_start_cc_timer t 0x301;;
  tr ← trans_get t;
  let tp := tlv_parse msg None None in
  new_cc_state t GSM_CSTATE_CALL_RECEIVED;;
  mncc_recvmsg (Some t) MNCC_ALERT_IND
    (ie_ssversion tp (ie_progress tp (ie_facility tp (mncc_for (t_callref tr))))).

Definition gsm48_cc_tx_alerting t (alerting : gsm_mncc) : MS Z :=
  new_cc_state t GSM_CSTATE_CALL_DELIVERED;;
  trans_sendmsg t (cc_msg_new GSM48_MT_CC_ALERTING
    ++ opt alerting MNCC_F_FACILITY (encode_facility false (facility alerting))
    ++ opt alerting MNCC_F_PROGRESS (encode_progress false (progress alerting))
    ++ opt alerting MNCC_F_USERUSER (encode_useruser false (useruser alerting))).

Definition gsm48_cc_tx_progress t (prog : gsm_mncc) : MS Z :=
  trans_sendmsg t (cc_msg_new GSM48_MT_CC_PROGRESS
    ++ encode_progress true (progress prog)
    ++ opt prog MNCC_F_USERUSER (encode_useruser false (useruser prog))).

Definition gsm48_cc_tx_connect t (connect : gsm_mncc) : MS Z :=
  gsm48_stop_cc_timer t;;
  gsm48_start_cc_timer t 0x313;;
  new_cc_state t GSM_CSTATE_CONNECT_IND;;
  trans_sendmsg t (cc_msg_new GSM48_MT_CC_CONNECT
    ++ opt connect MNCC_F_FACILITY (encode_facility false (facility connect))
    ++ opt connect MNCC_F_PROGRESS (encode_progress false (progress connect))
    ++ opt connect MNCC_F_CONNECTED (encode_connected (connected connect))
    ++ opt connect MNCC_F_USERUSER (encode_useruser false (useruser connect))).

Definition gsm48_cc_rx_connect t (msg : list Z) : MS Z :=
  gsm48_stop_cc_timer t;;
  tr ← trans_get t;
  let tp := tlv_parse msg None None in
  s ← subscr_load (t_subscr tr);
  let connect := (set_field MNCC_F_CONNECTED (mncc_for (t_callref tr)))
                   <| connected ::= fun n => n <| number := s_extension s |> |>
                   <| mncc_imsi := take 15 (s_imsi s) |> in
  new_cc_state t GSM_CSTATE_CONNECT_REQUEST;;
  emit (COUNT CTR_CALL_MT_CONNECT);;
  mncc_recvmsg (Some t) MNCC_SETUP_CNF (ie_ssversion tp (ie_useruser tp (ie_facility tp connect))).

Definition gsm48_cc_rx_connect_ack t (msg : list Z) : MS Z :=
  gsm48_stop_cc_timer t;;
  new_cc_state t GSM_CSTATE_ACTIVE;;
  emit (COUNT CTR_CALL_MO_CONNECT_ACK);;
  tr ← trans_get t;
  mncc_recvmsg (Some t) MNCC_SETUP_COMPL_IND (mncc_for (t_callref tr)).

Definition gsm48_cc_tx_connect_ack t (arg : gsm_mncc) : MS Z :=
  new_cc_state t GSM_CSTATE_ACTIVE;;
  trans_sendmsg t (cc_msg_new GSM48_MT_CC_CONNECT_ACK).

Definition gsm48_cc_rx_disconnect t (msg : list Z) : MS Z :=
  gsm48_stop_cc_timer t;;
  new_cc_state t GSM_CSTATE_DISCONNECT_REQ;;
  tr ← trans_get t;
  let tp := tlv_parse msg (Some GSM48_IE_CAUSE) None in
  mncc_recvmsg (Some t) MNCC_DISC_IND
    (ie_ssversion tp (ie_useruser tp (ie_facility tp (ie_cause tp (mncc_for (t_callref tr)))))).

Definition default_cause : gsm_mncc_cause :=
  mk_gsm_mncc_cause GSM48_CAUSE_LOC_PRN_S_LU 0 0 0 GSM48_CC_CAUSE_NORMAL_UNSPEC 0 [].

(** [encode_cause] of the message's cause, or of the default. *)
Definition cause_or_default (m : gsm_mncc) : list Z :=
  if tst (fields m) MNCC_F_CAUSE then encode_cause true (cause m) else encode_cause true default_cause.

Definition gsm48_cc_tx_disconnect t (disc : gsm_mncc) : MS Z :=
  gsm48_stop_cc_timer t;;
  gsm48_start_cc_timer t 0x306;;
  trans_upd t (fun tr => tr <| cc_msg := disc |>);;
  new_cc_state t GSM_CSTATE_DISCONNECT_IND;;
  trans_sendmsg t (cc_msg_new GSM48_MT_CC_DISCONNECT
    ++ cause_or_default disc
    ++ opt disc MNCC_F_FACILITY (encode_facility false (facility disc))
    ++ opt disc MNCC_F_PROGRESS (encode_progress false (progress disc))
    ++ opt disc MNCC_F_USERUSER (encode_useruser false (useruser disc))).

Definition gsm48_cc_rx_release t (msg : list Z) : MS Z :=
  gsm48_stop_cc_timer t;;
  tr ← trans_get t;
  let tp := tlv_parse msg None None in
  let rel := ie_ssversion tp (ie_useruser tp (ie_facility tp (ie_cause tp (mncc_for (t_callref tr))))) in
  rc ← (if bool_decide (cc_state tr = GSM_CSTATE_RELEASE_REQ) then
          mncc_recvmsg (Some t) MNCC_REL_CNF rel
        else
          gsm48_tx_simple (t_conn tr)
            (u8 (pdisc_octet GSM48_PDISC_CC .| (transaction_id tr .<< 4)))
            (cc_mt_octet GSM48_MT_CC_RELEASE_COMPL);;
          mncc_recvmsg (Some t) MNCC_REL_IND rel);
  new_cc_state t GSM_CSTATE_NULL;;
  trans_forget t;;
  mret rc.

Definition gsm48_cc_tx_release t (rel : gsm_mncc) : MS Z :=
  trans_upd t (fun tr => tr <| t_callref := 0 |>);;
  gsm48_stop_cc_timer t;;
  gsm48_start_cc_timer t 0x308;;
  trans_upd t (fun tr => tr <| T308_second := 0 |> <| cc_msg := rel |>);;
  tr ← trans_get t;
  when (bool_decide (cc_state tr <> GSM_CSTATE_RELEASE_REQ)) (new_cc_state t GSM_CSTATE_RELEASE_REQ);;
  trans_sendmsg t (cc_msg_new GSM48_MT_CC_RELEASE
    ++ opt rel MNCC_F_CAUSE (encode_cause false (cause rel))
    ++ opt rel MNCC_F_FACILITY (encode_facility false (facility rel))
    ++ opt rel MNCC_F_USERUSER (encode_useruser false (useruser rel))).

Definition gsm48_cc_rx_release_compl t (msg : list Z) : MS Z :=
  gsm48_stop_cc_timer t;;
  tr ← trans_get t;
  let tp := tlv_parse msg None None in
  let rel := ie_ssversion tp (ie_useruser tp (ie_facility tp (ie_cause tp (mncc_for (t_callref tr))))) in
  rc ← (if negb (t_callref tr =? 0) then
          mncc_recvmsg (Some t)
            match cc_state tr with
            | GSM_CSTATE_CALL_PRESENT => MNCC_REJ_IND
            | GSM_CSTATE_RELEASE_REQ => MNCC_REL_CNF
            | _ => MNCC_REL_IND
            end rel
        else mret 0);
  trans_forget t;;
  mret rc.

Definition gsm48_cc_tx_release_compl t (rel : gsm_mncc) : MS Z :=
  trans_upd t (fun tr => tr <| t_callref := 0 |>);;
  gsm48_stop_cc_timer t;;
  ret ← trans_sendmsg t (cc_msg_new GSM48_MT_CC_RELEASE_COMPL
    ++ opt rel MNCC_F_CAUSE (encode_cause false (cause rel))
    ++ opt rel MNCC_F_FACILITY (encode_facility false (facility rel))
    ++ opt rel MNCC_F_USERUSER (encode_useruser false (useruser rel)));
  trans_free t;;
  mret ret.

(** What is only indicated: [build] fills the message. *)
Definition cc_indicate t (ind : Z) (build : gsm_mncc -> gsm_mncc) : MS Z :=
  tr ← trans_get t;
  mncc_recvmsg (Some t) ind (build (mncc_for (t_callref tr))).

Definition gsm48_cc_rx_facility t (msg : list Z) : MS Z :=
  let tp := tlv_parse msg (Some GSM48_IE_FACILITY) None in
  cc_indicate t MNCC_FACILITY_IND (fun fac => ie_ssversion tp (ie_facility tp fac)).
Definition gsm48_cc_tx_facility t (fac : gsm_mncc) : MS Z :=
  trans_sendmsg t (cc_msg_new GSM48_MT_CC_FACILITY ++ encode_facility true (facility fac)).
Definition gsm48_cc_rx_hold t (msg : list Z) : MS Z := cc_indicate t MNCC_HOLD_IND id.
Definition gsm48_cc_tx_hold_ack t (arg : gsm_mncc) : MS Z :=
  trans_sendmsg t (cc_msg_new GSM48_MT_CC_HOLD_ACK).
Definition gsm48_cc_tx_hold_rej t (hold_rej : gsm_mncc) : MS Z :=
  trans_sendmsg t (cc_msg_new GSM48_MT_CC_HOLD_REJ ++ cause_or_default hold_rej).
Definition gsm48_cc_rx_retrieve t (msg : list Z) : MS Z := cc_indicate t MNCC_RETRIEVE_IND id.
Definition gsm48_cc_tx_retrieve_ack t (arg : gsm_mncc) : MS Z :=
  trans_sendmsg t (cc_msg_new GSM48_MT_CC_RETR_ACK).
Definition gsm48_cc_tx_retrieve_rej t (retrieve_rej : gsm_mncc) : MS Z :=
  trans_sendmsg t (cc_msg_new GSM48_MT_CC_RETR_REJ ++ cause_or_default retrieve_rej).
Definition gsm48_cc_rx_start_dtmf t (msg : list Z) : MS Z :=
  cc_indicate t MNCC_START_DTMF_IND (ie_keypad (tlv_parse msg None None)).
Definition gsm48_cc_tx_start_dtmf_ack t (dtmf : gsm_mncc) : MS Z :=
  trans_sendmsg t (cc_msg_new GSM48_MT_CC_START_DTMF_ACK
    ++ opt dtmf MNCC_F_KEYPAD (encode_keypad (keypad dtmf))).
Definition gsm48_cc_tx_start_dtmf_rej t (dtmf : gsm_mncc) : MS Z :=
  trans_sendmsg t (cc_msg_new GSM48_MT_CC_START_DTMF_REJ ++ cause_or_default dtmf).
Definition gsm48_cc_tx_stop_dtmf_ack t (arg : gsm_mncc) : MS Z :=
  trans_sendmsg t (cc_msg_new GSM48_MT_CC_STOP_DTMF_ACK).
Definition gsm48_cc_rx_stop_dtmf t (msg : list Z) : MS Z := cc_indicate t MNCC_STOP_DTMF_IND id.

Definition gsm48_cc_rx_modify t (msg : list Z) : MS Z :=
  tr ← trans_get t;
  let tp := tlv_parse msg (Some GSM48_IE_BEARER_CAP) None in
  new_cc_state t GSM_CSTATE_MO_ORIG_MODIFY;;
  mncc_recvmsg (Some t) MNCC_MODIFY_IND (ie_bearer_cap tp (mncc_for (t_callref tr))).
Definition gsm48_cc_tx_modify t (modify : gsm_mncc) : MS Z :=
  gsm48_start_cc_timer t 0x323;;
  new_cc_state t GSM_CSTATE_MO_TERM_MODIFY;;
  trans_sendmsg t (cc_msg_new GSM48_MT_CC_MODIFY ++ encode_bearer_cap true (bearer_cap modify)).
Definition gsm48_cc_rx_modify_complete t (msg : list Z) : MS Z :=
  gsm48_stop_cc_timer t;;
  tr ← trans_get t;
  let tp := tlv_parse msg (Some GSM48_IE_BEARER_CAP) None in
  new_cc_state t GSM_CSTATE_ACTIVE;;
  mncc_recvmsg (Some t) MNCC_MODIFY_CNF (ie_bearer_cap tp (mncc_for (t_callref tr))).
Definition gsm48_cc_tx_modify_complete t (modify : gsm_mncc) : MS Z :=
  new_cc_state t GSM_CSTATE_ACTIVE;;
  trans_sendmsg t (cc_msg_new GSM48_MT_CC_MODIFY_COMPL ++ encode_bearer_cap true (bearer_cap modify)).
(** The flag that is set is the number of the element, not [MNCC_F_BEARER_CAP]. *)
Definition gsm48_cc_rx_modify_reject t (msg : list Z) : MS Z :=
  gsm48_stop_cc_timer t;;
  tr ← trans_get t;
  let tp := tlv_parse msg (Some GSM48_IE_BEARER_CAP) (Some GSM48_IE_CAUSE) in
  let modify := ie tp GSM48_IE_BEARER_CAP (iei_octet GSM48_IE_BEARER_CAP)
                  (fun lv m => m <| bearer_cap := decode_bearer_cap lv |>) (mncc_for (t_callref tr)) in
  new_cc_state t GSM_CSTATE_ACTIVE;;
  mncc_recvmsg (Some t) MNCC_MODIFY_REJ (ie_cause tp modify).
Definition gsm48_cc_tx_modify_reject t (modify : gsm_mncc) : MS Z :=
  new_cc_state t GSM_CSTATE_ACTIVE;;
  trans_sendmsg t (cc_msg_new GSM48_MT_CC_MODIFY_REJECT
    ++ encode_bearer_cap true (bearer_cap modify) ++ encode_cause true (cause modify)).

Definition gsm48_cc_tx_notify t (ntfy : gsm_mncc) : MS Z :=
  trans_sendmsg t (cc_msg_new GSM48_MT_CC_NOTIFY ++ encode_notify (notify ntfy)).
Definition gsm48_cc_rx_notify t (msg : list Z) : MS Z :=
  cc_indicate t MNCC_NOTIFY_IND (fun ntfy =>
    if (1 <=? length (gh_data msg))%nat then ntfy <| notify := decode_notify (gh_data msg) |> else ntfy).
Definition gsm48_cc_tx_userinfo t (user : gsm_mncc) : MS Z :=
  trans_sendmsg t (cc_msg_new GSM48_MT_CC_USER_INFO
    ++ opt user MNCC_F_USERUSER (encode_useruser true (useruser user))
    ++ (if more user =? 0 then [] else encode_more)).
Definition gsm48_cc_rx_userinfo t (msg : list Z) : MS Z :=
  let tp := tlv_parse msg (Some GSM48_IE_USER_USER) None in
  cc_indicate t MNCC_USERINFO_IND (fun user =>
    ie_flag tp GSM48_IE_MORE_DATA (fun m => m <| more := 1 |>) (ie_useruser tp user)).

(** An assignment that cannot be started calls [api->assign_fail], which this API does not have. *)
Definition gsm0808_assign_req (conn : option nat) (chan_mode full_rate : Z) : MS Z :=
  id ← deref conn;
  lchan_get id;;
  rc ← call (ASSIGN_REQ id chan_mode full_rate);
  if rc <? 0 then fault else mret rc.
Definition _gsm48_lchan_modify t (mode : gsm_mncc) : MS Z :=
  tr ← trans_get t;
  gsm0808_assign_req (t_conn tr) (lchan_mode mode) 1.

(** ** Timer expiry *)

(** [trans->cc.Tcurrent] in the cause. *)
Definition timer_diag (T : Z) : list Z :=
  [((T .& 0xf00) .>> 8) + 48; ((T .& 0x0f0) .>> 4) + 48; (T .& 0x00f) + 48].

(** The end of gsm48_cc_timeout. *)
Definition cc_timeout_tell t (disconnect release : bool) (mo_cause mo_location l4_cause l4_location : Z)
  : MS unit :=
  tr ← trans_get t;
  when (release && negb (t_callref tr =? 0))
    (subscr_load (t_subscr tr);;
     mncc_release_ind (Some t) (t_callref tr) l4_location l4_cause;;
     trans_upd t (fun tr => tr <| t_callref := 0 |>));;
  tr' ← trans_get t;
  when (disconnect && negb (t_callref tr' =? 0))
    (subscr_load (t_subscr tr');;
     mncc_recvmsg (Some t) MNCC_DISC_IND
       (mncc_set_cause (mncc_for (t_callref tr)) l4_location l4_cause);;
     mret tt);;
  tr' ← trans_get t;
  when (disconnect || release)
    (let mo_rel := (mncc_set_cause (mncc_for (t_callref tr)) mo_location mo_cause)
                     <| cause ::= fun c => c <| diag := timer_diag (Tcurrent tr') |> <| diag_len := 3 |> |> in
     when disconnect (gsm48_cc_tx_disconnect t mo_rel;; mret tt);;
     when release (gsm48_cc_tx_release t mo_rel;; mret tt)).

Definition gsm48_cc_timeout t : MS unit :=
  tr ← trans_get t;
  let lay1 := GSM48_CC_CAUSE_RECOVERY_TIMER in
  let user := GSM48_CAUSE_LOC_USER in
  let unspec := GSM48_CC_CAUSE_NORMAL_UNSPEC in
  let notrespond := GSM48_CC_CAUSE_USER_NOTRESPOND in
  let lu := GSM48_CAUSE_LOC_PRN_S_LU in
  if Tcurrent tr =? 0x303 then cc_timeout_tell t false true lay1 user notrespond lu
  else if Tcurrent tr =? 0x310 then cc_timeout_tell t true false lay1 user notrespond lu
  else if Tcurrent tr =? 0x313 then cc_timeout_tell t true false lay1 user unspec lu
  else if Tcurrent tr =? 0x301 then cc_timeout_tell t true false lay1 user notrespond lu
  else if Tcurrent tr =? 0x308 then
    if T308_second tr =? 0 then
      gsm48_cc_tx_release t (cc_msg tr);;
      trans_upd t (fun tr => tr <| T308_second := 1 |>);;
      cc_timeout_tell t false false lay1 user unspec lu
    else trans_free t
  else if Tcurrent tr =? 0x306 then
    cc_timeout_tell t false true (value (cause (cc_msg tr))) (location (cause (cc_msg tr))) unspec lu
  else if Tcurrent tr =? 0x323 then cc_timeout_tell t true false lay1 user unspec lu
  else cc_timeout_tell t false true lay1 user unspec lu.

(** ** Paging of the called party *)

(** The body of the loop of setup_trig_pag_evt; the accumulator is [found]. *)
Definition setup_trig_trans (token : nat) (event : paging_event) (conn : option nat) t (found : bool)
  : MS bool :=
  tr ← trans_get t;
  if bool_decide (paging_request tr <> Some token) || bool_decide (is_Some (t_conn tr)) then mret found
  else
    match event with
    | GSM_PAGING_SUCCEEDED =>
        match conn with
        | None => mret found
        | Some c =>
            subscr_load (t_subscr tr);;
            trans_upd t (fun tr => tr <| paging_request := None |> <| t_conn := Some c |>);;
            conn_upd c (fun cn => cn <| c_put_channel := true |>);;
            gsm48_cc_tx_setup t (cc_msg tr);;
            mret true
        end
    | GSM_PAGING_EXPIRED | GSM_PAGING_BUSY =>
        subscr_load (t_subscr tr);;
        mncc_release_ind (Some t) (t_callref tr) GSM48_CAUSE_LOC_PRN_S_LU GSM48_CC_CAUSE_DEST_OOO;;
        trans_upd t (fun tr => tr <| t_callref := 0 |> <| paging_request := None |>);;
        trans_free t;;
        mret true
    | GSM_PAGING_OOM => mret found
    end.

(** It is only called for GSM_HOOK_RR_PAGING; the token points to the network, which exists. *)
Definition setup_trig_pag_evt (event : paging_event) (conn : option nat) (token : nat) : MS unit :=
  live ← gets (fun st => bool_decide (token ∈ pag_tokens st));
  if negb live then fault
  else
    found ← for_each_trans (setup_trig_trans token event conn) false;
    modify (fun st => st <| pag_tokens ::= fun s => s ∖ {[token]} |>);;
    match conn with
    | Some c => when (negb found) (conn_upd c (fun cn => cn <| c_put_channel := true |>))
    | None => mret tt
    end.

End cc.

End Cc.
