(* ===== verification/Subscr.v ===== *)
(** Channel requests of subscribers: libmsc/gsm_subscriber.c, and the paging requests it makes
    (libbsc/paging.c, which Paging.v models from the side of the BSC).

    A subscriber has a queue of channel requests, of which the first is being paged for. When paging
    ends, [subscr_paging_dispatch] takes it out and calls back; the next one starts when the channel
    is given back ([subscr_put_channel]), or at once when paging failed. *)

From S2P Require Import Prelude Chreq Msc Cc.
Import Msc Cc.

Module Subscr.

Section subscr.
Context {env : MscEnv} {up : Upcalls}.
Implicit Types (subscr conn : nat).

(** ** Paging requests *)

(** The numbers of the BTSs of a location area, from [nr] on. *)
Fixpoint bts_by_lac (lac : Z) (nr : nat) (bs : list gsm_bts) : list nat :=
  match bs with
  | b :: bs => (if bts_lac b =? lac then [nr] else []) ++ bts_by_lac lac (S nr) bs
  | [] => []
  end.
Definition gsm_bts_by_lac (lac : Z) (st : msc_state) : list nat := bts_by_lac lac 0 (btss st).

(** The first request for a subscriber that is pending at a BTS. *)
Definition paging_pending_request (bts subscr : nat) (st : msc_state) : option gsm_paging_request :=
  list_find (fun p => p_bts p = bts /\ p_subscr p = subscr) (pagings st) ≫= fun r => Some (snd r).

Definition _paging_request (bts subscr : nat) (cbfn : pag_cbfn) : MS Z :=
  pending ← gets (paging_pending_request bts subscr);
  match pending with
  | Some _ => mret (- EEXIST)
  | None =>
      subscr_get subscr;;
      id ← gets next_id;
      modify (fun st => st <| next_id ::= S |>
                           <| pagings ::= fun l => l ++ [mk_gsm_paging_request id bts subscr cbfn] |>);;
      emit (PAGE bts subscr);;
      mret 0
  end.

(** The loop of paging_request over the BTSs of the location area. *)
Fixpoint page_bts (bs : list nat) (subscr : nat) (cbfn : pag_cbfn) (num_pages : Z) : MS Z :=
  match bs with
  | [] => when (num_pages =? 0) (emit (COUNT CTR_PAGING_DETACHED));; mret num_pages
  | bts :: bs =>
      b ← bts_get bts;
      if trx_is_usable b then
        rc ← _paging_request bts subscr cbfn;
        if rc <? 0 then mret rc else page_bts bs subscr cbfn (num_pages + 1)
      else page_bts bs subscr cbfn num_pages
  end.
Definition req_paging subscr (cbfn : pag_cbfn) : MS Z :=
  emit (COUNT CTR_PAGING_ATTEMPTED);;
  s ← subscr_load subscr;
  bs ← gets (gsm_bts_by_lac (s_lac s));
  page_bts bs subscr cbfn 0.

Definition paging_remove_request (p : gsm_paging_request) : MS unit :=
  live ← gets (fun st => bool_decide (Exists (fun q => p_id q = p_id p) (pagings st)));
  if negb live then fault
  else
    modify (fun st => st <| pagings ::= filter (fun q => p_id q <> p_id p) |>);;
    subscr_put (p_subscr p).

(** [_paging_request_stop] with no connection: nobody is called. *)
Definition paging_stop_silently (bts subscr : nat) : MS unit :=
  bts_get bts;;
  pending ← gets (paging_pending_request bts subscr);
  match pending with Some p => paging_remove_request p | None => mret tt end.

(** The loop at the end of paging_request_stop, which leaves out the BTS [but]. *)
Definition paging_stop_others (but : option nat) subscr : MS unit :=
  s ← subscr_load subscr;
  bs ← gets (gsm_bts_by_lac (s_lac s));
  foldr (fun bts k => when (bool_decide (Some bts <> but)) (paging_stop_silently bts subscr);; k)
    (mret tt) bs.

(** ** The queue of channel requests *)

(** [request->cbfn(...)] *)
Definition req_cb (cbfn : req_cbfn) (event : paging_event) (conn : option nat) : MS unit :=
  match cbfn with
  | setup_trig_pag_evt_cb token => setup_trig_pag_evt event conn token
  | paging_cb_send_sms sms => emit (SMS_PAGING sms event conn)
  end.

Definition subscr_paging_dispatch (event : paging_event) (conn : option nat) subscr : MS Z :=
  s ← subscr_load subscr;
  match requests s with
  | [] => mret (-1)
  | request :: _ =>
      match conn with Some c => conn_get c;; mret tt | None => mret tt end;;
      emit (PAGING_RESULT subscr conn event);;
      subscr_upd subscr (fun s => s <| requests ::= tail |> <| in_callback := true |>);;
      req_cb (r_cbfn request) event conn;;
      subscr_upd subscr (fun s => s <| in_callback := false |>);;
      when (bool_decide (event <> GSM_PAGING_SUCCEEDED))
        (paging_stop_others None subscr;;
         subscr_put_channel (Some subscr));;
      subscr_put subscr;;
      mret 0
  end.

(** The state of the first request. *)
Definition request_state (state : req_state) subscr : MS unit :=
  subscr_upd subscr (fun s =>
    s <| requests ::= fun l => match l with r :: l => r <| r_state := state |> :: l | [] => [] end |>).

(** When paging cannot start, [subscr_paging_cb] hands GSM_PAGING_BUSY on. *)
Definition subscr_send_paging_request subscr : MS unit :=
  s ← subscr_load subscr;
  match requests s with
  | [] => fault                                 (* assert *)
  | request :: _ =>
      request_state REQ_STATE_PAGED subscr;;
      rc ← req_paging subscr subscr_paging_cb;
      when (rc <=? 0)
        (request_state REQ_STATE_FAILED_START subscr;;
         subscr_paging_dispatch GSM_PAGING_BUSY None subscr;;
         mret tt)
  end.

Definition subscr_get_channel subscr (type : Z) (cbfn : req_cbfn) : MS unit :=
  if request_alloc_ok then
    subscr_get subscr;;
    s ← subscr_load subscr;
    if negb (in_callback s) && bool_decide (requests s = []) then
      subscr_upd subscr (fun s =>
        s <| requests ::= fun l => l ++ [mk_subscr_request type REQ_STATE_INITIAL cbfn] |>);;
      subscr_send_paging_request subscr
    else
      subscr_upd subscr (fun s =>
        s <| requests ::= fun l => l ++ [mk_subscr_request type REQ_STATE_QUEUED cbfn] |>)
  else req_cb cbfn GSM_PAGING_OOM None.

(** subscr_put_channel, as one round of the recursion. *)
Definition put_channel_body (subscr : option nat) : MS unit :=
  match subscr with
  | None => mret tt
  | Some s =>
      sub ← subscr_load s;
      match requests sub with
      | [] => mret tt
      | _ => subscr_send_paging_request s
      end
  end.

Definition subscr_pending_requests (s : gsm_subscriber) : nat := length (requests s).

(** [n] requests are left when the loop begins. *)
Fixpoint pending_clear (n : nat) subscr : MS unit :=
  match n with
  | O => mret tt
  | S n =>
      subscr_put subscr;;
      subscr_upd subscr (fun s => s <| requests ::= tail |>);;
      pending_clear n subscr
  end.
Definition subscr_pending_clear subscr : MS nat :=
  s ← subscr_load subscr;
  pending_clear (length (requests s)) subscr;;
  mret (length (requests s)).
Definition subscr_pending_kick subscr : MS Z :=
  subscr_put_channel (Some subscr);;
  mret 0.

End subscr.

End Subscr.
