(* ===== verification/CcApi.v ===== *)
(** The two entries of call control (gsm_04_08.c): messages of the MNCC application
    ([mncc_tx_to_cc]) and of mobiles ([gsm0408_rcv_cc]), with the tables that say which handler a
    message has in which call state, and the switching of speech. *)

From S2P Require Import Prelude Chreq Msc Cc Subscr.
Import Chreq Msc Cc Subscr.

Module CcApi.

(** What [arg] of [mncc_tx_to_cc] points to. *)
Inductive mncc_arg : Type :=
| ARG_MNCC (m : gsm_mncc)
| ARG_REFS (ref0 ref1 : Z).  (* uint32_t refs[2] *)

(** The first two words of either, read as a message or as two references. *)
Definition arg_data (arg : mncc_arg) : gsm_mncc :=
  match arg with
  | ARG_MNCC m => m
  | ARG_REFS r0 r1 => mncc_zero <| msg_type := r0 |> <| callref := r1 |>
  end.
Definition arg_refs (arg : mncc_arg) : Z * Z :=
  match arg with
  | ARG_MNCC m => (msg_type m, callref m)
  | ARG_REFS r0 r1 => (r0, r1)
  end.

Section api.
Context {env : MscEnv} {up : Upcalls}.
Implicit Types (t conn : nat) (m : gsm_mncc).

(** ** Speech *)

Definition tch_map conn remote : MS Z :=
  l ← lchan_get conn;
  r ← lchan_get remote;
  bts ← bts_get (l_bts l);
  remote_bts ← bts_get (l_bts r);
  if bool_decide (bts_type bts <> bts_type remote_bts) then mret (- EINVAL)
  else
    match bts_type bts with
    | GSM_BTS_TYPE_NANOBTS =>
        if negb ipacc_rtp_direct then
          rc ← call (IPACC_MDCX_RTPSOCK conn);
          if rc <? 0 then mret rc
          else
            rc ← call (IPACC_MDCX_RTPSOCK remote);
            if rc <? 0 then mret rc
            else call (RTP_SOCKET_PROXY conn remote);; mret 0
        else
          rc ← call (IPACC_MDCX conn remote);
          if rc <? 0 then mret rc
          else call (IPACC_MDCX remote conn);; mret 0
    | GSM_BTS_TYPE_BS11 | GSM_BTS_TYPE_RBS2000 | GSM_BTS_TYPE_NOKIA_SITE =>
        call (TRAU_MUX_MAP_LCHAN conn remote);; mret 0
    | _ => mret (- EINVAL)
    end.

Definition tch_bridge (refs : Z * Z) : MS Z :=
  trans1 ← gets (trans_find_by_callref (fst refs));
  trans2 ← gets (trans_find_by_callref (snd refs));
  match trans1, trans2 with
  | Some t1, Some t2 =>
      tr1 ← trans_get t1;
      tr2 ← trans_get t2;
      match t_conn tr1, t_conn tr2 with
      | Some c1, Some c2 => tch_map c1 c2
      | _, _ => mret (- EIO)
      end
  | _, _ => mret (- EIO)
  end.

Definition tch_recv_mncc (ref : Z) (enable : bool) : MS Z :=
  trans ← gets (trans_find_by_callref ref);
  match trans with
  | None => mret (- EIO)
  | Some t =>
      tr ← trans_get t;
      match t_conn tr with
      | None => mret 0
      | Some c =>
          l ← lchan_get c;
          bts ← bts_get (l_bts l);
          match bts_type bts with
          | GSM_BTS_TYPE_NANOBTS =>
              if ipacc_rtp_direct then mret (- EINVAL)
              else if negb (rtp_socket l) then
                trans_upd t (fun tr => tr <| tch_recv := Z.b2z enable |>);;
                mret 0
              else if enable then
                rc ← call (IPACC_MDCX_RTPSOCK c);
                if rc <? 0 then mret rc
                else call (RTP_SOCKET_UPSTREAM c ref);; mret 0
              else call (RTP_SOCKET_UPSTREAM c 0);; mret 0
          | GSM_BTS_TYPE_BS11 | GSM_BTS_TYPE_RBS2000 | GSM_BTS_TYPE_NOKIA_SITE =>
              if enable then call (TRAU_RECV_LCHAN c ref)
              else call (TRAU_MUX_UNMAP None ref)
          | _ => mret (- EINVAL)
          end
      end
  end.

(** The [GSM_TCHF_FRAME] case of mncc_tx_to_cc. *)
Definition tx_tchf_frame (data : gsm_mncc) : MS Z :=
  trans ← gets (trans_find_by_callref (callref data));
  match trans with
  | None => mret (- EIO)
  | Some t =>
      tr ← trans_get t;
      match t_conn tr with
      | None => mret 0
      | Some c =>
          l ← lchan_get c;
          if bool_decide (l_type l <> GSM_LCHAN_TCH_F) then mret 0
          else
            bts ← bts_get (l_bts l);
            match bts_type bts with
            | GSM_BTS_TYPE_NANOBTS =>
                if negb (rtp_socket l) then mret 0 else call (RTP_SEND_FRAME c data)
            | GSM_BTS_TYPE_BS11 | GSM_BTS_TYPE_RBS2000 | GSM_BTS_TYPE_NOKIA_SITE =>
                call (TRAU_SEND_FRAME c data)
            | _ => mret (- EINVAL)
            end
      end
  end.

(** handle_abisip_signal, for the channel of a connection. *)
Inductive abisip_signal : Type := S_ABISIP_CRCX_ACK | S_ABISIP_DLCX_IND | S_ABISIP_OTHER.
Definition lchan_rtp conn (b : bool) : MS unit :=
  conn_upd conn (fun c => c <| c_lchan ::= fun l => (fun l => l <| rtp_socket := b |>) <$> l |>).
Definition rtp_free conn : MS unit :=
  l ← lchan_get conn;
  when (rtp_socket l) (call (RTP_SOCKET_FREE conn);; lchan_rtp conn false).
(** The loop over the transactions: [ts] are those left. *)
Fixpoint tch_recv_pending conn (ts : list nat) : MS unit :=
  match ts with
  | [] => mret tt
  | t :: ts =>
      tr ← trans_get t;
      match t_conn tr with
      | Some c =>
          conn_get c;;
          when (bool_decide (c = conn) && negb (tch_recv tr =? 0))
            (tch_recv_mncc (t_callref tr) true;; mret tt)
      | None => mret tt
      end;;
      tch_recv_pending conn ts
  end.
Definition handle_abisip_signal (sig : abisip_signal) conn : MS Z :=
  if ipacc_rtp_direct then mret 0
  else
    match sig with
    | S_ABISIP_CRCX_ACK =>
        rtp_free conn;;
        rc ← call (RTP_SOCKET_CREATE conn);
        if rc <? 0 then mret (- EIO)
        else
          lchan_rtp conn true;;
          rc ← call (RTP_SOCKET_CONNECT conn);
          if rc <? 0 then mret (- EIO)
          else
            ts ← gets trans_list;
            tch_recv_pending conn ts;;
            mret 0
    | S_ABISIP_DLCX_IND => rtp_free conn;; mret 0
    | S_ABISIP_OTHER => mret 0
    end.

(** ** Which message is for which state *)

(** [SBIT(a) | SBIT(b) ...] and [ALL_STATES - SBIT(a) ...] *)
Definition sbits (l : list cc_cstate) (s : cc_cstate) : bool := bool_decide (s ∈ l).
Definition all_but (l : list cc_cstate) (s : cc_cstate) : bool := bool_decide (s ∉ l).

Definition downstatelist : list ((cc_cstate -> bool) * Z * (nat -> gsm_mncc -> MS Z)) := [
  (* mobile originating call establishment *)
  (sbits [GSM_CSTATE_INITIATED], MNCC_CALL_PROC_REQ, gsm48_cc_tx_call_proc);
  (sbits [GSM_CSTATE_INITIATED; GSM_CSTATE_MO_CALL_PROC], MNCC_ALERT_REQ, gsm48_cc_tx_alerting);
  (sbits [GSM_CSTATE_INITIATED; GSM_CSTATE_MO_CALL_PROC; GSM_CSTATE_CALL_DELIVERED],
   MNCC_SETUP_RSP, gsm48_cc_tx_connect);
  (sbits [GSM_CSTATE_MO_CALL_PROC], MNCC_PROGRESS_REQ, gsm48_cc_tx_progress);
  (* mobile terminating call establishment *)
  (sbits [GSM_CSTATE_NULL], MNCC_SETUP_REQ, gsm48_cc_tx_setup);
  (sbits [GSM_CSTATE_CONNECT_REQUEST], MNCC_SETUP_COMPL_REQ, gsm48_cc_tx_connect_ack);
  (* signalling during call *)
  (sbits [GSM_CSTATE_ACTIVE], MNCC_NOTIFY_REQ, gsm48_cc_tx_notify);
  (all_but [GSM_CSTATE_NULL; GSM_CSTATE_RELEASE_REQ], MNCC_FACILITY_REQ, gsm48_cc_tx_facility);
  (all_but [], MNCC_START_DTMF_RSP, gsm48_cc_tx_start_dtmf_ack);
  (all_but [], MNCC_START_DTMF_REJ, gsm48_cc_tx_start_dtmf_rej);
  (all_but [], MNCC_STOP_DTMF_RSP, gsm48_cc_tx_stop_dtmf_ack);
  (sbits [GSM_CSTATE_ACTIVE], MNCC_HOLD_CNF, gsm48_cc_tx_hold_ack);
  (sbits [GSM_CSTATE_ACTIVE], MNCC_HOLD_REJ, gsm48_cc_tx_hold_rej);
  (sbits [GSM_CSTATE_ACTIVE], MNCC_RETRIEVE_CNF, gsm48_cc_tx_retrieve_ack);
  (sbits [GSM_CSTATE_ACTIVE], MNCC_RETRIEVE_REJ, gsm48_cc_tx_retrieve_rej);
  (sbits [GSM_CSTATE_ACTIVE], MNCC_MODIFY_REQ, gsm48_cc_tx_modify);
  (sbits [GSM_CSTATE_MO_ORIG_MODIFY], MNCC_MODIFY_RSP, gsm48_cc_tx_modify_complete);
  (sbits [GSM_CSTATE_MO_ORIG_MODIFY], MNCC_MODIFY_REJ, gsm48_cc_tx_modify_reject);
  (sbits [GSM_CSTATE_ACTIVE], MNCC_USERINFO_REQ, gsm48_cc_tx_userinfo);
  (* clearing *)
  (sbits [GSM_CSTATE_INITIATED], MNCC_REJ_REQ, gsm48_cc_tx_release_compl);
  (all_but [GSM_CSTATE_NULL; GSM_CSTATE_DISCONNECT_IND; GSM_CSTATE_RELEASE_REQ; GSM_CSTATE_DISCONNECT_REQ],
   MNCC_DISC_REQ, gsm48_cc_tx_disconnect);
  (all_but [GSM_CSTATE_NULL; GSM_CSTATE_RELEASE_REQ], MNCC_REL_REQ, gsm48_cc_tx_release);
  (* special *)
  (all_but [], MNCC_LCHAN_MODIFY, _gsm48_lchan_modify)
].

Definition datastatelist : list ((cc_cstate -> bool) * gsm48_cc_mt * (nat -> list Z -> MS Z)) := [
  (* mobile originating call establishment *)
  (sbits [GSM_CSTATE_NULL], GSM48_MT_CC_SETUP, gsm48_cc_rx_setup);
  (sbits [GSM_CSTATE_NULL], GSM48_MT_CC_EMERG_SETUP, gsm48_cc_rx_setup);
  (sbits [GSM_CSTATE_CONNECT_IND], GSM48_MT_CC_CONNECT_ACK, gsm48_cc_rx_connect_ack);
  (* mobile terminating call establishment *)
  (sbits [GSM_CSTATE_CALL_PRESENT], GSM48_MT_CC_CALL_CONF, gsm48_cc_rx_call_conf);
  (sbits [GSM_CSTATE_CALL_PRESENT; GSM_CSTATE_MO_TERM_CALL_CONF],
   GSM48_MT_CC_ALERTING, gsm48_cc_rx_alerting);
  (sbits [GSM_CSTATE_CALL_PRESENT; GSM_CSTATE_MO_TERM_CALL_CONF; GSM_CSTATE_CALL_RECEIVED],
   GSM48_MT_CC_CONNECT, gsm48_cc_rx_connect);
  (* signalling during call *)
  (all_but [GSM_CSTATE_NULL], GSM48_MT_CC_FACILITY, gsm48_cc_rx_facility);
  (sbits [GSM_CSTATE_ACTIVE], GSM48_MT_CC_NOTIFY, gsm48_cc_rx_notify);
  (all_but [], GSM48_MT_CC_START_DTMF, gsm48_cc_rx_start_dtmf);
  (all_but [], GSM48_MT_CC_STOP_DTMF, gsm48_cc_rx_stop_dtmf);
  (all_but [], GSM48_MT_CC_STATUS_ENQ, gsm48_cc_rx_status_enq);
  (sbits [GSM_CSTATE_ACTIVE], GSM48_MT_CC_HOLD, gsm48_cc_rx_hold);
  (sbits [GSM_CSTATE_ACTIVE], GSM48_MT_CC_RETR, gsm48_cc_rx_retrieve);
  (sbits [GSM_CSTATE_ACTIVE], GSM48_MT_CC_MODIFY, gsm48_cc_rx_modify);
  (sbits [GSM_CSTATE_MO_TERM_MODIFY], GSM48_MT_CC_MODIFY_COMPL, gsm48_cc_rx_modify_complete);
  (sbits [GSM_CSTATE_MO_TERM_MODIFY], GSM48_MT_CC_MODIFY_REJECT, gsm48_cc_rx_modify_reject);
  (sbits [GSM_CSTATE_ACTIVE], GSM48_MT_CC_USER_INFO, gsm48_cc_rx_userinfo);
  (* clearing *)
  (all_but [GSM_CSTATE_NULL; GSM_CSTATE_RELEASE_REQ], GSM48_MT_CC_DISCONNECT, gsm48_cc_rx_disconnect);
  (all_but [GSM_CSTATE_NULL], GSM48_MT_CC_RELEASE, gsm48_cc_rx_release);
  (all_but [], GSM48_MT_CC_RELEASE_COMPL, gsm48_cc_rx_release_compl)
].

(** The handler of the first row for this type and state. *)
Fixpoint find_row {T H} (same : T -> bool) (s : cc_cstate) (rows : list ((cc_cstate -> bool) * T * H))
  : option H :=
  match rows with
  | (states, type, rout) :: rows => if same type && states s then Some rout else find_row same s rows
  | [] => None
  end.

(** ** Messages of the application *)

(** A message that finds a transaction with a connection. *)
Definition tx_to_cc_state t (mt : Z) (data : gsm_mncc) : MS Z :=
  tr ← trans_get t;
  match find_row (Z.eqb mt) (cc_state tr) downstatelist with
  | None => mret 0
  | Some rout => rout t data
  end.

(** A message for a transaction: while it is paging there is no connection. *)
Definition tx_to_cc_trans t (mt : Z) (data : gsm_mncc) : MS Z :=
  tr ← trans_get t;
  match t_conn tr with
  | None =>
      let rel := mncc_set_cause (mncc_for (callref data)) GSM48_CAUSE_LOC_PRN_S_LU
                   GSM48_CC_CAUSE_NORM_CALL_CLEAR in
      rc ← mncc_recvmsg (Some t) (if mt =? MNCC_REL_REQ then MNCC_REL_CNF else MNCC_REL_IND) rel;
      trans_forget t;;
      mret rc
  | Some c => lchan_get c;; tx_to_cc_state t mt data
  end.

(** The calls that page: the new transaction [t] waits for a channel. *)
Definition tx_to_cc_page t subscr (data : gsm_mncc) : MS Z :=
  other ← gets (fun st => list_find (fun i => negb (bool_decide (i = t)) &&
            match transs st !! i with
            | Some tr => bool_decide (t_subscr tr = subscr)
            | None => false
            end = true) (trans_list st));
  match other with
  | Some _ =>
      subscr_put subscr;;
      trans_free t;;
      mret 0
  | None =>
      trans_upd t (fun tr => tr <| cc_msg := data |>);;
      if pag_token_ok then
        token ← gets next_id;
        modify (fun st => st <| next_id ::= S |> <| pag_tokens ::= fun s => {[token]} ∪ s |>);;
        trans_upd t (fun tr => tr <| paging_request := Some token |>);;
        subscr_get_channel subscr RSL_CHANNEED_TCH_F (setup_trig_pag_evt_cb token);;
        subscr_put subscr;;
        mret 0
      else
        subscr_put subscr;;
        trans_free t;;
        mret 0
  end.

(** A message with an unknown call reference. *)
Definition tx_to_cc_new (mt : Z) (data : gsm_mncc) : MS Z :=
  let release := fun cause_val =>
    mncc_release_ind None (callref data) GSM48_CAUSE_LOC_PRN_S_LU cause_val in
  if negb (mt =? MNCC_SETUP_REQ) then release GSM48_CC_CAUSE_INVAL_TRANS_ID
  else if bool_decide (number (called data) = []) && bool_decide (mncc_imsi data = []) then
    release GSM48_CC_CAUSE_INV_NR_FORMAT
  else
    subscr ← (if bool_decide (number (called data) <> []) then subscr_get_by_extension (number (called data))
              else subscr_get_by_imsi (mncc_imsi data));
    match subscr with
    | None => release GSM48_CC_CAUSE_UNASSIGNED_NR
    | Some subscr =>
        s ← subscr_load subscr;
        if s_lac s =? 0 then
          subscr_put subscr;;
          release GSM48_CC_CAUSE_DEST_OOO
        else
          trans ← trans_alloc subscr GSM48_PDISC_CC 0xff (callref data);
          match trans with
          | None =>
              subscr_put subscr;;
              release GSM48_CC_CAUSE_RESOURCE_UNAVAIL;;
              mret (- ENOMEM)
          | Some t =>
              conn ← gets (connection_for_subscr subscr);
              match conn with
              | None => tx_to_cc_page t subscr data
              | Some c =>
                  trans_upd t (fun tr => tr <| t_conn := Some c |>);;
                  subscr_put subscr;;
                  tx_to_cc_trans t mt data
              end
          end
    end.

Definition mncc_tx_to_cc (mt : Z) (arg : mncc_arg) : MS Z :=
  let data := arg_data arg in
  if mt =? MNCC_BRIDGE then tch_bridge (arg_refs arg)
  else if mt =? MNCC_FRAME_DROP then tch_recv_mncc (callref data) false
  else if mt =? MNCC_FRAME_RECV then tch_recv_mncc (callref data) true
  else if mt =? GSM_TCHF_FRAME then tx_tchf_frame data
  else
    trans ← gets (trans_find_by_callref (callref data));
    match trans with
    | None => tx_to_cc_new mt data
    | Some t => tx_to_cc_trans t mt data
    end.

Definition gsm0408_clear_all_trans (proto : gsm48_pdisc) : MS unit :=
  for_each_trans (fun t _ =>
    tr ← trans_get t;
    when (bool_decide (protocol tr = proto)) (trans_forget t)) tt.

(** ** Messages of mobiles *)

(** The handler for the message in the state of the transaction. *)
Definition rcv_cc_trans t (msg : list Z) : MS Z :=
  tr ← trans_get t;
  match cc_mt_of (rd msg 1 .& 0xbf) with
  | None => mret 0
  | Some mt =>
      match find_row (fun x => bool_decide (x = mt)) (cc_state tr) datastatelist with
      | None => mret 0
      | Some rout => rout t msg
      end
  end.

Definition gsm0408_rcv_cc conn (msg : list Z) : MS Z :=
  let mt := rd msg 1 .& 0xbf in
  let tid := ((rd msg 0 .& 0xf0) .^ 0x80) .>> 4 in
  if tst mt 0x80 then mret (- EINVAL)
  else
    c ← conn_get conn;
    subscr ← deref (c_subscr c);
    subscr_load subscr;;
    trans ← gets (trans_find_by_id subscr GSM48_PDISC_CC tid);
    lchan_get conn;;
    match trans with
    | Some t => rcv_cc_trans t msg
    | None =>
        ref ← gets new_callref;
        modify (fun st => st <| new_callref ::= fun r => u32 (r + 1) |>);;
        trans ← trans_alloc subscr GSM48_PDISC_CC tid ref;
        match trans with
        | None =>
            gsm48_tx_simple (Some conn) (pdisc_octet GSM48_PDISC_CC .| (tid .<< 4))
              (cc_mt_octet GSM48_MT_CC_RELEASE_COMPL);;
            mret (- ENOMEM)
        | Some t =>
            trans_upd t (fun tr => tr <| t_conn := Some conn |>);;
            rcv_cc_trans t msg
        end
    end.

End api.

End CcApi.
