(* ===== verification/Mm.v ===== *)
(** Mobility management, security and the entry for messages of mobiles: the first third of
    gsm_04_08.c and [gsm0408_dispatch], libmsc/auth.c, libmsc/silent_call.c, the paging response of
    libbsc/gsm_04_08_utils.c, and the callbacks of libmsc/osmo_msc.c. *)

From S2P Require Import Prelude Chreq Msc Cc Subscr CcApi.
Import Chreq Msc Cc Subscr CcApi.

Module Mm.

Definition GSM_KEY_SEQ_INVAL : Z := 7.
Definition AUTH_NOT_AVAIL : Z := 0.
Definition AUTH_DO_AUTH_THAN_CIPH : Z := 1.
Definition AUTH_DO_CIPH : Z := 2.
Definition AUTH_ALGO_NONE : Z := 0.
Definition AUTH_ALGO_XOR : Z := 1.
Definition AUTH_ALGO_COMP128v1 : Z := 2.
Definition A38_XOR_MIN_KEY_LEN : nat := 12.
Definition A38_XOR_MAX_KEY_LEN : nat := 16.
Definition A38_COMP128_KEY_LEN : nat := 16.
Definition RSL_ENC_ALG_A5 (x : Z) : Z := x + 1.

Section mm.
Context {env : MscEnv} {up : Upcalls}.
Implicit Types (conn subscr : nat).

(** ** Authentication: auth.c *)

Definition _use_xor (ki : list Z) (atuple : gsm_auth_tuple) : option gsm_auth_tuple :=
  if ((A38_XOR_MAX_KEY_LEN <? length ki) || (length ki <? A38_XOR_MIN_KEY_LEN))%nat then None
  else
    let x := fun i => rd (tup_rand atuple) i .^ rd ki i in
    Some (atuple <| tup_sres := map x (seq 0 4) |> <| tup_kc := map x (seq 4 8) |>).
Definition _use_comp128_v1 (ki : list Z) (atuple : gsm_auth_tuple) : option gsm_auth_tuple :=
  if negb (length ki =? A38_COMP128_KEY_LEN)%nat then None
  else
    let '(sres, kc) := comp128 ki (tup_rand atuple) in
    Some (atuple <| tup_sres := sres |> <| tup_kc := kc |>).

(** The return code, and the tuple when it is positive. *)
Definition auth_get_tuple_for_subscr subscr (key_seq : Z) : MS (Z * gsm_auth_tuple) :=
  s ← subscr_load subscr;
  ainfo ← db_query (fun n => db_get_authinfo n s);
  let '(rc, (auth_algo, ki)) := ainfo in
  last ← (if rc <? 0 then mret (0, mk_gsm_auth_tuple 0 0 [] [] [])
          else db_query (fun n => db_get_lastauthtuple n s));
  let '(last_rc, atuple) := last in
  if rc <? 0 then mret (if rc =? - ENOENT then AUTH_NOT_AVAIL else -1, atuple)
  else if (last_rc =? 0) && negb (key_seq =? GSM_KEY_SEQ_INVAL) && (tup_use_count atuple <? 3) then
    let atuple := atuple <| tup_use_count ::= Z.succ |> in
    emit (DB_SYNC_TUPLE subscr atuple);;
    mret (AUTH_DO_CIPH, atuple)
  else
    rnd ← db_query random_octets;
    let atuple := atuple <| tup_use_count := 1 |> <| tup_key_seq := Z.rem (tup_key_seq atuple + 1) 7 |>
                         <| tup_rand := take 16 rnd |> in
    match (if auth_algo =? AUTH_ALGO_XOR then _use_xor ki atuple
           else if auth_algo =? AUTH_ALGO_COMP128v1 then _use_comp128_v1 ki atuple
           else None) with
    | None => mret (0, atuple)
    | Some atuple =>
        emit (DB_SYNC_TUPLE subscr atuple);;
        mret (AUTH_DO_AUTH_THAN_CIPH, atuple)
    end.

(** ** Messages of mobility management *)

Definition mm_msg (mt : gsm48_mm_mt) (body : list Z) : list Z :=
  [pdisc_octet GSM48_PDISC_MM; mm_mt_octet mt] ++ body.

(** [msg->lchan = conn->lchan; return gsm48_conn_sendmsg(msg, conn, NULL);] *)
Definition mm_send conn (mt : gsm48_mm_mt) (body : list Z) : MS Z :=
  conn_get conn;;
  gsm48_conn_sendmsg (mm_msg mt body) (Some conn) None.

Definition gsm0408_loc_upd_rej conn (rej_cause : Z) : MS Z :=
  conn_get conn;;
  emit (COUNT CTR_LOC_UPD_REJECT);;
  mm_send conn GSM48_MT_MM_LOC_UPD_REJECT [u8 rej_cause].

Definition gsm0408_loc_upd_acc conn (tmsi : Z) : MS Z :=
  c ← conn_get conn;
  bts ← bts_get (c_bts c);
  emit (COUNT CTR_LOC_UPD_ACCEPT);;
  mm_send conn GSM48_MT_MM_LOC_UPD_ACCEPT
    (gsm48_generate_lai country_code network_code (bts_lac bts) ++ gsm48_generate_mid_from_tmsi tmsi).

Definition mm_tx_identity_req conn (id_type : gsm_mi_type) : MS Z :=
  mm_send conn GSM48_MT_MM_ID_REQ [mi_type_octet id_type].

(** A network name in the default alphabet. *)
Definition mm_info_name (iei : Z) (name : option (list Z)) : list Z :=
  match name with
  | None => []
  | Some name =>
      let bits := Z.of_nat (length name) * 7 in
      let name_pad := (8 - bits) mod 8 in
      let name_len := bits / 8 + (if name_pad =? 0 then 0 else 1) in
      [iei; u8 (name_len + 1); u8 (0x80 .| name_pad)] ++ take (Z.to_nat name_len) (gsm_7bit_encode name)
  end.
Definition gsm48_tx_mm_info conn : MS Z :=
  mm_send conn GSM48_MT_MM_INFO
    (mm_info_name GSM48_IE_NAME_LONG name_long ++ mm_info_name GSM48_IE_NAME_SHORT name_short).

Definition gsm48_tx_mm_auth_req conn (rand : list Z) (key_seq : Z) : MS Z :=
  mm_send conn GSM48_MT_MM_AUTH_REQ ((key_seq .& 0xf) :: take 16 rand).
Definition gsm48_tx_mm_auth_rej conn : MS Z :=
  gsm48_tx_simple (Some conn) (pdisc_octet GSM48_PDISC_MM) (mm_mt_octet GSM48_MT_MM_AUTH_REJ).
Definition gsm48_tx_mm_serv_ack conn : MS Z :=
  gsm48_tx_simple (Some conn) (pdisc_octet GSM48_PDISC_MM) (mm_mt_octet GSM48_MT_MM_CM_SERV_ACC).
Definition gsm48_tx_mm_serv_rej conn (val : Z) : MS Z := mm_send conn GSM48_MT_MM_CM_SERV_REJ [u8 val].

Definition gsm0808_cipher_mode conn (cipher : Z) (kc : list Z) : MS Z :=
  lchan_get conn;;
  conn_upd conn (fun c =>
    c <| c_lchan ::= fun l => (fun l => l <| encr_alg_id := RSL_ENC_ALG_A5 cipher |>) <$> l |>);;
  call (CIPHER_MODE conn cipher kc).

(** ** Pending operations of a connection *)

Definition release_anchor conn : MS unit :=
  conn_upd conn (fun c => c <| anch_operation := false |>).

Definition release_loc_updating_req conn : MS unit :=
  c ← conn_get conn;
  match loc_operation c with
  | None => mret tt
  | Some _ =>
      release_anchor conn;;
      conn_upd conn (fun c => c <| loc_operation := None |>);;
      msc_release_connection conn
  end.

Definition release_security_operation conn : MS unit :=
  c ← conn_get conn;
  match sec_operation c with
  | None => mret tt
  | Some _ =>
      conn_upd conn (fun c => c <| sec_operation := None |>);;
      msc_release_connection conn
  end.

Definition allocate_loc_updating_req conn : MS unit :=
  release_loc_updating_req conn;;
  conn_upd conn (fun c => c <| loc_operation := Some (mk_gsm_loc_updating_operation false false false 0) |>).

(** An assignment to the pending location update. *)
Definition loc_upd conn (f : gsm_loc_updating_operation -> gsm_loc_updating_operation) : MS unit :=
  c ← conn_get conn;
  deref (loc_operation c);;
  conn_upd conn (fun c => c <| loc_operation ::= fun o => f <$> o |>).

Definition schedule_reject conn : MS unit := loc_upd conn (fun o => o <| updating_timer := true |>).

(** ** Subscribers and the database *)

Definition db_subscriber_alloc_tmsi subscr : MS unit :=
  s ← subscr_load subscr;
  tmsi ← db_query (fun n => db_alloc_tmsi n s);
  subscr_upd subscr (fun s => s <| s_tmsi := tmsi |>);;
  emit (DB_SYNC_SUBSCRIBER subscr).

(** What [db_set_from_query] and [get_equipment_by_subscr] assign. *)
Definition set_from_query (row s : gsm_subscriber) : gsm_subscriber :=
  s <| s_imsi := s_imsi row |> <| s_tmsi := s_tmsi row |> <| s_extension := s_extension row |>
    <| s_lac := s_lac row |> <| authorized := authorized row |> <| equipment := equipment row |>.
Definition db_subscriber_update subscr : MS unit :=
  s ← subscr_load subscr;
  row ← db_query (fun n => db_update n s);
  subscr_upd subscr (set_from_query row).

Definition subscr_update subscr (bts : nat) (reason : gsm_subscriber_update_reason) : MS unit :=
  b ← bts_get bts;
  match reason with
  | GSM_SUBSCRIBER_UPDATE_ATTACHED =>
      subscr_upd subscr (fun s => s <| s_lac := bts_lac b |>);;
      emit (DB_SYNC_SUBSCRIBER subscr);;
      db_subscriber_update subscr;;
      emit (SUBSCR_ATTACHED subscr)
  | GSM_SUBSCRIBER_UPDATE_DETACHED =>
      subscr_upd subscr (fun s => if bts_lac b =? s_lac s then s <| s_lac := GSM_LAC_RESERVED_DETACHED |> else s);;
      emit (DB_SYNC_SUBSCRIBER subscr);;
      db_subscriber_update subscr;;
      emit (SUBSCR_DETACHED subscr)
  | GSM_SUBSCRIBER_UPDATE_EQUIPMENT =>
      subscr_load subscr;;
      emit (DB_SYNC_SUBSCRIBER subscr);;
      db_subscriber_update subscr
  end.

Definition db_create_subscriber (imsi : list Z) : MS nat :=
  row ← db_query (fun n => db_get_subscriber n GSM_SUBSCRIBER_IMSI imsi);
  match row with
  | Some s => subscr_alloc s
  | None =>
      new ← db_query (fun n => db_new_subscriber n imsi);
      subscr_alloc (subscr_zero <| flags := GSM_SUBSCRIBER_FIRST_CONTACT |> <| s_id := fst new |>
                                <| s_imsi := take (GSM_IMSI_LENGTH - 1) imsi |>
                                <| s_extension := snd new |>)
  end.

(** The subscriber with this IMSI, created if there is none. *)
Definition subscr_get_or_create_db (imsi : list Z) : MS nat :=
  found ← subscr_get_by_imsi imsi;
  match found with Some s => mret s | None => db_create_subscriber imsi end.

(** The equipment's [classmark2] has three octets: a longer copy runs past it. *)
Definition set_classmark2 subscr (len : Z) (cm2 : list Z) : MS unit :=
  subscr_load subscr;;
  if 3 <? len then fault
  else
    subscr_upd subscr (fun s => s <| equipment ::= fun e =>
      e <| classmark2_len := len |> <| classmark2 := take (Z.to_nat len) cm2 |> |>).

(** ** Security *)

Definition authorize_subscriber (loc : option gsm_loc_updating_operation) (subscr : option nat) : MS Z :=
  match subscr with
  | None => mret 0
  | Some s =>
      if match loc with Some o => waiting_for_imsi o || waiting_for_imei o | None => false end then mret 0
      else
        sub ← subscr_load s;
        mret match auth_policy with
             | GSM_AUTH_POLICY_CLOSED => authorized sub
             | GSM_AUTH_POLICY_TOKEN =>
                 if negb (authorized sub =? 0) then authorized sub
                 else flags sub .& GSM_SUBSCRIBER_FIRST_CONTACT
             | GSM_AUTH_POLICY_ACCEPT_ALL => 1
             end
  end.

(** The location update goes on. *)
Definition authorize_sec_cb (event : security_event) conn : MS Z :=
  match event with
  | GSM_SECURITY_AUTH_FAILED => release_loc_updating_req conn;; mret 0
  | GSM_SECURITY_NOAVAIL | GSM_SECURITY_SUCCEEDED =>
      c ← conn_get conn;
      subscr ← deref (c_subscr c);
      db_subscriber_alloc_tmsi subscr;;
      s ← subscr_load subscr;
      rc ← gsm0408_loc_upd_acc conn (s_tmsi s);
      rc ← (if send_mm_info then gsm48_tx_mm_info conn else mret rc);
      c ← conn_get conn;
      subscr_update subscr (c_bts c) GSM_SUBSCRIBER_UPDATE_ATTACHED;;
      mret rc
  end.
Definition mm_serv_req_sec_cb (event : security_event) conn : MS Z :=
  match event with
  | GSM_SECURITY_AUTH_FAILED => mret 0
  | GSM_SECURITY_NOAVAIL => gsm48_tx_mm_serv_ack conn
  | GSM_SECURITY_SUCCEEDED => mret 0
  end.
Definition paging_sec_cb (event : security_event) conn subscr : MS Z :=
  subscr_paging_dispatch
    match event with GSM_SECURITY_AUTH_FAILED => GSM_PAGING_EXPIRED | _ => GSM_PAGING_SUCCEEDED end
    (Some conn) subscr.
Definition sec_cb (cb : sec_cbfn) (event : security_event) conn : MS Z :=
  match cb with
  | _gsm0408_authorize_sec_cb => authorize_sec_cb event conn
  | _gsm48_rx_mm_serv_req_sec_cb => mm_serv_req_sec_cb event conn
  | subscr_paging_sec_cb subscr => paging_sec_cb event conn subscr
  end.

Definition gsm48_secure_channel conn (key_seq : Z) (cb : sec_cbfn) : MS Z :=
  c ← conn_get conn;
  if a5_encryption =? 0 then sec_cb cb GSM_SECURITY_NOAVAIL conn
  else
    l ← lchan_get conn;
    if RSL_ENC_ALG_A5 0 <? encr_alg_id l then sec_cb cb GSM_SECURITY_SUCCEEDED conn
    else
      subscr ← deref (c_subscr c);
      s ← subscr_load subscr;
      if negb (ms_cm2_a5n_support (classmark2 (equipment s)) a5_encryption) then
        sec_cb cb GSM_SECURITY_NOAVAIL conn
      else
        auth ← auth_get_tuple_for_subscr subscr key_seq;
        let '(rc, atuple) := auth in
        if rc <=? 0 then sec_cb cb GSM_SECURITY_NOAVAIL conn
        else if bool_decide (is_Some (sec_operation c)) then mret (- EBUSY)
        else
          conn_upd conn (fun c => c <| sec_operation := Some (mk_gsm_security_operation atuple (Some cb)) |>);;
          if rc =? AUTH_DO_AUTH_THAN_CIPH then
            gsm48_tx_mm_auth_req conn (tup_rand atuple) (tup_key_seq atuple)
          else gsm0808_cipher_mode conn a5_encryption (tup_kc atuple).

Definition gsm0408_authorize conn : MS Z :=
  c ← conn_get conn;
  ok ← authorize_subscriber (loc_operation c) (c_subscr c);
  if ok =? 0 then mret 0
  else
    (* without a location update there is no key sequence number *)
    o ← deref (loc_operation c);
    gsm48_secure_channel conn (lu_op_key_seq o) _gsm0408_authorize_sec_cb.

(** The operation ends with [event]; its callback first. *)
Definition sec_operation_cb (event : security_event) conn : MS Z :=
  c ← conn_get conn;
  op ← deref (sec_operation c);
  match op_cb op with Some cb => sec_cb cb event conn | None => mret 0 end.

(** ** Received messages of mobility management *)

Definition mm_rx_id_resp conn (msg : list Z) : MS Z :=
  l ← lchan_get conn;
  bts_get (l_bts l);;
  let data := gh_data msg in
  let mi_string := gsm48_mi_to_string (tail data) (rd data 0) in
  emit (SUBSCR_IDENTITY data);;
  match mi_type_of (rd data 1) with
  | Some GSM_MI_TYPE_IMSI =>
      c ← conn_get conn;
      match c_subscr c with
      | None => s ← subscr_get_or_create_db mi_string;
                conn_upd conn (fun c => c <| c_subscr := Some s |>)
      | Some _ => mret tt
      end;;
      conn_upd conn (fun c => c <| loc_operation ::= fmap (fun o => o <| waiting_for_imsi := false |>) |>)
  | Some GSM_MI_TYPE_IMEI | Some GSM_MI_TYPE_IMEISV =>
      c ← conn_get conn;
      match c_subscr c with
      | Some s => subscr_load s;;
                  emit (DB_ASSOC_IMEI s mi_string);;
                  emit (DB_SYNC_EQUIPMENT s)
      | None => mret tt
      end;;
      conn_upd conn (fun c => c <| loc_operation ::= fmap (fun o => o <| waiting_for_imei := false |>) |>)
  | _ => mret tt
  end;;
  gsm0408_authorize conn.

(** The timer of a location update expires. *)
Definition loc_upd_rej_cb conn : MS unit :=
  l ← lchan_get conn;
  bts_get (l_bts l);;
  gsm0408_loc_upd_rej conn reject_cause;;
  release_loc_updating_req conn.

(** The subscriber of the identity in a location updating request; the identities that are
    asked for. *)
Definition loc_upd_subscr conn (mi_type : option gsm_mi_type) (mi_string : list Z) : MS (option nat) :=
  match mi_type with
  | Some GSM_MI_TYPE_IMSI =>
      mm_tx_identity_req conn GSM_MI_TYPE_IMEI;;
      loc_upd conn (fun o => o <| waiting_for_imei := true |>);;
      s ← subscr_get_or_create_db mi_string;
      mret (Some s)
  | Some GSM_MI_TYPE_TMSI =>
      subscr ← subscr_get_by_tmsi (tmsi_from_string mi_string);
      when (bool_decide (subscr = None))
        (mm_tx_identity_req conn GSM_MI_TYPE_IMSI;;
         loc_upd conn (fun o => o <| waiting_for_imsi := true |>));;
      mm_tx_identity_req conn GSM_MI_TYPE_IMEI;;
      loc_upd conn (fun o => o <| waiting_for_imei := true |>);;
      mret subscr
  | _ => mret None
  end.

Definition mm_rx_loc_upd_req conn (msg : list Z) : MS Z :=
  c ← conn_get conn;
  let lu := gh_data msg in
  emit (SUBSCR_IDENTITY lu);;
  when (lu_type lu =? GSM48_LUPD_NORMAL) (emit (COUNT CTR_LOC_UPD_NORMAL));;
  when (lu_type lu =? GSM48_LUPD_IMSI_ATT) (emit (COUNT CTR_LOC_UPD_ATTACH));;
  when (lu_type lu =? GSM48_LUPD_PERIODIC) (emit (COUNT CTR_LOC_UPD_PERIODIC));;
  if bool_decide (is_Some (loc_operation c)) then
    gsm0408_loc_upd_rej conn GSM48_REJECT_PROTOCOL_ERROR;;
    mret 0
  else
    allocate_loc_updating_req conn;;
    loc_upd conn (fun o => o <| lu_op_key_seq := lu_key_seq lu |>);;
    subscr ← loc_upd_subscr conn (mi_type_of (rd (lu_mi lu) 0)) (gsm48_mi_to_string (lu_mi lu) (lu_mi_len lu));
    schedule_reject conn;;
    match subscr with
    | None => mret (- EINVAL)
    | Some s =>
        (* a subscriber the connection had before keeps its reference *)
        conn_upd conn (fun c => c <| c_subscr := Some s |>);;
        subscr_upd s (fun s => s <| equipment ::= fun e => e <| classmark1 := lu_classmark1 lu |> |>);;
        gsm0408_authorize conn
    end.

(** [if (is_siemens_bts(bts)) send_siemens_mrpci(...)] *)
Definition siemens_mrpci conn (bts : nat) (classmark2_lv : list Z) : MS unit :=
  b ← bts_get bts;
  when (bts_is_siemens b && (2 <=? rd classmark2_lv 0)) (emit (SIEMENS_MRPCI conn classmark2_lv)).

Definition gsm48_rx_mm_serv_req conn (msg : list Z) : MS Z :=
  c ← conn_get conn;
  let data := gh_data msg in
  let classmark2_len := rd data 1 in
  let cm2 := drop 2 data in
  let mi_len := rd cm2 (Z.to_nat classmark2_len) in
  let mi := drop (Z.to_nat classmark2_len + 1) cm2 in
  if msgb_data_len <? sizeof_service_request_ptr then
    gsm48_tx_mm_serv_rej conn GSM48_REJECT_INCORRECT_MESSAGE
  else if msgb_data_len <? serv_req_mi_len data + 6 then
    gsm48_tx_mm_serv_rej conn GSM48_REJECT_INCORRECT_MESSAGE
  else if bool_decide (mi_type_of (rd mi 0) <> Some GSM_MI_TYPE_TMSI) then
    gsm48_tx_mm_serv_rej conn GSM48_REJECT_INCORRECT_MESSAGE
  else
    emit (SUBSCR_IDENTITY (drop (Z.to_nat classmark2_len) cm2));;
    siemens_mrpci conn (c_bts c) (tail data);;
    subscr ← subscr_get_by_tmsi (tmsi_from_string (gsm48_mi_to_string mi mi_len));
    match subscr with
    | None => gsm48_tx_mm_serv_rej conn GSM48_REJECT_IMSI_UNKNOWN_IN_HLR
    | Some s =>
        c ← conn_get conn;
        match c_subscr c with
        | None => conn_upd conn (fun c => c <| c_subscr := Some s |>)
        | Some _ => subscr_put s
        end;;
        set_classmark2 s classmark2_len cm2;;
        emit (DB_SYNC_EQUIPMENT s);;
        gsm48_secure_channel conn (serv_req_key_seq data) _gsm48_rx_mm_serv_req_sec_cb
    end.

Definition gsm48_rx_mm_imsi_detach_ind conn (msg : list Z) : MS Z :=
  l ← lchan_get conn;
  let idi := gh_data msg in
  let mi_string := gsm48_mi_to_string (idi_mi idi) (idi_mi_len idi) in
  emit (COUNT CTR_LOC_UPD_DETACH);;
  subscr ← match mi_type_of (rd (idi_mi idi) 0) with
           | Some GSM_MI_TYPE_TMSI => subscr_get_by_tmsi (tmsi_from_string mi_string)
           | Some GSM_MI_TYPE_IMSI => subscr_get_by_imsi mi_string
           | _ => mret None
           end;
  match subscr with
  | Some s =>
      subscr_update s (l_bts l) GSM_SUBSCRIBER_UPDATE_DETACHED;;
      subscr_upd s (fun s => s <| equipment ::= fun e => e <| classmark1 := idi_classmark1 idi |> |>);;
      emit (DB_SYNC_EQUIPMENT s);;
      subscr_put s
  | None => mret tt
  end;;
  mret 0.

Definition gsm48_rx_mm_status (msg : list Z) : MS Z := mret 0.

Definition gsm48_rx_mm_auth_resp conn (msg : list Z) : MS Z :=
  c ← conn_get conn;
  match sec_operation c with
  | None => mret (- EIO)
  | Some op =>
      if negb (bool_decide (take 4 (tup_sres (op_atuple op)) = take 4 (auth_resp_sres (gh_data msg)))) then
        sec_operation_cb GSM_SECURITY_AUTH_FAILED conn;;
        rc ← gsm48_tx_mm_auth_rej conn;
        release_security_operation conn;;
        mret rc
      else gsm0808_cipher_mode conn a5_encryption (tup_kc (op_atuple op))
  end.

Definition gsm0408_rcv_mm conn (msg : list Z) : MS Z :=
  match mm_mt_of (rd msg 1 .& 0xbf) with
  | Some GSM48_MT_MM_LOC_UPD_REQUEST => mm_rx_loc_upd_req conn msg
  | Some GSM48_MT_MM_ID_RESP => mm_rx_id_resp conn msg
  | Some GSM48_MT_MM_CM_SERV_REQ => gsm48_rx_mm_serv_req conn msg
  | Some GSM48_MT_MM_STATUS => gsm48_rx_mm_status msg
  | Some GSM48_MT_MM_TMSI_REALL_COMPL => release_loc_updating_req conn;; mret 0
  | Some GSM48_MT_MM_IMSI_DETACH_IND => gsm48_rx_mm_imsi_detach_ind conn msg
  | Some GSM48_MT_MM_CM_REEST_REQ => mret 0
  | Some GSM48_MT_MM_AUTH_RESP => gsm48_rx_mm_auth_resp conn msg
  | _ => mret 0
  end.

(** ** Radio resource messages *)

(** The callback of a paging request that was answered. *)
Definition paging_succeeded (cbfn : pag_cbfn) conn subscr (key_seq : Z) : MS unit :=
  match cbfn with
  | subscr_paging_cb => gsm48_secure_channel conn key_seq (subscr_paging_sec_cb subscr);; mret tt
  | paging_cb_silent data =>
      lchan_get conn;;
      conn_upd conn (fun c => c <| silent_call := true |>);;
      emit (SCALL_SUCCESS (Some conn) data)
  end.

(** The callback of one that was not. *)
Definition paging_failed (cbfn : pag_cbfn) (event : paging_event) subscr : MS unit :=
  match cbfn with
  | subscr_paging_cb => subscr_paging_dispatch event None subscr;; mret tt
  | paging_cb_silent data => emit (SCALL_EXPIRED None data)
  end.

Definition paging_request_stop (bts subscr conn : nat) (key_seq : Z) : MS unit :=
  bts_get bts;;
  pending ← gets (paging_pending_request bts subscr);
  match pending with
  | Some p =>
      paging_succeeded (p_cbfn p) conn (p_subscr p) key_seq;;
      paging_remove_request p
  | None => mret tt
  end;;
  paging_stop_others (Some bts) subscr.

Definition gsm48_handle_paging_resp conn (msg : list Z) subscr : MS Z :=
  l ← lchan_get conn;
  siemens_mrpci conn (l_bts l) (tail (gh_data msg));;
  c ← conn_get conn;
  match c_subscr c with
  | Some s =>
      if bool_decide (s = subscr) then
        subscr_put subscr;;
        emit (COUNT CTR_PAGING_COMPLETED);;
        paging_request_stop (c_bts c) subscr conn (pag_resp_key_seq (gh_data msg));;
        mret 0
      else subscr_put subscr;; mret (- EINVAL)
  | None =>
      conn_upd conn (fun c => c <| c_subscr := Some subscr |>);;
      emit (COUNT CTR_PAGING_COMPLETED);;
      paging_request_stop (c_bts c) subscr conn (pag_resp_key_seq (gh_data msg));;
      mret 0
  end.

(** [gsm48_extract_mi]: the identity after the classmark, and its type. *)
Definition gsm48_extract_mi (classmark2_lv : list Z) (len : Z) : option (list Z * option gsm_mi_type) :=
  let cm_len := rd classmark2_lv 0 in
  let mi_lv := drop (Z.to_nat cm_len + 1) classmark2_lv in
  if len <? 1 + cm_len then None
  else if len <? 2 + cm_len + rd mi_lv 0 then None
  else Some (gsm48_mi_to_string (tail mi_lv) (rd mi_lv 0), mi_type_of (rd mi_lv 1)).
Definition gsm48_paging_extract_mi (resp : list Z) (len : Z) : option (list Z * option gsm_mi_type) :=
  gsm48_extract_mi (drop pag_resp_classmark2 resp) (len - Z.of_nat pag_resp_classmark2).

(** A response that is too short leaves the identity unassigned. *)
Definition gsm48_rx_rr_pag_resp conn (msg : list Z) : MS Z :=
  conn_get conn;;
  let data := gh_data msg in
  let '(mi_string, mi_type) :=
    default (fst uninit_mi, mi_type_of (snd uninit_mi))
      (gsm48_paging_extract_mi data (Z.of_nat (length msg) - 2)) in
  subscr ← match mi_type with
           | Some GSM_MI_TYPE_TMSI => subscr_get_by_tmsi (tmsi_from_string mi_string)
           | Some GSM_MI_TYPE_IMSI => subscr_get_by_imsi mi_string
           | _ => mret None
           end;
  match subscr with
  | None => mret (- EINVAL)
  | Some s =>
      set_classmark2 s (rd data 1) (drop 2 data);;
      emit (DB_SYNC_EQUIPMENT s);;
      gsm48_handle_paging_resp conn msg s
  end.

Definition gsm48_rx_rr_classmark conn (msg : list Z) : MS Z :=
  c ← conn_get conn;
  let data := gh_data msg in
  let payload_len := Z.of_nat (length msg) - 2 in
  let cm2_len := rd data 0 in
  let has_cm3 := cm2_len + 1 <? payload_len in
  let cm3_len := rd data (Z.to_nat cm2_len + 2) in
  if has_cm3 && negb (rd data (Z.to_nat cm2_len + 1) =? 0x20) then mret (- EINVAL)
  else if has_cm3 && (3 <? cm2_len) then mret (- EINVAL)
  else if has_cm3 && (14 <? cm3_len) then mret (- EINVAL)
  else
    match c_subscr c with
    | None => mret 0
    | Some s =>
        set_classmark2 s cm2_len (tail data);;
        when has_cm3
          (subscr_upd s (fun s => s <| equipment ::= fun e =>
             e <| classmark3_len := cm3_len |>
               <| classmark3 := take (Z.to_nat cm3_len) (drop (Z.to_nat cm2_len + 3) data) |> |>));;
        emit (DB_SYNC_EQUIPMENT s);;
        mret 0
    end.

Definition gsm48_rx_rr_app_info conn (msg : list Z) : MS Z :=
  c ← conn_get conn;
  let data := gh_data msg in
  call (DB_APDU_BLOB (c_subscr c) (rd data 0) (rd data 1) (drop 2 data)).

Definition gsm48_rx_rr_ciph_m_compl conn : MS Z :=
  c ← conn_get conn;
  match sec_operation c with
  | None => mret (- EIO)
  | Some _ =>
      rc ← sec_operation_cb GSM_SECURITY_SUCCEEDED conn;
      release_security_operation conn;;
      mret rc
  end.

Definition gsm0408_rcv_rr conn (msg : list Z) : MS Z :=
  match rr_mt_of (rd msg 1) with
  | Some GSM48_MT_RR_CLSM_CHG => gsm48_rx_rr_classmark conn msg
  | Some GSM48_MT_RR_PAG_RESP => gsm48_rx_rr_pag_resp conn msg
  | Some GSM48_MT_RR_MEAS_REP => emit (MEAS_REP conn msg);; mret 0
  | Some GSM48_MT_RR_APP_INFO => gsm48_rx_rr_app_info conn msg
  | Some GSM48_MT_RR_CIPH_M_COMPL => gsm48_rx_rr_ciph_m_compl conn
  | Some GSM48_MT_RR_HANDO_COMPL => emit (HO_COMPL conn);; mret 0
  | Some GSM48_MT_RR_HANDO_FAIL => emit (HO_FAIL conn);; mret 0
  | _ => mret 0
  end.

Definition gsm48_send_rr_app_info conn (apdu_id apdu_len : Z) (apdu : list Z) : MS Z :=
  conn_get conn;;
  gsm48_conn_sendmsg ([pdisc_octet GSM48_PDISC_RR; rr_mt_octet GSM48_MT_RR_APP_INFO; apdu_id; apdu_len]
                        ++ take (Z.to_nat apdu_len) apdu) (Some conn) None.

(** ** Silent calls *)

Definition silent_call_reroute (c : gsm_subscriber_connection) (msg : list Z) : bool :=
  silent_call c
  && negb (bool_decide (gsm48_pdisc_of (rd msg 0 .& 0x0f) = Some GSM48_PDISC_MM)
           && (bool_decide (mm_mt_of (rd msg 1) = Some GSM48_MT_MM_LOC_UPD_REQUEST)
               || bool_decide (mm_mt_of (rd msg 1) = Some GSM48_MT_MM_CM_SERV_REQ))).
Definition gsm_silent_call_start subscr (data : Z) : MS Z := req_paging subscr (paging_cb_silent data).
Definition gsm_silent_call_stop subscr : MS Z :=
  conn ← gets (connection_for_subscr subscr);
  match conn with
  | None => mret (- EINVAL)
  | Some c =>
      cn ← conn_get c;
      if negb (silent_call cn) then mret (- EINVAL)
      else
        conn_upd c (fun cn => cn <| silent_call := false |>);;
        msc_release_connection c;;
        mret 0
  end.

(** ** The entries from the BSC *)

Definition anchor_timeout conn : MS unit :=
  release_anchor conn;;
  msc_release_connection conn.

Definition gsm0408_new_conn conn : MS unit :=
  conn_upd conn (fun c => if anchor_alloc_ok then c <| anch_operation := true |> else c).

Definition gsm0408_dispatch conn (msg : list Z) : MS Z :=
  c ← conn_get conn;
  if silent_call_reroute c msg then mret 0
  else
    match gsm48_pdisc_of (rd msg 0 .& 0x0f) with
    | Some GSM48_PDISC_CC => release_anchor conn;; gsm0408_rcv_cc conn msg
    | Some GSM48_PDISC_MM => gsm0408_rcv_mm conn msg
    | Some GSM48_PDISC_RR => gsm0408_rcv_rr conn msg
    | Some GSM48_PDISC_SMS => release_anchor conn;; call (RCV_SMS conn msg)
    | Some GSM48_PDISC_NC_SS => release_anchor conn;; call (RCV_USSD conn msg)
    | _ => mret 0
    end.

(** [compl_l3] and [dtap] *)
Definition msc_compl_l3 conn (msg : list Z) : MS unit :=
  gsm0408_new_conn conn;;
  gsm0408_dispatch conn msg;;
  mret tt.
Definition msc_dtap conn (msg : list Z) : MS unit := gsm0408_dispatch conn msg;; mret tt.
Definition msc_sapi_n_reject conn (dlci : Z) : MS unit :=
  conn_get conn;;
  when ((dlci .& 0x7) =? 3) (emit (SMS_SAPI_REJECT conn)).

Definition gsm0408_clear_request conn : MS unit :=
  conn_upd conn (fun c => c <| in_release := true |>);;
  release_loc_updating_req conn;;
  c ← conn_get conn;
  match sec_operation c with
  | Some op => match op_cb op with
               | Some cb => sec_cb cb GSM_SECURITY_AUTH_FAILED conn;; mret tt
               | None => mret tt
               end
  | None => mret tt
  end;;
  release_security_operation conn;;
  release_anchor conn;;
  for_each_trans (fun t _ =>
    tr ← trans_get t;
    when (bool_decide (t_conn tr = Some conn)) (trans_free t)) tt.

(** The BSC lost the connection; it frees it when [msc_clear_request] returns 1. *)
Definition msc_clear_request conn : MS unit :=
  gsm0408_clear_request conn;;
  c ← conn_get conn;
  when (c_put_channel c)
    (conn_upd conn (fun c => c <| c_put_channel := false |>);;
     subscr_put_channel (c_subscr c));;
  subscr_con_free conn.

(** The paging timer of request [p] expires; [paged]: it was sent at least once. *)
Definition paging_T3113_expired (p : gsm_paging_request) (paged : bool) : MS unit :=
  emit (COUNT CTR_PAGING_EXPIRED);;
  paging_remove_request p;;
  paging_failed (p_cbfn p) (if paged then GSM_PAGING_EXPIRED else GSM_PAGING_BUSY) (p_subscr p).

End mm.

End Mm.
