(* ===== verification/Mncc.v ===== *)
(** The MNCC application: the built-in call switch (libmsc/mncc_builtin.c) or the socket of an
    external one (libmsc/mncc_sock.c), and the knot: both answer call control before they return,
    so that a message to them may come back as a message from them.

    [depth] bounds how deep such calls nest; what runs out of it is undefined here. *)

From S2P Require Import Prelude Chreq Msc Cc Subscr CcApi Mm.
Import Chreq Msc Cc Subscr CcApi Mm.

Module Mncc.

Section app.
Context {env : MscEnv} {up : Upcalls}.
Implicit Types (m : gsm_mncc).

(** ** The built-in call switch: mncc_builtin.c *)

Definition call_get : nat -> MS gsm_call := load call_objs.
Definition call_new (c : gsm_call) : MS nat :=
  id ← gets next_id;
  modify (fun st => st <| next_id ::= S |> <| call_objs ::= <[id := c]> |>
                       <| call_list ::= fun l => l ++ [id] |>);;
  mret id.
Definition call_upd (id : nat) (f : gsm_call -> gsm_call) : MS unit :=
  call_get id;; modify (fun st => st <| call_objs ::= alter f id |>).
Definition free_call (id : nat) : MS unit :=
  call_get id;;
  modify (fun st => st <| call_list ::= unlink id |> <| call_objs ::= delete id |>).
Definition get_call_ref (ref : Z) (st : msc_state) : option nat :=
  list_find (fun id => match call_objs st !! id with Some c => call_callref c =? ref | None => false end = true)
    (call_list st) ≫= fun r => Some (snd r).

Definition determine_lchan_mode (setup : gsm_mncc) : Z :=
  if lchan_type setup =? lchan_type_num GSM_LCHAN_TCH_F then fst def_codec else snd def_codec.

(** The application's message with the type [mt]. *)
Definition to_cc (mt : Z) (m : gsm_mncc) : MS Z := mncc_tx_to_cc mt (ARG_MNCC m).

Definition setup_reject (call : nat) (cause_val : Z) : MS Z :=
  c ← call_get call;
  to_cc MNCC_REJ_REQ (mncc_set_cause (mncc_for (call_callref c)) GSM48_CAUSE_LOC_PRN_S_LU cause_val);;
  free_call call;;
  mret 0.

Definition mncc_setup_ind (call : nat) (setup : gsm_mncc) : MS Z :=
  c ← call_get call;
  if negb (remote_ref c =? 0) then mret 0
  else if negb (bcap_mode (bearer_cap setup) =? 0) then setup_reject call GSM48_CC_CAUSE_BEARER_CA_UNAVAIL
  else if negb (bcap_transfer (bearer_cap setup) =? GSM_MNCC_BCAP_SPEECH) then
    setup_reject call GSM48_CC_CAUSE_BEARER_CA_UNAVAIL
  else if negb call_alloc_ok then setup_reject call GSM48_CC_CAUSE_RESOURCE_UNAVAIL
  else
    ref ← gets int_new_callref;
    modify (fun st => st <| int_new_callref ::= fun r => u32 (r + 1) |>);;
    remote ← call_new (mk_gsm_call ref (call_callref c));
    call_upd call (fun c => c <| remote_ref := ref |>);;
    to_cc MNCC_LCHAN_MODIFY ((mncc_for (call_callref c)) <| lchan_mode := determine_lchan_mode setup |>);;
    c ← call_get call;
    to_cc MNCC_CALL_PROC_REQ (mncc_for (call_callref c));;
    r ← call_get remote;
    to_cc MNCC_SETUP_REQ (setup <| callref := call_callref r |>).

(** mncc_alert_ind and mncc_notify_ind *)
Definition mncc_forward (call : nat) (req : Z) (m : gsm_mncc) : MS Z :=
  c ← call_get call;
  remote ← gets (get_call_ref (remote_ref c));
  match remote with
  | None => mret 0
  | Some r => r ← call_get r; to_cc req (m <| callref := call_callref r |>)
  end.
Definition mncc_alert_ind (call : nat) (alert : gsm_mncc) : MS Z := mncc_forward call MNCC_ALERT_REQ alert.
Definition mncc_notify_ind (call : nat) (ntfy : gsm_mncc) : MS Z := mncc_forward call MNCC_NOTIFY_REQ ntfy.

Definition mncc_setup_cnf (call : nat) (connect : gsm_mncc) : MS Z :=
  c ← call_get call;
  to_cc MNCC_SETUP_COMPL_REQ (mncc_for (call_callref c));;
  c ← call_get call;
  remote ← gets (get_call_ref (remote_ref c));
  match remote with
  | None => mret 0
  | Some r =>
      r ← call_get r;
      to_cc MNCC_SETUP_RSP (connect <| callref := call_callref r |>);;
      c ← call_get call;
      if ipacc_rtp_direct || negb handover_active then
        mncc_tx_to_cc MNCC_BRIDGE (ARG_REFS (call_callref c) (remote_ref c))
      else
        to_cc MNCC_FRAME_RECV (mncc_for (call_callref c));;
        c ← call_get call;
        to_cc MNCC_FRAME_RECV (mncc_for (remote_ref c))
  end.

Definition mncc_disc_ind (call : nat) (disc : gsm_mncc) : MS Z :=
  call_get call;;
  to_cc MNCC_REL_REQ disc;;
  mncc_forward call MNCC_DISC_REQ disc.

Definition mncc_rel_ind (call : nat) (rel : gsm_mncc) : MS Z :=
  c ← call_get call;
  remote ← gets (get_call_ref (remote_ref c));
  match remote with
  | None => free_call call;; mret 0
  | Some r =>
      rc ← call_get r;
      free_call call;;
      call_get r;;
      to_cc MNCC_REL_REQ (rel <| callref := call_callref rc |>);;
      mret 0
  end.
Definition mncc_rel_cnf (call : nat) (rel : gsm_mncc) : MS Z := free_call call;; mret 0.

Definition mncc_rcv_tchf (call : nat) (dfr : gsm_mncc) : MS Z :=
  c ← call_get call;
  trans ← gets (trans_find_by_callref (remote_ref c));
  match trans with
  | None => mret (- EIO)
  | Some t =>
      tr ← trans_get t;
      match t_conn tr with
      | None => mret (- EIO)
      | Some conn =>
          l ← lchan_get conn;
          if negb (rtp_socket l) then mret (- EIO) else Msc.call (RTP_SEND_FRAME conn dfr)
      end
  end.

(** The rejection of what the switch does not do. *)
Definition unimplemented (req : Z) (data : gsm_mncc) : MS Z :=
  to_cc req (mncc_set_cause data GSM48_CAUSE_LOC_PRN_S_LU GSM48_CC_CAUSE_SERV_OPT_UNIMPL).

Definition int_mncc_call (call : nat) (data : gsm_mncc) : MS Z :=
  let mt := msg_type data in
  if mt =? MNCC_SETUP_IND then mncc_setup_ind call data
  else if mt =? MNCC_SETUP_CNF then mncc_setup_cnf call data
  else if mt =? MNCC_SETUP_COMPL_IND then mret 0
  else if mt =? MNCC_CALL_CONF_IND then
    call_get call;;
    to_cc MNCC_LCHAN_MODIFY (data <| lchan_mode := determine_lchan_mode data |>);;
    mret 0
  else if mt =? MNCC_ALERT_IND then mncc_alert_ind call data
  else if mt =? MNCC_NOTIFY_IND then mncc_notify_ind call data
  else if mt =? MNCC_DISC_IND then mncc_disc_ind call data
  else if (mt =? MNCC_REL_IND) || (mt =? MNCC_REJ_IND) then mncc_rel_ind call data
  else if mt =? MNCC_REL_CNF then mncc_rel_cnf call data
  else if mt =? MNCC_MODIFY_IND then unimplemented MNCC_MODIFY_REJ data
  else if mt =? MNCC_HOLD_IND then unimplemented MNCC_HOLD_REJ data
  else if mt =? MNCC_RETRIEVE_IND then unimplemented MNCC_RETRIEVE_REJ data
  else if (mt =? GSM_TCHF_FRAME) || (mt =? GSM_TCHF_FRAME_EFR) then mncc_rcv_tchf call data
  else mret 0.

Definition int_mncc_recv (data : gsm_mncc) : MS unit :=
  found ← gets (get_call_ref (callref data));
  match found with
  | Some call => int_mncc_call call data;; mret tt
  | None =>
      if negb (msg_type data =? MNCC_SETUP_IND) then mret tt
      else if call_alloc_ok then
        call ← call_new (mk_gsm_call (callref data) 0);
        int_mncc_call call data;;
        mret tt
      else
        to_cc MNCC_REL_REQ (mncc_set_cause (mncc_for (callref data)) GSM48_CAUSE_LOC_PRN_S_LU
                              GSM48_CC_CAUSE_RESOURCE_UNAVAIL);;
        mret tt
  end.

(** ** The socket: mncc_sock.c *)

Definition mncc_sock_from_cc (mncc_in : gsm_mncc) : MS unit :=
  connected ← gets sock_conn;
  if connected : bool then
    modify (fun st => st <| upqueue ::= fun q => q ++ [mncc_in] |>);;
    emit (MNCC mncc_in)
  else
    when (negb (msg_type mncc_in =? GSM_TCHF_FRAME) && negb (msg_type mncc_in =? GSM_TCHF_FRAME_EFR))
      (to_cc MNCC_REL_REQ (mncc_set_cause (mncc_for (callref mncc_in)) GSM48_CAUSE_LOC_PRN_S_LU
                             GSM48_CC_CAUSE_TEMP_FAILURE);;
       mret tt).

Definition mncc_sock_close : MS unit :=
  modify (fun st => st <| sock_conn := false |>);;
  gsm0408_clear_all_trans GSM48_PDISC_CC;;
  modify (fun st => st <| upqueue := [] |>).

(** A message is read from the socket. *)
Definition mncc_sock_read (mncc_prim : gsm_mncc) : MS unit :=
  mncc_tx_to_cc (msg_type mncc_prim) (ARG_MNCC mncc_prim);;
  mret tt.

(** What the queue holds is written; [writable] messages fit. *)
Fixpoint mncc_sock_write (writable : nat) : MS unit :=
  q ← gets upqueue;
  match q, writable with
  | m :: _, S writable =>
      emit (MNCC_SENT m);;
      modify (fun st => st <| upqueue ::= tail |>);;
      mncc_sock_write writable
  | _, _ => mret tt
  end.

(** An application connects; there is only room for one. *)
Definition mncc_sock_accept : MS unit := modify (fun st => st <| sock_conn := true |>).

(** [net->mncc_recv] *)
Definition mncc_handler (m : gsm_mncc) : MS unit :=
  if mncc_internal then int_mncc_recv m else mncc_sock_from_cc m.

End app.

(** ** The knot *)

Fixpoint upcalls {env : MscEnv} (depth : nat) : Upcalls :=
  match depth with
  | O => {| mncc_recv := fun _ => fault; subscr_put_channel := fun _ => fault |}
  | S depth =>
      let up := upcalls depth in
      {| mncc_recv := @mncc_handler env up; subscr_put_channel := @put_channel_body env up |}
  end.

(** ** What happens to this side *)

Inductive msc_op : Type :=
(* from the BSC *)
| OpNewConn (c : gsm_subscriber_connection) (pos : nat)  (* a channel, with its place in the order *)
| OpComplL3 (conn : nat) (msg : list Z)
| OpDtap (conn : nat) (msg : list Z)
| OpClearRequest (conn : nat)
| OpSapiReject (conn : nat) (dlci : Z)
| OpHandover (conn : nat) (l : gsm_lchan) (pos : nat)    (* the connection has another channel *)
| OpAbisip (sig : abisip_signal) (conn : nat)
| OpBtsUsable (bts : nat) (usable : bool)
(* timers *)
| OpCcTimeout (t : nat)
| OpAnchorTimeout (conn : nat)
| OpLocUpdTimeout (conn : nat)
| OpPagingTimeout (p : nat) (paged : bool)
(* the MNCC application *)
| OpMncc (m : gsm_mncc)
| OpMnccAccept
| OpMnccClose
| OpMnccWrite (writable : nat)
| OpTchFrame (m : gsm_mncc)                               (* from an RTP socket *)
(* the operator *)
| OpSilentCall (subscr : nat) (data : Z)
| OpSilentStop (subscr : nat)
| OpPurge
| OpPendingClear (subscr : nat)
| OpPendingKick (subscr : nat)
| OpSmsChannel (subscr : nat) (sms : nat).               (* gsm_04_11.c asks for a channel *)

(** A new connection has a channel and no operation, and no subscriber. *)
Definition conn_fresh (c : gsm_subscriber_connection) : gsm_subscriber_connection :=
  mk_gsm_subscriber_connection None None None false false false false (c_lchan c) (c_bts c).

Section step.
Context {env : MscEnv}.

Definition step_op `{Upcalls} (op : msc_op) : MS unit :=
  match op with
  | OpNewConn c pos =>
      modify (fun st => st <| next_id ::= S |> <| conns ::= <[next_id st := conn_fresh c]> |>
                           <| conn_list ::= fun l => take pos l ++ next_id st :: drop pos l |>)
  | OpComplL3 conn msg => msc_compl_l3 conn msg
  | OpDtap conn msg => msc_dtap conn msg
  | OpClearRequest conn => msc_clear_request conn
  | OpSapiReject conn dlci => msc_sapi_n_reject conn dlci
  | OpHandover conn l pos =>
      conn_upd conn (fun c => c <| c_lchan := Some l |>);;
      modify (fun st => st <| conn_list ::= fun q => take pos (unlink conn q) ++ conn :: drop pos (unlink conn q) |>)
  | OpAbisip sig conn => handle_abisip_signal sig conn;; mret tt
  | OpBtsUsable bts usable => modify (fun st => st <| btss ::= alter (fun b => b <| trx_is_usable := usable |>) bts |>)
  | OpCcTimeout t =>
      pending ← gets (fun st => bool_decide (is_Some (cc_timers st !! t)));
      when pending (modify (fun st => st <| cc_timers ::= delete t |>);; gsm48_cc_timeout t)
  | OpAnchorTimeout conn =>
      c ← conn_get conn;
      when (anch_operation c) (anchor_timeout conn)
  | OpLocUpdTimeout conn =>
      c ← conn_get conn;
      match loc_operation c with
      | Some o => when (updating_timer o)
                    (loc_upd conn (fun o => o <| updating_timer := false |>);; loc_upd_rej_cb conn)
      | None => mret tt
      end
  | OpPagingTimeout p paged =>
      req ← gets (fun st => list_find (fun q => p_id q = p) (pagings st));
      match req with
      | Some (_, q) => paging_T3113_expired q paged
      | None => mret tt
      end
  | OpMncc m => connected ← gets sock_conn; when (connected && negb mncc_internal) (mncc_sock_read m)
  | OpMnccAccept => mncc_sock_accept
  | OpMnccClose => connected ← gets sock_conn; when connected mncc_sock_close
  | OpMnccWrite writable => mncc_sock_write writable
  | OpTchFrame m => mncc_recv m
  | OpSilentCall subscr data => gsm_silent_call_start subscr data;; mret tt
  | OpSilentStop subscr => gsm_silent_call_stop subscr;; mret tt
  | OpPurge => subscr_purge_inactive
  | OpPendingClear subscr => subscr_pending_clear subscr;; mret tt
  | OpPendingKick subscr => subscr_pending_kick subscr;; mret tt
  | OpSmsChannel subscr sms => subscr_get_channel subscr 0 (paging_cb_send_sms sms)
  end.

Definition step (depth : nat) (op : msc_op) : MS unit := @step_op (upcalls depth) op.

Fixpoint run (depth : nat) (ops : list msc_op) : MS unit :=
  match ops with
  | [] => mret tt
  | op :: ops => step depth op;; run depth ops
  end.

End step.

(** The network as it starts. *)
Definition msc_empty (bs : list gsm_bts) : msc_state :=
  mk_msc_state ∅ [] ∅ ∅ [] ∅ [] bs [] ∅ 0x80000001 ∅ [] 0x00000001 false [] 0 0.

End Mncc.
