(* ===== verification/MscDemo.v ===== *)
(** A concrete environment and two subscribers, for the witnesses of the MSC's theorems.

    The numbers are those of 04.08; the only element of a call control message is the called number, identities are decoded the way
    libosmocore does, and the database knows two subscribers by number, IMSI and TMSI. *)

From S2P Require Import Prelude Chreq Msc Cc Subscr CcApi Mm Mncc.
Import Chreq Msc Cc Subscr CcApi Mm Mncc.

Module MscDemo.

(** The inverse of a numbering of finitely many names. *)
Definition of_octet {A} (octet : A -> Z) (all : list A) (o : Z) : option A :=
  list_find (fun a => octet a = o) all ≫= fun r => Some (snd r).

Definition d_pdisc (p : gsm48_pdisc) : Z :=
  match p with
  | GSM48_PDISC_CC => 3 | GSM48_PDISC_MM => 5 | GSM48_PDISC_RR => 6 | GSM48_PDISC_MM_GPRS => 8
  | GSM48_PDISC_SMS => 9 | GSM48_PDISC_SM_GPRS => 10 | GSM48_PDISC_NC_SS => 11
  end.
Definition d_pdiscs : list gsm48_pdisc :=
  [GSM48_PDISC_CC; GSM48_PDISC_MM; GSM48_PDISC_RR; GSM48_PDISC_MM_GPRS; GSM48_PDISC_SMS;
   GSM48_PDISC_SM_GPRS; GSM48_PDISC_NC_SS].

Definition d_cc (m : gsm48_cc_mt) : Z :=
  match m with
  | GSM48_MT_CC_ALERTING => 0x01 | GSM48_MT_CC_CALL_CONF => 0x08 | GSM48_MT_CC_CALL_PROC => 0x02
  | GSM48_MT_CC_CONNECT => 0x07 | GSM48_MT_CC_CONNECT_ACK => 0x0f | GSM48_MT_CC_EMERG_SETUP => 0x0e
  | GSM48_MT_CC_PROGRESS => 0x03 | GSM48_MT_CC_SETUP => 0x05 | GSM48_MT_CC_MODIFY => 0x17
  | GSM48_MT_CC_MODIFY_COMPL => 0x1f | GSM48_MT_CC_MODIFY_REJECT => 0x13
  | GSM48_MT_CC_USER_INFO => 0x10 | GSM48_MT_CC_HOLD => 0x18 | GSM48_MT_CC_HOLD_ACK => 0x19
  | GSM48_MT_CC_HOLD_REJ => 0x1a | GSM48_MT_CC_RETR => 0x1c | GSM48_MT_CC_RETR_ACK => 0x1d
  | GSM48_MT_CC_RETR_REJ => 0x1e | GSM48_MT_CC_DISCONNECT => 0x25 | GSM48_MT_CC_RELEASE => 0x2d
  | GSM48_MT_CC_RELEASE_COMPL => 0x2a | GSM48_MT_CC_NOTIFY => 0x3e | GSM48_MT_CC_STATUS => 0x3d
  | GSM48_MT_CC_STATUS_ENQ => 0x34 | GSM48_MT_CC_START_DTMF => 0x35
  | GSM48_MT_CC_START_DTMF_ACK => 0x36 | GSM48_MT_CC_START_DTMF_REJ => 0x37
  | GSM48_MT_CC_STOP_DTMF => 0x31 | GSM48_MT_CC_STOP_DTMF_ACK => 0x32 | GSM48_MT_CC_FACILITY => 0x3a
  end.
Definition d_ccs : list gsm48_cc_mt :=
  [GSM48_MT_CC_ALERTING; GSM48_MT_CC_CALL_CONF; GSM48_MT_CC_CALL_PROC; GSM48_MT_CC_CONNECT;
   GSM48_MT_CC_CONNECT_ACK; GSM48_MT_CC_EMERG_SETUP; GSM48_MT_CC_PROGRESS; GSM48_MT_CC_SETUP;
   GSM48_MT_CC_MODIFY; GSM48_MT_CC_MODIFY_COMPL; GSM48_MT_CC_MODIFY_REJECT; GSM48_MT_CC_USER_INFO;
   GSM48_MT_CC_HOLD; GSM48_MT_CC_HOLD_ACK; GSM48_MT_CC_HOLD_REJ; GSM48_MT_CC_RETR;
   GSM48_MT_CC_RETR_ACK; GSM48_MT_CC_RETR_REJ; GSM48_MT_CC_DISCONNECT; GSM48_MT_CC_RELEASE;
   GSM48_MT_CC_RELEASE_COMPL; GSM48_MT_CC_NOTIFY; GSM48_MT_CC_STATUS; GSM48_MT_CC_STATUS_ENQ;
   GSM48_MT_CC_START_DTMF; GSM48_MT_CC_START_DTMF_ACK; GSM48_MT_CC_START_DTMF_REJ;
   GSM48_MT_CC_STOP_DTMF; GSM48_MT_CC_STOP_DTMF_ACK; GSM48_MT_CC_FACILITY].

Definition d_mm (m : gsm48_mm_mt) : Z :=
  match m with
  | GSM48_MT_MM_IMSI_DETACH_IND => 0x01 | GSM48_MT_MM_LOC_UPD_ACCEPT => 0x02
  | GSM48_MT_MM_LOC_UPD_REJECT => 0x04 | GSM48_MT_MM_LOC_UPD_REQUEST => 0x08
  | GSM48_MT_MM_AUTH_REJ => 0x11 | GSM48_MT_MM_AUTH_REQ => 0x12 | GSM48_MT_MM_AUTH_RESP => 0x14
  | GSM48_MT_MM_ID_REQ => 0x18 | GSM48_MT_MM_ID_RESP => 0x19 | GSM48_MT_MM_TMSI_REALL_COMPL => 0x1b
  | GSM48_MT_MM_CM_SERV_ACC => 0x21 | GSM48_MT_MM_CM_SERV_REJ => 0x22
  | GSM48_MT_MM_CM_SERV_REQ => 0x24 | GSM48_MT_MM_CM_REEST_REQ => 0x28 | GSM48_MT_MM_STATUS => 0x31
  | GSM48_MT_MM_INFO => 0x32
  end.
Definition d_mms : list gsm48_mm_mt :=
  [GSM48_MT_MM_IMSI_DETACH_IND; GSM48_MT_MM_LOC_UPD_ACCEPT; GSM48_MT_MM_LOC_UPD_REJECT;
   GSM48_MT_MM_LOC_UPD_REQUEST; GSM48_MT_MM_AUTH_REJ; GSM48_MT_MM_AUTH_REQ; GSM48_MT_MM_AUTH_RESP;
   GSM48_MT_MM_ID_REQ; GSM48_MT_MM_ID_RESP; GSM48_MT_MM_TMSI_REALL_COMPL; GSM48_MT_MM_CM_SERV_ACC;
   GSM48_MT_MM_CM_SERV_REJ; GSM48_MT_MM_CM_SERV_REQ; GSM48_MT_MM_CM_REEST_REQ; GSM48_MT_MM_STATUS;
   GSM48_MT_MM_INFO].

Definition d_rr (m : gsm48_rr_mt) : Z :=
  match m with
  | GSM48_MT_RR_CLSM_CHG => 0x16 | GSM48_MT_RR_GPRS_SUSP_REQ => 0x34 | GSM48_MT_RR_PAG_RESP => 0x27
  | GSM48_MT_RR_STATUS => 0x12 | GSM48_MT_RR_MEAS_REP => 0x15 | GSM48_MT_RR_APP_INFO => 0x38
  | GSM48_MT_RR_CIPH_M_COMPL => 0x32 | GSM48_MT_RR_HANDO_COMPL => 0x2c | GSM48_MT_RR_HANDO_FAIL => 0x28
  end.
#[export] Instance gsm48_rr_mt_eq_dec : EqDecision gsm48_rr_mt.
Proof. solve_decision. Defined.
Definition d_rrs : list gsm48_rr_mt :=
  [GSM48_MT_RR_CLSM_CHG; GSM48_MT_RR_GPRS_SUSP_REQ; GSM48_MT_RR_PAG_RESP; GSM48_MT_RR_STATUS;
   GSM48_MT_RR_MEAS_REP; GSM48_MT_RR_APP_INFO; GSM48_MT_RR_CIPH_M_COMPL; GSM48_MT_RR_HANDO_COMPL;
   GSM48_MT_RR_HANDO_FAIL].

Definition d_mi (t : gsm_mi_type) : Z :=
  match t with GSM_MI_TYPE_IMSI => 1 | GSM_MI_TYPE_IMEI => 2 | GSM_MI_TYPE_IMEISV => 3 | GSM_MI_TYPE_TMSI => 4 end.
(** A TMSI as its decimal digits, other identities digit by digit. *)
Definition d_mi_to_string (mi : list Z) (len : Z) : list Z :=
  if rd mi 0 .& 7 =? 4 then
    decimal 10 (rd mi 1 * 0x1000000 + rd mi 2 * 0x10000 + rd mi 3 * 0x100 + rd mi 4)
  else map (fun d => 48 + d .& 15) (take (Z.to_nat len - 1) (tail mi)).

(** The two subscribers of the database. *)
Definition d_imsi (n : Z) : list Z := map (fun d => 48 + d) [0; 0; 1; 0; 1; 0; 0; 0; 0; n].
Definition d_ext (n : Z) : list Z := [48 + n; 48; 48].
Definition d_subscr (n : Z) : gsm_subscriber :=
  subscr_zero <| s_id := n |> <| s_imsi := d_imsi n |> <| s_tmsi := 0x1000 + n |> <| s_lac := 1 |>
              <| s_extension := d_ext n |> <| authorized := 1 |>.
Definition d_db (field : gsm_subscriber_field) (id : list Z) : option gsm_subscriber :=
  list_find (fun s => match field with
                      | GSM_SUBSCRIBER_IMSI => bool_decide (s_imsi s = id)
                      | GSM_SUBSCRIBER_TMSI => bool_decide (decimal 10 (s_tmsi s) = id)
                      | GSM_SUBSCRIBER_EXTENSION => bool_decide (s_extension s = id)
                      | GSM_SUBSCRIBER_ID => bool_decide (decimal 10 (s_id s) = id)
                      end = true) [d_subscr 1; d_subscr 2] ≫= fun r => Some (snd r).

(** With the built-in call switch or the socket, with or without ciphering. *)
Definition demo_env (internal : bool) (a5 : Z) : MscEnv := {|
  pdisc_octet := d_pdisc; gsm48_pdisc_of := of_octet d_pdisc d_pdiscs;
  cc_mt_octet := d_cc; cc_mt_of := of_octet d_cc d_ccs;
  mm_mt_octet := d_mm; mm_mt_of := of_octet d_mm d_mms;
  rr_mt_octet := d_rr; rr_mt_of := of_octet d_rr d_rrs;
  mi_type_octet := d_mi;
  mi_type_of := fun o => of_octet d_mi [GSM_MI_TYPE_IMSI; GSM_MI_TYPE_IMEI; GSM_MI_TYPE_IMEISV;
                                        GSM_MI_TYPE_TMSI] (o .& 7);
  iei_octet := fun i => match i with GSM48_IE_BEARER_CAP => 4 | GSM48_IE_CAUSE => 8 | _ => 0x1c end;
  lchan_type_num := fun t => match t with GSM_LCHAN_NONE => 0 | GSM_LCHAN_SDCCH => 1 | GSM_LCHAN_TCH_F => 2
                                     | GSM_LCHAN_TCH_H => 3 | GSM_LCHAN_UNKNOWN => 4 end;
  cc_tlv_parse := fun d _ _ i =>
    match i, d with GSM48_IE_CALLED_BCD, _ :: _ => Some d | _, _ => None end;
  decode_bearer_cap := fun lv => mk_gsm_mncc_bearer_cap 0 0 lv;
  decode_called := mk_gsm_mncc_number [];
  decode_cause := fun lv => cause_zero;
  decode_facility := id; decode_progress := id; decode_useruser := id; decode_ssversion := id;
  decode_cccap := id;
  decode_keypad := fun lv => rd lv 1; decode_notify := fun v => rd v 0;
  encode_bearer_cap := fun _ b => [4; Z.of_nat (length (bcap_rest b))] ++ bcap_rest b;
  encode_facility := fun _ l => 0x1c :: l; encode_progress := fun _ l => 0x1e :: l;
  encode_useruser := fun _ l => 0x7e :: l;
  encode_cause := fun _ c => [8; 2; 0xe0 .| location c; 0x80 .| value c];
  encode_calling := fun n => 0x5c :: number n; encode_called := fun n => 0x5e :: number n;
  encode_redirecting := fun n => 0x74 :: number n; encode_connected := fun n => 0x4c :: number n;
  encode_signal := fun x => [0x34; x]; encode_keypad := fun x => [0x2c; x];
  encode_notify := fun x => [0x80 .| x]; encode_more := [0xa0];
  GSM48_CAUSE_CS_GSM := 0x60; GSM48_CAUSE_LOC_USER := 0; GSM48_CAUSE_LOC_PRN_S_LU := 1;
  GSM48_CC_CAUSE_RECOVERY_TIMER := 102; GSM48_CC_CAUSE_NORMAL_UNSPEC := 31;
  GSM48_CC_CAUSE_USER_NOTRESPOND := 18; GSM48_CC_CAUSE_RESOURCE_UNAVAIL := 47;
  GSM48_CC_CAUSE_DEST_OOO := 27; GSM48_CC_CAUSE_INVAL_TRANS_ID := 81;
  GSM48_CC_CAUSE_INV_NR_FORMAT := 28; GSM48_CC_CAUSE_UNASSIGNED_NR := 1;
  GSM48_CC_CAUSE_NORM_CALL_CLEAR := 16; GSM48_CC_CAUSE_BEARER_CA_UNAVAIL := 58;
  GSM48_CC_CAUSE_SERV_OPT_UNIMPL := 79; GSM48_CC_CAUSE_TEMP_FAILURE := 41;
  GSM_MNCC_BCAP_SPEECH := 0;
  RSL_CHANNEED_TCH_F := 2;
  GSM48_T := fun T => if T =? 0x301 then (180, 0) else (30, 0);
  gsm48_mi_to_string := d_mi_to_string;
  gsm48_generate_lai := fun cc nc lac => [cc; nc; 0; lac .>> 8; lac .& 0xff];
  gsm48_generate_mid_from_tmsi := fun t => [0x17; 5; 0xf4] ++ be16 (t .>> 16) ++ be16 (t .& 0xffff);
  gsm_7bit_encode := id;
  lu_type := fun lu => rd lu 0 .& 3; lu_key_seq := fun lu => rd lu 0 .>> 4;
  lu_classmark1 := fun lu => rd lu 6; lu_mi_len := fun lu => rd lu 7; lu_mi := drop 8;
  idi_classmark1 := fun idi => rd idi 0; idi_mi_len := fun idi => rd idi 1; idi_mi := drop 2;
  serv_req_mi_len := fun d => rd d 5; serv_req_key_seq := fun d => rd d 0 .>> 4;
  sizeof_service_request_ptr := 8;
  pag_resp_key_seq := fun d => rd d 0; pag_resp_classmark2 := 1;
  auth_resp_sres := id;
  GSM48_LUPD_NORMAL := 0; GSM48_LUPD_PERIODIC := 1; GSM48_LUPD_IMSI_ATT := 2;
  GSM48_IE_NAME_LONG := 0x43; GSM48_IE_NAME_SHORT := 0x45;
  GSM48_REJECT_PROTOCOL_ERROR := 111; GSM48_REJECT_INCORRECT_MESSAGE := 95;
  GSM48_REJECT_IMSI_UNKNOWN_IN_HLR := 2;
  GSM_LAC_RESERVED_DETACHED := 0;
  msgb_data_len := 200;
  ms_cm2_a5n_support := fun _ _ => true;
  comp128 := fun ki rnd => (take 4 ki, take 8 rnd);
  random_octets := fun n => repeat (Z.of_nat n) 16;
  uninit_mi := ([], 0);
  trans_alloc_ok := true; mncc_msgb_ok := true; pag_token_ok := true; request_alloc_ok := true;
  call_alloc_ok := true; anchor_alloc_ok := true;
  mncc_internal := internal;
  keep_subscr := false;
  a5_encryption := a5;
  auth_policy := GSM_AUTH_POLICY_CLOSED;
  reject_cause := 11;
  send_mm_info := false; name_long := None; name_short := None;
  country_code := 1; network_code := 1;
  ipacc_rtp_direct := false; handover_active := false;
  def_codec := (0x21, 0x01);
  db_get_subscriber := fun _ => d_db;
  db_new_subscriber := fun n imsi => (100 + Z.of_nat n, []);
  db_alloc_tmsi := fun n s => 0x2000 + Z.of_nat n;
  db_get_authinfo := fun n s => (0, (2, repeat 7 16));
  db_get_lastauthtuple := fun n s => (- ENOENT, mk_gsm_auth_tuple 0 0 [] [] []);
  db_update := fun n s => s;
  event_rc := fun _ => 0
|}.

(** A location area with one BTS. *)
Definition demo_bts : gsm_bts := mk_gsm_bts 1 GSM_BTS_TYPE_BS11 false true.
Definition demo_start : msc_state := msc_empty [demo_bts].
Definition demo_conn : gsm_subscriber_connection :=
  mk_gsm_subscriber_connection None None None false false false false
    (Some (mk_gsm_lchan GSM_LCHAN_TCH_F 0 0 false)) 0.

(** Messages of mobile [n]: a CM service request, a paging response, and call control. *)
Definition d_tmsi (n : Z) : list Z := [0xf4; 0; 0; 0x10; n].
Definition d_serv_req (n : Z) : list Z := [5; 0x24; 0x01; 3; 0; 0; 0; 5] ++ d_tmsi n.
Definition d_pag_resp (n : Z) : list Z := [6; 0x27; 0x00; 3; 0; 0; 0; 5] ++ d_tmsi n.
Definition d_cc_msg (ti : Z) (m : gsm48_cc_mt) : list Z := [3 .| (ti .<< 4); d_cc m].
Definition d_setup_req (ref n : Z) : gsm_mncc :=
  mncc_zero <| msg_type := MNCC_SETUP_REQ |> <| callref := ref |>
            <| called := mk_gsm_mncc_number [] (d_ext n) |>.
Definition d_mncc (mt ref : Z) : gsm_mncc := mncc_zero <| msg_type := mt |> <| callref := ref |>.

(** What a run ends in, as far as a reader can take it in: the transactions and the events. *)
Definition outcome {E} (r : option (unit * msc_state * list E)) :=
  match r with
  | Some (_, st, ev) =>
      Some ((fun t => (t_callref t, cc_state t, transaction_id t, t_conn t)) <$> (map_to_list (transs st)).*2,
            map_to_list (cc_timers st), ev)
  | None => None
  end.

(** The state a run ends in. *)
Definition after {E} (r : option (unit * msc_state * list E)) : msc_state :=
  match r with Some (_, st, _) => st | None => demo_start end.

(** Subscriber 1 calls, and the application has connected the call; T313 runs. *)
Definition demo_call_ops : list msc_op :=
  [OpMnccAccept; OpNewConn demo_conn 0; OpComplL3 0 (d_serv_req 1);
   OpDtap 0 (d_cc_msg 0 GSM48_MT_CC_SETUP); OpMncc (d_mncc MNCC_SETUP_RSP 0x80000001)].
Definition demo_call : msc_state := after (@run (demo_env false 0) 10 demo_call_ops demo_start).
Definition demo_trans : gsm_trans :=
  (trans_new 1 GSM48_PDISC_CC 8 0x80000001) <| t_conn := Some 0%nat |> <| cc_state := GSM_CSTATE_CONNECT_IND |>
    <| Tcurrent := 0x313 |>.

End MscDemo.
