(* ===== verification/CcSpec.v ===== *)
(** An abstract call: what 04.08 section 5 and the MNCC interface let one end of a call do.

    A call has a state, the reference the application knows it by (0 once the application has been
    told that it is over), the timer that runs, and whether T308 has expired once. [cc_rx],
    [cc_tx] and [cc_expire] say for a message of the mobile, a request of the application and the
    expiry of the timer what the call becomes ([None]: it is gone) and what is said to whom.
    CcRefine.v proves that the transactions of gsm_04_08.c behave so. *)

From S2P Require Import Prelude Chreq Msc.
Import Msc.

Module CcSpec.

Record cc_call : Type := mk_cc_call {
  cl_state : cc_cstate;
  cl_ref : Z;
  cl_timer : option Z;
  cl_second : bool  (* T308 has expired once *)
}.

#[export] Instance upd_cl_state : Upd cl_state := fun f r => mk_cc_call (f (cl_state r)) (cl_ref r)
  (cl_timer r) (cl_second r).
#[export] Instance upd_cl_ref : Upd cl_ref := fun f r => mk_cc_call (cl_state r) (f (cl_ref r))
  (cl_timer r) (cl_second r).
#[export] Instance upd_cl_timer : Upd cl_timer := fun f r => mk_cc_call (cl_state r) (cl_ref r)
  (f (cl_timer r)) (cl_second r).
#[export] Instance upd_cl_second : Upd cl_second := fun f r => mk_cc_call (cl_state r) (cl_ref r)
  (cl_timer r) (f (cl_second r)).

Inductive cc_out : Type :=
| ToMs (m : gsm48_cc_mt)
| ToApp (type ref : Z)
| AssignReq.

(** What a call becomes, and what is said. *)
Definition cc_result : Type := option cc_call * list cc_out.

(** The call goes to a state, with a timer or with none. *)
Definition enter (s : cc_cstate) (timer : option Z) (c : cc_call) : cc_call :=
  c <| cl_state := s |> <| cl_timer := timer |>.

(** RELEASE is sent: the application does not hear of the call any more. *)
Definition release (c : cc_call) : cc_call :=
  (enter GSM_CSTATE_RELEASE_REQ (Some 0x308) c) <| cl_ref := 0 |> <| cl_second := false |>.

(** A message of the mobile. *)
Definition cc_rx (m : gsm48_cc_mt) (c : cc_call) : cc_result :=
  let s := cl_state c in
  let tell := fun ind c' => (Some c', [ToApp ind (cl_ref c)]) in
  let in_ := existsb (fun x => bool_decide (s = x)) in
  let unhandled := (Some c, []) in
  match m with
  | GSM48_MT_CC_SETUP | GSM48_MT_CC_EMERG_SETUP =>
      if in_ [GSM_CSTATE_NULL] then tell MNCC_SETUP_IND (c <| cl_state := GSM_CSTATE_INITIATED |>)
      else unhandled
  | GSM48_MT_CC_CONNECT_ACK =>
      if in_ [GSM_CSTATE_CONNECT_IND] then tell MNCC_SETUP_COMPL_IND (enter GSM_CSTATE_ACTIVE None c)
      else unhandled
  | GSM48_MT_CC_CALL_CONF =>
      if in_ [GSM_CSTATE_CALL_PRESENT] then
        tell MNCC_CALL_CONF_IND (enter GSM_CSTATE_MO_TERM_CALL_CONF (Some 0x310) c)
      else unhandled
  | GSM48_MT_CC_ALERTING =>
      if in_ [GSM_CSTATE_CALL_PRESENT; GSM_CSTATE_MO_TERM_CALL_CONF] then
        tell MNCC_ALERT_IND (enter GSM_CSTATE_CALL_RECEIVED (Some 0x301) c)
      else unhandled
  | GSM48_MT_CC_CONNECT =>
      if in_ [GSM_CSTATE_CALL_PRESENT; GSM_CSTATE_MO_TERM_CALL_CONF; GSM_CSTATE_CALL_RECEIVED] then
        tell MNCC_SETUP_CNF (enter GSM_CSTATE_CONNECT_REQUEST None c)
      else unhandled
  | GSM48_MT_CC_FACILITY => if in_ [GSM_CSTATE_NULL] then unhandled else tell MNCC_FACILITY_IND c
  | GSM48_MT_CC_NOTIFY => if in_ [GSM_CSTATE_ACTIVE] then tell MNCC_NOTIFY_IND c else unhandled
  | GSM48_MT_CC_START_DTMF => tell MNCC_START_DTMF_IND c
  | GSM48_MT_CC_STOP_DTMF => tell MNCC_STOP_DTMF_IND c
  | GSM48_MT_CC_STATUS_ENQ => (Some c, [ToMs GSM48_MT_CC_STATUS])
  | GSM48_MT_CC_HOLD => if in_ [GSM_CSTATE_ACTIVE] then tell MNCC_HOLD_IND c else unhandled
  | GSM48_MT_CC_RETR => if in_ [GSM_CSTATE_ACTIVE] then tell MNCC_RETRIEVE_IND c else unhandled
  | GSM48_MT_CC_MODIFY =>
      if in_ [GSM_CSTATE_ACTIVE] then tell MNCC_MODIFY_IND (c <| cl_state := GSM_CSTATE_MO_ORIG_MODIFY |>)
      else unhandled
  | GSM48_MT_CC_MODIFY_COMPL =>
      if in_ [GSM_CSTATE_MO_TERM_MODIFY] then tell MNCC_MODIFY_CNF (enter GSM_CSTATE_ACTIVE None c)
      else unhandled
  | GSM48_MT_CC_MODIFY_REJECT =>
      if in_ [GSM_CSTATE_MO_TERM_MODIFY] then tell MNCC_MODIFY_REJ (enter GSM_CSTATE_ACTIVE None c)
      else unhandled
  | GSM48_MT_CC_USER_INFO => if in_ [GSM_CSTATE_ACTIVE] then tell MNCC_USERINFO_IND c else unhandled
  | GSM48_MT_CC_DISCONNECT =>
      if in_ [GSM_CSTATE_NULL; GSM_CSTATE_RELEASE_REQ] then unhandled
      else tell MNCC_DISC_IND (enter GSM_CSTATE_DISCONNECT_REQ None c)
  | GSM48_MT_CC_RELEASE =>
      if in_ [GSM_CSTATE_NULL] then unhandled
      else if in_ [GSM_CSTATE_RELEASE_REQ] then (None, [ToApp MNCC_REL_CNF (cl_ref c)])
      else (None, [ToMs GSM48_MT_CC_RELEASE_COMPL; ToApp MNCC_REL_IND (cl_ref c)])
  | GSM48_MT_CC_RELEASE_COMPL =>
      (None, if cl_ref c =? 0 then []
             else [ToApp (if in_ [GSM_CSTATE_CALL_PRESENT] then MNCC_REJ_IND
                          else if in_ [GSM_CSTATE_RELEASE_REQ] then MNCC_REL_CNF
                          else MNCC_REL_IND) (cl_ref c)])
  | _ => unhandled
  end.

(** A request of the application. [tid]: a transaction identifier is free, for a SETUP to be sent. *)
Definition cc_tx (req : Z) (tid : bool) (c : cc_call) : cc_result :=
  let s := cl_state c in
  let in_ := existsb (fun x => bool_decide (s = x)) in
  let send := fun (ok : bool) m c' => if ok then (Some c', [ToMs m]) else (Some c, []) in
  let active := in_ [GSM_CSTATE_ACTIVE] in
  if req =? MNCC_CALL_PROC_REQ then
    send (in_ [GSM_CSTATE_INITIATED]) GSM48_MT_CC_CALL_PROC (c <| cl_state := GSM_CSTATE_MO_CALL_PROC |>)
  else if req =? MNCC_ALERT_REQ then
    send (in_ [GSM_CSTATE_INITIATED; GSM_CSTATE_MO_CALL_PROC]) GSM48_MT_CC_ALERTING
      (c <| cl_state := GSM_CSTATE_CALL_DELIVERED |>)
  else if req =? MNCC_SETUP_RSP then
    send (in_ [GSM_CSTATE_INITIATED; GSM_CSTATE_MO_CALL_PROC; GSM_CSTATE_CALL_DELIVERED])
      GSM48_MT_CC_CONNECT (enter GSM_CSTATE_CONNECT_IND (Some 0x313) c)
  else if req =? MNCC_PROGRESS_REQ then send (in_ [GSM_CSTATE_MO_CALL_PROC]) GSM48_MT_CC_PROGRESS c
  else if req =? MNCC_SETUP_REQ then
    if in_ [GSM_CSTATE_NULL] then
      if tid then send true GSM48_MT_CC_SETUP (enter GSM_CSTATE_CALL_PRESENT (Some 0x303) c)
      else (None, [ToApp MNCC_REL_IND (cl_ref c)])
    else (Some c, [])
  else if req =? MNCC_SETUP_COMPL_REQ then
    send (in_ [GSM_CSTATE_CONNECT_REQUEST]) GSM48_MT_CC_CONNECT_ACK (c <| cl_state := GSM_CSTATE_ACTIVE |>)
  else if req =? MNCC_NOTIFY_REQ then send active GSM48_MT_CC_NOTIFY c
  else if req =? MNCC_FACILITY_REQ then
    send (negb (in_ [GSM_CSTATE_NULL; GSM_CSTATE_RELEASE_REQ])) GSM48_MT_CC_FACILITY c
  else if req =? MNCC_START_DTMF_RSP then send true GSM48_MT_CC_START_DTMF_ACK c
  else if req =? MNCC_START_DTMF_REJ then send true GSM48_MT_CC_START_DTMF_REJ c
  else if req =? MNCC_STOP_DTMF_RSP then send true GSM48_MT_CC_STOP_DTMF_ACK c
  else if req =? MNCC_HOLD_CNF then send active GSM48_MT_CC_HOLD_ACK c
  else if req =? MNCC_HOLD_REJ then send active GSM48_MT_CC_HOLD_REJ c
  else if req =? MNCC_RETRIEVE_CNF then send active GSM48_MT_CC_RETR_ACK c
  else if req =? MNCC_RETRIEVE_REJ then send active GSM48_MT_CC_RETR_REJ c
  else if req =? MNCC_MODIFY_REQ then
    send active GSM48_MT_CC_MODIFY (enter GSM_CSTATE_MO_TERM_MODIFY (Some 0x323) c)
  else if req =? MNCC_MODIFY_RSP then
    send (in_ [GSM_CSTATE_MO_ORIG_MODIFY]) GSM48_MT_CC_MODIFY_COMPL (c <| cl_state := GSM_CSTATE_ACTIVE |>)
  else if req =? MNCC_MODIFY_REJ then
    send (in_ [GSM_CSTATE_MO_ORIG_MODIFY]) GSM48_MT_CC_MODIFY_REJECT (c <| cl_state := GSM_CSTATE_ACTIVE |>)
  else if req =? MNCC_USERINFO_REQ then send active GSM48_MT_CC_USER_INFO c
  else if req =? MNCC_REJ_REQ then
    if in_ [GSM_CSTATE_INITIATED] then (None, [ToMs GSM48_MT_CC_RELEASE_COMPL]) else (Some c, [])
  else if req =? MNCC_DISC_REQ then
    send (negb (in_ [GSM_CSTATE_NULL; GSM_CSTATE_DISCONNECT_IND; GSM_CSTATE_RELEASE_REQ;
                     GSM_CSTATE_DISCONNECT_REQ]))
      GSM48_MT_CC_DISCONNECT (enter GSM_CSTATE_DISCONNECT_IND (Some 0x306) c)
  else if req =? MNCC_REL_REQ then
    send (negb (in_ [GSM_CSTATE_NULL; GSM_CSTATE_RELEASE_REQ])) GSM48_MT_CC_RELEASE (release c)
  else if req =? MNCC_LCHAN_MODIFY then (Some c, [AssignReq])
  else (Some c, []).

(** The timer expires: the call is disconnected, or released at once. *)
Definition expire_disconnect (c : cc_call) : cc_result :=
  (Some (enter GSM_CSTATE_DISCONNECT_IND (Some 0x306) c),
   (if cl_ref c =? 0 then [] else [ToApp MNCC_DISC_IND (cl_ref c)]) ++ [ToMs GSM48_MT_CC_DISCONNECT]).
Definition expire_release (c : cc_call) : cc_result :=
  (Some (release c),
   (if cl_ref c =? 0 then [] else [ToApp MNCC_REL_IND (cl_ref c)]) ++ [ToMs GSM48_MT_CC_RELEASE]).
Definition cc_expire (c : cc_call) : cc_result :=
  match cl_timer c with
  | None => (Some c, [])
  | Some T =>
      let c := c <| cl_timer := None |> in
      if (T =? 0x310) || (T =? 0x313) || (T =? 0x301) || (T =? 0x323) then expire_disconnect c
      else if T =? 0x308 then
        if cl_second c then (None, if cl_ref c =? 0 then [] else [ToApp MNCC_REL_IND (cl_ref c)])
        else (Some ((release c) <| cl_second := true |>), [ToMs GSM48_MT_CC_RELEASE])
      else expire_release c
  end.

(** The connection of the call is gone. *)
Definition cc_lost (c : cc_call) : cc_result :=
  (None, if cl_ref c =? 0 then [] else [ToApp MNCC_REL_IND (cl_ref c)]).

(** ** What an abstract call keeps *)

(** The timer of each state. *)
Definition timer_of (s : cc_cstate) : option Z :=
  match s with
  | GSM_CSTATE_CALL_PRESENT => Some 0x303
  | GSM_CSTATE_MO_TERM_CALL_CONF => Some 0x310
  | GSM_CSTATE_CALL_RECEIVED => Some 0x301
  | GSM_CSTATE_CONNECT_IND => Some 0x313
  | GSM_CSTATE_DISCONNECT_IND => Some 0x306
  | GSM_CSTATE_RELEASE_REQ => Some 0x308
  | GSM_CSTATE_MO_TERM_MODIFY => Some 0x323
  | _ => None
  end.

(** The timer that runs is that of the state, and the application has been told of the end of the
    call exactly when it is being released. *)
Definition call_ok (c : cc_call) : Prop :=
  cl_timer c = timer_of (cl_state c)
  /\ (cl_ref c = 0 <-> cl_state c = GSM_CSTATE_RELEASE_REQ).

Definition result_ok (r : cc_result) : Prop :=
  match fst r with Some c => call_ok c | None => True end.

Inductive cc_in : Type :=
| FromMs (m : gsm48_cc_mt)
| FromApp (req : Z) (tid : bool)
| Expiry
| Lost.
Definition cc_step (i : cc_in) (c : cc_call) : cc_result :=
  match i with
  | FromMs m => cc_rx m c
  | FromApp req tid => cc_tx req tid c
  | Expiry => cc_expire c
  | Lost => cc_lost c
  end.

(** The end of a call as the application hears it. *)
Definition final (ref : Z) (o : cc_out) : bool :=
  match o with
  | ToApp type r => (r =? ref) && ((type =? MNCC_REL_IND) || (type =? MNCC_REL_CNF) || (type =? MNCC_REJ_IND))
  | _ => false
  end.
(** The application ends the call itself. *)
Definition ends_call (i : cc_in) : bool :=
  match i with FromApp req _ => (req =? MNCC_REL_REQ) || (req =? MNCC_REJ_REQ) | _ => false end.

(** Decide what has no variables. *)
Ltac decide_closed :=
  repeat match goal with
         | |- context [@bool_decide ?P ?d] =>
             let b := eval vm_compute in (@bool_decide P d) in
             lazymatch b with true => idtac | false => idtac end;
             change (@bool_decide P d) with b
         end.

(** A step from a known state, checked by evaluation. *)
Ltac call_cases Hr :=
  unfold result_ok, call_ok; cbn; decide_closed; cbn;
  first [ done
        | split; [done|]; split; [intros Hz; first [done | by apply Hr in Hz] | first [done | by intros [=]]] ].

Lemma cc_rx_ok m c : call_ok c -> result_ok (cc_rx m c).
Proof.
  destruct c as [s r tm b]. unfold call_ok. cbn. intros [-> Hr]. destruct m, s; call_cases Hr.
Qed.
Lemma cc_tx_ok req tid c : call_ok c -> result_ok (cc_tx req tid c).
Proof.
  destruct c as [s r tm b]. unfold call_ok. cbn [cl_state cl_ref cl_timer]. intros [-> Hr].
  unfold cc_tx. repeat (case_match; [destruct s, tid; call_cases Hr|]). call_cases Hr.
Qed.
Lemma cc_expire_ok c : call_ok c -> result_ok (cc_expire c).
Proof.
  destruct c as [s r tm b]. unfold call_ok. cbn. intros [-> Hr]. destruct s, b; call_cases Hr.
Qed.

Lemma cc_step_ok i c : call_ok c -> result_ok (cc_step i c).
Proof. destruct i; [apply cc_rx_ok|apply cc_tx_ok|apply cc_expire_ok|done]. Qed.

Ltac final_case E := cbn; decide_closed; cbn; rewrite ?E; cbn; rewrite ?E, ?Z.eqb_refl;
  first [reflexivity | vm_compute; reflexivity].

(** The application hears of the end of a call once: at the step that makes the reference invalid,
    unless it asked for that itself; it never hears of it before. *)
Lemma cc_step_final i c :
  call_ok c -> cl_ref c <> 0 ->
  let r := cc_step i c in
  length (List.filter (final (cl_ref c)) (snd r))
  = match fst r with
    | Some c' => if cl_ref c' =? 0 then (if ends_call i then 0%nat else 1%nat) else 0%nat
    | None => if ends_call i then 0%nat else 1%nat
    end.
Proof.
  destruct c as [s ref tm b]. unfold call_ok. cbn [cl_state cl_ref cl_timer]. intros [-> Hs] Hr.
  assert (s <> GSM_CSTATE_RELEASE_REQ) as Hrel by (intros ->; by apply Hr, Hs). clear Hs.
  apply Z.eqb_neq in Hr as E. cbv zeta.
  destruct i as [m|req tid| |]; cbn [cc_step ends_call].
  - destruct m, s; final_case E.
  - unfold cc_tx. cbn [cl_state].
    repeat (case_match; [repeat match goal with H : (_ =? _) = true |- _ => apply Z.eqb_eq in H; subst end;
                         destruct s, tid; final_case E|]).
    cbn. by rewrite E.
  - destruct s, b; first [done | final_case E].
  - final_case E.
Qed.

(** A call of which nothing is heard but its timers ends: at most four of them expire. *)
Fixpoint expiries (n : nat) (c : cc_call) : cc_result :=
  match n with
  | O => (Some c, [])
  | S n =>
      match cc_expire c with
      | (Some c', out) => let '(r, out') := expiries n c' in (r, out ++ out')
      | (None, out) => (None, out)
      end
  end.
Lemma expiries_end c : call_ok c -> is_Some (cl_timer c) -> fst (expiries 4 c) = None.
Proof.
  destruct c as [s r tm b]. unfold call_ok. cbn [cl_state cl_ref cl_timer]. intros [-> _] Ht.
  destruct s, b; first [by destruct Ht | reflexivity].
Qed.

End CcSpec.
