(* ===== verification/CcRuns.v ===== *)
(** What the handlers of call control do, step by step, while an application listens.

    [view st t tr tm q] is the state [st] with the transaction [t] at [tr], its timer at [tm] and
    the messages [q] queued for the application. A handler that does not free its transaction
    takes one view to another; the lemmas of this file say which, and what it emits. *)

From S2P Require Import Prelude Chreq Msc Cc Subscr CcApi CcSpec.
Import Chreq Msc Cc Subscr CcApi CcSpec.

Module CcRuns.

Definition set_timer (t : nat) (tm : option (Z * Z)) (ts : gmap nat (Z * Z)) : gmap nat (Z * Z) :=
  match tm with Some d => <[t := d]> ts | None => delete t ts end.
Definition view (st : msc_state) (t : nat) (tr : gsm_trans) (tm : option (Z * Z)) (q : list gsm_mncc)
  : msc_state :=
  st <| transs ::= <[t := tr]> |> <| cc_timers ::= set_timer t tm |> <| upqueue ::= fun u => u ++ q |>.

Lemma view_id st t tr : transs st !! t = Some tr -> view st t tr (cc_timers st !! t) [] = st.
Proof.
  intros Ht. destruct st. unfold view. upd_norm. cbn in Ht. cbn. f_equal.
  - by apply insert_id.
  - match goal with |- set_timer t (?m !! t) ?m = _ => destruct (m !! t) eqn:E end;
      [by apply insert_id|by apply delete_id].
  - apply app_nil_r.
Qed.

(** ** Calls and messages as CcSpec.v sees them *)

Definition abs (tr : gsm_trans) (tm : option (Z * Z)) : cc_call :=
  mk_cc_call (cc_state tr) (t_callref tr) (match tm with Some _ => Some (Tcurrent tr) | None => None end)
    (negb (T308_second tr =? 0)).

Definition out_of `{MscEnv} (conn : nat) (e : msc_event) : list cc_out :=
  match e with
  | SUBMIT_DTAP c (_ :: mt :: _) =>
      if bool_decide (c = conn) then match cc_mt_of mt with Some m => [ToMs m] | None => [] end else []
  | MNCC m => [ToApp (msg_type m) (callref m)]
  | ASSIGN_REQ c _ _ => if bool_decide (c = conn) then [AssignReq] else []
  | _ => []
  end.
Definition outs `{MscEnv} (conn : nat) (ev : list msc_event) : list cc_out := concat (map (out_of conn) ev).

Lemma outs_app `{MscEnv} conn a b : outs conn (a ++ b) = outs conn a ++ outs conn b.
Proof. unfold outs. by rewrite map_app, concat_app. Qed.

(** The transaction is the same in everything but the call (its identifier is assigned once). *)
Definition same_trans (tr tr' : gsm_trans) : Prop :=
  protocol tr' = protocol tr /\ (transaction_id tr' = transaction_id tr \/ transaction_id tr = 0xff)
  /\ t_subscr tr' = t_subscr tr
  /\ t_conn tr' = t_conn tr /\ paging_request tr' = paging_request tr.

(** The application gets every message, as it does while it is connected. *)
Class Listens {env : MscEnv} (up : Upcalls) : Prop := {
  listens_recv m st : sock_conn st = true ->
    mncc_recv m st = Some (tt, st <| upqueue ::= fun q => q ++ [m] |>, [MNCC m]);
  listens_msgb : mncc_msgb_ok = true;
  listens_octet m : cc_mt_of (cc_mt_octet m) = Some m
}.

(** The connection and the subscriber of the transaction. *)
Record attached (st : msc_state) (tr : gsm_trans) (c : nat) : Prop := mk_attached {
  att_conn : t_conn tr = Some c;
  att_lchan : exists cn l, conns st !! c = Some cn /\ c_lchan cn = Some l;
  att_subscr : is_Some (subscrs st !! t_subscr tr);
  att_sock : sock_conn st = true
}.

Section runs.
Context {env : MscEnv} {up : Upcalls}.
Implicit Types (st : msc_state) (t : nat) (tr : gsm_trans) (tm : option (Z * Z)) (q : list gsm_mncc).

Lemma run_load {A} (f : msc_state -> gmap nat A) id st x :
  f st !! id = Some x -> load f id st = Some (x, st, []).
Proof. intros H. unfold load. by rewrite H. Qed.
Lemma run_call e st : call e st = Some (event_rc e, st, [e]).
Proof. done. Qed.

Lemma view_trans_get st t tr tm q : trans_get t (view st t tr tm q) = Some (tr, view st t tr tm q, []).
Proof. apply run_load. cbn. by rewrite lookup_insert_eq. Qed.
Lemma view_trans_upd st t tr tm q f :
  trans_upd t f (view st t tr tm q) = Some (tt, view st t (f tr) tm q, []).
Proof.
  unfold trans_upd. run_with (view_trans_get st t tr tm q). unfold modify. do 3 f_equal.
  unfold view. destruct st. upd_norm. f_equal. by rewrite alter_insert_eq.
Qed.
Lemma view_timers st t tr tm q : cc_timers (view st t tr tm q) !! t = tm.
Proof. cbn. unfold set_timer. destruct tm; by rewrite ?lookup_insert_eq, ?lookup_delete_eq. Qed.
Lemma view_set_timer st t tr tm q tm' :
  (view st t tr tm q) <| cc_timers ::= set_timer t tm' |> = view st t tr tm' q.
Proof.
  destruct st. unfold view, set_timer. upd_norm. f_equal.
  destruct tm, tm'; by rewrite ?insert_insert_eq, ?delete_insert_eq, ?insert_delete_eq, ?delete_delete_eq.
Qed.
Lemma view_queue st t tr tm q m :
  (view st t tr tm q) <| upqueue ::= fun u => u ++ [m] |> = view st t tr tm (q ++ [m]).
Proof. destruct st. unfold view. upd_norm. f_equal. by rewrite app_assoc. Qed.

Lemma view_stop st t tr tm q :
  gsm48_stop_cc_timer t (view st t tr tm q)
  = Some (tt, view st t match tm with Some _ => tr <| Tcurrent := 0 |> | None => tr end None q, []).
Proof.
  unfold gsm48_stop_cc_timer. run_with (view_trans_get st t tr tm q). rewrite run_gets, view_timers.
  destruct tm as [d|].
  - rewrite run_modify. change (delete t) with (set_timer t None). rewrite view_set_timer.
    apply view_trans_upd.
  - unfold mret, M_ret. do 3 f_equal.
Qed.
Lemma view_start st t tr tm q T :
  gsm48_start_cc_timer t T (view st t tr tm q)
  = Some (tt, view st t (tr <| Tcurrent := T |>) (Some (GSM48_T T)) q, []).
Proof.
  unfold gsm48_start_cc_timer. run_with (view_trans_get st t tr tm q). rewrite run_modify.
  change (insert t (GSM48_T T)) with (set_timer t (Some (GSM48_T T))). rewrite view_set_timer.
  apply view_trans_upd.
Qed.
Lemma view_state st t tr tm q s :
  new_cc_state t s (view st t tr tm q) = Some (tt, view st t (tr <| cc_state := s |>) tm q, []).
Proof. apply view_trans_upd. Qed.

Lemma view_attached st t tr tm q tr' c : attached st tr' c -> attached (view st t tr tm q) tr' c.
Proof. by intros [? ? ? ?]. Qed.
Lemma attached_same st tr tr' c : same_trans tr tr' -> attached st tr c -> attached st tr' c.
Proof. intros (_ & _ & Es & Ec & _) [? ? ? ?]. split; [congruence|done|by rewrite Es|done]. Qed.

(** The first octet of a message of the transaction. *)
Definition hdr tr : Z := u8 (pdisc_octet (protocol tr) .| (transaction_id tr .<< 4)).

Lemma view_send st t tr tm q c mt body :
  attached st tr c ->
  trans_sendmsg t (cc_msg_new mt ++ body) (view st t tr tm q)
  = let e := SUBMIT_DTAP c (hdr tr :: cc_mt_octet mt :: body) in
    Some (event_rc e, view st t tr tm q, [e]).
Proof.
  intros [Hc (cn & l & Hcn & Hl) _ _]. unfold trans_sendmsg.
  run_with (view_trans_get st t tr tm q). unfold gsm48_conn_sendmsg.
  assert (forall A (k : _ -> MS A), (conn_get c ≫= k) (view st t tr tm q) = k cn (view st t tr tm q)) as Hg.
  { intros A k. by run_with (run_load conns c (view st t tr tm q) cn Hcn). }
  assert ((tr0 ← trans_get t; c0 ← deref (t_conn tr0); conn_get c0;;
           mret (u8 (pdisc_octet (protocol tr0) .| (transaction_id tr0 .<< 4)) :: tail (cc_msg_new mt ++ body)))
            (view st t tr tm q) = Some (hdr tr :: cc_mt_octet mt :: body, view st t tr tm q, [])) as Hh.
  { run_with (view_trans_get st t tr tm q). rewrite Hc. cbn [deref]. rewrite run_ret, Hg. done. }
  run_with Hh. unfold gsm0808_submit_dtap. rewrite Hc. cbn [deref]. rewrite run_ret, Hg, Hl.
  apply run_call.
Qed.

Context {lis : Listens up}.

Lemma view_recv st t tr tm q c mt m :
  attached st tr c ->
  mncc_recvmsg (Some t) mt m (view st t tr tm q)
  = Some (0, view st t tr tm (q ++ [m <| msg_type := mt |>]), [MNCC (m <| msg_type := mt |>)]).
Proof.
  intros [Hc (cn & l & Hcn & Hl) [s Hs] Hk]. unfold mncc_recvmsg.
  assert (trans_debug (Some t) (view st t tr tm q) = Some (tt, view st t tr tm q, [])) as Hd.
  { unfold trans_debug. run_with (view_trans_get st t tr tm q).
    run_with (run_load subscrs (t_subscr tr) (view st t tr tm q) s Hs). rewrite Hc.
    by run_with (run_load conns c (view st t tr tm q) cn Hcn). }
  run_with Hd. rewrite listens_msgb.
  rewrite (run_bind _ _ _ _ _ _ (listens_recv (m <| msg_type := mt |>) (view st t tr tm q) Hk)), view_queue.
  done.
Qed.

Lemma view_send_nil st t tr tm q c mt :
  attached st tr c ->
  trans_sendmsg t (cc_msg_new mt) (view st t tr tm q)
  = let e := SUBMIT_DTAP c [hdr tr; cc_mt_octet mt] in Some (event_rc e, view st t tr tm q, [e]).
Proof. apply (view_send st t tr tm q c mt []). Qed.
Lemma view_subscr st t tr tm q id s :
  subscrs st !! id = Some s -> subscr_load id (view st t tr tm q) = Some (s, view st t tr tm q, []).
Proof. intros H. by apply run_load. Qed.
Lemma view_when_state st t tr tm q s :
  when (bool_decide (cc_state tr <> s)) (new_cc_state t s) (view st t tr tm q)
  = Some (tt, view st t (tr <| cc_state := s |>) tm q, []).
Proof.
  case_bool_decide as E; cbn [when]; [apply view_state|].
  subst s. unfold mret, M_ret. by destruct tr.
Qed.

(** What [with_lchan_type] makes of a message. *)
Definition lchan_typed st (c : nat) (m : gsm_mncc) : gsm_mncc :=
  match conns st !! c ≫= c_lchan with
  | Some l => m <| lchan_type := lchan_type_num (l_type l) |>
  | None => m
  end.
Lemma lchan_typed_callref st c m : callref (lchan_typed st c m) = callref m.
Proof. unfold lchan_typed. by destruct (_ ≫= _). Qed.
Lemma view_lchan_type st t tr tm q c tr' m :
  attached st tr' c ->
  with_lchan_type tr' m (view st t tr tm q) = Some (lchan_typed st c m, view st t tr tm q, []).
Proof.
  intros [Hc (cn & l & Hcn & Hl) _ _]. unfold with_lchan_type, lchan_typed. rewrite Hc.
  run_with (run_load conns c (view st t tr tm q) cn Hcn). rewrite Hcn. cbn. by rewrite Hl.
Qed.

End runs.

(** What was read keeps the reference. *)
Lemma ie_callref tp i flag put m :
  (forall lv m, callref (put lv m) = callref m) -> callref (ie tp i flag put m) = callref m.
Proof. intros H. unfold ie. destruct (tp i); [by rewrite H|done]. Qed.
Lemma ie_flag_callref tp i set m :
  (forall m, callref (set m) = callref m) -> callref (ie_flag tp i set m) = callref m.
Proof. intros H. unfold ie_flag. by destruct (tp i). Qed.
Lemma type_callref mt m : callref (m <| msg_type := mt |>) = callref m.
Proof. done. Qed.
Lemma cause_callref m loc val : callref (mncc_set_cause m loc val) = callref m.
Proof. done. Qed.
Lemma set_field_callref flag m : callref (set_field flag m) = callref m.
Proof. done. Qed.
Lemma calling_callref f m : callref (m <| calling ::= f |>) = callref m.
Proof. done. Qed.
Lemma connected_callref f m : callref (m <| connected ::= f |>) = callref m.
Proof. done. Qed.
Lemma imsi_callref v m : callref (m <| mncc_imsi := v |>) = callref m.
Proof. done. Qed.
Lemma emergency_callref v m : callref (m <| emergency := v |>) = callref m.
Proof. done. Qed.

(** The handler [m] takes the call of [t] to [r] and says [out]. *)
Definition becomes `{MscEnv} (m : MS Z) st t tr tm (c : nat) (r : cc_call) (out : list cc_out) : Prop :=
  exists rc tr' tm' ms ev,
    m (view st t tr tm []) = Some (rc, view st t tr' tm' ms, ev)
    /\ abs tr' tm' = r /\ outs c ev = out /\ same_trans tr tr'.

(** ** Stepping through a handler *)

Ltac is_same := unfold same_trans; cbn; by auto 6.
Ltac is_attached A := eapply attached_same; [|exact A]; is_same.
Ltac view_step A :=
  match goal with
  | |- context [(gsm48_stop_cc_timer ?t ≫= _) (view ?st ?t ?tr ?tm ?q)] => run_with (view_stop st t tr tm q)
  | |- context [(gsm48_start_cc_timer ?t ?T ≫= _) (view ?st ?t ?tr ?tm ?q)] =>
      run_with (view_start st t tr tm q T)
  | |- context [(new_cc_state ?t ?s ≫= _) (view ?st ?t ?tr ?tm ?q)] => run_with (view_state st t tr tm q s)
  | |- context [(trans_upd ?t ?f ≫= _) (view ?st ?t ?tr ?tm ?q)] => run_with (view_trans_upd st t tr tm q f)
  | |- context [(trans_get ?t ≫= _) (view ?st ?t ?tr ?tm ?q)] => run_with (view_trans_get st t tr tm q)
  | |- context [(when (bool_decide (cc_state _ <> ?s)) (new_cc_state ?t ?s) ≫= _) (view ?st ?t ?tr ?tm ?q)] =>
      run_with (view_when_state st t tr tm q s)
  | Hs : subscrs _ !! _ = Some ?s |- context [(subscr_load ?id ≫= _) (view ?st ?t ?tr ?tm ?q)] =>
      run_with (view_subscr st t tr tm q id s Hs)
  | |- context [(emit _ ≫= _) (view _ _ _ _ _)] => rewrite run_emit
  | |- context [(mret _ ≫= _) (view _ _ _ _ _)] => rewrite run_ret
  | |- context [(mncc_recvmsg (Some ?t) ?mt ?m ≫= _) (view ?st ?t ?tr ?tm ?q)] =>
      rewrite (run_bind _ _ _ _ _ _ (view_recv st t tr tm q _ mt m ltac:(is_attached A)))
  | |- context [(with_lchan_type ?tr' ?m ≫= _) (view ?st ?t ?tr ?tm ?q)] =>
      run_with (view_lchan_type st t tr tm q _ tr' m ltac:(is_attached A))
  | |- context [mncc_recvmsg (Some ?t) ?mt ?m (view ?st ?t ?tr ?tm ?q)] =>
      rewrite (view_recv st t tr tm q _ mt m ltac:(is_attached A))
  | |- context [trans_sendmsg ?t (cc_msg_new ?mt ++ ?b) (view ?st ?t ?tr ?tm ?q)] =>
      rewrite (view_send st t tr tm q _ mt b ltac:(is_attached A))
  | |- context [trans_sendmsg ?t (cc_msg_new ?mt) (view ?st ?t ?tr ?tm ?q)] =>
      rewrite (view_send_nil st t tr tm q _ mt ltac:(is_attached A))
  | |- context [(trans_sendmsg ?t (cc_msg_new ?mt ++ ?b) ≫= _) (view ?st ?t ?tr ?tm ?q)] =>
      rewrite (run_bind _ _ _ _ _ _ (view_send st t tr tm q _ mt b ltac:(is_attached A)))
  end; cbv iota; rewrite ?emits_emits.
Ltac callref_tac :=
  unfold ie_bearer_cap, ie_facility, ie_called, ie_useruser, ie_ssversion, ie_cccap, ie_cause,
    ie_progress, ie_keypad;
  repeat first [ rewrite type_callref | rewrite lchan_typed_callref | rewrite cause_callref
               | rewrite ie_callref by done | rewrite ie_flag_callref by done
               | rewrite set_field_callref | rewrite calling_callref | rewrite connected_callref
               | rewrite imsi_callref | rewrite emergency_callref ].
(** The rest of [becomes] once the run is known. *)
Ltac view_done :=
  split; [reflexivity|split; [|is_same]];
  unfold outs, out_of; cbn [concat map app msg_type];
  rewrite ?bool_decide_eq_true_2 by done; rewrite ?listens_octet; cbn [app]; callref_tac;
  first [reflexivity | case_match; reflexivity].
Ltac becomes_tac A :=
  do 5 eexists; split; [repeat view_step A; cbn [emits app]; reflexivity|view_done].

Section handlers.
Context {env : MscEnv} {up : Upcalls} {lis : Listens up}.
Context (st : msc_state) (t : nat) (tr : gsm_trans) (tm : option (Z * Z)) (c : nat).
Context (A : attached st tr c).
Abbreviation call0 := (abs tr tm).
Abbreviation does m r out := (becomes m st t tr tm c r out).

Lemma rx_call_conf msg :
  does (gsm48_cc_rx_call_conf t msg) (enter GSM_CSTATE_MO_TERM_CALL_CONF (Some 0x310) call0) [ToApp MNCC_CALL_CONF_IND (t_callref tr)].
Proof. unfold gsm48_cc_rx_call_conf. destruct tm; becomes_tac A. Qed.
Lemma rx_alerting msg :
  does (gsm48_cc_rx_alerting t msg) (enter GSM_CSTATE_CALL_RECEIVED (Some 0x301) call0) [ToApp MNCC_ALERT_IND (t_callref tr)].
Proof. unfold gsm48_cc_rx_alerting. destruct tm; becomes_tac A. Qed.
Lemma rx_connect_ack msg :
  does (gsm48_cc_rx_connect_ack t msg) (enter GSM_CSTATE_ACTIVE None call0) [ToApp MNCC_SETUP_COMPL_IND (t_callref tr)].
Proof. unfold gsm48_cc_rx_connect_ack. destruct tm; becomes_tac A. Qed.
Lemma rx_disconnect msg :
  does (gsm48_cc_rx_disconnect t msg) (enter GSM_CSTATE_DISCONNECT_REQ None call0) [ToApp MNCC_DISC_IND (t_callref tr)].
Proof. unfold gsm48_cc_rx_disconnect. destruct tm; becomes_tac A. Qed.
Lemma rx_modify msg :
  does (gsm48_cc_rx_modify t msg) (call0 <| cl_state := GSM_CSTATE_MO_ORIG_MODIFY |>) [ToApp MNCC_MODIFY_IND (t_callref tr)].
Proof. unfold gsm48_cc_rx_modify. destruct tm; becomes_tac A. Qed.
Lemma rx_modify_complete msg :
  does (gsm48_cc_rx_modify_complete t msg) (enter GSM_CSTATE_ACTIVE None call0) [ToApp MNCC_MODIFY_CNF (t_callref tr)].
Proof. unfold gsm48_cc_rx_modify_complete. destruct tm; becomes_tac A. Qed.
Lemma rx_modify_reject msg :
  does (gsm48_cc_rx_modify_reject t msg) (enter GSM_CSTATE_ACTIVE None call0) [ToApp MNCC_MODIFY_REJ (t_callref tr)].
Proof. unfold gsm48_cc_rx_modify_reject. destruct tm; becomes_tac A. Qed.
Lemma rx_facility msg :
  does (gsm48_cc_rx_facility t msg) (call0) [ToApp MNCC_FACILITY_IND (t_callref tr)].
Proof. unfold gsm48_cc_rx_facility, cc_indicate. destruct tm; becomes_tac A. Qed.
Lemma rx_hold msg :
  does (gsm48_cc_rx_hold t msg) (call0) [ToApp MNCC_HOLD_IND (t_callref tr)].
Proof. unfold gsm48_cc_rx_hold, cc_indicate. destruct tm; becomes_tac A. Qed.
Lemma rx_retrieve msg :
  does (gsm48_cc_rx_retrieve t msg) (call0) [ToApp MNCC_RETRIEVE_IND (t_callref tr)].
Proof. unfold gsm48_cc_rx_retrieve, cc_indicate. destruct tm; becomes_tac A. Qed.
Lemma rx_start_dtmf msg :
  does (gsm48_cc_rx_start_dtmf t msg) (call0) [ToApp MNCC_START_DTMF_IND (t_callref tr)].
Proof. unfold gsm48_cc_rx_start_dtmf, cc_indicate. destruct tm; becomes_tac A. Qed.
Lemma rx_stop_dtmf msg :
  does (gsm48_cc_rx_stop_dtmf t msg) (call0) [ToApp MNCC_STOP_DTMF_IND (t_callref tr)].
Proof. unfold gsm48_cc_rx_stop_dtmf, cc_indicate. destruct tm; becomes_tac A. Qed.
Lemma rx_notify msg :
  does (gsm48_cc_rx_notify t msg) (call0) [ToApp MNCC_NOTIFY_IND (t_callref tr)].
Proof. unfold gsm48_cc_rx_notify, cc_indicate. destruct tm; becomes_tac A. Qed.
Lemma rx_userinfo msg :
  does (gsm48_cc_rx_userinfo t msg) (call0) [ToApp MNCC_USERINFO_IND (t_callref tr)].
Proof. unfold gsm48_cc_rx_userinfo, cc_indicate. destruct tm; becomes_tac A. Qed.

Lemma rx_status_enq msg : does (gsm48_cc_rx_status_enq t msg) call0 [ToMs GSM48_MT_CC_STATUS].
Proof. unfold gsm48_cc_rx_status_enq, gsm48_cc_tx_status. destruct tm; becomes_tac A. Qed.
Lemma rx_setup msg :
  does (gsm48_cc_rx_setup t msg) (call0 <| cl_state := GSM_CSTATE_INITIATED |>)
    [ToApp MNCC_SETUP_IND (t_callref tr)].
Proof.
  destruct (att_subscr _ _ _ A) as [s Hs]. unfold gsm48_cc_rx_setup.
  destruct tm; case_bool_decide; becomes_tac A.
Qed.
Lemma rx_connect msg :
  does (gsm48_cc_rx_connect t msg) (enter GSM_CSTATE_CONNECT_REQUEST None call0)
    [ToApp MNCC_SETUP_CNF (t_callref tr)].
Proof.
  destruct (att_subscr _ _ _ A) as [s Hs]. unfold gsm48_cc_rx_connect. destruct tm; becomes_tac A.
Qed.

Lemma tx_call_proc arg : does (gsm48_cc_tx_call_proc t arg) (call0 <| cl_state := GSM_CSTATE_MO_CALL_PROC |>)
  [ToMs GSM48_MT_CC_CALL_PROC].
Proof. unfold gsm48_cc_tx_call_proc. destruct tm; becomes_tac A. Qed.
Lemma tx_alerting arg : does (gsm48_cc_tx_alerting t arg) (call0 <| cl_state := GSM_CSTATE_CALL_DELIVERED |>)
  [ToMs GSM48_MT_CC_ALERTING].
Proof. unfold gsm48_cc_tx_alerting. destruct tm; becomes_tac A. Qed.
Lemma tx_progress arg : does (gsm48_cc_tx_progress t arg) (call0) [ToMs GSM48_MT_CC_PROGRESS].
Proof. unfold gsm48_cc_tx_progress. destruct tm; becomes_tac A. Qed.
Lemma tx_connect arg : does (gsm48_cc_tx_connect t arg) (enter GSM_CSTATE_CONNECT_IND (Some 0x313) call0)
  [ToMs GSM48_MT_CC_CONNECT].
Proof. unfold gsm48_cc_tx_connect. destruct tm; becomes_tac A. Qed.
Lemma tx_connect_ack arg : does (gsm48_cc_tx_connect_ack t arg) (call0 <| cl_state := GSM_CSTATE_ACTIVE |>)
  [ToMs GSM48_MT_CC_CONNECT_ACK].
Proof. unfold gsm48_cc_tx_connect_ack. destruct tm; becomes_tac A. Qed.
Lemma tx_disconnect arg : does (gsm48_cc_tx_disconnect t arg) (enter GSM_CSTATE_DISCONNECT_IND (Some 0x306) call0)
  [ToMs GSM48_MT_CC_DISCONNECT].
Proof. unfold gsm48_cc_tx_disconnect. destruct tm; becomes_tac A. Qed.
Lemma tx_release arg : does (gsm48_cc_tx_release t arg) (release call0) [ToMs GSM48_MT_CC_RELEASE].
Proof. unfold gsm48_cc_tx_release. destruct tm; becomes_tac A. Qed.
Lemma tx_facility arg : does (gsm48_cc_tx_facility t arg) (call0) [ToMs GSM48_MT_CC_FACILITY].
Proof. unfold gsm48_cc_tx_facility. destruct tm; becomes_tac A. Qed.
Lemma tx_hold_ack arg : does (gsm48_cc_tx_hold_ack t arg) (call0) [ToMs GSM48_MT_CC_HOLD_ACK].
Proof. unfold gsm48_cc_tx_hold_ack. destruct tm; becomes_tac A. Qed.
Lemma tx_hold_rej arg : does (gsm48_cc_tx_hold_rej t arg) (call0) [ToMs GSM48_MT_CC_HOLD_REJ].
Proof. unfold gsm48_cc_tx_hold_rej. destruct tm; becomes_tac A. Qed.
Lemma tx_retrieve_ack arg : does (gsm48_cc_tx_retrieve_ack t arg) (call0) [ToMs GSM48_MT_CC_RETR_ACK].
Proof. unfold gsm48_cc_tx_retrieve_ack. destruct tm; becomes_tac A. Qed.
Lemma tx_retrieve_rej arg : does (gsm48_cc_tx_retrieve_rej t arg) (call0) [ToMs GSM48_MT_CC_RETR_REJ].
Proof. unfold gsm48_cc_tx_retrieve_rej. destruct tm; becomes_tac A. Qed.
Lemma tx_start_dtmf_ack arg : does (gsm48_cc_tx_start_dtmf_ack t arg) (call0) [ToMs GSM48_MT_CC_START_DTMF_ACK].
Proof. unfold gsm48_cc_tx_start_dtmf_ack. destruct tm; becomes_tac A. Qed.
Lemma tx_start_dtmf_rej arg : does (gsm48_cc_tx_start_dtmf_rej t arg) (call0) [ToMs GSM48_MT_CC_START_DTMF_REJ].
Proof. unfold gsm48_cc_tx_start_dtmf_rej. destruct tm; becomes_tac A. Qed.
Lemma tx_stop_dtmf_ack arg : does (gsm48_cc_tx_stop_dtmf_ack t arg) (call0) [ToMs GSM48_MT_CC_STOP_DTMF_ACK].
Proof. unfold gsm48_cc_tx_stop_dtmf_ack. destruct tm; becomes_tac A. Qed.
Lemma tx_modify arg : does (gsm48_cc_tx_modify t arg) (enter GSM_CSTATE_MO_TERM_MODIFY (Some 0x323) call0)
  [ToMs GSM48_MT_CC_MODIFY].
Proof. unfold gsm48_cc_tx_modify. destruct tm; becomes_tac A. Qed.
Lemma tx_modify_complete arg : does (gsm48_cc_tx_modify_complete t arg) (call0 <| cl_state := GSM_CSTATE_ACTIVE |>)
  [ToMs GSM48_MT_CC_MODIFY_COMPL].
Proof. unfold gsm48_cc_tx_modify_complete. destruct tm; becomes_tac A. Qed.
Lemma tx_modify_reject arg : does (gsm48_cc_tx_modify_reject t arg) (call0 <| cl_state := GSM_CSTATE_ACTIVE |>)
  [ToMs GSM48_MT_CC_MODIFY_REJECT].
Proof. unfold gsm48_cc_tx_modify_reject. destruct tm; becomes_tac A. Qed.
Lemma tx_notify arg : does (gsm48_cc_tx_notify t arg) (call0) [ToMs GSM48_MT_CC_NOTIFY].
Proof. unfold gsm48_cc_tx_notify. destruct tm; becomes_tac A. Qed.
Lemma tx_userinfo arg : does (gsm48_cc_tx_userinfo t arg) (call0) [ToMs GSM48_MT_CC_USER_INFO].
Proof. unfold gsm48_cc_tx_userinfo. destruct tm; becomes_tac A. Qed.

Lemma tx_lchan_modify arg :
  0 <= event_rc (ASSIGN_REQ c (lchan_mode arg) 1) -> does (_gsm48_lchan_modify t arg) call0 [AssignReq].
Proof.
  intros Hrc. unfold _gsm48_lchan_modify, gsm0808_assign_req.
  do 5 eexists; split.
  - view_step A. rewrite (att_conn _ _ _ A). cbn [deref]. rewrite run_ret.
    destruct (att_lchan _ _ _ A) as (cn & l & Hcn & Hl).
    assert (lchan_get c (view st t tr tm []) = Some (l, view st t tr tm [], [])) as Hg.
    { unfold lchan_get. run_with (run_load conns c (view st t tr tm []) cn Hcn). by rewrite Hl. }
    run_with Hg. rewrite (run_bind _ _ _ _ _ _ (run_call _ _)).
    destruct (Z.ltb_spec (event_rc (ASSIGN_REQ c (lchan_mode arg) 1)) 0); [lia|]. reflexivity.
  - view_done.
Qed.

End handlers.

End CcRuns.
