(* ===== verification/CcRefine.v ===== *)
(** The transactions of gsm_04_08.c are calls in the sense of CcSpec.v: every message of the mobile,
    request of the application and expiry of the timer does what the abstract call does. *)

From S2P Require Import Prelude Chreq Msc Cc Subscr CcApi CcSpec CcRuns.
Import Chreq Msc Cc Subscr CcApi CcSpec CcRuns.

Module CcRefine.

(** ** A call that ends *)

(** What is left of [trans_free] once nothing more is said for the call. *)
Definition leave {env : MscEnv} {up : Upcalls} (t subscr : nat) : MS unit :=
  subscr_put subscr;;
  modify (fun st => st <| trans_list ::= unlink t |>);;
  tr ← trans_get t;
  match t_conn tr with Some c => msc_release_connection c | None => mret tt end;;
  trans_get t;;
  modify (fun st => st <| transs ::= delete t |>).

(** The handler [m] ends the call of [t]: it says [out], and then the transaction leaves. *)
Definition ends {env : MscEnv} {up : Upcalls} (m : MS Z) st t tr tm (c : nat) (out : list cc_out) : Prop :=
  exists rc tr' ms ev,
    m (view st t tr tm []) = emits ev ((leave t (t_subscr tr);; mret rc) (view st t tr' None ms))
    /\ outs c ev = out /\ same_trans tr tr' /\ cc_state tr' = GSM_CSTATE_NULL.

(** The handler does what the abstract call does. *)
Definition refines {env : MscEnv} {up : Upcalls} (m : MS Z) st t tr tm (c : nat) (r : cc_result) : Prop :=
  match fst r with
  | Some call => becomes m st t tr tm c call (snd r)
  | None => ends m st t tr tm c (snd r)
  end.

Section freeing.
Context {env : MscEnv} {up : Upcalls} {lis : Listens up}.
Implicit Types (st : msc_state) (t : nat) (tr : gsm_trans) (tm : option (Z * Z)) (q : list gsm_mncc).

(** What [trans_free] tells the application. *)
Definition goodbye tr : list gsm_mncc :=
  if t_callref tr =? 0 then []
  else [(mncc_set_cause (mncc_for (t_callref tr)) GSM48_CAUSE_LOC_PRN_S_LU
           GSM48_CC_CAUSE_RESOURCE_UNAVAIL) <| msg_type := MNCC_REL_IND |>].

(** The transaction after its timer was stopped, and as [trans_free] leaves it. *)
Definition stopped tr tm : gsm_trans :=
  match tm with Some _ => tr <| Tcurrent := 0 |> | None => tr end.
Definition freed tr tm : gsm_trans := (stopped tr tm) <| cc_state := GSM_CSTATE_NULL |>.

Lemma freed_same tr tm : same_trans tr (freed tr tm).
Proof. unfold freed, stopped. destruct tm; by is_same. Qed.

Lemma view_lchan_get st t tr tm q tr' c :
  attached st tr' c -> exists l, lchan_get c (view st t tr tm q) = Some (l, view st t tr tm q, []).
Proof.
  intros [_ (cn & l & Hcn & Hl) _ _]. exists l. unfold lchan_get.
  run_with (run_load conns c (view st t tr tm q) cn Hcn). by rewrite Hl.
Qed.

(** [_gsm48_cc_trans_free] *)
Lemma view_cc_trans_free st t tr tm q c :
  attached st tr c ->
  _gsm48_cc_trans_free t (view st t tr tm q)
  = Some (tt, view st t (freed tr tm) None (q ++ goodbye tr),
          map MNCC (goodbye tr) ++ [TRAU_MUX_UNMAP (Some c) (t_callref tr)]).
Proof.
  intros A. unfold _gsm48_cc_trans_free. destruct (att_subscr _ _ _ A) as [s Hs].
  assert (exists tr1, (match tm with Some _ => tr <| Tcurrent := 0 |> | None => tr end) = tr1
    /\ t_callref tr1 = t_callref tr /\ t_conn tr1 = t_conn tr /\ t_subscr tr1 = t_subscr tr /\ same_trans tr tr1)
    as (tr1 & E & Er & Ec & Es & Hsame).
  { exists (match tm with Some _ => tr <| Tcurrent := 0 |> | None => tr end). destruct tm; repeat split; by is_same. }
  run_with (view_stop st t tr tm q). unfold freed, stopped. rewrite E. clear E.
  run_with (view_trans_get st t tr1 None q). rewrite Er, Es.
  assert (forall B (k : unit -> MS B),
    (when (negb (t_callref tr =? 0))
       (subscr_load (t_subscr tr);;
        mncc_release_ind (Some t) (t_callref tr) GSM48_CAUSE_LOC_PRN_S_LU GSM48_CC_CAUSE_RESOURCE_UNAVAIL;;
        mret tt) ≫= k) (view st t tr1 None q)
    = emits (map MNCC (goodbye tr)) (k tt (view st t tr1 None (q ++ goodbye tr)))) as Hbye.
  { intros B k. unfold goodbye. destruct (t_callref tr =? 0); cbn [negb when map].
    - rewrite run_ret, emits_nil, app_nil_r. done.
    - apply run_bind. run_with (view_subscr st t tr1 None q _ s Hs). unfold mncc_release_ind.
      rewrite (run_bind _ _ _ _ _ _ (view_recv st t tr1 None q c MNCC_REL_IND _ (attached_same _ _ _ _ Hsame A))).
      done. }
  rewrite Hbye. clear Hbye. run_with (view_trans_get st t tr1 None (q ++ goodbye tr)).
  run_with (view_when_state st t tr1 None (q ++ goodbye tr) GSM_CSTATE_NULL).
  run_with (view_trans_get st t (tr1 <| cc_state := GSM_CSTATE_NULL |>) None (q ++ goodbye tr)).
  cbn [t_conn upd upd_cc_state]. rewrite Ec, (att_conn _ _ _ A).
  destruct (view_lchan_get st t (tr1 <| cc_state := GSM_CSTATE_NULL |>) None (q ++ goodbye tr) tr c A) as [l Hl].
  run_with Hl. cbn [t_callref upd upd_cc_state]. rewrite Er. by rewrite (run_bind _ _ _ _ _ _ (run_call _ _)).
Qed.

Lemma view_trans_free st t tr tm q c :
  attached st tr c -> protocol tr = GSM48_PDISC_CC ->
  trans_free t (view st t tr tm q)
  = emits (map MNCC (goodbye tr) ++ [TRAU_MUX_UNMAP (Some c) (t_callref tr)])
      (leave t (t_subscr tr) (view st t (freed tr tm) None (q ++ goodbye tr))).
Proof.
  intros A Hp. unfold trans_free. run_with (view_trans_get st t tr tm q).
  rewrite bool_decide_eq_true_2 by done. cbn [when].
  rewrite (run_bind _ _ _ _ _ _ (view_cc_trans_free st t tr tm q c A)). f_equal.
  run_with (view_trans_get st t (freed tr tm) None (q ++ goodbye tr)).
  destruct (freed_same tr tm) as (_ & _ & Es & Ec & _). rewrite Ec, Es, (att_conn _ _ _ A).
  rewrite (bool_decide_eq_false_2 (Some c = None)) by done. cbn [andb when]. by rewrite run_ret.
Qed.

(** [trans->callref = 0; trans_free(trans);] says nothing. *)
Lemma view_trans_forget st t tr tm q c :
  attached st tr c -> protocol tr = GSM48_PDISC_CC ->
  trans_forget t (view st t tr tm q)
  = emits [TRAU_MUX_UNMAP (Some c) 0]
      (leave t (t_subscr tr) (view st t (freed (tr <| t_callref := 0 |>) tm) None q)).
Proof.
  intros A Hp. unfold trans_forget. run_with (view_trans_upd st t tr tm q (fun tr => tr <| t_callref := 0 |>)).
  rewrite (view_trans_free st t (tr <| t_callref := 0 |>) tm q c); [|by is_attached A|done].
  cbn [goodbye t_callref upd upd_t_callref Z.eqb map app]. by rewrite app_nil_r.
Qed.

(** A handler that runs into one of the two. *)
Definition rel_said tr : list cc_out := if t_callref tr =? 0 then [] else [ToApp MNCC_REL_IND (t_callref tr)].

Lemma outs_goodbye tr c l : outs c (map MNCC (goodbye tr) ++ [TRAU_MUX_UNMAP (Some c) l]) = rel_said tr.
Proof. unfold goodbye, rel_said. by destruct (_ =? 0). Qed.

Lemma ends_free rc (m : MS Z) st t tr tm c tr1 tm1 ms ev out :
  attached st tr c -> protocol tr = GSM48_PDISC_CC -> same_trans tr tr1 ->
  m (view st t tr tm []) = emits ev ((trans_free t;; mret rc) (view st t tr1 tm1 ms)) ->
  outs c ev ++ rel_said tr1 = out ->
  ends m st t tr tm c out.
Proof.
  intros A Hp Hs Hm <-. assert (attached st tr1 c) as A1 by (by eapply attached_same).
  exists rc, (freed tr1 tm1), (ms ++ goodbye tr1), (ev ++ map MNCC (goodbye tr1) ++ [TRAU_MUX_UNMAP (Some c) (t_callref tr1)]).
  destruct (freed_same tr1 tm1) as (Ep & Ei & Es & Ec & Eg). destruct Hs as (Ep' & Ei' & Es' & Ec' & Eg').
  split_and!.
  - rewrite Hm, (run_tail _ _ _ _ _ _ (view_trans_free st t tr1 tm1 ms c A1 ltac:(by rewrite Ep'))), emits_emits.
    by rewrite Es'.
  - by rewrite outs_app, outs_goodbye.
  - unfold same_trans. rewrite Ep, Es, Ec, Eg. split_and!; [done| |done..]. destruct Ei as [->|E]; [done|].
    rewrite E in Ei'. destruct Ei' as [Ei'|]; [|by right]. right. congruence.
  - done.
Qed.
Lemma ends_forget rc (m : MS Z) st t tr tm c tr1 tm1 ms ev out :
  attached st tr c -> protocol tr = GSM48_PDISC_CC -> same_trans tr tr1 ->
  m (view st t tr tm []) = emits ev ((trans_forget t;; mret rc) (view st t tr1 tm1 ms)) ->
  outs c ev = out ->
  ends m st t tr tm c out.
Proof.
  intros A Hp Hs Hm <-.
  set (tr0 := tr1 <| t_callref := 0 |>).
  replace (outs c ev) with (outs c ev ++ rel_said tr0) by apply app_nil_r.
  apply (ends_free rc m st t tr tm c tr0 tm1 ms ev _ A Hp Hs); [|done].
  rewrite Hm. f_equal. unfold trans_forget.
  rewrite <-(emits_nil ((trans_free t;; mret rc) _)). apply run_tail. rewrite emits_nil.
  by run_with (view_trans_upd st t tr1 tm1 ms (fun tr => tr <| t_callref := 0 |>)).
Qed.

End freeing.

(** ** The handlers that end a call *)

Ltac out_tac :=
  unfold outs, out_of; cbn [concat map app msg_type];
  rewrite ?bool_decide_eq_true_2 by done; rewrite ?listens_octet; cbn [app]; callref_tac;
  try reflexivity.
Ltac ends_tac A Hp lem :=
  eapply (lem _ _ _ _ _ _ _ _ _ _ _ _ _ _ _ A Hp);
  [|etransitivity; [repeat view_step A; reflexivity|]; first [reflexivity | symmetry; apply emits_nil]|out_tac];
  [is_same].

(** The same with sequences in the handler. *)
Ltac step_all A :=
  repeat first [ rewrite run_assoc | view_step A
               | progress cbn [when negb andb orb upd upd_t_callref t_callref t_subscr] ].
Section handlers.
Context {env : MscEnv} {up : Upcalls} {lis : Listens up}.
Context (st : msc_state) (t : nat) (tr : gsm_trans) (tm : option (Z * Z)) (c : nat).
Context (A : attached st tr c) (Hp : protocol tr = GSM48_PDISC_CC).
Abbreviation over m out := (ends m st t tr tm c out).

Lemma tx_release_compl arg : over (gsm48_cc_tx_release_compl t arg) [ToMs GSM48_MT_CC_RELEASE_COMPL].
Proof. unfold gsm48_cc_tx_release_compl. destruct tm; ends_tac A Hp @ends_free. Qed.
(** The answer to a RELEASE: [rel] to the application, RELEASE COMPLETE to the mobile if it began. *)
Lemma view_tx_simple q tr1 tm1 pd mt :
  gsm48_tx_simple (t_conn tr) pd (cc_mt_octet mt) (view st t tr1 tm1 q)
  = let e := SUBMIT_DTAP c [pd; cc_mt_octet mt] in Some (event_rc e, view st t tr1 tm1 q, [e]).
Proof.
  destruct A as [Hc (cn & l & Hcn & Hl) _ _]. unfold gsm48_tx_simple. rewrite Hc. cbn [deref]. rewrite run_ret.
  run_with (run_load conns c (view st t tr1 tm1 q) cn Hcn). unfold gsm48_conn_sendmsg. rewrite run_ret.
  unfold gsm0808_submit_dtap. cbn [deref]. rewrite run_ret.
  run_with (run_load conns c (view st t tr1 tm1 q) cn Hcn). by rewrite Hl.
Qed.

Lemma release_reply tr1 rel :
  same_trans tr tr1 ->
  exists rc ms ev,
    (if bool_decide (cc_state tr1 = GSM_CSTATE_RELEASE_REQ) then mncc_recvmsg (Some t) MNCC_REL_CNF rel
     else
       gsm48_tx_simple (t_conn tr1) (u8 (pdisc_octet GSM48_PDISC_CC .| (transaction_id tr1 .<< 4)))
         (cc_mt_octet GSM48_MT_CC_RELEASE_COMPL);;
       mncc_recvmsg (Some t) MNCC_REL_IND rel) (view st t tr1 None [])
    = Some (rc, view st t tr1 None ms, ev)
    /\ outs c ev = if bool_decide (cc_state tr1 = GSM_CSTATE_RELEASE_REQ) then [ToApp MNCC_REL_CNF (callref rel)]
                   else [ToMs GSM48_MT_CC_RELEASE_COMPL; ToApp MNCC_REL_IND (callref rel)].
Proof.
  intros Hs. assert (attached st tr1 c) as A1 by (by eapply attached_same).
  case_bool_decide.
  - rewrite (view_recv st t tr1 None [] c MNCC_REL_CNF rel A1). do 3 eexists. by split.
  - destruct Hs as (_ & _ & _ & -> & _).
    rewrite (run_bind _ _ _ _ _ _ (view_tx_simple [] tr1 None _ GSM48_MT_CC_RELEASE_COMPL)),
      (view_recv st t tr1 None [] c MNCC_REL_IND rel A1).
    do 3 eexists. split; [reflexivity|by out_tac].
Qed.

Lemma rx_release msg :
  over (gsm48_cc_rx_release t msg)
    (if bool_decide (cc_state tr = GSM_CSTATE_RELEASE_REQ) then [ToApp MNCC_REL_CNF (t_callref tr)]
     else [ToMs GSM48_MT_CC_RELEASE_COMPL; ToApp MNCC_REL_IND (t_callref tr)]).
Proof.
  unfold gsm48_cc_rx_release.
  assert (same_trans tr (stopped tr tm)) as Hs by (unfold stopped; destruct tm; by is_same).
  set (tp := tlv_parse msg None None).
  destruct (release_reply (stopped tr tm)
    (ie_ssversion tp (ie_useruser tp (ie_facility tp (ie_cause tp (mncc_for (t_callref (stopped tr tm))))))) Hs)
    as (rc & ms & ev & Hrun & Hout).
  eapply (ends_forget rc _ _ _ _ _ _ ((stopped tr tm) <| cc_state := GSM_CSTATE_NULL |>) None ms ev _ A Hp).
  - destruct Hs as (? & ? & ? & ? & ?). by repeat split.
  - run_with (view_stop st t tr tm []). fold (stopped tr tm).
    run_with (view_trans_get st t (stopped tr tm) None []). rewrite (run_bind _ _ _ _ _ _ Hrun). f_equal.
    by run_with (view_state st t (stopped tr tm) None ms GSM_CSTATE_NULL).
  - rewrite Hout. callref_tac. unfold stopped. by destruct tm.
Qed.

Lemma rx_release_compl msg :
  over (gsm48_cc_rx_release_compl t msg)
    (if t_callref tr =? 0 then []
     else [ToApp (match cc_state tr with
                  | GSM_CSTATE_CALL_PRESENT => MNCC_REJ_IND
                  | GSM_CSTATE_RELEASE_REQ => MNCC_REL_CNF
                  | _ => MNCC_REL_IND
                  end) (t_callref tr)]).
Proof.
  unfold gsm48_cc_rx_release_compl.
  assert (same_trans tr (stopped tr tm)) as Hs by (unfold stopped; destruct tm; by is_same).
  assert (t_callref (stopped tr tm) = t_callref tr /\ cc_state (stopped tr tm) = cc_state tr) as [Er Ec]
    by (unfold stopped; by destruct tm).
  destruct (Z.eqb_spec (t_callref tr) 0) as [E|E].
  - apply (ends_forget 0 _ _ _ _ _ _ (stopped tr tm) None [] [] _ A Hp Hs); [|done].
    run_with (view_stop st t tr tm []). fold (stopped tr tm).
    run_with (view_trans_get st t (stopped tr tm) None []). rewrite Er, E. cbn [Z.eqb negb].
    by rewrite run_ret.
  - eapply (ends_forget 0 _ _ _ _ _ _ (stopped tr tm) None _ _ _ A Hp Hs).
    + etransitivity.
      * run_with (view_stop st t tr tm []). fold (stopped tr tm).
        run_with (view_trans_get st t (stopped tr tm) None []). rewrite Er, Ec.
        rewrite (proj2 (Z.eqb_neq _ _) E). cbn [negb].
        rewrite (run_bind _ _ _ _ _ _ (view_recv st t (stopped tr tm) None [] c _ _ (attached_same _ _ _ _ Hs A))).
        reflexivity.
      * reflexivity.
    + out_tac.
Qed.

(** *** The start of a call to the mobile *)

(** A transaction identifier can be given to the transaction. *)
Definition tid_free st tr : bool :=
  (transaction_id tr =? 0xff) && (0 <=? trans_assign_trans_id (t_subscr tr) GSM48_PDISC_CC 0 st).

Lemma foldl_ext {X Y} (f g : X -> Y -> X) l x : (forall a b, b ∈ l -> f a b = g a b) -> foldl f x l = foldl g x l.
Proof.
  revert x. induction l as [|y l IH]; [done|]. intros x H. cbn. rewrite (H x y) by by left.
  apply IH. intros a b Hb. apply H. by right.
Qed.
Lemma view_tids q tm' :
  transs st !! t = Some tr -> 
  trans_assign_trans_id (t_subscr tr) GSM48_PDISC_CC 0 (view st t tr tm' q)
  = trans_assign_trans_id (t_subscr tr) GSM48_PDISC_CC 0 st.
Proof.
  intros Ht. unfold trans_assign_trans_id.
  assert (used_tid_bitmask (t_subscr tr) GSM48_PDISC_CC (view st t tr tm' q)
          = used_tid_bitmask (t_subscr tr) GSM48_PDISC_CC st) as ->; [|done].
  unfold used_tid_bitmask. apply foldl_ext. intros mask id _. unfold view; cbn.
  destruct (decide (id = t)) as [->|]; [by rewrite lookup_insert_eq, Ht|by rewrite lookup_insert_ne].
Qed.

Lemma tx_setup arg :
  transs st !! t = Some tr ->
  refines (gsm48_cc_tx_setup t arg) st t tr tm c
    (if tid_free st tr then
       (Some (enter GSM_CSTATE_CALL_PRESENT (Some 0x303) (abs tr tm)), [ToMs GSM48_MT_CC_SETUP])
     else (None, [ToApp MNCC_REL_IND (t_callref tr)])).
Proof.
  intros Ht. destruct (att_subscr _ _ _ A) as [s Hs]. unfold gsm48_cc_tx_setup, tid_free.
  assert (forall r, r = MNCC_REL_IND ->
    ends (rc ← mncc_release_ind (Some t) (t_callref tr) GSM48_CAUSE_LOC_PRN_S_LU GSM48_CC_CAUSE_RESOURCE_UNAVAIL;
          trans_forget t;; mret rc) st t tr tm c [ToApp r (t_callref tr)]) as Href.
  { intros r ->. unfold mncc_release_ind. ends_tac A Hp @ends_forget. }
  assert (forall (m : MS Z) out, ends m st t tr tm c out ->
    forall m', m' (view st t tr tm []) = m (view st t tr tm []) -> ends m' st t tr tm c out) as Hmono.
  { intros m out (rc & tr' & ms & ev & E & ?) m' Em. exists rc, tr', ms, ev. by rewrite Em. }
  destruct (Z.eqb_spec (transaction_id tr) 0xff) as [E|E]; cbn [andb].
  - assert (forall B (k : Z -> MS B),
      (gets (trans_assign_trans_id (t_subscr tr) GSM48_PDISC_CC 0) ≫= k) (view st t tr tm [])
      = k (trans_assign_trans_id (t_subscr tr) GSM48_PDISC_CC 0 st) (view st t tr tm [])) as Hg.
    { intros B k. by rewrite run_gets, (view_tids [] tm Ht). }
    destruct (Z.leb_spec 0 (trans_assign_trans_id (t_subscr tr) GSM48_PDISC_CC 0 st)) as [Hf|Hf];
      unfold refines; cbn [fst snd].
    + do 5 eexists. split.
      * view_step A. rewrite E. cbn [Z.eqb Pos.eqb negb]. view_step A. rewrite Hg.
        destruct (Z.ltb_spec (trans_assign_trans_id (t_subscr tr) GSM48_PDISC_CC 0 st) 0); [lia|].
        repeat view_step A. reflexivity.
      * view_done.
    + apply (Hmono _ _ (Href _ eq_refl)). view_step A. rewrite E. cbn [Z.eqb Pos.eqb negb]. view_step A. rewrite Hg.
      destruct (Z.ltb_spec (trans_assign_trans_id (t_subscr tr) GSM48_PDISC_CC 0 st) 0); [done|lia].
  - unfold refines; cbn [fst snd]. apply (Hmono _ _ (Href _ eq_refl)). view_step A.
    rewrite (proj2 (Z.eqb_neq _ _) E). done.
Qed.

(** *** Expiry of the timer *)

Lemma tell_disconnect mc ml lc ll :
  becomes (cc_timeout_tell t true false mc ml lc ll;; mret 0) st t tr tm c
    (enter GSM_CSTATE_DISCONNECT_IND (Some 0x306) (abs tr tm))
    ((if t_callref tr =? 0 then [] else [ToApp MNCC_DISC_IND (t_callref tr)]) ++ [ToMs GSM48_MT_CC_DISCONNECT]).
Proof.
  destruct (att_subscr _ _ _ A) as [s Hs]. unfold cc_timeout_tell, gsm48_cc_tx_disconnect.
  destruct (t_callref tr =? 0) eqn:E; destruct tm; do 5 eexists;
    (split; [repeat (step_all A; try rewrite E); reflexivity|view_done]).
Qed.
Lemma tell_release mc ml lc ll :
  becomes (cc_timeout_tell t false true mc ml lc ll;; mret 0) st t tr tm c (release (abs tr tm))
    (rel_said tr ++ [ToMs GSM48_MT_CC_RELEASE]).
Proof.
  destruct (att_subscr _ _ _ A) as [s Hs].
  unfold cc_timeout_tell, mncc_release_ind, gsm48_cc_tx_release, rel_said.
  destruct (t_callref tr =? 0) eqn:E; destruct tm; do 5 eexists;
    (split; [repeat (step_all A; try rewrite E); reflexivity|view_done]).
Qed.

End handlers.

(** The timer of [t] expires: it does not run any more when its callback is called. *)
Definition cc_expires {env : MscEnv} {up : Upcalls} (t : nat) : MS Z :=
  modify (fun st => st <| cc_timers ::= delete t |>);;
  gsm48_cc_timeout t;;
  mret 0.

Section expiry.
Context {env : MscEnv} {up : Upcalls} {lis : Listens up}.
Context (st : msc_state) (t : nat) (tr : gsm_trans) (c : nat).
Context (A : attached st tr c) (Hp : protocol tr = GSM48_PDISC_CC).

Lemma expires_run d :
  cc_expires t (view st t tr (Some d) []) = (gsm48_cc_timeout t;; mret 0) (view st t tr None []).
Proof.
  unfold cc_expires. rewrite run_modify. change (delete t) with (set_timer t None). by rewrite view_set_timer.
Qed.
Lemma becomes_run (m m' : MS Z) tm tm' r out :
  m (view st t tr tm []) = m' (view st t tr tm' []) -> becomes m' st t tr tm' c r out -> becomes m st t tr tm c r out.
Proof. intros E (rc & tr' & tm1 & ms & ev & Hm & H). exists rc, tr', tm1, ms, ev. by rewrite E. Qed.
Lemma ends_run (m m' : MS Z) tm tm' out :
  m (view st t tr tm []) = m' (view st t tr tm' []) -> ends m' st t tr tm' c out -> ends m st t tr tm c out.
Proof. intros E (rc & tr' & ms & ev & Hm & H). exists rc, tr', ms, ev. by rewrite E. Qed.
Lemma refines_run (m m' : MS Z) tm tm' r :
  m (view st t tr tm []) = m' (view st t tr tm' []) -> refines m' st t tr tm' c r -> refines m st t tr tm c r.
Proof. intros E. unfold refines. destruct (fst r); [by apply becomes_run|by apply ends_run]. Qed.

(** T308, the first time: RELEASE is repeated. *)
Lemma expires_308_first :
  becomes ((gsm48_cc_tx_release t (cc_msg tr);; trans_upd t (fun tr => tr <| T308_second := 1 |>);;
            cc_timeout_tell t false false GSM48_CC_CAUSE_RECOVERY_TIMER GSM48_CAUSE_LOC_USER
              GSM48_CC_CAUSE_NORMAL_UNSPEC GSM48_CAUSE_LOC_PRN_S_LU);; mret 0) st t tr None c
    ((release (abs tr None)) <| cl_second := true |>) [ToMs GSM48_MT_CC_RELEASE].
Proof.
  unfold gsm48_cc_tx_release, cc_timeout_tell. do 5 eexists; (split; [step_all A; reflexivity|view_done]).
Qed.

(** And the second time. *)
Lemma expires_308_second : ends (trans_free t;; mret 0) st t tr None c (rel_said tr).
Proof.
  apply (ends_free 0 _ st t tr None c tr None [] [] _ A Hp); [by is_same| |done]. by rewrite emits_nil.
Qed.

(** The timer is [T]: use [tac]. Otherwise it is another one. *)
Ltac expire_case T tac :=
  let E := fresh "E" in
  destruct (Z.eqb_spec (Tcurrent tr) T) as [E|E];
  [rewrite ?E; cbn [Z.eqb Pos.eqb orb]; unfold refines; cbn [fst snd]; clear E; tac|cbn [orb]].

Lemma expires_refines d : refines (cc_expires t) st t tr (Some d) c (cc_expire (abs tr (Some d))).
Proof.
  apply (refines_run _ _ _ _ _ (expires_run d)).
  unfold cc_expire, expire_disconnect, expire_release. cbn [abs cl_timer].
  change (_ <| cl_timer := None |>) with (abs tr None). cbn [cl_ref cl_second abs]. fold (rel_said tr).
  unfold gsm48_cc_timeout. eapply (refines_run _ _ None).
  { rewrite run_assoc. run_with (view_trans_get st t tr None []). reflexivity. }
  cbv beta zeta.
  expire_case 0x303 ltac:(by apply tell_release).
  expire_case 0x310 ltac:(by apply tell_disconnect).
  expire_case 0x313 ltac:(by apply tell_disconnect).
  expire_case 0x301 ltac:(by apply tell_disconnect).
  expire_case 0x308 ltac:(destruct (T308_second tr =? 0); cbn [negb fst snd];
    [exact expires_308_first|exact expires_308_second]).
  expire_case 0x306 ltac:(by apply tell_release).
  expire_case 0x323 ltac:(by apply tell_disconnect).
  by apply tell_release.
Qed.
End expiry.

(** ** The tables *)

Definition among (l : list cc_cstate) (s : cc_cstate) : bool := existsb (fun x => bool_decide (s = x)) l.
Lemma sbits_among l s : sbits l s = among l s.
Proof.
  unfold sbits, among. case_bool_decide as E; symmetry.
  - apply existsb_exists. exists s. split; [by apply list_elem_of_In|by apply bool_decide_eq_true].
  - apply not_true_is_false. rewrite existsb_exists. intros (x & Hx & Hs).
    apply bool_decide_eq_true in Hs as ->. by apply E, list_elem_of_In.
Qed.
Lemma all_but_among l s : all_but l s = negb (among l s).
Proof. rewrite <-sbits_among. unfold all_but, sbits. apply bool_decide_not. Qed.

Section tables.
Context {env : MscEnv} {up : Upcalls} {lis : Listens up}.
Context (st : msc_state) (t : nat) (tr : gsm_trans) (tm : option (Z * Z)) (c : nat).
Context (A : attached st tr c) (Hp : protocol tr = GSM48_PDISC_CC).

Lemma refines_nothing : refines (mret 0) st t tr tm c (Some (abs tr tm), []).
Proof. exists 0, tr, tm, [], []. repeat split; by left. Qed.

(** A row of a table: the handler, by its lemma [H], in the states of the row. *)
Ltac row H :=
  rewrite ?sbits_among, ?all_but_among; unfold among; change (@existsb cc_cstate _ []) with false;
  repeat match goal with |- context [existsb ?f ?l] => destruct (existsb f l) eqn:? end; cbn [negb];
  first [exact refines_nothing | unfold refines; cbn [fst snd]; by apply H].

Lemma rcv_cc_refines msg m :
  cc_mt_of (rd msg 1 .& 0xbf) = Some m -> refines (rcv_cc_trans t msg) st t tr tm c (cc_rx m (abs tr tm)).
Proof.
  intros Hm. unfold rcv_cc_trans.
  eapply (refines_run st t tr c _ _ tm tm). { run_with (view_trans_get st t tr tm []). rewrite Hm. reflexivity. }
  unfold cc_rx. cbv zeta. change (cl_state (abs tr tm)) with (cc_state tr).
  destruct m; cbn [find_row datastatelist]; decide_closed; cbn [andb].
  - row rx_alerting.
  - row rx_call_conf.
  - exact refines_nothing.
  - row rx_connect.
  - row rx_connect_ack.
  - row rx_setup.
  - exact refines_nothing.
  - row rx_setup.
  - row rx_modify.
  - row rx_modify_complete.
  - row rx_modify_reject.
  - row rx_userinfo.
  - row rx_hold.
  - exact refines_nothing.
  - exact refines_nothing.
  - row rx_retrieve.
  - exact refines_nothing.
  - exact refines_nothing.
  - row rx_disconnect.
  - rewrite all_but_among. pose proof (rx_release st t tr tm c A Hp msg) as Hr. revert Hr.
    unfold among. cbn [existsb]. rewrite !orb_false_r. repeat case_bool_decide; intros Hr; first [exact Hr|congruence|exact refines_nothing].
  - rewrite all_but_among. cbn [negb among existsb]. pose proof (rx_release_compl st t tr tm c A Hp msg) as H.
    unfold refines; cbn [fst snd]. change (cl_ref (abs tr tm)) with (t_callref tr).
    destruct (t_callref tr =? 0); [done|]. by destruct (cc_state tr).
  - row rx_notify.
  - exact refines_nothing.
  - row rx_status_enq.
  - row rx_start_dtmf.
  - exact refines_nothing.
  - exact refines_nothing.
  - row rx_stop_dtmf.
  - exact refines_nothing.
  - row rx_facility.
Qed.

Lemma row_eqb_false mt (l : list ((cc_cstate -> bool) * Z * (nat -> gsm_mncc -> MS Z))) s :
  Forall (fun r => mt <> snd (fst r)) l -> find_row (Z.eqb mt) s l = None.
Proof.
  induction 1 as [|[[states ty] h] l Hr _ IH]; [done|]. cbn in Hr |- *.
  by rewrite (proj2 (Z.eqb_neq _ _) Hr).
Qed.

(** The request [mt] is [X]: its row, by the lemma [H]. *)
Ltac eqb_closed :=
  repeat match goal with
         | |- context [(?a =? ?b)] =>
             let v := eval vm_compute in (a =? b) in
             lazymatch v with true => idtac | false => idtac end;
             change (a =? b) with v
         end.
Ltac request mt X H :=
  destruct (Z.eqb_spec mt X) as [->|];
  [cbn [find_row downstatelist]; eqb_closed; cbn [andb]; row H|].

Lemma tx_cc_refines mt data :
  transs st !! t = Some tr -> (mt = MNCC_LCHAN_MODIFY -> 0 <= event_rc (ASSIGN_REQ c (lchan_mode data) 1)) ->
  refines (tx_to_cc_state t mt data) st t tr tm c (cc_tx mt (tid_free st tr) (abs tr tm)).
Proof.
  intros Ht Hrc. unfold tx_to_cc_state.
  eapply (refines_run st t tr c _ _ tm tm). { run_with (view_trans_get st t tr tm []). reflexivity. }
  unfold cc_tx. cbv zeta. change (cl_state (abs tr tm)) with (cc_state tr).
  request mt MNCC_CALL_PROC_REQ tx_call_proc.
  request mt MNCC_ALERT_REQ tx_alerting.
  request mt MNCC_SETUP_RSP tx_connect.
  request mt MNCC_PROGRESS_REQ tx_progress.
  destruct (Z.eqb_spec mt MNCC_SETUP_REQ) as [->|].
  { cbn [find_row downstatelist]; eqb_closed; cbn [andb]. rewrite sbits_among. fold (among [GSM_CSTATE_NULL] (cc_state tr)).
    destruct (among _ _); [|exact refines_nothing]. by apply tx_setup. }
  request mt MNCC_SETUP_COMPL_REQ tx_connect_ack.
  request mt MNCC_NOTIFY_REQ tx_notify.
  request mt MNCC_FACILITY_REQ tx_facility.
  request mt MNCC_START_DTMF_RSP tx_start_dtmf_ack.
  request mt MNCC_START_DTMF_REJ tx_start_dtmf_rej.
  request mt MNCC_STOP_DTMF_RSP tx_stop_dtmf_ack.
  request mt MNCC_HOLD_CNF tx_hold_ack.
  request mt MNCC_HOLD_REJ tx_hold_rej.
  request mt MNCC_RETRIEVE_CNF tx_retrieve_ack.
  request mt MNCC_RETRIEVE_REJ tx_retrieve_rej.
  request mt MNCC_MODIFY_REQ tx_modify.
  request mt MNCC_MODIFY_RSP tx_modify_complete.
  request mt MNCC_MODIFY_REJ tx_modify_reject.
  request mt MNCC_USERINFO_REQ tx_userinfo.
  request mt MNCC_REJ_REQ tx_release_compl.
  request mt MNCC_DISC_REQ tx_disconnect.
  request mt MNCC_REL_REQ tx_release.
  destruct (Z.eqb_spec mt MNCC_LCHAN_MODIFY) as [->|].
  { cbn [find_row downstatelist]; eqb_closed; cbn [andb]. rewrite all_but_among. cbn [negb among existsb].
    unfold refines; cbn [fst snd]. apply tx_lchan_modify; auto. }
  rewrite row_eqb_false; [exact refines_nothing|]. by repeat constructor.
Qed.
End tables.

End CcRefine.
