(* ===== verification/CcLeave.v ===== *)
(** The end of a call, after the last word to the application: the transaction gives its subscriber back,
    leaves the list, the connection is released when nothing else uses it, and its memory is freed
    (trans_free of libmsc/transaction.c, msc_release_connection of libmsc/osmo_msc.c). Theorem of this file: it
    comes to its end, without a word about the call. *)

From S2P Require Import Prelude Chreq Msc Cc Subscr CcApi Mncc CcSpec CcRuns CcRefine.
Import Chreq Msc Cc Subscr CcApi Mncc CcSpec CcRuns CcRefine.

Module CcLeave.

(** ** Programs that come to an end and say nothing on a connection *)

Section quietly.
Context {env : MscEnv}.

Definition quietly {A} (c : nat) (m : MS A) (Q : A -> msc_state -> Prop) (st : msc_state) : Prop :=
  exists a st' ev, m st = Some (a, st', ev) /\ outs c ev = [] /\ Q a st'.

Lemma quietly_ret {A} c (a : A) (Q : A -> msc_state -> Prop) st : Q a st -> quietly c (mret a) Q st.
Proof. intros H. by exists a, st, []. Qed.
Lemma quietly_bind {A B} c (m : MS B) (k : B -> MS A) Q st :
  quietly c m (fun b => quietly c (k b) Q) st -> quietly c (m ≫= k) Q st.
Proof.
  intros (b & st1 & ev1 & H1 & O1 & a & st2 & ev2 & H2 & O2 & HQ). exists a, st2, (ev1 ++ ev2). split_and!; [|by rewrite outs_app, O1, O2|done].
  rewrite (run_bind _ _ _ _ _ _ H1), H2. done.
Qed.
Lemma quietly_mono {A} c (m : MS A) (Q Q' : A -> msc_state -> Prop) st :
  quietly c m Q st -> (forall a st', Q a st' -> Q' a st') -> quietly c m Q' st.
Proof. intros (a & st' & ev & Hm & Ho & HQ) H. exists a, st', ev. auto. Qed.
Lemma quietly_modify c f (Q : unit -> msc_state -> Prop) st : Q tt (f st) -> quietly c (modify f) Q st.
Proof. intros H. by exists tt, (f st), []. Qed.
Lemma quietly_gets {A} c (f : msc_state -> A) (Q : A -> msc_state -> Prop) st : Q (f st) st -> quietly c (gets f) Q st.
Proof. intros H. by exists (f st), st, []. Qed.
Lemma quietly_emit c e (Q : unit -> msc_state -> Prop) st : out_of c e = [] -> Q tt st -> quietly c (emit e) Q st.
Proof. intros He H. exists tt, st, [e]. split_and!; [done| |done]. unfold outs. cbn. by rewrite He. Qed.
Lemma quietly_call c e (Q : Z -> msc_state -> Prop) st :
  out_of c e = [] -> Q (event_rc e) st -> quietly c (call e) Q st.
Proof. intros He H. apply quietly_bind, quietly_emit; [done|]. by apply quietly_ret. Qed.
Lemma quietly_load {X} c (f : msc_state -> gmap nat X) id x (Q : X -> msc_state -> Prop) st :
  f st !! id = Some x -> Q x st -> quietly c (load f id) Q st.
Proof. intros Hx H. exists x, st, []. unfold load. by rewrite Hx. Qed.
Lemma quietly_subscr_upd c id f s (Q : unit -> msc_state -> Prop) st :
  subscrs st !! id = Some s -> Q tt (st <| subscrs ::= alter f id |>) -> quietly c (subscr_upd id f) Q st.
Proof. intros Hs H. apply quietly_bind, (quietly_load _ _ _ s); [done|]. by apply quietly_modify. Qed.
Lemma quietly_conn_upd c id f cn (Q : unit -> msc_state -> Prop) st :
  conns st !! id = Some cn -> Q tt (st <| conns ::= alter f id |>) -> quietly c (conn_upd id f) Q st.
Proof. intros Hs H. apply quietly_bind, (quietly_load _ _ _ cn); [done|]. by apply quietly_modify. Qed.

(** The transactions and their timers are as before. *)
Definition same_calls (st st' : msc_state) : Prop :=
  transs st' = transs st /\ trans_list st' = trans_list st /\ cc_timers st' = cc_timers st.

(** A reference to a subscriber is given back. *)
Lemma quietly_subscr_put c id s (Q : unit -> msc_state -> Prop) st :
  subscrs st !! id = Some s ->
  (forall st', same_calls st st' -> conns st' = conns st -> pagings st' = pagings st -> btss st' = btss st ->
     (2 <= use_count s -> subscrs st' !! id = Some (s <| use_count ::= Z.pred |>)) -> Q tt st') ->
  quietly c (subscr_put id) Q st.
Proof.
  intros Hs HQ. apply quietly_bind, (quietly_subscr_upd _ _ _ s); [done|].
  set (st1 := st <| subscrs ::= alter _ id |>).
  assert (subscrs st1 !! id = Some (s <| use_count ::= Z.pred |>)) as Hs1 by (cbn; by rewrite lookup_alter_eq, Hs).
  apply quietly_bind, (quietly_load _ _ _ _ _ _ Hs1).
  destruct ((use_count _ <=? 0) && negb keep_subscr) eqn:E; cbn [when].
  - apply quietly_bind, (quietly_load _ _ _ _ _ _ Hs1), quietly_modify. apply HQ; try done. intros H.
    apply andb_prop in E as [E%Z.leb_le _]. cbn in E. lia.
  - apply quietly_ret. by apply HQ.
Qed.

End quietly.

(** ** The next channel request *)

Section paging.
Context {env : MscEnv} {up : Upcalls}.

(** Paging for the subscriber can start: it is not being paged for, and a cell of its location area is up. *)
Definition can_page (st : msc_state) (subscr : nat) (s : gsm_subscriber) : Prop :=
  Forall (fun p => p_subscr p <> subscr) (pagings st)
  /\ exists nr b, btss st !! nr = Some b /\ bts_lac b = s_lac s /\ trx_is_usable b = true.

Lemma bts_by_lac_spec lac n bs nr :
  nr ∈ bts_by_lac lac n bs <-> (n <= nr)%nat /\ exists b, bs !! (nr - n)%nat = Some b /\ bts_lac b = lac.
Proof.
  revert n. induction bs as [|b bs IH]; intros n; cbn [bts_by_lac].
  { rewrite elem_of_nil. split; [done|]. by intros (_ & b & Hb & _). }
  rewrite elem_of_app, IH. split.
  - intros [H|(Hn & x & Hx & Hl)].
    + destruct (Z.eqb_spec (bts_lac b) lac); [|by apply elem_of_nil in H]. apply list_elem_of_singleton in H as ->.
      split; [lia|]. exists b. by rewrite Nat.sub_diag.
    + split; [lia|]. exists x. by replace (nr - n)%nat with (S (nr - S n)) by lia.
  - intros (Hn & x & Hx & Hl). destruct (decide (nr = n)) as [->|].
    + left. rewrite Nat.sub_diag in Hx. injection Hx as ->. rewrite (proj2 (Z.eqb_eq _ _) Hl). by left.
    + right. split; [lia|]. exists x. by replace (nr - n)%nat with (S (nr - S n)) in Hx by lia.
Qed.
Lemma bts_by_lac_nodup lac n bs : NoDup (bts_by_lac lac n bs).
Proof.
  revert n. induction bs as [|b bs IH]; intros n; cbn [bts_by_lac]; [constructor|].
  destruct (_ =? _); cbn [app]; [|done]. constructor; [|done]. rewrite bts_by_lac_spec. lia.
Qed.

(** What paging does not touch. *)
Definition paged_from (subscr : nat) (st st' : msc_state) : Prop :=
  same_calls st st' /\ conns st' = conns st /\ is_Some (subscrs st' !! subscr).

Lemma page_bts_quiet c cbfn subscr bs n st :
  NoDup bs -> (forall nr, nr ∈ bs -> is_Some (btss st !! nr)) -> is_Some (subscrs st !! subscr) ->
  (forall p, p ∈ pagings st -> p_subscr p = subscr -> p_bts p ∉ bs) ->
  0 <= n -> (0 < n \/ exists nr b, nr ∈ bs /\ btss st !! nr = Some b /\ trx_is_usable b = true) ->
  quietly c (page_bts bs subscr cbfn n) (fun rc st' => 0 < rc /\ paged_from subscr st st') st.
Proof.
  revert n st. induction bs as [|nr bs IH]; intros n st Hnd Hbs [s Hs] Hp Hn Hup; cbn [page_bts].
  { assert (0 < n) as H by (destruct Hup as [?|(? & ? & Hin & _)]; [done|by apply elem_of_nil in Hin]).
    rewrite (proj2 (Z.eqb_neq n 0)) by lia. cbn [when]. by repeat first [apply quietly_bind | apply quietly_ret]. }
  apply NoDup_cons in Hnd as [Hnr Hnd]. destruct (Hbs nr ltac:(by left)) as [b Hb].
  apply quietly_bind. exists b, st, []. split_and!; [unfold bts_get; by rewrite Hb|done|].
  destruct (trx_is_usable b) eqn:Hu.
  - assert (paging_pending_request nr subscr st = None) as Hnone.
    { unfold paging_pending_request. destruct (list_find _ (pagings st)) as [[i p]|] eqn:E; [|done].
      apply list_find_Some in E as (Hi & [Hb1 Hs1] & _). apply list_elem_of_lookup_2 in Hi.
      exfalso. apply (Hp p Hi Hs1). rewrite Hb1. by left. }
    apply quietly_bind. unfold _paging_request. apply quietly_bind, quietly_gets. rewrite Hnone.
    apply quietly_bind, quietly_bind, (quietly_subscr_upd _ _ _ s); [done|]. apply quietly_ret.
    apply quietly_bind, quietly_gets, quietly_bind, quietly_modify, quietly_bind, quietly_emit; [done|]. apply quietly_ret.
    change (0 <? 0) with false. cbv iota. eapply quietly_mono.
    + apply (IH (n + 1)); [done|by intros x Hx; apply Hbs; right|cbn; rewrite lookup_alter_eq, Hs; by eexists| |lia|left; lia].
      cbn. intros p [Hin|Hin]%elem_of_app Hps.
      * intros Hx. apply (Hp p Hin Hps). by right.
      * apply list_elem_of_singleton in Hin as ->. done.
    + by intros rc st' [? [(? & ? & ?) [? ?]]].
  - apply IH; [done|by intros x Hx; apply Hbs; right|by eexists| |done|].
    + intros p Hin Hps Hx. apply (Hp p Hin Hps). by right.
    + destruct Hup as [?|(x & y & Hx & Hy & Hux)]; [by left|right]. exists x, y. split; [|done].
      apply elem_of_cons in Hx as [->|]; [|done]. congruence.
Qed.

Lemma send_paging_quiet c subscr s st :
  subscrs st !! subscr = Some s -> requests s <> [] -> can_page st subscr s ->
  quietly c (subscr_send_paging_request subscr) (fun _ => paged_from subscr st) st.
Proof.
  intros Hs Hr (Hp & nr & b & Hb & Hl & Hu). unfold subscr_send_paging_request.
  apply quietly_bind, (quietly_load _ _ _ s); [done|]. destruct (requests s) as [|r l] eqn:E; [done|].
  apply quietly_bind, (quietly_subscr_upd _ _ _ s); [done|].
  match goal with |- quietly _ _ _ ?st => set (st1 := st) end.
  assert (subscrs st1 !! subscr = Some (s <| requests ::= fun l => match l with r :: l => r <| r_state := REQ_STATE_PAGED |> :: l | [] => [] end |>))
    as Hs1 by (cbn; by rewrite lookup_alter_eq, Hs).
  apply quietly_bind. unfold req_paging. apply quietly_bind, quietly_emit; [done|].
  apply quietly_bind, (quietly_load _ _ _ _ _ _ Hs1), quietly_bind, quietly_gets. eapply quietly_mono.
  - apply page_bts_quiet; [apply bts_by_lac_nodup| |by eexists| |done|].
    + intros x (_ & y & Hy & _)%bts_by_lac_spec. rewrite Nat.sub_0_r in Hy. by exists y.
    + intros p Hin Hps. rewrite Forall_forall in Hp. by destruct (Hp p Hin).
    + right. exists nr, b. split_and!; [|done|done]. apply bts_by_lac_spec. split; [lia|]. exists b. by rewrite Nat.sub_0_r.
  - intros rc st' [Hrc [(? & ? & ?) [? ?]]]. rewrite (proj2 (Z.leb_gt rc 0)) by lia. cbn [when]. by apply quietly_ret.
Qed.

End paging.

(** ** The release of a connection *)

(** The connection is that of the subscriber of the transaction; both have a reference to it; and when the
    channel is to be given to the next request that waits, paging for it can start. *)
Record can_leave (st : msc_state) (tr : gsm_trans) (c : nat) : Prop := {
  lv_conn cn : conns st !! c = Some cn -> c_subscr cn = Some (t_subscr tr);
  lv_refs s : subscrs st !! t_subscr tr = Some s -> 2 <= use_count s;
  lv_next cn s : conns st !! c = Some cn -> subscrs st !! t_subscr tr = Some s ->
    c_put_channel cn = true -> requests s <> [] -> can_page st (t_subscr tr) s
}.

Section leaving.
Context {env : MscEnv} (depth : nat).
#[local] Instance leaving_up : Upcalls := upcalls (S depth).

Lemma con_free_quiet c conn cn subscr st :
  conns st !! conn = Some cn -> c_subscr cn = Some subscr -> is_Some (subscrs st !! subscr) ->
  quietly c (subscr_con_free conn) (fun _ => same_calls st) st.
Proof.
  intros Hcn Hsub [s Hs]. unfold subscr_con_free. apply quietly_bind, (quietly_load _ _ _ _ _ _ Hcn). rewrite Hsub.
  apply quietly_bind, (quietly_subscr_put _ _ s); [done|]. intros st' Hc Hcn' _ _ _.
  apply quietly_bind, (quietly_load _ _ _ cn); [by rewrite Hcn'|]. by apply quietly_modify.
Qed.

Lemma put_channel_quiet c subscr s st :
  subscrs st !! subscr = Some s -> (requests s <> [] -> can_page st subscr s) ->
  quietly c (subscr_put_channel (Some subscr)) (fun _ => paged_from subscr st) st.
Proof.
  intros Hs Hnext. cbn [subscr_put_channel leaving_up upcalls put_channel_body].
  apply quietly_bind, (quietly_load _ _ _ _ _ _ Hs). destruct (requests s) as [|r l] eqn:E.
  - apply quietly_ret. split; [done|]. by split; [|exists s].
  - apply (send_paging_quiet _ _ s); [done|by rewrite E|]. by apply Hnext.
Qed.

Lemma release_connection_quiet c conn cn subscr s st :
  conns st !! conn = Some cn -> c_subscr cn = Some subscr -> subscrs st !! subscr = Some s ->
  (c_put_channel cn = true -> requests s <> [] -> can_page st subscr s) ->
  quietly c (msc_release_connection conn) (fun _ => same_calls st) st.
Proof.
  intros Hcn Hsub Hs Hnext. unfold msc_release_connection. apply quietly_bind, (quietly_load _ _ _ _ _ _ Hcn).
  destruct (in_release cn); [by apply quietly_ret|]. destruct (silent_call cn); [by apply quietly_ret|].
  case_match; [by apply quietly_ret|]. apply quietly_bind, quietly_gets. case_match; [by apply quietly_ret|].
  set (cn1 := cn <| in_release := true |>). set (cn2 := cn1 <| c_lchan := None |>).
  apply quietly_bind, (quietly_conn_upd _ _ _ cn); [done|]. unfold gsm0808_clear.
  apply quietly_bind, quietly_bind, quietly_call; [done|].
  apply quietly_bind, (quietly_conn_upd _ _ _ cn1); [cbn; by rewrite lookup_alter_eq, Hcn|].
  apply quietly_modify. match goal with |- quietly _ _ _ ?st => set (st1 := st) end.
  assert (conns st1 !! conn = Some cn2) as Hcn2 by (cbn; by rewrite !lookup_alter_eq, Hcn).
  apply quietly_bind, (quietly_load _ _ _ _ _ _ Hcn2). change (c_put_channel cn2) with (c_put_channel cn).
  destruct (c_put_channel cn); cbn [when].
  - apply quietly_bind, quietly_bind, (quietly_conn_upd _ _ _ cn2); [done|].
    match goal with |- quietly _ _ _ ?st => set (st2 := st) end. change (c_subscr cn2) with (c_subscr cn). rewrite Hsub.
    eapply quietly_mono; [apply (put_channel_quiet c subscr s st2 Hs); intros Hr; by apply Hnext|].
    intros _ st3 [(E1 & E2 & E3) [Ec Hs3]]. eapply quietly_mono.
    + apply (con_free_quiet _ _ (cn2 <| c_put_channel := false |>) subscr); [|done|done].
      rewrite Ec. unfold st2. cbn -[st1]. by rewrite lookup_alter_eq, Hcn2.
    + intros _ st4 (F1 & F2 & F3). unfold same_calls. by rewrite F1, F2, F3, E1, E2, E3.
  - apply quietly_bind, quietly_ret. eapply quietly_mono; [apply (con_free_quiet _ _ cn2 subscr); [done|done|by exists s]|done].
Qed.

(** ** The transaction is gone *)

Definition gone (t : nat) (st : msc_state) : Prop :=
  transs st !! t = None /\ ~ t ∈ trans_list st /\ cc_timers st !! t = None.

Lemma leave_quiet st t tr c tr' ms :
  attached st tr c -> can_leave st tr c -> same_trans tr tr' ->
  quietly c (leave t (t_subscr tr)) (fun _ => gone t) (view st t tr' None ms).
Proof.
  intros A [Hconn Hrefs Hnext] (_ & _ & _ & Ec & _). destruct (att_lchan _ _ _ A) as (cn & l & Hcn & _).
  destruct (att_subscr _ _ _ A) as [s Hs]. unfold leave.
  apply quietly_bind, (quietly_subscr_put _ _ s); [done|]. intros st1 (E1 & E2 & E3) Ecn Epg Ebt Hs1.
  specialize (Hs1 (Hrefs _ Hs)). apply quietly_bind, quietly_modify.
  match goal with |- quietly _ _ _ ?st => set (st2 := st) end.
  assert (transs st2 !! t = Some tr') as Ht by (change (transs st2) with (transs st1); rewrite E1; cbn; apply lookup_insert_eq).
  apply quietly_bind, (quietly_load _ _ _ _ _ _ Ht). rewrite Ec, (att_conn _ _ _ A).
  apply quietly_bind. eapply quietly_mono.
  - apply (release_connection_quiet _ _ cn (t_subscr tr) (s <| use_count ::= Z.pred |>)); [|by apply Hconn|done|].
    + change (conns st2) with (conns st1). by rewrite Ecn.
    + intros Hp Hr. destruct (Hnext _ _ Hcn Hs Hp Hr) as [Hpg Hup]. split.
      * change (pagings st2) with (pagings st1). by rewrite Epg.
      * change (btss st2) with (btss st1). by rewrite Ebt.
  - intros _ st3 (F1 & F2 & F3). apply quietly_bind, (quietly_load _ _ _ tr'); [by rewrite F1|].
    apply quietly_modify. unfold gone. split_and!; cbn.
    + apply lookup_delete_eq.
    + rewrite F2. unfold st2. cbn. unfold unlink. rewrite list_elem_of_filter. by intros [? _].
    + rewrite F3. change (cc_timers st2) with (cc_timers st1). rewrite E3. cbn. apply lookup_delete_eq.
Qed.

End leaving.

(** The connection of a call whose transaction was worked on. *)
Lemma view_can_leave st t tr tm q tr0 tr1 c :
  t_subscr tr1 = t_subscr tr0 -> can_leave st tr0 c -> can_leave (view st t tr tm q) tr1 c.
Proof. intros E [H1 H2 H3]. split; rewrite E; [exact H1|exact H2|exact H3]. Qed.

End CcLeave.
