(* ===== verification/CcProps.v ===== *)
(** Call control keeps its contract: the entries of gsm_04_08.c make a transaction do what the
    abstract call of CcSpec.v does, the application hears of the end of a call exactly once, and
    the identifier of a call to a mobile is one that is free. *)

From S2P Require Import Prelude Chreq Msc Cc Subscr CcApi Mm Mncc CcSpec CcRuns CcRefine CcLeave MscDemo.
Import Chreq Msc Cc Subscr CcApi Mm Mncc CcSpec CcRuns CcRefine CcLeave MscDemo.

Module CcProps.

(** The socket, while an application is connected to it. *)
#[export] Instance socket_listens {env : MscEnv} depth (Hi : mncc_internal = false) (Hm : mncc_msgb_ok = true)
  (Hc : forall m, cc_mt_of (cc_mt_octet m) = Some m) : Listens (upcalls (S depth)).
Proof.
  split; [|done..]. intros m st Hs. cbn [upcalls mncc_recv]. unfold mncc_handler. rewrite Hi.
  unfold mncc_sock_from_cc. by rewrite run_gets, Hs.
Qed.

Section calls.
Context {env : MscEnv} {up : Upcalls}.

(** What happens to the call [t] on the connection [c], and the code that runs. *)
Inductive occurs (st : msc_state) (t : nat) (tr : gsm_trans) (c : nat) : cc_in -> MS Z -> Prop :=
| occurs_ms conn cn l subscr msg m :
    conns st !! conn = Some cn -> c_subscr cn = Some subscr -> c_lchan cn = Some l ->
    tst (rd msg 1 .& 0xbf) 0x80 = false ->
    trans_find_by_id subscr GSM48_PDISC_CC (((rd msg 0 .& 0xf0) .^ 0x80) .>> 4) st = Some t ->
    cc_mt_of (rd msg 1 .& 0xbf) = Some m ->
    occurs st t tr c (FromMs m) (gsm0408_rcv_cc conn msg)
| occurs_app mt data :
    mt ∉ [MNCC_BRIDGE; MNCC_FRAME_DROP; MNCC_FRAME_RECV; GSM_TCHF_FRAME] ->
    trans_find_by_callref (callref data) st = Some t ->
    (mt = MNCC_LCHAN_MODIFY -> 0 <= event_rc (ASSIGN_REQ c (lchan_mode data) 1)) ->
    occurs st t tr c (FromApp mt (tid_free st tr)) (mncc_tx_to_cc mt (ARG_MNCC data))
| occurs_expiry d : cc_timers st !! t = Some d -> occurs st t tr c Expiry (cc_expires t)
| occurs_lost : occurs st t tr c Lost (trans_free t;; mret 0).

(** From [st] the program [m] takes the call of [t] to what [r] says. *)
Definition call_runs (m : MS Z) (st : msc_state) (t : nat) (tr : gsm_trans) (c : nat) (r : cc_result) : Prop :=
  match fst r with
  | Some call =>
      exists rc tr' tm' ms ev,
        m st = Some (rc, view st t tr' tm' ms, ev)
        /\ abs tr' tm' = call /\ outs c ev = snd r /\ same_trans tr tr'
  | None =>
      exists rc tr' ms ev,
        m st = emits ev ((leave t (t_subscr tr);; mret rc) (view st t tr' None ms))
        /\ outs c ev = snd r /\ same_trans tr tr' /\ cc_state tr' = GSM_CSTATE_NULL
  end.

Lemma call_runs_refines m st t tr c r :
  transs st !! t = Some tr -> refines m st t tr (cc_timers st !! t) c r -> call_runs m st t tr c r.
Proof. intros Ht H. unfold refines, becomes, ends in H. by rewrite (view_id st t tr Ht) in H. Qed.

Lemma refines_at (m m' : MS Z) st t tr c r :
  transs st !! t = Some tr -> m st = m' st ->
  refines m' st t tr (cc_timers st !! t) c r -> call_runs m st t tr c r.
Proof.
  intros Ht E H. apply call_runs_refines; [done|].
  apply (refines_run st t tr c m m' (cc_timers st !! t) (cc_timers st !! t) r); [|done].
  by rewrite (view_id st t tr Ht).
Qed.
End calls.

Lemma trans_find_spec p st t :
  trans_find p st = Some t -> exists tr, transs st !! t = Some tr /\ p tr = true.
Proof.
  unfold trans_find. destruct (list_find _ _) as [[i x]|] eqn:E; cbn; [|done]. intros [= <-].
  apply list_find_Some in E as (_ & Hp & _). destruct (transs st !! x) as [tr|]; [|done]. by exists tr.
Qed.

Section calls.
Context {env : MscEnv} {up : Upcalls} {lis : Listens up}.

(** A message that finds the transaction runs its handler. *)
Lemma occurs_runs st t tr c i m :
  transs st !! t = Some tr -> protocol tr = GSM48_PDISC_CC -> attached st tr c -> occurs st t tr c i m ->
  call_runs m st t tr c (cc_step i (abs tr (cc_timers st !! t))).
Proof.
  intros Ht Hp A Ho. destruct Ho as [conn cn l subscr msg m Hcn Hsub Hl Hx Hfind Hmt|mt data Hmt Hfind Hrc|d Hd|].
  - apply (refines_at _ (rcv_cc_trans t msg)); [done| |by apply rcv_cc_refines].
    unfold gsm0408_rcv_cc. rewrite Hx. run_with (run_load conns conn st cn Hcn). rewrite Hsub. cbn [deref].
    rewrite run_ret. destruct (trans_find_spec _ _ _ Hfind) as (tr0 & Ht0 & Hid).
    rewrite Ht in Ht0. injection Ht0 as <-. repeat apply andb_prop in Hid as [Hid ?].
    apply bool_decide_eq_true in Hid as <-. destruct (att_subscr _ _ _ A) as [s Hs].
    run_with (run_load subscrs (t_subscr tr) st s Hs). rewrite run_gets.
    assert (lchan_get conn st = Some (l, st, [])) as Hg.
    { unfold lchan_get. run_with (run_load conns conn st cn Hcn). by rewrite Hl. }
    run_with Hg. by rewrite Hfind.
  - apply (refines_at _ (tx_to_cc_state t mt data)); [done| |by apply tx_cc_refines].
    unfold mncc_tx_to_cc. cbn [arg_data].
    repeat match goal with
           | |- context [mt =? ?X] => destruct (Z.eqb_spec mt X) as [->|]; [by exfalso; apply Hmt; repeat constructor|]
           end.
    rewrite run_gets, Hfind. unfold tx_to_cc_trans. run_with (run_load transs t st tr Ht).
    rewrite (att_conn _ _ _ A). destruct (att_lchan _ _ _ A) as (cn & l & Hcn & Hl).
    assert (lchan_get c st = Some (l, st, [])) as Hg.
    { unfold lchan_get. run_with (run_load conns c st cn Hcn). by rewrite Hl. }
    by run_with Hg.
  - apply (refines_at _ (cc_expires t)); [done|done|]. rewrite Hd. by apply expires_refines.
  - apply (refines_at _ (trans_free t;; mret 0)); [done|done|]. unfold refines; cbn [cc_step cc_lost fst snd].
    apply (ends_free 0 _ st t tr _ c tr (cc_timers st !! t) [] [] _ A Hp); [by repeat split; left| |done].
    by rewrite emits_nil.
Qed.
End calls.

(** ** The contract *)



(** A step that leaves the transaction to be freed comes to its end: it is freed, and no more is said. *)
Lemma leave_runs {env : MscEnv} depth (m : MS Z) rc st t tr tr' ms ev c :
  let _ := upcalls (S depth) in
  attached st tr c -> can_leave st tr c -> same_trans tr tr' ->
  m st = emits ev ((leave t (t_subscr tr);; mret rc) (view st t tr' None ms)) ->
  exists st' ev', m st = Some (rc, st', ev') /\ gone t st' /\ outs c ev' = outs c ev.
Proof.
  intros up A Hl Hs Hm. destruct (leave_quiet depth st t tr c tr' ms A Hl Hs) as ([] & st' & ev' & Hrun & Ho & Hg).
  exists st', (ev ++ ev'). split_and!; [|done|by rewrite outs_app, Ho, app_nil_r].
  rewrite Hm. unfold up. rewrite (run_bind _ _ _ _ _ _ Hrun). cbn. by rewrite app_nil_r.
Qed.


(** [n] times the timer of [t] expires, and nothing else is heard of the call. *)
Fixpoint expire_times {env : MscEnv} {up : Upcalls} (n : nat) (t : nat) : MS Z :=
  match n with O => mret 0 | S n => cc_expires t;; expire_times n t end.

(** How many expiries a call with a timer survives. *)
Definition patience (c : cc_call) : nat :=
  match cl_state c with
  | GSM_CSTATE_RELEASE_REQ => if cl_second c then 0 else 1
  | GSM_CSTATE_CALL_PRESENT | GSM_CSTATE_DISCONNECT_IND => 2
  | _ => 3
  end.
Lemma expire_patience c :
  call_ok c -> is_Some (cl_timer c) ->
  match fst (cc_expire c) with
  | Some c' => is_Some (cl_timer c') /\ patience c = S (patience c')
  | None => patience c = 0%nat
  end.
Proof.
  destruct c as [s r tm b]. unfold call_ok. cbn [cl_state cl_ref cl_timer]. intros [-> _] Ht.
  destruct s, b; first [by destruct Ht | cbn; decide_closed; cbn; by eauto].
Qed.

(** C15: A call of which nothing more is heard ends. Whatever the state of the call is, if its timer runs
    then it expires at most four times: after [patience] expiries (at most three), by way of
    DISCONNECT, RELEASE and a second RELEASE, the transaction is still there and its timer runs; the next
    expiry comes to its end and the transaction is freed: in no list, without a timer, its memory given back.
    The transaction and its connection each have a reference to the subscriber, and paging can start for a
    channel request of the subscriber that waits for the channel, if there is one. *)
Theorem silent_call_ends {env : MscEnv} depth st t tr c :
  let _ := upcalls (S depth) in
  mncc_internal = false -> mncc_msgb_ok = true -> (forall m, cc_mt_of (cc_mt_octet m) = Some m) ->
  transs st !! t = Some tr -> protocol tr = GSM48_PDISC_CC -> attached st tr c ->
  can_leave st tr c -> call_ok (abs tr (cc_timers st !! t)) -> is_Some (cc_timers st !! t) ->
  let n := patience (abs tr (cc_timers st !! t)) in
  (n <= 3)%nat
  /\ exists rc st' ev,
       expire_times n t st = Some (rc, st', ev) /\ is_Some (transs st' !! t) /\ is_Some (cc_timers st' !! t)
       /\ exists rc' st'' ev', cc_expires t st' = Some (rc', st'', ev') /\ gone t st''.
Proof.
  intros up Hi Hm Hc. pose proof (socket_listens depth Hi Hm Hc) as lis.
  intros Ht Hp A Hl Hok Hd n. split; [unfold n, patience; by repeat case_match; lia|]. subst n. revert Ht Hp A Hl Hok Hd.
  remember (patience (abs tr (cc_timers st !! t))) as n eqn:En. revert st tr En.
  induction n as [|n IH]; intros st tr En Ht Hp A Hl Hok [d Hd].
  all: pose proof (occurs_runs st t tr c Expiry (cc_expires t) Ht Hp A (occurs_expiry _ _ _ _ d Hd)) as Hrun;
    pose proof (cc_step_ok Expiry _ Hok) as Hok';
    pose proof (expire_patience (abs tr (cc_timers st !! t)) Hok ltac:(rewrite Hd; by eexists)) as Hpat;
    unfold call_runs in Hrun; unfold result_ok in Hok'; cbn [cc_step] in Hrun, Hok'.
  all: destruct (fst (cc_expire (abs tr (cc_timers st !! t)))) as [call|] eqn:E.
  - destruct Hpat as [_ Hpat]. lia.
  - exists 0, st, []. split_and!; [done|by eexists|by eexists|]. destruct Hrun as (rc & tr' & ms & ev & Hrun & _ & Hs & _).
    destruct (leave_runs depth _ rc st t tr tr' ms ev c A Hl Hs Hrun) as (st' & ev' & Hm' & Hg & _). by exists rc, st', ev'.
  - destruct Hrun as (rc & tr' & tm' & ms & ev & Hrun & Habs & _ & Hs). destruct Hpat as [[T Htm] Hpat].
    assert (abs tr' (cc_timers (view st t tr' tm' ms) !! t) = call) as Ha by (by rewrite view_timers).
    destruct (IH (view st t tr' tm' ms) tr') as (rc2 & st2 & ev2 & Hrun2 & Hgone).
    + rewrite Ha. lia.
    + cbn. by rewrite lookup_insert_eq.
    + destruct Hs as (-> & _). done.
    + by apply view_attached, (attached_same _ tr).
    + destruct Hs as (_ & _ & Es & _). by apply (view_can_leave _ _ _ _ _ tr).
    + by rewrite Ha.
    + rewrite view_timers. rewrite <-Habs in Htm. cbn in Htm. destruct tm'; [by eexists|done].
    + exists rc2, st2, (ev ++ ev2). split.
      * cbn [expire_times]. by rewrite (run_bind _ _ _ _ _ _ Hrun), Hrun2.
      * done.
  - lia.
Qed.

(** ** A call of subscriber 1 *)

Lemma demo_octets internal a5 m : let _ := demo_env internal a5 in cc_mt_of (cc_mt_octet m) = Some m.
Proof. by destruct m. Qed.
Lemma demo_trans_at : transs demo_call !! 2%nat = Some demo_trans.
Proof. by vm_compute. Qed.
Lemma demo_attached : attached demo_call demo_trans 0.
Proof.
  split; [done| |exists (default subscr_zero (subscrs demo_call !! 1%nat)); by vm_compute|by vm_compute].
  exists (default demo_conn (conns demo_call !! 0%nat)), (mk_gsm_lchan GSM_LCHAN_TCH_F 0 0 false).
  split; by vm_compute.
Qed.
Lemma demo_can_leave : can_leave demo_call demo_trans 0.
Proof.
  split; cbn [demo_trans t_subscr upd upd_t_conn upd_cc_state upd_Tcurrent trans_new].
  - intros cn Hcn. vm_compute in Hcn. by injection Hcn as <-.
  - intros s Hs. vm_compute in Hs. injection Hs as <-. by vm_compute.
  - intros cn s Hcn Hs _ Hr. exfalso. apply Hr. vm_compute in Hs. by injection Hs as <-.
Qed.
Lemma demo_timer : cc_timers demo_call !! 2%nat = Some (30, 0).
Proof. by vm_compute. Qed.
Lemma demo_call_ok : call_ok (abs demo_trans (cc_timers demo_call !! 2%nat)).
Proof. rewrite demo_timer. by split. Qed.



(** Nothing is heard of it any more: T313, T306, T308 and T308 again. *)
Lemma silent_call_ends_witness :
  let _ := demo_env false 0 in let _ := upcalls 1 in
  (3 <= 3)%nat
  /\ exists rc st' ev,
       expire_times 3 2 demo_call = Some (rc, st', ev) /\ is_Some (transs st' !! 2%nat) /\ is_Some (cc_timers st' !! 2%nat)
       /\ exists rc' st'' ev', cc_expires 2 st' = Some (rc', st'', ev') /\ gone 2 st''.
Proof.
  exact (silent_call_ends (env := demo_env false 0) 0 demo_call 2 demo_trans 0 eq_refl eq_refl
           (demo_octets false 0) demo_trans_at eq_refl demo_attached demo_can_leave demo_call_ok
           (ex_intro _ (30, 0) demo_timer)).
Defined.

(** ** Transaction identifiers *)

(** A transaction of the list with this subscriber and protocol has the identifier [j]. *)
Definition tid_used (subscr : nat) (proto : gsm48_pdisc) (j : Z) (st : msc_state) : Prop :=
  exists t tr, t ∈ trans_list st /\ transs st !! t = Some tr /\ t_subscr tr = subscr /\ protocol tr = proto
               /\ transaction_id tr = j.

Lemma tst_bit mask j : 0 <= j -> tst mask (1 .<< j) = Z.testbit mask j.
Proof.
  intros Hj. unfold tst. rewrite Z.shiftl_1_l.
  assert (mask .& 2 ^ j = if Z.testbit mask j then 2 ^ j else 0) as ->.
  { apply Z.bits_inj'. intros n Hn. rewrite Z.land_spec, Z.pow2_bits_eqb by done.
    destruct (Z.eqb_spec j n) as [<-|Hne]; [rewrite andb_true_r|rewrite andb_false_r].
    - destruct (Z.testbit mask j); [by rewrite Z.pow2_bits_true|by rewrite Z.bits_0].
    - destruct (Z.testbit mask j); [by rewrite Z.pow2_bits_false by lia|by rewrite Z.bits_0]. }
  destruct (Z.testbit mask j); [|done]. destruct (Z.eqb_spec (2 ^ j) 0) as [E|]; [|done].
  pose proof (Z.pow_pos_nonneg 2 j). lia.
Qed.

(** The transaction is not one that counts. *)
Ltac no_other := split; [by left|intros [?|(? & [=] & ? & ? & ?)]; first [done|subst; congruence]].

Lemma bitmask_bits (st : msc_state) (subscr : nat) (proto : gsm48_pdisc) (j : Z) (l : list nat) (acc : Z) :
  0 <= j -> j <> 0xff ->
  Z.testbit (foldl (fun mask id =>
    match transs st !! id with
    | Some t =>
        if bool_decide (t_subscr t <> subscr) || bool_decide (protocol t <> proto) || (transaction_id t =? 0xff)
        then mask else mask .| (1 .<< transaction_id t)
    | None => mask
    end) acc l) j = true
  <-> Z.testbit acc j = true
      \/ exists t tr, t ∈ l /\ transs st !! t = Some tr /\ t_subscr tr = subscr /\ protocol tr = proto
                      /\ transaction_id tr = j.
Proof.
  intros Hj Hff. revert acc. induction l as [|id l IH]; intros acc; cbn.
  { split; [by left|]. intros [H|(t & tr & Ht & _)]; [done|by apply not_elem_of_nil in Ht]. }
  rewrite IH. clear IH. setoid_rewrite elem_of_cons.
  assert (Z.testbit match transs st !! id with
    | Some t => if bool_decide (t_subscr t <> subscr) || bool_decide (protocol t <> proto) || (transaction_id t =? 0xff)
                then acc else acc .| (1 .<< transaction_id t)
    | None => acc end j = true
    <-> Z.testbit acc j = true \/ exists tr, transs st !! id = Some tr /\ t_subscr tr = subscr /\ protocol tr = proto
                                          /\ transaction_id tr = j) as ->.
  2:{ split.
      - intros [[H|(tr & H)]|(t & tr & Hin & H)]; [by left|right..].
        + exists id, tr. by split; [left|].
        + exists t, tr. by split; [right|].
      - intros [H|(t & tr & [->|Hin] & H)]; [by do 2 left|left; right; by exists tr|right; by exists t, tr]. }
  destruct (transs st !! id) as [tr|]; [|no_other].
  destruct (decide (t_subscr tr = subscr)) as [Es|Es]; [rewrite bool_decide_eq_false_2 by auto|
    rewrite bool_decide_eq_true_2 by done; cbn [orb]; no_other].
  destruct (decide (protocol tr = proto)) as [Ep|Ep]; [rewrite bool_decide_eq_false_2 by auto|
    rewrite bool_decide_eq_true_2 by done; cbn [orb]; no_other].
  destruct (Z.eqb_spec (transaction_id tr) 0xff) as [Ef|Ef]; cbn [orb]; [no_other|].
  rewrite Z.lor_spec, orb_true_iff. destruct (decide (transaction_id tr = j)) as [<-|Hne].
  { rewrite Z.shiftl_1_l, Z.pow2_bits_true by done. split; intros _; right; [by exists tr|done]. }
  assert (Z.testbit (1 .<< transaction_id tr) j = false) as ->.
  { destruct (Z.le_gt_cases 0 (transaction_id tr)).
    - rewrite Z.shiftl_1_l. by apply Z.pow2_bits_false.
    - rewrite Z.shiftl_spec by done. apply Z.bits_above_log2; [done|]. cbn. lia. }
  split; [by intros [|]; [left|]|intros [|(tr' & [= <-] & _ & _ & ?)]; [by left|congruence]].
Qed.

(** The flag of 04.07, 11.2.3.1.3: who allocated the identifier. *)
Definition flag_of (ti_flag : Z) : Z := if ti_flag =? 0 then 0 else 0x8.

Lemma tid_search_spec mask f h i n :
  let j k := Z.of_nat ((h + k) mod 7) .| f in
  (tid_search mask f h i n = -1 /\ forall k, (i <= k < i + n)%nat -> tst mask (1 .<< j k) = true)
  \/ (exists k, (i <= k < i + n)%nat /\ tid_search mask f h i n = j k /\ tst mask (1 .<< j k) = false
               /\ forall k', (i <= k' < k)%nat -> tst mask (1 .<< j k') = true).
Proof.
  intros j. revert i. induction n as [|n IH]; intros i; cbn [tid_search]; [left; split; [done|lia]|].
  fold (j i). destruct (tst mask (1 .<< j i)) eqn:E; cbn [negb].
  - destruct (IH (S i)) as [(-> & H)|(k & Hk & -> & Hf & H)].
    + left. split; [done|]. intros k Hk. destruct (decide (k = i)) as [->|]; [done|apply H; lia].
    + right. exists k. split_and!; [lia|lia|done|done|].
      intros k' Hk'. destruct (decide (k' = i)) as [->|]; [done|apply H; lia].
  - right. exists i. split_and!; [lia|lia|done|done|lia].
Qed.

(** C25: [trans_assign_trans_id] finds a free transaction identifier when there is one. Either it
    returns -1, and all seven identifiers of the side that allocates are in use by transactions of
    this subscriber and protocol; or it returns one of them that no transaction of the list uses,
    so that two calls of a subscriber never share one. *)
Theorem trans_id_free {env : MscEnv} subscr proto ti_flag st :
  let j := trans_assign_trans_id subscr proto ti_flag st in
  (j = -1 /\ forall i, 0 <= i < 7 -> tid_used subscr proto (i .| flag_of ti_flag) st)
  \/ (exists i, 0 <= i < 7 /\ j = i .| flag_of ti_flag /\ ~ tid_used subscr proto j st).
Proof.
  intros j. unfold j, trans_assign_trans_id. fold (flag_of ti_flag). set (f := flag_of ti_flag).
  set (mask := used_tid_bitmask subscr proto st). set (h := tid_last mask f 6).
  assert (forall i, 0 <= i < 7 -> 0 <= i .| f /\ i .| f <> 0xff) as Hrange.
  { intros i Hi. assert (f = 0 \/ f = 8) as Hf by (unfold f, flag_of; destruct (_ =? 0); auto).
    assert (i = 0 \/ i = 1 \/ i = 2 \/ i = 3 \/ i = 4 \/ i = 5 \/ i = 6) as Hi' by lia.
    destruct Hf as [-> | ->], Hi' as [->|[->|[->|[->|[->|[-> | ->]]]]]]; by vm_compute. }
  assert (forall i, 0 <= i < 7 -> tst mask (1 .<< (i .| f)) = true <-> tid_used subscr proto (i .| f) st) as Hused.
  { intros i Hi. destruct (Hrange i Hi) as [H0 Hff]. rewrite tst_bit by done. unfold mask, used_tid_bitmask.
    rewrite bitmask_bits by done. rewrite Z.bits_0. split; [by intros [|]|by right]. }
  assert (forall k, 0 <= Z.of_nat ((h + k) mod 7) < 7) as Hmod.
  { intros k. pose proof (Nat.mod_upper_bound (h + k) 7). lia. }
  destruct (tid_search_spec mask f h 0 7) as [(-> & H)|(k & Hk & -> & Hf & _)].
  - left. split; [done|]. intros i Hi. apply Hused; [done|].
    assert (exists k, (k < 7)%nat /\ Z.of_nat ((h + k) mod 7) = i) as (k & Hk & <-); [|apply H; lia].
    exists (Z.to_nat ((i - Z.of_nat h) mod 7)). split; [pose proof (Z.mod_pos_bound (i - Z.of_nat h) 7); lia|].
    rewrite Nat2Z.inj_mod, Nat2Z.inj_add, Z2Nat.id by (apply Z.mod_pos_bound; lia).
    rewrite Zplus_mod_idemp_r. replace (Z.of_nat h + (i - Z.of_nat h)) with i by lia. by apply Z.mod_small.
  - right. exists (Z.of_nat ((h + k) mod 7)). split_and!; [apply Hmod|apply Hmod|done|].
    intros Hu. apply Hused in Hu; [congruence|apply Hmod].
Qed.

End CcProps.
