(* ===== verification/Trau.v ===== *)
(** The switching of TRAU frames between E1 sub-slots and the MNCC application (libtrau/trau_mux.c).

    Two lists: [ss_map] joins sub-slots in pairs, [ss_upqueue] names the sub-slots whose speech goes to
    the application, with the call it belongs to. The coding of TRAU frames and the multiplexers of
    the E1 lines belong to libosmo-abis and are parameters ([TrauEnv]). *)

From S2P Require Import Prelude Msc.
Import Msc.

Module Trau.

(** The bit-lengths of the parameters of the full rate codec (TS 06.10, table 1.1). *)
Definition gsm_fr_map : list Z := [
  6; 6; 5; 5; 4; 4; 3; 3;
  7; 2; 2; 6; 3; 3; 3; 3;
  3; 3; 3; 3; 3; 3; 3; 3;
  3; 7; 2; 2; 6; 3; 3; 3;
  3; 3; 3; 3; 3; 3; 3; 3;
  3; 3; 7; 2; 2; 6; 3; 3;
  3; 3; 3; 3; 3; 3; 3; 3;
  3; 3; 3; 7; 2; 2; 6; 3;
  3; 3; 3; 3; 3; 3; 3; 3;
  3; 3; 3; 3 ].

(** A sub-slot of 16 kbit/s in a time slot of an E1 line. *)
Record gsm_e1_subslot : Type := mk_gsm_e1_subslot {
  e1_nr : Z;
  e1_ts : Z;
  e1_ts_ss : Z
}.

#[export] Instance upd_e1_nr : Upd e1_nr := fun f r => mk_gsm_e1_subslot (f (e1_nr r)) (e1_ts r)
  (e1_ts_ss r).
#[export] Instance upd_e1_ts : Upd e1_ts := fun f r => mk_gsm_e1_subslot (e1_nr r) (f (e1_ts r))
  (e1_ts_ss r).
#[export] Instance upd_e1_ts_ss : Upd e1_ts_ss := fun f r => mk_gsm_e1_subslot (e1_nr r) (e1_ts
  r) (f (e1_ts_ss r)).
#[export] Instance gsm_e1_subslot_eq_dec : EqDecision gsm_e1_subslot.
Proof. solve_decision. Defined.

Record map_entry : Type := mk_map_entry {
  me_src : gsm_e1_subslot;
  me_dst : gsm_e1_subslot
}.

#[export] Instance upd_me_src : Upd me_src := fun f r => mk_map_entry (f (me_src r)) (me_dst r).
#[export] Instance upd_me_dst : Upd me_dst := fun f r => mk_map_entry (me_src r) (f (me_dst r)).

Record upqueue_entry : Type := mk_upqueue_entry {
  ue_net : nat;
  ue_src : gsm_e1_subslot;
  ue_callref : Z
}.

#[export] Instance upd_ue_net : Upd ue_net := fun f r => mk_upqueue_entry (f (ue_net r)) (ue_src
  r) (ue_callref r).
#[export] Instance upd_ue_src : Upd ue_src := fun f r => mk_upqueue_entry (ue_net r) (f (ue_src
  r)) (ue_callref r).
#[export] Instance upd_ue_callref : Upd ue_callref := fun f r => mk_upqueue_entry (ue_net r)
  (ue_src r) (f (ue_callref r)).

Record trau_state : Type := mk_trau_state {
  ss_map : list map_entry;
  ss_upqueue : list upqueue_entry
}.

#[export] Instance upd_ss_map : Upd ss_map := fun f r => mk_trau_state (f (ss_map r))
  (ss_upqueue r).
#[export] Instance upd_ss_upqueue : Upd ss_upqueue := fun f r => mk_trau_state (ss_map r) (f
  (ss_upqueue r)).

Record gsm_data_frame : Type := mk_gsm_data_frame {
  msg_type : Z;
  callref : Z;
  frame_data : list Z
}.

#[export] Instance upd_msg_type : Upd msg_type := fun f r => mk_gsm_data_frame (f (msg_type r))
  (callref r) (frame_data r).
#[export] Instance upd_callref : Upd callref := fun f r => mk_gsm_data_frame (msg_type r) (f
  (callref r)) (frame_data r).
#[export] Instance upd_frame_data : Upd frame_data := fun f r => mk_gsm_data_frame (msg_type r)
  (callref r) (f (frame_data r)).

(** The bits of a TRAU frame of libosmo-abis that the code reads or writes. *)
Record decoded_trau_frame : Type := mk_decoded_trau_frame {
  c_bits : list Z;
  d_bits : list Z;
  t_bits : list Z
}.

#[export] Instance upd_c_bits : Upd c_bits := fun f r => mk_decoded_trau_frame (f (c_bits r))
  (d_bits r) (t_bits r).
#[export] Instance upd_d_bits : Upd d_bits := fun f r => mk_decoded_trau_frame (c_bits r) (f
  (d_bits r)) (t_bits r).
#[export] Instance upd_t_bits : Upd t_bits := fun f r => mk_decoded_trau_frame (c_bits r)
  (d_bits r) (f (t_bits r)).

Inductive trau_event : Type :=
| EvMux (mx : nat) (ss : Z) (bits : list Z)              (* subchan_mux_enqueue *)
| EvToMncc (net : nat) (frame : gsm_data_frame).         (* trau_tx_to_mncc *)

Class TrauEnv : Type := {
  decode_trau_frame : list Z -> Z * decoded_trau_frame;  (* return code and frame *)
  encode_trau_frame : decoded_trau_frame -> list Z;
  trau_frame_up2down : decoded_trau_frame -> decoded_trau_frame;
  e1inp_get_mux : Z -> Z -> option nat;                  (* line, time slot *)
  subchan_mux_enqueue : nat -> Z -> list Z -> Z          (* return code *)
}.

Abbreviation TM := (M trau_state trau_event).

(** [llist_del] of the first element that satisfies [f]. *)
Fixpoint del_first {A} (f : A -> bool) (l : list A) : option (list A) :=
  match l with
  | [] => None
  | x :: l => if f x then Some l else (x ::.) <$> del_first f l
  end.

Definition me_has (ss : gsm_e1_subslot) (me : map_entry) : bool :=
  bool_decide (me_src me = ss) || bool_decide (me_dst me = ss).
Definition ue_has (ss : option gsm_e1_subslot) (cref : Z) (ue : upqueue_entry) : bool :=
  (ue_callref ue =? cref) || match ss with Some s => bool_decide (ue_src ue = s) | None => false end.

Definition trau_mux_unmap (ss : option gsm_e1_subslot) (cref : Z) : TM Z :=
  m ← gets (fun st => s ← ss; del_first (me_has s) (ss_map st));
  match m with
  | Some l => modify (fun st => st <| ss_map := l |>);; mret 0
  | None =>
      q ← gets (fun st => del_first (ue_has ss cref) (ss_upqueue st));
      match q with
      | Some l => modify (fun st => st <| ss_upqueue := l |>);; mret 0
      | None => mret (- ENOENT)
      end
  end.

(** [mem]: there is memory for the entry. *)
Definition trau_mux_map (mem : bool) (src dst : gsm_e1_subslot) : TM Z :=
  if negb mem then mret (- ENOMEM)
  else
    trau_mux_unmap (Some src) 0;;
    trau_mux_unmap (Some dst) 0;;
    modify (fun st => st <| ss_map ::= cons (mk_map_entry src dst) |>);;
    mret 0.

(** A channel is given by the link of its time slot. *)
Definition trau_mux_map_lchan (mem : bool) (src_link dst_link : gsm_e1_subslot) : TM Z :=
  trau_mux_map mem src_link dst_link.

Fixpoint lookup_map (src : gsm_e1_subslot) (l : list map_entry) : option gsm_e1_subslot :=
  match l with
  | [] => None
  | me :: l =>
      if bool_decide (me_src me = src) then Some (me_dst me)
      else if bool_decide (me_dst me = src) then Some (me_src me)
      else lookup_map src l
  end.
Definition lookup_trau_mux_map (src : gsm_e1_subslot) (st : trau_state) : option gsm_e1_subslot :=
  lookup_map src (ss_map st).
Definition lookup_trau_upqueue (src : gsm_e1_subslot) (st : trau_state) : option upqueue_entry :=
  List.find (fun ue => bool_decide (ue_src ue = src)) (ss_upqueue st).

(** ** The bits of a speech frame *)

(** The loop that collects the bits of the parameters: [n] turns are left, [j] counts output bits, [k]
    is the current bit of the element [l], which starts at bit [o]. *)
Fixpoint reassemble (n : nat) (j k l o : Z) (d data : list Z) : list Z :=
  match n with
  | O => data
  | S n =>
      let data := alter (fun x => u8 (x .| (rdz d (k + o) .<< (7 - j mod 8)))) (Z.to_nat (j / 8)) data in
      let k := k - 1 in
      if k <? 0 then
        let o := o + rdz gsm_fr_map l in
        let l := l + 1 in
        reassemble n (j + 1) (rdz gsm_fr_map l - 1) l o d data
      else reassemble n (j + 1) k l o d data
  end.

(** The same walk in the other direction: [j] counts input bits. *)
Fixpoint disassemble (n : nat) (j k l o : Z) (data d : list Z) : list Z :=
  match n with
  | O => d
  | S n =>
      let d := <[Z.to_nat (k + o) := (rdz data (j / 8) .>> (7 - j mod 8)) .& 1]> d in
      let k := k - 1 in
      if k <? 0 then
        let o := o + rdz gsm_fr_map l in
        let l := l + 1 in
        disassemble n (j + 1) (rdz gsm_fr_map l - 1) l o data d
      else disassemble n (j + 1) k l o data d
  end.

Section mux.
Context `{TrauEnv}.

(** [mem]: the 33 octets after the header of the message that is allocated. *)
Definition trau_mux_input (mem : option (list Z)) (src_e1_ss : gsm_e1_subslot) (trau_bits : list Z) : TM Z :=
  dst_e1_ss ← gets (lookup_trau_mux_map src_e1_ss);
  let '(rc, tf) := decode_trau_frame trau_bits in
  if negb (rc =? 0) then mret rc
  else
    match dst_e1_ss with
    | None =>
        ue ← gets (lookup_trau_upqueue src_e1_ss);
        match ue with
        | None => mret (- EINVAL)
        | Some ue =>
            if ue_callref ue =? 0 then mret (- EINVAL)
            else
              match mem with
              | None => mret (- ENOMEM)
              | Some data =>
                  let data := <[0%nat := u8 (0xd .<< 4)]> data in
                  let data := reassemble 260 4 (rdz gsm_fr_map 0 - 1) 0 0 (d_bits tf) data in
                  emit (EvToMncc (ue_net ue) (mk_gsm_data_frame GSM_TCHF_FRAME (ue_callref ue) data));;
                  mret 0
              end
        end
    | Some dst =>
        match e1inp_get_mux (e1_nr dst) (e1_ts dst) with
        | None => mret (- EINVAL)
        | Some mx =>
            let bits := encode_trau_frame (trau_frame_up2down tf) in
            emit (EvMux mx (e1_ts_ss dst) bits);;
            mret (subchan_mux_enqueue mx (e1_ts_ss dst) bits)
        end
    end.

(** [line], [num]: the E1 line and the time slot the frame was received in. *)
Definition subch_cb (mem : option (list Z)) (line num ch : Z) (data : list Z) : TM Z :=
  trau_mux_input mem (mk_gsm_e1_subslot (u8 line) (u8 num) (u8 ch)) data.

Definition trau_recv_lchan (mem : bool) (net : nat) (src_ss : gsm_e1_subslot) (cref : Z) : TM Z :=
  if negb mem then mret (- ENOMEM)
  else
    trau_mux_unmap (Some src_ss) cref;;
    modify (fun st => st <| ss_upqueue ::= cons (mk_upqueue_entry net src_ss cref) |>);;
    mret 0.

(** The control and the time alignment bits of a downlink full rate frame; [old] is what the frame on
    the stack held. *)
Definition downlink_c_bits (old : list Z) : list Z :=
  [1; 1; 1; 0; 0] ++ replicate 6 0 ++ replicate 10 1 ++ drop 21 old.
Definition downlink_t_bits (old : list Z) : list Z := replicate 4 1 ++ drop 4 old.

Definition trau_send_frame (stack : decoded_trau_frame) (dst_e1_ss : gsm_e1_subslot) (frame : gsm_data_frame)
    : TM Z :=
  match e1inp_get_mux (e1_nr dst_e1_ss) (e1_ts dst_e1_ss) with
  | None => mret (- EINVAL)
  | Some mx =>
      if msg_type frame =? GSM_TCHF_FRAME then
        let tf := stack
          <| c_bits ::= downlink_c_bits |>
          <| t_bits ::= downlink_t_bits |>
          <| d_bits ::= disassemble 260 4 (rdz gsm_fr_map 0 - 1) 0 0 (frame_data frame) |> in
        let bits := encode_trau_frame tf in
        emit (EvMux mx (e1_ts_ss dst_e1_ss) bits);;
        mret (subchan_mux_enqueue mx (e1_ts_ss dst_e1_ss) bits)
      else mret (- EINVAL)
  end.

(** ** Everything that happens to the two lists *)

Inductive trau_op : Type :=
| OpMap (mem : bool) (src dst : gsm_e1_subslot)
| OpUnmap (ss : option gsm_e1_subslot) (cref : Z)
| OpRecv (mem : bool) (net : nat) (src : gsm_e1_subslot) (cref : Z)
| OpInput (mem : option (list Z)) (line num ch : Z) (bits : list Z)
| OpSend (stack : decoded_trau_frame) (dst : gsm_e1_subslot) (frame : gsm_data_frame).

Definition trau_step (op : trau_op) : TM Z :=
  match op with
  | OpMap mem src dst => trau_mux_map_lchan mem src dst
  | OpUnmap ss cref => trau_mux_unmap ss cref
  | OpRecv mem net src cref => trau_recv_lchan mem net src cref
  | OpInput mem line num ch bits => subch_cb mem line num ch bits
  | OpSend stack dst frame => trau_send_frame stack dst frame
  end.

Fixpoint trau_steps (ops : list trau_op) : TM unit :=
  match ops with
  | [] => mret tt
  | op :: ops => trau_step op;; trau_steps ops
  end.

Definition trau_init : trau_state := mk_trau_state [] [].
Definition trau_reachable (st : trau_state) : Prop :=
  exists ops ev, trau_steps ops trau_init = Some (tt, st, ev).

End mux.
End Trau.
