(* ===== verification/TrauProps.v ===== *)
(** What the switching of TRAU frames guarantees: the map joins sub-slots in disjoint pairs, and the
    speech bits of the application come out as they went in. *)

From S2P Require Import Prelude Msc Trau.
Import Msc Trau.

Module TrauProps.

(** ** The first element that satisfies a test *)

Lemma del_first_sublist {A} (f : A -> bool) l l' : del_first f l = Some l' -> l' `sublist_of` l.
Proof.
  revert l'. induction l as [|x l IH]; intros l'; cbn; [done|]. destruct (f x); [intros [= <-]; by constructor|].
  destruct (del_first f l) as [k|]; [|done]. intros [= <-]. apply sublist_skip. by apply IH.
Qed.
Lemma del_first_none {A} (f : A -> bool) l : del_first f l = None -> Forall (fun x => f x = false) l.
Proof.
  induction l as [|x l IH]; cbn; [by constructor|]. destruct (f x) eqn:E; [done|].
  destruct (del_first f l); [done|]. constructor; auto.
Qed.

(** ** The map is a matching *)

(** The sub-slots of an entry, and those of the map. *)
Definition ends (me : map_entry) : list gsm_e1_subslot :=
  if decide (me_src me = me_dst me) then [me_src me] else [me_src me; me_dst me].
Definition slots (l : list map_entry) : list gsm_e1_subslot := l ≫= ends.
#[local] Arguments slots : simpl never.

(** Every sub-slot belongs to one entry at most. *)
Definition matching (st : trau_state) : Prop := NoDup (slots (ss_map st)).

Lemma elem_ends x me : x ∈ ends me <-> me_src me = x \/ me_dst me = x.
Proof. unfold ends. case_decide as E; rewrite !elem_of_cons, elem_of_nil; intuition congruence. Qed.
Lemma me_has_true x me : me_has x me = true <-> x ∈ ends me.
Proof. rewrite elem_ends. unfold me_has. by rewrite orb_true_iff, !bool_decide_eq_true. Qed.

Lemma slots_cons me l : slots (me :: l) = ends me ++ slots l.
Proof. done. Qed.

Lemma del_first_none_slots x l : del_first (me_has x) l = None -> x ∉ slots l.
Proof.
  intros Hl%del_first_none. induction Hl as [|me l Hx _ IH]; [by apply not_elem_of_nil|].
  rewrite slots_cons, elem_of_app, <-me_has_true. intros [|]; [congruence|done].
Qed.

(** Removing the entry of [x]: [x] and its partner are free, the others stay. *)
Lemma del_first_slots x l l' :
  NoDup (slots l) -> del_first (me_has x) l = Some l' ->
  NoDup (slots l') /\ (x ∉ slots l') /\
  (forall y, lookup_map y l' = if decide (y = x \/ lookup_map y l = Some x) then None else lookup_map y l).
Proof.
  revert l'. induction l as [|me l IH]; intros l' Hnd; cbn; [done|].
  rewrite slots_cons in Hnd. apply NoDup_app in Hnd as (He & Hdisj & Hl).
  assert (forall y k, lookup_map y l = Some k -> y ∈ slots l /\ k ∈ slots l) as Hin.
  { clear. intros y k. induction l as [|me l IH]; cbn; [done|]. rewrite slots_cons, !elem_of_app, !elem_ends.
    repeat case_bool_decide; [intros [= <-]; auto..|]. intros Hy. destruct (IH Hy). auto. }
  assert (forall y, y ∉ slots l -> lookup_map y l = None) as Hnone.
  { intros y Hy. destruct (lookup_map y l) eqn:E; [|done]. by destruct (Hin _ _ E). }
  destruct (me_has x me) eqn:Ex.
  - intros [= <-]. apply me_has_true in Ex. split_and!; [done|by apply Hdisj|]. intros y.
    assert (forall z, me_src me = z \/ me_dst me = z -> z ∉ slots l) as Hz.
    { intros z ?. apply Hdisj. by apply elem_ends. }
    assert (forall k, lookup_map y l = Some k -> k <> x /\ y <> x) as Hk.
    { intros k [? ?]%Hin. split; intros ->; by apply (Hdisj x). }
    apply elem_ends in Ex.
    repeat case_bool_decide; case_decide as D; try done;
      [apply Hnone, Hz; tauto | exfalso; intuition congruence | apply Hnone, Hz; tauto
      | exfalso; intuition congruence |].
    destruct D as [->|D]; [intuition congruence|]. by destruct (Hk _ D).
  - destruct (del_first (me_has x) l) as [k|] eqn:E; [|done]. cbn. intros [= <-].
    destruct (IH k Hl eq_refl) as (Hk & Hx & Hlk). rewrite slots_cons.
    assert (x ∉ ends me) as Hxe by (rewrite <-me_has_true; congruence).
    split_and!.
    + apply NoDup_app. split_and!; [done| |done]. intros y Hy1 Hy2. apply (Hdisj y Hy1).
      apply del_first_sublist in E. revert Hy2. clear -E. unfold slots. rewrite !list_elem_of_bind.
      intros (me & H & Hme). exists me. split; [done|]. by eapply sublist_subseteq.
    + rewrite elem_of_app. tauto.
    + intros y. cbn. rewrite elem_ends in Hxe. rewrite Hlk.
      repeat case_bool_decide; subst; repeat case_decide; intuition congruence.
Qed.

Lemma lookup_map_slots x y l : lookup_map x l = Some y -> x ∈ slots l.
Proof.
  induction l as [|me l IH]; cbn; [done|]. rewrite slots_cons, elem_of_app, elem_ends.
  repeat case_bool_decide; auto.
Qed.
Lemma slots_lookup_map x l : x ∈ slots l -> exists y, lookup_map x l = Some y.
Proof.
  induction l as [|me l IH]; [by intros ?%elem_of_nil|]. rewrite slots_cons, elem_of_app, elem_ends. cbn.
  intros H. repeat case_bool_decide; try by eexists. destruct H as [[|]|H]; [congruence..|by apply IH].
Qed.
Lemma lookup_map_none x l : x ∉ slots l -> lookup_map x l = None.
Proof. intros Hx. destruct (lookup_map x l) as [y|] eqn:E; [|done]. by apply lookup_map_slots in E. Qed.
Lemma lookup_map_sym x y l : NoDup (slots l) -> lookup_map x l = Some y -> lookup_map y l = Some x.
Proof.
  induction l as [|me l IH]; [done|]. rewrite slots_cons. intros (_ & Hdisj & Hl)%NoDup_app. cbn.
  assert (forall z, me_src me = z \/ me_dst me = z -> z ∉ slots l) as Hz.
  { intros z ?. by apply Hdisj, elem_ends. }
  repeat case_bool_decide; intros E; try congruence; try by apply IH.
  all: specialize (IH Hl E); apply lookup_map_slots in IH; exfalso; revert IH; apply Hz; auto.
Qed.

(** What taking a sub-slot out of the map does, whether or not it was in there. *)
Lemma unmap_spec x cref st :
  matching st ->
  exists rc st', trau_mux_unmap (Some x) cref st = Some (rc, st', []) /\ matching st'
    /\ (x ∉ slots (ss_map st'))
    /\ forall y, lookup_trau_mux_map y st' =
         if decide (y = x \/ lookup_trau_mux_map y st = Some x) then None else lookup_trau_mux_map y st.
Proof.
  intros Hm. unfold trau_mux_unmap. rewrite run_gets. cbn [mbind option_bind].
  destruct (del_first (me_has x) (ss_map st)) as [l|] eqn:E.
  - rewrite run_modify. destruct (del_first_slots x _ l Hm E) as (H1 & H2 & H3).
    exists 0, (st <| ss_map := l |>). by split_and!.
  - apply del_first_none_slots in E.
    assert (forall y, lookup_trau_mux_map y st =
      if decide (y = x \/ lookup_trau_mux_map y st = Some x) then None else lookup_trau_mux_map y st) as Hy.
    { intros y. case_decide as D; [|done]. destruct D as [->|D]; [by apply lookup_map_none|].
      apply lookup_map_sym, lookup_map_slots in D; done. }
    rewrite run_gets. destruct (del_first (ue_has (Some x) cref) (ss_upqueue st)) as [q|];
      [rewrite run_modify; exists 0, (st <| ss_upqueue := q |>)|exists (- ENOENT), st]; by split_and!.
Qed.

Lemma unmap_matching ss cref st rc st' ev :
  trau_mux_unmap ss cref st = Some (rc, st', ev) -> matching st -> matching st'.
Proof.
  destruct ss as [x|].
  - intros Hr Hm. destruct (unmap_spec x cref st Hm) as (rc' & st'' & Hr' & Hm' & _). congruence.
  - unfold trau_mux_unmap. rewrite run_gets. cbn [mbind option_bind]. rewrite run_gets.
    destruct (del_first _ _) as [q|]; [rewrite run_modify|]; intros [= <- <- <-]; done.
Qed.

Lemma map_spec a b st :
  matching st ->
  exists st', trau_mux_map true a b st = Some (0, st', []) /\ matching st'
    /\ forall x, lookup_trau_mux_map x st' =
         if decide (x = a) then Some b else if decide (x = b) then Some a
         else if decide (lookup_trau_mux_map x st = Some a \/ lookup_trau_mux_map x st = Some b) then None
         else lookup_trau_mux_map x st.
Proof.
  intros Hm. destruct (unmap_spec a 0 st Hm) as (r1 & st1 & Hr1 & Hm1 & Ha1 & Hl1).
  destruct (unmap_spec b 0 st1 Hm1) as (r2 & st2 & Hr2 & Hm2 & Hb2 & Hl2).
  unfold trau_mux_map. cbn [negb]. run_with Hr1. run_with Hr2. rewrite run_modify.
  exists (st2 <| ss_map ::= cons (mk_map_entry a b) |>). split; [done|].
  assert (a ∉ slots (ss_map st2)) as Ha2.
  { intros (y & E)%slots_lookup_map. fold (lookup_trau_mux_map a st2) in E. rewrite Hl2, Hl1 in E.
    repeat case_decide; try done. tauto. }
  split.
  - unfold matching in *. cbn. rewrite slots_cons. apply NoDup_app. split_and!; [|intros x Hx|done].
    + unfold ends. cbn. case_decide; repeat constructor; rewrite ?elem_of_cons, ?elem_of_nil; tauto.
    + apply elem_ends in Hx as [<-| <-]; done.
  - intros x. change (lookup_trau_mux_map x (st2 <| ss_map ::= cons (mk_map_entry a b) |>))
      with (if bool_decide (a = x) then Some b else if bool_decide (b = x) then Some a
            else lookup_trau_mux_map x st2).
    destruct (decide (x = a)) as [->|Ha]; [by rewrite bool_decide_true|rewrite bool_decide_false by congruence].
    destruct (decide (x = b)) as [->|Hb]; [by rewrite bool_decide_true|rewrite bool_decide_false by congruence].
    rewrite Hl2, Hl1. destruct (lookup_trau_mux_map x st) as [y|]; repeat case_decide; intuition congruence.
Qed.

Section reach.
Context `{TrauEnv}.

Lemma keeps_unmap ss cref : keeps matching (trau_mux_unmap ss cref).
Proof.
  intros st Hm. unfold wlp. destruct (trau_mux_unmap ss cref st) as [[[rc st'] ev]|] eqn:E; [|done].
  by eapply unmap_matching.
Qed.
Lemma keeps_step_matching op : keeps matching (trau_step op).
Proof.
  destruct op as [mem a b|ss cref|mem net x cref|mem line num ch bits|stack dst fr]; cbn [trau_step].
  - destruct mem; [|apply keeps_ret]. intros st Hm. destruct (map_spec a b st Hm) as (s & Hs & Hms & _).
    unfold trau_mux_map_lchan, wlp. by rewrite Hs.
  - apply keeps_unmap.
  - unfold trau_recv_lchan. destruct (negb mem); [apply keeps_ret|]. apply keeps_bind; [apply keeps_unmap|intros _].
    apply keeps_bind; [by apply keeps_modify|intros _; apply keeps_ret].
  - unfold subch_cb, trau_mux_input. keeps_tac.
  - unfold trau_send_frame. keeps_tac.
Qed.
Lemma keeps_steps_matching ops : keeps matching (trau_steps ops).
Proof.
  induction ops as [|op ops IH]; [apply keeps_ret|]. apply keeps_bind; [apply keeps_step_matching|by intros _].
Qed.

Lemma trau_reachable_matching st : trau_reachable st -> matching st.
Proof.
  intros (ops & ev & Hr). apply (wlp_run _ _ _ _ _ _ (keeps_steps_matching ops trau_init ltac:(constructor)) Hr).
Qed.

(** the sub-slots are switched in pairs. Whatever was mapped, unmapped, received and sent, the
    look-up is symmetric, and joining two sub-slots makes each the destination of the other, frees
    their former partners and leaves every other pair alone. *)
Theorem trau_switch st a b :
  trau_reachable st ->
  (forall x y, lookup_trau_mux_map x st = Some y -> lookup_trau_mux_map y st = Some x) /\
  exists st', trau_mux_map true a b st = Some (0, st', []) /\
    forall x, lookup_trau_mux_map x st' =
      if decide (x = a) then Some b else if decide (x = b) then Some a
      else if decide (lookup_trau_mux_map x st = Some a \/ lookup_trau_mux_map x st = Some b) then None
      else lookup_trau_mux_map x st.
Proof.
  intros Hm%trau_reachable_matching. split; [intros x y; by apply lookup_map_sym|].
  destruct (map_spec a b st Hm) as (st' & Hr & _ & Hl). by exists st'.
Qed.

End reach.

(** ** The order of the speech bits *)

(** Bit [j] of a buffer, the most significant bit of an octet first. *)
Definition bit (buf : list Z) (j : Z) : bool := Z.testbit (rdz buf (j / 8)) (7 - j mod 8).

(** The turns of the two loops: bit of the speech frame, bit of the TRAU frame. *)
Fixpoint fr_walk (n : nat) (j k l o : Z) : list (Z * Z) :=
  match n with
  | O => []
  | S n =>
      (j, k + o) ::
        (if k - 1 <? 0 then fr_walk n (j + 1) (rdz gsm_fr_map (l + 1) - 1) (l + 1) (o + rdz gsm_fr_map l)
         else fr_walk n (j + 1) (k - 1) l o)
  end.

Definition put (d data : list Z) (jp : Z * Z) : list Z :=
  alter (fun x => u8 (x .| (rdz d (snd jp) .<< (7 - fst jp mod 8)))) (Z.to_nat (fst jp / 8)) data.
Definition get (data d : list Z) (jp : Z * Z) : list Z :=
  <[Z.to_nat (snd jp) := (rdz data (fst jp / 8) .>> (7 - fst jp mod 8)) .& 1]> d.

Lemma reassemble_walk n j k l o d data : reassemble n j k l o d data = foldl (put d) data (fr_walk n j k l o).
Proof.
  revert j k l o data. induction n as [|n IH]; intros j k l o data; [done|]. cbn [reassemble fr_walk foldl].
  destruct (k - 1 <? 0); by rewrite IH.
Qed.
Lemma disassemble_walk n j k l o data d : disassemble n j k l o data d = foldl (get data) d (fr_walk n j k l o).
Proof.
  revert j k l o d. induction n as [|n IH]; intros j k l o d; [done|]. cbn [disassemble fr_walk foldl].
  destruct (k - 1 <? 0); by rewrite IH.
Qed.

Lemma b2z_bit b i : Z.testbit (Z.b2z b) i = b && (i =? 0).
Proof. destruct b; [|apply Z.bits_0]. by destruct i as [|[]|]. Qed.
Lemma land_1_bit x n : 0 <= n -> (x .>> n) .& 1 = Z.b2z (Z.testbit x n).
Proof.
  intros Hn. apply Z.bits_inj'. intros m Hm. rewrite Z.land_spec, Z.shiftr_spec, b2z_bit by done.
  change 1 with (Z.b2z true). rewrite b2z_bit. destruct (Z.eqb_spec m 0) as [->|]; [|by rewrite !andb_false_r].
  by rewrite Z.add_0_l.
Qed.

Lemma get_other data d jp p : Z.to_nat (snd jp) <> p -> get data d jp !! p = d !! p.
Proof. intros H. by apply list_lookup_insert_ne. Qed.
Lemma foldl_get_other data W d p :
  p ∉ map (fun jp => Z.to_nat (snd jp)) W -> foldl (get data) d W !! p = d !! p.
Proof.
  revert d. induction W as [|jp W IH]; intros d; [done|]. cbn. intros [? ?]%not_elem_of_cons.
  rewrite IH by done. apply get_other. congruence.
Qed.
Lemma length_foldl_get data W d : length (foldl (get data) d W) = length d.
Proof. revert d. induction W as [|jp W IH]; intros d; [done|]. cbn. rewrite IH. apply length_insert. Qed.

(** The bits taken apart. *)
Lemma foldl_get data W d j p :
  NoDup (map (fun jp => Z.to_nat (snd jp)) W) -> Forall (fun jp => (Z.to_nat (snd jp) < length d)%nat) W ->
  (j, p) ∈ W -> rdz (foldl (get data) d W) p = Z.b2z (bit data j).
Proof.
  revert d. induction W as [|jp W IH]; intros d; [by intros ? ? ?%elem_of_nil|]. cbn [map foldl].
  intros [Hn Hnd]%NoDup_cons [Hlt Hl]%Forall_cons [<-|Hin]%elem_of_cons.
  - cbn [snd] in *. unfold rdz, rd. rewrite foldl_get_other by done. unfold get. cbn [fst snd].
    rewrite list_lookup_insert_eq by done. cbn. unfold id. rewrite land_1_bit; [done|].
    pose proof (Z.mod_pos_bound j 8 eq_refl). lia.
  - apply IH; [done| |done]. eapply Forall_impl; [exact Hl|]. intros x Hx. cbn. unfold get. by rewrite length_insert.
Qed.

Lemma put_octet x b n m :
  0 <= n < 8 -> 0 <= m < 8 ->
  Z.testbit (u8 (x .| (Z.b2z b .<< n))) m = Z.testbit x m || (b && (m =? n)).
Proof.
  intros Hn Hm. unfold wrap. rewrite Z.mod_pow2_bits_low, Z.lor_spec, Z.shiftl_spec by lia. f_equal.
  rewrite b2z_bit. f_equal. apply eq_bool_prop_intro. rewrite !Is_true_true, !Z.eqb_eq. lia.
Qed.

(** The bits put together: those of [d] are added to those of the buffer. *)
Lemma foldl_put d data W out j' :
  (forall j p, (j, p) ∈ W -> 0 <= j < 8 * Z.of_nat (length out) /\ rdz d p = Z.b2z (bit data j)) ->
  0 <= j' < 8 * Z.of_nat (length out) ->
  bit (foldl (put d) out W) j' = bit out j' || (bit data j' && bool_decide (j' ∈ map fst W)).
Proof.
  revert out. induction W as [|[j p] W IH]; intros out HW Hj'; cbn [map foldl].
  { rewrite bool_decide_false by apply not_elem_of_nil. by rewrite andb_false_r, orb_false_r. }
  destruct (HW j p) as [Hj Hd]; [by left|].
  assert (length (put d out (j, p)) = length out) as Hlen by apply length_alter.
  rewrite IH; [|intros a b Hab; rewrite Hlen; apply HW; by right|by rewrite Hlen].
  assert (bit (put d out (j, p)) j' = bit out j' || (bit data j' && (j' =? j))) as ->.
  { unfold put. cbn [fst snd]. rewrite Hd. unfold bit, rdz, rd.
    pose proof (Z.mod_pos_bound j 8 eq_refl). pose proof (Z.mod_pos_bound j' 8 eq_refl).
    pose proof (Z.div_mod j 8 ltac:(lia)). pose proof (Z.div_mod j' 8 ltac:(lia)).
    destruct (decide (Z.to_nat (j' / 8) = Z.to_nat (j / 8))) as [E|E].
    - rewrite E, list_lookup_alter_eq. destruct (lookup_lt_is_Some_2 out (Z.to_nat (j / 8))) as [x Hx].
      { Z.to_euclidean_division_equations. lia. }
      rewrite Hx. cbn. unfold id. rewrite put_octet by lia. f_equal.
      destruct (Z.eqb_spec j' j) as [->|Hne]; [by rewrite Z.eqb_refl|].
      rewrite (proj2 (Z.eqb_neq _ _)) by lia. by rewrite !andb_false_r.
    - rewrite list_lookup_alter_ne by done. rewrite (proj2 (Z.eqb_neq j' j)) by congruence.
      by rewrite andb_false_r, orb_false_r. }
  destruct (Z.eqb_spec j' j) as [->|Hne].
  - rewrite (bool_decide_true (j ∈ j :: _)) by by left. destruct (bit out j), (bit data j); cbn; try done.
  - rewrite andb_false_r, orb_false_r. f_equal. f_equal. apply bool_decide_ext. rewrite elem_of_cons. tauto.
Qed.

(** Buffers are equal when their bits are. *)
Lemma octets_bits a b :
  octets a -> octets b -> length a = length b ->
  (forall j, 0 <= j < 8 * Z.of_nat (length a) -> bit a j = bit b j) -> a = b.
Proof.
  intros Ha Hb Hlen Hbit. apply list_eq_same_length with (length a); [done..|]. intros i x y Hi Hx Hy.
  pose proof (Forall_lookup_1 _ _ _ _ Ha Hx) as Hax. pose proof (Forall_lookup_1 _ _ _ _ Hb Hy) as Hby.
  cbn in Hax, Hby. apply in_width_testbit in Hax as [_ Hax], Hby as [_ Hby]; try done.
  apply Z.bits_inj'. intros m Hm. destruct (decide (8 <= m)); [by rewrite Hax, Hby|].
  specialize (Hbit (8 * Z.of_nat i + (7 - m)) ltac:(lia)). unfold bit, rdz, rd in Hbit.
  replace ((8 * Z.of_nat i + (7 - m)) / 8) with (Z.of_nat i) in Hbit by (Z.to_euclidean_division_equations; lia).
  replace (7 - (8 * Z.of_nat i + (7 - m)) mod 8) with m in Hbit by (Z.to_euclidean_division_equations; lia).
  rewrite Nat2Z.id, Hx, Hy in Hbit. done.
Qed.

(** The walk over a full rate frame visits every bit once. *)
Definition fr_bits : list (Z * Z) := fr_walk 260 4 (rdz gsm_fr_map 0 - 1) 0 0.
Lemma reassemble_fr d data : reassemble 260 4 (rdz gsm_fr_map 0 - 1) 0 0 d data = foldl (put d) data fr_bits.
Proof. apply reassemble_walk. Qed.
Lemma disassemble_fr data d : disassemble 260 4 (rdz gsm_fr_map 0 - 1) 0 0 data d = foldl (get data) d fr_bits.
Proof. apply disassemble_walk. Qed.
Lemma fr_bits_ok :
  NoDup (map (fun jp => Z.to_nat (snd jp)) fr_bits)
  /\ Forall (fun jp => (Z.to_nat (snd jp) < 260)%nat) fr_bits
  /\ Forall (fun jp => 4 <= fst jp < 264) fr_bits
  /\ Forall (fun j => j ∈ map fst fr_bits) (seqZ 4 260)
  /\ Forall (fun p => p ∈ map (fun jp => Z.to_nat (snd jp)) fr_bits) (seq 0 260).
Proof. split_and!; apply (bool_decide_unpack _); by vm_compute. Qed.

#[local] Opaque fr_bits.

Lemma octets_foldl_put d W out : octets out -> octets (foldl (put d) out W).
Proof.
  revert out. induction W as [|jp W IH]; intros out Ho; [done|]. cbn. apply IH. unfold put.
  apply Forall_alter; [done|]. intros x _ _. by apply wrap_in_width.
Qed.
Lemma length_foldl_put d W out : length (foldl (put d) out W) = length out.
Proof. revert out. induction W as [|jp W IH]; intros out; [done|]. cbn. rewrite IH. apply length_alter. Qed.

(** The memory of a new message with the signature of the codec. *)
Definition fr_memory : list Z := <[0%nat := u8 (0xd .<< 4)]> (replicate 33 0).

Lemma speech_data data d0 d :
  octets data -> length data = 33%nat -> rdz data 0 .>> 4 = 0xd -> (260 <= length d0)%nat ->
  take 260 d = take 260 (disassemble 260 4 (rdz gsm_fr_map 0 - 1) 0 0 data d0) ->
  reassemble 260 4 (rdz gsm_fr_map 0 - 1) 0 0 d fr_memory = data.
Proof.
  intros Ho Hlen Hsig Hd0 Hd. rewrite reassemble_fr. rewrite disassemble_fr in Hd.
  destruct fr_bits_ok as (Hnd & Hlt & Hrng & Hall & _). rewrite Forall_forall in Hrng. rewrite Forall_forall in Hall.
  assert (octets fr_memory) as Hmem by (apply Forall_insert; [by apply Forall_replicate|done]).
  assert (length fr_memory = 33%nat) as Hml by done.
  apply octets_bits; [by apply octets_foldl_put|done|by rewrite length_foldl_put|].
  intros j Hj. rewrite length_foldl_put, Hml in Hj. rewrite (foldl_put d data).
  2:{ intros j' p Hin. split; [rewrite Hml; specialize (Hrng _ Hin); cbn in Hrng; lia|].
      rewrite <-(foldl_get data fr_bits d0 j' p Hnd); [|eapply Forall_impl; [exact Hlt|]; cbn; lia|done].
      rewrite Forall_forall in Hlt. specialize (Hlt _ Hin). cbn in Hlt.
      unfold rdz, rd. by rewrite <-(lookup_take_lt d 260), <-(lookup_take_lt (foldl _ _ _) 260), Hd by done. }
  2:{ by rewrite Hml. }
  destruct (decide (4 <= j)) as [Hj4|Hj4].
  - rewrite (bool_decide_true (j ∈ _)) by (apply Hall, elem_of_seqZ; lia). rewrite andb_true_r.
    assert (bit fr_memory j = false) as ->; [|done].
    assert (Forall (fun j => bit fr_memory j = false) (seqZ 4 260)) as Hz by (apply (bool_decide_unpack _); by vm_compute).
    rewrite Forall_forall in Hz. apply Hz, elem_of_seqZ. lia.
  - rewrite bool_decide_false.
    2:{ intros ([j' p] & -> & Hin)%list_elem_of_fmap. specialize (Hrng _ Hin). cbn in Hrng, Hj4. lia. }
    rewrite andb_false_r, orb_false_r. unfold bit.
    assert (forall i, 4 <= i -> Z.testbit (rdz data 0) i = Z.testbit 0xd (i - 4)) as Hbits.
    { intros i Hi. rewrite <-Hsig, Z.shiftr_spec by lia. f_equal. lia. }
    assert (j = 0 \/ j = 1 \/ j = 2 \/ j = 3) as [->|[->|[->| ->]]] by lia;
      rewrite Z.div_small by lia; by rewrite Hbits by (vm_compute; discriminate).
Qed.

(** ** A speech frame of the application reaches the application of the other side *)

Section speech.
Context `{TrauEnv}.

(** What libosmo-abis promises: a downlink full rate frame that is coded can be decoded, with the same
    data bits. *)
Definition codec_keeps_data : Prop := forall tf,
  take 5 (c_bits tf) = [1; 1; 1; 0; 0] -> (260 <= length (d_bits tf))%nat ->
  Forall (fun b => b = 0 \/ b = 1) (take 260 (d_bits tf)) ->
  exists tf', decode_trau_frame (encode_trau_frame tf) = (0, tf') /\ take 260 (d_bits tf') = take 260 (d_bits tf).

Lemma disassemble_bits data d0 :
  (260 <= length d0)%nat ->
  Forall (fun b => b = 0 \/ b = 1) (take 260 (disassemble 260 4 (rdz gsm_fr_map 0 - 1) 0 0 data d0)).
Proof.
  intros Hd0. rewrite disassemble_fr. apply Forall_forall. intros b Hb.
  apply list_elem_of_lookup in Hb as [p Hp]. assert (p < 260)%nat as Hp260.
  { apply lookup_lt_Some in Hp. rewrite length_take in Hp. lia. }
  rewrite lookup_take_lt in Hp by done.
  destruct fr_bits_ok as (Hnd & Hlt & _ & _ & Hall). rewrite Forall_forall in Hall. specialize (Hall p ltac:(apply elem_of_seq; lia)).
  apply list_elem_of_fmap in Hall as ([j q] & -> & Hin).
  pose proof (foldl_get data fr_bits d0 j q Hnd) as Hg. unfold rdz, rd in Hg. cbn in Hp. rewrite Hp in Hg.
  cbn in Hg. unfold id in Hg. rewrite Hg; [|eapply Forall_impl; [exact Hlt|]; cbn; lia|done].
  destruct (bit data j); cbn; auto.
Qed.

(** C28: the speech bits survive the codec. A full rate frame that the application sends to a channel
    goes to the multiplexer of the channel's sub-slot, and when its bits arrive at a sub-slot that is
    not joined to another one but registered for a call, the application gets the same 33 octets,
    for that call. *)
Theorem speech_frame_roundtrip stack dst frame mx src ue st st2 :
  codec_keeps_data ->
  e1inp_get_mux (e1_nr dst) (e1_ts dst) = Some mx ->
  msg_type frame = GSM_TCHF_FRAME -> octets (frame_data frame) -> length (frame_data frame) = 33%nat ->
  rdz (frame_data frame) 0 .>> 4 = 0xd -> (260 <= length (d_bits stack))%nat ->
  lookup_trau_mux_map src st2 = None -> lookup_trau_upqueue src st2 = Some ue -> ue_callref ue <> 0 ->
  exists bits,
    trau_send_frame stack dst frame st
    = Some (subchan_mux_enqueue mx (e1_ts_ss dst) bits, st, [EvMux mx (e1_ts_ss dst) bits]) /\
    trau_mux_input (Some (replicate 33 0)) src bits st2
    = Some (0, st2, [EvToMncc (ue_net ue) (mk_gsm_data_frame GSM_TCHF_FRAME (ue_callref ue) (frame_data frame))]).
Proof.
  intros Hcodec Hmx Hty Ho Hlen Hsig Hstack Hmap Hupq Hcr.
  remember (disassemble 260 4 (rdz gsm_fr_map 0 - 1) 0 0 (frame_data frame) (d_bits stack)) as d eqn:Ed.
  assert (length d = length (d_bits stack)) as Hdlen by (by rewrite Ed, disassemble_fr, length_foldl_get).
  pose proof (disassemble_bits (frame_data frame) (d_bits stack) Hstack) as Hdbits. rewrite <-Ed in Hdbits.
  set (tf := mk_decoded_trau_frame (downlink_c_bits (c_bits stack)) d (downlink_t_bits (t_bits stack))).
  exists (encode_trau_frame tf). split.
  - unfold trau_send_frame. rewrite Hmx, Hty, Z.eqb_refl, run_emit. unfold tf. rewrite Ed. reflexivity.
  - destruct (Hcodec tf) as (tf' & Hdec & Hd'); [reflexivity|cbn [d_bits tf]; lia|exact Hdbits|].
    cbn [d_bits tf] in Hd'. rewrite Ed in Hd'.
    unfold trau_mux_input. rewrite run_gets, Hmap, Hdec. cbn [negb Z.eqb]. rewrite run_gets, Hupq.
    apply Z.eqb_neq in Hcr. rewrite Hcr. fold fr_memory.
    rewrite (speech_data (frame_data frame) (d_bits stack)) by done. by rewrite run_emit.
Qed.

End speech.

(** ** Witnesses: a codec that writes the control bits before the data bits *)

#[local] Instance demo_trau : TrauEnv := {|
  decode_trau_frame bits := (0, mk_decoded_trau_frame (take 5 bits) (drop 5 bits) []);
  encode_trau_frame tf := take 5 (c_bits tf) ++ d_bits tf;
  trau_frame_up2down tf := tf;
  e1inp_get_mux line ts := if line =? 0 then Some 7%nat else None;
  subchan_mux_enqueue _ _ _ := 0
|}.
Definition demo_slot (ss : Z) : gsm_e1_subslot := mk_gsm_e1_subslot 0 1 ss.

Lemma demo_codec : codec_keeps_data.
Proof.
  intros tf Hc Hd _. eexists. split; [reflexivity|]. cbn [d_bits]. f_equal.
  assert (length (take 5 (c_bits tf)) = 5%nat) as Hl by (by rewrite Hc).
  cbn [encode_trau_frame demo_trau]. rewrite <-Hl at 1. apply drop_app_length.
Qed.

(** Sub-slots 0 and 1 are joined, then 0 with 2. *)
Lemma trau_switch_witness :
  exists st, trau_reachable st /\ lookup_trau_mux_map (demo_slot 0) st = Some (demo_slot 1) /\
    exists st', trau_mux_map true (demo_slot 0) (demo_slot 2) st = Some (0, st', []) /\
      lookup_trau_mux_map (demo_slot 2) st' = Some (demo_slot 0) /\
      lookup_trau_mux_map (demo_slot 1) st' = None.
Proof.
  set (st := mk_trau_state [mk_map_entry (demo_slot 0) (demo_slot 1)] []).
  assert (trau_reachable st) as Hr.
  { exists [OpMap true (demo_slot 0) (demo_slot 1)], []. reflexivity. }
  exists st. split; [exact Hr|]. split; [reflexivity|].
  destruct (trau_switch st (demo_slot 0) (demo_slot 2) Hr) as (_ & st' & Hm & Hl).
  exists st'. split; [exact Hm|]. split; [rewrite (Hl (demo_slot 2))|rewrite (Hl (demo_slot 1))]; reflexivity.
Defined.

Lemma speech_frame_roundtrip_witness :
  let frame := mk_gsm_data_frame GSM_TCHF_FRAME 0 (0xd5 :: map Z.of_nat (seq 1 32)) in
  let st2 := mk_trau_state [] [mk_upqueue_entry 0 (demo_slot 3) 42] in
  exists bits,
    trau_send_frame (mk_decoded_trau_frame [] (replicate 288 0) []) (demo_slot 0) frame trau_init
    = Some (0, trau_init, [EvMux 7 0 bits]) /\
    trau_mux_input (Some (replicate 33 0)) (demo_slot 3) bits st2
    = Some (0, st2, [EvToMncc 0 (mk_gsm_data_frame GSM_TCHF_FRAME 42 (frame_data frame))]).
Proof.
  intros frame st2.
  apply (speech_frame_roundtrip (mk_decoded_trau_frame [] (replicate 288 0) []) (demo_slot 0) frame 7 (demo_slot 3)
           (mk_upqueue_entry 0 (demo_slot 3) 42) trau_init st2 demo_codec); try reflexivity.
  - apply (Forall_cons_2 (in_width 8)); [vm_bounds|]. apply Forall_fmap, Forall_forall. intros x Hx%elem_of_seq.
    unfold in_width, compose. change (2 ^ 8) with 256. lia.
  - apply Nat.leb_le. reflexivity.
  - discriminate.
Defined.

End TrauProps.
