(* ===== verification/Rtp.v ===== *)
(** The RTP proxy for speech of nanoBTSs (libtrau/rtp_proxy.c): the sockets of the channels, what is done
    with what they receive, and the speech frames of the MNCC application.

    A socket is a number in a store, so that one that was freed is not found. The address of a socket
    is input and output and left out, and so is the rewriting of names in RTCP packets, which the
    source switches off. *)

From S2P Require Import Prelude Meas Msc Trau.
Import Msc Trau.

Module Rtp.

Definition RTP_PT_GSM_FULL : Z := 3.
Definition RTP_PT_GSM_EFR : Z := 97.
Definition RTP_VERSION : Z := 2.

Inductive rtp_bfd_priv : Type := RTP_PRIV_NONE | RTP_PRIV_RTP | RTP_PRIV_RTCP.
#[export] Instance rtp_bfd_priv_eq_dec : EqDecision rtp_bfd_priv.
Proof. solve_decision. Defined.
Inductive rtp_rx_action : Type := RTP_NONE | RTP_PROXY | RTP_RECV_UPSTREAM.
#[export] Instance rtp_rx_action_eq_dec : EqDecision rtp_rx_action.
Proof. solve_decision. Defined.
Inductive rtp_tx_action : Type := RTP_SEND_NONE | RTP_SEND_DOWNSTREAM.
#[export] Instance rtp_tx_action_eq_dec : EqDecision rtp_tx_action.
Proof. solve_decision. Defined.

Record rtp_sub_socket : Type := mk_rtp_sub_socket {
  when_read : bool;  (* BSC_FD_READ *)
  when_write : bool;  (* BSC_FD_WRITE *)
  tx_queue : list (list Z)
}.

#[export] Instance upd_when_read : Upd when_read := fun f r => mk_rtp_sub_socket (f (when_read
  r)) (when_write r) (tx_queue r).
#[export] Instance upd_when_write : Upd when_write := fun f r => mk_rtp_sub_socket (when_read r)
  (f (when_write r)) (tx_queue r).
#[export] Instance upd_tx_queue : Upd tx_queue := fun f r => mk_rtp_sub_socket (when_read r)
  (when_write r) (f (tx_queue r)).

Record timeval : Type := mk_timeval {
  tv_sec : Z;
  tv_usec : Z
}.

#[export] Instance upd_tv_sec : Upd tv_sec := fun f r => mk_timeval (f (tv_sec r)) (tv_usec r).
#[export] Instance upd_tv_usec : Upd tv_usec := fun f r => mk_timeval (tv_sec r) (f (tv_usec
  r)).

Record rtp_transmit : Type := mk_rtp_transmit {
  tx_sequence : Z;
  tx_timestamp : Z;
  tx_ssrc : Z;
  last_tv : timeval
}.

#[export] Instance upd_tx_sequence : Upd tx_sequence := fun f r => mk_rtp_transmit (f
  (tx_sequence r)) (tx_timestamp r) (tx_ssrc r) (last_tv r).
#[export] Instance upd_tx_timestamp : Upd tx_timestamp := fun f r => mk_rtp_transmit
  (tx_sequence r) (f (tx_timestamp r)) (tx_ssrc r) (last_tv r).
#[export] Instance upd_tx_ssrc : Upd tx_ssrc := fun f r => mk_rtp_transmit (tx_sequence r)
  (tx_timestamp r) (f (tx_ssrc r)) (last_tv r).
#[export] Instance upd_last_tv : Upd last_tv := fun f r => mk_rtp_transmit (tx_sequence r)
  (tx_timestamp r) (tx_ssrc r) (f (last_tv r)).

(** The pointer the union of [proxy.other_sock] and [receive.net] holds. *)
Inductive rtp_ptr : Type := NullPtr | Sock (rs : nat) | Net (net : nat).
#[export] Instance rtp_ptr_eq_dec : EqDecision rtp_ptr.
Proof. solve_decision. Defined.

Record rtp_socket : Type := mk_rtp_socket {
  rtp : rtp_sub_socket;
  rtcp : rtp_sub_socket;
  rx_action : rtp_rx_action;
  rx_ptr : rtp_ptr;  (* proxy.other_sock, receive.net *)
  rx_callref : Z;  (* receive.callref *)
  tx_action : rtp_tx_action;
  transmit : rtp_transmit
}.

#[export] Instance upd_rtp : Upd rtp := fun f r => mk_rtp_socket (f (rtp r)) (rtcp r) (rx_action
  r) (rx_ptr r) (rx_callref r) (tx_action r) (transmit r).
#[export] Instance upd_rtcp : Upd rtcp := fun f r => mk_rtp_socket (rtp r) (f (rtcp r))
  (rx_action r) (rx_ptr r) (rx_callref r) (tx_action r) (transmit r).
#[export] Instance upd_rx_action : Upd rx_action := fun f r => mk_rtp_socket (rtp r) (rtcp r) (f
  (rx_action r)) (rx_ptr r) (rx_callref r) (tx_action r) (transmit r).
#[export] Instance upd_rx_ptr : Upd rx_ptr := fun f r => mk_rtp_socket (rtp r) (rtcp r)
  (rx_action r) (f (rx_ptr r)) (rx_callref r) (tx_action r) (transmit r).
#[export] Instance upd_rx_callref : Upd rx_callref := fun f r => mk_rtp_socket (rtp r) (rtcp r)
  (rx_action r) (rx_ptr r) (f (rx_callref r)) (tx_action r) (transmit r).
#[export] Instance upd_tx_action : Upd tx_action := fun f r => mk_rtp_socket (rtp r) (rtcp r)
  (rx_action r) (rx_ptr r) (rx_callref r) (f (tx_action r)) (transmit r).
#[export] Instance upd_transmit : Upd transmit := fun f r => mk_rtp_socket (rtp r) (rtcp r)
  (rx_action r) (rx_ptr r) (rx_callref r) (tx_action r) (f (transmit r)).

Abbreviation rtp_state := (gmap nat rtp_socket).

Inductive rtp_event : Type :=
| EvWrite (rs : nat) (which : rtp_bfd_priv) (data : list Z)    (* write to the socket *)
| EvUp (net : nat) (frame : gsm_data_frame).                   (* trau_tx_to_mncc *)

Abbreviation RM := (M rtp_state rtp_event).

Definition sock (rs : nat) : RM rtp_socket :=
  s ← gets (fun st : rtp_state => st !! rs);
  match s with Some s => mret s | None => fault end.
Definition sock_upd (rs : nat) (f : rtp_socket -> rtp_socket) : RM unit :=
  sock rs;; modify (alter f rs).
Definition sub_upd (rs : nat) (which : rtp_bfd_priv) (f : rtp_sub_socket -> rtp_sub_socket) : RM unit :=
  sock_upd rs (fun s => match which with RTP_PRIV_RTCP => s <| rtcp ::= f |> | _ => s <| rtp ::= f |> end).

(** [msgb_enqueue], and the socket waits until it can be written to. *)
Definition enqueue (msg : list Z) (rss : rtp_sub_socket) : rtp_sub_socket :=
  rss <| tx_queue ::= fun q => q ++ [msg] |> <| when_write := true |>.

(** ** RTP packets *)

Definition be32 (x : Z) : list Z := [(x .>> 24) .& 0xff; (x .>> 16) .& 0xff; (x .>> 8) .& 0xff; x .& 0xff].

(** The header as [rtp_send_frame] fills it in. *)
Definition rtp_hdr (payload_type sequence timestamp ssrc : Z) : list Z :=
  [RTP_VERSION .<< 6; payload_type] ++ be16 sequence ++ be32 timestamp ++ be32 ssrc.

(** Where the payload is and how long it is, after the CSRCs, an extension header and padding. *)
Definition rtp_payload (msg : list Z) : res (Z * Z) :=
  let len := Z.of_nat (length msg) in
  let b0 := rdz msg 0 in
  if len <? 12 then Err (- EINVAL)
  else if negb (b0 .>> 6 =? RTP_VERSION) then Err (- EINVAL)
  else
    let csrc_count := b0 .& 0xf in
    let payload := 12 + (csrc_count .<< 2) in
    let payload_len := len - 12 - (csrc_count .<< 2) in
    if payload_len <? 0 then Err (- EINVAL)
    else
      let ext := tst b0 0x10 in
      if ext && (payload_len <? 4) then Err (- EINVAL)
      else
        let x_len := if ext then rd_be16 (drop (Z.to_nat (payload + 2)) msg) * 4 + 4 else 0 in
        let payload := payload + x_len in
        let payload_len := payload_len - x_len in
        if ext && (payload_len <? 0) then Err (- EINVAL)
        else
          let payload_len := if tst b0 0x20 then payload_len - rdz msg (payload + payload_len - 1) else payload_len in
          if tst b0 0x20 && (payload_len <? 0) then Err (- EINVAL) else Ok (payload, payload_len).

(** [mem]: there is memory for the frame. *)
Definition rtp_decode (mem : bool) (msg : list Z) (cref : Z) : res gsm_data_frame :=
  match rtp_payload msg with
  | Err rc => Err rc
  | Ok (payload, payload_len) =>
      let pt := rdz msg 1 .& 0x7f in
      let frame ty :=
        if mem then Ok (mk_gsm_data_frame ty cref (take (Z.to_nat payload_len) (drop (Z.to_nat payload) msg)))
        else Err (- ENOMEM) in
      if pt =? RTP_PT_GSM_FULL then
        if negb (payload_len =? 33) then Err (- EINVAL) else frame GSM_TCHF_FRAME
      else if pt =? RTP_PT_GSM_EFR then frame GSM_TCHF_FRAME_EFR
      else Err (- EINVAL)
  end.

(** "to - from" *)
Definition tv_difference (from to : timeval) : timeval :=
  let to := if tv_usec to <? tv_usec from
            then to <| tv_sec ::= fun s => s - 1 |> <| tv_usec ::= fun u => u + 1000000 |> else to in
  mk_timeval (tv_sec to - tv_sec from) (tv_usec to - tv_usec from).

(** [abs] of an [int]; of the smallest one it is that number again. *)
Definition abs_int (x : Z) : Z := Meas.s32 (Z.abs (Meas.s32 x)).

(** The correction for the frames that passed since the last one was sent. *)
Definition frame_correction (now : timeval) (duration : Z) (t : rtp_transmit) : rtp_transmit :=
  let diff := tv_difference (last_tv t) now in
  let t := t <| last_tv := now |> in
  let usec_diff := tv_sec diff * 1000000 + tv_usec diff in
  let frame_diff := Z.quot usec_diff 20000 in
  if 1 <? abs_int frame_diff then
    let excess := frame_diff - 1 in
    t <| tx_sequence ::= fun s => u16 (s + excess) |>
      <| tx_timestamp ::= fun ts => u32 (ts + excess * duration) |>
  else t.

(** Payload type, length of the payload and duration in samples. *)
Definition frame_format (ty : Z) : option (Z * nat * Z) :=
  if ty =? GSM_TCHF_FRAME then Some (RTP_PT_GSM_FULL, 33%nat, 160)
  else if ty =? GSM_TCHF_FRAME_EFR then Some (RTP_PT_GSM_EFR, 31%nat, 160)
  else None.

(** The packet is composed and queued. *)
Definition rtp_queue_frame (mem : bool) (now : timeval) (rs : nat) (frame : gsm_data_frame) : RM Z :=
  match frame_format (msg_type frame) with
  | None => mret (- EINVAL)
  | Some (payload_type, payload_len, duration) =>
      modify (alter (fun s => s <| transmit ::= frame_correction now duration |>) rs);;
      if negb mem then mret (- ENOMEM)
      else
        s ← sock rs;
        let t := transmit s in
        let msg := rtp_hdr payload_type (tx_sequence t) (tx_timestamp t) (tx_ssrc t)
                   ++ take payload_len (frame_data frame) in
        modify (alter (fun s => s
          <| transmit ::= fun t => t <| tx_sequence ::= fun q => u16 (q + 1) |>
                                     <| tx_timestamp ::= fun q => u32 (q + duration) |> |>
          <| rtp ::= enqueue msg |>) rs);;
        mret 0
  end.

(** [rnd]: what [rand] and [random] answer; [now]: the time of day. *)
Definition rtp_send_frame (mem : bool) (rnd : Z * Z * Z) (now : timeval) (rs : nat) (frame : gsm_data_frame) : RM Z :=
  s ← sock rs;
  when (negb (bool_decide (tx_action s = RTP_SEND_DOWNSTREAM)))
    (let '(r1, r2, r3) := rnd in
     modify (alter (fun s => s
       <| tx_action := RTP_SEND_DOWNSTREAM |>
       <| transmit ::= fun t => t <| tx_ssrc := u32 r1 |> <| tx_sequence := u16 r2 |> <| tx_timestamp := u32 r3 |> |>) rs));;
  rtp_queue_frame mem now rs frame.

(** ** Sockets *)

(** [data]: what [read] answers, an error (or the end) or octets. *)
Definition rtp_socket_read (mem : bool) (data : res (list Z)) (rs : nat) (which : rtp_bfd_priv) : RM Z :=
  if negb mem then mret (- ENOMEM)
  else
    match data with
    | Err rc => sub_upd rs which (fun rss => rss <| when_read := false |>);; mret rc
    | Ok msg =>
        s ← sock rs;
        match rx_action s with
        | RTP_PROXY =>
            match rx_ptr s with
            | NullPtr => mret (- EIO)
            | Net _ => fault
            | Sock other =>
                match which with
                | RTP_PRIV_NONE => mret (- EINVAL)
                | _ => sub_upd other which (enqueue msg);; mret 0
                end
            end
        | RTP_RECV_UPSTREAM =>
            if (rx_callref s =? 0) || bool_decide (rx_ptr s = NullPtr) then mret (- EIO)
            else
              match which with
              | RTP_PRIV_RTCP => mret 0
              | RTP_PRIV_NONE => mret (- EINVAL)
              | RTP_PRIV_RTP =>
                  match rtp_decode mem msg (rx_callref s) with
                  | Err rc => mret rc
                  | Ok frame =>
                      match rx_ptr s with
                      | Net net => emit (EvUp net frame);; mret 0
                      | _ => fault
                      end
                  end
              end
        | RTP_NONE => mret 0
        end
    end.

(** [written]: what [write] answers. *)
Definition rtp_socket_write (written : list Z -> Z) (rs : nat) (which : rtp_bfd_priv) : RM Z :=
  s ← sock rs;
  match tx_queue (match which with RTP_PRIV_RTCP => rtcp s | _ => rtp s end) with
  | [] => sub_upd rs which (fun rss => rss <| when_write := false |>);; mret 0
  | msg :: q =>
      sub_upd rs which (fun rss => rss <| tx_queue := q |>);;
      emit (EvWrite rs which msg);;
      if written msg <? Z.of_nat (length msg) then mret (- EIO) else mret 0
  end.

Definition rtp_bfd_cb (mem : bool) (data : option (res (list Z))) (written : option (list Z -> Z)) (rs : nat)
    (which : rtp_bfd_priv) : RM Z :=
  match which with
  | RTP_PRIV_NONE => mret (- EINVAL)
  | _ =>
      match data with Some d => rtp_socket_read mem d rs which;; mret tt | None => mret tt end;;
      match written with Some w => rtp_socket_write w rs which;; mret tt | None => mret tt end;;
      mret 0
  end.

Definition new_sub_socket : rtp_sub_socket := mk_rtp_sub_socket true false [].
(** What [rtp_socket_create] leaves when the sockets could be opened and bound. *)
Definition new_rtp_socket : rtp_socket :=
  mk_rtp_socket new_sub_socket new_sub_socket RTP_NONE NullPtr 0 RTP_SEND_NONE (mk_rtp_transmit 0 0 0 (mk_timeval 0 0)).
Definition rtp_socket_create (rs : nat) : RM unit := modify (fun st => <[rs := new_rtp_socket]> st).

Definition rtp_socket_proxy (this other : nat) : RM Z :=
  sock_upd this (fun s => s <| rx_action := RTP_PROXY |> <| rx_ptr := Sock other |>);;
  sock_upd other (fun s => s <| rx_action := RTP_PROXY |> <| rx_ptr := Sock this |>);;
  mret 0.

Definition rtp_socket_upstream (this net : nat) (cref : Z) : RM Z :=
  (if negb (cref =? 0)
   then sock_upd this (fun s => s <| rx_action := RTP_RECV_UPSTREAM |> <| rx_ptr := Net net |> <| rx_callref := cref |>)
   else sock_upd this (fun s => s <| rx_action := RTP_NONE |>));;
  mret 0.

Definition rtp_socket_free (rs : nat) : RM Z :=
  s ← sock rs;
  (if bool_decide (rx_action s = RTP_PROXY)
   then match rx_ptr s with
        | NullPtr => mret tt
        | Sock other => sock_upd other (fun s => s <| rx_ptr := NullPtr |>)
        | Net _ => fault
        end
   else mret tt);;
  modify (delete rs);;
  mret 0.

(** The part of [handle_ho_signal] (libmsc/gsm_04_08.c) that moves a stream from the socket of the old
    channel to that of the new one. *)
Definition rtp_handover (new_rs old_rs : nat) : RM Z :=
  old ← sock old_rs;
  sock_upd new_rs (fun s => s
    <| rx_action := rx_action old |> <| tx_action := tx_action old |> <| transmit := transmit old |>);;
  match rx_action old with
  | RTP_PROXY =>
      match rx_ptr old with
      | Sock other =>
          rtp_socket_proxy new_rs other;;
          sock_upd old_rs (fun s => s <| rx_ptr := NullPtr |>)
      | _ => fault
      end
  | RTP_RECV_UPSTREAM =>
      sock_upd new_rs (fun s => s <| rx_ptr := rx_ptr old |> <| rx_callref := rx_callref old |>)
  | RTP_NONE => mret tt
  end;;
  mret 0.

End Rtp.
