(* ===== verification/RtpProps.v ===== *)
(** What the RTP proxy guarantees: the packets of a stream carry the frames and count them, and the links
    between sockets stay safe as long as only sockets that are free are linked. *)

From coqutil Require Import Z.bitblast.
From S2P Require Import Prelude Msc Trau Meas Rtp.
Import Msc Trau Rtp.

Module RtpProps.

(** ** The stream of a socket *)

Definition rd_be32 (p : list Z) : Z :=
  (((rd p 0 .<< 24) .| (rd p 1 .<< 16)) .| (rd p 2 .<< 8)) .| rd p 3.

Lemma be32_round x rest : in_width 32 x -> rd_be32 (be32 x ++ rest) = x.
Proof.
  intros Hx. unfold rd_be32, be32, rd. cbn [app lookup list_lookup default from_option]. unfold id.
  change 0xff with (Z.ones 8). apply in_width_testbit in Hx as [H0 Hx]; [|lia].
  Z.bitblast; rewrite ?Hx by lia; by rewrite ?andb_false_r, ?orb_false_r.
Qed.

(** Microseconds. *)
Definition usec (t : timeval) : Z := tv_sec t * 1000000 + tv_usec t.
Definition time_ok (t : timeval) : Prop := 0 <= tv_usec t < 1000000.

Lemma usec_difference from to : usec (tv_difference from to) = usec to - usec from.
Proof.
  unfold tv_difference, usec. destruct to as [s u]. cbn. destruct (Z.ltb_spec u (tv_usec from)); cbn; lia.
Qed.

(** The frame periods that passed, at least one. *)
Definition periods (last now : timeval) : Z := Z.max 1 ((usec now - usec last) / 20000).

Lemma u16_add_l x y : u16 (u16 x + y) = u16 (x + y).
Proof. apply Z.add_mod_idemp_l. lia. Qed.
Lemma u32_add_l x y : u32 (u32 x + y) = u32 (x + y).
Proof. apply Z.add_mod_idemp_l. lia. Qed.

Lemma frame_correction_periods now t :
  in_width 16 (tx_sequence t) -> in_width 32 (tx_timestamp t) ->
  0 <= usec now - usec (last_tv t) < 20000 * 2 ^ 31 ->
  frame_correction now 160 t
  = mk_rtp_transmit (u16 (tx_sequence t + (periods (last_tv t) now - 1)))
      (u32 (tx_timestamp t + 160 * (periods (last_tv t) now - 1))) (tx_ssrc t) now.
Proof.
  intros Hs Ht Hd. unfold frame_correction, periods.
  change (tv_sec ?d * 1000000 + tv_usec ?d) with (usec d). rewrite usec_difference.
  rewrite Z.quot_div_nonneg by lia. set (d := usec now - usec (last_tv t)) in *.
  assert (0 <= d / 20000 < 2 ^ 31) as Hq by (Z.to_euclidean_division_equations; lia).
  assert (abs_int (d / 20000) = d / 20000) as ->.
  { unfold abs_int, Meas.s32. rewrite (Z.mod_small (d / 20000 + 2 ^ 31)) by lia.
    replace (Z.abs (d / 20000 + 2 ^ 31 - 2 ^ 31)) with (d / 20000) by lia.
    rewrite Z.mod_small by lia. lia. }
  destruct t as [sq ts ss lt]. cbn in *. destruct (Z.ltb_spec 1 (d / 20000)); cbn.
  - rewrite Z.max_r by lia. by rewrite Z.mul_comm.
  - rewrite Z.max_l by lia. cbn. rewrite !Z.add_0_r, !wrap_small by done. done.
Qed.

(** The packet of a frame is decoded to the frame. *)
Lemma rtp_hdr_decode pt sq ts ss data ty len dur cref :
  frame_format ty = Some (pt, len, dur) -> length data = len ->
  rtp_decode true (rtp_hdr pt sq ts ss ++ data) cref = Ok (mk_gsm_data_frame ty cref data).
Proof.
  intros Hf Hlen. unfold rtp_decode, rtp_payload.
  assert (length (rtp_hdr pt sq ts ss) = 12%nat) as Hh by done.
  rewrite length_app, Hh, Hlen. change (rdz (rtp_hdr pt sq ts ss ++ data) 0) with 0x80.
  change (rdz (rtp_hdr pt sq ts ss ++ data) 1) with pt.
  change (0x80 .& 0xf) with 0. change (tst 0x80 0x10) with false. change (tst 0x80 0x20) with false.
  cbn [negb andb]. change (negb (0x80 .>> 6 =? RTP_VERSION)) with false. change (0 .<< 2) with 0.
  rewrite !Z.sub_0_r, !Z.add_0_r. rewrite (proj2 (Z.ltb_ge _ _)) by lia. rewrite (proj2 (Z.ltb_ge _ _)) by lia.
  assert (drop (Z.to_nat 12) (rtp_hdr pt sq ts ss ++ data) = data) as -> by done.
  replace (Z.to_nat (Z.of_nat (12 + len) - 12)) with len by lia.
  assert (take len data = data) as -> by (apply take_ge; lia).
  unfold frame_format in Hf. destruct (Z.eqb_spec ty GSM_TCHF_FRAME) as [->|]; [injection Hf as <- <- <-; done|].
  destruct (Z.eqb_spec ty GSM_TCHF_FRAME_EFR) as [->|]; [injection Hf as <- <- <-; done|done].
Qed.

Lemma run_sock {A} rs s (k : rtp_socket -> RM A) st : st !! rs = Some s -> (sock rs ≫= k) st = k s st.
Proof. intros Hs. unfold sock. rewrite run_assoc, run_gets, Hs. by rewrite run_ret. Qed.

(** C26: the stream of a channel. On a socket that sends, a speech frame becomes a packet at the end of the
    queue that is decoded to the same frame; its sequence number and its time stamp advance by the number of
    frame periods since the last frame, and by 160 samples each, however long the pause was. *)
Theorem rtp_send_frame_stream rs st s frame pt len dur rnd now cref :
  st !! rs = Some s -> tx_action s = RTP_SEND_DOWNSTREAM ->
  frame_format (msg_type frame) = Some (pt, len, dur) -> length (frame_data frame) = len ->
  in_width 16 (tx_sequence (transmit s)) -> in_width 32 (tx_timestamp (transmit s)) ->
  0 <= usec now - usec (last_tv (transmit s)) < 20000 * 2 ^ 31 ->
  let n := periods (last_tv (transmit s)) now in
  exists msg s',
    rtp_send_frame true rnd now rs frame st = Some (0, <[rs := s']> st, []) /\
    tx_queue (rtp s') = tx_queue (rtp s) ++ [msg] /\ when_write (rtp s') = true /\
    transmit s' = mk_rtp_transmit (u16 (tx_sequence (transmit s) + n)) (u32 (tx_timestamp (transmit s) + 160 * n))
                    (tx_ssrc (transmit s)) now /\
    rd_be16 (drop 2 msg) = u16 (tx_sequence (transmit s) + (n - 1)) /\
    rd_be32 (drop 4 msg) = u32 (tx_timestamp (transmit s) + 160 * (n - 1)) /\
    rtp_decode true msg cref = Ok (mk_gsm_data_frame (msg_type frame) cref (frame_data frame)).
Proof.
  intros Hs Htx Hf Hlen Hsq Hts Hd n. assert (dur = 160) as ->.
  { unfold frame_format in Hf. repeat case_match; congruence. }
  pose proof (frame_correction_periods now (transmit s) Hsq Hts Hd) as Hc. fold n in Hc.
  set (sq := u16 (tx_sequence (transmit s) + (n - 1))) in *.
  set (ts := u32 (tx_timestamp (transmit s) + 160 * (n - 1))) in *.
  set (msg := rtp_hdr pt sq ts (tx_ssrc (transmit s)) ++ frame_data frame).
  set (t' := mk_rtp_transmit (u16 (sq + 1)) (u32 (ts + 160)) (tx_ssrc (transmit s)) now).
  exists msg, (s <| transmit := t' |> <| rtp ::= enqueue msg |>). split_and!; try done.
  - unfold rtp_send_frame. rewrite (run_sock _ _ _ _ Hs), bool_decide_true by done. cbn [negb when].
    rewrite run_ret. unfold rtp_queue_frame. rewrite Hf, run_modify. cbn [negb].
    rewrite (run_sock _ (s <| transmit := mk_rtp_transmit sq ts (tx_ssrc (transmit s)) now |>)).
    2:{ rewrite lookup_alter_eq, Hs. cbn. apply f_equal. upd_norm. by rewrite Hc. }
    rewrite run_modify. rewrite take_ge by lia. unfold mret, M_ret. do 3 f_equal.
    apply map_eq. intros i. destruct (decide (i = rs)) as [->|].
    + rewrite !lookup_alter_eq, lookup_insert_eq, Hs. cbn. apply f_equal. upd_norm. by rewrite Hc.
    + by rewrite !lookup_alter_ne, lookup_insert_ne by done.
  - cbn. unfold t', sq, ts. rewrite u16_add_l, u32_add_l.
    replace (tx_sequence (transmit s) + (n - 1) + 1) with (tx_sequence (transmit s) + n) by lia.
    by replace (tx_timestamp (transmit s) + 160 * (n - 1) + 160) with (tx_timestamp (transmit s) + 160 * n) by lia.
  - unfold msg. change (drop 2 (rtp_hdr pt sq ts (tx_ssrc (transmit s)) ++ frame_data frame))
      with (be16 sq ++ be32 ts ++ be32 (tx_ssrc (transmit s)) ++ frame_data frame).
    apply be16_round. by apply wrap_in_width.
  - unfold msg. change (drop 4 (rtp_hdr pt sq ts (tx_ssrc (transmit s)) ++ frame_data frame))
      with (be32 ts ++ be32 (tx_ssrc (transmit s)) ++ frame_data frame).
    apply be32_round. by apply wrap_in_width.
  - unfold msg. by eapply rtp_hdr_decode.
Qed.

(** ** Links between sockets *)

(** A proxied socket names a socket that exists and names it back, unless its partner was freed. *)
Definition linked (st : rtp_state) (i : nat) (s : rtp_socket) : Prop :=
  match rx_action s with
  | RTP_PROXY =>
      match rx_ptr s with
      | NullPtr => True
      | Sock j => i <> j /\ exists s', st !! j = Some s' /\ rx_action s' = RTP_PROXY /\ rx_ptr s' = Sock i
      | Net _ => False
      end
  | RTP_RECV_UPSTREAM => exists n, rx_ptr s = Net n
  | RTP_NONE => True
  end.
Definition links (st : rtp_state) : Prop := forall i s, st !! i = Some s -> linked st i s.

(** The partner of a socket. *)
Definition partner (s : rtp_socket) : option nat :=
  match rx_action s, rx_ptr s with
  | RTP_PROXY, Sock j => Some j
  | _, _ => None
  end.
Definition free_for (st : rtp_state) (i : nat) (p : option nat -> Prop) : Prop :=
  exists s, st !! i = Some s /\ p (partner s).

Inductive rtp_op : Type :=
| OpCreate (rs : nat)
| OpFree (rs : nat)
| OpProxy (this other : nat)
| OpUpstream (this net : nat) (cref : Z)
| OpHandover (new_rs old_rs : nat)
| OpSendFrame (mem : bool) (rnd : Z * Z * Z) (now : timeval) (rs : nat) (frame : gsm_data_frame)
| OpReady (mem : bool) (data : option (res (list Z))) (written : option (list Z -> Z)) (rs : nat) (which : rtp_bfd_priv).

Definition rtp_step (op : rtp_op) : RM Z :=
  match op with
  | OpCreate rs => rtp_socket_create rs;; mret 0
  | OpFree rs => rtp_socket_free rs
  | OpProxy a b => rtp_socket_proxy a b
  | OpUpstream a net cref => rtp_socket_upstream a net cref
  | OpHandover n o => rtp_handover n o
  | OpSendFrame mem rnd now rs frame => rtp_send_frame mem rnd now rs frame
  | OpReady mem data written rs which => rtp_bfd_cb mem data written rs which
  end.

(** Sockets that take part exist, and one that is proxied is not given another use: it is linked only to
    its own partner, sent upstream only without one, and handed over only with one. *)
Definition rtp_allowed (st : rtp_state) (op : rtp_op) : Prop :=
  match op with
  | OpCreate rs => st !! rs = None
  | OpFree rs | OpSendFrame _ _ _ rs _ | OpReady _ _ _ rs _ => is_Some (st !! rs)
  | OpProxy a b =>
      a <> b /\ free_for st a (fun p => p = None \/ p = Some b) /\ free_for st b (fun p => p = None \/ p = Some a)
  | OpUpstream a _ _ => free_for st a (fun p => p = None)
  | OpHandover n o =>
      n <> o /\ free_for st n (fun p => p = None) /\
      exists s, st !! o = Some s /\ (rx_action s = RTP_PROXY -> exists j, rx_ptr s = Sock j)
  end.

Lemma alter_is_insert {A} (f : A -> A) i s (m : gmap nat A) : m !! i = Some s -> alter f i m = <[i := f s]> m.
Proof.
  intros Hs. apply map_eq. intros j. destruct (decide (j = i)) as [->|].
  - by rewrite lookup_alter_eq, lookup_insert_eq, Hs.
  - by rewrite lookup_alter_ne, lookup_insert_ne.
Qed.
Lemma wp_sock rs s Q st : st !! rs = Some s -> Q s st -> wp (sock rs) Q st.
Proof. intros Hs HQ. unfold sock. rewrite wp_bind, wp_gets. by rewrite Hs. Qed.
Lemma wp_sock_upd rs s f (Q : unit -> rtp_state -> Prop) st :
  st !! rs = Some s -> Q tt (<[rs := f s]> st) -> wp (sock_upd rs f) Q st.
Proof.
  intros Hs HQ. unfold sock_upd. rewrite wp_bind. eapply wp_sock; [done|]. rewrite wp_modify.
  by rewrite (alter_is_insert _ _ s).
Qed.

(** Changes that leave the use of a socket alone. *)
Lemma links_same st i s s' :
  st !! i = Some s -> rx_action s' = rx_action s -> rx_ptr s' = rx_ptr s -> links st -> links (<[i := s']> st).
Proof.
  intros Hs Ha Hp H j sj. rewrite lookup_insert_Some. intros Hj.
  assert (exists sj', st !! j = Some sj' /\ rx_action sj = rx_action sj' /\ rx_ptr sj = rx_ptr sj') as (sj' & Hj' & Ea & Ep).
  { destruct Hj as [[<- <-]|[? ?]]; eauto. }
  specialize (H j sj' Hj'). unfold linked in *. rewrite Ea, Ep. destruct (rx_action sj'); [done| |done].
  destruct (rx_ptr sj') as [|k|]; [done| |done]. destruct H as (Hjk & sk & Hk & Hka & Hkp). split; [done|].
  destruct (decide (k = i)) as [->|Hki].
  - exists s'. rewrite lookup_insert_eq. split; [done|]. split; congruence.
  - exists sk. by rewrite lookup_insert_ne.
Qed.

(** A socket without a partner is not named by any other. *)
Lemma links_no_partner st i s j sj :
  links st -> st !! i = Some s -> partner s = None -> st !! j = Some sj -> partner sj <> Some i.
Proof.
  intros H Hi Hp Hj Hpj. specialize (H j sj Hj). unfold linked, partner in *.
  destruct (rx_action sj); try done. destruct (rx_ptr sj) as [|k|]; try done. injection Hpj as ->.
  destruct H as (_ & s' & Hs' & Ha & Hp'). assert (s' = s) as -> by congruence. by rewrite Ha, Hp' in Hp.
Qed.

(** What a socket without a partner is used for next. *)
Lemma links_reuse st i s s' :
  links st -> st !! i = Some s -> partner s = None -> partner s' = None -> linked st i s' -> links (<[i := s']> st).
Proof.
  intros H Hi Hp Hp' Hl j sj. rewrite lookup_insert_Some. intros [[<- <-]|[Hne Hj]].
  - unfold linked, partner in *. destruct (rx_action s'); try done. by destruct (rx_ptr s').
  - pose proof (links_no_partner st i s j sj H Hi Hp Hj) as Hn. specialize (H j sj Hj).
    unfold linked, partner in *. destruct (rx_action sj); try done. destruct (rx_ptr sj) as [|k|]; try done.
    destruct H as (? & sk & Hk & ? & ?). split; [done|]. exists sk. rewrite lookup_insert_ne by congruence. done.
Qed.

(** Two sockets that are free or linked to each other are linked. *)
Lemma links_pair st a b sa sb sa' sb' :
  links st -> a <> b -> st !! a = Some sa -> st !! b = Some sb ->
  partner sa = None \/ partner sa = Some b -> partner sb = None \/ partner sb = Some a ->
  rx_action sa' = RTP_PROXY -> rx_ptr sa' = Sock b -> rx_action sb' = RTP_PROXY -> rx_ptr sb' = Sock a ->
  links (<[b := sb']> (<[a := sa']> st)).
Proof.
  intros H Hab Ha Hb Hpa Hpb Hsa Hsa' Hsb Hsb' j sj. unfold linked. rewrite lookup_insert_Some, lookup_insert_Some.
  intros [[<- <-]|[Hjb [[<- <-]|[Hja Hj]]]].
  - rewrite Hsb, Hsb'. split; [done|]. exists sa'. by rewrite lookup_insert_ne, lookup_insert_eq by done.
  - rewrite Hsa, Hsa'. split; [done|]. exists sb'. by rewrite lookup_insert_eq.
  - assert (partner sj <> Some a /\ partner sj <> Some b) as [Hna Hnb].
    { specialize (H j sj Hj). unfold linked in H. unfold partner in *.
      split; intros E; destruct (rx_action sj); try done; destruct (rx_ptr sj) as [|k|]; try done;
        injection E as ->; destruct H as (_ & s' & Hs' & E1 & E2);
        [assert (s' = sa) as -> by congruence|assert (s' = sb) as -> by congruence];
        rewrite E1, E2 in *; intuition congruence. }
    specialize (H j sj Hj). unfold linked, partner in *. destruct (rx_action sj); try done.
    destruct (rx_ptr sj) as [|k|]; try done. destruct H as (? & sk & Hk & ? & ?). split; [done|].
    exists sk. rewrite !lookup_insert_ne by congruence. done.
Qed.

Section safe.
Context (st : rtp_state) (H : links st).

Lemma safe_proxy a b : rtp_allowed st (OpProxy a b) -> wp (rtp_socket_proxy a b) (fun _ => links) st.
Proof.
  intros (Hab & (sa & Ha & Hpa) & (sb & Hb & Hpb)). unfold rtp_socket_proxy. rewrite wp_bind.
  eapply wp_sock_upd; [done|]. rewrite wp_bind. eapply wp_sock_upd; [by rewrite lookup_insert_ne|]. rewrite wp_ret.
  by eapply (links_pair st a b sa sb).
Qed.

Lemma safe_free rs : is_Some (st !! rs) -> wp (rtp_socket_free rs) (fun _ => links) st.
Proof.
  intros [s Hs]. unfold rtp_socket_free. rewrite wp_bind. eapply wp_sock; [done|]. rewrite wp_bind.
  assert (partner s = None -> links (delete rs st)) as Hnone.
  { intros Hp j sj [Hne Hj]%lookup_delete_Some. pose proof (links_no_partner st rs s j sj H Hs Hp Hj) as Hn.
    specialize (H j sj Hj). unfold linked, partner in *. destruct (rx_action sj); try done.
    destruct (rx_ptr sj) as [|k|]; try done. destruct H as (? & sk & ? & ? & ?). split; [done|].
    exists sk. rewrite lookup_delete_ne by congruence. done. }
  pose proof (H rs s Hs) as Hl. unfold linked, partner in *.
  case_bool_decide as Ha; [rewrite Ha in *|].
  - destruct (rx_ptr s) as [|j|] eqn:Ep; [rewrite wp_ret, wp_bind, wp_modify, wp_ret; by apply Hnone| |done].
    destruct Hl as (Hne & sj & Hj & Haj & Hpj). eapply wp_sock_upd; [done|].
    rewrite wp_bind, wp_modify, wp_ret.
    set (sj' := sj <| rx_ptr := NullPtr |>).
    intros k sk [Hk Hsk]%lookup_delete_Some. revert Hsk. rewrite lookup_insert_Some.
    intros [[<- <-]|[Hkj Hsk]]; [unfold linked; cbn; by rewrite Haj|].
    specialize (H k sk Hsk). unfold linked in *. destruct (rx_action sk); try done.
    destruct (rx_ptr sk) as [|m|]; try done. destruct H as (? & sm & Hm & ? & Hpm). split; [done|].
    exists sm. rewrite lookup_delete_ne, lookup_insert_ne; try done; intros ->; congruence.
  - rewrite wp_ret, wp_bind, wp_modify, wp_ret. apply Hnone. by destruct (rx_action s).
Qed.

Lemma safe_upstream a net cref :
  free_for st a (fun p => p = None) -> wp (rtp_socket_upstream a net cref) (fun _ => links) st.
Proof.
  intros (s & Hs & Hp). unfold rtp_socket_upstream. rewrite wp_bind.
  destruct (negb (cref =? 0)); (eapply wp_sock_upd; [done|]); rewrite wp_ret;
    apply (links_reuse st a s); unfold linked; cbn; eauto.
Qed.

Lemma safe_sub_upd rs which f s :
  st !! rs = Some s -> wp (sub_upd rs which f) (fun _ => links) st.
Proof.
  intros Hs. unfold sub_upd. eapply wp_sock_upd; [done|]. destruct which; by apply (links_same st rs s).
Qed.

Lemma safe_handover n o : rtp_allowed st (OpHandover n o) -> wp (rtp_handover n o) (fun _ => links) st.
Proof.
  intros (Hno & (sn & Hn & Hpn) & (so & Ho & Hold)). unfold rtp_handover. rewrite wp_bind.
  eapply wp_sock; [done|]. rewrite wp_bind. eapply wp_sock_upd; [done|]. rewrite wp_bind.
  set (sn' := sn <| rx_action := rx_action so |> <| tx_action := tx_action so |> <| transmit := transmit so |>).
  pose proof (H o so Ho) as Hl. unfold linked in Hl. destruct (rx_action so) eqn:Ea.
  - rewrite !wp_ret. apply (links_reuse st n sn); done.
  - destruct (Hold eq_refl) as [j Hj]. rewrite Hj in Hl |- *. destruct Hl as (Hoj & sj & Hsj & Haj & Hpj).
    assert (n <> j) as Hnj.
    { intros ->. assert (sj = sn) as -> by congruence. unfold partner in Hpn. by rewrite Haj, Hpj in Hpn. }
    rewrite wp_bind. unfold rtp_socket_proxy. rewrite wp_bind. eapply wp_sock_upd; [by rewrite lookup_insert_eq|].
    rewrite wp_bind. eapply wp_sock_upd; [by rewrite !lookup_insert_ne by done|]. rewrite wp_ret.
    eapply wp_sock_upd; [by rewrite !lookup_insert_ne by congruence|]. rewrite wp_ret.
    rewrite insert_insert_eq.
    set (sn2 := sn' <| rx_action := RTP_PROXY |> <| rx_ptr := Sock j |>).
    set (sj2 := sj <| rx_action := RTP_PROXY |> <| rx_ptr := Sock n |>).
    set (so2 := so <| rx_ptr := NullPtr |>).
    intros k sk. rewrite !lookup_insert_Some. unfold linked. intros [[<- <-]|[Hok [[<- <-]|[Hjk [[<- <-]|[Hnk Hk]]]]]].
    + cbn. by rewrite Ea.
    + cbn. split; [done|]. exists sn2. by rewrite lookup_insert_ne, lookup_insert_ne, lookup_insert_eq by done.
    + cbn. split; [done|]. exists sj2. by rewrite lookup_insert_ne, lookup_insert_eq by done.
    + pose proof (links_no_partner st n sn k sk H Hn Hpn Hk) as Hnn. specialize (H k sk Hk).
      unfold linked, partner in *. destruct (rx_action sk); try done. destruct (rx_ptr sk) as [|m|]; try done.
      destruct H as (? & sm & Hm & ? & Hpm). split; [done|]. exists sm.
      rewrite !lookup_insert_ne; try done; intros ->; congruence.
  - destruct Hl as [net Hnet]. eapply wp_sock_upd; [by rewrite lookup_insert_eq|]. rewrite wp_ret, insert_insert_eq.
    apply (links_reuse st n sn); unfold linked; cbn; rewrite ?Ea; eauto.
Qed.

End safe.

Lemma safe_queue mem now rs frame st :
  links st -> is_Some (st !! rs) -> wp (rtp_queue_frame mem now rs frame) (fun _ => links) st.
Proof.
  intros H [s Hs]. unfold rtp_queue_frame. destruct (frame_format (msg_type frame)) as [[[pt len] dur]|]; [|done].
  rewrite wp_bind, wp_modify, (alter_is_insert _ _ s) by done.
  set (s' := s <| transmit ::= frame_correction now dur |>).
  assert (links (<[rs := s']> st)) as H2 by (by apply (links_same st rs s)).
  destruct (negb mem); [done|]. rewrite wp_bind. eapply wp_sock; [by rewrite lookup_insert_eq|].
  rewrite wp_bind, wp_modify, (alter_is_insert _ _ s') by (by rewrite lookup_insert_eq).
  rewrite wp_ret. by apply (links_same _ rs s'); [rewrite lookup_insert_eq|..].
Qed.
Lemma safe_send mem rnd now rs frame st :
  links st -> is_Some (st !! rs) -> wp (rtp_send_frame mem rnd now rs frame) (fun _ => links) st.
Proof.
  intros H [s Hs]. unfold rtp_send_frame. rewrite wp_bind. eapply wp_sock; [done|]. rewrite wp_bind, wp_when.
  destruct (negb _); [|by apply safe_queue]. destruct rnd as [[r1 r2] r3].
  rewrite wp_modify, (alter_is_insert _ _ s) by done. apply safe_queue; [|by rewrite lookup_insert_eq].
  by apply (links_same st rs s).
Qed.

Lemma safe_read mem data rs which st :
  links st -> is_Some (st !! rs) -> wp (rtp_socket_read mem data rs which) (fun _ st' => links st' /\ is_Some (st' !! rs)) st.
Proof.
  intros H [s Hs]. unfold rtp_socket_read.
  assert (forall rc : Z, wp (mret rc : RM Z) (fun _ st' => links st' /\ is_Some (st' !! rs)) st) as Hret.
  { intros rc. rewrite wp_ret. split; [done|by eexists]. }
  destruct mem; [|apply Hret]. cbn [negb].
  assert (forall w f j sj, st !! j = Some sj -> wp (sub_upd j w f) (fun _ st' => links st' /\ is_Some (st' !! rs)) st) as Hsub.
  { intros w f j sj Hj. unfold sub_upd. eapply wp_sock_upd; [done|]. split.
    - destruct w; by apply (links_same st j sj).
    - destruct (decide (j = rs)) as [->|]; [rewrite lookup_insert_eq|rewrite lookup_insert_ne by done]; by eexists. }
  destruct data as [msg|rc].
  2:{ rewrite wp_bind. eapply wp_mono; [by eapply Hsub|]. done. }
  rewrite wp_bind. eapply wp_sock; [done|]. pose proof (H rs s Hs) as Hl. unfold linked in Hl.
  destruct (rx_action s); [apply Hret| |].
  - destruct (rx_ptr s) as [|j|]; [apply Hret| |done].
    destruct Hl as (_ & sj & Hj & _ & _).
    destruct which; [apply Hret| |]; rewrite wp_bind;
      (eapply wp_mono; [by eapply Hsub|]); done.
  - destruct Hl as [net ->]. destruct ((rx_callref s =? 0) || _); [apply Hret|].
    destruct which; [apply Hret| |apply Hret].
    destruct (rtp_decode true msg (rx_callref s)) as [fr|rc]; [|apply Hret].
    rewrite wp_bind, wp_emit. apply Hret.
Qed.

Lemma safe_write w rs which st : links st -> is_Some (st !! rs) -> wp (rtp_socket_write w rs which) (fun _ => links) st.
Proof.
  intros H [s Hs]. unfold rtp_socket_write. rewrite wp_bind. eapply wp_sock; [done|].
  destruct (tx_queue _) as [|msg q]; rewrite wp_bind; (eapply wp_mono; [by eapply safe_sub_upd|]); intros ? st' H'.
  - done.
  - rewrite wp_bind, wp_emit. by destruct (w msg <? _).
Qed.

Lemma rtp_step_links st op :
  links st -> rtp_allowed st op -> wp (rtp_step op) (fun _ => links) st.
Proof.
  intros H Hop. destruct op as [rs|rs|a b|a net cref|n o|mem rnd now rs fr|mem data w rs which];
    cbn [rtp_step].
  - unfold rtp_socket_create. rewrite wp_bind, wp_modify, wp_ret. cbn in Hop. intros j sj. rewrite lookup_insert_Some.
    intros [[<- <-]|[Hne Hj]]; [done|]. specialize (H j sj Hj). unfold linked in *. destruct (rx_action sj); try done.
    destruct (rx_ptr sj) as [|k|]; try done. destruct H as (? & sk & Hk & ?). split; [done|]. exists sk.
    rewrite lookup_insert_ne by congruence. done.
  - by apply safe_free.
  - by apply safe_proxy.
  - by apply safe_upstream.
  - by apply safe_handover.
  - by apply safe_send.
  - destruct which; [done| |]; cbn [rtp_bfd_cb]; rewrite wp_bind;
      (apply wp_mono with (Q := fun _ st' => links st' /\ is_Some (st' !! rs));
       [destruct data; [rewrite wp_bind; by apply safe_read|by rewrite wp_ret]|]);
      intros _ st' [H' Hs']; rewrite wp_bind; apply wp_mono with (Q := fun _ => links); try done;
      destruct w; try done; rewrite wp_bind; by apply safe_write.
Qed.

(** States reached by what [rtp_allowed] allows. *)
Inductive rtp_reach : rtp_state -> Prop :=
| rtp_start : rtp_reach ∅
| rtp_then st op rc st' ev :
    rtp_reach st -> rtp_allowed st op -> rtp_step op st = Some (rc, st', ev) -> rtp_reach st'.

Lemma rtp_reach_links st : rtp_reach st -> links st.
Proof.
  induction 1 as [|st op rc st' ev _ IH Hop Hr]; [by intros i s ?%lookup_empty_Some|].
  pose proof (rtp_step_links st op IH Hop) as Hw. by rewrite (wp_run _ _ _ _ _ _ Hr) in Hw.
Qed.

(** C31: the proxy is safe when its sockets are used one at a time. As long as a socket that is proxied is
    linked, sent upstream or handed over only as [rtp_allowed] says, no operation ever follows a pointer to
    a socket that was freed, and every link is mutual. *)
Theorem rtp_links_safe st op :
  rtp_reach st -> rtp_allowed st op ->
  exists rc st' ev, rtp_step op st = Some (rc, st', ev) /\
    forall i s j, st' !! i = Some s -> partner s = Some j ->
      i <> j /\ exists s', st' !! j = Some s' /\ partner s' = Some i.
Proof.
  intros H%rtp_reach_links Hop.
  destruct (wp_elim _ (fun _ => links) _ (rtp_step_links st op H Hop)) as (rc & st' & ev & Hr & Hl).
  exists rc, st', ev. split; [done|]. intros i s j Hi Hp. specialize (Hl i s Hi). unfold linked, partner in *.
  destruct (rx_action s); try done. destruct (rx_ptr s) as [|k|]; try done. injection Hp as ->.
  destruct Hl as (? & s' & ? & Ha & Hp'). split; [done|]. exists s'. by rewrite Ha, Hp'.
Qed.

(** A call between sockets 0 and 1 is handed over from 0 to 2. *)
Lemma rtp_links_safe_witness :
  exists st rc st' ev, rtp_reach st /\ rtp_step (OpHandover 2 0) st = Some (rc, st', ev) /\
    partner <$> (st' !! 1%nat) = Some (Some 2%nat) /\
    forall i s j, st' !! i = Some s -> partner s = Some j -> i <> j /\ exists s', st' !! j = Some s' /\ partner s' = Some i.
Proof.
  set (s1 := <[2%nat := new_rtp_socket]> (<[1%nat := new_rtp_socket]> (<[0%nat := new_rtp_socket]> (∅ : rtp_state)))).
  set (link j := new_rtp_socket <| rx_action := RTP_PROXY |> <| rx_ptr := Sock j |>).
  set (s2 := <[1%nat := link 0%nat]> (<[0%nat := link 1%nat]> s1)).
  assert (rtp_reach s2) as Hr.
  { apply (rtp_then s1 (OpProxy 0 1) 0 s2 []).
    - apply (rtp_then (<[1%nat := new_rtp_socket]> (<[0%nat := new_rtp_socket]> ∅)) (OpCreate 2) 0 s1 []); [|done|done].
      apply (rtp_then (<[0%nat := new_rtp_socket]> ∅) (OpCreate 1) 0 _ []); [|done|done].
      apply (rtp_then ∅ (OpCreate 0) 0 _ []); [apply rtp_start|done|done].
    - split; [done|]. split; exists new_rtp_socket; split; try reflexivity; left; reflexivity.
    - vm_compute. reflexivity. }
  assert (rtp_allowed s2 (OpHandover 2 0)) as Hop.
  { split; [done|]. split; [exists new_rtp_socket; split; reflexivity|].
    exists (link 1%nat). split; [reflexivity|]. intros _. by exists 1%nat. }
  destruct (rtp_links_safe s2 (OpHandover 2 0) Hr Hop) as (rc & st' & ev & Hstep & Hl).
  exists s2, rc, st', ev. split; [exact Hr|]. split; [exact Hstep|]. split; [|exact Hl].
  vm_compute in Hstep. injection Hstep as <- <- <-. reflexivity.
Defined.

(** A socket that is linked a second time leaves its first partner behind: when it is freed, the first
    partner still names it, and what it receives follows the pointer. *)
Example rtp_relink_dangles :
  (rtp_step (OpCreate 0);; rtp_step (OpCreate 1);; rtp_step (OpCreate 2);;
   rtp_step (OpProxy 0 1);; rtp_step (OpProxy 0 2);; rtp_step (OpFree 0);;
   rtp_step (OpReady true (Some (Ok [1; 2; 3])) None 1 RTP_PRIV_RTP)) ∅ = None.
Proof. vm_compute. reflexivity. Qed.

(** A second and a half after the last frame, a frame skips 75 sequence numbers. *)
Lemma rtp_send_frame_stream_witness :
  let t := mk_rtp_transmit 65530 1000 7 (mk_timeval 10 900000) in
  let s := new_rtp_socket <| tx_action := RTP_SEND_DOWNSTREAM |> <| transmit := t |> in
  let frame := mk_gsm_data_frame GSM_TCHF_FRAME_EFR 0 (replicate 31 5) in
  exists msg s',
    rtp_send_frame true (0, 0, 0) (mk_timeval 12 400000) 0 frame {[ 0%nat := s ]} = Some (0, <[0%nat := s']> {[ 0%nat := s ]}, []) /\
    transmit s' = mk_rtp_transmit 69 13000 7 (mk_timeval 12 400000) /\
    rtp_decode true msg 5 = Ok (mk_gsm_data_frame GSM_TCHF_FRAME_EFR 5 (replicate 31 5)).
Proof.
  intros t s frame.
  destruct (rtp_send_frame_stream 0 {[ 0%nat := s ]} s frame 97 31 160 (0, 0, 0) (mk_timeval 12 400000) 5)
    as (msg & s' & Hr & _ & _ & Ht & _ & _ & Hdec); try reflexivity; try (by vm_bounds).
  exists msg, s'. split; [exact Hr|]. split; [rewrite Ht; vm_compute; reflexivity|exact Hdec].
Defined.

End RtpProps.
