(* ===== verification/Sysinfo.v ===== *)
(** System information: frequency lists, rest octets and the messages made of them
    (libbsc/system_information.c, libbsc/rest_octets.c), and the mobile allocation of a hopping time slot
    ([generate_ma_for_ts] of libbsc/bsc_init.c).

    Bit vectors belong to libosmocore. As sets of ARFCNs they are the class [Bitvec]; as buffers that are
    written from the front, [BitWriter]. What libosmocore promises about them is [BitvecOk] and
    [BitWriterOk]. *)

From S2P Require Import Prelude Radio.
Import Radio.

Module Sysinfo.

(** ** Bit vectors as sets of ARFCNs *)

Class Bitvec : Type := {
  bitvec : Type;
  bitvec_bits : bitvec -> Z;                     (* data_len * 8 *)
  bitvec_get_bit_pos : bitvec -> Z -> bool;
  bitvec_set_bit_pos : bitvec -> Z -> bool -> bitvec;
  bitvec_clear : bitvec -> bitvec                (* memset(bv->data, 0, bv->data_len) *)
}.
Class BitvecOk `{Bitvec} : Prop := {
  get_set v i b j : 0 <= i < bitvec_bits v ->
    bitvec_get_bit_pos (bitvec_set_bit_pos v i b) j = if i =? j then b else bitvec_get_bit_pos v j;
  get_clear v j : bitvec_get_bit_pos (bitvec_clear v) j = false;
  bits_set v i b : bitvec_bits (bitvec_set_bit_pos v i b) = bitvec_bits v;
  bits_clear v : bitvec_bits (bitvec_clear v) = bitvec_bits v
}.

(** Constants and layouts of libosmocore. *)
Class SysinfoConst : Type := {
  GSM48_CELL_CHAN_DESC_SIZE : Z;
  sizeof_si1 : Z; sizeof_si2 : Z; sizeof_si3 : Z; sizeof_si4 : Z; sizeof_si13 : Z
}.

(** ** Frequency lists (TS 04.08, 10.5.2.13) *)

(** [p[i] |= x] for a buffer of octets. *)
Definition or_at (p : list Z) (i x : Z) : list Z := alter (fun y => y .| u8 x) (Z.to_nat i) p.

Section freq.
Context `{Bitvec} `{SysinfoConst}.

(** The bit map 0 format. *)
Definition freq_list_bm0_set_arfcn (chan_list : list Z) (arfcn : Z) : Z * list Z :=
  if (124 <? arfcn) || (arfcn <? 1) then (- EINVAL, chan_list)
  else
    let arfcn := arfcn - 1 in
    let byte := arfcn / 8 in
    let bit := arfcn mod 8 in
    (0, or_at chan_list (GSM48_CELL_CHAN_DESC_SIZE - 1 - byte) (1 .<< bit)).

(** The variable bit map format. *)
Definition freq_list_bmrel_set_arfcn (chan_list : list Z) (arfcn : Z) : Z * list Z :=
  let min_arfcn := (rdz chan_list 0 .& 1) .<< 9 in
  let min_arfcn := min_arfcn .| (rdz chan_list 1 .<< 1) in
  let min_arfcn := min_arfcn .| ((rdz chan_list 2 .>> 7) .& 1) in
  if arfcn =? min_arfcn then (0, chan_list)
  else if arfcn <? min_arfcn then (- EINVAL, chan_list)
  else if min_arfcn + 111 <? arfcn then (- EINVAL, chan_list)
  else
    let bitno := arfcn - min_arfcn in
    let byte := bitno / 8 in
    let bit := bitno mod 8 in
    (0, or_at chan_list (2 + byte) (1 .<< (7 - bit))).

(** [for (i = 0; i < n; i++) if (bitvec_get_bit_pos(bv, i)) ...]: from [i] on, [n] turns. *)
Fixpoint set_arfcns (set_arfcn : list Z -> Z -> Z * list Z) (bv : bitvec) (n : nat) (i : Z) (chan_list : list Z)
    : Z * list Z :=
  match n with
  | O => (0, chan_list)
  | S n =>
      if bitvec_get_bit_pos bv i then
        let '(rc, chan_list) := set_arfcn chan_list i in
        if rc <? 0 then (rc, chan_list) else set_arfcns set_arfcn bv n (i + 1) chan_list
      else set_arfcns set_arfcn bv n (i + 1) chan_list
  end.

(** The least and the greatest ARFCN. *)
Fixpoint min_max (bv : bitvec) (n : nat) (i mn mx : Z) : Z * Z :=
  match n with
  | O => (mn, mx)
  | S n =>
      if bitvec_get_bit_pos bv i then min_max bv n (i + 1) (if i <? mn then i else mn) (if mx <? i then i else mx)
      else min_max bv n (i + 1) mn mx
  end.

(** [gsm900]: the BTS is in that band. *)
Definition bitvec2freq_list (bv : bitvec) (gsm900 : bool) : Z * list Z :=
  let chan_list := replicate 16 0 in
  let n := Z.to_nat (bitvec_bits bv) in
  if gsm900 then
    let chan_list := <[0%nat := 0]> chan_list in
    set_arfcns freq_list_bm0_set_arfcn bv n 0 chan_list
  else
    let chan_list := <[0%nat := 0x8e]> chan_list in
    let '(mn, mx) := min_max bv n 0 1024 (-1) in
    if mx =? -1 then (0, <[0%nat := 0]> chan_list)
    else if 111 <? mx - mn then (- EINVAL, chan_list)
    else
      let chan_list := or_at chan_list 0 ((mn .>> 9) .& 1) in
      let chan_list := <[1%nat := u8 (mn .>> 1)]> chan_list in
      let chan_list := <[2%nat := u8 ((mn .& 1) .<< 7)]> chan_list in
      set_arfcns freq_list_bmrel_set_arfcn bv n 0 chan_list.

End freq.

(** ** Bits written one after the other *)

Inductive bit_value : Type := ZERO | ONE | L | H.
#[export] Instance bit_value_eq_dec : EqDecision bit_value.
Proof. solve_decision. Defined.

Class BitWriter : Type := {
  bw : Type;
  bw_data : Z -> bw;                             (* an empty vector over the given number of octets *)
  bitvec_set_bit : bw -> bit_value -> bw;
  bitvec_set_uint : bw -> Z -> Z -> bw;          (* value, number of bits *)
  bitvec_spare_padding : bw -> Z -> bw           (* up to the given bit *)
}.

(** The low [n] bits of [x], the most significant one first. *)
Fixpoint msb_bits (n : nat) (x : Z) : list bit_value :=
  match n with
  | O => []
  | S n => (if Z.testbit x (Z.of_nat n) then ONE else ZERO) :: msb_bits n x
  end.

(** What was written stands in the vector as long as there is room. *)
Class BitWriterOk `{BitWriter} : Type := {
  bw_room : bw -> Z;                             (* bits *)
  bw_bits : bw -> list bit_value;
  bw_data_room n : bw_room (bw_data n) = 8 * n;
  bw_data_bits n : bw_bits (bw_data n) = [];
  bw_set_bit_room v b : bw_room (bitvec_set_bit v b) = bw_room v;
  bw_set_bit v b : Z.of_nat (length (bw_bits v)) < bw_room v -> bw_bits (bitvec_set_bit v b) = bw_bits v ++ [b];
  bw_set_uint_room v x n : bw_room (bitvec_set_uint v x n) = bw_room v;
  bw_set_uint v x n : Z.of_nat (length (bw_bits v)) + n <= bw_room v -> 0 <= n ->
    bw_bits (bitvec_set_uint v x n) = bw_bits v ++ msb_bits (Z.to_nat n) x;
  (* padding adds bits at the end *)
  bw_padding v n : bw_bits v `prefix_of` bw_bits (bitvec_spare_padding v n)
}.

(** ** Rest octets *)

Record gsm48_si_selection_params : Type := mk_gsm48_si_selection_params {
  sp_present : bool;
  sp_cbq : bool;
  cell_resel_off : Z;  (* 6 bits *)
  temp_offs : Z;  (* 3 bits *)
  penalty_time : Z  (* 5 bits *)
}.

#[export] Instance upd_sp_present : Upd sp_present := fun f r => mk_gsm48_si_selection_params (f
  (sp_present r)) (sp_cbq r) (cell_resel_off r) (temp_offs r) (penalty_time r).
#[export] Instance upd_sp_cbq : Upd sp_cbq := fun f r => mk_gsm48_si_selection_params
  (sp_present r) (f (sp_cbq r)) (cell_resel_off r) (temp_offs r) (penalty_time r).
#[export] Instance upd_cell_resel_off : Upd cell_resel_off := fun f r =>
  mk_gsm48_si_selection_params (sp_present r) (sp_cbq r) (f (cell_resel_off r)) (temp_offs r)
  (penalty_time r).
#[export] Instance upd_temp_offs : Upd temp_offs := fun f r => mk_gsm48_si_selection_params
  (sp_present r) (sp_cbq r) (cell_resel_off r) (f (temp_offs r)) (penalty_time r).
#[export] Instance upd_penalty_time : Upd penalty_time := fun f r =>
  mk_gsm48_si_selection_params (sp_present r) (sp_cbq r) (cell_resel_off r) (temp_offs r) (f
  (penalty_time r)).

Record gsm48_si_power_offset : Type := mk_gsm48_si_power_offset {
  po_present : bool;
  power_offset : Z  (* 2 bits *)
}.

#[export] Instance upd_po_present : Upd po_present := fun f r => mk_gsm48_si_power_offset (f
  (po_present r)) (power_offset r).
#[export] Instance upd_power_offset : Upd power_offset := fun f r => mk_gsm48_si_power_offset
  (po_present r) (f (power_offset r)).

Record gsm48_si3_gprs_ind : Type := mk_gsm48_si3_gprs_ind {
  gi_present : bool;
  ra_colour : Z;  (* 3 bits *)
  si13_position : bool
}.

#[export] Instance upd_gi_present : Upd gi_present := fun f r => mk_gsm48_si3_gprs_ind (f
  (gi_present r)) (ra_colour r) (si13_position r).
#[export] Instance upd_ra_colour : Upd ra_colour := fun f r => mk_gsm48_si3_gprs_ind (gi_present
  r) (f (ra_colour r)) (si13_position r).
#[export] Instance upd_si13_position : Upd si13_position := fun f r => mk_gsm48_si3_gprs_ind
  (gi_present r) (ra_colour r) (f (si13_position r)).

Record gsm48_si_ro_info : Type := mk_gsm48_si_ro_info {
  selection_params : gsm48_si_selection_params;
  ro_power_offset : gsm48_si_power_offset;
  si2ter_indicator : bool;
  early_cm_ctrl : bool;
  scheduling_present : bool;
  scheduling_where : Z;  (* 3 bits *)
  gprs_ind : gsm48_si3_gprs_ind;
  break_ind : bool
}.

#[export] Instance upd_selection_params : Upd selection_params := fun f r => mk_gsm48_si_ro_info
  (f (selection_params r)) (ro_power_offset r) (si2ter_indicator r) (early_cm_ctrl r)
  (scheduling_present r) (scheduling_where r) (gprs_ind r) (break_ind r).
#[export] Instance upd_ro_power_offset : Upd ro_power_offset := fun f r => mk_gsm48_si_ro_info
  (selection_params r) (f (ro_power_offset r)) (si2ter_indicator r) (early_cm_ctrl r)
  (scheduling_present r) (scheduling_where r) (gprs_ind r) (break_ind r).
#[export] Instance upd_si2ter_indicator : Upd si2ter_indicator := fun f r => mk_gsm48_si_ro_info
  (selection_params r) (ro_power_offset r) (f (si2ter_indicator r)) (early_cm_ctrl r)
  (scheduling_present r) (scheduling_where r) (gprs_ind r) (break_ind r).
#[export] Instance upd_early_cm_ctrl : Upd early_cm_ctrl := fun f r => mk_gsm48_si_ro_info
  (selection_params r) (ro_power_offset r) (si2ter_indicator r) (f (early_cm_ctrl r))
  (scheduling_present r) (scheduling_where r) (gprs_ind r) (break_ind r).
#[export] Instance upd_scheduling_present : Upd scheduling_present := fun f r =>
  mk_gsm48_si_ro_info (selection_params r) (ro_power_offset r) (si2ter_indicator r) (early_cm_ctrl
  r) (f (scheduling_present r)) (scheduling_where r) (gprs_ind r) (break_ind r).
#[export] Instance upd_scheduling_where : Upd scheduling_where := fun f r => mk_gsm48_si_ro_info
  (selection_params r) (ro_power_offset r) (si2ter_indicator r) (early_cm_ctrl r)
  (scheduling_present r) (f (scheduling_where r)) (gprs_ind r) (break_ind r).
#[export] Instance upd_gprs_ind : Upd gprs_ind := fun f r => mk_gsm48_si_ro_info
  (selection_params r) (ro_power_offset r) (si2ter_indicator r) (early_cm_ctrl r)
  (scheduling_present r) (scheduling_where r) (f (gprs_ind r)) (break_ind r).
#[export] Instance upd_break_ind : Upd break_ind := fun f r => mk_gsm48_si_ro_info
  (selection_params r) (ro_power_offset r) (si2ter_indicator r) (early_cm_ctrl r)
  (scheduling_present r) (scheduling_where r) (gprs_ind r) (f (break_ind r)).

Inductive pbcch_carrier_type : Type := PBCCH_BCCH | PBCCH_ARFCN | PBCCH_MAIO.
#[export] Instance pbcch_carrier_type_eq_dec : EqDecision pbcch_carrier_type.
Proof. solve_decision. Defined.

Record gprs_ext_info : Type := mk_gprs_ext_info {
  egprs_supported : bool;
  use_egprs_p_ch_req : bool;
  bep_period : Z;  (* 4 bits *)
  pfc_supported : bool;
  dtm_supported : bool;
  bss_paging_coordination : bool
}.

#[export] Instance upd_egprs_supported : Upd egprs_supported := fun f r => mk_gprs_ext_info (f
  (egprs_supported r)) (use_egprs_p_ch_req r) (bep_period r) (pfc_supported r) (dtm_supported r)
  (bss_paging_coordination r).
#[export] Instance upd_use_egprs_p_ch_req : Upd use_egprs_p_ch_req := fun f r =>
  mk_gprs_ext_info (egprs_supported r) (f (use_egprs_p_ch_req r)) (bep_period r) (pfc_supported r)
  (dtm_supported r) (bss_paging_coordination r).
#[export] Instance upd_bep_period : Upd bep_period := fun f r => mk_gprs_ext_info
  (egprs_supported r) (use_egprs_p_ch_req r) (f (bep_period r)) (pfc_supported r) (dtm_supported
  r) (bss_paging_coordination r).
#[export] Instance upd_pfc_supported : Upd pfc_supported := fun f r => mk_gprs_ext_info
  (egprs_supported r) (use_egprs_p_ch_req r) (bep_period r) (f (pfc_supported r)) (dtm_supported
  r) (bss_paging_coordination r).
#[export] Instance upd_dtm_supported : Upd dtm_supported := fun f r => mk_gprs_ext_info
  (egprs_supported r) (use_egprs_p_ch_req r) (bep_period r) (pfc_supported r) (f (dtm_supported
  r)) (bss_paging_coordination r).
#[export] Instance upd_bss_paging_coordination : Upd bss_paging_coordination := fun f r =>
  mk_gprs_ext_info (egprs_supported r) (use_egprs_p_ch_req r) (bep_period r) (pfc_supported r)
  (dtm_supported r) (f (bss_paging_coordination r)).

Record gprs_cell_options : Type := mk_gprs_cell_options {
  nmo : Z;
  t3168 : Z;  (* milliseconds *)
  t3192 : Z;  (* milliseconds *)
  drx_timer_max : Z;  (* seconds *)
  bs_cv_max : Z;
  ext_info_present : bool;
  ext_info : gprs_ext_info
}.

#[export] Instance upd_nmo : Upd nmo := fun f r => mk_gprs_cell_options (f (nmo r)) (t3168 r)
  (t3192 r) (drx_timer_max r) (bs_cv_max r) (ext_info_present r) (ext_info r).
#[export] Instance upd_t3168 : Upd t3168 := fun f r => mk_gprs_cell_options (nmo r) (f (t3168
  r)) (t3192 r) (drx_timer_max r) (bs_cv_max r) (ext_info_present r) (ext_info r).
#[export] Instance upd_t3192 : Upd t3192 := fun f r => mk_gprs_cell_options (nmo r) (t3168 r) (f
  (t3192 r)) (drx_timer_max r) (bs_cv_max r) (ext_info_present r) (ext_info r).
#[export] Instance upd_drx_timer_max : Upd drx_timer_max := fun f r => mk_gprs_cell_options (nmo
  r) (t3168 r) (t3192 r) (f (drx_timer_max r)) (bs_cv_max r) (ext_info_present r) (ext_info r).
#[export] Instance upd_bs_cv_max : Upd bs_cv_max := fun f r => mk_gprs_cell_options (nmo r)
  (t3168 r) (t3192 r) (drx_timer_max r) (f (bs_cv_max r)) (ext_info_present r) (ext_info r).
#[export] Instance upd_ext_info_present : Upd ext_info_present := fun f r =>
  mk_gprs_cell_options (nmo r) (t3168 r) (t3192 r) (drx_timer_max r) (bs_cv_max r) (f
  (ext_info_present r)) (ext_info r).
#[export] Instance upd_ext_info : Upd ext_info := fun f r => mk_gprs_cell_options (nmo r) (t3168
  r) (t3192 r) (drx_timer_max r) (bs_cv_max r) (ext_info_present r) (f (ext_info r)).

Record gprs_power_ctrl_pars : Type := mk_gprs_power_ctrl_pars {
  alpha : Z;
  t_avg_w : Z;
  t_avg_t : Z;
  pc_meas_chan : Z;
  n_avg_i : Z
}.

#[export] Instance upd_alpha : Upd alpha := fun f r => mk_gprs_power_ctrl_pars (f (alpha r))
  (t_avg_w r) (t_avg_t r) (pc_meas_chan r) (n_avg_i r).
#[export] Instance upd_t_avg_w : Upd t_avg_w := fun f r => mk_gprs_power_ctrl_pars (alpha r) (f
  (t_avg_w r)) (t_avg_t r) (pc_meas_chan r) (n_avg_i r).
#[export] Instance upd_t_avg_t : Upd t_avg_t := fun f r => mk_gprs_power_ctrl_pars (alpha r)
  (t_avg_w r) (f (t_avg_t r)) (pc_meas_chan r) (n_avg_i r).
#[export] Instance upd_pc_meas_chan : Upd pc_meas_chan := fun f r => mk_gprs_power_ctrl_pars
  (alpha r) (t_avg_w r) (t_avg_t r) (f (pc_meas_chan r)) (n_avg_i r).
#[export] Instance upd_n_avg_i : Upd n_avg_i := fun f r => mk_gprs_power_ctrl_pars (alpha r)
  (t_avg_w r) (t_avg_t r) (pc_meas_chan r) (f (n_avg_i r)).

(** The union of [no_pbcch] and [pbcch]. *)
Inductive si13_pbcch : Type :=
| no_pbcch (rac : Z) (spgc_ccch_sup : bool) (net_ctrl_ord prio_acc_thr : Z)
| pbcch (psi1_rep_per pb tsc tn : Z) (carrier_type : pbcch_carrier_type) (arfcn maio : Z).

Record gsm48_si13_info : Type := mk_gsm48_si13_info {
  cell_opts : gprs_cell_options;
  pwr_ctrl_pars : gprs_power_ctrl_pars;
  bcch_change_mark : Z;
  si_change_field : Z;
  si13_chan : si13_pbcch
}.

#[export] Instance upd_cell_opts : Upd cell_opts := fun f r => mk_gsm48_si13_info (f (cell_opts
  r)) (pwr_ctrl_pars r) (bcch_change_mark r) (si_change_field r) (si13_chan r).
#[export] Instance upd_pwr_ctrl_pars : Upd pwr_ctrl_pars := fun f r => mk_gsm48_si13_info
  (cell_opts r) (f (pwr_ctrl_pars r)) (bcch_change_mark r) (si_change_field r) (si13_chan r).
#[export] Instance upd_bcch_change_mark : Upd bcch_change_mark := fun f r => mk_gsm48_si13_info
  (cell_opts r) (pwr_ctrl_pars r) (f (bcch_change_mark r)) (si_change_field r) (si13_chan r).
#[export] Instance upd_si_change_field : Upd si_change_field := fun f r => mk_gsm48_si13_info
  (cell_opts r) (pwr_ctrl_pars r) (bcch_change_mark r) (f (si_change_field r)) (si13_chan r).
#[export] Instance upd_si13_chan : Upd si13_chan := fun f r => mk_gsm48_si13_info (cell_opts r)
  (pwr_ctrl_pars r) (bcch_change_mark r) (si_change_field r) (f (si13_chan r)).

(** An integer that is used as a bit. *)
Definition bit_of (b : bool) : bit_value := if b then ONE else ZERO.

Definition encode_t3192 (t3192 : Z) : Z :=
  if t3192 =? 0 then 3
  else if t3192 <=? 80 then 4
  else if t3192 <=? 120 then 5
  else if t3192 <=? 160 then 6
  else if t3192 <=? 200 then 7
  else if t3192 <=? 500 then 0
  else if t3192 <=? 1000 then 1
  else if t3192 <=? 1500 then 2
  else - EINVAL.

Definition encode_drx_timer (drx : Z) : Z :=
  if drx =? 0 then 0
  else if drx =? 1 then 1
  else if drx =? 2 then 2
  else if drx <=? 4 then 3
  else if drx <=? 8 then 4
  else if drx <=? 16 then 5
  else if drx <=? 32 then 6
  else if drx <=? 64 then 7
  else - EINVAL.

Section rest.
Context `{BitWriter}.

(** [nch_pos]: the position of the NCH, if there is one. *)
Definition rest_octets_si1 (nch_pos : option Z) : Z * bw :=
  let bv := bw_data 1 in
  let bv := match nch_pos with
            | Some p => bitvec_set_uint (bitvec_set_bit bv H) p 5
            | None => bitvec_set_bit bv L
            end in
  (1, bitvec_spare_padding bv 7).

Definition append_selection_params (bv : bw) (sp : gsm48_si_selection_params) : bw :=
  if sp_present sp then
    let bv := bitvec_set_bit bv H in
    let bv := bitvec_set_bit bv (bit_of (sp_cbq sp)) in
    let bv := bitvec_set_uint bv (cell_resel_off sp) 6 in
    let bv := bitvec_set_uint bv (temp_offs sp) 3 in
    bitvec_set_uint bv (penalty_time sp) 5
  else bitvec_set_bit bv L.

Definition append_power_offset (bv : bw) (po : gsm48_si_power_offset) : bw :=
  if po_present po then bitvec_set_uint (bitvec_set_bit bv H) (power_offset po) 2
  else bitvec_set_bit bv L.

Definition append_gprs_ind (bv : bw) (gi : gsm48_si3_gprs_ind) : bw :=
  if gi_present gi then
    let bv := bitvec_set_bit bv H in
    let bv := bitvec_set_uint bv (ra_colour gi) 3 in
    bitvec_set_bit bv (bit_of (si13_position gi))
  else bitvec_set_bit bv L.

Definition rest_octets_si3 (si3 : gsm48_si_ro_info) : Z * bw :=
  let bv := bw_data 4 in
  let bv := append_selection_params bv (selection_params si3) in
  let bv := append_power_offset bv (ro_power_offset si3) in
  let bv := bitvec_set_bit bv (if si2ter_indicator si3 then H else L) in
  let bv := bitvec_set_bit bv (if early_cm_ctrl si3 then H else L) in
  let bv := if scheduling_present si3 then bitvec_set_uint (bitvec_set_bit bv H) (scheduling_where si3) 3
            else bitvec_set_bit bv L in
  let bv := append_gprs_ind bv (gprs_ind si3) in
  (4, bitvec_spare_padding bv (4 * 8 - 1)).

Definition rest_octets_si4 (si4 : gsm48_si_ro_info) : Z * bw :=
  let bv := bw_data 10 in
  let bv := append_selection_params bv (selection_params si4) in
  let bv := append_power_offset bv (ro_power_offset si4) in
  let bv := append_gprs_ind bv (gprs_ind si4) in
  let bv := bitvec_set_bit bv L in
  let bv := bitvec_set_bit bv (if break_ind si4 then H else L) in
  (10, bv).

Definition append_ext_info (bv : bw) (ei : gprs_ext_info) : bw :=
  let bv :=
    if negb (egprs_supported ei) then
      let bv := bitvec_set_uint bv (1 + 3 - 1) 6 in
      bitvec_set_bit bv ZERO
    else
      let bv := bitvec_set_uint bv (1 + 5 + 3 - 1) 6 in
      let bv := bitvec_set_bit bv ONE in
      let bv := bitvec_set_bit bv (bit_of (use_egprs_p_ch_req ei)) in
      bitvec_set_uint bv (bep_period ei) 4 in
  let bv := bitvec_set_bit bv (bit_of (pfc_supported ei)) in
  let bv := bitvec_set_bit bv (bit_of (dtm_supported ei)) in
  bitvec_set_bit bv (bit_of (bss_paging_coordination ei)).

(** The return code, and the vector: unchanged when a timer is out of range. *)
Definition append_gprs_cell_opt (bv : bw) (gco : gprs_cell_options) : Z * bw :=
  let t3192 := encode_t3192 (t3192 gco) in
  if t3192 <? 0 then (t3192, bv)
  else
    let drx := encode_drx_timer (drx_timer_max gco) in
    if drx <? 0 then (drx, bv)
    else
      let bv := bitvec_set_uint bv (nmo gco) 2 in
      let bv := bitvec_set_uint bv (t3168 gco / 500) 3 in
      let bv := bitvec_set_uint bv t3192 3 in
      let bv := bitvec_set_uint bv drx 3 in
      let bv := bitvec_set_bit bv ZERO in                (* ACCESS_BURST_TYPE *)
      let bv := bitvec_set_bit bv ONE in                 (* CONTROL_ACK_TYPE *)
      let bv := bitvec_set_uint bv (bs_cv_max gco) 4 in
      let bv := bitvec_set_bit bv ONE in
      let bv := bitvec_set_uint bv 1 3 in                (* PAN_DEC *)
      let bv := bitvec_set_uint bv 1 3 in                (* PAN_INC *)
      let bv := bitvec_set_uint bv 15 3 in               (* PAN_MAX *)
      (0, if negb (ext_info_present gco) then bitvec_set_bit bv ZERO
          else append_ext_info (bitvec_set_bit bv ONE) (ext_info gco)).

Definition append_gprs_pwr_ctrl_pars (bv : bw) (pcp : gprs_power_ctrl_pars) : bw :=
  let bv := bitvec_set_uint bv (alpha pcp) 4 in
  let bv := bitvec_set_uint bv (t_avg_w pcp) 5 in
  let bv := bitvec_set_uint bv (t_avg_t pcp) 5 in
  let bv := bitvec_set_uint bv (pc_meas_chan pcp) 1 in
  bitvec_set_uint bv (n_avg_i pcp) 4.

Definition rest_octets_si13 (si13 : gsm48_si13_info) : Z * bw :=
  let bv := bw_data 20 in
  let bv := bitvec_set_bit bv H in
  let bv := bitvec_set_uint bv (bcch_change_mark si13) 3 in
  let bv := bitvec_set_uint bv (si_change_field si13) 4 in
  let bv := bitvec_set_bit bv ZERO in
  let bv :=
    match si13_chan si13 with
    | no_pbcch rac spgc nco pat =>
        let bv := bitvec_set_bit bv ZERO in
        let bv := bitvec_set_uint bv rac 8 in
        let bv := bitvec_set_bit bv (bit_of spgc) in
        let bv := bitvec_set_uint bv pat 3 in
        let bv := bitvec_set_uint bv nco 2 in
        let bv := snd (append_gprs_cell_opt bv (cell_opts si13)) in
        append_gprs_pwr_ctrl_pars bv (pwr_ctrl_pars si13)
    | pbcch rep pb tsc tn ct arfcn maio =>
        let bv := bitvec_set_bit bv ONE in
        let bv := bitvec_set_uint bv rep 4 in
        let bv := bitvec_set_uint bv pb 4 in
        let bv := bitvec_set_uint bv tsc 3 in
        let bv := bitvec_set_uint bv tn 3 in
        match ct with
        | PBCCH_BCCH => bitvec_set_bit (bitvec_set_bit bv ZERO) ZERO
        | PBCCH_ARFCN => bitvec_set_uint (bitvec_set_bit (bitvec_set_bit bv ZERO) ONE) arfcn 10
        | PBCCH_MAIO => bitvec_set_uint (bitvec_set_bit bv ONE) maio 6
        end
    end in
  let bv := bitvec_set_bit bv H in
  let bv := bitvec_set_bit bv ONE in
  (20, bitvec_spare_padding bv (20 * 8 - 1)).

End rest.

(** ** The messages *)

Inductive neigh_list_mode : Type := NL_MODE_AUTOMATIC | NL_MODE_MANUAL | NL_MODE_MANUAL_SI5SEP.
#[export] Instance neigh_list_mode_eq_dec : EqDecision neigh_list_mode.
Proof. solve_decision. Defined.
Inductive bts_gprs_mode : Type := BTS_GPRS_NONE | BTS_GPRS_GPRS | BTS_GPRS_EGPRS.
Inductive sysinfo_type : Type :=
| SYSINFO_TYPE_1 | SYSINFO_TYPE_2 | SYSINFO_TYPE_3 | SYSINFO_TYPE_4 | SYSINFO_TYPE_5 | SYSINFO_TYPE_6
| SYSINFO_TYPE_13 | SYSINFO_TYPE_other (n : Z).

Section messages.
Context `{Bitvec} `{BitWriter} `{SysinfoConst}.

(** A TRX: its ARFCN and the hopping ARFCNs of its eight time slots. *)
Record si_trx : Type := mk_si_trx {
  st_arfcn : Z;
  st_hopping : list bitvec
}.

(** The parts of a BTS that system information is made of. Structures of libosmocore that are copied
    as a whole are lists of octets. *)
Record si_bts : Type := mk_si_bts {
  si_nr : nat;
  si_type : gsm_bts_type;
  si_gsm900 : bool;                          (* the band *)
  si_trx_list : list si_trx;                 (* the first one is c0 *)
  si_cell_identity : Z;
  si_lac : Z;
  si_gprs_mode : bts_gprs_mode;
  si_rac : Z;
  si_neigh_mode : neigh_list_mode;
  si_neigh_list : bitvec;
  si_si5_neigh_list : bitvec;
  si_cell_alloc : bitvec;
  si_rach_control : list Z;
  si_ncc_permitted : Z;
  si_cell_sel_par : list Z;
  si_cell_ro_sel_par : gsm48_si_selection_params;
  si_cell_options : list Z;
  si_chan_desc : list Z
}.

Record si_net : Type := mk_si_net {
  country_code : Z;
  network_code : Z;
  si_bts_list : list si_bts
}.

(** A message: what it holds besides its header, and the length the caller is told. *)
Inductive si_msg : Type :=
| Si1 (cell_channel_description rach_control : list Z) (rest : bw)
| Si2 (bcch_frequency_list : list Z) (ncc_permitted : Z) (rach_control : list Z)
| Si3 (cell_identity : Z) (lai : Z * Z * Z) (control_channel_desc cell_options cell_sel_par rach_control : list Z)
      (rest : bw)
| Si4 (lai : Z * Z * Z) (cell_sel_par rach_control : list Z) (rest : bw)
| Si5 (l2_plen : option Z) (bcch_frequency_list : list Z)
| Si6 (l2_plen : option Z) (cell_identity : Z) (lai : Z * Z * Z) (cell_options : list Z) (ncc_permitted : Z)
| Si13 (rest : bw).

(** The static variables [si_info] and [si13_default]. *)
Record si_static : Type := mk_si_static {
  si_info : gsm48_si_ro_info;
  si13_default : gsm48_si13_info
}.
Definition si_static_init : si_static := mk_si_static
  (mk_gsm48_si_ro_info (mk_gsm48_si_selection_params false false 0 0 0) (mk_gsm48_si_power_offset false 0)
     false true false 0 (mk_gsm48_si3_gprs_ind true 0 false) false)
  (mk_gsm48_si13_info
     (mk_gprs_cell_options 1 2000 200 3 15 true (mk_gprs_ext_info false true 5 false false false))
     (mk_gprs_power_ctrl_pars 10 16 16 0 8) 1 0 (no_pbcch 0 false 0 6)).

(** The ARFCNs of the TRXs and of their hopping sequences. *)
Fixpoint add_hopping (n : nat) (j : Z) (arfcns bv : bitvec) : bitvec :=
  match n with
  | O => bv
  | S n => add_hopping n (j + 1) arfcns (if bitvec_get_bit_pos arfcns j then bitvec_set_bit_pos bv j true else bv)
  end.
Definition add_trx (bv : bitvec) (trx : si_trx) : bitvec :=
  foldl (fun bv arfcns => add_hopping 1024 0 arfcns bv) (bitvec_set_bit_pos bv (st_arfcn trx) true) (st_hopping trx).
(** The cell allocation of the BTS, which is kept. *)
Definition cell_arfcns (bts : si_bts) : bitvec := foldl add_trx (bitvec_clear (si_cell_alloc bts)) (si_trx_list bts).
Definition generate_cell_chan_list (bts : si_bts) : Z * list Z :=
  bitvec2freq_list (cell_arfcns bts) (si_gsm900 bts).

(** The BCCH ARFCNs of the other cells. [None]: a BTS has no TRX. *)
Fixpoint neighbour_arfcns (bts_nr : nat) (l : list si_bts) (bv : bitvec) : option bitvec :=
  match l with
  | [] => Some bv
  | cur_bts :: l =>
      if (si_nr cur_bts =? bts_nr)%nat then neighbour_arfcns bts_nr l bv
      else
        match si_trx_list cur_bts with
        | [] => None
        | c0 :: _ => neighbour_arfcns bts_nr l (bitvec_set_bit_pos bv (st_arfcn c0) true)
        end
  end.
Definition generate_bcch_chan_list (net : si_net) (bts : si_bts) (si5 : bool) : option (Z * list Z) :=
  let bv := if si5 && bool_decide (si_neigh_mode bts = NL_MODE_MANUAL_SI5SEP) then si_si5_neigh_list bts
            else si_neigh_list bts in
  bv ← (if bool_decide (si_neigh_mode bts = NL_MODE_AUTOMATIC)
        then neighbour_arfcns (si_nr bts) (si_bts_list net) (bitvec_clear bv) else Some bv);
  Some (bitvec2freq_list bv (si_gsm900 bts)).

Definition si_lai (net : si_net) (bts : si_bts) : Z * Z * Z := (country_code net, network_code net, si_lac bts).
(** The nanoBTS and the HSL femto cell need the pseudo length. *)
Definition needs_l2_plen (ty : gsm_bts_type) : bool :=
  match ty with GSM_BTS_TYPE_NANOBTS | GSM_BTS_TYPE_HSL_FEMTO => true | _ => false end.

Definition generate_si1 (bts : si_bts) : res (Z * si_msg) :=
  let '(rc, chan_list) := generate_cell_chan_list bts in
  if rc <? 0 then Err rc
  else
    let '(rc, rest) := rest_octets_si1 None in
    Ok (sizeof_si1 + rc, Si1 chan_list (si_rach_control bts) rest).

Definition generate_si2 (net : si_net) (bts : si_bts) : option (res (Z * si_msg)) :=
  '(rc, freq_list) ← generate_bcch_chan_list net bts false;
  Some (if rc <? 0 then Err rc else Ok (sizeof_si2, Si2 freq_list (si_ncc_permitted bts) (si_rach_control bts))).

Definition generate_si3 (info : gsm48_si_ro_info) (net : si_net) (bts : si_bts) : res (Z * si_msg) :=
  let '(rc, rest) := rest_octets_si3 info in
  Ok (sizeof_si3 + rc,
      Si3 (si_cell_identity bts) (si_lai net bts) (si_chan_desc bts) (si_cell_options bts) (si_cell_sel_par bts)
        (si_rach_control bts) rest).

Definition generate_si4 (info : gsm48_si_ro_info) (net : si_net) (bts : si_bts) : res (Z * si_msg) :=
  let '(rc, rest) := rest_octets_si4 info in
  Ok (sizeof_si4 + rc, Si4 (si_lai net bts) (si_cell_sel_par bts) (si_rach_control bts) rest).

Definition generate_si5 (net : si_net) (bts : si_bts) : option (res (Z * si_msg)) :=
  let l2_plen := 18 in
  let '(plen, len) := if needs_l2_plen (si_type bts) then (Some ((l2_plen .<< 2) .| 1), l2_plen + 1) else (None, l2_plen) in
  '(rc, freq_list) ← generate_bcch_chan_list net bts true;
  Some (if rc <? 0 then Err rc else Ok (len, Si5 plen freq_list)).

Definition generate_si6 (net : si_net) (bts : si_bts) : res (Z * si_msg) :=
  let l2_plen := 11 in
  let '(plen, len) := if needs_l2_plen (si_type bts) then (Some ((l2_plen .<< 2) .| 1), l2_plen + 1) else (None, l2_plen) in
  Ok (len, Si6 plen (si_cell_identity bts) (si_lai net bts) (si_cell_options bts) (si_ncc_permitted bts)).

Definition generate_si13 (info : gsm48_si13_info) : res (Z * si_msg) :=
  let '(rc, rest) := rest_octets_si13 info in
  if rc <? 0 then Err rc else Ok (sizeof_si13 + rc, Si13 rest).

(** [si13_default.no_pbcch.rac = ...] *)
Definition set_rac (rac : Z) (c : si13_pbcch) : si13_pbcch :=
  match c with no_pbcch _ spgc nco pat => no_pbcch rac spgc nco pat | _ => c end.

(** What the GPRS mode of the BTS changes in the static variables. *)
Definition si_static_gprs (bts : si_bts) (s : si_static) : si_static :=
  let gprs_present b := mk_si_static ((si_info s) <| gprs_ind ::= fun g => g <| gi_present := b |> |>) (si13_default s) in
  match si_gprs_mode bts with
  | BTS_GPRS_EGPRS =>
      let s := gprs_present true in
      mk_si_static (si_info s)
        ((si13_default s) <| cell_opts ::= fun o =>
           o <| ext_info_present := true |> <| ext_info ::= fun e => e <| egprs_supported := true |> |> |>)
  | BTS_GPRS_GPRS => gprs_present true
  | BTS_GPRS_NONE => gprs_present false
  end.

(** [None]: a null pointer is followed. *)
Definition gsm_generate_si (net : si_net) (bts : si_bts) (ty : sysinfo_type) (s : si_static)
    : option (res (Z * si_msg) * si_static) :=
  let s := si_static_gprs bts s in
  let s := mk_si_static ((si_info s) <| selection_params := si_cell_ro_sel_par bts |>) (si13_default s) in
  match ty with
  | SYSINFO_TYPE_1 => Some (generate_si1 bts, s)
  | SYSINFO_TYPE_2 => (., s) <$> generate_si2 net bts
  | SYSINFO_TYPE_3 => Some (generate_si3 (si_info s) net bts, s)
  | SYSINFO_TYPE_4 => Some (generate_si4 (si_info s) net bts, s)
  | SYSINFO_TYPE_5 => (., s) <$> generate_si5 net bts
  | SYSINFO_TYPE_6 => Some (generate_si6 net bts, s)
  | SYSINFO_TYPE_13 =>
      let s := mk_si_static (si_info s) ((si13_default s) <| si13_chan ::= set_rac (si_rac bts) |>) in
      Some (generate_si13 (si13_default s), s)
  | SYSINFO_TYPE_other _ => Some (Err (- EINVAL), s)
  end.

End messages.

(** ** The mobile allocation of a hopping time slot *)

Section ma.
Context `{Bitvec}.

(** [for (i = 1; i < 1024; i++)]: how many ARFCNs the cell has. *)
Fixpoint count_arfcns (cell_chan : bitvec) (n : nat) (i num : Z) : Z :=
  match n with
  | O => num
  | S n => count_arfcns cell_chan n (i + 1) (if bitvec_get_bit_pos cell_chan i then num + 1 else num)
  end.

Fixpoint set_ma (cell_chan ts_arfcn : bitvec) (ma_len : Z) (n : nat) (i n_chan : Z) (ma : bitvec) : Z * bitvec :=
  match n with
  | O => (n_chan, ma)
  | S n =>
      if negb (bitvec_get_bit_pos cell_chan i) then set_ma cell_chan ts_arfcn ma_len n (i + 1) n_chan ma
      else
        let bitnum := u32 (ma_len * 8 - 1 - n_chan) in
        set_ma cell_chan ts_arfcn ma_len n (i + 1) (n_chan + 1)
          (bitvec_set_bit_pos ma bitnum (bitvec_get_bit_pos ts_arfcn i))
  end.

(** The length of the mobile allocation in octets, and its bits. *)
Definition generate_ma_for_ts (cell_chan ts_arfcn ma : bitvec) (enabled : bool) : Z * bitvec :=
  let ma := bitvec_clear ma in
  if negb enabled then (0, ma)
  else
    let num_cell_arfcns := count_arfcns cell_chan 1023 1 0 in
    let ma_len := num_cell_arfcns / 8 in
    let ma_len := if negb (num_cell_arfcns mod 8 =? 0) then ma_len + 1 else ma_len in
    let '(n_chan, ma) := set_ma cell_chan ts_arfcn ma_len 1023 1 0 ma in
    if bitvec_get_bit_pos cell_chan 0 then
      let n_chan := n_chan + 1 in
      let bitnum := u32 (ma_len * 8 - 1 - n_chan) in
      (ma_len, bitvec_set_bit_pos ma bitnum (bitvec_get_bit_pos ts_arfcn 0))
    else (ma_len, ma).

End ma.

End Sysinfo.
