(* ===== verification/SysinfoProps.v ===== *)
(** What system information says: a frequency list is decoded to the ARFCNs it was made of, the rest octets
    of SI13 to the parameters of the cell, a mobile allocation to the ARFCNs of the hopping sequence. *)

From Stdlib Require Import ZifyBool.
From S2P Require Import Prelude Radio Sysinfo.
Import Radio Sysinfo.

Module SysinfoProps.

(** ** Frequency lists *)

(** How a mobile reads a frequency list: bit map 0, where the two leading bits are clear, or the variable
    bit map. *)
Definition bm0_has (p : list Z) (a : Z) : bool :=
  (1 <=? a) && (a <=? 124) && Z.testbit (rdz p (15 - (a - 1) / 8)) ((a - 1) mod 8).
Definition orig_arfcn (p : list Z) : Z :=
  ((rdz p 0 .& 1) .<< 9) .| (rdz p 1 .<< 1) .| ((rdz p 2 .>> 7) .& 1).
Definition bmrel_has (p : list Z) (orig a : Z) : bool :=
  (a =? orig) ||
  ((orig <? a) && (a <=? orig + 111) && Z.testbit (rdz p (2 + (a - orig) / 8)) (7 - (a - orig) mod 8)).
Definition freq_list_has (p : list Z) (a : Z) : bool :=
  if rdz p 0 .>> 6 =? 0 then bm0_has p a else bmrel_has p (orig_arfcn p) a.

Lemma length_or_at p i x : length (or_at p i x) = length p.
Proof. apply length_alter. Qed.

(** One bit is set. *)
Lemma or_at_bit p i b k m :
  0 <= i < Z.of_nat (length p) -> 0 <= b < 8 -> 0 <= k -> 0 <= m ->
  Z.testbit (rdz (or_at p i (1 .<< b)) k) m = Z.testbit (rdz p k) m || ((k =? i) && (m =? b)).
Proof.
  intros Hi Hb Hk Hm. unfold or_at, rdz, rd. destruct (Z.eqb_spec k i) as [->|Hne].
  - destruct (lookup_lt_is_Some_2 p (Z.to_nat i)) as [x Hx]; [lia|]. rewrite list_lookup_alter_eq, Hx. cbn.
    unfold id. rewrite Z.lor_spec. f_equal. rewrite wrap_small.
    + rewrite Z.shiftl_spec by lia. destruct (Z.eqb_spec m b) as [->|]; [by rewrite Z.sub_diag|].
      destruct (Z.ltb_spec m b); [by rewrite Z.testbit_neg_r by lia|].
      by destruct (m - b) as [|[]|] eqn:E; try lia.
    + unfold in_width. rewrite Z.shiftl_1_l. split; [lia|]. apply Z.pow_lt_mono_r; lia.
  - rewrite list_lookup_alter_ne by lia. by rewrite andb_false_l, orb_false_r.
Qed.
Lemma or_at_other p i x k : 0 <= i -> 0 <= k -> k <> i -> rdz (or_at p i x) k = rdz p k.
Proof. intros Hi Hk Hne. unfold or_at, rdz, rd. by rewrite list_lookup_alter_ne by lia. Qed.

Section freq.
Context `{Bitvec} `{SysinfoConst}.

(** The loop over all ARFCNs, for a format that can say those that are [ok]. *)
Definition says (f : list Z -> Z -> Z * list Z) (inv : list Z -> Prop) (has : list Z -> Z -> bool) (ok : Z -> bool) : Prop :=
  forall p j, inv p -> 0 <= j ->
    if ok j then exists p', f p j = (0, p') /\ inv p' /\ forall a, 0 <= a -> has p' a = has p a || (a =? j)
    else f p j = (- EINVAL, p).

Lemma set_arfcns_spec f inv has ok bv n i p :
  says f inv has ok -> inv p -> 0 <= i ->
  match set_arfcns f bv n i p with
  | (rc, p') =>
      (rc = 0 <-> forall j, i <= j < i + Z.of_nat n -> bitvec_get_bit_pos bv j = true -> ok j = true)
      /\ (rc = 0 -> inv p' /\ forall a, 0 <= a ->
            has p' a = has p a || (bitvec_get_bit_pos bv a && (i <=? a) && (a <? i + Z.of_nat n)))
  end.
Proof.
  intros Hf. revert i p. induction n as [|n IH]; intros i p Hp Hi; cbn [set_arfcns].
  { split; [split; [lia|done]|]. intros _. split; [done|]. intros a Ha.
    assert ((i <=? a) && (a <? i + Z.of_nat 0) = false) as E by lia.
    by rewrite <-andb_assoc, E, andb_false_r, orb_false_r. }
  destruct (bitvec_get_bit_pos bv i) eqn:Ei.
  - pose proof (Hf p i Hp Hi) as Hi'. destruct (ok i) eqn:Eok.
    + destruct Hi' as (p1 & -> & Hp1 & Hhas). cbn [Z.ltb Z.compare].
      specialize (IH (i + 1) p1 Hp1 ltac:(lia)). destruct (set_arfcns f bv n (i + 1) p1) as [rc p'].
      destruct IH as [IH1 IH2]. split.
      * rewrite IH1. split; intros Hall j Hj Hg; [|apply Hall; [lia|done]].
        destruct (decide (j = i)) as [->|]; [done|]. apply Hall; [lia|done].
      * intros Hrc. destruct (IH2 Hrc) as [Hinv Hh]. split; [done|]. intros a Ha. rewrite Hh, Hhas by done.
        destruct (Z.eqb_spec a i) as [->|]; [rewrite Ei; lia|]. rewrite orb_false_r. f_equal.
        rewrite <-!andb_assoc. f_equal. lia.
    + rewrite Hi'. cbn. split; [|by intros [=]]. split; [done|]. intros Hall. specialize (Hall i ltac:(lia) Ei). congruence.
  - specialize (IH (i + 1) p Hp ltac:(lia)). destruct (set_arfcns f bv n (i + 1) p) as [rc p'].
    destruct IH as [IH1 IH2]. split.
    + rewrite IH1. split; intros Hall j Hj Hg; [|apply Hall; [lia|done]].
      destruct (decide (j = i)) as [->|]; [congruence|]. apply Hall; [lia|done].
    + intros Hrc. destruct (IH2 Hrc) as [Hinv Hh]. split; [done|]. intros a Ha. rewrite Hh by done. f_equal.
      destruct (decide (a = i)) as [->|]; [by rewrite Ei|]. rewrite <-!andb_assoc. f_equal. lia.
Qed.

Context (desc_size : GSM48_CELL_CHAN_DESC_SIZE = 16).

Lemma bm0_says :
  says freq_list_bm0_set_arfcn (fun p => length p = 16%nat /\ rdz p 0 .>> 6 = 0) bm0_has
    (fun a => (1 <=? a) && (a <=? 124)).
Proof.
  intros p j [Hlen Htop] Hj. unfold freq_list_bm0_set_arfcn. rewrite desc_size.
  destruct ((1 <=? j) && (j <=? 124)) eqn:Ej.
  - assert (1 <= j <= 124) as Hj' by lia. assert ((124 <? j) || (j <? 1) = false) as -> by lia.
    pose proof (Z.mod_pos_bound (j - 1) 8 eq_refl). pose proof (Z.div_mod (j - 1) 8 ltac:(lia)).
    eexists. split; [reflexivity|]. split_and!.
    + by rewrite length_or_at.
    + apply Z.bits_inj'. intros m Hm. rewrite Z.shiftr_spec, Z.bits_0, or_at_bit by lia.
      rewrite <-Z.shiftr_spec, Htop, Z.bits_0 by lia. lia.
    + intros a Ha. unfold bm0_has. destruct ((1 <=? a) && (a <=? 124)) eqn:Ea; [|cbn; lia].
      pose proof (Z.mod_pos_bound (a - 1) 8 eq_refl). pose proof (Z.div_mod (a - 1) 8 ltac:(lia)).
      cbn. rewrite or_at_bit by lia. f_equal. replace (16 - 1 - (j - 1) / 8) with (15 - (j - 1) / 8) by lia. lia.
  - by assert ((124 <? j) || (j <? 1) = true) as -> by lia.
Qed.

Lemma bmrel_says mn :
  0 <= mn ->
  says freq_list_bmrel_set_arfcn
    (fun p => length p = 16%nat /\ rdz p 0 .>> 6 = 2 /\ orig_arfcn p = mn) (fun p => bmrel_has p mn)
    (fun a => (mn <=? a) && (a <=? mn + 111)).
Proof.
  intros Hmn p j (Hlen & Htop & Hor) Hj. unfold freq_list_bmrel_set_arfcn. fold (orig_arfcn p). rewrite Hor.
  destruct (Z.eqb_spec j mn) as [->|Hne].
  { assert ((mn <=? mn) && (mn <=? mn + 111) = true) as -> by lia. exists p. split_and!; try done.
    intros a _. unfold bmrel_has. destruct (a =? mn); [done|by rewrite orb_false_r]. }
  destruct ((mn <=? j) && (j <=? mn + 111)) eqn:Ej.
  - assert (mn < j <= mn + 111) as Hj' by lia. assert ((j <? mn) = false) as -> by lia.
    assert ((mn + 111 <? j) = false) as -> by lia.
    pose proof (Z.mod_pos_bound (j - mn) 8 eq_refl). pose proof (Z.div_mod (j - mn) 8 ltac:(lia)).
    set (p' := or_at p (2 + (j - mn) / 8) (1 .<< (7 - (j - mn) mod 8))).
    assert (forall k, 0 <= k < 2 -> rdz p' k = rdz p k) as H01 by (intros; apply or_at_other; lia).
    assert (forall k m, 0 <= k -> 0 <= m -> Z.testbit (rdz p' k) m
      = Z.testbit (rdz p k) m || ((k =? 2 + (j - mn) / 8) && (m =? 7 - (j - mn) mod 8))) as Hbit.
    { intros k m Hk Hm. apply or_at_bit; lia. }
    exists p'. split; [done|]. split_and!.
    + unfold p'. by rewrite length_or_at.
    + by rewrite H01 by lia.
    + rewrite <-Hor. unfold orig_arfcn. rewrite !H01 by lia. f_equal. change 1 with (Z.ones 1).
      apply Z.bits_inj'. intros m Hm. rewrite !Z.land_spec, !Z.shiftr_spec, Hbit by lia.
      destruct (decide (m = 0)) as [->|]; [f_equal; lia|]. rewrite Z.ones_spec_high by lia. by rewrite !andb_false_r.
    + intros a Ha. unfold bmrel_has. destruct ((mn <? a) && (a <=? mn + 111)) eqn:Ea; [|cbn; lia].
      pose proof (Z.mod_pos_bound (a - mn) 8 eq_refl). pose proof (Z.div_mod (a - mn) 8 ltac:(lia)).
      cbn. rewrite Hbit by lia. rewrite <-orb_assoc. f_equal. f_equal. lia.
  - destruct (Z.ltb_spec j mn); [done|]. by assert ((mn + 111 <? j) = true) as -> by lia.
Qed.

Lemma min_max_spec bv n i m x :
  match min_max bv n i m x with
  | (mn, mx) =>
      (mn <= m /\ x <= mx)
      /\ (forall j, i <= j < i + Z.of_nat n -> bitvec_get_bit_pos bv j = true -> mn <= j <= mx)
      /\ (mn = m \/ (i <= mn < i + Z.of_nat n /\ bitvec_get_bit_pos bv mn = true))
      /\ (mx = x \/ (i <= mx < i + Z.of_nat n /\ bitvec_get_bit_pos bv mx = true))
  end.
Proof.
  revert i m x. induction n as [|n IH]; intros i m x; cbn [min_max]; [split_and!; auto; lia|].
  destruct (bitvec_get_bit_pos bv i) eqn:Ei.
  - specialize (IH (i + 1) (if i <? m then i else m) (if x <? i then i else x)). destruct (min_max _ _ _ _ _) as [mn mx].
    destruct IH as ((Hm1 & Hm2) & Hm3 & Hm4 & Hm5).
    destruct (Z.ltb_spec i m), (Z.ltb_spec x i); split_and!; try lia;
      first [ intros j Hj Hg; destruct (decide (j = i)) as [->|]; [lia|apply Hm3; [lia|done]]
            | destruct Hm4 as [->|[? ?]]; (right; split; [lia|done])
            | destruct Hm5 as [->|[? ?]]; (right; split; [lia|done]) ].
  - specialize (IH (i + 1) m x). destruct (min_max _ _ _ _ _) as [mn mx]. destruct IH as (Hm1 & Hm3 & Hm4 & Hm5).
    split_and!; try lia. intros j Hj Hg. destruct (decide (j = i)) as [->|]; [congruence|]. apply Hm3; [lia|done].
Qed.

(** The header of the variable bit map format. *)
Lemma bmrel_header mn :
  0 <= mn < 1024 ->
  let p := <[2%nat := u8 ((mn .& 1) .<< 7)]>
    (<[1%nat := u8 (mn .>> 1)]> (or_at (<[0%nat := 0x8e]> (replicate 16 0)) 0 ((mn .>> 9) .& 1))) in
  rdz p 0 .>> 6 = 2 /\ orig_arfcn p = mn /\ forall a, bmrel_has p mn a = (a =? mn).
Proof.
  intros Hmn p.
  assert (forallb (fun mn => let p := <[2%nat := u8 ((mn .& 1) .<< 7)]>
      (<[1%nat := u8 (mn .>> 1)]> (or_at (<[0%nat := 0x8e]> (replicate 16 0)) 0 ((mn .>> 9) .& 1))) in
      (rdz p 0 .>> 6 =? 2) && (orig_arfcn p =? mn) && (rdz p 2 =? 128 * (mn .& 1))
      && forallb (fun k => rdz p k =? 0) (seqZ 3 13)) (seqZ 0 1024) = true) as Hall by (by vm_compute).
  rewrite forallb_forall in Hall. specialize (Hall mn). cbv zeta in Hall. fold p in Hall.
  rewrite !andb_true_iff, !Z.eqb_eq, forallb_forall in Hall.
  destruct Hall as [[[Htop Hor] Hp2] Hz]; [apply list_elem_of_In, elem_of_seqZ; lia|].
  split_and!; [done..|]. intros a. unfold bmrel_has.
  destruct ((mn <? a) && (a <=? mn + 111)) eqn:Ea; [|cbn; lia].
  pose proof (Z.mod_pos_bound (a - mn) 8 eq_refl). pose proof (Z.div_mod (a - mn) 8 ltac:(lia)).
  assert (Z.testbit (rdz p (2 + (a - mn) / 8)) (7 - (a - mn) mod 8) = false) as ->; [|lia].
  destruct (decide ((a - mn) / 8 = 0)) as [E|E].
  - rewrite E, Z.add_0_r, Hp2. change 128 with (2 ^ 7). rewrite Z.mul_comm, <-Z.shiftl_mul_pow2, Z.shiftl_spec by lia.
    apply Z.testbit_neg_r. lia.
  - assert (rdz p (2 + (a - mn) / 8) = 0) as ->; [|apply Z.bits_0].
    apply Z.eqb_eq, Hz, list_elem_of_In, elem_of_seqZ. lia.
Qed.

(** C27: a frequency list says what it was made of. For a vector of the 1024 ARFCNs, the list is generated
    exactly when the format can express it (GSM 900: ARFCNs from 1 to 124; otherwise ARFCNs no more than 111
    apart), and a mobile that decodes it gets exactly the ARFCNs of the vector. *)
Theorem freq_list_roundtrip bv gsm900 :
  bitvec_bits bv = 1024 ->
  match bitvec2freq_list bv gsm900 with
  | (rc, chan_list) =>
      (rc = 0 <->
       if gsm900 then forall a, 0 <= a < 1024 -> bitvec_get_bit_pos bv a = true -> 1 <= a <= 124
       else forall a b, 0 <= a < 1024 -> 0 <= b < 1024 ->
              bitvec_get_bit_pos bv a = true -> bitvec_get_bit_pos bv b = true -> b - a <= 111)
      /\ (rc = 0 -> forall a, 0 <= a < 1024 -> freq_list_has chan_list a = bitvec_get_bit_pos bv a)
  end.
Proof.
  intros Hbits. unfold bitvec2freq_list. rewrite Hbits. set (n := Z.to_nat 1024).
  assert (Z.of_nat n = 1024) as Hn by done. destruct gsm900.
  - pose proof (set_arfcns_spec _ _ _ _ bv n 0 (<[0%nat := 0]> (replicate 16 0)) bm0_says (conj eq_refl eq_refl)
      ltac:(lia)) as Hs. destruct (set_arfcns _ _ _ _ _) as [rc p]. destruct Hs as [Hs1 Hs2]. split.
    + rewrite Hs1, Hn. split; intros Hall a Ha Hg; specialize (Hall a Ha Hg); lia.
    + intros Hrc a Ha. destruct (Hs2 Hrc) as ([Hlen Htop] & Hh). unfold freq_list_has. rewrite Htop, Hh, Hn by lia.
      cbn [Z.eqb]. assert (bm0_has (<[0%nat := 0]> (replicate 16 0)) a = false) as ->; [|lia].
      unfold bm0_has. change (<[0%nat := 0]> (replicate 16 0)) with (replicate 16 0). unfold rdz, rd.
      assert (forall k, default 0 (replicate 16 0 !! k) = 0) as E.
      { intros k. destruct (replicate 16 0 !! k) as [x|] eqn:Ek; [|done]. by apply lookup_replicate in Ek as [-> _]. }
      rewrite E, Z.bits_0. by rewrite andb_false_r.
  - pose proof (min_max_spec bv n 0 1024 (-1)) as Hmm. destruct (min_max bv n 0 1024 (-1)) as [mn mx].
    destruct Hmm as (Hm1 & Hm3 & Hm4 & Hm5). rewrite Hn in Hm3, Hm4, Hm5. destruct (Z.eqb_spec mx (-1)) as [->|Hmx].
    { split; [split; [|done]; intros _ a b Ha Hb Hga; specialize (Hm3 a ltac:(lia) Hga); lia|].
      intros _ a Ha. destruct (bitvec_get_bit_pos bv a) eqn:Hga; [specialize (Hm3 a ltac:(lia) Hga); lia|].
      unfold freq_list_has, bm0_has. cbn [Z.eqb]. change (<[0%nat := 0]> (<[0%nat := 142]> (replicate 16 0))) with (replicate 16 0).
      change (rdz (replicate 16 0) 0 .>> 6 =? 0) with true. cbn [andb]. unfold rdz, rd.
      destruct (replicate 16 0 !! Z.to_nat (15 - (a - 1) / 8)) as [x|] eqn:Ek.
      - apply lookup_replicate in Ek as [-> _]. cbn. rewrite Z.bits_0. by rewrite andb_false_r.
      - cbn. rewrite Z.bits_0. by rewrite andb_false_r. }
    destruct Hm5 as [|[Hmx1 Hmx2]]; [done|]. destruct Hm4 as [->|[Hmn1 Hmn2]]; [specialize (Hm3 mx Hmx1 Hmx2); lia|].
    destruct (Z.ltb_spec 111 (mx - mn)) as [Hw|Hw].
    { split; [|done]. split; [done|]. intros Hall. specialize (Hall mn mx ltac:(lia) ltac:(lia) Hmn2 Hmx2). lia. }
    destruct (bmrel_header mn ltac:(lia)) as (Htop & Hor & Hhas).
    set (hdr := <[2%nat := u8 ((mn .& 1) .<< 7)]> _) in *. assert (length hdr = 16%nat) as Hl16 by done.
    pose proof (set_arfcns_spec _ _ _ _ bv n 0 hdr (bmrel_says mn ltac:(lia)) (conj Hl16 (conj Htop Hor)) ltac:(lia)) as Hs.
    destruct (set_arfcns _ _ _ _ _) as [rc p]. destruct Hs as [Hs1 Hs2]. split.
    + rewrite Hs1, Hn. split.
      * intros _ a b Ha Hb Hga Hgb. pose proof (Hm3 a ltac:(lia) Hga). pose proof (Hm3 b ltac:(lia) Hgb). lia.
      * intros _ a Ha Hg. pose proof (Hm3 a ltac:(lia) Hg). lia.
    + intros Hrc a Ha. destruct (Hs2 Hrc) as ((Hlen & Htop' & Hor') & Hh).
      unfold freq_list_has. rewrite Htop', Hor', Hh, Hhas, Hn by lia. cbn [Z.eqb].
      destruct (Z.eqb_spec a mn) as [->|]; [by rewrite Hmn2|lia].
Qed.

End freq.

(** ** Rest octets of SI13 *)

(** A reader of bits. *)
Definition rd_bit (b : bit_value) (l : list bit_value) : option (list bit_value) :=
  match l with c :: l => if decide (c = b) then Some l else None | [] => None end.
Definition rd_flag (l : list bit_value) : option (bool * list bit_value) :=
  match l with ZERO :: l => Some (false, l) | ONE :: l => Some (true, l) | _ => None end.
Fixpoint rd_uint (n : nat) (x : Z) (l : list bit_value) : option (Z * list bit_value) :=
  match n with
  | O => Some (x, l)
  | S n => '(b, l) ← rd_flag l; rd_uint n (2 * x + Z.b2z b) l
  end.

Lemma rd_uint_msb n x y rest :
  0 <= y -> rd_uint n y (msb_bits n x ++ rest) = Some (y * 2 ^ Z.of_nat n + x mod 2 ^ Z.of_nat n, rest).
Proof.
  revert y. induction n as [|n IH]; intros y Hy; cbn [rd_uint msb_bits app].
  { cbn. by rewrite Z.mod_1_r, Z.mul_1_r, Z.add_0_r. }
  assert (x mod 2 ^ Z.of_nat (S n) = Z.b2z (Z.testbit x (Z.of_nat n)) * 2 ^ Z.of_nat n + x mod 2 ^ Z.of_nat n) as E.
  { rewrite Nat2Z.inj_succ, Z.pow_succ_r, Z.mul_comm, Z.rem_mul_r by lia.
    rewrite <-Z.testbit_spec' by lia. lia. }
  rewrite E, Nat2Z.inj_succ, Z.pow_succ_r by lia.
  destruct (Z.testbit x (Z.of_nat n)); cbn [rd_flag mbind option_bind]; rewrite IH by (cbn; lia); do 2 f_equal; cbn; lia.
Qed.
Lemma rd_uint_small n x rest : in_width (Z.of_nat n) x -> rd_uint n 0 (msb_bits n x ++ rest) = Some (x, rest).
Proof. intros Hx. rewrite rd_uint_msb by done. rewrite (Z.mod_small x) by done. done. Qed.
Lemma rd_flag_bit b rest : rd_flag (bit_of b :: rest) = Some (b, rest).
Proof. by destruct b. Qed.
Lemma rd_bit_same b rest : rd_bit b (b :: rest) = Some rest.
Proof. cbn. by rewrite decide_True. Qed.

Lemma length_msb_bits n x : length (msb_bits n x) = n.
Proof. induction n as [|n IH]; [done|]. cbn [msb_bits length]. by rewrite IH. Qed.
#[local] Arguments rd_uint : simpl never.
#[local] Arguments msb_bits : simpl never.

(** The timers a mobile reads (TS 04.60, 12.24): T3168 is coded in steps of 500 ms from 500 ms on. *)
Definition t3168_value (c : Z) : Z := 500 * (c + 1).
Definition t3192_value (c : Z) : Z := rdz [500; 1000; 1500; 0; 80; 120; 160; 200] c.
Definition drx_value (c : Z) : Z := rdz [0; 1; 2; 4; 8; 16; 32; 64] c.

(** The grammar of the IE "SI 13 Rest Octets" (TS 04.08, 10.5.2.37b; TS 04.60, 12.24, 12.13). *)
Definition read_ext_info (l : list bit_value) : option (gprs_ext_info * list bit_value) :=
  '(len, l) ← rd_uint 6 0 l;
  '(egprs, l) ← rd_flag l;
  '(req, bep, l) ← (if egprs : bool then '(req, l) ← rd_flag l; '(bep, l) ← rd_uint 4 0 l; Some (req, bep, l)
                    else Some (false, 0, l));
  '(pfc, l) ← rd_flag l; '(dtm, l) ← rd_flag l; '(coord, l) ← rd_flag l;
  (if len =? (if egprs : bool then 8 else 3) then Some (mk_gprs_ext_info egprs req bep pfc dtm coord, l) else None).
Definition read_cell_opt (l : list bit_value) : option (gprs_cell_options * list bit_value) :=
  '(nmo, l) ← rd_uint 2 0 l; '(t3168, l) ← rd_uint 3 0 l; '(t3192, l) ← rd_uint 3 0 l; '(drx, l) ← rd_uint 3 0 l;
  l ← rd_bit ZERO l; l ← rd_bit ONE l;
  '(bs_cv, l) ← rd_uint 4 0 l;
  l ← rd_bit ONE l; '(_, l) ← rd_uint 3 0 l; '(_, l) ← rd_uint 3 0 l; '(_, l) ← rd_uint 3 0 l;
  '(ext, l) ← rd_flag l;
  '(ei, l) ← (if ext : bool then read_ext_info l else Some (mk_gprs_ext_info false false 0 false false false, l));
  Some (mk_gprs_cell_options nmo (t3168_value t3168) (t3192_value t3192) (drx_value drx) bs_cv ext ei, l).
Definition read_pwr_ctrl (l : list bit_value) : option (gprs_power_ctrl_pars * list bit_value) :=
  '(a, l) ← rd_uint 4 0 l; '(w, l) ← rd_uint 5 0 l; '(t, l) ← rd_uint 5 0 l; '(p, l) ← rd_uint 1 0 l;
  '(n, l) ← rd_uint 4 0 l;
  Some (mk_gprs_power_ctrl_pars a w t p n, l).

(** SI13 of a cell without PBCCH: change mark, change field, routing area colour and what follows. *)
Definition read_si13 (l : list bit_value)
    : option (Z * Z * (Z * bool * Z * Z) * gprs_cell_options * gprs_power_ctrl_pars) :=
  l ← rd_bit H l;
  '(bcm, l) ← rd_uint 3 0 l; '(sicf, l) ← rd_uint 4 0 l;
  l ← rd_bit ZERO l; l ← rd_bit ZERO l;
  '(rac, l) ← rd_uint 8 0 l; '(spgc, l) ← rd_flag l; '(pat, l) ← rd_uint 3 0 l; '(nco, l) ← rd_uint 2 0 l;
  '(co, l) ← read_cell_opt l;
  '(pc, l) ← read_pwr_ctrl l;
  l ← rd_bit H l; l ← rd_bit ONE l;
  Some (bcm, sicf, (rac, spgc, nco, pat), co, pc).

Section rest.
Context `{BitWriterOk}.

(** From [v] to [v'] the bits [l] were written, if there was room for them. *)
Definition appends (v v' : bw) (l : list bit_value) : Prop :=
  bw_room v' = bw_room v /\
  (Z.of_nat (length (bw_bits v) + length l) <= bw_room v -> bw_bits v' = bw_bits v ++ l).

Lemma appends_trans v1 v2 v3 l1 l2 : appends v1 v2 l1 -> appends v2 v3 l2 -> appends v1 v3 (l1 ++ l2).
Proof.
  intros [Hr1 Hb1] [Hr2 Hb2]. split; [congruence|]. rewrite length_app. intros Hlen.
  assert (bw_bits v2 = bw_bits v1 ++ l1) as E by (apply Hb1; lia).
  rewrite Hb2; [by rewrite E, app_assoc|]. rewrite E, length_app. lia.
Qed.
Lemma appends_bit v b : appends v (bitvec_set_bit v b) [b].
Proof. split; [apply bw_set_bit_room|]. cbn. intros Hl. apply bw_set_bit. lia. Qed.
Lemma appends_uint v x n z : z = Z.of_nat n -> appends v (bitvec_set_uint v x z) (msb_bits n x).
Proof.
  intros ->. split; [apply bw_set_uint_room|]. rewrite length_msb_bits. intros Hl. rewrite bw_set_uint by lia.
  by rewrite Nat2Z.id.
Qed.

(** The bits of each part. *)
Definition ext_info_bits (ei : gprs_ext_info) : list bit_value :=
  (if egprs_supported ei then msb_bits 6 8 ++ [ONE] ++ [bit_of (use_egprs_p_ch_req ei)] ++ msb_bits 4 (bep_period ei)
   else msb_bits 6 3 ++ [ZERO])
  ++ [bit_of (pfc_supported ei)] ++ [bit_of (dtm_supported ei)] ++ [bit_of (bss_paging_coordination ei)].
Definition cell_opt_bits (gco : gprs_cell_options) : list bit_value :=
  msb_bits 2 (nmo gco) ++ msb_bits 3 (t3168 gco / 500) ++ msb_bits 3 (encode_t3192 (t3192 gco))
  ++ msb_bits 3 (encode_drx_timer (drx_timer_max gco)) ++ [ZERO] ++ [ONE] ++ msb_bits 4 (bs_cv_max gco)
  ++ [ONE] ++ msb_bits 3 1 ++ msb_bits 3 1 ++ msb_bits 3 15
  ++ (if ext_info_present gco then [ONE] ++ ext_info_bits (ext_info gco) else [ZERO]).
Definition pwr_ctrl_bits (pcp : gprs_power_ctrl_pars) : list bit_value :=
  msb_bits 4 (alpha pcp) ++ msb_bits 5 (t_avg_w pcp) ++ msb_bits 5 (t_avg_t pcp) ++ msb_bits 1 (pc_meas_chan pcp)
  ++ msb_bits 4 (n_avg_i pcp).

Local Ltac appends_step := first [apply appends_uint; reflexivity | apply appends_bit].
Local Ltac appends_tac := repeat first [appends_step | eapply appends_trans; [appends_step|]].

Lemma appends_ext_info v ei : appends v (append_ext_info v ei) (ext_info_bits ei).
Proof.
  unfold append_ext_info, ext_info_bits. destruct (egprs_supported ei); cbn [negb];
    rewrite <-?app_assoc; appends_tac.
Qed.

Definition timers_ok (gco : gprs_cell_options) : Prop := 0 <= t3192 gco <= 1500 /\ 0 <= drx_timer_max gco <= 64.
Lemma encode_t3192_ok t : 0 <= t <= 1500 -> in_width 3 (encode_t3192 t) /\ t <= t3192_value (encode_t3192 t).
Proof.
  intros Ht. unfold encode_t3192. destruct (Z.eqb_spec t 0) as [->|]; [by vm_bounds|].
  repeat match goal with |- context [t <=? ?n] => destruct (Z.leb_spec t n); [split; [by vm_bounds|match goal with |- _ <= ?v => let x := eval vm_compute in v in change (t <= x) end; lia]|] end. lia.
Qed.
Lemma encode_drx_ok t : 0 <= t <= 64 -> in_width 3 (encode_drx_timer t) /\ t <= drx_value (encode_drx_timer t).
Proof.
  intros Ht. unfold encode_drx_timer. destruct (Z.eqb_spec t 0) as [->|]; [by vm_bounds|].
  destruct (Z.eqb_spec t 1) as [->|]; [by vm_bounds|]. destruct (Z.eqb_spec t 2) as [->|]; [by vm_bounds|].
  repeat match goal with |- context [t <=? ?n] => destruct (Z.leb_spec t n); [split; [by vm_bounds|match goal with |- _ <= ?v => let x := eval vm_compute in v in change (t <= x) end; lia]|] end. lia.
Qed.

Lemma appends_cell_opt v gco :
  timers_ok gco -> appends v (snd (append_gprs_cell_opt v gco)) (cell_opt_bits gco).
Proof.
  intros [Ht Hd]. unfold append_gprs_cell_opt, cell_opt_bits.
  destruct (encode_t3192_ok _ Ht) as [[E1 _] _]. destruct (encode_drx_ok _ Hd) as [[E2 _] _].
  rewrite (proj2 (Z.ltb_ge _ _) E1), (proj2 (Z.ltb_ge _ _) E2). cbn [snd].
  destruct (ext_info_present gco); cbn [negb]; appends_tac.
  apply appends_ext_info.
Qed.

Lemma appends_pwr_ctrl v pcp : appends v (append_gprs_pwr_ctrl_pars v pcp) (pwr_ctrl_bits pcp).
Proof. unfold append_gprs_pwr_ctrl_pars, pwr_ctrl_bits. appends_tac. Qed.

Local Ltac rd_tac :=
  repeat first [ rewrite rd_uint_small by (first [assumption | by vm_bounds]) | rewrite rd_flag_bit | rewrite rd_bit_same
               | progress cbn [mbind option_bind app] ].

(** The fields fit. *)
Definition ext_info_ok (ei : gprs_ext_info) : Prop := in_width 4 (bep_period ei).
Definition cell_opt_ok (gco : gprs_cell_options) : Prop :=
  in_width 2 (nmo gco) /\ in_width 3 (t3168 gco / 500) /\ timers_ok gco /\ in_width 4 (bs_cv_max gco)
  /\ ext_info_ok (ext_info gco).
Definition pwr_ctrl_ok (pcp : gprs_power_ctrl_pars) : Prop :=
  in_width 4 (alpha pcp) /\ in_width 5 (t_avg_w pcp) /\ in_width 5 (t_avg_t pcp) /\ in_width 1 (pc_meas_chan pcp)
  /\ in_width 4 (n_avg_i pcp).

(** What can be said of the cell: extension parameters only for EGPRS and if present at all, timers rounded. *)
Definition said_ext_info (ei : gprs_ext_info) : gprs_ext_info :=
  if egprs_supported ei then ei
  else mk_gprs_ext_info false false 0 (pfc_supported ei) (dtm_supported ei) (bss_paging_coordination ei).
Definition said_cell_opt (gco : gprs_cell_options) : gprs_cell_options :=
  mk_gprs_cell_options (nmo gco) (t3168_value (t3168 gco / 500)) (t3192_value (encode_t3192 (t3192 gco)))
    (drx_value (encode_drx_timer (drx_timer_max gco))) (bs_cv_max gco) (ext_info_present gco)
    (if ext_info_present gco then said_ext_info (ext_info gco) else mk_gprs_ext_info false false 0 false false false).

Lemma read_ext_info_bits ei rest :
  ext_info_ok ei -> read_ext_info (ext_info_bits ei ++ rest) = Some (said_ext_info ei, rest).
Proof.
  intros Hb. unfold ext_info_ok in Hb. unfold read_ext_info, ext_info_bits, said_ext_info. destruct ei as [e r b p d c]. cbn in *.
  destruct e; rewrite <-!app_assoc; rd_tac; change (rd_flag (ONE :: ?l)) with (Some (true, l));
    change (rd_flag (ZERO :: ?l)) with (Some (false, l)); rd_tac; done.
Qed.

Lemma read_cell_opt_bits gco rest :
  cell_opt_ok gco -> read_cell_opt (cell_opt_bits gco ++ rest) = Some (said_cell_opt gco, rest).
Proof.
  intros (Hn & Ht & [Ht1 Ht2] & Hb & He). destruct (encode_t3192_ok _ Ht1) as [Hc1 _], (encode_drx_ok _ Ht2) as [Hc2 _].
  unfold read_cell_opt, cell_opt_bits, said_cell_opt. rewrite <-!app_assoc. rd_tac. rewrite rd_uint_msb by done.
  cbn [mbind option_bind].
  destruct (ext_info_present gco); cbn [app].
  - change (rd_flag (ONE :: ?l)) with (Some (true, l)). cbn [mbind option_bind].
    by rewrite read_ext_info_bits.
  - done.
Qed.

Lemma read_pwr_ctrl_bits pcp rest :
  pwr_ctrl_ok pcp -> read_pwr_ctrl (pwr_ctrl_bits pcp ++ rest) = Some (pcp, rest).
Proof.
  intros (H1' & H2' & H3' & H4' & H5'). unfold read_pwr_ctrl, pwr_ctrl_bits. rewrite <-!app_assoc. rd_tac.
  by destruct pcp.
Qed.

(** The bits of SI13 without PBCCH. *)
Definition si13_bits (bcm sicf rac : Z) (spgc : bool) (nco pat : Z) (gco : gprs_cell_options) (pcp : gprs_power_ctrl_pars)
    : list bit_value :=
  [H] ++ msb_bits 3 bcm ++ msb_bits 4 sicf ++ [ZERO] ++ [ZERO] ++ msb_bits 8 rac ++ [bit_of spgc] ++ msb_bits 3 pat
  ++ msb_bits 2 nco ++ cell_opt_bits gco ++ pwr_ctrl_bits pcp ++ [H] ++ [ONE].

Lemma length_si13_bits bcm sicf rac spgc nco pat gco pcp :
  (length (si13_bits bcm sicf rac spgc nco pat gco pcp) <= 100)%nat.
Proof.
  unfold si13_bits, cell_opt_bits, pwr_ctrl_bits, ext_info_bits. rewrite !length_app, !length_msb_bits.
  destruct (ext_info_present gco), (egprs_supported (ext_info gco)); rewrite ?length_app, ?length_msb_bits; cbn; lia.
Qed.

Lemma rest_octets_si13_bits bcm sicf rac spgc nco pat gco pcp :
  timers_ok gco ->
  exists rest,
    bw_bits (snd (rest_octets_si13 (mk_gsm48_si13_info gco pcp bcm sicf (no_pbcch rac spgc nco pat))))
    = si13_bits bcm sicf rac spgc nco pat gco pcp ++ rest.
Proof.
  intros Ht. unfold rest_octets_si13. cbn [si13_chan bcch_change_mark si_change_field cell_opts pwr_ctrl_pars snd].
  set (v0 := bw_data 20).
  match goal with |- context [bitvec_spare_padding ?x _] => set (v := x) end.
  assert (appends v0 v (si13_bits bcm sicf rac spgc nco pat gco pcp)) as [_ Hb].
  { unfold v, si13_bits. appends_tac. eapply appends_trans; [by apply appends_cell_opt|].
    eapply appends_trans; [apply appends_pwr_ctrl|]. appends_tac. }
  destruct (bw_padding v (20 * 8 - 1)) as [rest Hrest]. exists rest. rewrite Hrest, Hb.
  - unfold v0. by rewrite bw_data_bits.
  - unfold v0. rewrite bw_data_room, bw_data_bits. pose proof (length_si13_bits bcm sicf rac spgc nco pat gco pcp). cbn [length Nat.add]. lia.
Qed.

(** C29: a mobile that reads SI13 gets the parameters of the cell. For a cell without PBCCH whose fields fit
    and whose timers are in range, the rest octets are decoded by the grammar of TS 04.08 and TS 04.60 to
    the change mark, the routing area colour, the cell options and the power control parameters, with T3192
    and the DRX timer rounded up to values that can be coded. T3168 is not the one of the cell: its code counts
    the steps of 500 ms from 500 ms on, the code writes the number of whole steps, and the mobile reads a time
    that is always longer than the configured one, by a whole step when that is a multiple of 500 ms. *)
Theorem si13_roundtrip bcm sicf rac spgc nco pat gco pcp :
  in_width 3 bcm -> in_width 4 sicf -> in_width 8 rac -> in_width 2 nco -> in_width 3 pat ->
  cell_opt_ok gco -> pwr_ctrl_ok pcp ->
  read_si13 (bw_bits (snd (rest_octets_si13 (mk_gsm48_si13_info gco pcp bcm sicf (no_pbcch rac spgc nco pat)))))
  = Some (bcm, sicf, (rac, spgc, nco, pat), said_cell_opt gco, pcp)
  /\ t3192 gco <= t3192 (said_cell_opt gco) /\ drx_timer_max gco <= drx_timer_max (said_cell_opt gco)
  /\ t3168 gco < t3168 (said_cell_opt gco) <= t3168 gco + 500
  /\ (t3168 gco mod 500 = 0 -> t3168 (said_cell_opt gco) = t3168 gco + 500).
Proof.
  intros Hbcm Hsicf Hrac Hnco Hpat Hgco Hpcp. pose proof Hgco as (_ & _ & [Ht1 Ht2] & _).
  split; [|split; [apply encode_t3192_ok, Ht1|split; [apply encode_drx_ok, Ht2|]]];
    [|cbn; unfold t3168_value; Z.to_euclidean_division_equations; lia].
  destruct (rest_octets_si13_bits bcm sicf rac spgc nco pat gco pcp (conj Ht1 Ht2)) as [rest ->].
  unfold read_si13, si13_bits. rewrite <-!app_assoc. rd_tac. rewrite read_cell_opt_bits by done. rd_tac.
  rewrite read_pwr_ctrl_bits by done. rd_tac. done.
Qed.

End rest.

(** ** Mobile allocations *)

Section ma.
Context `{BitvecOk}.

(** How many ARFCNs of the cell are among the [n] from [i] on. *)
Definition rank cell (i : Z) (n : nat) : Z := count_arfcns cell n i 0.

Lemma count_arfcns_num cell n i num : count_arfcns cell n i num = num + rank cell i n.
Proof.
  unfold rank. revert i num. induction n as [|n IH]; intros i num; cbn [count_arfcns]; [lia|].
  rewrite IH, (IH _ (if bitvec_get_bit_pos cell i then 0 + 1 else 0)). destruct (bitvec_get_bit_pos cell i); lia.
Qed.
Lemma rank_S cell i n : rank cell i (S n) = (if bitvec_get_bit_pos cell i then 1 else 0) + rank cell (i + 1) n.
Proof. unfold rank. cbn [count_arfcns]. rewrite count_arfcns_num. done. Qed.
Lemma rank_bound cell i n : 0 <= rank cell i n <= Z.of_nat n.
Proof.
  revert i. induction n as [|n IH]; intros i; [done|]. rewrite rank_S. specialize (IH (i + 1)).
  destruct (bitvec_get_bit_pos cell i); lia.
Qed.

Lemma set_ma_spec cell ts len n i nch ma :
  0 <= nch -> nch + rank cell i n <= 8 * len -> 8 * len <= bitvec_bits ma -> 8 * len < 2 ^ 32 ->
  match set_ma cell ts len n i nch ma with
  | (nch', ma') =>
      nch' = nch + rank cell i n /\ bitvec_bits ma' = bitvec_bits ma
      /\ (forall p, 8 * len - 1 - nch < p -> bitvec_get_bit_pos ma' p = bitvec_get_bit_pos ma p)
      /\ (forall p, p < 8 * len - (nch + rank cell i n) -> bitvec_get_bit_pos ma' p = bitvec_get_bit_pos ma p)
      /\ forall k, (k < n)%nat -> bitvec_get_bit_pos cell (i + Z.of_nat k) = true ->
           bitvec_get_bit_pos ma' (8 * len - 1 - (nch + rank cell i k)) = bitvec_get_bit_pos ts (i + Z.of_nat k)
  end.
Proof.
  revert i nch ma. induction n as [|n IH]; intros i nch ma Hn Hr Hb Hw; cbn [set_ma].
  { change (rank cell i 0) with 0. split_and!; try done; lia. }
  rewrite rank_S in Hr |- *. pose proof (rank_bound cell (i + 1) n) as Hrb.
  destruct (bitvec_get_bit_pos cell i) eqn:Ei; cbn [negb].
  - set (bitnum := u32 (len * 8 - 1 - nch)).
    assert (bitnum = 8 * len - 1 - nch) as Hbit.
    { unfold bitnum. rewrite wrap_small; [lia|]. unfold in_width. lia. }
    set (ma1 := bitvec_set_bit_pos ma bitnum (bitvec_get_bit_pos ts i)).
    assert (bitvec_bits ma1 = bitvec_bits ma) as Hb1 by apply bits_set.
    assert (forall j, bitvec_get_bit_pos ma1 j = if bitnum =? j then bitvec_get_bit_pos ts i else bitvec_get_bit_pos ma j) as Hg.
    { intros j. apply get_set. lia. }
    specialize (IH (i + 1) (nch + 1) ma1 ltac:(lia) ltac:(lia) ltac:(lia) Hw).
    destruct (set_ma cell ts len n (i + 1) (nch + 1) ma1) as [nch' ma']. destruct IH as (Hs1 & Hs2 & Hs3 & Hs4 & Hs5).
    split_and!; [lia|lia| | |].
    + intros p Hp. rewrite Hs3 by lia. rewrite Hg. by destruct (Z.eqb_spec bitnum p); [lia|].
    + intros p Hp. rewrite Hs4 by lia. rewrite Hg. by destruct (Z.eqb_spec bitnum p); [lia|].
    + intros k Hk Hck. destruct k as [|k].
      * rewrite Z.add_0_r. change (rank cell i 0) with 0. rewrite Z.add_0_r, Hs3 by lia. rewrite Hg.
        destruct (Z.eqb_spec bitnum (8 * len - 1 - nch)); [done|lia].
      * rewrite rank_S, Ei. replace (i + Z.of_nat (S k)) with (i + 1 + Z.of_nat k) in * by lia.
        rewrite <-Hs5 by (done || lia). f_equal. lia.
  - specialize (IH (i + 1) nch ma Hn ltac:(lia) Hb Hw).
    destruct (set_ma cell ts len n (i + 1) nch ma) as [nch' ma']. destruct IH as (Hs1 & Hs2 & Hs3 & Hs4 & Hs5).
    split_and!; [lia|done|done|intros p Hp; apply Hs4; lia|].
    intros k Hk Hck. destruct k as [|k].
    + rewrite Z.add_0_r in Hck. congruence.
    + rewrite rank_S, Ei. replace (i + Z.of_nat (S k)) with (i + 1 + Z.of_nat k) in * by lia.
      rewrite <-Hs5 by (done || lia). done.
Qed.

(** C30: the mobile allocation names the hopping frequencies. When the cell does not use ARFCN 0, the
    allocation has as many octets as the ARFCNs of the cell need, the bit of an ARFCN of the cell (the
    lowest one is the last bit) says whether the time slot hops over it, and no other bit is set. *)
Theorem mobile_allocation_exact cell ts ma :
  bitvec_get_bit_pos cell 0 = false -> rank cell 1 1023 <= bitvec_bits ma -> bitvec_bits ma mod 8 = 0 ->
  match generate_ma_for_ts cell ts ma true with
  | (ma_len, ma') =>
      8 * ma_len - 8 < rank cell 1 1023 <= 8 * ma_len /\
      (forall k, (k < 1023)%nat -> bitvec_get_bit_pos cell (1 + Z.of_nat k) = true ->
         bitvec_get_bit_pos ma' (8 * ma_len - 1 - rank cell 1 k) = bitvec_get_bit_pos ts (1 + Z.of_nat k)) /\
      (forall p, p < 8 * ma_len - rank cell 1 1023 -> bitvec_get_bit_pos ma' p = false)
  end.
Proof.
  intros H0c Hroom Hmod. unfold generate_ma_for_ts. cbn [negb]. rewrite count_arfcns_num, Z.add_0_l, H0c.
  set (num := rank cell 1 1023) in *. pose proof (rank_bound cell 1 1023) as Hnum. fold num in Hnum.
  set (len := if negb (num mod 8 =? 0) then num / 8 + 1 else num / 8).
  assert (8 * len - 8 < num <= 8 * len) as Hlen.
  { unfold len. pose proof (Z.div_mod num 8 ltac:(lia)). pose proof (Z.mod_pos_bound num 8 eq_refl).
    destruct (Z.eqb_spec (num mod 8) 0); cbn [negb]; lia. }
  assert (8 * len <= bitvec_bits ma) as Hfit.
  { pose proof (Z.div_mod (bitvec_bits ma) 8 ltac:(lia)). lia. }
  pose proof (set_ma_spec cell ts len 1023 1 0 (bitvec_clear ma) ltac:(lia)) as Hs. fold num in Hs.
  rewrite bits_clear in Hs. specialize (Hs ltac:(lia) Hfit ltac:(lia)).
  destruct (set_ma cell ts len 1023 1 0 (bitvec_clear ma)) as [nch ma']. destruct Hs as (_ & _ & _ & Hlow & Hbits).
  split_and!; [lia|lia| |].
  - intros k Hk Hc. by rewrite <-Hbits.
  - intros p Hp. rewrite Hlow by lia. apply get_clear.
Qed.

End ma.

(** ** Witnesses: bit vectors as lists *)

#[local] Instance demo_bitvec : Bitvec := {|
  bitvec := list bool;
  bitvec_bits v := Z.of_nat (length v);
  bitvec_get_bit_pos v i := if i <? 0 then false else default false (v !! Z.to_nat i);
  bitvec_set_bit_pos v i b := if (0 <=? i) && (i <? Z.of_nat (length v)) then <[Z.to_nat i := b]> v else v;
  bitvec_clear v := replicate (length v) false
|}.
#[local] Instance demo_bitvec_ok : BitvecOk.
Proof.
  split; cbn.
  - intros v i b j Hi. assert ((0 <=? i) && (i <? Z.of_nat (length v)) = true) as -> by lia. destruct (Z.ltb_spec j 0) as [|Hj].
    + destruct (Z.eqb_spec i j); [lia|done].
    + destruct (Z.eqb_spec i j) as [->|Hne]; [rewrite list_lookup_insert_eq by lia; done|].
      by rewrite list_lookup_insert_ne by lia.
  - intros v j. destruct (Z.ltb_spec j 0); [done|]. destruct (replicate (length v) false !! Z.to_nat j) as [x|] eqn:E; [|done].
    by apply lookup_replicate in E as [-> _].
  - intros v i b. destruct (_ && _); [by rewrite length_insert|done].
  - intros v. by rewrite length_replicate.
Qed.
#[local] Instance demo_const : SysinfoConst := {|
  GSM48_CELL_CHAN_DESC_SIZE := 16;
  sizeof_si1 := 22; sizeof_si2 := 23; sizeof_si3 := 19; sizeof_si4 := 13; sizeof_si13 := 3
|}.
Definition demo_arfcns (l : list Z) (n : nat) : bitvec :=
  foldl (fun v i => <[Z.to_nat i := true]> v) (replicate n false) l.
Definition demo_ones (n : nat) (b : bool) : bitvec := replicate n b.

(** Neighbours of a GSM 1800 cell. *)
Lemma freq_list_roundtrip_witness :
  exists p, bitvec2freq_list (demo_arfcns [600; 512; 623] 1024) false = (0, p) /\
    forall a, 0 <= a < 1024 -> freq_list_has p a = bitvec_get_bit_pos (demo_arfcns [600; 512; 623] 1024) a.
Proof.
  pose proof (freq_list_roundtrip eq_refl (demo_arfcns [600; 512; 623] 1024) false eq_refl) as Ht.
  destruct (bitvec2freq_list (demo_arfcns [600; 512; 623] 1024) false) as [rc p] eqn:E. destruct Ht as [_ Hr].
  exists p. assert (rc = 0) as ->. { vm_compute in E. injection E as <- _. reflexivity. }
  split; [reflexivity|]. exact (Hr eq_refl).
Defined.

(** The time slot hops over two of the three ARFCNs of the cell. *)
Lemma mobile_allocation_exact_witness :
  let cell := demo_arfcns [5; 80; 900] 1024 in
  let ts := demo_arfcns [5; 900] 1024 in
  exists ma', generate_ma_for_ts cell ts (demo_ones 64 true) true = (1, ma') /\
    bitvec_get_bit_pos ma' 7 = true /\ bitvec_get_bit_pos ma' 6 = false
    /\ bitvec_get_bit_pos ma' 5 = true /\ forall p, p < 5 -> bitvec_get_bit_pos ma' p = false.
Proof.
  intros cell ts.
  assert (rank cell 1 1023 = 3) as Hr by (vm_compute; reflexivity).
  pose proof (mobile_allocation_exact cell ts (demo_ones 64 true) eq_refl) as Ht. rewrite Hr in Ht.
  specialize (Ht ltac:(vm_compute; discriminate) eq_refl).
  destruct (generate_ma_for_ts cell ts (demo_ones 64 true) true) as [len ma'] eqn:E.
  destruct Ht as (Hlen & Hbits & Hlow). assert (len = 1) as -> by lia. exists ma'. split; [reflexivity|].
  pose proof (Hbits 4%nat ltac:(lia) eq_refl) as B1. pose proof (Hbits 79%nat ltac:(lia) eq_refl) as B2.
  pose proof (Hbits 899%nat ltac:(lia) eq_refl) as B3.
  replace (rank cell 1 4) with 0 in B1 by (vm_compute; reflexivity).
  replace (rank cell 1 79) with 1 in B2 by (vm_compute; reflexivity).
  replace (rank cell 1 899) with 2 in B3 by (vm_compute; reflexivity).
  split; [exact B1|]. split; [exact B2|]. split; [exact B3|]. intros p Hp. apply Hlow. lia.
Defined.

(** ARFCN 0 is skipped over: with the ARFCNs 0 and 5 the bit of ARFCN 0 should be the last but one, 6, but
    bit 5 is written; and a cell with ARFCN 0 alone has an allocation without octets. *)
Example mobile_allocation_arfcn_0 :
  (let '(len, ma) := generate_ma_for_ts (demo_arfcns [0; 5] 1024) (demo_arfcns [0] 1024) (demo_ones 64 false) true in
   (len, take 8 (ma : list bool))) = (1, [false; false; false; false; false; true; false; false]) /\
  fst (generate_ma_for_ts (demo_arfcns [0] 1024) (demo_arfcns [0] 1024) (demo_ones 64 false) true) = 0.
Proof. split; vm_compute; reflexivity. Qed.

(** A vector that is written from the front, over the given number of octets. *)
#[local] Instance demo_writer : BitWriter := {|
  bw := Z * list bit_value;
  bw_data n := (8 * n, []);
  bitvec_set_bit v b := if Z.of_nat (length (snd v)) <? fst v then (fst v, snd v ++ [b]) else v;
  bitvec_set_uint v x n := if Z.of_nat (length (snd v)) + n <=? fst v then (fst v, snd v ++ msb_bits (Z.to_nat n) x) else v;
  bitvec_spare_padding v n := (fst v, snd v ++ replicate (Z.to_nat n + 1 - length (snd v)) L)
|}.
#[local] Instance demo_writer_ok : BitWriterOk.
Proof.
  refine {| bw_room := fst : bw -> Z; bw_bits := snd : bw -> list bit_value |}; cbn; try done.
  - intros v b. by destruct (_ <? _).
  - intros v b. destruct (Z.ltb_spec (Z.of_nat (length (snd v))) (fst v)); [done|lia].
  - intros v x n. by destruct (_ <=? _).
  - intros v x n. destruct (Z.leb_spec (Z.of_nat (length (snd v)) + n) (fst v)); [done|lia].
  - intros v n. by eexists.
Defined.

(** The parameters of [si13_default], for routing area 12. *)
Lemma si13_roundtrip_witness :
  let gco := mk_gprs_cell_options 1 2000 200 3 15 true (mk_gprs_ext_info false true 5 false false false) in
  let pcp := mk_gprs_power_ctrl_pars 10 16 16 0 8 in
  read_si13 (snd (snd (rest_octets_si13 (mk_gsm48_si13_info gco pcp 1 0 (no_pbcch 12 false 0 6)))))
  = Some (1, 0, (12, false, 0, 6), said_cell_opt gco, pcp) /\ t3192 (said_cell_opt gco) = 200 /\ drx_timer_max (said_cell_opt gco) = 4
  /\ t3168 (said_cell_opt gco) = 2500.
Proof.
  intros gco pcp.
  unshelve epose proof (si13_roundtrip 1 0 12 false 0 6 gco pcp _ _ _ _ _ _ _) as Hr; [by vm_bounds..|].
  split; [exact (proj1 Hr)|]. split_and!; vm_compute; reflexivity.
Defined.

(** The static defaults remember that a cell supports EGPRS: after the SI13 of an EGPRS cell, the SI13 of
    a cell with plain GPRS announces EGPRS. *)
Example si13_egprs_sticks :
  let bts nr mode := mk_si_bts nr GSM_BTS_TYPE_NANOBTS true [] 0 0 mode 0 NL_MODE_MANUAL (demo_ones 0 false) (demo_ones 0 false) (demo_ones 0 false) [] 0 []
    (mk_gsm48_si_selection_params false false 0 0 0) [] [] in
  let net := mk_si_net 1 1 [] in
  let said s := match s with
                | Some (Ok (_, Si13 rest), _) => match read_si13 (snd rest) with
                                                 | Some (_, _, _, co, _) => Some (egprs_supported (ext_info co)) | None => None end
                | _ => None end in
  let s1 := gsm_generate_si net (bts 0%nat BTS_GPRS_GPRS) SYSINFO_TYPE_13 si_static_init in
  said s1 = Some false /\
  exists r s2 r3 s3, gsm_generate_si net (bts 1%nat BTS_GPRS_EGPRS) SYSINFO_TYPE_13 si_static_init = Some (r, s2) /\
    gsm_generate_si net (bts 0%nat BTS_GPRS_GPRS) SYSINFO_TYPE_13 s2 = Some (r3, s3) /\ said (Some (r3, s3)) = Some true.
Proof.
  cbn zeta. split; [vm_compute; reflexivity|]. do 4 eexists. split; [vm_compute; reflexivity|].
  split; [vm_compute; reflexivity|]. vm_compute. reflexivity.
Qed.

End SysinfoProps.
