(* ===== verification/Mgcp.v ===== *)
(** The MGCP media gateway (libmgcp/mgcp_protocol.c, libmgcp/mgcp_network.c): endpoints, requests and
    responses, the allocation of ports, and the forwarding of RTP between the BTS, the network and a
    transcoder.

    A message is a list of octets; a pointer into it is an offset, and reading past its end reads 0, as the
    code relies on a terminating zero. Sockets are flags (open or not); opening and binding them is the
    arguments ([mgcp_sys]), and what is sent are events. *)

From S2P Require Import Prelude Meas Msc Trau Rtp RtpProps.

Module Mgcp.

(** ** Text *)

Fixpoint str (s : string) : list Z :=
  match s with
  | EmptyString => []
  | String c s => Z.of_nat (Ascii.nat_of_ascii c) :: str s
  end.

Definition isspace (c : Z) : bool := (c =? 32) || ((9 <=? c) && (c <=? 13)).
Definition isdigit (c : Z) : bool := (48 <=? c) && (c <=? 57).
Definition islower (c : Z) : bool := (97 <=? c) && (c <=? 122).
Definition CR : Z := 13.
Definition LF : Z := 10.

(** The string that starts at the front. *)
Fixpoint cstr (p : list Z) : list Z :=
  match p with
  | [] => []
  | c :: p => if c =? 0 then [] else c :: cstr p
  end.
Definition strncmp_eq (lit p : list Z) : bool := bool_decide (take (length lit) p = lit).
Definition strcmp_eq (lit p : list Z) : bool := bool_decide (cstr p = lit).

Fixpoint skip_ws (p : list Z) : list Z :=
  match p with
  | c :: p' => if isspace c then skip_ws p' else p
  | [] => []
  end.

(** The digits at the front, [n] at most, as a number. *)
Fixpoint digits (n : nat) (acc : Z) (p : list Z) : Z * list Z :=
  match n, p with
  | S n, c :: p' => if isdigit c then digits n (10 * acc + (c - 48)) p' else (acc, p)
  | _, _ => (acc, p)
  end.
(** [%d], with a field of [width] characters at most. *)
Definition scan_int (width : nat) (p : list Z) : option (Z * list Z) :=
  let p := skip_ws p in
  let '(neg, w, q) := match p with
                      | c :: q => if c =? 45 then (true, pred width, q) else if c =? 43 then (false, pred width, q) else (false, width, p)
                      | [] => (false, width, p)
                      end in
  match q with
  | c :: _ =>
      if isdigit c && (0 <? Z.of_nat w) then let '(v, q) := digits w 0 q in
        Some (Meas.s32 (Z.max (- 2 ^ 63) (Z.min (2 ^ 63 - 1) (if neg then - v else v))), q)
      else None
  | [] => None
  end.
(** Characters of a format; a blank stands for any white space. *)
Fixpoint scan_lit (lit p : list Z) : option (list Z) :=
  match lit with
  | [] => Some p
  | c :: lit =>
      if isspace c then scan_lit lit (skip_ws p)
      else match p with
           | d :: p => if c =? d then scan_lit lit p else None
           | [] => None
           end
  end.
(** [%15s] *)
Fixpoint scan_word (n : nat) (p : list Z) : list Z :=
  match n, p with
  | S n, c :: p => if isspace c || (c =? 0) then [] else c :: scan_word n p
  | _, _ => []
  end.

(** [strtoul] in base 10 and 16: the value and the rest; without digits, 0 and the whole string. *)
Definition hexval (c : Z) : option Z :=
  if isdigit c then Some (c - 48)
  else if (97 <=? c) && (c <=? 102) then Some (c - 87)
  else if (65 <=? c) && (c <=? 70) then Some (c - 55)
  else None.
Fixpoint number (base acc : Z) (p : list Z) : Z * list Z :=
  match p with
  | c :: p' =>
      match hexval c with
      | Some d => if d <? base then number base (base * acc + d) p' else (acc, p)
      | None => (acc, p)
      end
  | [] => (acc, p)
  end.
Definition starts_number (base : Z) (p : list Z) : bool :=
  match p with
  | c :: _ => match hexval c with Some d => d <? base | None => false end
  | [] => false
  end.
Definition ULONG_MAX : Z := 2 ^ 64 - 1.
Definition strtoul (base : Z) (p : list Z) : Z * list Z :=
  let q := skip_ws p in
  let '(neg, q) := match q with
                   | c :: q' => if c =? 45 then (true, q') else if c =? 43 then (false, q') else (false, q)
                   | [] => (false, q)
                   end in
  let q := match q with
           | z :: x :: q' =>
               if (base =? 16) && (z =? 48) && ((x =? 120) || (x =? 88)) && starts_number base q' then q' else q
           | _ => q
           end in
  if starts_number base q then
    let '(v, q) := number base 0 q in
    (if ULONG_MAX <? v then ULONG_MAX else if neg then (- v) mod 2 ^ 64 else v, q)
  else (0, p).

(** [%d], [%u] and [%x] of a number that is not negative. *)
Fixpoint print_base (fuel : nat) (base n : Z) (acc : list Z) : list Z :=
  match fuel with
  | O => acc
  | S fuel =>
      let d := n mod base in
      let acc := (if d <? 10 then 48 + d else 87 + d) :: acc in
      if n <? base then acc else print_base fuel base (n / base) acc
  end.
Definition print_u (n : Z) : list Z := print_base 20 10 n [].
Definition print_d (n : Z) : list Z := if n <? 0 then 45 :: print_u (- n) else print_u n.
Definition print_x (n : Z) : list Z := print_base 20 16 n [].

(** ** Data *)

Definition CI_UNUSED : Z := 0.
Definition MGCP_CONN_NONE : Z := 0.
Definition MGCP_CONN_RECV_ONLY : Z := 1.
Definition MGCP_CONN_SEND_ONLY : Z := 2.
Definition MGCP_CONN_RECV_SEND : Z := MGCP_CONN_RECV_ONLY .| MGCP_CONN_SEND_ONLY.
Definition MGCP_CONN_LOOPBACK : Z := 4.
Definition PORT_ALLOC_STATIC : Z := 0.
Definition PORT_ALLOC_DYNAMIC : Z := 1.
Definition RTP_PORT_DEFAULT : Z := 4000.
Definition RTP_PORT_NET_DEFAULT : Z := 16000.

Inductive mgcp_trunk_type : Type := MGCP_TRUNK_VIRTUAL | MGCP_TRUNK_E1.
#[export] Instance mgcp_trunk_type_eq_dec : EqDecision mgcp_trunk_type.
Proof. solve_decision. Defined.
Inductive mgcp_verb : Type := MGCP_ENDP_CRCX | MGCP_ENDP_DLCX | MGCP_ENDP_MDCX.
Inductive mgcp_policy_rc : Type := MGCP_POLICY_CONT | MGCP_POLICY_REJECT | MGCP_POLICY_DEFER.

Record mgcp_rtp_state : Type := mk_mgcp_rtp_state {
  initialized : bool;
  patch : bool;
  orig_ssrc : Z;
  ssrc : Z;
  seq_no : Z;
  lost_no : Z;
  seq_offset : Z;
  last_timestamp : Z;
  timestamp_offset : Z
}.

#[export] Instance upd_initialized : Upd initialized := fun f r => mk_mgcp_rtp_state (f
  (initialized r)) (patch r) (orig_ssrc r) (ssrc r) (seq_no r) (lost_no r) (seq_offset r)
  (last_timestamp r) (timestamp_offset r).
#[export] Instance upd_patch : Upd patch := fun f r => mk_mgcp_rtp_state (initialized r) (f
  (patch r)) (orig_ssrc r) (ssrc r) (seq_no r) (lost_no r) (seq_offset r) (last_timestamp r)
  (timestamp_offset r).
#[export] Instance upd_orig_ssrc : Upd orig_ssrc := fun f r => mk_mgcp_rtp_state (initialized r)
  (patch r) (f (orig_ssrc r)) (ssrc r) (seq_no r) (lost_no r) (seq_offset r) (last_timestamp r)
  (timestamp_offset r).
#[export] Instance upd_ssrc : Upd ssrc := fun f r => mk_mgcp_rtp_state (initialized r) (patch r)
  (orig_ssrc r) (f (ssrc r)) (seq_no r) (lost_no r) (seq_offset r) (last_timestamp r)
  (timestamp_offset r).
#[export] Instance upd_seq_no : Upd seq_no := fun f r => mk_mgcp_rtp_state (initialized r)
  (patch r) (orig_ssrc r) (ssrc r) (f (seq_no r)) (lost_no r) (seq_offset r) (last_timestamp r)
  (timestamp_offset r).
#[export] Instance upd_lost_no : Upd lost_no := fun f r => mk_mgcp_rtp_state (initialized r)
  (patch r) (orig_ssrc r) (ssrc r) (seq_no r) (f (lost_no r)) (seq_offset r) (last_timestamp r)
  (timestamp_offset r).
#[export] Instance upd_seq_offset : Upd seq_offset := fun f r => mk_mgcp_rtp_state (initialized
  r) (patch r) (orig_ssrc r) (ssrc r) (seq_no r) (lost_no r) (f (seq_offset r)) (last_timestamp r)
  (timestamp_offset r).
#[export] Instance upd_last_timestamp : Upd last_timestamp := fun f r => mk_mgcp_rtp_state
  (initialized r) (patch r) (orig_ssrc r) (ssrc r) (seq_no r) (lost_no r) (seq_offset r) (f
  (last_timestamp r)) (timestamp_offset r).
#[export] Instance upd_timestamp_offset : Upd timestamp_offset := fun f r => mk_mgcp_rtp_state
  (initialized r) (patch r) (orig_ssrc r) (ssrc r) (seq_no r) (lost_no r) (seq_offset r)
  (last_timestamp r) (f (timestamp_offset r)).

Record mgcp_rtp_end : Type := mk_mgcp_rtp_end {
  packets : Z;
  addr : Z;
  rtp_port : Z;  (* network byte order *)
  rtcp_port : Z;
  payload_type : Z;
  rtp_fd : bool;  (* the socket is open *)
  rtcp_fd : bool;
  local_port : Z;
  local_alloc : Z
}.

#[export] Instance upd_packets : Upd packets := fun f r => mk_mgcp_rtp_end (f (packets r)) (addr
  r) (rtp_port r) (rtcp_port r) (payload_type r) (rtp_fd r) (rtcp_fd r) (local_port r)
  (local_alloc r).
#[export] Instance upd_addr : Upd addr := fun f r => mk_mgcp_rtp_end (packets r) (f (addr r))
  (rtp_port r) (rtcp_port r) (payload_type r) (rtp_fd r) (rtcp_fd r) (local_port r) (local_alloc
  r).
#[export] Instance upd_rtp_port : Upd rtp_port := fun f r => mk_mgcp_rtp_end (packets r) (addr
  r) (f (rtp_port r)) (rtcp_port r) (payload_type r) (rtp_fd r) (rtcp_fd r) (local_port r)
  (local_alloc r).
#[export] Instance upd_rtcp_port : Upd rtcp_port := fun f r => mk_mgcp_rtp_end (packets r) (addr
  r) (rtp_port r) (f (rtcp_port r)) (payload_type r) (rtp_fd r) (rtcp_fd r) (local_port r)
  (local_alloc r).
#[export] Instance upd_payload_type : Upd payload_type := fun f r => mk_mgcp_rtp_end (packets r)
  (addr r) (rtp_port r) (rtcp_port r) (f (payload_type r)) (rtp_fd r) (rtcp_fd r) (local_port r)
  (local_alloc r).
#[export] Instance upd_rtp_fd : Upd rtp_fd := fun f r => mk_mgcp_rtp_end (packets r) (addr r)
  (rtp_port r) (rtcp_port r) (payload_type r) (f (rtp_fd r)) (rtcp_fd r) (local_port r)
  (local_alloc r).
#[export] Instance upd_rtcp_fd : Upd rtcp_fd := fun f r => mk_mgcp_rtp_end (packets r) (addr r)
  (rtp_port r) (rtcp_port r) (payload_type r) (rtp_fd r) (f (rtcp_fd r)) (local_port r)
  (local_alloc r).
#[export] Instance upd_local_port : Upd local_port := fun f r => mk_mgcp_rtp_end (packets r)
  (addr r) (rtp_port r) (rtcp_port r) (payload_type r) (rtp_fd r) (rtcp_fd r) (f (local_port r))
  (local_alloc r).
#[export] Instance upd_local_alloc : Upd local_alloc := fun f r => mk_mgcp_rtp_end (packets r)
  (addr r) (rtp_port r) (rtcp_port r) (payload_type r) (rtp_fd r) (rtcp_fd r) (local_port r) (f
  (local_alloc r)).

Record mgcp_rtp_tap : Type := mk_mgcp_rtp_tap {
  tap_enabled : bool;
  tap_forward : Z * Z  (* address and port *)
}.

#[export] Instance upd_tap_enabled : Upd tap_enabled := fun f r => mk_mgcp_rtp_tap (f
  (tap_enabled r)) (tap_forward r).
#[export] Instance upd_tap_forward : Upd tap_forward := fun f r => mk_mgcp_rtp_tap (tap_enabled
  r) (f (tap_forward r)).

Record mgcp_endpoint : Type := mk_mgcp_endpoint {
  allocated : bool;
  ci : Z;
  callid : option (list Z);
  local_options : option (list Z);
  conn_mode : Z;
  orig_mode : Z;
  bts_end : mgcp_rtp_end;
  net_end : mgcp_rtp_end;
  trans_bts : mgcp_rtp_end;
  trans_net : mgcp_rtp_end;
  is_transcoded : bool;
  net_state : mgcp_rtp_state;
  bts_state : mgcp_rtp_state;
  allow_patch : bool;
  taps : list mgcp_rtp_tap  (* BTS in, BTS out, net in, net out *)
}.

#[export] Instance upd_allocated : Upd allocated := fun f r => mk_mgcp_endpoint (f (allocated
  r)) (ci r) (callid r) (local_options r) (conn_mode r) (orig_mode r) (bts_end r) (net_end r)
  (trans_bts r) (trans_net r) (is_transcoded r) (net_state r) (bts_state r) (allow_patch r) (taps
  r).
#[export] Instance upd_ci : Upd ci := fun f r => mk_mgcp_endpoint (allocated r) (f (ci r))
  (callid r) (local_options r) (conn_mode r) (orig_mode r) (bts_end r) (net_end r) (trans_bts r)
  (trans_net r) (is_transcoded r) (net_state r) (bts_state r) (allow_patch r) (taps r).
#[export] Instance upd_callid : Upd callid := fun f r => mk_mgcp_endpoint (allocated r) (ci r)
  (f (callid r)) (local_options r) (conn_mode r) (orig_mode r) (bts_end r) (net_end r) (trans_bts
  r) (trans_net r) (is_transcoded r) (net_state r) (bts_state r) (allow_patch r) (taps r).
#[export] Instance upd_local_options : Upd local_options := fun f r => mk_mgcp_endpoint
  (allocated r) (ci r) (callid r) (f (local_options r)) (conn_mode r) (orig_mode r) (bts_end r)
  (net_end r) (trans_bts r) (trans_net r) (is_transcoded r) (net_state r) (bts_state r)
  (allow_patch r) (taps r).
#[export] Instance upd_conn_mode : Upd conn_mode := fun f r => mk_mgcp_endpoint (allocated r)
  (ci r) (callid r) (local_options r) (f (conn_mode r)) (orig_mode r) (bts_end r) (net_end r)
  (trans_bts r) (trans_net r) (is_transcoded r) (net_state r) (bts_state r) (allow_patch r) (taps
  r).
#[export] Instance upd_orig_mode : Upd orig_mode := fun f r => mk_mgcp_endpoint (allocated r)
  (ci r) (callid r) (local_options r) (conn_mode r) (f (orig_mode r)) (bts_end r) (net_end r)
  (trans_bts r) (trans_net r) (is_transcoded r) (net_state r) (bts_state r) (allow_patch r) (taps
  r).
#[export] Instance upd_bts_end : Upd bts_end := fun f r => mk_mgcp_endpoint (allocated r) (ci r)
  (callid r) (local_options r) (conn_mode r) (orig_mode r) (f (bts_end r)) (net_end r) (trans_bts
  r) (trans_net r) (is_transcoded r) (net_state r) (bts_state r) (allow_patch r) (taps r).
#[export] Instance upd_net_end : Upd net_end := fun f r => mk_mgcp_endpoint (allocated r) (ci r)
  (callid r) (local_options r) (conn_mode r) (orig_mode r) (bts_end r) (f (net_end r)) (trans_bts
  r) (trans_net r) (is_transcoded r) (net_state r) (bts_state r) (allow_patch r) (taps r).
#[export] Instance upd_trans_bts : Upd trans_bts := fun f r => mk_mgcp_endpoint (allocated r)
  (ci r) (callid r) (local_options r) (conn_mode r) (orig_mode r) (bts_end r) (net_end r) (f
  (trans_bts r)) (trans_net r) (is_transcoded r) (net_state r) (bts_state r) (allow_patch r) (taps
  r).
#[export] Instance upd_trans_net : Upd trans_net := fun f r => mk_mgcp_endpoint (allocated r)
  (ci r) (callid r) (local_options r) (conn_mode r) (orig_mode r) (bts_end r) (net_end r)
  (trans_bts r) (f (trans_net r)) (is_transcoded r) (net_state r) (bts_state r) (allow_patch r)
  (taps r).
#[export] Instance upd_is_transcoded : Upd is_transcoded := fun f r => mk_mgcp_endpoint
  (allocated r) (ci r) (callid r) (local_options r) (conn_mode r) (orig_mode r) (bts_end r)
  (net_end r) (trans_bts r) (trans_net r) (f (is_transcoded r)) (net_state r) (bts_state r)
  (allow_patch r) (taps r).
#[export] Instance upd_net_state : Upd net_state := fun f r => mk_mgcp_endpoint (allocated r)
  (ci r) (callid r) (local_options r) (conn_mode r) (orig_mode r) (bts_end r) (net_end r)
  (trans_bts r) (trans_net r) (is_transcoded r) (f (net_state r)) (bts_state r) (allow_patch r)
  (taps r).
#[export] Instance upd_bts_state : Upd bts_state := fun f r => mk_mgcp_endpoint (allocated r)
  (ci r) (callid r) (local_options r) (conn_mode r) (orig_mode r) (bts_end r) (net_end r)
  (trans_bts r) (trans_net r) (is_transcoded r) (net_state r) (f (bts_state r)) (allow_patch r)
  (taps r).
#[export] Instance upd_allow_patch : Upd allow_patch := fun f r => mk_mgcp_endpoint (allocated
  r) (ci r) (callid r) (local_options r) (conn_mode r) (orig_mode r) (bts_end r) (net_end r)
  (trans_bts r) (trans_net r) (is_transcoded r) (net_state r) (bts_state r) (f (allow_patch r))
  (taps r).
#[export] Instance upd_taps : Upd taps := fun f r => mk_mgcp_endpoint (allocated r) (ci r)
  (callid r) (local_options r) (conn_mode r) (orig_mode r) (bts_end r) (net_end r) (trans_bts r)
  (trans_net r) (is_transcoded r) (net_state r) (bts_state r) (allow_patch r) (f (taps r)).

Record mgcp_port_range : Type := mk_mgcp_port_range {
  range_mode : Z;
  base_port : Z;
  range_start : Z;
  range_end : Z;
  last_port : Z
}.

#[export] Instance upd_range_mode : Upd range_mode := fun f r => mk_mgcp_port_range (f
  (range_mode r)) (base_port r) (range_start r) (range_end r) (last_port r).
#[export] Instance upd_base_port : Upd base_port := fun f r => mk_mgcp_port_range (range_mode r)
  (f (base_port r)) (range_start r) (range_end r) (last_port r).
#[export] Instance upd_range_start : Upd range_start := fun f r => mk_mgcp_port_range
  (range_mode r) (base_port r) (f (range_start r)) (range_end r) (last_port r).
#[export] Instance upd_range_end : Upd range_end := fun f r => mk_mgcp_port_range (range_mode r)
  (base_port r) (range_start r) (f (range_end r)) (last_port r).
#[export] Instance upd_last_port : Upd last_port := fun f r => mk_mgcp_port_range (range_mode r)
  (base_port r) (range_start r) (range_end r) (f (last_port r)).

Record mgcp_trunk_config : Type := mk_mgcp_trunk_config {
  trunk_nr : Z;
  trunk_type : mgcp_trunk_type;
  audio_name : list Z;
  audio_payload : Z;
  audio_loop : bool;
  force_realloc : bool;
  number_endpoints : Z;
  endpoints : option (list mgcp_endpoint)
}.

#[export] Instance upd_trunk_nr : Upd trunk_nr := fun f r => mk_mgcp_trunk_config (f (trunk_nr
  r)) (trunk_type r) (audio_name r) (audio_payload r) (audio_loop r) (force_realloc r)
  (number_endpoints r) (endpoints r).
#[export] Instance upd_trunk_type : Upd trunk_type := fun f r => mk_mgcp_trunk_config (trunk_nr
  r) (f (trunk_type r)) (audio_name r) (audio_payload r) (audio_loop r) (force_realloc r)
  (number_endpoints r) (endpoints r).
#[export] Instance upd_audio_name : Upd audio_name := fun f r => mk_mgcp_trunk_config (trunk_nr
  r) (trunk_type r) (f (audio_name r)) (audio_payload r) (audio_loop r) (force_realloc r)
  (number_endpoints r) (endpoints r).
#[export] Instance upd_audio_payload : Upd audio_payload := fun f r => mk_mgcp_trunk_config
  (trunk_nr r) (trunk_type r) (audio_name r) (f (audio_payload r)) (audio_loop r) (force_realloc
  r) (number_endpoints r) (endpoints r).
#[export] Instance upd_audio_loop : Upd audio_loop := fun f r => mk_mgcp_trunk_config (trunk_nr
  r) (trunk_type r) (audio_name r) (audio_payload r) (f (audio_loop r)) (force_realloc r)
  (number_endpoints r) (endpoints r).
#[export] Instance upd_force_realloc : Upd force_realloc := fun f r => mk_mgcp_trunk_config
  (trunk_nr r) (trunk_type r) (audio_name r) (audio_payload r) (audio_loop r) (f (force_realloc
  r)) (number_endpoints r) (endpoints r).
#[export] Instance upd_number_endpoints : Upd number_endpoints := fun f r =>
  mk_mgcp_trunk_config (trunk_nr r) (trunk_type r) (audio_name r) (audio_payload r) (audio_loop r)
  (force_realloc r) (f (number_endpoints r)) (endpoints r).
#[export] Instance upd_endpoints : Upd endpoints := fun f r => mk_mgcp_trunk_config (trunk_nr r)
  (trunk_type r) (audio_name r) (audio_payload r) (audio_loop r) (force_realloc r)
  (number_endpoints r) (f (endpoints r)).

Record mgcp_config : Type := mk_mgcp_config {
  local_ip : option (list Z);
  source_addr : list Z;
  bts_ip : bool;
  bts_in : Z;
  transcoder_ip : bool;
  transcoder_in : Z;
  transcoder_remote_base : Z;
  bts_ports : mgcp_port_range;
  net_ports : mgcp_port_range;
  transcoder_ports : mgcp_port_range;
  change_cb : bool;  (* the callback is set *)
  policy_cb : bool;
  reset_cb : bool;
  realloc_cb : bool;
  last_call_id : Z;
  trunk : mgcp_trunk_config;
  trunks : list mgcp_trunk_config
}.

#[export] Instance upd_local_ip : Upd local_ip := fun f r => mk_mgcp_config (f (local_ip r))
  (source_addr r) (bts_ip r) (bts_in r) (transcoder_ip r) (transcoder_in r)
  (transcoder_remote_base r) (bts_ports r) (net_ports r) (transcoder_ports r) (change_cb r)
  (policy_cb r) (reset_cb r) (realloc_cb r) (last_call_id r) (trunk r) (trunks r).
#[export] Instance upd_source_addr : Upd source_addr := fun f r => mk_mgcp_config (local_ip r)
  (f (source_addr r)) (bts_ip r) (bts_in r) (transcoder_ip r) (transcoder_in r)
  (transcoder_remote_base r) (bts_ports r) (net_ports r) (transcoder_ports r) (change_cb r)
  (policy_cb r) (reset_cb r) (realloc_cb r) (last_call_id r) (trunk r) (trunks r).
#[export] Instance upd_bts_ip : Upd bts_ip := fun f r => mk_mgcp_config (local_ip r)
  (source_addr r) (f (bts_ip r)) (bts_in r) (transcoder_ip r) (transcoder_in r)
  (transcoder_remote_base r) (bts_ports r) (net_ports r) (transcoder_ports r) (change_cb r)
  (policy_cb r) (reset_cb r) (realloc_cb r) (last_call_id r) (trunk r) (trunks r).
#[export] Instance upd_bts_in : Upd bts_in := fun f r => mk_mgcp_config (local_ip r)
  (source_addr r) (bts_ip r) (f (bts_in r)) (transcoder_ip r) (transcoder_in r)
  (transcoder_remote_base r) (bts_ports r) (net_ports r) (transcoder_ports r) (change_cb r)
  (policy_cb r) (reset_cb r) (realloc_cb r) (last_call_id r) (trunk r) (trunks r).
#[export] Instance upd_transcoder_ip : Upd transcoder_ip := fun f r => mk_mgcp_config (local_ip
  r) (source_addr r) (bts_ip r) (bts_in r) (f (transcoder_ip r)) (transcoder_in r)
  (transcoder_remote_base r) (bts_ports r) (net_ports r) (transcoder_ports r) (change_cb r)
  (policy_cb r) (reset_cb r) (realloc_cb r) (last_call_id r) (trunk r) (trunks r).
#[export] Instance upd_transcoder_in : Upd transcoder_in := fun f r => mk_mgcp_config (local_ip
  r) (source_addr r) (bts_ip r) (bts_in r) (transcoder_ip r) (f (transcoder_in r))
  (transcoder_remote_base r) (bts_ports r) (net_ports r) (transcoder_ports r) (change_cb r)
  (policy_cb r) (reset_cb r) (realloc_cb r) (last_call_id r) (trunk r) (trunks r).
#[export] Instance upd_transcoder_remote_base : Upd transcoder_remote_base := fun f r =>
  mk_mgcp_config (local_ip r) (source_addr r) (bts_ip r) (bts_in r) (transcoder_ip r)
  (transcoder_in r) (f (transcoder_remote_base r)) (bts_ports r) (net_ports r) (transcoder_ports
  r) (change_cb r) (policy_cb r) (reset_cb r) (realloc_cb r) (last_call_id r) (trunk r) (trunks
  r).
#[export] Instance upd_bts_ports : Upd bts_ports := fun f r => mk_mgcp_config (local_ip r)
  (source_addr r) (bts_ip r) (bts_in r) (transcoder_ip r) (transcoder_in r)
  (transcoder_remote_base r) (f (bts_ports r)) (net_ports r) (transcoder_ports r) (change_cb r)
  (policy_cb r) (reset_cb r) (realloc_cb r) (last_call_id r) (trunk r) (trunks r).
#[export] Instance upd_net_ports : Upd net_ports := fun f r => mk_mgcp_config (local_ip r)
  (source_addr r) (bts_ip r) (bts_in r) (transcoder_ip r) (transcoder_in r)
  (transcoder_remote_base r) (bts_ports r) (f (net_ports r)) (transcoder_ports r) (change_cb r)
  (policy_cb r) (reset_cb r) (realloc_cb r) (last_call_id r) (trunk r) (trunks r).
#[export] Instance upd_transcoder_ports : Upd transcoder_ports := fun f r => mk_mgcp_config
  (local_ip r) (source_addr r) (bts_ip r) (bts_in r) (transcoder_ip r) (transcoder_in r)
  (transcoder_remote_base r) (bts_ports r) (net_ports r) (f (transcoder_ports r)) (change_cb r)
  (policy_cb r) (reset_cb r) (realloc_cb r) (last_call_id r) (trunk r) (trunks r).
#[export] Instance upd_change_cb : Upd change_cb := fun f r => mk_mgcp_config (local_ip r)
  (source_addr r) (bts_ip r) (bts_in r) (transcoder_ip r) (transcoder_in r)
  (transcoder_remote_base r) (bts_ports r) (net_ports r) (transcoder_ports r) (f (change_cb r))
  (policy_cb r) (reset_cb r) (realloc_cb r) (last_call_id r) (trunk r) (trunks r).
#[export] Instance upd_policy_cb : Upd policy_cb := fun f r => mk_mgcp_config (local_ip r)
  (source_addr r) (bts_ip r) (bts_in r) (transcoder_ip r) (transcoder_in r)
  (transcoder_remote_base r) (bts_ports r) (net_ports r) (transcoder_ports r) (change_cb r) (f
  (policy_cb r)) (reset_cb r) (realloc_cb r) (last_call_id r) (trunk r) (trunks r).
#[export] Instance upd_reset_cb : Upd reset_cb := fun f r => mk_mgcp_config (local_ip r)
  (source_addr r) (bts_ip r) (bts_in r) (transcoder_ip r) (transcoder_in r)
  (transcoder_remote_base r) (bts_ports r) (net_ports r) (transcoder_ports r) (change_cb r)
  (policy_cb r) (f (reset_cb r)) (realloc_cb r) (last_call_id r) (trunk r) (trunks r).
#[export] Instance upd_realloc_cb : Upd realloc_cb := fun f r => mk_mgcp_config (local_ip r)
  (source_addr r) (bts_ip r) (bts_in r) (transcoder_ip r) (transcoder_in r)
  (transcoder_remote_base r) (bts_ports r) (net_ports r) (transcoder_ports r) (change_cb r)
  (policy_cb r) (reset_cb r) (f (realloc_cb r)) (last_call_id r) (trunk r) (trunks r).
#[export] Instance upd_last_call_id : Upd last_call_id := fun f r => mk_mgcp_config (local_ip r)
  (source_addr r) (bts_ip r) (bts_in r) (transcoder_ip r) (transcoder_in r)
  (transcoder_remote_base r) (bts_ports r) (net_ports r) (transcoder_ports r) (change_cb r)
  (policy_cb r) (reset_cb r) (realloc_cb r) (f (last_call_id r)) (trunk r) (trunks r).
#[export] Instance upd_trunk : Upd trunk := fun f r => mk_mgcp_config (local_ip r) (source_addr
  r) (bts_ip r) (bts_in r) (transcoder_ip r) (transcoder_in r) (transcoder_remote_base r)
  (bts_ports r) (net_ports r) (transcoder_ports r) (change_cb r) (policy_cb r) (reset_cb r)
  (realloc_cb r) (last_call_id r) (f (trunk r)) (trunks r).
#[export] Instance upd_trunks : Upd trunks := fun f r => mk_mgcp_config (local_ip r)
  (source_addr r) (bts_ip r) (bts_in r) (transcoder_ip r) (transcoder_in r)
  (transcoder_remote_base r) (bts_ports r) (net_ports r) (transcoder_ports r) (change_cb r)
  (policy_cb r) (reset_cb r) (realloc_cb r) (last_call_id r) (trunk r) (f (trunks r)).

(** An endpoint: its trunk, the virtual one or one of the list, and its number. *)
Record endp_ref : Type := mk_endp_ref { er_trunk : option nat; er_nr : nat }.
#[export] Instance endp_ref_eq_dec : EqDecision endp_ref.
Proof. solve_decision. Defined.
Inductive mgcp_end : Type := END_BTS | END_NET | END_TRANS_BTS | END_TRANS_NET.
Inductive mgcp_tap : Type := MGCP_TAP_BTS_IN | MGCP_TAP_BTS_OUT | MGCP_TAP_NET_IN | MGCP_TAP_NET_OUT.

Inductive mgcp_event : Type :=
| EvUdp (a : endp_ref) (w : mgcp_end) (is_rtp : bool) (ip port : Z) (data : list Z)  (* sendto *)
| EvTap (a : endp_ref) (w : mgcp_end) (is_rtp : bool) (forward : Z * Z) (data : list Z)
| EvTrans (data : list Z)                                 (* to the transcoder's MGCP port *)
| EvChange (trunk_nr : Z) (endpoint : nat) (verb : mgcp_verb)   (* change_cb *)
| EvRealloc (trunk_nr : Z) (endpoint : nat)               (* realloc_cb *)
| EvReset (trunk_nr : Z).                                 (* reset_cb *)

Abbreviation MG := (M mgcp_config mgcp_event).

(** What the system answers while a message is handled: whether there is memory for the response,
    whether the steps of binding a pair of ports succeed (RTP socket, RTCP socket, registration of
    each) at the n-th try counted from the last, and what the policy callback says. *)
Record mgcp_sys : Type := mk_mgcp_sys {
  sys_mem : bool;
  sys_bind : mgcp_end -> nat -> Z -> bool * bool * bool * bool;
  sys_policy : mgcp_policy_rc
}.

Class MgcpEnv : Type := {
  inet_aton : list Z -> option Z;
  sendto : Z -> Z -> list Z -> Z       (* address, port, data: return code *)
}.

(** ** Access *)

Definition get_trunk (t : option nat) (cfg : mgcp_config) : option mgcp_trunk_config :=
  match t with None => Some (trunk cfg) | Some k => trunks cfg !! k end.
Definition trunk_alter (t : option nat) (f : mgcp_trunk_config -> mgcp_trunk_config) (cfg : mgcp_config) : mgcp_config :=
  match t with None => cfg <| trunk ::= f |> | Some k => cfg <| trunks ::= alter f k |> end.
Definition lookup_endp (a : endp_ref) (cfg : mgcp_config) : option mgcp_endpoint :=
  tcfg ← get_trunk (er_trunk a) cfg; l ← endpoints tcfg; l !! er_nr a.
Definition deref {A} (x : option A) : MG A := match x with Some x => mret x | None => fault end.
Definition endp_get (a : endp_ref) : MG mgcp_endpoint := x ← gets (lookup_endp a); deref x.
Definition tcfg_get (a : endp_ref) : MG mgcp_trunk_config := x ← gets (get_trunk (er_trunk a)); deref x.
Definition alter_endp (a : endp_ref) (f : mgcp_endpoint -> mgcp_endpoint) (cfg : mgcp_config) : mgcp_config :=
  trunk_alter (er_trunk a) (fun tcfg => tcfg <| endpoints ::= fmap (alter f (er_nr a)) |>) cfg.
Definition endp_upd (a : endp_ref) (f : mgcp_endpoint -> mgcp_endpoint) : MG unit :=
  endp_get a;; modify (alter_endp a f).

Definition end_get (w : mgcp_end) (endp : mgcp_endpoint) : mgcp_rtp_end :=
  match w with
  | END_BTS => bts_end endp | END_NET => net_end endp
  | END_TRANS_BTS => trans_bts endp | END_TRANS_NET => trans_net endp
  end.
Definition end_upd (w : mgcp_end) (f : mgcp_rtp_end -> mgcp_rtp_end) (endp : mgcp_endpoint) : mgcp_endpoint :=
  match w with
  | END_BTS => endp <| bts_end ::= f |> | END_NET => endp <| net_end ::= f |>
  | END_TRANS_BTS => endp <| trans_bts ::= f |> | END_TRANS_NET => endp <| trans_net ::= f |>
  end.
Definition tap_nr (t : mgcp_tap) : nat :=
  match t with MGCP_TAP_BTS_IN => 0 | MGCP_TAP_BTS_OUT => 1 | MGCP_TAP_NET_IN => 2 | MGCP_TAP_NET_OUT => 3 end.

Definition htons (x : Z) : Z := ((u16 x .& 0xff) .<< 8) .| (u16 x .>> 8).

(** ** Endpoints and trunks *)

Definition mgcp_free_rtp_port (e : mgcp_rtp_end) : mgcp_rtp_end := e <| rtp_fd := false |> <| rtcp_fd := false |>.

Definition mgcp_rtp_end_reset (e : mgcp_rtp_end) : mgcp_rtp_end :=
  let e := if local_alloc e =? PORT_ALLOC_DYNAMIC then (mgcp_free_rtp_port e) <| local_port := 0 |> else e in
  e <| packets := 0 |> <| addr := 0 |> <| rtp_port := 0 |> <| rtcp_port := 0 |>
    <| payload_type := -1 |> <| local_alloc := -1 |>.
Definition mgcp_rtp_end_init (e : mgcp_rtp_end) : mgcp_rtp_end :=
  (mgcp_rtp_end_reset e) <| rtp_fd := false |> <| rtcp_fd := false |>.

Definition zero_state : mgcp_rtp_state := mk_mgcp_rtp_state false false 0 0 0 0 0 0 0.
Definition zero_end : mgcp_rtp_end := mk_mgcp_rtp_end 0 0 0 0 0 false false 0 0.
Definition zero_taps : list mgcp_rtp_tap := replicate 4 (mk_mgcp_rtp_tap false (0, 0)).

Definition mgcp_free_endp (endp : mgcp_endpoint) : mgcp_endpoint :=
  endp <| ci := CI_UNUSED |> <| allocated := false |> <| callid := None |> <| local_options := None |>
       <| bts_end ::= mgcp_rtp_end_reset |> <| net_end ::= mgcp_rtp_end_reset |>
       <| trans_net ::= mgcp_rtp_end_reset |> <| trans_bts ::= mgcp_rtp_end_reset |>
       <| is_transcoded := false |> <| net_state := zero_state |> <| bts_state := zero_state |>
       <| orig_mode := MGCP_CONN_NONE |> <| conn_mode := MGCP_CONN_NONE |> <| allow_patch := false |>
       <| taps := zero_taps |>.

Definition new_endpoint : mgcp_endpoint :=
  let e := mgcp_rtp_end_init zero_end in
  mk_mgcp_endpoint false CI_UNUSED None None MGCP_CONN_NONE MGCP_CONN_NONE e e e e false zero_state zero_state
    false zero_taps.
(** [mem]: there is memory for the endpoints. *)
Definition mgcp_endpoints_allocate (mem : bool) (tcfg : mgcp_trunk_config) : Z * mgcp_trunk_config :=
  if mem then (0, tcfg <| endpoints := Some (replicate (Z.to_nat (number_endpoints tcfg)) new_endpoint) |>)
  else (-1, tcfg <| endpoints := None |>).

Definition zero_range : mgcp_port_range := mk_mgcp_port_range 0 0 0 0 0.
Definition mgcp_config_alloc : mgcp_config :=
  mk_mgcp_config None (str "0.0.0.0") false 0 false 0 4000
    (zero_range <| base_port := RTP_PORT_DEFAULT |>) (zero_range <| base_port := RTP_PORT_NET_DEFAULT |>) zero_range
    false false false false 0
    (mk_mgcp_trunk_config 0 MGCP_TRUNK_VIRTUAL (str "AMR/8000") 126 false false 0 None) [].
Definition mgcp_trunk_alloc (nr : Z) (cfg : mgcp_config) : mgcp_config :=
  cfg <| trunks ::= fun l => l ++ [mk_mgcp_trunk_config nr MGCP_TRUNK_E1 (str "AMR/8000") 126 false false 33 None] |>.
Definition mgcp_trunk_num (cfg : mgcp_config) (index : Z) : option nat :=
  fst <$> list_find (fun tcfg => trunk_nr tcfg = index) (trunks cfg).

(** A new connection identifier. [None]: the fuel is used up or the endpoints are not there. *)
Fixpoint ci_in_use (l : list mgcp_endpoint) (id : Z) : bool :=
  match l with
  | [] => false
  | e :: l => if ci e =? id then true else ci_in_use l id
  end.
Definition next_call_id (id : Z) : Z :=
  let id := u32 (id + 1) in
  if id =? CI_UNUSED then u32 (id + 1) else id.
Fixpoint call_id_loop (fuel : nat) (l : list mgcp_endpoint) (id : Z) : option Z :=
  match fuel with
  | O => None
  | S fuel => let id := next_call_id id in if ci_in_use l id then call_id_loop fuel l id else Some id
  end.
Definition generate_call_id : MG Z :=
  cfg ← gets id;
  let n := number_endpoints (trunk cfg) in
  l ← (if n <=? 1 then mret [] else deref (endpoints (trunk cfg)));
  cid ← deref (call_id_loop (Z.to_nat n + 2) (tail (take (Z.to_nat n) l)) (last_call_id cfg));
  modify (fun cfg => cfg <| last_call_id := cid |>);;
  mret cid.

(** ** Responses *)

(** [snprintf] into a zeroed buffer of [size] octets of which [len] are then used, [len] being the length
    of the text however much of it was written. *)
Definition snprintf_put (size : nat) (text : list Z) : list Z :=
  take (size - 1) text ++ replicate (length text - (size - 1)) 0.
Definition MGCP_TAILROOM : nat := 3968.   (* of msgb_alloc_headroom(4096, 128) *)

(** [fault]: [msgb_put] stops the program when the text is longer than the message. *)
Definition mgcp_create_response_with_data (mem : bool) (code : Z) (txt trans : list Z) (data : option (list Z))
    : MG (option (list Z)) :=
  if negb mem then mret None
  else
    let text := print_d code ++ str " " ++ trans ++ txt ++ [CR; LF] ++ default [] data in
    if (MGCP_TAILROOM <? length text)%nat then fault else mret (Some (snprintf_put 2048 text)).
Definition create_ok_response (mem : bool) (code : Z) (trans : list Z) : MG (option (list Z)) :=
  mgcp_create_response_with_data mem code (str " OK") trans None.
Definition create_err_response (mem : bool) (code : Z) (trans : list Z) : MG (option (list Z)) :=
  mgcp_create_response_with_data mem code (str " FAIL") trans None.

Definition sdp_record (cfg : mgcp_config) (tcfg : mgcp_trunk_config) (endp : mgcp_endpoint) : list Z :=
  let ip := default (source_addr cfg) (local_ip cfg) in
  let pt := payload_type (bts_end endp) in
  take 4094
    (str "I: " ++ print_u (ci endp) ++ [LF; LF]
     ++ str "v=0" ++ [CR; LF]
     ++ str "o=- " ++ print_u (ci endp) ++ str " 23 IN IP4 " ++ ip ++ [CR; LF]
     ++ str "c=IN IP4 " ++ ip ++ [CR; LF]
     ++ str "t=0 0" ++ [CR; LF]
     ++ str "m=audio " ++ print_d (local_port (net_end endp)) ++ str " RTP/AVP " ++ print_d pt ++ [CR; LF]
     ++ str "a=rtpmap:" ++ print_d pt ++ str " " ++ audio_name tcfg ++ [CR; LF]).
Definition create_response_with_sdp (mem : bool) (a : endp_ref) (trans : list Z) : MG (option (list Z)) :=
  cfg ← gets id;
  tcfg ← tcfg_get a;
  endp ← endp_get a;
  mgcp_create_response_with_data mem 200 (str " OK") trans (Some (sdp_record cfg tcfg endp)).

(** ** The transcoder *)

Definition rtp_calculate_port (multiplex base : Z) : Z := base + multiplex * 2.
Definition endp_back_channel (endpoint : Z) : Z := endpoint + 60.

(** [fault]: the text does not fit the buffer, and what is sent is read from behind it. *)
Definition send_trans (size : nat) (text : list Z) : MG unit :=
  if (size <? length text)%nat then fault
  else emit (EvTrans (snprintf_put size text)).

Definition send_msg (a : endp_ref) (endpoint port : Z) (msg mode : list Z) : MG unit :=
  cfg ← gets id;
  tcfg ← tcfg_get a;
  let pt := print_d (audio_payload tcfg) in
  send_trans 2096
    (msg ++ str " 42 " ++ print_x endpoint ++ str "@mgw MGCP 1.0" ++ [CR; LF]
     ++ str "C: 4256" ++ [CR; LF]
     ++ str "M: " ++ mode ++ [CR; LF]
     ++ [CR; LF]
     ++ str "c=IN IP4 " ++ source_addr cfg ++ [CR; LF]
     ++ str "m=audio " ++ print_d port ++ str " RTP/AVP " ++ pt ++ [CR; LF]
     ++ str "a=rtpmap:" ++ pt ++ str " " ++ audio_name tcfg ++ [CR; LF]).
Definition send_dlcx (endpoint : Z) : MG unit :=
  send_trans 2096 (str "DLCX 43 " ++ print_x endpoint ++ str "@mgw MGCP 1.0" ++ [CR; LF] ++ str "C: 4256" ++ [CR; LF]).

Definition create_transcoder (a : endp_ref) : MG unit :=
  cfg ← gets id;
  endp ← endp_get a;
  let in_endp := Z.of_nat (er_nr a) in
  let out_endp := endp_back_channel in_endp in
  if negb (is_transcoded endp) then mret tt
  else
    send_msg a in_endp (local_port (trans_bts endp)) (str "CRCX") (str "sendrecv");;
    send_msg a in_endp (local_port (trans_bts endp)) (str "MDCX") (str "sendrecv");;
    send_msg a out_endp (local_port (trans_net endp)) (str "CRCX") (str "sendrecv");;
    send_msg a out_endp (local_port (trans_net endp)) (str "MDCX") (str "sendrecv");;
    let port := rtp_calculate_port in_endp (transcoder_remote_base cfg) in
    endp_upd a (end_upd END_TRANS_BTS (fun e => e <| rtp_port := htons port |> <| rtcp_port := htons (port + 1) |>));;
    let port := rtp_calculate_port out_endp (transcoder_remote_base cfg) in
    endp_upd a (end_upd END_TRANS_NET (fun e => e <| rtp_port := htons port |> <| rtcp_port := htons (port + 1) |>)).

Definition delete_transcoder (a : endp_ref) : MG unit :=
  endp ← endp_get a;
  let in_endp := Z.of_nat (er_nr a) in
  let out_endp := endp_back_channel in_endp in
  if negb (is_transcoded endp) then mret tt
  else send_dlcx in_endp;; send_dlcx out_endp.

Definition mgcp_reset_transcoder : MG unit :=
  cfg ← gets id;
  when (transcoder_ip cfg) (emit (EvTrans (str "RSIP 1 13@mgw MGCP 1.0" ++ [CR; LF]))).

(** ** The header of a request *)

Definition is_blank (c : Z) : bool := (c =? 32) || (c =? CR) || (c =? LF).
Definition is_eol (c : Z) : bool := (c =? CR) || (c =? LF).

(** The tokens of the first line, as start and length minus one; [room] is how many more there is room for,
    [tok] the start of the current one. *)
Fixpoint msg_pointers (n : nat) (i : nat) (room : nat) (tok : option nat) (l3h : list Z) (acc : list (nat * nat))
    : nat * list (nat * nat) :=
  match n, room with
  | O, _ | _, O => (room, acc)
  | S n, S room' =>
      let c := rd l3h i in
      if is_blank c then
        match tok with
        | Some start =>
            let acc := acc ++ [(start, i - start - 1)%nat] in
            if is_eol c then (room', acc) else msg_pointers n (S i) room' None l3h acc
        | None => if is_eol c then (room, acc) else msg_pointers n (S i) room None l3h acc
        end
      else msg_pointers n (S i) room (match tok with Some s => Some s | None => Some i end) l3h acc
  end.
Definition find_msg_pointers (len : nat) (l3h : list Z) (ptrs_length : nat) : Z * list (nat * nat) :=
  let '(room, ptrs) := msg_pointers len 0 ptrs_length None l3h [] in
  if (room =? 0)%nat then (-1, ptrs) else (Z.of_nat (length ptrs), ptrs).

(** [(int) strtoul(p, &rest, 10)] *)
Definition strtoul_int (p : list Z) : Z * list Z := let '(v, rest) := strtoul 10 p in (Meas.s32 v, rest).

Definition find_e1_endpoint (cfg : mgcp_config) (mgcp : list Z) : option endp_ref :=
  let '(trunk, rest) := strtoul_int (drop 6 mgcp) in
  if negb (rdz rest 0 =? 47) || (trunk <? 1) then None
  else
    let '(endp, rest) := strtoul_int (drop 1 rest) in
    if negb (rdz rest 0 =? 64) then None
    else if endp =? 1 then None
    else
      k ← mgcp_trunk_num cfg trunk;
      tcfg ← trunks cfg !! k;
      match endpoints tcfg with
      | None => None
      | Some _ =>
          if (endp <? 1) || (number_endpoints tcfg <=? endp) then None
          else Some (mk_endp_ref (Some k) (Z.to_nat endp))
      end.

Definition find_endpoint (cfg : mgcp_config) (mgcp : list Z) : option endp_ref :=
  if strncmp_eq (str "ds/e1") mgcp then find_e1_endpoint cfg mgcp
  else
    let '(gw, endptr) := strtoul 16 mgcp in
    let gw := u32 gw in
    if (0 <? gw) && (gw <? number_endpoints (trunk cfg)) && strcmp_eq (str "@mgw") endptr
    then Some (mk_endp_ref None (Z.to_nat gw)) else None.

(** [msg->l3h[ptr.start + ptr.length + 1] = 0] *)
Definition cut_token (l3h : list Z) (p : nat * nat) : list Z := <[(fst p + snd p + 1)%nat := 0]> l3h.

(** The header of a request whose octets from the fifth on are [l3h], [len] of them: the return code, the
    octets with the tokens cut, the transaction and the endpoint. *)
Definition mgcp_analyze_header (cfg : mgcp_config) (len : nat) (l3h : list Z)
    : Z * list Z * list Z * option endp_ref :=
  let '(found, ptrs) := find_msg_pointers len l3h 6 in
  if found <=? 3 then (-1, l3h, str "000000", None)
  else
    let ptr k := fst (default (0, 0)%nat (ptrs !! k)) in
    let l3h := foldl cut_token l3h (take 4 ptrs) in
    if negb (strncmp_eq (str "1.0") (drop (ptr 3%nat) l3h)) || negb (strncmp_eq (str "MGCP") (drop (ptr 2%nat) l3h))
    then (-1, l3h, str "000000", None)
    else
      let trans := cstr (drop (ptr 0%nat) l3h) in
      match find_endpoint cfg (drop (ptr 1%nat) l3h) with
      | Some a => (0, l3h, trans, Some a)
      | None => (1, l3h, trans, None)
      end.

(** ** The lines after the header *)

(** [MSG_TOKENIZE_START] and [MSG_TOKENIZE_END]: octet [i] is next, [n] are left, [line_start] is 0 in the
    first line. The body gets the octets, with the ends of the lines so far cut, and where the line starts;
    it continues with a value or goes to a label. *)
Fixpoint tokenize {A R} (body : list Z -> nat -> A -> MG (A + R)) (error : R) (n i line_start : nat) (l3h : list Z)
    (a : A) : MG ((list Z * A) + R) :=
  match n with
  | O => mret (inl (l3h, a))
  | S n =>
      if negb (rd l3h i =? LF) then tokenize body error n (S i) line_start l3h a
      else if (line_start =? 0)%nat then tokenize body error n (S i) (S i) l3h a
      else
        let c0 := rd l3h line_start in
        let c1 := rd l3h (line_start + 1) in
        let c2 := rd l3h (line_start + 2) in
        if ((i - line_start =? 1)%nat && (c0 =? CR))
           || ((2 <? i - line_start)%nat && islower c0 && (c1 =? 61))
           || negb ((i - line_start <? 3)%nat || negb (c1 =? 58) || negb (c2 =? 32))
        then
          let l3h := <[i := 0]> l3h in
          let l3h := if rd l3h (i - 1) =? CR then <[(i - 1)%nat := 0]> l3h else l3h in
          r ← body l3h line_start a;
          match r with
          | inl a => tokenize body error n (S i) (S i) l3h a
          | inr r => mret (inr r)
          end
        else mret (inr error)
  end.

Definition parse_conn_mode (msg : list Z) : option Z :=
  if strcmp_eq (str "recvonly") msg then Some MGCP_CONN_RECV_ONLY
  else if strcmp_eq (str "sendrecv") msg then Some MGCP_CONN_RECV_SEND
  else if strcmp_eq (str "sendonly") msg then Some MGCP_CONN_SEND_ONLY
  else if strcmp_eq (str "loopback") msg then Some MGCP_CONN_LOOPBACK
  else None.

(** [strcmp] follows the call identifier of the endpoint. *)
Definition verify_call_id (endp : mgcp_endpoint) (cid : list Z) : MG Z :=
  id ← deref (callid endp);
  mret (if bool_decide (id = cstr cid) then 0 else -1).
Definition verify_ci (endp : mgcp_endpoint) (_ci : list Z) : Z :=
  if u32 (fst (strtoul 10 _ci)) =? ci endp then 0 else -1.

(** ** Requests *)

Section requests.
Context `{MgcpEnv} (sys : mgcp_sys).

(** *** Ports *)

Definition bind_rtp (ans : bool * bool * bool * bool) (e : mgcp_rtp_end) : bool * mgcp_rtp_end :=
  let '(bind_rtp, bind_rtcp, reg_rtp, reg_rtcp) := ans in
  if negb bind_rtp then (false, e <| rtp_fd := false |>)
  else
    let e := e <| rtp_fd := true |> in
    if negb bind_rtcp then (false, e <| rtcp_fd := false |> <| rtp_fd := false |>)
    else
      let e := e <| rtcp_fd := true |> in
      if negb reg_rtp || negb reg_rtcp then (false, e <| rtcp_fd := false |> <| rtp_fd := false |>)
      else (true, e).

Definition int_bind (ans : bool * bool * bool * bool) (rtp_port : Z) (e : mgcp_rtp_end) : bool * mgcp_rtp_end :=
  let e := if rtp_fd e || rtcp_fd e then mgcp_free_rtp_port e else e in
  bind_rtp ans (e <| local_port := rtp_port |>).

(** The endpoint and the range: [n] tries are left. *)
Fixpoint try_ports (w : mgcp_end) (n : nat) (endp : mgcp_endpoint) (range : mgcp_port_range)
    : bool * mgcp_endpoint * mgcp_port_range :=
  match n with
  | O => (false, endp, range)
  | S n =>
      let range := if range_end range <=? last_port range then range <| last_port := range_start range |> else range in
      let '(ok, e) := int_bind (sys_bind sys w n (last_port range)) (last_port range) (end_get w endp) in
      let range := range <| last_port ::= fun p => p + 2 |> in
      if ok then (true, end_upd w (fun _ => e <| local_alloc := PORT_ALLOC_DYNAMIC |>) endp, range)
      else try_ports w n (end_upd w (fun _ => e) endp) range
  end.
Definition allocate_port (w : mgcp_end) (endp : mgcp_endpoint) (range : mgcp_port_range)
    : bool * mgcp_endpoint * mgcp_port_range :=
  if range_mode range =? PORT_ALLOC_STATIC
  then (true, end_upd w (fun e => e <| local_alloc := PORT_ALLOC_STATIC |>) endp, range)
  else try_ports w 200 endp range.

Definition allocate_ports (tcfg : mgcp_trunk_config) (endp : mgcp_endpoint) (cfg : mgcp_config)
    : bool * mgcp_endpoint * mgcp_config :=
  let '(ok, endp, range) := allocate_port END_NET endp (net_ports cfg) in
  let cfg := cfg <| net_ports := range |> in
  if negb ok then (false, endp, cfg)
  else
    let '(ok, endp, range) := allocate_port END_BTS endp (bts_ports cfg) in
    let cfg := cfg <| bts_ports := range |> in
    if negb ok then (false, endp <| net_end ::= mgcp_rtp_end_reset |>, cfg)
    else if negb (transcoder_ip cfg && bool_decide (trunk_type tcfg = MGCP_TRUNK_VIRTUAL)) then (true, endp, cfg)
    else
      let '(ok, endp, range) := allocate_port END_TRANS_NET endp (transcoder_ports cfg) in
      let cfg := cfg <| transcoder_ports := range |> in
      if negb ok then (false, endp <| net_end ::= mgcp_rtp_end_reset |> <| bts_end ::= mgcp_rtp_end_reset |>, cfg)
      else
        let '(ok, endp, range) := allocate_port END_TRANS_BTS endp (transcoder_ports cfg) in
        let cfg := cfg <| transcoder_ports := range |> in
        if negb ok
        then (false, endp <| net_end ::= mgcp_rtp_end_reset |> <| bts_end ::= mgcp_rtp_end_reset |>
                          <| trans_net ::= mgcp_rtp_end_reset |>, cfg)
        else (true, endp <| is_transcoded := true |>, cfg).

(** *** Handlers. A message is its octets from the fifth on, of which [len] were received. *)

Definition ok_response := create_ok_response (sys_mem sys).
Definition err_response := create_err_response (sys_mem sys).

Definition handle_audit_endpoint (len : nat) (l3h : list Z) : MG (option (list Z)) :=
  cfg ← gets id;
  let '(found, _, trans_id, _) := mgcp_analyze_header cfg len l3h in
  if negb (found =? 0) then err_response 500 trans_id else ok_response 200 trans_id.

Definition handle_rsip (len : nat) (l3h : list Z) : MG (option (list Z)) :=
  cfg ← gets id;
  match mgcp_analyze_header cfg len l3h with
  | (found, _, _, endp) =>
      match endp with
      | Some a =>
          if negb (found =? 0) then mret None
          else tcfg ← tcfg_get a; when (reset_cb cfg) (emit (EvReset (trunk_nr tcfg)));; mret None
      | None => mret None
      end
  end.

Definition handle_noti_req (len : nat) (l3h : list Z) : MG (option (list Z)) :=
  cfg ← gets id;
  match mgcp_analyze_header cfg len l3h with
  | (_, _, trans_id, Some a) =>
      endp ← endp_get a;
      if negb (allocated endp) then err_response 400 trans_id else ok_response 200 trans_id
  | (_, _, trans_id, None) => err_response 400 trans_id
  end.

(** The parameters of CRCX, as offsets. *)
Record crcx_params : Type := mk_crcx_params { p_local_options : option nat; p_callid : option nat; p_mode : option nat }.
Definition crcx_line (l3h : list Z) (line_start : nat) (p : crcx_params) : MG (crcx_params + Z) :=
  let c := rd l3h line_start in
  let v := Some (line_start + 3)%nat in
  mret (inl (if c =? 76 then mk_crcx_params v (p_callid p) (p_mode p)
             else if c =? 67 then mk_crcx_params (p_local_options p) v (p_mode p)
             else if c =? 77 then mk_crcx_params (p_local_options p) (p_callid p) v
             else p)).

(** [error2] *)
Definition crcx_failed (a : endp_ref) (error_code : Z) (trans_id : list Z) : MG (option (list Z)) :=
  endp_upd a mgcp_free_endp;;
  err_response error_code trans_id.

(** From the initialisation of the endpoint on. *)
Definition crcx_create (a : endp_ref) (trans_id : list Z) : MG (option (list Z)) :=
  endp_upd a (fun e => e <| net_end ::= fun n => n <| rtp_port := 0 |> <| rtcp_port := 0 |> <| addr := 0 |> |>
                         <| bts_end ::= fun n => n <| rtp_port := 0 |> <| rtcp_port := 0 |> |>);;
  tcfg ← tcfg_get a;
  endp ← endp_get a;
  cfg ← gets id;
  let '(ok, endp, cfg) := allocate_ports tcfg endp cfg in
  modify (fun _ => cfg);;
  endp_upd a (fun _ => endp);;
  if negb ok then crcx_failed a 400 trans_id
  else
    cid ← generate_call_id;
    endp_upd a (fun e => e <| ci := cid |>);;
    if cid =? CI_UNUSED then crcx_failed a 400 trans_id
    else
      endp_upd a (fun e => e <| allocated := true |> <| bts_end ::= fun b => b <| payload_type := audio_payload tcfg |> |>);;
      match (if policy_cb cfg then sys_policy sys else MGCP_POLICY_CONT) with
      | MGCP_POLICY_REJECT =>
          endp_upd a mgcp_free_endp;;
          err_response 400 trans_id
      | MGCP_POLICY_DEFER => create_transcoder a;; mret None
      | MGCP_POLICY_CONT =>
          when (change_cb cfg) (emit (EvChange (trunk_nr tcfg) (er_nr a) MGCP_ENDP_CRCX));;
          create_transcoder a;;
          create_response_with_sdp (sys_mem sys) a trans_id
      end.

(** The endpoint is taken: from copying the parameters on. *)
Definition crcx_take (a : endp_ref) (trans_id l3h : list Z) (p_lo : option nat) (p_cid p_mode : nat)
    : MG (option (list Z)) :=
  endp_upd a (fun e => e <| callid := Some (cstr (drop p_cid l3h)) |>);;
  match p_lo with
  | Some o => endp_upd a (fun e => e <| local_options := Some (cstr (drop o l3h)) |>)
  | None => mret tt
  end;;
  match parse_conn_mode (drop p_mode l3h) with
  | None => crcx_failed a 517 trans_id
  | Some m => endp_upd a (fun e => e <| conn_mode := m |>);; crcx_create a trans_id
  end.

(** [memcmp(endp->callid, callid, strlen(endp->callid)) == 0] *)
Definition same_callid (endp : mgcp_endpoint) (cid : list Z) : MG bool :=
  id ← deref (callid endp);
  mret (bool_decide (map (rd cid) (seq 0 (length id)) = id)).

Definition handle_create_con (len : nat) (l3h : list Z) : MG (option (list Z)) :=
  cfg ← gets id;
  match mgcp_analyze_header cfg len l3h with
  | (_, _, trans_id, None) => err_response 510 trans_id
  | (_, l3h, trans_id, Some a) =>
      r ← tokenize crcx_line 400 len 0 0 l3h (mk_crcx_params None None None);
      match r with
      | inr error_code => err_response error_code trans_id
      | inl (l3h, mk_crcx_params p_lo (Some p_cid) (Some p_mode)) =>
          tcfg ← tcfg_get a;
          endp ← endp_get a;
          same ← (if allocated endp then same_callid endp (drop p_cid l3h) else mret false);
          if (same : bool) then create_response_with_sdp (sys_mem sys) a trans_id
          else if allocated endp then
            if force_realloc tcfg then
              endp_upd a mgcp_free_endp;;
              when (realloc_cb cfg) (emit (EvRealloc (trunk_nr tcfg) (er_nr a)));;
              crcx_take a trans_id l3h p_lo p_cid p_mode
            else err_response 400 trans_id
          else crcx_take a trans_id l3h p_lo p_cid p_mode
      | inl _ => err_response 400 trans_id
      end
  end.

(** A line of MDCX; the value says whether the answer is suppressed. *)
Definition mdcx_media (a : endp_ref) (param : list Z) : MG unit :=
  match (p ← scan_lit (str "m=audio ") param;
         '(port, p) ← scan_int (length p) p;
         p ← scan_lit (str " RTP/AVP ") p;
         '(payload, _) ← scan_int (length p) p;
         Some (port, payload)) with
  | Some (port, payload) =>
      endp_upd a (end_upd END_NET (fun e =>
        e <| rtp_port := htons port |> <| rtcp_port := htons (port + 1) |> <| payload_type := payload |>))
  | None => mret tt
  end.
Definition mdcx_address (a : endp_ref) (param : list Z) : MG unit :=
  match scan_lit (str "c=IN IP4 ") param with
  | Some p =>
      match scan_word 15 (skip_ws p) with
      | [] => mret tt
      | ipv4 =>
          match inet_aton ipv4 with
          | Some ip => endp_upd a (end_upd END_NET (fun e => e <| addr := ip |>))
          | None => mret tt
          end
      end
  | None => mret tt
  end.
Definition mdcx_line (a : endp_ref) (l3h : list Z) (line_start : nat) (silent : bool) : MG (bool + Z) :=
  let c := rd l3h line_start in
  let param := drop (line_start + 3) l3h in
  if c =? 67 (* C *) then
    endp ← endp_get a;
    rc ← verify_call_id endp param;
    mret (if rc =? 0 then inl silent else inr 500)
  else if c =? 73 (* I *) then
    endp ← endp_get a;
    mret (if verify_ci endp param =? 0 then inl silent else inr 500)
  else if c =? 77 (* M *) then
    match parse_conn_mode param with
    | None => mret (inr 517)
    | Some m => endp_upd a (fun e => e <| conn_mode := m |> <| orig_mode := m |>);; mret (inl silent)
    end
  else if c =? 90 (* Z *) then mret (inl (strcmp_eq (str "noanswer") param))
  else if c =? 109 (* m *) then mdcx_media a (drop line_start l3h);; mret (inl silent)
  else if c =? 99 (* c *) then mdcx_address a (drop line_start l3h);; mret (inl silent)
  else mret (inl silent).

Definition handle_modify_con (len : nat) (l3h : list Z) : MG (option (list Z)) :=
  cfg ← gets id;
  match mgcp_analyze_header cfg len l3h with
  | (_, _, trans_id, None) => err_response 510 trans_id
  | (_, l3h, trans_id, Some a) =>
      tcfg ← tcfg_get a;
      endp ← endp_get a;
      if ci endp =? CI_UNUSED then err_response 400 trans_id
      else
        r ← tokenize (mdcx_line a) 500 len 0 0 l3h false;
        match r with
        | inr error_code => err_response error_code trans_id
        | inl (_, silent) =>
            match (if policy_cb cfg then sys_policy sys else MGCP_POLICY_CONT) with
            | MGCP_POLICY_REJECT => if (silent : bool) then mret None else err_response 400 trans_id
            | MGCP_POLICY_DEFER => mret None
            | MGCP_POLICY_CONT =>
                when (change_cb cfg) (emit (EvChange (trunk_nr tcfg) (er_nr a) MGCP_ENDP_MDCX));;
                if (silent : bool) then mret None else create_response_with_sdp (sys_mem sys) a trans_id
            end
        end
  end.

Definition dlcx_line (a : endp_ref) (l3h : list Z) (line_start : nat) (silent : bool) : MG (bool + Z) :=
  let c := rd l3h line_start in
  let param := drop (line_start + 3) l3h in
  if c =? 67 (* C *) then
    endp ← endp_get a;
    rc ← verify_call_id endp param;
    mret (if rc =? 0 then inl silent else inr 400)
  else if c =? 73 (* I *) then
    endp ← endp_get a;
    mret (if verify_ci endp param =? 0 then inl silent else inr 400)
  else if c =? 90 (* Z *) then mret (inl (strcmp_eq (str "noanswer") param))
  else mret (inl silent).

Definition handle_delete_con (len : nat) (l3h : list Z) : MG (option (list Z)) :=
  cfg ← gets id;
  match mgcp_analyze_header cfg len l3h with
  | (_, _, trans_id, None) => err_response 400 trans_id
  | (_, l3h, trans_id, Some a) =>
      tcfg ← tcfg_get a;
      endp ← endp_get a;
      if negb (allocated endp) then err_response 400 trans_id
      else
        r ← tokenize (dlcx_line a) 400 len 0 0 l3h false;
        match r with
        | inr error_code => err_response error_code trans_id
        | inl (_, silent) =>
            match (if policy_cb cfg then sys_policy sys else MGCP_POLICY_CONT) with
            | MGCP_POLICY_REJECT => if (silent : bool) then mret None else err_response 400 trans_id
            | MGCP_POLICY_DEFER => delete_transcoder a;; mret None
            | MGCP_POLICY_CONT =>
                delete_transcoder a;;
                endp_upd a mgcp_free_endp;;
                when (change_cb cfg) (emit (EvChange (trunk_nr tcfg) (er_nr a) MGCP_ENDP_DLCX));;
                if (silent : bool) then mret None else ok_response 250 trans_id
            end
        end
  end.

Definition mgcp_requests : list (list Z * (nat -> list Z -> MG (option (list Z)))) := [
  (str "AUEP", handle_audit_endpoint);
  (str "CRCX", handle_create_con);
  (str "DLCX", handle_delete_con);
  (str "MDCX", handle_modify_con);
  (str "RQNT", handle_noti_req);
  (str "RSIP", handle_rsip)].

(** [l2h]: the buffer, of which [len] octets were received. *)
Definition mgcp_handle_message (len : nat) (l2h : list Z) : MG (option (list Z)) :=
  if (len <? 4)%nat then mret None
  else
    match scan_int 3 l2h with
    | Some _ => mret None
    | None =>
        match List.find (fun r => strncmp_eq (fst r) l2h) mgcp_requests with
        | Some (_, handle_request) => handle_request (len - 4)%nat (drop 4 l2h)
        | None => mret None
        end
    end.

End requests.

(** ** The media *)

(** [struct rtp_hdr] at the front of a packet: 12 octets. *)
Definition rtp_seq (data : list Z) : Z := rd_be16 (drop 2 data).
Definition rtp_timestamp (data : list Z) : Z := RtpProps.rd_be32 (drop 4 data).
Definition rtp_ssrc (data : list Z) : Z := RtpProps.rd_be32 (drop 8 data).
Definition set_seq_ssrc_ts (seq ts ssrc : Z) (data : list Z) : list Z :=
  take 2 data ++ be16 seq ++ Rtp.be32 ts ++ Rtp.be32 ssrc ++ drop 12 data.
Definition set_payload_type (payload : Z) (data : list Z) : list Z :=
  alter (fun b => (b .& 0x80) .| (payload .& 0x7f)) 1%nat data.

Definition patch_and_count (allow_patch : bool) (payload : Z) (state : mgcp_rtp_state) (data : list Z)
    : mgcp_rtp_state * list Z :=
  if (length data <? 12)%nat then (state, data)
  else
    let seq := rtp_seq data in
    let timestamp := rtp_timestamp data in
    let ssrc_ := rtp_ssrc data in
    let state :=
      if negb (initialized state) then
        state <| seq_no := u16 (seq - 1) |> <| orig_ssrc := ssrc_ |> <| ssrc := ssrc_ |> <| initialized := true |>
              <| last_timestamp := timestamp |>
      else if negb (ssrc state =? ssrc_) then
        state <| ssrc := ssrc_ |> <| seq_offset := seq_no state + 1 - seq |>
              <| timestamp_offset := Meas.s32 (last_timestamp state - timestamp) |> <| patch := allow_patch |>
      else state in
    let seq := if patch state then u16 (seq + seq_offset state) else seq in
    let timestamp := if patch state then u32 (timestamp + timestamp_offset state) else timestamp in
    let data := if patch state then set_seq_ssrc_ts seq timestamp (orig_ssrc state) data else data in
    let state := if negb (u32 (seq_no state + 1) =? seq)
                 then state <| lost_no := Z.abs (seq - (seq_no state + 1)) |> else state in
    let state := state <| seq_no := seq |> <| last_timestamp := timestamp |> in
    (state, if payload <? 0 then data else set_payload_type payload data).

Definition DUMMY_LOAD : Z := 0x23.

Inductive mgcp_dest : Type := DEST_NETWORK | DEST_BTS.
Definition other_dest (d : mgcp_dest) : mgcp_dest := match d with DEST_NETWORK => DEST_BTS | DEST_BTS => DEST_NETWORK end.

Section media.
Context `{MgcpEnv}.

(** From a socket of an endpoint; nothing is sent from one that is closed. *)
Definition udp_send (a : endp_ref) (w : mgcp_end) (is_rtp : bool) (ip port : Z) (buf : list Z) : MG Z :=
  endp ← endp_get a;
  let e := end_get w endp in
  if (if is_rtp then rtp_fd e else rtcp_fd e)
  then emit (EvUdp a w is_rtp ip port buf);; mret (sendto ip port buf)
  else mret (-1).

Definition mgcp_send_dummy (a : endp_ref) : MG Z :=
  endp ← endp_get a;
  udp_send a END_NET true (addr (net_end endp)) (rtp_port (net_end endp)) [DUMMY_LOAD].

Definition forward_data (a : endp_ref) (w : mgcp_end) (is_rtp : bool) (t : mgcp_tap) (buf : list Z) : MG unit :=
  endp ← endp_get a;
  match taps endp !! tap_nr t with
  | Some tap =>
      let e := end_get w endp in
      when (tap_enabled tap && (if is_rtp then rtp_fd e else rtcp_fd e)) (emit (EvTap a w is_rtp (tap_forward tap) buf))
  | None => fault
  end.

Definition send_transcoder (a : endp_ref) (w : mgcp_end) (is_rtp : bool) (buf : list Z) : MG Z :=
  cfg ← gets id;
  endp ← endp_get a;
  let e := end_get w endp in
  udp_send a w is_rtp (transcoder_in cfg) (if is_rtp then rtp_port e else rtcp_port e) buf.

Definition send_to (a : endp_ref) (dest : mgcp_dest) (is_rtp : bool) (buf : list Z) : MG Z :=
  tcfg ← tcfg_get a;
  endp ← endp_get a;
  let dest := if audio_loop tcfg then other_dest dest else dest in
  let dest := if conn_mode endp =? MGCP_CONN_LOOPBACK then other_dest dest else dest in
  match dest with
  | DEST_NETWORK =>
      let e := net_end endp in
      if is_rtp then
        let '(state, buf) := patch_and_count (allow_patch endp) (payload_type e) (bts_state endp) buf in
        endp_upd a (fun e => e <| bts_state := state |>);;
        forward_data a END_NET true MGCP_TAP_NET_OUT buf;;
        udp_send a END_NET true (addr e) (rtp_port e) buf
      else udp_send a END_NET false (addr e) (rtcp_port e) buf
  | DEST_BTS =>
      let e := bts_end endp in
      if is_rtp then
        let '(state, buf) := patch_and_count (allow_patch endp) (payload_type e) (net_state endp) buf in
        endp_upd a (fun e => e <| net_state := state |>);;
        forward_data a END_BTS true MGCP_TAP_BTS_OUT buf;;
        udp_send a END_BTS true (addr e) (rtp_port e) buf
      else udp_send a END_BTS false (addr e) (rtcp_port e) buf
  end.

(** What [recvfrom] says: an error, or the sender's address and port and the octets. [None]: nothing is
    to be forwarded. *)
Definition receive_from (a : endp_ref) (rx : option (Z * Z * list Z)) : MG (option (Z * Z * list Z)) :=
  match rx with
  | None => mret None
  | Some (ip, port, buf) =>
      endp ← endp_get a;
      mret (if negb (allocated endp) || (length buf =? 0)%nat then None else Some (ip, port, buf))
  end.

Definition is_dummy (buf : list Z) : bool := (length buf =? 1)%nat && (rd buf 0 =? DUMMY_LOAD).
Definition count_packet : mgcp_rtp_end -> mgcp_rtp_end := fun e => e <| packets ::= fun n => u32 (n + 1) |>.

Definition rtp_data_net (a : endp_ref) (is_rtp : bool) (rx : option (Z * Z * list Z)) : MG Z :=
  r ← receive_from a rx;
  match r with
  | None => mret (-1)
  | Some (ip, port, buf) =>
      endp ← endp_get a;
      let e := net_end endp in
      if negb (ip =? addr e) then mret (-1)
      else if negb (rtp_port e =? port) && negb (rtcp_port e =? port) then mret (-1)
      else if is_dummy buf then mret 0
      else
        endp_upd a (end_upd END_NET count_packet);;
        forward_data a END_NET is_rtp MGCP_TAP_NET_IN buf;;
        if is_transcoded endp then send_transcoder a END_TRANS_NET is_rtp buf
        else send_to a DEST_BTS is_rtp buf
  end.

Definition discover_bts (a : endp_ref) (is_rtp : bool) (ip port : Z) : MG unit :=
  cfg ← gets id;
  endp ← endp_get a;
  let e := bts_end endp in
  if is_rtp && (rtp_port e =? 0) then
    when (negb (bts_ip cfg) || (ip =? bts_in cfg) || (ip =? addr e))
      (endp_upd a (end_upd END_BTS (fun e => e <| rtp_port := port |> <| addr := ip |>)))
  else if negb is_rtp && (rtcp_port e =? 0) then
    when (addr e =? ip) (endp_upd a (end_upd END_BTS (fun e => e <| rtcp_port := port |>)))
  else mret tt.

Definition rtp_data_bts (a : endp_ref) (is_rtp : bool) (rx : option (Z * Z * list Z)) : MG Z :=
  r ← receive_from a rx;
  match r with
  | None => mret (-1)
  | Some (ip, port, buf) =>
      discover_bts a is_rtp ip port;;
      endp ← endp_get a;
      let e := bts_end endp in
      if negb (addr e =? ip) then mret (-1)
      else if negb (rtp_port e =? port) && negb (rtcp_port e =? port) then mret (-1)
      else if is_dummy buf then mret 0
      else
        endp_upd a (end_upd END_BTS count_packet);;
        forward_data a END_BTS is_rtp MGCP_TAP_BTS_IN buf;;
        if is_transcoded endp then send_transcoder a END_TRANS_BTS is_rtp buf
        else send_to a DEST_NETWORK is_rtp buf
  end.

Definition rtp_data_transcoder (a : endp_ref) (w : mgcp_end) (dest : mgcp_dest) (is_rtp : bool)
    (rx : option (Z * Z * list Z)) : MG Z :=
  r ← receive_from a rx;
  match r with
  | None => mret (-1)
  | Some (ip, port, buf) =>
      cfg ← gets id;
      endp ← endp_get a;
      let e := end_get w endp in
      if negb (ip =? transcoder_in cfg) then mret (-1)
      else if negb (rtp_port e =? port) && negb (rtcp_port e =? port) then mret (-1)
      else if is_dummy buf then mret 0
      else
        endp_upd a (end_upd w count_packet);;
        send_to a dest is_rtp buf
  end.
Definition rtp_data_trans_net (a : endp_ref) (is_rtp : bool) (rx : option (Z * Z * list Z)) : MG Z :=
  rtp_data_transcoder a END_TRANS_NET DEST_NETWORK is_rtp rx.
Definition rtp_data_trans_bts (a : endp_ref) (is_rtp : bool) (rx : option (Z * Z * list Z)) : MG Z :=
  rtp_data_transcoder a END_TRANS_BTS DEST_BTS is_rtp rx.

(** ** Commands of the VTY, from the endpoint on *)

Definition loop_endp (a : endp_ref) (loop : bool) : MG unit :=
  endp_upd a (fun e => e <| conn_mode := if loop then MGCP_CONN_LOOPBACK else orig_mode e |> <| allow_patch := true |>).
Definition tap_call (a : endp_ref) (t : mgcp_tap) (forward : Z * Z) : MG unit :=
  endp_upd a (fun e => e <| taps ::= <[tap_nr t := mk_mgcp_rtp_tap true forward]> |>).

(** ** Everything that happens to the gateway *)

Inductive mgcp_op : Type :=
| OpMessage (sys : mgcp_sys) (len : nat) (l2h : list Z)
| OpRtp (a : endp_ref) (w : mgcp_end) (is_rtp : bool) (rx : option (Z * Z * list Z))
| OpDummy (a : endp_ref)
| OpFree (a : endp_ref)                    (* mgcp_free_endp, by the program or the VTY *)
| OpLoop (a : endp_ref) (loop : bool)      (* the VTY: loop-endpoint *)
| OpTap (a : endp_ref) (t : mgcp_tap) (forward : Z * Z).   (* tap-call *)

Definition mgcp_step (op : mgcp_op) : MG (option (list Z)) :=
  match op with
  | OpMessage sys len l2h => mgcp_handle_message sys len l2h
  | OpRtp a w is_rtp rx =>
      match w with
      | END_BTS => rtp_data_bts a is_rtp rx
      | END_NET => rtp_data_net a is_rtp rx
      | END_TRANS_NET => rtp_data_trans_net a is_rtp rx
      | END_TRANS_BTS => rtp_data_trans_bts a is_rtp rx
      end;; mret None
  | OpDummy a => mgcp_send_dummy a;; mret None
  | OpFree a => endp_upd a mgcp_free_endp;; mret None
  | OpLoop a loop => loop_endp a loop;; mret None
  | OpTap a t forward => tap_call a t forward;; mret None
  end.

End media.

End Mgcp.
