(* ===== verification/MgcpInv.v ===== *)
(** The invariant of the MGCP gateway: an endpoint is in use exactly when it has a connection identifier
    and a call, holds its sockets exactly then, and the identifiers of the virtual trunk are distinct; no
    operation follows a null pointer or leaves a buffer. *)

From S2P Require Import Prelude Meas Mgcp.
From Stdlib Require Import ZifyBool FunctionalExtensionality.
Import Mgcp.

Module MgcpInv.

(** ** Lengths of texts *)

Lemma length_print_base fuel base n acc : (length (print_base fuel base n acc) <= fuel + length acc)%nat.
Proof.
  revert n acc. induction fuel as [|fuel IH]; intros n acc; cbn [print_base]; [lia|].
  destruct (n <? base); cbn [length]; [lia|]. etrans; [apply IH|]. cbn [length]. lia.
Qed.
Lemma length_print_u n : (length (print_u n) <= 20)%nat.
Proof. unfold print_u. etrans; [apply length_print_base|]. cbn. lia. Qed.
Lemma length_print_x n : (length (print_x n) <= 20)%nat.
Proof. unfold print_x. etrans; [apply length_print_base|]. cbn. lia. Qed.
Lemma length_print_d n : (length (print_d n) <= 21)%nat.
Proof.
  unfold print_d. pose proof (length_print_u n). pose proof (length_print_u (- n)).
  destruct (n <? 0); cbn [length]; lia.
Qed.

(** A string ends at a zero. *)
Lemma length_cstr p k : rd p k = 0 -> (length (cstr p) <= k)%nat.
Proof.
  revert k. induction p as [|c p IH]; intros k Hk; cbn [cstr]; [cbn; lia|].
  destruct k as [|k]; cbn in Hk.
  - rewrite Hk. cbn. lia.
  - case_match; cbn [length]; [lia|]. specialize (IH k Hk). lia.
Qed.
Lemma rd_drop (p : list Z) s k : rd (drop s p) k = rd p (s + k).
Proof. unfold rd. by rewrite lookup_drop. Qed.

(** ** The header *)

Lemma msg_pointers_bound n i room tok l3h acc len :
  (i + n = len)%nat -> Forall (fun p => fst p + snd p + 1 < len)%nat acc ->
  match tok with Some s => (s < i)%nat | None => True end ->
  Forall (fun p => fst p + snd p + 1 < len)%nat (snd (msg_pointers n i room tok l3h acc)).
Proof.
  revert i room tok acc. induction n as [|n IH]; intros i [|room] tok acc Hi Hacc Ht; cbn [msg_pointers]; try done.
  destruct tok as [s|].
  - assert (Forall (fun p => fst p + snd p + 1 < len)%nat (acc ++ [(s, i - s - 1)%nat])).
    { apply Forall_app. split; [done|]. repeat constructor. cbn. lia. }
    destruct (is_blank _); [destruct (is_eol _)|]; [done|apply IH; auto; lia..].
  - destruct (is_blank _); [destruct (is_eol _)|]; [done|apply IH; auto; lia..].
Qed.

Lemma rd_insert_zero (l : list Z) i j : rd l j = 0 -> rd (<[i := 0]> l) j = 0.
Proof.
  unfold rd. intros H. destruct (decide (i = j)) as [->|Hne]; [|by rewrite list_lookup_insert_ne].
  destruct (decide (j < length l)%nat).
  - by rewrite list_lookup_insert_eq.
  - rewrite lookup_ge_None_2; [done|]. rewrite length_insert. lia.
Qed.
Lemma rd_insert_here (l : list Z) i : rd (<[i := 0]> l) i = 0.
Proof.
  unfold rd. destruct (decide (i < length l)%nat).
  - by rewrite list_lookup_insert_eq.
  - rewrite lookup_ge_None_2; [done|]. rewrite length_insert. lia.
Qed.
Lemma cut_tokens_zero ptrs l3h i : rd l3h i = 0 -> rd (foldl cut_token l3h ptrs) i = 0.
Proof. revert l3h. induction ptrs as [|p ptrs IH]; intros l3h H; cbn; [done|]. apply IH. by apply rd_insert_zero. Qed.

Lemma trunk_num_lookup cfg t k : mgcp_trunk_num cfg t = Some k -> is_Some (trunks cfg !! k).
Proof.
  unfold mgcp_trunk_num. destruct (list_find _ _) as [[i x]|] eqn:E; intros [= <-].
  apply list_find_Some in E. by destruct E as [-> _].
Qed.

(** The endpoints exist and their number is what the trunk says. *)
Definition sized (cfg : mgcp_config) : Prop :=
  is_Some (endpoints (trunk cfg)) /\
  forall t tcfg l, get_trunk t cfg = Some tcfg -> endpoints tcfg = Some l -> Z.of_nat (length l) = number_endpoints tcfg.

Lemma find_endpoint_lookup cfg name a :
  sized cfg -> find_endpoint cfg name = Some a -> is_Some (lookup_endp a cfg) /\ (1 <= er_nr a)%nat.
Proof.
  intros [[l0 Hl0] Hs] Hf. unfold find_endpoint in Hf. destruct (strncmp_eq _ _).
  - unfold find_e1_endpoint in Hf. destruct (strtoul_int (drop 6 name)) as [t rest].
    destruct (negb _ || _); [done|]. destruct (strtoul_int (drop 1 rest)) as [e rest'].
    destruct (negb _); [done|]. destruct (e =? 1); [done|]. cbn in Hf.
    destruct (mgcp_trunk_num cfg t) as [k|] eqn:Hk; [|done]. cbn in Hf.
    destruct (trunk_num_lookup _ _ _ Hk) as [tcfg Ht]. rewrite Ht in Hf. cbn in Hf.
    destruct (endpoints tcfg) as [l|] eqn:Hl; [|done].
    destruct ((e <? 1) || (number_endpoints tcfg <=? e)) eqn:Hr; [done|]. injection Hf as <-.
    specialize (Hs (Some k) tcfg l Ht Hl). unfold lookup_endp. cbn. rewrite Ht. cbn. rewrite Hl. cbn.
    split; [apply lookup_lt_is_Some; lia|lia].
  - destruct (strtoul 16 name) as [gw endptr]. destruct (_ && _ && _) eqn:Hr; [|done]. injection Hf as <-.
    specialize (Hs None (trunk cfg) l0 eq_refl Hl0). unfold lookup_endp. cbn. rewrite Hl0. cbn.
    split; [apply lookup_lt_is_Some; lia|lia].
Qed.

Lemma analyze_header_spec cfg len l3h rc l3h' trans a :
  sized cfg -> mgcp_analyze_header cfg len l3h = (rc, l3h', trans, a) ->
  (length trans <= len + 6)%nat /\ (rc = 0 <-> is_Some a) /\
  match a with Some a => is_Some (lookup_endp a cfg) /\ (1 <= er_nr a)%nat | None => True end.
Proof.
  intros Hs. unfold mgcp_analyze_header. destruct (find_msg_pointers len l3h 6) as [found ptrs] eqn:Hp.
  assert (Hno : forall l, (-1, l, str "000000", @None endp_ref) = (rc, l3h', trans, a) ->
    (length trans <= len + 6)%nat /\ (rc = 0 <-> is_Some a) /\
    match a with Some a => is_Some (lookup_endp a cfg) /\ (1 <= er_nr a)%nat | None => True end).
  { intros l [= <- <- <- <-]. split; [cbn; lia|]. split; [|done]. split; [done|by intros []]. }
  destruct (found <=? 3) eqn:Hf; [apply Hno|].
  assert (Hb : Forall (fun p => fst p + snd p + 1 < len)%nat ptrs).
  { unfold find_msg_pointers in Hp. pose proof (msg_pointers_bound len 0 6 None l3h [] len eq_refl (Forall_nil_2 _) I) as Hb.
    destruct (msg_pointers _ _ _ _ _ _) as [room ptrs']. destruct (room =? 0)%nat; by injection Hp as _ <-. }
  destruct (negb _ || negb _); [apply Hno|].
  set (l := foldl cut_token l3h (take 4 ptrs)).
  assert (Ht : (length (cstr (drop (fst (default (0, 0)%nat (ptrs !! 0%nat))) l)) <= len + 6)%nat).
  { destruct ptrs as [|p ptrs'].
    - unfold find_msg_pointers in Hp. destruct (msg_pointers _ _ _ _ _ _) as [room ptrs'].
      destruct (room =? 0)%nat; injection Hp as <- ->; cbn in Hf; lia.
    - cbn [lookup list_lookup default]. apply Forall_cons in Hb as [Hb _].
      etrans; [apply (length_cstr _ (snd p + 1))|]; [|cbn; lia].
      rewrite rd_drop. unfold l. cbn [take foldl]. apply cut_tokens_zero. rewrite Nat.add_assoc. apply rd_insert_here. }
  destruct (find_endpoint cfg _) as [b|] eqn:Hfe; intros [= <- <- <- <-].
  - split; [exact Ht|]. split; [done|]. by apply (find_endpoint_lookup _ _ _ Hs Hfe).
  - split; [exact Ht|]. split; [|done]. split; [done|by intros []].
Qed.

(** ** Connection identifiers *)

Definition CI_MAX : Z := 2 ^ 32 - 1.
Lemma next_call_id_mod id : in_width 32 id -> next_call_id id = id mod CI_MAX + 1.
Proof.
  unfold in_width, next_call_id, CI_UNUSED, u32, wrap, CI_MAX. intros Hid.
  destruct (decide (id = 2 ^ 32 - 1)) as [->|Hne]; [by vm_compute|].
  rewrite (Z.mod_small (id + 1)) by lia. rewrite (Z.mod_small id) by lia.
  by replace (id + 1 =? 0) with false by lia.
Qed.
Definition kth_id (id : Z) (k : nat) : Z := (id + Z.of_nat k) mod CI_MAX + 1.
Lemma kth_id_width id k : in_width 32 (kth_id id k).
Proof. unfold kth_id, in_width, CI_MAX. pose proof (Z.mod_pos_bound (id + Z.of_nat k) (2 ^ 32 - 1)). lia. Qed.
Lemma next_kth id k : next_call_id (kth_id id k) = kth_id id (S k).
Proof.
  rewrite next_call_id_mod by apply kth_id_width. unfold kth_id.
  rewrite Zplus_mod_idemp_l. do 2 f_equal. lia.
Qed.
Lemma ci_in_use_In l id : ci_in_use l id = true -> In id (map ci l).
Proof.
  induction l as [|e l IH]; cbn; [done|]. destruct (ci e =? id) eqn:E; [left; lia|]. right. by apply IH.
Qed.
Lemma ci_in_use_false l id e : ci_in_use l id = false -> e ∈ l -> ci e <> id.
Proof.
  induction l as [|x l IH]; cbn; [by intros _ ?%elem_of_nil|]. destruct (ci x =? id) eqn:E; [done|].
  intros H [->|Hin]%elem_of_cons; [lia|by apply IH].
Qed.

Lemma call_id_loop_some fuel l id : forall k,
  call_id_loop fuel l (kth_id id k) = None ->
  forall j, (k < j <= k + fuel)%nat -> In (kth_id id j) (map ci l).
Proof.
  induction fuel as [|fuel IH]; intros k; cbn [call_id_loop]; [lia|]. rewrite next_kth.
  destruct (ci_in_use l (kth_id id (S k))) eqn:E; [|done]. intros Hn j Hj.
  destruct (decide (j = S k)) as [->|]; [by apply ci_in_use_In|]. apply (IH (S k) Hn). lia.
Qed.
Lemma call_id_loop_result fuel l id cid :
  in_width 32 id -> call_id_loop fuel l id = Some cid -> cid <> 0 /\ in_width 32 cid /\ ci_in_use l cid = false.
Proof.
  revert id. induction fuel as [|fuel IH]; intros id Hid; cbn [call_id_loop]; [done|].
  assert (Hn : next_call_id id = kth_id id 0) by (rewrite next_call_id_mod by done; unfold kth_id; do 2 f_equal; lia).
  rewrite Hn. destruct (ci_in_use l (kth_id id 0)) eqn:E.
  - apply IH, kth_id_width.
  - intros [= <-]. split; [|split; [apply kth_id_width|done]].
    unfold kth_id, CI_MAX. pose proof (Z.mod_pos_bound (id + Z.of_nat 0) (2 ^ 32 - 1)). lia.
Qed.

(** A free identifier is found as long as there are more tries than endpoints. *)
Lemma call_id_loop_total fuel l id :
  in_width 32 id -> (length l < fuel)%nat -> Z.of_nat fuel < CI_MAX -> is_Some (call_id_loop fuel l id).
Proof.
  intros Hid Hl Hf. destruct (call_id_loop fuel l id) as [cid|] eqn:E; [done|exfalso].
  destruct fuel as [|fuel]; [lia|]. cbn [call_id_loop] in E.
  assert (Hn : next_call_id id = kth_id id 0) by (rewrite next_call_id_mod by done; unfold kth_id; do 2 f_equal; lia).
  rewrite Hn in E. destruct (ci_in_use l (kth_id id 0)) eqn:E0; [|done].
  pose proof (call_id_loop_some fuel l id 0 E) as Hin. apply ci_in_use_In in E0.
  assert (Hincl : incl (map (kth_id id) (seq 0 (S fuel))) (map ci l)).
  { intros x Hx. apply in_map_iff in Hx as (j & <- & Hj). apply in_seq in Hj.
    destruct j as [|j]; [done|]. apply Hin. lia. }
  apply NoDup_incl_length in Hincl; [rewrite !length_map, length_seq in Hincl; lia|].
  apply NoDup_ListNoDup, NoDup_fmap_2_strong; [|apply NoDup_seq].
  intros i j Hi Hj Hk. apply elem_of_seq in Hi, Hj. unfold kth_id, CI_MAX in Hk, Hf.
  assert (Hm : (id + Z.of_nat i) mod (2 ^ 32 - 1) = (id + Z.of_nat j) mod (2 ^ 32 - 1)) by lia.
  apply (f_equal (fun x => x - (id + Z.of_nat j) mod (2 ^ 32 - 1))) in Hm. rewrite Z.sub_diag in Hm.
  assert (Hd : ((id + Z.of_nat i) - (id + Z.of_nat j)) mod (2 ^ 32 - 1) = 0).
  { rewrite Zminus_mod. replace ((id + Z.of_nat i) mod (2 ^ 32 - 1) - (id + Z.of_nat j) mod (2 ^ 32 - 1)) with 0 by lia. done. }
  apply Z.mod_divide in Hd; [|lia]. destruct Hd as [q Hq]. nia.
Qed.

(** ** The invariant *)

(** Which ends get their ports from a range. *)
Definition dynamic (cfg : mgcp_config) (w : mgcp_end) : bool :=
  negb (range_mode match w with END_BTS => bts_ports cfg | END_NET => net_ports cfg | _ => transcoder_ports cfg end
        =? PORT_ALLOC_STATIC).
(** Which ends an endpoint uses. *)
Definition used (w : mgcp_end) (e : mgcp_endpoint) : bool :=
  match w with END_BTS | END_NET => allocated e | END_TRANS_BTS | END_TRANS_NET => is_transcoded e end.

(** An end whose ports are dynamic has its sockets open exactly when it is used. *)
Definition end_ok (dyn use : bool) (n : mgcp_rtp_end) : Prop :=
  dyn = true -> rtp_fd n = use /\ rtcp_fd n = use /\ (local_alloc n =? PORT_ALLOC_DYNAMIC) = use.

Record endp_ok (dyn : mgcp_end -> bool) (e : mgcp_endpoint) : Prop := {
  eo_ci : allocated e = negb (ci e =? CI_UNUSED);
  eo_callid : allocated e = bool_decide (is_Some (callid e));
  eo_transcoded : is_transcoded e = true -> allocated e = true;
  eo_taps : length (taps e) = 4%nat;
  eo_ends : forall w, end_ok (dyn w) (used w e) (end_get w e)
}.

(** The texts of the configuration fit the messages they are printed in. *)
Record config_small (cfg : mgcp_config) : Prop := {
  cs_ip : (length (default (source_addr cfg) (local_ip cfg)) <= 100)%nat;
  cs_source : (length (source_addr cfg) <= 100)%nat;
  cs_audio : forall t tcfg, get_trunk t cfg = Some tcfg -> (length (audio_name tcfg) <= 100)%nat;
  cs_number : 0 <= number_endpoints (trunk cfg) <= 65535;
  cs_last : in_width 32 (last_call_id cfg)
}.

(** The invariant without what concerns the endpoint [a]. *)
Record wf_but (a : option endp_ref) (cfg : mgcp_config) : Prop := {
  wb_small : config_small cfg;
  wb_sized : sized cfg;
  wb_ok : forall b e, Some b <> a -> lookup_endp b cfg = Some e -> endp_ok (dynamic cfg) e;
  wb_ci : forall i j e f, (1 <= i)%nat -> (1 <= j)%nat ->
    lookup_endp (mk_endp_ref None i) cfg = Some e -> lookup_endp (mk_endp_ref None j) cfg = Some f ->
    ci e <> CI_UNUSED -> ci e = ci f -> i = j
}.
Definition mgcp_wf : mgcp_config -> Prop := wf_but None.
(** All is well but the endpoint [a], of which [P] is known; the ports that are dynamic are those of [c0]. *)
Definition holds (c0 : mgcp_config) (a : endp_ref) (P : mgcp_endpoint -> Prop) (cfg : mgcp_config) : Prop :=
  wf_but (Some a) cfg /\ dynamic cfg = dynamic c0 /\ exists e, lookup_endp a cfg = Some e /\ P e.

(** No endpoint of the virtual trunk has the identifier. *)
Definition unused_ci (cfg : mgcp_config) (cid : Z) : Prop :=
  forall i e, (1 <= i)%nat -> lookup_endp (mk_endp_ref None i) cfg = Some e -> ci e <> cid.

(** *** What an update of an endpoint leaves alone *)

Lemma get_trunk_alter t t' f cfg :
  get_trunk t (trunk_alter t' f cfg) = if decide (t = t') then f <$> get_trunk t cfg else get_trunk t cfg.
Proof.
  destruct t as [k|], t' as [k'|]; cbn; try done.
  case_decide as E.
  - injection E as ->. by rewrite list_lookup_alter_eq.
  - rewrite list_lookup_alter_ne; [done|congruence].
Qed.

Lemma lookup_alter_endp a b f cfg :
  lookup_endp b (alter_endp a f cfg) = if decide (b = a) then f <$> lookup_endp b cfg else lookup_endp b cfg.
Proof.
  unfold lookup_endp, alter_endp. rewrite get_trunk_alter. destruct a as [ta na], b as [tb nb]. cbn.
  case_decide as Et.
  - subst tb. destruct (get_trunk ta cfg) as [tcfg|]; cbn; [|by case_decide].
    destruct (endpoints tcfg) as [l|]; cbn; [|by case_decide].
    case_decide as E; [injection E as ->; by rewrite list_lookup_alter_eq|].
    rewrite list_lookup_alter_ne; [done|congruence].
  - case_decide as E; [congruence|done].
Qed.

Lemma trunk_alter_same t f cfg :
  let cfg' := trunk_alter t f cfg in
  local_ip cfg' = local_ip cfg /\ source_addr cfg' = source_addr cfg /\ last_call_id cfg' = last_call_id cfg /\
  dynamic cfg' = dynamic cfg.
Proof. by destruct t. Qed.

Lemma wf_alter_endp a f cfg e :
  wf_but (Some a) cfg -> lookup_endp a cfg = Some e ->
  ci (f e) = ci e \/ ci (f e) = CI_UNUSED \/ unused_ci cfg (ci (f e)) ->
  wf_but (Some a) (alter_endp a f cfg).
Proof.
  intros [Hsm Hsz Hok Hci] He Hf.
  destruct (trunk_alter_same (er_trunk a) (fun tcfg => tcfg <| endpoints ::= fmap (alter f (er_nr a)) |>) cfg)
    as (Hip & Hsrc & Hlast & Hdyn).
  assert (Hget : forall t tcfg, get_trunk t (alter_endp a f cfg) = Some tcfg -> exists tcfg0,
    get_trunk t cfg = Some tcfg0 /\ audio_name tcfg = audio_name tcfg0 /\ number_endpoints tcfg = number_endpoints tcfg0
    /\ (forall l, endpoints tcfg = Some l -> exists l0, endpoints tcfg0 = Some l0 /\ length l = length l0)).
  { intros t tcfg. unfold alter_endp. rewrite get_trunk_alter. case_decide as E.
    - intros (t0 & Ht0 & ->)%fmap_Some. exists t0. split; [done|]. do 2 (split; [done|]).
      intros l (l0 & Hl0 & ->)%fmap_Some. exists l0. by rewrite length_alter.
    - intros Ht. exists tcfg. do 3 (split; [done|]). eauto. }
  split.
  - destruct Hsm as [H1 H2 H3 H4 H5]. split.
    + unfold alter_endp. by rewrite Hip, Hsrc.
    + unfold alter_endp. by rewrite Hsrc.
    + intros t tcfg Ht. destruct (Hget _ _ Ht) as (t0 & Ht0 & -> & _). by eapply H3.
    + destruct (Hget None _ eq_refl) as (t0 & [= <-] & _ & -> & _). exact H4.
    + unfold alter_endp. by rewrite Hlast.
  - destruct Hsz as [[l0 Hl0] Hsz]. split.
    + unfold alter_endp. destruct (er_trunk a); cbn; rewrite ?Hl0; eauto.
    + intros t tcfg l Ht Hl. destruct (Hget _ _ Ht) as (t0 & Ht0 & _ & -> & Hlen).
      destruct (Hlen _ Hl) as (l1 & Hl1 & ->). by eapply Hsz.
  - intros b x Hb Hx. unfold alter_endp. rewrite Hdyn. rewrite lookup_alter_endp in Hx.
    case_decide; [congruence|]. by eapply Hok.
  - intros i j x y Hi Hj Hx Hy Hu Hxy. rewrite lookup_alter_endp in Hx, Hy.
    assert (Hlift : forall k z, (if decide (mk_endp_ref None k = a) then f <$> lookup_endp (mk_endp_ref None k) cfg
       else lookup_endp (mk_endp_ref None k) cfg) = Some z -> exists z0,
       lookup_endp (mk_endp_ref None k) cfg = Some z0 /\
       (ci z = ci z0 \/ ci z = CI_UNUSED \/ (mk_endp_ref None k = a /\ unused_ci cfg (ci z)))).
    { intros k z. destruct (decide (mk_endp_ref None k = a)) as [E|E]; [|intros Hz; exists z; auto].
      rewrite E, He. intros [= <-]. exists e. split; [done|]. destruct Hf as [?|[?|?]]; auto. }
    destruct (Hlift _ _ Hx) as (x0 & Hx0 & Hcx), (Hlift _ _ Hy) as (y0 & Hy0 & Hcy).
    destruct Hcx as [Hcx|[Hcx|[Hax Hcx]]]; [|congruence|]; destruct Hcy as [Hcy|[Hcy|[Hay Hcy]]]; try congruence.
    + apply (Hci i j x0 y0); auto; congruence.
    + destruct (Hcy i x0 Hi Hx0). congruence.
    + destruct (Hcx j y0 Hj Hy0). congruence.
Qed.

(** *** The rules *)

Lemma wp_endp_get c0 a P Q cfg :
  holds c0 a P cfg -> (forall e, lookup_endp a cfg = Some e -> P e -> Q e cfg) -> wp (endp_get a) Q cfg.
Proof.
  intros (Hwf & Hd & e & He & HP) HQ. unfold endp_get. rewrite wp_bind, wp_gets, He. by apply HQ.
Qed.
Lemma wp_endp_upd c0 a f P P' (Q : unit -> mgcp_config -> Prop) cfg :
  holds c0 a P cfg -> (forall e, P e -> P' (f e) /\ (ci (f e) = ci e \/ ci (f e) = CI_UNUSED)) ->
  (forall cfg', holds c0 a P' cfg' -> Q tt cfg') -> wp (endp_upd a f) Q cfg.
Proof.
  intros (Hwf & Hd & e & He & HP) Hf HQ. unfold endp_upd, endp_get. rewrite wp_bind, wp_bind, wp_gets, He.
  apply HQ. destruct (Hf e HP) as [HP' Hc].
  split; [apply (wf_alter_endp _ _ _ e); tauto|]. split.
  - rewrite <- Hd. apply (trunk_alter_same (er_trunk a)).
  - exists (f e). by rewrite lookup_alter_endp, decide_True, He.
Qed.
(** The endpoint gets an identifier that is not in use. *)
Lemma wp_set_ci c0 a cid P P' (Q : unit -> mgcp_config -> Prop) cfg :
  holds c0 a P cfg -> unused_ci cfg cid -> (forall e, P e -> P' (e <| ci := cid |>)) ->
  (forall cfg', holds c0 a P' cfg' -> Q tt cfg') -> wp (endp_upd a (fun e => e <| ci := cid |>)) Q cfg.
Proof.
  intros (Hwf & Hd & e & He & HP) Hu Hf HQ. unfold endp_upd, endp_get. rewrite wp_bind, wp_bind, wp_gets, He.
  apply HQ. split; [apply (wf_alter_endp _ _ _ e); auto|]. split.
  - rewrite <- Hd. apply (trunk_alter_same (er_trunk a)).
  - exists (e <| ci := cid |>). rewrite lookup_alter_endp, decide_True, He by done. auto.
Qed.
Lemma holds_tcfg c0 a P cfg : holds c0 a P cfg -> exists tcfg, get_trunk (er_trunk a) cfg = Some tcfg.
Proof. intros (_ & _ & e & He & _). unfold lookup_endp in He. destruct (get_trunk _ _) as [t|]; [eauto|done]. Qed.
Lemma wp_tcfg_get c0 a P (Q : mgcp_trunk_config -> mgcp_config -> Prop) cfg :
  holds c0 a P cfg -> (forall tcfg, get_trunk (er_trunk a) cfg = Some tcfg -> Q tcfg cfg) -> wp (tcfg_get a) Q cfg.
Proof.
  intros H HQ. destruct (holds_tcfg _ _ _ _ H) as [tcfg Ht]. unfold tcfg_get. rewrite wp_bind, wp_gets, Ht.
  by apply HQ.
Qed.

Lemma holds_weaken c0 a (P P' : mgcp_endpoint -> Prop) cfg : (forall e, P e -> P' e) -> holds c0 a P cfg -> holds c0 a P' cfg.
Proof. intros HP (? & ? & e & ? & ?). split; [done|]. split; [done|]. exists e. auto. Qed.
(** The whole invariant is that of the others and that of [a]. *)
Lemma wf_holds cfg a : mgcp_wf cfg -> is_Some (lookup_endp a cfg) -> holds cfg a (endp_ok (dynamic cfg)) cfg.
Proof.
  intros [Hsm Hsz Hok Hci] [e He]. split; [|split; [done|]].
  - split; try done. intros b x _. by apply Hok.
  - exists e. split; [done|]. by eapply Hok.
Qed.
Lemma holds_wf c0 cfg a : holds c0 a (endp_ok (dynamic c0)) cfg -> mgcp_wf cfg /\ dynamic cfg = dynamic c0.
Proof.
  intros ([Hsm Hsz Hok Hci] & Hd & e & He & HP). split; [|done]. split; try done.
  intros b x _ Hx. destruct (decide (b = a)) as [->|]; [|apply (Hok b); congruence].
  rewrite Hd. by rewrite He in Hx; injection Hx as <-.
Qed.
(** What an operation guarantees: the invariant, with the same dynamic ports. *)
Definition fine {A} (c0 : mgcp_config) (_ : A) (cfg : mgcp_config) : Prop := mgcp_wf cfg /\ dynamic cfg = dynamic c0.

(** ** Responses *)

Lemma length_str s : length (str s) = String.length s.
Proof. induction s; cbn; [done|by f_equal]. Qed.

Lemma wp_response mem code txt trans data Q cfg :
  (length txt <= 10)%nat -> (length trans + length (default [] data) <= 3900)%nat -> (forall r, Q r cfg) ->
  wp (mgcp_create_response_with_data mem code txt trans data) Q cfg.
Proof.
  intros Ht Hl HQ. unfold mgcp_create_response_with_data. destruct (negb mem); [by apply HQ|].
  pose proof (length_print_d code). set (d := default [] data) in *. case_match eqn:E; [|by apply HQ].
  apply Nat.ltb_lt in E. rewrite !length_app, length_str in E. unfold MGCP_TAILROOM in E. cbn [String.length length] in E.
  exfalso. Local Opaque print_d. lia.
Qed.

Lemma wp_ok c0 mem code trans cfg :
  (length trans <= 3100)%nat -> fine c0 tt cfg -> wp (create_ok_response mem code trans) (fine c0) cfg.
Proof. intros Hl Hf. apply wp_response; cbn; [lia..|done]. Qed.
Lemma wp_err c0 mem code trans cfg :
  (length trans <= 3100)%nat -> fine c0 tt cfg -> wp (create_err_response mem code trans) (fine c0) cfg.
Proof. intros Hl Hf. apply wp_response; cbn; [lia..|done]. Qed.

Lemma length_sdp cfg a tcfg e :
  config_small cfg -> get_trunk a cfg = Some tcfg -> (length (sdp_record cfg tcfg e) <= 700)%nat.
Proof.
  intros [Hip _ Haudio _ _] Ht. specialize (Haudio _ _ Ht). unfold sdp_record. rewrite length_take.
  etrans; [apply Nat.le_min_r|]. rewrite !length_app, !length_str. cbn [String.length length].
  pose proof (length_print_u (ci e)). pose proof (length_print_d (local_port (net_end e))).
  pose proof (length_print_d (payload_type (bts_end e))). lia.
Qed.

Lemma wp_sdp c0 a P mem trans Q cfg :
  holds c0 a P cfg -> (length trans <= 3100)%nat -> (forall r, Q r cfg) ->
  wp (create_response_with_sdp mem a trans) Q cfg.
Proof.
  intros Hh Hl HQ. unfold create_response_with_sdp. rewrite wp_bind, wp_gets, wp_bind.
  apply (wp_tcfg_get _ _ _ _ _ Hh). intros tcfg Ht. rewrite wp_bind. apply (wp_endp_get _ _ _ _ _ Hh). intros e _ _.
  apply wp_response; [cbn; lia| |done]. cbn [default].
  pose proof (length_sdp cfg _ tcfg e (wb_small _ _ (proj1 Hh)) Ht) as Hs. unfold id. lia.
Qed.

Lemma wp_send_trans text Q cfg : (length text <= 2096)%nat -> Q tt cfg -> wp (send_trans 2096 text) Q cfg.
Proof.
  intros Hl HQ. unfold send_trans. case_match eqn:E; [apply Nat.ltb_lt in E; lia|]. by apply wp_emit.
Qed.
Lemma wp_send_msg c0 a P n port m mode Q cfg :
  holds c0 a P cfg -> (length m <= 10)%nat -> (length mode <= 10)%nat -> Q tt cfg -> wp (send_msg a n port m mode) Q cfg.
Proof.
  intros Hh Hm Hmode HQ. unfold send_msg. rewrite wp_bind, wp_gets, wp_bind.
  apply (wp_tcfg_get _ _ _ _ _ Hh). intros tcfg Ht. apply wp_send_trans; [|done].
  destruct (wb_small _ _ (proj1 Hh)) as [_ Hs Ha _ _]. specialize (Ha _ _ Ht). unfold id.
  rewrite !length_app, !length_str. cbn [String.length length].
  pose proof (length_print_x n). pose proof (length_print_d port). pose proof (length_print_d (audio_payload tcfg)). lia.
Qed.
Lemma wp_send_dlcx n Q cfg : Q tt cfg -> wp (send_dlcx n) Q cfg.
Proof.
  apply wp_send_trans. rewrite !length_app, !length_str. cbn [String.length length].
  pose proof (length_print_x n). lia.
Qed.

(** An assignment to an end that does not touch its sockets keeps the endpoint in order. *)
Lemma endp_ok_upd w f dyn e :
  (forall n, rtp_fd (f n) = rtp_fd n /\ rtcp_fd (f n) = rtcp_fd n /\ local_alloc (f n) = local_alloc n) ->
  endp_ok dyn e -> endp_ok dyn (end_upd w f e) /\ ci (end_upd w f e) = ci e.
Proof.
  intros Hf [H1 H2 H3 H4 H5]. split; [|by destruct w]. split; [by destruct w..|].
  intros w'. specialize (H5 w'). unfold end_ok in *. intros Hd. specialize (H5 Hd).
  destruct (Hf (end_get w e)) as (F1 & F2 & F3). by destruct w, w'; cbn in *; rewrite ?F1, ?F2, ?F3.
Qed.

Lemma wp_end_upd c0 a w f Q cfg :
  (forall n, rtp_fd (f n) = rtp_fd n /\ rtcp_fd (f n) = rtcp_fd n /\ local_alloc (f n) = local_alloc n) ->
  holds c0 a (endp_ok (dynamic c0)) cfg -> (forall cfg', holds c0 a (endp_ok (dynamic c0)) cfg' -> Q tt cfg') ->
  wp (endp_upd a (end_upd w f)) Q cfg.
Proof.
  intros Hf Hh HQ. apply (wp_endp_upd c0 a _ _ (endp_ok (dynamic c0)) _ _ Hh); [|exact HQ]. intros e He.
  destruct (endp_ok_upd w f _ _ Hf He). auto.
Qed.

Lemma wp_create_transcoder_with c0 a (P : mgcp_endpoint -> Prop) Q cfg :
  (forall w x y e, P e -> P (end_upd w (fun n => n <| rtp_port := x |> <| rtcp_port := y |>) e)) ->
  holds c0 a P cfg -> (forall cfg', holds c0 a P cfg' -> Q tt cfg') -> wp (create_transcoder a) Q cfg.
Proof.
  intros HP Hh HQ. unfold create_transcoder. rewrite wp_bind, wp_gets, wp_bind. apply (wp_endp_get _ _ _ _ _ Hh).
  intros e _ _. case_match; [by apply HQ|]. do 4 (rewrite wp_bind; apply (wp_send_msg _ _ _ _ _ _ _ _ _ Hh); [cbn; lia..|]).
  rewrite wp_bind. apply (wp_endp_upd c0 a _ _ P _ _ Hh); [intros x Hx; split; [by apply HP|by left]|].
  intros cfg' Hh'. apply (wp_endp_upd c0 a _ _ P _ _ Hh'); [|done]. intros x Hx. split; [by apply HP|by left].
Qed.
Lemma wp_create_transcoder c0 a Q cfg :
  holds c0 a (endp_ok (dynamic c0)) cfg -> (forall cfg', holds c0 a (endp_ok (dynamic c0)) cfg' -> Q tt cfg') ->
  wp (create_transcoder a) Q cfg.
Proof. apply wp_create_transcoder_with. intros w x y e He. by apply endp_ok_upd. Qed.
Lemma wp_delete_transcoder c0 a P Q cfg : holds c0 a P cfg -> Q tt cfg -> wp (delete_transcoder a) Q cfg.
Proof.
  intros Hh HQ. unfold delete_transcoder. rewrite wp_bind. apply (wp_endp_get _ _ _ _ _ Hh). intros e _ _.
  case_match; [done|]. rewrite wp_bind. by do 2 apply wp_send_dlcx.
Qed.

(** ** Ports *)

Definition sane (dyn : mgcp_end -> bool) (e : mgcp_endpoint) : Prop := forall w, exists u, end_ok (dyn w) u (end_get w e).
Lemma endp_ok_sane dyn e : endp_ok dyn e -> sane dyn e.
Proof. intros H w. eexists. apply (eo_ends _ _ H). Qed.

Lemma reset_end_ok d u n : end_ok d u n -> end_ok d false (mgcp_rtp_end_reset n).
Proof.
  unfold end_ok, mgcp_rtp_end_reset. intros H Hd. destruct (H Hd) as (H1 & H2 & H3).
  destruct (local_alloc n =? PORT_ALLOC_DYNAMIC); cbn; [done|]. by rewrite H1, H2, <- H3.
Qed.
Lemma free_ok dyn e : sane dyn e -> endp_ok dyn (mgcp_free_endp e).
Proof.
  intros Hs. split; [done..|]. intros w. destruct (Hs w) as [u Hu]. apply reset_end_ok in Hu. by destruct w.
Qed.

Lemma end_get_upd w w' f e : end_get w' (end_upd w f e) = end_get w' e \/ w' = w /\ end_get w' (end_upd w f e) = f (end_get w e).
Proof. destruct w, w'; auto. Qed.
Lemma end_get_same w f e : end_get w (end_upd w f e) = f (end_get w e).
Proof. by destruct w. Qed.

Section ports.
Context (sys : mgcp_sys).

Lemma int_bind_fds ans port n ok n' :
  int_bind ans port n = (ok, n') -> rtp_fd n' = ok /\ rtcp_fd n' = ok /\ local_alloc n' = local_alloc n.
Proof.
  destruct ans as [[[a b] c] d]. unfold int_bind, bind_rtp.
  destruct (rtp_fd n) eqn:E1, (rtcp_fd n) eqn:E2, a, b, c, d; cbn; intros [= <- <-]; cbn; auto.
Qed.

Lemma try_ports_spec w n endp range ok endp' range' :
  try_ports sys w n endp range = (ok, endp', range') ->
  exists x p, endp' = end_upd w (fun _ => x) endp /\ range' = range <| last_port := p |> /\
    (forall d, end_ok d false (end_get w endp) -> end_ok d ok x).
Proof.
  revert endp range. induction n as [|n IH]; intros endp range; cbn [try_ports].
  - intros [= <- <- <-]. exists (end_get w endp), (last_port range).
    split; [by destruct w, endp|]. split; [by destruct range|auto].
  - set (range1 := if range_end range <=? last_port range then _ else _).
    assert (Hr : exists p, range1 = range <| last_port := p |>).
    { unfold range1. destruct (_ <=? _); [by eexists|]. exists (last_port range). by destruct range. }
    destruct Hr as [p1 Hr]. rewrite Hr. destruct (int_bind _ _ _) as [b x] eqn:Hb.
    apply int_bind_fds in Hb as (F1 & F2 & F3). destruct b.
    + intros [= <- <- <-]. eexists _, _. split; [done|]. split; [by destruct range|].
      intros d _ _. by cbn.
    + intros H. apply IH in H as (y & p & -> & -> & Hy). exists y, p. split; [by destruct w|].
      split; [by destruct range|]. intros d Hd. apply Hy. intros Hdyn. destruct (Hd Hdyn) as (_ & _ & Hal).
      rewrite end_get_same. by rewrite F1, F2, F3.
Qed.

Lemma allocate_port_spec w endp range ok endp' range' d :
  allocate_port sys w endp range = (ok, endp', range') -> d = negb (range_mode range =? PORT_ALLOC_STATIC) ->
  exists x p, endp' = end_upd w (fun _ => x) endp /\ range' = range <| last_port := p |> /\
    (end_ok d false (end_get w endp) -> end_ok d ok x).
Proof.
  unfold allocate_port. destruct (range_mode range =? PORT_ALLOC_STATIC); intros Ha ->.
  - injection Ha as <- <- <-. exists ((end_get w endp) <| local_alloc := PORT_ALLOC_STATIC |>), (last_port range). split; [by destruct w|]. split; [by destruct range|done].
  - apply try_ports_spec in Ha as (x & p & -> & -> & Hx). eauto 6.
Qed.

(** The configurations differ in the last ports only. *)
Definition like (cfg cfg' : mgcp_config) : Prop :=
  trunk cfg' = trunk cfg /\ trunks cfg' = trunks cfg /\ local_ip cfg' = local_ip cfg /\
  source_addr cfg' = source_addr cfg /\ last_call_id cfg' = last_call_id cfg /\ dynamic cfg' = dynamic cfg.

(** An endpoint before its ports are allocated, and after it. *)
Definition portless (dyn : mgcp_end -> bool) (e : mgcp_endpoint) : Prop :=
  is_transcoded e = false /\ forall w, end_ok (dyn w) false (end_get w e).
Definition with_ports (dyn : mgcp_end -> bool) (e : mgcp_endpoint) : Prop :=
  end_ok (dyn END_BTS) true (bts_end e) /\ end_ok (dyn END_NET) true (net_end e) /\
  end_ok (dyn END_TRANS_BTS) (is_transcoded e) (trans_bts e) /\ end_ok (dyn END_TRANS_NET) (is_transcoded e) (trans_net e).

Lemma like_refl cfg : like cfg cfg.
Proof. done. Qed.
Lemma like_net cfg cfg' r : like cfg cfg' -> range_mode r = range_mode (net_ports cfg') -> like cfg (cfg' <| net_ports := r |>).
Proof.
  intros (? & ? & ? & ? & ? & Hd) Hr. repeat (split; [done|]). rewrite <- Hd.
  apply functional_extensionality. intros [| | |]; unfold dynamic; cbn; by rewrite ?Hr.
Qed.
Lemma like_bts cfg cfg' r : like cfg cfg' -> range_mode r = range_mode (bts_ports cfg') -> like cfg (cfg' <| bts_ports := r |>).
Proof.
  intros (? & ? & ? & ? & ? & Hd) Hr. repeat (split; [done|]). rewrite <- Hd.
  apply functional_extensionality. intros [| | |]; unfold dynamic; cbn; by rewrite ?Hr.
Qed.
Lemma like_transcoder cfg cfg' r :
  like cfg cfg' -> range_mode r = range_mode (transcoder_ports cfg') -> like cfg (cfg' <| transcoder_ports := r |>).
Proof.
  intros (? & ? & ? & ? & ? & Hd) Hr. repeat (split; [done|]). rewrite <- Hd.
  apply functional_extensionality. intros [| | |]; unfold dynamic; cbn; by rewrite ?Hr.
Qed.
Ltac like_tac := repeat first [apply like_refl | apply like_net; [|done] | apply like_bts; [|done] | apply like_transcoder; [|done]].

Lemma allocate_ports_spec tcfg endp cfg ok endp' cfg' :
  allocate_ports sys tcfg endp cfg = (ok, endp', cfg') -> portless (dynamic cfg) endp ->
  like cfg cfg' /\
  (allocated endp' = allocated endp /\ ci endp' = ci endp /\ callid endp' = callid endp /\ taps endp' = taps endp /\
   conn_mode endp' = conn_mode endp) /\
  if ok then with_ports (dynamic cfg) endp' else sane (dynamic cfg) endp'.
Proof.
  intros Ha [Htr Hp]. unfold allocate_ports in Ha.
  pose proof (Hp END_BTS) as Pb. pose proof (Hp END_NET) as Pn. pose proof (Hp END_TRANS_BTS) as Ptb.
  pose proof (Hp END_TRANS_NET) as Ptn. clear Hp. cbn [end_get] in *.
  destruct (allocate_port sys END_NET endp (net_ports cfg)) as [[ok1 e1] r1] eqn:A1.
  apply (allocate_port_spec _ _ _ _ _ _ (dynamic cfg END_NET)) in A1 as (x1 & p1 & -> & -> & S1); [|done].
  specialize (S1 Pn). destruct ok1; cbn [negb] in Ha;
    [|injection Ha as <- <- <-; split; [like_tac|]; split; [done|];
      intros [| | |]; eexists; eassumption].
  destruct (allocate_port sys END_BTS _ _) as [[ok2 e2] r2] eqn:A2.
  apply (allocate_port_spec _ _ _ _ _ _ (dynamic cfg END_BTS)) in A2 as (x2 & p2 & -> & -> & S2); [|done].
  specialize (S2 Pb). destruct ok2; cbn [negb] in Ha;
    [|injection Ha as <- <- <-; split; [like_tac|]; split; [done|];
      intros [| | |]; eexists; try eassumption; by eapply reset_end_ok].
  destruct (negb (_ && _)).
  { injection Ha as <- <- <-. split; [like_tac|]. split; [done|].
    unfold with_ports. cbn. by rewrite Htr. }
  destruct (allocate_port sys END_TRANS_NET _ _) as [[ok3 e3] r3] eqn:A3.
  apply (allocate_port_spec _ _ _ _ _ _ (dynamic cfg END_TRANS_NET)) in A3 as (x3 & p3 & -> & -> & S3); [|done].
  specialize (S3 Ptn). destruct ok3; cbn [negb] in Ha;
    [|injection Ha as <- <- <-; split; [like_tac|]; split; [done|];
      intros [| | |]; eexists; try eassumption; by eapply reset_end_ok].
  destruct (allocate_port sys END_TRANS_BTS _ _) as [[ok4 e4] r4] eqn:A4.
  apply (allocate_port_spec _ _ _ _ _ _ (dynamic cfg END_TRANS_BTS)) in A4 as (x4 & p4 & -> & -> & S4); [|done].
  specialize (S4 Ptb).
  destruct ok4; cbn [negb] in Ha; injection Ha as <- <- <-; (split; [like_tac|]); (split; [done|]).
  - by unfold with_ports.
  - intros [| | |]; eexists; try eassumption; by eapply reset_end_ok.
Qed.

End ports.

(** ** Connections *)

Lemma like_holds c0 a P cfg cfg' : like cfg cfg' -> holds c0 a P cfg -> holds c0 a P cfg'.
Proof.
  intros (Ht & Hts & Hip & Hsrc & Hlast & Hdyn) (Hwf & Hd & e & He & HP).
  assert (Hget : forall t, get_trunk t cfg' = get_trunk t cfg) by (intros [k|]; cbn; congruence).
  assert (Hlk : forall b, lookup_endp b cfg' = lookup_endp b cfg) by (intros b; unfold lookup_endp; by rewrite Hget).
  destruct Hwf as [[S1 S2 S3 S4 S5] [Hl0 Hsz] Hok Hci].
  split; [|split; [congruence|exists e; by rewrite Hlk]]. split.
  - split; [by rewrite Hip, Hsrc|by rewrite Hsrc| |by rewrite Ht|by rewrite Hlast].
    intros t tcfg. rewrite Hget. apply S3.
  - split; [by rewrite Ht|]. intros t tcfg l. rewrite Hget. apply Hsz.
  - intros b x Hb. rewrite Hlk, Hdyn. by apply Hok.
  - intros i j x y Hi Hj. rewrite !Hlk. by apply Hci.
Qed.

(** The identifier that is handed out is not zero and none of the virtual trunk has it. *)
Lemma wp_generate_call_id c0 a P Q cfg :
  holds c0 a P cfg ->
  (forall cid cfg', cid <> CI_UNUSED -> holds c0 a P cfg' ->
     unused_ci cfg' cid -> Q cid cfg') ->
  wp generate_call_id Q cfg.
Proof.
  intros Hh HQ. unfold generate_call_id. rewrite wp_bind, wp_gets. unfold id. cbv zeta.
  destruct (proj1 Hh) as [[S1 S2 S3 S4 S5] [[l0 Hl0] Hsz] Hok Hci].
  pose proof (Hsz None (trunk cfg) l0 eq_refl Hl0) as Hlen.
  set (n := number_endpoints (trunk cfg)) in *.
  assert (Hl : forall Q', Q' (if n <=? 1 then [] else l0) cfg ->
    wp (if n <=? 1 then mret [] else deref (endpoints (trunk cfg)) : MG (list mgcp_endpoint)) Q' cfg).
  { intros Q' HQ'. destruct (n <=? 1); [done|]. by rewrite Hl0. }
  rewrite wp_bind. apply Hl. set (l := if n <=? 1 then [] else l0).
  assert (Htake : tail (take (Z.to_nat n) l) = tail l0).
  { unfold l. destruct (n <=? 1) eqn:En.
    - destruct l0 as [|x [|y l0]]; cbn in *; [by destruct (Z.to_nat n)..|lia].
    - by rewrite take_ge by lia. }
  rewrite Htake.
  destruct (call_id_loop_total (Z.to_nat n + 2) (tail l0) (last_call_id cfg) S5) as [cid Hcid];
    [destruct l0; cbn in *; lia|unfold CI_MAX; lia|].
  rewrite Hcid. rewrite wp_bind. cbn [deref]. rewrite wp_ret, wp_bind, wp_modify, wp_ret.
  destruct (call_id_loop_result _ _ _ _ S5 Hcid) as (Hne & Hw & Hfree).
  assert (Hlk : forall b, lookup_endp b (cfg <| last_call_id := cid |>) = lookup_endp b cfg) by (by intros [[k|] i]).
  apply HQ; [done| |].
  - destruct Hh as (Hwf & Hd & e & He & HP). split; [|split; [done|exists e; by rewrite Hlk]].
    split; [by split; try done|by split; [eexists|]|by intros b x Hb; rewrite Hlk; apply Hok|].
    intros i j x y. rewrite !Hlk. apply Hci.
  - intros i e Hi. rewrite Hlk. unfold lookup_endp. cbn. rewrite Hl0. cbn. intros He.
    apply (ci_in_use_false (tail l0)); [done|]. destruct i as [|i]; [lia|]. destruct l0 as [|x l0]; [done|].
    cbn in *. by eapply list_elem_of_lookup_2.
Qed.

(** ** Requests *)

Section requests.
Context `{MgcpEnv} (sys : mgcp_sys) (c0 : mgcp_config).
Abbreviation dyn := (dynamic c0).

(** An endpoint that is about to get a connection. *)
Definition claimed (e : mgcp_endpoint) : Prop :=
  allocated e = false /\ ci e = CI_UNUSED /\ is_Some (callid e) /\ length (taps e) = 4%nat /\ portless dyn e.

Lemma unused_portless e : endp_ok dyn e -> allocated e = false -> portless dyn e.
Proof.
  intros [H1 H2 H3 H4 H5] Ha. split.
  - destruct (is_transcoded e); [|done]. by rewrite <- Ha, H3.
  - intros w. specialize (H5 w). destruct w; cbn in *; rewrite ?Ha in H5; auto;
      (destruct (is_transcoded e); [by rewrite H3 in Ha|done]).
Qed.

Lemma fine_holds a cfg : holds c0 a (endp_ok dyn) cfg -> fine c0 tt cfg.
Proof. apply holds_wf. Qed.

Lemma wp_free a P Q cfg :
  holds c0 a P cfg -> (forall e, P e -> sane dyn e) ->
  (forall cfg', holds c0 a (fun e => endp_ok dyn e /\ allocated e = false) cfg' -> Q tt cfg') ->
  wp (endp_upd a mgcp_free_endp) Q cfg.
Proof.
  intros Hh Hs HQ. apply (wp_endp_upd c0 a _ P (fun e => endp_ok dyn e /\ allocated e = false) _ _ Hh); [|exact HQ].
  intros e He. split; [split; [by apply free_ok, Hs|done]|by right].
Qed.

Lemma wp_crcx_failed a P code trans cfg :
  holds c0 a P cfg -> (forall e, P e -> sane dyn e) -> (length trans <= 3100)%nat ->
  wp (crcx_failed sys a code trans) (fine c0) cfg.
Proof.
  intros Hh Hs Hl. unfold crcx_failed. rewrite wp_bind. apply (wp_free _ _ _ _ Hh Hs).
  intros cfg' Hh'. apply wp_err; [done|]. apply (fine_holds a). by eapply holds_weaken; [|exact Hh']; intros e [].
Qed.

Lemma portless_sane e : portless dyn e -> sane dyn e.
Proof. intros [_ Hp] w. eexists. apply Hp. Qed.

Lemma connected_ok e pt cid :
  ci e = cid -> cid <> CI_UNUSED -> is_Some (callid e) -> length (taps e) = 4%nat -> with_ports dyn e ->
  endp_ok dyn (e <| allocated := true |> <| bts_end ::= fun b => b <| payload_type := pt |> |>).
Proof.
  intros Hci Hne Hcall Ht (W1 & W2 & W3 & W4). split; cbn; try done.
  - rewrite Hci. by destruct (Z.eqb_spec cid CI_UNUSED).
  - by rewrite bool_decide_eq_true_2.
  - by intros [| | |].
Qed.

Lemma wp_crcx_create a trans cfg :
  holds c0 a claimed cfg -> (length trans <= 3100)%nat -> wp (crcx_create sys a trans) (fine c0) cfg.
Proof.
  intros Hh Hl. unfold crcx_create. rewrite wp_bind. apply (wp_endp_upd c0 a _ claimed claimed _ _ Hh).
  { intros e (C1 & C2 & C3 & C4 & C5 & C6). split; [|by left]. do 4 (split; [done|]). split; [done|].
    intros w. specialize (C6 w). by destruct w. }
  clear cfg Hh. intros cfg Hh. rewrite wp_bind. apply (wp_tcfg_get _ _ _ _ _ Hh). intros tcfg Ht.
  rewrite wp_bind. apply (wp_endp_get _ _ _ _ _ Hh). intros endp He (C1 & C2 & C3 & C4 & C5).
  rewrite wp_bind, wp_gets. unfold id. destruct (allocate_ports sys tcfg endp cfg) as [[ok endp'] cfg'] eqn:Hap.
  rewrite <- (proj1 (proj2 Hh)) in C5. destruct (allocate_ports_spec sys _ _ _ _ _ _ Hap C5) as (Hlike & (F1 & F2 & F3 & F4 & _) & Hok).
  rewrite (proj1 (proj2 Hh)) in Hok. rewrite wp_bind, wp_modify.
  assert (Hh1 : holds c0 a (fun e => e = endp) cfg').
  { apply (like_holds _ _ _ _ _ Hlike). destruct Hh as (? & ? & e & He' & _). split; [done|]. split; [done|]. by exists endp. }
  rewrite wp_bind. apply (wp_endp_upd c0 a _ _ (fun e => e = endp') _ _ Hh1); [intros e ->; by rewrite F2; auto|].
  clear Hh1. intros cfg1 Hh1. destruct ok; cbn [negb].
  2: { apply (wp_crcx_failed _ _ _ _ _ Hh1); [by intros e ->|done]. }
  rewrite wp_bind. apply (wp_generate_call_id _ _ _ _ _ Hh1). intros cid cfg2 Hne Hh2 Hu.
  rewrite wp_bind. apply (wp_set_ci c0 a cid _ (fun e => e = endp' <| ci := cid |>) _ _ Hh2 Hu); [by intros e ->|].
  intros cfg3 Hh3. destruct (Z.eqb_spec cid CI_UNUSED); [done|].
  rewrite wp_bind. apply (wp_endp_upd c0 a _ _ (endp_ok dyn) _ _ Hh3).
  { intros e ->. split; [|by left]. apply (connected_ok _ _ cid); cbn; rewrite ?F3, ?F4; try done. }
  intros cfg4 Hh4. destruct (if policy_cb cfg' then _ else _).
  - rewrite wp_bind, wp_when. assert (Hgo : wp (create_transcoder a ≫= λ _, create_response_with_sdp (sys_mem sys) a trans) (fine c0) cfg4).
    { rewrite wp_bind. apply (wp_create_transcoder c0 _ _ _ Hh4). intros cfg5 Hh5.
      apply (wp_sdp _ _ _ _ _ _ _ Hh5 Hl). intros r. apply (fine_holds a _ Hh5). }
    by destruct (change_cb cfg').
  - rewrite wp_bind. apply (wp_free _ _ _ _ Hh4); [apply endp_ok_sane|]. intros cfg5 Hh5.
    apply wp_err; [done|]. apply (fine_holds a). by eapply holds_weaken; [|exact Hh5]; intros e [].
  - rewrite wp_bind. apply (wp_create_transcoder c0 _ _ _ Hh4). intros cfg5 Hh5. apply (fine_holds a _ Hh5).
Qed.

Lemma wp_crcx_take a trans l3h p_lo p_cid p_mode cfg :
  holds c0 a (fun e => endp_ok dyn e /\ allocated e = false) cfg -> (length trans <= 3100)%nat ->
  wp (crcx_take sys a trans l3h p_lo p_cid p_mode) (fine c0) cfg.
Proof.
  intros Hh Hl. unfold crcx_take. rewrite wp_bind. apply (wp_endp_upd c0 a _ _ claimed _ _ Hh).
  { intros e [Ho Ha]. split; [|by left]. split; [done|]. split.
    - pose proof (eo_ci _ _ Ho) as Hc. rewrite Ha in Hc. cbn. destruct (Z.eqb_spec (ci e) CI_UNUSED); done.
    - split; [by eexists|]. split; [apply (eo_taps _ _ Ho)|]. apply (unused_portless _ Ho Ha). }
  clear cfg Hh. intros cfg Hh. rewrite wp_bind.
  assert (Hlo : forall Q : unit -> mgcp_config -> Prop, (forall cfg', holds c0 a claimed cfg' -> Q tt cfg') ->
    wp (match p_lo with
        | Some o => endp_upd a (fun e => e <| local_options := Some (cstr (drop o l3h)) |>)
        | None => mret tt
        end) Q cfg).
  { intros Q HQ. destruct p_lo; [|by apply HQ]. apply (wp_endp_upd c0 a _ _ claimed _ _ Hh); [by auto|done]. }
  apply Hlo. clear cfg Hh Hlo. intros cfg Hh. destruct (parse_conn_mode _).
  - rewrite wp_bind. apply (wp_endp_upd c0 a _ _ claimed _ _ Hh); [by auto|]. intros. by apply wp_crcx_create.
  - apply (wp_crcx_failed _ _ _ _ _ Hh); [|done]. intros e (_ & _ & _ & _ & Hp). by apply portless_sane.
Qed.

(** The lines of a message keep what their handler keeps. *)
Lemma wp_tokenize {A R} (body : list Z -> nat -> A -> MG (A + R)) (error : R) I Q :
  (forall l3h ls x cfg, I cfg -> wp (body l3h ls x) (fun _ => I) cfg) ->
  (forall r cfg, I cfg -> Q r cfg) ->
  forall n i ls l3h x cfg, I cfg -> wp (tokenize body error n i ls l3h x) Q cfg.
Proof.
  intros Hb HQ n. induction n as [|n IH]; intros i ls l3h x cfg HI; cbn [tokenize]; [by apply HQ|].
  destruct (negb _); [by apply IH|]. destruct (ls =? 0)%nat; [by apply IH|].
  destruct (_ || _); [|by apply HQ]. rewrite wp_bind.
  eapply wp_mono; [by apply Hb|]. intros [y|r] cfg' HI'; [by apply IH|by apply HQ].
Qed.

Lemma wp_handle_audit_endpoint len l3h :
  mgcp_wf c0 -> (len <= 3000)%nat -> wp (handle_audit_endpoint sys len l3h) (fine c0) c0.
Proof.
  intros Hwf Hl. unfold handle_audit_endpoint. rewrite wp_bind, wp_gets. unfold id.
  destruct (mgcp_analyze_header c0 len l3h) as [[[found l] trans] a] eqn:Hh.
  destruct (analyze_header_spec _ _ _ _ _ _ _ (wb_sized _ _ Hwf) Hh) as (Ht & _ & _).
  destruct (negb _); [apply wp_err|apply wp_ok]; first [lia|done].
Qed.

Lemma wp_handle_rsip len l3h : mgcp_wf c0 -> wp (handle_rsip len l3h) (fine c0) c0.
Proof.
  intros Hwf. unfold handle_rsip. rewrite wp_bind, wp_gets. unfold id.
  destruct (mgcp_analyze_header c0 len l3h) as [[[found l] trans] a] eqn:Hh.
  destruct (analyze_header_spec _ _ _ _ _ _ _ (wb_sized _ _ Hwf) Hh) as (Ht & _ & Ha).
  destruct a as [a|]; [|done]. destruct (negb _); [done|]. destruct Ha as [Ha _].
  rewrite wp_bind. apply (wp_tcfg_get _ _ _ _ _ (wf_holds _ _ Hwf Ha)). intros tcfg _.
  rewrite wp_bind, wp_when. by destruct (reset_cb c0).
Qed.

Lemma wp_handle_noti_req len l3h :
  mgcp_wf c0 -> (len <= 3000)%nat -> wp (handle_noti_req sys len l3h) (fine c0) c0.
Proof.
  intros Hwf Hl. unfold handle_noti_req. rewrite wp_bind, wp_gets. unfold id.
  destruct (mgcp_analyze_header c0 len l3h) as [[[found l] trans] a] eqn:Hh.
  destruct (analyze_header_spec _ _ _ _ _ _ _ (wb_sized _ _ Hwf) Hh) as (Ht & _ & Ha).
  destruct a as [a|]; [|apply wp_err; first [lia|done]]. destruct Ha as [Ha _].
  rewrite wp_bind. apply (wp_endp_get _ _ _ _ _ (wf_holds _ _ Hwf Ha)). intros e _ _.
  destruct (negb _); [apply wp_err|apply wp_ok]; first [lia|done].
Qed.

Lemma wp_handle_create_con len l3h :
  mgcp_wf c0 -> (len <= 3000)%nat -> wp (handle_create_con sys len l3h) (fine c0) c0.
Proof.
  intros Hwf Hl. unfold handle_create_con. rewrite wp_bind, wp_gets. unfold id.
  destruct (mgcp_analyze_header c0 len l3h) as [[[found l] trans] a] eqn:Hh.
  destruct (analyze_header_spec _ _ _ _ _ _ _ (wb_sized _ _ Hwf) Hh) as (Ht & _ & Ha).
  destruct a as [a|]; [|apply wp_err; first [lia|done]]. destruct Ha as [Ha _].
  pose proof (wf_holds _ _ Hwf Ha) as Hh0. rewrite wp_bind.
  apply (wp_tokenize _ _ (fun cfg => cfg = c0)); [by intros| |done].
  intros r cfg Hcfg. cbn beta in Hcfg. rewrite Hcfg. clear cfg Hcfg. destruct r as [[l' [p_lo [p_cid|] [p_mode|]]]|code];
    try (apply wp_err; first [lia|done]).
  rewrite wp_bind. apply (wp_tcfg_get _ _ _ _ _ Hh0). intros tcfg _.
  rewrite wp_bind. apply (wp_endp_get _ _ _ _ _ Hh0). intros e He Ho.
  assert (Hsame : forall Q : bool -> mgcp_config -> Prop, (forall b, (b = true -> allocated e = true) -> Q b c0) ->
    wp (if allocated e then same_callid e (drop p_cid l') else mret false : MG bool) Q c0).
  { intros Q HQ. destruct (allocated e) eqn:Hal; [|by apply HQ].
    pose proof (eo_callid _ _ Ho) as Hc. rewrite Hal in Hc. symmetry in Hc. apply bool_decide_eq_true in Hc as [id Hid].
    unfold same_callid. rewrite Hid. rewrite wp_bind. cbn [deref]. rewrite wp_ret, wp_ret. by apply HQ. }
  rewrite wp_bind. apply Hsame. intros [|] Hb.
  { apply (wp_sdp _ _ _ _ _ _ _ Hh0); [lia|]. intros r. by apply (fine_holds a). }
  destruct (allocated e) eqn:Hal.
  - destruct (force_realloc tcfg); [|apply wp_err; first [lia|done]].
    rewrite wp_bind. apply (wp_free _ _ _ _ Hh0); [apply endp_ok_sane|]. intros cfg Hh1.
    rewrite wp_bind, wp_when. destruct (realloc_cb c0); [rewrite wp_emit|]; (apply wp_crcx_take; [done|lia]).
  - apply wp_crcx_take; [|lia]. destruct Hh0 as (? & ? & _). split; [done|]. split; [done|]. by exists e.
Qed.

(** An endpoint with a connection. *)
Definition connected (e : mgcp_endpoint) : Prop := endp_ok dyn e /\ allocated e = true.
Lemma connected_upd a f (Q : unit -> mgcp_config -> Prop) cfg :
  holds c0 a connected cfg -> (forall e, endp_ok dyn e -> endp_ok dyn (f e) /\ ci (f e) = ci e) ->
  (forall cfg', holds c0 a connected cfg' -> Q tt cfg') -> wp (endp_upd a f) Q cfg.
Proof.
  intros Hh Hf HQ. apply (wp_endp_upd c0 a _ _ connected _ _ Hh); [|done].
  intros e [Ho Ha]. destruct (Hf e Ho) as [Ho' Hc]. split; [|by left]. split; [done|].
  by rewrite (eo_ci _ _ Ho'), Hc, <- (eo_ci _ _ Ho).
Qed.

Lemma wp_verify e cid Q cfg :
  connected e -> (forall rc, Q rc cfg) -> wp (verify_call_id e cid) Q cfg.
Proof.
  intros [Ho Ha] HQ. pose proof (eo_callid _ _ Ho) as Hc. rewrite Ha in Hc. symmetry in Hc.
  apply bool_decide_eq_true in Hc as [id Hid]. unfold verify_call_id. rewrite Hid, wp_bind. cbn [deref].
  rewrite wp_ret, wp_ret. apply HQ.
Qed.

Lemma wp_mdcx_line a l3h ls x cfg :
  holds c0 a connected cfg -> wp (mdcx_line a l3h ls x) (fun _ => holds c0 a connected) cfg.
Proof.
  intros Hh. unfold mdcx_line. destruct (_ =? 67).
  { rewrite wp_bind. apply (wp_endp_get _ _ _ _ _ Hh). intros e _ He. rewrite wp_bind. by apply wp_verify. }
  destruct (_ =? 73).
  { rewrite wp_bind. apply (wp_endp_get _ _ _ _ _ Hh). by intros e _ _. }
  destruct (_ =? 77).
  { destruct (parse_conn_mode _); [|done]. rewrite wp_bind. apply (connected_upd a _ _ _ Hh); [|by intros].
    intros e He. split; [by destruct He|done]. }
  destruct (_ =? 90); [done|].
  destruct (_ =? 109).
  { rewrite wp_bind. unfold mdcx_media. destruct (scan_lit (str "m=audio ") _ ≫= _) as [[port pt]|]; [|done].
    apply (connected_upd a _ _ _ Hh); [|done]. intros e. by apply endp_ok_upd. }
  destruct (_ =? 99); [|done].
  rewrite wp_bind. unfold mdcx_address. destruct (scan_lit _ _) as [p|]; [|done].
  destruct (scan_word _ _) as [|c w]; [done|]. destruct (inet_aton _); [|done].
  apply (connected_upd a _ _ _ Hh); [|done]. intros e. by apply endp_ok_upd.
Qed.
Lemma wp_dlcx_line a l3h ls x cfg :
  holds c0 a connected cfg -> wp (dlcx_line a l3h ls x) (fun _ => holds c0 a connected) cfg.
Proof.
  intros Hh. unfold dlcx_line. destruct (_ =? 67).
  { rewrite wp_bind. apply (wp_endp_get _ _ _ _ _ Hh). intros e _ He. rewrite wp_bind. by apply wp_verify. }
  destruct (_ =? 73); [|by destruct (_ =? 90)].
  rewrite wp_bind. apply (wp_endp_get _ _ _ _ _ Hh). by intros e _ _.
Qed.

Lemma connected_fine a cfg : holds c0 a connected cfg -> fine c0 tt cfg.
Proof. intros Hh. apply (fine_holds a). by eapply holds_weaken; [|exact Hh]; intros e []. Qed.
Lemma holds_connected a e cfg :
  holds c0 a (endp_ok dyn) cfg -> lookup_endp a cfg = Some e -> allocated e = true -> holds c0 a connected cfg.
Proof. intros (Hw & Hd & e' & He' & Ho) He Ha. split; [done|]. split; [done|]. exists e. rewrite He in He'. by injection He' as ->. Qed.

Lemma wp_handle_modify_con len l3h :
  mgcp_wf c0 -> (len <= 3000)%nat -> wp (handle_modify_con sys len l3h) (fine c0) c0.
Proof.
  intros Hwf Hl. unfold handle_modify_con. rewrite wp_bind, wp_gets. unfold id.
  destruct (mgcp_analyze_header c0 len l3h) as [[[found l] trans] a] eqn:Hh.
  destruct (analyze_header_spec _ _ _ _ _ _ _ (wb_sized _ _ Hwf) Hh) as (Ht & _ & Ha).
  destruct a as [a|]; [|apply wp_err; first [lia|done]]. destruct Ha as [Ha _].
  pose proof (wf_holds _ _ Hwf Ha) as Hh0.
  rewrite wp_bind. apply (wp_tcfg_get _ _ _ _ _ Hh0). intros tcfg _.
  rewrite wp_bind. apply (wp_endp_get _ _ _ _ _ Hh0). intros e He Ho.
  destruct (Z.eqb_spec (ci e) CI_UNUSED) as [|Hci]; [apply wp_err; first [lia|done]|].
  assert (Hc : holds c0 a connected c0).
  { apply (holds_connected _ e); [done..|]. rewrite (eo_ci _ _ Ho). by apply Z.eqb_neq in Hci as ->. }
  rewrite wp_bind. apply (wp_tokenize _ _ (holds c0 a connected)); [apply wp_mdcx_line| |done].
  intros [[l' silent]|code] cfg Hh1; pose proof (connected_fine _ _ Hh1); [|apply wp_err; first [lia|done]].
  destruct (if policy_cb c0 then _ else _).
  - rewrite wp_bind, wp_when. assert (Hgo : wp (if silent then mret None else create_response_with_sdp (sys_mem sys) a trans) (fine c0) cfg).
    { destruct silent; [done|]. apply (wp_sdp _ _ _ _ _ _ _ Hh1); [lia|done]. }
    by destruct (change_cb c0).
  - destruct silent; [done|]. apply wp_err; first [lia|done].
  - done.
Qed.

Lemma wp_handle_delete_con len l3h :
  mgcp_wf c0 -> (len <= 3000)%nat -> wp (handle_delete_con sys len l3h) (fine c0) c0.
Proof.
  intros Hwf Hl. unfold handle_delete_con. rewrite wp_bind, wp_gets. unfold id.
  destruct (mgcp_analyze_header c0 len l3h) as [[[found l] trans] a] eqn:Hh.
  destruct (analyze_header_spec _ _ _ _ _ _ _ (wb_sized _ _ Hwf) Hh) as (Ht & _ & Ha).
  destruct a as [a|]; [|apply wp_err; first [lia|done]]. destruct Ha as [Ha _].
  pose proof (wf_holds _ _ Hwf Ha) as Hh0.
  rewrite wp_bind. apply (wp_tcfg_get _ _ _ _ _ Hh0). intros tcfg _.
  rewrite wp_bind. apply (wp_endp_get _ _ _ _ _ Hh0). intros e He Ho.
  destruct (allocated e) eqn:Hal; cbn [negb]; [|apply wp_err; first [lia|done]].
  rewrite wp_bind. apply (wp_tokenize _ _ (holds c0 a connected)); [apply wp_dlcx_line| |by eapply holds_connected].
  intros [[l' silent]|code] cfg Hh1; pose proof (connected_fine _ _ Hh1); [|apply wp_err; first [lia|done]].
  destruct (if policy_cb c0 then _ else _).
  - rewrite wp_bind. apply (wp_delete_transcoder _ _ _ _ _ Hh1). rewrite wp_bind.
    apply (wp_free _ _ _ _ Hh1); [intros x []; by eapply endp_ok_sane|]. intros cfg' Hh2.
    assert (Hf : fine c0 tt cfg') by (apply (fine_holds a); by eapply holds_weaken; [|exact Hh2]; intros x []).
    rewrite wp_bind, wp_when. assert (Hgo : wp (if silent then mret None else ok_response sys 250 trans) (fine c0) cfg').
    { destruct silent; [done|]. apply wp_ok; first [lia|done]. }
    by destruct (change_cb c0).
  - destruct silent; [done|]. apply wp_err; first [lia|done].
  - rewrite wp_bind. by apply (wp_delete_transcoder _ _ _ _ _ Hh1).
Qed.

Lemma wp_handle_message len l2h : mgcp_wf c0 -> (len <= 3000)%nat -> wp (mgcp_handle_message sys len l2h) (fine c0) c0.
Proof.
  intros Hwf Hl. unfold mgcp_handle_message. destruct (_ <? 4)%nat; [done|]. destruct (scan_int 3 l2h); [done|].
  unfold mgcp_requests. cbn [List.find fst].
  repeat case_match; simplify_eq; try done;
    [apply wp_handle_audit_endpoint|apply wp_handle_create_con|apply wp_handle_delete_con|apply wp_handle_modify_con
    |apply wp_handle_noti_req|apply wp_handle_rsip]; first [lia|done].
Qed.

(** ** The media *)

Lemma wp_udp_send a w r ip port buf P Q cfg :
  holds c0 a P cfg -> (forall rc, Q rc cfg) -> wp (udp_send a w r ip port buf) Q cfg.
Proof.
  intros Hh HQ. unfold udp_send. rewrite wp_bind. apply (wp_endp_get _ _ _ _ _ Hh). intros e _ _.
  destruct (if r then _ else _); [rewrite wp_bind, wp_emit|]; by rewrite wp_ret.
Qed.
Lemma wp_forward_data a w r t buf Q cfg :
  holds c0 a (endp_ok dyn) cfg -> Q tt cfg -> wp (forward_data a w r t buf) Q cfg.
Proof.
  intros Hh HQ. unfold forward_data. rewrite wp_bind. apply (wp_endp_get _ _ _ _ _ Hh). intros e _ He.
  destruct (lookup_lt_is_Some_2 (taps e) (tap_nr t)) as [tap ->]; [rewrite (eo_taps _ _ He); destruct t; cbn; lia|].
  rewrite wp_when. by destruct (_ && _).
Qed.
Lemma wp_endp_keep a f Q cfg :
  holds c0 a (endp_ok dyn) cfg -> (forall e, endp_ok dyn e -> endp_ok dyn (f e) /\ ci (f e) = ci e) ->
  (forall cfg', holds c0 a (endp_ok dyn) cfg' -> Q tt cfg') -> wp (endp_upd a f) Q cfg.
Proof.
  intros Hh Hf HQ. apply (wp_endp_upd c0 a _ _ (endp_ok dyn) _ _ Hh); [|done].
  intros e He. destruct (Hf e He). auto.
Qed.

Lemma wp_send_to a dest r buf cfg : holds c0 a (endp_ok dyn) cfg -> wp (send_to a dest r buf) (fine c0) cfg.
Proof.
  intros Hh. unfold send_to. rewrite wp_bind. apply (wp_tcfg_get _ _ _ _ _ Hh). intros tcfg _.
  rewrite wp_bind. apply (wp_endp_get _ _ _ _ _ Hh). intros e _ _. cbv zeta.
  assert (Hsend : forall w r' ip port b cfg', holds c0 a (endp_ok dyn) cfg' -> wp (udp_send a w r' ip port b) (fine c0) cfg').
  { intros w r' ip port b cfg' Hh'. apply (wp_udp_send _ _ _ _ _ _ _ _ _ Hh'). intros rc. by apply (fine_holds a). }
  destruct (if conn_mode e =? MGCP_CONN_LOOPBACK then _ else _); destruct r; try by apply Hsend.
  all: destruct (patch_and_count _ _ _ _) as [s b]; rewrite wp_bind.
  all: apply (wp_endp_keep _ _ _ _ Hh); [intros x Hx; split; [by destruct Hx|done]|intros cfg' Hh'].
  all: rewrite wp_bind; apply (wp_forward_data _ _ _ _ _ _ _ Hh'); by apply Hsend.
Qed.

Lemma wp_count a w Q cfg :
  holds c0 a (endp_ok dyn) cfg -> (forall cfg', holds c0 a (endp_ok dyn) cfg' -> Q tt cfg') ->
  wp (endp_upd a (end_upd w count_packet)) Q cfg.
Proof. intros Hh HQ. by apply (wp_end_upd c0). Qed.

Lemma wp_receive_from a rx Q cfg :
  holds c0 a (endp_ok dyn) cfg -> (forall r, Q r cfg) -> wp (receive_from a rx) Q cfg.
Proof.
  intros Hh HQ. unfold receive_from. destruct rx as [[[ip port] buf]|]; [|by apply HQ].
  rewrite wp_bind. apply (wp_endp_get _ _ _ _ _ Hh). intros e _ _. by apply wp_ret.
Qed.

(** Frames from an end: counted, tapped and sent on. *)
Lemma wp_relay a w r t buf (b : bool) w' dest cfg :
  holds c0 a (endp_ok dyn) cfg ->
  wp (endp_upd a (end_upd w count_packet);; forward_data a w r t buf;;
      if b then send_transcoder a w' r buf else send_to a dest r buf) (fine c0) cfg.
Proof.
  intros Hh. rewrite wp_bind. apply (wp_count _ _ _ _ Hh). intros cfg' Hh'.
  rewrite wp_bind. apply (wp_forward_data _ _ _ _ _ _ _ Hh'). destruct b; [|by apply wp_send_to].
  unfold send_transcoder. rewrite wp_bind, wp_gets, wp_bind. apply (wp_endp_get _ _ _ _ _ Hh'). intros e _ _.
  apply (wp_udp_send _ _ _ _ _ _ _ _ _ Hh'). intros rc. by apply (fine_holds a).
Qed.

Lemma wp_rtp_data_net a r rx cfg : holds c0 a (endp_ok dyn) cfg -> wp (rtp_data_net a r rx) (fine c0) cfg.
Proof.
  intros Hh. pose proof (fine_holds _ _ Hh). unfold rtp_data_net. rewrite wp_bind.
  apply (wp_receive_from _ _ _ _ Hh). intros [[[ip port] buf]|]; [|done].
  rewrite wp_bind. apply (wp_endp_get _ _ _ _ _ Hh). intros e _ _. cbv zeta.
  repeat (case_match; [done|]). by apply wp_relay.
Qed.
Lemma wp_discover_bts a r ip port Q cfg :
  holds c0 a (endp_ok dyn) cfg -> (forall cfg', holds c0 a (endp_ok dyn) cfg' -> Q tt cfg') ->
  wp (discover_bts a r ip port) Q cfg.
Proof.
  intros Hh HQ. unfold discover_bts. rewrite wp_bind, wp_gets, wp_bind. apply (wp_endp_get _ _ _ _ _ Hh).
  intros e _ _. cbv zeta. repeat case_match; try by apply HQ.
  all: rewrite wp_when; case_match; [by apply (wp_end_upd c0)|by apply HQ].
Qed.
Lemma wp_rtp_data_bts a r rx cfg : holds c0 a (endp_ok dyn) cfg -> wp (rtp_data_bts a r rx) (fine c0) cfg.
Proof.
  intros Hh. pose proof (fine_holds _ _ Hh). unfold rtp_data_bts. rewrite wp_bind.
  apply (wp_receive_from _ _ _ _ Hh). intros [[[ip port] buf]|]; [|done].
  rewrite wp_bind. apply (wp_discover_bts _ _ _ _ _ _ Hh). clear dependent cfg. intros cfg Hh.
  pose proof (fine_holds _ _ Hh). rewrite wp_bind. apply (wp_endp_get _ _ _ _ _ Hh). intros e _ _. cbv zeta.
  repeat (case_match; [done|]). by apply wp_relay.
Qed.
Lemma wp_rtp_data_transcoder a w d r rx cfg :
  holds c0 a (endp_ok dyn) cfg -> wp (rtp_data_transcoder a w d r rx) (fine c0) cfg.
Proof.
  intros Hh. pose proof (fine_holds _ _ Hh). unfold rtp_data_transcoder. rewrite wp_bind.
  apply (wp_receive_from _ _ _ _ Hh). intros [[[ip port] buf]|]; [|done].
  rewrite wp_bind, wp_gets, wp_bind. apply (wp_endp_get _ _ _ _ _ Hh). intros e _ _. cbv zeta.
  repeat (case_match; [done|]). rewrite wp_bind. apply (wp_count _ _ _ _ Hh). intros. by apply wp_send_to.
Qed.

End requests.

(** ** Runs *)

Section runs.
Context `{MgcpEnv}.

(** The ends of an endpoint that was just set up; an end whose ports are static may have been bound. *)
Definition started (cfg : mgcp_config) (e : mgcp_endpoint) : Prop :=
  exists b n tb tn,
    e = new_endpoint <| bts_end := b |> <| net_end := n |> <| trans_bts := tb |> <| trans_net := tn |> /\
    forall w, dynamic cfg w = true -> end_get w e = mgcp_rtp_end_init zero_end.
Record mgcp_start (cfg : mgcp_config) : Prop := {
  ms_small : config_small cfg;
  ms_sized : sized cfg;
  ms_endp : forall a e, lookup_endp a cfg = Some e -> started cfg e
}.

(** The endpoint exists; a message has at most 3000 octets. *)
Definition mgcp_allowed (cfg : mgcp_config) (op : mgcp_op) : Prop :=
  match op with
  | OpMessage _ len _ => (len <= 3000)%nat
  | OpRtp a _ _ _ | OpDummy a | OpFree a | OpLoop a _ | OpTap a _ _ => is_Some (lookup_endp a cfg)
  end.

Inductive mgcp_reach : mgcp_config -> Prop :=
| reach_start cfg : mgcp_start cfg -> mgcp_reach cfg
| reach_step cfg op r cfg' ev :
    mgcp_reach cfg -> mgcp_allowed cfg op -> mgcp_step op cfg = Some (r, cfg', ev) -> mgcp_reach cfg'.

Lemma mgcp_start_wf cfg : mgcp_start cfg -> mgcp_wf cfg.
Proof.
  intros [Hsm Hsz He]. split; [done|done| |].
  - intros b e _ Hb. destruct (He _ _ Hb) as (x1 & x2 & x3 & x4 & -> & Hw). split; [done..|].
    intros w Hd. rewrite (Hw w Hd). by destruct w.
  - intros i j e f _ _ Hi _ Hne. destruct (He _ _ Hi) as (x1 & x2 & x3 & x4 & -> & _). done.
Qed.

Lemma wp_mgcp_step op cfg : mgcp_wf cfg -> mgcp_allowed cfg op -> wp (mgcp_step op) (fine cfg) cfg.
Proof.
  intros Hwf Hop. destruct op as [sys len l2h|a w r rx|a|a|a loop|a t fw]; cbn [mgcp_step mgcp_allowed] in *;
    [by apply wp_handle_message|pose proof (wf_holds _ _ Hwf Hop) as Hh; rewrite wp_bind..].
  - destruct w; (eapply wp_mono; [by first [apply wp_rtp_data_bts|apply wp_rtp_data_net|apply wp_rtp_data_transcoder]|done]).
  - unfold mgcp_send_dummy. rewrite wp_bind. apply (wp_endp_get _ _ _ _ _ Hh). intros e _ _.
    apply (wp_udp_send _ _ _ _ _ _ _ _ _ _ Hh). intros rc. by apply (fine_holds _ a).
  - apply (wp_free _ _ _ _ _ Hh); [apply endp_ok_sane|]. intros cfg' Hh'. apply (fine_holds _ a).
    by eapply holds_weaken; [|exact Hh']; intros e [].
  - apply (wp_endp_keep _ _ _ _ _ Hh); [intros e He; split; [by destruct He|done]|]. intros cfg' Hh'. apply (fine_holds _ a _ Hh').
  - apply (wp_endp_keep _ _ _ _ _ Hh); [|intros cfg' Hh'; apply (fine_holds _ a _ Hh')].
    intros e [H1 H2 H3 H4 H5]. split; [|done]. split; try done. cbn. by rewrite length_insert.
Qed.

Lemma mgcp_reach_wf cfg : mgcp_reach cfg -> mgcp_wf cfg.
Proof.
  induction 1 as [cfg Hs|cfg op r cfg' ev _ IH Hop Hstep]; [by apply mgcp_start_wf|].
  pose proof (wp_mgcp_step op cfg IH Hop) as Hw. by rewrite (wp_run _ _ _ _ _ _ Hstep) in Hw; destruct Hw.
Qed.

(** C17: endpoints, calls and sockets belong together. Whatever messages of at most 3000 octets, packets and
    commands arrive after the start, the gateway neither follows a null pointer nor leaves a buffer, and
    afterwards an endpoint is allocated exactly when it has a connection identifier, exactly when it has a call,
    the sockets whose ports are dynamic are open exactly when the endpoint uses them (those to the transcoder
    exactly when it is transcoded), and no two endpoints of the virtual trunk have the same identifier. *)
Theorem mgcp_endpoints_consistent cfg op :
  mgcp_reach cfg -> mgcp_allowed cfg op ->
  exists r cfg' ev, mgcp_step op cfg = Some (r, cfg', ev) /\
    (forall a e, lookup_endp a cfg' = Some e ->
       (allocated e = true <-> ci e <> CI_UNUSED) /\ (allocated e = true <-> is_Some (callid e)) /\
       (is_transcoded e = true -> allocated e = true) /\
       forall w, dynamic cfg' w = true -> rtp_fd (end_get w e) = used w e /\ rtcp_fd (end_get w e) = used w e) /\
    (forall i j e f, (1 <= i)%nat -> (1 <= j)%nat -> lookup_endp (mk_endp_ref None i) cfg' = Some e ->
       lookup_endp (mk_endp_ref None j) cfg' = Some f -> ci e <> CI_UNUSED -> ci e = ci f -> i = j).
Proof.
  intros Hr Hop. apply mgcp_reach_wf in Hr.
  destruct (wp_elim _ _ _ (wp_mgcp_step op cfg Hr Hop)) as (r & cfg' & ev & Hs & [[_ _ Hok Hci] Hd]).
  exists r, cfg', ev. split; [done|]. split; [|done].
  intros a e He. destruct (Hok a e ltac:(done) He) as [H1 H2 H3 H4 H5].
  split; [rewrite H1; by destruct (Z.eqb_spec (ci e) CI_UNUSED)|].
  split; [rewrite H2; apply bool_decide_eq_true|]. split; [done|].
  intros w Hw. destruct (H5 w Hw) as (? & ? & _). done.
Qed.

End runs.
End MgcpInv.
