(* ===== verification/MgcpProps.v ===== *)
(** What the MGCP gateway promises: the RTP stream that leaves it is continuous, and a call agent that speaks
    the protocol gets what it asks for. *)

From S2P Require Import Prelude Meas Rtp RtpProps Mgcp MgcpInv.
From Stdlib Require Import ZifyBool.
Import Mgcp MgcpInv.

Module MgcpProps.

(** ** The media: one stream for the receiver *)

(** The packets of a stream, with what is sent for each. *)
Fixpoint relay_stream (allow : bool) (payload : Z) (st : mgcp_rtp_state) (ps : list (list Z)) : list (list Z) :=
  match ps with
  | [] => []
  | p :: ps => let '(st, o) := patch_and_count allow payload st p in o :: relay_stream allow payload st ps
  end.
Definition rtp_packet (p : list Z) : Prop := octets p /\ (12 <= length p)%nat.

Lemma rd_be32_width p : octets p -> in_width 32 (RtpProps.rd_be32 p).
Proof.
  intros Hp. unfold RtpProps.rd_be32. pose proof (fun i => rd_octet p i Hp) as Ho.
  repeat apply in_width_lor; try done.
  - by apply (in_width_shiftl 8 24).
  - apply (in_width_mono (8 + 16)); [lia|]. by apply in_width_shiftl.
  - apply (in_width_mono (8 + 8)); [lia|]. by apply in_width_shiftl.
  - by apply (in_width_mono 8).
Qed.

Lemma header_widths p :
  octets p -> in_width 16 (rtp_seq p) /\ in_width 32 (rtp_timestamp p) /\ in_width 32 (rtp_ssrc p).
Proof.
  intros Hp. unfold rtp_seq, rtp_timestamp, rtp_ssrc.
  split; [apply rd_be16_width|split; apply rd_be32_width]; by apply Forall_drop.
Qed.

Lemma rd_alter_ne f i j (p : list Z) : i <> j -> rd (alter f i p) j = rd p j.
Proof. intros Hne. unfold rd. by rewrite list_lookup_alter_ne. Qed.
Lemma set_payload_type_fields pt p :
  rtp_seq (set_payload_type pt p) = rtp_seq p /\ rtp_timestamp (set_payload_type pt p) = rtp_timestamp p /\
  rtp_ssrc (set_payload_type pt p) = rtp_ssrc p /\ drop 12 (set_payload_type pt p) = drop 12 p.
Proof.
  unfold rtp_seq, rtp_timestamp, rtp_ssrc, rd_be16, RtpProps.rd_be32, set_payload_type.
  rewrite !MgcpInv.rd_drop, !rd_alter_ne by done. repeat (split; [done|]).
  apply list_eq. intros i. rewrite !lookup_drop. by rewrite list_lookup_alter_ne.
Qed.

Lemma set_fields p s t c :
  (12 <= length p)%nat -> in_width 16 s -> in_width 32 t -> in_width 32 c ->
  let p' := set_seq_ssrc_ts s t c p in
  rtp_seq p' = s /\ rtp_timestamp p' = t /\ rtp_ssrc p' = c /\ drop 12 p' = drop 12 p.
Proof.
  intros Hl Hs Ht Hc. do 2 (destruct p as [|? p]; [cbn in Hl; lia|]).
  split; [exact (be16_round s (Rtp.be32 t ++ Rtp.be32 c ++ drop 12 (_ :: _ :: p)) Hs)|].
  split; [exact (RtpProps.be32_round t (Rtp.be32 c ++ drop 12 (_ :: _ :: p)) Ht)|].
  split; [exact (RtpProps.be32_round c (drop 12 (_ :: _ :: p)) Hc)|done].
Qed.

(** The state after a packet [p], for which [o] was sent. *)
Record relayed (allow : bool) (first : Z) (st : mgcp_rtp_state) (p o : list Z) : Prop := {
  re_init : initialized st = true;
  re_orig : orig_ssrc st = first /\ in_width 32 first;
  re_ssrc : ssrc st = rtp_ssrc p;
  re_seq : seq_no st = rtp_seq o /\ in_width 16 (rtp_seq o);
  re_ts : last_timestamp st = rtp_timestamp o /\ in_width 32 (rtp_timestamp o);
  re_patch : patch st = true -> allow = true;
  re_plain : patch st = false -> allow = true -> rtp_ssrc p = first;
  re_out : if patch st
           then rtp_seq o = u16 (rtp_seq p + seq_offset st) /\ rtp_timestamp o = u32 (rtp_timestamp p + timestamp_offset st) /\
                rtp_ssrc o = first
           else rtp_seq o = rtp_seq p /\ rtp_timestamp o = rtp_timestamp p /\ rtp_ssrc o = rtp_ssrc p;
  re_payload : drop 12 o = drop 12 p
}.

(** The state a packet meets: new offsets when its source is not the one before. *)
Definition meet (allow : bool) (st : mgcp_rtp_state) (p : list Z) : mgcp_rtp_state :=
  if negb (initialized st) then
    st <| seq_no := u16 (rtp_seq p - 1) |> <| orig_ssrc := rtp_ssrc p |> <| ssrc := rtp_ssrc p |> <| initialized := true |>
       <| last_timestamp := rtp_timestamp p |>
  else if negb (ssrc st =? rtp_ssrc p) then
    st <| ssrc := rtp_ssrc p |> <| seq_offset := seq_no st + 1 - rtp_seq p |>
       <| timestamp_offset := Meas.s32 (last_timestamp st - rtp_timestamp p) |> <| patch := allow |>
  else st.

Lemma patch_spec allow pt st p st' o :
  rtp_packet p -> patch_and_count allow pt st p = (st', o) -> let m := meet allow st p in
  in_width 32 (orig_ssrc m) -> (patch m = true -> allow = true) ->
  (patch m = false -> allow = true -> rtp_ssrc p = orig_ssrc m) -> initialized m = true -> ssrc m = rtp_ssrc p ->
  relayed allow (orig_ssrc m) st' p o /\ patch st' = patch m /\ seq_offset st' = seq_offset m /\
  timestamp_offset st' = timestamp_offset m.
Proof.
  intros [Ho Hl] Hp m Hw Hpatch Hplain Hini Hssrc. destruct (header_widths p Ho) as (W1 & W2 & W3).
  unfold patch_and_count in Hp. rewrite (proj2 (Nat.ltb_ge _ _) Hl) in Hp. fold (meet allow st p) in Hp. fold m in Hp.
  set (s := if patch m then u16 (rtp_seq p + seq_offset m) else rtp_seq p) in Hp.
  set (t := if patch m then u32 (rtp_timestamp p + timestamp_offset m) else rtp_timestamp p) in Hp.
  set (d := if patch m then set_seq_ssrc_ts s t (orig_ssrc m) p else p) in Hp.
  assert (Hs : in_width 16 s) by (unfold s; destruct (patch m); [by apply (wrap_in_width 16)|done]).
  assert (Ht : in_width 32 t) by (unfold t; destruct (patch m); [by apply (wrap_in_width 32)|done]).
  assert (Hd : rtp_seq d = s /\ rtp_timestamp d = t /\ rtp_ssrc d = (if patch m then orig_ssrc m else rtp_ssrc p)
               /\ drop 12 d = drop 12 p).
  { unfold d, s, t in *. destruct (patch m); [by apply set_fields|done]. }
  assert (Hd' : rtp_seq o = s /\ rtp_timestamp o = t /\ rtp_ssrc o = (if patch m then orig_ssrc m else rtp_ssrc p)
                /\ drop 12 o = drop 12 p).
  { injection Hp as _ <-. destruct (pt <? 0); [exact Hd|].
    destruct (set_payload_type_fields pt d) as (E1 & E2 & E3 & E4). by rewrite E1, E2, E3, E4. }
  destruct Hd' as (D1 & D2 & D3 & D4). injection Hp as <- _.
  set (x := if negb (u32 (seq_no m + 1) =? s) then _ else m).
  assert (Hx : initialized x = initialized m /\ orig_ssrc x = orig_ssrc m /\ ssrc x = ssrc m /\ patch x = patch m /\
               seq_offset x = seq_offset m /\ timestamp_offset x = timestamp_offset m) by (unfold x; by destruct (negb _)).
  destruct Hx as (X1 & X2 & X3 & X4 & X5 & X6).
  split; [|by cbn; rewrite X4, X5, X6]. split; cbn; rewrite ?X1, ?X2, ?X3, ?X4, ?X5, ?X6, ?D1, ?D2, ?D3; try done.
  unfold s, t. by destruct (patch m).
Qed.

Lemma s32_back a b : in_width 32 a -> in_width 32 b -> u32 (b + Meas.s32 (a - b)) = a.
Proof.
  intros [A1 A2] [B1 B2]. unfold u32, wrap, Meas.s32.
  rewrite Zplus_mod, Zminus_mod_idemp_l. rewrite <- Zplus_mod.
  replace (b + (a - b + 2 ^ 31 - 2 ^ 31)) with a by lia. by apply Z.mod_small.
Qed.
Lemma u16_shift a b k : u16 (u16 (a + k) - u16 (b + k)) = u16 (a - b).
Proof. unfold u16, wrap. rewrite <- Zminus_mod. f_equal. lia. Qed.
Lemma u32_shift a b k : u32 (u32 (a + k) - u32 (b + k)) = u32 (a - b).
Proof. unfold u32, wrap. rewrite <- Zminus_mod. f_equal. lia. Qed.

(** What is sent for two packets in a row. *)
Definition continues (p1 p2 o1 o2 : list Z) : Prop :=
  rtp_ssrc o2 = rtp_ssrc o1 /\
  if rtp_ssrc p2 =? rtp_ssrc p1
  then u16 (rtp_seq o2 - rtp_seq o1) = u16 (rtp_seq p2 - rtp_seq p1) /\
       u32 (rtp_timestamp o2 - rtp_timestamp o1) = u32 (rtp_timestamp p2 - rtp_timestamp p1)
  else rtp_seq o2 = u16 (rtp_seq o1 + 1) /\ rtp_timestamp o2 = rtp_timestamp o1.

Lemma relayed_next allow first pt st p1 o1 p2 st2 o2 :
  relayed allow first st p1 o1 -> rtp_packet p2 -> patch_and_count allow pt st p2 = (st2, o2) ->
  relayed allow first st2 p2 o2 /\ (allow = true -> continues p1 p2 o1 o2).
Proof.
  intros [R1 [R2 R2'] R3 [R4 R4'] [R5 R5'] R6 R7 R8 R9] Hp2 Hc.
  destruct (header_widths p2 (proj1 Hp2)) as (W1 & W2 & W3).
  pose proof (patch_spec _ _ _ _ _ _ Hp2 Hc) as Hs. cbv zeta in Hs. unfold meet in Hs. rewrite R1, R3 in Hs. cbn [negb] in Hs.
  unfold continues. destruct (Z.eqb_spec (rtp_ssrc p1) (rtp_ssrc p2)) as [E|E]; cbn [negb] in Hs.
  - destruct Hs as (Hr & F1 & F2 & F3); [by rewrite R2|done|rewrite R2, <- E; auto|done|congruence|].
    rewrite R2 in Hr. split; [done|]. intros Ha. rewrite (proj2 (Z.eqb_eq _ _)) by done.
    pose proof (re_out _ _ _ _ _ Hr) as Ho. rewrite F1 in Ho. destruct (patch st) eqn:Ep.
    + destruct Ho as (O1 & O2 & O3), R8 as (Q1 & Q2 & Q3). rewrite F2 in O1. rewrite F3 in O2.
      rewrite O1, O2, O3, Q1, Q2, Q3. split; [done|]. split; [apply u16_shift|apply u32_shift].
    + destruct Ho as (-> & -> & ->), R8 as (-> & -> & ->). done.
  - destruct Hs as (Hr & F1 & F2 & F3); [by cbn; rewrite R2|done|cbn; congruence|done|done|].
    cbn in Hr. rewrite R2 in Hr. split; [done|]. intros Ha. rewrite (proj2 (Z.eqb_neq _ _)) by done.
    pose proof (re_out _ _ _ _ _ Hr) as Ho. rewrite F1 in Ho. cbn in Ho, F2, F3. rewrite Ha in Ho.
    destruct Ho as (O1 & O2 & O3). rewrite F2, R4 in O1. rewrite F3, R5 in O2. rewrite O1, O2, O3.
    split; [|split].
    + destruct (patch st) eqn:Ep; [by destruct R8 as (_ & _ & ->)|]. destruct R8 as (_ & _ & ->). by rewrite R7.
    + f_equal. lia.
    + by apply s32_back.
Qed.

(** C16: the receiver hears one stream. When patching is allowed, what is sent for a stream of RTP packets has one
    SSRC, that of the first packet; as long as the source does not change, sequence numbers and time stamps advance
    as those that are received; when it changes, the sequence number goes on with the next one and the time stamp
    stays. The payload is never touched. *)
Theorem relay_stream_continuous pt ps i p1 p2 o1 o2 :
  Forall rtp_packet ps -> let os := relay_stream true pt zero_state ps in
  ps !! i = Some p1 -> ps !! S i = Some p2 -> os !! i = Some o1 -> os !! S i = Some o2 ->
  continues p1 p2 o1 o2 /\ drop 12 o1 = drop 12 p1 /\ drop 12 o2 = drop 12 p2.
Proof.
  intros Hps os. unfold os. clear os. destruct ps as [|p ps]; [done|]. apply Forall_cons in Hps as [Hp Hps].
  cbn [relay_stream]. destruct (patch_and_count true pt zero_state p) as [st o] eqn:E.
  destruct (header_widths p (proj1 Hp)) as (_ & _ & W).
  destruct (patch_spec _ _ _ _ _ _ Hp E) as [Hr _]; [done..|]. cbn in Hr. clear E W. generalize dependent o.
  generalize (rtp_ssrc p). intros first.
  revert i st p Hp. induction ps as [|q ps IH]; intros i st p Hp o Hr; [by destruct i|].
  apply Forall_cons in Hps as [Hq Hps]. cbn [relay_stream].
  destruct (patch_and_count true pt st q) as [st2 o'] eqn:E.
  destruct (relayed_next _ _ _ _ _ _ _ _ _ Hr Hq E) as [Hr2 Hcont].
  destruct i as [|i]; cbn.
  - intros [= <-] [= <-] [= <-] [= <-]. split; [by apply Hcont|].
    split; [apply (re_payload _ _ _ _ _ Hr)|apply (re_payload _ _ _ _ _ Hr2)].
  - intros. by apply (IH Hps i st2 q Hq o').
Qed.

(** ** Numbers, printed and read *)

Definition digit (d : Z) : Z := if d <? 10 then 48 + d else 87 + d.
Lemma hexval_digit d : 0 <= d < 16 -> hexval (digit d) = Some d.
Proof.
  intros Hd. unfold hexval, digit, isdigit. destruct (Z.ltb_spec d 10).
  - replace ((48 <=? 48 + d) && (48 + d <=? 57)) with true by lia. f_equal. lia.
  - replace ((48 <=? 87 + d) && (87 + d <=? 57)) with false by lia.
    replace ((97 <=? 87 + d) && (87 + d <=? 102)) with true by lia. f_equal. lia.
Qed.

(** The digits of a number, the last one before [acc]. *)
Lemma print_base_S fuel base n acc :
  print_base (S fuel) base n acc =
  if n <? base then digit (n mod base) :: acc else print_base fuel base (n / base) (digit (n mod base) :: acc).
Proof. done. Qed.

Lemma number_print_base base fuel n acc :
  2 <= base <= 16 -> 0 <= n < base ^ Z.of_nat fuel -> number base 0 (print_base fuel base n acc) = number base n acc.
Proof.
  intros Hb. revert n acc. induction fuel as [|fuel IH]; intros n acc Hn.
  { cbn in Hn. by replace n with 0 by lia. }
  rewrite print_base_S. pose proof (Z.mod_pos_bound n base). pose proof (Z.div_mod n base).
  assert (Hd : forall m, number base m (digit (n mod base) :: acc) = number base (base * m + n mod base) acc).
  { intros m. cbn [number]. rewrite hexval_digit by lia. by rewrite (proj2 (Z.ltb_lt (n mod base) base)) by lia. }
  destruct (Z.ltb_spec n base).
  - rewrite Hd. f_equal. rewrite Z.mod_small by lia. lia.
  - rewrite IH, Hd; [f_equal; lia|]. split; [apply Z.div_pos; lia|]. apply Z.div_lt_upper_bound; [lia|].
    rewrite Nat2Z.inj_succ, Z.pow_succ_r in Hn by lia. lia.
Qed.

Definition is_digit_char (c : Z) : Prop := 48 <= c <= 57 \/ 97 <= c <= 102.
Lemma digit_char d : 0 <= d < 16 -> is_digit_char (digit d).
Proof. unfold is_digit_char, digit. intros. destruct (Z.ltb_spec d 10); lia. Qed.
Lemma print_base_chars base fuel n acc :
  2 <= base <= 16 -> Forall is_digit_char acc -> Forall is_digit_char (print_base fuel base n acc).
Proof.
  intros Hb. revert n acc. induction fuel as [|fuel IH]; intros n acc Hacc; [done|].
  rewrite print_base_S. pose proof (Z.mod_pos_bound n base).
  assert (Forall is_digit_char (digit (n mod base) :: acc)) by (constructor; [apply digit_char; lia|done]).
  destruct (n <? base); auto.
Qed.
Lemma print_base_app base fuel n acc : print_base fuel base n acc = print_base fuel base n [] ++ acc.
Proof.
  revert n acc. induction fuel as [|fuel IH]; intros n acc; [done|].
  rewrite !print_base_S. destruct (n <? base); [done|]. rewrite (IH _ (_ :: acc)), (IH _ [_]). by rewrite <- app_assoc.
Qed.
Lemma print_base_head base fuel n acc :
  2 <= base <= 16 -> exists d p, 0 <= d < base /\ print_base (S fuel) base n acc = digit d :: p.
Proof.
  intros Hb. revert n acc. induction fuel as [|fuel IH]; intros n acc; rewrite print_base_S.
  - pose proof (Z.mod_pos_bound n base). destruct (n <? base); eexists _, _; (split; [|done]); lia.
  - pose proof (Z.mod_pos_bound n base). destruct (n <? base); [eexists _, _; (split; [|done]); lia|]. apply IH.
Qed.
(** Without a leading zero. *)
Lemma print_base_head_nonzero base fuel n acc :
  2 <= base <= 16 -> 0 < n < base ^ Z.of_nat fuel -> exists d p, 0 < d < base /\ print_base fuel base n acc = digit d :: p.
Proof.
  intros Hb. revert n acc. induction fuel as [|fuel IH]; intros n acc Hn; [cbn in Hn; lia|].
  rewrite print_base_S. destruct (Z.ltb_spec n base).
  - rewrite Z.mod_small by lia. eexists _, _. split; [|done]. lia.
  - apply IH. split; [apply Z.div_str_pos; lia|]. apply Z.div_lt_upper_bound; [lia|].
    rewrite Nat2Z.inj_succ, Z.pow_succ_r in Hn by lia. lia.
Qed.

Lemma digit_no_space d : 0 <= d < 16 -> isspace (digit d) = false /\ digit d <> 45 /\ digit d <> 43.
Proof. intros Hd. destruct (digit_char d Hd); unfold isspace; lia. Qed.

(** What follows does not continue the number. *)
Definition stops (base : Z) (p : list Z) : Prop := starts_number base p = false.
Lemma number_stops base n p : stops base p -> number base n p = (n, p).
Proof. unfold stops, starts_number. destruct p as [|c p]; [done|]. cbn. destruct (hexval c) as [d|]; [|done]. by intros ->. Qed.

Lemma strtoul_print base fuel n p :
  base = 10 \/ base = 16 -> 0 < n < base ^ Z.of_nat fuel -> n <= ULONG_MAX -> stops base p ->
  strtoul base (print_base fuel base n [] ++ p) = (n, p).
Proof.
  intros Hbase Hn Hmax Hp. assert (Hb : 2 <= base <= 16) by lia.
  rewrite <- print_base_app. destruct (print_base_head_nonzero base fuel n p Hb Hn) as (d & q & Hd & E).
  destruct (digit_no_space d ltac:(lia)) as (D1 & D2 & D3).
  unfold strtoul. rewrite E. cbn [skip_ws]. rewrite D1.
  rewrite (proj2 (Z.eqb_neq _ _) D2), (proj2 (Z.eqb_neq _ _) D3).
  assert (Hz : (digit d =? 48) = false) by (apply Z.eqb_neq; unfold digit; case_match; lia).
  assert (Hst : starts_number base (digit d :: q) = true).
  { unfold starts_number. rewrite hexval_digit by lia. apply Z.ltb_lt. lia. }
  assert (Hq : match q with
               | [] => digit d :: q
               | x :: q' => if (base =? 16) && (digit d =? 48) && ((x =? 120) || (x =? 88)) && starts_number base q'
                            then q' else digit d :: q
               end = digit d :: q) by (destruct q; [done|]; by rewrite Hz, !andb_false_r).
  rewrite Hq. clear Hq.
  rewrite Hst. rewrite <- E. rewrite number_print_base by lia. rewrite number_stops by done.
  by rewrite (proj2 (Z.ltb_ge _ _) Hmax).
Qed.

(** ** Requests *)

Definition crlf : list Z := [CR; LF].
Definition plain (c : Z) : Prop := c <> 32 /\ c <> CR /\ c <> LF /\ c <> 0.
Definition word (w : list Z) : Prop := w <> [] /\ Forall plain w.
(** The lines of a message, as they arrive and as the tokenizer leaves them. *)
Definition lines_text (ws : list (list Z)) : list Z := concat (map (fun w => w ++ crlf) ws).
Definition no_eol (c : Z) : Prop := c <> CR /\ c <> LF /\ c <> 0.
(** A line with a parameter: a letter, a colon, a blank and the value. *)
Definition param_line (w : list Z) : Prop :=
  Forall no_eol w /\ (3 <= length w)%nat /\ rd w 1 = 58 /\ rd w 2 = 32.

Definition request (verb trans name : list Z) (lines : list (list Z)) : list Z :=
  verb ++ str " " ++ trans ++ str " " ++ name ++ str " MGCP 1.0" ++ crlf ++ lines_text lines.

Ltac word_tac := split; [done|]; cbn; repeat (apply Forall_cons_2; [repeat split; by vm_compute|]); apply Forall_nil_2.

Lemma rd_at (pre : list Z) c post : rd (pre ++ c :: post) (length pre) = c.
Proof. unfold rd. by rewrite list_lookup_middle. Qed.
Lemma cut_at (pre : list Z) c post : <[length pre := 0]> (pre ++ c :: post) = pre ++ 0 :: post.
Proof. rewrite insert_app_r_alt by lia. by rewrite Nat.sub_diag. Qed.
Lemma plain_not_blank c : plain c -> is_blank c = false /\ is_eol c = false.
Proof. intros (H1 & H2 & H3 & _). unfold is_blank, is_eol. lia. Qed.

(** *** The first line *)

(** The rest of a token. *)
Lemma msg_pointers_token w n pre s room c post acc :
  Forall plain w -> is_blank c = true ->
  msg_pointers (length w + S n) (length pre) (S room) (Some s) (pre ++ w ++ c :: post) acc =
  let acc := acc ++ [(s, length pre + length w - s - 1)%nat] in
  if is_eol c then (room, acc)
  else msg_pointers n (S (length pre + length w)) room None (pre ++ w ++ c :: post) acc.
Proof.
  intros Hw Hc. revert pre. induction Hw as [|x w Hx Hw IH]; intros pre.
  - cbn [length app msg_pointers Nat.add]. rewrite rd_at, Hc. by rewrite Nat.add_0_r.
  - destruct (plain_not_blank x Hx) as [Hb _]. cbn [length app msg_pointers Nat.add]. rewrite rd_at, Hb.
    specialize (IH (pre ++ [x])). rewrite <- app_assoc, length_app in IH. cbn [app length] in IH.
    rewrite Nat.add_1_r in IH. rewrite IH. cbv zeta.
    by replace (S (length pre) + length w)%nat with (length pre + S (length w))%nat by lia.
Qed.
Lemma msg_pointers_word w n pre room c post acc :
  word w -> is_blank c = true ->
  msg_pointers (length w + S n) (length pre) (S room) None (pre ++ w ++ c :: post) acc =
  let acc := acc ++ [(length pre, length w - 1)%nat] in
  if is_eol c then (room, acc)
  else msg_pointers n (S (length pre + length w)) room None (pre ++ w ++ c :: post) acc.
Proof.
  intros [Hne Hw] Hc. destruct w as [|x w]; [done|]. apply Forall_cons in Hw as [Hx Hw].
  destruct (plain_not_blank x Hx) as [Hb _]. cbn [length app msg_pointers Nat.add]. rewrite rd_at, Hb.
  pose proof (msg_pointers_token w n (pre ++ [x]) (length pre) room c post acc Hw Hc) as IH.
  rewrite <- app_assoc, length_app in IH. cbn [app length] in IH. rewrite Nat.add_1_r in IH. rewrite IH. cbv zeta.
  replace (S (length pre) + length w - length pre - 1)%nat with (S (length w) - 1)%nat by lia.
  by replace (S (length pre) + length w)%nat with (length pre + S (length w))%nat by lia.
Qed.
Lemma msg_pointers_blank n pre room post acc :
  msg_pointers (S n) (length pre) (S room) None (pre ++ 32 :: post) acc =
  msg_pointers n (S (length pre)) (S room) None (pre ++ 32 :: post) acc.
Proof. cbn [msg_pointers]. by rewrite rd_at. Qed.

(** The header of a request after its verb, and after its tokens were cut. *)
Definition header (c e : Z) (trans name : list Z) : list Z :=
  [32] ++ trans ++ [c] ++ name ++ [c] ++ str "MGCP" ++ [c] ++ str "1.0" ++ [e; LF].

Lemma find_pointers_request trans name rest n :
  word trans -> word name -> (length (header 32 CR trans name) <= n)%nat ->
  find_msg_pointers n (header 32 CR trans name ++ rest) 6 =
  (4, [(1, length trans - 1); (2 + length trans, length name - 1); (3 + length trans + length name, 3);
       (8 + length trans + length name, 2)]%nat).
Proof.
  intros Ht Hn Hl. unfold find_msg_pointers.
  assert (Hlen : length (header 32 CR trans name) = (13 + length trans + length name)%nat).
  { unfold header. rewrite !length_app, !length_str. cbn. lia. }
  rewrite Hlen in Hl.
  replace n with (S (length trans + S (length name + S (4 + S (3 + S (n - 12 - length trans - length name))))))%nat by lia.
  set (m := (n - 12 - length trans - length name)%nat).
  assert (E : header 32 CR trans name ++ rest =
    [32] ++ trans ++ 32 :: name ++ 32 :: str "MGCP" ++ 32 :: str "1.0" ++ CR :: LF :: rest).
  { unfold header. by rewrite <- !app_assoc. }
  rewrite E. rewrite (msg_pointers_blank _ [] _ (trans ++ 32 :: name ++ 32 :: str "MGCP" ++ 32 :: str "1.0" ++ CR :: LF :: rest)).
  change (msg_pointers ?k (S (length (@nil Z))) 6 None ([] ++ 32 :: ?l) []) with (msg_pointers k (length [32]) 6 None ([32] ++ l) []).
  rewrite msg_pointers_word by done. cbv zeta. cbn [is_eol].
  change (is_eol 32) with false. cbv iota.
  set (A := [32] ++ trans ++ [32]).
  replace (S (length [32] + length trans)) with (length A) by (unfold A; rewrite !length_app; cbn; lia).
  replace ([32] ++ trans ++ 32 :: name ++ 32 :: str "MGCP" ++ 32 :: str "1.0" ++ CR :: LF :: rest)
    with (A ++ name ++ 32 :: str "MGCP" ++ 32 :: str "1.0" ++ CR :: LF :: rest) by (unfold A; by rewrite <- !app_assoc).
  rewrite msg_pointers_word by done. cbv zeta. change (is_eol 32) with false. cbv iota.
  set (B := A ++ name ++ [32]).
  replace (S (length A + length name)) with (length B) by (unfold B; rewrite !length_app; cbn; lia).
  replace (A ++ name ++ 32 :: str "MGCP" ++ 32 :: str "1.0" ++ CR :: LF :: rest)
    with (B ++ str "MGCP" ++ 32 :: str "1.0" ++ CR :: LF :: rest) by (unfold B; by rewrite <- !app_assoc).
  assert (W1 : word (str "MGCP")) by word_tac.
  assert (W2 : word (str "1.0")) by word_tac.
  rewrite (msg_pointers_word (str "MGCP") (3 + S m) B) by done. cbv zeta. change (is_eol 32) with false. cbv iota.
  set (C := B ++ str "MGCP" ++ [32]).
  replace (S (length B + length (str "MGCP"))) with (length C) by (unfold C; rewrite !length_app; cbn; lia).
  replace (B ++ str "MGCP" ++ 32 :: str "1.0" ++ CR :: LF :: rest)
    with (C ++ str "1.0" ++ CR :: LF :: rest) by (unfold C; by rewrite <- !app_assoc).
  rewrite (msg_pointers_word (str "1.0") m C) by done. cbv zeta. change (is_eol CR) with true. cbv iota.
  cbn [Nat.eqb app length]. unfold C, B, A. rewrite !length_app, !length_str. cbn [length String.length].
  do 2 f_equal. repeat (f_equal; try lia).
Qed.

Lemma cut_request trans name rest :
  word trans -> word name ->
  foldl cut_token (header 32 CR trans name ++ rest)
    [(1, length trans - 1); (2 + length trans, length name - 1); (3 + length trans + length name, 3);
     (8 + length trans + length name, 2)]%nat = header 0 0 trans name ++ rest.
Proof.
  intros [Ht _] [Hn _]. assert (length trans <> 0%nat) by (by destruct trans).
  assert (length name <> 0%nat) by (by destruct name). unfold cut_token. cbn [foldl fst snd].
  assert (cut : forall i pre c post, i = length pre -> <[i := 0]> (pre ++ c :: post) = pre ++ 0 :: post)
    by (intros i pre c post ->; apply cut_at).
  set (M := str "MGCP"). set (V := str "1.0").
  assert (E : forall c e, header c e trans name ++ rest =
    [32] ++ trans ++ c :: name ++ c :: M ++ c :: V ++ e :: LF :: rest) by (intros; unfold header; by rewrite <- !app_assoc).
  rewrite !E.
  assert (LM : length M = 4%nat) by done. assert (LV : length V = 3%nat) by done.
  rewrite (app_assoc [32] trans), (cut _ ([32] ++ trans)) by (rewrite length_app; cbn; lia).
  replace (([32] ++ trans) ++ 0 :: name ++ 32 :: M ++ 32 :: V ++ CR :: LF :: rest)
    with (([32] ++ trans ++ 0 :: name) ++ 32 :: M ++ 32 :: V ++ CR :: LF :: rest) by (cbn; by rewrite <- !app_assoc).
  rewrite cut by (rewrite !length_app; cbn; lia).
  replace (([32] ++ trans ++ 0 :: name) ++ 0 :: M ++ 32 :: V ++ CR :: LF :: rest)
    with (([32] ++ trans ++ 0 :: name ++ 0 :: M) ++ 32 :: V ++ CR :: LF :: rest)
    by (cbn [app]; rewrite <- ?app_assoc; cbn [app]; by rewrite <- ?app_assoc).
  rewrite cut by (rewrite !length_app; cbn [length]; rewrite !length_app; cbn [length]; rewrite LM; lia).
  replace (([32] ++ trans ++ 0 :: name ++ 0 :: M) ++ 0 :: V ++ CR :: LF :: rest)
    with (([32] ++ trans ++ 0 :: name ++ 0 :: M ++ 0 :: V) ++ CR :: LF :: rest)
    by (cbn [app]; rewrite <- ?app_assoc; cbn [app]; rewrite <- ?app_assoc; cbn [app]; by rewrite <- ?app_assoc).
  rewrite cut by (rewrite !length_app; cbn [length]; rewrite !length_app; cbn [length]; rewrite !length_app; cbn [length]; rewrite LM, LV; lia).
  cbn [app]. f_equal. rewrite <- !app_assoc. cbn [app]. do 2 f_equal. rewrite <- !app_assoc. cbn [app]. do 2 f_equal.
Qed.

Lemma cstr_plain w p : Forall plain w -> cstr (w ++ 0 :: p) = w.
Proof.
  induction 1 as [|c w (_ & _ & _ & Hc) Hw IH]; [done|]. cbn. rewrite (proj2 (Z.eqb_neq _ _) Hc). by f_equal.
Qed.

(** The header names the endpoint and the transaction. *)
Lemma analyze_request cfg trans name rest n a :
  word trans -> word name -> (length (header 32 CR trans name) <= n)%nat ->
  find_endpoint cfg (name ++ drop (2 + length trans + length name) (header 0 0 trans name) ++ rest) = Some a ->
  mgcp_analyze_header cfg n (header 32 CR trans name ++ rest) = (0, header 0 0 trans name ++ rest, trans, Some a).
Proof.
  intros Ht Hn Hl Hf. unfold mgcp_analyze_header. rewrite find_pointers_request by done.
  change (4 <=? 3) with false. cbv iota. cbn [take lookup list_lookup default]. unfold id. cbn [fst].
  rewrite (cut_request trans name rest Ht Hn).
  assert (E : header 0 0 trans name ++ rest = [32] ++ trans ++ 0 :: name ++ 0 :: str "MGCP" ++ 0 :: str "1.0" ++ 0 :: LF :: rest).
  { unfold header. by rewrite <- !app_assoc. }
  assert (D3 : drop (8 + length trans + length name) (header 0 0 trans name ++ rest) = str "1.0" ++ 0 :: LF :: rest).
  { rewrite E. replace ([32] ++ trans ++ 0 :: name ++ 0 :: str "MGCP" ++ 0 :: str "1.0" ++ 0 :: LF :: rest)
      with (([32] ++ trans ++ 0 :: name ++ 0 :: str "MGCP" ++ [0]) ++ str "1.0" ++ 0 :: LF :: rest)
      by (cbn [app]; rewrite <- ?app_assoc; cbn [app]; by rewrite <- ?app_assoc).
    apply drop_app_length'. rewrite !length_app. cbn [length]. rewrite !length_app. cbn. lia. }
  assert (D2 : drop (3 + length trans + length name) (header 0 0 trans name ++ rest) = str "MGCP" ++ 0 :: str "1.0" ++ 0 :: LF :: rest).
  { rewrite E. replace ([32] ++ trans ++ 0 :: name ++ 0 :: str "MGCP" ++ 0 :: str "1.0" ++ 0 :: LF :: rest)
      with (([32] ++ trans ++ 0 :: name ++ [0]) ++ str "MGCP" ++ 0 :: str "1.0" ++ 0 :: LF :: rest)
      by (cbn [app]; rewrite <- ?app_assoc; cbn [app]; by rewrite <- ?app_assoc).
    apply drop_app_length'. rewrite !length_app. cbn [length]. rewrite !length_app. cbn. lia. }
  rewrite D2, D3. cbn [strncmp_eq]. 
  assert (D0 : cstr (drop 1 (header 0 0 trans name ++ rest)) = trans).
  { rewrite E. cbn [app drop]. by apply cstr_plain, Ht. }
  rewrite D0.
  assert (D1 : drop (2 + length trans) (header 0 0 trans name ++ rest) =
               name ++ drop (2 + length trans + length name) (header 0 0 trans name) ++ rest).
  { unfold header. replace ([32] ++ trans ++ [0] ++ name ++ [0] ++ str "MGCP" ++ [0] ++ str "1.0" ++ [0; LF])
      with (([32] ++ trans ++ [0]) ++ name ++ [0] ++ str "MGCP" ++ [0] ++ str "1.0" ++ [0; LF]) by (by rewrite <- !app_assoc).
    rewrite <- app_assoc. rewrite drop_app_length' by (rewrite !length_app; cbn; lia).
    rewrite <- drop_drop. rewrite drop_app_length' by (rewrite !length_app; cbn; lia). rewrite drop_app_length.
    by rewrite <- !app_assoc. }
  rewrite D1, Hf. done.
Qed.

(** The name of an endpoint of the virtual trunk. *)
Definition endp_name (n : Z) : list Z := print_x n ++ str "@mgw".

Lemma print_x_chars n : Forall is_digit_char (print_x n).
Proof. apply print_base_chars; [lia|done]. Qed.
Lemma find_virtual cfg n p :
  1 <= n < number_endpoints (trunk cfg) -> number_endpoints (trunk cfg) <= 65535 ->
  find_endpoint cfg (endp_name n ++ 0 :: p) = Some (mk_endp_ref None (Z.to_nat n)).
Proof.
  intros Hn Hmax. unfold find_endpoint, endp_name. rewrite <- app_assoc.
  set (q := str "@mgw" ++ 0 :: p).
  assert (Hds : strncmp_eq (str "ds/e1") (print_x n ++ q) = false).
  { apply bool_decide_eq_false. intros Hc. pose proof (print_x_chars n) as Hd.
    assert (Hx : rd (print_x n ++ q) 1 = 115).
    { transitivity (rd (take (length (str "ds/e1")) (print_x n ++ q)) 1); [|by rewrite Hc].
      unfold rd. by rewrite lookup_take_lt by (cbn; lia). }
    destruct (print_base_head 16 19 n []) as (d & r & _ & E); [lia|]. change (print_base 20 16 n []) with (print_x n) in E.
    rewrite E in Hd, Hx. destruct r as [|c r]; [by vm_compute in Hx|].
    apply Forall_cons in Hd as [_ [Hc' _]%Forall_cons]. cbn in Hx. unfold is_digit_char in Hc'. lia. }
  rewrite Hds. unfold print_x at 1. rewrite strtoul_print; [|by right|cbn; lia|unfold ULONG_MAX; lia|done].
  cbv beta iota. rewrite !wrap_small by (unfold in_width; lia). cbv zeta.
  replace ((0 <? n) && (n <? number_endpoints (trunk cfg)) && strcmp_eq (str "@mgw") q) with true; [done|].
  replace (0 <? n) with true by lia. by replace (n <? number_endpoints (trunk cfg)) with true by lia.
Qed.

Lemma word_endp_name n : word (endp_name n).
Proof.
  split.
  - unfold endp_name. intros [_ E]%app_eq_nil. done.
  - apply Forall_app. split.
    + eapply Forall_impl; [apply print_x_chars|]. unfold is_digit_char, plain, CR, LF. lia.
    + apply (proj2 (A := str "@mgw" <> [])). word_tac.
Qed.

(** *** The lines *)

(** The lines as the tokenizer leaves them. *)
Definition cut_lines (ws : list (list Z)) : list Z := concat (map (fun w => w ++ [0; 0]) ws).

(** The body on every line; [pre] is what comes before. *)
Fixpoint run_lines {A R} (body : list Z -> nat -> A -> MG (A + R)) (pre : list Z) (ws : list (list Z)) (rest : list Z) (a : A)
    : MG ((list Z * A) + R) :=
  match ws with
  | [] => mret (inl (pre ++ rest, a))
  | w :: ws =>
      r ← body (pre ++ w ++ 0 :: 0 :: lines_text ws ++ rest) (length pre) a;
      match r with
      | inl a => run_lines body (pre ++ w ++ [0; 0]) ws rest a
      | inr r => mret (inr r)
      end
  end.

Lemma tokenize_skip {A R} (body : list Z -> nat -> A -> MG (A + R)) error w n ls pre post a :
  Forall (fun c => c <> LF) w ->
  tokenize body error (length w + n) (length pre) ls (pre ++ w ++ post) a =
  tokenize body error n (length pre + length w) ls (pre ++ w ++ post) a.
Proof.
  intros Hw. revert pre. induction Hw as [|c w Hc Hw IH]; intros pre.
  - cbn [length Nat.add]. by rewrite Nat.add_0_r.
  - cbn [length Nat.add tokenize]. cbn [app]. rewrite rd_at, (proj2 (Z.eqb_neq _ _) Hc). cbn [negb].
    specialize (IH (pre ++ [c])). rewrite <- app_assoc, length_app in IH. cbn [app length] in IH.
    rewrite Nat.add_1_r in IH. rewrite IH. by replace (S (length pre) + length w)%nat with (length pre + S (length w))%nat by lia.
Qed.

Lemma no_eol_lf w : Forall no_eol w -> Forall (fun c => c <> LF) w.
Proof. intros Hw. eapply Forall_impl; [exact Hw|]. by intros c (_ & Hc & _). Qed.

Lemma tokenize_line {A R} (body : list Z -> nat -> A -> MG (A + R)) error w n pre post a cfg :
  param_line w -> (1 <= length pre)%nat ->
  tokenize body error (S (S (length w + n))) (length pre) (length pre) (pre ++ w ++ CR :: LF :: post) a cfg =
  (r ← body (pre ++ w ++ 0 :: 0 :: post) (length pre) a;
   match r with
   | inl a => tokenize body error n (length (pre ++ w ++ [0; 0])) (length (pre ++ w ++ [0; 0])) (pre ++ w ++ 0 :: 0 :: post) a
   | inr r => mret (inr r)
   end) cfg.
Proof.
  intros (Hw & Hl & H1 & H2) Hpre.
  pose proof (tokenize_skip body error (w ++ [CR]) (S n) (length pre) pre (LF :: post) a) as Hs.
  rewrite length_app, <- app_assoc in Hs. cbn [length app] in Hs.
  replace (S (S (length w + n))) with (length w + 1 + S n)%nat by lia. rewrite Hs.
  2: { apply Forall_app. split; [by apply no_eol_lf|]. by repeat constructor. }
  cbn [tokenize].
  assert (E1 : pre ++ w ++ CR :: LF :: post = (pre ++ w ++ [CR]) ++ LF :: post) by (by rewrite <- !app_assoc).
  assert (L1 : (length pre + (length w + 1))%nat = length (pre ++ w ++ [CR])) by (by rewrite !length_app).
  rewrite L1, E1, rd_at. change (negb (LF =? LF)) with false. cbv iota.
  replace (length pre =? 0)%nat with false by lia.
  assert (Hrd : forall k, (k < length w)%nat -> rd (pre ++ w ++ CR :: LF :: post) (length pre + k) = rd w k).
  { intros k Hk. rewrite rd_app_r by lia. replace (length pre + k - length pre)%nat with k by lia. by apply rd_app_l. }
  rewrite E1 in Hrd. rewrite (Hrd 1%nat), (Hrd 2%nat) by lia. rewrite H1, H2. change (negb (58 =? 58)) with false. change (negb (32 =? 32)) with false.
  replace (length (pre ++ w ++ [CR]) - length pre <? 3)%nat with false by (symmetry; apply Nat.ltb_ge; rewrite !length_app; cbn; lia).
  cbn [orb negb]. rewrite orb_true_r. rewrite cut_at.
  assert (E2 : (pre ++ w ++ [CR]) ++ 0 :: post = (pre ++ w) ++ CR :: 0 :: post) by (by rewrite <- !app_assoc).
  assert (L2 : (length (pre ++ w ++ [CR]) - 1)%nat = length (pre ++ w)) by (rewrite !length_app; cbn; lia).
  rewrite L2, E2, rd_at. change (CR =? CR) with true. cbv iota. rewrite cut_at.
  assert (E3 : (pre ++ w) ++ 0 :: 0 :: post = pre ++ w ++ 0 :: 0 :: post) by (by rewrite <- !app_assoc).
  rewrite E3. assert (L3 : S (length (pre ++ w ++ [CR])) = length (pre ++ w ++ [0; 0])) by (rewrite !length_app; cbn; lia).
  by rewrite L3.
Qed.

Lemma tokenize_lines {A R} (body : list Z -> nat -> A -> MG (A + R)) error ws rest : forall pre a cfg,
  Forall param_line ws -> (1 <= length pre)%nat ->
  tokenize body error (length (lines_text ws)) (length pre) (length pre) (pre ++ lines_text ws ++ rest) a cfg =
  run_lines body pre ws rest a cfg.
Proof.
  induction ws as [|w ws IH]; intros pre a cfg Hws Hpre; [done|].
  apply Forall_cons in Hws as [Hw Hws].
  assert (E : lines_text (w :: ws) = w ++ CR :: LF :: lines_text ws).
  { unfold lines_text. cbn. by rewrite <- app_assoc. }
  rewrite E. replace (length (w ++ CR :: LF :: lines_text ws)) with (S (S (length w + length (lines_text ws))))
    by (rewrite length_app; cbn; lia).
  rewrite <- app_assoc. cbn [app]. rewrite tokenize_line by done. cbn [run_lines].
  unfold mbind, M_bind. destruct (body _ _ _ cfg) as [[[[x|r] cfg'] ev]|]; [|done..].
  replace (pre ++ w ++ 0 :: 0 :: lines_text ws ++ rest) with ((pre ++ w ++ [0; 0]) ++ lines_text ws ++ rest)
    by (by rewrite <- !app_assoc).
  rewrite IH; [done|done|]. rewrite length_app. lia.
Qed.

(** All the lines of a request. *)
Lemma tokenize_request {A R} (body : list Z -> nat -> A -> MG (A + R)) error trans name ws rest a cfg :
  word trans -> word name -> Forall param_line ws ->
  tokenize body error (length (header 32 CR trans name) + length (lines_text ws)) 0 0
    (header 0 0 trans name ++ lines_text ws ++ rest) a cfg =
  run_lines body (header 0 0 trans name) ws rest a cfg.
Proof.
  intros [Ht0 Ht] [Hn0 Hn] Hws.
  set (h := [32] ++ trans ++ [0] ++ name ++ [0] ++ str "MGCP" ++ [0] ++ str "1.0" ++ [0]).
  assert (E : header 0 0 trans name = h ++ [LF]) by (unfold header, h; by rewrite <- !app_assoc).
  assert (Hh : Forall (fun c => c <> LF) h).
  { assert (P : forall w, Forall plain w -> Forall (fun c => c <> LF) w) by (intros w Hw; eapply Forall_impl; [exact Hw|]; by intros c (_ & _ & Hc & _)).
    unfold h. repeat (apply Forall_app; split); auto; repeat (apply Forall_cons_2; [by vm_compute|]); apply Forall_nil_2. }
  assert (L : length (header 32 CR trans name) = (length h + 1)%nat).
  { unfold header, h. rewrite !length_app. cbn. lia. }
  rewrite L, E. replace (length h + 1 + length (lines_text ws))%nat with (length h + S (length (lines_text ws)))%nat by lia.
  rewrite <- app_assoc.
  pose proof (tokenize_skip body error h (S (length (lines_text ws))) 0 [] ([LF] ++ lines_text ws ++ rest) a Hh) as Hs.
  cbn [app length Nat.add] in Hs |- *. rewrite Hs. cbn [tokenize]. rewrite rd_at. change (negb (LF =? LF)) with false. cbv iota.
  change (0 =? 0)%nat with true. cbv iota.
  replace (S (length h)) with (length (h ++ [LF])) by (rewrite length_app; cbn; lia).
  replace (h ++ LF :: lines_text ws ++ rest) with ((h ++ [LF]) ++ lines_text ws ++ rest) by (by rewrite <- app_assoc).
  rewrite tokenize_lines; [done|done|]. rewrite length_app. cbn. lia.
Qed.

(** ** Calls *)

Section calls.
Context `{MgcpEnv}.

(** A system that has memory, ports and no objections. *)
Record willing (sys : mgcp_sys) : Prop := {
  wi_mem : sys_mem sys = true;
  wi_bind : forall w n port, sys_bind sys w n port = (true, true, true, true);
  wi_policy : sys_policy sys = MGCP_POLICY_CONT
}.

(** The port of an end that gets a new connection: from the range, whose last port is beyond the last that was
    given out, or the one it always has. *)
Definition new_port (range : mgcp_port_range) (e : mgcp_rtp_end) : Z :=
  if range_mode range =? PORT_ALLOC_STATIC then local_port e
  else if range_end range <=? last_port range then range_start range else last_port range.

Lemma allocate_port_willing sys w endp range :
  willing sys -> exists x range', allocate_port sys w endp range = (true, end_upd w (fun _ => x) endp, range')
    /\ local_port x = new_port range (end_get w endp).
Proof.
  intros Hs. unfold allocate_port, new_port. destruct (_ =? _).
  { eexists ((end_get w endp) <| local_alloc := PORT_ALLOC_STATIC |>), _. split; [by destruct w|done]. }
  change 200%nat with (S 199). generalize 199%nat. intros k. cbn [try_ports]. rewrite (wi_bind _ Hs). unfold int_bind, bind_rtp.
  cbn [negb orb]. eexists _, _. split; [done|]. cbn. by destruct (_ <=? _).
Qed.
Lemma allocate_ports_willing sys tcfg endp cfg :
  willing sys -> exists endp' cfg', allocate_ports sys tcfg endp cfg = (true, endp', cfg')
    /\ local_port (net_end endp') = new_port (net_ports cfg) (net_end endp).
Proof.
  intros Hs. unfold allocate_ports.
  destruct (allocate_port_willing sys END_NET endp (net_ports cfg) Hs) as (x1 & r1 & -> & H1). cbn [negb].
  match goal with |- context [allocate_port sys END_BTS ?e ?r] =>
    destruct (allocate_port_willing sys END_BTS e r Hs) as (x2 & r2 & -> & _) end. cbn [negb].
  destruct (negb _); [by eexists _, _|].
  match goal with |- context [allocate_port sys END_TRANS_NET ?e ?r] =>
    destruct (allocate_port_willing sys END_TRANS_NET e r Hs) as (x3 & r3 & -> & _) end. cbn [negb].
  match goal with |- context [allocate_port sys END_TRANS_BTS ?e ?r] =>
    destruct (allocate_port_willing sys END_TRANS_BTS e r Hs) as (x4 & r4 & -> & _) end. cbn [negb]. by eexists _, _.
Qed.

(** The answer to a request, with the description of the session (RFC 3435 and RFC 4566). *)
Definition connection_text (trans : list Z) (cid : Z) (ip : list Z) (port payload : Z) (audio : list Z) : list Z :=
  str "200 " ++ trans ++ str " OK" ++ crlf
  ++ str "I: " ++ print_u cid ++ [LF; LF]
  ++ str "v=0" ++ crlf
  ++ str "o=- " ++ print_u cid ++ str " 23 IN IP4 " ++ ip ++ crlf
  ++ str "c=IN IP4 " ++ ip ++ crlf
  ++ str "t=0 0" ++ crlf
  ++ str "m=audio " ++ print_d port ++ str " RTP/AVP " ++ print_d payload ++ crlf
  ++ str "a=rtpmap:" ++ print_d payload ++ str " " ++ audio ++ crlf.

Lemma snprintf_put_short size text : (length text <= size - 1)%nat -> snprintf_put size text = text.
Proof.
  intros Hl. unfold snprintf_put. rewrite take_ge by done. replace (length text - (size - 1))%nat with 0%nat by lia.
  by rewrite app_nil_r.
Qed.

Lemma response_short trans code txt data cfg :
  (length trans + length txt + length (default [] data) <= 1900)%nat ->
  mgcp_create_response_with_data true code txt trans data cfg =
  Some (Some (print_d code ++ str " " ++ trans ++ txt ++ crlf ++ default [] data), cfg, []).
Proof.
  intros Hl. unfold mgcp_create_response_with_data. cbn [negb]. pose proof (length_print_d code).
  assert (length (print_d code ++ str " " ++ trans ++ txt ++ crlf ++ default [] data) <= 2000)%nat.
  { rewrite !length_app, length_str. unfold crlf. cbn [length String.length]. lia. }
  fold crlf. rewrite (proj2 (Nat.ltb_ge _ _)) by (unfold MGCP_TAILROOM; lia). by rewrite snprintf_put_short by lia.
Qed.

Lemma sdp_whole cfg a tcfg e trans :
  config_small cfg -> get_trunk a cfg = Some tcfg ->
  print_d 200 ++ str " " ++ trans ++ str " OK" ++ crlf ++ sdp_record cfg tcfg e
  = connection_text trans (ci e) (default (source_addr cfg) (local_ip cfg)) (local_port (net_end e))
      (payload_type (bts_end e)) (audio_name tcfg).
Proof.
  intros [Hip _ Haudio _ _] Ht. specialize (Haudio _ _ Ht). unfold sdp_record.
  rewrite take_ge; [done|]. rewrite !length_app, !length_str. cbn [String.length length].
  pose proof (length_print_u (ci e)). pose proof (length_print_d (local_port (net_end e))).
  pose proof (length_print_d (payload_type (bts_end e))). lia.
Qed.

(** The answer describes the endpoint. *)
Lemma wp_sdp_exact c0 a P trans Q cfg :
  holds c0 a P cfg -> (length trans <= 1000)%nat ->
  (forall e tcfg, lookup_endp a cfg = Some e -> P e -> get_trunk (er_trunk a) cfg = Some tcfg ->
     Q (Some (connection_text trans (ci e) (default (source_addr cfg) (local_ip cfg)) (local_port (net_end e))
                (payload_type (bts_end e)) (audio_name tcfg))) cfg) ->
  wp (create_response_with_sdp true a trans) Q cfg.
Proof.
  intros Hh Hl HQ. unfold create_response_with_sdp. rewrite wp_bind, wp_gets, wp_bind.
  apply (wp_tcfg_get _ _ _ _ _ Hh). intros tcfg Ht. rewrite wp_bind. apply (wp_endp_get _ _ _ _ _ Hh). intros e He HP.
  pose proof (wb_small _ _ (proj1 Hh)) as Hsm. pose proof (length_sdp cfg _ tcfg e Hsm Ht). unfold id.
  eapply wp_run; [apply response_short; cbn [default]; rewrite length_str; cbn [String.length]; unfold id; lia|].
  cbn [default]. unfold id. rewrite (sdp_whole _ _ _ _ trans Hsm Ht). by apply HQ.
Qed.

(** *** What a request leaves alone *)

(** All but the endpoint [a], the ranges and the last identifier is as in [c0]; the next port is that of [r]. *)
Definition framed (c0 : mgcp_config) (a : endp_ref) (r : mgcp_port_range) (cfg : mgcp_config) : Prop :=
  (forall b, b <> a -> lookup_endp b cfg = lookup_endp b c0)
  /\ local_ip cfg = local_ip c0 /\ source_addr cfg = source_addr c0 /\ net_ports cfg = r
  /\ forall t, (fun tcfg => (audio_name tcfg, audio_payload tcfg)) <$> get_trunk t cfg
              = (fun tcfg => (audio_name tcfg, audio_payload tcfg)) <$> get_trunk t c0.

Lemma framed_refl cfg a : framed cfg a (net_ports cfg) cfg.
Proof. done. Qed.
Lemma keeps_frame_upd c0 a r f : keeps (framed c0 a r) (endp_upd a f).
Proof.
  intros cfg (Hb & Hi & Hs & Hr & Ht). unfold endp_upd, endp_get. destruct (lookup_endp a cfg) as [e|] eqn:He.
  2:{ unfold wlp, mbind, M_bind, gets. by rewrite He. }
  unfold wlp, mbind, M_bind, gets. rewrite He. cbn -[framed alter_endp lookup_endp].
  split_and!.
  - intros b Hne. by rewrite lookup_alter_endp, decide_False, Hb.
  - rewrite <- Hi. by destruct (er_trunk a) eqn:E; unfold alter_endp; rewrite E.
  - rewrite <- Hs. by destruct (er_trunk a) eqn:E; unfold alter_endp; rewrite E.
  - rewrite <- Hr. by destruct (er_trunk a) eqn:E; unfold alter_endp; rewrite E.
  - intros t. rewrite <- Ht. unfold alter_endp. rewrite get_trunk_alter. case_decide; [|done].
    by destruct (get_trunk t cfg).
Qed.
#[local] Hint Resolve keeps_frame_upd : keeps.
Lemma keeps_frame_call_id c0 a r : keeps (framed c0 a r) generate_call_id.
Proof.
  unfold generate_call_id, deref. keeps_tac. apply keeps_modify. intros cfg (? & ? & ? & ? & Ht). by split_and!.
Qed.
Lemma keeps_frame_transcoder c0 a r : keeps (framed c0 a r) (create_transcoder a).
Proof. unfold create_transcoder, send_msg, send_trans, endp_get, tcfg_get, deref. keeps_tac. Qed.
(** A step of a program that keeps the frame. *)
Lemma wp_frame {A} c0 a r (m : MG A) Q cfg :
  keeps (framed c0 a r) m -> framed c0 a r cfg -> wp m (fun x cfg' => framed c0 a r cfg' -> Q x cfg') cfg -> wp m Q cfg.
Proof.
  intros Hk Hf Hw. specialize (Hk _ Hf). unfold wp, wlp in *. destruct (m cfg) as [[[x cfg'] ev]|]; [|done]. by apply Hw.
Qed.

(** An endpoint with a new connection: the identifier is new in the virtual trunk, the port is that of the endpoint [e0] or the
    next of the range, and its sockets are open when it is from the range. *)
Record has_call (c0 : mgcp_config) (e0 : mgcp_endpoint) (call : list Z) (m payload : Z) (e : mgcp_endpoint) : Prop := {
  hc_allocated : allocated e = true;
  hc_ci : ci e <> CI_UNUSED;
  hc_fresh : forall i x, (1 <= i)%nat -> lookup_endp (mk_endp_ref None i) c0 = Some x -> ci x <> ci e;
  hc_callid : callid e = Some call;
  hc_mode : conn_mode e = m;
  hc_payload : payload_type (bts_end e) = payload;
  hc_port : local_port (net_end e) = new_port (net_ports c0) (net_end e0);
  hc_sockets : dynamic c0 END_NET = true -> rtp_fd (net_end e) = true /\ rtcp_fd (net_end e) = true
}.

Lemma wp_crcx_create_ok sys c0 a trans call m cfg e0 :
  willing sys -> (length trans <= 1000)%nat -> framed c0 a (net_ports c0) cfg ->
  holds c0 a (fun e => claimed c0 e /\ callid e = Some call /\ conn_mode e = m
                       /\ local_port (net_end e) = local_port (net_end e0)) cfg ->
  (forall i x, a = mk_endp_ref None i -> lookup_endp a c0 = Some x -> ci x = CI_UNUSED) ->
  wp (crcx_create sys a trans) (fun r cfg' => exists e tcfg rng, lookup_endp a cfg' = Some e
    /\ get_trunk (er_trunk a) c0 = Some tcfg /\ has_call c0 e0 call m (audio_payload tcfg) e /\ framed c0 a rng cfg'
    /\ r = Some (connection_text trans (ci e) (default (source_addr c0) (local_ip c0)) (local_port (net_end e))
                   (audio_payload tcfg) (audio_name tcfg))) cfg.
Proof.
  intros Hs Hl Hf Hh Hown. set (P := fun e => _) in Hh. unfold crcx_create. rewrite wp_bind.
  apply (wp_frame c0 a (net_ports c0)); [auto with keeps|done|]. apply (wp_endp_upd c0 a _ _ P _ _ Hh).
  { intros e ((C1 & C2 & C3 & C4 & C5 & C6) & Hid & Hm & Hp). split; [|by left]. split; [|done].
    do 4 (split; [done|]). split; [done|]. intros w. specialize (C6 w). by destruct w. }
  clear cfg Hf Hh. intros cfg Hh Hf. rewrite wp_bind. apply (wp_tcfg_get _ _ _ _ _ Hh). intros tcfg1 Ht1.
  assert (exists tcfg, get_trunk (er_trunk a) c0 = Some tcfg /\ audio_payload tcfg1 = audio_payload tcfg) as (tcfg & Ht & Hpay).
  { destruct Hf as (_ & _ & _ & _ & Hg). specialize (Hg (er_trunk a)). rewrite Ht1 in Hg.
    destruct (get_trunk (er_trunk a) c0) as [tcfg|]; [|done]. exists tcfg. cbn in Hg. by injection Hg. }
  rewrite wp_bind. apply (wp_endp_get _ _ _ _ _ Hh). intros endp He ((C1 & C2 & C3 & C4 & C5) & Hid & Hm & Hp).
  rewrite wp_bind, wp_gets. unfold id. destruct (allocate_ports_willing sys tcfg1 endp cfg Hs) as (endp' & cfg' & Hap & Hport).
  rewrite Hap. rewrite <- (proj1 (proj2 Hh)) in C5.
  destruct (allocate_ports_spec sys _ _ _ _ _ _ Hap C5) as (Hlike & (F1 & F2 & F3 & F4 & Hmode) & _ & Hnet & _).
  rewrite wp_bind, wp_modify.
  assert (Hf1 : framed c0 a (net_ports cfg') cfg').
  { destruct Hlike as (E1 & E2 & E3 & E4 & _), Hf as (G1 & G2 & G3 & _ & G5).
    assert (forall t, get_trunk t cfg' = get_trunk t cfg) as Hg by (intros [k|]; cbn; congruence).
    split_and!; [|congruence|congruence|done|intros t; by rewrite Hg].
    intros b Hb. rewrite <- G1 by done. unfold lookup_endp. by rewrite Hg. }
  assert (Hh1 : holds c0 a (fun e => e = endp) cfg').
  { apply (like_holds _ _ _ _ _ Hlike). destruct Hh as (? & ? & e & He' & _). split; [done|]. split; [done|]. by exists endp. }
  revert Hf1. generalize (net_ports cfg'). intros rng Hf1.
  rewrite wp_bind. apply (wp_frame c0 a rng); [auto with keeps|done|].
  apply (wp_endp_upd c0 a _ _ (fun e => e = endp') _ _ Hh1); [intros e ->; by rewrite F2; auto|].
  clear Hh1 Hf1. intros cfg1 Hh1 Hf1. cbn [negb].
  rewrite wp_bind. apply (wp_frame c0 a rng); [apply keeps_frame_call_id|done|].
  apply (wp_generate_call_id _ _ _ _ _ Hh1). intros cid cfg2 Hne Hh2 Hu Hf2.
  rewrite wp_bind. apply (wp_frame c0 a rng); [auto with keeps|done|].
  apply (wp_set_ci c0 a cid _ (fun e => e = endp' <| ci := cid |>) _ _ Hh2 Hu); [by intros e ->|].
  intros cfg3 Hh3 Hf3. destruct (Z.eqb_spec cid CI_UNUSED); [done|].
  rewrite wp_bind. apply (wp_frame c0 a rng); [auto with keeps|done|].
  apply (wp_endp_upd c0 a _ _ (has_call c0 e0 call m (audio_payload tcfg)) _ _ Hh3).
  { intros e ->. split; [|by left]. split; cbn; try done.
    - intros i x Hi Hx. destruct (decide (a = mk_endp_ref None i)) as [Ea|Ea].
      + rewrite (Hown i x Ea); [done|by rewrite Ea].
      + apply (Hu i x Hi). by rewrite (proj1 Hf2) by done.
    - by rewrite F3.
    - by rewrite Hmode.
    - rewrite Hport. unfold new_port. by rewrite Hp, (proj1 (proj2 (proj2 (proj2 Hf)))).
    - intros Hd. rewrite (proj1 (proj2 Hh)) in Hnet. destruct (Hnet Hd) as (? & ? & _). done. }
  intros cfg4 Hh4 Hf4. rewrite (wi_policy _ Hs).
  replace (if policy_cb cfg' then MGCP_POLICY_CONT else MGCP_POLICY_CONT) with MGCP_POLICY_CONT by (by destruct (policy_cb cfg')).
  rewrite wp_bind, wp_when.
  enough (Hgo : wp (create_transcoder a ≫= λ _, create_response_with_sdp (sys_mem sys) a trans)
    (fun r cfg' => exists e tcfg rng, lookup_endp a cfg' = Some e
    /\ get_trunk (er_trunk a) c0 = Some tcfg /\ has_call c0 e0 call m (audio_payload tcfg) e /\ framed c0 a rng cfg'
    /\ r = Some (connection_text trans (ci e) (default (source_addr c0) (local_ip c0)) (local_port (net_end e))
                   (audio_payload tcfg) (audio_name tcfg))) cfg4) by (by destruct (change_cb cfg')).
  rewrite wp_bind. apply (wp_frame c0 a rng); [apply keeps_frame_transcoder|done|].
  apply (wp_create_transcoder_with c0 a (has_call c0 e0 call m (audio_payload tcfg)));
    [by intros [| | |] x y e [? ? ? ? ? ? ? ?]; split|done|]. intros cfg5 Hh5 Hf5.
  rewrite (wi_mem _ Hs). apply (wp_sdp_exact _ _ _ _ _ _ Hh5 Hl). intros e tcfg2 He5 HP Ht2. exists e, tcfg, rng.
  split_and!; try done. destruct Hf5 as (_ & -> & -> & _ & Hg). specialize (Hg (er_trunk a)). rewrite Ht2, Ht in Hg.
  injection Hg as -> _. by rewrite (hc_payload _ _ _ _ _ _ HP).
Qed.

(** *** The message of a call agent *)

Lemma handle_request sys verb trans name lines stale cfg h :
  length verb = 4%nat ->
  (forall p, scan_int 3 (verb ++ 32 :: p) = None) ->
  List.find (fun r => strncmp_eq (fst r) verb) (mgcp_requests sys) = Some (verb, h) ->
  mgcp_handle_message sys (length (request verb trans name lines)) (request verb trans name lines ++ stale) cfg =
  h (length (header 32 CR trans name) + length (lines_text lines))%nat (header 32 CR trans name ++ lines_text lines ++ stale) cfg.
Proof.
  intros Hv Hscan Hfind. unfold mgcp_handle_message.
  assert (E : request verb trans name lines = verb ++ header 32 CR trans name ++ lines_text lines).
  { unfold request, header. by rewrite <- !app_assoc. }
  rewrite E, <- app_assoc. rewrite !length_app, Hv. replace (4 + _ <? 4)%nat with false by (symmetry; apply Nat.ltb_ge; lia).
  rewrite <- !app_assoc.
  assert (Hsc : scan_int 3 (verb ++ header 32 CR trans name ++ lines_text lines ++ stale) = None) by exact (Hscan _).
  rewrite Hsc.
  assert (Hf : List.find (fun r => strncmp_eq (fst r) (verb ++ header 32 CR trans name ++ lines_text lines ++ stale)) (mgcp_requests sys)
               = Some (verb, h)).
  { rewrite <- Hfind. unfold mgcp_requests.
    assert (Hq : forall x, length x = 4%nat -> strncmp_eq x (verb ++ header 32 CR trans name ++ lines_text lines ++ stale) = strncmp_eq x verb).
    { intros x Hx. unfold strncmp_eq. rewrite Hx. by rewrite take_app_length', take_ge by lia. }
    cbn [List.find fst]. by rewrite !Hq by done. }
  rewrite Hf. rewrite drop_app_length' by done. by rewrite Nat.add_comm, Nat.add_sub.
Qed.

Lemma param_line_of (c : Z) v : Forall no_eol (c :: str ": " ++ v) -> param_line (c :: str ": " ++ v).
Proof. intros Hv. split; [done|]. split; [cbn; lia|done]. Qed.
Lemma cstr_no_zero w p : Forall no_eol w -> cstr (w ++ 0 :: p) = w.
Proof.
  induction 1 as [|c w (_ & _ & Hc) Hw IH]; [done|]. cbn. rewrite (proj2 (Z.eqb_neq _ _) Hc). by f_equal.
Qed.
Lemma cstr_same w p : Forall no_eol w -> cstr (w ++ 0 :: p) = cstr w.
Proof.
  intros Hw. rewrite cstr_no_zero by done. induction Hw as [|c w (_ & _ & Hc) Hw IH]; [done|]. cbn.
  rewrite (proj2 (Z.eqb_neq _ _) Hc). by f_equal.
Qed.
Lemma parse_conn_mode_line w p : Forall no_eol w -> parse_conn_mode (w ++ 0 :: p) = parse_conn_mode w.
Proof. intros Hw. unfold parse_conn_mode, strcmp_eq. by rewrite cstr_same. Qed.

Definition c_line (call : list Z) : list Z := 67 :: str ": " ++ call.
Definition m_line (mode : list Z) : list Z := 77 :: str ": " ++ mode.
Definition i_line (cid : Z) : list Z := 73 :: str ": " ++ print_u cid.

(** The value of a line that was cut. *)
Lemma drop_value pre (c : Z) v rest : drop (length pre + 3) (pre ++ (c :: str ": " ++ v) ++ rest) = v ++ rest.
Proof. rewrite <- drop_drop. by rewrite drop_app_length. Qed.

Lemma run_lines_step {A R} (body : list Z -> nat -> A -> MG (A + R)) pre w ws rest a a' cfg :
  body (pre ++ w ++ 0 :: 0 :: lines_text ws ++ rest) (length pre) a cfg = Some (inl a', cfg, []) ->
  run_lines body pre (w :: ws) rest a cfg = run_lines body (pre ++ w ++ [0; 0]) ws rest a' cfg.
Proof. intros Hb. cbn [run_lines]. rewrite (run_bind _ _ _ _ _ _ Hb). by rewrite emits_nil. Qed.
Lemma rd_line pre c v rest : rd (pre ++ (c :: v) ++ rest) (length pre) = c.
Proof. apply rd_at. Qed.

Lemma crcx_lines pre call mode rest cfg :
  run_lines crcx_line pre [c_line call; m_line mode] rest (mk_crcx_params None None None) cfg =
  Some (inl (pre ++ cut_lines [c_line call; m_line mode] ++ rest,
             mk_crcx_params None (Some (length pre + 3)%nat) (Some (length (pre ++ c_line call ++ [0%Z; 0%Z]) + 3)%nat)), cfg, []).
Proof.
  rewrite (run_lines_step _ _ _ _ _ _ (mk_crcx_params None (Some (length pre + 3)%nat) None))
    by (unfold crcx_line, c_line; by rewrite rd_line).
  rewrite (run_lines_step _ _ _ _ _ _ (mk_crcx_params None (Some (length pre + 3)%nat) (Some (length (pre ++ c_line call ++ [0%Z; 0%Z]) + 3)%nat)))
    by (unfold crcx_line, m_line; by rewrite rd_line).
  cbn [run_lines]. unfold mret, M_ret. do 4 f_equal. unfold cut_lines. cbn [map concat]. by rewrite <- !app_assoc.
Qed.

Lemma wf_number cfg : mgcp_wf cfg -> 0 <= number_endpoints (trunk cfg) <= 65535.
Proof. intros Hwf. apply (cs_number _ (wb_small _ _ Hwf)). Qed.

Lemma analyze_endp cfg trans n rest len :
  word trans -> 1 <= n < number_endpoints (trunk cfg) -> number_endpoints (trunk cfg) <= 65535 ->
  (length (header 32 CR trans (endp_name n)) <= len)%nat ->
  mgcp_analyze_header cfg len (header 32 CR trans (endp_name n) ++ rest) =
  (0, header 0 0 trans (endp_name n) ++ rest, trans, Some (mk_endp_ref None (Z.to_nat n))).
Proof.
  intros Ht Hn Hmax Hl. apply analyze_request; [done|apply word_endp_name|done|].
  replace (drop (2 + length trans + length (endp_name n)) (header 0 0 trans (endp_name n)) ++ rest)
    with (0 :: (str "MGCP" ++ [0] ++ str "1.0" ++ [0; LF]) ++ rest); [by apply find_virtual|].
  unfold header.
  replace ([32] ++ trans ++ [0] ++ endp_name n ++ [0] ++ str "MGCP" ++ [0] ++ str "1.0" ++ [0; LF])
    with (([32] ++ trans ++ [0] ++ endp_name n) ++ [0] ++ str "MGCP" ++ [0] ++ str "1.0" ++ [0; LF]) by (by rewrite <- !app_assoc).
  rewrite drop_app_length' by (rewrite !length_app; cbn; lia). done.
Qed.

(** C19: A call agent gets its connection. When the request names an endpoint of the virtual trunk that is free
    and the system has memory and ports and does not object, CRCX puts the call and the mode at the endpoint,
    with an identifier that no endpoint of the virtual trunk had, and changes no other endpoint. The port is the next of
    the range (from its first port again when the range is used up), with the sockets of RTP and RTCP open, or the
    endpoint's own when ports are fixed. The answer is exactly the transaction, the identifier and a
    description of the session with the address of the gateway, that port, and the payload type and
    codec of the trunk. *)
Theorem crcx_creates_connection sys cfg trans n call mode m e stale :
  mgcp_reach cfg -> willing sys -> 1 <= n < number_endpoints (trunk cfg) ->
  lookup_endp (mk_endp_ref None (Z.to_nat n)) cfg = Some e -> allocated e = false ->
  word trans -> (length trans <= 1000)%nat -> Forall no_eol call -> Forall no_eol mode -> parse_conn_mode mode = Some m ->
  let msg := request (str "CRCX") trans (endp_name n) [c_line call; m_line mode] in
  let a := mk_endp_ref None (Z.to_nat n) in
  let tcfg := trunk cfg in
  exists cfg' ev e',
    mgcp_handle_message sys (length msg) (msg ++ stale) cfg
    = Some (Some (connection_text trans (ci e') (default (source_addr cfg) (local_ip cfg)) (local_port (net_end e'))
                    (audio_payload tcfg) (audio_name tcfg)), cfg', ev)
    /\ lookup_endp a cfg' = Some e' /\ has_call cfg e call m (audio_payload tcfg) e'
    /\ forall b, b <> a -> lookup_endp b cfg' = lookup_endp b cfg.
Proof.
  intros Hr Hs Hn He Hal Ht Htl Hcall Hmode Hm msg a tcfg. apply mgcp_reach_wf in Hr. fold a in He. unfold msg.
  rewrite (handle_request sys _ _ _ _ _ _ (handle_create_con sys)) by done.
  assert (Hw : wp (handle_create_con sys (length (header 32 CR trans (endp_name n)) + length (lines_text [c_line call; m_line mode]))
      (header 32 CR trans (endp_name n) ++ lines_text [c_line call; m_line mode] ++ stale))
    (fun r cfg' => exists e' tcfg rng, lookup_endp a cfg' = Some e'
      /\ get_trunk (er_trunk a) cfg = Some tcfg /\ has_call cfg e call m (audio_payload tcfg) e' /\ framed cfg a rng cfg'
      /\ r = Some (connection_text trans (ci e') (default (source_addr cfg) (local_ip cfg)) (local_port (net_end e'))
                   (audio_payload tcfg) (audio_name tcfg))) cfg).
  2: { destruct (wp_elim _ _ _ Hw) as (r & cfg' & ev & Hrun & e' & tc & rng & He' & [= <-] & Hcl & Hf & ->).
       exists cfg', ev, e'. split_and!; [exact Hrun|done..|apply Hf]. }
  unfold handle_create_con. rewrite wp_bind, wp_gets. unfold id.
  rewrite analyze_endp by (done || lia || (pose proof (wf_number _ Hr); lia)). fold a.
  rewrite wp_bind. eapply wp_run.
  { rewrite tokenize_request; [apply crcx_lines|done|apply word_endp_name|].
    repeat (apply Forall_cons_2; [apply param_line_of; repeat (apply Forall_cons_2; [by vm_compute|]); done|]). apply Forall_nil_2. }
  pose proof (wf_holds _ a Hr (ex_intro _ e He)) as Hh0.
  rewrite wp_bind. apply (wp_tcfg_get _ _ _ _ _ Hh0). intros tcfg1 _.
  rewrite wp_bind. apply (wp_endp_get _ _ _ _ _ Hh0). intros e0 He0 Ho. rewrite He in He0. injection He0 as <-.
  assert (ci e = CI_UNUSED) as Hunused.
  { pose proof (eo_ci _ _ Ho) as Hc. rewrite Hal in Hc. destruct (Z.eqb_spec (ci e) CI_UNUSED); done. }
  rewrite Hal. rewrite wp_bind, wp_ret. unfold crcx_take.
  set (pre := header 0 0 trans (endp_name n)).
  assert (Vc : drop (length pre + 3) (pre ++ cut_lines [c_line call; m_line mode] ++ stale)
               = call ++ 0 :: 0 :: m_line mode ++ 0 :: 0 :: stale).
  { unfold cut_lines, c_line. cbn [map concat]. rewrite <- !app_assoc. rewrite drop_value. done. }
  assert (Vm : drop (length (pre ++ c_line call ++ [0; 0]) + 3) (pre ++ cut_lines [c_line call; m_line mode] ++ stale)
               = mode ++ 0 :: 0 :: stale).
  { unfold cut_lines, m_line. cbn [map concat]. 
    replace (pre ++ ((c_line call ++ [0; 0]) ++ ((77 :: str ": " ++ mode) ++ [0; 0]) ++ []) ++ stale)
      with ((pre ++ c_line call ++ [0; 0]) ++ (77 :: str ": " ++ mode) ++ 0 :: 0 :: stale) by (by rewrite <- !app_assoc).
    by rewrite drop_value. }
  rewrite Vc, Vm, cstr_no_zero, parse_conn_mode_line, Hm by done.
  assert (Hh1 : holds cfg a (fun x => x = e) cfg).
  { destruct Hh0 as (? & ? & _). split; [done|]. split; [done|]. by exists e. }
  pose proof (framed_refl cfg a) as Hf.
  rewrite wp_bind. apply (wp_frame cfg a (net_ports cfg)); [auto with keeps|done|].
  apply (wp_endp_upd cfg a _ _ (fun x => claimed cfg x /\ callid x = Some call /\ local_port (net_end x) = local_port (net_end e)) _ _ Hh1).
  { intros x ->. split; [|by left]. split; [|done]. split; [done|]. split; [done|].
    split; [by eexists|]. split; [apply (eo_taps _ _ Ho)|]. apply (unused_portless _ _ Ho Hal). }
  clear Hh0 Hh1 Hf. intros cfg1 Hh1 Hf. rewrite wp_bind, wp_ret. rewrite wp_bind.
  apply (wp_frame cfg a (net_ports cfg)); [auto with keeps|done|].
  apply (wp_endp_upd cfg a _ _ (fun x => claimed cfg x /\ callid x = Some call /\ conn_mode x = m
    /\ local_port (net_end x) = local_port (net_end e)) _ _ Hh1).
  { intros x (Hc & Hi & Hp). split; [|by left]. done. }
  intros cfg2 Hh2 Hf2. apply (wp_crcx_create_ok sys cfg); try done. intros i x _ Hx. by simplify_eq.
Qed.

(** *** The end of a call *)

Lemma run_endp_get a cfg e : lookup_endp a cfg = Some e -> endp_get a cfg = Some (e, cfg, []).
Proof. intros He. unfold endp_get, mbind, M_bind, gets. by rewrite He. Qed.
Lemma run_endp_upd a f cfg e : lookup_endp a cfg = Some e -> endp_upd a f cfg = Some (tt, alter_endp a f cfg, []).
Proof. intros He. unfold endp_upd. by rewrite (run_bind _ _ _ _ _ _ (run_endp_get _ _ _ He)). Qed.

Lemma dlcx_call_line a cfg e pre call rest silent :
  lookup_endp a cfg = Some e -> is_Some (callid e) -> Forall no_eol call ->
  dlcx_line a (pre ++ c_line call ++ 0 :: rest) (length pre) silent cfg =
  Some (if decide (callid e = Some call) then inl silent else inr 400, cfg, []).
Proof.
  intros He [id Hid] Hcall. unfold dlcx_line, c_line. rewrite rd_line, drop_value.
  change (67 =? 67) with true. cbv iota zeta. rewrite (run_bind _ _ _ _ _ _ (run_endp_get _ _ _ He)).
  unfold verify_call_id. rewrite Hid, cstr_no_zero by done. unfold mbind, M_bind, deref, mret, M_ret. cbn.
  case_bool_decide as E; case_decide as E'; simplify_eq; done.
Qed.
Lemma dlcx_ci_line a cfg e pre cid rest silent :
  lookup_endp a cfg = Some e -> 0 < cid < 2 ^ 32 ->
  dlcx_line a (pre ++ i_line cid ++ 0 :: rest) (length pre) silent cfg =
  Some (if ci e =? cid then inl silent else inr 400, cfg, []).
Proof.
  intros He Hcid. unfold dlcx_line, i_line. rewrite rd_line, drop_value.
  change (73 =? 67) with false. change (73 =? 73) with true. cbv iota zeta.
  rewrite (run_bind _ _ _ _ _ _ (run_endp_get _ _ _ He)).
  unfold verify_ci, print_u. rewrite strtoul_print; [|by left|lia|unfold ULONG_MAX; lia|done].
  cbn [fst]. rewrite wrap_small by (unfold in_width; lia). rewrite (Z.eqb_sym (ci e) cid). by destruct (cid =? ci e).
Qed.

Lemma dlcx_lines a cfg e pre call cid rest :
  lookup_endp a cfg = Some e -> is_Some (callid e) -> Forall no_eol call -> 0 < cid < 2 ^ 32 ->
  run_lines (dlcx_line a) pre [c_line call; i_line cid] rest false cfg =
  Some (if decide (callid e = Some call /\ ci e = cid)
        then inl (pre ++ cut_lines [c_line call; i_line cid] ++ rest, false) else inr 400, cfg, []).
Proof.
  intros He Hid Hcall Hcid. cbn [run_lines].
  pose proof (dlcx_call_line a cfg e pre call (0 :: lines_text [i_line cid] ++ rest) false He Hid Hcall) as R1.
  rewrite (run_bind _ _ _ _ _ _ R1), emits_nil.
  destruct (decide (callid e = Some call)) as [Ec|Ec]; [|by rewrite decide_False by tauto].
  pose proof (dlcx_ci_line a cfg e (pre ++ c_line call ++ [0; 0]) cid (0 :: lines_text [] ++ rest) false He Hcid) as R2.
  rewrite (run_bind _ _ _ _ _ _ R2), emits_nil.
  destruct (Z.eqb_spec (ci e) cid) as [Ei|Ei]; [rewrite decide_True by done|by rewrite decide_False by tauto].
  unfold mret, M_ret. do 4 f_equal. unfold cut_lines. cbn [map concat]. by rewrite <- !app_assoc.
Qed.

Lemma i_line_ok cid : param_line (i_line cid).
Proof.
  apply param_line_of. repeat (apply Forall_cons_2; [by vm_compute|]).
  eapply Forall_impl; [apply (print_base_chars 10); [lia|done]|]. unfold is_digit_char, no_eol, CR, LF. lia.
Qed.
Lemma c_line_ok call : Forall no_eol call -> param_line (c_line call).
Proof. intros Hc. apply param_line_of. by repeat (apply Forall_cons_2; [by vm_compute|]). Qed.

(** C18: a connection is deleted by who knows it. DLCX with the call and the identifier of the connection answers
    250, frees the endpoint and touches no other one; with another call or another identifier it answers 400 and
    changes nothing. *)
Theorem dlcx_checked sys cfg trans n call cid e stale :
  mgcp_reach cfg -> willing sys -> 1 <= n < number_endpoints (trunk cfg) ->
  lookup_endp (mk_endp_ref None (Z.to_nat n)) cfg = Some e -> allocated e = true ->
  word trans -> (length trans <= 1000)%nat -> Forall no_eol call -> 0 < cid < 2 ^ 32 ->
  let msg := request (str "DLCX") trans (endp_name n) [c_line call; i_line cid] in
  exists r cfg' ev, mgcp_handle_message sys (length msg) (msg ++ stale) cfg = Some (Some r, cfg', ev) /\
    if decide (callid e = Some call /\ ci e = cid)
    then r = str "250 " ++ trans ++ str " OK" ++ crlf /\
         forall b, lookup_endp b cfg' = if decide (b = mk_endp_ref None (Z.to_nat n)) then Some (mgcp_free_endp e)
                                        else lookup_endp b cfg
    else r = str "400 " ++ trans ++ str " FAIL" ++ crlf /\ cfg' = cfg /\ ev = [].
Proof.
  intros Hr Hs Hn He Hal Ht Htl Hcall Hcid msg. apply mgcp_reach_wf in Hr.
  set (a := mk_endp_ref None (Z.to_nat n)) in *. unfold msg.
  rewrite (handle_request sys _ _ _ _ _ _ (handle_delete_con sys)) by done.
  assert (Hid : is_Some (callid e)).
  { pose proof (eo_callid _ _ (wb_ok _ _ Hr a e ltac:(done) He)) as Hc. rewrite Hal in Hc. symmetry in Hc. by apply bool_decide_eq_true in Hc. }
  destruct (get_trunk (er_trunk a) cfg) as [tcfg|] eqn:Htr; [|by unfold lookup_endp in He; rewrite Htr in He].
  assert (Hrun : forall k, (tcfg_get a ≫= k) cfg = k tcfg cfg :> option (option (list Z) * mgcp_config * list mgcp_event)).
  { intros k. unfold tcfg_get, mbind, M_bind, gets. rewrite Htr. cbn. by destruct (k tcfg cfg) as [[[? ?] ?]|]. }
  unfold handle_delete_con. unfold mbind at 1, M_bind at 1, gets at 1. unfold id.
  rewrite analyze_endp by (done || lia || (pose proof (wf_number _ Hr); lia)). fold a.
  rewrite Hrun. rewrite (run_bind _ _ _ _ _ _ (run_endp_get _ _ _ He)), emits_nil. rewrite Hal. cbn [negb].
  assert (Htok : forall rest, tokenize (dlcx_line a) 400
     (length (header 32 CR trans (endp_name n)) + length (lines_text [c_line call; i_line cid])) 0 0
     (header 0 0 trans (endp_name n) ++ lines_text [c_line call; i_line cid] ++ rest) false cfg =
     Some (if decide (callid e = Some call /\ ci e = cid)
           then inl (header 0 0 trans (endp_name n) ++ cut_lines [c_line call; i_line cid] ++ rest, false) else inr 400, cfg, [])).
  { intros rest. rewrite tokenize_request; [by apply dlcx_lines|done|apply word_endp_name|].
    apply Forall_cons_2; [by apply c_line_ok|]. apply Forall_cons_2; [apply i_line_ok|]. apply Forall_nil_2. }
  rewrite (run_bind _ _ _ _ _ _ (Htok stale)), emits_nil.
  unfold ok_response, err_response, create_ok_response, create_err_response. rewrite (wi_mem _ Hs).
  destruct (decide (callid e = Some call /\ ci e = cid)) as [Hsame|Hdiff].
  - rewrite (wi_policy _ Hs).
    replace (if policy_cb cfg then MGCP_POLICY_CONT else MGCP_POLICY_CONT) with MGCP_POLICY_CONT by (by destruct (policy_cb cfg)).
    assert (Hdel : exists ev, delete_transcoder a cfg = Some (tt, cfg, ev)).
    { pose proof (wf_holds _ a Hr (ex_intro _ e He)) as Hh.
      destruct (wp_elim _ (fun _ c => c = cfg) cfg (wp_delete_transcoder _ _ _ _ _ Hh eq_refl)) as ([] & c & ev & Hd & ->). eauto. }
    destruct Hdel as [ev1 Hdel]. rewrite (run_bind _ _ _ _ _ _ Hdel).
    rewrite (run_bind _ _ _ _ _ _ (run_endp_upd _ _ _ _ He)), emits_nil.
    set (cfg' := alter_endp a mgcp_free_endp cfg).
    assert (Hwhen : exists ev, when (change_cb cfg) (emit (EvChange (trunk_nr tcfg) (er_nr a) MGCP_ENDP_DLCX)) cfg' = Some (tt, cfg', ev))
      by (destruct (change_cb cfg); by eexists).
    destruct Hwhen as [ev2 Hwhen]. rewrite (run_bind _ _ _ _ _ _ Hwhen). cbv iota.
    rewrite response_short by (rewrite length_str; cbn; lia). cbn [emits].
    eexists _, _, _. split; [done|]. split; [done|]. intros b. unfold cfg'. rewrite lookup_alter_endp.
    case_decide as Eb; [by rewrite Eb, He|done].
  - rewrite response_short by (rewrite length_str; cbn; lia). cbn [emits].
    eexists _, _, _. split; [done|]. done.
Qed.

End calls.

(** ** A gateway at work *)

Definition demo_env : MgcpEnv := {| inet_aton := fun _ => None; sendto := fun _ _ buf => Z.of_nat (length buf) |}.
Definition demo_sys : mgcp_sys := mk_mgcp_sys true (fun _ _ _ => (true, true, true, true)) MGCP_POLICY_CONT.
Definition demo_range : mgcp_port_range := mk_mgcp_port_range PORT_ALLOC_DYNAMIC 0 20000 21000 20000.
Definition demo_cfg : mgcp_config :=
  mgcp_config_alloc <| bts_ports := demo_range |> <| net_ports := demo_range |>
    <| trunk ::= fun t => snd (mgcp_endpoints_allocate true (t <| number_endpoints := 3 |>)) |>.

Lemma demo_start : mgcp_start demo_cfg.
Proof.
  assert (Hl : forall a e, lookup_endp a demo_cfg = Some e -> e = new_endpoint).
  { intros [[k|] i] e He; [done|]. cbn in He. do 3 (destruct i as [|i]; [by injection He as <-|]). done. }
  split.
  - split; [cbn; lia|cbn; lia| |cbn; lia|by vm_compute]. intros [k|] tcfg Ht; [done|]. injection Ht as <-. cbn. lia.
  - split; [by eexists|]. intros [k|] tcfg l Ht; [done|]. injection Ht as <-. by intros [= <-].
  - intros a e He. rewrite (Hl a e He). unfold started. eexists _, _, _, _. split; [reflexivity|]. by intros [| | |].
Qed.

Definition demo_trans : list Z := str "7".
Definition demo_call : list Z := str "4711".
Definition demo_crcx : list Z := request (str "CRCX") demo_trans (endp_name 1) [c_line demo_call; m_line (str "sendrecv")].
(** After the call agent asked for a connection. *)
Definition demo_connected : mgcp_config :=
  match mgcp_handle_message (H := demo_env) demo_sys (length demo_crcx) demo_crcx demo_cfg with
  | Some (_, cfg, _) => cfg
  | None => demo_cfg
  end.
Lemma demo_reach : mgcp_reach (H := demo_env) demo_connected.
Proof.
  apply (reach_step demo_cfg (OpMessage demo_sys (length demo_crcx) demo_crcx)
           (match mgcp_handle_message (H := demo_env) demo_sys (length demo_crcx) demo_crcx demo_cfg with Some (r, _, _) => r | None => None end)
           _ (match mgcp_handle_message (H := demo_env) demo_sys (length demo_crcx) demo_crcx demo_cfg with Some (_, _, ev) => ev | None => [] end)).
  - by apply reach_start, demo_start.
  - apply Nat.leb_le. by vm_compute.
  - vm_compute. reflexivity.
Qed.

Lemma crcx_creates_connection_witness :
  let msg := request (str "CRCX") (str "9") (endp_name 2) [c_line (str "4712"); m_line (str "recvonly")] in
  exists cfg' ev e',
    mgcp_handle_message (H := demo_env) demo_sys (length msg) (msg ++ []) demo_connected
    = Some (Some (connection_text (str "9") (ci e') (default (source_addr demo_connected) (local_ip demo_connected))
                    (local_port (net_end e')) 126 (str "AMR/8000")), cfg', ev)
    /\ lookup_endp (mk_endp_ref None 2) cfg' = Some e'
    /\ has_call demo_connected new_endpoint (str "4712") MGCP_CONN_RECV_ONLY 126 e'
    /\ forall b, b <> mk_endp_ref None 2 -> lookup_endp b cfg' = lookup_endp b demo_connected.
Proof.
  apply (crcx_creates_connection (H := demo_env) demo_sys demo_connected (str "9") 2 (str "4712") (str "recvonly")
           MGCP_CONN_RECV_ONLY new_endpoint []).
  - apply demo_reach.
  - by split.
  - by vm_compute.
  - by vm_compute.
  - done.
  - word_tac.
  - cbn. lia.
  - repeat (apply Forall_cons_2; [repeat split; by vm_compute|]). apply Forall_nil_2.
  - repeat (apply Forall_cons_2; [repeat split; by vm_compute|]). apply Forall_nil_2.
  - done.
Defined.

Ltac line_tac := repeat (apply Forall_cons_2; [repeat split; by vm_compute|]); apply Forall_nil_2.

(** The endpoint of the first call. *)
Definition demo_endp : mgcp_endpoint := default new_endpoint (lookup_endp (mk_endp_ref None 1) demo_connected).
Lemma dlcx_checked_witness :
  let msg := request (str "DLCX") (str "8") (endp_name 1) [c_line demo_call; i_line 1] in
  exists r cfg' ev, mgcp_handle_message (H := demo_env) demo_sys (length msg) (msg ++ [])  demo_connected = Some (Some r, cfg', ev) /\
    if decide (callid demo_endp = Some demo_call /\ ci demo_endp = 1)
    then r = str "250 " ++ str "8" ++ str " OK" ++ crlf /\
         forall b, lookup_endp b cfg' = if decide (b = mk_endp_ref None 1) then Some (mgcp_free_endp demo_endp)
                                        else lookup_endp b demo_connected
    else r = str "400 " ++ str "8" ++ str " FAIL" ++ crlf /\ cfg' = demo_connected /\ ev = [].
Proof.
  apply (dlcx_checked (H := demo_env) demo_sys demo_connected (str "8") 1 demo_call 1 demo_endp []).
  - apply demo_reach.
  - by split.
  - by vm_compute.
  - vm_compute. reflexivity.
  - by vm_compute.
  - word_tac.
  - cbn. lia.
  - line_tac.
  - lia.
Defined.

(** Three packets, the last one from another source. *)
Definition demo_packet (seq ts ssrc : Z) : list Z := [0x80; 3] ++ be16 seq ++ Rtp.be32 ts ++ Rtp.be32 ssrc ++ [0xd0; 1; 2; 3].
Definition demo_stream : list (list Z) := [demo_packet 65535 160 7; demo_packet 0 320 7; demo_packet 100 99999 8].
Lemma relay_stream_continuous_witness :
  let os := relay_stream true 98 zero_state demo_stream in
  let p i := default [] (demo_stream !! i) in let o i := default [] (os !! i) in
  continues (p 1%nat) (p 2%nat) (o 1%nat) (o 2%nat) /\ drop 12 (o 1%nat) = drop 12 (p 1%nat) /\ drop 12 (o 2%nat) = drop 12 (p 2%nat).
Proof.
  apply (relay_stream_continuous 98 demo_stream 1); [|by vm_compute..].
  repeat (apply Forall_cons_2; [split; [apply (bool_decide_unpack _); by vm_compute|cbn; lia]|]). apply Forall_nil_2.
Defined.

(** A packet to the network end of the connection. *)
Lemma mgcp_endpoints_consistent_witness :
  let op := OpRtp (mk_endp_ref None 1) END_NET true (Some (0, 0, demo_packet 1 160 7)) in
  exists r cfg' ev, mgcp_step (H := demo_env) op demo_connected = Some (r, cfg', ev) /\
    (forall a e, lookup_endp a cfg' = Some e ->
       (allocated e = true <-> ci e <> CI_UNUSED) /\ (allocated e = true <-> is_Some (callid e)) /\
       (is_transcoded e = true -> allocated e = true) /\
       forall w, dynamic cfg' w = true -> rtp_fd (end_get w e) = used w e /\ rtcp_fd (end_get w e) = used w e) /\
    (forall i j e f, (1 <= i)%nat -> (1 <= j)%nat -> lookup_endp (mk_endp_ref None i) cfg' = Some e ->
       lookup_endp (mk_endp_ref None j) cfg' = Some f -> ci e <> CI_UNUSED -> ci e = ci f -> i = j).
Proof.
  apply (mgcp_endpoints_consistent (H := demo_env)); [apply demo_reach|].
  exists demo_endp. vm_compute. reflexivity.
Defined.

(** A request whose transaction is so long that the response does not fit stops the program. *)
Example long_transaction_aborts :
  let msg := request (str "AUEP") (replicate 3990 65) (endp_name 1) [] in
  mgcp_handle_message (H := demo_env) demo_sys (length msg) msg demo_cfg = None.
Proof. vm_compute. reflexivity. Qed.
(** A request for another call whose identifier starts like that of the connection is taken for a
    retransmission. *)
Example prefix_is_retransmission :
  let msg := request (str "CRCX") (str "9") (endp_name 1) [c_line (str "47110815"); m_line (str "recvonly")] in
  exists r, mgcp_handle_message (H := demo_env) demo_sys (length msg) msg demo_connected = Some (Some r, demo_connected, [])
    /\ take 9 r = str "200 9 OK" ++ [CR].
Proof. vm_compute. eexists. split; reflexivity. Qed.
(** Lines that end in LF only: the first parameter is lost. *)
Example lf_loses_first_line :
  let msg := str "CRCX 9 2@mgw MGCP 1.0" ++ [LF] ++ c_line (str "5") ++ [LF] ++ m_line (str "recvonly") ++ [LF] in
  mgcp_handle_message (H := demo_env) demo_sys (length msg) msg demo_cfg = Some (Some (str "400 9 FAIL" ++ crlf), demo_cfg, []).
Proof. vm_compute. reflexivity. Qed.
(** A wrap-around of the sequence number counts as 65536 lost packets. *)
Example wrap_counts_as_loss :
  lost_no (fst (patch_and_count false (-1) (fst (patch_and_count false (-1) zero_state (demo_packet 65535 160 7))) (demo_packet 0 320 7))) = 65536.
Proof. vm_compute. reflexivity. Qed.

End MgcpProps.
