(* ===== verification/GbProxy.v ===== *)
(** The Gb proxy (gprs/gb_proxy.c): many base stations share one connection to an SGSN.

    The state is the NS instance and the list of peers, one for each point-to-point BVC. A peer points
    to its NS-VC in the store of the instance. The NS layer calls [gbprox_rcvmsg] for unit data and
    [gbprox_signal] for its signals; here they are operations of their own, as Ns.v emits these calls as
    events. What goes out goes through [gprs_ns_sendmsg] and the procedures of Ns.v. *)

From S2P Require Import Prelude Ns Sgsn Bssgp.
Import Ns.
Import Bssgp(BSSGP_PDUT_UL_UNITDATA, BSSGP_PDUT_DL_UNITDATA, BSSGP_PDUT_PAGING_PS, BSSGP_PDUT_PAGING_CS,
  BSSGP_PDUT_SUSPEND, BSSGP_PDUT_SUSPEND_ACK, BSSGP_PDUT_SUSPEND_NACK, BSSGP_PDUT_RESUME, BSSGP_PDUT_RESUME_ACK,
  BSSGP_PDUT_RESUME_NACK, BSSGP_PDUT_BVC_BLOCK, BSSGP_PDUT_BVC_BLOCK_ACK, BSSGP_PDUT_BVC_RESET,
  BSSGP_PDUT_BVC_RESET_ACK, BSSGP_PDUT_BVC_UNBLOCK_ACK, BSSGP_PDUT_FLUSH_LL, BSSGP_PDUT_SGSN_INVOKE_TRACE,
  BSSGP_PDUT_STATUS, BSSGP_IE_BVCI, BSSGP_IE_CAUSE, BSSGP_IE_CELL_ID, BSSGP_IE_LOCATION_AREA,
  BSSGP_IE_PDU_IN_ERROR, BSSGP_IE_ROUTEING_AREA, BSSGP_CAUSE_UNKNOWN_BVCI, BSSGP_CAUSE_BVCI_BLOCKED,
  BSSGP_CAUSE_MISSING_MAND_IE, BSSGP_CAUSE_PROTO_ERR_UNSPEC, BSSGP_CAUSE_PDU_INCOMP_FEAT).

Module GbProxy.

(** ** Peers *)

Record gbprox_peer : Type := mk_gbprox_peer {
  nsvc : option nat;
  bvci : Z;       (* uint16_t *)
  blocked : bool;
  ra : list Z     (* six octets *)
}.
#[export] Instance upd_nsvc : Upd nsvc := fun f r => mk_gbprox_peer (f (nsvc r)) (bvci r) (blocked r) (ra r).
#[export] Instance upd_bvci : Upd bvci := fun f r => mk_gbprox_peer (nsvc r) (f (bvci r)) (blocked r) (ra r).
#[export] Instance upd_blocked : Upd blocked := fun f r => mk_gbprox_peer (nsvc r) (bvci r) (f (blocked r)) (ra r).
#[export] Instance upd_ra : Upd ra := fun f r => mk_gbprox_peer (nsvc r) (bvci r) (blocked r) (f (ra r)).

Record proxy : Type := mk_proxy {
  bssgp_nsi : gprs_ns_inst;
  gbprox_bts_peers : list gbprox_peer   (* the newest first; a peer is its place *)
}.
#[export] Instance upd_bssgp_nsi : Upd bssgp_nsi := fun f r => mk_proxy (f (bssgp_nsi r)) (gbprox_bts_peers r).
#[export] Instance upd_gbprox_bts_peers : Upd gbprox_bts_peers := fun f r => mk_proxy (bssgp_nsi r) (f (gbprox_bts_peers r)).

(** A message that NS delivered: its octets from [msg->data] on, where BSSGP starts among them, and its
    control block. *)
Record px_msg : Type := mk_px_msg {
  px_data : list Z;
  px_bssgph : nat;
  px_nsei : Z;
  px_bvci : Z
}.
#[export] Instance upd_px_data : Upd px_data := fun f r => mk_px_msg (f (px_data r)) (px_bssgph r) (px_nsei r) (px_bvci r).
#[export] Instance upd_px_bssgph : Upd px_bssgph := fun f r => mk_px_msg (px_data r) (f (px_bssgph r)) (px_nsei r) (px_bvci r).
#[export] Instance upd_px_nsei : Upd px_nsei := fun f r => mk_px_msg (px_data r) (px_bssgph r) (f (px_nsei r)) (px_bvci r).
#[export] Instance upd_px_bvci : Upd px_bvci := fun f r => mk_px_msg (px_data r) (px_bssgph r) (px_nsei r) (f (px_bvci r)).

Class ProxyEnv : Type := {
  nsip_sgsn_nsei : Z;   (* gbcfg *)
  (* of libosmocore: for each tag the length and the memory from the value on, if it is present; and
     the return code *)
  bssgp_tlv_parse : list Z -> Z -> Z -> option (Z * list Z);
  bssgp_tlv_parse_rc : list Z -> Z -> Z;
  (* memory *)
  peer_alloc_ok : bool;
  msgb_copy_ok : bool;
  bssgp_msgb_ok : bool
}.

Section gb_proxy.
Context {nenv : NsEnv} {env : ProxyEnv}.

Abbreviation PX := (M proxy ns_event).

(** A procedure of the NS layer. *)
Definition ns {A} (m : M gprs_ns_inst ns_event A) : PX A := fun st =>
  match m (bssgp_nsi st) with
  | Some (a, nsi, ev) => Some (a, st <| bssgp_nsi := nsi |>, ev)
  | None => None
  end.

Definition deref {A} (p : option A) : PX A := match p with Some a => mret a | None => fault end.
Definition peer_get (i : nat) : PX gbprox_peer := p ← gets (fun st => gbprox_bts_peers st !! i); deref p.
Definition peer_upd (i : nat) (f : gbprox_peer -> gbprox_peer) : PX unit :=
  modify (fun st => st <| gbprox_bts_peers ::= alter f i |>).

Definition peer_find (p : gbprox_peer -> bool) : PX (option nat) :=
  gets (fun st => fst <$> list_find (fun peer => p peer = true) (gbprox_bts_peers st)).
Definition peer_by_bvci (b : Z) : PX (option nat) := peer_find (fun peer => bvci peer =? b).
Definition peer_by_nsvc (id : nat) : PX (option nat) := peer_find (fun peer => bool_decide (nsvc peer = Some id)).
Definition peer_by_rac (v : list Z) : PX (option nat) :=
  peer_find (fun peer => bool_decide (ra peer = map (rd v) (seq 0 6))).
Definition peer_by_lac (v : list Z) : PX (option nat) :=
  peer_find (fun peer => bool_decide (take 5 (ra peer) = map (rd v) (seq 0 5))).

(** The new peer is the first of the list. *)
Definition peer_alloc (b : Z) : PX (option nat) :=
  if negb peer_alloc_ok then mret None
  else
    modify (fun st => st <| gbprox_bts_peers ::= cons (mk_gbprox_peer None b false (replicate 6 0)) |>);;
    mret (Some 0%nat).
Definition peer_free (i : nat) : PX unit := modify (fun st => st <| gbprox_bts_peers ::= delete i |>).

(** The peer of a BVC; if there is none, a new one behind the NS-VC [id]. *)
Definition peer_by_bvci_or_new (b : Z) (id : nat) : PX nat :=
  peer ← peer_by_bvci b;
  match peer with
  | Some i => mret i
  | None =>
      p ← peer_alloc b;
      i ← deref p;
      peer_upd i (fun p => p <| nsvc := Some id |>);;
      mret i
  end.

(** ** Messages *)

(** The copy has the same contents. *)
Definition msgb_copy (msg : px_msg) : option px_msg := if msgb_copy_ok then Some msg else None.
Definition strip_ns_hdr (msg : px_msg) : px_msg :=
  msg <| px_data ::= drop (px_bssgph msg) |> <| px_bssgph := 0%nat |>.
Definition to_ns (msg : px_msg) : ns_msg := mk_ns_msg (px_data msg) (px_nsei msg) (px_bvci msg).

(** From the BSSGP header on. *)
Definition bssgp_part (msg : px_msg) : list Z := drop (px_bssgph msg) (px_data msg).
Definition px_tlv_parse (msg : px_msg) : Z -> option (Z * list Z) :=
  bssgp_tlv_parse (drop 1 (bssgp_part msg)) (Z.of_nat (length (px_data msg)) - Z.of_nat (px_bssgph msg) - 1).

Definition gbprox_relay2sgsn (old_msg : px_msg) (ns_bvci : Z) : PX Z :=
  msg ← deref (msgb_copy old_msg);
  ns (gprs_ns_sendmsg (to_ns (strip_ns_hdr (msg <| px_bvci := ns_bvci |> <| px_nsei := nsip_sgsn_nsei |>)))).

Definition gbprox_relay2peer (old_msg : px_msg) (peer : nat) (ns_bvci : Z) : PX Z :=
  msg ← deref (msgb_copy old_msg);
  p ← peer_get peer;
  id ← deref (nsvc p);
  v ← ns (nsvc_get id);
  ns (gprs_ns_sendmsg (to_ns (strip_ns_hdr (msg <| px_bvci := ns_bvci |> <| px_nsei := nsei v |>)))).

(** [bssgp_tx_simple_bvci] and [bssgp_tx_status] of libgb/gprs_bssgp_util.c over the NS layer. *)
Definition px_send (n ns_bvci : Z) (data : list Z) : PX Z :=
  if bssgp_msgb_ok then ns (gprs_ns_sendmsg (mk_ns_msg data n ns_bvci)) else fault.
Definition px_tx_simple_bvci (pdu_type n b ns_bvci : Z) : PX Z :=
  px_send n ns_bvci ([pdu_type] ++ msgb_tvlv_put BSSGP_IE_BVCI (be16 b)).
Definition px_tx_status (cause : Z) (orig_msg : px_msg) : PX Z :=
  px_send (px_nsei orig_msg) 0
    ([BSSGP_PDUT_STATUS] ++ msgb_tvlv_put BSSGP_IE_CAUSE [cause]
     ++ msgb_tvlv_put BSSGP_IE_PDU_IN_ERROR (bssgp_part orig_msg)).

Definition block_unblock_peer (ptp_bvci pdu_type : Z) : PX Z :=
  peer ← peer_by_bvci ptp_bvci;
  match peer with
  | None => mret (- ENOENT)
  | Some i =>
      (if pdu_type =? BSSGP_PDUT_BVC_BLOCK_ACK then peer_upd i (fun p => p <| blocked := true |>)
       else if pdu_type =? BSSGP_PDUT_BVC_UNBLOCK_ACK then peer_upd i (fun p => p <| blocked := false |>)
       else mret tt);;
      mret 0
  end.

Definition gbprox_relay2bvci (msg : px_msg) (ptp_bvci ns_bvci : Z) : PX Z :=
  peer ← peer_by_bvci ptp_bvci;
  match peer with
  | None => mret (- ENOENT)
  | Some i => gbprox_relay2peer msg i ns_bvci
  end.

(** ** From a base station *)

(** [memcpy(from_peer->ra, v, 6)] *)
Definition snoop_ra (i : nat) (v : list Z) : PX unit := peer_upd i (fun p => p <| ra := map (rd v) (seq 0 6) |>).

(** BVC-RESET on the signalling BVC: a peer for the BVC named, and its routing area. *)
Definition bss_reset (msg : px_msg) (tp : Z -> option (Z * list Z)) (id : nat) (v ns_bvci : Z) : PX Z :=
  match tp BSSGP_IE_BVCI with
  | None => gbprox_relay2sgsn msg ns_bvci
  | Some (_, val) =>
      let b := rd_be16 val in
      if b =? 0 then px_tx_simple_bvci BSSGP_PDUT_BVC_RESET_ACK v 0 ns_bvci
      else
        i ← peer_by_bvci_or_new b id;
        match tp BSSGP_IE_CELL_ID with
        | Some (_, cell) => snoop_ra i cell
        | None => mret tt
        end;;
        gbprox_relay2sgsn msg ns_bvci
  end.

Definition gbprox_rx_sig_from_bss (msg : px_msg) (id : nat) (ns_bvci : Z) : PX Z :=
  let pdu_type := rd (bssgp_part msg) 0 in
  if negb (ns_bvci =? 0) && negb (ns_bvci =? 1) then mret (- EINVAL)
  else if (pdu_type =? BSSGP_PDUT_UL_UNITDATA) || (pdu_type =? BSSGP_PDUT_DL_UNITDATA) then mret (- EINVAL)
  else
    let tp := px_tlv_parse msg in
    if (pdu_type =? BSSGP_PDUT_SUSPEND) || (pdu_type =? BSSGP_PDUT_RESUME) then
      match tp BSSGP_IE_ROUTEING_AREA with
      | None => px_tx_status BSSGP_CAUSE_MISSING_MAND_IE msg
      | Some (_, v) =>
          from_peer ← peer_by_nsvc id;
          match from_peer with
          | None => px_tx_status BSSGP_CAUSE_UNKNOWN_BVCI msg
          | Some i => snoop_ra i v;; gbprox_relay2sgsn msg ns_bvci
          end
      end
    else if pdu_type =? BSSGP_PDUT_BVC_RESET then
      v ← ns (nsvc_get id);
      bss_reset msg tp id (nsei v) ns_bvci
    else gbprox_relay2sgsn msg ns_bvci.

(** ** From the SGSN *)

(** A BVCI is only logged, it selects no peer. *)
Definition gbprox_rx_paging (msg : px_msg) (tp : Z -> option (Z * list Z)) (ns_bvci : Z) : PX Z :=
  peer ← match tp BSSGP_IE_BVCI, tp BSSGP_IE_ROUTEING_AREA, tp BSSGP_IE_LOCATION_AREA with
         | Some _, _, _ => mret None
         | None, Some (_, v), _ => peer_by_rac v
         | None, None, Some (_, v) => peer_by_lac v
         | None, None, None => mret None
         end;
  match peer with
  | None => mret (- EINVAL)
  | Some i => gbprox_relay2peer msg i ns_bvci
  end.

Fixpoint for_each {A} (f : A -> PX unit) (xs : list A) : PX unit :=
  match xs with [] => mret tt | x :: xs => f x;; for_each f xs end.

Definition rx_reset_from_sgsn (msg : px_msg) (tp : Z -> option (Z * list Z)) (ns_bvci : Z) : PX Z :=
  match tp BSSGP_IE_BVCI with
  | None => px_tx_status BSSGP_CAUSE_MISSING_MAND_IE msg
  | Some (_, v) =>
      let ptp_bvci := rd_be16 v in
      if 2 <=? ptp_bvci then
        peer ← peer_by_bvci ptp_bvci;
        match peer with
        | None => px_tx_status BSSGP_CAUSE_UNKNOWN_BVCI msg
        | Some i => gbprox_relay2peer msg i ns_bvci
        end
      else
        n ← gets (fun st => length (gbprox_bts_peers st));
        for_each (fun i => gbprox_relay2peer msg i ns_bvci;; mret tt) (seq 0 n);;
        mret 0
  end.

Definition gbprox_rx_sig_from_sgsn (msg : px_msg) (ns_bvci : Z) : PX Z :=
  let pdu_type := rd (bssgp_part msg) 0 in
  if negb (ns_bvci =? 0) && negb (ns_bvci =? 1) then mret (- EINVAL)
  else if (pdu_type =? BSSGP_PDUT_UL_UNITDATA) || (pdu_type =? BSSGP_PDUT_DL_UNITDATA)
  then px_tx_status BSSGP_CAUSE_PROTO_ERR_UNSPEC msg
  else
    let tp := px_tlv_parse msg in
    let err_mand_ie := px_tx_status BSSGP_CAUSE_MISSING_MAND_IE msg in
    if pdu_type =? BSSGP_PDUT_BVC_RESET then rx_reset_from_sgsn msg tp ns_bvci
    else if (pdu_type =? BSSGP_PDUT_FLUSH_LL) || (pdu_type =? BSSGP_PDUT_BVC_RESET_ACK) then
      match tp BSSGP_IE_BVCI with
      | None => err_mand_ie
      | Some (_, v) => gbprox_relay2bvci msg (rd_be16 v) ns_bvci
      end
    else if (pdu_type =? BSSGP_PDUT_PAGING_PS) || (pdu_type =? BSSGP_PDUT_PAGING_CS)
    then gbprox_rx_paging msg tp ns_bvci
    else if pdu_type =? BSSGP_PDUT_STATUS then
      match tp BSSGP_IE_CAUSE with
      | None => err_mand_ie
      | Some _ => mret (bssgp_tlv_parse_rc (drop 1 (bssgp_part msg)) (Z.of_nat (length (px_data msg)) - Z.of_nat (px_bssgph msg) - 1))
      end
    else if (pdu_type =? BSSGP_PDUT_SUSPEND_ACK) || (pdu_type =? BSSGP_PDUT_SUSPEND_NACK)
            || (pdu_type =? BSSGP_PDUT_RESUME_ACK) || (pdu_type =? BSSGP_PDUT_RESUME_NACK) then
      match tp BSSGP_IE_ROUTEING_AREA with
      | None => err_mand_ie
      | Some (_, v) =>
          peer ← peer_by_rac v;
          match peer with
          | None => px_tx_status BSSGP_CAUSE_UNKNOWN_BVCI msg
          | Some i => gbprox_relay2peer msg i ns_bvci
          end
      end
    else if (pdu_type =? BSSGP_PDUT_BVC_BLOCK_ACK) || (pdu_type =? BSSGP_PDUT_BVC_UNBLOCK_ACK) then
      match tp BSSGP_IE_BVCI with
      | None => err_mand_ie
      | Some (_, v) =>
          (if rd_be16 v =? 0 then mret 0 else block_unblock_peer (rd_be16 v) pdu_type);;
          gbprox_relay2bvci msg (rd_be16 v) ns_bvci
      end
    else if pdu_type =? BSSGP_PDUT_SGSN_INVOKE_TRACE then px_tx_status BSSGP_CAUSE_PDU_INCOMP_FEAT msg
    else px_tx_status BSSGP_CAUSE_PROTO_ERR_UNSPEC msg.

(** ** Entry points *)

Definition gbprox_rcvmsg (msg : px_msg) (id : nat) (ns_bvci : Z) : PX Z :=
  v ← ns (nsvc_get id);
  if (ns_bvci =? 0) || (ns_bvci =? 1) then
    if remote_end_is_sgsn v then gbprox_rx_sig_from_sgsn msg ns_bvci
    else gbprox_rx_sig_from_bss msg id ns_bvci
  else if negb (remote_end_is_sgsn v) then gbprox_relay2sgsn msg ns_bvci
  else
    i ← peer_by_bvci_or_new ns_bvci id;
    p ← peer_get i;
    if blocked p then px_tx_status BSSGP_CAUSE_BVCI_BLOCKED msg
    else gbprox_relay2peer msg i ns_bvci.

Definition gbprox_reset_persistent_nsvcs : PX Z :=
  ids ← gets (fun st => gprs_nsvcs (bssgp_nsi st));
  for_each (fun id =>
    v ← ns (nsvc_get id);
    if negb (persistent v) then mret tt else ns (gprs_nsvc_reset id NS_CAUSE_OM_INTERVENTION)) ids;;
  mret 0.

(** What a signal of the SGSN's NS-VC sends on the NS-VC of a peer. *)
Definition signal_to_peer (s : ns_signal) (cause : Z) (i : nat) : PX unit :=
  p ← peer_get i;
  match s with
  | S_NS_RESET => id ← deref (nsvc p); ns (gprs_ns_tx_reset id cause);; mret tt
  | S_NS_BLOCK => id ← deref (nsvc p); ns (gprs_ns_tx_block id cause);; mret tt
  | S_NS_UNBLOCK => id ← deref (nsvc p); ns (gprs_ns_tx_unblock id);; mret tt
  | S_NS_ALIVE_EXP => mret tt
  end.

Definition gbprox_signal (subsys_ns : bool) (signal : ns_signal) (id : nat) (cause : Z) : PX Z :=
  if negb subsys_ns then mret 0
  else
    v ← ns (nsvc_get id);
    when (match signal with S_NS_RESET => nsei v =? nsip_sgsn_nsei | _ => false end)
      (ns (nsvc_upd id (fun v => v <| remote_end_is_sgsn := true |>)));;
    v ← ns (nsvc_get id);
    when (match signal with S_NS_ALIVE_EXP => remote_end_is_sgsn v | _ => false end)
      (ns (nsip_connect (bts_addr v) (nsei v) (nsvci v));; mret tt);;
    v ← ns (nsvc_get id);
    if negb (remote_end_is_sgsn v) then
      peer ← peer_by_nsvc id;
      match peer with
      | None => mret 0
      | Some i =>
          p ← peer_get i;
          match signal with
          | S_NS_RESET | S_NS_BLOCK =>
              if negb (blocked p) then mret 0
              else px_tx_simple_bvci BSSGP_PDUT_BVC_BLOCK (nsei v) (bvci p) 0;; mret 0
          | _ => mret 0
          end
      end
    else
      n ← gets (fun st => length (gbprox_bts_peers st));
      for_each (signal_to_peer signal cause) (seq 0 n);;
      mret 0.

End gb_proxy.

End GbProxy.
