(* ===== verification/GbProxyProps.v ===== *)
(** The Gb proxy routes point-to-point traffic by who named a BVC first, and never follows a null pointer. *)

From S2P Require Import Prelude Ns NsProps NsRuns Sgsn Bssgp GbProxy.
Import Ns NsProps GbProxy.
Import Bssgp(BSSGP_PDUT_UL_UNITDATA, BSSGP_PDUT_DL_UNITDATA, BSSGP_PDUT_PAGING_PS, BSSGP_PDUT_PAGING_CS,
  BSSGP_PDUT_SUSPEND, BSSGP_PDUT_SUSPEND_ACK, BSSGP_PDUT_SUSPEND_NACK, BSSGP_PDUT_RESUME, BSSGP_PDUT_RESUME_ACK,
  BSSGP_PDUT_RESUME_NACK, BSSGP_PDUT_BVC_BLOCK, BSSGP_PDUT_BVC_BLOCK_ACK, BSSGP_PDUT_BVC_RESET,
  BSSGP_PDUT_BVC_RESET_ACK, BSSGP_PDUT_BVC_UNBLOCK_ACK, BSSGP_PDUT_FLUSH_LL, BSSGP_PDUT_SGSN_INVOKE_TRACE,
  BSSGP_PDUT_STATUS, BSSGP_IE_BVCI, BSSGP_IE_CAUSE, BSSGP_IE_CELL_ID, BSSGP_IE_LOCATION_AREA,
  BSSGP_IE_PDU_IN_ERROR, BSSGP_IE_ROUTEING_AREA, BSSGP_CAUSE_UNKNOWN_BVCI, BSSGP_CAUSE_BVCI_BLOCKED,
  BSSGP_CAUSE_MISSING_MAND_IE, BSSGP_CAUSE_PROTO_ERR_UNSPEC, BSSGP_CAUSE_PDU_INCOMP_FEAT).

Module GbProxyProps.

Section proxy.
Context {nenv : NsEnv} {env : ProxyEnv}.
Abbreviation PX := (M proxy ns_event).
Abbreviation NS := (M gprs_ns_inst ns_event).

(** ** Procedures of the NS layer delete no NS-VC *)

Definition stored (ids : list nat) (nsi : gprs_ns_inst) : Prop := Forall (fun id => is_Some (nsvcs nsi !! id)) ids.

Lemma keeps_nsvc_get ids id : keeps (stored ids) (nsvc_get id).
Proof. intros nsi H. unfold wlp, nsvc_get. by destruct (nsvcs nsi !! id). Qed.
Lemma keeps_nsvc_upd ids id f : keeps (stored ids) (nsvc_upd id f).
Proof.
  apply keeps_modify. intros nsi H. apply (Forall_impl _ _ _ H). intros i. cbn. rewrite lookup_alter.
  case_decide as Hd; [|done]. subst. intros [v ->]. by eexists.
Qed.
Lemma keeps_create ids n : keeps (stored ids) (nsvc_create n).
Proof.
  unfold nsvc_create. keeps_tac. apply keeps_modify. intros nsi H. apply (Forall_impl _ _ _ H). intros i. cbn.
  rewrite lookup_insert. case_decide; [by eexists|done].
Qed.
Hint Resolve keeps_nsvc_get keeps_nsvc_upd keeps_create : keeps.

Lemma keeps_ns_tx ids id data : keeps (stored ids) (gprs_ns_tx id data).
Proof. unfold gprs_ns_tx, nsip_sendmsg, gprs_ns_frgre_sendmsg, sendto, rate_ctr_inc, rate_ctr_add. keeps_tac. Qed.
Hint Resolve keeps_ns_tx : keeps.
Lemma keeps_ns_sendmsg ids msg : keeps (stored ids) (gprs_ns_sendmsg msg).
Proof. unfold gprs_ns_sendmsg. keeps_tac. Qed.
Lemma keeps_tx_reset ids id cause : keeps (stored ids) (gprs_ns_tx_reset id cause).
Proof. unfold gprs_ns_tx_reset. keeps_tac. Qed.
Hint Resolve keeps_tx_reset keeps_ns_sendmsg : keeps.
Lemma keeps_tx_block ids id cause : keeps (stored ids) (gprs_ns_tx_block id cause).
Proof. unfold gprs_ns_tx_block, rate_ctr_inc, rate_ctr_add. keeps_tac. Qed.
Lemma keeps_tx_unblock ids id : keeps (stored ids) (gprs_ns_tx_unblock id).
Proof. unfold gprs_ns_tx_unblock, gprs_ns_tx_simple. keeps_tac. Qed.
Lemma keeps_nsvc_reset ids id cause : keeps (stored ids) (gprs_nsvc_reset id cause).
Proof. unfold gprs_nsvc_reset, nsvc_start_timer. keeps_tac. Qed.
Hint Resolve keeps_tx_block keeps_tx_unblock keeps_nsvc_reset : keeps.
Lemma keeps_connect ids dest sei vci : keeps (stored ids) (nsip_connect dest sei vci).
Proof. unfold nsip_connect. keeps_tac. Qed.
Hint Resolve keeps_connect : keeps.

(** ** The invariant *)

Record wf_proxy (st : proxy) : Prop := {
  wx_ns : wf_ns (bssgp_nsi st);
  wx_nsvc : Forall (fun p => exists id, nsvc p = Some id /\ is_Some (nsvcs (bssgp_nsi st) !! id)) (gbprox_bts_peers st);
  wx_bvci : NoDup (map bvci (gbprox_bts_peers st));
  wx_ra : Forall (fun p => length (ra p) = 6%nat) (gbprox_bts_peers st)
}.

(** ** The routes: for each BVC the NS-VC of its peer and whether it is blocked *)

Abbreviation is_bvc b := (fun p : gbprox_peer => (bvci p =? b) = true).
Definition route_of (l : list gbprox_peer) (b : Z) : option (option nat * bool) :=
  (fun r => (nsvc (snd r), blocked (snd r))) <$> list_find (is_bvc b) l.
Arguments route_of : simpl never.
Definition route (st : proxy) : Z -> option (option nat * bool) := route_of (gbprox_bts_peers st).

Lemma route_cons p l b : route_of (p :: l) b = if bvci p =? b then Some (nsvc p, blocked p) else route_of l b.
Proof.
  unfold route_of. cbn. destruct (bvci p =? b) eqn:E.
  - rewrite decide_True by done. done.
  - rewrite decide_False by congruence. by destruct (list_find _ l) as [[]|].
Qed.

Lemma route_alter_same (f : gbprox_peer -> gbprox_peer) i l b :
  (forall p, bvci (f p) = bvci p) -> (forall p, nsvc (f p) = nsvc p) -> (forall p, blocked (f p) = blocked p) ->
  route_of (alter f i l) b = route_of l b.
Proof.
  intros Hb Hn Hk. revert i. induction l as [|p l IH]; intros [|i]; [done..| |]; cbn [alter list_alter]; rewrite !route_cons.
  - by rewrite Hb, Hn, Hk.
  - by rewrite IH.
Qed.

Lemma route_alter_blocked x i p l b0 b : list_find (is_bvc b0) l = Some (i, p) ->
  route_of (alter (fun p => p <| blocked := x |>) i l) b = if b0 =? b then Some (nsvc p, x) else route_of l b.
Proof.
  revert i. induction l as [|q l IH]; intros i; [done|]. cbn.
  destruct (bvci q =? b0) eqn:E.
  - rewrite decide_True by done. intros [= <- ->]. cbn [alter list_alter]. rewrite !route_cons. cbn.
    apply Z.eqb_eq in E as <-. by destruct (bvci p =? b).
  - rewrite decide_False by congruence. intros ([j q'] & Hf & [= -> ->])%fmap_Some. cbn [alter list_alter].
    unfold id in *.
    rewrite !route_cons, (IH j) by done.
    destruct (Z.eqb_spec b0 b) as [->|Hne]; [by rewrite E|done].
Qed.

Lemma route_none l b : list_find (is_bvc b) l = None -> b ∉ map bvci l.
Proof.
  intros Hf%list_find_None (p & -> & Hp)%list_elem_of_fmap.
  rewrite Forall_forall in Hf. apply (Hf p Hp). by apply Z.eqb_eq.
Qed.

Lemma route_found l b i p : list_find (is_bvc b) l = Some (i, p) -> route_of l b = Some (nsvc p, blocked p).
Proof. unfold route_of. by intros ->. Qed.

Lemma find_peer (P : gbprox_peer -> Prop) `{!forall p, Decision (P p)} l i p :
  list_find P l = Some (i, p) -> l !! i = Some p.
Proof. by intros (? & _)%list_find_Some. Qed.

(** ** Steps that leave the peers alone *)

Definition after (st st' : proxy) : Prop :=
  wf_proxy st' /\ gbprox_bts_peers st' = gbprox_bts_peers st /\
  forall id, is_Some (nsvcs (bssgp_nsi st) !! id) -> is_Some (nsvcs (bssgp_nsi st') !! id).

Lemma after_refl st : wf_proxy st -> after st st.
Proof. by intros. Qed.
Lemma after_trans st st1 st2 : after st st1 -> after st1 st2 -> after st st2.
Proof. intros (_ & H1 & H2) (H3 & H4 & H5). split; [done|]. split; [congruence|]. auto. Qed.

Lemma after_ns st nsi : wf_proxy st -> wf_ns nsi ->
  (forall id, is_Some (nsvcs (bssgp_nsi st) !! id) -> is_Some (nsvcs nsi !! id)) -> after st (st <| bssgp_nsi := nsi |>).
Proof.
  intros [H1 H2 H3 H4] Hw Hs. split; [|done]. split; cbn; [done| |done..].
  apply (Forall_impl _ _ _ H2). intros p (id & Hp & Hi). exists id. auto.
Qed.

(** [m] is a procedure of the NS layer that runs and deletes no NS-VC. *)
Lemma wp_ns {A} (m : NS A) st : wf_proxy st -> runs_ok m (bssgp_nsi st) -> (forall ids, keeps (stored ids) m) ->
  wp (ns m) (fun _ st' => after st st') st.
Proof.
  intros Hw (a & nsi & ev & Hm & Hn) Hk. unfold wp, ns. rewrite Hm. apply after_ns; [done..|].
  intros id Hid. pose proof (Hk [id] (bssgp_nsi st)) as H. unfold wlp in H. rewrite Hm in H.
  apply Forall_singleton in H; [done|]. by apply Forall_singleton.
Qed.

Lemma wp_after {A} (m : PX A) st0 st (Q : A -> proxy -> Prop) :
  after st0 st -> wp m (fun _ st' => after st st') st -> (forall a st', after st0 st' -> Q a st') -> wp m Q st.
Proof. intros H0 Hm HQ. apply (wp_mono _ _ _ _ Hm). intros a st' H. apply HQ. by eapply after_trans. Qed.

Lemma safe_ns {A} (m : NS A) st id : wf_proxy st -> is_Some (nsvcs (bssgp_nsi st) !! id) -> safe [id] m ->
  runs_ok m (bssgp_nsi st).
Proof. intros Hw Hid Hs. eapply safe_runs; [exact Hs|]. split; [apply Hw|]. by apply Forall_singleton. Qed.

Lemma wp_nsvc_get st id (Q : gprs_nsvc -> proxy -> Prop) v :
  nsvcs (bssgp_nsi st) !! id = Some v -> Q v st -> wp (ns (nsvc_get id)) Q st.
Proof. intros Hv HQ. unfold wp, ns, nsvc_get. rewrite Hv. by destruct st. Qed.

Lemma wp_sendmsg st msg : wf_proxy st -> wp (ns (gprs_ns_sendmsg msg)) (fun _ st' => after st st') st.
Proof. intros Hw. apply wp_ns; [done|by apply runs_sendmsg, Hw|auto with keeps]. Qed.

Section memory.
Context (Halloc : peer_alloc_ok = true) (Hcopy : msgb_copy_ok = true) (Hmsgb : bssgp_msgb_ok = true).

Lemma wp_relay2sgsn st msg nb : wf_proxy st -> wp (gbprox_relay2sgsn msg nb) (fun _ st' => after st st') st.
Proof. intros Hw. unfold gbprox_relay2sgsn, msgb_copy. rewrite Hcopy. cbn [deref]. wp_steps. by apply wp_sendmsg. Qed.

Lemma wp_relay2peer st msg i nb : wf_proxy st -> is_Some (gbprox_bts_peers st !! i) ->
  wp (gbprox_relay2peer msg i nb) (fun _ st' => after st st') st.
Proof.
  intros Hw [p Hp]. unfold gbprox_relay2peer, msgb_copy, peer_get. rewrite Hcopy. cbn [deref]. wp_steps.
  rewrite Hp. cbn [deref]. wp_steps.
  destruct (Forall_lookup_1 _ _ _ _ (wx_nsvc _ Hw) Hp) as (id & Hn & [v Hv]). rewrite Hn. cbn [deref]. wp_steps.
  apply (wp_nsvc_get _ _ _ v Hv). by apply wp_sendmsg.
Qed.

Lemma wp_status st c msg : wf_proxy st -> wp (px_tx_status c msg) (fun _ st' => after st st') st.
Proof. intros Hw. unfold px_tx_status, px_send. rewrite Hmsgb. by apply wp_sendmsg. Qed.
Lemma wp_simple st t n b nb : wf_proxy st -> wp (px_tx_simple_bvci t n b nb) (fun _ st' => after st st') st.
Proof. intros Hw. unfold px_tx_simple_bvci, px_send. rewrite Hmsgb. by apply wp_sendmsg. Qed.

Lemma wp_for_each {X} (f : X -> PX unit) xs st0 st :
  (forall x st, x ∈ xs -> after st0 st -> wp (f x) (fun _ st' => after st st') st) ->
  after st0 st -> wp (for_each f xs) (fun _ st' => after st0 st') st.
Proof.
  revert st. induction xs as [|x xs IH]; intros st Hf Ha; [done|]. cbn [for_each]. wp_steps.
  apply (wp_after _ st0 _ _ Ha); [apply Hf; [by left|done]|]. intros _ st' Ha'. apply IH; [|done].
  intros y st2 Hy. apply Hf. by right.
Qed.

(** ** What messages teach the proxy *)

Inductive px_op : Type :=
| Rcv (from_sgsn : bool) (msg : px_msg) (id : nat) (ns_bvci : Z)   (* unit data on NS-VC [id] *)
| Signal (s : ns_signal) (id : nat) (cause : Z)
| ResetAll.

Definition signalling (b : Z) : bool := (b =? 0) || (b =? 1).
Definition pdu (msg : px_msg) : Z := rd (bssgp_part msg) 0.
Definition bvci_ie (msg : px_msg) : option Z := rd_be16 <$> (snd <$> px_tlv_parse msg BSSGP_IE_BVCI).

(** The BVC a message names so that there is a peer afterwards: a BVC-RESET of a base station for another
    than the signalling BVC, and every point-to-point message of the SGSN. *)
Definition names (o : px_op) : option (Z * nat) :=
  match o with
  | Rcv true _ id b => if signalling b then None else Some (b, id)
  | Rcv false msg id b =>
      if signalling b && (pdu msg =? BSSGP_PDUT_BVC_RESET)
      then x ← bvci_ie msg; if x =? 0 then None else Some (x, id) else None
  | _ => None
  end.
(** The BVC a message of the SGSN blocks or unblocks. *)
Definition blocks (o : px_op) : option (Z * bool) :=
  match o with
  | Rcv true msg _ b =>
      if signalling b && ((pdu msg =? BSSGP_PDUT_BVC_BLOCK_ACK) || (pdu msg =? BSSGP_PDUT_BVC_UNBLOCK_ACK))
      then x ← bvci_ie msg; if x =? 0 then None else Some (x, pdu msg =? BSSGP_PDUT_BVC_BLOCK_ACK) else None
  | _ => None
  end.
Definition learn (t : Z -> option (option nat * bool)) (o : px_op) (b : Z) : option (option nat * bool) :=
  match t b with
  | Some (id, x) => match blocks o with
                    | Some (b', x') => if b' =? b then Some (id, x') else Some (id, x)
                    | None => Some (id, x)
                    end
  | None => match names o with
            | Some (b', id) => if b' =? b then Some (Some id, false) else None
            | None => None
            end
  end.
(** The routes after a history of messages. *)
Definition history : list px_op -> Z -> option (option nat * bool) := foldl learn (fun _ => None).

(** An operation runs to its end, and the proxy learned what it teaches. *)
Definition learned (st : proxy) (o : px_op) (st' : proxy) : Prop :=
  wf_proxy st' /\ forall b, route st' b = learn (route st) o b.

Lemma learned_nothing st o st' : names o = None -> blocks o = None -> after st st' -> learned st o st'.
Proof.
  intros Hn Hb (Hw & Hp & _). split; [done|]. intros b. unfold learn, route. rewrite Hn, Hb, Hp.
  by destruct (route_of _ b) as [[]|].
Qed.

Lemma wp_or_new st b id (Q : nat -> proxy -> Prop) :
  wf_proxy st -> is_Some (nsvcs (bssgp_nsi st) !! id) ->
  (forall i st1 p, wf_proxy st1 -> bssgp_nsi st1 = bssgp_nsi st -> gbprox_bts_peers st1 !! i = Some p -> bvci p = b ->
     (forall b', route st1 b' = match route st b' with
                                | Some r => Some r
                                | None => if b =? b' then Some (Some id, false) else None
                                end) -> Q i st1) ->
  wp (peer_by_bvci_or_new b id) Q st.
Proof.
  intros Hw Hid HQ. unfold peer_by_bvci_or_new, peer_by_bvci, peer_find, peer_alloc. wp_steps.
  destruct (list_find (is_bvc b) (gbprox_bts_peers st)) as [[i p]|] eqn:E; cbn [fmap option_fmap option_map fst].
  - wp_steps. apply (HQ i st p); [done..| | |].
    + by eapply find_peer.
    + apply list_find_Some in E as (_ & E & _). by apply Z.eqb_eq.
    + intros b'. destruct (route st b') as [r|] eqn:Hr; [done|]. destruct (Z.eqb_spec b b') as [<-|]; [|done].
      unfold route in Hr. by rewrite (route_found _ _ _ _ E) in Hr.
  - rewrite Halloc. cbn [negb]. wp_steps. cbn [deref]. wp_steps. unfold peer_upd. wp_steps.
    destruct st as [nsi l]. destruct Hw as [H1 H2 H3 H4]. cbn in *.
    eapply HQ; cbn; [|done|done|done|].
    + split; cbn; [done| | |].
      * constructor; [|done]. by exists id.
      * constructor; [by apply route_none|done].
      * by constructor.
    + intros b'. unfold route. cbn. rewrite route_cons. cbn.
      destruct (Z.eqb_spec b b') as [<-|]; [|by destruct (route_of l b')].
      apply route_none in E. unfold route_of.
      destruct (list_find (is_bvc b) l) as [[i p]|] eqn:E'; [|done].
      destruct E. apply list_find_Some in E' as (Hp & Hb & _). apply Z.eqb_eq in Hb as <-.
      by apply list_elem_of_fmap_2, list_elem_of_lookup_2 with i.
Qed.

(** Changes of a peer that keep its BVC and its NS-VC. *)
Lemma wf_peer_upd st f i : wf_proxy st -> (forall p, bvci (f p) = bvci p) -> (forall p, nsvc (f p) = nsvc p) ->
  (forall p, length (ra p) = 6%nat -> length (ra (f p)) = 6%nat) ->
  wf_proxy (st <| gbprox_bts_peers ::= alter f i |>).
Proof.
  intros [H1 H2 H3 H4] Hb Hn Hr. destruct st as [nsi l]. cbn in *. split; cbn; [done| | |].
  - apply Forall_alter; [done|]. intros p _ (j & Hp & Hj). exists j. by rewrite Hn.
  - replace (map bvci (alter f i l)) with (map bvci l); [done|]. clear -Hb.
    revert i. induction l as [|p l IH]; intros [|i]; cbn; [done..|by rewrite Hb|by rewrite <- IH].
  - apply Forall_alter; [done|]. intros p _. apply Hr.
Qed.

Lemma wp_snoop st i v (Q : unit -> proxy -> Prop) : wf_proxy st ->
  (forall st', wf_proxy st' -> bssgp_nsi st' = bssgp_nsi st -> (forall b, route st' b = route st b) -> Q tt st') ->
  wp (snoop_ra i v) Q st.
Proof.
  intros Hw HQ. unfold snoop_ra, peer_upd. wp_steps. apply HQ; [|done|].
  - apply wf_peer_upd; [done..|]. done.
  - intros b. unfold route. cbn. by apply route_alter_same.
Qed.

Lemma wp_learned {A} (m : PX A) st o st1 :
  wf_proxy st1 -> (forall b, route st1 b = learn (route st) o b) ->
  wp m (fun _ st' => after st1 st') st1 -> wp m (fun _ st' => learned st o st') st1.
Proof.
  intros Hw Hr Hm. apply (wp_mono _ _ _ _ Hm). intros _ st' (Hw' & Hp & _). split; [done|].
  intros b. rewrite <- Hr. unfold route. by rewrite Hp.
Qed.
Lemma wp_learned_nothing {A} (m : PX A) st o : names o = None -> blocks o = None ->
  wp m (fun _ st' => after st st') st -> wp m (fun _ st' => learned st o st') st.
Proof. intros Hn Hb Hm. apply (wp_mono _ _ _ _ Hm). intros _ st'. by apply learned_nothing. Qed.

Lemma wp_block_unblock st b t x (Q : Z -> proxy -> Prop) : wf_proxy st ->
  (t =? BSSGP_PDUT_BVC_BLOCK_ACK) || (t =? BSSGP_PDUT_BVC_UNBLOCK_ACK) = true -> x = (t =? BSSGP_PDUT_BVC_BLOCK_ACK) ->
  (forall a st', wf_proxy st' ->
     (forall b', route st' b' = match route st b' with
                                | Some (id, y) => Some (id, if b =? b' then x else y)
                                | None => None
                                end) -> Q a st') ->
  wp (block_unblock_peer b t) Q st.
Proof.
  intros Hw Ht Hx HQ. unfold block_unblock_peer, peer_by_bvci, peer_find. wp_steps.
  destruct (list_find (is_bvc b) (gbprox_bts_peers st)) as [[i p]|] eqn:E; cbn [fmap option_fmap option_map fst].
  - assert (forall k, wp (peer_upd i (fun p => p <| blocked := x |>);; mret k) Q st) as H.
    { intros k. unfold peer_upd. wp_steps. apply HQ; [by apply wf_peer_upd|].
      intros b'. unfold route. cbn. rewrite (route_alter_blocked _ _ _ _ _ _ E).
      destruct (Z.eqb_spec b b') as [<-|]; [by rewrite (route_found _ _ _ _ E)|by destruct (route_of _ b') as [[]|]]. }
    subst x. destruct (t =? BSSGP_PDUT_BVC_BLOCK_ACK); [apply H|]. cbn in Ht. rewrite Ht. apply H.
  - wp_steps. apply HQ; [done|]. intros b'. destruct (route st b') as [[id y]|] eqn:Hr; [|done].
    destruct (Z.eqb_spec b b') as [<-|]; [|done].
    unfold route, route_of in Hr. by rewrite E in Hr.
Qed.

Lemma wp_relay2bvci st msg b nb : wf_proxy st -> wp (gbprox_relay2bvci msg b nb) (fun _ st' => after st st') st.
Proof.
  intros Hw. unfold gbprox_relay2bvci, peer_by_bvci, peer_find. wp_steps.
  destruct (list_find _ _) as [[i p]|] eqn:E; cbn [fmap option_fmap option_map fst]; [|by apply after_refl].
  apply wp_relay2peer; [done|]. apply find_peer in E. by exists p.
Qed.
Lemma wp_found st msg nb (f : gbprox_peer -> bool) (none : PX Z) : wf_proxy st ->
  wp none (fun _ st' => after st st') st ->
  wp (peer ← peer_find f; match peer with None => none | Some i => gbprox_relay2peer msg i nb end)
     (fun _ st' => after st st') st.
Proof.
  intros Hw Hn. unfold peer_find. wp_steps.
  destruct (list_find _ _) as [[i p]|] eqn:E; cbn [fmap option_fmap option_map fst]; [|done].
  apply wp_relay2peer; [done|]. apply find_peer in E. by exists p.
Qed.
Lemma wp_paging st msg tp nb : wf_proxy st -> wp (gbprox_rx_paging msg tp nb) (fun _ st' => after st st') st.
Proof.
  intros Hw. unfold gbprox_rx_paging.
  destruct (tp BSSGP_IE_BVCI) as [[? ?]|], (tp BSSGP_IE_ROUTEING_AREA) as [[? ?]|],
    (tp BSSGP_IE_LOCATION_AREA) as [[? ?]|]; try (apply wp_found; [done|]); wp_steps; by apply after_refl.
Qed.
Lemma wp_reset_from_sgsn st msg tp nb : wf_proxy st -> wp (rx_reset_from_sgsn msg tp nb) (fun _ st' => after st st') st.
Proof.
  intros Hw. unfold rx_reset_from_sgsn. destruct (tp BSSGP_IE_BVCI) as [[? v]|]; [|by apply wp_status].
  cbv zeta. destruct (2 <=? rd_be16 v); [apply wp_found; [done|by apply wp_status]|]. wp_steps.
  eapply wp_mono; [apply (wp_for_each _ _ st); [|by apply after_refl]|done].
  intros i st' Hi (Hw' & Hp & _). wp_steps. apply elem_of_seq in Hi. apply wp_relay2peer; [done|].
  rewrite Hp. apply lookup_lt_is_Some. lia.
Qed.

(** ** Unit data *)

Lemma rx_sig_from_sgsn_learns st msg id nb : wf_proxy st -> signalling nb = true ->
  wp (gbprox_rx_sig_from_sgsn msg nb) (fun _ st' => learned st (Rcv true msg id nb) st') st.
Proof.
  intros Hw Hs. set (o := Rcv true msg id nb). unfold gbprox_rx_sig_from_sgsn. cbv zeta.
  replace (negb (nb =? 0) && negb (nb =? 1)) with false
    by (unfold signalling in Hs; by destruct (nb =? 0), (nb =? 1)).
  assert (names o = None) as Hn by (cbn; by rewrite Hs).
  fold (pdu msg).
  destruct ((pdu msg =? BSSGP_PDUT_BVC_BLOCK_ACK) || (pdu msg =? BSSGP_PDUT_BVC_UNBLOCK_ACK)) eqn:Hblk.
  - assert (exists t, pdu msg = t /\ (t = BSSGP_PDUT_BVC_BLOCK_ACK \/ t = BSSGP_PDUT_BVC_UNBLOCK_ACK)) as (t & Ht & Hor)
      by (exists (pdu msg); apply orb_true_iff in Hblk as [?%Z.eqb_eq|?%Z.eqb_eq]; tauto).
    assert (blocks o = x ← bvci_ie msg; if x =? 0 then None else Some (x, t =? BSSGP_PDUT_BVC_BLOCK_ACK)) as Hb
      by (cbn; by rewrite Hs, Hblk, Ht).
    rewrite Ht in Hblk |- *.
    match goal with |- wp (if ?c1 then _ else if ?c2 then _ else if ?c3 then _ else if ?c4 then _ else if ?c5 then _
        else if ?c6 then _ else _) _ _ =>
      replace c1 with false by (by destruct Hor as [-> | ->]); replace c2 with false by (by destruct Hor as [-> | ->]);
      replace c3 with false by (by destruct Hor as [-> | ->]); replace c4 with false by (by destruct Hor as [-> | ->]);
      replace c5 with false by (by destruct Hor as [-> | ->]); replace c6 with false by (by destruct Hor as [-> | ->])
    end.
    unfold bvci_ie in Hb. clearbody o.
    destruct (px_tlv_parse msg BSSGP_IE_BVCI) as [[? v]|]; [|by apply wp_learned_nothing, wp_status]. cbn in Hb.
    destruct (rd_be16 v =? 0) eqn:E0; wp_steps; [by apply wp_learned_nothing, wp_relay2bvci|].
    apply (wp_block_unblock _ _ _ _ _ Hw Hblk eq_refl). intros _ st1 Hw1 Hr1.
    apply wp_learned; [done| |by apply wp_relay2bvci].
    intros b. rewrite Hr1. unfold learn. rewrite Hn, Hb. destruct (route st b) as [[i y]|]; [|done].
    by destruct (rd_be16 v =? b).
  - assert (blocks o = None) as Hb by (cbn; by rewrite Hs, Hblk).
    apply wp_learned_nothing; [done..|].
    repeat case_match; first [by apply wp_status|by apply wp_reset_from_sgsn|by apply wp_relay2bvci|by apply wp_paging
      |apply wp_found; [done|by apply wp_status]|by apply after_refl|idtac].
Qed.

Lemma rx_sig_from_bss_learns st msg id nb : wf_proxy st -> is_Some (nsvcs (bssgp_nsi st) !! id) -> signalling nb = true ->
  wp (gbprox_rx_sig_from_bss msg id nb) (fun _ st' => learned st (Rcv false msg id nb) st') st.
Proof.
  intros Hw [v Hv] Hs. set (o := Rcv false msg id nb). unfold gbprox_rx_sig_from_bss. cbv zeta.
  replace (negb (nb =? 0) && negb (nb =? 1)) with false
    by (unfold signalling in Hs; by destruct (nb =? 0), (nb =? 1)).
  assert (blocks o = None) as Hb by done. fold (pdu msg).
  destruct (pdu msg =? BSSGP_PDUT_BVC_RESET) eqn:Er.
  - apply Z.eqb_eq in Er. rewrite Er. cbn [orb Z.eqb Pos.eqb BSSGP_PDUT_UL_UNITDATA].
    assert (names o = x ← bvci_ie msg; if x =? 0 then None else Some (x, id)) as Hn by (cbn; by rewrite Hs, Er).
    change (wp (v ← ns (nsvc_get id); bss_reset msg (px_tlv_parse msg) id (nsei v) nb) (fun _ st' => learned st o st') st).
    wp_steps. apply (wp_nsvc_get _ _ _ v Hv). unfold bss_reset. unfold bvci_ie in Hn. clearbody o.
    destruct (px_tlv_parse msg BSSGP_IE_BVCI) as [[? w]|]; cbn in Hn; [|by apply wp_learned_nothing, wp_relay2sgsn].
    cbv zeta. destruct (rd_be16 w =? 0); [by apply wp_learned_nothing, wp_simple|]. wp_steps.
    apply wp_or_new; [done|by exists v|]. intros i st1 p Hw1 _ _ _ Hr1.
    assert (forall b, route st1 b = learn (route st) o b) as Hr.
    { intros b. rewrite Hr1. unfold learn. rewrite Hn, Hb. by destruct (route st b) as [[]|]. }
    destruct (px_tlv_parse msg BSSGP_IE_CELL_ID) as [[? c]|].
    + rewrite wp_bind. apply wp_snoop; [done|]. intros st2 Hw2 _ Hr2. apply wp_learned; [done| |by apply wp_relay2sgsn].
      intros b. by rewrite Hr2.
    + wp_steps. apply wp_learned; [done..|by apply wp_relay2sgsn].
  - assert (names o = None) as Hn by (cbn; by rewrite Er, andb_false_r).
    destruct (_ || _); [by apply wp_learned_nothing, after_refl|].
    destruct (_ || _); [|by apply wp_learned_nothing, wp_relay2sgsn].
    destruct (px_tlv_parse msg BSSGP_IE_ROUTEING_AREA) as [[? w]|]; [|by apply wp_learned_nothing, wp_status].
    unfold peer_by_nsvc, peer_find. wp_steps.
    destruct (list_find _ _) as [[i p]|]; cbn [fmap option_fmap option_map fst]; [|by apply wp_learned_nothing, wp_status].
    wp_steps. apply wp_snoop; [done|]. intros st1 Hw1 _ Hr1. apply wp_learned; [done| |by apply wp_relay2sgsn].
    intros b. rewrite Hr1. unfold learn. rewrite Hn, Hb. by destruct (route st b) as [[]|].
Qed.

Lemma rcvmsg_learns st msg id nb v : wf_proxy st -> nsvcs (bssgp_nsi st) !! id = Some v ->
  wp (gbprox_rcvmsg msg id nb) (fun _ st' => learned st (Rcv (remote_end_is_sgsn v) msg id nb) st') st.
Proof.
  intros Hw Hv. unfold gbprox_rcvmsg. wp_steps. apply (wp_nsvc_get _ _ _ v Hv). fold (signalling nb).
  destruct (signalling nb) eqn:Es, (remote_end_is_sgsn v); cbn [negb].
  - by apply rx_sig_from_sgsn_learns.
  - by apply rx_sig_from_bss_learns.
  - wp_steps. apply wp_or_new; [done|by exists v|]. intros i st1 p Hw1 _ Hp _ Hr1. unfold peer_get. wp_steps.
    rewrite Hp. cbn [deref]. wp_steps.
    assert (forall b, route st1 b = learn (route st) (Rcv true msg id nb) b) as Hr.
    { intros b. rewrite Hr1. unfold learn. cbn. rewrite Es. by destruct (route st b) as [[]|]. }
    destruct (blocked p); apply wp_learned; try done; [by apply wp_status|]. apply wp_relay2peer; [done|by exists p].
  - apply wp_learned_nothing; [cbn; by rewrite Es|done|by apply wp_relay2sgsn].
Qed.

(** ** Signals *)

Lemma wp_when_after (b : bool) (m : PX unit) st :
  wf_proxy st -> (b = true -> wp m (fun _ st' => after st st') st) -> wp (when b m) (fun _ st' => after st st') st.
Proof. intros Hw Hm. rewrite wp_when. destruct b; [by apply Hm|by apply after_refl]. Qed.

Lemma wp_ns_safe {A} (m : NS A) st id : wf_proxy st -> is_Some (nsvcs (bssgp_nsi st) !! id) -> safe [id] m ->
  (forall ids, keeps (stored ids) m) -> wp (ns m) (fun _ st' => after st st') st.
Proof. intros Hw Hid Hs Hk. apply wp_ns; [done| |done]. by eapply safe_ns. Qed.

Lemma wp_ignore {A} (m : PX A) st : wp m (fun _ st' => after st st') st ->
  wp (m;; mret tt) (fun _ st' => after st st') st.
Proof. intros Hm. wp_steps. by apply (wp_mono _ _ _ _ Hm). Qed.

Lemma wp_signal_to_peer s c st i : wf_proxy st -> is_Some (gbprox_bts_peers st !! i) ->
  wp (signal_to_peer s c i) (fun _ st' => after st st') st.
Proof.
  intros Hw [p Hp]. unfold signal_to_peer, peer_get. wp_steps. rewrite Hp. cbn [deref]. wp_steps.
  destruct (Forall_lookup_1 _ _ _ _ (wx_nsvc _ Hw) Hp) as (id & Hn & Hid). rewrite Hn. cbn [deref].
  assert (id ∈ [id]) as Hin by by left.
  destruct s; wp_steps; try apply wp_ignore; [..|by apply after_refl]; apply wp_ns_safe with id; try done; auto with keeps.
  - by apply safe_tx_reset.
  - by apply safe_tx_block.
  - by apply safe_tx_simple.
Qed.

Lemma wp_signal st s id c : wf_proxy st -> is_Some (nsvcs (bssgp_nsi st) !! id) ->
  wp (gbprox_signal true s id c) (fun _ st' => after st st') st.
Proof.
  intros Hw Hid. unfold gbprox_signal. cbn [negb].
  assert (forall st1 (Q : gprs_nsvc -> proxy -> Prop), after st st1 ->
            (forall v, nsvcs (bssgp_nsi st1) !! id = Some v -> Q v st1) -> wp (ns (nsvc_get id)) Q st1) as Hget.
  { intros st1 Q (_ & _ & Hs) HQ. destruct (Hs _ Hid) as [v Hv]. by apply (wp_nsvc_get _ _ _ v Hv), HQ. }
  assert (forall st1, after st st1 -> is_Some (nsvcs (bssgp_nsi st1) !! id)) as Hid1 by (intros st1 (_ & _ & Hs); auto).
  wp_steps. apply Hget; [by apply after_refl|]. intros v _. wp_steps.
  eapply (wp_after _ st); [by apply after_refl| |].
  { apply wp_when_after; [done|]. intros _. apply wp_ns_safe with id; [done..| |auto with keeps].
    apply safe_upd. intros w [? ? ? ? ?]. by split. }
  intros _ st1 Ha1. wp_steps. apply Hget; [done|]. intros v1 Hv1. wp_steps.
  eapply (wp_after _ st); [done| |].
  { apply wp_when_after; [apply Ha1|]. intros _. apply wp_ignore. pose proof (wx_ns _ (proj1 Ha1)) as Hn.
    pose proof (wn_each _ Hn _ _ Hv1) as Hwv. apply wp_ns; [apply Ha1| |auto with keeps].
    apply runs_connect; [done|apply Hwv..]. }
  intros _ st2 Ha2. wp_steps. apply Hget; [done|]. intros v2 _.
  destruct (negb (remote_end_is_sgsn v2)).
  - unfold peer_by_nsvc, peer_find. wp_steps.
    destruct (list_find _ _) as [[i p]|] eqn:E; cbn [fmap option_fmap option_map fst]; [|done].
    apply find_peer in E. unfold peer_get. wp_steps. rewrite E. cbn [deref]. wp_steps.
    assert (forall t n b nb, wp (px_tx_simple_bvci t n b nb;; mret 0) (fun _ st' => after st st') st2) as Hs.
    { intros. wp_steps. eapply (wp_after _ st); [done|apply wp_simple, Ha2|done]. }
    by destruct s; [destruct (negb (blocked p))..|done|].
  - wp_steps. eapply wp_mono; [apply (wp_for_each _ _ st)|done]; [|done].
    intros i st3 Hi Ha3. apply elem_of_seq in Hi. apply wp_signal_to_peer; [apply Ha3|].
    apply lookup_lt_is_Some. destruct Ha3 as (_ & Hp3 & _), Ha2 as (_ & Hp2 & _). rewrite Hp3, <- Hp2. lia.
Qed.

Lemma wp_reset_persistent st : wf_proxy st -> wp gbprox_reset_persistent_nsvcs (fun _ st' => after st st') st.
Proof.
  intros Hw. unfold gbprox_reset_persistent_nsvcs. wp_steps.
  eapply wp_mono; [apply (wp_for_each _ _ st); [|by apply after_refl]|done].
  intros id st1 Hid (Hw1 & _ & Hs). apply (wn_listed _ (wx_ns _ Hw)), Hs in Hid as [v Hv].
  wp_steps. apply (wp_nsvc_get _ _ _ v Hv). destruct (negb (persistent v)); [by apply after_refl|].
  apply wp_ns_safe with id; [done|by exists v| |auto with keeps]. apply safe_nsvc_reset. by left.
Qed.

(** ** Runs *)

Definition may (st : proxy) (o : px_op) : Prop :=
  match o with
  | Rcv f _ id _ => exists v, nsvcs (bssgp_nsi st) !! id = Some v /\ remote_end_is_sgsn v = f
  | Signal _ id _ => is_Some (nsvcs (bssgp_nsi st) !! id)
  | ResetAll => True
  end.
Definition run (o : px_op) : PX Z :=
  match o with
  | Rcv _ msg id b => gbprox_rcvmsg msg id b
  | Signal s id cause => gbprox_signal true s id cause
  | ResetAll => gbprox_reset_persistent_nsvcs
  end.

Lemma run_learns st o : wf_proxy st -> may st o -> wp (run o) (fun _ st' => learned st o st') st.
Proof.
  intros Hw Hm. destruct o as [f msg id b|s id c|]; cbn [run may] in *.
  - destruct Hm as (v & Hv & <-). by apply rcvmsg_learns.
  - apply wp_learned_nothing; [done..|]. by apply wp_signal.
  - apply wp_learned_nothing; [done..|]. by apply wp_reset_persistent.
Qed.

(** The proxy after its start received these messages and signals; between them the NS layer works, whose
    NS-VCs are not deleted (no code calls [nsvc_delete]). *)
Inductive reach : list px_op -> proxy -> Prop :=
| reach_start : reach [] (mk_proxy gprs_ns_instantiate [])
| reach_op tr st o rc st' ev : reach tr st -> may st o -> run o st = Some (rc, st', ev) -> reach (tr ++ [o]) st'
| reach_ns tr st nsi : reach tr st -> ns_step (bssgp_nsi st) nsi ->
    (forall id, is_Some (nsvcs (bssgp_nsi st) !! id) -> is_Some (nsvcs nsi !! id)) ->
    reach tr (st <| bssgp_nsi := nsi |>).

Lemma reach_wf tr st : tlv_octets -> reach tr st -> wf_proxy st /\ forall b, route st b = history tr b.
Proof.
  intros Ht. induction 1 as [|tr st o rc st' ev _ [IH1 IH2] Hm Hrun|tr st nsi _ [IH1 IH2] Hn Hs].
  - split; [|done]. split; cbn; [|constructor..]. apply ns_reachable_wf; [done|constructor].
  - pose proof (run_learns st o IH1 Hm) as Hl. apply (wp_run _ _ _ _ _ _ Hrun) in Hl as [Hw Hr].
    split; [done|]. intros b. rewrite Hr. unfold history. rewrite foldl_app. cbn. unfold learn. by rewrite IH2.
  - apply after_ns in Hs as (Hw & Hp & _); [|done|by eapply wf_ns_step, wx_ns]. split; [done|].
    intros b. rewrite <- IH2. unfold route. by rewrite Hp.
Qed.

(** ** What runs exactly *)

Lemma run_nsvc_get st id v : nsvcs (bssgp_nsi st) !! id = Some v -> ns (nsvc_get id) st = Some (v, st, []).
Proof. intros Hv. unfold ns, nsvc_get. rewrite Hv. by destruct st. Qed.

Lemma relay2sgsn_run st msg nb :
  gbprox_relay2sgsn msg nb st = ns (gprs_ns_sendmsg (mk_ns_msg (bssgp_part msg) nsip_sgsn_nsei nb)) st.
Proof. unfold gbprox_relay2sgsn, msgb_copy. rewrite Hcopy. cbn [deref]. by rewrite run_ret. Qed.

Lemma relay2peer_run st msg i nb p d w :
  gbprox_bts_peers st !! i = Some p -> nsvc p = Some d -> nsvcs (bssgp_nsi st) !! d = Some w ->
  gbprox_relay2peer msg i nb st = ns (gprs_ns_sendmsg (mk_ns_msg (bssgp_part msg) (nsei w) nb)) st.
Proof.
  intros Hp Hd Hw. unfold gbprox_relay2peer, msgb_copy, peer_get. rewrite Hcopy. cbn [deref].
  rewrite run_ret, run_assoc, run_gets, Hp. cbn [deref]. rewrite run_ret, Hd. cbn [deref]. rewrite run_ret.
  by run_with (run_nsvc_get _ _ _ Hw).
Qed.

Lemma or_new_run st b id : exists i p st1,
  peer_by_bvci_or_new b id st = Some (i, st1, []) /\ gbprox_bts_peers st1 !! i = Some p /\
  bssgp_nsi st1 = bssgp_nsi st /\ (nsvc p, blocked p) = default (Some id, false) (route st b) /\
  (blocked p = true -> st1 = st).
Proof.
  unfold peer_by_bvci_or_new, peer_by_bvci, peer_find, peer_alloc, route, route_of.
  destruct (list_find (is_bvc b) (gbprox_bts_peers st)) as [[i p]|] eqn:E.
  - exists i, p, st. rewrite run_gets, E. cbn. repeat split. by eapply find_peer.
  - exists 0%nat, (mk_gbprox_peer (Some id) b false (replicate 6 0)). rewrite run_gets, E. cbn. rewrite Halloc.
    eexists. by repeat split.
Qed.

Lemma route_valid st b dst x : wf_proxy st -> route st b = Some (dst, x) ->
  exists d w, dst = Some d /\ nsvcs (bssgp_nsi st) !! d = Some w.
Proof.
  intros Hw ([i p] & Hf & [= -> ->])%fmap_Some. apply find_peer in Hf.
  destruct (Forall_lookup_1 _ _ _ _ (wx_nsvc _ Hw) Hf) as (d & Hd & [w Hdw]). by exists d, w.
Qed.

Lemma wp_runs {A} (m : PX A) Q st : wp m Q st -> exists a st' ev, m st = Some (a, st', ev) /\ m st = Some (a, st', ev).
Proof. intros (a & st' & ev & H & _)%wp_elim. by exists a, st', ev. Qed.

(** C21: the proxy withstands everything. In every state it reaches, each message that NS delivers, each
    signal and the reset of the NS-VCs run to their end; afterwards every peer points to an NS-VC that
    exists, has six octets of routing area, and no two peers have the same BVC. *)
Theorem proxy_safe tr st o : tlv_octets -> reach tr st -> may st o ->
  exists rc st' ev, run o st = Some (rc, st', ev) /\ wf_ns (bssgp_nsi st') /\
    NoDup (map bvci (gbprox_bts_peers st')) /\
    forall p, p ∈ gbprox_bts_peers st' ->
      length (ra p) = 6%nat /\ exists id, nsvc p = Some id /\ is_Some (nsvcs (bssgp_nsi st') !! id).
Proof.
  intros Ht Hr Hm. destruct (reach_wf _ _ Ht Hr) as [Hw _].
  destruct (wp_elim _ _ _ (run_learns st o Hw Hm)) as (rc & st' & ev & Hrun & [H1 H2 H3 H4] & _).
  exists rc, st', ev. split; [done|]. split; [done|]. split; [done|]. intros p Hp.
  rewrite Forall_forall in H2, H4. split; [by apply H4|by apply H2].
Qed.

(** C20: point-to-point traffic passes unchanged, and to where history says. What a base station sends on a
    BVC goes to the SGSN with the same BVC. What the SGSN sends goes to the NS-VC behind which the BVC was
    named first since the start, be it in a BVC-RESET of a base station or, then back to itself, in a message
    of the SGSN for an unknown BVC, unless the SGSN's last acknowledgement for the BVC blocked it. *)
Theorem ptp_follows_history tr st msg id v b :
  tlv_octets -> reach tr st -> nsvcs (bssgp_nsi st) !! id = Some v -> 2 <= b ->
  if remote_end_is_sgsn v then
    exists rc st' ev, gbprox_rcvmsg msg id b st = Some (rc, st', ev) /\
      let '(dest, is_blocked) := default (Some id, false) (history tr b) in
      if is_blocked then px_tx_status BSSGP_CAUSE_BVCI_BLOCKED msg st = Some (rc, st', ev)
      else exists d w, dest = Some d /\ nsvcs (bssgp_nsi st) !! d = Some w /\
             gprs_ns_sendmsg (mk_ns_msg (bssgp_part msg) (nsei w) b) (bssgp_nsi st) = Some (rc, bssgp_nsi st', ev)
  else
    gbprox_rcvmsg msg id b st = ns (gprs_ns_sendmsg (mk_ns_msg (bssgp_part msg) nsip_sgsn_nsei b)) st.
Proof.
  intros Ht Hr Hv Hb. destruct (reach_wf _ _ Ht Hr) as [Hw Hh]. unfold gbprox_rcvmsg.
  run_with (run_nsvc_get _ _ _ Hv). replace ((b =? 0) || (b =? 1)) with false by lia.
  destruct (remote_end_is_sgsn v); cbn [negb]; [|by apply relay2sgsn_run].
  rewrite <- Hh. destruct (or_new_run st b id) as (i & p & st1 & Hrun & Hp & Hn & Hpb & Hsame).
  run_with Hrun. unfold peer_get. rewrite run_assoc, run_gets, Hp. cbn [deref]. run_steps.
  rewrite <- Hpb. destruct (blocked p) eqn:Hblk.
  - rewrite Hsame by done. by eapply wp_runs, wp_status.
  - assert (exists d w, nsvc p = Some d /\ nsvcs (bssgp_nsi st) !! d = Some w) as (d & w & Hd & Hdw).
    { pose proof (f_equal fst Hpb) as Hd. destruct (route st b) as [[dst x]|] eqn:E.
      - apply route_valid in E; [|done]. destruct E as (d & w & -> & Hdw). by exists d, w.
      - by exists id, v. }
    rewrite <- Hn in Hdw. rewrite (relay2peer_run _ _ _ _ _ _ _ Hp Hd Hdw).
    destruct (runs_sendmsg (bssgp_nsi st1) (mk_ns_msg (bssgp_part msg) (nsei w) b)) as (rc & nsi & ev & Hs & _);
      [rewrite Hn; apply Hw|].
    exists rc, (st1 <| bssgp_nsi := nsi |>), ev. unfold ns. rewrite Hs. split; [done|]. exists d, w.
    rewrite <- Hn. by split; [|split].
Qed.

End memory.

End proxy.

(** ** A proxy between an SGSN and a base station *)

#[local] Existing Instance NsRuns.ns_test_env.
Definition proxy_test_env : ProxyEnv := {|
  nsip_sgsn_nsei := 1;
  bssgp_tlv_parse buf _ tag := (fun v => (0, v)) <$> NsRuns.tlvs (length buf) buf tag;
  bssgp_tlv_parse_rc _ _ := 0;
  peer_alloc_ok := true;
  msgb_copy_ok := true;
  bssgp_msgb_ok := true
|}.
#[local] Existing Instance proxy_test_env.

Definition ns_do {A} (m : M gprs_ns_inst ns_event A) (nsi : gprs_ns_inst) : gprs_ns_inst :=
  match m nsi with Some (_, nsi, _) => nsi | None => nsi end.
Definition px_do (o : px_op) (st : proxy) : proxy := match run o st with Some (_, st, _) => st | None => st end.

(** The NS-VC 1 to the SGSN and the NS-VC 2 to the base station are reset and unblocked. *)
Definition demo_frames : list (sockaddr_in * list Z) := [
  (NsRuns.addr_sgsn, [NS_PDUT_RESET_ACK; 1; 2; 0; 1; 4; 2; 0; 1]); (NsRuns.addr_sgsn, [NS_PDUT_UNBLOCK_ACK]);
  (NsRuns.addr_bss, [NS_PDUT_RESET; 0; 1; 1; 1; 2; 0; 9; 4; 2; 0; 9]); (NsRuns.addr_bss, [NS_PDUT_UNBLOCK])].
Definition demo_connected : gprs_ns_inst := ns_do (nsip_connect NsRuns.addr_sgsn 1 1) gprs_ns_instantiate.
Definition demo_frame (nsi : gprs_ns_inst) (f : sockaddr_in * list Z) : gprs_ns_inst :=
  ns_do (gprs_ns_rcvmsg (mk_ns_msg (snd f) 0 0) (fst f) GPRS_NS_LL_UDP) nsi.
Definition demo_ns : gprs_ns_inst := foldl demo_frame demo_connected demo_frames.
Definition demo_msg (p : list Z) : px_msg := mk_px_msg ([0; 0; 0; 7] ++ p) 4 0 7.
(** The base station resets the BVC 7. *)
Definition demo_reset : px_op := Rcv false (demo_msg [BSSGP_PDUT_BVC_RESET; BSSGP_IE_BVCI; 2; 0; 7]) 2 0.
Definition demo_proxy : proxy := px_do demo_reset (mk_proxy demo_ns []).

Lemma reach_ns_run {A} (m : M gprs_ns_inst ns_event A) tr nsi l :
  reach tr (mk_proxy nsi l) -> (match m nsi with Some _ => true | None => false end) = true -> (forall a nsi' ev, m nsi = Some (a, nsi', ev) -> ns_step nsi nsi') ->
  bool_decide (dom (nsvcs nsi) ⊆ dom (nsvcs (ns_do m nsi))) = true -> reach tr (mk_proxy (ns_do m nsi) l).
Proof.
  intros Hr Hm Hs Hd%bool_decide_eq_true. unfold ns_do in *. destruct (m nsi) as [[[a nsi'] ev]|] eqn:E; [|done].
  apply (reach_ns tr (mk_proxy nsi l) nsi' Hr); [by eapply Hs|]. cbn. clear Hm. intros id Hid%elem_of_dom. apply elem_of_dom. auto.
Qed.

Lemma proxy_demo_reach : reach [demo_reset] demo_proxy.
Proof.
  assert (reach [] (mk_proxy demo_ns [])) as H.
  { assert (reach [] (mk_proxy demo_connected [])) as H.
    { apply reach_ns_run; [apply reach_start|by vm_compute| |by vm_compute].
      intros a nsi' ev E. eapply step_connect; [| |exact E]; vm_bounds. }
    assert (forall nsi f, reach [] (mk_proxy nsi []) -> octets (snd f) ->
              (match gprs_ns_rcvmsg (mk_ns_msg (snd f) 0 0) (fst f) GPRS_NS_LL_UDP nsi with Some _ => true | None => false end) = true ->
              bool_decide (dom (nsvcs nsi) ⊆ dom (nsvcs (demo_frame nsi f))) = true ->
              reach [] (mk_proxy (demo_frame nsi f) [])) as Hf.
    { intros nsi f Hr Ho Hi Hd. apply reach_ns_run; [done..| |done].
      intros a nsi' ev E. eapply step_rcvmsg; [|exact E]. exact Ho. }
    unfold demo_ns, demo_frames. cbn [foldl].
    repeat (apply Hf; [|repeat constructor; vm_compute; congruence|by vm_compute|by vm_compute]). exact H. }
  destruct (run demo_reset (mk_proxy demo_ns [])) as [[[rc st'] ev]|] eqn:E; [|by vm_compute in E].
  assert (demo_proxy = st') as -> by (unfold demo_proxy, px_do; by rewrite E).
  apply (reach_op [] (mk_proxy demo_ns []) demo_reset rc st' ev H); [|exact E].
  exists (default (nsvc_new 0) (nsvcs demo_ns !! 2%nat)). vm_compute. by split.
Qed.

Lemma proxy_safe_witness :
  exists rc st' ev, run (Signal S_NS_BLOCK 1 0) demo_proxy = Some (rc, st', ev) /\ wf_ns (bssgp_nsi st') /\
    NoDup (map bvci (gbprox_bts_peers st')) /\
    forall p, p ∈ gbprox_bts_peers st' ->
      length (ra p) = 6%nat /\ exists id, nsvc p = Some id /\ is_Some (nsvcs (bssgp_nsi st') !! id).
Proof.
  apply (proxy_safe (env := proxy_test_env) eq_refl eq_refl eq_refl [demo_reset] demo_proxy (Signal S_NS_BLOCK 1 0)).
  - exact NsRuns.test_tlv_octets.
  - exact proxy_demo_reach.
  - exists (default (nsvc_new 0) (nsvcs (bssgp_nsi demo_proxy) !! 1%nat)). vm_compute. reflexivity.
Defined.

Definition demo_sgsn : gprs_nsvc := default (nsvc_new 0) (nsvcs (bssgp_nsi demo_proxy) !! 1%nat).
Definition demo_bss : gprs_nsvc := default (nsvc_new 0) (nsvcs (bssgp_nsi demo_proxy) !! 2%nat).

Lemma ptp_follows_history_witness :
  history [demo_reset] 7 = Some (Some 2%nat, false) /\ bts_addr demo_bss = NsRuns.addr_bss /\
  exists rc st' ev, gbprox_rcvmsg (demo_msg [0; 1; 2; 3]) 1 7 demo_proxy = Some (rc, st', ev) /\
    exists d w, Some 2%nat = Some d /\ nsvcs (bssgp_nsi demo_proxy) !! d = Some w /\
      gprs_ns_sendmsg (mk_ns_msg [0; 1; 2; 3] (nsei w) 7) (bssgp_nsi demo_proxy) = Some (rc, bssgp_nsi st', ev).
Proof.
  assert (history [demo_reset] 7 = Some (Some 2%nat, false)) as Hh by (vm_compute; reflexivity).
  split; [exact Hh|]. split; [vm_compute; reflexivity|].
  pose proof (ptp_follows_history (env := proxy_test_env) eq_refl eq_refl eq_refl [demo_reset] demo_proxy
                (demo_msg [0; 1; 2; 3]) 1 demo_sgsn 7 NsRuns.test_tlv_octets proxy_demo_reach
                ltac:(vm_compute; reflexivity) ltac:(lia)) as H.
  replace (remote_end_is_sgsn demo_sgsn) with true in H by (vm_compute; reflexivity). rewrite Hh in H. exact H.
Defined.

(** A message of the SGSN for an unknown BVC returns to the SGSN, and so do all later ones, even when the base
    station of the BVC has reset it. *)
Example unknown_bvc_is_lost :
  history [Rcv true (demo_msg [0; 1; 2; 3]) 1 7; demo_reset] 7 = Some (Some 1%nat, false).
Proof. vm_compute. reflexivity. Qed.

(** A paging request that names a BVC reaches no base station. *)
Example paging_by_bvci_fails :
  (fun r => fst (fst r)) <$> run (Rcv true (demo_msg [BSSGP_PDUT_PAGING_PS; BSSGP_IE_BVCI; 2; 0; 7]) 1 0) demo_proxy = Some (- EINVAL).
Proof. vm_compute. reflexivity. Qed.

End GbProxyProps.
