(* ===== verification/Gsm0340.v ===== *)
(** The transfer layer of short messages in libmsc/gsm_04_11.c (GSM 03.40): time stamps, validity periods,
    alphabets, the TPDU that is delivered and the one that is submitted.

    A buffer is a list of octets; what is read behind its end reads 0, as the code checks no length. The
    calendar ([localtime], [mktime]), the coding of digits and the default alphabet belong to libraries. *)

From S2P Require Import Prelude.

Module Gsm0340.

(** ** Semi-octets *)

Definition bcdify (value : Z) : Z := u8 ((value / 10) .| u8 ((value mod 10) .<< 4)).
(** A nibble above 9 is only logged. *)
Definition unbcdify (value : Z) : Z := u8 ((value .& 0x0f) * 10 + (value .>> 4)).

(** ** Time stamps *)

(** The members of [struct tm] that are used. *)
Record tm : Type := mk_tm {
  tm_year : Z; tm_mon : Z; tm_mday : Z; tm_hour : Z; tm_min : Z; tm_sec : Z;
  tm_gmtoff : Z   (* seconds *)
}.

(** [enum sms_alphabet] *)
Inductive sms_alphabet : Type := DCS_NONE | DCS_7BIT_DEFAULT | DCS_UCS2 | DCS_8BIT_DATA.
#[export] Instance sms_alphabet_eq_dec : EqDecision sms_alphabet.
Proof. solve_decision. Defined.

Class CalEnv : Type := {
  localtime : Z -> tm;
  mktime : tm -> Z;
  GSM340_SMS_DELIVER_SC2MS : Z;
  GSM340_TP_VPF_NONE : Z;
  GSM340_TP_VPF_ENHANCED : Z;
  GSM340_TP_VPF_RELATIVE : Z;
  GSM340_TP_VPF_ABSOLUTE : Z;
  GSM411_RP_CAUSE_MO_NET_OUT_OF_ORDER : Z;
  GSM411_RP_CAUSE_SEMANT_INC_MSG : Z;
  (* the octets of the digits, if they fit; and back, from the octets behind the type of number *)
  encode_bcd : list Z -> option (list Z);
  decode_bcd : list Z -> list Z;
  gsm_7bit_decode : list Z -> Z -> list Z
}.

Section codec.
Context `{CalEnv}.

Definition gsm340_gen_scts (time : Z) : list Z :=
  let tm := localtime time in
  map (fun x => bcdify (u8 x))
    [Z.rem (tm_year tm) 100; tm_mon tm + 1; tm_mday tm; tm_hour tm; tm_min tm; tm_sec tm; Z.quot (tm_gmtoff tm) (60 * 15)].

(** The members that [gsm340_scts] gives to [mktime]. *)
Definition scts_tm (scts : list Z) : tm :=
  let f i := unbcdify (rd scts i) in
  {| tm_year := if f 0%nat <=? 80 then 100 + f 0%nat else f 0%nat; tm_mon := f 1%nat - 1; tm_mday := f 2%nat;
     tm_hour := f 3%nat; tm_min := f 4%nat; tm_sec := f 5%nat; tm_gmtoff := f 6%nat * 15 * 60 |}.
Definition gsm340_scts (scts : list Z) : Z := mktime (scts_tm scts).

(** ** Validity periods, in minutes ([unsigned long]) *)

Abbreviation ulong := (wrap 64).

Definition gsm340_vp_default : Z := 24 * 60 * 2.

Definition gsm340_vp_relative (sms_vp : list Z) : Z :=
  let vp := rd sms_vp 0 in
  ulong (if vp <=? 143 then vp + 1 * 5
         else if vp <=? 167 then 12 * 60 + (vp - 143) * 30
         else if vp <=? 196 then vp - 166 * 60 * 24
         else vp - 192 * 60 * 24 * 7).

Definition gsm340_vp_absolute (now : Z) (sms_vp : list Z) : Z :=
  let expires := gsm340_scts sms_vp in
  if expires <=? now then 0 else ulong (Z.quot (expires - now) 60).

Definition gsm340_vp_relative_integer (sms_vp : list Z) : Z :=
  let vp := rd sms_vp 0 in
  if vp =? 0 then gsm340_vp_default else vp / 60.

Definition gsm340_vp_relative_semioctet (sms_vp : list Z) : Z :=
  unbcdify (rd sms_vp 0) * 60 + unbcdify (rd sms_vp 1) + unbcdify (rd sms_vp 2) / 60.

Definition gsm340_validity_period (now sms_vpf : Z) (sms_vp : list Z) : Z :=
  if sms_vpf =? GSM340_TP_VPF_RELATIVE then gsm340_vp_relative sms_vp
  else if sms_vpf =? GSM340_TP_VPF_ABSOLUTE then gsm340_vp_absolute now sms_vp
  else if sms_vpf =? GSM340_TP_VPF_ENHANCED then
    let fi := rd sms_vp 0 in
    let sms_vp := drop 1 sms_vp in
    let sms_vp := if tst fi (1 .<< 7) then drop 1 sms_vp else sms_vp in
    if fi .& 0x7 =? 0 then gsm340_vp_default
    else if fi .& 0x7 =? 1 then gsm340_vp_relative sms_vp
    else if fi .& 0x7 =? 2 then gsm340_vp_relative_integer sms_vp
    else if fi .& 0x7 =? 3 then gsm340_vp_relative_semioctet sms_vp
    else gsm340_vp_default
  else gsm340_vp_default.

(** ** Alphabets: [None] is the value 0xffffffff for compressed text *)

Definition gsm338_get_sms_alphabet (dcs : Z) : option sms_alphabet :=
  let cgbits := dcs .>> 4 in
  if cgbits .& 0xc =? 0 then
    if tst cgbits 2 then None
    else
      let a := (dcs .>> 2) .& 0x03 in
      Some (if a =? 0 then DCS_7BIT_DEFAULT else if a =? 1 then DCS_8BIT_DATA
            else if a =? 2 then DCS_UCS2 else DCS_NONE)
  else if (cgbits =? 0xc) || (cgbits =? 0xd) then Some DCS_7BIT_DEFAULT
  else if cgbits =? 0xe then Some DCS_UCS2
  else if cgbits =? 0xf then Some (if tst dcs 4 then DCS_8BIT_DATA else DCS_7BIT_DEFAULT)
  else Some DCS_NONE.

(** ** Messages *)

(** [struct gsm_sms]; subscribers are named by their number. *)
Record gsm_sms : Type := mk_gsm_sms {
  sms_id : Z;
  sender : option nat;
  receiver : option nat;
  validity_minutes : Z;
  status_rep_req : Z;
  ud_hdr_ind : Z;
  protocol_id : Z;
  data_coding_scheme : Z;
  msg_ref : Z;
  dest_addr : list Z;
  user_data_len : Z;
  user_data : list Z;
  text : list Z
}.
#[export] Instance upd_sender : Upd sender := fun f r => mk_gsm_sms (sms_id r) (f (sender r)) (receiver r) (validity_minutes r) (status_rep_req r) (ud_hdr_ind r) (protocol_id r) (data_coding_scheme r) (msg_ref r) (dest_addr r) (user_data_len r) (user_data r) (text r).
#[export] Instance upd_receiver : Upd receiver := fun f r => mk_gsm_sms (sms_id r) (sender r) (f (receiver r)) (validity_minutes r) (status_rep_req r) (ud_hdr_ind r) (protocol_id r) (data_coding_scheme r) (msg_ref r) (dest_addr r) (user_data_len r) (user_data r) (text r).
#[export] Instance upd_protocol_id : Upd protocol_id := fun f r => mk_gsm_sms (sms_id r) (sender r) (receiver r) (validity_minutes r) (status_rep_req r) (ud_hdr_ind r) (f (protocol_id r)) (data_coding_scheme r) (msg_ref r) (dest_addr r) (user_data_len r) (user_data r) (text r).

(** Address of the originator, of [extension]; the digits do not fit: [oa_len] is a negative number as [uint8_t],
    and what is behind the buffer is copied. *)
Definition gsm340_gen_oa (extension : list Z) : option (list Z) :=
  d ← encode_bcd extension;
  Some (u8 (Z.of_nat (length extension)) :: 0xb9 :: d).

(** The octets of user data that are sent. *)
Definition ud_octets (dcs len : Z) : Z :=
  match gsm338_get_sms_alphabet dcs with
  | Some DCS_7BIT_DEFAULT => u8 (len * 7 / 8 + (if (len * 7) mod 8 =? 0 then 0 else 1))
  | Some DCS_UCS2 | Some DCS_8BIT_DATA => len
  | _ => 0
  end.

(** The TPDU of SMS-DELIVER; [ext] is the extension of the sender. *)
Definition gsm340_gen_tpdu (now : Z) (ext : list Z) (sms : gsm_sms) : option (list Z) :=
  oa ← gsm340_gen_oa ext;
  let b0 := GSM340_SMS_DELIVER_SC2MS in
  let b0 := if status_rep_req sms =? 0 then b0 else b0 .| 0x20 in
  let b0 := if ud_hdr_ind sms =? 0 then b0 else b0 .| 0x40 in
  Some ([b0] ++ oa ++ [protocol_id sms; data_coding_scheme sms] ++ gsm340_gen_scts now ++ [user_data_len sms]
        ++ take (Z.to_nat (ud_octets (data_coding_scheme sms) (user_data_len sms))) (user_data sms)).

(** [n] octets at [p], as [memcpy] reads them. *)
Definition mem (n : nat) (p : list Z) : list Z := map (rd p) (seq 0 n).

(** A TPDU from a mobile up to the choice of the receiver: the cause it is rejected with, or the type of
    message and the message, still without sender and receiver. *)
Definition parse_tpdu (now : Z) (smsp : list Z) : Z + (Z * gsm_sms) :=
  let b0 := rd smsp 0 in
  let sms_mti := b0 .& 0x03 in
  let sms_vpf := (b0 .& 0x18) .>> 3 in
  let mr := rd smsp 1 in
  let smsp := drop 2 smsp in
  let da_len_bytes := u8 (2 + rd smsp 0 / 2 + rd smsp 0 mod 2) in
  if 12 <? da_len_bytes then inl GSM411_RP_CAUSE_SEMANT_INC_MSG
  else
    (* the first octet becomes the length in octets, the second is the type of number *)
    let address := drop 1 (mem (Z.to_nat da_len_bytes) smsp) in
    let da := decode_bcd (drop 1 address) in
    let smsp := drop (Z.to_nat da_len_bytes) smsp in
    let pid := rd smsp 0 in
    let dcs := rd smsp 1 in
    let smsp := drop 2 smsp in
    match gsm338_get_sms_alphabet dcs with
    | None => inl GSM411_RP_CAUSE_MO_NET_OUT_OF_ORDER
    | Some alphabet =>
        let sms_vp := smsp in
        match (if sms_vpf =? GSM340_TP_VPF_RELATIVE then Some 1%nat
               else if sms_vpf =? GSM340_TP_VPF_ABSOLUTE then Some 7%nat
               else if sms_vpf =? GSM340_TP_VPF_ENHANCED then Some (if tst (rd smsp 0) (1 .<< 7) then 8%nat else 7%nat)
               else if sms_vpf =? GSM340_TP_VPF_NONE then Some 0%nat
               else None) with
        | None => inl GSM411_RP_CAUSE_MO_NET_OUT_OF_ORDER
        | Some vp_len =>
            let smsp := drop vp_len smsp in
            let udl := rd smsp 0 in
            let smsp := drop 1 smsp in
            inr (sms_mti,
              {| sms_id := 0; sender := None; receiver := None;
                 validity_minutes := gsm340_validity_period now sms_vpf sms_vp;
                 status_rep_req := b0 .& 0x20; ud_hdr_ind := b0 .& 0x40; protocol_id := pid;
                 data_coding_scheme := dcs; msg_ref := mr; dest_addr := da; user_data_len := udl;
                 user_data := mem (Z.to_nat udl) smsp ++ replicate (256 - Z.to_nat udl) 0;
                 text := if negb (udl =? 0) && bool_decide (alphabet = DCS_7BIT_DEFAULT)
                         then gsm_7bit_decode smsp udl else [] |})
        end
    end.

(** The lengths in RP-DATA and, where they are not 0, what they announce: originator, destination, TPDU. *)
Definition rp_field (p : list Z) : option (list Z) * list Z :=
  (if rd p 0 =? 0 then None else Some (drop 1 p), drop (1 + Z.to_nat (rd p 0)) p).
Definition rp_data_fields (data : list Z) : option (list Z) * option (list Z) * option (list Z) :=
  let '(src, p) := rp_field data in
  let '(dst, p) := rp_field p in
  let '(rp_ud, _) := rp_field p in
  (src, dst, rp_ud).

End codec.

End Gsm0340.
