(* ===== verification/Gsm0340Props.v ===== *)
(** The transfer layer of short messages: a message submitted by a mobile is delivered as it was submitted;
    time stamps are read back; which relative validity periods are the ones of the standard. *)

From S2P Require Import Prelude Gsm0340.
Import Gsm0340.

Module Gsm0340Props.

(** ** Time stamps *)

Lemma unbcdify_bcdify x : 0 <= x < 100 -> unbcdify (bcdify x) = x.
Proof.
  intros Hx. apply Z.eqb_eq. revert x Hx.
  apply (range_forall (fun x => unbcdify (bcdify x) =? x) 100). by vm_compute.
Qed.

(** Calendar times that a time stamp can express: the years 1981 to 2080, not west of Greenwich. *)
Definition expressible (t : tm) : Prop :=
  81 <= tm_year t <= 180 /\ 0 <= tm_mon t <= 11 /\ 1 <= tm_mday t <= 31 /\ 0 <= tm_hour t <= 23 /\
  0 <= tm_min t <= 59 /\ 0 <= tm_sec t <= 60 /\ exists q, 0 <= q < 100 /\ tm_gmtoff t = q * (60 * 15).

Lemma unbcdify_u8 x : 0 <= x < 100 -> unbcdify (bcdify (u8 x)) = x.
Proof. intros Hx. rewrite wrap_small by (unfold in_width; lia). by apply unbcdify_bcdify. Qed.

Section codec.
Context `{CalEnv}.

Lemma scts_read_back time : expressible (localtime time) -> scts_tm (gsm340_gen_scts time) = localtime time.
Proof.
  unfold expressible, gsm340_gen_scts, scts_tm. destruct (localtime time) as [y mo d h mi s off].
  cbn [map rd tm_year tm_mon tm_mday tm_hour tm_min tm_sec tm_gmtoff].
  intros (Hy & Hmo & Hd & Hh & Hmi & Hs & q & Hq & ->). cbn -[Z.mul Z.quot Z.rem unbcdify bcdify wrap Z.add Z.leb] in *.
  unfold rd. cbn [lookup list_lookup default from_option]. unfold id.
  rewrite Z.quot_mul by lia. change (15 * 60) with (60 * 15).
  rewrite !unbcdify_u8 by (try lia; apply Z.rem_bound_pos; lia).
  f_equal; try lia. destruct (Z.leb_spec (Z.rem y 100) 80); Z.to_euclidean_division_equations; lia.
Qed.

(** ** Validity periods *)

(** GSM 03.40, 9.2.3.12.1, in minutes. *)
Definition relative_period (vp : Z) : Z :=
  if vp <=? 143 then (vp + 1) * 5
  else if vp <=? 167 then 12 * 60 + (vp - 143) * 30
  else if vp <=? 196 then (vp - 166) * (60 * 24)
  else (vp - 192) * (60 * 24 * 7).

(** Precedence: of the relative periods only the first and those between 12 and 24 hours are the ones of the
    standard; the long ones are around 2^64 minutes. *)
Theorem vp_relative_iff vp :
  0 <= vp <= 255 -> gsm340_vp_relative [vp] = relative_period vp <-> vp = 0 \/ 144 <= vp <= 167.
Proof.
  intros Hvp.
  assert (eqb (gsm340_vp_relative [vp] =? relative_period vp) ((vp =? 0) || (144 <=? vp) && (vp <=? 167)) = true) as Heq.
  { assert (0 <= vp < Z.of_nat 256) as Hr by lia. clear Hvp. revert vp Hr.
    apply (range_forall (fun vp => eqb (gsm340_vp_relative [vp] =? relative_period vp)
                                     ((vp =? 0) || (144 <=? vp) && (vp <=? 167)))). by vm_compute. }
  apply eqb_prop in Heq. rewrite <- Z.eqb_eq, Heq. rewrite orb_true_iff, andb_true_iff, Z.eqb_eq, !Z.leb_le. done.
Qed.

(** ** A submitted message *)

(** SMS-SUBMIT as the standard lays it out: [digits] of the destination in the octets [da], the validity
    period [vp], the user data [ud] whose length [udl] counts characters. *)
Definition submit (b0 mr digits toa : Z) (da : list Z) (pid dcs : Z) (vp : list Z) (udl : Z) (ud : list Z) : list Z :=
  [b0; mr; digits; toa] ++ da ++ [pid; dcs] ++ vp ++ [udl] ++ ud.

(** The octets of the period for the format in [b0]. *)
Definition vp_octets (b0 : Z) (vp : list Z) : option nat :=
  let vpf := (b0 .& 0x18) .>> 3 in
  if vpf =? GSM340_TP_VPF_RELATIVE then Some 1%nat
  else if vpf =? GSM340_TP_VPF_ABSOLUTE then Some 7%nat
  else if vpf =? GSM340_TP_VPF_ENHANCED then Some (if tst (rd vp 0) (1 .<< 7) then 8%nat else 7%nat)
  else if vpf =? GSM340_TP_VPF_NONE then Some 0%nat else None.

Lemma rd_app_before l k i : (i < length l)%nat -> rd (l ++ k) i = rd l i.
Proof. intros Hi. unfold rd. by rewrite lookup_app_l. Qed.
Lemma mem_prefix n l k : n = length l -> mem n (l ++ k) = l.
Proof.
  intros ->. unfold mem. apply list_eq. intros i. rewrite list_lookup_fmap.
  destruct (decide (i < length l)%nat) as [Hi|Hi].
  - rewrite lookup_seq_lt by done. cbn. rewrite rd_app_before by done. unfold rd.
    destruct (lookup_lt_is_Some_2 l i Hi) as [x ->]. done.
  - rewrite (lookup_seq_ge 0 (length l) i) by lia. by rewrite (lookup_ge_None_2 l i) by lia.
Qed.
Lemma mem_length n p : length (mem n p) = n.
Proof. unfold mem. by rewrite length_map, length_seq. Qed.
Lemma mem_octets n p m : (m <= n)%nat -> take m (mem n p) = mem m p.
Proof.
  intros Hm. unfold mem. rewrite firstn_map. f_equal.
  replace n with (m + (n - m))%nat by lia. rewrite seq_app, take_app_length'; [done|]. by rewrite length_seq.
Qed.

Lemma ud_octets_le dcs len : 0 <= len <= 255 -> 0 <= ud_octets dcs len <= len.
Proof.
  intros Hl. unfold ud_octets. destruct (gsm338_get_sms_alphabet dcs) as [[]|]; try lia.
  assert (0 <= len * 7 / 8 + (if len * 7 mod 8 =? 0 then 0 else 1) <= len) as Hle.
  { destruct (Z.eqb_spec (len * 7 mod 8) 0); Z.to_euclidean_division_equations; lia. }
  rewrite wrap_small by (unfold in_width; lia). done.
Qed.

(** What the network makes of SMS-SUBMIT. *)
Lemma parse_submit now b0 mr digits toa da pid dcs vp udl ud alphabet :
  0 <= digits <= 20 -> Z.of_nat (length da) = digits / 2 + digits mod 2 ->
  gsm338_get_sms_alphabet dcs = Some alphabet -> vp_octets b0 (vp ++ [udl] ++ ud) = Some (length vp) ->
  exists m, parse_tpdu now (submit b0 mr digits toa da pid dcs vp udl ud) = inr (b0 .& 0x03, m) /\
    status_rep_req m = b0 .& 0x20 /\ ud_hdr_ind m = b0 .& 0x40 /\ protocol_id m = pid /\ data_coding_scheme m = dcs /\
    msg_ref m = mr /\ dest_addr m = decode_bcd da /\ user_data_len m = udl /\
    user_data m = mem (Z.to_nat udl) ud ++ replicate (256 - Z.to_nat udl) 0 /\
    validity_minutes m = gsm340_validity_period now ((b0 .& 0x18) .>> 3) (vp ++ [udl] ++ ud).
Proof.
  intros Hd Hda Ha Hv. unfold parse_tpdu, submit.
  change (rd ([b0; mr; digits; toa] ++ ?x) 0) with b0.
  change (rd ([b0; mr; digits; toa] ++ ?x) 1) with mr.
  change (drop 2 ([b0; mr; digits; toa] ++ ?x)) with ([digits; toa] ++ x).
  change (rd ([digits; toa] ++ ?x) 0) with digits. cbv zeta.
  assert (u8 (2 + digits / 2 + digits mod 2) = 2 + Z.of_nat (length da)) as Hlen.
  { rewrite wrap_small; [lia|]. unfold in_width. Z.to_euclidean_division_equations. lia. }
  rewrite Hlen.
  destruct (Z.ltb_spec 12 (2 + Z.of_nat (length da))) as [Hlt|_]; [Z.to_euclidean_division_equations; lia|].
  rewrite (app_assoc [digits; toa]), mem_prefix by (rewrite length_app; cbn [length]; lia).
  rewrite drop_app_length' by (rewrite length_app; cbn [length]; lia).
  change (rd ([pid; dcs] ++ ?x) 0) with pid. change (rd ([pid; dcs] ++ ?x) 1) with dcs.
  change (drop 2 ([pid; dcs] ++ ?x)) with x. rewrite Ha.
  unfold vp_octets in Hv. cbv zeta in Hv. rewrite Hv. rewrite drop_app_length.
  change (rd ([udl] ++ ud) 0) with udl. change (drop 1 ([udl] ++ ud)) with ud.
  change (drop 1 (drop 1 ([digits; toa] ++ da))) with da.
  eexists. split; [done|]. repeat split.
Qed.

(** C24: a message is delivered as it was submitted: from SMS-SUBMIT in the layout of the standard, with text that
    is not compressed and a destination of at most 20 digits, the network makes the message (dialled number and user data) from
    which, when it is sent on to its receiver, it makes an SMS-DELIVER with the submitted user data (as many octets as the alphabet
    takes for their length; none in a reserved coding scheme), their length, protocol identifier, coding
    scheme, header indicator and status report request, the sender's number and a time stamp. The stamp reads back as
    the local time of delivery when that is [expressible]: a year from 1981 to 2080 and a time zone that is
    not west of Greenwich; west of it the stamp is wrong ([scts_west]). The way through the data base between the two
    is not part of this. *)
Theorem submitted_is_delivered now now' ext b0 mr digits toa da pid dcs vp udl ud alphabet oa :
  0 <= digits <= 20 -> Z.of_nat (length da) = digits / 2 + digits mod 2 ->
  gsm338_get_sms_alphabet dcs = Some alphabet ->
  vp_octets b0 (vp ++ [udl] ++ ud) = Some (length vp) ->
  0 <= udl <= 255 -> Z.of_nat (length ud) = ud_octets dcs udl ->
  gsm340_gen_oa ext = Some oa ->
  exists m scts, parse_tpdu now (submit b0 mr digits toa da pid dcs vp udl ud) = inr (b0 .& 0x03, m) /\
    dest_addr m = decode_bcd da /\
    gsm340_gen_tpdu now' ext m =
      Some (GSM340_SMS_DELIVER_SC2MS .| (b0 .& 0x20) .| (b0 .& 0x40) :: oa ++ [pid; dcs] ++ scts ++ [udl] ++ ud) /\
    length scts = 7%nat /\ (expressible (localtime now') -> scts_tm scts = localtime now').
Proof.
  intros Hd Hda Ha Hv Hudl Hud Hoa.
  destruct (parse_submit now b0 mr digits toa da pid dcs vp udl ud alphabet Hd Hda Ha Hv)
    as (m & Hm & Hsr & Hui & Hpid & Hdcs & _ & Hdest & Hlen & Hdata & _).
  exists m, (gsm340_gen_scts now'). split; [done|]. split; [done|].
  split; [|split; [done|by intros Ht; apply scts_read_back]].
  unfold gsm340_gen_tpdu. rewrite Hoa. cbn [mbind option_bind]. rewrite Hsr, Hui, Hpid, Hdcs, Hlen, Hdata.
  assert ((if b0 .& 0x40 =? 0 then (if b0 .& 0x20 =? 0 then GSM340_SMS_DELIVER_SC2MS else GSM340_SMS_DELIVER_SC2MS .| 0x20)
           else (if b0 .& 0x20 =? 0 then GSM340_SMS_DELIVER_SC2MS else GSM340_SMS_DELIVER_SC2MS .| 0x20) .| 0x40)
          = GSM340_SMS_DELIVER_SC2MS .| (b0 .& 0x20) .| (b0 .& 0x40)) as ->.
  { assert (forall n, 0 <= n -> b0 .& 2 ^ n = if b0 .& 2 ^ n =? 0 then 0 else 2 ^ n) as Hbit.
    { intros n Hn0. rewrite Z.land_comm. destruct (Z.eqb_spec (2 ^ n .& b0) 0) as [->|Hne]; [done|].
      apply Z.bits_inj'. intros i Hi. rewrite Z.land_spec, Z.pow2_bits_eqb by done.
      destruct (Z.eqb_spec n i) as [->|]; [|done]. destruct (Z.testbit b0 i) eqn:Hb; [done|]. exfalso. apply Hne.
      apply Z.bits_inj'. intros j Hj. rewrite Z.land_spec, Z.pow2_bits_eqb, Z.bits_0 by done.
      destruct (Z.eqb_spec i j) as [->|]; [by rewrite Hb|done]. }
    pose proof (Hbit 5 ltac:(lia)) as H5. pose proof (Hbit 6 ltac:(lia)) as H6. change (2 ^ 5) with 0x20 in H5. change (2 ^ 6) with 0x40 in H6.
    destruct (b0 .& 0x20 =? 0), (b0 .& 0x40 =? 0); rewrite H5, H6, ?Z.lor_0_r; done. }
  rewrite take_app_le by (rewrite mem_length; pose proof (ud_octets_le dcs udl Hudl); lia).
  rewrite mem_octets by (pose proof (ud_octets_le dcs udl Hudl); lia).
  rewrite <- Hud, Nat2Z.id. pose proof (mem_prefix (length ud) ud [] eq_refl) as Hmem. by rewrite app_nil_r in Hmem; rewrite Hmem.
Qed.

End codec.

(** A calendar in which it is always 2 November 2010, 14:30:05, an hour east of Greenwich, and octets of digits
    that are the digits. *)
#[local] Instance cal1 : CalEnv := {|
  localtime := fun _ => mk_tm 110 10 2 14 30 5 3600; mktime := fun _ => 0;
  GSM340_SMS_DELIVER_SC2MS := 0; GSM340_TP_VPF_NONE := 0; GSM340_TP_VPF_ENHANCED := 1; GSM340_TP_VPF_RELATIVE := 2;
  GSM340_TP_VPF_ABSOLUTE := 3; GSM411_RP_CAUSE_MO_NET_OUT_OF_ORDER := 38; GSM411_RP_CAUSE_SEMANT_INC_MSG := 95;
  encode_bcd := fun l => if bool_decide (length l <= 10)%nat then Some l else None; decode_bcd := fun l => l;
  gsm_7bit_decode := fun l _ => l |}.

(** West of Greenwich the time zone becomes one far in the east: an hour becomes 23 hours and a quarter. *)
Theorem scts_west :
  let cal := {| localtime := fun _ => mk_tm 110 10 2 14 30 5 (-3600); mktime := fun _ => 0;
    GSM340_SMS_DELIVER_SC2MS := 0; GSM340_TP_VPF_NONE := 0; GSM340_TP_VPF_ENHANCED := 1; GSM340_TP_VPF_RELATIVE := 2;
    GSM340_TP_VPF_ABSOLUTE := 3; GSM411_RP_CAUSE_MO_NET_OUT_OF_ORDER := 38; GSM411_RP_CAUSE_SEMANT_INC_MSG := 95;
    encode_bcd := fun _ => None; decode_bcd := fun l => l; gsm_7bit_decode := fun l _ => l |} in
  tm_gmtoff (scts_tm (gsm340_gen_scts 0)) = 23 * 3600 + 15 * 60.
Proof. by vm_compute. Qed.

Lemma submitted_is_delivered_witness :
  exists m scts, parse_tpdu 0 (submit 0x31 7 6 0x91 [0x21; 0x43; 0x65] 0 0 [0xaa] 5 [0xc8; 0x32; 0x9b; 0xfd; 0x06]) = inr (0x31 .& 0x03, m) /\
    dest_addr m = decode_bcd [0x21; 0x43; 0x65] /\
    gsm340_gen_tpdu 0 [1; 2; 3] m =
      Some (GSM340_SMS_DELIVER_SC2MS .| (0x31 .& 0x20) .| (0x31 .& 0x40) :: [3; 0xb9; 1; 2; 3] ++ [0; 0] ++ scts ++ [5] ++ [0xc8; 0x32; 0x9b; 0xfd; 0x06]) /\
    length scts = 7%nat /\ scts_tm scts = localtime 0.
Proof.
  destruct (submitted_is_delivered 0 0 [1; 2; 3] 0x31 7 6 0x91 [0x21; 0x43; 0x65] 0 0 [0xaa] 5 [0xc8; 0x32; 0x9b; 0xfd; 0x06]
           DCS_7BIT_DEFAULT [3; 0xb9; 1; 2; 3]) as (m & scts & H1 & H2 & H3 & H4 & H5); try reflexivity; try lia.
  exists m, scts. do 4 (split; [assumption|]). apply H5.
  cbn. unfold expressible. cbn. repeat split; try lia. exists 4. lia.
Defined.

End Gsm0340Props.
