(* ===== verification/Sms.v ===== *)
(** Short messages of the MSC: the CP and RP procedures of libmsc/gsm_04_11.c with the messages in memory, and
    the queue of libmsc/sms_queue.c that feeds them.

    Transactions, connections, messages, entries of the queue and channel requests live in stores and are
    named by their number; following a pointer to what was freed is undefined behaviour. Subscribers are
    named by a number too, and the references held on them are counted. Of the transactions of other
    protocols the state keeps the connection, and whether the memory where a short message's transaction
    keeps its message is zero, because the two share a union. What the database answers, whether paging starts
    and the clock are functions of the number of the question. [subscr_put_channel] is an event: the channel
    requests it starts end in [paging_cb_send_sms], an operation of its own. *)

From S2P Require Import Prelude Msc Gsm0340.
Import Gsm0340.
Import Msc(unlink).

Module Sms.

(** ** Data *)

Inductive cp_mt : Type := GSM411_MT_CP_DATA | GSM411_MT_CP_ACK | GSM411_MT_CP_ERROR.
Inductive rp_mt : Type :=
| GSM411_MT_RP_DATA_MO | GSM411_MT_RP_DATA_MT | GSM411_MT_RP_ACK_MO | GSM411_MT_RP_ACK_MT | GSM411_MT_RP_ERROR_MO
| GSM411_MT_RP_ERROR_MT | GSM411_MT_RP_SMMA_MO.
Inductive rp_cause : Type :=
| GSM411_RP_CAUSE_MO_NUM_UNASSIGNED | GSM411_RP_CAUSE_MT_MEM_EXCEEDED | GSM411_RP_CAUSE_INV_MAND_INF
| GSM411_RP_CAUSE_MSGTYPE_NOTEXIST | GSM411_RP_CAUSE_MSG_INCOMP_STATE | GSM411_RP_CAUSE_IE_NOTEXIST
| GSM411_RP_CAUSE_PROTOCOL_ERR.

(** Of [enum gsm411_cp_state] and [enum gsm411_rp_state] the states that are entered. *)
Inductive gsm411_cp_state : Type := GSM411_CPS_IDLE | GSM411_CPS_WAIT_CP_ACK | GSM411_CPS_MM_ESTABLISHED.
#[export] Instance gsm411_cp_state_eq_dec : EqDecision gsm411_cp_state.
Proof. solve_decision. Defined.
Inductive gsm411_rp_state : Type := GSM411_RPS_IDLE | GSM411_RPS_WAIT_TO_TX_RP_ACK.

(** [enum signal_sms] *)
Inductive signal_sms : Type :=
| S_SMS_SUBMITTED | S_SMS_DELIVERED | S_SMS_SMMA | S_SMS_MEM_EXCEEDED | S_SMS_UNKNOWN_ERROR.

(** [struct gsm_trans] of a short message. *)
Record sms_trans : Type := mk_sms_trans {
  t_id : Z;
  t_subscr : nat;
  t_callref : Z;   (* uint32_t *)
  t_conn : nat;
  link_id : Z;
  is_mt : bool;
  cp_state : gsm411_cp_state;
  cp_timer : option (Z * Z);   (* seconds and microseconds, while it runs *)
  rp_state : gsm411_rp_state;
  t_sms : option nat
}.
#[export] Instance upd_t_id : Upd t_id := fun f r => mk_sms_trans (f (t_id r)) (t_subscr r) (t_callref r) (t_conn r) (link_id r) (is_mt r) (cp_state r) (cp_timer r) (rp_state r) (t_sms r).
#[export] Instance upd_t_subscr : Upd t_subscr := fun f r => mk_sms_trans (t_id r) (f (t_subscr r)) (t_callref r) (t_conn r) (link_id r) (is_mt r) (cp_state r) (cp_timer r) (rp_state r) (t_sms r).
#[export] Instance upd_t_callref : Upd t_callref := fun f r => mk_sms_trans (t_id r) (t_subscr r) (f (t_callref r)) (t_conn r) (link_id r) (is_mt r) (cp_state r) (cp_timer r) (rp_state r) (t_sms r).
#[export] Instance upd_t_conn : Upd t_conn := fun f r => mk_sms_trans (t_id r) (t_subscr r) (t_callref r) (f (t_conn r)) (link_id r) (is_mt r) (cp_state r) (cp_timer r) (rp_state r) (t_sms r).
#[export] Instance upd_link_id : Upd link_id := fun f r => mk_sms_trans (t_id r) (t_subscr r) (t_callref r) (t_conn r) (f (link_id r)) (is_mt r) (cp_state r) (cp_timer r) (rp_state r) (t_sms r).
#[export] Instance upd_is_mt : Upd is_mt := fun f r => mk_sms_trans (t_id r) (t_subscr r) (t_callref r) (t_conn r) (link_id r) (f (is_mt r)) (cp_state r) (cp_timer r) (rp_state r) (t_sms r).
#[export] Instance upd_cp_state : Upd cp_state := fun f r => mk_sms_trans (t_id r) (t_subscr r) (t_callref r) (t_conn r) (link_id r) (is_mt r) (f (cp_state r)) (cp_timer r) (rp_state r) (t_sms r).
#[export] Instance upd_cp_timer : Upd cp_timer := fun f r => mk_sms_trans (t_id r) (t_subscr r) (t_callref r) (t_conn r) (link_id r) (is_mt r) (cp_state r) (f (cp_timer r)) (rp_state r) (t_sms r).
#[export] Instance upd_rp_state : Upd rp_state := fun f r => mk_sms_trans (t_id r) (t_subscr r) (t_callref r) (t_conn r) (link_id r) (is_mt r) (cp_state r) (cp_timer r) (f (rp_state r)) (t_sms r).
#[export] Instance upd_t_sms : Upd t_sms := fun f r => mk_sms_trans (t_id r) (t_subscr r) (t_callref r) (t_conn r) (link_id r) (is_mt r) (cp_state r) (cp_timer r) (rp_state r) (f (t_sms r)).

(** What a short message needs of [struct gsm_subscriber_connection]; [c_busy]: it is being released, or another
    operation needs it. *)
Record sms_conn : Type := mk_sms_conn {
  c_subscr : option nat;
  c_busy : bool;
  c_put_channel : bool
}.
#[export] Instance upd_c_subscr : Upd c_subscr := fun f r => mk_sms_conn (f (c_subscr r)) (c_busy r) (c_put_channel r).
#[export] Instance upd_c_busy : Upd c_busy := fun f r => mk_sms_conn (c_subscr r) (f (c_busy r)) (c_put_channel r).
#[export] Instance upd_c_put_channel : Upd c_put_channel := fun f r => mk_sms_conn (c_subscr r) (c_busy r) (f (c_put_channel r)).

Record gsm_sms_pending : Type := mk_gsm_sms_pending {
  p_subscr : nat;
  p_sms_id : Z;
  failed_attempts : Z;
  resend : bool;
  no_detach : bool
}.
#[export] Instance upd_p_subscr : Upd p_subscr := fun f r => mk_gsm_sms_pending (f (p_subscr r)) (p_sms_id r) (failed_attempts r) (resend r) (no_detach r).
#[export] Instance upd_p_sms_id : Upd p_sms_id := fun f r => mk_gsm_sms_pending (p_subscr r) (f (p_sms_id r)) (failed_attempts r) (resend r) (no_detach r).
#[export] Instance upd_failed_attempts : Upd failed_attempts := fun f r => mk_gsm_sms_pending (p_subscr r) (p_sms_id r) (f (failed_attempts r)) (resend r) (no_detach r).
#[export] Instance upd_resend : Upd resend := fun f r => mk_gsm_sms_pending (p_subscr r) (p_sms_id r) (failed_attempts r) (f (resend r)) (no_detach r).
#[export] Instance upd_no_detach : Upd no_detach := fun f r => mk_gsm_sms_pending (p_subscr r) (p_sms_id r) (failed_attempts r) (resend r) (f (no_detach r)).

Record gsm_sms_queue : Type := mk_gsm_sms_queue {
  resend_pending : bool;   (* the timer runs *)
  push_queue : bool;       (* the timer runs *)
  max_fail : Z;
  max_pending : Z;
  pending : Z;
  pendings : gmap nat gsm_sms_pending;
  pending_sms : list nat;
  last_subscr_id : Z       (* unsigned long long *)
}.
#[export] Instance upd_resend_pending : Upd resend_pending := fun f r => mk_gsm_sms_queue (f (resend_pending r)) (push_queue r) (max_fail r) (max_pending r) (pending r) (pendings r) (pending_sms r) (last_subscr_id r).
#[export] Instance upd_push_queue : Upd push_queue := fun f r => mk_gsm_sms_queue (resend_pending r) (f (push_queue r)) (max_fail r) (max_pending r) (pending r) (pendings r) (pending_sms r) (last_subscr_id r).
#[export] Instance upd_max_fail : Upd max_fail := fun f r => mk_gsm_sms_queue (resend_pending r) (push_queue r) (f (max_fail r)) (max_pending r) (pending r) (pendings r) (pending_sms r) (last_subscr_id r).
#[export] Instance upd_max_pending : Upd max_pending := fun f r => mk_gsm_sms_queue (resend_pending r) (push_queue r) (max_fail r) (f (max_pending r)) (pending r) (pendings r) (pending_sms r) (last_subscr_id r).
#[export] Instance upd_pending : Upd pending := fun f r => mk_gsm_sms_queue (resend_pending r) (push_queue r) (max_fail r) (max_pending r) (f (pending r)) (pendings r) (pending_sms r) (last_subscr_id r).
#[export] Instance upd_pendings : Upd pendings := fun f r => mk_gsm_sms_queue (resend_pending r) (push_queue r) (max_fail r) (max_pending r) (pending r) (f (pendings r)) (pending_sms r) (last_subscr_id r).
#[export] Instance upd_pending_sms : Upd pending_sms := fun f r => mk_gsm_sms_queue (resend_pending r) (push_queue r) (max_fail r) (max_pending r) (pending r) (pendings r) (f (pending_sms r)) (last_subscr_id r).
#[export] Instance upd_last_subscr_id : Upd last_subscr_id := fun f r => mk_gsm_sms_queue (resend_pending r) (push_queue r) (max_fail r) (max_pending r) (pending r) (pendings r) (pending_sms r) (f (last_subscr_id r)).

Record sms_state : Type := mk_sms_state {
  transs : gmap nat sms_trans;
  trans_list : list nat;
  cc_transs : list (nat * bool);   (* connection; the overlaid memory is not zero *)
  conns : gmap nat sms_conn;
  conn_list : list nat;
  smss : gmap nat gsm_sms;
  requests : list (nat * nat);     (* subscriber and message of [paging_cb_send_sms] *)
  refs : nat -> Z;                 (* references to a subscriber *)
  sms_queue : gsm_sms_queue;
  new_callref : Z;
  next_id : nat;
  questions : nat                  (* asked so far *)
}.
#[export] Instance upd_transs : Upd transs := fun f r => mk_sms_state (f (transs r)) (trans_list r) (cc_transs r) (conns r) (conn_list r) (smss r) (requests r) (refs r) (sms_queue r) (new_callref r) (next_id r) (questions r).
#[export] Instance upd_trans_list : Upd trans_list := fun f r => mk_sms_state (transs r) (f (trans_list r)) (cc_transs r) (conns r) (conn_list r) (smss r) (requests r) (refs r) (sms_queue r) (new_callref r) (next_id r) (questions r).
#[export] Instance upd_cc_transs : Upd cc_transs := fun f r => mk_sms_state (transs r) (trans_list r) (f (cc_transs r)) (conns r) (conn_list r) (smss r) (requests r) (refs r) (sms_queue r) (new_callref r) (next_id r) (questions r).
#[export] Instance upd_conns : Upd conns := fun f r => mk_sms_state (transs r) (trans_list r) (cc_transs r) (f (conns r)) (conn_list r) (smss r) (requests r) (refs r) (sms_queue r) (new_callref r) (next_id r) (questions r).
#[export] Instance upd_conn_list : Upd conn_list := fun f r => mk_sms_state (transs r) (trans_list r) (cc_transs r) (conns r) (f (conn_list r)) (smss r) (requests r) (refs r) (sms_queue r) (new_callref r) (next_id r) (questions r).
#[export] Instance upd_smss : Upd smss := fun f r => mk_sms_state (transs r) (trans_list r) (cc_transs r) (conns r) (conn_list r) (f (smss r)) (requests r) (refs r) (sms_queue r) (new_callref r) (next_id r) (questions r).
#[export] Instance upd_requests : Upd requests := fun f r => mk_sms_state (transs r) (trans_list r) (cc_transs r) (conns r) (conn_list r) (smss r) (f (requests r)) (refs r) (sms_queue r) (new_callref r) (next_id r) (questions r).
#[export] Instance upd_refs : Upd refs := fun f r => mk_sms_state (transs r) (trans_list r) (cc_transs r) (conns r) (conn_list r) (smss r) (requests r) (f (refs r)) (sms_queue r) (new_callref r) (next_id r) (questions r).
#[export] Instance upd_sms_queue : Upd sms_queue := fun f r => mk_sms_state (transs r) (trans_list r) (cc_transs r) (conns r) (conn_list r) (smss r) (requests r) (refs r) (f (sms_queue r)) (new_callref r) (next_id r) (questions r).
#[export] Instance upd_new_callref : Upd new_callref := fun f r => mk_sms_state (transs r) (trans_list r) (cc_transs r) (conns r) (conn_list r) (smss r) (requests r) (refs r) (sms_queue r) (f (new_callref r)) (next_id r) (questions r).
#[export] Instance upd_next_id : Upd next_id := fun f r => mk_sms_state (transs r) (trans_list r) (cc_transs r) (conns r) (conn_list r) (smss r) (requests r) (refs r) (sms_queue r) (new_callref r) (f (next_id r)) (questions r).
#[export] Instance upd_questions : Upd questions := fun f r => mk_sms_state (transs r) (trans_list r) (cc_transs r) (conns r) (conn_list r) (smss r) (requests r) (refs r) (sms_queue r) (new_callref r) (next_id r) (f (questions r)).

Inductive sms_event : Type :=
| SMS_DTAP (conn : nat) (link : Z) (data : list Z)     (* gsm0808_submit_dtap *)
| SMS_SIGNAL (sig : signal_sms) (sms : option nat)     (* for other listeners *)
| SMS_CLEAR (conn : nat)                               (* gsm0808_clear *)
| SMS_PUT_CHANNEL (subscr : nat)                       (* subscr_put_channel *)
| SMS_GET_CHANNEL (subscr : nat)
| DB_SMS_STORE (sms : gsm_sms)
| DB_SMS_MARK_SENT (sms : Z)
| DB_SMS_INC_ATTEMPTS (sms : Z)
| DB_DETACH (subscr : nat).                            (* lac = GSM_LAC_RESERVED_DETACHED, synchronised *)

(** Why a channel request fails at once. *)
Inductive no_channel : Type := REQ_OOM | REQ_BUSY.

Class SmsEnv : Type := {
  cal : CalEnv;
  GSM48_PDISC_SMS : Z;
  cp_mt_octet : cp_mt -> Z;
  cp_mt_of : Z -> option cp_mt;
  rp_mt_octet : rp_mt -> Z;
  rp_mt_of : Z -> option rp_mt;
  rp_cause_octet : rp_cause -> Z;
  GSM411_CP_CAUSE_MSGTYPE_NOTEXIST : Z;
  GSM411_TMR_TC1A : Z * Z;
  mti_submit : Z -> bool;   (* GSM340_SMS_SUBMIT_MS2SC *)
  msgb_tv_put : Z -> Z -> list Z;
  (* memory *)
  msgb_ok : bool;
  trans_alloc_ok : bool;
  sms_alloc_ok : bool;
  pending_alloc_ok : bool;
  (* subscribers *)
  subscr_dbid : nat -> Z;
  extension : nat -> list Z;
  subscr_by_id : nat -> Z -> option nat;
  gsm_7bit_encode : list Z -> Z * list Z;   (* characters; octets *)
  (* answers; the messages of the database come with both subscribers *)
  clock : nat -> Z;
  by_extension : nat -> list Z -> option nat;
  db_sms_store_rc : nat -> Z;
  db_sms_get : nat -> Z -> option gsm_sms;
  db_sms_get_unsent_by_subscr : nat -> Z -> option gsm_sms;
  db_sms_get_unsent_for_subscr : nat -> nat -> option gsm_sms;
  get_channel : nat -> nat -> option no_channel;
  dtap_rc : sms_event -> Z
}.
#[export] Existing Instance cal.

Section sms.
Context {env : SmsEnv}.

Abbreviation SM := (M sms_state sms_event).

(** ** Access *)

Definition deref {A} (p : option A) : SM A := match p with Some a => mret a | None => fault end.
Definition load {A} (f : sms_state -> gmap nat A) (id : nat) : SM A := x ← gets (fun st => f st !! id); deref x.
Definition trans_get : nat -> SM sms_trans := load transs.
Definition conn_get : nat -> SM sms_conn := load conns.
Definition sms_get : nat -> SM gsm_sms := load smss.
Definition pending_get : nat -> SM gsm_sms_pending := load (fun st => pendings (sms_queue st)).
Definition trans_upd (id : nat) (f : sms_trans -> sms_trans) : SM unit :=
  trans_get id;; modify (fun st => st <| transs ::= alter f id |>).
Definition pending_upd (id : nat) (f : gsm_sms_pending -> gsm_sms_pending) : SM unit :=
  pending_get id;; modify (fun st => st <| sms_queue ::= fun q => q <| pendings ::= alter f id |> |>).
Definition queue_upd (f : gsm_sms_queue -> gsm_sms_queue) : SM unit := modify (fun st => st <| sms_queue ::= f |>).
Definition ask {A} (answer : nat -> A) : SM A :=
  n ← gets questions; modify (fun st => st <| questions ::= S |>);; mret (answer n).
Definition new_id : SM nat := id ← gets next_id; modify (fun st => st <| next_id ::= S |>);; mret id.

Definition ref_add (n : Z) (s : nat) (r : nat -> Z) : nat -> Z := fun x => if decide (x = s) then r x + n else r x.
Definition subscr_get (s : nat) : SM unit := modify (fun st => st <| refs ::= ref_add 1 s |>).
Definition subscr_put (s : nat) : SM unit := modify (fun st => st <| refs ::= ref_add (-1) s |>).
Definition put_opt (s : option nat) : SM unit := match s with Some s => subscr_put s | None => mret tt end.
Definition get_opt (s : option nat) : SM unit := match s with Some s => subscr_get s | None => mret tt end.

(** ** Messages *)

(** A message comes into memory, with references to its subscribers. *)
Definition sms_new (m : gsm_sms) : SM nat :=
  id ← new_id;
  get_opt (sender m);; get_opt (receiver m);;
  modify (fun st => st <| smss ::= <[id := m]> |>);;
  mret id.
(** A message read from the database. *)
Definition sms_from (m : option gsm_sms) : SM (option nat) :=
  match m with
  | Some m => if sms_alloc_ok then id ← sms_new m; mret (Some id) else mret None
  | None => mret None
  end.
(** A message of the operator. *)
Definition sms_from_text (r : nat) (dcs : Z) (str : list Z) : SM (option nat) :=
  if negb sms_alloc_ok then mret None
  else
    s ← ask (fun n => subscr_by_id n 1);
    let str := take 255 str in
    let '(len, ud) := gsm_7bit_encode str in
    id ← sms_new {| sms_id := 0; sender := s; receiver := Some r; validity_minutes := 0; status_rep_req := 0;
                    ud_hdr_ind := 0; protocol_id := 0; data_coding_scheme := dcs; msg_ref := 0;
                    dest_addr := take 20 (extension r); user_data_len := len;
                    user_data := ud ++ replicate (256 - length ud) 0; text := str |};
    mret (Some id).
Definition sms_free (id : nat) : SM unit :=
  m ← sms_get id;
  put_opt (sender m);; put_opt (receiver m);;
  modify (fun st => st <| smss ::= delete id |>).

(** ** The queue: entries *)

Definition find_pending (p : gsm_sms_pending -> bool) (st : sms_state) : option nat :=
  find (fun id => match pendings (sms_queue st) !! id with Some e => p e | None => false end) (pending_sms (sms_queue st)).
Definition sms_find_pending (sms : gsm_sms) : sms_state -> option nat := find_pending (fun e => p_sms_id e =? sms_id sms).
Definition sms_subscriber_find_pending (s : nat) : sms_state -> option nat :=
  find_pending (fun e => bool_decide (p_subscr e = s)).

(** The new entry is not in the list yet. *)
Definition sms_pending_from (m : gsm_sms) : SM (option nat) :=
  if negb pending_alloc_ok then mret None
  else
    r ← deref (receiver m);
    subscr_get r;;
    id ← new_id;
    queue_upd (fun q => q <| pendings ::= <[id := mk_gsm_sms_pending r (sms_id m) 0 false false]> |>);;
    mret (Some id).
Definition sms_pending_free (id : nat) : SM unit :=
  e ← pending_get id;
  subscr_put (p_subscr e);;
  queue_upd (fun q => q <| pending_sms ::= unlink id |> <| pendings ::= delete id |>).

Definition sms_queue_trigger : SM unit := queue_upd (fun q => q <| push_queue := true |>).

Definition sms_pending_resend (id : nat) : SM unit :=
  pending_upd id (fun e => e <| resend := true |>);;
  queue_upd (fun q => q <| resend_pending := true |>).

Definition sms_pending_failed (id : nat) (paging_error : bool) : SM unit :=
  pending_upd id (fun e => e <| failed_attempts ::= fun n => n + 1 |>);;
  e ← pending_get id;
  q ← gets sms_queue;
  if failed_attempts e <? max_fail q then sms_pending_resend id
  else
    when (paging_error && negb (no_detach e)) (emit (DB_DETACH (p_subscr e)));;
    sms_pending_free id;;
    queue_upd (fun q => q <| pending ::= fun n => n - 1 |>);;
    sms_queue_trigger.

(** The entry gives up its place. *)
Definition pending_done (id : nat) : SM unit :=
  queue_upd (fun q => q <| pending ::= fun n => n - 1 |>);;
  sms_pending_free id;;
  sms_queue_trigger.

(** How an attempt to send ended: 0, or why the paging failed. *)
Inductive paging_result : Type := RES_0 | RES_EXPIRED | RES_OOM | RES_BUSY.

(** [submit] is [sms_submit_pending]. *)
Definition sms_sms_cb (submit : SM unit) (signal : signal_sms) (sms : option nat) (result : paging_result) : SM unit :=
  match signal with
  | S_SMS_SUBMITTED | S_SMS_SMMA => sms_queue_trigger
  | _ =>
      match sms with
      | None => mret tt
      | Some id =>
          m ← sms_get id;
          p ← gets (sms_find_pending m);
          match p with
          | None => mret tt
          | Some p =>
              match signal with
              | S_SMS_DELIVERED =>
                  queue_upd (fun q => q <| pending ::= fun n => n - 1 |>);;
                  submit;;
                  sms_pending_free p
              | S_SMS_MEM_EXCEEDED => pending_done p
              | _ =>
                  match result with
                  | RES_0 => emit (DB_SMS_INC_ATTEMPTS (sms_id m));; sms_pending_failed p false
                  | RES_EXPIRED => sms_pending_failed p true
                  | RES_OOM | RES_BUSY => pending_done p
                  end
              end
          end
      end
  end.

Definition send_signal_to (submit : SM unit) (sig : signal_sms) (sms : option nat) (result : paging_result) : SM unit :=
  emit (SMS_SIGNAL sig sms);;
  sms_sms_cb submit sig sms result.
(** The signals other than [S_SMS_DELIVERED], which alone submits messages. *)
Definition send_error (sms : nat) (result : paging_result) : SM unit :=
  send_signal_to fault S_SMS_UNKNOWN_ERROR (Some sms) result.

(** ** Transactions *)

Definition trans_find_by_id (subscr : nat) (tid : Z) (st : sms_state) : option nat :=
  find (fun id => match transs st !! id with
                  | Some t => bool_decide (t_subscr t = subscr) && (t_id t =? tid)
                  | None => false
                  end) (trans_list st).

Definition trans_alloc (subscr : nat) (tid callref : Z) (conn : nat) (mt : bool) (sms : option nat) : SM (option nat) :=
  if negb trans_alloc_ok then mret None
  else
    subscr_get subscr;;
    id ← new_id;
    modify (fun st => st <| transs ::= <[id := mk_sms_trans tid subscr callref conn 3 mt GSM411_CPS_IDLE None GSM411_RPS_IDLE sms]> |>
                         <| trans_list ::= fun l => l ++ [id] |>);;
    mret (Some id).

Definition used_tid_bitmask (subscr : nat) (st : sms_state) : Z :=
  foldl (fun mask id =>
           match transs st !! id with
           | Some t => if bool_decide (t_subscr t = subscr) && negb (t_id t =? 0xff) then mask .| (1 .<< t_id t) else mask
           | None => mask
           end) 0 (trans_list st).
Definition trans_assign_trans_id (subscr : nat) (st : sms_state) : Z :=
  let mask := used_tid_bitmask subscr st in
  Msc.tid_search mask 0 (Msc.tid_last mask 0 6) 0 7.

Definition uses_conn (c : nat) (st : sms_state) : bool :=
  existsb (fun id => match transs st !! id with Some t => bool_decide (t_conn t = c) | None => false end) (trans_list st)
  || existsb (fun x => bool_decide (fst x = c)) (cc_transs st).

Definition subscr_con_free (c : nat) : SM unit :=
  conn ← conn_get c;
  put_opt (c_subscr conn);;
  modify (fun st => st <| conns ::= delete c |> <| conn_list ::= unlink c |>).

Definition msc_release_connection (c : nat) : SM unit :=
  conn ← conn_get c;
  u ← gets (uses_conn c);
  if c_busy conn || u then mret tt
  else
    emit (SMS_CLEAR c);;
    (if c_put_channel conn then s ← deref (c_subscr conn); emit (SMS_PUT_CHANNEL s) else mret tt);;
    subscr_con_free c.

Definition _gsm411_sms_trans_free (id : nat) : SM unit :=
  t ← trans_get id;
  match t_sms t with
  | Some m =>
      send_error m RES_0;;
      sms_free m;;
      trans_upd id (fun t => t <| t_sms := None |>)
  | None => mret tt
  end;;
  trans_upd id (fun t => t <| cp_timer := None |>).

Definition trans_free (id : nat) : SM unit :=
  _gsm411_sms_trans_free id;;
  t ← trans_get id;
  subscr_put (t_subscr t);;
  modify (fun st => st <| trans_list ::= unlink id |>);;
  msc_release_connection (t_conn t);;
  modify (fun st => st <| transs ::= delete id |>).

(** ** Sending *)

Definition gsm411_sendmsg (conn : nat) (data : list Z) (link : Z) : SM Z :=
  conn_get conn;;
  let e := SMS_DTAP conn link data in emit e;; mret (dtap_rc e).

Definition gsm411_cp_sendmsg (data : list Z) (id : nat) (mt : cp_mt) : SM Z :=
  if negb msgb_ok then fault
  else
    match mt with
    | GSM411_MT_CP_DATA =>
        trans_upd id (fun t => t <| cp_state := GSM411_CPS_WAIT_CP_ACK |> <| cp_timer := Some GSM411_TMR_TC1A |>)
    | _ => mret tt
    end;;
    t ← trans_get id;
    gsm411_sendmsg (t_conn t) ([u8 (GSM48_PDISC_SMS .| (t_id t .<< 4)); cp_mt_octet mt] ++ data) (link_id t).

Definition gsm411_rp_sendmsg (data : list Z) (id : nat) (mt : rp_mt) (ref : Z) : SM Z :=
  let len := u8 (Z.of_nat (length data)) in
  gsm411_cp_sendmsg ([u8 (len + 2); rp_mt_octet mt; ref] ++ data) id GSM411_MT_CP_DATA.

Definition gsm411_send_rp_ack (id : nat) (ref : Z) : SM Z := gsm411_rp_sendmsg [] id GSM411_MT_RP_ACK_MT ref.
Definition gsm411_send_rp_error (id : nat) (ref cause : Z) : SM Z :=
  gsm411_rp_sendmsg (msgb_tv_put 1 cause) id GSM411_MT_RP_ERROR_MT ref.

Definition gsm411_tx_cp_ack (id : nat) : SM Z :=
  rc ← gsm411_cp_sendmsg [] id GSM411_MT_CP_ACK;
  t ← trans_get id;
  when (is_mt t) (trans_upd id (fun t => t <| cp_state := GSM411_CPS_IDLE |>));;
  mret rc.
Definition gsm411_tx_cp_error (id : nat) (cause : Z) : SM Z := gsm411_cp_sendmsg [cause] id GSM411_MT_CP_ERROR.

Definition next_callref : SM Z := r ← gets new_callref; modify (fun st => st <| new_callref ::= fun r => u32 (r + 1) |>);; mret r.

(** Originator and destination of RP-DATA before the length of the TPDU. *)
Definition rp_data_hdr : list Z := [0x07; 0x91; 0x44; 0x77; 0x58; 0x10; 0x06; 0x50; 0].

Definition gsm411_send_sms (c sms : nat) : SM Z :=
  if negb msgb_ok then fault
  else
    conn ← conn_get c;
    s ← deref (c_subscr conn);
    tid ← gets (trans_assign_trans_id s);
    if tid =? -1 then send_error sms RES_0;; sms_free sms;; mret (- EBUSY)
    else
      ref ← next_callref;
      trans ← trans_alloc s tid ref c true (Some sms);
      match trans with
      | None => send_error sms RES_0;; sms_free sms;; mret (- ENOMEM)
      | Some id =>
          m ← sms_get sms;
          from ← deref (sender m);
          now ← ask clock;
          tpdu ← deref (gsm340_gen_tpdu now (extension from) m);
          emit (DB_SMS_INC_ATTEMPTS (sms_id m));;
          gsm411_rp_sendmsg (rp_data_hdr ++ [u8 (Z.of_nat (length tpdu))] ++ tpdu) id GSM411_MT_RP_DATA_MT 42
      end.

Definition paging_cb_send_sms (event : paging_result) (conn : option nat) (sms : nat) : SM Z :=
  match event with
  | RES_0 (* GSM_PAGING_SUCCEEDED *) => c ← deref conn; gsm411_send_sms c sms;; mret 0
  | _ => send_error sms event;; sms_free sms;; mret (- 110) (* ETIMEDOUT *)
  end.

Definition connection_for_subscr (s : nat) (st : sms_state) : option nat :=
  find (fun c => match conns st !! c with Some conn => bool_decide (c_subscr conn = Some s) | None => false end) (conn_list st).

Definition subscr_get_channel (s sms : nat) : SM unit :=
  a ← ask (fun n => get_channel n s);
  match a with
  | Some REQ_OOM => paging_cb_send_sms RES_OOM None sms;; mret tt
  | Some REQ_BUSY => paging_cb_send_sms RES_BUSY None sms;; mret tt
  | None =>
      subscr_get s;;
      modify (fun st => st <| requests ::= fun l => l ++ [(s, sms)] |>);;
      emit (SMS_GET_CHANNEL s)
  end.

Definition gsm411_send_sms_subscr (s sms : nat) : SM Z :=
  c ← gets (connection_for_subscr s);
  match c with
  | Some c => gsm411_send_sms c sms
  | None => subscr_get_channel s sms;; mret 0
  end.

(** ** The queue: submitting *)

Definition take_next_sms : SM (option nat) :=
  q ← gets sms_queue;
  m ← ask (fun n => db_sms_get_unsent_by_subscr n (last_subscr_id q));
  sms ← sms_from m;
  sms ← match sms with
        | Some _ => mret sms
        | None =>
            queue_upd (fun q => q <| last_subscr_id := 0 |>);;
            m ← ask (fun n => db_sms_get_unsent_by_subscr n 0);
            sms_from m
        end;
  match sms with
  | Some id =>
      m ← sms_get id;
      r ← deref (receiver m);
      queue_upd (fun q => q <| last_subscr_id := wrap 64 (subscr_dbid r + 1) |>)
  | None => mret tt
  end;;
  mret sms.

(** A message is skipped or becomes an entry and is sent; whether it counts as an attempt. *)
Definition submit_one (sms : nat) (m : gsm_sms) (r : nat) : SM bool :=
  p ← gets (sms_find_pending m);
  b ← gets (sms_subscriber_find_pending r);
  match p, b with
  | Some _, _ | None, Some _ => sms_free sms;; mret false
  | None, None =>
      e ← sms_pending_from m;
      match e with
      | None => sms_free sms;; mret false
      | Some e =>
          queue_upd (fun q => q <| pending ::= fun n => n + 1 |> <| pending_sms ::= fun l => l ++ [e] |>);;
          gsm411_send_sms_subscr r sms;;
          mret true
      end
  end.

(** The turns of the loop; [fuel] are the rounds left of 1000. *)
Fixpoint submit_loop (fuel : nat) (attempts attempted : Z) (first_sub : option Z) : SM unit :=
  match fuel with
  | O => mret tt
  | S fuel =>
      sms ← take_next_sms;
      match sms with
      | None => mret tt
      | Some sms =>
          m ← sms_get sms;
          r ← deref (receiver m);
          if bool_decide (first_sub = Some (subscr_dbid r)) then sms_free sms
          else
            b ← submit_one sms m r;
            let attempted := if (b : bool) then attempted + 1 else attempted in
            if attempted <? attempts then submit_loop fuel attempts attempted (Some (default (subscr_dbid r) first_sub))
            else mret tt
      end
  end.
Definition sms_submit_pending : SM unit :=
  q ← gets sms_queue;
  submit_loop 1000 (max_pending q - pending q) 0 None.

Definition send_signal : signal_sms -> option nat -> paging_result -> SM unit := send_signal_to sms_submit_pending.

(** ... with the elements of the list after the current one remembered before its turn. *)
Fixpoint for_each (f : nat -> SM unit) (l : list nat) : SM unit :=
  match l with [] => mret tt | x :: l => f x;; for_each f l end.

Definition resend_one (id : nat) : SM unit :=
  e ← pending_get id;
  if negb (resend e) then mret tt
  else
    m ← ask (fun n => db_sms_get n (p_sms_id e));
    sms ← sms_from m;
    match sms with
    | None =>
        sms_pending_free id;;
        queue_upd (fun q => q <| pending ::= fun n => n - 1 |>);;
        sms_queue_trigger
    | Some sms =>
        pending_upd id (fun e => e <| resend := false |>);;
        m ← sms_get sms;
        r ← deref (receiver m);
        gsm411_send_sms_subscr r sms;;
        mret tt
    end.
(** The timer [resend_pending] has expired. *)
Definition sms_resend_pending : SM unit :=
  queue_upd (fun q => q <| resend_pending := false |>);;
  l ← gets (fun st => pending_sms (sms_queue st));
  for_each resend_one l.
(** The timer [push_queue] has expired. *)
Definition push_queue_expired : SM unit :=
  queue_upd (fun q => q <| push_queue := false |>);;
  sms_submit_pending.

Definition sub_ready_for_sm (s : nat) : SM Z :=
  p ← gets (sms_subscriber_find_pending s);
  match p with
  | Some p => pending_upd p (fun e => e <| no_detach := true |>);; mret 0
  | None =>
      c ← gets (connection_for_subscr s);
      match c with
      | None => mret (-1)
      | Some c =>
          m ← ask (fun n => db_sms_get_unsent_for_subscr n s);
          sms ← sms_from m;
          match sms with
          | None => mret (-1)
          | Some sms => gsm411_send_sms c sms;; mret 0
          end
      end
  end.

(** ** Receiving *)

Definition gsm340_rx_sms_submit (sms : nat) : SM Z :=
  m ← sms_get sms;
  emit (DB_SMS_STORE m);;
  rc ← ask db_sms_store_rc;
  if negb (rc =? 0) then mret GSM411_RP_CAUSE_MO_NET_OUT_OF_ORDER
  else send_signal S_SMS_SUBMITTED (Some sms) RES_0;; mret 0.

Definition gsm340_rx_tpdu (c : nat) (smsp : list Z) : SM Z :=
  conn ← conn_get c;
  if negb sms_alloc_ok then mret GSM411_RP_CAUSE_MO_NET_OUT_OF_ORDER
  else
    now ← ask clock;
    match parse_tpdu now smsp with
    | inl cause => mret cause
    | inr (sms_mti, m) =>
        sms ← sms_new (m <| sender := c_subscr conn |>);
        send_signal S_SMS_SUBMITTED (Some sms) RES_0;;   (* signal 0 *)
        r ← ask (fun n => by_extension n (dest_addr m));
        get_opt r;;
        modify (fun st => st <| smss ::= alter (fun m => m <| receiver := r |>) sms |>);;
        rc ← (if bool_decide (r = None) then mret 1
              else if mti_submit sms_mti then gsm340_rx_sms_submit sms
              else mret (rp_cause_octet GSM411_RP_CAUSE_IE_NOTEXIST));
        sms_free sms;;
        mret rc
    end.

Definition gsm411_rx_rp_ud (id : nat) (ref : Z) (dst tpdu : option (list Z)) : SM Z :=
  match dst, tpdu with
  | Some _, Some tpdu =>
      t ← trans_get id;
      rc ← gsm340_rx_tpdu (t_conn t) tpdu;
      if rc =? 0 then gsm411_send_rp_ack id ref
      else if 0 <? rc then gsm411_send_rp_error id ref rc
      else mret rc
  | _, _ => gsm411_send_rp_error id ref (rp_cause_octet GSM411_RP_CAUSE_INV_MAND_INF);; mret (- EIO)
  end.

(** What follows [msg_ref] in an RP message. *)
Definition gsm411_rx_rp_data (id : nat) (ref : Z) (data : list Z) : SM Z :=
  let '(_, dst, rp_ud) := rp_data_fields data in gsm411_rx_rp_ud id ref dst rp_ud.

Definition gsm411_release_conn (c : nat) : SM unit :=
  conn ← conn_get c; s ← deref (c_subscr conn); emit (SMS_PUT_CHANNEL s).

(** Send the next message for the subscriber, or give the channel up. *)
Definition next_message (id : nat) : SM unit :=
  t ← trans_get id;
  m ← ask (fun n => db_sms_get_unsent_for_subscr n (t_subscr t));
  sms ← sms_from m;
  match sms with
  | Some sms => gsm411_send_sms (t_conn t) sms;; mret tt
  | None => gsm411_release_conn (t_conn t)
  end.

Definition gsm411_rx_rp_ack (id : nat) (ref : Z) : SM Z :=
  t ← trans_get id;
  if negb (is_mt t) then gsm411_send_rp_error id ref (rp_cause_octet GSM411_RP_CAUSE_MSG_INCOMP_STATE)
  else
    match t_sms t with
    | None => gsm411_send_rp_error id ref (rp_cause_octet GSM411_RP_CAUSE_PROTOCOL_ERR)
    | Some sms =>
        m ← sms_get sms;
        emit (DB_SMS_MARK_SENT (sms_id m));;
        send_signal S_SMS_DELIVERED (Some sms) RES_0;;
        sms_free sms;;
        trans_upd id (fun t => t <| t_sms := None |>);;
        next_message id;;
        trans_free id;;
        mret 0
    end.

Definition gsm411_rx_rp_error (id : nat) (data : list Z) : SM Z :=
  t ← trans_get id;
  conn_get (t_conn t);;
  let cause := rd data 1 in
  match t_sms t with
  | None => mret (- EINVAL)
  | Some sms =>
      send_signal (if cause =? rp_cause_octet GSM411_RP_CAUSE_MT_MEM_EXCEEDED then S_SMS_MEM_EXCEEDED else S_SMS_UNKNOWN_ERROR)
        (Some sms) RES_0;;
      sms_free sms;;
      trans_upd id (fun t => t <| t_sms := None |>);;
      mret 0
  end.

Definition gsm411_rx_rp_smma (id : nat) (ref : Z) : SM Z :=
  rc ← gsm411_send_rp_ack id ref;
  trans_upd id (fun t => t <| rp_state := GSM411_RPS_IDLE |>);;
  send_signal S_SMS_SMMA None RES_0;;
  next_message id;;
  mret rc.

(** [rp]: the RP header and what follows it. *)
Definition gsm411_rx_cp_data (id : nat) (rp : list Z) : SM Z :=
  let ref := rd rp 2 in
  let data := drop 3 rp in
  match rp_mt_of (rd rp 1 .& 0x07) with
  | Some GSM411_MT_RP_DATA_MO =>
      trans_upd id (fun t => t <| rp_state := GSM411_RPS_WAIT_TO_TX_RP_ACK |>);;
      gsm411_rx_rp_data id ref data
  | Some GSM411_MT_RP_ACK_MO => gsm411_rx_rp_ack id ref
  | Some GSM411_MT_RP_SMMA_MO =>
      trans_upd id (fun t => t <| rp_state := GSM411_RPS_WAIT_TO_TX_RP_ACK |>);;
      gsm411_rx_rp_smma id ref
  | Some GSM411_MT_RP_ERROR_MO => gsm411_rx_rp_error id data
  | _ => gsm411_send_rp_error id ref (rp_cause_octet GSM411_RP_CAUSE_MSGTYPE_NOTEXIST)
  end.

(** An implicit CP-ACK for another transaction of the mobile. *)
Definition implicit_ack (c : nat) (tid : Z) (i : nat) : SM unit :=
  if Z.of_nat i =? tid then mret tt
  else
    conn ← conn_get c;
    s ← deref (c_subscr conn);
    p ← gets (trans_find_by_id s (Z.of_nat i));
    match p with
    | None => mret tt
    | Some p =>
        trans_upd p (fun t => t <| cp_timer := None |> <| cp_state := GSM411_CPS_IDLE |>);;
        trans_free p
    end.

Definition cp_end (id : nat) : SM unit :=
  trans_upd id (fun t => t <| cp_state := GSM411_CPS_IDLE |>);;
  trans_free id.

Definition gsm0411_rcv_sms (c : nat) (msg : list Z) : SM Z :=
  conn ← conn_get c;
  match c_subscr conn with
  | None => mret (- EIO)
  | Some s =>
      let tid := (rd msg 0 .>> 4) .^ 0x8 in
      trans ← gets (trans_find_by_id s tid);
      trans ← match trans with
              | Some id => mret (Some id)
              | None => ref ← next_callref; trans_alloc s tid ref c false None
              end;
      match trans with
      | None => mret (- ENOMEM)
      | Some id =>
          match cp_mt_of (rd msg 1) with
          | Some GSM411_MT_CP_DATA =>
              t ← trans_get id;
              (if bool_decide (cp_state t = GSM411_CPS_IDLE) then for_each (implicit_ack c tid) (seq 8 7) else mret tt);;
              trans_upd id (fun t => t <| cp_state := GSM411_CPS_MM_ESTABLISHED |>);;
              gsm411_tx_cp_ack id;;
              gsm411_rx_cp_data id (drop 2 msg)
          | Some GSM411_MT_CP_ACK =>
              trans_upd id (fun t => t <| cp_state := GSM411_CPS_MM_ESTABLISHED |> <| cp_timer := None |>);;
              t ← trans_get id;
              when (negb (is_mt t)) (cp_end id);;
              mret 0
          | Some GSM411_MT_CP_ERROR =>
              trans_upd id (fun t => t <| cp_timer := None |>);;
              cp_end id;;
              mret 0
          | None =>
              rc ← gsm411_tx_cp_error id GSM411_CP_CAUSE_MSGTYPE_NOTEXIST;
              cp_end id;;
              mret rc
          end
      end
  end.

(** The timer TC1* of a transaction has expired. *)
Definition cp_timer_expired (id : nat) : SM unit :=
  trans_upd id (fun t => t <| cp_timer := None |>);;
  trans_free id.

(** A transaction of another protocol has its own data where the pointer to the message is looked for. *)
Definition gsm411_sapi_n_reject (c : nat) : SM unit :=
  conn ← conn_get c;
  s ← deref (c_subscr conn);
  subscr_get s;;
  cc ← gets cc_transs;
  (if existsb (fun x => bool_decide (fst x = c) && snd x) cc then fault else mret tt);;
  l ← gets trans_list;
  for_each (fun id =>
    t ← trans_get id;
    if bool_decide (t_conn t = c) then
      match t_sms t with
      | None => mret tt
      | Some sms =>
          send_error sms RES_0;;
          sms_free sms;;
          trans_upd id (fun t => t <| t_sms := None |>);;
          trans_free id
      end
    else mret tt) l;;
  emit (SMS_PUT_CHANNEL s);;
  subscr_put s.

(** ** The start, and what happens around *)

Definition sms_queue_start (max : Z) : SM unit :=
  queue_upd (fun _ => mk_gsm_sms_queue false false 1 max 0 ∅ [] 0);;
  sms_submit_pending.

Definition sms_queue_set_max_pending (n : Z) : SM unit := queue_upd (fun q => q <| max_pending := n |>).
Definition sms_queue_set_max_failure (n : Z) : SM unit := queue_upd (fun q => q <| max_fail := n |>).
Definition sms_queue_clear : SM unit :=
  l ← gets (fun st => pending_sms (sms_queue st));
  for_each sms_pending_free l;;
  queue_upd (fun q => q <| pending := 0 |>).

(** The operator sends a text; the database follows the pointer to the sender. *)
Definition _send_sms_str (r : nat) (str : list Z) (tp_pid : Z) : SM unit :=
  sms ← sms_from_text r 0 str;
  sms ← deref sms;
  modify (fun st => st <| smss ::= alter (fun m => m <| protocol_id := tp_pid |>) sms |>);;
  m ← sms_get sms;
  deref (sender m);;
  emit (DB_SMS_STORE m);;
  rc ← ask db_sms_store_rc;
  sms_free sms;;
  when (rc =? 0) sms_queue_trigger.

Definition conn_upd (c : nat) (f : sms_conn -> sms_conn) : SM unit :=
  conn_get c;; modify (fun st => st <| conns ::= alter f c |>).

(** A mobile gets a connection. *)
Definition new_connection (s : option nat) (put : bool) : SM unit :=
  get_opt s;;
  c ← new_id;
  modify (fun st => st <| conns ::= <[c := mk_sms_conn s false put]> |> <| conn_list ::= fun l => l ++ [c] |>).

(** [gsm0408_clear_request] as short messages see it, and the end of the connection. *)
Definition connection_lost (c : nat) : SM unit :=
  conn_upd c (fun conn => conn <| c_busy := true |>);;
  l ← gets trans_list;
  for_each (fun id => t ← trans_get id; if bool_decide (t_conn t = c) then trans_free id else mret tt) l;;
  modify (fun st => st <| cc_transs ::= filter (fun x => fst x <> c) |>);;
  subscr_con_free c.

(** Paging for the first request of a subscriber ends ([subscr_paging_dispatch]). *)
Definition paging_ends (s : nat) (event : paging_result) (conn : option nat) : SM unit :=
  r ← gets (fun st => list_find (fun x => fst x = s) (requests st));
  match r with
  | None => mret tt
  | Some (i, (_, sms)) =>
      modify (fun st => st <| requests ::= delete i |>);;
      paging_cb_send_sms event conn sms;;
      when (match event with RES_0 => false | _ => true end) (emit (SMS_PUT_CHANNEL s));;
      subscr_put s
  end.

(** What happens to the service. *)
Inductive sms_op : Type :=
| OpRcv (conn : nat) (msg : list Z)
| OpTimer (trans : nat)
| OpSapiReject (conn : nat)
| OpPaging (subscr : nat) (event : paging_result) (conn : option nat)
| OpResendPending
| OpPushQueue
| OpAttached (subscr : nat)
| OpNewConnection (subscr : option nat) (put : bool)
| OpConnectionLost (conn : nat)
| OpBusy (conn : nat)        (* another operation needs the connection *)
| OpIdle (conn : nat)        (* ... and no longer needs it *)
| OpCalls (l : list (nat * bool))    (* the transactions of other protocols *)
| OpText (subscr : nat) (str : list Z) (tp_pid : Z)
| OpMaxPending (n : Z)
| OpMaxFailure (n : Z)
| OpClear.

Definition run_op (op : sms_op) : SM unit :=
  match op with
  | OpRcv c msg => gsm0411_rcv_sms c msg;; mret tt
  | OpTimer id => cp_timer_expired id
  | OpSapiReject c => gsm411_sapi_n_reject c
  | OpPaging s event conn => paging_ends s event conn
  | OpResendPending => sms_resend_pending
  | OpPushQueue => push_queue_expired
  | OpAttached s => sub_ready_for_sm s;; mret tt
  | OpNewConnection s put => new_connection s put
  | OpConnectionLost c => connection_lost c
  | OpBusy c => conn_upd c (fun conn => conn <| c_busy := true |>)
  | OpIdle c => conn_upd c (fun conn => conn <| c_busy := false |>);; msc_release_connection c
  | OpCalls l => modify (fun st => st <| cc_transs := l |>)
  | OpText s str pid => _send_sms_str s str pid
  | OpMaxPending n => sms_queue_set_max_pending n
  | OpMaxFailure n => sms_queue_set_max_failure n
  | OpClear => sms_queue_clear
  end.

Definition sms_empty : sms_state :=
  mk_sms_state ∅ [] [] ∅ [] ∅ [] (fun _ => 0) (mk_gsm_sms_queue false false 1 0 0 ∅ [] 0) 0x40000001 0 0.

End sms.
End Sms.
