(* ===== verification/SmsInv.v ===== *)
(** Well-formedness of the state of the short message service, and how its parts change: the transactions
    with their connections and messages, and the queue. *)

From S2P Require Import Prelude Msc Gsm0340 Sms.
Import Gsm0340 Sms.
Import Msc(unlink).

Module SmsInv.

(** ** Lists without repetition *)

Lemma unlink_elem x id l : x ∈ unlink id l <-> x <> id /\ x ∈ l.
Proof. unfold unlink. by rewrite list_elem_of_filter. Qed.
Lemma unlink_nodup id l : NoDup l -> NoDup (unlink id l).
Proof. unfold unlink. apply NoDup_filter. Qed.
Lemma unlink_length id l : NoDup l -> id ∈ l -> length l = S (length (unlink id l)).
Proof.
  unfold unlink. induction 1 as [|x l Hx Hnd IH]; [by intros ?%elem_of_nil|]. intros [->|Hin]%elem_of_cons.
  - rewrite filter_cons_False by auto. cbn. f_equal.
    clear Hnd IH. induction l as [|y l IH]; [done|]. apply not_elem_of_cons in Hx as [? ?].
    rewrite filter_cons_True by auto. cbn. by rewrite <- IH.
  - rewrite filter_cons_True by (intros ->; by apply Hx). cbn. by rewrite IH.
Qed.
Lemma nodup_snoc (l : list nat) x : NoDup l -> x ∉ l -> NoDup (l ++ [x]).
Proof. intros Hl Hx. apply NoDup_app. repeat split; [done| |by apply NoDup_singleton]. intros y Hy ->%list_elem_of_singleton. done. Qed.

Lemma or_insert (P : Prop) (i n : nat) : P \/ i = n <-> n = i \/ n <> i /\ P.
Proof. destruct (decide (n = i)) as [->|Hn]; [tauto|]. split; [intros [?| ->]; [auto|done]|intros [?|[_ ?]]; auto]. Qed.
Lemma or_update (P : Prop) (i j : nat) : (i = j -> P) -> P <-> i = j \/ i <> j /\ P.
Proof. intros H. destruct (decide (i = j)) as [->|Hn]; [tauto|]. split; [auto|intros [?|[_ ?]]; auto]. Qed.

(** ** Transactions *)

(** What a transaction refers to; the states and timers are left out. *)
Record tlink : Type := mk_tlink { l_id : Z; l_subscr : nat; l_conn : nat; l_mt : bool; l_sms : option nat }.
Definition links (t : sms_trans) : tlink := mk_tlink (t_id t) (t_subscr t) (t_conn t) (is_mt t) (t_sms t).
Definition unsms (l : tlink) : tlink := mk_tlink (l_id l) (l_subscr l) (l_conn l) (l_mt l) None.

(** Transactions [lm] with their list, connections with theirs, messages, channel requests and the next number.
    The messages of [fl] are held by the function that runs; every other message belongs to exactly one
    transaction or request. *)
Record twf (fl : list nat) (lm : gmap nat tlink) (tl : list nat) (cm : gmap nat sms_conn) (cl : list nat)
    (sm : gmap nat gsm_sms) (rq : list (nat * nat)) (n : nat) : Prop := {
  tw_tl : NoDup tl;
  tw_tl_iff : forall i, i ∈ tl <-> is_Some (lm !! i);
  tw_cl : NoDup cl;
  tw_cl_iff : forall i, i ∈ cl <-> is_Some (cm !! i);
  tw_lt : forall i, is_Some (lm !! i) \/ is_Some (cm !! i) \/ is_Some (sm !! i) -> (i < n)%nat;
  tw_conn : forall i l, lm !! i = Some l -> exists c, cm !! l_conn l = Some c /\ c_subscr c = Some (l_subscr l);
  tw_subscr : forall c1 c2 k1 k2 s, cm !! c1 = Some k1 -> cm !! c2 = Some k2 ->
    c_subscr k1 = Some s -> c_subscr k2 = Some s -> c1 = c2;
  tw_put : forall c k, cm !! c = Some k -> c_put_channel k = true -> is_Some (c_subscr k);
  tw_held : NoDup (fl ++ rq.*2);
  tw_held_in : forall x, x ∈ fl ++ rq.*2 -> is_Some (sm !! x);
  tw_sms : forall i l x, lm !! i = Some l -> l_sms l = Some x -> is_Some (sm !! x) /\ x ∉ fl ++ rq.*2;
  tw_inj : forall i j l l' x, lm !! i = Some l -> lm !! j = Some l' -> l_sms l = Some x -> l_sms l' = Some x -> i = j;
  tw_all : forall x, is_Some (sm !! x) -> x ∈ fl ++ rq.*2 \/ exists i l, lm !! i = Some l /\ l_sms l = Some x;
  tw_sender : forall s x m, (s, x) ∈ rq -> sm !! x = Some m -> is_Some (sender m)
}.

Section trans.
Context {fl : list nat} {lm : gmap nat tlink} {tl : list nat} {cm : gmap nat sms_conn} {cl : list nat}
  {sm : gmap nat gsm_sms} {rq : list (nat * nat)} {n : nat}.

Lemma tw_none_lm i : twf fl lm tl cm cl sm rq n -> (n <= i)%nat -> lm !! i = None.
Proof. intros H Hi. destruct (lm !! i) eqn:E; [|done]. assert (i < n)%nat by (eapply tw_lt; [exact H|left; by eexists]). lia. Qed.
Lemma tw_none_cm i : twf fl lm tl cm cl sm rq n -> (n <= i)%nat -> cm !! i = None.
Proof. intros H Hi. destruct (cm !! i) eqn:E; [|done]. assert (i < n)%nat by (eapply tw_lt; [exact H|right; left; by eexists]). lia. Qed.
Lemma tw_none_sm i : twf fl lm tl cm cl sm rq n -> (n <= i)%nat -> sm !! i = None.
Proof. intros H Hi. destruct (sm !! i) eqn:E; [|done]. assert (i < n)%nat by (eapply tw_lt; [exact H|right; right; by eexists]). lia. Qed.

Lemma twf_mono n' : (n <= n')%nat -> twf fl lm tl cm cl sm rq n -> twf fl lm tl cm cl sm rq n'.
Proof. intros Hn []. split; try done. intros i Hi. apply Nat.lt_le_trans with n; auto. Qed.

Lemma twf_new_sms m : twf fl lm tl cm cl sm rq n -> twf (n :: fl) lm tl cm cl (<[n := m]> sm) rq (S n).
Proof.
  intros H. assert (sm !! n = None) as Hn by by apply (tw_none_sm n H).
  destruct H as [H1 H2 H3 H4 H5 H6 H7 H8 H9 H10 H11 H12 H13 H14]. split; try done.
  - intros i. rewrite lookup_insert_is_Some. intros [Hi|[Hi|[->|[_ Hi]]]]; try lia; apply Nat.lt_lt_succ_r, H5; auto.
  - cbn. apply NoDup_cons. split; [|done]. intros Hin. apply H10 in Hin as [? ?]. congruence.
  - cbn. intros x Hx. apply lookup_insert_is_Some. destruct (decide (n = x)); [by left|].
    apply elem_of_cons in Hx as [|Hx]; auto.
  - intros i l x Hi Hx. destruct (H11 i l x Hi Hx) as [Hs Hf]. assert (n <> x) by (intros ->; destruct Hs; congruence).
    rewrite lookup_insert_ne by done. split; [done|]. cbn. rewrite not_elem_of_cons. auto.
  - intros x. rewrite lookup_insert_is_Some. intros [->|[_ Hx]]; [left; cbn; apply elem_of_cons; auto|].
    destruct (H13 x Hx); [left; cbn; apply elem_of_cons; auto|auto].
  - intros s x m' Hin. rewrite lookup_insert. case_decide as Hd; [subst|by apply (H14 s)].
    exfalso. destruct (H10 x) as [? ?]; [|congruence]. apply elem_of_app. right. apply list_elem_of_fmap. by exists (s, x).
Qed.

Lemma twf_free_sms x : twf (x :: fl) lm tl cm cl sm rq n -> twf fl lm tl cm cl (delete x sm) rq n.
Proof.
  intros [H1 H2 H3 H4 H5 H6 H7 H8 H9 H10 H11 H12 H13 H14]. cbn in H9. apply NoDup_cons in H9 as [Hx H9].
  split; try done.
  - intros i Hi. apply H5. destruct Hi as [?|[?|Hi]]; auto. rewrite lookup_delete_is_Some in Hi. tauto.
  - intros y Hy. rewrite lookup_delete_is_Some. split; [by intros ->|]. apply H10. cbn. apply elem_of_cons. auto.
  - intros i l y Hi Hy. destruct (H11 i l y Hi Hy) as [Hs Hf]. cbn in Hf. apply not_elem_of_cons in Hf as [? ?].
    split; [|done]. by rewrite lookup_delete_is_Some.
  - intros y. rewrite lookup_delete_is_Some. intros [Hne Hy]. destruct (H13 y Hy) as [Hin|]; [|auto].
    cbn in Hin. apply elem_of_cons in Hin as [?|]; [congruence|auto].
  - intros s y m Hin. rewrite lookup_delete_Some. intros [? ?]. by apply (H14 s y).
Qed.

Lemma twf_alter_sms x f : (forall m, sender (f m) = sender m) ->
  twf fl lm tl cm cl sm rq n -> twf fl lm tl cm cl (alter f x sm) rq n.
Proof.
  intros Hf [H1 H2 H3 H4 H5 H6 H7 H8 H9 H10 H11 H12 H13 H14].
  assert (forall y, is_Some (alter f x sm !! y) <-> is_Some (sm !! y)) as Hd.
  { intros y. rewrite lookup_alter. case_decide; [subst|done]. by rewrite fmap_is_Some. }
  split; try done.
  - intros i. rewrite Hd. apply H5.
  - intros y Hy. by apply Hd, H10.
  - intros i l y Hi Hy. rewrite Hd. eauto.
  - intros y. rewrite Hd. apply H13.
  - intros s y m Hin. rewrite lookup_alter. case_decide; [subst|eauto].
    destruct (sm !! y) as [m'|] eqn:E; [|done]. cbn. intros [= <-]. rewrite Hf. eauto.
Qed.

Lemma twf_swap x y : twf (x :: y :: fl) lm tl cm cl sm rq n -> twf (y :: x :: fl) lm tl cm cl sm rq n.
Proof.
  intros [H1 H2 H3 H4 H5 H6 H7 H8 H9 H10 H11 H12 H13 H14].
  assert (forall z, z ∈ (y :: x :: fl) ++ rq.*2 <-> z ∈ (x :: y :: fl) ++ rq.*2) as Hp.
  { intros z. cbn. rewrite !elem_of_cons. tauto. }
  split; try done.
  - cbn in H9 |- *. rewrite !NoDup_cons, !not_elem_of_cons in H9 |- *. destruct H9 as ([? ?] & ? & ?). auto.
  - intros z. rewrite Hp. apply H10.
  - intros i l z. rewrite Hp. apply H11.
  - intros z. rewrite Hp. apply H13.
Qed.

Lemma twf_new_trans l k : cm !! l_conn l = Some k -> c_subscr k = Some (l_subscr l) -> l_sms l = None ->
  twf fl lm tl cm cl sm rq n -> twf fl (<[n := l]> lm) (tl ++ [n]) cm cl sm rq (S n).
Proof.
  intros Hk Hks Hl H. assert (lm !! n = None) as Hn by by apply (tw_none_lm n H).
  destruct H as [H1 H2 H3 H4 H5 H6 H7 H8 H9 H10 H11 H12 H13 H14].
  assert (n ∉ tl) as Hnt by (rewrite H2, Hn; apply is_Some_None).
  split; try done.
  - by apply nodup_snoc.
  - intros i. rewrite elem_of_app, list_elem_of_singleton, lookup_insert_is_Some, H2. apply or_insert.
  - intros i. rewrite lookup_insert_is_Some. intros [[->|[_ Hi]]|Hi]; try lia; apply Nat.lt_lt_succ_r, H5; auto.
  - intros i l'. rewrite lookup_insert_Some. intros [[<- <-]|[_ Hi]]; eauto.
  - intros i l' x. rewrite lookup_insert_Some. intros [[<- <-]|[_ Hi]] Hx; [congruence|eauto].
  - intros i j l1 l2 x. rewrite !lookup_insert_Some.
    intros [[<- <-]|[_ Hi]] [[<- <-]|[_ Hj]]; try congruence. eauto.
  - intros x Hx. destruct (H13 x Hx) as [|(i & l' & Hi & Hs)]; [auto|]. right. exists i, l'. split; [|done].
    rewrite lookup_insert_ne by congruence. done.
Qed.

(** A transaction takes the message that is held, or its message is taken from it. *)
Lemma twf_take i l x : lm !! i = Some l -> l_sms l = None -> twf (x :: fl) lm tl cm cl sm rq n ->
  twf fl (<[i := mk_tlink (l_id l) (l_subscr l) (l_conn l) (l_mt l) (Some x)]> lm) tl cm cl sm rq n.
Proof.
  intros Hi Hl [H1 H2 H3 H4 H5 H6 H7 H8 H9 H10 H11 H12 H13 H14]. cbn in H9. apply NoDup_cons in H9 as [Hx H9].
  assert (forall j l' y, <[i := mk_tlink (l_id l) (l_subscr l) (l_conn l) (l_mt l) (Some x)]> lm !! j = Some l' -> l_sms l' = Some y ->
            (j = i /\ y = x) \/ (j <> i /\ y <> x /\ lm !! j = Some l')) as Hc.
  { intros j l' y. rewrite lookup_insert_Some. intros [[<- <-]|[Hne Hj]] Hy; [left; split; [done|]; by injection Hy|].
    right. repeat split; [done| |done]. intros ->. destruct (H11 j l' x Hj Hy) as [_ Hf]. apply Hf. cbn. apply elem_of_cons. auto. }
  split; try done.
  - intros j. rewrite H2, lookup_insert_is_Some. apply or_update. intros <-. by eexists.
  - intros j. rewrite lookup_insert_is_Some. intros [[->|[_ Hj]]|Hj]; apply H5; eauto.
  - intros j l'. rewrite lookup_insert_Some. intros [[<- <-]|[_ Hj]]; [apply (H6 i l Hi)|eauto].
  - intros y Hy. apply H10. cbn. apply elem_of_cons. auto.
  - intros j l' y Hj Hy. destruct (Hc j l' y Hj Hy) as [[-> ->]|(Hne & Hyx & Hj')].
    + split; [|done]. apply H10. cbn. apply elem_of_cons. auto.
    + destruct (H11 j l' y Hj' Hy) as [? Hf]. split; [done|]. cbn in Hf. apply not_elem_of_cons in Hf as [? ?]. done.
  - intros j j' l1 l2 y Hj Hj' Hy Hy'. destruct (Hc j l1 y Hj Hy) as [[-> ->]|(? & ? & ?)];
      destruct (Hc j' l2 _ Hj' Hy') as [[-> ?]|(? & ? & ?)]; try congruence. eauto.
  - intros y Hy. destruct (H13 y Hy) as [Hin|(j & l' & Hj & Hs)].
    + cbn in Hin. apply elem_of_cons in Hin as [->|]; [|auto]. right. eexists i, _. by rewrite lookup_insert_eq.
    + right. exists j, l'. split; [|done]. rewrite lookup_insert_ne by congruence. done.
Qed.
Lemma twf_give i l x : lm !! i = Some l -> l_sms l = Some x -> twf fl lm tl cm cl sm rq n ->
  twf (x :: fl) (<[i := unsms l]> lm) tl cm cl sm rq n.
Proof.
  intros Hi Hl [H1 H2 H3 H4 H5 H6 H7 H8 H9 H10 H11 H12 H13 H14].
  destruct (H11 i l x Hi Hl) as [Hx Hxf].
  assert (forall j l' y, <[i := unsms l]> lm !! j = Some l' -> l_sms l' = Some y -> j <> i /\ lm !! j = Some l') as Hc.
  { intros j l' y. rewrite lookup_insert_Some. intros [[<- <-]|[Hne Hj]] Hy; [done|auto]. }
  split; try done.
  - intros j. rewrite H2, lookup_insert_is_Some. apply or_update. intros <-. by eexists.
  - intros j. rewrite lookup_insert_is_Some. intros [[->|[_ Hj]]|Hj]; apply H5; eauto.
  - intros j l'. rewrite lookup_insert_Some. intros [[<- <-]|[_ Hj]]; [apply (H6 i l Hi)|eauto].
  - cbn. by apply NoDup_cons.
  - cbn. intros y [->|Hy]%elem_of_cons; auto.
  - intros j l' y Hj Hy. destruct (Hc j l' y Hj Hy) as [Hne Hj']. destruct (H11 j l' y Hj' Hy) as [? ?]. split; [done|].
    cbn. apply not_elem_of_cons. split; [|done]. intros ->. apply Hne. by apply (H12 j i l' l x).
  - intros j j' l1 l2 y Hj Hj' Hy Hy'. destruct (Hc j l1 y Hj Hy), (Hc j' l2 y Hj' Hy'). eauto.
  - intros y Hy. destruct (H13 y Hy) as [Hin|(j & l' & Hj & Hs)]; [left; cbn; apply elem_of_cons; auto|].
    destruct (decide (i = j)) as [->|]; [left; cbn; apply elem_of_cons; left; congruence|].
    right. exists j, l'. by rewrite lookup_insert_ne.
Qed.

Lemma twf_del_trans i l : lm !! i = Some l -> l_sms l = None -> twf fl lm tl cm cl sm rq n ->
  twf fl (delete i lm) (unlink i tl) cm cl sm rq n.
Proof.
  intros Hi Hl [H1 H2 H3 H4 H5 H6 H7 H8 H9 H10 H11 H12 H13 H14]. split; try done.
  - by apply unlink_nodup.
  - intros j. rewrite unlink_elem, lookup_delete_is_Some, H2. split; intros []; auto.
  - intros j. rewrite lookup_delete_is_Some. intros Hj. apply H5. tauto.
  - intros j l'. rewrite lookup_delete_Some. intros [_ Hj]. eauto.
  - intros j l' x. rewrite lookup_delete_Some. intros [_ Hj]. eauto.
  - intros j j' l1 l2 x. rewrite !lookup_delete_Some. intros [_ Hj] [_ Hj']. eauto.
  - intros x Hx. destruct (H13 x Hx) as [|(j & l' & Hj & Hs)]; [auto|]. right. exists j, l'. split; [|done].
    rewrite lookup_delete_ne by congruence. done.
Qed.

Lemma twf_del_conn c : (forall i l, lm !! i = Some l -> l_conn l <> c) -> twf fl lm tl cm cl sm rq n ->
  twf fl lm tl (delete c cm) (unlink c cl) sm rq n.
Proof.
  intros Hc [H1 H2 H3 H4 H5 H6 H7 H8 H9 H10 H11 H12 H13 H14]. split; try done.
  - by apply unlink_nodup.
  - intros j. rewrite unlink_elem, lookup_delete_is_Some, H4. split; intros []; auto.
  - intros j. rewrite lookup_delete_is_Some. intros Hj. apply H5. tauto.
  - intros j l' Hj. destruct (H6 j l' Hj) as (k & Hk & ?). exists k. split; [|done].
    rewrite lookup_delete_ne; [done|]. intros ->. by eapply Hc.
  - intros c1 c2 k1 k2 s. rewrite !lookup_delete_Some. intros [_ ?] [_ ?]. eauto.
  - intros c' k. rewrite lookup_delete_Some. intros [_ ?]. eauto.
Qed.
Lemma twf_new_conn s put :
  (forall c k u, s = Some u -> cm !! c = Some k -> c_subscr k <> Some u) -> (put = true -> is_Some s) ->
  twf fl lm tl cm cl sm rq n -> twf fl lm tl (<[n := mk_sms_conn s false put]> cm) (cl ++ [n]) sm rq (S n).
Proof.
  intros Hs Hput H. assert (cm !! n = None) as Hn by by apply (tw_none_cm n H).
  destruct H as [H1 H2 H3 H4 H5 H6 H7 H8 H9 H10 H11 H12 H13 H14].
  assert (n ∉ cl) as Hnt by (rewrite H4, Hn; apply is_Some_None).
  split; try done.
  - by apply nodup_snoc.
  - intros i. rewrite elem_of_app, list_elem_of_singleton, lookup_insert_is_Some, H4. apply or_insert.
  - intros i. rewrite lookup_insert_is_Some. intros [Hi|[[->|[_ Hi]]|Hi]]; try lia; apply Nat.lt_lt_succ_r, H5; auto.
  - intros i l Hi. destruct (H6 i l Hi) as (k & Hk & ?). exists k. rewrite lookup_insert_ne by congruence. done.
  - intros c1 c2 k1 k2 u. rewrite !lookup_insert_Some. intros [[<- <-]|[_ Hk1]] [[<- <-]|[_ Hk2]] Hu1 Hu2; cbn in *; try done.
    + exfalso. by apply (Hs c2 k2 u).
    + exfalso. by apply (Hs c1 k1 u).
    + eauto.
  - intros c k. rewrite lookup_insert_Some. intros [[<- <-]|[_ Hk]]; [done|eauto].
Qed.
Lemma twf_alter_conn c f : (forall k, c_subscr (f k) = c_subscr k /\ c_put_channel (f k) = c_put_channel k) ->
  twf fl lm tl cm cl sm rq n -> twf fl lm tl (alter f c cm) cl sm rq n.
Proof.
  intros Hf [H1 H2 H3 H4 H5 H6 H7 H8 H9 H10 H11 H12 H13 H14].
  assert (forall y, is_Some (alter f c cm !! y) <-> is_Some (cm !! y)) as Hd.
  { intros y. rewrite lookup_alter. case_decide; [subst|done]. by rewrite fmap_is_Some. }
  assert (forall y k, alter f c cm !! y = Some k -> exists k', cm !! y = Some k' /\ c_subscr k = c_subscr k' /\ c_put_channel k = c_put_channel k') as Hb.
  { intros y k. rewrite lookup_alter. case_decide; [subst|by exists k]. destruct (cm !! y) as [k'|]; [|done].
    cbn. intros [= <-]. exists k'. split; [done|apply Hf]. }
  split; try done.
  - intros i. by rewrite H4, Hd.
  - intros i. rewrite Hd. apply H5.
  - intros i l Hi. destruct (H6 i l Hi) as (k & Hk & Hs). rewrite lookup_alter. case_decide; [subst|by exists k].
    rewrite Hk. exists (f k). split; [done|]. rewrite <- Hs. apply Hf.
  - intros c1 c2 k1 k2 s (k1' & Hk1 & -> & _)%Hb (k2' & Hk2 & -> & _)%Hb. eauto.
  - intros c' k (k' & Hk & -> & ->)%Hb. eauto.
Qed.

Lemma twf_add_req s x m : sm !! x = Some m -> is_Some (sender m) -> twf (x :: fl) lm tl cm cl sm rq n ->
  twf fl lm tl cm cl sm (rq ++ [(s, x)]) n.
Proof.
  intros Hm Hs [H1 H2 H3 H4 H5 H6 H7 H8 H9 H10 H11 H12 H13 H14].
  assert (forall z, z ∈ fl ++ (rq ++ [(s, x)]).*2 <-> z ∈ (x :: fl) ++ rq.*2) as Hp.
  { intros z. rewrite fmap_app. cbn. rewrite elem_of_cons, !elem_of_app, list_elem_of_singleton. tauto. }
  split; try done.
  - rewrite fmap_app, app_assoc. cbn in H9 |- *. apply NoDup_cons in H9 as [? ?]. by apply nodup_snoc.
  - intros z. rewrite Hp. apply H10.
  - intros i l z. rewrite Hp. apply H11.
  - intros z. rewrite Hp. apply H13.
  - intros u y m'. rewrite elem_of_app, list_elem_of_singleton. intros [?|[= -> ->]]; [eauto|].
    rewrite Hm. intros [= <-]. done.
Qed.
Lemma twf_del_req j s x : rq !! j = Some (s, x) -> twf fl lm tl cm cl sm rq n ->
  twf (x :: fl) lm tl cm cl sm (delete j rq) n.
Proof.
  intros Hj [H1 H2 H3 H4 H5 H6 H7 H8 H9 H10 H11 H12 H13 H14].
  assert (fl ++ rq.*2 ≡ₚ (x :: fl) ++ (delete j rq).*2) as Hp.
  { rewrite (delete_Permutation rq j (s, x) Hj) at 1. cbn. by rewrite Permutation_middle. }
  split; try done.
  - by rewrite <- Hp.
  - intros z. rewrite <- Hp. apply H10.
  - intros i l z. rewrite <- Hp. apply H11.
  - intros z. rewrite <- Hp. apply H13.
  - intros u y m Hin. apply (H14 u y m). rewrite (delete_Permutation rq j _ Hj). by apply elem_of_cons; right.
Qed.

End trans.

(** ** The queue *)

(** Entries [pendings] with their list: no two for one subscriber or one message. [pending] counts them, but for
    the [k] whose place has been given up while the entry stays. *)
Record qwf (k : Z) (q : gsm_sms_queue) (n : nat) : Prop := {
  qw_list : NoDup (pending_sms q);
  qw_iff : forall i, i ∈ pending_sms q <-> is_Some (pendings q !! i);
  qw_lt : forall i, is_Some (pendings q !! i) -> (i < n)%nat;
  qw_sms : forall i j e e', pendings q !! i = Some e -> pendings q !! j = Some e' -> p_sms_id e = p_sms_id e' -> i = j;
  qw_subscr : forall i j e e', pendings q !! i = Some e -> pendings q !! j = Some e' -> p_subscr e = p_subscr e' -> i = j;
  qw_count : pending q + k = Z.of_nat (length (pending_sms q))
}.

Lemma qwf_mono k q n n' : (n <= n')%nat -> qwf k q n -> qwf k q n'.
Proof. intros Hn []. split; try done. intros i Hi. apply Nat.lt_le_trans with n; auto. Qed.

(** The timers and the position in the database do not matter, nor do the counters of an entry. *)
Lemma qwf_same k q q' n : pendings q' = pendings q -> pending_sms q' = pending_sms q -> pending q' = pending q ->
  qwf k q n -> qwf k q' n.
Proof. intros E1 E2 E3 []. split; rewrite ?E1, ?E2, ?E3; done. Qed.
Lemma qwf_place k q n : qwf (k - 1) q n -> qwf k (q <| pending ::= fun x => x - 1 |>) n.
Proof. intros []. split; try done. cbn. lia. Qed.
Lemma qwf_alter k q n i f : (forall e, p_subscr (f e) = p_subscr e /\ p_sms_id (f e) = p_sms_id e) ->
  qwf k q n -> qwf k (q <| pendings ::= alter f i |>) n.
Proof.
  intros Hf [H1 H2 H3 H4 H5 H6].
  assert (forall y, is_Some (alter f i (pendings q) !! y) <-> is_Some (pendings q !! y)) as Hd.
  { intros y. rewrite lookup_alter. case_decide; [subst|done]. by rewrite fmap_is_Some. }
  assert (forall y e, alter f i (pendings q) !! y = Some e -> exists e', pendings q !! y = Some e' /\ p_subscr e = p_subscr e' /\ p_sms_id e = p_sms_id e') as Hb.
  { intros y e. rewrite lookup_alter. case_decide; [subst|by exists e]. destruct (pendings q !! y) as [e'|]; [|done].
    cbn. intros [= <-]. exists e'. split; [done|apply Hf]. }
  split; cbn; try done.
  - intros y. by rewrite H2, Hd.
  - intros y. rewrite Hd. apply H3.
  - intros y z e e' (e1 & He1 & _ & ->)%Hb (e2 & He2 & _ & ->)%Hb. eauto.
  - intros y z e e' (e1 & He1 & -> & _)%Hb (e2 & He2 & -> & _)%Hb. eauto.
Qed.
Lemma qwf_free k q n i : is_Some (pendings q !! i) -> qwf k q n ->
  qwf (k - 1) (q <| pending_sms ::= unlink i |> <| pendings ::= delete i |>) n.
Proof.
  intros Hi [H1 H2 H3 H4 H5 H6]. apply H2 in Hi. split; cbn.
  - by apply unlink_nodup.
  - intros y. rewrite unlink_elem, lookup_delete_is_Some, H2. split; intros []; auto.
  - intros y. rewrite lookup_delete_is_Some. intros []. auto.
  - intros y z e e'. rewrite !lookup_delete_Some. intros [_ ?] [_ ?]. eauto.
  - intros y z e e'. rewrite !lookup_delete_Some. intros [_ ?] [_ ?]. eauto.
  - rewrite (unlink_length i _ H1 Hi) in H6. lia.
Qed.
Lemma qwf_add k q n e :
  (forall i e', pendings q !! i = Some e' -> p_sms_id e' <> p_sms_id e /\ p_subscr e' <> p_subscr e) -> qwf k q n ->
  qwf k (q <| pendings ::= <[n := e]> |> <| pending ::= fun x => x + 1 |> <| pending_sms ::= fun l => l ++ [n] |>) (S n).
Proof.
  intros He H. assert (pendings q !! n = None) as Hn.
  { destruct (pendings q !! n) eqn:E; [|done]. assert (n < n)%nat by (apply (qw_lt _ _ _ H); by eexists). lia. }
  destruct H as [H1 H2 H3 H4 H5 H6].
  assert (n ∉ pending_sms q) as Hnt by (rewrite H2, Hn; apply is_Some_None).
  split; cbn.
  - by apply nodup_snoc.
  - intros i. rewrite elem_of_app, list_elem_of_singleton, lookup_insert_is_Some, H2. apply or_insert.
  - intros i. rewrite lookup_insert_is_Some. intros [->|[_ Hi]]; [lia|]. by apply Nat.lt_lt_succ_r, H3.
  - intros i j e1 e2. rewrite !lookup_insert_Some. intros [[<- <-]|[_ H7]] [[<- <-]|[_ H8]] Heq; try done; [| |eauto].
    + by destruct (proj1 (He j e2 H8)).
    + by destruct (proj1 (He i e1 H7)).
  - intros i j e1 e2. rewrite !lookup_insert_Some. intros [[<- <-]|[_ H7]] [[<- <-]|[_ H8]] Heq; try done; [| |eauto].
    + by destruct (proj2 (He j e2 H8)).
    + by destruct (proj2 (He i e1 H7)).
  - rewrite length_app. cbn. lia.
Qed.

Lemma find_pending_Some p st i : find_pending p st = Some i ->
  exists e, pendings (sms_queue st) !! i = Some e /\ p e = true.
Proof.
  unfold find_pending. intros [_ Hi]%find_some. destruct (pendings (sms_queue st) !! i) as [e|]; [|done]. by exists e.
Qed.
Lemma find_pending_None p st k n : qwf k (sms_queue st) n -> find_pending p st = None ->
  forall i e, pendings (sms_queue st) !! i = Some e -> p e = false.
Proof.
  unfold find_pending. intros Hq Hf i e Hi. pose proof (find_none _ _ Hf i) as Hp. cbn in Hp. rewrite Hi in Hp. apply Hp.
  apply list_elem_of_In, (qw_iff _ _ _ Hq). by eexists.
Qed.

End SmsInv.
