(* ===== verification/SmsSafe.v ===== *)
(** The operations on short messages keep the state well-formed and follow no pointer to freed memory. *)

From S2P Require Import Prelude Msc Gsm0340 Sms SmsInv.
Import Gsm0340 Sms SmsInv.
Import Msc(unlink).

Module SmsSafe.

Section ops.
Context {env : SmsEnv}.

Definition lk (st : sms_state) : gmap nat tlink := links <$> transs st.
Definition T (fl : list nat) (st : sms_state) : Prop :=
  twf fl (lk st) (trans_list st) (conns st) (conn_list st) (smss st) (requests st) (next_id st).
Definition Qu (k : Z) (st : sms_state) : Prop := qwf k (sms_queue st) (next_id st).

(** ** Access *)

Lemma wp_deref {A} (p : option A) a Q st : p = Some a -> Q a st -> wp (deref p : M sms_state sms_event A) Q st.
Proof. by intros ->. Qed.
Lemma wp_load {A} (f : sms_state -> gmap nat A) i x Q st : f st !! i = Some x -> Q x st -> wp (load f i) Q st.
Proof. intros Hi HQ. unfold load. wp_steps. rewrite Hi. done. Qed.
Lemma wp_trans_upd i t f (Q : unit -> sms_state -> Prop) st :
  transs st !! i = Some t -> Q tt (st <| transs ::= alter f i |>) -> wp (trans_upd i f) Q st.
Proof. intros Hi HQ. unfold trans_upd. wp_steps. by apply (wp_load _ _ t). Qed.
Lemma wp_pending_upd i e f (Q : unit -> sms_state -> Prop) st :
  pendings (sms_queue st) !! i = Some e -> Q tt (st <| sms_queue ::= fun q => q <| pendings ::= alter f i |> |>) ->
  wp (pending_upd i f) Q st.
Proof. intros Hi HQ. unfold pending_upd. wp_steps. by apply (wp_load (fun st => pendings (sms_queue st)) _ e). Qed.
Lemma wp_put_opt s (Q : unit -> sms_state -> Prop) st : (forall r, Q tt (st <| refs := r |>)) -> wp (put_opt s) Q st.
Proof. intros HQ. destruct s; cbn [put_opt]; [apply HQ|]. specialize (HQ (refs st)). by destruct st. Qed.
Lemma wp_get_opt s (Q : unit -> sms_state -> Prop) st : (forall r, Q tt (st <| refs := r |>)) -> wp (get_opt s) Q st.
Proof. intros HQ. destruct s; cbn [get_opt]; [apply HQ|]. specialize (HQ (refs st)). by destruct st. Qed.

(** ** Messages *)

Lemma wp_sms_free x m (Q : unit -> sms_state -> Prop) st :
  smss st !! x = Some m -> (forall r, Q tt (st <| refs := r |> <| smss ::= delete x |>)) -> wp (sms_free x) Q st.
Proof.
  intros Hx HQ. unfold sms_free. wp_steps. apply (wp_load _ _ m); [done|]. wp_steps.
  apply wp_put_opt. intros r. wp_steps. apply wp_put_opt. intros r'. wp_steps. apply (HQ r').
Qed.
Lemma wp_sms_new m (Q : nat -> sms_state -> Prop) st :
  (forall r, Q (next_id st) (st <| next_id ::= S |> <| refs := r |> <| smss ::= <[next_id st := m]> |>)) -> wp (sms_new m) Q st.
Proof.
  intros HQ. unfold sms_new, new_id. wp_steps. apply wp_get_opt. intros r. wp_steps. apply wp_get_opt. intros r'.
  wp_steps. apply (HQ r').
Qed.
Lemma wp_sms_from o (Q : option nat -> sms_state -> Prop) st :
  Q None st ->
  (forall m r, o = Some m -> Q (Some (next_id st)) (st <| next_id ::= S |> <| refs := r |> <| smss ::= <[next_id st := m]> |>)) ->
  wp (sms_from o) Q st.
Proof.
  intros Hn HQ. unfold sms_from. destruct o as [m|]; [|done]. destruct sms_alloc_ok; [|done]. wp_steps.
  apply wp_sms_new. intros r. wp_steps. by apply HQ.
Qed.

Lemma T_new_sms fl st m r : T fl st -> T (next_id st :: fl) (st <| next_id ::= S |> <| refs := r |> <| smss ::= <[next_id st := m]> |>).
Proof. apply twf_new_sms. Qed.
Lemma T_free_sms fl st x r : T (x :: fl) st -> T fl (st <| refs := r |> <| smss ::= delete x |>).
Proof. apply twf_free_sms. Qed.
Lemma Qu_next k st st' : sms_queue st' = sms_queue st -> (next_id st <= next_id st')%nat -> Qu k st -> Qu k st'.
Proof. intros E Hn. unfold Qu. rewrite E. by apply qwf_mono. Qed.
Lemma T_held fl st x : T fl st -> x ∈ fl -> exists m, smss st !! x = Some m.
Proof. intros H Hx. apply (tw_held_in _ _ _ _ _ _ _ _ H). apply elem_of_app. by left. Qed.

(** ** The queue *)

(** Only the queue has changed, and the entries of [P] are as before. *)
Definition qstep (P : nat -> gsm_sms_pending -> Prop) (k : Z) (st st' : sms_state) : Prop :=
  exists q r, st' = st <| sms_queue := q |> <| refs := r |> /\ qwf k q (next_id st) /\
    forall j e, pendings (sms_queue st) !! j = Some e -> P j e -> pendings q !! j = Some e.

Lemma qstep_T P k fl st st' : qstep P k st st' -> T fl st -> T fl st'.
Proof. by intros (q & r & -> & _). Qed.
Lemma qstep_Qu P k st st' : qstep P k st st' -> Qu k st'.
Proof. by intros (q & r & -> & H & _). Qed.
Lemma qstep_mono (P P' : nat -> gsm_sms_pending -> Prop) k st st' :
  (forall j e, pendings (sms_queue st) !! j = Some e -> P' j e -> P j e) -> qstep P k st st' -> qstep P' k st st'.
Proof. intros HP (q & r & -> & Hq & Hf). exists q, r. repeat split; try apply Hq. intros j e Hj He. eauto. Qed.
Lemma qstep_refl P k st : Qu k st -> qstep P k st st.
Proof. intros Hq. exists (sms_queue st), (refs st). split; [by destruct st|done]. Qed.

Lemma qstep_trans (P : nat -> gsm_sms_pending -> Prop) k k' st st1 st2 :
  qstep P k st st1 -> qstep P k' st1 st2 -> qstep P k' st st2.
Proof.
  intros (q & r & -> & _ & Hf) (q' & r' & -> & Hq & Hf'). exists q', r'. repeat split; try apply Hq. intros j e Hj HP.
  apply Hf'; [by apply Hf|done].
Qed.

Lemma wp_pending_free i e k (Q : unit -> sms_state -> Prop) st :
  Qu k st -> pendings (sms_queue st) !! i = Some e -> (forall st', qstep (fun j _ => j <> i) (k - 1) st st' -> Q tt st') ->
  wp (sms_pending_free i) Q st.
Proof.
  intros Hq Hi HQ. unfold sms_pending_free. wp_steps. apply (wp_load (fun st => pendings (sms_queue st)) _ e); [done|].
  unfold subscr_put. wp_steps. apply HQ. eexists _, _. split; [reflexivity|]. split.
  - apply qwf_free; [by eexists|done].
  - intros j e' Hj Hne. cbn. by rewrite lookup_delete_ne.
Qed.

(** An entry leaves the queue with its place. *)
Lemma wp_leave i e k (Q : unit -> sms_state -> Prop) st :
  Qu k st -> pendings (sms_queue st) !! i = Some e -> (forall st', qstep (fun j _ => j <> i) k st st' -> Q tt st') ->
  wp (sms_pending_free i;; queue_upd (fun q => q <| pending ::= fun n => n - 1 |>);; sms_queue_trigger) Q st.
Proof.
  intros Hq Hi HQ. wp_steps. apply (wp_pending_free i e k); [done..|]. intros st' (q & r & -> & Hq' & Hf).
  unfold sms_queue_trigger, queue_upd. wp_steps. apply HQ. eexists _, _. split; [reflexivity|]. cbn. split.
  - eapply qwf_same; cycle 3; [apply (qwf_place k), Hq'|done..].
  - intros j e' Hj Hne. by apply Hf.
Qed.

Lemma wp_pending_failed i e b k (Q : unit -> sms_state -> Prop) st :
  Qu k st -> pendings (sms_queue st) !! i = Some e -> (forall st', qstep (fun j _ => j <> i) k st st' -> Q tt st') ->
  wp (sms_pending_failed i b) Q st.
Proof.
  intros Hq Hi HQ. unfold sms_pending_failed. wp_steps. apply (wp_pending_upd _ e); [done|]. wp_steps.
  set (st1 := st <| sms_queue ::= _ |>).
  assert (pendings (sms_queue st1) !! i = Some (e <| failed_attempts ::= fun n => n + 1 |>)) as Hi1.
  { cbn. by rewrite lookup_alter_eq, Hi. }
  assert (qstep (fun j _ => j <> i) k st st1) as Hs1.
  { eexists _, (refs st). split; [reflexivity|]. split; [by apply qwf_alter|]. intros j e' Hj Hne. cbn. by rewrite lookup_alter_ne. }
  clearbody st1. apply (wp_load (fun st => pendings (sms_queue st)) _ _ _ _ Hi1). wp_steps.
  destruct (_ <? _).
  - unfold sms_pending_resend, queue_upd. wp_steps. apply (wp_pending_upd _ _ _ _ _ Hi1). wp_steps. apply HQ.
    destruct Hs1 as (q & r & -> & Hq1 & Hf). eexists _, _. split; [reflexivity|]. split.
    + eapply qwf_same; cycle 3; [apply (qwf_alter k q _ i), Hq1|done..]. done.
    + intros j e' Hj Hne. cbn. rewrite lookup_alter_ne by done. by apply Hf.
  - wp_steps. rewrite wp_when.
    assert (wp (sms_pending_free i;; queue_upd (fun q => q <| pending ::= fun n => n - 1 |>);; sms_queue_trigger) Q st1) as Hw.
    { apply (wp_leave i _ k _ _ (qstep_Qu _ _ _ _ Hs1) Hi1). intros st' Hs2. apply HQ. by eapply qstep_trans. }
    destruct (_ && _); [rewrite wp_emit|]; exact Hw.
Qed.

(** The queue learns of the end of an attempt; only the entry of the message is touched. *)
Lemma wp_attempt_failed submit sig x res m k (Q : unit -> sms_state -> Prop) st :
  sig = S_SMS_MEM_EXCEEDED \/ sig = S_SMS_UNKNOWN_ERROR ->
  Qu k st -> smss st !! x = Some m -> (forall st', qstep (fun _ e => p_sms_id e <> sms_id m) k st st' -> Q tt st') ->
  wp (send_signal_to submit sig (Some x) res) Q st.
Proof.
  intros Hsig Hq Hx HQ. unfold send_signal_to, sms_sms_cb. rewrite wp_bind, wp_emit.
  assert (wp (m ← sms_get x; p ← gets (sms_find_pending m);
            match p with
            | None => mret tt
            | Some p => match sig with
                        | S_SMS_MEM_EXCEEDED => pending_done p
                        | _ => match res with
                               | RES_0 => emit (DB_SMS_INC_ATTEMPTS (sms_id m));; sms_pending_failed p false
                               | RES_EXPIRED => sms_pending_failed p true
                               | RES_OOM | RES_BUSY => pending_done p
                               end
                        end
            end) Q st) as Hw.
  2:{ destruct Hsig as [-> | ->]; exact Hw. }
  wp_steps. apply (wp_load _ _ m); [done|]. wp_steps.
  destruct (sms_find_pending m st) as [p|] eqn:Hp; [|by apply HQ, qstep_refl].
  apply find_pending_Some in Hp as (e & He & Heq%Z.eqb_eq).
  assert (forall st', qstep (fun j _ => j <> p) k st st' -> Q tt st') as HQ'.
  { intros st' Hs. apply HQ. revert Hs. apply qstep_mono. intros j e' Hj Hne ->. congruence. }
  assert (wp (pending_done p) Q st) as Hdone.
  { unfold pending_done, queue_upd. wp_steps. set (st1 := st <| sms_queue ::= _ |>).
    apply (wp_pending_free p e (k + 1)); [|done|].
    - unfold Qu, st1. cbn. apply qwf_place. by replace (k + 1 - 1) with k by lia.
    - intros st' (q & r & -> & Hq' & Hf). unfold sms_queue_trigger, queue_upd. wp_steps. apply HQ'.
      eexists _, _. split; [reflexivity|]. split; [|exact Hf].
      eapply qwf_same; cycle 3; [replace k with (k + 1 - 1) by lia; exact Hq'|done..]. }
  destruct Hsig as [-> | ->]; [exact Hdone|].
  destruct res; [wp_steps; by apply (wp_pending_failed p e _ k)|by apply (wp_pending_failed p e _ k)|exact Hdone..].
Qed.
Lemma wp_send_error x res m k (Q : unit -> sms_state -> Prop) st :
  Qu k st -> smss st !! x = Some m -> (forall st', qstep (fun _ e => p_sms_id e <> sms_id m) k st st' -> Q tt st') ->
  wp (send_error x res) Q st.
Proof. apply wp_attempt_failed. by right. Qed.

(** ** Transactions *)

(** Only states and timers of transactions have changed. *)
Definition lsame (st st' : sms_state) : Prop := exists m, st' = st <| transs := m |> /\ links <$> m = lk st.

Lemma lsame_refl st : lsame st st.
Proof. exists (transs st). by destruct st. Qed.
Lemma lsame_trans st st1 st2 : lsame st st1 -> lsame st1 st2 -> lsame st st2.
Proof. intros (m & -> & Hm) (m' & -> & Hm'). exists m'. split; [reflexivity|]. by rewrite Hm'. Qed.
Lemma lsame_lk st st' : lsame st st' -> lk st' = lk st.
Proof. by intros (m & -> & Hm). Qed.
Lemma lsame_T fl st st' : lsame st st' -> T fl st -> T fl st'.
Proof. intros (m & -> & Hm). unfold T, lk at 2. cbn. by rewrite Hm. Qed.
Lemma lsame_Qu k st st' : lsame st st' -> Qu k st -> Qu k st'.
Proof. by intros (m & -> & Hm). Qed.

Lemma lk_lookup st i t : transs st !! i = Some t -> lk st !! i = Some (links t).
Proof. intros Hi. unfold lk. by rewrite lookup_fmap, Hi. Qed.
Lemma lk_inv st i l : lk st !! i = Some l -> exists t, transs st !! i = Some t /\ links t = l.
Proof. unfold lk. rewrite lookup_fmap. destruct (transs st !! i) as [t|]; [|done]. cbn. intros [= <-]. by exists t. Qed.
Lemma lk_alter f i st : (forall t, links (f t) = links t) -> links <$> alter f i (transs st) = lk st.
Proof.
  intros Hf. apply map_eq. intros j. unfold lk. rewrite !lookup_fmap, lookup_alter. case_decide; [|done].
  subst. destruct (transs st !! j) as [t|]; [|done]. cbn. by rewrite Hf.
Qed.

Lemma wp_trans_same i l f (Q : unit -> sms_state -> Prop) st :
  lk st !! i = Some l -> (forall t, links (f t) = links t) -> (forall st', lsame st st' -> Q tt st') -> wp (trans_upd i f) Q st.
Proof.
  intros (t & Ht & _)%lk_inv Hf HQ. apply (wp_trans_upd _ t); [done|]. apply HQ. eexists. split; [reflexivity|]. by apply lk_alter.
Qed.
Lemma wp_trans_get i l (Q : sms_trans -> sms_state -> Prop) st :
  lk st !! i = Some l -> (forall t, transs st !! i = Some t -> links t = l -> Q t st) -> wp (trans_get i) Q st.
Proof. intros (t & Ht & Hl)%lk_inv HQ. apply (wp_load _ _ t); [done|]. by apply HQ. Qed.

Hypothesis msgb_ok_true : msgb_ok = true.

Lemma wp_cp_sendmsg fl data i l mt (Q : Z -> sms_state -> Prop) st :
  T fl st -> lk st !! i = Some l -> (forall rc st', lsame st st' -> Q rc st') -> wp (gsm411_cp_sendmsg data i mt) Q st.
Proof.
  intros HT Hi HQ. unfold gsm411_cp_sendmsg. rewrite msgb_ok_true. cbn [negb]. rewrite wp_bind.
  assert (forall st', lsame st st' -> wp (t ← trans_get i;
            gsm411_sendmsg (t_conn t) ([u8 (GSM48_PDISC_SMS .| (t_id t .<< 4)); cp_mt_octet mt] ++ data) (link_id t)) Q st') as Hrest.
  { intros st' Hs. rewrite wp_bind. apply (wp_trans_get i l); [by rewrite (lsame_lk _ _ Hs)|]. intros t Ht Hl.
    unfold gsm411_sendmsg. wp_steps. destruct (tw_conn _ _ _ _ _ _ _ _ (lsame_T _ _ _ Hs HT) i l) as (c & Hc & _).
    { by rewrite (lsame_lk _ _ Hs). }
    apply (wp_load _ _ c); [by rewrite <- Hc, <- Hl|]. wp_steps. by apply HQ. }
  destruct mt; [by apply (wp_trans_same i l)|apply Hrest, lsame_refl..].
Qed.
Lemma wp_rp_sendmsg fl data i l mt ref (Q : Z -> sms_state -> Prop) st :
  T fl st -> lk st !! i = Some l -> (forall rc st', lsame st st' -> Q rc st') -> wp (gsm411_rp_sendmsg data i mt ref) Q st.
Proof. apply wp_cp_sendmsg. Qed.

(** What sending a message leaves alone: transactions stay, and so do the entries of [P]. *)
Record grows (P : gsm_sms_pending -> Prop) (st st' : sms_state) : Prop := {
  g_lk : forall i l, lk st !! i = Some l -> lk st' !! i = Some l;
  g_conns : conns st' = conns st;
  g_cc : cc_transs st' = cc_transs st;
  g_pend : forall j e, pendings (sms_queue st) !! j = Some e -> P e -> pendings (sms_queue st') !! j = Some e
}.
Lemma grows_refl P st : grows P st st.
Proof. by split. Qed.
Lemma grows_trans P st st1 st2 : grows P st st1 -> grows P st1 st2 -> grows P st st2.
Proof. intros [] []. split; [eauto|congruence..|eauto]. Qed.
Lemma grows_mono (P P' : gsm_sms_pending -> Prop) st st' :
  (forall j e, pendings (sms_queue st) !! j = Some e -> P' e -> P e) -> grows P st st' -> grows P' st st'.
Proof. intros HP []. split; eauto. Qed.

(** The attempt fails at once. *)
Lemma wp_give_up fl x res m rc k (Q : Z -> sms_state -> Prop) st :
  T (x :: fl) st -> Qu k st -> smss st !! x = Some m ->
  (forall st', T fl st' -> Qu k st' -> grows (fun e => p_sms_id e <> sms_id m) st st' -> Q rc st') ->
  wp (send_error x res;; sms_free x;; mret rc) Q st.
Proof.
  intros HT Hq Hx HQ. wp_steps. apply (wp_send_error x _ m k); [done..|]. intros st1 (q & r & -> & Hq1 & Hf). wp_steps.
  apply (wp_sms_free x m); [done|]. intros r'. wp_steps. apply HQ; [|done|by split].
  by apply (T_free_sms fl (st <| sms_queue := q |> <| refs := r |>)).
Qed.

Lemma lk_insert st i t : links <$> <[i := t]> (transs st) = <[i := links t]> (lk st).
Proof. unfold lk. by rewrite fmap_insert. Qed.

Lemma T_new_trans fl st t conn :
  conns st !! t_conn t = Some conn -> c_subscr conn = Some (t_subscr t) ->
  T (option_list (t_sms t) ++ fl) st ->
  T fl (st <| next_id ::= S |> <| transs ::= <[next_id st := t]> |> <| trans_list ::= fun l => l ++ [next_id st] |>).
Proof.
  intros Hc Hs HT. unfold T, lk. cbn. rewrite lk_insert.
  pose proof (twf_new_trans (unsms (links t)) conn Hc Hs eq_refl HT) as H. unfold T in H.
  destruct (t_sms t) as [x|] eqn:Hx; cbn in H.
  - pose proof (twf_take (next_id st) (unsms (links t)) x ltac:(by rewrite lookup_insert_eq) eq_refl H) as H'.
    rewrite insert_insert_eq in H'. unfold links. rewrite Hx. exact H'.
  - unfold unsms, links in H |- *. cbn in H. rewrite Hx. exact H.
Qed.

Hypothesis extension_fits : forall s, is_Some (encode_bcd (extension s)).

Lemma wp_send_sms fl c conn s x m k (Q : Z -> sms_state -> Prop) st :
  T (x :: fl) st -> Qu k st -> conns st !! c = Some conn -> c_subscr conn = Some s ->
  smss st !! x = Some m -> is_Some (sender m) ->
  (forall rc st', T fl st' -> Qu k st' -> grows (fun e => p_sms_id e <> sms_id m) st st' -> Q rc st') ->
  wp (gsm411_send_sms c x) Q st.
Proof.
  intros HT Hq Hc Hs Hx [from Hfrom] HQ. unfold gsm411_send_sms. rewrite msgb_ok_true. cbn [negb].
  rewrite wp_bind. apply (wp_load _ _ conn); [done|]. rewrite wp_bind. apply (wp_deref _ s); [done|].
  rewrite wp_bind. apply wp_gets. cbv beta.
  destruct (trans_assign_trans_id s st =? -1); [apply (wp_give_up fl x _ m _ k); auto|].
  unfold next_callref. rewrite wp_bind. wp_steps. unfold trans_alloc. destruct trans_alloc_ok; cbn [negb].
  2:{ rewrite wp_ret. apply (wp_give_up fl x _ m _ k); [exact HT|exact Hq|exact Hx|].
      intros st' ? ? []. apply HQ; [done..|by split]. }
  unfold subscr_get, new_id. wp_steps. set (st1 := _ <| trans_list ::= _ |>).
  set (l := mk_tlink (trans_assign_trans_id s st) s c true (Some x)).
  assert (lk st1 = <[next_id st := l]> (lk st)) as Hlk by (unfold lk, st1; cbn [transs]; exact (fmap_insert links (transs st) (next_id st) _)).
  assert (lk st !! next_id st = None) as Hfresh by by eapply tw_none_lm.
  assert (T fl st1) as HT1.
  { exact (T_new_trans fl st (mk_sms_trans (trans_assign_trans_id s st) s (new_callref st) c 3 true GSM411_CPS_IDLE None
                                GSM411_RPS_IDLE (Some x)) conn Hc Hs HT). }
  assert (Qu k st1) as Hq1 by (eapply Qu_next, Hq; [done|cbn; lia]).
  assert (smss st1 !! x = Some m) as Hx1 by done.
  assert (grows (fun e => p_sms_id e <> sms_id m) st st1) as Hg.
  { split; try done. intros i l' Hi. rewrite Hlk. rewrite lookup_insert_ne; [done|]. intros <-. congruence. }
  assert (lk st1 !! next_id st = Some l) as Hi1 by by rewrite Hlk, lookup_insert_eq.
  clearbody st1. clear Hlk Hfresh. apply (wp_load _ _ m _ _ Hx1). rewrite wp_bind. apply (wp_deref _ from); [done|]. unfold ask. wp_steps.
  unfold gsm340_gen_tpdu, gsm340_gen_oa. destruct (extension_fits from) as [d Hd]. rewrite Hd. cbn [mbind option_bind].
  apply (wp_deref _ _ _ _ eq_refl). wp_steps.
  apply (wp_rp_sendmsg fl _ _ l); [exact HT1|exact Hi1|]. intros rc st2 Hs2. apply HQ.
  - apply (lsame_T _ _ _ Hs2), HT1.
  - apply (lsame_Qu _ _ _ Hs2), Hq1.
  - apply (grows_trans _ _ _ _ Hg). destruct Hs2 as (mm & -> & Hm). split; try done. intros i l'. unfold lk at 2. cbn. by rewrite Hm.
Qed.

(** ** To a subscriber *)

Lemma wp_paging_cb fl event co x m k (Q : Z -> sms_state -> Prop) st :
  T (x :: fl) st -> Qu k st -> smss st !! x = Some m -> is_Some (sender m) ->
  (event = RES_0 -> exists c conn s, co = Some c /\ conns st !! c = Some conn /\ c_subscr conn = Some s) ->
  (forall rc st', T fl st' -> Qu k st' -> grows (fun e => p_sms_id e <> sms_id m) st st' -> Q rc st') ->
  wp (paging_cb_send_sms event co x) Q st.
Proof.
  intros HT Hq Hx Hfrom Hev HQ. unfold paging_cb_send_sms.
  destruct event; [|apply (wp_give_up fl x _ m _ k); auto..].
  destruct (Hev eq_refl) as (c & conn & s & -> & Hc & Hs). wp_steps. apply (wp_deref _ c); [done|]. wp_steps.
  apply (wp_send_sms fl c conn s x m k); auto. intros rc st' ? ? ?. wp_steps. auto.
Qed.

Lemma wp_send_sms_subscr fl s x m k (Q : Z -> sms_state -> Prop) st :
  T (x :: fl) st -> Qu k st -> smss st !! x = Some m -> is_Some (sender m) ->
  (forall rc st', T fl st' -> Qu k st' -> grows (fun e => p_sms_id e <> sms_id m) st st' -> Q rc st') ->
  wp (gsm411_send_sms_subscr s x) Q st.
Proof.
  intros HT Hq Hx Hfrom HQ. unfold gsm411_send_sms_subscr. rewrite wp_bind. apply wp_gets. cbv beta.
  destruct (connection_for_subscr s st) as [c|] eqn:Hf.
  - unfold connection_for_subscr in Hf. apply find_some in Hf as [_ Hf].
    destruct (conns st !! c) as [conn|] eqn:Hc; [|done]. apply bool_decide_eq_true in Hf.
    by apply (wp_send_sms fl c conn s x m k).
  - unfold subscr_get_channel, ask. wp_steps. destruct (get_channel _ _) as [why|].
    + destruct why; wp_steps; (apply (wp_paging_cb fl _ None x m k); try done; intros rc st' ? ? []; wp_steps; apply HQ; [done..|by split]).
    + unfold subscr_get. wp_steps. apply HQ; [|done|by split].
      by apply (twf_add_req s x m).
Qed.

(** ** The loop over the unsent messages *)

(** What the code relies on: the messages the database finds have both subscribers, and the one that is asked for. *)
Hypothesis db_by_subscr : forall n s m, db_sms_get_unsent_by_subscr n s = Some m -> is_Some (sender m) /\ is_Some (receiver m).

Abbreviation grows_all := (grows (fun _ => True)).

Lemma grows_upd st st' : lk st' = lk st -> conns st' = conns st -> cc_transs st' = cc_transs st ->
  pendings (sms_queue st') = pendings (sms_queue st) -> grows_all st st'.
Proof. intros E1 E2 E3 E4. split; rewrite ?E1, ?E2, ?E3, ?E4; done. Qed.

Lemma Qu_same k st st' : qwf k (sms_queue st') (next_id st) -> next_id st' = S (next_id st) -> Qu k st'.
Proof. unfold Qu. intros H ->. revert H. apply qwf_mono. lia. Qed.

(** The message that was found has just been read. *)
Lemma wp_next_found fl k m r0 (Q : option nat -> sms_state -> Prop) st :
  T fl st -> Qu k st -> is_Some (sender m) -> is_Some (receiver m) ->
  (forall x r st', T (x :: fl) st' -> Qu k st' -> grows_all st st' -> smss st' !! x = Some m -> receiver m = Some r -> Q (Some x) st') ->
  wp (m0 ← sms_get (next_id st); r ← deref (receiver m0);
      queue_upd (fun q => q <| last_subscr_id := wrap 64 (subscr_dbid r + 1) |>)) (fun _ => Q (Some (next_id st)))
     (st <| next_id ::= S |> <| refs := r0 |> <| smss ::= <[next_id st := m]> |>).
Proof.
  intros HT Hq Hsm [r Hr] HQ. wp_steps. apply (wp_load _ _ m); [cbn; by rewrite lookup_insert_eq|].
  rewrite wp_bind. apply (wp_deref _ r); [done|]. unfold queue_upd. wp_steps. apply (HQ _ r); [| | | |done].
  - exact (T_new_sms fl st m r0 HT).
  - eapply (Qu_same _ st); [|done]. by eapply qwf_same; cycle 3.
  - by apply grows_upd.
  - cbn. by rewrite lookup_insert_eq.
Qed.

Lemma wp_take_next fl k (Q : option nat -> sms_state -> Prop) st :
  T fl st -> Qu k st ->
  (forall st', T fl st' -> Qu k st' -> grows_all st st' -> Q None st') ->
  (forall x m r st', T (x :: fl) st' -> Qu k st' -> grows_all st st' -> smss st' !! x = Some m ->
     is_Some (sender m) -> receiver m = Some r -> Q (Some x) st') ->
  wp take_next_sms Q st.
Proof.
  intros HT Hq HQn HQ. unfold take_next_sms, ask. wp_steps. apply wp_sms_from.
  - unfold queue_upd. wp_steps. apply wp_sms_from.
    + wp_steps. apply HQn; [done| |by apply grows_upd]. by eapply qwf_same; cycle 3.
    + intros m r0 Hm. destruct (db_by_subscr _ _ _ Hm) as [Hsm Hrm]. rewrite wp_bind.
      set (st1 := st <| questions ::= _ |> <| sms_queue ::= _ |> <| questions ::= _ |>).
      apply (wp_next_found fl k m r0 Q st1); [done|by eapply qwf_same; cycle 3|done..|].
      intros x r st' HT' Hq' Hg Hx Hr. apply (HQ x m r); [done..| |done|done|done].
      eapply grows_trans, Hg. by apply grows_upd.
  - intros m r0 Hm. destruct (db_by_subscr _ _ _ Hm) as [Hsm Hrm]. rewrite wp_bind, wp_ret, wp_bind.
    set (st1 := st <| questions ::= _ |>).
    apply (wp_next_found fl k m r0 Q st1); [done..|]. intros x r st' HT' Hq' Hg Hx Hr. apply (HQ x m r); [done..| |done|done|done].
    eapply grows_trans, Hg. by apply grows_upd.
Qed.

(** A message of the loop ends in memory of its own, or is freed; the entries from before stay. *)
Lemma wp_submit_one fl x m r k (Q : bool -> sms_state -> Prop) st :
  T (x :: fl) st -> Qu k st -> smss st !! x = Some m -> is_Some (sender m) -> receiver m = Some r ->
  (forall b st', T fl st' -> Qu k st' -> grows_all st st' -> Q b st') ->
  wp (submit_one x m r) Q st.
Proof.
  intros HT Hq Hx Hsm Hr HQ. unfold submit_one. wp_steps.
  assert (wp (sms_free x;; mret false) Q st) as Hfree.
  { wp_steps. apply (wp_sms_free x m); [done|]. intros r0. wp_steps. apply HQ; [by apply T_free_sms|done|by apply grows_upd]. }
  destruct (sms_find_pending m st) as [|] eqn:Hp; [exact Hfree|].
  destruct (sms_subscriber_find_pending r st) as [|] eqn:Hb; [exact Hfree|].
  unfold sms_pending_from. destruct pending_alloc_ok; cbn [negb]; [|rewrite wp_bind, wp_ret; exact Hfree].
  wp_steps. apply (wp_deref _ r); [done|]. unfold subscr_get, new_id, queue_upd. wp_steps.
  set (st1 := _ <| sms_queue ::= _ |> <| sms_queue ::= _ |>).
  set (e := mk_gsm_sms_pending r (sms_id m) 0 false false).
  assert (Qu k st1) as Hq1.
  { apply (qwf_add k (sms_queue st) (next_id st) e); [|exact Hq]. intros i e' He. cbn. split.
    - pose proof (find_pending_None _ _ _ _ Hq Hp i e' He) as Hne%Z.eqb_neq. done.
    - pose proof (find_pending_None _ _ _ _ Hq Hb i e' He) as Hne. cbn in Hne. by apply bool_decide_eq_false in Hne. }
  assert (grows_all st st1) as Hg.
  { split; try done. intros j e' Hj _. unfold st1. cbn. rewrite lookup_insert_ne; [done|].
    intros <-. assert (next_id st < next_id st)%nat by (apply (qw_lt _ _ _ Hq); by eexists). lia. }
  assert (T (x :: fl) st1) as HT1 by (eapply twf_mono, HT; cbn; lia).
  apply (wp_send_sms_subscr fl r x m k); [done..|]. intros rc st' HT' Hq' Hg'. wp_steps. apply HQ; [done..|].
  destruct Hg as [Ha1 Ha2 Ha3 Ha4], Hg' as [Hb1 Hb2 Hb3 Hb4]. split; [eauto|congruence..|].
  intros j e' Hj _. apply Hb4; [by apply Ha4|]. pose proof (find_pending_None _ _ _ _ Hq Hp j e' Hj) as Hne%Z.eqb_neq. done.
Qed.

Lemma wp_submit_loop n fl attempts attempted first k (Q : unit -> sms_state -> Prop) st :
  T fl st -> Qu k st -> (forall st', T fl st' -> Qu k st' -> grows_all st st' -> Q tt st') ->
  wp (submit_loop n attempts attempted first) Q st.
Proof.
  revert attempted first st. induction n as [|n IH]; intros attempted first st HT Hq HQ; cbn [submit_loop];
    [by apply HQ; [..|apply grows_refl]|].
  rewrite wp_bind. apply (wp_take_next fl k); [done..| |].
  { intros st' ? ? ?. wp_steps. by apply HQ. }
  intros x m r st1 HT1 Hq1 Hg1 Hx Hsm Hr. rewrite wp_bind. apply (wp_load _ _ m); [done|]. rewrite wp_bind.
  apply (wp_deref _ r); [done|]. destruct (bool_decide _).
  - apply (wp_sms_free x m); [done|]. intros r0. apply HQ; [by apply T_free_sms|done|].
    by eapply grows_trans; [|apply grows_upd].
  - rewrite wp_bind. apply (wp_submit_one fl x m r k); [done..|]. intros b st2 HT2 Hq2 Hg2. cbv zeta.
    assert (grows_all st st2) as Hg by by eapply grows_trans.
    destruct (_ <? _); [apply IH; [done..|]|wp_steps; by apply HQ]. intros st3 ? ? ?. apply HQ; [done..|]. by eapply grows_trans.
Qed.
Lemma wp_submit_pending fl k (Q : unit -> sms_state -> Prop) st :
  T fl st -> Qu k st -> (forall st', T fl st' -> Qu k st' -> grows_all st st' -> Q tt st') -> wp sms_submit_pending Q st.
Proof. intros HT Hq HQ. unfold sms_submit_pending. rewrite wp_bind. apply wp_gets. by apply (wp_submit_loop _ fl _ _ _ k). Qed.

(** ** The signal that a message was delivered *)

Lemma wp_delivered fl x m k (Q : unit -> sms_state -> Prop) st :
  T fl st -> Qu k st -> smss st !! x = Some m ->
  (forall st', T fl st' -> Qu k st' -> grows (fun e => p_sms_id e <> sms_id m) st st' -> Q tt st') ->
  wp (send_signal S_SMS_DELIVERED (Some x) RES_0) Q st.
Proof.
  intros HT Hq Hx HQ. unfold send_signal, send_signal_to, sms_sms_cb. wp_steps. apply (wp_load _ _ m); [done|]. wp_steps.
  destruct (sms_find_pending m st) as [p|] eqn:Hp; [|by apply HQ; [..|apply grows_refl]].
  apply find_pending_Some in Hp as (e & He & Heq%Z.eqb_eq).
  unfold queue_upd. wp_steps. set (st1 := st <| sms_queue ::= _ |>).
  assert (Qu (k + 1) st1) as Hq1.
  { unfold Qu, st1. cbn. apply qwf_place. by replace (k + 1 - 1) with k by lia. }
  apply (wp_submit_pending fl (k + 1)); [done..|]. intros st2 HT2 Hq2 [Hg1 Hg2 Hg3 Hg4].
  apply (wp_pending_free p e (k + 1)); [done|by apply Hg4|]. intros st3 (q & r & -> & Hq3 & Hf).
  apply HQ; [done|by replace k with (k + 1 - 1) by lia|]. split; [done..|].
  intros j e' Hj Hne. cbn. apply Hf; [by apply Hg4|]. intros ->. congruence.
Qed.

(** ** The end of a transaction *)

Lemma lk_alter_sms st i l : lk st !! i = Some l ->
  links <$> alter (fun t => t <| t_sms := None |>) i (transs st) = <[i := unsms l]> (lk st).
Proof.
  intros (t & Ht & <-)%lk_inv. apply map_eq. intros j. unfold lk. rewrite lookup_fmap, lookup_alter, lookup_insert.
  case_decide; [subst; by rewrite Ht|]. by rewrite lookup_fmap.
Qed.

(** The message of a transaction is freed. *)
Lemma wp_drop_sms fl i l x (Q : unit -> sms_state -> Prop) st :
  T fl st -> lk st !! i = Some l -> l_sms l = Some x ->
  (forall st', T fl st' -> lk st' = <[i := unsms l]> (lk st) -> conns st' = conns st -> cc_transs st' = cc_transs st ->
     trans_list st' = trans_list st -> sms_queue st' = sms_queue st -> next_id st' = next_id st -> Q tt st') ->
  wp (sms_free x) (fun _ => wp (trans_upd i (fun t => t <| t_sms := None |>)) Q) st.
Proof.
  intros HT Hi Hl HQ. destruct (tw_sms _ _ _ _ _ _ _ _ HT i l x Hi Hl) as [[m Hm] _].
  apply (wp_sms_free x m); [done|]. intros r. destruct (lk_inv _ _ _ Hi) as (t & Ht & _).
  apply (wp_trans_upd _ t); [done|].
  assert (links <$> alter (fun t => t <| t_sms := None |>) i (transs st) = <[i := unsms l]> (lk st)) as Hlk by by apply lk_alter_sms.
  apply HQ; try done. unfold T, lk. cbn. rewrite Hlk. apply twf_free_sms. by apply twf_give.
Qed.

Lemma wp_drop_sms_then {A} fl i l x (m : M sms_state sms_event A) (Q : A -> sms_state -> Prop) st :
  T fl st -> lk st !! i = Some l -> l_sms l = Some x ->
  (forall st', T fl st' -> lk st' = <[i := unsms l]> (lk st) -> conns st' = conns st -> cc_transs st' = cc_transs st ->
     trans_list st' = trans_list st -> sms_queue st' = sms_queue st -> next_id st' = next_id st -> wp m Q st') ->
  wp (sms_free x;; trans_upd i (fun t => t <| t_sms := None |>);; m) Q st.
Proof.
  intros HT Hi Hl HQ. rewrite wp_bind.
  refine (wp_mono _ _ _ _ (wp_drop_sms fl i l x (fun _ => wp m Q) st HT Hi Hl HQ) _). intros [] st' H. by rewrite wp_bind.
Qed.

Lemma wp_sms_trans_free fl i l k (Q : unit -> sms_state -> Prop) st :
  T fl st -> Qu k st -> lk st !! i = Some l ->
  (forall st', T fl st' -> Qu k st' -> lk st' = <[i := unsms l]> (lk st) -> conns st' = conns st -> cc_transs st' = cc_transs st ->
     trans_list st' = trans_list st -> Q tt st') ->
  wp (_gsm411_sms_trans_free i) Q st.
Proof.
  intros HT Hq Hi HQ. unfold _gsm411_sms_trans_free. rewrite wp_bind. apply (wp_trans_get i l); [done|]. intros t Ht Hl.
  rewrite wp_bind. destruct (t_sms t) as [x|] eqn:Hx.
  - assert (l_sms l = Some x) as Hlx by by rewrite <- Hl.
    destruct (tw_sms _ _ _ _ _ _ _ _ HT i l x Hi Hlx) as [[m Hm] _].
    wp_steps. apply (wp_send_error x _ m k); [done..|]. intros st1 Hs1. rewrite wp_bind.
    assert (lk st1 = lk st /\ conns st1 = conns st /\ cc_transs st1 = cc_transs st /\ trans_list st1 = trans_list st) as (E1 & E2 & E3 & E4)
      by by destruct Hs1 as (q & r & -> & _).
    apply (wp_drop_sms fl i l x); [by eapply qstep_T|by rewrite E1|done|]. intros st2 HT2 F1 F2 F3 F4 F5 F6.
    apply (wp_trans_same i (unsms l)); [by rewrite F1, lookup_insert_eq|done|]. intros st3 Hs3.
    assert (Qu k st2) as Hq2 by (unfold Qu; rewrite F5, F6; by eapply qstep_Qu).
    apply HQ; [by eapply lsame_T|by eapply lsame_Qu|by rewrite (lsame_lk _ _ Hs3), F1, E1|..];
      destruct Hs3 as (mm & -> & _); cbn; congruence.
  - wp_steps. apply (wp_trans_same i l); [done..|]. intros st3 Hs3.
    assert (unsms l = l) as Hu by by rewrite <- Hl; unfold unsms, links; cbn; rewrite Hx.
    apply HQ; [by eapply lsame_T|by eapply lsame_Qu|by rewrite (lsame_lk _ _ Hs3), Hu, insert_id|..];
      by destruct Hs3 as (mm & -> & _).
Qed.

(** The transaction [i] is about to be deleted. *)
Definition del (i : nat) (st : sms_state) : sms_state := st <| transs ::= delete i |>.

Lemma lk_del i st : lk (del i st) = delete i (lk st).
Proof. unfold lk, del. cbn. by rewrite fmap_delete. Qed.

Lemma wp_con_free fl i c conn (Q : unit -> sms_state -> Prop) st :
  T fl (del i st) -> conns st !! c = Some conn -> (forall j l, lk (del i st) !! j = Some l -> l_conn l <> c) ->
  (forall r, let st' := st <| refs := r |> <| conns ::= delete c |> <| conn_list ::= unlink c |> in T fl (del i st') -> Q tt st') ->
  wp (subscr_con_free c) Q st.
Proof.
  intros HT Hc Hno HQ. unfold subscr_con_free. wp_steps. apply (wp_load _ _ conn); [done|]. wp_steps.
  apply wp_put_opt. intros r. wp_steps. apply HQ. by apply (twf_del_conn c).
Qed.

Lemma wp_release fl i k c conn (Q : unit -> sms_state -> Prop) st :
  T fl (del i st) -> Qu k st -> conns st !! c = Some conn ->
  (forall st', T fl (del i st') -> Qu k st' -> transs st' = transs st -> cc_transs st' = cc_transs st ->
     trans_list st' = trans_list st ->
     (forall c' k', conns st !! c' = Some k' -> c' <> c \/ c_busy k' = true -> conns st' !! c' = Some k') -> Q tt st') ->
  wp (msc_release_connection c) Q st.
Proof.
  intros HT Hq Hc HQ. unfold msc_release_connection. rewrite wp_bind. apply (wp_load _ _ conn); [done|].
  rewrite wp_bind. apply wp_gets. cbv beta.
  destruct (c_busy conn) eqn:Hbusy; cbn [orb]; [by apply HQ|].
  destruct (uses_conn c st) eqn:Hu; [by apply HQ|]. unfold uses_conn in Hu. apply orb_false_iff in Hu as [Hu _].
  assert (forall j l, lk (del i st) !! j = Some l -> l_conn l <> c) as Hno.
  { intros j l Hj <-. assert (j ∈ trans_list st) as Hin by (apply (tw_tl_iff _ _ _ _ _ _ _ _ HT); by eexists).
    rewrite lk_del, lookup_delete_Some in Hj. destruct Hj as [_ (t & Ht & Hl)%lk_inv].
    apply Is_true_false in Hu. apply Hu, Is_true_true, existsb_exists. exists j. split; [by apply list_elem_of_In|].
    rewrite Ht. apply bool_decide_eq_true. by rewrite <- Hl. }
  assert (wp (subscr_con_free c) Q st) as Hfree.
  { apply (wp_con_free fl i c conn); [done..|]. intros r st' HT'. apply HQ; try done.
    intros c' k' Hk' Hor. unfold st'. cbn. rewrite lookup_delete_ne; [done|]. intros <-. destruct Hor; [done|congruence]. }
  wp_steps. destruct (c_put_channel conn) eqn:Hput; [|by wp_steps].
  destruct (tw_put _ _ _ _ _ _ _ _ HT c conn Hc Hput) as [s Hs]. wp_steps. by apply (wp_deref _ s).
Qed.

Lemma T_del_none fl i st : transs st !! i = None -> T fl st -> T fl (del i st).
Proof. intros Hi HT. unfold T. rewrite lk_del, delete_id; [done|]. unfold lk. by rewrite lookup_fmap, Hi. Qed.

Lemma wp_trans_free fl i l k (Q : unit -> sms_state -> Prop) st :
  T fl st -> Qu k st -> lk st !! i = Some l ->
  (forall st', T fl st' -> Qu k st' -> lk st' = delete i (lk st) -> cc_transs st' = cc_transs st ->
     trans_list st' = unlink i (trans_list st) ->
     (forall c' k', conns st !! c' = Some k' -> c' <> l_conn l \/ c_busy k' = true -> conns st' !! c' = Some k') -> Q tt st') ->
  wp (trans_free i) Q st.
Proof.
  intros HT Hq Hi HQ. unfold trans_free. rewrite wp_bind. apply (wp_sms_trans_free fl i l k); [done..|].
  intros st1 HT1 Hq1 E1 E2 E3 E4. assert (lk st1 !! i = Some (unsms l)) as Hi1 by by rewrite E1, lookup_insert_eq.
  rewrite wp_bind. apply (wp_trans_get i (unsms l)); [done|]. intros t Ht Hl. unfold subscr_put. wp_steps.
  destruct (tw_conn _ _ _ _ _ _ _ _ HT1 i (unsms l) Hi1) as (conn & Hc & _).
  set (st2 := st1 <| refs ::= _ |> <| trans_list ::= _ |>).
  apply (wp_release fl i k (t_conn t) conn); [| |by rewrite <- Hl in Hc|].
  - unfold T. rewrite lk_del. by apply (twf_del_trans i (unsms l)).
  - done.
  - intros st3 HT3 Hq3 F1 F2 F3 F4. wp_steps. apply HQ; [done..| | | |].
    + change (lk (del i st3) = delete i (lk st)). rewrite lk_del. unfold lk at 1. rewrite F1. change (delete i (lk st1) = delete i (lk st)).
      by rewrite E1, delete_insert_eq.
    + cbn. by rewrite F2.
    + cbn. rewrite F3. cbn. by rewrite E4.
    + intros c' k' Hk' Hor. cbn. apply F4; [unfold st2; cbn; by rewrite E2|].
      assert (t_conn t = l_conn l) as -> by by apply (f_equal l_conn) in Hl. done.
Qed.

(** ** Receiving *)

Hypothesis db_for_subscr : forall n s m, db_sms_get_unsent_for_subscr n s = Some m -> is_Some (sender m).

Lemma wp_trigger k (Q : unit -> sms_state -> Prop) st :
  Qu k st -> (forall st', qstep (fun _ _ => True) k st st' -> Q tt st') -> wp sms_queue_trigger Q st.
Proof.
  intros Hq HQ. apply HQ. eexists _, (refs st). split; [reflexivity|]. split; [|done]. by eapply qwf_same; cycle 3.
Qed.
Lemma wp_submitted o res k (Q : unit -> sms_state -> Prop) st :
  Qu k st -> (forall st', qstep (fun _ _ => True) k st st' -> Q tt st') -> wp (send_signal S_SMS_SUBMITTED o res) Q st.
Proof. intros Hq HQ. unfold send_signal, send_signal_to, sms_sms_cb. wp_steps. by apply (wp_trigger k). Qed.

(** The next message for the subscriber, or the end of the need for the channel. *)
Lemma wp_next_message fl i l k (Q : unit -> sms_state -> Prop) st :
  T fl st -> Qu k st -> lk st !! i = Some l ->
  (forall st', T fl st' -> Qu k st' -> lk st' !! i = Some l -> Q tt st') -> wp (next_message i) Q st.
Proof.
  intros HT Hq Hi HQ. unfold next_message, ask. rewrite wp_bind. apply (wp_trans_get i l); [done|]. intros t Ht Hl.
  destruct (tw_conn _ _ _ _ _ _ _ _ HT i l Hi) as (conn & Hc & Hs).
  assert (conns st !! t_conn t = Some conn) as Hc' by by rewrite <- Hl in Hc.
  wp_steps. apply wp_sms_from.
  - unfold gsm411_release_conn. wp_steps. apply (wp_load _ _ conn); [done|]. rewrite wp_bind.
    apply (wp_deref _ _ _ _ Hs). wp_steps. by apply HQ.
  - intros m r Hm. wp_steps. set (st0 := st <| questions ::= S |>). set (st1 := _ <| smss ::= _ |>).
    apply (wp_send_sms fl (t_conn t) conn (l_subscr l) (next_id st0) m k); [| |done|done| |by eapply db_for_subscr|].
    + exact (T_new_sms fl st0 m r HT).
    + eapply (Qu_next k st0); [done| |done]. unfold st1. cbn. lia.
    + unfold st1. cbn. by rewrite lookup_insert_eq.
    + intros rc st' HT' Hq' [Hg _ _ _]. wp_steps. apply HQ; [done..|]. by apply Hg.
Qed.

Lemma wp_send_rp_error fl i l ref cause (Q : Z -> sms_state -> Prop) st :
  T fl st -> lk st !! i = Some l -> (forall rc st', lsame st st' -> Q rc st') -> wp (gsm411_send_rp_error i ref cause) Q st.
Proof. apply wp_rp_sendmsg. Qed.

Lemma wp_rx_tpdu fl c conn data k (Q : Z -> sms_state -> Prop) st :
  T fl st -> Qu k st -> conns st !! c = Some conn ->
  (forall rc st', T fl st' -> Qu k st' -> lk st' = lk st -> Q rc st') -> wp (gsm340_rx_tpdu c data) Q st.
Proof.
  intros HT Hq Hc HQ. unfold gsm340_rx_tpdu. rewrite wp_bind. apply (wp_load _ _ conn); [done|].
  destruct sms_alloc_ok; cbn [negb]; [|wp_steps; by apply HQ]. unfold ask. wp_steps.
  destruct (parse_tpdu _ _) as [cause|[mti m]]; [wp_steps; by apply HQ|].
  wp_steps. apply wp_sms_new. intros r. set (st0 := st <| questions ::= S |>). set (st1 := _ <| smss ::= _ |>).
  assert (T (next_id st0 :: fl) st1) as HT1 by exact (T_new_sms fl st0 _ r HT).
  assert (Qu k st1) as Hq1 by (eapply (Qu_next k st0); [done|unfold st1; cbn; lia|done]).
  assert (lk st1 = lk st) as E1 by done. set (x := next_id st0) in *. clearbody st1 x. clear r.
  rewrite wp_bind. apply (wp_submitted _ _ k); [done|]. intros st2 Hs2. wp_steps. apply wp_get_opt. intros r. wp_steps.
  set (st3 := _ <| smss ::= _ |>).
  assert (T (x :: fl) st3) as HT3.
  { apply (twf_alter_sms x); [done|]. exact (qstep_T _ _ _ _ _ Hs2 HT1). }
  assert (Qu k st3) as Hq3 by exact (qstep_Qu _ _ _ _ Hs2).
  assert (lk st3 = lk st) as E3 by (destruct Hs2 as (q2 & r2 & -> & _); exact E1). clearbody st3.
  destruct (T_held (x :: fl) st3 x HT3 ltac:(by apply elem_of_cons; left)) as [m3 Hm3].
  assert (forall rc, wp (sms_free x;; mret rc) Q st3) as Hend.
  { intros rc. wp_steps. apply (wp_sms_free x m3); [done|]. intros r9. wp_steps. apply HQ; [by apply T_free_sms|done..]. }
  destruct (bool_decide _); [apply wp_ret, Hend|]. destruct (mti_submit mti); [|apply wp_ret, Hend].
  unfold gsm340_rx_sms_submit, ask. wp_steps. apply (wp_load _ _ m3); [done|]. wp_steps.
  destruct (negb _); wp_steps.
  - apply (wp_sms_free x m3); [done|]. intros r9. wp_steps. apply HQ; [exact (T_free_sms fl st3 x r9 HT3)|done..].
  - apply (wp_submitted _ _ k); [done|]. intros st4 (q & r4 & -> & Hq4 & _). wp_steps.
    apply (wp_sms_free x m3); [done|]. intros r9. wp_steps. apply HQ; [exact (T_free_sms fl st3 x r9 HT3)|done..].
Qed.

(** Where an operation leads. *)
Definition ok (k : Z) (st : sms_state) : Prop := T [] st /\ Qu k st.

Lemma ok_lsame k st st' : lsame st st' -> ok k st -> ok k st'.
Proof. intros Hs []. split; [by eapply lsame_T|by eapply lsame_Qu]. Qed.

Lemma wp_rx_rp_data i l ref data k st :
  ok k st -> lk st !! i = Some l -> wp (gsm411_rx_rp_data i ref data) (fun _ => ok k) st.
Proof.
  intros [HT Hq] Hi. unfold gsm411_rx_rp_data. destruct (rp_data_fields data) as [[src dst] rp_ud]. unfold gsm411_rx_rp_ud.
  assert (forall cause, wp (gsm411_send_rp_error i ref cause;; mret (- EIO)) (fun _ => ok k) st) as Herr.
  { intros cause. wp_steps. apply (wp_send_rp_error [] i l); [done..|]. intros rc st1 Hs. wp_steps. by eapply ok_lsame. }
  destruct dst as [dst|]; [|apply Herr]. destruct rp_ud as [tpdu|]; [|apply Herr].
  rewrite wp_bind. apply (wp_trans_get i l); [done|]. intros t Ht Hl.
  destruct (tw_conn _ _ _ _ _ _ _ _ HT i l Hi) as (conn & Hc & _). rewrite wp_bind.
  apply (wp_rx_tpdu [] (t_conn t) conn tpdu k); [done..|by rewrite <- Hl in Hc|]. intros rc st1 HT1 Hq1 E1.
  assert (lk st1 !! i = Some l) as Hi1 by by rewrite E1.
  destruct (rc =? 0); [|destruct (0 <? rc); [|by split]];
    apply (wp_rp_sendmsg [] _ i l); try done; intros rc' st2 Hs; by eapply ok_lsame.
Qed.

Lemma wp_rx_rp_ack i l ref k st :
  ok k st -> lk st !! i = Some l -> wp (gsm411_rx_rp_ack i ref) (fun _ => ok k) st.
Proof.
  intros [HT Hq] Hi. unfold gsm411_rx_rp_ack. rewrite wp_bind. apply (wp_trans_get i l); [done|]. intros t Ht Hl.
  assert (forall cause, wp (gsm411_send_rp_error i ref cause) (fun _ => ok k) st) as Herr.
  { intros cause. apply (wp_send_rp_error [] i l); [done..|]. intros rc st1 Hs. by eapply ok_lsame. }
  destruct (is_mt t); cbn [negb]; [|apply Herr]. destruct (t_sms t) as [x|] eqn:Hx; [|apply Herr].
  assert (l_sms l = Some x) as Hlx by by rewrite <- Hl.
  destruct (tw_sms _ _ _ _ _ _ _ _ HT i l x Hi Hlx) as [[m Hm] _].
  rewrite wp_bind. apply (wp_load _ _ m); [done|]. wp_steps.
  apply (wp_delivered [] x m k); [done..|]. intros st1 HT1 Hq1 [Hg _ _ _].
  apply (wp_drop_sms_then [] i l x); [done|by apply Hg|done|]. intros st2 HT2 E1 E2 E3 E4 E5 E6. rewrite wp_bind.
  assert (lk st2 !! i = Some (unsms l)) as Hi2 by by rewrite E1, lookup_insert_eq.
  apply (wp_next_message [] i (unsms l) k); [done|by unfold Qu; rewrite E5, E6|done|]. intros st3 HT3 Hq3 Hi3. rewrite wp_bind.
  apply (wp_trans_free [] i (unsms l) k); [done..|]. intros st4 HT4 Hq4 _ _ _ _. by split.
Qed.

Lemma wp_rx_rp_error i l data k st :
  ok k st -> lk st !! i = Some l -> wp (gsm411_rx_rp_error i data) (fun _ => ok k) st.
Proof.
  intros [HT Hq] Hi. unfold gsm411_rx_rp_error. rewrite wp_bind. apply (wp_trans_get i l); [done|]. intros t Ht Hl.
  destruct (tw_conn _ _ _ _ _ _ _ _ HT i l Hi) as (conn & Hc & _). rewrite wp_bind.
  apply (wp_load _ _ conn); [by rewrite <- Hl in Hc|]. cbv zeta. destruct (t_sms t) as [x|] eqn:Hx; [|by split].
  assert (l_sms l = Some x) as Hlx by by rewrite <- Hl.
  destruct (tw_sms _ _ _ _ _ _ _ _ HT i l x Hi Hlx) as [[m Hm] _].
  assert (forall st1, qstep (fun _ e => p_sms_id e <> sms_id m) k st st1 ->
            wp (sms_free x;; trans_upd i (fun t => t <| t_sms := None |>);; mret 0) (fun _ => ok k) st1) as Hrest.
  { intros st1 Hs. assert (lk st1 = lk st) as E by by destruct Hs as (q & r & -> & _).
    apply (wp_drop_sms_then [] i l x); [by eapply qstep_T|by rewrite E|done|]. intros st2 HT2 E1 E2 E3 E4 E5 E6. wp_steps.
    split; [done|]. unfold Qu. rewrite E5, E6. by eapply qstep_Qu. }
  rewrite wp_bind. apply (wp_attempt_failed _ _ x RES_0 m k); [destruct (_ =? _); auto|done..].
Qed.

Lemma wp_rx_rp_smma i l ref k st :
  ok k st -> lk st !! i = Some l -> wp (gsm411_rx_rp_smma i ref) (fun _ => ok k) st.
Proof.
  intros [HT Hq] Hi. unfold gsm411_rx_rp_smma. wp_steps. apply (wp_rp_sendmsg [] _ i l); [done..|]. intros rc st1 Hs1.
  assert (lk st1 !! i = Some l) as Hi1 by by rewrite (lsame_lk _ _ Hs1). wp_steps.
  apply (wp_trans_same i l); [done..|]. intros st2 Hs2. assert (lk st2 !! i = Some l) as Hi2 by by rewrite (lsame_lk _ _ Hs2).
  destruct (ok_lsame k _ _ Hs2 (ok_lsame k _ _ Hs1 (conj HT Hq))) as [HT2 Hq2].
  unfold send_signal, send_signal_to, sms_sms_cb. wp_steps. apply (wp_trigger k); [done|]. intros st3 Hs3. wp_steps.
  apply (wp_next_message [] i l k); [by eapply qstep_T|by eapply qstep_Qu|by destruct Hs3 as (q & r & -> & _)|].
  intros st4 HT4 Hq4 _. by split.
Qed.

Lemma wp_rx_cp_data i l rp k st : ok k st -> lk st !! i = Some l -> wp (gsm411_rx_cp_data i rp) (fun _ => ok k) st.
Proof.
  intros Hok Hi. unfold gsm411_rx_cp_data. cbv zeta.
  assert (forall A (m : M sms_state sms_event A) f, (forall t, links (f t) = links t) ->
            (forall st1, ok k st1 -> lk st1 !! i = Some l -> wp m (fun _ => ok k) st1) ->
            wp (trans_upd i f;; m) (fun _ => ok k) st) as Hstate.
  { intros A m f Hf Hm. rewrite wp_bind. apply (wp_trans_same i l); [done..|]. intros st1 Hs.
    apply Hm; [by eapply ok_lsame|by rewrite (lsame_lk _ _ Hs)]. }
  assert (forall cause, wp (gsm411_send_rp_error i (rd rp 2) cause) (fun _ => ok k) st) as Herr.
  { intros cause. apply (wp_send_rp_error [] i l); [apply Hok|done|]. intros rc st1 Hs. by eapply ok_lsame. }
  destruct (rp_mt_of _) as [[]|]; try apply Herr.
  - apply Hstate; [done|]. intros. by apply (wp_rx_rp_data i l).
  - by apply (wp_rx_rp_ack i l).
  - by apply (wp_rx_rp_error i l).
  - apply Hstate; [done|]. intros. by apply (wp_rx_rp_smma i l).
Qed.

(** ** The entry from the radio side *)

Lemma sms_wp_for_each (I : list nat -> sms_state -> Prop) f l (Q : unit -> sms_state -> Prop) st :
  I l st -> (forall x l st, I (x :: l) st -> wp (f x) (fun _ => I l) st) -> (forall st', I [] st' -> Q tt st') ->
  wp (for_each f l) Q st.
Proof.
  revert st. induction l as [|x l IH]; intros st HI Hf HQ; cbn [for_each]; [by apply HQ|].
  rewrite wp_bind. apply (wp_mono _ _ _ _ (Hf x l st HI)). intros [] st1 HI1. by apply IH.
Qed.

Lemma trans_find_Some s tid st i : trans_find_by_id s tid st = Some i ->
  exists l, lk st !! i = Some l /\ l_subscr l = s /\ l_id l = tid.
Proof.
  unfold trans_find_by_id. intros [_ Hi]%find_some. destruct (transs st !! i) as [t|] eqn:Ht; [|done].
  apply andb_true_iff in Hi as [Hs%bool_decide_eq_true Hid%Z.eqb_eq]. exists (links t). split; [by apply lk_lookup|done].
Qed.

Lemma wp_cp_end i l k st : ok k st -> lk st !! i = Some l -> wp (cp_end i) (fun _ => ok k) st.
Proof.
  intros Hok Hi. unfold cp_end. rewrite wp_bind. apply (wp_trans_same i l); [done..|]. intros st1 Hs.
  destruct (ok_lsame _ _ _ Hs Hok) as [HT1 Hq1].
  apply (wp_trans_free [] i l k); [done..|by rewrite (lsame_lk _ _ Hs)|]. intros st2 ? ? _ _ _ _. by split.
Qed.

(** The other transactions of the mobile end; the current one stays. *)
Lemma wp_implicit_ack i l j k st : ok k st -> lk st !! i = Some l ->
  wp (implicit_ack (l_conn l) (l_id l) j) (fun _ st => ok k st /\ lk st !! i = Some l) st.
Proof.
  intros [HT Hq] Hi. unfold implicit_ack. destruct (Z.eqb_spec (Z.of_nat j) (l_id l)) as [|Hne]; [by split|].
  destruct (tw_conn _ _ _ _ _ _ _ _ HT i l Hi) as (conn & Hc & Hs).
  rewrite wp_bind. apply (wp_load _ _ conn); [done|]. rewrite wp_bind. apply (wp_deref _ _ _ _ Hs).
  rewrite wp_bind. apply wp_gets. cbv beta. destruct (trans_find_by_id _ _ st) as [p|] eqn:Hp; [|by split].
  apply trans_find_Some in Hp as (lp & Hlp & _ & Hid).
  assert (p <> i) as Hpi by (intros ->; congruence).
  rewrite wp_bind. apply (wp_trans_same p lp); [done..|]. intros st1 Hs1.
  destruct (ok_lsame _ _ _ Hs1 (conj HT Hq)) as [HT1 Hq1].
  apply (wp_trans_free [] p lp k); [done..|by rewrite (lsame_lk _ _ Hs1)|]. intros st2 HT2 Hq2 E _ _ _.
  split; [by split|]. by rewrite E, lookup_delete_ne, (lsame_lk _ _ Hs1).
Qed.

Lemma wp_rcv_sms c conn msg k st :
  ok k st -> conns st !! c = Some conn -> wp (gsm0411_rcv_sms c msg) (fun _ => ok k) st.
Proof.
  intros [HT Hq] Hc. unfold gsm0411_rcv_sms. rewrite wp_bind. apply (wp_load _ _ conn); [done|].
  destruct (c_subscr conn) as [s|] eqn:Hs; [|by split]. cbv zeta. set (tid := _ .^ 0x8).
  rewrite wp_bind. apply wp_gets. cbv beta. rewrite wp_bind.
  match goal with |- wp _ (fun b => wp (@?K b) ?R) st => set (kont := K) end.
  assert (forall st1 i l, ok k st1 -> lk st1 !! i = Some l -> l_conn l = c -> l_id l = tid ->
            wp (kont (Some i)) (fun _ => ok k) st1) as Hk.
  { intros st1 i l Hok1 Hi Hcl Htid. unfold kont. cbv beta iota.
    destruct (cp_mt_of (rd msg 1)) as [[]|].
    - rewrite wp_bind. apply (wp_trans_get i l); [done|]. intros t Ht _.
      assert (forall st2, ok k st2 -> lk st2 !! i = Some l ->
                wp (trans_upd i (fun t => t <| cp_state := GSM411_CPS_MM_ESTABLISHED |>);;
                    gsm411_tx_cp_ack i;; gsm411_rx_cp_data i (drop 2 msg)) (fun _ => ok k) st2) as Hrest.
      { intros st2 Hok2 Hi2. rewrite wp_bind. apply (wp_trans_same i l); [done..|]. intros st3 Hs3.
        pose proof (ok_lsame _ _ _ Hs3 Hok2) as [HT3 Hq3]. assert (lk st3 !! i = Some l) as Hi3 by by rewrite (lsame_lk _ _ Hs3).
        unfold gsm411_tx_cp_ack. rewrite !wp_bind. apply (wp_cp_sendmsg [] _ i l); [done..|]. intros rc st4 Hs4.
        assert (lk st4 !! i = Some l) as Hi4 by by rewrite (lsame_lk _ _ Hs4).
        pose proof (ok_lsame _ _ _ Hs4 (conj HT3 Hq3)) as Hok4.
        rewrite wp_bind. apply (wp_trans_get i l); [done|]. intros t4 _ _. rewrite wp_bind, wp_when.
        destruct (is_mt t4).
        + apply (wp_trans_same i l); [done..|]. intros st5 Hs5. rewrite wp_ret.
          apply (wp_rx_cp_data i l); [by eapply ok_lsame|by rewrite (lsame_lk _ _ Hs5)].
        + rewrite wp_ret. by apply (wp_rx_cp_data i l). }
      rewrite wp_bind. destruct (bool_decide _); [|by apply Hrest].
      apply (sms_wp_for_each (fun _ st => ok k st /\ lk st !! i = Some l)); [done| |].
      + intros j _ st2 [Hok2 Hi2]. rewrite <- Hcl, <- Htid. by apply wp_implicit_ack.
      + intros st2 [Hok2 Hi2]. by apply Hrest.
    - rewrite wp_bind. apply (wp_trans_same i l); [done..|]. intros st2 Hs2.
      assert (lk st2 !! i = Some l) as Hi2 by by rewrite (lsame_lk _ _ Hs2).
      pose proof (ok_lsame _ _ _ Hs2 Hok1) as Hok2.
      rewrite wp_bind. apply (wp_trans_get i l); [done|]. intros t2 _ _. rewrite wp_bind, wp_when.
      destruct (negb _); [|done]. by apply (wp_mono _ _ _ _ (wp_cp_end i l k st2 Hok2 Hi2)).
    - rewrite wp_bind. apply (wp_trans_same i l); [done..|]. intros st2 Hs2. rewrite wp_bind.
      assert (lk st2 !! i = Some l) as Hi2 by by rewrite (lsame_lk _ _ Hs2).
      by apply (wp_mono _ _ _ _ (wp_cp_end i l k st2 (ok_lsame _ _ _ Hs2 Hok1) Hi2)).
    - unfold gsm411_tx_cp_error. rewrite wp_bind. apply (wp_cp_sendmsg [] _ i l); [apply Hok1|done|]. intros rc st2 Hs2.
      rewrite wp_bind. assert (lk st2 !! i = Some l) as Hi2 by by rewrite (lsame_lk _ _ Hs2).
      by apply (wp_mono _ _ _ _ (wp_cp_end i l k st2 (ok_lsame _ _ _ Hs2 Hok1) Hi2)). }
  destruct (trans_find_by_id s tid st) as [i|] eqn:Hf.
  - rewrite wp_ret. apply trans_find_Some in Hf as (l & Hi & Hls & Hlid). apply (Hk st i l); [by split|done| |done].
    destruct (tw_conn _ _ _ _ _ _ _ _ HT i l Hi) as (conn' & Hc' & Hs'). subst s.
    by apply (tw_subscr _ _ _ _ _ _ _ _ HT _ _ _ _ (l_subscr l) Hc' Hc).
  - unfold next_callref, trans_alloc. wp_steps. destruct trans_alloc_ok; cbn [negb]; [|by rewrite wp_ret].
    unfold subscr_get, new_id. wp_steps.
    set (t := mk_sms_trans tid s (new_callref st) c 3 false GSM411_CPS_IDLE None GSM411_RPS_IDLE None).
    eapply (Hk _ _ (links t)); [split|..|done|done].
    + exact (T_new_trans [] st t conn Hc Hs HT).
    + eapply (Qu_next k st); [done|cbn; lia|done].
    + unfold lk. cbn. rewrite fmap_insert. apply lookup_insert_eq.
Qed.

(** ** The other operations *)

Hypothesis db_get : forall n i m, db_sms_get n i = Some m -> sms_id m = i /\ is_Some (sender m) /\ is_Some (receiver m).

(** The entries whose turn is still to come. *)
Definition awaits (k : Z) (l : list nat) (st : sms_state) : Prop :=
  ok k st /\ NoDup l /\ forall x, x ∈ l -> is_Some (pendings (sms_queue st) !! x).

Lemma wp_resend_one k x l st : awaits k (x :: l) st -> wp (resend_one x) (fun _ => awaits k l) st.
Proof.
  intros ([HT Hq] & Hnd & Hin). apply NoDup_cons in Hnd as [Hx Hnd].
  destruct (Hin x ltac:(by apply elem_of_cons; left)) as [e He].
  assert (forall y, y ∈ l -> is_Some (pendings (sms_queue st) !! y) /\ y <> x) as Hl.
  { intros y Hy. split; [apply Hin, elem_of_cons; by right|by intros ->]. }
  unfold resend_one. rewrite wp_bind. apply (wp_load (fun st => pendings (sms_queue st)) _ e); [done|].
  destruct (resend e); cbn [negb].
  2:{ split; [by split|]. split; [done|]. intros y Hy. by apply Hl. }
  unfold ask. wp_steps. set (st0 := st <| questions ::= S |>). apply wp_sms_from.
  - apply (wp_leave x e k); [done..|]. intros st1 Hs. split; [split; [by eapply qstep_T|by eapply qstep_Qu]|].
    split; [done|]. intros y Hy. destruct (Hl y Hy) as [[ey Hey] Hne]. destruct Hs as (q & r & -> & _ & Hf). exists ey.
    by apply Hf.
  - intros m r Hm. destruct (db_get _ _ _ Hm) as (Hid & Hsm & [rc Hrc]). set (st1 := _ <| smss ::= _ |>).
    rewrite wp_bind. apply (wp_pending_upd _ e); [done|]. set (st2 := st1 <| sms_queue ::= _ |>).
    assert (smss st2 !! next_id st0 = Some m) as Hm2 by (cbn; by rewrite lookup_insert_eq).
    assert (pendings (sms_queue st2) !! x = Some (e <| resend := false |>)) as He2 by (cbn; by rewrite lookup_alter_eq, He).
    assert (Qu k st2) as Hq2.
    { eapply (Qu_same k st0); [|done]. by apply (qwf_alter k (sms_queue st)). }
    assert (T [next_id st0] st2) as HT2 by exact (T_new_sms [] st0 m r HT).
    rewrite wp_bind. apply (wp_load _ _ m _ _ Hm2). rewrite wp_bind. apply (wp_deref _ _ _ _ Hrc). rewrite wp_bind.
    apply (wp_send_sms_subscr [] _ _ m k); [done..|]. intros rc' st3 HT3 Hq3 [_ _ _ Hg]. rewrite wp_ret.
    split; [by split|]. split; [done|]. intros y Hy. destruct (Hl y Hy) as [[ey Hey] Hne].
    assert (pendings (sms_queue st2) !! y = Some ey) as Hy2 by (cbn; by rewrite lookup_alter_ne).
    exists ey. apply Hg; [done|]. intros Heq. apply Hne.
    apply (qw_sms _ _ _ Hq2 y x ey _ Hy2 He2). cbn. by rewrite Heq.
Qed.

Lemma wp_resend_pending k st : ok k st -> wp sms_resend_pending (fun _ => ok k) st.
Proof.
  intros [HT Hq]. unfold sms_resend_pending, queue_upd. wp_steps. set (st0 := st <| sms_queue ::= _ |>).
  assert (Qu k st0) as Hq0 by by eapply qwf_same; cycle 3.
  apply (sms_wp_for_each (awaits k)).
  - split; [done|]. split; [apply (qw_list _ _ _ Hq0)|]. intros x Hx. by apply (qw_iff _ _ _ Hq0).
  - intros x l st1. apply wp_resend_one.
  - by intros st' [? _].
Qed.

Lemma wp_submit k st : ok k st -> wp sms_submit_pending (fun _ => ok k) st.
Proof. intros [HT Hq]. apply (wp_submit_pending [] k); [done..|]. intros. by split. Qed.
Lemma wp_push k st : ok k st -> wp push_queue_expired (fun _ => ok k) st.
Proof.
  intros [HT Hq]. unfold push_queue_expired, queue_upd. wp_steps. apply wp_submit. split; [done|]. by eapply qwf_same; cycle 3.
Qed.

Lemma wp_ready k s st : ok k st -> wp (sub_ready_for_sm s) (fun _ => ok k) st.
Proof.
  intros [HT Hq]. unfold sub_ready_for_sm. rewrite wp_bind. apply wp_gets. cbv beta.
  destruct (sms_subscriber_find_pending s st) as [p|] eqn:Hp.
  - apply find_pending_Some in Hp as (e & He & _). wp_steps. apply (wp_pending_upd _ e); [done|]. wp_steps.
    split; [done|]. by apply qwf_alter.
  - rewrite wp_bind. apply wp_gets. cbv beta. destruct (connection_for_subscr s st) as [c|] eqn:Hf; [|by split].
    unfold connection_for_subscr in Hf. apply find_some in Hf as [_ Hf].
    destruct (conns st !! c) as [conn|] eqn:Hc; [|done]. apply bool_decide_eq_true in Hf.
    unfold ask. wp_steps. apply wp_sms_from; [by split|]. intros m r Hm. set (st0 := st <| questions ::= S |>).
    set (st1 := _ <| smss ::= _ |>). rewrite wp_bind.
    apply (wp_send_sms [] c conn s (next_id st0) m k); [| |done|done| |by eapply db_for_subscr|].
    + exact (T_new_sms [] st0 m r HT).
    + eapply (Qu_next k st0); [done| |done]. unfold st1. cbn. lia.
    + unfold st1. cbn. by rewrite lookup_insert_eq.
    + intros rc st' ? ? _. wp_steps. by split.
Qed.

Lemma wp_timer i l k st : ok k st -> lk st !! i = Some l -> wp (cp_timer_expired i) (fun _ => ok k) st.
Proof.
  intros Hok Hi. unfold cp_timer_expired. rewrite wp_bind. apply (wp_trans_same i l); [done..|]. intros st1 Hs.
  destruct (ok_lsame _ _ _ Hs Hok) as [HT1 Hq1].
  apply (wp_trans_free [] i l k); [done..|by rewrite (lsame_lk _ _ Hs)|]. intros st2 ? ? _ _ _ _. by split.
Qed.

Lemma wp_paging_ends s event co k st : ok k st ->
  (event = RES_0 -> exists c conn s', co = Some c /\ conns st !! c = Some conn /\ c_subscr conn = Some s') ->
  wp (paging_ends s event co) (fun _ => ok k) st.
Proof.
  intros [HT Hq] Hev. unfold paging_ends. rewrite wp_bind. apply wp_gets. cbv beta.
  destruct (list_find _ (requests st)) as [[i [s' x]]|] eqn:Hf; [|by split].
  apply list_find_Some in Hf as (Hi & _ & _). wp_steps.
  assert (T [x] (st <| requests ::= delete i |>)) as HT1 by exact (twf_del_req i s' x Hi HT).
  destruct (T_held [x] _ x HT1 ltac:(by apply elem_of_cons; left)) as [m Hm].
  assert (is_Some (sender m)) as Hsm.
  { apply (tw_sender _ _ _ _ _ _ _ _ HT s' x); [by eapply list_elem_of_lookup_2|done]. }
  apply (wp_paging_cb [] event co x m k); [done..|]. intros rc st1 HT2 Hq2 _. wp_steps. rewrite wp_when.
  unfold subscr_put. destruct event; wp_steps; by split.
Qed.

(** The transactions whose turn is still to come. *)
Definition lasts (k : Z) (l : list nat) (st : sms_state) : Prop :=
  ok k st /\ NoDup l /\ forall x, x ∈ l -> is_Some (lk st !! x).

Lemma lasts_deleted k x l st st' : lasts k (x :: l) st -> ok k st' -> lk st' = delete x (lk st) -> lasts k l st'.
Proof.
  intros (_ & Hnd & Hin) Hok E. apply NoDup_cons in Hnd as [Hx Hnd]. split; [done|]. split; [done|].
  intros y Hy. rewrite E, lookup_delete_ne by (by intros ->). apply Hin, elem_of_cons. by right.
Qed.
Lemma lasts_skip k x l st : lasts k (x :: l) st -> lasts k l st.
Proof.
  intros (Hok & Hnd & Hin). apply NoDup_cons in Hnd as [_ Hnd]. split; [done|]. split; [done|].
  intros y Hy. apply Hin, elem_of_cons. by right.
Qed.

(** A transaction of another protocol on the connection has something where the message is looked for. *)
Definition confused (c : nat) (st : sms_state) : bool := existsb (fun x => bool_decide (fst x = c) && snd x) (cc_transs st).

Lemma wp_sapi_reject c conn s k st : ok k st -> conns st !! c = Some conn -> c_subscr conn = Some s ->
  confused c st = false -> wp (gsm411_sapi_n_reject c) (fun _ => ok k) st.
Proof.
  intros [HT Hq] Hc Hs Hcf. unfold gsm411_sapi_n_reject. rewrite wp_bind. apply (wp_load _ _ conn); [done|].
  rewrite wp_bind. apply (wp_deref _ _ _ _ Hs). unfold subscr_get, subscr_put. wp_steps.
  unfold confused in Hcf. cbn [cc_transs upd upd_refs] in Hcf |- *. rewrite Hcf. wp_steps.
  apply (sms_wp_for_each (lasts k)).
  - split; [by split|]. split; [apply (tw_tl _ _ _ _ _ _ _ _ HT)|]. intros x Hx. by apply (tw_tl_iff _ _ _ _ _ _ _ _ HT).
  - intros x l st1 Hl. pose proof Hl as ([HT1 Hq1] & _ & Hin).
    destruct (Hin x ltac:(by apply elem_of_cons; left)) as [lx Hx]. rewrite wp_bind.
    apply (wp_trans_get x lx); [done|]. intros t Ht Hlx. destruct (bool_decide _); [|by eapply lasts_skip].
    destruct (t_sms t) as [m|] eqn:Hm; [|by eapply lasts_skip].
    assert (l_sms lx = Some m) as Hlm by by rewrite <- Hlx.
    destruct (tw_sms _ _ _ _ _ _ _ _ HT1 x lx m Hx Hlm) as [[ms Hms] _].
    rewrite wp_bind. apply (wp_send_error m _ ms k); [done..|]. intros st2 Hs2.
    assert (lk st2 = lk st1) as E2 by by destruct Hs2 as (q & r & -> & _).
    apply (wp_drop_sms_then [] x lx m); [by eapply qstep_T|by rewrite E2|done|]. intros st3 HT3 F1 _ _ _ F5 F6.
    assert (Qu k st3) as Hq3 by (unfold Qu; rewrite F5, F6; by eapply qstep_Qu).
    apply (wp_trans_free [] x (unsms lx) k); [done..|by rewrite F1, lookup_insert_eq|]. intros st4 HT4 Hq4 G1 _ _ _.
    apply (lasts_deleted k x l st1); [done|by split|]. by rewrite G1, F1, E2, delete_insert_eq.
  - intros st1 (? & _). by wp_steps.
Qed.
Lemma sapi_reject_fault c conn s st : conns st !! c = Some conn -> c_subscr conn = Some s ->
  confused c st = true -> gsm411_sapi_n_reject c st = None.
Proof.
  intros Hc Hs Hcf. unfold gsm411_sapi_n_reject, conn_get, load, deref, subscr_get. unfold mbind, M_bind, gets, modify.
  rewrite Hc. cbn. rewrite Hs. cbn. unfold confused in Hcf. by rewrite Hcf.
Qed.

Lemma wp_conn_upd c conn f (Q : unit -> sms_state -> Prop) st :
  conns st !! c = Some conn -> Q tt (st <| conns ::= alter f c |>) -> wp (conn_upd c f) Q st.
Proof. intros Hc HQ. unfold conn_upd. wp_steps. by apply (wp_load _ _ conn). Qed.

Lemma next_none fl st : T fl st -> transs st !! next_id st = None.
Proof. intros HT. pose proof (tw_none_lm _ HT (Nat.le_refl _)) as H. unfold lk in H. rewrite lookup_fmap in H. by apply fmap_None in H. Qed.

Lemma wp_connection_lost c conn k st : ok k st -> conns st !! c = Some conn -> wp (connection_lost c) (fun _ => ok k) st.
Proof.
  intros [HT Hq] Hc. unfold connection_lost. rewrite wp_bind. apply (wp_conn_upd c conn); [done|]. wp_steps.
  set (st0 := st <| conns ::= _ |>).
  assert (T [] st0) as HT0 by by apply (twf_alter_conn c).
  apply (sms_wp_for_each (fun l st => lasts k l st /\ (exists conn, conns st !! c = Some conn /\ c_busy conn = true) /\
                        forall j lj, lk st !! j = Some lj -> l_conn lj = c -> j ∈ l)).
  - split; [|split].
    + split; [by split|]. split; [apply (tw_tl _ _ _ _ _ _ _ _ HT)|]. intros x Hx. by apply (tw_tl_iff _ _ _ _ _ _ _ _ HT).
    + eexists. unfold st0. cbn. rewrite lookup_alter_eq, Hc. done.
    + intros j lj Hj _. apply (tw_tl_iff _ _ _ _ _ _ _ _ HT). by eexists.
  - intros x l st1 (Hl & (c1 & Hc1 & Hb1) & Hall). pose proof Hl as ([HT1 Hq1] & Hnd & Hin).
    destruct (Hin x ltac:(by apply elem_of_cons; left)) as [lx Hx]. rewrite wp_bind.
    apply (wp_trans_get x lx); [done|]. intros t Ht Hlx. destruct (bool_decide_reflect (t_conn t = c)) as [Htc|Htc].
    + apply (wp_trans_free [] x lx k); [done..|]. intros st2 HT2 Hq2 G1 _ _ G4. split; [|split].
      * by apply (lasts_deleted k x l st1).
      * exists c1. split; [apply G4; auto|done].
      * intros j lj. rewrite G1, lookup_delete_Some. intros [Hne Hj] Hlj. pose proof (Hall j lj Hj Hlj) as Hor.
        apply elem_of_cons in Hor as [?|]; [congruence|done].
    + rewrite wp_ret. split; [by eapply lasts_skip|]. split; [by exists c1|]. intros j lj Hj Hlj.
      pose proof (Hall j lj Hj Hlj) as Hor. apply elem_of_cons in Hor as [->|]; [|done].
      exfalso. apply Htc. rewrite Hx in Hj. injection Hj as <-. by rewrite <- Hlx in Hlj.
  - intros st1 (((HT1 & Hq1) & _) & (c1 & Hc1 & _) & Hall). wp_steps. set (st2 := st1 <| cc_transs ::= _ |>).
    apply (wp_con_free [] (next_id st1) c c1); [|done| |].
    + apply T_del_none; [exact (next_none [] st1 HT1)|exact HT1].
    + intros j lj. rewrite lk_del, lookup_delete_Some. intros [_ Hj] Hlj. by apply Hall, elem_of_nil in Hj.
    + intros r st' HT'. split; [|done]. revert HT'. unfold T at 1. rewrite lk_del, delete_id; [done|].
      by apply (tw_none_lm (next_id st1) HT1).
Qed.

Lemma wp_idle c conn k st : ok k st -> conns st !! c = Some conn ->
  wp (conn_upd c (fun conn => conn <| c_busy := false |>);; msc_release_connection c) (fun _ => ok k) st.
Proof.
  intros [HT Hq] Hc. rewrite wp_bind. apply (wp_conn_upd c conn); [done|]. set (st0 := st <| conns ::= _ |>).
  assert (T [] st0) as HT0 by by apply (twf_alter_conn c).
  apply (wp_release [] (next_id st) k c (conn <| c_busy := false |>)); [|done|by unfold st0; cbn; rewrite lookup_alter_eq, Hc|].
  - apply T_del_none; [by apply (next_none [] st)|done].
  - intros st1 HT1 Hq1 E1 _ _ _. split; [|done]. revert HT1. unfold T at 1. rewrite lk_del, delete_id; [done|].
    unfold lk. rewrite E1. by apply (tw_none_lm (next_id st) HT).
Qed.

Lemma wp_new_connection s put k st : ok k st ->
  (forall c conn u, s = Some u -> conns st !! c = Some conn -> c_subscr conn <> Some u) -> (put = true -> is_Some s) ->
  wp (new_connection s put) (fun _ => ok k) st.
Proof.
  intros [HT Hq] Hs Hput. unfold new_connection, new_id. wp_steps. apply wp_get_opt. intros r. wp_steps. split.
  - by apply (twf_new_conn s put).
  - eapply (Qu_next k st); [done|cbn; lia|done].
Qed.

(** ** The operator *)

Lemma wp_queue_upd_ok f k st : ok k st ->
  (forall q, pendings (f q) = pendings q /\ pending_sms (f q) = pending_sms q /\ pending (f q) = pending q) ->
  wp (queue_upd f) (fun _ => ok k) st.
Proof.
  intros [HT Hq] Hf. unfold queue_upd. wp_steps. split; [done|]. destruct (Hf (sms_queue st)) as (E1 & E2 & E3).
  exact (qwf_same k _ _ _ E1 E2 E3 Hq).
Qed.

Lemma wp_send_text r str pid k st : ok k st -> sms_alloc_ok = true -> (forall n, is_Some (subscr_by_id n 1)) ->
  wp (_send_sms_str r str pid) (fun _ => ok k) st.
Proof.
  intros [HT Hq] Halloc Hop. unfold _send_sms_str, sms_from_text. rewrite Halloc. cbn [negb]. unfold ask. wp_steps.
  destruct (Hop (questions st)) as [op Eop]. destruct (gsm_7bit_encode _) as [len ud]. wp_steps.
  apply wp_sms_new. intros r0. wp_steps. apply (wp_deref _ _ _ _ eq_refl). wp_steps.
  set (st0 := st <| questions ::= S |>). set (m := mk_gsm_sms _ _ _ _ _ _ _ _ _ _ _ _ _).
  set (st1 := _ <| smss ::= alter _ _ |>).
  assert (T [next_id st0] st1) as HT1.
  { apply (twf_alter_sms (next_id st0)); [done|]. exact (T_new_sms [] st0 m r0 HT). }
  assert (Qu k st1) as Hq1 by (eapply (Qu_next k st0); [done|unfold st1; cbn; lia|done]).
  assert (smss st1 !! next_id st0 = Some (m <| protocol_id := pid |>)) as Hm by by (unfold st1; cbn; rewrite lookup_alter_eq, lookup_insert_eq).
  clearbody st1. apply (wp_load _ _ _ _ _ Hm). rewrite wp_bind. apply (wp_deref _ op); [done|]. wp_steps.
  apply (wp_sms_free (next_id st0) (m <| protocol_id := pid |>)); [done|]. intros r1. rewrite wp_when.
  assert (T [] (st1 <| questions ::= S |> <| refs := r1 |> <| smss ::= delete (next_id st0) |>)) as HT2
    by exact (T_free_sms [] st1 (next_id st0) r1 HT1).
  destruct (_ =? _); [|by split]. unfold sms_queue_trigger. by apply wp_queue_upd_ok.
Qed.

Lemma wp_clear st : ok 0 st -> wp sms_queue_clear (fun _ => ok 0) st.
Proof.
  intros [HT Hq]. unfold sms_queue_clear. rewrite wp_bind. apply wp_gets. cbv beta. rewrite wp_bind.
  apply (sms_wp_for_each (fun l st => T [] st /\ (exists k, Qu k st) /\ NoDup l /\ pending_sms (sms_queue st) = l)).
  - split; [done|]. split; [by exists 0|]. split; [apply (qw_list _ _ _ Hq)|done].
  - intros x l st1 (HT1 & [k Hq1] & Hnd & El). destruct (proj1 (qw_iff _ _ _ Hq1 x)) as [e He]; [rewrite El; by apply elem_of_cons; left|].
    unfold sms_pending_free. wp_steps. apply (wp_load (fun st => pendings (sms_queue st)) _ e); [done|].
    unfold subscr_put, queue_upd. wp_steps. split; [done|]. split.
    + exists (k - 1). apply qwf_free; [by eexists|exact Hq1].
    + apply NoDup_cons in Hnd as [Hx Hnd]. split; [done|]. cbn. rewrite El. unfold unlink.
      rewrite filter_cons_False by auto. apply list_filter_id, Forall_forall. intros y Hy ->. done.
  - intros st1 (HT1 & [k [H1 H2 H3 H4 H5 H6]] & _ & El). unfold queue_upd. wp_steps. split; [done|].
    split; cbn; try done. by rewrite El.
Qed.

End ops.
End SmsSafe.
