(* ===== verification/SmsRefs.v ===== *)
(** Every reference to a subscriber that short messages hold belongs to something that exists: a connection, a
    transaction, a message, an entry of the queue or a channel request. *)

From S2P Require Import Prelude Msc Gsm0340 Sms.
Import Gsm0340 Sms.
Import Msc(unlink).

Module SmsRefs.

(** ** Sums over a store *)

Definition msum {A} (f : A -> Z) (m : gmap nat A) : Z := map_fold (fun _ a z => f a + z) 0 m.

Lemma msum_insert {A} (f : A -> Z) m i a : m !! i = None -> msum f (<[i := a]> m) = f a + msum f m.
Proof. intros Hi. unfold msum. rewrite map_fold_insert_L; [done| |done]. intros. lia. Qed.
Lemma msum_delete {A} (f : A -> Z) m i a : m !! i = Some a -> msum f (delete i m) = msum f m - f a.
Proof. intros Hi. rewrite <- (insert_delete_id m i a Hi) at 2. rewrite msum_insert by apply lookup_delete_eq. lia. Qed.
Lemma msum_alter {A} (f : A -> Z) m i a g : m !! i = Some a -> msum f (alter g i m) = msum f m - f a + f (g a).
Proof.
  intros Hi. rewrite <- (insert_delete_id m i a Hi) at 1. rewrite alter_insert_eq, msum_insert by apply lookup_delete_eq.
  rewrite (msum_delete f m i a Hi). lia.
Qed.
Lemma msum_alter_same {A} (f : A -> Z) m i g : (forall a, f (g a) = f a) -> msum f (alter g i m) = msum f m.
Proof.
  intros Hg. destruct (m !! i) as [a|] eqn:Hi; [rewrite (msum_alter f m i a g Hi), Hg; lia|].
  by rewrite alter_id by (intros ? H; congruence).
Qed.

Definition lsum {A} (f : A -> Z) (l : list A) : Z := foldr (fun a z => f a + z) 0 l.
Lemma lsum_app {A} (f : A -> Z) l k : lsum f (l ++ k) = lsum f l + lsum f k.
Proof. induction l as [|a l IH]; [done|]. cbn [app]. unfold lsum in *. cbn [foldr]. rewrite IH. lia. Qed.
Lemma lsum_delete {A} (f : A -> Z) l i a : l !! i = Some a -> lsum f (delete i l) = lsum f l - f a.
Proof.
  revert i. induction l as [|b l IH]; intros [|i] Hi; try done; cbn in *; [injection Hi as ->; lia|].
  change (foldr (fun a z => f a + z) 0 (delete i l)) with (lsum f (delete i l)). rewrite (IH i Hi). unfold lsum. lia.
Qed.

Arguments msum : simpl never.
Arguments lsum : simpl never.

(** ** Who holds references *)

Definition one (b : bool) : Z := if b then 1 else 0.
Definition is_opt (s : nat) (o : option nat) : Z := one (bool_decide (o = Some s)).
Definition is_sub (s u : nat) : Z := one (bool_decide (u = s)).

Definition by_sms (s : nat) (m : gsm_sms) : Z := is_opt s (sender m) + is_opt s (receiver m).
Definition holders (s : nat) (st : sms_state) : Z :=
  msum (fun c => is_opt s (c_subscr c)) (conns st) + msum (fun t => is_sub s (t_subscr t)) (transs st)
  + msum (by_sms s) (smss st) + msum (fun e => is_sub s (p_subscr e)) (pendings (sms_queue st))
  + lsum (fun x => is_sub s (fst x)) (requests st).

Definition fresh (st : sms_state) : Prop :=
  forall i, (next_id st <= i)%nat ->
    conns st !! i = None /\ transs st !! i = None /\ smss st !! i = None /\ pendings (sms_queue st) !! i = None.

(** [d]: references that the function that runs holds itself. *)
Definition D (d : nat -> Z) (st : sms_state) : Prop := fresh st /\ forall s, refs st s = holders s st + d s.

Definition plus (u : nat) (d : nat -> Z) : nat -> Z := fun s => d s + is_sub s u.
Definition plus_opt (o : option nat) (d : nat -> Z) : nat -> Z := fun s => d s + is_opt s o.

Lemma is_opt_Some s u : is_opt s (Some u) = is_sub s u.
Proof. unfold is_opt, is_sub. f_equal. apply bool_decide_ext. split; congruence. Qed.
Lemma is_opt_None s : is_opt s None = 0.
Proof. done. Qed.
Lemma ref_add_spec n u r s : ref_add n u r s = r s + n * is_sub s u.
Proof. unfold ref_add, is_sub. case_decide; case_bool_decide; cbn; congruence || lia. Qed.

Section refs.
Context {env : SmsEnv}.
Implicit Types d : nat -> Z.

Lemma D_ext d d' st : (forall s, d s = d' s) -> D d st -> D d' st.
Proof. intros E [Hf Hr]. split; [done|]. intros s. by rewrite <- E. Qed.

Lemma keeps_and {A} (I J : sms_state -> Prop) (m : M sms_state sms_event A) :
  keeps I m -> keeps J m -> keeps (fun st => I st /\ J st) m.
Proof.
  intros HI HJ st [H1 H2]. specialize (HI st H1). specialize (HJ st H2). unfold wlp in *.
  destruct (m st) as [[[a st'] ev]|]; done.
Qed.
Lemma sms_keeps_deref {A} (P : sms_state -> Prop) (o : option A) : keeps P (deref o : M sms_state sms_event A).
Proof. destruct o; [apply keeps_ret|apply keeps_fault]. Qed.
Lemma sms_keeps_load {A} (P : sms_state -> Prop) (f : sms_state -> gmap nat A) i : keeps P (load f i).
Proof. apply keeps_bind; [apply keeps_gets|]. intros. apply sms_keeps_deref. Qed.
Lemma keeps_when (P : sms_state -> Prop) b (m : M sms_state sms_event unit) : keeps P m -> keeps P (when b m).
Proof. intros H. destruct b; [exact H|apply keeps_ret]. Qed.

(** ** What holds a reference *)

Lemma fresh_none st i : fresh st -> (next_id st <= i)%nat ->
  conns st !! i = None /\ transs st !! i = None /\ smss st !! i = None /\ pendings (sms_queue st) !! i = None.
Proof. auto. Qed.

Lemma keeps_sms_new d m : hoare (D d) (sms_new m) (fun x st => D d st /\ smss st !! x = Some m).
Proof.
  intros st [Hf Hr]. destruct (Hf _ (Nat.le_refl _)) as (_ & _ & Hn & _).
  assert (forall r, (forall s, r s = refs st s + by_sms s m) ->
    let st' := st <| next_id ::= S |> <| refs := r |> <| smss ::= <[next_id st := m]> |> in
    D d st' /\ smss st' !! next_id st = Some m) as Hgoal.
  { intros r Er st'. split; [split|unfold st'; cbn; by rewrite lookup_insert_eq].
    - intros i Hi. unfold st' in *. cbn in *. destruct (Hf i ltac:(lia)) as (? & ? & ? & ?).
      rewrite lookup_insert_ne by lia. done.
    - intros s. unfold st', holders. cbn. rewrite Er, Hr, msum_insert by done. unfold holders. lia. }
  unfold wlp, sms_new, new_id, mbind, M_bind, gets, modify.
  unfold by_sms in Hgoal. destruct (sender m) as [u|], (receiver m) as [v|]; cbn; apply Hgoal; intros s; cbn;
    rewrite ?ref_add_spec, ?is_opt_Some, ?is_opt_None; first [lia|unfold refs; lia].
Qed.

Lemma keeps_sms_free d x : keeps (D d) (sms_free x).
Proof.
  intros st [Hf Hr]. unfold wlp, sms_free, sms_get, load, deref, mbind, M_bind, gets, modify.
  destruct (smss st !! x) as [m|] eqn:Hx; [|done].
  assert (forall r, (forall s, r s = refs st s - by_sms s m) -> D d (st <| refs := r |> <| smss ::= delete x |>)) as Hgoal.
  { intros r Er. split.
    - intros i Hi. cbn in *. destruct (Hf i Hi) as (? & ? & ? & ?). repeat split; try done. by rewrite lookup_delete_None; right.
    - intros s. unfold holders. cbn. rewrite Er, Hr, (msum_delete (by_sms s) _ _ _ Hx). unfold holders. lia. }
  unfold by_sms in Hgoal. cbn. destruct (sender m) as [u|], (receiver m) as [v|]; cbn; apply Hgoal; intros s; cbn;
    rewrite ?ref_add_spec, ?is_opt_Some, ?is_opt_None; first [lia|unfold refs; lia].
Qed.

Lemma keeps_pending_from d m : keeps (D d) (sms_pending_from m).
Proof.
  unfold sms_pending_from. destruct (negb pending_alloc_ok); [apply keeps_ret|].
  apply keeps_bind; [apply sms_keeps_deref|]. intros u st [Hf Hr]. destruct (Hf _ (Nat.le_refl _)) as (_ & _ & _ & Hn).
  unfold wlp, subscr_get, new_id, queue_upd, mbind, M_bind, gets, modify. cbn. split.
  - intros i Hi. cbn in *. destruct (Hf i ltac:(lia)) as (? & ? & ? & ?). rewrite lookup_insert_ne by lia. done.
  - intros s. unfold holders. cbn. rewrite ref_add_spec, Hr, msum_insert by done. unfold holders. cbn. lia.
Qed.
Lemma keeps_pending_free d i : keeps (D d) (sms_pending_free i).
Proof.
  intros st [Hf Hr]. unfold wlp, sms_pending_free, pending_get, load, deref, subscr_put, queue_upd, mbind, M_bind, gets, modify.
  destruct (pendings (sms_queue st) !! i) as [e|] eqn:Hi; [|done]. cbn. split.
  - intros j Hj. cbn in *. destruct (Hf j Hj) as (? & ? & ? & ?). repeat split; try done. by rewrite lookup_delete_None; right.
  - intros s. unfold holders. cbn. rewrite ref_add_spec, Hr, (msum_delete _ _ _ _ Hi). unfold holders. lia.
Qed.

Lemma keeps_trans_alloc d s tid ref c mt x : keeps (D d) (trans_alloc s tid ref c mt x).
Proof.
  unfold trans_alloc. destruct (negb trans_alloc_ok); [apply keeps_ret|].
  intros st [Hf Hr]. destruct (Hf _ (Nat.le_refl _)) as (_ & Hn & _ & _).
  unfold wlp, subscr_get, new_id, mbind, M_bind, gets, modify, mret, M_ret. cbn. split.
  - intros i Hi. cbn in *. destruct (Hf i ltac:(lia)) as (? & ? & ? & ?). rewrite lookup_insert_ne by lia. done.
  - intros u. unfold holders. cbn. rewrite ref_add_spec, Hr, msum_insert by done. unfold holders. cbn. lia.
Qed.

Lemma keeps_con_free d c : keeps (D d) (subscr_con_free c).
Proof.
  intros st [Hf Hr]. unfold wlp, subscr_con_free, conn_get, load, deref, mbind, M_bind, gets, modify.
  destruct (conns st !! c) as [k|] eqn:Hc; [|done].
  assert (forall r, (forall s, r s = refs st s - is_opt s (c_subscr k)) ->
            D d (st <| refs := r |> <| conns ::= delete c |> <| conn_list ::= unlink c |>)) as Hgoal.
  { intros r Er. split.
    - intros i Hi. cbn in *. destruct (Hf i Hi) as (? & ? & ? & ?). repeat split; try done. by rewrite lookup_delete_None; right.
    - intros s. unfold holders. cbn. rewrite Er, Hr, (msum_delete (fun c => is_opt s (c_subscr c)) _ _ _ Hc). unfold holders. lia. }
  cbn. destruct (c_subscr k) as [u|]; cbn; apply Hgoal; intros s; cbn; rewrite ?ref_add_spec, ?is_opt_Some, ?is_opt_None; first [lia|unfold refs; lia].
Qed.
Lemma keeps_new_connection d o put : keeps (D d) (new_connection o put).
Proof.
  intros st [Hf Hr]. destruct (Hf _ (Nat.le_refl _)) as (Hn & _ & _ & _).
  assert (forall r, (forall s, r s = refs st s + is_opt s o) ->
    D d (st <| refs := r |> <| next_id ::= S |> <| conns ::= <[next_id st := mk_sms_conn o false put]> |>
            <| conn_list ::= fun l => l ++ [next_id st] |>)) as Hgoal.
  { intros r Er. split.
    - intros i Hi. cbn in *. destruct (Hf i ltac:(lia)) as (? & ? & ? & ?). rewrite lookup_insert_ne by lia. done.
    - intros s. unfold holders. cbn. rewrite Er, Hr, msum_insert by done. unfold holders. cbn. lia. }
  unfold wlp, new_connection, new_id, mbind, M_bind, gets, modify.
  destruct o as [u|]; cbn; apply Hgoal; intros s; cbn; rewrite ?ref_add_spec, ?is_opt_Some, ?is_opt_None; first [lia|unfold refs; lia].
Qed.

Lemma get_holds d s : hoare (D d) (subscr_get s) (fun _ => D (plus s d)).
Proof. intros st [Hf Hr]. split; [done|]. intros u. cbn. rewrite ref_add_spec, Hr. unfold plus, holders. cbn. lia. Qed.
Lemma put_releases d s : hoare (D (plus s d)) (subscr_put s) (fun _ => D d).
Proof. intros st [Hf Hr]. split; [done|]. intros u. cbn. rewrite ref_add_spec, Hr. unfold plus, holders. cbn. lia. Qed.

(** ** Steps that change no holder *)

Lemma keeps_queue_upd d f : (forall q, pendings (f q) = pendings q) -> keeps (D d) (queue_upd f).
Proof.
  intros Hf. apply keeps_modify. intros st [H Hr]. split.
  - intros i Hi. cbn. rewrite Hf. by apply H.
  - intros s. unfold holders. cbn. rewrite Hf. apply Hr.
Qed.
Lemma alter_none {A} (f : A -> A) i (m : gmap nat A) j : m !! j = None -> alter f i m !! j = None.
Proof. intros Hj. rewrite lookup_alter. case_decide; [subst; by rewrite Hj|done]. Qed.
Lemma keeps_trans_upd d i f : (forall t, t_subscr (f t) = t_subscr t) -> keeps (D d) (trans_upd i f).
Proof.
  intros Hf. apply keeps_bind; [apply sms_keeps_load|]. intros _. apply keeps_modify. intros st [H Hr]. split.
  - intros j Hj. cbn in *. destruct (H j Hj) as (? & ? & ? & ?). repeat split; try done. by apply alter_none.
  - intros s. unfold holders. cbn. rewrite msum_alter_same by (intros t; by rewrite Hf). apply Hr.
Qed.
Lemma keeps_pending_upd d i f : (forall e, p_subscr (f e) = p_subscr e) -> keeps (D d) (pending_upd i f).
Proof.
  intros Hf. apply keeps_bind; [apply sms_keeps_load|]. intros _. apply keeps_modify. intros st [H Hr]. split.
  - intros j Hj. cbn in *. destruct (H j Hj) as (? & ? & ? & ?). repeat split; try done. by apply alter_none.
  - intros s. unfold holders. cbn. rewrite (msum_alter_same (fun e => is_sub s (p_subscr e))) by (intros t; by rewrite Hf). apply Hr.
Qed.
Lemma keeps_conn_upd d c f : (forall k, c_subscr (f k) = c_subscr k) -> keeps (D d) (conn_upd c f).
Proof.
  intros Hf. apply keeps_bind; [apply sms_keeps_load|]. intros _. apply keeps_modify. intros st [H Hr]. split.
  - intros j Hj. cbn in *. destruct (H j Hj) as (? & ? & ? & ?). repeat split; try done. by apply alter_none.
  - intros s. unfold holders. cbn. rewrite (msum_alter_same (fun c => is_opt s (c_subscr c))) by (intros t; by rewrite Hf). apply Hr.
Qed.
Lemma keeps_ask {A} d (f : nat -> A) : keeps (D d) (ask f).
Proof. apply keeps_bind; [apply keeps_gets|]. intros n. apply keeps_bind; [|intros; apply keeps_ret]. by apply keeps_modify. Qed.
Lemma keeps_new d m : keeps (D d) (sms_new m).
Proof. refine (hoare_mono _ _ _ _ _ (keeps_sms_new d m) _ _); [done|]. by intros x st [? _]. Qed.
Lemma sms_keeps_for_each d f l : (forall x, keeps (D d) (f x)) -> keeps (D d) (for_each f l).
Proof. intros Hf. induction l as [|x l IH]; cbn [for_each]; [apply keeps_ret|]. apply keeps_bind; [apply Hf|]. by intros []. Qed.

#[local] Hint Resolve sms_keeps_deref sms_keeps_load keeps_sms_free keeps_pending_from keeps_pending_free keeps_trans_alloc
  keeps_con_free keeps_new_connection keeps_ask keeps_new : keeps.
#[local] Hint Extern 1 (keeps _ (queue_upd _)) => apply keeps_queue_upd; done : keeps.
#[local] Hint Extern 1 (keeps _ (trans_upd _ _)) => apply keeps_trans_upd; done : keeps.
#[local] Hint Extern 1 (keeps _ (pending_upd _ _)) => apply keeps_pending_upd; done : keeps.
#[local] Hint Extern 1 (keeps _ (conn_upd _ _)) => apply keeps_conn_upd; done : keeps.
#[local] Hint Extern 1 (keeps _ (modify _)) => apply keeps_modify; intros ? H; exact H : keeps.
#[local] Hint Extern 1 (keeps _ (when _ _)) => apply keeps_when : keeps.
#[local] Hint Extern 1 (keeps _ (trans_get _)) => apply sms_keeps_load : keeps.
#[local] Hint Extern 1 (keeps _ (conn_get _)) => apply sms_keeps_load : keeps.
#[local] Hint Extern 1 (keeps _ (sms_get _)) => apply sms_keeps_load : keeps.
#[local] Hint Extern 1 (keeps _ (pending_get _)) => apply sms_keeps_load : keeps.
#[local] Hint Extern 1 (keeps _ sms_queue_trigger) => apply keeps_queue_upd; done : keeps.

(** ** The operations *)

Lemma keeps_sms_from d o : keeps (D d) (sms_from o).
Proof. unfold sms_from. keeps_tac. Qed.
#[local] Hint Resolve keeps_sms_from : keeps.

Lemma keeps_signal d submit sig x res : keeps (D d) submit -> keeps (D d) (send_signal_to submit sig x res).
Proof. intros Hs. unfold send_signal_to, sms_sms_cb, pending_done, sms_pending_failed, sms_pending_resend. keeps_tac. Qed.
Lemma keeps_send_error d x res : keeps (D d) (send_error x res).
Proof. apply keeps_signal. apply keeps_fault. Qed.
#[local] Hint Resolve keeps_send_error : keeps.

Lemma keeps_release d c : keeps (D d) (msc_release_connection c).
Proof. unfold msc_release_connection. keeps_tac. Qed.
Lemma release_transs i t c : keeps (fun st => transs st !! i = Some t) (msc_release_connection c).
Proof. unfold msc_release_connection, subscr_con_free, put_opt, subscr_put. keeps_tac; apply sms_keeps_load. Qed.
Lemma hoare_trans_get {A} (P : sms_state -> Prop) i (k : sms_trans -> M sms_state sms_event A) Q :
  (forall t, hoare (fun st => P st /\ transs st !! i = Some t) (k t) Q) -> hoare P (trans_get i ≫= k) Q.
Proof.
  intros Hk. apply (hoare_bind _ _ _ (fun t st => P st /\ transs st !! i = Some t)); [|done].
  intros st HP. unfold wlp, trans_get, load, deref, mbind, M_bind, gets.
  destruct (transs st !! i) as [t|] eqn:Ht; [|done]. done.
Qed.
Lemma keeps_sms_trans_free d i : keeps (D d) (_gsm411_sms_trans_free i).
Proof. unfold _gsm411_sms_trans_free. keeps_tac. Qed.

Lemma keeps_trans_free d i : keeps (D d) (trans_free i).
Proof.
  unfold trans_free. apply keeps_bind; [apply keeps_sms_trans_free|]. intros _. apply hoare_trans_get. intros t.
  set (d1 := fun s => d s - is_sub s (t_subscr t)).
  set (P := fun st => D d1 st /\ transs st !! i = Some t).
  apply (hoare_bind _ _ _ (fun _ => P)).
  { intros st [[Hf Hr] Ht]. split; [|done]. split; [done|]. intros s. unfold d1. cbn. rewrite ref_add_spec, Hr. unfold holders. cbn. lia. }
  intros _. apply (hoare_bind _ _ _ (fun _ => P)); [by apply hoare_modify|].
  intros _. apply (hoare_bind _ _ _ (fun _ => P)); [apply keeps_and; [apply keeps_release|apply release_transs]|].
  intros _. apply hoare_modify. intros st [[Hf Hr] Ht]. split.
  - intros j Hj. cbn in *. destruct (Hf j Hj) as (? & ? & ? & ?). repeat split; try done. by rewrite lookup_delete_None; right.
  - intros s. unfold holders. cbn. rewrite Hr. rewrite (msum_delete (fun t => is_sub s (t_subscr t)) _ i t) by done.
    unfold holders, d1. lia.
Qed.
#[local] Hint Resolve keeps_release keeps_trans_free : keeps.

Lemma keeps_cp_sendmsg d data i mt : keeps (D d) (gsm411_cp_sendmsg data i mt).
Proof. unfold gsm411_cp_sendmsg, gsm411_sendmsg. keeps_tac. Qed.
#[local] Hint Resolve keeps_cp_sendmsg : keeps.
Lemma keeps_rp_sendmsg d data i mt ref : keeps (D d) (gsm411_rp_sendmsg data i mt ref).
Proof. apply keeps_cp_sendmsg. Qed.
#[local] Hint Resolve keeps_rp_sendmsg : keeps.
Lemma keeps_rp_error d i ref cause : keeps (D d) (gsm411_send_rp_error i ref cause).
Proof. apply keeps_rp_sendmsg. Qed.
Lemma keeps_rp_ack d i ref : keeps (D d) (gsm411_send_rp_ack i ref).
Proof. apply keeps_rp_sendmsg. Qed.
#[local] Hint Resolve keeps_rp_error keeps_rp_ack : keeps.

Lemma keeps_send_sms d c x : keeps (D d) (gsm411_send_sms c x).
Proof. unfold gsm411_send_sms, next_callref. keeps_tac. Qed.
#[local] Hint Resolve keeps_send_sms : keeps.
Lemma keeps_paging_cb d ev co x : keeps (D d) (paging_cb_send_sms ev co x).
Proof. unfold paging_cb_send_sms. keeps_tac. Qed.
#[local] Hint Resolve keeps_paging_cb : keeps.
Lemma keeps_get_channel d s x : keeps (D d) (subscr_get_channel s x).
Proof.
  unfold subscr_get_channel. apply keeps_bind; [apply keeps_ask|]. intros [[]|]; [keeps_tac..|].
  apply (hoare_bind _ _ _ (fun _ => D (plus s d))); [apply get_holds|]. intros _.
  apply (hoare_bind _ _ _ (fun _ => D d)); [|intros; apply keeps_emit]. apply hoare_modify. intros st [Hf Hr]. split; [done|].
  intros u. unfold holders. cbn. rewrite Hr, lsum_app. unfold holders, plus, lsum at 3. cbn. lia.
Qed.
#[local] Hint Resolve keeps_get_channel : keeps.
Lemma keeps_send_sms_subscr d s x : keeps (D d) (gsm411_send_sms_subscr s x).
Proof. unfold gsm411_send_sms_subscr. keeps_tac. Qed.
#[local] Hint Resolve keeps_send_sms_subscr : keeps.

Lemma keeps_submit_one d x m r : keeps (D d) (submit_one x m r).
Proof.
  unfold submit_one. apply keeps_bind; [apply keeps_gets|]. intros [p|]; (apply keeps_bind; [apply keeps_gets|]; intros [b|]); keeps_tac.
Qed.
#[local] Hint Resolve keeps_submit_one : keeps.
Lemma keeps_submit d : keeps (D d) sms_submit_pending.
Proof.
  unfold sms_submit_pending. apply keeps_bind; [apply keeps_gets|]. intros q. generalize 1000%nat as n. intros n.
  generalize (max_pending q - pending q) 0 (@None Z). induction n as [|n IH]; intros a b o; cbn [submit_loop]; [apply keeps_ret|].
  unfold take_next_sms. keeps_tac.
Qed.
#[local] Hint Resolve keeps_submit : keeps.

Lemma keeps_send_signal d sig x res : keeps (D d) (send_signal sig x res).
Proof. apply keeps_signal, keeps_submit. Qed.
#[local] Hint Resolve keeps_send_signal : keeps.

Lemma keeps_resend d : keeps (D d) sms_resend_pending.
Proof.
  unfold sms_resend_pending. apply keeps_bind; [auto with keeps|]. intros _. apply keeps_bind; [apply keeps_gets|]. intros l.
  apply sms_keeps_for_each. intros x. unfold resend_one. keeps_tac.
Qed.
Lemma keeps_push d : keeps (D d) push_queue_expired.
Proof. unfold push_queue_expired. keeps_tac. Qed.
Lemma keeps_ready d s : keeps (D d) (sub_ready_for_sm s).
Proof. unfold sub_ready_for_sm. keeps_tac. Qed.

Lemma keeps_rx_submit d x : keeps (D d) (gsm340_rx_sms_submit x).
Proof. unfold gsm340_rx_sms_submit. keeps_tac. Qed.
#[local] Hint Resolve keeps_rx_submit : keeps.

Lemma parse_no_receiver now data mti m : parse_tpdu now data = inr (mti, m) -> receiver m = None.
Proof.
  unfold parse_tpdu. cbv zeta. destruct (_ <? _); [done|]. destruct (gsm338_get_sms_alphabet _); [|done].
  destruct (if _ =? _ then _ else _); [|done]. by intros [= _ <-].
Qed.

(** The dialled subscriber is referred to by the message. *)
Lemma keeps_rx_tpdu d c data : keeps (D d) (gsm340_rx_tpdu c data).
Proof.
  unfold gsm340_rx_tpdu. apply keeps_bind; [auto with keeps|]. intros conn.
  destruct (negb sms_alloc_ok); [apply keeps_ret|]. apply keeps_bind; [apply keeps_ask|]. intros now.
  destruct (parse_tpdu now data) as [cause|[mti m]] eqn:Hm; [apply keeps_ret|]. apply parse_no_receiver in Hm.
  set (m' := m <| sender := c_subscr conn |>). assert (receiver m' = None) as Hr' by exact Hm. clearbody m'.
  apply (hoare_bind _ _ _ (fun x st => D d st /\ smss st !! x = Some m')); [apply keeps_sms_new|]. intros x.
  set (P := fun st => D d st /\ smss st !! x = Some m').
  apply (hoare_bind _ _ _ (fun _ => P)).
  { apply keeps_and; [apply keeps_send_signal|]. unfold send_signal, send_signal_to, sms_sms_cb, sms_queue_trigger, queue_upd. keeps_tac. }
  intros _. apply (hoare_bind _ _ _ (fun _ => P)).
  { apply keeps_and; [apply keeps_ask|]. unfold ask. keeps_tac. }
  intros r. apply (hoare_bind _ _ _ (fun _ st => D (plus_opt r d) st /\ smss st !! x = Some m')).
  { intros st [[Hf Hr] Hx]. destruct r as [u|]; cbn; (split; [|done]); (split; [done|]); intros s; unfold plus_opt; cbn;
      rewrite ?ref_add_spec, ?is_opt_Some, ?is_opt_None; rewrite Hr; unfold holders; cbn; lia. }
  intros _. apply (hoare_bind _ _ _ (fun _ => D d)).
  { apply hoare_modify. intros st [[Hf Hr] Hx]. split.
    - intros j Hj. cbn in *. destruct (Hf j Hj) as (? & ? & ? & ?). repeat split; try done. by apply alter_none.
    - intros s. unfold holders. cbn. rewrite Hr, (msum_alter (by_sms s) _ x m' _ Hx). unfold holders, plus_opt, by_sms. cbn.
      rewrite Hr', is_opt_None. lia. }
  intros _. apply keeps_bind; [|intros; keeps_tac].
  destruct (bool_decide _); [apply keeps_ret|]. destruct (mti_submit mti); [apply keeps_rx_submit|apply keeps_ret].
Qed.
#[local] Hint Resolve keeps_rx_tpdu : keeps.

Lemma keeps_next_message d i : keeps (D d) (next_message i).
Proof. unfold next_message, gsm411_release_conn. keeps_tac. Qed.
#[local] Hint Resolve keeps_next_message : keeps.

Lemma keeps_rx_cp_data d i rp : keeps (D d) (gsm411_rx_cp_data i rp).
Proof.
  unfold gsm411_rx_cp_data, gsm411_rx_rp_ack, gsm411_rx_rp_error, gsm411_rx_rp_smma, gsm411_rx_rp_data, gsm411_rx_rp_ud. keeps_tac.
Qed.
#[local] Hint Resolve keeps_rx_cp_data : keeps.
Lemma keeps_implicit_ack d c tid j : keeps (D d) (implicit_ack c tid j).
Proof. unfold implicit_ack. keeps_tac. Qed.
Lemma keeps_cp_end d i : keeps (D d) (cp_end i).
Proof. unfold cp_end. keeps_tac. Qed.
Lemma keeps_implicit_acks d c tid l : keeps (D d) (for_each (implicit_ack c tid) l).
Proof. apply sms_keeps_for_each, keeps_implicit_ack. Qed.
#[local] Hint Resolve keeps_implicit_acks keeps_cp_end : keeps.
Lemma keeps_rcv_sms d c msg : keeps (D d) (gsm0411_rcv_sms c msg).
Proof. unfold gsm0411_rcv_sms, gsm411_tx_cp_ack, gsm411_tx_cp_error, next_callref. keeps_tac. Qed.

Lemma keeps_sapi_reject d c : keeps (D d) (gsm411_sapi_n_reject c).
Proof.
  unfold gsm411_sapi_n_reject. apply keeps_bind; [auto with keeps|]. intros conn.
  apply keeps_bind; [auto with keeps|]. intros s.
  apply (hoare_bind _ _ _ (fun _ => D (plus s d))); [apply get_holds|]. intros _.
  apply (hoare_bind _ _ _ (fun _ => D (plus s d))); [apply keeps_gets|]. intros cc.
  apply (hoare_bind _ _ _ (fun _ => D (plus s d))); [destruct (existsb _ cc); [apply keeps_fault|apply keeps_ret]|]. intros _.
  apply (hoare_bind _ _ _ (fun _ => D (plus s d))); [apply keeps_gets|]. intros l.
  apply (hoare_bind _ _ _ (fun _ => D (plus s d))); [apply sms_keeps_for_each; intros x; keeps_tac|]. intros _.
  apply (hoare_bind _ _ _ (fun _ => D (plus s d))); [apply keeps_emit|]. intros _. apply put_releases.
Qed.

Lemma keeps_connection_lost d c : keeps (D d) (connection_lost c).
Proof.
  unfold connection_lost. apply keeps_bind; [auto with keeps|]. intros _. apply keeps_bind; [apply keeps_gets|]. intros l.
  apply keeps_bind; [apply sms_keeps_for_each; intros x; keeps_tac|]. intros _. keeps_tac.
Qed.

Lemma keeps_paging_ends d s ev co : keeps (D d) (paging_ends s ev co).
Proof.
  unfold paging_ends. intros st HD. rewrite wlp_bind. unfold wlp at 1, gets.
  destruct (list_find _ (requests st)) as [[i [s' x]]|] eqn:Hf; [|exact HD].
  apply list_find_Some in Hf as (Hi & Hs' & _). cbn in Hs'. subst s'. rewrite wlp_bind. unfold wlp at 1, modify.
  set (st1 := st <| requests ::= _ |>). assert (D (plus s d) st1) as HD1.
  { destruct HD as [Hfr Hr]. split; [done|]. intros u. unfold holders, plus. cbn.
    rewrite Hr, (lsum_delete _ _ _ _ Hi). unfold holders. cbn. lia. }
  clearbody st1. revert st1 HD1. change (hoare (D (plus s d)) (paging_cb_send_sms ev co x;;
    when (match ev with RES_0 => false | _ => true end) (emit (SMS_PUT_CHANNEL s));; subscr_put s) (fun _ => D d)).
  apply (hoare_bind _ _ _ (fun _ => D (plus s d))); [apply keeps_paging_cb|]. intros _.
  apply (hoare_bind _ _ _ (fun _ => D (plus s d))); [apply keeps_when, keeps_emit|]. intros _. apply put_releases.
Qed.

Lemma keeps_sms_upd d x f : (forall m, sender (f m) = sender m /\ receiver (f m) = receiver m) ->
  keeps (D d) (modify (fun st => st <| smss ::= alter f x |>) : M sms_state sms_event unit).
Proof.
  intros Hf. apply keeps_modify. intros st [H Hr]. split.
  - intros j Hj. cbn in *. destruct (H j Hj) as (? & ? & ? & ?). repeat split; try done. by apply alter_none.
  - intros s. unfold holders. cbn.
    rewrite (msum_alter_same (by_sms s)) by (intros m; unfold by_sms; destruct (Hf m) as [-> ->]; done). apply Hr.
Qed.
Lemma keeps_text d r str pid : keeps (D d) (_send_sms_str r str pid).
Proof.
  unfold _send_sms_str, sms_from_text. apply keeps_bind; [keeps_tac|]. intros o. apply keeps_bind; [apply sms_keeps_deref|]. intros x.
  apply keeps_bind; [by apply keeps_sms_upd|]. intros _. keeps_tac.
Qed.

Lemma keeps_run_op d op : keeps (D d) (run_op op).
Proof.
  destruct op; cbn [run_op]; try (apply keeps_bind; [|intros; apply keeps_ret]);
    [apply keeps_rcv_sms|unfold cp_timer_expired; keeps_tac|apply keeps_sapi_reject|apply keeps_paging_ends|apply keeps_resend
    |apply keeps_push|apply keeps_ready|apply keeps_new_connection|apply keeps_connection_lost|auto with keeps
    |keeps_tac|auto with keeps|apply keeps_text|apply keeps_queue_upd; done|apply keeps_queue_upd; done|].
  unfold sms_queue_clear. apply keeps_bind; [apply keeps_gets|]. intros l.
  apply keeps_bind; [apply sms_keeps_for_each; intros x; apply keeps_pending_free|]. intros _. apply keeps_queue_upd. done.
Qed.
Lemma keeps_start d max : hoare (fun st => D d st /\ pendings (sms_queue st) = ∅) (sms_queue_start max) (fun _ => D d).
Proof.
  unfold sms_queue_start, queue_upd. apply (hoare_bind _ _ _ (fun _ => D d)); [|intros; apply keeps_submit].
  apply hoare_modify. intros st [[Hf Hr] Hp]. split.
  - intros i Hi. cbn. destruct (Hf i Hi) as (? & ? & ? & ?). done.
  - intros s. unfold holders. cbn. rewrite Hr. unfold holders. by rewrite Hp.
Qed.
Lemma empty_D : D (fun _ => 0) sms_empty.
Proof. split; [intros i _; cbn; by rewrite !lookup_empty|]. intros s. done. Qed.

End refs.
End SmsRefs.
