(* ===== verification/SmsProps.v ===== *)
(** Theorems about the short message service: what can happen to it, that it stays well-formed and without
    access to freed memory, that no reference to a subscriber is lost, and where its queue exceeds its size. *)

From S2P Require Import Prelude Msc Gsm0340 Gsm0340Props Sms SmsInv SmsSafe SmsRefs.
Import Gsm0340 Sms SmsInv SmsSafe SmsRefs.

Module SmsProps.

(** What the service relies on: memory for messages to mobiles, extensions that fit into an address, and a
    database whose messages have their subscribers. *)
Record sms_env_ok (env : SmsEnv) : Prop := {
  ok_msgb : msgb_ok = true;
  ok_extension : forall s, is_Some (encode_bcd (extension s));
  ok_by_subscr : forall n s m, db_sms_get_unsent_by_subscr n s = Some m -> is_Some (sender m) /\ is_Some (receiver m);
  ok_for_subscr : forall n s m, db_sms_get_unsent_for_subscr n s = Some m -> is_Some (sender m);
  ok_get : forall n i m, db_sms_get n i = Some m -> sms_id m = i /\ is_Some (sender m) /\ is_Some (receiver m)
}.

Section props.
Context {env : SmsEnv}.

(** When an operation can happen: connections and transactions exist, a timer runs, paging ends on a connection
    with a subscriber, a subscriber gets no second connection, and the operator sends texts when there is memory
    and the subscriber 1, who is their sender. *)
Definition allowed (op : sms_op) (st : sms_state) : Prop :=
  match op with
  | OpRcv c _ | OpConnectionLost c | OpBusy c | OpIdle c => is_Some (conns st !! c)
  | OpTimer i => exists t, transs st !! i = Some t /\ is_Some (cp_timer t)
  | OpSapiReject c => exists conn, conns st !! c = Some conn /\ is_Some (c_subscr conn)
  | OpPaging _ event co =>
      event = RES_0 -> exists c conn, co = Some c /\ conns st !! c = Some conn /\ is_Some (c_subscr conn)
  | OpNewConnection s put =>
      (forall c conn u, s = Some u -> conns st !! c = Some conn -> c_subscr conn <> Some u) /\ (put = true -> is_Some s)
  | OpText _ _ _ => sms_alloc_ok = true /\ forall n, is_Some (subscr_by_id n 1)
  | OpResendPending | OpPushQueue | OpAttached _ | OpCalls _ | OpMaxPending _ | OpMaxFailure _ | OpClear => True
  end.

Inductive reachable : sms_state -> Prop :=
| reach_start max st ev : sms_queue_start max sms_empty = Some (tt, st, ev) -> reachable st
| reach_op op st st' ev : reachable st -> allowed op st -> run_op op st = Some (tt, st', ev) -> reachable st'.

Definition fails (op : sms_op) (st : sms_state) : Prop := exists c, op = OpSapiReject c /\ confused c st = true.

Lemma wp_run_op op st : sms_env_ok env -> ok 0 st -> allowed op st -> ~ fails op st -> wp (run_op op) (fun _ => ok 0) st.
Proof.
  intros [H1 H2 H3 H4 H5] Hok Hop Hf. destruct op as [c msg|i|c|s event co| | |s|s put|c|c|c|l|s str pid|n|n|]; cbn in Hop |- *.
  - destruct Hop as [conn Hc]. wp_steps. by eapply wp_rcv_sms.
  - destruct Hop as (t & Ht & _). eapply wp_timer; [done..|by apply lk_lookup].
  - destruct Hop as (conn & Hc & [s Hs]). eapply wp_sapi_reject; [done..|].
    destruct (confused c st) eqn:E; [|done]. exfalso. apply Hf. by exists c.
  - eapply wp_paging_ends; [done..|]. intros Hev. destruct (Hop Hev) as (c & conn & ? & ? & [s' ?]). by exists c, conn, s'.
  - by eapply wp_resend_pending.
  - by eapply wp_push.
  - wp_steps. by eapply wp_ready.
  - destruct Hop. by eapply wp_new_connection.
  - destruct Hop as [conn Hc]. by eapply wp_connection_lost.
  - destruct Hop as [conn Hc]. apply (wp_conn_upd c conn); [done|]. destruct Hok as [HT Hq]. split; [|done].
    by apply (twf_alter_conn c).
  - destruct Hop as [conn Hc]. by eapply wp_idle.
  - done.
  - destruct Hop. by eapply wp_send_text.
  - by eapply wp_queue_upd_ok.
  - by eapply wp_queue_upd_ok.
  - by eapply wp_clear.
Qed.

Lemma empty_ok : ok 0 sms_empty.
Proof.
  split.
  - assert (lk sms_empty = ∅) as E by by vm_compute. unfold T. rewrite E. cbn.
    split; try apply NoDup_nil_2; cbn; intros ?; rewrite ?lookup_empty; try done.
    + split; [by intros ?%elem_of_nil|by intros []].
    + split; [by intros ?%elem_of_nil|by intros []].
    + intros [[]|[[]|[]]]; done.
    + by intros ?%elem_of_nil.
  - split; cbn; try done; try apply NoDup_nil_2.
    + intros i. rewrite lookup_empty. split; [by intros ?%elem_of_nil|by intros []].
    + intros i. rewrite lookup_empty. by intros [].
Qed.

Lemma wp_start max : sms_env_ok env -> wp (sms_queue_start max) (fun _ => ok 0) sms_empty.
Proof.
  intros [H1 H2 H3 H4 H5]. unfold sms_queue_start, queue_upd. wp_steps. eapply wp_submit; [done..|].
  destruct empty_ok as [HT Hq]. split; [done|]. by eapply qwf_same; cycle 3.
Qed.

Lemma wp_none {A} (m : M sms_state sms_event A) Q st : m st = None -> wp m Q st = False.
Proof. unfold wp. by intros ->. Qed.
Lemma fails_fault op st : allowed op st -> fails op st -> run_op op st = None.
Proof. intros Hop (c & -> & Hc). destruct Hop as (conn & Hconn & [s Hs]). by apply (sapi_reject_fault c conn s). Qed.

Lemma fails_dec op st : fails op st \/ ~ fails op st.
Proof.
  destruct op as [| |c| | | | | | | | | | | | |]; try (right; by intros (? & ? & _)).
  destruct (confused c st) eqn:Hc; [left; by exists c|]. right. intros (c' & [= <-] & ?). congruence.
Qed.

Lemma run_op_ok op st : sms_env_ok env -> ok 0 st -> allowed op st ->
  (run_op op st = None <-> fails op st) /\ forall st' ev, run_op op st = Some (tt, st', ev) -> ok 0 st'.
Proof.
  intros He Hok Hop. split; [split|].
  - intros Hnone. destruct (fails_dec op st) as [Hf|Hf]; [done|]. exfalso.
    pose proof (wp_run_op op st He Hok Hop Hf) as H. by rewrite (wp_none _ _ _ Hnone) in H.
  - by apply fails_fault.
  - intros st' ev Hrun. assert (~ fails op st) as Hf by (intros Hf; apply fails_fault in Hf; [congruence|done]).
    pose proof (wp_run_op op st He Hok Hop Hf) as H. by apply (wp_run _ _ _ _ _ _ Hrun) in H.
Qed.

Lemma reachable_ok st : sms_env_ok env -> reachable st -> ok 0 st.
Proof.
  intros He. induction 1 as [max st ev Hrun|op st st' ev _ IH Hop Hrun].
  - pose proof (wp_start max He) as H. by apply (wp_run _ _ _ _ _ _ Hrun) in H.
  - by apply (run_op_ok op st He IH Hop) in Hrun.
Qed.

(** C22: safety of the short message service: from the start of the queue on, whatever messages, time-outs, pagings,
    attachments and connections come in any order, an operation follows no pointer to nothing and to nothing
    freed, but for one case exactly: SAPI 3 is rejected on a connection where a transaction of another
    protocol has data in the memory that is taken for a short message's. And always every message in memory
    belongs to one transaction or one channel request, every transaction has its subscriber's connection,
    the queue has at most one entry for a subscriber and for a message, and its counter is their number. *)
Theorem sms_safe : sms_env_ok env ->
  (forall max, sms_queue_start max sms_empty <> None) /\
  forall st, reachable st -> ok 0 st /\
    forall op, allowed op st -> run_op op st = None <-> exists c, op = OpSapiReject c /\ confused c st = true.
Proof.
  intros He. split; [|intros st Hst; pose proof (reachable_ok st He Hst) as Hok; split; [done|]].
  - intros max Hnone. pose proof (wp_start max He) as H. by rewrite (wp_none _ _ _ Hnone) in H.
  - intros op Hop. apply (run_op_ok op st He Hok Hop).
Qed.

(** C23: the references to subscribers: after any history of the service the references taken and not given back
    on each subscriber are exactly those of the connections, transactions, messages, queue entries and channel
    requests that exist, so none is lost and none is given back twice. *)
Theorem references_accounted st : reachable st -> forall s, refs st s = holders s st.
Proof.
  intros Hst. assert (D (fun _ => 0) st) as [_ HD]; [|intros s; rewrite HD; lia].
  induction Hst as [max st ev Hrun|op st st' ev _ IH _ Hrun].
  - refine (wlp_run _ _ _ _ _ _ (keeps_start (fun _ => 0) max sms_empty _) Hrun). split; [apply empty_D|done].
  - exact (wlp_run _ _ _ _ _ _ (keeps_run_op (fun _ => 0) op st IH) Hrun).
Qed.

End props.
(** ** A small network: the subscribers 1 and 2 have a message each from the other *)

Definition msg1 (i : Z) (from to : nat) : gsm_sms :=
  mk_gsm_sms i (Some from) (Some to) 0 0 0 0 0 0 [] 5 [0xc8; 0x32; 0x9b; 0xfd; 0x06] [].

#[local] Instance env1 : SmsEnv := {|
  cal := Gsm0340Props.cal1; GSM48_PDISC_SMS := 9;
  cp_mt_octet := fun m => match m with GSM411_MT_CP_DATA => 1 | GSM411_MT_CP_ACK => 4 | GSM411_MT_CP_ERROR => 0x10 end;
  cp_mt_of := fun x => if x =? 1 then Some GSM411_MT_CP_DATA else if x =? 4 then Some GSM411_MT_CP_ACK
                       else if x =? 0x10 then Some GSM411_MT_CP_ERROR else None;
  rp_mt_octet := fun m => match m with GSM411_MT_RP_DATA_MT => 1 | GSM411_MT_RP_ACK_MT => 3 | _ => 0 end;
  rp_mt_of := fun x => if x =? 0 then Some GSM411_MT_RP_DATA_MO else if x =? 2 then Some GSM411_MT_RP_ACK_MO
                       else if x =? 4 then Some GSM411_MT_RP_ERROR_MO else if x =? 6 then Some GSM411_MT_RP_SMMA_MO else None;
  rp_cause_octet := fun _ => 97; GSM411_CP_CAUSE_MSGTYPE_NOTEXIST := 97; GSM411_TMR_TC1A := (30, 0);
  mti_submit := fun x => x =? 1; msgb_tv_put := fun t v => [t; v];
  msgb_ok := true; trans_alloc_ok := true; sms_alloc_ok := true; pending_alloc_ok := true;
  subscr_dbid := Z.of_nat; extension := fun s => [Z.of_nat s]; subscr_by_id := fun _ _ => Some 1%nat; gsm_7bit_encode := fun l => (Z.of_nat (length l), l);
  clock := fun _ => 0; by_extension := fun _ _ => Some 2%nat; db_sms_store_rc := fun _ => 0;
  db_sms_get := fun _ i => Some (msg1 i 2 1);
  db_sms_get_unsent_by_subscr := fun _ s => if s <=? 1 then Some (msg1 11 2 1) else if s <=? 2 then Some (msg1 12 1 2) else None;
  db_sms_get_unsent_for_subscr := fun _ _ => None;
  get_channel := fun _ _ => None; dtap_rc := fun _ => 0 |}.

Lemma env1_ok : sms_env_ok env1.
Proof.
  split; [done|done|..].
  - intros n s m. cbn. destruct (s <=? 1); [intros [= <-]; done|]. destruct (s <=? 2); [intros [= <-]; done|done].
  - done.
  - intros n i m. cbn. intros [= <-]. done.
Qed.

Definition end_of (r : option (unit * sms_state * list sms_event)) : sms_state :=
  match r with Some (_, st, _) => st | None => sms_empty end.
Definition ends (r : option (unit * sms_state * list sms_event)) : bool := match r with Some _ => true | None => false end.
Lemma end_of_spec r : ends r = true -> exists ev, r = Some (tt, end_of r, ev).
Proof. destruct r as [[[[] st] ev]|]; [|done]. intros _. by exists ev. Qed.

Definition started : sms_state := end_of (sms_queue_start 1 sms_empty).
Lemma started_reachable : reachable started.
Proof. destruct (end_of_spec (sms_queue_start 1 sms_empty)) as [ev H]; [by vm_compute|]. exact (reach_start 1 _ _ H). Qed.

Lemma after op st : reachable st -> allowed op st -> ends (run_op op st) = true -> reachable (end_of (run_op op st)).
Proof. intros Hst Hop [ev H]%end_of_spec. exact (reach_op _ _ _ _ Hst Hop H). Qed.

(** The queue sends a message more than it has places for each time it is triggered: with one place, two messages
    are on their way after the second turn. *)
Theorem queue_overrun :
  max_pending (sms_queue started) = 1 /\ pending (sms_queue started) = 1 /\
  let st := end_of (run_op OpPushQueue started) in max_pending (sms_queue st) = 1 /\ pending (sms_queue st) = 2.
Proof. by vm_compute. Qed.

(** A call and a rejected SAPI on the connection of the first subscriber. *)
Definition called : sms_state :=
  end_of (run_op (OpCalls [(next_id started, true)]) (end_of (run_op (OpNewConnection (Some 1%nat) true) started))).
Lemma called_reachable : reachable called.
Proof.
  apply after; [|done|by vm_compute]. apply after; [apply started_reachable| |by vm_compute].
  split; [|by eexists]. intros c conn u _. replace (conns started) with (∅ : gmap nat sms_conn) by by vm_compute.
  by rewrite lookup_empty.
Qed.

Lemma sms_safe_witness :
  ok 0 called /\ allowed (OpSapiReject (next_id started)) called /\ run_op (OpSapiReject (next_id started)) called = None.
Proof.
  destruct (sms_safe env1_ok) as [_ H]. destruct (H called called_reachable) as [Hok Hop].
  assert (allowed (OpSapiReject (next_id started)) called) as Ha.
  { exists (mk_sms_conn (Some 1%nat) false true). split; [by vm_compute|by eexists]. }
  split; [exact Hok|]. split; [exact Ha|]. apply (Hop _ Ha). exists (next_id started). split; [done|by vm_compute].
Defined.

Lemma references_accounted_witness : refs called 1 = holders 1 called /\ holders 1 called = 4.
Proof. split; [apply (references_accounted called called_reachable 1)|by vm_compute]. Defined.

End SmsProps.
